(* ===== verification/_CoqProject ===== *)
-Q . S2P
Prelude.v
Reader.v
GoValue.v
GoFloat.v
CipNames.v
VendorNames.v
FaultTable.v
Errors.v
CipDefs.v
Types.v
Items.v
GoStrings.v
GoStrconv.v
Pack.v
PackProofs.v
LgxTypes.v
Templates.v
TemplatesProofs.v
Ioi.v
TagPath.v
Path.v
Conns.v
Router.v
Messages.v
Server.v
ServerAttr.v
ServerConnected.v
ServerUnconnected.v
ServerReplies.v
ServerData.v
ServerOpen.v
ServerIO.v
Serving.v
IOProvider.v
ServerObjects.v
Client.v
ClientTags.v
Discovery.v
L5x.v
L5xProofs.v
L5xSchema.v
L5xXml.v
L5xXmlProofs.v
MultiRead.v
WriteTags.v
ImplicitSub.v
Identity.v
TagGroup.v
DataTable.v
ClientConn.v
ClientScript.v
ControllerInfo.v
Canned.v
TagSub.v
DiscoveryProofs.v
DataTableProofs.v
MultiReadProofs.v
InstanceRead.v
ClientCalls.v
ServerMulti.v
EndToEnd.v
EndToEndInfo.v
EndToEndList.v
EndToEndInstances.v
EndToEndWrites.v
EndToEndIO.v
EndToEndServing.v
EndToEndStore.v
EndToEndConnect.v
