(* ===== verification/Prelude.v ===== *)
(** * gologix: an EtherNet/IP (CIP) client and server, verified

    gologix speaks the Common Industrial Protocol over TCP: a client that
    reads and writes tags of a controller, and a server that answers such
    requests from tag providers.  This library translates both into
    executable definitions and proves what makes them correct, up to the
    statement that any number of clients of one running server get from
    it what the store behind it would give them directly (EndToEndStore.v),
    clients that join later included (EndToEndConnect.v), tag by tag, in one message, and as a subscription the server feeds by its
    ticks.

    ** How the program is modelled

    A Go string or byte slice is a list of bytes in Z; an integer is a Z kept
    in its width by [wrap] and [swrap] where the code does so.  Code that
    mutates and fails is a computation [M S A := S -> res A * S] (this file):
    the state is threaded through failures too, an error is a value, and a
    run-time panic is a third outcome, so that "no panic" can be stated.
    [zoom] runs a computation on a part of the state, [on] on a local
    variable, [try] is an inspected error, [wrapM] is fmt.Errorf with %w.
    The texts of errors are kept where the code tests them (errors.Is) and
    abbreviated elsewhere.  Logging, deadlines and timers are left out.

    ** The files

    - Prelude: machine integers, little-endian bytes, errors, the monad.
    - Reader: io.Reader and encoding/binary.  The class [Reader] is what a
      decoder needs, [ReaderLaws] its contract; [parses p bs v] (p consumes
      exactly bs and yields v) is the relation all round trips compose from.
    - GoValue, GoFloat: dynamically typed Go values and their types, what
      binary.Write makes of them; conversions of floats by their bits.
    - CipNames, CipDefs: the code tables and the class, instance, attribute
      and element segments (cip_definitions.go, services.go).
    - Types: type codes, sizes, readValue, bit access (types.go).
    - Items: CIPItem, its accessors, item lists and their framing (items.go).
    - GoStrings, GoStrconv: strings, strconv and the regular expressions
      ioi.go uses; the parsers of numbers the import of projects uses.
    - Errors: CIP errors and their texts, joined errors (errors.go).
    - Pack, PackProofs: structs packed field by field, by reflection: bools
      gathered into bytes, alignment, strings, arrays, slices, types that
      pack themselves (class [Methods], law [MethodsLaws]); a checker of
      layouts ([packed_size]) and the round trip for what it accepts.  A
      struct type with methods is identified by its name.  LgxTypes: the
      predefined TIMER, COUNTER, CONTROL, PID and STRING, an instance
      (pack.go, lgxtypes/).
    - Ioi, TagPath: tag paths, the client's IOIs and its cache, the server's
      decoder (ioi.go), and that the two are inverse.
    - Path: textual routes and the path builder (path.go).
    - Conns: the table of open connections with its shared connection
      objects (server_connections.go), refined to a finite map.
    - Router: the endpoint interface as a class with laws, the route table
      and the map-backed tag provider (server_router.go).
    - Messages: the wire structs with encoder and decoder (sendreceive.go,
      server.go, connect.go, messages.go).
    - Server, ServerAttr, ServerConnected, ServerUnconnected: the handler of
      one TCP connection: senders, sessions, forward open and close, I/O
      ticks, identity, connected and unconnected services, dispatch and the
      serve loop (server*.go).
    - ServerReplies, ServerData, ServerOpen, ServerIO, ServerObjects,
      ServerMulti: the theorems about them.
    - Serving: the running server: Serve, its accept and receive loops, every
      connection's handler and every I/O goroutine, interleaved event by event
      over the state they share (server.go).
    - IOProvider: the two providers of I/O connections, with their objects and
      channels, and what the server delivers to them (server_io.go,
      server_iochannel.go).
    - Client, ClientConn: the client's transport and its status machine
      (client.go, connect.go, disconnect.go, sendreceive.go); ClientCalls: what
      every call of its interface leaves of it.
    - ClientTags, ControllerInfo: attribute requests, single reads and writes,
      the properties of the controller (getattr.go, read.go, write.go).
    - WriteTags: structs read and written, WriteMap and WriteMulti
      (read.go, write.go, udt_write.go).
    - VendorNames, Identity: the identity and the services of a device, as the
      client reads them (listidentity.go, listservices.go, device_type.go,
      vendors.go).
    - FaultTable, Canned: the faults of a controller and their descriptions,
      its forces (canned/).
    - Templates, TemplatesProofs: what the controller tells about symbols and
      structure types, and the chunked read of a template; Discovery,
      DiscoveryProofs: the lists of programs, tags and sub-tags, the members
      of structures, the catalog they fill (listalltags.go, listsubtags.go,
      listmembers.go, listallprograms.go), the keepalive's steps (connect.go).
    - ClientScript: the client against a peer given as a script of answers.
    - MultiRead, MultiReadProofs: many tags at once: the choice of the tags
      of a message, the multiple-service request and its reply, fragmented
      rounds; ReadList, ReadMap, ReadMulti (read.go, partialread.go).
    - InstanceRead: reads of tags by their instance (read_instance.go).
    - ImplicitSub: subscriptions to I/O connections: path, forward open,
      receive loop, Stop (implicit_subscribe.go).  TagSub: subscriptions by
      polling, one tag or batches of many (tag_subscribe.go).
    - TagGroup: reusable groups of tags, the names of an array's elements,
      typed results (taggroup.go, taggroup_readmap.go).
    - DataTable, DataTableProofs: buffers of tags in the controller that are
      read at once, with the program's variables their values are stored in
      (datatable.go).
    - L5x, L5xProofs: tags, comments and rungs of an exported project, from
      the structs encoding/xml fills; L5xSchema: the schema, type by type;
      L5xXml, L5xXmlProofs: what encoding/xml decodes by it, which documents it
      refuses, and a tag's value from the document to the map (l5x/).
    - EndToEnd, EndToEndList, EndToEndWrites, EndToEndInfo, EndToEndInstances,
      EndToEndIO: the client against the server: tag by tag, a map of tags read
      or written in one message, its identity, instances, an I/O connection;
      EndToEndServing, EndToEndStore: several clients of one running server, and
      that together they are the endpoint's own store; EndToEndConnect: a new
      client joins them (Connect, the session, the forward open, firmware).

    ** State and steps

    The server's [world] is the handler of one connection with what all
    handlers share (connection table, router, endpoints, attributes), the
    random numbers to come and the I/O goroutines started.  A handler is a
    computation on it and a connection a buffer of bytes to read and a list
    of frames written.  The client's [client_world] is the client with the
    outcomes of the dials and, per socket, of the writes to come: an error or
    the bytes the peer sends.  Every adversarial peer is such a list, so the
    theorems over all of them cover malformed and truncated answers.  The
    whole server is a [system]: the shared state, the handlers with their
    connections and the I/O goroutines; an [event] lets one of them take its
    next step (a handler a message, an I/O goroutine a tick), [run_events] is
    any interleaving of them and [serving] the states it reaches.  The
    goroutines of the client enter as explicit calls: any sequence of client calls
    ([api_step]), the ticks of an I/O goroutine ([io_run]), the datagrams and
    timeouts of a receive loop ([run]), the ticks of a polling loop
    ([tag_run], [multi_run]), the table's operations in any order
    ([table_refines_map]).  A channel is its buffer with what was sent over
    it, or the receivers that wait on it; a pointer that is shared is a
    location of a store (IOProvider).

    ** Fuel

    [serve_loop]: one round per byte of input, since each message takes 24
    ([serve_terminates]).  [tag_path_loop]: a round per unread byte.
    [send_recv_fuel]: 2, since Disconnect is refused while one is under way
    ([send_recv_recursion_ends]).  [next_serial]: 2, since of two consecutive
    numbers one has a non-zero low half.  [read_rounds]: the 1025 rounds
    after which the code gives up itself.  [map_batches] and
    [read_list_batches]: a round per tag ([batches_end]).  [readList]: given
    by the caller, since the code does not end on a tag that is too large.
    [symbol_loop]: a round per byte of the reply.  [member_rounds]: the 1024
    after which the code gives up.  [ListSubTags], [ListAllTags] and
    [ListMembers] recurse as deep as the peer makes them, so their fuel is
    the stack, and a theorem says how much of it an orderly peer needs.
    [GetTypeComments] recurses as deep as types are nested, and
    [LoadTagComments_ends] says that this is enough.  [errors_Is]: the size of
    the tree of errors ([errors_Is_finds]).  [key_batches]: a round per key.

    ** What the theorems show

    End to end: what is written is read back, through both sides' code.
    Server: every request gets exactly one reply of the right frame (forward
    close gets none); reads, writes, multiple-service replies, the symbol
    listing, the custom class and the identity objects answer what is stored;
    forward open and close keep the connection table; the loop ends on every
    input.  However its goroutines interleave, a client gets answers to its own
    messages only, two clients see each other's writes, a new client can
    connect and joins the others, and a connection that has left the table
    sends nothing any more.  Client: between the calls of its interface it is
    disconnected or connected with an open socket whatever the network does;
    failures close the connection; connecting, disconnecting and exchanges do
    not panic.  Subscriptions: with room in its channel the receiver gets the
    values the server offered, in order, and of a polled tag every change.
    Imports: the documents that are decoded are exactly those that fit the
    schema, and every value has the type its declaration names.  Data:
    framing, tag paths, routes, segments and typed values round-trip; bit access, bounds and lengths are exact.

    ** Not modelled

    Listeners, sockets and tickers: what they deliver is an event or an
    input; logging (logger.go forwards to the logging library); deadlines and
    timeouts (a read past what the peer sent fails); writes to a shared object
    from two goroutines at the very same time (a handler takes a message at a
    time).  The splitting of a document into its elements (encoding/xml).
    Example programs and tests.
    The client's KeepAlive goroutine at the same time as other calls: Connect
    counts the goroutines it starts, and their steps are calls of their own. *)
From Stdlib Require Export ZArith Lia Bool.
From Stdlib Require Import Ascii.
From Stdlib Require Import String.
From stdpp Require Export base list gmap strings option.
#[global] Open Scope Z_scope.

(** ** Go strings and byte slices

    A Go [string] and a Go [[]byte] are both sequences of bytes; a byte is a
    [Z] in [0, 256).  [wf_bytes] is the invariant that every element is. *)

Abbreviation bytes := (list Z).

Definition is_byte (b : Z) : Prop := 0 <= b < 256.
Definition wf_bytes (l : bytes) : Prop := Forall is_byte l.

Definition byte_of_ascii (a : ascii) : Z := Z.of_N (N_of_ascii a).

Ltac solve_byte := red; first [lia | split; [by apply Z.leb_le | by apply Z.ltb_lt]].

(** Closed bounds. *)
Ltac zbound := repeat split; vm_compute; first [reflexivity | discriminate].

(** A string literal of the Go source as its bytes. *)
Definition str (s : string) : bytes := map byte_of_ascii (list_ascii_of_string s).
Arguments str s%_string_scope.

Definition blen (l : bytes) : Z := Z.of_nat (length l).

(** ** Machine integers *)

Definition wrap (w z : Z) : Z := z mod 2 ^ w.
Definition swrap (w z : Z) : Z := (z + 2 ^ (w - 1)) mod 2 ^ w - 2 ^ (w - 1).
Abbreviation u8 := (wrap 8).
Abbreviation u16 := (wrap 16).
Abbreviation u32 := (wrap 32).
Abbreviation u64 := (wrap 64).

Lemma wrap_bound w z : 0 <= w -> 0 <= wrap w z < 2 ^ w.
Proof. intros. apply Z.mod_pos_bound. lia. Qed.

Lemma wrap_small w z : 0 <= z < 2 ^ w -> wrap w z = z.
Proof. apply Z.mod_small. Qed.

Lemma wrap_wrap w z : wrap w (wrap w z) = wrap w z.
Proof. apply Zmod_mod. Qed.

Lemma swrap_bound w z : 0 < w -> - 2 ^ (w - 1) <= swrap w z < 2 ^ (w - 1).
Proof.
  intros Hw. unfold swrap.
  assert (2 ^ w = 2 * 2 ^ (w - 1)) as E.
  { rewrite <- Z.pow_succ_r by lia. f_equal. lia. }
  pose proof (Z.mod_pos_bound (z + 2 ^ (w - 1)) (2 ^ w)). lia.
Qed.

Lemma swrap_small w z : 0 < w -> - 2 ^ (w - 1) <= z < 2 ^ (w - 1) -> swrap w z = z.
Proof.
  intros Hw Hz. unfold swrap.
  assert (2 ^ w = 2 * 2 ^ (w - 1)) as E.
  { rewrite <- Z.pow_succ_r by lia. f_equal. lia. }
  rewrite Z.mod_small; lia.
Qed.

(** Reading a two's complement value back from its unsigned image. *)
Lemma swrap_wrap w z : 0 < w -> - 2 ^ (w - 1) <= z < 2 ^ (w - 1) -> swrap w (wrap w z) = z.
Proof.
  intros Hw Hz. rewrite <- (swrap_small w z) at 2 by done.
  unfold swrap, wrap. rewrite Zplus_mod_idemp_l. done.
Qed.

(** ** Little-endian encoding (encoding/binary) *)

Fixpoint le_bytes (n : nat) (z : Z) : bytes :=
  match n with
  | O => []
  | S n => z mod 256 :: le_bytes n (z / 256)
  end.

Fixpoint le_val (l : bytes) : Z :=
  match l with
  | [] => 0
  | b :: l => b + 256 * le_val l
  end.

Definition be_bytes (n : nat) (z : Z) : bytes := rev (le_bytes n z).

Lemma length_le_bytes n z : length (le_bytes n z) = n.
Proof. revert z. induction n; intros; simpl; auto. Qed.

Lemma wf_le_bytes n z : wf_bytes (le_bytes n z).
Proof.
  revert z. induction n; intros; constructor; [|apply IHn].
  apply Z.mod_pos_bound. lia.
Qed.

Lemma le_val_le_bytes n z : le_val (le_bytes n z) = z mod 2 ^ (8 * Z.of_nat n).
Proof.
  revert z. induction n as [|n IH]; intros z.
  - simpl. by rewrite Z.mod_1_r.
  - cbn [le_bytes le_val]. rewrite IH.
    replace (8 * Z.of_nat (S n)) with (8 + 8 * Z.of_nat n) by lia.
    rewrite Z.pow_add_r by lia. change (2 ^ 8) with 256.
    rewrite Z.rem_mul_r by lia. done.
Qed.

Lemma le_val_le_bytes_small n z :
  0 <= z < 2 ^ (8 * Z.of_nat n) -> le_val (le_bytes n z) = z.
Proof. intros. rewrite le_val_le_bytes. by apply Z.mod_small. Qed.

Lemma le_val_bound l : wf_bytes l -> 0 <= le_val l < 2 ^ (8 * Z.of_nat (length l)).
Proof.
  induction 1 as [|b l Hb _ IH]; [done|]. cbn [length le_val].
  replace (8 * Z.of_nat (S (length l))) with (8 + 8 * Z.of_nat (length l)) by lia.
  rewrite Z.pow_add_r by lia. change (2 ^ 8) with 256. red in Hb. lia.
Qed.

Lemma le_bytes_le_val l : wf_bytes l -> le_bytes (length l) (le_val l) = l.
Proof.
  induction 1 as [|b l Hb _ IH]; [done|]. cbn [length le_val le_bytes]. red in Hb.
  replace (b + 256 * le_val l) with (le_val l * 256 + b) by lia.
  assert ((le_val l * 256 + b) mod 256 = b) as ->.
  { rewrite Z.add_comm, Z_mod_plus_full. by apply Z.mod_small. }
  rewrite Z.div_add_l, (Z.div_small b), Z.add_0_r by lia. by rewrite IH.
Qed.

Lemma le_bytes_mod n z : le_bytes n (z mod 2 ^ (8 * Z.of_nat n)) = le_bytes n z.
Proof.
  rewrite <- le_val_le_bytes.
  rewrite <- (length_le_bytes n z) at 1. apply le_bytes_le_val, wf_le_bytes.
Qed.

#[global] Arguments le_bytes : simpl never.
#[global] Arguments le_val : simpl never.

(** ** Errors and results

    [EOF] and [UnexpectedEOF] are io.EOF and io.ErrUnexpectedEOF; [Wrap] is
    fmt.Errorf with %w, which errors.Is looks through; [Errorf] is any other
    error value.  A run-time panic is a result of its own: no Go code of the
    modelled handlers recovers from one. *)

Inductive error :=
  | EOF
  | UnexpectedEOF
  | Errorf (msg : string)
  | Wrap (msg : string) (e : error).
Arguments Errorf msg%_string_scope.
Arguments Wrap msg%_string_scope e.

#[export] Instance error_eq_dec : EqDecision error.
Proof. solve_decision. Defined.

(** errors.Is(err, io.EOF) *)
Fixpoint is_EOF (e : error) : bool :=
  match e with
  | EOF => true
  | Wrap _ e => is_EOF e
  | _ => false
  end.

Inductive res (A : Type) :=
  | Ok (a : A)
  | Err (e : error)
  | Panic (why : string).
Arguments Ok {A} a.
Arguments Err {A} e.
Arguments Panic {A} why%_string_scope.

#[export] Instance res_ret : MRet res := @Ok.
#[export] Instance res_bind : MBind res := fun A B f m =>
  match m with Ok a => f a | Err e => Err e | Panic w => Panic w end.

Definition is_Ok {A} (r : res A) : bool := match r with Ok _ => true | _ => false end.
Definition is_Err {A} (r : res A) : bool := match r with Err _ => true | _ => false end.

Definition res_wrap {A} (msg : string) (r : res A) : res A :=
  match r with Err e => Err (Wrap msg e) | _ => r end.
Arguments res_wrap {A} msg%_string_scope r.

Lemma res_wrap_Ok {A} msg (r : res A) a : res_wrap msg r = Ok a -> r = Ok a.
Proof. by destruct r. Qed.

(** ** Stateful fallible code: a state is passed through, also on errors *)

Definition M (S A : Type) : Type := S -> res A * S.

#[export] Instance M_ret {S} : MRet (M S) := fun A a s => (Ok a, s).
#[export] Instance M_bind {S} : MBind (M S) := fun A B f m s =>
  match m s with
  | (Ok a, s') => f a s'
  | (Err e, s') => (Err e, s')
  | (Panic w, s') => (Panic w, s')
  end.

Definition fail {S A} (e : error) : M S A := fun s => (Err e, s).
Definition panic {S A} (w : string) : M S A := fun s => (Panic w, s).
Arguments panic {S A} w%_string_scope.
Definition get {S} : M S S := fun s => (Ok s, s).
Definition gets {S A} (f : S -> A) : M S A := fun s => (Ok (f s), s).
Definition modify {S} (f : S -> S) : M S unit := fun s => (Ok tt, f s).
Definition lift {S A} (r : res A) : M S A := fun s => (r, s).

(** fmt.Errorf("msg: %w", err) on the error path of a call. *)
Definition wrapM {S A} (msg : string) (m : M S A) : M S A := fun s =>
  let '(r, s') := m s in (res_wrap msg r, s').
Arguments wrapM {S A} msg%_string_scope m.

(** Run a computation on a local variable of another type. *)
Definition on {S T A} (t : T) (m : M T A) : M S (A * T) := fun s =>
  match m t with
  | (Ok a, t') => (Ok (a, t'), s)
  | (Err e, _) => (Err e, s)
  | (Panic w, _) => (Panic w, s)
  end.

(** Run a computation on a component of the state. *)
Definition zoom {S T A} (get : S -> T) (put : T -> S -> S) (m : M T A) : M S A := fun s =>
  let '(r, t) := m (get s) in (r, put t s).

(** err := call(); if err != nil: the error as a value. *)
Definition try {S A} (m : M S A) : M S (error + A) := fun s =>
  match m s with
  | (Ok a, s') => (Ok (inr a), s')
  | (Err e, s') => (Ok (inl e), s')
  | (Panic w, s') => (Panic w, s')
  end.

Section MonadLemmas.
Context {S A B : Type}.
Implicit Types (m : M S A) (f : A -> M S B) (s : S).

Lemma bind_eq m f s :
  (m ≫= f) s = match m s with
               | (Ok a, s') => f a s'
               | (Err e, s') => (Err e, s')
               | (Panic w, s') => (Panic w, s')
               end.
Proof. done. Qed.

Lemma bind_Ok m f s a s' : m s = (Ok a, s') -> (m ≫= f) s = f a s'.
Proof. intros H. unfold mbind, M_bind. by rewrite H. Qed.

Lemma bind_Err m f s e s' : m s = (Err e, s') -> (m ≫= f) s = (Err e, s').
Proof. intros H. unfold mbind, M_bind. by rewrite H. Qed.

Lemma bind_Panic m f s w s' : m s = (Panic w, s') -> (m ≫= f) s = (Panic w, s').
Proof. intros H. unfold mbind, M_bind. by rewrite H. Qed.

Lemma bind_Ok_inv m f s b s' :
  (m ≫= f) s = (Ok b, s') -> exists a s1, m s = (Ok a, s1) /\ f a s1 = (Ok b, s').
Proof.
  unfold mbind, M_bind. destruct (m s) as [[a|e|w] s1]; [eauto|done|done].
Qed.

Lemma wrapM_Ok msg m s a s' : m s = (Ok a, s') -> wrapM msg m s = (Ok a, s').
Proof. intros H. unfold wrapM. by rewrite H. Qed.

Lemma wrapM_Err msg m s e s' : m s = (Err e, s') -> wrapM msg m s = (Err (Wrap msg e), s').
Proof. intros H. unfold wrapM. by rewrite H. Qed.

Lemma wrapM_Ok_inv msg m s a s' : wrapM msg m s = (Ok a, s') -> m s = (Ok a, s').
Proof. unfold wrapM. destruct (m s) as [[]]; simpl; congruence. Qed.

Lemma on_Ok {T} (t : T) (m : M T A) s a t' :
  m t = (Ok a, t') -> on t m s = (Ok (a, t'), s).
Proof. intros H. unfold on. by rewrite H. Qed.

Lemma on_Err {T} (t : T) (m : M T A) s e t' :
  m t = (Err e, t') -> on t m s = (Err e, s).
Proof. intros H. unfold on. by rewrite H. Qed.

Lemma zoom_eq {T} (gt : S -> T) (put : T -> S -> S) (m : M T A) s r t :
  m (gt s) = (r, t) -> zoom gt put m s = (r, put t s).
Proof. intros H. unfold zoom. by rewrite H. Qed.

Lemma try_Ok m s a s' : m s = (Ok a, s') -> try m s = (Ok (inr a), s').
Proof. intros H. unfold try. by rewrite H. Qed.

Lemma try_Err m s e s' : m s = (Err e, s') -> try m s = (Ok (inl e), s').
Proof. intros H. unfold try. by rewrite H. Qed.
End MonadLemmas.

Lemma step {S A B} (m : M S A) (f : A -> M S B) s a s' r :
  m s = (Ok a, s') -> f a s' = r -> (m ≫= f) s = r.
Proof. intros Hm <-. by apply bind_Ok. Qed.

(** One symbolic step of a bind whose first computation succeeds. *)
Ltac run_step := first
  [ erewrite bind_Ok; [|solve [eauto with go]]
  | erewrite bind_Err; [|solve [eauto with go]] ].
Create HintDb go.
#[export] Hint Resolve wrapM_Ok wrapM_Err on_Ok on_Err try_Ok try_Err : go.
