(* ===== verification/Reader.v ===== *)
(** * io.Reader and encoding/binary

    The readers the program decodes from: a bytes.Buffer (also the incoming
    stream of a connection) and, in Items.v, a CIPItem.  [Reader] gives what
    io.ReadFull does on each; [ReaderLaws] is the contract the decoders are
    verified against.  [parses p bs v] says that p consumes exactly the bytes
    bs, whatever follows them, and yields v: every round trip of the
    development is composed from it. *)
From S2P Require Import Prelude.
Class Reader (R : Type) := {
  rd_data : R -> bytes;             (* the bytes not read yet *)
  rd_ok : R -> Prop;                (* the reader's position is valid *)
  rd_advance : nat -> R -> R;       (* the reader after n bytes *)
  read_full : nat -> M R bytes;     (* io.ReadFull into a fresh slice of n bytes *)
}.

Class ReaderLaws (R : Type) `{Reader R} := {
  read_full_ok n r :
    rd_ok r -> (n <= length (rd_data r))%nat ->
    read_full n r = (Ok (take n (rd_data r)), rd_advance n r);
  read_full_eof n r :
    rd_ok r -> (0 < n)%nat -> rd_data r = [] -> fst (read_full n r) = Err EOF;
  read_full_short n r :
    rd_ok r -> (0 < length (rd_data r) < n)%nat ->
    fst (read_full n r) = Err UnexpectedEOF;
  rd_data_advance n r :
    rd_ok r -> (n <= length (rd_data r))%nat ->
    rd_data (rd_advance n r) = drop n (rd_data r);
  rd_ok_advance n r : rd_ok r -> rd_ok (rd_advance n r);
  rd_advance_0 r : rd_advance 0 r = r;
  rd_advance_add n m r : rd_advance m (rd_advance n r) = rd_advance (n + m) r;
}.

(** ** bytes.Buffer and net.Conn: the unread bytes *)

Definition buffer_read_full (n : nat) : M bytes bytes := fun l =>
  if (n <=? length l)%nat then (Ok (take n l), drop n l)
  else if (length l =? 0)%nat then (Err EOF, []) else (Err UnexpectedEOF, []).

#[export] Instance buffer_Reader : Reader bytes := {|
  rd_data := fun l => l;
  rd_ok := fun _ => True;
  rd_advance := drop;
  read_full := buffer_read_full;
|}.

#[export] Instance buffer_ReaderLaws : ReaderLaws bytes.
Proof.
  split; simpl; unfold buffer_read_full.
  - intros n r _ Hn. by rewrite (proj2 (Nat.leb_le _ _) Hn).
  - intros n r _ Hn ->. simpl. by destruct n; [lia|].
  - intros n r _ Hn. rewrite (proj2 (Nat.leb_gt _ _)) by lia.
    rewrite (proj2 (Nat.eqb_neq _ _)) by lia. done.
  - done.
  - done.
  - done.
  - intros n m r. by rewrite drop_drop.
Qed.

(** ** binary.Read of fixed-size values *)

Section Decoders.
Context {R : Type} `{Reader R}.

Definition read_uint (n : nat) : M R Z := b ← read_full n; mret (le_val b).
Definition read_sint (n : nat) : M R Z :=
  b ← read_full n; mret (swrap (8 * Z.of_nat n) (le_val b)).

Definition read_u8 : M R Z := read_uint 1.
Definition read_u16 : M R Z := read_uint 2.
Definition read_u32 : M R Z := read_uint 4.
Definition read_u64 : M R Z := read_uint 8.

(** binary.Read into a []byte of the given length *)
Definition read_slice (n : nat) : M R bytes := read_full n.

(** binary.Read into a fixed-size struct: all its bytes at once, then the
    fields in order. *)
Definition read_struct {A} (n : nat) (fields : M bytes A) : M R A :=
  b ← read_full n; lift (fst (fields b)).
End Decoders.

(** ** Exact consumption *)

Definition parses {R A} `{Reader R} (p : M R A) (bs : bytes) (v : A) : Prop :=
  forall r rest, rd_ok r -> rd_data r = bs ++ rest ->
    p r = (Ok v, rd_advance (length bs) r).

Section Parses.
Context {R : Type} `{ReaderLaws R}.

Lemma advance_prefix (r : R) bs rest :
  rd_ok r -> rd_data r = bs ++ rest -> rd_data (rd_advance (length bs) r) = rest.
Proof.
  intros Hok Hr. rewrite rd_data_advance, Hr; [|done|].
  - apply drop_app_length.
  - rewrite Hr, length_app. lia.
Qed.

Lemma parses_ret {A} (v : A) : parses (R:=R) (mret v) [] v.
Proof. intros r rest _ _. simpl. by rewrite rd_advance_0. Qed.

Lemma parses_bind {A B} (p : M R A) (k : A -> M R B) bs1 bs2 v w :
  parses p bs1 v -> parses (k v) bs2 w -> parses (p ≫= k) (bs1 ++ bs2) w.
Proof.
  intros Hp Hk r rest Hok Hr. rewrite <- (assoc_L (++)) in Hr.
  erewrite bind_Ok by (by eapply Hp). erewrite Hk; last first.
  - by eapply advance_prefix.
  - by apply rd_ok_advance.
  - by rewrite rd_advance_add, length_app.
Qed.

Lemma parses_bind_nil {A B} (p : M R A) (k : A -> M R B) bs v w :
  parses p bs v -> parses (k v) [] w -> parses (p ≫= k) bs w.
Proof. intros. rewrite <- (app_nil_r bs). by eapply parses_bind. Qed.

Lemma parses_try {A} (p : M R A) bs v : parses p bs v -> parses (try p) bs (inr v).
Proof. intros Hp r rest Hok Hr. apply try_Ok. by eapply Hp. Qed.

Lemma parses_lift {A} (x : res A) v : x = Ok v -> parses (R:=R) (lift x) [] v.
Proof. intros -> r rest _ _. unfold lift. simpl. by rewrite rd_advance_0. Qed.

Lemma parses_wrapM {A} msg (p : M R A) bs v : parses p bs v -> parses (wrapM msg p) bs v.
Proof. intros Hp r rest Hok Hr. apply wrapM_Ok. by eapply Hp. Qed.

Lemma parses_full bs : parses (R:=R) (read_full (length bs)) bs bs.
Proof.
  intros r rest Hok Hr. rewrite read_full_ok, Hr; [|done|].
  - by rewrite take_app_length.
  - rewrite Hr, length_app. lia.
Qed.

Lemma parses_slice n bs : length bs = n -> parses (R:=R) (read_slice n) bs bs.
Proof. intros <-. apply parses_full. Qed.

Lemma parses_uint n v :
  0 <= v < 2 ^ (8 * Z.of_nat n) -> parses (R:=R) (read_uint n) (le_bytes n v) v.
Proof.
  intros Hv. unfold read_uint. eapply parses_bind_nil.
  - rewrite <- (length_le_bytes n v) at 1. apply parses_full.
  - rewrite le_val_le_bytes_small by done. apply parses_ret.
Qed.

(** The value of a field that the writer truncated to its width. *)
Lemma parses_uint_wrap n v :
  parses (R:=R) (read_uint n) (le_bytes n v) (v mod 2 ^ (8 * Z.of_nat n)).
Proof.
  unfold read_uint. eapply parses_bind_nil.
  - rewrite <- (length_le_bytes n v) at 1. apply parses_full.
  - rewrite le_val_le_bytes. apply parses_ret.
Qed.

Lemma parses_sint n v :
  (0 < n)%nat -> - 2 ^ (8 * Z.of_nat n - 1) <= v < 2 ^ (8 * Z.of_nat n - 1) ->
  parses (R:=R) (read_sint n) (le_bytes n v) v.
Proof.
  intros Hn Hv. unfold read_sint. eapply parses_bind_nil.
  - rewrite <- (length_le_bytes n v) at 1. apply parses_full.
  - rewrite le_val_le_bytes. fold (wrap (8 * Z.of_nat n) v).
    rewrite swrap_wrap by lia. apply parses_ret.
Qed.

Lemma parses_struct {A} n (fields : M bytes A) bs v :
  parses fields bs v -> length bs = n -> parses (R:=R) (read_struct n fields) bs v.
Proof.
  intros Hf <-. unfold read_struct. eapply parses_bind_nil; [apply parses_full|].
  erewrite (Hf bs []); [apply parses_ret|done|by rewrite app_nil_r].
Qed.

(** Running a parser on a reader holding exactly its bytes or more. *)
Lemma parses_run {A} (p : M R A) bs v r rest :
  parses p bs v -> rd_ok r -> rd_data r = bs ++ rest ->
  exists r', p r = (Ok v, r') /\ rd_data r' = rest /\ rd_ok r'.
Proof.
  intros Hp Hok Hr. exists (rd_advance (length bs) r). split_and!.
  - by eapply Hp.
  - by eapply advance_prefix.
  - by apply rd_ok_advance.
Qed.

Lemma read_uint_eof n r :
  rd_ok r -> (0 < n)%nat -> rd_data r = [] ->
  exists r', read_uint n r = (Err EOF, r').
Proof.
  intros Hok Hn Hr. pose proof (read_full_eof n r Hok Hn Hr) as E.
  destruct (read_full n r) as [x r'] eqn:Hx. simpl in E. subst x.
  exists r'. unfold read_uint. by erewrite bind_Err.
Qed.
End Parses.

(** A byte list literal against the head of a known stream. *)
Lemma parses_u8 {R} `{ReaderLaws R} v : is_byte v -> parses (R:=R) read_u8 [v] v.
Proof.
  intros Hv. red in Hv. pose proof (parses_uint (R:=R) 1 v) as P.
  unfold le_bytes in P. rewrite Z.mod_small in P by lia. by apply P.
Qed.

Lemma parses_u16 {R} `{ReaderLaws R} v :
  0 <= v < 2 ^ 16 -> parses (R:=R) read_u16 (le_bytes 2 v) v.
Proof. apply (parses_uint 2). Qed.

Lemma parses_u32 {R} `{ReaderLaws R} v :
  0 <= v < 2 ^ 32 -> parses (R:=R) read_u32 (le_bytes 4 v) v.
Proof. apply (parses_uint 4). Qed.

#[export] Hint Resolve parses_ret parses_wrapM parses_slice parses_u8 parses_u16 parses_u32 : go.

(** ** Buffers only lose bytes from their front *)

Definition eats {A} (m : M bytes A) : Prop := forall l, snd (m l) `suffix_of` l.

Lemma eats_ret {A} (a : A) : eats (mret a).
Proof. intros l. apply suffix_nil || reflexivity. Qed.

Lemma eats_lift {A} (r : res A) : eats (lift r).
Proof. intros l. reflexivity. Qed.

Lemma eats_full n : eats (read_full n).
Proof.
  intros l. simpl. unfold buffer_read_full. destruct (_ <=? _)%nat; [apply suffix_drop|].
  destruct (_ =? _)%nat; apply suffix_nil.
Qed.

Lemma eats_bind {A B} (m : M bytes A) (f : A -> M bytes B) :
  eats m -> (forall a, eats (f a)) -> eats (m ≫= f).
Proof.
  intros Hm Hf l. rewrite bind_eq. specialize (Hm l).
  destruct (m l) as [[a|e|w] l']; simpl in *; [|done..]. etrans; [apply Hf|done].
Qed.

Lemma eats_wrapM {A} msg (m : M bytes A) : eats m -> eats (wrapM msg m).
Proof. intros Hm l. unfold wrapM. specialize (Hm l). by destruct (m l). Qed.

Lemma eats_uint n : eats (read_uint n).
Proof. apply eats_bind; [apply eats_full|intros; apply eats_ret]. Qed.

Lemma eats_struct {A} n (f : M bytes A) : eats (read_struct n f).
Proof. apply eats_bind; [apply eats_full|intros; apply eats_lift]. Qed.
#[export] Hint Resolve eats_ret eats_lift eats_full eats_uint eats_struct : go.

(** A struct of n bytes that was read took n bytes. *)
Lemma read_struct_length {A} n (f : M bytes A) l a l' :
  read_struct n f l = (Ok a, l') -> length l = (n + length l')%nat.
Proof.
  intros H. apply bind_Ok_inv in H as (b & s & Hb & H). simpl in Hb. unfold buffer_read_full in Hb.
  destruct (Nat.leb_spec n (length l)); [|by destruct (_ =? _)%nat].
  injection Hb as <- <-. injection H as _ <-. rewrite length_drop. lia.
Qed.
