(* ===== verification/GoValue.v ===== *)
(** * Go types and values

    The dynamically typed values ([any]) that tags carry, with their types as
    reflect sees them, and what encoding/binary.Write does to them.  Floats
    are kept as their IEEE-754 bit patterns.  Slices are values: the program
    hands each slice it stores or serializes to one owner only. *)
From S2P Require Import Prelude Reader.
#[local] Set Warnings "-register-all".

(** ** Integer kinds *)

Inductive ikind := I8 | I16 | I32 | I64 | U8 | U16 | U32 | U64 | GoInt | GoUint.

#[export] Instance ikind_eq_dec : EqDecision ikind.
Proof. solve_decision. Defined.

Definition ikind_bits (k : ikind) : Z :=
  match k with
  | I8 | U8 => 8 | I16 | U16 => 16 | I32 | U32 => 32
  | I64 | U64 | GoInt | GoUint => 64
  end.

Definition ikind_signed (k : ikind) : bool :=
  match k with I8 | I16 | I32 | I64 | GoInt => true | _ => false end.

(** Conversion of an integer to the kind (Go's truncating conversion). *)
Definition int_conv (k : ikind) (z : Z) : Z :=
  if ikind_signed k then swrap (ikind_bits k) z else wrap (ikind_bits k) z.

Definition int_ok (k : ikind) (z : Z) : Prop :=
  if ikind_signed k then - 2 ^ (ikind_bits k - 1) <= z < 2 ^ (ikind_bits k - 1)
  else 0 <= z < 2 ^ ikind_bits k.

Lemma ikind_bits_pos k : 0 < ikind_bits k.
Proof. by destruct k. Qed.

Lemma int_conv_ok k z : int_ok k (int_conv k z).
Proof.
  unfold int_ok, int_conv. pose proof (ikind_bits_pos k).
  destruct (ikind_signed k); [by apply swrap_bound | apply wrap_bound; lia].
Qed.

Lemma int_conv_id k z : int_ok k z -> int_conv k z = z.
Proof.
  unfold int_ok, int_conv. pose proof (ikind_bits_pos k).
  destruct (ikind_signed k); intros; [by apply swrap_small | by apply wrap_small].
Qed.

(** encoding/binary knows the fixed-size kinds only: not int and uint. *)
Definition ikind_size (k : ikind) : option nat :=
  match k with
  | I8 | U8 => Some 1%nat | I16 | U16 => Some 2%nat
  | I32 | U32 => Some 4%nat | I64 | U64 => Some 8%nat
  | GoInt | GoUint => None
  end.

(** ** Types *)

Record fieldinfo := {
  f_name : bytes;
  f_pack : bytes;          (* the field tag [pack] *)
  f_byteIndex : bytes;     (* the field tag [byteIndex] *)
  f_gologix : bytes;       (* the field tag [gologix] *)
}.

#[export] Instance fieldinfo_eq_dec : EqDecision fieldinfo.
Proof. solve_decision. Defined.

Inductive gotype :=
  | TBool
  | TInt (k : ikind)
  | TFloat32
  | TFloat64
  | TString
  | TAny
  | TSlice (t : gotype)
  | TArray (n : nat) (t : gotype)
  | TPtr (t : gotype)
  | TStruct (name : bytes) (fields : list (fieldinfo * gotype)).

#[export] Instance gotype_eq_dec : EqDecision gotype.
Proof.
  unfold RelDecision, Decision. fix go 1. intros t1 t2.
  refine (match t1, t2 with
  | TBool, TBool | TFloat32, TFloat32 | TFloat64, TFloat64
  | TString, TString | TAny, TAny => left _
  | TInt k1, TInt k2 => cast_if (decide (k1 = k2))
  | TSlice a, TSlice b => cast_if (go a b)
  | TArray n a, TArray m b => cast_if_and (decide (n = m)) (go a b)
  | TPtr a, TPtr b => cast_if (go a b)
  | TStruct n1 f1, TStruct n2 f2 =>
      cast_if_and (decide (n1 = n2))
        (@list_eq_dec _ (@prod_eq_dec _ fieldinfo_eq_dec _ go) f1 f2)
  | _, _ => right _
  end); clear go; abstract congruence.
Defined.

(** ** Values *)

Inductive goval :=
  | VNil                                   (* a nil interface *)
  | VBool (b : bool)
  | VInt (k : ikind) (z : Z)
  | VFloat32 (bits : Z)
  | VFloat64 (bits : Z)
  | VString (s : bytes)
  | VSlice (t : gotype) (l : list goval)   (* element type, elements *)
  | VArray (t : gotype) (l : list goval)
  | VStruct (name : bytes) (fields : list (fieldinfo * gotype)) (l : list goval)
  | VPtr (t : gotype) (v : option goval).

(** The zero value of a type (a var declaration, reflect.New). *)
Fixpoint go_zero (t : gotype) : goval :=
  match t with
  | TBool => VBool false
  | TInt k => VInt k 0
  | TFloat32 => VFloat32 0
  | TFloat64 => VFloat64 0
  | TString => VString []
  | TAny => VNil
  | TSlice t => VSlice t []
  | TArray n t => VArray t (replicate n (go_zero t))
  | TPtr t => VPtr t None
  | TStruct name fields =>
      VStruct name fields
        ((fix go (l : list (fieldinfo * gotype)) : list goval :=
            match l with [] => [] | (_, t) :: l => go_zero t :: go l end) fields)
  end.

(** reflect.TypeOf; None for a nil interface *)
Definition type_of (v : goval) : option gotype :=
  match v with
  | VNil => None
  | VBool _ => Some TBool
  | VInt k _ => Some (TInt k)
  | VFloat32 _ => Some TFloat32
  | VFloat64 _ => Some TFloat64
  | VString _ => Some TString
  | VSlice t _ => Some (TSlice t)
  | VArray t l => Some (TArray (length l) t)
  | VStruct n f _ => Some (TStruct n f)
  | VPtr t _ => Some (TPtr t)
  end.

(** ** encoding/binary *)

(** The sizeof of encoding/binary: None (-1 in Go) when not fixed-size. *)
Fixpoint sizeof (t : gotype) : option nat :=
  match t with
  | TBool => Some 1%nat
  | TInt k => ikind_size k
  | TFloat32 => Some 4%nat
  | TFloat64 => Some 8%nat
  | TArray n t => s ← sizeof t; Some (n * s)%nat
  | TStruct _ fields =>
      (fix go (l : list (fieldinfo * gotype)) : option nat :=
        match l with
        | [] => Some 0%nat
        | (_, t) :: l => s ← sizeof t; r ← go l; Some (s + r)%nat
        end) fields
  | TString | TAny | TSlice _ | TPtr _ => None
  end.

(** The bytes of a fixed-size value, in the order the encoder visits it. *)
Fixpoint fixed_bytes (v : goval) : option bytes :=
  match v with
  | VBool b => Some [if b then 1 else 0]
  | VInt k z => n ← ikind_size k; Some (le_bytes n z)
  | VFloat32 z => Some (le_bytes 4 z)
  | VFloat64 z => Some (le_bytes 8 z)
  | VArray _ l | VStruct _ _ l =>
      (fix go (l : list goval) : option bytes :=
        match l with
        | [] => Some []
        | v :: l => b ← fixed_bytes v; r ← go l; Some (b ++ r)
        end) l
  | VNil | VString _ | VSlice _ _ | VPtr _ _ => None
  end.

Fixpoint fixed_bytes_list (l : list goval) : option bytes :=
  match l with
  | [] => Some []
  | v :: l => b ← fixed_bytes v; r ← fixed_bytes_list l; Some (b ++ r)
  end.

(** binary.Write(w, LittleEndian, v): the bytes written.  A slice is written
    when its element type is fixed-size, a pointer through its target; any
    other value of no fixed size is the error the package reports. *)
Definition binary_write (v : goval) : res bytes :=
  let fixed v :=
    match v with
    | VSlice t l =>
        match sizeof t with Some _ => fixed_bytes_list l | None => None end
    | _ => fixed_bytes v
    end in
  match match v with VPtr _ (Some v) => fixed v | _ => fixed v end with
  | Some b => Ok b
  | None => Err (Errorf "binary.Write: some values are not fixed-sized in type")
  end.

(** ** Well-typed values *)

Definition is_bits (n b : Z) : Prop := 0 <= b < 2 ^ n.

(** Scalar values in the range of their kind: what a tag element holds. *)
Definition scalar_ok (v : goval) : Prop :=
  match v with
  | VBool _ => True
  | VInt k z => int_ok k z
  | VFloat32 b => is_bits 32 b
  | VFloat64 b => is_bits 64 b
  | VString s => wf_bytes s
  | _ => False
  end.

Lemma fixed_bytes_wf_int k z b : fixed_bytes (VInt k z) = Some b -> wf_bytes b.
Proof.
  simpl. destruct (ikind_size k); simpl; [|done]. intros [= <-]. apply wf_le_bytes.
Qed.
