(* ===== verification/GoFloat.v ===== *)
(** * Numeric conversions of Go: integers, IEEE-754 floats, runes

    What reflect.Value.Convert does between the scalar kinds, on bit
    patterns, through the correctly rounded operations of SpecFloat.  Where
    the Go specification leaves the result to the implementation (a float out
    of the range of the target integer, the payload of a NaN) the amd64
    result is taken. *)
From Stdlib Require Import SpecFloat.
From S2P Require Import Prelude GoValue.
(** ** Bit patterns: mw mantissa bits, ew exponent bits *)

Section Format.
Context (mw ew : Z).

Definition prec : Z := mw + 1.
Definition emax : Z := 2 ^ (ew - 1).
Definition emin : Z := 3 - emax - prec.

Definition sf_of_bits (b : Z) : spec_float :=
  let s := Z.testbit b (mw + ew) in
  let e := Z.land (Z.shiftr b mw) (Z.ones ew) in
  let m := Z.land b (Z.ones mw) in
  if e =? Z.ones ew then if m =? 0 then S754_infinity s else S754_nan
  else if e =? 0 then
    match m with Zpos p => S754_finite s p emin | _ => S754_zero s end
  else match m + 2 ^ mw with Zpos p => S754_finite s p (e + emin - 1) | _ => S754_zero s end.

Definition sign_bit (s : bool) : Z := if s then Z.shiftl 1 (mw + ew) else 0.
Definition quiet_nan : Z := Z.lor (Z.shiftl (Z.ones ew) mw) (Z.shiftl 1 (mw - 1)).

Definition bits_of_sf (f : spec_float) : Z :=
  match f with
  | S754_zero s => sign_bit s
  | S754_infinity s => Z.lor (sign_bit s) (Z.shiftl (Z.ones ew) mw)
  | S754_nan => quiet_nan
  | S754_finite s m e =>
      if Zpos m <? 2 ^ mw then Z.lor (sign_bit s) (Zpos m)
      else Z.lor (sign_bit s) (Z.lor (Z.shiftl (e - emin + 1) mw) (Zpos m - 2 ^ mw))
  end.

Definition is_nan_bits (b : Z) : bool :=
  (Z.land (Z.shiftr b mw) (Z.ones ew) =? Z.ones ew) && negb (Z.land b (Z.ones mw) =? 0).
End Format.

Definition sf32 := sf_of_bits 23 8.
Definition sf64 := sf_of_bits 52 11.

(** ** Conversions *)

Definition int_to_float64 (z : Z) : Z := bits_of_sf 52 11 (binary_normalize 53 1024 z 0 false).

(** Rounding a float64 to float32. *)
Definition float64_to_float32 (b : Z) : Z :=
  if is_nan_bits 52 11 b then
    Z.lor (sign_bit 23 8 (Z.testbit b 63))
      (Z.lor (quiet_nan 23 8) (Z.shiftr (Z.land b (Z.ones 52)) 29))
  else
    match sf64 b with
    | S754_finite s m e =>
        bits_of_sf 23 8 (binary_normalize 24 128 (if s then Zneg m else Zpos m) e s)
    | f => bits_of_sf 23 8 f
    end.

(** Exact. *)
Definition float32_to_float64 (b : Z) : Z :=
  if is_nan_bits 23 8 b then
    Z.lor (sign_bit 52 11 (Z.testbit b 31))
      (Z.lor (quiet_nan 52 11) (Z.shiftl (Z.land b (Z.ones 23)) 29))
  else
    match sf32 b with
    | S754_finite s m e =>
        bits_of_sf 52 11 (binary_normalize 53 1024 (if s then Zneg m else Zpos m) e s)
    | f => bits_of_sf 52 11 f
    end.

(** Truncation towards zero; None for a NaN or an infinity. *)
Definition float64_trunc (b : Z) : option Z :=
  match sf64 b with
  | S754_zero _ => Some 0
  | S754_finite s m e =>
      let a := if 0 <=? e then Zpos m * 2 ^ e else Z.shiftr (Zpos m) (- e) in
      Some (if s then - a else a)
  | _ => None
  end.

Definition float64_to_int64 (b : Z) : Z :=
  match float64_trunc b with
  | Some z => if (- 2 ^ 63 <=? z) && (z <? 2 ^ 63) then z else - 2 ^ 63
  | None => - 2 ^ 63
  end.

(** uint64(f): below 2^63 through int64, above it by subtracting 2^63. *)
Definition float64_to_uint64 (b : Z) : Z :=
  match float64_trunc b with
  | Some z =>
      if z <? 2 ^ 63 then wrap 64 (float64_to_int64 b)
      else if z <? 2 ^ 64 then z else 2 ^ 63
  | None => 2 ^ 63
  end.

Definition float_to_int (k : ikind) (b : Z) : Z :=
  int_conv k (if ikind_signed k then float64_to_int64 b else float64_to_uint64 b).

(** string(rune): UTF-8, with U+FFFD for what is no rune. *)
Definition utf8 (r : Z) : bytes :=
  let r := if ((0 <=? r) && (r <? 0xD800)) || ((0xE000 <=? r) && (r <=? 0x10FFFF)) then r else 0xFFFD in
  if r <? 0x80 then [r]
  else if r <? 0x800 then [0xC0 + r / 64; 0x80 + r mod 64]
  else if r <? 0x10000 then [0xE0 + r / 4096; 0x80 + r / 64 mod 64; 0x80 + r mod 64]
  else [0xF0 + r / 262144; 0x80 + r / 4096 mod 64; 0x80 + r / 64 mod 64; 0x80 + r mod 64].

Example float_one : int_to_float64 1 = 0x3FF0000000000000.
Proof. vm_compute. reflexivity. Qed.
Example float_tenth : float64_to_float32 0x3FB999999999999A = 0x3DCCCCCD.
Proof. vm_compute. reflexivity. Qed.
Example float_widen : float32_to_float64 0x3DCCCCCD = 0x3FB99999A0000000.
Proof. vm_compute. reflexivity. Qed.
Example float_subnormal : float32_to_float64 0x00000001 = 0x36A0000000000000.
Proof. vm_compute. reflexivity. Qed.
Example float_trunc : float_to_int I16 0xC004000000000000 = -2.
Proof. vm_compute. reflexivity. Qed.

(** ** reflect.Value.Convert

    ConvertibleTo and Convert for a value and a target type: None when the
    types do not convert.  Conversions to or from slices of runes, which no
    tag element can be, are left out. *)
Definition strip_fields (l : list (fieldinfo * gotype)) : list (bytes * gotype) :=
  map (fun '(f, t) => (f_name f, t)) l.

Definition bytes_of_vals (l : list goval) : bytes :=
  map (fun v => match v with VInt _ z => z | _ => 0 end) l.

Definition reflect_Convert (v : goval) (target : gotype) : res (option goval) :=
  if bool_decide (type_of v = Some target) then Ok (Some v) else
  match v, target with
  | VNil, _ => Panic "reflect: call of reflect.Value.Type on zero Value"
  | _, TAny => Ok (Some v)
  | VInt _ z, TInt k => Ok (Some (VInt k (int_conv k z)))
  | VInt _ z, TFloat64 => Ok (Some (VFloat64 (int_to_float64 z)))
  | VInt _ z, TFloat32 => Ok (Some (VFloat32 (float64_to_float32 (int_to_float64 z))))
  | VInt _ z, TString => Ok (Some (VString (utf8 z)))
  | VFloat32 b, TInt k => Ok (Some (VInt k (float_to_int k (float32_to_float64 b))))
  | VFloat64 b, TInt k => Ok (Some (VInt k (float_to_int k b)))
  | VFloat32 b, TFloat64 => Ok (Some (VFloat64 (float32_to_float64 b)))
  | VFloat64 b, TFloat32 => Ok (Some (VFloat32 (float64_to_float32 b)))
  | VString s, TSlice (TInt U8) => Ok (Some (VSlice (TInt U8) (map (VInt U8) s)))
  | VSlice (TInt U8) l, TString => Ok (Some (VString (bytes_of_vals l)))
  | VSlice t l, TArray n t' =>
      if bool_decide (t = t') then
        if (length l <? n)%nat then Panic "reflect: cannot convert slice with short length to array"
        else Ok (Some (VArray t (take n l)))
      else Ok None
  | VStruct _ f l, TStruct n f' =>
      if bool_decide (strip_fields f = strip_fields f') then Ok (Some (VStruct n f' l)) else Ok None
  | _, _ => Ok None
  end.

(** The kinds a converted value stays in. *)
Lemma reflect_Convert_type v target v' :
  reflect_Convert v target = Ok (Some v') -> target <> TAny -> type_of v' = Some target.
Proof.
  unfold reflect_Convert. case_bool_decide as Ht; [intros; by simplify_eq|].
  intros H Hne. destruct v, target; simplify_eq/=; try done.
  all: repeat first [case_bool_decide | case_match]; simplify_eq/=; try done.
  all: match goal with H : (_ <? _)%nat = false |- _ => apply Nat.ltb_ge in H end;
    rewrite length_take; do 2 f_equal; lia.
Qed.
