(* ===== verification/CipNames.v ===== *)
(** * CIP names: the constants and descriptions of cip_definitions.go and services.go

    Object classes, general and extended status codes, services and
    encapsulation commands, with the human readable descriptions (String)
    the error messages carry. *)
From Stdlib Require Import Ascii String.
From S2P Require Import Prelude.
#[local] Open Scope string_scope.
#[local] Open Scope Z_scope.

(** A Go switch over an integer: the first case that is equal. *)
Fixpoint switch {A} (x : Z) (cases : list (Z * A)) (default : A) : A :=
  match cases with
  | [] => default
  | (k, a) :: cases => if x =? k then a else switch x cases default
  end.

(** ** fmt verbs %d, %X, %04X on non-negative integers *)

Definition digit (d : Z) : ascii :=
  ascii_of_N (Z.to_N (if d <? 10 then 48 + d else 55 + d)).

Fixpoint digits (fuel : nat) (base z : Z) (acc : string) : string :=
  match fuel with
  | O => acc
  | S fuel =>
      let acc := String (digit (z mod base)) acc in
      if z / base =? 0 then acc else digits fuel base (z / base) acc
  end.

(** One digit at least, and at most one per bit: the fuel is enough. *)
Definition base_string (base z : Z) : string := digits (S (Z.to_nat (Z.log2 z))) base z "".
Definition dec_string (z : Z) : string := base_string 10 z.
Definition hex_upper (z : Z) : string := base_string 16 z.
Definition hex_pad (n : nat) (z : Z) : string :=
  let s := hex_upper z in
  String.append (string_of_list_ascii (replicate (n - String.length s) "0"%char)) s.

(** ** CIPClass *)

Definition CipObject_Identity : Z := 0x01.
Definition CipObject_MessageRouter : Z := 0x02.
Definition CipObject_DeviceNet : Z := 0x03.
Definition CipObject_Assembly : Z := 0x04.
Definition CipObject_Connection : Z := 0x05.
Definition CipObject_ConnectionManager : Z := 0x06.
Definition CipObject_Register : Z := 0x07.
Definition CipObject_DiscreteInputPoint : Z := 0x08.
Definition CipObject_DiscreteOutputPoint : Z := 0x09.
Definition CipObject_AnalogInputPoint : Z := 0x0A.
Definition CipObject_AnalogOutputPoint : Z := 0x0B.
Definition CipObject_PresenceSensing : Z := 0x0E.
Definition CipObject_Parameter : Z := 0x0F.
Definition CipObject_ParameterGroup : Z := 0x10.
Definition CipObject_Group : Z := 0x12.
Definition CipObject_DiscreteInputGroup : Z := 0x1D.
Definition CipObject_DiscreteOutputGroup : Z := 0x1E.
Definition CipObject_DiscreteGroup : Z := 0x1F.
Definition CipObject_AnalogInputGroup : Z := 0x20.
Definition CipObject_AnalogOutputGroup : Z := 0x21.
Definition CipObject_AnalogGroup : Z := 0x22.
Definition CipObject_PositionSensor : Z := 0x23.
Definition CipObject_PositionControlSupervisor : Z := 0x24.
Definition CipObject_PositionController : Z := 0x25.
Definition CipObject_BlockSequencer : Z := 0x26.
Definition CipObject_CommandBlock : Z := 0x27.
Definition CipObject_MotorData : Z := 0x28.
Definition CipObject_ControlSupervisor : Z := 0x29.
Definition CipObject_Drive : Z := 0x2A.
Definition CipObject_AckHandler : Z := 0x2B.
Definition CipObject_Overload : Z := 0x2C.
Definition CipObject_SoftStart : Z := 0x2D.
Definition CipObject_Selection : Z := 0x2E.
Definition CipObject_SDeviceSupervisor : Z := 0x30.
Definition CipObject_SAnalogSensor : Z := 0x31.
Definition CipObject_SAnalogActuator : Z := 0x32.
Definition CipObject_SSingleStageController : Z := 0x33.
Definition CipObject_SGasCalibration : Z := 0x34.
Definition CipObject_TripPoint : Z := 0x35.
Definition CipObject_File : Z := 0x37.
Definition CipObject_Symbol : Z := 0x6B.
Definition CipObject_Template : Z := 0x6C.
Definition CipObject_ConnectionConfig : Z := 0xF3.
Definition CipObject_OriginatorConnList : Z := 0x45.
Definition CipObject_Port : Z := 0xF4.
Definition CipObject_BaseEnergy : Z := 0x4E.
Definition CipObject_ElectricalEnergy : Z := 0x4F.
Definition CipObject_EventLog : Z := 0x41.
Definition CipObject_MotionAxis : Z := 0x42.
Definition CipObject_NonElectricalEnergy : Z := 0x50.
Definition CipObject_PowerCurtailment : Z := 0x5C.
Definition CipObject_PowerManagement : Z := 0x53.
Definition CipObject_SPartialPressure : Z := 0x38.
Definition CipObject_SSensorCalibration : Z := 0x40.
Definition CipObject_SafetyAnalogInputGroup : Z := 0x4A.
Definition CipObject_SafetyAnalogInputPoint : Z := 0x49.
Definition CipObject_SafetyDualChannelFeedback : Z := 0x59.
Definition CipObject_SafetyFeedback : Z := 0x5A.
Definition CipObject_SafetyDiscreteInputGroup : Z := 0x3E.
Definition CipObject_SafetyDiscreteInputPoint : Z := 0xeD.
Definition CipObject_SafetyDiscreteOutputGroup : Z := 0x3C.
Definition CipObject_SafetyDiscreteOutputPoint : Z := 0x3B.
Definition CipObject_SafetyDualChannelAnalogInput : Z := 0x4B.
Definition CipObject_SafetyDualChannelOutput : Z := 0x3F.
Definition CipObject_SafetyLimitFunctions : Z := 0x5B.
Definition CipObject_SafetyStopFunctions : Z := 0x5A.
Definition CipObject_SafetySupervisor : Z := 0x39.
Definition CipObject_SafetyValidator : Z := 0x3A.
Definition CipObject_TargetConnectionList : Z := 0x4D.
Definition CipObject_TimeSync : Z := 0x43.
Definition CipObject_BaseSwitch : Z := 0x51.
Definition CipObject_CompoNetLink : Z := 0xF7.
Definition CipObject_CompoNetRepeater : Z := 0xF8.
Definition CipObject_ControlNet : Z := 0xF0.
Definition CipObject_ControlNetKeeper : Z := 0xF1.
Definition CipObject_ControlNetScheduling : Z := 0xF2.
Definition CipObject_DLR : Z := 0x47.
Definition CipObject_EthernetLink : Z := 0xF6.
Definition CipObject_Modbus : Z := 0x44.
Definition CipObject_ModbusSerial : Z := 0x46.
Definition CipObject_ParallelRedundancyProtocol : Z := 0x56.
Definition CipObject_PRPNodesTable : Z := 0x57.
Definition CipObject_SERCOSIIILink : Z := 0x4C.
Definition CipObject_SNMP : Z := 0x52.
Definition CipObject_QoS : Z := 0x48.
Definition CipObject_RSTPBridge : Z := 0x54.
Definition CipObject_RSTPPort : Z := 0x55.
Definition CipObject_TCPIP : Z := 0xF5.
Definition CipObject_PCCC : Z := 0x67.
Definition CipObject_IOClass : Z := 0x69.
Definition CipObject_Programs : Z := 0x68.
Definition CipObject_TIME : Z := 0x8B.
Definition CipObject_ControllerInfo : Z := 0xAC.
Definition CipObject_RunMode : Z := 0x8E.
Definition CipObject_Messages : Z := 0x8D.
Definition CipObject_DPIDevice : Z := 0x92.
Definition CipObject_DPIParams : Z := 0x93.
Definition CipObject_DPIFault : Z := 0x97.
Definition CipObject_DataTable : Z := 0xB2.

(** ** CIPStatus *)

Definition CIPStatus_OK : Z := 0x00.
Definition CIPStatus_ConnectionFailure : Z := 0x01.
Definition CIPStatus_ResourceUnavailable : Z := 0x02.
Definition CIPStatus_InvalidParameterValue : Z := 0x03.
Definition CIPStatus_PathSegmentError : Z := 0x04.
Definition CIPStatus_PathDestinationUnknown : Z := 0x05.
Definition CIPStatus_PartialTransfer : Z := 0x06.
Definition CIPStatus_ConnectionLost : Z := 0x07.
Definition CIPStatus_ServiceNotSupported : Z := 0x08.
Definition CIPStatus_InvalidAttributeValue : Z := 0x09.
Definition CIPStatus_AttributeListError : Z := 0x0A.
Definition CIPStatus_AlreadyInRequestedMode : Z := 0x0B.
Definition CIPStatus_ObjectStateConflict : Z := 0x0C.
Definition CIPStatus_ObjectAlreadyExists : Z := 0x0D.
Definition CIPStatus_AttributeNotSettable : Z := 0x0E.
Definition CIPStatus_PrivilegeViolation : Z := 0x0F.
Definition CIPStatus_DeviceStateConflict : Z := 0x10.
Definition CIPStatus_ReplyDataTooLarge : Z := 0x11.
Definition CIPStatus_FragmentationOfMessage : Z := 0x12.
Definition CIPStatus_NotEnoughData : Z := 0x13.
Definition CIPStatus_AttributeNotSupported : Z := 0x14.
Definition CIPStatus_TooMuchData : Z := 0x15.
Definition CIPStatus_ObjectDoesNotExist : Z := 0x16.
Definition CIPStatus_ServiceFragmentation : Z := 0x17.
Definition CIPStatus_NoStoredAttributeData : Z := 0x18.
Definition CIPStatus_StoreOperationFailure : Z := 0x19.
Definition CIPStatus_RoutingFailureReqTooLarge : Z := 0x1A.
Definition CIPStatus_RoutingFailureRespTooLarge : Z := 0x1B.
Definition CIPStatus_MissingAttributeListEntry : Z := 0x1C.
Definition CIPStatus_InvalidAttributeValueList : Z := 0x1D.
Definition CIPStatus_EmbeddedServiceError : Z := 0x1E.
Definition CIPStatus_VendorSpecificError : Z := 0x1F.
Definition CIPStatus_InvalidParameter : Z := 0x20.
Definition CIPStatus_WriteOnceValueOrMedium : Z := 0x21.
Definition CIPStatus_InvalidReplyReceived : Z := 0x22.
Definition CIPStatus_BufferOverflow : Z := 0x23.
Definition CIPStatus_MessageFormatError : Z := 0x24.
Definition CIPStatus_KeyFailure : Z := 0x25.
Definition CIPStatus_PathSizeInvalid : Z := 0x26.
Definition CIPStatus_UnexpectedAttribInList : Z := 0x27.
Definition CIPStatus_InvalidMemberID : Z := 0x28.
Definition CIPStatus_MemberNotSettable : Z := 0x29.
Definition CIPStatus_Group2OnlyServerGeneralFailure : Z := 0x2A.
Definition CIPStatus_UnknownModbusError : Z := 0x2B.
Definition CIPStatus_AttributeNotGettable : Z := 0x2C.

Definition CIPStatus_String (s : Z) : string :=
  switch s [
    (CIPStatus_OK, "OK"%string);
    (CIPStatus_ConnectionFailure, "Connection failure - A connection related service failed along the connection path."%string);
    (CIPStatus_ResourceUnavailable, "Resource unavailable - Resources needed for the object to perform the requested service were unavailable"%string);
    (CIPStatus_InvalidParameterValue, "InvalidParameterValue"%string);
    (CIPStatus_PathSegmentError, "Path segment error - The path segment identifier or the segment syntax was not understood by the processing node."%string);
    (CIPStatus_PathDestinationUnknown, "Path destination unknown - The path is referencing an object class, instance or structure element that is not known or is not contained in the processing node. Path processing shall stop when a path destination unknown error is encountered"%string);
    (CIPStatus_PartialTransfer, "PartialTransfer"%string);
    (CIPStatus_ConnectionLost, "ConnectionLost"%string);
    (CIPStatus_ServiceNotSupported, "Service not supported - The requested service was not implemented or was not defined for this Object Class/Instance"%string);
    (CIPStatus_InvalidAttributeValue, "Invalid attribute value - Invalid attribute data detected"%string);
    (CIPStatus_AttributeListError, "AttributeListError"%string);
    (CIPStatus_AlreadyInRequestedMode, "AlreadyInRequestedMode"%string);
    (CIPStatus_ObjectStateConflict, "ObjectStateConflict"%string);
    (CIPStatus_ObjectAlreadyExists, "ObjectAlreadyExists"%string);
    (CIPStatus_AttributeNotSettable, "Attribute not settable - A request to modify a non-modifiable attribute was received."%string);
    (CIPStatus_PrivilegeViolation, "PrivilegeViolation"%string);
    (CIPStatus_DeviceStateConflict, "DeviceStateConflict"%string);
    (CIPStatus_ReplyDataTooLarge, "ReplyDataTooLarge"%string);
    (CIPStatus_FragmentationOfMessage, "FragmentationOfMessage"%string);
    (CIPStatus_NotEnoughData, "Not enough data - The service did not supply enough data to perform the specified operation"%string);
    (CIPStatus_AttributeNotSupported, "Attribute not supported - The attribute specified in the request is not supported"%string);
    (CIPStatus_TooMuchData, "Too much data - The service supplied more data than was expected"%string);
    (CIPStatus_ObjectDoesNotExist, "Object does not exist - The object specified does not exist in the device."%string);
    (CIPStatus_ServiceFragmentation, "ServiceFragmentation"%string);
    (CIPStatus_NoStoredAttributeData, "NoStoredAttributeData"%string);
    (CIPStatus_StoreOperationFailure, "StoreOperationFailure"%string);
    (CIPStatus_RoutingFailureReqTooLarge, "RoutingFailureReqTooLarge"%string);
    (CIPStatus_RoutingFailureRespTooLarge, "RoutingFailureRespTooLarge"%string);
    (CIPStatus_MissingAttributeListEntry, "MissingAttributeListEntry"%string);
    (CIPStatus_InvalidAttributeValueList, "InvalidAttributeValueList"%string);
    (CIPStatus_EmbeddedServiceError, "EmbeddedServiceError"%string);
    (CIPStatus_VendorSpecificError, "VendorSpecificError"%string);
    (CIPStatus_InvalidParameter, "Invalid parameter - A parameter associated with the request was invalid. This code is used when a parameter does not meet the requirements of this specification and/or the requirements defined in an Application Object Specification"%string);
    (CIPStatus_WriteOnceValueOrMedium, "WriteOnceValueOrMedium"%string);
    (CIPStatus_InvalidReplyReceived, "InvalidReplyReceived"%string);
    (CIPStatus_BufferOverflow, "BufferOverflow"%string);
    (CIPStatus_MessageFormatError, "MessageFormatError"%string);
    (CIPStatus_KeyFailure, "KeyFailure"%string);
    (CIPStatus_PathSizeInvalid, "Path size invalid - The size of the path which was sent with the Service Request is either not large enough to allow the Request to be routed to an object or too much routing data was included"%string);
    (CIPStatus_UnexpectedAttribInList, "UnexpectedAttribInList"%string);
    (CIPStatus_InvalidMemberID, "InvalidMemberID"%string);
    (CIPStatus_MemberNotSettable, "MemberNotSettable"%string);
    (CIPStatus_Group2OnlyServerGeneralFailure, "Group2OnlyServerGeneralFailure"%string);
    (CIPStatus_UnknownModbusError, "UnknownModbusError"%string);
    (CIPStatus_AttributeNotGettable, "AttributeNotGettable"%string)
  ] (if (0x2C <? s) && (s <? 0xD0)
     then "Unknown Error: 0x"%string +:+ hex_upper s +:+ " (reserved by CIP for future extensions)"
     else "Unknown CIPStatus: 0x"%string +:+ hex_upper s +:+ " (reserved for object class and service errors)").

(** ** CIPExtendedStatus *)

Definition CIPExtendedStatus_BeginningOffsetBeyondTemplateEnd : Z := 0x2104.
Definition CIPExtendedStatus_AccessBeyondDataObjectEnd : Z := 0x2105.
Definition CIPExtendedStatus_DataInUse : Z := 0x2106.
Definition CIPExtendedStatus_AbbreviatedTypeMismatch : Z := 0x2107.
Definition CIPExtendedStatus_ConnectionInUseOrDuplicateForwardOpen : Z := 0x0100.
Definition CIPExtendedStatus_TransportClassTriggerCombinationNotSupported : Z := 0x0103.
Definition CIPExtendedStatus_OwnershipConflict : Z := 0x0106.
Definition CIPExtendedStatus_ConnectionNotFoundAtTargetApplication : Z := 0x0107.
Definition CIPExtendedStatus_InvalidConnectionType : Z := 0x0108.
Definition CIPExtendedStatus_InvalidConnectionSize : Z := 0x0109.
Definition CIPExtendedStatus_DeviceNotConfigured : Z := 0x0110.
Definition CIPExtendedStatus_RPINotSupported : Z := 0x0111.
Definition CIPExtendedStatus_ConnectionManagerCannotSupportMoreConnections : Z := 0x0113.
Definition CIPExtendedStatus_KeySegmentVendorIDOrProductCodeMismatch : Z := 0x0114.
Definition CIPExtendedStatus_KeySegmentProductTypeMismatch : Z := 0x0115.
Definition CIPExtendedStatus_KeySegmentRevisionMismatch : Z := 0x0116.
Definition CIPExtendedStatus_InvalidConnectionPoint : Z := 0x0117.
Definition CIPExtendedStatus_InvalidConfigurationFormat : Z := 0x0118.
Definition CIPExtendedStatus_NoControllingConnectionOpen : Z := 0x0119.
Definition CIPExtendedStatus_TargetApplicationCannotSupportMoreConnections : Z := 0x011A.
Definition CIPExtendedStatus_RPISmallerThanProductionInhibitTime : Z := 0x011B.
Definition CIPExtendedStatus_ConnectionTimedOutBeforeClose : Z := 0x0203.
Definition CIPExtendedStatus_UnconnectedSendTimedOut : Z := 0x0204.
Definition CIPExtendedStatus_UnconnectedSendParameterError : Z := 0x0205.
Definition CIPExtendedStatus_UnconnectedMessageTooLarge : Z := 0x0206.
Definition CIPExtendedStatus_UnconnectedAcknowledgeWithoutReply : Z := 0x0207.
Definition CIPExtendedStatus_NoBufferMemoryAvailable : Z := 0x0301.
Definition CIPExtendedStatus_NetworkBandwidthNotAvailable : Z := 0x0302.
Definition CIPExtendedStatus_NoTagFiltersAvailable : Z := 0x0303.
Definition CIPExtendedStatus_NotConfiguredToSendRealTimeData : Z := 0x0304.
Definition CIPExtendedStatus_PortSegmentNotAvailable : Z := 0x0311.
Definition CIPExtendedStatus_LinkAddressPortSegmentNotAvailable : Z := 0x0312.
Definition CIPExtendedStatus_InvalidPathSegmentTypeOrValue : Z := 0x0315.
Definition CIPExtendedStatus_PathAndConnectionNotEqualInClose : Z := 0x0316.
Definition CIPExtendedStatus_NetworkSegmentMissingOrInvalid : Z := 0x0317.
Definition CIPExtendedStatus_LinkAddressToSelfInvalid : Z := 0x0318.
Definition CIPExtendedStatus_ResourcesOnSecondaryUnavailable : Z := 0x0319.
Definition CIPExtendedStatus_ConnectionAlreadyEstablished : Z := 0x031A.
Definition CIPExtendedStatus_DirectConnectionAlreadyEstablished : Z := 0x031B.
Definition CIPExtendedStatus_Miscellaneous : Z := 0x031C.
Definition CIPExtendedStatus_RedundantConnectionMismatch : Z := 0x031D.

Definition CIPExtendedStatus_String (s : Z) : string :=
  switch s [
    (CIPExtendedStatus_BeginningOffsetBeyondTemplateEnd, "The beginning offset was beyond the end of the template."%string);
    (CIPExtendedStatus_AccessBeyondDataObjectEnd, "You have tried to access beyond the end of the data object."%string);
    (CIPExtendedStatus_DataInUse, "Data in use."%string);
    (CIPExtendedStatus_AbbreviatedTypeMismatch, "The abbreviated type does not match the data type of the data object."%string);
    (CIPExtendedStatus_ConnectionInUseOrDuplicateForwardOpen, "Connection in Use or Duplicate Forward Open."%string);
    (CIPExtendedStatus_TransportClassTriggerCombinationNotSupported, "Transport Class and Trigger combination not supported."%string);
    (CIPExtendedStatus_OwnershipConflict, "Ownership Conflict."%string);
    (CIPExtendedStatus_ConnectionNotFoundAtTargetApplication, "Connection not found at target application."%string);
    (CIPExtendedStatus_InvalidConnectionType, "Invalid Connection Type. Indicates a problem with either the Connection Type or Priority of the Connection."%string);
    (CIPExtendedStatus_InvalidConnectionSize, "Invalid Connection Size."%string);
    (CIPExtendedStatus_DeviceNotConfigured, "Device not configured"%string);
    (CIPExtendedStatus_RPINotSupported, "RPI not supported. May also indicate problem with connection time-out multiplier."%string);
    (CIPExtendedStatus_ConnectionManagerCannotSupportMoreConnections, "Connection Manager cannot support any more connections."%string);
    (CIPExtendedStatus_KeySegmentVendorIDOrProductCodeMismatch, "Either the Vendor ID or the Product Code in the key segment did not match the device."%string);
    (CIPExtendedStatus_KeySegmentProductTypeMismatch, "Product Type in the key segment did not match the device."%string);
    (CIPExtendedStatus_KeySegmentRevisionMismatch, "Major or Minor Revision information in the key segment did not match the device."%string);
    (CIPExtendedStatus_InvalidConnectionPoint, "Invalid Connection Point."%string);
    (CIPExtendedStatus_InvalidConfigurationFormat, "Invalid Configuration Format."%string);
    (CIPExtendedStatus_NoControllingConnectionOpen, "Connection request fails since there is no controlling connection currently open."%string);
    (CIPExtendedStatus_TargetApplicationCannotSupportMoreConnections, "Target Application cannot support any more connections."%string);
    (CIPExtendedStatus_RPISmallerThanProductionInhibitTime, "RPI is smaller than the Production Inhibit Time."%string);
    (CIPExtendedStatus_ConnectionTimedOutBeforeClose, "Connection cannot be closed since the connection has timed out."%string);
    (CIPExtendedStatus_UnconnectedSendTimedOut, "Unconnected Send timed out waiting for a response."%string);
    (CIPExtendedStatus_UnconnectedSendParameterError, "Parameter Error in Unconnected Send Service."%string);
    (CIPExtendedStatus_UnconnectedMessageTooLarge, "Message too large for Unconnected message service."%string);
    (CIPExtendedStatus_UnconnectedAcknowledgeWithoutReply, "Unconnected acknowledge without reply."%string);
    (CIPExtendedStatus_NoBufferMemoryAvailable, "No buffer memory available."%string);
    (CIPExtendedStatus_NetworkBandwidthNotAvailable, "Network Bandwidth not available for data."%string);
    (CIPExtendedStatus_NoTagFiltersAvailable, "No Tag filters available."%string);
    (CIPExtendedStatus_NotConfiguredToSendRealTimeData, "Not Configured to send real-time data."%string);
    (CIPExtendedStatus_PortSegmentNotAvailable, "Port specified in Port Segment Not Available."%string);
    (CIPExtendedStatus_LinkAddressPortSegmentNotAvailable, "Link Address specified in Port Segment Not Available."%string);
    (CIPExtendedStatus_InvalidPathSegmentTypeOrValue, "Invalid Segment Type or Segment Value in Path."%string);
    (CIPExtendedStatus_PathAndConnectionNotEqualInClose, "Path and Connection not equal in close."%string);
    (CIPExtendedStatus_NetworkSegmentMissingOrInvalid, "Either Segment not present or Encoded Value in Network Segment is invalid."%string);
    (CIPExtendedStatus_LinkAddressToSelfInvalid, "Link Address to Self Invalid."%string);
    (CIPExtendedStatus_ResourcesOnSecondaryUnavailable, "Resources on Secondary Unavailable."%string);
    (CIPExtendedStatus_ConnectionAlreadyEstablished, "Connection already established."%string);
    (CIPExtendedStatus_DirectConnectionAlreadyEstablished, "Direct connection already established."%string);
    (CIPExtendedStatus_Miscellaneous, "Miscellaneous."%string);
    (CIPExtendedStatus_RedundantConnectionMismatch, "Redundant connection mismatch."%string)
  ] ("Unknown CIPExtendedStatus: 0x"%string +:+ hex_pad 4 s).

(** ** CIPService *)

Definition CIPService_GetAttributeAll : Z := 0x01.
Definition CIPService_SetAttributeAll : Z := 0x02.
Definition CIPService_GetAttributeList : Z := 0x03.
Definition CIPService_SetAttributeList : Z := 0x04.
Definition CIPService_Reset : Z := 0x05.
Definition CIPService_Start : Z := 0x06.
Definition CIPService_Stop : Z := 0x07.
Definition CIPService_Create : Z := 0x08.
Definition CIPService_Delete : Z := 0x09.
Definition CIPService_MultipleService : Z := 0x0A.
Definition CIPService_ApplyAttributes : Z := 0x0D.
Definition CIPService_GetAttributeSingle : Z := 0x0E.
Definition CIPService_SetAttributeSingle : Z := 0x10.
Definition CIPService_FindNextObjectInstance : Z := 0x11.
Definition CIPService_ErrorResponse : Z := 0x14.
Definition CIPService_Restore : Z := 0x15.
Definition CIPService_Save : Z := 0x16.
Definition CIPService_NOP : Z := 0x17.
Definition CIPService_GetMember : Z := 0x18.
Definition CIPService_SetMember : Z := 0x19.
Definition CIPService_InsertMember : Z := 0x1A.
Definition CIPService_RemoveMember : Z := 0x1B.
Definition CIPService_GroupSync : Z := 0x1C.
Definition CIPService_GetMemberList : Z := 0x1D.
Definition CIPService_ScatteredRead : Z := 0x32.
Definition CIPService_ScatteredWrite : Z := 0x34.
Definition CIPService_GetInstanceList : Z := 0x4B.
Definition CIPService_GetEnumString : Z := 0x4B.
Definition CIPService_ExecutePCCC : Z := 0x4B.
Definition CIPService_Read : Z := 0x4C.
Definition CIPService_ExecuteDHPlus : Z := 0x4C.
Definition CIPService_Write : Z := 0x4D.
Definition CIPService_ForwardClose : Z := 0x4E.
Definition cipService_ReadModWrite : Z := 0x4E.
Definition CIPService_RemoveTagFromBuffer : Z := 0x4F.
Definition CIPService_GetConnectionOwner : Z := 0x5A.
Definition CIPService_ForwardOpen : Z := 0x54.
Definition CIPService_LargeForwardOpen : Z := 0x5B.
Definition CIPService_FragRead : Z := 0x52.
Definition CIPService_FragWrite : Z := 0x53.
Definition CIPService_GetInstanceAttributeList : Z := 0x55.
Definition CIPService_GetConnectionData : Z := 0x57.

Definition CIPService_String (s : Z) : string :=
  switch s [
    (CIPService_GetAttributeAll, "cipService_GetAttributeAll"%string);
    (CIPService_SetAttributeAll, "cipService_SetAttributeAll"%string);
    (CIPService_GetAttributeList, "cipService_GetAttributeList"%string);
    (CIPService_SetAttributeList, "cipService_SetAttributeList"%string);
    (CIPService_Reset, "cipService_Reset"%string);
    (CIPService_Start, "cipService_Start"%string);
    (CIPService_Stop, "cipService_Stop"%string);
    (CIPService_Create, "cipService_Create"%string);
    (CIPService_Delete, "cipService_Delete"%string);
    (CIPService_MultipleService, "cipService_MultipleService"%string);
    (CIPService_ApplyAttributes, "cipService_ApplyAttributes"%string);
    (CIPService_GetAttributeSingle, "cipService_GetAttributeSingle"%string);
    (CIPService_SetAttributeSingle, "cipService_SetAttributeSingle"%string);
    (CIPService_FindNextObjectInstance, "cipService_FindNextObjectInstance"%string);
    (CIPService_Restore, "cipService_Restore"%string);
    (CIPService_Save, "cipService_Save"%string);
    (CIPService_NOP, "cipService_NOP"%string);
    (CIPService_GetMember, "cipService_GetMember"%string);
    (CIPService_SetMember, "cipService_SetMember"%string);
    (CIPService_InsertMember, "cipService_InsertMember"%string);
    (CIPService_RemoveMember, "cipService_RemoveMember"%string);
    (CIPService_GroupSync, "cipService_GroupSync"%string);
    (CIPService_GetMemberList, "cipService_GetMemberList"%string);
    (CIPService_Read, "cipService_Read"%string);
    (CIPService_Write, "cipService_Write"%string);
    (CIPService_ForwardClose, "cipService_ForwardClose"%string);
    (CIPService_GetConnectionOwner, "cipService_GetConnectionOwner"%string);
    (CIPService_ForwardOpen, "cipService_ForwardOpen"%string);
    (CIPService_LargeForwardOpen, "cipService_LargeForwardOpen"%string);
    (CIPService_FragRead, "cipService_FragRead"%string);
    (CIPService_FragWrite, "cipService_FragWrite"%string);
    (CIPService_GetInstanceAttributeList, "cipService_GetInstanceAttributeList"%string);
    (CIPService_GetConnectionData, "cipService_GetConnectionData"%string)
  ] ("unknown service "%string +:+ dec_string s).

(** ** CIPCommand *)

Definition cipCommand_NOP : Z := 0x00.
Definition cipCommandListServices : Z := 0x04.
Definition cipPCCCConnectedExplicit : Z := 0x0A.
Definition cipPCCCUnconnectedExplicit : Z := 0x0B.
Definition cipCommandListIdentity : Z := 0x63.
Definition cipCommandListInterfaces : Z := 0x64.
Definition cipCommandSendUnregistered : Z := 0x52.
Definition cipCommandRegisterSession : Z := 0x65.
Definition cipCommandUnRegisterSession : Z := 0x66.
Definition cipCommandSendRRData : Z := 0x6F.
Definition cipCommandSendUnitData : Z := 0x70.
Definition cipCommandIndicateStatus : Z := 0x72.
Definition cipCommandCancel : Z := 0x73.
