(* ===== verification/VendorNames.v ===== *)
(** * The CIP vendors (vendors.go)

    The table of vendor names, in the order of the source, in parts. *)
From Stdlib Require Import Ascii String.
From S2P Require Import Prelude CipNames.

(** ** cipVendorNames *)

Definition cipVendorNames_1 : list (Z * string) := [
  (1, "Rockwell Automation/Allen-Bradley"%string);
  (2, "Namco Controls Corp."%string);
  (3, "Honeywell International Inc."%string);
  (4, "Parker Hannifin Corporation"%string);
  (5, "Rockwell Automation/Reliance Elec."%string);
  (6, "Reserved"%string);
  (7, "SMC Corporation"%string);
  (8, "Molex Incorporated"%string);
  (9, "Western Reserve Controls Inc."%string);
  (10, "Advanced Micro Controls Inc. (AMCI)"%string);
  (11, "ASCO Pneumatic Controls"%string);
  (12, "Banner Engineering Corporation"%string);
  (13, "Belden Wire & Cable Company"%string);
  (14, "Cooper Interconnect"%string);
  (16, "Daniel Woodhead Co."%string);
  (17, "Dearborn Group Inc."%string);
  (18, "Reserved"%string);
  (19, "Helm Instrument Company"%string);
  (20, "Huron Net Works"%string);
  (21, "Belden Deutschland GmbH"%string);
  (22, "Online Development, Inc. (OLDI)"%string);
  (23, "Vorne Industries, Inc."%string);
  (24, "ODVA"%string);
  (25, "Reserved"%string);
  (26, "Festo"%string);
  (27, "Reserved"%string);
  (28, "Reserved"%string);
  (30, "Unico, Inc."%string);
  (31, "Ross Controls"%string);
  (33, "Reserved"%string);
  (34, "Hohner Corp."%string);
  (35, "Micro Mo Electronics, Inc."%string);
  (36, "MKS Instruments, Inc."%string);
  (37, "Yaskawa Electric America formerly Magnetek Drives"%string);
  (38, "Reserved"%string);
  (39, "AVG Automation (Uticor)"%string);
  (40, "WAGO Corporation"%string);
  (41, "Celerity, Inc."%string);
  (42, "IMI Norgren Limited"%string);
  (43, "BALLUFF"%string);
  (44, "Yaskawa America, Inc."%string);
  (45, "Eurotherm by Schneider Electric"%string);
  (46, "ABB, Inc."%string);
  (47, "Omron Corporation"%string);
  (48, "TURCK"%string);
  (49, "Grayhill Inc."%string);
  (50, "Real Time Automation"%string);
  (51, "Reserved"%string);
  (52, "ASCO Numatics"%string);
  (53, "LÃœTZE"%string);
  (54, "Reserved"%string);
  (55, "Reserved"%string);
  (56, "Softing"%string);
  (57, "Pepperl+Fuchs"%string);
  (58, "Spectrum Controls, Inc."%string);
  (59, "D.I.P. Inc. MKS Inst."%string);
  (60, "Applied Motion Products, Inc."%string);
  (61, "Sencon Inc."%string);
  (62, "High Country Tek"%string);
  (63, "SWAC Automation Consult GmbH"%string);
  (64, "Clippard Instrument Laboratory"%string);
  (65, "Reserved"%string);
  (66, "Reserved"%string);
  (67, "Reserved"%string);
  (68, "Eaton Electrical"%string);
  (69, "Reserved"%string);
  (70, "Reserved"%string);
  (71, "Toshiba Corporation"%string);
  (72, "Control Technology Incorporated"%string);
  (73, "TCS (NZ) Ltd."%string);
  (74, "Hitachi, Ltd."%string);
  (75, "ABB Robotics"%string);
  (76, "NKE Corporation"%string);
  (77, "Rockwell Software, Inc."%string);
  (78, "Escort Memory Systems (A Datalogic Group Co.)"%string);
  (79, "Leviton"%string);
  (80, "Industrial Devices Corporation"%string);
  (81, "IXXAT Automation GmbH"%string);
  (82, "Mitsubishi Electric Automation, Inc."%string);
  (83, "OPTO 22"%string);
  (84, "Reserved"%string);
  (85, "Reserved"%string);
  (86, "Horner Electric"%string);
  (87, "Buerkert Fluid Control Systems"%string);
  (88, "Reserved"%string);
  (89, "Industrial Indexing Systems, Inc."%string);
  (90, "HMS Networks"%string);
  (91, "Robicon"%string);
  (92, "Helix Technology (Granville-Phillips)"%string);
  (93, "Arlington Laboratory"%string);
  (94, "Advantech Corporation"%string);
  (95, "Square D Company"%string);
  (96, "Digital Electronics Corp."%string);
  (97, "Danfoss Drives A/S"%string);
  (98, "Reserved"%string);
  (99, "Reserved"%string);
  (100, "AVENTICS"%string);
  (101, "Applied Materials, Inc."%string);
  (102, "SWCC Showa Cable Systems Co., Ltd."%string);
  (103, "Pacific Scientific (API Controls Inc.)"%string);
  (104, "Sharp Manufacturing Systems Corporation"%string);
  (105, "Olflex Wire & Cable, Inc."%string);
  (106, "Reserved"%string);
  (107, "Unitrode"%string);
  (108, "Beckhoff Automation"%string);
  (109, "National Instruments"%string);
  (110, "Mykrolis Corporation (Millipore)"%string);
  (111, "International Motion Controls Corp."%string);
  (112, "Reserved"%string);
  (113, "SEG Kempen GmbH"%string);
  (114, "Reserved"%string);
  (115, "Reserved"%string);
  (116, "Temposonics, LLC"%string);
  (117, "Krones, Inc"%string);
  (119, "EXOR Electronic R & D"%string);
  (120, "SIEI S.p.A."%string);
  (121, "KUKA Deutschland GmbH"%string);
  (122, "Reserved"%string);
  (123, "SEC (Samsung Electronics Co., Ltd)"%string);
  (124, "Binary Electronics Ltd"%string);
  (125, "Flexible Machine Controls"%string);
  (126, "Reserved"%string);
  (127, "ABB Inc. (Entrelec)"%string);
  (128, "MAC Valves, Inc."%string);
  (129, "AUMA Riester GmbH & Co. KG"%string);
  (130, "JTEKT Corporation"%string);
  (131, "Reserved"%string);
  (132, "Reserved"%string);
  (133, "Balogh T.A.G., Corporation"%string);
  (134, "TR Electronic"%string);
  (135, "UNIPULSE Corporation"%string);
  (136, "Reserved"%string);
  (137, "Reserved"%string);
  (138, "Conxall Corporation Inc."%string);
  (139, "Reserved"%string);
  (140, "Reserved"%string);
  (141, "Kuramo Electric Co., Ltd."%string);
  (142, "Creative Micro Designs"%string);
  (143, "GE Industrial Systems"%string);
  (144, "Leybold GmbH"%string);
  (145, "Siemens Energy & Automation/Drives"%string);
  (146, "Kodensha Ltd"%string);
  (147, "Motion Engineering, Inc."%string);
  (148, "Honda Engineering Co., Ltd"%string);
  (149, "EIM Valve Controls"%string)
].

Definition cipVendorNames_2 : list (Z * string) := [
  (150, "Melec Inc."%string);
  (151, "Sony Manufacturing Systems Corporation"%string);
  (152, "North American Mfg."%string);
  (153, "Watlow"%string);
  (154, "Japan Radio Co., Ltd"%string);
  (155, "NADEX Co., Ltd"%string);
  (156, "Ametek Automation & Process Technologies"%string);
  (157, "Facts, Inc."%string);
  (158, "KVASER AB"%string);
  (159, "IDEC Corporation"%string);
  (160, "Mitsubishi Heavy Industries Ltd"%string);
  (161, "Mitsubishi Electric Corporation"%string);
  (162, "HORIBA STEC, Co., Ltd."%string);
  (163, "esd electronics gmbh"%string);
  (164, "DAIHEN Corporation"%string);
  (165, "Tyco Valves & Controls/Keystone"%string);
  (166, "EBARA Corporation"%string);
  (168, "Reserved"%string);
  (169, "Hokuyo Automatic Co., Ltd."%string);
  (170, "Pyramid Solutions, Inc."%string);
  (171, "Denso Wave Incorporated"%string);
  (172, "HLS Hard-Line Solutions Inc"%string);
  (173, "Caterpillar, Inc."%string);
  (174, "PDL Electronics Ltd."%string);
  (175, "Reserved"%string);
  (176, "Red Lion"%string);
  (177, "CANON ANELVA Corporation"%string);
  (178, "Toyo Denki Seizo KK"%string);
  (179, "Sanyo Denki Co., Ltd."%string);
  (180, "Hitachi Metals, Ltd. (formerly Advanced Energy Japan K.K.)"%string);
  (181, "Pilz GmbH & Co KG"%string);
  (182, "Marsh Bellofram-Bellofram PCD Division"%string);
  (183, "Reserved"%string);
  (184, "M-SYSTEM Co., Ltd."%string);
  (185, "Nissin Electric Co., Ltd."%string);
  (186, "Hitachi Metals Ltd."%string);
  (187, "Oriental Motor Co., Ltd"%string);
  (188, "A&D Company Limited"%string);
  (189, "Phasetronics, Inc."%string);
  (190, "Cummins Engine Company"%string);
  (191, "Deltron Inc."%string);
  (192, "Geneer Corporation"%string);
  (193, "Anatol Automation, Inc."%string);
  (194, "Reserved"%string);
  (195, "Reserved"%string);
  (196, "Medar, Inc."%string);
  (197, "XP Power LLC"%string);
  (198, "Advanced Energy Industries, Inc."%string);
  (199, "Reserved"%string);
  (200, "DAIDEN Co., Ltd"%string);
  (201, "CKD Corporation"%string);
  (202, "Toyo Electric Corporation"%string);
  (203, "Reserved"%string);
  (204, "AuCom Electronics Ltd"%string);
  (205, "Sinfonia Technology Co., Ltd."%string);
  (206, "Vector Informatik GmbH"%string);
  (207, "Reserved"%string);
  (208, "Moog Inc."%string);
  (209, "Contemporary Controls"%string);
  (210, "Tokyo Sokki Kenkyujo Co., Ltd"%string);
  (211, "Schenck Process Group"%string);
  (212, "The Oilgear Company"%string);
  (213, "Reserved"%string);
  (214, "ASM Japan K.K."%string);
  (215, "HIRATA Corp."%string);
  (216, "Panasonic Industrial Devices SUNX Co., Ltd."%string);
  (217, "Meidensha Corporation"%string);
  (218, "NIDEC SANKYO CORPORATION (Sankyo Seiki Mfg. Co., Ltd)"%string);
  (219, "KAMRO Corp."%string);
  (220, "NSD Co., Ltd."%string);
  (221, "EBARA Technologies Inc."%string);
  (222, "Reserved"%string);
  (223, "Reserved"%string);
  (224, "SG Co., Ltd"%string);
  (225, "Vaasa Institute of Technology"%string);
  (226, "MKS Instruments (ENI Technology)"%string);
  (227, "Tateyama System Laboratory Co., Ltd."%string);
  (228, "QLOG Corporation"%string);
  (229, "Matric Limited Inc."%string);
  (230, "NSD Corporation"%string);
  (231, "Reserved"%string);
  (232, "Sumitomo Wiring Systems, Ltd"%string);
  (233, "Group 3 Technology Ltd"%string);
  (234, "CTI Cryogenics"%string);
  (235, "POLSYS CORP"%string);
  (236, "Ampere Inc."%string);
  (237, "Reserved"%string);
  (238, "Simplatroll Ltd"%string);
  (239, "Reserved"%string);
  (240, "Reserved"%string);
  (241, "Leading Edge Design"%string);
  (242, "Humphrey Products"%string);
  (243, "Schneider Electric"%string);
  (244, "Westlock Controls Corp."%string);
  (245, "Nihon Weidmuller Co., Ltd"%string);
  (246, "Brooks Instrument"%string);
  (247, "Reserved"%string);
  (248, "Eaton Industries GmbH (formerly Moeller GmbH)"%string);
  (249, "Varian Vacuum Products"%string);
  (250, "Yokogawa Electric Corporation"%string);
  (251, "Electrical Design Daiyu Co., Ltd"%string);
  (252, "Omron Software Co., Ltd."%string);
  (253, "EDWARDS"%string);
  (254, "Control Technology Corporation"%string);
  (255, "Bosch Rexroth"%string);
  (256, "TURCK (formerly InterlinkBT)"%string);
  (257, "Control Techniques PLC"%string);
  (258, "Hardy Process Solutions"%string);
  (259, "LS ELECTRIC"%string);
  (260, "E.O.A. Systems Inc."%string);
  (261, "Reserved"%string);
  (262, "New Cosmos Electric Co., Ltd."%string);
  (263, "Sense Sense Eletronica LTDA"%string);
  (264, "Xycom, Inc."%string);
  (265, "Baldor Electric"%string);
  (266, "Reserved"%string);
  (267, "Patlite Corporation"%string);
  (268, "Reserved"%string);
  (269, "Mogami Wire & Cable Corporation"%string);
  (270, "Welding Technology Corporation"%string);
  (271, "Reserved"%string);
  (272, "Deutschmann Automation GmbH"%string);
  (273, "ICP Panel-Tec Inc."%string);
  (274, "Bray International, Inc"%string);
  (275, "Reserved"%string);
  (276, "Status Technologies"%string);
  (277, "Trio Motion Technology ltd"%string);
  (278, "Sherrex Systems Ltd"%string);
  (279, "Adept Technology, Inc."%string);
  (280, "Spang Power Electronics"%string);
  (281, "Reserved"%string);
  (282, "Acrosser Technology Co., Ltd"%string);
  (283, "Hilscher GmbH"%string);
  (284, "IMAX Corporation"%string);
  (285, "Electronic Innovation, Inc. (Falter Engineering)"%string);
  (286, "Netlogic Inc."%string);
  (287, "Bosch Rexroth AG"%string);
  (288, "Reserved"%string);
  (289, "Reserved"%string);
  (290, "Murata  Machinery Ltd."%string);
  (291, "MTT Company Ltd."%string);
  (292, "Kanematsu Semiconductor Corp."%string);
  (293, "Takebishi Electric Sales Co."%string);
  (294, "Tokyo Electron Device Ltd"%string);
  (295, "PFU Limited"%string)
].

Definition cipVendorNames_3 : list (Z * string) := [
  (296, "Hakko Automation Co., Ltd."%string);
  (297, "Advanet Inc."%string);
  (298, "Tokyo Electron Software Technologies Ltd."%string);
  (299, "Reserved"%string);
  (300, "Shinagawa Electric Wire Co., Ltd."%string);
  (301, "Yokogawa M&C Corporation"%string);
  (302, "KONAN Electric Co., Ltd."%string);
  (303, "Binar Elektronik AB"%string);
  (304, "Furukawa Electric Co."%string);
  (305, "Cooper Energy Services"%string);
  (306, "Schleicher GmbH & Co."%string);
  (307, "Hirose Electric Co., Ltd"%string);
  (308, "Western Servo Design Inc."%string);
  (309, "ProSoft Technology"%string);
  (310, "Reserved"%string);
  (311, "Towa Shoko Co., Ltd"%string);
  (312, "Kyopal Co., Ltd"%string);
  (313, "Extron Co."%string);
  (314, "Wieland Electric GmbH"%string);
  (315, "SEW Eurodrive GmbH"%string);
  (316, "Aera Corporation"%string);
  (317, "STA Reutlingen"%string);
  (318, "Reserved"%string);
  (319, "Fuji Electric Group"%string);
  (320, "Reserved"%string);
  (321, "Reserved"%string);
  (322, "ifm electronic gmbh"%string);
  (323, "Reserved"%string);
  (324, "IDEACOD-Hohner Automation S.A."%string);
  (325, "CommScope Inc."%string);
  (326, "Intelligent Platforms, LLC."%string);
  (327, "Matsushita Electric Industrial Co., Ltd"%string);
  (328, "Okaya Electronics Corporation"%string);
  (329, "KASHIYAMA Industries, Ltd"%string);
  (330, "JVC"%string);
  (331, "Interface Corporation"%string);
  (332, "Grape Systems Inc."%string);
  (333, "Reserved"%string);
  (334, "Reserved"%string);
  (335, "Toshiba IT & Control Systems Corporation"%string);
  (336, "Sanyo Machine Works, Ltd."%string);
  (337, "Vansco Electronics Ltd."%string);
  (338, "Dart Container Corp."%string);
  (339, "Livingston & Co., Inc."%string);
  (340, "Alfa Laval LKM as"%string);
  (341, "BF ENTRON Ltd. (British Federal)"%string);
  (342, "Bekaert Engineering NV"%string);
  (343, "Ferran  Scientific Inc."%string);
  (344, "KEBA Industrial Automation GmbH"%string);
  (345, "Endress + Hauser"%string);
  (346, "Lincoln Electric Company"%string);
  (347, "ABB ALSTOM Power UK Ltd. (EGT)"%string);
  (348, "Berger Lahr GmbH"%string);
  (349, "Reserved"%string);
  (350, "Federal Signal Corp."%string);
  (351, "Kawasaki Robotics (USA), Inc."%string);
  (352, "Bently Nevada Corporation"%string);
  (354, "FRABA Posital"%string);
  (355, "Elsag Bailey, Inc."%string);
  (356, "FANUC Robotics America"%string);
  (357, "Reserved"%string);
  (358, "Surface Combustion, Inc."%string);
  (359, "Reserved"%string);
  (360, "AILES Electronics Ind. Co., Ltd."%string);
  (361, "Wonderware Corporation"%string);
  (362, "Particle Measuring Systems, Inc."%string);
  (363, "Reserved"%string);
  (364, "Reserved"%string);
  (365, "BITS Co., Ltd"%string);
  (366, "Japan Aviation Electronics Industry Ltd"%string);
  (367, "Keyence Corporation"%string);
  (368, "Kuroda Precision Industries Ltd."%string);
  (369, "Mitsubishi Electric Semiconductor Application"%string);
  (370, "Nippon Seisen Cable, Ltd."%string);
  (371, "Omron ASO Co., Ltd"%string);
  (372, "Seiko Seiki Co., Ltd."%string);
  (373, "Sumitomo Heavy Industries, Ltd."%string);
  (374, "Tango Computer Service Corporation"%string);
  (375, "Technology Service, Inc."%string);
  (376, "Toshiba Information Systems (Japan) Corporation"%string);
  (377, "TOSHIBA Schneider Inverter Corporation"%string);
  (378, "Toyooki Kogyo Co., Ltd."%string);
  (379, "XEBEC"%string);
  (380, "Madison Cable Corporation"%string);
  (381, "Hitati Engineering & Services Co., Ltd"%string);
  (382, "TEM-TECH Lab Co., Ltd"%string);
  (383, "International Laboratory Corporation"%string);
  (384, "Dyadic Systems Co., Ltd."%string);
  (385, "SETO Electronics Industry Co., Ltd"%string);
  (386, "Tokyo Electron Kyushu Limited"%string);
  (387, "KEI System Co., Ltd"%string);
  (388, "Reserved"%string);
  (389, "Asahi Engineering Co., Ltd"%string);
  (390, "Contrex Inc."%string);
  (391, "Paradigm Controls Ltd."%string);
  (392, "Reserved"%string);
  (393, "Ohm Electric Co., Ltd."%string);
  (394, "RKC Instrument Inc."%string);
  (395, "Suzuki Motor Corporation"%string);
  (396, "Custom Servo Motors Inc."%string);
  (397, "PACE Control Systems"%string);
  (398, "Selectron Systems AG"%string);
  (399, "Reserved"%string);
  (400, "LINTEC Co., Ltd."%string);
  (401, "Hitachi Cable Ltd."%string);
  (402, "BUSWARE Direct"%string);
  (403, "Eaton Electric B.V. (former Holec Holland N.V.)"%string);
  (404, "VAT Vacuum Valves AG"%string);
  (405, "Omron Robotics and Safety Technologies, Inc."%string);
  (406, "Alfa Instrumentos Eletronicos Ltda"%string);
  (407, "TWK Elektronik GmbH"%string);
  (408, "ABB Welding Systems AB"%string);
  (409, "BYSTRONIC Maschinen AG"%string);
  (410, "Kimura Electric Co., Ltd"%string);
  (411, "Nissei Plastic Industrial Co., Ltd"%string);
  (412, "Reserved"%string);
  (413, "Kistler-Morse"%string);
  (414, "Proteus Industries Inc."%string);
  (415, "IDC Corporation"%string);
  (416, "Nordson Corporation"%string);
  (417, "Rapistan Systems"%string);
  (418, "LP-Elektronik GmbH"%string);
  (419, "GERBI & FASE S.p.A.(Fase Saldatura)"%string);
  (420, "Phoenix Digital Corporation"%string);
  (421, "Z-World Engineering"%string);
  (422, "Honda R&D Co., Ltd."%string);
  (423, "Bionics Instrument Co., Ltd."%string);
  (424, "Teknic, Incorporated"%string);
  (425, "R.Stahl, Inc."%string);
  (426, "Reserved"%string);
  (427, "Ryco Graphic Manufacturing Inc."%string);
  (428, "Giddings & Lewis, Inc."%string);
  (429, "Koganei Corporation"%string);
  (430, "Reserved"%string);
  (431, "Nichigoh Communication Electric Wire Co., Ltd."%string);
  (433, "Fujikura Ltd."%string);
  (434, "AD Link Technology Inc."%string);
  (435, "Valmet Flow Control Inc (formerly StoneL)"%string);
  (436, "Computer Optical Products, Inc."%string);
  (437, "CONOS Inc."%string);
  (438, "Erhardt+Leimer GmbH"%string);
  (439, "UNIQUE Co. Ltd"%string);
  (440, "Roboticsware, Inc."%string);
  (441, "Nachi Fujikoshi Corporation"%string);
  (442, "Hengstler GmbH"%string)
].

Definition cipVendorNames_4 : list (Z * string) := [
  (443, "Vacon Plc"%string);
  (444, "SUNNY GIKEN Inc."%string);
  (445, "Lenze Drive Systems GmbH"%string);
  (446, "CD Systems B.V."%string);
  (447, "FMT/Aircraft Gate Support Systems AB"%string);
  (448, "Axiomatic Technologies Corp"%string);
  (449, "Embedded System Products, Inc."%string);
  (450, "Reserved"%string);
  (451, "Mencom Corporation"%string);
  (452, "Kollmorgen"%string);
  (453, "Panasonic Connect Co., Ltd."%string);
  (454, "Dengensha Mfg. Co. Ltd."%string);
  (455, "Quinn Systems Ltd."%string);
  (456, "Tellima Technology Ltd"%string);
  (457, "MDT, Software"%string);
  (458, "Taiwan Keiso Co., Ltd"%string);
  (459, "Pinnacle Systems"%string);
  (460, "Ascom Hasler Mailing Sys"%string);
  (461, "INSTRUMAR Limited"%string);
  (462, "Reserved"%string);
  (463, "Navistar International Transportation Corp"%string);
  (464, "TRUMPF Huettinger"%string);
  (465, "OCM Technology Inc."%string);
  (466, "Professional Supply Inc."%string);
  (467, "Control Solutions"%string);
  (468, "Baumer IVO GmbH & Co. KG"%string);
  (469, "Worcester Controls Corporation"%string);
  (470, "Pyramid Technical Consultants, Inc."%string);
  (471, "Eilersen Electric A/S"%string);
  (472, "Apollo Fire Detectors Limited"%string);
  (473, "Avtron Manufacturing, Inc."%string);
  (474, "Reserved"%string);
  (475, "Tokyo Keiso Co., Ltd."%string);
  (476, "Daishowa Swiki Co., Ltd."%string);
  (477, "Kojima Instruments Inc."%string);
  (478, "Shimadzu Corporation"%string);
  (479, "Tatsuta Electric Wire & Cable Co., Ltd."%string);
  (480, "MECS Corporation"%string);
  (481, "Tahara Electric"%string);
  (482, "JTEKT ELECTRONICS CORPORATION"%string);
  (483, "Clever Devices"%string);
  (484, "GCD Hardware & Software GmbH"%string);
  (485, "Reserved"%string);
  (486, "Miller Electric Mfg Co."%string);
  (487, "GEA Tuchenhagen GmbH"%string);
  (488, "Riken Keiki Co., Ltd."%string);
  (489, "Keisokugiken Corporation"%string);
  (490, "Fuji Machine Mfg. Co., Ltd"%string);
  (491, "Reserved"%string);
  (492, "Nidec-Shimpo Corp."%string);
  (493, "UTEC Corporation"%string);
  (494, "Sanyo Electric Co. Ltd."%string);
  (495, "Reserved"%string);
  (496, "Reserved"%string);
  (497, "Okano Electric Wire Co. Ltd"%string);
  (498, "Shimaden Co. Ltd."%string);
  (499, "Teddington Controls Ltd"%string);
  (500, "Reserved"%string);
  (501, "YASKAWA Europe (formerly VIPA GmbH)"%string);
  (502, "Warwick Manufacturing Group"%string);
  (503, "Danaher Controls"%string);
  (504, "Reserved"%string);
  (505, "Reserved"%string);
  (506, "American Science & Engineering"%string);
  (507, "Accutron Controls International Inc."%string);
  (508, "Norcott Technologies Ltd"%string);
  (509, "TB Woods, Inc"%string);
  (510, "Proportion-Air, Inc."%string);
  (511, "SICK Stegmann GmbH"%string);
  (512, "Reserved"%string);
  (513, "Edwards Signaling"%string);
  (514, "Sumitomo Metal Industries, Ltd"%string);
  (515, "Cosmo Instruments Co., Ltd."%string);
  (516, "Denshosha Co., Ltd."%string);
  (517, "Kaijo Corp."%string);
  (518, "Michiproducts Co., Ltd."%string);
  (519, "Miura Corporation"%string);
  (520, "TG Information Network Co., Ltd."%string);
  (521, "Fujikin, Inc."%string);
  (522, "Estic Corp."%string);
  (523, "GS Hydraulic Sales"%string);
  (524, "Leuze Electronic GmbH & Co. KG"%string);
  (525, "MTE Limited"%string);
  (526, "Hyde Park Electronics, Inc."%string);
  (527, "Pfeiffer Vacuum GmbH"%string);
  (528, "Cyberlogic Technologies"%string);
  (529, "OKUMA Corporation FA Systems Division"%string);
  (530, "Reserved"%string);
  (531, "Kokusai Electric Corporation"%string);
  (532, "SHINKO TECHNOS"%string);
  (533, "Itoh Denki Co., Ltd."%string);
  (534, "Colorado Flow Tech Inc."%string);
  (535, "Love Controls Division/Dwyer Inst."%string);
  (536, "Alstom Drives and Controls"%string);
  (537, "The Foxboro Company"%string);
  (538, "Tescom Corporation"%string);
  (539, "Reserved"%string);
  (540, "Atlas Copco Airpower NV"%string);
  (541, "Reserved"%string);
  (542, "Autojet Technologies"%string);
  (543, "Prima Electronics S.p.A."%string);
  (544, "PMA GmbH"%string);
  (545, "Shimafuji Electric Co., Ltd"%string);
  (546, "Oki Electric Industry Co., Ltd"%string);
  (547, "Kyushu Matsushita Electric Co., Ltd"%string);
  (548, "JMACS"%string);
  (549, "Tsuken Electric Ind Co., Ltd"%string);
  (550, "Tamadic Co."%string);
  (551, "MAATEL SA"%string);
  (552, "OKUMA America"%string);
  (553, "Control Techniques PLC-NA"%string);
  (554, "TPC Wire & Cable"%string);
  (555, "ATI Industrial Automation"%string);
  (556, "Microcontrol (Australia) Pty Ltd"%string);
  (557, "Serra Soldadura, S.A."%string);
  (558, "Southwest Research Institute"%string);
  (559, "Cabinplant International"%string);
  (560, "Minebea Intec"%string);
  (561, "Comau S.p.A."%string);
  (562, "Phoenix Contact"%string);
  (563, "Yokogawa MAT Corporation"%string);
  (564, "asahi sangyo co., ltd."%string);
  (565, "Valcom"%string);
  (566, "Akita Myotoku Ltd."%string);
  (567, "OBARA Corp."%string);
  (568, "Suetron Electronic GmbH"%string);
  (569, "Reserved"%string);
  (570, "Serck Controls Limited"%string);
  (571, "Fairchild Industrial Products Company"%string);
  (572, "ARO Welding Technologies S.A.S."%string);
  (573, "M2C GmbH"%string);
  (574, "Shin Caterpillar Mitsubishi Ltd."%string);
  (575, "Santest Co., Ltd."%string);
  (576, "Cosmotechs Co., Ltd."%string);
  (577, "Hitachi Electric Systems"%string);
  (578, "Smartscan Ltd"%string);
  (579, "Woodhead Software & Electronics France"%string);
  (580, "Athena Controls, Inc."%string);
  (581, "Norgren Automation Solutions, LLC (previously Syron Engineering & Manufacturing, Inc.)"%string);
  (582, "Asahi Optical Co., Ltd."%string);
  (583, "Sansha Electric Mfg. Co.,Ltd."%string);
  (584, "CKD Nikki Denso Co,. Ltd."%string);
  (585, "Star Micronics, Co., Ltd."%string);
  (586, "Ecotecnia Socirtat Corp."%string);
  (587, "Lenze"%string)
].

Definition cipVendorNames_5 : list (Z * string) := [
  (588, "West Instruments Limited"%string);
  (589, "LinMot"%string);
  (590, "Delta Computer Systems, Inc."%string);
  (591, "FANUC CORPORATION"%string);
  (592, "Hearn-Gu Lee"%string);
  (593, "ABB AG"%string);
  (594, "Orion Machinery Co., Ltd."%string);
  (595, "Reserved"%string);
  (596, "Wire-Pro, Inc."%string);
  (597, "Beijing Huakong Technology Co. Ltd."%string);
  (598, "Yokoyama Shokai Co., Ltd."%string);
  (599, "Toyogiken Co., Ltd."%string);
  (600, "Coester Equipamentos Eletronicos Ltda."%string);
  (601, "Kawasaki Robot"%string);
  (602, "Electroplating Engineers of Japan Ltd."%string);
  (603, "Robox S.p.a."%string);
  (604, "Spraying Systems Company"%string);
  (605, "Benshaw Inc."%string);
  (606, "ZPA-DP A.S."%string);
  (607, "Wired Rite Systems"%string);
  (608, "Tandis Research, Inc."%string);
  (609, "SSD Drives GmbH"%string);
  (610, "ULVAC Japan Ltd."%string);
  (611, "DYNAX Corporation"%string);
  (612, "Nor-Cal Products, Inc."%string);
  (613, "Aros Electronics AB"%string);
  (614, "Jun-Tech Co., Ltd."%string);
  (615, "HAN-MI Co. Ltd."%string);
  (616, "uniNtech (formerly SungGi Internet)"%string);
  (617, "Hae Pyung Electronics Reserch Institute"%string);
  (618, "Milwaukee Electronics"%string);
  (619, "OBERG Industries"%string);
  (620, "Parker Hannifin/Compumotor Division"%string);
  (621, "TECHNO DIGITAL CORPORATION"%string);
  (622, "Network Supply Co., Ltd."%string);
  (623, "Union Electronics Co., Ltd."%string);
  (624, "Tritronics Services PM Ltd."%string);
  (625, "Rockwell Automation/Sprecher+Schuh"%string);
  (626, "Panasonic Corporation/Motor Company"%string);
  (627, "Rolls-Royce Energy Systems, Inc."%string);
  (628, "JEONGIL INTERCOM CO., LTD"%string);
  (629, "Interroll Software & Electronics GmbH"%string);
  (630, "Hubbell Wiring Device-Kellems (Delaware)"%string);
  (631, "Intelligent Motion Systems"%string);
  (632, "Reserved"%string);
  (633, "INFICON AG"%string);
  (634, "Hirschmann, a Belden brand"%string);
  (635, "The Siemon Company"%string);
  (636, "YAMAHA Motor Co. Ltd."%string);
  (637, "aska corporation"%string);
  (638, "Woodhead Connectivity"%string);
  (639, "Trimble AB"%string);
  (640, "Murrelektronik GmbH"%string);
  (641, "Creatrix Labs, Inc."%string);
  (642, "TopWorx"%string);
  (643, "Kumho Industrial Co., Ltd."%string);
  (644, "Wind River Systems, Inc."%string);
  (645, "Bihl + Wiedemann GmbH"%string);
  (646, "Harmonic Drive Systems Inc."%string);
  (647, "Rikei Corporation"%string);
  (648, "BL Autotec, Ltd."%string);
  (649, "Hana Information & Technology Co., Ltd."%string);
  (650, "Seoil Electric Co., Ltd."%string);
  (651, "Fife Corporation"%string);
  (652, "Shanghai Electrical Apparatus Research Institute"%string);
  (653, "Detector Electronics"%string);
  (654, "Parasense Development Centre"%string);
  (655, "Reserved"%string);
  (656, "Reserved"%string);
  (657, "Six Tau S.p.A."%string);
  (658, "Aucos GmbH"%string);
  (659, "Rotork Controls Ltd."%string);
  (660, "Automationdirect.com"%string);
  (661, "Thermo BLH"%string);
  (662, "System Controls, Ltd."%string);
  (663, "Univer S.p.A."%string);
  (664, "MKS-Tenta Technology"%string);
  (665, "Lika Electronic"%string);
  (666, "Mettler-Toledo"%string);
  (667, "DXL USA Inc."%string);
  (668, "Rockwell Automation/Entek IRD Intl."%string);
  (669, "Nippon Otis Elevator Company"%string);
  (670, "Sinano Electric, Co., Ltd."%string);
  (671, "Sony Manufacturing Systems"%string);
  (672, "Reserved"%string);
  (673, "CONTEC CO., LTD."%string);
  (674, "Automated Solutions"%string);
  (675, "Controlweigh"%string);
  (677, "Fincor Electronics"%string);
  (678, "Cognex Corporation"%string);
  (679, "Qualiflow"%string);
  (680, "Weidmuller, Inc."%string);
  (681, "Morinaga Milk Industry Co., Ltd."%string);
  (682, "Takagi Industrial Co., Ltd."%string);
  (683, "Wittenstein SE"%string);
  (684, "Sena Technologies, Inc."%string);
  (685, "Reserved"%string);
  (686, "SPX Flow Technology Germany GmbH"%string);
  (687, "Creator Teknisk Utvedkling AB"%string);
  (688, "Reserved"%string);
  (689, "Mibu Denki Industrial Co., Ltd."%string);
  (690, "Takamastsu Machineer Section"%string);
  (691, "Littelfuse"%string);
  (692, "Reserved"%string);
  (693, "Holjeron"%string);
  (694, "Pfeiffer Vacuum SAS"%string);
  (695, "Taesan LCD Co., Ltd."%string);
  (696, "POSCON"%string);
  (697, "VMIC"%string);
  (698, "Matsushita Electric Works, Ltd."%string);
  (699, "IAI Corporation"%string);
  (700, "Horst GmbH"%string);
  (701, "MicroControl GmbH & Co."%string);
  (702, "Leine & Linde AB"%string);
  (703, "Reserved"%string);
  (704, "EC Elettronica Srl"%string);
  (705, "VIT Software HB"%string);
  (706, "Bronkhorst High-Tech B.V."%string);
  (707, "Optex Co., Ltd."%string);
  (708, "Yosio Electronic Co."%string);
  (709, "Terasaki Electric Co., Ltd."%string);
  (710, "Sodick Co., Ltd."%string);
  (711, "MTS Systems Corporation-Automation Division"%string);
  (712, "Mesa Systemtechnik"%string);
  (713, "SHIN HO SYSTEM Co., Ltd."%string);
  (714, "Goyo Electronics Co, Ltd."%string);
  (715, "Loreme"%string);
  (716, "SAB Brockskes GmbH & Co. KG"%string);
  (717, "Trumpf Laser GmbH"%string);
  (718, "Niigata Electronic Instruments Co., Ltd."%string);
  (719, "Yokogawa Digital Computer Corporation"%string);
  (720, "O.N. Electronic Co., Ltd."%string);
  (721, "Industrial Control Communication, Inc."%string);
  (722, "ABB, Inc."%string);
  (723, "ElectroWave USA, Inc."%string);
  (724, "Industrial Network Controls, LLC"%string);
  (725, "KDT Systems Co., Ltd."%string);
  (726, "SEFA Technology Inc."%string);
  (727, "Nippon POP Rivets and Fasteners Ltd."%string);
  (728, "Yamato Scale Co., Ltd."%string);
  (729, "Zener Electric"%string);
  (730, "GSE Scale Systems"%string);
  (731, "ISAS (Integrated Switchgear & Sys. Pty Ltd)"%string);
  (732, "Beta LaserMike Limited"%string);
  (733, "TOEI Electric Co., Ltd."%string)
].

Definition cipVendorNames_6 : list (Z * string) := [
  (734, "Hakko Electronics Co., Ltd"%string);
  (735, "Reserved"%string);
  (736, "RFID, Inc."%string);
  (737, "Adwin Corporation"%string);
  (738, "Osaka Vacuum, Ltd."%string);
  (739, "A-Kyung Motion, Inc."%string);
  (740, "Camozzi Automation spa"%string);
  (741, "Crevis Co., LTD"%string);
  (742, "Rice Lake Weighing Systems"%string);
  (743, "Linux Network Services"%string);
  (744, "KEB Automation KG"%string);
  (745, "Hagiwara Electric Co., Ltd."%string);
  (746, "Glass Inc. International"%string);
  (748, "DVT Corporation"%string);
  (749, "Woodward Governor"%string);
  (750, "Mosaic Systems, Inc."%string);
  (751, "Laserline GmbH"%string);
  (752, "COM-TEC, Inc."%string);
  (753, "Weed Instrument"%string);
  (754, "Prof-face European Technology Center"%string);
  (755, "Fuji Automation Co., Ltd."%string);
  (756, "Matsutame Co., Ltd."%string);
  (757, "Hitachi Via Mechanics, Ltd."%string);
  (758, "Dainippon Screen Mfg. Co. Ltd."%string);
  (759, "FLS Automation A/S"%string);
  (760, "ABB Stotz Kontakt GmbH"%string);
  (761, "Technical Marine Service"%string);
  (762, "Advanced Automation Associates, Inc."%string);
  (763, "Baumer Ident GmbH"%string);
  (764, "Tsubakimoto Chain Co."%string);
  (765, "Reserved"%string);
  (766, "Furukawa Co., Ltd."%string);
  (767, "Active Power"%string);
  (768, "CSIRO Mining Automation"%string);
  (769, "Matrix Integrated Systems"%string);
  (770, "Digitronic Automationsanlagen GmbH"%string);
  (771, "SICK STEGMANN Inc."%string);
  (772, "TAE-Antriebstechnik GmbH"%string);
  (773, "Electronic Solutions"%string);
  (774, "Rocon L.L.C."%string);
  (775, "Dijitized Communications Inc."%string);
  (776, "Asahi Organic Chemicals Industry Co., Ltd."%string);
  (777, "Hodensha"%string);
  (778, "HARTING, Inc. of North America"%string);
  (779, "Kuebler GmbH"%string);
  (780, "Yamatake Corporation"%string);
  (781, "JEOL"%string);
  (782, "Yamatake Industrial Systems Co., Ltd."%string);
  (783, "HAEHNE Elektronische Messgerate GmbH"%string);
  (784, "Ci Technologies Pty Ltd (for Pelamos Industries)"%string);
  (785, "N. SCHLUMBERGER & CIE"%string);
  (786, "Teijin Seiki Co., Ltd."%string);
  (787, "DAIKIN Industries, Ltd"%string);
  (788, "RyuSyo Industrial Co., Ltd."%string);
  (789, "SAGINOMIYA SEISAKUSHO, INC."%string);
  (790, "Seishin Engineering Co., Ltd."%string);
  (791, "Japan Support System Ltd."%string);
  (792, "Decsys"%string);
  (793, "Metronix Messgeraete und Elektronik GmbH"%string);
  (794, "ROPEX Industrie - Elektronik GmbH"%string);
  (795, "Vaccon Company, Inc."%string);
  (796, "Siemens Industry, Inc."%string);
  (797, "Ten X Technology, Inc."%string);
  (798, "TE Connectivity"%string);
  (799, "Delta Electronics, Inc."%string);
  (800, "Denker"%string);
  (801, "Autonics Corporation"%string);
  (802, "JFE Electronic Engineering Pty. Ltd."%string);
  (803, "Reserved"%string);
  (804, "Electro-Sensors, Inc."%string);
  (805, "Digi International, Inc."%string);
  (806, "Texas Instruments"%string);
  (807, "ADTEC Plasma Technology Co., Ltd"%string);
  (808, "SICK AG"%string);
  (809, "Ethernet Peripherals, Inc."%string);
  (810, "Animatics Corporation"%string);
  (811, "Reserved"%string);
  (812, "Process Control Corporation"%string);
  (813, "SystemV. Inc."%string);
  (814, "Danaher Motion SRL"%string);
  (815, "SHINKAWA Sensor Technology, Inc."%string);
  (816, "Tesch GmbH & Co. KG"%string);
  (817, "Reserved"%string);
  (818, "Trend Controls Systems Ltd."%string);
  (819, "Guangzhou ZHIYUAN Electronic Co., Ltd."%string);
  (820, "Mykrolis Corporation"%string);
  (821, "Bethlehem Steel Corporation"%string);
  (822, "KK ICP"%string);
  (823, "Takemoto Denki Corporation"%string);
  (824, "Montalvo Corporation"%string);
  (825, "Reserved"%string);
  (826, "LEONI Special Cables GmbH"%string);
  (827, "Reserved"%string);
  (828, "ONO SOKKI CO.,LTD."%string);
  (829, "RS Automation Co., Ltd."%string);
  (830, "SHINDENGEN ELECTRIC MFG. CO. LTD"%string);
  (831, "Origin Electric Co. Ltd."%string);
  (832, "Quest Technical Solutions, Inc."%string);
  (833, "LS Cable"%string);
  (834, "NORD Electronic DRIVESYSTEMS GmbH"%string);
  (835, "Northwire Inc."%string);
  (836, "Engel Elektroantriebe GmbH"%string);
  (837, "The Stanley Works"%string);
  (838, "Celesco Transducer Products, Inc."%string);
  (839, "Chugoku Electric Wire and Cable Co."%string);
  (840, "Kongsberg Simrad AS"%string);
  (841, "Panduit Corporation"%string);
  (842, "Spellman High Voltage Electronics Corp."%string);
  (843, "Kokusai Electric Alpha Co., Ltd."%string);
  (844, "Brooks Automation, Inc."%string);
  (845, "ANYWIRE CORPORATION"%string);
  (846, "Honda Electronics Co. Ltd"%string);
  (847, "REO AG"%string);
  (848, "Heraeus Noblelight Fusion UV Inc."%string);
  (849, "ASI Advanced Semiconductor Instruments GmbH"%string);
  (850, "Datalogic, Inc."%string);
  (851, "SoftPLC Corporation"%string);
  (852, "Dynisco Instruments LLC"%string);
  (853, "WEG"%string);
  (854, "Teledyne LeCroy (formerly Frontline Test Equipment)"%string);
  (855, "Tamagawa Seiki Co., Ltd."%string);
  (856, "Multi Computing Co., Ltd."%string);
  (857, "RVSI"%string);
  (858, "Commercial Timesharing Inc."%string);
  (859, "Tennessee Rand Automation LLC"%string);
  (860, "Wacogiken Co., Ltd"%string);
  (861, "Reflex Integration Inc."%string);
  (862, "Siemens AG, A&D PI Flow Instruments"%string);
  (863, "G. Bachmann Electronic GmbH"%string);
  (864, "Entegris, Inc."%string);
  (865, "Schweitzer Engineering Laboratories"%string);
  (866, "ATR Industrie-Elektronik GmbH Co."%string);
  (867, "PLASMATECH Co., Ltd"%string);
  (868, "Reserved"%string);
  (869, "GEMUE GmbH & Co. KG"%string);
  (870, "Alcorn McBride Inc."%string);
  (871, "MORI SEIKI CO., LTD"%string);
  (872, "NodeTech Systems Ltd"%string);
  (873, "Emhart Teknologies"%string);
  (874, "Cervis, Inc."%string);
  (875, "MSA Safety"%string);
  (876, "NEDAP Power Supplies"%string);
  (877, "Nippon Sanso Corporation"%string);
  (878, "Mitomi Giken Co., Ltd."%string);
  (879, "PULS GmbH"%string)
].

Definition cipVendorNames_7 : list (Z * string) := [
  (880, "Reserved"%string);
  (881, "Japan Control Engineering Ltd"%string);
  (882, "Embedded Systems Korea (Former Zues Emtek Co Ltd.)"%string);
  (883, "Automa SRL"%string);
  (884, "Harms+Wende GmbH & Co KG"%string);
  (885, "R. STAHL"%string);
  (886, "Microwave Data Systems"%string);
  (887, "Bernecker + Rainer Industrie-Elektronik GmbH"%string);
  (888, "Hiprom Technologies"%string);
  (889, "Reserved"%string);
  (890, "Nitta Corporation"%string);
  (891, "Kontron Modular Computers GmbH"%string);
  (892, "Marlin Controls"%string);
  (893, "Elcis Encoder s.r.l."%string);
  (894, "Acromag, Inc."%string);
  (895, "Avery Weigh-Tronix"%string);
  (896, "Reserved"%string);
  (897, "Reserved"%string);
  (899, "Practicon Ltd."%string);
  (900, "SCHUNK GmbH & Co. KG"%string);
  (901, "MYNAH Technologies"%string);
  (902, "Defontaine Groupe"%string);
  (903, "Emerson Process Management Power & Water Solutions"%string);
  (904, "F.A. Elec"%string);
  (905, "Hottinger Baldwin Messtechnik GmbH"%string);
  (906, "Teledyne DALSA"%string);
  (907, "London Electronics Ltd."%string);
  (908, "HSD SpA"%string);
  (909, "Pepperl+Fuchs Comtrol"%string);
  (910, "TEAM, S.A. (Tecnica Electronica de Automatismo Y Medida)"%string);
  (911, "Regulateurs Europa Ltd"%string);
  (912, "Reserved"%string);
  (913, "Reserved"%string);
  (914, "Micro Motion"%string);
  (915, "Eckelmann AG"%string);
  (916, "Hanyoung Nux"%string);
  (917, "CFT Ransburg Japan KK"%string);
  (918, "Kun Hung Electric Co. Ltd."%string);
  (919, "Brimos wegbebakening b.v."%string);
  (920, "NITTO SEIKO CO., LTD."%string);
  (921, "Datasensing S.r.l."%string);
  (922, "Yamazaki Machinery Works"%string);
  (923, "Schmidt Technology"%string);
  (924, "Parker Hannifin SpA (SBC Division)"%string);
  (925, "HIMA Paul Hildebrandt GmbH"%string);
  (926, "RivaTek, Inc."%string);
  (927, "Misumi Corporation"%string);
  (928, "GE Multilin"%string);
  (929, "Measurement Computing Corporation"%string);
  (930, "Jetter AG"%string);
  (931, "Tokyo Electronics Systems Corporation"%string);
  (932, "Togami Electric Mfg. Co., Ltd."%string);
  (933, "HK Systems"%string);
  (934, "CDA Systems Ltd."%string);
  (935, "Aerotech Inc."%string);
  (936, "JVL A/S"%string);
  (937, "NovaTech Process Solutions LLC"%string);
  (938, "Reserved"%string);
  (939, "Cisco Systems"%string);
  (940, "Grid Connect"%string);
  (941, "ITW Automotive Finishing"%string);
  (942, "HanYang System"%string);
  (943, "ABB K.K. Technical Center"%string);
  (944, "Taiyo Cable (Dongguan) Co., Ltd."%string);
  (945, "Reserved"%string);
  (946, "SEREN IPS INC"%string);
  (947, "Belden"%string);
  (948, "ControlNet International"%string);
  (949, "Gefran S.P.A."%string);
  (950, "ABB (Jokab Safety)"%string);
  (951, "SUMITA OPTICAL GLASS, INC."%string);
  (952, "Biffi Italia srl"%string);
  (953, "Beck IPC GmbH"%string);
  (954, "Copley Controls"%string);
  (955, "Fagor Automation S. Coop."%string);
  (956, "DARCOM"%string);
  (957, "Frick Controls (div. of York International)"%string);
  (958, "SymCom, Inc."%string);
  (959, "Infranor"%string);
  (960, "Kyosan Electric Mfg"%string);
  (961, "Varian Vacuum Technologies"%string);
  (962, "Messung Systems"%string);
  (963, "Xantrex Technology, Inc."%string);
  (964, "StarThis Inc."%string);
  (965, "NF Chiyoda Electronics Co., Ltd."%string);
  (966, "Flowserve Corporation"%string);
  (967, "Spyder Controls Corp."%string);
  (968, "IBA AG"%string);
  (969, "SHIMOHIRA ELECTRIC MFG.CO.,LTD"%string);
  (970, "Reserved"%string);
  (971, "Siemens L&A"%string);
  (972, "Eaton Automation GmbH (formerly Micro Innovation)"%string);
  (973, "Switchgear & Instrumentation"%string);
  (974, "Pre-Tech Co., Ltd."%string);
  (975, "National Semiconductor"%string);
  (976, "Invensys Operations Management"%string);
  (977, "Ametek HDR Power Systems"%string);
  (978, "Reserved"%string);
  (979, "TETRA-K Corporation"%string);
  (980, "C&M Corporation"%string);
  (981, "Siempelkamp Maschinen"%string);
  (982, "Reserved"%string);
  (983, "Daifuku Co., Ltd"%string);
  (984, "Electro-Matic Products Inc."%string);
  (985, "BUSSAN MICROELECTRONICS CORP."%string);
  (986, "ELAU AG"%string);
  (987, "Hetronic USA"%string);
  (988, "NIIGATA POWER SYSTEMS Co., Ltd."%string);
  (989, "Software Horizons Inc."%string);
  (990, "B3 Systems, Inc."%string);
  (991, "Moxa, Inc."%string);
  (992, "Reserved"%string);
  (993, "S4 Integration"%string);
  (994, "Elettro Stemi S.R.L."%string);
  (995, "AquaSensors"%string);
  (996, "Ifak System GmbH"%string);
  (997, "SANKEI MANUFACTURING Co.,LTD."%string);
  (998, "Emerson Network Power Co., Ltd."%string);
  (999, "Fairmount Automation, Inc."%string);
  (1000, "Bird Electronic Corporation"%string);
  (1001, "Nabtesco Corporation"%string);
  (1002, "AGM Electronics, Inc."%string);
  (1003, "ARCX Inc."%string);
  (1004, "DELTA I/O Co."%string);
  (1005, "Chun IL Electric Ind. Co."%string);
  (1006, "N-Tron Corporation, a Red Lion Company"%string);
  (1007, "Nippon Pneumatics/Fludics System CO.,LTD."%string);
  (1008, "DDK Ltd."%string);
  (1009, "Seiko Epson Corporation"%string);
  (1010, "halstrup-walcher GmbH"%string);
  (1011, "ITT"%string);
  (1012, "Ground Fault Systems bv"%string);
  (1013, "Scolari Engineering S.p.A."%string);
  (1014, "Vialis Traffic bv"%string);
  (1015, "Weidmueller Group"%string);
  (1016, "Shanghai Sibotech Automation Co. Ltd"%string);
  (1017, "AEG Power Solutions GmbH"%string);
  (1018, "Komatsu Electronics Inc."%string);
  (1019, "Souriau"%string);
  (1020, "Baumuller Chicago Corp."%string);
  (1021, "J. Schmalz GmbH"%string);
  (1022, "SEN Corporation"%string);
  (1023, "Korenix Technology Co. Ltd"%string);
  (1024, "Cooper Power Tools"%string);
  (1025, "INNOBIS"%string)
].

Definition cipVendorNames_8 : list (Z * string) := [
  (1026, "Shinho System"%string);
  (1027, "Xm Services Ltd."%string);
  (1028, "KVC Co., Ltd."%string);
  (1029, "Sanyu Seiki Co., Ltd."%string);
  (1030, "TuxPLC"%string);
  (1031, "Northern Network Solutions"%string);
  (1032, "Converteam GmbH"%string);
  (1033, "Symbol Technologies"%string);
  (1034, "S-TEAM Lab"%string);
  (1035, "Maguire Products, Inc."%string);
  (1036, "AC&T"%string);
  (1037, "MITSUBISHI HEAVY INDUSTRIES, LTD. KOBE SHIPYARD & MACHINERY WORKS"%string);
  (1038, "Hurletron Inc."%string);
  (1039, "Chunichi Denshi Co., Ltd"%string);
  (1040, "Cardinal Scale Mfg. Co."%string);
  (1041, "METZ CONNECT USA Inc."%string);
  (1042, "Base2"%string);
  (1043, "ASRC Aerospace"%string);
  (1044, "Beijing Stone Automation"%string);
  (1045, "Changshu Switchgear Manufacture Ltd."%string);
  (1046, "METRONIX Corp."%string);
  (1047, "WIT"%string);
  (1048, "ORMEC Systems Corp."%string);
  (1049, "ASATech (China) Inc."%string);
  (1050, "Controlled Systems Limited"%string);
  (1051, "Mitsubishi Heavy Ind. Digital System Co., Ltd. (M.H.I.)"%string);
  (1052, "Electrogrip"%string);
  (1053, "TDS Automation"%string);
  (1054, "T&C Power Conversion, Inc."%string);
  (1055, "Robostar Co., Ltd"%string);
  (1056, "Scancon A/S"%string);
  (1057, "Haas Automation, Inc."%string);
  (1058, "Eshed Technology"%string);
  (1059, "Delta Electronic Inc."%string);
  (1060, "Innovasic"%string);
  (1061, "SoftDEL Systems Limited"%string);
  (1062, "FiberFin, Inc."%string);
  (1063, "Nicollet Technologies Corp."%string);
  (1064, "B.F. Systems"%string);
  (1065, "Empire Wire and Supply LLC"%string);
  (1066, "ENDO KOGYO CO., LTD"%string);
  (1067, "Elmo Motion Control LTD"%string);
  (1068, "Reserved"%string);
  (1069, "Asahi Keiki Co., Ltd."%string);
  (1070, "Joy Mining Machinery"%string);
  (1071, "MPM Engineering Ltd."%string);
  (1072, "Wolke Inks & Printers GmbH"%string);
  (1073, "Mitsubishi Electric Engineering Co., Ltd."%string);
  (1074, "COMET AG"%string);
  (1075, "Real Time Objects & Systems, LLC"%string);
  (1076, "MISCO Refractometer"%string);
  (1077, "JT Engineering Inc."%string);
  (1078, "Automated Packing Systems"%string);
  (1079, "Niobrara R&D Corp."%string);
  (1080, "Garmin Ltd."%string);
  (1081, "Japan Mobile Platform Co., Ltd"%string);
  (1082, "Advosol Inc."%string);
  (1083, "ABB Global Services Limited"%string);
  (1084, "Sciemetric Instruments Inc."%string);
  (1085, "Tata Elxsi Ltd."%string);
  (1086, "Mechatronics Co.,Ltd"%string);
  (1087, "Cooper Bussmann"%string);
  (1088, "Trinite Automatisering B.V."%string);
  (1089, "Peek Traffic B.V."%string);
  (1090, "Acrison, Inc."%string);
  (1091, "Applied Robotics, Inc."%string);
  (1092, "FireBus LLC"%string);
  (1093, "Sevenstar"%string);
  (1094, "Magnetek"%string);
  (1095, "Omron Microscan Systems, Inc."%string);
  (1096, "Air Water Inc."%string);
  (1097, "SensoPart Industriesensorik GmbH"%string);
  (1098, "Tiefenbach Control Systems GmbH"%string);
  (1099, "INOXPA S.A"%string);
  (1100, "Zurich University of Applied Sciences"%string);
  (1101, "Ethernet Direct"%string);
  (1102, "GSI-Micro-E Systems"%string);
  (1103, "S-Net Automation Co., Ltd."%string);
  (1104, "Power Electronics S.L."%string);
  (1105, "Renesas Electronics"%string);
  (1106, "NSWCCD-SSES"%string);
  (1107, "Porter Engineering Ltd."%string);
  (1108, "Meggitt Airdynamics, Inc."%string);
  (1109, "Inductive Automation"%string);
  (1110, "Neural ID"%string);
  (1111, "EEPod LLC"%string);
  (1112, "Hitachi Industrial Equipment Systems Co.,Ltd."%string);
  (1113, "Salem Automation"%string);
  (1114, "port GmbH"%string);
  (1115, "B & PLUS"%string);
  (1116, "Graco Inc."%string);
  (1117, "Altera Corporation"%string);
  (1118, "Technology Brewing Corporation"%string);
  (1119, "Reserved"%string);
  (1120, "Reserved"%string);
  (1121, "CSE Servelec"%string);
  (1122, "Reserved"%string);
  (1123, "Reserved"%string);
  (1124, "Fluke Networks"%string);
  (1125, "Tetra Pak Packaging Solutions SpA"%string);
  (1126, "Racine Federated, Inc."%string);
  (1127, "Pureron Japan Co., Ltd."%string);
  (1128, "Reserved"%string);
  (1129, "Reserved"%string);
  (1130, "Brother Industries, Ltd."%string);
  (1131, "Reserved"%string);
  (1132, "Leroy Automation"%string);
  (1133, "Reserved"%string);
  (1134, "THK Co., Ltd."%string);
  (1135, "Reserved"%string);
  (1136, "Reserved"%string);
  (1137, "TR-Electronic GmbH"%string);
  (1138, "ASCON S.p.A."%string);
  (1139, "Toledo do Brasil Industria de Balancas Ltda."%string);
  (1140, "Caterpillar Global Mining Europe GmbH"%string);
  (1141, "Emerson Process Management Valve Automation"%string);
  (1142, "Alstom Transport"%string);
  (1143, "Reserved"%string);
  (1144, "Matrox Electronic Systems"%string);
  (1145, "Littelfuse"%string);
  (1146, "PLASMART, Inc."%string);
  (1147, "Miyachi Corporation"%string);
  (1148, "Reserved"%string);
  (1149, "Reserved"%string);
  (1150, "Promess Incorporated"%string);
  (1151, "COPA-DATA GmbH"%string);
  (1152, "Precision Engine Controls Corporation"%string);
  (1153, "Alga Automacao e controle LTDA"%string);
  (1154, "Lapp Group"%string);
  (1155, "ICES"%string);
  (1156, "Philips Lighting bv"%string);
  (1157, "Aseptomag AG"%string);
  (1158, "ARC Informatique"%string);
  (1159, "Hesmor GmbH"%string);
  (1160, "Kobe Steel, Ltd."%string);
  (1161, "FLIR Systems"%string);
  (1162, "Xcelgo A/S"%string);
  (1163, "STRATON AUTOMATION"%string);
  (1164, "Zypcom, Inc."%string);
  (1165, "Swagelok"%string);
  (1166, "Elspec"%string);
  (1167, "ITT Water & Wastewater AB"%string);
  (1168, "Kunbus GmbH Industrial Communication"%string);
  (1169, "Reserved"%string);
  (1170, "Performance Controls, Inc."%string)
].

Definition cipVendorNames_9 : list (Z * string) := [
  (1171, "ACS Motion Control, Ltd."%string);
  (1172, "Reserved"%string);
  (1173, "IStar Technology Limited"%string);
  (1174, "Alicat Scientific, Inc."%string);
  (1175, "Reserved"%string);
  (1176, "ADFweb.com SRL"%string);
  (1177, "Tata Consultancy Services Limited"%string);
  (1178, "CXR Ltd."%string);
  (1179, "Vishay Nobel AB"%string);
  (1180, "Reserved"%string);
  (1181, "Emerson - SolaHD"%string);
  (1182, "Endress+Hauser"%string);
  (1183, "Bartec GmbH"%string);
  (1184, "Reserved"%string);
  (1185, "AccuSentry, Inc."%string);
  (1186, "Curtiss Wright - Exlar Actuator Solutions"%string);
  (1187, "ILS Technology"%string);
  (1188, "Control Concepts, Inc."%string);
  (1189, "Reserved"%string);
  (1190, "Procon Engineering A Division of National Oilwell Varco UK Ltd"%string);
  (1191, "Hermary"%string);
  (1192, "Q-Lambda"%string);
  (1193, "Reserved"%string);
  (1194, "VAMP Ltd"%string);
  (1195, "FlexLink"%string);
  (1196, "Office FA.com Co., Ltd."%string);
  (1197, "SPMC (Changzhou) Co. Ltd."%string);
  (1198, "Anton Paar GmbH"%string);
  (1199, "Zhuzhou CSR Times Electric Co., Ltd."%string);
  (1200, "DeStaCo"%string);
  (1201, "Synrad, Inc"%string);
  (1202, "Bonfiglioli Vectron GmbH"%string);
  (1203, "Pivotal Systems"%string);
  (1204, "TKSCT"%string);
  (1205, "Randy Nuernberger"%string);
  (1206, "CENTRALP"%string);
  (1207, "Tengen Group"%string);
  (1208, "OES, Inc."%string);
  (1209, "Actel Corporation"%string);
  (1210, "Monaghan Engineering, Inc."%string);
  (1211, "wenglor sensoric gmbh"%string);
  (1212, "HSA Systems"%string);
  (1213, "MKP Co., Ltd."%string);
  (1214, "Tappan Wire and Cable"%string);
  (1215, "Heinzmann GmbH & Co. KG"%string);
  (1216, "Process Automation International Ltd."%string);
  (1217, "Secure Crossing"%string);
  (1218, "SMA Railway Technology GmbH"%string);
  (1219, "FMS Force Measuring Systems AG"%string);
  (1220, "ABT Endustri Enerji Sistemleri Sanayi Tic. Ltd. Sti."%string);
  (1221, "MagneMotion Inc."%string);
  (1222, "STS Co., Ltd."%string);
  (1223, "Knorr-Bremse Espana, S.A. - Merak Division"%string);
  (1224, "ABOUNDI, Inc."%string);
  (1225, "Rosemount Inc."%string);
  (1226, "GEA FES, Inc."%string);
  (1227, "TMG Technologie und Engineering GmbH"%string);
  (1228, "embeX GmbH"%string);
  (1229, "GH Electrotermia, S.A."%string);
  (1230, "Tolomatic"%string);
  (1231, "Dukane"%string);
  (1232, "Elco (Tian Jin) Electronics Co., Ltd."%string);
  (1233, "Jacobs Automation"%string);
  (1234, "Noda Radio Frequency Technologies Co., Ltd."%string);
  (1235, "MSC Tuttlingen GmbH"%string);
  (1236, "Hitachi Cable Manchester"%string);
  (1237, "ACOREL SAS"%string);
  (1238, "Global Engineering Solutions Co., Ltd."%string);
  (1239, "ALTE Transportation, S.L."%string);
  (1240, "Penko Engineering B.V."%string);
  (1241, "Z-Tec Automation Systems Inc."%string);
  (1242, "ENTRON Controls LLC"%string);
  (1243, "Johannes Huebner Fabrik Elektrischer Maschinen GmbH"%string);
  (1244, "RF IDeas, Inc."%string);
  (1245, "Pentronic AB"%string);
  (1246, "Atlas Copco IAS GmbH"%string);
  (1247, "TDK-Lambda Corporation"%string);
  (1248, "Reserved"%string);
  (1249, "Reserved"%string);
  (1250, "Altronic LLC"%string);
  (1251, "Siemens AG"%string);
  (1252, "Liebherr Transportation Systems GmbH & Co KG"%string);
  (1253, "Reserved"%string);
  (1254, "Reserved"%string);
  (1255, "Reserved"%string);
  (1256, "LMI Technologies"%string);
  (1257, "Reserved"%string);
  (1258, "Reserved"%string);
  (1259, "Reserved"%string);
  (1260, "Reserved"%string);
  (1261, "CEPHALOS Automatisierung mbH"%string);
  (1262, "Reserved"%string);
  (1263, "Reserved"%string);
  (1264, "Reserved"%string);
  (1265, "Quabbin Wire & Cable Co., Inc."%string);
  (1266, "Reserved"%string);
  (1267, "Reserved"%string);
  (1268, "HORIBA Precision Instruments (Beijing) Co.,Ltd."%string);
  (1269, "Reserved"%string);
  (1270, "Rovema GmbH"%string);
  (1271, "Reserved"%string);
  (1272, "IEP GmbH"%string);
  (1273, "Reserved"%string);
  (1274, "Reserved"%string);
  (1275, "Reserved"%string);
  (1276, "Reserved"%string);
  (1277, "Control Chief Corporation"%string);
  (1278, "Reserved"%string);
  (1279, "Reserved"%string);
  (1280, "Reserved"%string);
  (1281, "Reserved"%string);
  (1282, "PRIMES GmbH"%string);
  (1283, "Branson Ultrasonics"%string);
  (1284, "DEIF A/S"%string);
  (1285, "CODESYS GmbH"%string);
  (1286, "Reserved"%string);
  (1287, "Smarteye Corporation"%string);
  (1288, "Shibaura Machine"%string);
  (1289, "HMS/BU Ewon"%string);
  (1290, "OFS"%string);
  (1291, "KROHNE"%string);
  (1292, "Reserved"%string);
  (1293, "Reserved"%string);
  (1294, "Reserved"%string);
  (1295, "Kistler Instrumente AG"%string);
  (1296, "Reserved"%string);
  (1297, "Reserved"%string);
  (1298, "Reserved"%string);
  (1299, "Reserved"%string);
  (1300, "Reserved"%string);
  (1301, "Xylem Analytics Germany GmbH"%string);
  (1302, "Lenord, Bauer & Co. GmbH"%string);
  (1303, "Carlo Gavazzi Controls"%string);
  (1304, "Faiveley Transport"%string);
  (1305, "Reserved"%string);
  (1306, "Sensia LLC"%string);
  (1307, "Kepware Technologies"%string);
  (1308, "duagon AG"%string);
  (1309, "Reserved"%string);
  (1310, "Xylem Water Solutions"%string);
  (1311, "Automation Professionals, LLC"%string);
  (1312, "Reserved"%string);
  (1313, "CEIA SpA"%string);
  (1314, "Reserved"%string);
  (1315, "Alphagate Automatisierungstechnik GmbH"%string)
].

Definition cipVendorNames_10 : list (Z * string) := [
  (1316, "Mecco Partners, LLC"%string);
  (1317, "LAP GmbH Laser Applikationen"%string);
  (1318, "ABB S.p.A. - SACE Division"%string);
  (1319, "Reserved"%string);
  (1320, "Reserved"%string);
  (1321, "C.E. Electronics, Inc."%string);
  (1322, "Thermo Ramsey Inc., a part of Thermo Fisher Scientific"%string);
  (1323, "Helmholz GmbH & Co. KG"%string);
  (1324, "EUCHNER GmbH + Co. KG"%string);
  (1325, "AMKmotion"%string);
  (1326, "Badger Meter"%string);
  (1327, "Reserved"%string);
  (1328, "Fisher-Rosemount Systems, Inc. doing business as Process Systems & Solutions"%string);
  (1329, "Conductix-Wampfler Automation GmbH"%string);
  (1330, "Fairbanks Scales, Inc."%string);
  (1331, "Imperx, Inc."%string);
  (1332, "FRONIUS International GmbH"%string);
  (1333, "Hoffman Enclosures"%string);
  (1334, "Elecsys Corporation"%string);
  (1335, "Reserved"%string);
  (1336, "RACO Manufacturing and Engineering"%string);
  (1337, "Hein Lanz Industrial Tech."%string);
  (1338, "Codenomicon"%string);
  (1339, "SABO Elektronik GmbH"%string);
  (1340, "Reserved"%string);
  (1341, "Sensirion AG"%string);
  (1342, "SIKO GmbH"%string);
  (1343, "Reserved"%string);
  (1344, "GRUNDFOS"%string);
  (1345, "Reserved"%string);
  (1346, "Beijer Electronics Products AB"%string);
  (1347, "Reserved"%string);
  (1348, "AIMCO"%string);
  (1349, "Reserved"%string);
  (1350, "Coval"%string);
  (1351, "Powell Industries"%string);
  (1352, "Reserved"%string);
  (1353, "IPDisplays"%string);
  (1354, "SCAIME SAS"%string);
  (1355, "Metal Work SpA"%string);
  (1356, "Telsonic AG"%string);
  (1357, "Reserved"%string);
  (1358, "Hauch & Bach ApS"%string);
  (1359, "Pago AG"%string);
  (1360, "ULTIMATE Europe Transportation Equipment GmbH"%string);
  (1361, "Reserved"%string);
  (1362, "FW Murphy Production Controls, LLC"%string);
  (1363, "Lake Cable LLC"%string);
  (1364, "Reserved"%string);
  (1365, "Reserved"%string);
  (1366, "Reserved"%string);
  (1367, "Reserved"%string);
  (1368, "Nanotec Electronic GmbH & Co. KG"%string);
  (1369, "SAMWON ACT Co., Ltd."%string);
  (1370, "Aparian Inc."%string);
  (1371, "Cosys Inc."%string);
  (1372, "Insight Automation Inc."%string);
  (1373, "Reserved"%string);
  (1374, "FASTECH"%string);
  (1375, "K.A. Schmersal GmbH & Co. KG"%string);
  (1376, "Reserved"%string);
  (1377, "Reserved"%string);
  (1378, "SEIDENSHA ELECTRONICS CO., LTD"%string);
  (1379, "Reserved"%string);
  (1380, "Don Electronics Ltd"%string);
  (1381, "burster gmbh & co kg"%string);
  (1382, "Unitronics (1989) (RG) LTD"%string);
  (1383, "OEM Technology Solutions"%string);
  (1384, "Allied Motion"%string);
  (1385, "Reserved"%string);
  (1386, "DENGENSHA TOA CO., LTD"%string);
  (1387, "Systec Systemtechnik und Industrieautomation GmbH"%string);
  (1388, "Reserved"%string);
  (1389, "Jenny Science AG"%string);
  (1390, "Baumer Optronic GmbH"%string);
  (1391, "Invertek Drives Ltd"%string);
  (1392, "High Grade Controls Corporation"%string);
  (1393, "Reserved"%string);
  (1394, "Reserved"%string);
  (1395, "Reserved"%string);
  (1396, "Actia Systems"%string);
  (1397, "Reserved"%string);
  (1398, "Beijing Tianma Intelligent Control Technology Co., Ltd"%string);
  (1399, "Universal Robots A/S"%string);
  (1400, "Reserved"%string);
  (1401, "Dialight"%string);
  (1402, "E-T-A Elektrotechnische Apparate GmbH"%string);
  (1403, "Kemppi Oy"%string);
  (1404, "Reserved"%string);
  (1405, "ORing Industrial Networking Corp."%string);
  (1406, "Reserved"%string);
  (1407, "Reserved"%string);
  (1408, "ELAP S.R.L."%string);
  (1409, "Applied Mining Technologies"%string);
  (1410, "KITZ SCT Corporation"%string);
  (1411, "VTEX Corporation"%string);
  (1412, "ESYSE GmbH Embedded Systems Engineering"%string);
  (1413, "Automation Controls"%string);
  (1414, "Reserved"%string);
  (1415, "Cincinnati Test Systems"%string);
  (1416, "Reserved"%string);
  (1417, "Zumbach Electronics Corp."%string);
  (1418, "Emerson Automation Solutions"%string);
  (1419, "CCS Inc."%string);
  (1420, "Videojet, Inc."%string);
  (1421, "Zebra Technologies"%string);
  (1422, "ANRITSU CORPORATION"%string);
  (1423, "Dimetix AG"%string);
  (1424, "General Measure (China)"%string);
  (1425, "Fortress Interlocks"%string);
  (1426, "Reserved"%string);
  (1427, "Task Force Tips"%string);
  (1428, "SERVO-ROBOT INC."%string);
  (1429, "Flow Devices and Systems, Inc."%string);
  (1430, "nLIGHT, Inc."%string);
  (1431, "Microchip Technology Inc."%string);
  (1432, "Reserved"%string);
  (1433, "Reserved"%string);
  (1434, "Accutron Instruments Inc."%string);
  (1435, "Kaeser Kompressoren SE"%string);
  (1436, "Reserved"%string);
  (1437, "Coherix, Inc."%string);
  (1438, "FLSmidth A/S"%string);
  (1439, "Reserved"%string);
  (1440, "Cole-Parmer Instrument Company"%string);
  (1441, "Wachendorff Automation GmbH & Co., KG"%string);
  (1442, "SMAC Moving Coil Actuators"%string);
  (1444, "PushCorp, Inc."%string);
  (1445, "Fluke Process Instruments GmbH"%string);
  (1446, "Mini Motor S.p.a"%string);
  (1447, "I-CON Industry Tech."%string);
  (1448, "Grace Technologies"%string);
  (1449, "Zaxis Inc."%string);
  (1450, "Lumasense Technologies"%string);
  (1451, "Domino Printing"%string);
  (1452, "Reserved"%string);
  (1453, "Reserved"%string);
  (1454, "Altus Sistemas de AutomaÃ§Ã£o S.A."%string);
  (1455, "Reserved"%string);
  (1456, "InterTech Development Company"%string);
  (1457, "Reserved"%string);
  (1458, "Perle Systems Limited"%string);
  (1459, "Utthunga Technologies Pvt Ltd.,"%string);
  (1460, "Reserved"%string);
  (1461, "WIPOTEC GmbH"%string)
].

Definition cipVendorNames_11 : list (Z * string) := [
  (1462, "Atos spa"%string);
  (1463, "Solartron Metrology LTD"%string);
  (1464, "Reserved"%string);
  (1465, "Analog Devices"%string);
  (1466, "Power Electronics International, Inc."%string);
  (1468, "Campbell Wrapper Corporation"%string);
  (1469, "Herkules-Resotec Elektronik GmbH"%string);
  (1470, "aignep spa"%string);
  (1471, "Reserved"%string);
  (1472, "PMV Automation AB"%string);
  (1473, "Reserved"%string);
  (1474, "ProTec Dynatronix LLC dba Dynatronix"%string);
  (1475, "Reserved"%string);
  (1476, "Bitronics, LLC."%string);
  (1477, "Delta Tau Data Systems"%string);
  (1478, "Reserved"%string);
  (1479, "AUTOSOL"%string);
  (1480, "ADB Safegate"%string);
  (1481, "Reserved"%string);
  (1482, "Reserved"%string);
  (1483, "Artis GmbH"%string);
  (1484, "REJ Co., LTD"%string);
  (1485, "Vanderlande"%string);
  (1486, "Packet Power"%string);
  (1487, "ima-tec gmbh"%string);
  (1488, "Vision Automation A/S"%string);
  (1489, "PROCENTEC BV"%string);
  (1490, "HETRONIK GmbH"%string);
  (1491, "Lanmark Controls Inc."%string);
  (1492, "Reserved"%string);
  (1493, "flexlog GmbH"%string);
  (1494, "YUCHANGTECH"%string);
  (1495, "Dynapower Company"%string);
  (1496, "TAKIKAWA ENGINEERING"%string);
  (1497, "Ingersoll Rand"%string);
  (1498, "ASA-RT s.r.l"%string);
  (1499, "TRUMPF Schweiz AG"%string);
  (1500, "Reserved"%string);
  (1501, "Rinstrum"%string);
  (1502, "Reserved"%string);
  (1503, "Reserved"%string);
  (1504, "BlueBotics SA"%string);
  (1505, "Dynapar Corporation"%string);
  (1506, "Blum-Novotest"%string);
  (1507, "CIMON"%string);
  (1508, "Dalian SeaSky Automation Co., ltd"%string);
  (1509, "Rethink Robotics GmbH"%string);
  (1510, "Ingeteam Power Technology S. A."%string);
  (1511, "TOSEI ENGINEERING CORP."%string);
  (1512, "SAMSON AG"%string);
  (1513, "TGW Mechanics GmbH"%string);
  (1514, "Diatrend Corporation"%string);
  (1515, "Reserved"%string);
  (1516, "VAHLE Automation GmbH"%string);
  (1517, "JSL Technology Co.,Ltd."%string);
  (1518, "NetTechnix E&P GmbH"%string);
  (1519, "Reserved"%string);
  (1520, "Tecweigh"%string);
  (1521, "IVEK Corporation"%string);
  (1522, "Reserved"%string);
  (1523, "AQ M-TECH AB"%string);
  (1524, "Rexnord Industries LLC"%string);
  (1525, "Reserved"%string);
  (1526, "OPTEX FA Co., Ltd"%string);
  (1527, "Volktek Corporation"%string);
  (1528, "INGENIA"%string);
  (1529, "Reserved"%string);
  (1530, "Analytical Technology, Inc."%string);
  (1531, "Columbus McKinnon Corporation"%string);
  (1532, "HBC-radiomatic GmbH"%string);
  (1533, "Leonton Technologies"%string);
  (1534, "Mitsubishi Electric India Pvt. Ltd."%string);
  (1535, "FOBA Laser, ALLTEC GmbH"%string);
  (1536, "Leakmaster Inc"%string);
  (1537, "Buhler AG"%string);
  (1538, "LINAK Denmark A/S"%string);
  (1539, "Reserved"%string);
  (1540, "SIEB & MEYER AG"%string);
  (1541, "Reserved"%string);
  (1542, "Watson-Marlow Ltd"%string);
  (1543, "ABB Switzerland Ltd - Low Voltage Products"%string);
  (1544, "Reserved"%string);
  (1545, "adphos"%string);
  (1546, "Hangzhou Hikrobot Technology Co., Ltd."%string);
  (1547, "TOSS GmbH & Co. KG"%string);
  (1548, "Solar Turbines Incorporated"%string);
  (1549, "Reserved"%string);
  (1550, "Reserved"%string);
  (1551, "Carlo Gavazzi Industri"%string);
  (1552, "Nippon Gear"%string);
  (1553, "OSIsoft, LLC"%string);
  (1554, "Rinco Ultrasonics AG"%string);
  (1555, "Reserved"%string);
  (1556, "Reserved"%string);
  (1557, "Mitutoyo"%string);
  (1558, "swisca"%string);
  (1559, "Micro-Epsilon Messtechnik GmbH & Co. KG"%string);
  (1560, "AMADA MIYACHI AMERICA"%string);
  (1561, "Taihan Electric Wire Co., Ltd."%string);
  (1562, "JANOME Corporation"%string);
  (1563, "ISHIDA"%string);
  (1564, "NAKANISHI INC."%string);
  (1565, "Mecademic Inc."%string);
  (1566, "Reserved"%string);
  (1567, "Sigma (NSW) PTY LTD"%string);
  (1568, "Hammond Power Solutions Inc.-Mesta"%string);
  (1569, "Reserved"%string);
  (1570, "Reserved"%string);
  (1571, "TRIDIMEO"%string);
  (1572, "Motortronics UK Ltd."%string);
  (1573, "Doosan Robotics"%string);
  (1574, "ADVANCED Motion Controls"%string);
  (1575, "OnRobot A/S"%string);
  (1576, "Reserved"%string);
  (1577, "Oetiker"%string);
  (1578, "SICK OPTEX"%string);
  (1579, "Reserved"%string);
  (1580, "Reserved"%string);
  (1581, "Kahler Automation Corporation"%string);
  (1582, "Accuenergy (Canada) Inc."%string);
  (1583, "TCI, LLC - An Allied Motion Company"%string);
  (1584, "Sun Automation"%string);
  (1585, "READY Robotics Corporation"%string);
  (1586, "PEM, Power Eng & Mfg., Inc"%string);
  (1587, "DÃ¼rr Somac GmbH"%string);
  (1588, "Reserved"%string);
  (1589, "Reserved"%string);
  (1590, "Reserved"%string);
  (1591, "RICOH Industrial Solutions Inc."%string);
  (1592, "Shanghai Junqian Sensing Technology Co. Ltd."%string);
  (1593, "Knick Elektronische MessgerÃ¤te GmbH & Co. KG"%string);
  (1594, "Magnescale. Co., Ltd."%string);
  (1595, "Reserved"%string);
  (1596, "Weintek Labs., Inc"%string);
  (1597, "Sherpa, Inc."%string);
  (1598, "Inspekto A.M.V LTD"%string);
  (1599, "Hydronix Ltd"%string);
  (1600, "AIOI- SYSTEMS CO. LTD."%string);
  (1601, "IngenieurbÃ¼ro Mewes & Partner GmbH"%string);
  (1602, "HIGHYAG Lasertechnologie GmbH"%string);
  (1603, "Ningbo Jetron Technology Co. Ltd."%string);
  (1604, "Myostat Motion Control"%string);
  (1605, "A-T Controls, Inc"%string);
  (1606, "M2M craft Co., Ltd."%string);
  (1607, "FUTEK Advanced Sensor Technology, Inc."%string)
].

Definition cipVendorNames_12 : list (Z * string) := [
  (1608, "Cetek"%string);
  (1609, "Norgren Manufacturing Co., Ltd."%string);
  (1610, "Bernstein AG"%string);
  (1611, "Hitachi Industrial Products, Ltd."%string);
  (1612, "Reserved"%string);
  (1613, "Duplomatic MS spa"%string);
  (1614, "Ambrit Ltd"%string);
  (1615, "Highlight Tech Corp."%string);
  (1616, "New Power Plasma Co. Ltd."%string);
  (1617, "AGCO Corporation"%string);
  (1618, "Techman Robot"%string);
  (1619, "Nabeya Bi-tech Kaisha"%string);
  (1620, "Reserved"%string);
  (1621, "Panasonic Corporation / Electric Works Company"%string);
  (1622, "Cytiva"%string);
  (1623, "Janasi Industries Ltd."%string);
  (1624, "Haffmans BV"%string);
  (1625, "Reserved"%string);
  (1626, "Omniview Pty Ltd"%string);
  (1627, "Reserved"%string);
  (1628, "Dover Flexo Electronics"%string);
  (1629, "Reserved"%string);
  (1630, "IDEM Safety Switches"%string);
  (1631, "Sonotroagel GmbH"%string);
  (1632, "Thermo Gamma-Metrics LLC, a part of Thermo Fisher Scientific"%string);
  (1633, "BBH Products"%string);
  (1634, "RSI Elektrotechnik"%string);
  (1635, "Carlo Gavazzi Ltd"%string);
  (1636, "KOFLOC Corp."%string);
  (1637, "VTScada by Trihedral"%string);
  (1638, "Hach"%string);
  (1639, "Cogniac"%string);
  (1640, "Toshiba Infrastructure Systems & Solutions Corporation"%string);
  (1641, "Cannon-Automata"%string);
  (1642, "Rosenberger"%string);
  (1643, "Blue-White Industries"%string);
  (1644, "Cellumation GmbH"%string);
  (1645, "TEAC Corp."%string);
  (1646, "AEG Identifikationssysteme GmbH"%string);
  (1647, "MARS TOHKEN SOLUTION CO.LTD."%string);
  (1648, "Midas Technology Corp."%string);
  (1649, "Dinkle Enterprise Co., Ltd."%string);
  (1650, "THALES"%string);
  (1651, "Dunkermotoren"%string);
  (1652, "SONOTEC GmbH"%string);
  (1653, "Brinkmann Pumpen"%string);
  (1654, "Rheonics"%string);
  (1655, "Precimeter"%string);
  (1656, "Reserved"%string);
  (1657, "ALGO SYSTEM CO., LTD."%string);
  (1658, "Christ Electronic Systems GmbH"%string);
  (1659, "JFcontrol Co., Ltd."%string);
  (1660, "Shenzhen Inovance Technology Co., Ltd"%string);
  (1661, "Rheonik Coriolis Mass Flow Sensors"%string);
  (1662, "Ichor Systems, Inc."%string);
  (1663, "di-soric GmbH & Co. KG"%string);
  (1664, "Amphenol ICC"%string);
  (1665, "Ningbo AirTAC Automation Industrial Co., Ltd."%string);
  (1666, "RSI"%string);
  (1667, "Soft Robotics Inc."%string);
  (1668, "MUSCLE CORPORATION"%string);
  (1669, "Spotlight Systems LLC"%string);
  (1670, "Afag Holding AG"%string);
  (1671, "TELESIS TECHNOLOGIES INC"%string);
  (1672, "SSI Schaefer Automation GmbH"%string);
  (1673, "Super Systems, Inc."%string);
  (1674, "CoreTigo LTD"%string);
  (1675, "Inxpect SPA"%string);
  (1676, "Kostal Industrie Elektrik GmbH"%string);
  (1677, "JingQiï¼ˆTianjinï¼‰technology Co.,Ltd"%string);
  (1678, "AGI Suretrack"%string);
  (1679, "JAKA Robotics Co., Ltd."%string);
  (1680, "Polarteknik Oy"%string);
  (1681, "RoboteQ, Inc"%string);
  (1682, "Uson"%string);
  (1683, "Opt Machine Vision Tech Co., Ltd"%string);
  (1684, "Asyril SA"%string);
  (1685, "Georg Fischer Piping Systems"%string);
  (1686, "Aber Instruments Ltd"%string);
  (1687, "CodeWrights GmbH"%string);
  (1688, "Neurala, Inc."%string);
  (1689, "Panasonic Software Development Center Dalian Co.,Ltd."%string);
  (1690, "Perinet GmbH"%string);
  (1691, "MS Ultraschall Technologie GmbH"%string);
  (1692, "PLASUS GmbH"%string);
  (1693, "Nikon Corporation"%string);
  (1694, "Shenzhen Hengzhiyuan Technology Corporation Ltd."%string);
  (1695, "Kowa Optronics Co., Ltd."%string);
  (1696, "Specialist Mechanical Engineers"%string);
  (1697, "CMD Corporation"%string);
  (1698, "Sanwa Engineering Corp."%string);
  (1699, "Intellore Systems Pvt. Ltd"%string);
  (1700, "Toledo e Souza"%string);
  (1701, "PBS Biotech, Inc"%string);
  (1702, "PLANET Technology Corporation"%string);
  (1703, "Robatech AG"%string);
  (1704, "MARKEM-IMAJE"%string);
  (1705, "Novanta IMS"%string);
  (1706, "Bamboo-Dynamics"%string);
  (1707, "FACTS Engineering, LLC"%string);
  (1708, "Digital Dynamics"%string);
  (1709, "Fatek Automation Corporation"%string);
  (1710, "Hanwha"%string);
  (1711, "Fukuda"%string);
  (1712, "Zhejiang Eternal Automation Sci-Tec Co.,Ltd"%string);
  (1713, "KYOWA ELECTRONIC INSTRUMENTS CO.,LTD."%string);
  (1714, "Vaisala Oyj"%string);
  (1715, "Hennecke GmbH"%string);
  (1716, "Encoder Products Company"%string);
  (1717, "Converting Equipment International (dba CEI)"%string);
  (1718, "Reserved"%string);
  (1719, "Kinova"%string);
  (1720, "The Poling Group, Inc."%string);
  (1721, "plating electronic GmbH"%string);
  (1722, "HIWIN MIKROSYSTEM CORP."%string);
  (1723, "Wuxi Xinje Electric Co.,Ltd."%string);
  (1724, "ViSCO Technologies Corporation"%string);
  (1725, "MinebeaMitsumi Inc."%string);
  (1726, "FIAtec GmbH"%string);
  (1727, "eSOL Co.,Ltd"%string);
  (1728, "NTN TECHNICAL SERVICE"%string);
  (1729, "Shanghai Flexem"%string);
  (1730, "Magswitch"%string);
  (1731, "VEGA Grieshaber KG"%string);
  (1732, "H.D.T. S.R.L."%string);
  (1733, "Tool-Temp AG"%string);
  (1734, "Hollysys Technology Group Co., Ltd"%string);
  (1735, "Basler Electric Company"%string);
  (1736, "Shinwa Controls Co.,Ltd"%string);
  (1737, "Nanjing Decowell Automation Co.,Ltd."%string);
  (1738, "Reverity Inc"%string);
  (1739, "TOSHIBA MITSUBISHI-ELECTRIC INDUSTRIAL SYSTEMS CORPORATION"%string);
  (1740, "BizLink Special Cables Germany GmbH"%string);
  (1741, "Electronics Inc."%string);
  (1742, "Inexbot"%string);
  (1743, "Mujin, Inc."%string);
  (1744, "Shanghai AYAN Industry System Co., Ltd"%string);
  (1745, "EKE-Electronics Ltd."%string);
  (1746, "Bizerba SE & Co. KG"%string);
  (1747, "Astrodyne TDI"%string);
  (9876, "ODVA"%string)
].

Definition cipVendorNames : list (Z * string) :=
  cipVendorNames_1 ++
  cipVendorNames_2 ++
  cipVendorNames_3 ++
  cipVendorNames_4 ++
  cipVendorNames_5 ++
  cipVendorNames_6 ++
  cipVendorNames_7 ++
  cipVendorNames_8 ++
  cipVendorNames_9 ++
  cipVendorNames_10 ++
  cipVendorNames_11 ++
  cipVendorNames_12.

(** A lookup in the map; a key that is not there is a reserved number. *)
Definition VendorId_Name (v : Z) : string := switch v cipVendorNames "Reserved"%string.
