(* ===== verification/FaultTable.v ===== *)
(** * The description of faults (canned/fault_descriptions.go)

    The table of fault descriptions by type and code, one part per type, in
    the order of the source. *)
From Stdlib Require Import Ascii String.
From S2P Require Import Prelude.

(** ** FaultDescription *)

Record FaultDescription := {
  fd_Type : Z; fd_Code : Z;                                 (* int *)
  fd_Display : string; fd_Description : string; fd_CorrectiveAction : string;
  fd_Major : bool;
  fd_TypeName : string;
}.

#[export] Instance FaultDescription_eq_dec : EqDecision FaultDescription.
Proof. solve_decision. Defined.

(** The no-break space, as UTF-8 has it. *)
Definition nbsp : string := String "194"%char (String "160"%char EmptyString).

(** The entry of a code. *)
Definition entry (code Type_ Code : Z) (Display Description CorrectiveAction : string) (Major : bool) (TypeName : string) :
    Z * FaultDescription :=
  (code, {| fd_Type := Type_; fd_Code := Code; fd_Display := Display; fd_Description := Description;
            fd_CorrectiveAction := CorrectiveAction; fd_Major := Major; fd_TypeName := TypeName |}).

(** ** FaultDescriptions *)

Definition FaultDescriptions_1 : list (Z * FaultDescription) := [
  entry 1 1 1
    "Major Fault T01:C01 - Power-up Fault: Power lost and restored in RUN mode."%string
    "The controller that is powered on is in Run mode."%string
    "Execute the power-up handler."%string
    true "Power Up"%string;
  entry 2 1 2
    "0x00000000"%string
    "AC power loss detected. Chassis active until DC power cannot be maintained."%string
    "Legacy. Now an unused fault code."%string
    false "Power Up"%string;
  entry 15 1 15
    "Minor Fault T01:C15 - Power-up Fault: I/O Power fault detected."%string
    "A 1769 power supply is connected directly to the controller’s 1768 CompactBus with an invalid configuration. The 1768 power supply that provides power to the controller has failed."%string
    "Remove the power supply from the 1768 CompactBus and cycle power to the system. Replace the power supply."%string
    false "Power Up"%string;
  entry 16 1 16
    "Major Fault T01:C16 - Power-up Fault: I/O Communications Configuration fault detected."%string
    "I/O communication configuration fault detected."%string
    "Reconfigure the number of communication modules on the 1768 bus side of the controller: • 1768-L43 has a maximum of two modules. •1768-L45 has a maximum of four modules. • Up to four Sercos modules • Up to two NetLinx communication modules"%string
    true "Power-up"%string;
  entry 29 1 29
    "Minor Fault T01:C29 - Power-up Fault: Voltage has exceeded operating limits."%string
    "Voltage has exceeded operating limits."%string
    "Legacy. Now an unused fault code."%string
    false "Power Up"%string;
  entry 40 1 40
    "Major Fault T01:C40 - Power-up Fault: Energy Storage Module/Battery failed during power down."%string
    "If the controller uses a battery, the battery does not contain enough charge to save the user program on power-down.  If the controller uses an ESM (Energy Storage Module), the ESM does not contain enough charge to save the user program on power-down."%string
    "For controllers that use a battery, replace the battery. For controllers that use an ESM (Energy Storage Module): • Allow the ESM to charge fully before powering down the controller. • Replace the ESM if the ESM is removable, or replace the controller if the ESM is not removable.  If the problem persists, contact Rockwell Automation support."%string
    true "Power Up"%string;
  entry 60 1 60
    "Major Fault T01:C60 - Power-up Fault: Non-recoverable fault."%string
    "The controller detected a nonrecoverable major fault. Diagnostic information can be recovered."%string
    ("Insert a memory card in the controller and restart the controller to write diagnostic information to the memory card. Then clear the fault and download the application." ++ nbsp ++ "Contact Rockwell Automation support and provide the 9-character code from the scrolling status display on the controller.")%string
    true "Power Up"%string;
  entry 61 1 61
    "Major Fault T01:C61 - Power-up Fault: Non-recoverable fault with saved diagnostic information."%string
    "The controller detected a nonrecoverable major fault. Diagnostic information can be recovered."%string
    "Insert a memory card in the controller and restart the controller to write diagnostic information to the memory card. Then clear the fault and download the application. Contact Rockwell Automation support and provide the 9-character code from the scrolling status display on the controller."%string
    true "Power Up"%string;
  entry 62 1 62
    "Major Fault T01:C62 - Power-up Fault: Non-recoverable fault with saved diagnostic information and stored user program."%string
    "The controller detected a nonrecoverable major fault. Diagnostic information can be recovered."%string
    ("Insert a memory card in the controller and restart the controller to write diagnostic information to the memory card. Then clear the fault and download the application." ++ nbsp ++ "Contact Rockwell Automation support and provide the 9-character code from the scrolling status display on the controller.")%string
    true "Power Up"%string
].

Definition FaultDescriptions_3 : list (Z * FaultDescription) := [
  entry 0 3 0
    "Minor Fault T3:C0 - I/O Fault: Compact I/O™ end cap missing."%string
    "Compact I/O™ end cap missing."%string
    "Install the end cap."%string
    false "I/O"%string;
  entry 1 3 1
    "Minor Fault T03:C01 - I/O Fault: POINTBus™ backplane bus off."%string
    "POINTBus™ backplane bus off condition. The connections between the controller and the I/O modules are broken."%string
    ("Complete these steps to identify the source of the BUS OFF fault: 1." ++ nbsp ++ nbsp ++ "The number of local expansion modules in the project matches the number of modules that are physically installed in the system. 2." ++ nbsp ++ nbsp ++ "All mounting bases are locked and I/O modules are securely installed on mounting bases. 3. All 1734 POINT I/O™ modules are configured to use the Autobaud rate. If these steps do not remedy the fault condition, contact Rockwell Automation support.")%string
    false "I/O"%string;
  entry 16 3 16
    "Major Fault T03:C16 - I/O Fault: I/O module connection failed on required module."%string
    "A required I/O module connection failed."%string
    "Verify the following: •The I/O module is in the chassis. • Electronic keying requirements. • Controller Properties Major Fault tab and the Module Properties Connection tab for more information about the fault."%string
    true "I/O"%string;
  entry 20 3 20
    "Major Fault T03:C20 - I/O Fault: Unable to read ControlBus™ chassis information.  Chassis may be bad."%string
    "Possible fault with the chassis."%string
    "Not recoverable. Replace the chassis."%string
    true "I/O"%string;
  entry 21 3 21
    "Major Fault T03:C21 - I/O Fault: Unable to read ControlBus™ chassis information. Chassis may be bad."%string
    "Possible fault with the chassis."%string
    "Not recoverable. Replace the chassis."%string
    true "I/O"%string;
  entry 23 3 23
    "Major Fault T03:C23 - I/O Fault: At least one required connection not established before going into RUN mode."%string
    "At least one required connection was not established before going to Run mode."%string
    "Wait for the controller I/O light to turn green before changing to Run mode."%string
    true "I/O"%string;
  entry 32 3 32
    "Major Fault T03:C32 - I/O Fault: Controller failed to open an I/O connection to a fault-tolerant I/O module because its partner controller is in a Primary state."%string
    "The controller failed to open an I/O connection to a fault-tolerant I/O module because its partner controller is in a Primary state."%string
    "• Make sure that the redundancy module is correctly inserted and connected. • Synchronize the redundancy controllers so that only one controller is in the Primary state."%string
    true "I/O"%string;
  entry 94 3 94
    "Minor Fault T03:C94 - I/O Fault: Module RPI overlap detected."%string
    "The current RPI update of an I/O module overlaps with its previous RPI update."%string
    "Set the RPI rate of the I/O modules to a higher numerical value. Rockwell Automation recommends that the CompactLogix™ 5370 L2 and CompactLogix 5370 L3 control systems do not run with Module RPI Overlap faults."%string
    false "I/O"%string;
  entry 100 3 100
    "Minor Fault T03:C100 - I/O Fault: I/O module does not support data integrity."%string
    "The I/O module does not support data integrity."%string
    "Legacy. Now an unused fault code."%string
    false "I/O"%string
].

Definition FaultDescriptions_4_1 : list (Z * FaultDescription) := [
  entry 4 4 4
    "Minor Fault T04:C04 - Program Fault: Arithmetic overflow.  Result of an arithmetic instruction out of range."%string
    "The result of an arithmetic operation is out of range."%string
    "Examine the arithmetic operations (order) or adjust the values."%string
    false "Program"%string;
  entry 5 4 5
    "Minor Fault T04:C05 - Program Fault: GSV/SSV object address invalid."%string
    "In a GSV/SSV instruction, the specified instance was not found."%string
    "Check the instance name."%string
    false "Program"%string;
  entry 6 4 6
    "Minor Fault T04:C06 - Program Fault: GSV/SSV operand invalid."%string
    "In a GSV/SSV instruction, either the: • Specified Class name is not supported. • Specified Attribute name is not valid."%string
    "Check the Class name and Attribute name."%string
    false "Program"%string;
  entry 7 4 7
    "Minor Fault T04:C07 - Program Fault: GSV/SSV destination tag too small to hold all data."%string
    "The GSV/SSV destination tag was too small to hold the data."%string
    "Fix the destination so it has enough space."%string
    false "Program"%string;
  entry 16 4 16
    "Major Fault T04:C16 - Program Fault: Unknown instruction encountered."%string
    "Unknown instruction encountered."%string
    "Remove the unknown instruction. This probably happened due to a program conversion process."%string
    true "Program"%string;
  entry 20 4 20
    "Major Fault T04:C20 - Program Fault: Array subscript too large, or CONTROL data type POS or LEN invalid."%string
    "The array subscript is too large or the control data type .POS or .LEN value is invalid."%string
    "Adjust the value to be within the valid range. Do not exceed the array size or go beyond the dimensions defined."%string
    true "Program"%string;
  entry 21 4 21
    "Major Fault T04:C21 - Program Fault: CONTROL data type LEN or POS less than 0."%string
    "Control structure .LEN or .POS < 0."%string
    "Adjust the value so it is > 0."%string
    true "Program"%string;
  entry 24 4 24
    "Major Fault T04:C24 - Program Fault: Unknown data type passed to subroutine."%string
    "Unknown data type passed to subroutine."%string
    "Legacy. Now an unused fault code."%string
    true "Program"%string;
  entry 30 4 30
    "Minor Fault T04:C30 - Program Fault: ASCII instruction failed."%string
    "An ASCII instruction failed. Bad parameters passed through to the ASCII port."%string
    "Verify the ASCII configuration settings."%string
    false "Program"%string;
  entry 31 4 31
    "Major Fault T04:C31 - Program Fault: JSR or RET did not pass as many parameters as expected."%string
    "The parameters of the JSR instruction do not match those of the associated SBR or RET instruction."%string
    "Pass the appropriate number of parameters. If you pass too many parameters, the extra ones are ignored without any error."%string
    true "Program"%string;
  entry 32 4 32
    "Minor Fault T04:C32 - Program Fault: Routine type not supported."%string
    "Routine type not supported."%string
    "Legacy. Now an unused fault code."%string
    false "Program"%string;
  entry 34 4 34
    "Major Fault T04:C34 - Program Fault: A timer instruction had a negative value for its PRE or ACC."%string
    "A timer instruction has a negative preset or accumulated value."%string
    "Fix the program so that it cannot load a negative value into the timer preset or accumulated value."%string
    true "Program"%string;
  entry 35 4 35
    "Minor Fault T04:C35 - PID delta time was less than 0."%string
    "PID delta time less than zero."%string
    "Adjust the PID delta time so that it is > 0."%string
    false "Program"%string;
  entry 36 4 36
    "Minor Fault T04:C36 - PID setpoint out of range for target module."%string
    "PID setpoint out of range."%string
    "Adjust the setpoint so that it is within range."%string
    false "Program"%string;
  entry 42 4 42
    "Major Fault T04:C42 - Program Fault: JMP to a label that did not exist or was deleted."%string
    "JMP to a label that did not exist or was deleted."%string
    "Correct the JMP target or add the missing label."%string
    true "Program"%string;
  entry 51 4 51
    "Minor Fault T04:C51 - Program Fault: LEN value outside DATA limit."%string
    "The .LEN value of the string tag is greater than the DATA size of the string tag."%string
    "1. Check that no instruction is writing to the LEN member of the string tag. 2. In the LEN value, enter the number of characters that the string contains."%string
    false "Program"%string
].

Definition FaultDescriptions_4_2 : list (Z * FaultDescription) := [
  entry 52 4 52
    "Minor Fault T04:C52 - Program Fault: Defined string size is invalid."%string
    "The output string is larger than the destination."%string
    "Create a string data type that is large enough for the output string. Use the new string data type as the data type for the destination."%string
    false "Program"%string;
  entry 53 4 53
    "Minor Fault T04:C53 - Program Fault: Numeric result cannot fit in destination."%string
    "The output number is beyond the limits of the destination data type."%string
    "Either: • Reduce the size of the ASCII value. • Use a larger data type for the destination."%string
    false "Program"%string;
  entry 54 4 54
    "Minor Fault T04:C54 - Program Fault: BufferSize value reduced amount of data."%string
    "BufferSize value reduced amount of data."%string
    "Legacy. Now an unused fault code."%string
    false "Program"%string;
  entry 55 4 55
    "Minor Fault T04:C55 - Program Fault: SerialPort Control Len value was incorrect."%string
    "SerialPort Control .LEN value was incorrect."%string
    "Legacy. Now an unused fault code."%string
    false "Program"%string;
  entry 56 4 56
    "Minor Fault T04:C56 - Program Fault: Invalid Start and/or Quantity value."%string
    "The Start or Quantity value is invalid."%string
    "Check the following: • The Start value is between 1 and the DATA size of the Source. • The Start value plus the Quantity Value is less than or equal to the DATA size of the Source."%string
    false "Program"%string;
  entry 57 4 57
    "Minor Fault T04:C57 - Program Fault: Cannot execute AHL when SerialPort set to NoHandshaking."%string
    "The AHL instruction failed to execute because the serial port is set to no handshaking."%string
    "Either: • Change the Control Line setting of the serial port. • Delete the AHL instruction."%string
    false "Program"%string;
  entry 82 4 82
    "Major Fault T04:C82 - Program Fault: Could not re-enter an executing SFC routine."%string
    "A sequential function chart (SFC) called a subroutine and the subroutine tried to jump back to the calling SFC. This occurs when the SFC uses either a JSR or FOR instruction to call the subroutine."%string
    "Remove the jump back to the calling SFC."%string
    true "Program"%string;
  entry 83 4 83
    "Major Fault T04:C83 - Program Fault: Value out of range."%string
    "The data tested was not inside the required limits. This occurs with array subscripts used with Boolean arrays and bit level addressing."%string
    "Adjust the value to be within the valid range. Do not exceed the array size or go beyond the dimensions defined."%string
    true "Program"%string;
  entry 84 4 84
    "Major Fault T04:C84 - Program Fault: Stack overflow.  Stack too small to perform operation."%string
    "Stack overflow."%string
    "Reduce the subroutine-nesting levels or the number of parameters passed."%string
    true "Program"%string;
  entry 85 4 85
    "Major Fault T04:C85 - Program Fault: Invalid routine type."%string
    "Invalid routine type."%string
    "Use a valid routine type."%string
    true "Program"%string;
  entry 86 4 86
    "Minor Fault T04:C86 - Program Fault: Access violation in user program."%string
    "Access violation in user program."%string
    "Contact Rockwell Automation Technical Support. "%string
    false "Program"%string;
  entry 87 4 87
    "Minor Fault T04:C87 - Program Fault: External routine DLL load failed.  Perhaps a DLL on which it depends is missing."%string
    "External routine DLL load failed. "%string
    " DLL missing or malformed. Confirm and adjust."%string
    false "Program"%string;
  entry 88 4 88
    "Minor Fault T04:C88 - Program Fault: Exception in external routine DLL."%string
    "Exception in external routine DLL."%string
    "Troubleshoot the external routine DLL."%string
    false "Program"%string;
  entry 89 4 89
    "Major Fault T04:C89 - Program Fault: Target step does not exist in specified routine."%string
    "In an SFR instruction, the target routine does not contain the target step."%string
    "Correct the SFR target or add the missing step."%string
    true "Program"%string;
  entry 90 4 90
    "Major Fault T04:C90 - Program Fault: A safety instruction occurs outside a safety task."%string
    "A safety instruction occurred outside a safety task."%string
    "Only use the instruction in a safety task."%string
    true "Program"%string;
  entry 91 4 91
    "Major Fault T04:C91 - Program Fault: Equipment phase instruction cannot be called from a program."%string
    "Equipment Phase instruction is being called from outside an Equipment Phase program."%string
    "Only use the instruction in an Equipment Phase program."%string
    true "Program"%string
].

Definition FaultDescriptions_4_3 : list (Z * FaultDescription) := [
  entry 94 4 94
    "Major Fault T04:C94 - Program Fault: Nesting limits exceeded."%string
    "Nesting limits exceeded."%string
    "Restructure the project to reduce the subroutine-nesting levels."%string
    true "Program"%string;
  entry 990 4 990
    "Major Fault T04:C990 - Program Fault: User-defined fault."%string
    "User-defined major fault."%string
    "User-defined action."%string
    true "Program"%string;
  entry 991 4 991
    "Major Fault T04:C991 - Program Fault: User-defined fault."%string
    "User-defined major fault."%string
    "User-defined action."%string
    true "Program"%string;
  entry 992 4 992
    "Major Fault T04:C992 - Program Fault: User-defined fault."%string
    "User-defined major fault."%string
    "User-defined action."%string
    true "Program"%string;
  entry 993 4 993
    "Major Fault T04:C993 - Program Fault: User-defined fault."%string
    "User-defined major fault."%string
    "User-defined action."%string
    true "Program"%string;
  entry 994 4 994
    "Major Fault T04:C994 - Program Fault: User-defined fault."%string
    "User-defined major fault."%string
    "User-defined action."%string
    true "Program"%string;
  entry 995 4 995
    "Major Fault T04:C995 - Program Fault: User-defined fault."%string
    "User-defined major fault."%string
    "User-defined action."%string
    true "Program"%string;
  entry 996 4 996
    "Major Fault T04:C996 - Program Fault: User-defined fault."%string
    "User-defined major fault."%string
    "User-defined action."%string
    true "Program"%string;
  entry 997 4 997
    "Major Fault T04:C997 - Program Fault: User-defined fault."%string
    "User-defined major fault."%string
    "User-defined action."%string
    true "Program"%string;
  entry 998 4 998
    "Major Fault T04:C998 - Program Fault: User-defined fault."%string
    "User-defined major fault."%string
    "User-defined action."%string
    true "Program"%string;
  entry 999 4 999
    "Major Fault T04:C999 - Program Fault: User-defined fault."%string
    "User-defined major fault."%string
    "User-defined action."%string
    true "Program"%string
].

Definition FaultDescriptions_4 := FaultDescriptions_4_1 ++ FaultDescriptions_4_2 ++ FaultDescriptions_4_3.

Definition FaultDescriptions_6 : list (Z * FaultDescription) := [
  entry 1 6 1
    "Major Fault T06:C01 - Watchdog Fault: Task watchdog expired.  May have been caused by an infinite loop, a complex program, or a higher priority task."%string
    "User task has not completed in the specified period. A program error caused an infinite loop, or the program is too complex to run as quickly as specified, or a higher priority task is keeping this task from finishing."%string
    "Take one or more of these steps: •  Increase the task watchdog. • Shorten the execution time. • Make the priority of this task higher. • Simplify higher priority tasks. • Move some code to another controller."%string
    true "Watchdog"%string;
  entry 2 6 2
    "Minor Fault T06:C02 - Watchdog Fault: Periodic task overlap.  Task scheduled again before it finished executing."%string
    "Periodic task overlap. The task was scheduled again before it finished executing."%string
    "Make changes, such as simplify programs, lengthen the period, or raise the relative priority."%string
    false "Watchdog"%string;
  entry 3 6 3
    "Minor Fault T06:C03 - Watchdog Fault: Event task overlap. Task triggered again before it finished executing."%string
    "Event task overlap. The task triggered again before it finished executing."%string
    "Make changes such as simplify programs, lengthen the period, raise the relative priority, or slow the triggering event."%string
    false "Watchdog"%string
].

Definition FaultDescriptions_7 : list (Z * FaultDescription) := [
  entry 40 7 40
    "Major Fault T07:C40 - Nonvolatile Fault: Store to nonvolatile memory failed."%string
    "Store to nonvolatile memory failed."%string
    ("1. Try again to store the project to nonvolatile memory. 2." ++ nbsp ++ "If the project fails to store to nonvolatile memory, replace the memory card. If you are using a 1756-L7x controller, verify that the memory card is unlocked.")%string
    true "Flash Save"%string;
  entry 41 7 41
    "Major Fault T07:C41 - Nonvolatile Fault: Load from nonvolatile memory failed due to controller type mismatch."%string
    "Load from nonvolatile memory failed due to controller type mismatch."%string
    "Change to a controller of the correct type or download the project and store it on the memory card."%string
    true "Flash Save"%string;
  entry 42 7 42
    "Major Fault T07:C42 - Nonvolatile Fault: Load from nonvolatile memory failed due to controller revision mismatch."%string
    "Load from nonvolatile memory failed because the firmware revision of the project in nonvolatile memory does not match the firmware revision of the controller."%string
    "Update the controller firmware to the same revision level as the project that is in nonvolatile memory."%string
    true "Flash Save"%string;
  entry 43 7 43
    "Major Fault T07:C43 - Nonvolatile Fault: Load from nonvolatile memory failed due to bad checksum."%string
    "Load from nonvolatile memory failed due to bad checksum."%string
    "Contact Rockwell Automation support."%string
    true "Flash Save"%string;
  entry 44 7 44
    "Major Fault T07:C44 - Nonvolatile Fault: Failed to restore processor memory."%string
    "Failed to restore controller memory."%string
    "Contact Rockwell Automation support."%string
    true "Flash Save"%string;
  entry 49 7 49
    "Minor Fault T07:C49 - Nonvolatile Fault: Controller was loaded from nonvolatile memory."%string
    "When the controller loads a project from nonvolatile memory, it logs this minor fault and sets the FaultLog object, MinorFaultBits attribute, bit 7."%string
    "Clear the fault."%string
    false "Flash Save"%string;
  entry 50 7 50
    "Major Fault T07:C50 - Nonvolatile Fault: Security certificate invalid."%string
    "The log file certificate cannot be verified. When the controller starts up, it attempts to verify the log file key/certificate combination. Depending on the verification, the controller takes one of the following actions: • If the controller verifies the existing log file certificate, the controller continues with the existing log directory. • If the existing certificate cannot be verified, the controller logs a major fault and attempts to create a certificate. • If the controller successfully creates a certificate, it creates a backup log subdirectory, moves the existing files to that directory, and continues logging and signing with the new verification key and log file certificate. •  If the controller cannot create a certificate, the controller writes log entries to the existing log directory, but does not update signature files in that directory."%string
    "Clear the fault and power cycle the controller. If the problem persists, contact Rockwell Automation support."%string
    true "Flash Save"%string
].

Definition FaultDescriptions_8 : list (Z * FaultDescription) := [
  entry 1 8 1
    "Major Fault T8:C1 - Mode Change Fault: Mode Change inhibited due to download in progress."%string
    "Attempted to place controller in Run mode with keyswitch during download."%string
    "Wait for the download to complete and clear the fault."%string
    true "Mode Change"%string
].

Definition FaultDescriptions_9 : list (Z * FaultDescription) := [
  entry 0 9 0
    "Minor Fault T09:C00 - Serial Port Fault: Unknown error while servicing serial port."%string
    "Unknown error while servicing the serial port."%string
    "Contact Rockwell Automation Technical Support."%string
    false "Serial Port"%string;
  entry 1 9 1
    "Minor Fault T09:C01 - Serial Port Fault: Problem with hardware control lines."%string
    "The CTS line is not correct for the current configuration."%string
    "Disconnect and reconnect the serial port cable to the controller. Make sure that the cable is wired correctly."%string
    false "Serial Port"%string;
  entry 2 9 2
    "Minor Fault T09:C02 - Serial Port Fault: Contents of poll list tag incorrect."%string
    "Poll list error. A fault was detected with the DF1 master’s poll list, such as specifying more stations than the size of the file, specifying more than 255 stations, trying to index past the end of the list, or polling the broadcast address (STN #255)."%string
    "Check for the following errors in the poll list. - Total number of stations is greater than the space in the poll list tag. - Total number of stations is greater than 255. - Current station pointer is greater than the end of the poll list tag. - A station number greater than 254 was encountered."%string
    false "Serial Port"%string;
  entry 3 9 3
    "Minor Fault T09:C03 - Serial Port Fault: Master protocol missing Active Station File."%string
    "The RS-232 DFI Master Active Station tag is unspecified."%string
    "Specify a tag to be used for the Active Station Tag in the System Protocol tab of the Controller Properties."%string
    false "Serial Port"%string;
  entry 5 9 5
    "Minor Fault T09:C05 - Serial Port Fault: DF1 slave poll timeout."%string
    "DF1 slave poll timeout. The poll watchdog has timed out for slave. The master has not polled this controller in the specified amount of time."%string
    "Determine and correct delay for polling."%string
    false "Serial Port"%string;
  entry 9 9 9
    "Minor Fault T09:C09 - Serial Port Fault: Modem contact lost."%string
    "Modem contact lost. DCD or DSR control lines are not being received in proper sequence or state."%string
    "Correct modem connection to the controller."%string
    false "Serial Port"%string;
  entry 10 9 10
    "Minor Fault T09:C10 - Serial Port Fault: Serial Port is unable to keep up with incoming data."%string
    "Data has been dropped or lost from the serial port."%string
    "Slow down the rate at which the initiator is sending data."%string
    false "Serial Port"%string;
  entry 11 9 11
    "Minor Fault T09:C11 - Serial Port Fault: ACL instruction channel operand is not a valid port."%string
    "A channel operand in an ACL instruction channel is not a valid port."%string
    "Correct the channel specified in the ACL instruction."%string
    false "Serial Port"%string
].

Definition FaultDescriptions_10 : list (Z * FaultDescription) := [
  entry 10 10 10
    "Minor Fault T10:C10 - Battery Fault: Battery missing or needs to be replaced."%string
    "The battery is missing or must be replaced."%string
    "Install a new battery."%string
    false "Battery"%string;
  entry 11 10 11
    "Minor Fault T10:C11 - Battery Fault: Safety partner battery missing or needs to be replaced."%string
    "The battery for the safety partner is missing or must be replaced."%string
    "Install a new battery."%string
    false "Battery"%string;
  entry 12 10 12
    "Minor Fault T10:C12 - Energy Storage Fault: Energy Storage Module not present."%string
    "The energy storage module is not installed. If the controller is powered-down, the WallClockTime attribute and program are not maintained."%string
    "Install an ESM in the controller."%string
    false "Battery"%string;
  entry 13 10 13
    "Minor Fault T10:C13 - Energy Storage Fault: Energy Storage Module incompatible with controller type."%string
    "The installed energy storage module is not compatible with the controller."%string
    "Replace the installed ESM with one that is compatible with the controller."%string
    false "Battery"%string;
  entry 14 10 14
    "Minor Fault T10:C14 - Energy Storage Fault: Energy Storage Module hardware failure."%string
    "The energy storage module must be replaced due to a hardware fault. It is not capable of maintaining the WallClockTime attribute or controller program at power down."%string
    "Replace the ESM."%string
    false "Battery"%string;
  entry 15 10 15
    "Minor Fault T10:C15 - Energy Storage Fault: Energy Storage Module energy low."%string
    "The energy storage module cannot store enough energy to maintain the WallClockTime attribute or the controller program at power-down."%string
    "Replace the ESM."%string
    false "Battery"%string;
  entry 16 10 16
    "Minor Fault T10:C16 - UPS Fault: UPS missing or not ready."%string
    "The uninterruptible power supply is missing or not ready."%string
    "Either: • Install the UPS. • Check the UPS to make sure it is adequately charged to provide backup power if there is a power loss."%string
    false "Battery"%string;
  entry 17 10 17
    "Minor Fault T10:C17 - UPS Fault: UPS battery failure."%string
    "The uninterruptible power supply battery has failed and must be replaced."%string
    "Replace the battery in the UPS."%string
    false "Battery"%string
].

Definition FaultDescriptions_11_1 : list (Z * FaultDescription) := [
  entry 1 11 1
    "Major Fault T11:C01 - Motion Fault: Actual position of axis exceeded positive overtravel limit."%string
    "The actual position of the axis has exceeded the positive overtravel limit."%string
    "Move axis in negative direction until the position is within the overtravel limit and then execute Motion Axis Fault Reset."%string
    true "Motion"%string;
  entry 2 11 2
    "Major Fault T11:C02 - Motion Fault: Actual position of axis exceeded negative overtravel limit."%string
    "The actual position of the axis has exceeded the negative overtravel limit."%string
    "Move axis in positive direction until position is within the overtravel limit and then run Motion Axis Fault Reset."%string
    true "Motion"%string;
  entry 3 11 3
    "Major Fault T11:C03 - Motion Fault: Actual position exceeded position error tolerance."%string
    "The actual position the axis has exceeded the position error tolerance."%string
    "Move the position within tolerance, then run Motion Axis Fault Reset."%string
    true "Motion"%string;
  entry 4 11 4
    "Major Fault T11:C04 - Motion Fault: Encode channel A, B, or Z connection failed."%string
    "Encoder channel A, B, or Z connection is broken."%string
    "Reconnect the encoder channel, then run Motion Axis Fault Reset."%string
    true "Motion"%string;
  entry 5 11 5
    "Major Fault T11:C05 - Motion Fault: Encoder noise event detected, or encoder signals not in quadrature."%string
    "Encoder noise event detected or the encoder signals are not in the quadrature."%string
    "Fix encoder cabling, then run Motion Axis Fault Reset."%string
    true "Motion"%string;
  entry 6 11 6
    "Major Fault T11:C06 - Motion Fault: Drive fault."%string
    "Drive fault detected."%string
    "Clear Drive Fault then run Motion Axis Fault Reset."%string
    true "Motion"%string;
  entry 7 11 7
    "Major Fault T11:C07 - Motion Fault: Synchronous connection to servo module failed."%string
    "Synchronous connection to the servo module failed."%string
    "Try these steps: 1. First, run Motion Axis Fault Reset. 2. If that does not work, pull out the servo module and plug it back in. 3. If this does not work, replace the servo module."%string
    true "Motion"%string;
  entry 8 11 8
    "Major Fault T11:C08 - Motion Fault: Hardware failure in servo module."%string
    "Hardware failure detected in the servo module."%string
    "Replace the module."%string
    true "Motion"%string;
  entry 9 11 9
    "Major Fault T11:C09 - Motion Fault: Asynchronous connection to servo module failed."%string
    "Asynchronous connection to the servo module failed."%string
    "Try these steps: 1. First, run Motion Axis Fault Reset. 2. If that does not work, pull out the servo module and plug it back in. 3. If this does not work, replace the servo module."%string
    true "Motion"%string;
  entry 10 11 10
    "Major Fault T11:C10 - Motion Fault: Motor fault detected."%string
    "Motor fault detected."%string
    "See the DriveFaults axis tag for more information."%string
    true "Motion"%string;
  entry 11 11 11
    "Major Fault T11:C11 - Motion Fault: Motor thermal fault detected."%string
    "Motor thermal fault detected."%string
    "See the DriveFaults axis tag for more information."%string
    true "Motion"%string;
  entry 12 11 12
    "Major Fault T11:C12 - Motion Fault: Drive thermal fault detected."%string
    "Drive thermal fault detected."%string
    "See the DriveFaults axis tag for more information."%string
    true "Motion"%string;
  entry 13 11 13
    "Major Fault T11:C13 - Motion Fault: SERCOS comm fault detected."%string
    "SERCOS communication fault detected."%string
    "Verify the integrity of the SERCOS fiber-optic ring network and the devices on it."%string
    true "Motion"%string;
  entry 14 11 14
    "Major Fault T11:C14 - Motion Fault: Drive Enable Input 1) was inactive prior during an attempt to enable the drive, or 2) transitioned to inactive while the drive was enabled."%string
    "Drive enable input was inactive during an attempt to enable the drive or transitioned to inactive while the drive was enabled."%string
    "Re-enable the drive enable input and clear the fault."%string
    true "Motion"%string;
  entry 15 11 15
    "Major Fault T11:C15 - Motion Fault: Drive Phase Loss fault detected."%string
    "Drive phase loss fault detected."%string
    "Restore full power connection to the drive and clear the fault."%string
    true "Motion"%string;
  entry 16 11 16
    "Major Fault T11:C16 - Motion Fault: A Guard Fault has been detected by the drive."%string
    "DriveGuard® fault detected."%string
    "See the GuardFaults axis tag for more information."%string
    true "Motion"%string
].

Definition FaultDescriptions_11_2 : list (Z * FaultDescription) := [
  entry 32 11 32
    "Major Fault T11:C32 - Motion Fault: Motion Task overlap.  Coarse update rate too high."%string
    "The motion task experienced an overlap. The coarse update rate is too high."%string
    "The group’s course update rate is too high to maintain correct operation. Clear the group fault tag, raise the group’s update rate, and then clear the major fault."%string
    true "Motion"%string;
  entry 33 11 33
    "Major Fault T11:C33 - Motion Fault: Coordinated System Time reference has been lost."%string
    "Coordinated System Time reference has been lost."%string
    "Check the condition of the CST master in the backplane. "%string
    true "Motion"%string
].

Definition FaultDescriptions_11 := FaultDescriptions_11_1 ++ FaultDescriptions_11_2.

Definition FaultDescriptions_12 : list (Z * FaultDescription) := [
  entry 32 12 32
    "Major Fault T12:C32 - Safety Fault: Disqualified secondary became primary."%string
    "A disqualified secondary controller cycled power and no partner chassis or controller was found upon power-up."%string
    "Verify the following: •  A partner chassis is connected. • Power is applied to both redundant chassis. • Partner controllers have the same catalog number, slot number, and firmware revision."%string
    true "Redundancy"%string;
  entry 33 12 33
    "Major Fault T12:C33 - Safety Fault: No partner found after switchover."%string
    "An unpartnered controller has been identified in the new primary chassis after a switchover."%string
    "Use these methods: • Remove the unpartnered controller and troubleshoot the cause of the switchover. • Add a partner controller to the secondary chassis, troubleshoot the cause of the switchover, and synchronize the system."%string
    true "Redundancy"%string;
  entry 34 12 34
    "Major Fault T12:C34 - Safety Fault: Keyswitch Positions of Primary and Secondary Controllers Mismatched"%string
    "Before switchover, a keyswitch mismatch was present. The old primary controller was in Program mode and the keyswitch of the secondary partner was in the Run position.  Instead of the switchover transitioning the new primary controller to go to Run mode, the new primary controller transitions to a faulted state after the switchover."%string
    "Use these methods: • Change the keyswitches from Run mode to Program mode and back to Run mode twice to clear the fault. Make sure that the keyswitch positions for both controllers in a partnered set match. • Use the programming software to go online with the controllers. Then, clear the faults and change the keyswitch positions for both the controllers in the partnered set to Run."%string
    true "Redundancy"%string
].

Definition FaultDescriptions_13 : list (Z * FaultDescription) := [
  entry 21 13 21
    "Minor Fault T13:C21 - Real Time Clock Fault: Wall Clock Time out of range."%string
    "The WallClockTime is out of range."%string
    "Verify the WallClockTime is set to the correct date/time."%string
    false "Real Time Clock"%string
].

Definition FaultDescriptions_14 : list (Z * FaultDescription) := [
  entry 1 14 1
    "Task Watchdog Expired"%string
    "The task watchdog expired because of these reasons: • The user task did not complete in a specified period of time. • A program error caused an infinite loop. • The program is too complex to execute as quickly as specified. • A higher priority task is keeping this task from finishing. • The safety partner has been removed."%string
    "(GuardLogix® 5580 and Compact GuardLogix® 5380 only). Clear the fault. Safety memory is reinitialized and the safety task begins executing. Reinsert the safety partner if it was removed.  (GuardLogix® 5570 and Compact GuardLogix® 5370 only). Clear the fault. If a safety task signature exists, safety memory is reinitialized and the safety task begins executing. If a safety task signature does not exist, you must redownload the program to allow the safety task to run. Reinsert the safety partner if it was removed."%string
    true "Nonrecoverable"%string;
  entry 2 14 2
    "Major Fault T14:C02 - Safety Task Fault: An error exists in a routine of the Safety task."%string
    "An error exists in a routine of the safety task."%string
    "Correct the error in the user-program logic."%string
    true "Recoverable"%string;
  entry 3 14 3
    "Major Fault T14:C03 - Safety Task Fault: Safety partner is missing."%string
    "The safety partner is missing."%string
    "Install a compatible safety partner and clear the fault. A download may be required. "%string
    true "Nonrecoverable"%string;
  entry 4 14 4
    "Major Fault T14:C04 - Safety Task Fault: Safety partner is unavailable."%string
    "The safety partner is unavailable."%string
    "Install a compatible safety partner and clear the fault. A download may be required. "%string
    true "Nonrecoverable"%string;
  entry 5 14 5
    "Major Fault T14:C05 - Safety Task Fault: Safety partner hardware is incompatible."%string
    "The safety partner hardware is incompatible."%string
    "Install a compatible safety partner and clear the fault. A download may be required. "%string
    true "Nonrecoverable"%string;
  entry 6 14 6
    "Major Fault T14:C06 - Safety Task Fault: Safety partner firmware is incompatible."%string
    "The safety partner firmware is incompatible."%string
    "Update the safety partner so that the firmware major and minor revisions match the primary controller. A download may be required. "%string
    true "Nonrecoverable"%string;
  entry 7 14 7
    "Major Fault T14:C07 - Safety Task Fault: Safety task is inoperable."%string
    "The safety task is inoperable. This fault occurs when the safety logic is invalid, such as for these reasons: • A mismatch in logic exists between the primary controller and safety partners. • A watchdog timeout occurs. • Memory is corrupt."%string
    "(GuardLogix® 5580 only). Clear the fault and download the application.  (GuardLogix® 5570 only). Clear the fault. If a safety task signature exists, safety memory is reinitialized via the safety task signature and the safety task begins executing. If a safety task signature does not exist, you must download the program again to allow the safety task to run."%string
    true "Nonrecoverable"%string;
  entry 8 14 8
    "Major Fault T14:C08 - Safety Task Fault: Safety partner's time is not synchronized with primary."%string
    "Coordinated system time (CST) not found. The safety partner's time is not synchronized with the primary."%string
    "Clear the fault. Configure a device to be the CST master."%string
    true "Nonrecoverable"%string;
  entry 9 14 9
    "Major Fault T14:C09 - Safety Task Fault: A non-recoverable fault has occurred in safety partner."%string
    "The safety partner detected a nonrecoverable major fault. Diagnostic information can be recovered."%string
    ("Insert a memory card in the safety partner and restart the safety partner to write diagnostic information to the memory card. Then clear the fault and download the application." ++ nbsp ++ "Contact Rockwell Automation support.")%string
    true "Nonrecoverable"%string;
  entry 10 14 10
    "Safety Fault"%string
    "A cross-compare fault was detected between the two controllers."%string
    "Clear the fault and download the application. If the problem persists, replace the controller."%string
    true "Nonrecoverable"%string;
  entry 11 14 11
    "Safety Task Fault"%string
    "The safety task failed to recover during a loss of redundancy. The maximum safety mute time was exceeded."%string
    "Clear the fault and download the application. If the problem persists, replace the controller."%string
    true "Nonrecoverable"%string;
  entry 12 14 12
    "Minor Fault T14:C12 - Safety Fault: Safety partner detected when the project safety level is SIL2/PLd."%string
    "The safety partner was detected when the project safety level is SIL2/PLd."%string
    "If your desired safety level is SIL2/PLd, remove the safety partner (since it does not participate in a SIL2/PLd configuration). If your desired safety level is SIL3/PLe, change the project safety level to SIL3/PLe."%string
    false "Safety"%string;
  entry 13 14 13
    "Safety Fault"%string
    "A data integrity error occurred between the primary and secondary chassis."%string
    "Clear the fault and download the application. If the problem persists, replace the controller."%string
    true "Nonrecoverable"%string
].

Definition FaultDescriptions_16 : list (Z * FaultDescription) := [
  entry 1 16 1
    "Communication Configuration Fault"%string
    "The controller log is full and data is being overwritten."%string
    "Configure the controller to write buffered entries to the memory card when its internal buffer is 80% full. or Command the controller to write buffered entries to removable media with an MSG instruction."%string
    false "Communication"%string
].

Definition FaultDescriptions_17_1 : list (Z * FaultDescription) := [
  entry 0 17 0
    "Minor Fault T17:C00 - Diagnostic Fault: A runtime diagnostic failed to complete, please contact technical support with the fault type and fault code."%string
    "An internal controller diagnostic failed."%string
    EmptyString
    false "Diagnostic"%string;
  entry 1 17 1
    "Minor Fault T17:C01 - Diagnostic Fault: A runtime diagnostic failed to complete, please contact technical support with the fault type and fault code."%string
    "An internal controller diagnostic failed."%string
    "Contact Rockwell Automation Technical Support with the fault type and fault code logged."%string
    false "Diagnostic"%string;
  entry 2 17 2
    "Minor Fault T17:C02 - Diagnostic Fault: A runtime diagnostic failed to complete, please contact technical support with the fault type and fault code."%string
    "An internal controller diagnostic failed."%string
    "Contact Rockwell Automation Technical Support with the fault type and fault code logged."%string
    false "Diagnostic"%string;
  entry 3 17 3
    "Minor Fault T17:C03 - Diagnostic Fault: A runtime diagnostic failed to complete, please contact technical support with the fault type and fault code."%string
    "An internal controller diagnostic failed."%string
    "Contact Rockwell Automation Technical Support with the fault type and fault code logged."%string
    false "Diagnostic"%string;
  entry 4 17 4
    "Minor Fault T17:C04 - Diagnostic Fault: A runtime diagnostic failed to complete, please contact technical support with the fault type and fault code."%string
    "An internal controller diagnostic failed."%string
    "Contact Rockwell Automation Technical Support with the fault type and fault code logged."%string
    false "Diagnostic"%string;
  entry 5 17 5
    "Minor Fault T17:C05 - Diagnostic Fault: A runtime diagnostic failed to complete, please contact technical support with the fault type and fault code."%string
    "An internal controller diagnostic failed."%string
    "Contact Rockwell Automation Technical Support with the fault type and fault code logged."%string
    false "Diagnostic"%string;
  entry 6 17 6
    "Minor Fault T17:C06 - Diagnostic Fault: A runtime diagnostic failed to complete, please contact technical support with the fault type and fault code."%string
    "An internal controller diagnostic failed."%string
    "Contact Rockwell Automation Technical Support with the fault type and fault code logged."%string
    false "Diagnostic"%string;
  entry 7 17 7
    "Minor Fault T17:C07 - Diagnostic Fault: A runtime diagnostic failed to complete, please contact technical support with the fault type and fault code."%string
    "An internal controller diagnostic failed."%string
    "Contact Rockwell Automation Technical Support with the fault type and fault code logged."%string
    false "Diagnostic"%string;
  entry 8 17 8
    "Minor Fault T17:C08 - Diagnostic Fault: A runtime diagnostic failed to complete, please contact technical support with the fault type and fault code."%string
    "An internal controller diagnostic failed."%string
    "Contact Rockwell Automation Technical Support with the fault type and fault code logged."%string
    false "Diagnostic"%string;
  entry 9 17 9
    "Minor Fault T17:C09 - Diagnostic Fault: A runtime diagnostic failed to complete, please contact technical support with the fault type and fault code."%string
    "An internal controller diagnostic failed."%string
    "Contact Rockwell Automation Technical Support with the fault type and fault code logged."%string
    false "Diagnostic"%string;
  entry 10 17 10
    "Minor Fault T17:C10 - Diagnostic Fault: A runtime diagnostic failed to complete, please contact technical support with the fault type and fault code."%string
    "An internal controller diagnostic failed."%string
    "Contact Rockwell Automation Technical Support with the fault type and fault code logged."%string
    false "Diagnostic"%string;
  entry 11 17 11
    "Minor Fault T17:C11 - Diagnostic Fault: A runtime diagnostic failed to complete, please contact technical support with the fault type and fault code."%string
    "An internal controller diagnostic failed."%string
    "Contact Rockwell Automation Technical Support with the fault type and fault code logged."%string
    false "Diagnostic"%string;
  entry 12 17 12
    "Minor Fault T17:C12 - Diagnostic Fault: A runtime diagnostic failed to complete, please contact technical support with the fault type and fault code."%string
    "An internal controller diagnostic failed."%string
    "Contact Rockwell Automation Technical Support with the fault type and fault code logged."%string
    false "Diagnostic"%string;
  entry 13 17 13
    "Minor Fault T17:C13 - Diagnostic Fault: A runtime diagnostic failed to complete, please contact technical support with the fault type and fault code."%string
    "An internal controller diagnostic failed."%string
    "Contact Rockwell Automation Technical Support with the fault type and fault code logged."%string
    false "Diagnostic"%string;
  entry 14 17 14
    "Minor Fault T17:C14 - Diagnostic Fault: A runtime diagnostic failed to complete, please contact technical support with the fault type and fault code."%string
    "An internal controller diagnostic failed."%string
    "Contact Rockwell Automation Technical Support with the fault type and fault code logged."%string
    false "Diagnostic"%string;
  entry 15 17 15
    "Minor Fault T17:C15 - Diagnostic Fault: A runtime diagnostic failed to complete, please contact technical support with the fault type and fault code."%string
    "An internal controller diagnostic failed."%string
    "Contact Rockwell Automation Technical Support with the fault type and fault code logged."%string
    false "Diagnostic"%string
].

Definition FaultDescriptions_17_2 : list (Z * FaultDescription) := [
  entry 16 17 16
    "Minor Fault T17:C16 - Diagnostic Fault: A runtime diagnostic failed to complete, please contact technical support with the fault type and fault code."%string
    "An internal controller diagnostic failed."%string
    "Contact Rockwell Automation Technical Support with the fault type and fault code logged."%string
    false "Diagnostic"%string;
  entry 17 17 17
    "Minor Fault T17:C17 - Diagnostic Fault: A runtime diagnostic failed to complete, please contact technical support with the fault type and fault code."%string
    "An internal controller diagnostic failed."%string
    "Contact Rockwell Automation Technical Support with the fault type and fault code logged."%string
    false "Diagnostic"%string;
  entry 18 17 18
    "Minor Fault T17:C18 - Diagnostic Fault: A runtime diagnostic failed to complete, please contact technical support with the fault type and fault code."%string
    "An internal controller diagnostic failed."%string
    "Contact Rockwell Automation Technical Support with the fault type and fault code logged."%string
    false "Diagnostic"%string;
  entry 19 17 19
    "Minor Fault T17:C19 - Diagnostic Fault: A runtime diagnostic failed to complete, please contact technical support with the fault type and fault code."%string
    "An internal controller diagnostic failed. Upload and save the program before the controller is powered down. "%string
    "Contact Rockwell Automation Technical Support with the fault type and fault code logged."%string
    false "Diagnostic"%string;
  entry 20 17 20
    "Minor Fault T17:C20 - Diagnostic Fault: A runtime diagnostic failed to complete, please contact technical support with the fault type and fault code."%string
    "An internal controller diagnostic failed."%string
    "Contact Rockwell Automation Technical Support with the fault type and fault code logged."%string
    false "Diagnostic"%string;
  entry 21 17 21
    "Minor Fault T17:C21 - Diagnostic Fault: A runtime diagnostic failed to complete, please contact technical support with the fault type and fault code."%string
    "An internal controller diagnostic failed. Upload and save program before the controller is powered down. "%string
    "Contact Rockwell Automation Technical Support with the fault type and fault code logged."%string
    false "Diagnostic"%string;
  entry 22 17 22
    "Minor Fault T17:C22 - Diagnostic Fault: A runtime diagnostic failed to complete, please contact technical support with the fault type and fault code."%string
    "An internal controller diagnostic failed."%string
    "Contact Rockwell Automation Technical Support with the fault type and fault code logged."%string
    false "Diagnostic"%string;
  entry 23 17 23
    "Minor Fault T17:C23 - Diagnostic Fault: A runtime diagnostic failed to complete, please contact technical support with the fault type and fault code."%string
    "An internal controller diagnostic failed."%string
    "Contact Rockwell Automation Technical Support with the fault type and fault code logged."%string
    false "Diagnostic"%string;
  entry 24 17 24
    "Minor Fault T17:C24 - Diagnostic Fault: A runtime diagnostic failed to complete, please contact technical support with the fault type and fault code."%string
    "An internal controller diagnostic failed."%string
    "Contact Rockwell Automation Technical Support with the fault type and fault code logged."%string
    false "Diagnostic"%string;
  entry 25 17 25
    "Minor Fault T17:C25 - Diagnostic Fault: A runtime diagnostic failed to complete, please contact technical support with the fault type and fault code."%string
    "An internal controller diagnostic failed."%string
    "Contact Rockwell Automation Technical Support with the fault type and fault code logged."%string
    false "Diagnostic"%string;
  entry 26 17 26
    "Minor Fault T17:C26 - Diagnostic Fault: A runtime diagnostic failed to complete, please contact technical support with the fault type and fault code."%string
    "An internal controller diagnostic failed. Upload and save the program before the controller is powered down. "%string
    "Contact Rockwell Automation Technical Support with the fault type and fault code logged."%string
    false "Diagnostic"%string;
  entry 27 17 27
    "Minor Fault T17:C27 - Diagnostic Fault: A runtime diagnostic failed to complete, please contact technical support with the fault type and fault code."%string
    "An internal controller diagnostic failed. Upload and save the program before the controller is powered down. "%string
    "Contact Rockwell Automation Technical Support with the fault type and fault code logged."%string
    false "Diagnostic"%string;
  entry 28 17 28
    "Minor Fault T17:C28 - Diagnostic Fault: A runtime diagnostic failed to complete, please contact technical support with the fault type and fault code."%string
    "An internal controller diagnostic failed. Upload and save the program before the controller is powered down. "%string
    "Contact Rockwell Automation Technical Support with the fault type and fault code logged."%string
    false "Diagnostic"%string;
  entry 29 17 29
    "Minor Fault T17:C29 - Diagnostic Fault: A runtime diagnostic failed to complete, please contact technical support with the fault type and fault code."%string
    "An internal controller diagnostic failed. Upload and save the program before the controller is powered down. "%string
    "Contact Rockwell Automation Technical Support with the fault type and fault code logged."%string
    false "Diagnostic"%string;
  entry 30 17 30
    "Minor Fault T17:C30 - Diagnostic Fault: A runtime diagnostic failed to complete, please contact technical support with the fault type and fault code."%string
    "An internal controller diagnostic failed. Upload and save the program before the controller is powered down. "%string
    "Contact Rockwell Automation Technical Support with the fault type and fault code logged."%string
    false "Diagnostic"%string;
  entry 31 17 31
    "Minor Fault T17:C31 - Diagnostic Fault: A runtime diagnostic failed to complete, please contact technical support with the fault type and fault code."%string
    "An internal controller diagnostic failed. Upload and save the program before the controller is powered down. "%string
    "Contact Rockwell Automation Technical Support with the fault type and fault code logged."%string
    false "Diagnostic"%string
].

Definition FaultDescriptions_17_3 : list (Z * FaultDescription) := [
  entry 32 17 31
    "Major Fault T17:C34 - Diagnostic Fault: Controller internal temperature has exceeded operating limit."%string
    "Controller internal temperature has exceeded the operating limit."%string
    "Take measures to reduce the ambient temperature of the module. Follow the recommended limits for the ambient (inlet) temperature and apply the required clearance around the chassis."%string
    true "Diagnostic"%string;
  entry 35 17 35
    "Minor Fault T17:C35 - Diagnostic Fault: Controller internal temperature is approaching operating limit."%string
    "Controller internal temperature is approaching the operating limit."%string
    "Take measures to reduce the ambient temperature of the module. Follow the recommended limits for the ambient (inlet) temperature and apply the required clearance around the chassis."%string
    false "Diagnostic"%string;
  entry 36 17 36
    "Minor Fault T17:C36 - Diagnostic Fault: A fan has been removed, or is not maintaining desired speed."%string
    "A fan has been removed, or is not maintaining the desired speed."%string
    "Check the device fans for connection or maintenance issues."%string
    false "Diagnostic"%string;
  entry 37 17 37
    "Major Fault T17:C37 - Diagnostic Fault: Controller has recovered from an internal temperature fault."%string
    "The controller has recovered from an internal temperature fault."%string
    "Generated when the controller recovers from automatic shutdown. Shutdown occurs when the module temperature exceeds the temperature threshold of the preservation fault. When the temperature decreases to a suitable level, this re-enables the controller voltages and generates the Type 17, Code 37 fault."%string
    true "Runtime Diagnostic"%string
].

Definition FaultDescriptions_17 := FaultDescriptions_17_1 ++ FaultDescriptions_17_2 ++ FaultDescriptions_17_3.

Definition FaultDescriptions_18 : list (Z * FaultDescription) := [
  entry 1 18 1
    "Major Fault T18:C01 - CIP Motion Fault: A standard Initialization Fault has been detected by the drive."%string
    "The drive did not initialize correctly."%string
    "To determine corrective action, see the Initialization Fault attributes. The corresponding bit indicates the cause of the fault. 1: Boot Block Checksum Fault 2: Main Block Checksum Fault 3: Nonvolatile Memory Checksum Fault"%string
    true "Integrated motion on the EtherNet/IP™ network"%string;
  entry 2 18 2
    "Major Fault T18:C02 - CIP Motion Fault: A manufacturer specific Initialization Fault has been detected by the drive."%string
    "The drive did not initialized correctly. This fault indicates a manufacturer-specific initialization fault."%string
    "To determine corrective action, see the Initialization Fault Mfg attributes. The corresponding bit indicates the cause of the fault. 1: Feedback Data Corruption 2: Feedback Data Range 3: Feedback Communication Startup 4: Feedback Absolute Overspeed 5: Feedback Absolute Power Off Travel 6: Feedback Absolute Startup Speed 7: Commutation Offset Uninitialized 12: Invalid FPGA Image 14: Invalid Safety Firmware 15: Power Board 16: Illegal Option Card 17: Option Storage Checksum 19: Module Voltage Mismatch 20: Unknown Module 21: Factory Configuration Error 22: Illegal Address 23: Series Mismatch 24: Open Slot"%string
    true "CIP Motion"%string;
  entry 3 18 3
    "Major Fault T18:C03 - CIP Motion Fault: A standard Axis Fault has been detected by the drive."%string
    "There is a fault on the physical axis."%string
    "To determine corrective action, see the Axis Fault attributes. The corresponding bit indicates the cause of the fault."%string
    true "CIP Motion"%string;
  entry 4 18 4
    "Major Fault T18:C04 - CIP Motion Fault: A manufacturer specific Axis Fault has been detected by the drive."%string
    "There is a fault on the physical axis. This fault indicates a manufacturer-specific axis fault"%string
    "To determine corrective action, see the Axis Fault Mfg attributes. The corresponding bit indicates the cause of the fault."%string
    true "CIP Motion"%string;
  entry 5 18 5
    "Major Fault T18:C05 - CIP Motion Fault: A Motion Fault has been detected by the drive."%string
    "A motion fault detected."%string
    "To determine corrective action, see the Motion Fault attribute and Motion Fault bits for details about the fault that occurred."%string
    true "CIP Motion"%string;
  entry 6 18 6
    "Major Fault T18:C06 - CIP Motion Fault: A Module Fault has been detected by the drive."%string
    "A motion drive fault detected. Usually the fault affects all axes that are associated with the module and all associated axes are shut down."%string
    "Reconfigure the faulted motion module to correct the fault."%string
    true "CIP Motion"%string;
  entry 7 18 7
    "Major Fault T18:C07 - CIP Motion Fault: Group Fault"%string
    "A motion group fault detected. Usually the fault affects all axes that are associated with a motion group."%string
    "Reconfigure the entire motion subsystem to correct the fault. See the Group Fault attribute if details about the fault are needed."%string
    true "CIP Motion"%string;
  entry 8 18 8
    "Major Fault T18:C08 - CIP Motion Fault: A Configuration Fault has been detected by the drive."%string
    "A fault occurred during the configuration of a motion drive. Typically, this fault occurs when an attempt to update an axis configuration attribute of a drive was unsuccessful."%string
    "To determine the corrective action, see the Configuration Fault in the Attribute Error Code and Attribute Error ID attributes associated with the motion or 1756-ENxT module."%string
    true "CIP Motion"%string;
  entry 9 18 9
    "Major Fault T18:C09 - CIP Motion Fault: A standard APR Fault has been detected by the drive."%string
    "An Absolute Position Recovery (APR) fault occurred and the absolute position of the axis cannot be recovered."%string
    "To determine the corrective action, see the APR Fault attributes. The corresponding bit indicates the cause of the fault. 1: Memory Write Error 2: Memory Read Error 3: Feedback Serial Number Mismatch 4: Buffer Allocation Fault 5: Scaling Configuration Changed 6: Feedback Mode Changed 7: Feedback Integrity Loss"%string
    true "CIP Motion"%string;
  entry 10 18 10
    "Major Fault T18:C10 - CIP Motion Fault: A manufacturer specific APR Fault has been detected by the drive."%string
    "An Absolute Position Recovery (APR) Fault occurred and the absolute position of the axis cannot be recovered. This fault indicates a manufacturer-specific APR fault."%string
    "To determine the corrective action, see the APR Fault Mfg attributes.  The corresponding bit indicates the cause of the fault."%string
    true "CIP Motion"%string
].

Definition FaultDescriptions_19 : list (Z * FaultDescription) := [
  entry 1 19 1
    "Minor Fault T19:C01 - Ethernet Port Fault"%string
    "The controller detected that another device on the network already has the IP address of the controller. "%string
    "Do one of the following: • Identify the device with the same IP address as the controller and change its IP address. • Change the IP address of the controller, so that it does not conflict with any other device."%string
    false "Ethernet Port"%string;
  entry 2 19 2
    "Minor Fault T19:C02 - Ethernet Port Fault"%string
    "The DHCP server replied with an invalid IP address."%string
    "Check the DHCP server configuration."%string
    false "Ethernet Port"%string;
  entry 3 19 3
    "Minor Fault T19:C03 - Ethernet Port Fault"%string
    "The DHCP lease was lost or its renewal failed."%string
    "Check the DHCP server availability and configuration."%string
    false "Ethernet Port"%string;
  entry 4 19 4
    "Minor Fault T19:C04 - Ethernet Port Fault"%string
    "0x00000000"%string
    "Investigate network traffic on the Ethernet port and clear the fault. If problems persist, contact Rockwell Automation Technical Support for further assistance."%string
    false "Ethernet Port"%string
].

Definition FaultDescriptions_20 : list (Z * FaultDescription) := [
  entry 1 20 1
    "Major Fault T20:C01 - License Fault: License is missing or invalid."%string
    "A required license is missing or expired during the transition to Run or Test mode."%string
    "Insert a CmCard which contains all licenses that are required by the project in the controller."%string
    true "License Protection"%string;
  entry 2 20 2
    "Minor Fault T20:C02 - License Fault: License has expired."%string
    "The License Based Execution Protection license that is stored on the CmCard has the correct license, but it has expired."%string
    "Obtain a CmCard with the correct unexpired license and insert it into the controller."%string
    false "License Protection"%string
].

Definition FaultDescriptions_21 : list (Z * FaultDescription) := [
  entry 1 21 1
    "Minor Fault T21:C01 - Alarm Fault: Evaluating alarms exceeded the evaluation period."%string
    "Evaluating alarms exceeded the evaluation period."%string
    "If the fault occurs for a controller that experiences a regular active alarm rate (not alarm burst) for tag-based alarms during system commissioning, then reduce the number of the alarms in the project. Otherwise, the fault is an indicator for the operator that tag-based alarm state information can be older than the evaluation period (only 500 ms evaluation period). "%string
    false "Alarm"%string;
  entry 2 21 2
    "Minor Fault T21:C02 - Alarm Fault: Alarm set highest severity alarm data may be inaccurate."%string
    "Alarm set highest severity alarm data may be inaccurate."%string
    "If the fault occurs for a controller that experiences a regular active alarm rate (not alarm burst) for tag-based alarms during the system commissioning, then reduce the number of the alarms in the project. Otherwise, the fault is an indicator for the operator that information about the Alarm Set highest severity can be older than 2 seconds."%string
    false "Alarm"%string
].

Definition FaultDescriptions : list (Z * list (Z * FaultDescription)) := [
  (1, FaultDescriptions_1);
  (3, FaultDescriptions_3);
  (4, FaultDescriptions_4);
  (6, FaultDescriptions_6);
  (7, FaultDescriptions_7);
  (8, FaultDescriptions_8);
  (9, FaultDescriptions_9);
  (10, FaultDescriptions_10);
  (11, FaultDescriptions_11);
  (12, FaultDescriptions_12);
  (13, FaultDescriptions_13);
  (14, FaultDescriptions_14);
  (16, FaultDescriptions_16);
  (17, FaultDescriptions_17);
  (18, FaultDescriptions_18);
  (19, FaultDescriptions_19);
  (20, FaultDescriptions_20);
  (21, FaultDescriptions_21)
].
