(* ===== verification/Errors.v ===== *)
(** * Error values (errors.go)

    The messages of CIP errors, and multiError, which joins errors so that
    errors.Is finds every one of them.  The errors of Go's errors package are
    trees: an error is identified by its address, wraps another, or joins
    several. *)
From Stdlib Require Import Ascii String.
From S2P Require Import Prelude CipNames.
#[local] Open Scope string_scope.
#[local] Open Scope Z_scope.

(** ** CIPError *)

Record CIPError := { Code : Z (* byte *); Extended : Z (* uint16 *) }.

Definition error_text (err : CIPError) : string :=
  let unknown := "Unknown Error"%string in
  switch (Code err) [
    (0x00, " no error?  This shouldn't happen :/"%string);
    (0x01, " connection failure"%string);
    (0x02, " resource unavailable"%string);
    (0x03, " bad parameter, size > 12 or size greater than size of element."%string);
    (0x04, " a syntax error was detected decoding the request path"%string);
    (0x05, " request path destination unknown: probably instance number is not present"%string);
    (0x06, " insufficient packet space: not enough room in the response buffer for all the data"%string);
    (0x07, " connection lost"%string);
    (0x08, " service is not supported for the object/instance"%string);
    (0x09, " could not write attribute data - possibly in valid or wrong type"%string);
    (0x0A, " attribute list error, generally attribute not supported. the status of the unsupported attribute is 0x14"%string);
    (0x10, switch (Extended err) [
        (0x2101, " device state conflict: keyswitch position: the requestor is changing force information in HARD RUN mode"%string);
        (0x2802, " device state conflict: safety status: the controller is in a state in which safety memory cannot be modified"%string)
      ] unknown);
    (0x13, " insufficient Request Data: Data too short for expected param"%string);
    (0x16, " object does not exist"%string);
    (0x1A, " routing failure: request too large"%string);
    (0x1B, " routing failure: response too large"%string);
    (0x1C, " attribute list shortage: the list of attribute numbers was too few for the number of attributes parameter"%string);
    (0x26, " the request path size received was shorter or longer than expected."%string);
    (0xFF, switch (Extended err) [
        (0x2104, "General Error: Offset is beyond end of the requested tag."%string);
        (0x2105, "General Error: Number of Elements or Byte Offset is beyond the end of the requested tag."%string);
        (0x2107, "General Error: Tag type used n request does not match the target tag's data type."%string)
      ] unknown)
  ] unknown.

(** "error %X%X: ", then the text *)
Definition CIPError_Error (err : CIPError) : string :=
  "error " +:+ hex_upper (Code err) +:+ hex_upper (Extended err) +:+ ": " +:+ error_text err.

(** ** multiError *)

Inductive goerror :=
  | Plain (id : nat) (msg : string)              (* errors.New: its address, its text *)
  | Wrapped (msg : string) (err : goerror)       (* fmt.Errorf with %w *)
  | Multi (errs : list (option goerror)).        (* multiError; None is nil *)

Definition newMultiError (err : option goerror) : list (option goerror) :=
  match err with Some _ => [err] | None => [] end.
Definition Add (errs : list (option goerror)) (err : option goerror) : list (option goerror) := (errs ++ [err])%list.

(** "%s: %s" of what there is and the next error *)
Fixpoint Error (err : goerror) : string :=
  match err with
  | Plain _ msg => msg
  | Wrapped msg _ => msg
  | Multi errs =>
      (fix go (err_str : string) (errs : list (option goerror)) : string :=
         match errs with
         | [] => err_str
         | e :: errs =>
             go (err_str +:+ ": " +:+ match e with Some e => Error e | None => "%!s(<nil>)" end) errs
         end) "" errs
  end.

Definition Unwrap (errs : list (option goerror)) : option goerror :=
  match errs with
  | _ :: (_ :: _ :: _) as errs => Some (Multi errs)
  | [_; e] => e
  | [e] => e
  | [] => None
  end.

(** errors.Is(err, target) for the error with the address target: err itself,
    its Is method, and what it wraps, in a loop. *)
Fixpoint errors_Is (fuel : nat) (err : option goerror) (target : nat) : res bool :=
  match fuel, err with
  | _, None => Ok false
  | O, _ => Panic "out of fuel"
  | S fuel, Some (Plain id _) => Ok (id =? target)%nat
  | S fuel, Some (Wrapped _ e) => errors_Is fuel (Some e) target
  | S fuel, Some (Multi errs) =>
      match errs with
      | [] => Panic "index out of range"
      | e :: _ =>
          found ← errors_Is fuel e target;
          if found : bool then Ok true else errors_Is fuel (Unwrap errs) target
      end
  end.

(** ** errors.Is finds every error that was added *)

(** Fuel that is enough. *)
Fixpoint esize (err : goerror) : nat :=
  match err with
  | Plain _ _ => 1%nat
  | Wrapped _ e => S (esize e)
  | Multi errs => S (list_sum (map (fun e => match e with Some e => S (esize e) | None => 1%nat end) errs))
  end.
Definition osize (err : option goerror) : nat := match err with Some e => esize e | None => 0%nat end.

(** The addresses in the tree. *)
Fixpoint addresses (err : goerror) : list nat :=
  match err with
  | Plain id _ => [id]
  | Wrapped _ e => addresses e
  | Multi errs => concat (map (fun e => match e with Some e => addresses e | None => [] end) errs)
  end.
Definition oaddresses (err : option goerror) : list nat := match err with Some e => addresses e | None => [] end.

(** No multiError in it is empty. *)
Fixpoint filled (err : goerror) : Prop :=
  match err with
  | Plain _ _ => True
  | Wrapped _ e => filled e
  | Multi errs => errs <> [] /\ fold_right and True (map (fun e => match e with Some e => filled e | None => True end) errs)
  end.
Definition ofilled (err : option goerror) : Prop := match err with Some e => filled e | None => True end.

Lemma fuel_S fuel (n : nat) : (S n <= fuel)%nat -> exists f, fuel = S f /\ (n <= f)%nat.
Proof. destruct fuel; [lia|]. intros. eexists. split; [done|lia]. Qed.

Lemma Is_spec n : forall fuel err target, (osize err <= n)%nat -> (osize err <= fuel)%nat -> ofilled err ->
  errors_Is fuel err target = Ok (bool_decide (target ∈ oaddresses err)).
Proof.
  induction n as [|n IH]; intros fuel [e|] target Hn Hf Hok; try (destruct fuel; by rewrite bool_decide_eq_false_2 by set_solver).
  - destruct e; simpl in Hn; lia.
  - destruct e as [id msg|msg e|errs]; simpl osize in *; cbn [esize] in *; apply fuel_S in Hf as (f & -> & Hf); cbn [errors_Is].
    + f_equal. cbn. destruct (Nat.eqb_spec id target) as [->|]; [by rewrite bool_decide_eq_true_2 by set_solver|].
      by rewrite bool_decide_eq_false_2 by set_solver.
    + apply (IH f (Some e) target); [simpl; lia|done|done].
    + destruct Hok as [Hne Hall]. destruct errs as [|e0 errs]; [done|].
      cbn [map list_sum fold_right] in *. destruct Hall as [H0 Hall].
      assert (osize e0 <= f /\ osize e0 <= n)%nat as [Hs1 Hs2] by (destruct e0; simpl in *; lia).
      rewrite (IH f e0 target Hs2 Hs1 H0). cbn [mbind res_bind oaddresses addresses map concat].
      assert (match e0 with Some e => addresses e | None => [] end = oaddresses e0) as -> by done.
      destruct (bool_decide_reflect (target ∈ oaddresses e0)) as [Hin|Hni].
      { by rewrite bool_decide_eq_true_2 by set_solver. }
      assert (osize (Unwrap (e0 :: errs)) <= f /\ osize (Unwrap (e0 :: errs)) <= n)%nat as [Hu1 Hu2].
      { destruct errs as [|e1 [|e2 errs]]; cbn [Unwrap]; [by split| |].
        - destruct e0, e1; cbn [map list_sum fold_right osize] in *; unfold list_sum in *; simpl in *; lia.
        - change (osize (Some (Multi (e1 :: e2 :: errs)))) with
            (S (list_sum (map (fun e => match e with Some e => S (esize e) | None => 1%nat end) (e1 :: e2 :: errs)))).
          unfold list_sum in *. destruct e0; cbn [map fold_right] in *; lia. }
      rewrite (IH f (Unwrap (e0 :: errs)) target Hu2 Hu1).
      2:{ destruct errs as [|e1 [|e2 errs]]; cbn [Unwrap]; [done|by destruct Hall|by split]. }
      f_equal. apply bool_decide_ext.
      destruct errs as [|e1 [|e2 errs]]; cbn [Unwrap oaddresses addresses map concat]; [|destruct e1; simpl|]; set_solver.
Qed.

(** C33.  errors.Is finds in a joined error exactly the errors that were added
    to it, themselves or below what they wrap or join, however deep; it ends,
    and as long as nothing in the tree is an empty multiError it does not
    panic. *)
Theorem errors_Is_finds err target :
  filled err -> forall fuel, (esize err <= fuel)%nat ->
  errors_Is fuel (Some err) target = Ok (bool_decide (target ∈ addresses err)).
Proof. intros Hok fuel Hf. by apply (Is_spec (esize err) fuel (Some err)). Qed.

(** The first error added to a multiError that was made of none. *)
Lemma added_found errs e : filled (Multi errs) -> filled e -> filled (Multi (Add errs (Some e))) /\
  addresses (Multi (Add errs (Some e))) = (addresses (Multi errs) ++ addresses e)%list.
Proof.
  intros [Hne H] He. split.
  - split; [by destruct errs|]. unfold Add. rewrite map_app. clear Hne. induction errs as [|x errs IH]; [done|].
    destruct H as [Hx H]. split; [done|by apply IH].
  - cbn [addresses]. unfold Add. rewrite map_app, concat_app. cbn [map concat]. by rewrite app_nil_r.
Qed.

(** newMultiError(nil) makes one in which errors.Is panics. *)
Example empty_panics : errors_Is 9 (Some (Multi (newMultiError None))) 1 = Panic "index out of range".
Proof. reflexivity. Qed.

Lemma errors_Is_finds_witness :
  let tree := Multi (Add (Add (newMultiError (Some (Plain 1 "lost"%string))) None) (Some (Wrapped "again"%string (Multi [Some (Plain 2 "eof"%string)])))) in
  errors_Is 9 (Some tree) 2 = Ok (bool_decide (2%nat ∈ addresses tree)).
Proof.
  intros tree. apply (errors_Is_finds tree 2).
  - vm_compute. repeat split; discriminate.
  - vm_compute. lia.
Defined.

Example texts :
  CIPError_Error {| Code := 0xFF; Extended := 0x2105 |} =
    "error FF2105: General Error: Number of Elements or Byte Offset is beyond the end of the requested tag."%string /\
  CIPError_Error {| Code := 0x10; Extended := 1 |} = "error 101: Unknown Error"%string /\
  Error (Multi (Add (newMultiError (Some (Plain 1 "lost"%string))) (Some (Plain 2 "eof"%string)))) = ": lost: eof"%string.
Proof. split; [vm_compute; reflexivity|]. split; vm_compute; reflexivity. Qed.
