(* ===== verification/CipDefs.v ===== *)
(** * CIP identifiers and path segments: cip_definitions.go, services.go

    The logical segments (class, instance, attribute, element) that make up a
    CIP path, with the encoder (Bytes), the length (Len) and the decoder
    (Read) of each, the service byte and the status descriptions. *)
From S2P Require Import Prelude Reader CipNames.
Module Address.
(* type CIPAddress byte *)
Definition Bytes (p : Z) : bytes := [u8 p].
Definition Len (p : Z) : Z := 0.
End Address.

(** ** CIPAttribute: uint16 *)
Module Attribute.
Definition cipAttribute_8bit := 0x30.
Definition cipAttribute_16bit := 0x31.

Definition Bytes (p : Z) : bytes :=
  if p <? 256 then [cipAttribute_8bit; u8 p]
  else [cipAttribute_16bit; 0] ++ le_bytes 2 p.

Definition Read {R} `{Reader R} : M R Z :=
  size ← wrapM "error reading attribute size" read_u8;
  if size =? cipAttribute_8bit then
    wrapM "error reading 8 bit attribute" read_u8
  else if size =? cipAttribute_16bit then
    _ ← wrapM "error skipping attribute padding byte" (read_full 1);
    wrapM "error reading 16 bit attribute" read_u16
  else fail (Errorf "expected 0x30 or 0x31").

Definition Len (p : Z) : Z := if p <? 256 then 2 else 4.
End Attribute.

(** ** CIPElement: uint32 *)
Module Element.
Definition cipElement_8bit := 0x28.
Definition cipElement_16bit := 0x29.
Definition cipElement_32bit := 0x2A.

Definition Bytes (p : Z) : bytes :=
  if p <? 256 then [cipElement_8bit; u8 p]
  else if p <? 65536 then [cipElement_16bit; 0] ++ le_bytes 2 p
  else [cipElement_16bit; 0] ++ le_bytes 4 p.

Definition Len (p : Z) : Z :=
  if p <? 256 then 2 else if p <? 65535 then 4 else 6.
End Element.

(** ** CIPInstance: uint32 *)
Module Instance_.
Definition cipInstance_8bit := 0x24.
Definition cipInstance_16bit := 0x25.
Definition cipInstance_32bit := 0x26.

Definition Bytes (p : Z) : bytes :=
  if p <? 256 then [cipInstance_8bit; u8 p]
  else if p <=? 0xFFFF then [cipInstance_16bit; 0] ++ le_bytes 2 p
  else [cipInstance_32bit; 0] ++ le_bytes 4 p.

Definition Read {R} `{Reader R} : M R Z :=
  size ← wrapM "error reading instance size" read_u8;
  if size =? cipInstance_8bit then
    wrapM "error reading 8 bit instance" read_u8
  else if size =? cipInstance_16bit then
    _ ← wrapM "error skipping instance padding byte" (read_full 1);
    wrapM "error reading 16 bit instance" read_u16
  else if size =? cipInstance_32bit then
    _ ← wrapM "error skipping instance padding byte" (read_full 1);
    wrapM "error reading 32 bit instance" read_u32
  else fail (Errorf "expected 0x24 or 0x25").

Definition Len (p : Z) : Z :=
  if p <? 256 then 2 else if p <=? 0xFFFF then 4 else 6.
End Instance_.

(** ** CIPClass: uint16 *)
Module Class_.
Definition cipClass_8bit := 0x20.
Definition cipClass_16bit := 0x21.

Definition Bytes (p : Z) : bytes :=
  if p <? 256 then [cipClass_8bit; u8 p]
  else [cipClass_16bit; 0] ++ le_bytes 2 p.

Definition Read {R} `{Reader R} : M R Z :=
  classSize ← wrapM "error reading class size" read_u8;
  if classSize =? cipClass_8bit then
    wrapM "error reading 8 bit class" read_u8
  else if classSize =? cipClass_16bit then
    _ ← wrapM "error skipping class padding byte" (read_full 1);
    wrapM "error reading 16 bit class" read_u16
  else fail (Errorf "expected 0x20 or 0x21").

Definition Len (p : Z) : Z := if p <? 256 then 2 else 4.
End Class_.

(** ** CIPService: the response bit *)
Module Service.
Definition IsResponse (s : Z) : bool := negb (Z.land s 0x80 =? 0).
Definition AsResponse (s : Z) : Z := Z.lor s 0x80.
Definition UnResponse (s : Z) : Z := Z.land s 0x7F.
End Service.

(** ** The decoders invert the encoders *)

Lemma parses_padded {R} `{ReaderLaws R} (b : Z) (p : M R Z) bs v msg1 msg2 :
  parses p bs v ->
  parses (_ ← wrapM msg1 (read_full 1); wrapM msg2 p) (b :: bs) v.
Proof.
  intros Hp. apply (parses_bind _ _ [b] bs [b]); [|by apply parses_wrapM].
  apply parses_wrapM, (parses_full [b]).
Qed.

Ltac segment_case :=
  match goal with
  | |- context [?a <? ?b] => destruct (Z.ltb_spec a b)
  | |- context [?a <=? ?b] => destruct (Z.leb_spec a b)
  end.

Ltac parse_segment :=
  eapply (parses_bind _ _ [_] _ _);
  [apply parses_wrapM, parses_u8; solve_byte|cbn -[Z.eqb le_bytes]; simpl Z.eqb; cbv iota];
  first [ rewrite wrap_small by lia; apply parses_wrapM, parses_u8; solve_byte
        | apply parses_padded; first [apply parses_u16|apply parses_u32]; lia ].

Section Segments.
Context {R : Type} `{ReaderLaws R}.

Lemma class_parses p :
  0 <= p < 2 ^ 16 -> parses (R:=R) Class_.Read (Class_.Bytes p) p.
Proof. intros. unfold Class_.Bytes, Class_.Read. segment_case; parse_segment. Qed.

Lemma attribute_parses p :
  0 <= p < 2 ^ 16 -> parses (R:=R) Attribute.Read (Attribute.Bytes p) p.
Proof. intros. unfold Attribute.Bytes, Attribute.Read. segment_case; parse_segment. Qed.

Lemma instance_parses p :
  0 <= p < 2 ^ 32 -> parses (R:=R) Instance_.Read (Instance_.Bytes p) p.
Proof.
  intros. unfold Instance_.Bytes, Instance_.Read.
  segment_case; [|segment_case]; parse_segment.
Qed.
End Segments.

#[export] Hint Resolve class_parses attribute_parses instance_parses : go.

Lemma class_len p : Class_.Len p = blen (Class_.Bytes p).
Proof. unfold Class_.Len, Class_.Bytes. by destruct (p <? 256). Qed.

Lemma attribute_len p : Attribute.Len p = blen (Attribute.Bytes p).
Proof. unfold Attribute.Len, Attribute.Bytes. by destruct (p <? 256). Qed.

Lemma instance_len p : Instance_.Len p = blen (Instance_.Bytes p).
Proof.
  unfold Instance_.Len, Instance_.Bytes.
  destruct (p <? 256); [done|]. by destruct (p <=? 0xFFFF).
Qed.

Lemma service_response s :
  0 <= s < 128 ->
  Service.IsResponse s = false /\ Service.IsResponse (Service.AsResponse s) = true /\
  Service.UnResponse (Service.AsResponse s) = s.
Proof.
  intros Hs.
  assert (s = Z.land s (Z.ones 7)) as E by (rewrite Z.land_ones, Z.mod_small; lia).
  assert (Z.land s 0x80 = 0) as E0.
  { rewrite E, <- Z.land_assoc. change (Z.land (Z.ones 7) 0x80) with 0. apply Z.land_0_r. }
  unfold Service.IsResponse, Service.UnResponse, Service.AsResponse.
  rewrite !Z.land_lor_distr_l, E0. split_and!; [done..|].
  change (Z.land 0x80 0x7F) with 0. rewrite Z.lor_0_r. by symmetry.
Qed.
