(* ===== verification/Types.v ===== *)
(** * CIP data types: types.go

    The CIPType codes, which code a Go variable is exchanged as, the size and
    description of a code, decoding one value of a type from a reader
    (readValue) and reading one bit of an integer value (getBit). *)
From Stdlib Require Import Ascii String.
From S2P Require Import Prelude Reader GoValue CipNames.
#[local] Open Scope Z_scope.

(** ** The codes *)

Definition CIPTypeUnknown : Z := 0x00.
Definition CIPTypeStruct : Z := 0xA0.
Definition CIPTypeUTIME : Z := 0xC0.
Definition CIPTypeBOOL : Z := 0xC1.
Definition CIPTypeSINT : Z := 0xC2.
Definition CIPTypeINT : Z := 0xC3.
Definition CIPTypeDINT : Z := 0xC4.
Definition CIPTypeLINT : Z := 0xC5.
Definition CIPTypeUSINT : Z := 0xC6.
Definition CIPTypeUINT : Z := 0xC7.
Definition CIPTypeUDINT : Z := 0xC8.
Definition CIPTypeULINT : Z := 0xC9.
Definition CIPTypeREAL : Z := 0xCA.
Definition CIPTypeLREAL : Z := 0xCB.
Definition CIPTypeSTIME : Z := 0xCC.
Definition CIPTypeDATE : Z := 0xCD.
Definition CIPTypeTIMEOFDAY : Z := 0xCE.
Definition CIPTypeDATETIME : Z := 0xCF.
Definition CIPTypeSTRING_UNKNOWN : Z := 0xD0.
Definition CIPTypeBYTE : Z := 0xD1.
Definition CIPTypeWORD : Z := 0xD2.
Definition CIPTypeDWORD : Z := 0xD3.
Definition CIPTypeLWORD : Z := 0xD4.
Definition CIPTypeSTRING_UNKNOWN2 : Z := 0xD5.
Definition CIPTypeFTIME : Z := 0xD6.
Definition CIPTypeLTIME : Z := 0xD7.
Definition CIPTypeITIME : Z := 0xD8.
Definition CIPTypeSTRING_UNKNOWN3 : Z := 0xD9.
Definition CIPTypeSTRING_SHORT : Z := 0xDA.
Definition CIPTypeTIMEOFDAY2 : Z := 0xDB.
Definition CIPTypeEPATH : Z := 0xDC.
Definition CIPTypeENGUNIT : Z := 0xDD.
Definition CIPTypeSTRING : Z := 0xFF.

(** ** GoVarToCIPType: the code and element count of a Go variable *)

Definition GoScalar_CIPType (t : gotype) : option Z :=
  match t with
  | TBool => Some CIPTypeBOOL
  | TInt U8 => Some CIPTypeBYTE
  | TInt I8 => Some CIPTypeSINT
  | TInt U16 => Some CIPTypeUINT
  | TInt I16 => Some CIPTypeINT
  | TInt U32 | TInt GoUint => Some CIPTypeUDINT
  | TInt I32 | TInt GoInt => Some CIPTypeDINT
  | TInt U64 => Some CIPTypeLWORD
  | TInt I64 => Some CIPTypeLINT
  | TFloat32 => Some CIPTypeREAL
  | TFloat64 => Some CIPTypeLREAL
  | TString => Some CIPTypeSTRING
  | _ => None
  end.

(** The element type of a slice with its pointers stripped is a struct. *)
Fixpoint struct_elem (t : gotype) : bool :=
  match t with TStruct _ _ => true | TPtr t => struct_elem t | _ => false end.

(** The reflect part of the function, on the zero value of a type. *)
Definition reflect_zero_CIPType (t : gotype) : Z * Z :=
  match t with
  | TStruct _ _ => (CIPTypeStruct, 1)
  | TSlice t => if struct_elem t then (CIPTypeStruct, 0) else (CIPTypeUnknown, 1)
  | TArray n t => if struct_elem t then (CIPTypeStruct, Z.of_nat n) else (CIPTypeUnknown, 1)
  | _ => (CIPTypeUnknown, 1)
  end.

Fixpoint reflect_CIPType (v : goval) : Z * Z :=
  match v with
  | VStruct _ _ _ => (CIPTypeStruct, 1)
  | VSlice t l | VArray t l =>
      if struct_elem t then (CIPTypeStruct, Z.of_nat (length l)) else (CIPTypeUnknown, 1)
  | VPtr TAny _ => (CIPTypeUnknown, 1)
  | VPtr t None => reflect_zero_CIPType t
  | VPtr _ (Some v) => reflect_CIPType v
  | _ => (CIPTypeUnknown, 1)
  end.

Definition GoVarToCIPType (v : goval) : Z * Z :=
  match v with
  | VNil => (CIPTypeUnknown, 1)
  | VPtr t _ =>
      match GoScalar_CIPType t with
      | Some ct => (ct, 1)
      | None => reflect_CIPType v
      end
  | VSlice t l =>
      match t, GoScalar_CIPType t with
      | TBool, _ | _, None => reflect_CIPType v   (* no case for []bool *)
      | _, Some ct => (ct, Z.of_nat (length l))
      end
  | _ =>
      match type_of v ≫= GoScalar_CIPType with
      | Some ct => (ct, 1)
      | None => reflect_CIPType v
      end
  end.

(** ** Size, String, IsAtomic *)

Definition Size (c : Z) : Z :=
  switch c [
    (CIPTypeUnknown, 0); (CIPTypeStruct, 88); (CIPTypeUTIME, 8);
    (CIPTypeBOOL, 1); (CIPTypeBYTE, 1); (CIPTypeSINT, 1);
    (CIPTypeINT, 2); (CIPTypeDINT, 4); (CIPTypeLINT, 8);
    (CIPTypeUSINT, 1); (CIPTypeUINT, 2); (CIPTypeUDINT, 4);
    (CIPTypeULINT, 8); (CIPTypeLWORD, 8); (CIPTypeREAL, 4);
    (CIPTypeLREAL, 8); (CIPTypeWORD, 2); (CIPTypeDWORD, 4);
    (CIPTypeDATE, 2); (CIPTypeTIMEOFDAY, 6); (CIPTypeDATETIME, 0);
    (CIPTypeSTRING, 90)
  ] 0.

Definition NewBuffer (c : Z) : bytes := replicate (Z.to_nat (Size c)) 0.

Definition hex_pad_space (s : string) : string :=
  if (String.length s <? 2)%nat then String " " s else s.

(** %2x prints lower case, padded with a space to width two *)
Definition hex_lower (z : Z) : string :=
  string_of_list_ascii
    (map (fun c => if (65 <=? N_of_ascii c)%N then ascii_of_N (N_of_ascii c + 32) else c)
      (list_ascii_of_string (hex_upper z))).

Definition CIPType_String (c : Z) : string :=
  switch c [
    (CIPTypeUnknown, "0x00 - Unknown"%string);
    (CIPTypeStruct, "0xA0 - Struct"%string);
    (CIPTypeBOOL, "0xC1 - BOOL"%string);
    (CIPTypeBYTE, "0xD1 - BYTE"%string);
    (CIPTypeSINT, "0xC2 - SINT"%string);
    (CIPTypeINT, "0xC3 - INT"%string);
    (CIPTypeDINT, "0xC4 - DINT"%string);
    (CIPTypeLINT, "0xC5 - LINT"%string);
    (CIPTypeUSINT, "0xC6 - USINT"%string);
    (CIPTypeUINT, "0xC7 - UINT"%string);
    (CIPTypeUDINT, "0xC8 - UDINT"%string);
    (CIPTypeLWORD, "0xC9 - LWORD"%string);
    (CIPTypeREAL, "0xCA - REAL"%string);
    (CIPTypeLREAL, "0xCB - LREAL"%string);
    (CIPTypeWORD, "0xD2 - WORD"%string);
    (CIPTypeDWORD, "0xD3 - DWORD"%string);
    (CIPTypeSTRING, "0xFF - (gologix specific) String"%string)
  ] ("0x" +:+ hex_pad_space (hex_lower c) +:+ " - Unknown").

Definition IsAtomic (t : Z) : bool := t <=? 254.

(** ** readValue: one value of a type from a reader *)

Section ReadValue.
Context {R : Type} `{Reader R}.

Definition read_bool : M R goval := b ← read_u8; mret (VBool (negb (b =? 0))).
Definition read_int (k : ikind) (n : nat) : M R goval :=
  if ikind_signed k then z ← read_sint n; mret (VInt k z)
  else z ← read_uint n; mret (VInt k z).
Definition read_float32 : M R goval := z ← read_uint 4; mret (VFloat32 z).
Definition read_float64 : M R goval := z ← read_uint 8; mret (VFloat64 z).
Definition read_byte_array (n : nat) : M R goval :=
  b ← read_full n; mret (VArray (TInt U8) (VInt U8 <$> b)).

Definition readValue (t : Z) : M R goval :=
  let unit p := wrapM "problem reading one unit" p in
  switch t [
    (CIPTypeUnknown, fail (Errorf "unknown type"));
    (CIPTypeStruct, fail (Errorf "don't know what to do with a struct"));
    (CIPTypeBOOL, unit read_bool);
    (CIPTypeBYTE, unit (read_int U8 1));
    (CIPTypeSINT, unit (read_int I8 1));
    (CIPTypeINT, unit (read_int I16 2));
    (CIPTypeDINT, unit (read_int I32 4));
    (CIPTypeLINT, unit (read_int I64 8));
    (CIPTypeUSINT, unit (read_int U8 1));
    (CIPTypeUINT, unit (read_int U16 2));
    (CIPTypeUDINT, unit (read_int U32 4));
    (CIPTypeLWORD, unit (read_int U64 8));
    (CIPTypeREAL, unit read_float32);
    (CIPTypeLREAL, unit read_float64);
    (CIPTypeWORD, unit (read_int U16 2));
    (CIPTypeDWORD, unit (read_int U32 4));
    (CIPTypeSTRING, unit (read_byte_array 86))
  ] (fail (Errorf "default (unknown) type")).
End ReadValue.

(** ** getBit: one bit of a decoded value

    Each integer case tests the position, then the dynamic type of the value;
    a position out of range leaves err nil and so returns false. *)

Definition int_bit (k : ikind) (v : goval) (bitpos : Z) (msg : string) : res bool :=
  match v with
  | VInt k' x =>
      if decide (k' = k) then
        let mask := int_conv k (Z.shiftl 1 bitpos) in
        Ok (negb (Z.land x mask =? 0))
      else Err (Errorf msg)
  | _ => Err (Errorf msg)
  end.

Definition getBit_int (k : ikind) (n : Z) (v : goval) (bitpos : Z) (msg : string) : res bool :=
  if (0 <=? bitpos) && (bitpos <? n) then int_bit k v bitpos msg else Ok false.

Definition getBit (t : Z) (v : goval) (bitpos : Z) : res bool :=
  switch t [
    (CIPTypeUnknown, Err (Errorf "unknown type"));
    (CIPTypeStruct, Err (Errorf "got a struct - can't get a bit"));
    (CIPTypeBOOL,
      if bitpos =? 0 then
        match v with
        | VBool b => Ok b
        | _ => Err (Errorf "value was a bool. must be 0 for bool")
        end
      else Ok false);
    (CIPTypeBYTE, getBit_int U8 8 v bitpos "value was a byte. must be 0-7 for byte");
    (CIPTypeSINT, getBit_int U8 8 v bitpos "value was a SINT. must be 0-7 for SINT");
    (CIPTypeINT, getBit_int I16 16 v bitpos "value was an INT. must be 0-15 for INT");
    (CIPTypeDINT, getBit_int I32 32 v bitpos "value was a DINT. must be 0-31 for DINT");
    (CIPTypeLINT, getBit_int I64 64 v bitpos "value was a LINT. must be 0-63 for LINT");
    (CIPTypeUSINT, getBit_int U8 8 v bitpos "value was a USINT. must be 0-7 for USINT");
    (CIPTypeUINT, getBit_int U16 16 v bitpos "value was an UINT. must be 0-15 for UINT");
    (CIPTypeUDINT, getBit_int U32 32 v bitpos "value was a UDINT. must be 0-31 for UDINT");
    (CIPTypeLWORD, getBit_int U64 64 v bitpos "value was a LWORD. must be 0-63 for LWORD");
    (CIPTypeREAL, Err (Errorf "value was a REAL, not finding bit of real"));
    (CIPTypeLREAL, Err (Errorf "value was a LEAL, not finding bit of real"));
    (CIPTypeWORD, getBit_int U16 16 v bitpos "value was an WORD. must be 0-15 for WORD");
    (CIPTypeDWORD, getBit_int U32 32 v bitpos "value was a DWORD. must be 0-31 for DWORD");
    (CIPTypeSTRING, Err (Errorf "value was a STRING, not finding bit of string"))
  ] (Err (Errorf "got an unknown type. don't know how to get bit")).

(** ** Lemmas *)

Lemma land_pow2_eqb z i : 0 <= i -> (Z.land z (2 ^ i) =? 0) = negb (Z.testbit z i).
Proof.
  intros Hi. destruct (Z.testbit z i) eqn:E; simpl.
  - apply Z.eqb_neq. intros H0. apply (f_equal (fun x => Z.testbit x i)) in H0.
    rewrite Z.land_spec, E, Z.pow2_bits_true, Z.bits_0 in H0 by lia. done.
  - apply Z.eqb_eq, Z.bits_inj'. intros n Hn. rewrite Z.land_spec, Z.bits_0.
    destruct (decide (n = i)) as [->|]; [by rewrite E|].
    rewrite Z.pow2_bits_false by done. apply andb_false_r.
Qed.

(** The sign bit: the mask 1 << n converted to the n+1-bit type is -2^n. *)
Lemma land_sign_eqb z n :
  0 <= n -> - 2 ^ n <= z < 2 ^ n ->
  (Z.land z (- 2 ^ n) =? 0) = negb (Z.testbit z n).
Proof.
  intros Hn Hz.
  replace (- 2 ^ n) with (Z.lnot (Z.ones n))
    by (rewrite Z.ones_equiv; unfold Z.lnot; lia).
  rewrite <- Z.ldiff_land, Z.ldiff_ones_r, Z.shiftl_mul_pow2, Z.shiftr_div_pow2,
    Z.testbit_odd, Z.shiftr_div_pow2 by done.
  assert (z / 2 ^ n = 0 \/ z / 2 ^ n = -1) as [E|E].
  { destruct (decide (0 <= z)); [left; apply Z.div_small; lia|right].
    symmetry. apply (Z.div_unique _ _ _ (z + 2 ^ n)); lia. }
  all: rewrite E; simpl.
  - done.
  - apply Z.eqb_neq. pose proof (Z.pow_pos_nonneg 2 n). lia.
Qed.

Lemma int_mask k i :
  0 <= i < ikind_bits k ->
  int_conv k (Z.shiftl 1 i) =
    if ikind_signed k && (i =? ikind_bits k - 1) then - 2 ^ i else 2 ^ i.
Proof.
  intros Hi. rewrite Z.shiftl_1_l. unfold int_conv.
  assert (2 ^ ikind_bits k = 2 * 2 ^ (ikind_bits k - 1)) as E.
  { rewrite <- Z.pow_succ_r by (pose proof (ikind_bits_pos k); lia). f_equal. lia. }
  destruct (ikind_signed k); simpl.
  - destruct (Z.eqb_spec i (ikind_bits k - 1)) as [->|].
    + unfold swrap. rewrite E, <- Z.add_diag, Z_mod_same_full. lia.
    + apply swrap_small; [lia|].
      pose proof (Z.pow_lt_mono_r 2 i (ikind_bits k - 1)).
      pose proof (Z.pow_pos_nonneg 2 i). lia.
  - apply wrap_small.
    pose proof (Z.pow_lt_mono_r 2 i (ikind_bits k)). pose proof (Z.pow_pos_nonneg 2 i). lia.
Qed.

Lemma int_bit_testbit k z i msg :
  int_ok k z -> 0 <= i < ikind_bits k ->
  int_bit k (VInt k z) i msg = Ok (Z.testbit z i).
Proof.
  intros Hz Hi. unfold int_bit. rewrite decide_True by done. cbv zeta.
  rewrite int_mask by done. f_equal. unfold int_ok in Hz.
  destruct (ikind_signed k); simpl; [|by rewrite land_pow2_eqb, negb_involutive by lia].
  destruct (Z.eqb_spec i (ikind_bits k - 1)) as [->|].
  - by rewrite land_sign_eqb, negb_involutive by lia.
  - by rewrite land_pow2_eqb, negb_involutive by lia.
Qed.

(** The Go integer kind a code's bits are taken from. *)
Definition bit_kind (t : Z) : option ikind :=
  switch t [
    (CIPTypeBYTE, Some U8); (CIPTypeUSINT, Some U8);
    (CIPTypeINT, Some I16); (CIPTypeDINT, Some I32); (CIPTypeLINT, Some I64);
    (CIPTypeUINT, Some U16); (CIPTypeUDINT, Some U32); (CIPTypeLWORD, Some U64);
    (CIPTypeWORD, Some U16); (CIPTypeDWORD, Some U32)
  ] None.

Lemma switch_cases {A} (P : Z -> A -> Prop) x cases d :
  (forall k a, In (k, a) cases -> P k a) -> (forall y, P y d) -> P x (switch x cases d).
Proof.
  induction cases as [|[k a] cases IH]; simpl; intros Hc Hd; [done|].
  destruct (Z.eqb_spec x k) as [->|]; [|by apply IH; auto]. by apply Hc; left.
Qed.

Ltac bit_kind_cases H t :=
  unfold bit_kind in H; cbn [switch] in H;
  repeat match type of H with
  | (if t =? ?c then _ else _) = _ =>
      destruct (Z.eqb_spec t c) as [->|]; [injection H as <-|]
  end; [..|discriminate H].

(** Reading bit i of a decoded integer returns exactly bit i of its two's
    complement representation, for every integer type except SINT and every
    position of the type, sign bit included. *)
Theorem getBit_testbit t k z i :
  bit_kind t = Some k -> int_ok k z -> 0 <= i < ikind_bits k ->
  getBit t (VInt k z) i = Ok (Z.testbit z i).
Proof.
  intros Hk Hz Hi. bit_kind_cases Hk t.
  all: cbn [ikind_bits] in Hi; cbv -[getBit_int Z.testbit]; unfold getBit_int;
    rewrite (proj2 (andb_true_iff _ _)) by (rewrite Z.leb_le, Z.ltb_lt; lia);
    by apply int_bit_testbit.
Qed.

Lemma getBit_testbit_witness :
  getBit CIPTypeINT (VInt I16 (-32768)) 15 = Ok (Z.testbit (-32768) 15).
Proof. apply (getBit_testbit CIPTypeINT I16 (-32768) 15); [reflexivity|zbound|zbound]. Defined.

(** A bit position outside the type is not an error: every integer case
    answers false, whatever the value is. *)
Theorem getBit_out_of_range t k v i :
  bit_kind t = Some k -> i < 0 \/ ikind_bits k <= i -> getBit t v i = Ok false.
Proof.
  intros Hk Hi. bit_kind_cases Hk t.
  all: cbn [ikind_bits] in Hi; cbv -[getBit_int Z.testbit]; unfold getBit_int;
    by rewrite (proj2 (andb_false_iff _ _)) by (rewrite Z.leb_gt, Z.ltb_ge; lia).
Qed.

Lemma getBit_out_of_range_witness : getBit CIPTypeBYTE (VInt U8 255) 8 = Ok false.
Proof. apply (getBit_out_of_range CIPTypeBYTE U8); [reflexivity|right; zbound]. Defined.

Section ReadValueLaws.
Context {R : Type} `{ReaderLaws R}.

Lemma parses_read_int k n z :
  ikind_size k = Some n -> int_ok k z ->
  parses (R:=R) (read_int k n) (le_bytes n z) (VInt k z).
Proof.
  intros Hn Hz. unfold read_int, int_ok in *.
  assert (8 * Z.of_nat n = ikind_bits k /\ (0 < n)%nat) as [E Hpos]
    by (destruct k; simplify_eq/=; split; lia).
  destruct (ikind_signed k); eapply parses_bind_nil; try apply parses_ret.
  - apply parses_sint; rewrite ?E; done.
  - apply parses_uint; rewrite E; done.
Qed.

Lemma parses_read_bool (b : bool) : parses (R:=R) read_bool [if b then 1 else 0] (VBool b).
Proof.
  unfold read_bool. eapply parses_bind_nil; [apply parses_u8; destruct b; solve_byte|].
  destruct b; apply parses_ret.
Qed.

Lemma parses_read_float32 z :
  is_bits 32 z -> parses (R:=R) read_float32 (le_bytes 4 z) (VFloat32 z).
Proof. intros. eapply parses_bind_nil; [by apply parses_uint|apply parses_ret]. Qed.

Lemma parses_read_float64 z :
  is_bits 64 z -> parses (R:=R) read_float64 (le_bytes 8 z) (VFloat64 z).
Proof. intros. eapply parses_bind_nil; [by apply parses_uint|apply parses_ret]. Qed.
End ReadValueLaws.

#[export] Hint Resolve parses_read_int parses_read_bool parses_read_float32 parses_read_float64 : go.

Lemma binary_write_int k z bs :
  binary_write (VInt k z) = Ok bs ->
  exists n, ikind_size k = Some n /\ bs = le_bytes n z.
Proof.
  unfold binary_write. simpl. destruct (ikind_size k) as [n|]; simpl; [|done].
  intros [= <-]. eauto.
Qed.

Lemma parses_readValue {R} `{ReaderLaws R} v bs :
  scalar_ok v -> binary_write v = Ok bs ->
  parses (R:=R) (readValue (fst (GoVarToCIPType v))) bs v.
Proof.
  intros Hv Hw. destruct v as [|b|k z|z|z|s| | | |]; try done.
  - injection Hw as <-. apply parses_wrapM, parses_read_bool.
  - apply binary_write_int in Hw as (n & Hn & ->).
    destruct k; simpl in Hn; simplify_eq; apply parses_wrapM; by apply parses_read_int.
  - injection Hw as <-. apply parses_wrapM. by apply parses_read_float32.
  - injection Hw as <-. apply parses_wrapM. by apply parses_read_float64.
Qed.

(** Decoding inverts encoding: the bytes binary.Write produces for a scalar
    are read back by readValue at the code GoVarToCIPType gives the value, as
    the same value and consuming exactly those bytes, from any reader. *)
Theorem readValue_binary_write {R} `{ReaderLaws R} v bs :
  scalar_ok v -> binary_write v = Ok bs ->
  parses (R:=R) (readValue (fst (GoVarToCIPType v))) bs v.
Proof. apply parses_readValue. Qed.

Lemma readValue_binary_write_witness :
  scalar_ok (VInt I32 (-2)) /\
  parses (R:=bytes) (readValue CIPTypeDINT) [254; 255; 255; 255] (VInt I32 (-2)).
Proof.
  split; [zbound|]. apply (readValue_binary_write (VInt I32 (-2))); [zbound|reflexivity].
Defined.

(** The size table agrees with the wire: a scalar that can be written at
    all occupies exactly Size() bytes of its code. *)
Theorem Size_binary_write v bs :
  scalar_ok v -> binary_write v = Ok bs -> blen bs = Size (fst (GoVarToCIPType v)).
Proof.
  intros Hv Hw. destruct v as [|b|k z|z|z|s| | | |]; try done.
  - by injection Hw as <-.
  - apply binary_write_int in Hw as (n & Hn & ->).
    unfold blen. rewrite length_le_bytes. by destruct k; simplify_eq/=.
  - by injection Hw as <-.
  - by injection Hw as <-.
Qed.

Lemma Size_binary_write_witness : blen [1; 0; 0; 0; 0; 0; 0; 0] = Size CIPTypeLINT.
Proof. apply (Size_binary_write (VInt I64 1)); [zbound|reflexivity]. Defined.

(** A SINT value is decoded as int8 but getBit looks for a byte, so a bit
    of a SINT tag is never available: every in-range request is an error. *)
Theorem getBit_SINT_fails {R} `{Reader R} (r r' : R) v i :
  readValue CIPTypeSINT r = (Ok v, r') -> 0 <= i < 8 ->
  exists msg, getBit CIPTypeSINT v i = Err (Errorf msg).
Proof.
  intros Hr Hi. change (readValue CIPTypeSINT) with
    (wrapM (A:=goval) (S:=R) "problem reading one unit" (read_int I8 1)) in Hr.
  apply wrapM_Ok_inv, bind_Ok_inv in Hr as (z & s & _ & Hr). injection Hr as <- <-.
  cbv -[getBit_int]. unfold getBit_int.
  rewrite (proj2 (andb_true_iff _ _)) by (rewrite Z.leb_le, Z.ltb_lt; lia).
  simpl. eauto.
Qed.

Lemma getBit_SINT_fails_witness :
  exists msg, getBit CIPTypeSINT (VInt I8 5) 0 = Err (Errorf msg).
Proof. apply (getBit_SINT_fails (R:=bytes) [5] []); [reflexivity|zbound]. Defined.
