(* ===== verification/Items.v ===== *)
(** * CPF items: items.go

    A CIPItem is a header (type id and length), a data buffer and a read
    position.  It is written through io.Writer and Serialize, read through
    io.Reader, DeSerialize and the typed accessors, and framed in a list by
    serializeItems and readItems. *)
From S2P Require Import Prelude Reader GoValue.
Definition cipItem_Null := 0x0000.
Definition cipItem_ListIdentityResponse := 0x000C.
Definition cipItem_ConnectionAddress := 0x00A1.
Definition cipItem_ConnectedData := 0x00B1.
Definition cipItem_UnconnectedData := 0x00B2.
Definition cipItem_ListServiceResponse := 0x0100.
Definition cipItem_SockAddrInfo_OT := 0x8000.
Definition cipItem_SockAddrInfo_TO := 0x8001.
Definition cipItem_SequenceAddress := 0x8002.

Record CIPItem := {
  item_ID : Z;       (* Header.ID, uint16 *)
  item_Length : Z;   (* Header.Length, uint16 *)
  item_Data : bytes;
  item_Pos : Z;      (* int *)
}.

Definition set_Pos (p : Z) (i : CIPItem) : CIPItem :=
  {| item_ID := item_ID i; item_Length := item_Length i; item_Data := item_Data i; item_Pos := p |}.

Definition out_of_range : string := "slice bounds out of range".

(** ** The item as an io.Reader: Read, under io.ReadFull *)

Definition item_unread (i : CIPItem) : bytes := drop (Z.to_nat (item_Pos i)) (item_Data i).

(** One call of Read(p) with len(p) = n. *)
Definition Read (n : nat) : M CIPItem bytes := fun i =>
  if blen (item_Data i) <=? item_Pos i then (Err EOF, i)
  else if item_Pos i <? 0 then (Panic out_of_range, i)
  else
    let p := take n (item_unread i) in
    (Ok p, set_Pos (item_Pos i + blen p) i).

(** io.ReadFull calls Read until n bytes are there or it fails. *)
Definition item_read_full (n : nat) : M CIPItem bytes := fun i =>
  if (n =? 0)%nat then (Ok [], i)
  else
    match Read n i with
    | (Ok p, i') =>
        if (length p =? n)%nat then (Ok p, i')
        else (Err UnexpectedEOF, i')   (* the next Read is at the end: EOF *)
    | r => r
    end.

#[export] Instance item_Reader : Reader CIPItem := {|
  rd_data := item_unread;
  rd_ok := fun i => 0 <= item_Pos i;
  rd_advance := fun n i => set_Pos (item_Pos i + Z.of_nat n) i;
  read_full := item_read_full;
|}.

Lemma length_item_unread i :
  length (item_unread i) = (length (item_Data i) - Z.to_nat (item_Pos i))%nat.
Proof. apply length_drop. Qed.

Lemma set_Pos_id i p : p = item_Pos i -> set_Pos p i = i.
Proof. intros ->. by destruct i. Qed.

Lemma Read_inside n i :
  0 <= item_Pos i < blen (item_Data i) ->
  Read n i = (Ok (take n (item_unread i)),
    set_Pos (item_Pos i + blen (take n (item_unread i))) i).
Proof.
  intros Hi. unfold Read. rewrite (proj2 (Z.leb_gt _ _)) by lia.
  by rewrite (proj2 (Z.ltb_ge _ _)) by lia.
Qed.

#[export] Instance item_ReaderLaws : ReaderLaws CIPItem.
Proof.
  split; simpl; unfold item_read_full.
  - intros n i Hi Hn. destruct (Nat.eqb_spec n 0) as [->|Hn0].
    { by rewrite set_Pos_id by lia. }
    rewrite length_item_unread in Hn. rewrite Read_inside by (unfold blen; lia).
    rewrite length_take, length_item_unread, (proj2 (Nat.eqb_eq _ _)) by lia.
    f_equal. f_equal. unfold blen. rewrite length_take, length_item_unread. lia.
  - intros n i Hi Hn Hd. rewrite (proj2 (Nat.eqb_neq _ _)) by lia. unfold Read.
    apply (f_equal length) in Hd. rewrite length_item_unread in Hd. simpl in Hd.
    by rewrite (proj2 (Z.leb_le _ _)) by (unfold blen; lia).
  - intros n i Hi Hn. rewrite length_item_unread in Hn.
    rewrite (proj2 (Nat.eqb_neq _ _)) by lia.
    rewrite Read_inside by (unfold blen; lia).
    by rewrite length_take, length_item_unread, (proj2 (Nat.eqb_neq _ _)) by lia.
  - intros n i Hi _. unfold item_unread. simpl. rewrite drop_drop. f_equal. lia.
  - intros. lia.
  - intros i. by apply set_Pos_id; simpl; lia.
  - intros n m i. unfold set_Pos. simpl. f_equal. lia.
Qed.

(** Whatever a computation answers, it leaves a valid position and no more
    unread data than before, and it panics only as P says. *)
Definition shrinks {A} (P : string -> Prop) (m : M CIPItem A) : Prop := forall i,
  0 <= item_Pos i ->
  0 <= item_Pos (snd (m i)) /\ (length (item_unread (snd (m i))) <= length (item_unread i))%nat /\
  (forall w, fst (m i) = Panic w -> P w).

(** ** Writing *)

(** Write appends and keeps the header length, a uint16, in step. *)
Definition Write (p : bytes) (i : CIPItem) : CIPItem :=
  {| item_ID := item_ID i; item_Length := u16 (blen (item_Data i ++ p));
     item_Data := item_Data i ++ p; item_Pos := item_Pos i |}.

(** make([]byte, n) followed by copy(b, s) *)
Definition copy_into (n : nat) (s : bytes) : bytes := take n s ++ replicate (n - length s) 0.

(** What Serialize dispatches on: a string, a []string, a value with its own
    byte image (Serializable, a []byte or a fixed-size struct), any other value. *)
Inductive sarg :=
  | SString (s : bytes)
  | SStrings (l : list bytes)
  | SBytes (b : bytes)
  | SValue (v : goval).

Definition sstring_slot (s : bytes) : bytes :=
  le_bytes 4 (if 84 <? u32 (blen s) then 84 else u32 (blen s)) ++ copy_into 84 s.

Definition serialize_arg (a : sarg) : res bytes :=
  match a with
  | SString s => Ok (le_bytes 4 (blen s) ++ copy_into 84 s)
  | SStrings l => Ok (concat (sstring_slot <$> l))
  | SBytes b => Ok b
  | SValue v => binary_write v
  end.

(** A dynamically typed argument takes the string cases first. *)
Definition sarg_of (v : goval) : sarg :=
  match v with
  | VString s => SString s
  | VSlice TString l => SStrings ((fun v => match v with VString s => s | _ => [] end) <$> l)
  | _ => SValue v
  end.

Definition Serialize1 (a : sarg) : M CIPItem unit := fun i =>
  match serialize_arg a with
  | Ok b => (Ok tt, Write b i)
  | Err e => (Err (Wrap "problem writing item" e), i)
  | Panic w => (Panic w, i)
  end.

Fixpoint Serialize (l : list sarg) : M CIPItem unit :=
  match l with
  | [] => mret tt
  | a :: l => _ ← Serialize1 a; Serialize l
  end.

Definition empty_item (id : Z) : CIPItem :=
  {| item_ID := id; item_Length := 0; item_Data := []; item_Pos := 0 |}.

(** newItem ignores the error of Serialize; None is a nil str. *)
Definition newItem (id : Z) (a : option sarg) : CIPItem :=
  match a with
  | None => empty_item id
  | Some a => snd (Serialize1 a (empty_item id))
  end.

(** ** Typed accessors *)

Definition Rest (i : CIPItem) : res bytes :=
  if (item_Pos i <? 0) || (blen (item_Data i) <? item_Pos i) then Panic out_of_range
  else Ok (item_unread i).

(** The shared shape of Byte, Uint16, Uint32, Uint64: the bound check, then
    the little-endian value at the position. *)
Definition item_uint (n : nat) : M CIPItem Z := fun i =>
  if blen (item_Data i) <=? item_Pos i + (Z.of_nat n - 1) then (Err (Errorf "item out of data"), i)
  else if item_Pos i <? 0 then (Panic out_of_range, i)
  else (Ok (le_val (take n (item_unread i))), set_Pos (item_Pos i + Z.of_nat n) i).

Definition item_sint (n : nat) : M CIPItem Z :=
  v ← item_uint n; mret (swrap (8 * Z.of_nat n) v).

Definition item_Byte : M CIPItem Z := item_uint 1.
Definition Uint16 : M CIPItem Z := item_uint 2.
Definition Int16 : M CIPItem Z := item_sint 2.
Definition Uint32 : M CIPItem Z := item_uint 4.
Definition Int32 : M CIPItem Z := item_sint 4.
Definition Uint64 : M CIPItem Z := item_uint 8.
Definition Int64 : M CIPItem Z := item_sint 8.

Definition item_float (n : nat) : M CIPItem Z := fun i =>
  if blen (item_Data i) <=? item_Pos i + (Z.of_nat n - 1) then (Err (Errorf "item out of data"), i)
  else read_uint n i.
Definition Float32 : M CIPItem Z := item_float 4.
Definition Float64 : M CIPItem Z := item_float 8.

Definition Reset (i : CIPItem) : CIPItem := set_Pos 0 i.

(** ** Framing *)

Definition item_Bytes (i : CIPItem) : bytes :=
  le_bytes 2 (item_ID i) ++ le_bytes 2 (item_Length i) ++ item_Data i.

Definition serializeItems (items : list CIPItem) : bytes :=
  le_bytes 4 0 ++ le_bytes 2 0 ++ le_bytes 2 (Z.of_nat (length items)) ++
  concat (map item_Bytes items).

Section ReadItems.
Context {R : Type} `{Reader R}.

Definition read_item_header : M R (Z * Z) :=
  read_struct 4 (id ← read_u16; len ← read_u16; mret (id, len)).

Definition read_item : M R CIPItem :=
  '(id, len) ← wrapM "couldn't read item header" read_item_header;
  data ← wrapM "couldn't read item data" (read_slice (Z.to_nat len));
  mret {| item_ID := id; item_Length := len; item_Data := data; item_Pos := 0 |}.

Fixpoint read_n_items (n : nat) : M R (list CIPItem) :=
  match n with
  | O => mret []
  | S n => i ← read_item; l ← read_n_items n; mret (i :: l)
  end.

Definition readItems : M R (list CIPItem) :=
  count ← wrapM "couldn't read item count" read_u16;
  read_n_items (Z.to_nat count).
End ReadItems.

(** ** Writing: laws *)

Lemma length_copy_into n s : length (copy_into n s) = n.
Proof. unfold copy_into. rewrite length_app, length_take, length_replicate. lia. Qed.

Section Shrinks.
Variable P : string -> Prop.

Lemma shrinks_ret {A} (a : A) : shrinks P (mret a).
Proof. intros i Hi. done. Qed.

Lemma shrinks_fail {A} e : shrinks (A:=A) P (fail e).
Proof. intros i Hi. done. Qed.

Lemma shrinks_lift {A} (x : res A) : (forall w, x = Panic w -> P w) -> shrinks P (lift x).
Proof. intros Hx i Hi. simpl. eauto. Qed.

Lemma shrinks_bind {A B} (m : M CIPItem A) (f : A -> M CIPItem B) :
  shrinks P m -> (forall a, shrinks P (f a)) -> shrinks P (m ≫= f).
Proof.
  intros Hm Hf i Hi. destruct (Hm i Hi) as (H1 & H2 & HP). unfold mbind, M_bind.
  destruct (m i) as [[a|e|w] i1]; simpl in *; [|done|].
  - destruct (Hf a i1 H1) as (H3 & H4 & HP'). split_and!; [done|lia|done].
  - split_and!; try done; intros w' [= <-]; by apply HP.
Qed.

Lemma shrinks_wrapM {A} msg (m : M CIPItem A) : shrinks P m -> shrinks P (wrapM msg m).
Proof.
  intros Hm i Hi. unfold wrapM. destruct (Hm i Hi) as (H1 & H2 & HP).
  destruct (m i) as [[a|e|w] i1]; simpl in *; split_and!; try done;
    intros w' [= <-]; by apply HP.
Qed.

Lemma shrinks_try {A} (m : M CIPItem A) : shrinks P m -> shrinks P (try m).
Proof.
  intros Hm i Hi. unfold try. destruct (Hm i Hi) as (H1 & H2 & HP).
  destruct (m i) as [[a|e|w] i1]; simpl in *; split_and!; try done;
    intros w' [= <-]; by apply HP.
Qed.

Lemma unread_advance n i : (length (item_unread (set_Pos (item_Pos i + Z.of_nat n) i))
  <= length (item_unread i))%nat.
Proof. rewrite !length_item_unread. simpl. lia. Qed.

Lemma shrinks_read_full n : shrinks P (read_full n).
Proof.
  intros i Hi. simpl. unfold item_read_full. destruct (n =? 0)%nat; [done|]. unfold Read.
  destruct (_ <=? item_Pos i); [done|]. rewrite (proj2 (Z.ltb_ge _ _)) by lia.
  case_match; simpl; (split_and!; [unfold blen; lia|unfold blen; apply unread_advance|done]).
Qed.

Lemma shrinks_read_uint n : shrinks P (read_uint n).
Proof. apply shrinks_bind; [apply shrinks_read_full|intros; apply shrinks_ret]. Qed.
End Shrinks.

(** A successful read of n bytes consumes them. *)
Lemma read_uint_consumes n i v i' :
  0 <= item_Pos i -> read_uint n i = (Ok v, i') ->
  (length (item_unread i') + n <= length (item_unread i))%nat /\
  item_Pos i' = item_Pos i + Z.of_nat n.
Proof.
  intros Hi H. apply bind_Ok_inv in H as (b & s & H & E). injection E as _ <-.
  simpl in H. unfold item_read_full in H. destruct (Nat.eqb_spec n 0) as [->|Hn].
  { injection H as _ ->. lia. }
  unfold Read in H. destruct (Z.leb_spec (blen (item_Data i)) (item_Pos i)); [done|].
  destruct (Z.ltb_spec (item_Pos i) 0); [done|].
  destruct (Nat.eqb_spec (length (take n (item_unread i))) n) as [E|]; [|done].
  injection H as <- <-. unfold blen in *. rewrite E. rewrite length_take in E.
  rewrite !length_item_unread in *. simpl. lia.
Qed.
#[export] Hint Resolve shrinks_ret shrinks_fail shrinks_wrapM shrinks_try
  shrinks_read_full shrinks_read_uint : go.

Lemma copy_into_fit n s :
  (length s <= n)%nat -> copy_into n s = s ++ replicate (n - length s) 0.
Proof. intros. unfold copy_into. by rewrite take_ge. Qed.

Lemma wf_copy_into n s : wf_bytes s -> wf_bytes (copy_into n s).
Proof.
  intros Hs. apply Forall_app. split; [by apply Forall_take|].
  apply Forall_replicate. solve_byte.
Qed.

(** The header length is the data length, as a uint16. *)
Definition item_len_ok (i : CIPItem) : Prop := item_Length i = u16 (blen (item_Data i)).

Lemma Write_len_ok p i : item_len_ok (Write p i).
Proof. done. Qed.

Lemma Write_Write p q i : Write q (Write p i) = Write (p ++ q) i.
Proof. unfold Write. simpl. by rewrite <- !(assoc_L (++)). Qed.

Lemma Write_nil i : item_len_ok i -> Write [] i = i.
Proof. unfold Write, item_len_ok. intros H. rewrite app_nil_r, <- H. by destruct i. Qed.

Lemma Serialize_Ok args bs i :
  item_len_ok i -> Forall2 (fun a b => serialize_arg a = Ok b) args bs ->
  Serialize args i = (Ok tt, Write (concat bs) i).
Proof.
  intros Hi Hargs. revert i Hi. induction Hargs as [|a b args bs Ha _ IH]; intros i Hi; simpl.
  - by rewrite Write_nil.
  - unfold mbind, M_bind, Serialize1. rewrite Ha, IH by apply Write_len_ok.
    by rewrite Write_Write.
Qed.

Lemma Serialize_Bytes bs i :
  item_len_ok i -> Serialize (SBytes <$> bs) i = (Ok tt, Write (concat bs) i).
Proof.
  intros Hi. apply Serialize_Ok; [done|]. induction bs; simpl; constructor; done.
Qed.

Lemma empty_item_len_ok id : item_len_ok (empty_item id).
Proof. done. Qed.
#[export] Hint Resolve empty_item_len_ok Write_len_ok : go.

(** Whatever is serialized into an item, and whether or not it fails half
    way, the header length keeps describing the data, the position does not
    move and the bytes already in the item stay. *)
Theorem Serialize_keeps_length args i :
  item_len_ok i ->
  let i' := snd (Serialize args i) in
  item_len_ok i' /\ item_Pos i' = item_Pos i /\ item_ID i' = item_ID i /\
  item_Data i `prefix_of` item_Data i'.
Proof.
  revert i. induction args as [|a args IH]; intros i Hi; cbn [Serialize]; [done|].
  unfold mbind, M_bind, Serialize1.
  destruct (serialize_arg a) as [b| |]; [|done|done].
  destruct (IH (Write b i) (Write_len_ok b i)) as (Hl & Hp & Hid & Hd).
  split_and!; [done..|]. etrans; [|exact Hd]. by exists b.
Qed.

Lemma Serialize_keeps_length_witness :
  let i' := snd (Serialize [SString [65]; SValue VNil] (empty_item 0xB1)) in
  item_len_ok i' /\ item_Pos i' = 0 /\ item_ID i' = 0xB1 /\ [] `prefix_of` item_Data i'.
Proof. apply (Serialize_keeps_length [SString [65]; SValue VNil] (empty_item 0xB1)). reflexivity. Defined.

(** ** The two ways of decoding agree *)

Lemma item_uint_agrees n i v i' :
  (0 < n)%nat -> 0 <= item_Pos i ->
  item_uint n i = (Ok v, i') <-> read_uint n i = (Ok v, i').
Proof.
  intros Hn Hi. unfold item_uint, read_uint. rewrite (proj2 (Z.ltb_ge _ _)) by lia.
  destruct (Z.leb_spec (blen (item_Data i)) (item_Pos i + (Z.of_nat n - 1))) as [Hb|Hb].
  - split; [done|]. intros H. apply bind_Ok_inv in H as (b & s & H & _).
    exfalso. unfold blen in Hb. pose proof (length_item_unread i) as Hl.
    destruct (decide (item_unread i = [])) as [E|E].
    + pose proof (read_full_eof n i Hi Hn E) as F. by rewrite H in F.
    + assert (0 < length (item_unread i) < n)%nat as Hs
        by (destruct (item_unread i); simpl in *; [done|lia]).
      pose proof (read_full_short n i Hi Hs) as F. by rewrite H in F.
  - unfold blen in Hb.
    assert (n <= length (item_unread i))%nat as Hl by (rewrite length_item_unread; lia).
    pose proof (read_full_ok n i Hi Hl) as F. by rewrite (bind_Ok _ _ _ _ _ F).
Qed.

(** C40. The typed accessors and binary.Read decode alike: from a valid
    position, one succeeds exactly when the other does, with the same value
    and the same position after it. *)
Theorem item_uint_read_uint n i v i' :
  (0 < n)%nat -> 0 <= item_Pos i ->
  item_uint n i = (Ok v, i') <-> read_uint n i = (Ok v, i').
Proof. apply item_uint_agrees. Qed.

Lemma item_uint_read_uint_witness :
  item_uint 2 {| item_ID := 0; item_Length := 2; item_Data := [1; 2]; item_Pos := 0 |} =
    (Ok 513, {| item_ID := 0; item_Length := 2; item_Data := [1; 2]; item_Pos := 2 |}).
Proof. apply item_uint_read_uint; [lia|zbound|reflexivity]. Defined.

(** ** Framing round trip *)

Definition item_wf (i : CIPItem) : Prop :=
  0 <= item_ID i < 2 ^ 16 /\ blen (item_Data i) < 2 ^ 16 /\
  item_Length i = blen (item_Data i).

Lemma item_len_ok_wf i :
  0 <= item_ID i < 2 ^ 16 -> blen (item_Data i) < 2 ^ 16 -> item_len_ok i -> item_wf i.
Proof.
  intros Hid Hl Hi. split_and!; [lia..|]. rewrite Hi. apply wrap_small.
  unfold blen in *. lia.
Qed.

Section Framing.
Context {R : Type} `{ReaderLaws R}.

Lemma parses_item i : item_wf i -> parses (R:=R) read_item (item_Bytes i) (Reset i).
Proof.
  intros (Hid & Hl & Hlen). unfold item_Bytes, read_item. rewrite Hlen.
  assert (0 <= blen (item_Data i)) by (unfold blen; lia).
  rewrite (assoc_L (++)). eapply parses_bind.
  - apply parses_wrapM. apply parses_struct; [|by rewrite length_app, !length_le_bytes].
    eapply parses_bind; [by apply parses_u16|].
    eapply parses_bind_nil; [by apply parses_u16|]. apply parses_ret.
  - cbv beta. eapply parses_bind_nil.
    + apply parses_wrapM, parses_slice. unfold blen. lia.
    + unfold Reset, set_Pos. rewrite Hlen. apply parses_ret.
Qed.

Lemma parses_n_items l :
  Forall item_wf l ->
  parses (R:=R) (read_n_items (length l)) (concat (map item_Bytes l)) (map Reset l).
Proof.
  induction 1 as [|i l Hi _ IH]; cbn [length read_n_items map concat]; [apply parses_ret|].
  eapply parses_bind; [by apply parses_item|].
  eapply parses_bind_nil; [exact IH|]. apply parses_ret.
Qed.

Lemma parses_items l :
  Forall item_wf l -> Z.of_nat (length l) < 2 ^ 16 ->
  parses (R:=R) readItems
    (le_bytes 2 (Z.of_nat (length l)) ++ concat (map item_Bytes l)) (map Reset l).
Proof.
  intros Hwf Hl. unfold readItems. eapply parses_bind.
  - apply parses_wrapM, parses_u16. lia.
  - rewrite Nat2Z.id. by apply parses_n_items.
Qed.
End Framing.

(** C30. readItems inverts serializeItems: after the interface handle and the
    timeout (6 bytes, which every receiver reads first), the item list is
    read back whole, header and data, each item positioned at its start. *)
Theorem readItems_serializeItems {R} `{ReaderLaws R} items :
  Forall item_wf items -> Z.of_nat (length items) < 2 ^ 16 ->
  parses (R:=R) (h ← read_u32; t ← read_u16; l ← readItems; mret (h, t, l))
    (serializeItems items) (0, 0, map Reset items).
Proof.
  intros Hwf Hl. unfold serializeItems.
  eapply parses_bind; [by apply parses_u32|].
  eapply parses_bind; [by apply parses_u16|].
  eapply parses_bind_nil; [by apply parses_items|apply parses_ret].
Qed.

Lemma readItems_serializeItems_witness :
  parses (R:=bytes) (h ← read_u32; t ← read_u16; l ← readItems; mret (h, t, l))
    [0; 0; 0; 0; 0; 0; 1; 0; 0xB1; 0; 1; 0; 7]
    (0, 0, [{| item_ID := 0xB1; item_Length := 1; item_Data := [7]; item_Pos := 0 |}]).
Proof.
  apply (readItems_serializeItems
    [{| item_ID := 0xB1; item_Length := 1; item_Data := [7]; item_Pos := 0 |}]).
  - repeat constructor; zbound.
  - zbound.
Defined.

(** ** Symbolic execution of a handler on an item *)

(** What is left to read of an item. *)
Definition left (i : CIPItem) (rest : bytes) : Prop := 0 <= item_Pos i /\ item_unread i = rest.

Lemma step_left {S A B} (Q : res B * S -> Prop) (m : M CIPItem A) bs v rest i (f : A * CIPItem -> M S B) s :
  parses m bs v -> left i (bs ++ rest) ->
  (forall i', left i' rest -> Q (f (v, i') s)) -> Q ((on i m ≫= f) s).
Proof.
  intros Hm [Hi Hd] Hf. destruct (parses_run m bs v i rest Hm Hi Hd) as (i' & E & Hd' & Hi').
  erewrite bind_Ok by (by apply on_Ok). by apply Hf.
Qed.

Lemma step_on {S A B} (m : M CIPItem A) bs v rest i (f : A * CIPItem -> M S B) s r :
  parses m bs v -> left i (bs ++ rest) ->
  (forall i', left i' rest -> f (v, i') s = r) -> (on i m ≫= f) s = r.
Proof. apply (step_left (fun x => x = r)). Qed.

Lemma left_Reset i : left (Reset i) (item_Data i).
Proof. split; simpl; [lia|]. unfold item_unread. simpl. apply drop_0. Qed.

Lemma left_app i a b rest : left i (a ++ b ++ rest) <-> left i ((a ++ b) ++ rest).
Proof. by rewrite (assoc_L (++)). Qed.

(** ** The accessors parse *)

Lemma parses_item_uint n v :
  (0 < n)%nat -> 0 <= v < 2 ^ (8 * Z.of_nat n) -> parses (R:=CIPItem) (item_uint n) (le_bytes n v) v.
Proof.
  intros Hn Hv i rest Hi Hd. simpl in Hi. unfold item_uint.
  assert (length (item_unread i) = (n + length rest)%nat) as Hl.
  { change (rd_data i) with (item_unread i) in Hd. by rewrite Hd, length_app, length_le_bytes. }
  rewrite length_item_unread in Hl.
  rewrite (proj2 (Z.leb_gt _ _)) by (unfold blen; lia). rewrite (proj2 (Z.ltb_ge _ _)) by done.
  change (rd_data i) with (item_unread i) in Hd. rewrite Hd, take_app_length' by (by rewrite length_le_bytes).
  rewrite le_val_le_bytes_small by done. rewrite length_le_bytes. done.
Qed.

Lemma parses_Int16 v : 0 <= v < 2 ^ 15 -> parses (R:=CIPItem) Int16 (le_bytes 2 v) v.
Proof.
  intros Hv. unfold Int16, item_sint. eapply parses_bind_nil; [apply parses_item_uint; lia|].
  rewrite swrap_small by lia. apply parses_ret.
Qed.

Lemma parses_item_Byte v : is_byte v -> parses (R:=CIPItem) item_Byte [v] v.
Proof.
  intros Hv. red in Hv. assert ([v] = le_bytes 1 v) as -> by (unfold le_bytes; by rewrite Z.mod_small).
  apply parses_item_uint; lia.
Qed.
