(* ===== verification/GoStrings.v ===== *)
(** * Go's strings and strconv on byte sequences

    The functions of package strings and strconv the program uses, with the
    lemmas relating printing and parsing.  Characters are bytes; ToLower is
    the ASCII one (controller tag names are ASCII). *)
From S2P Require Import Prelude.
Definition has_prefix (p s : bytes) : bool := bool_decide (take (length p) s = p).
Definition has_suffix (p s : bytes) : bool :=
  bool_decide (drop (length s - length p) s = p).

(** strings.Split on a one-byte separator *)
Fixpoint split (c : Z) (s : bytes) : list bytes :=
  match s with
  | [] => [[]]
  | x :: s =>
      if x =? c then [] :: split c s
      else match split c s with p :: ps => (x :: p) :: ps | [] => [[x]] end
  end.

Fixpoint join (sep : bytes) (l : list bytes) : bytes :=
  match l with
  | [] => []
  | [p] => p
  | p :: l => p ++ sep ++ join sep l
  end.

(** strings.Index of a one-byte string; None is -1 *)
Fixpoint index (c : Z) (s : bytes) : option nat :=
  match s with
  | [] => None
  | x :: s => if x =? c then Some 0%nat else S <$> index c s
  end.

Fixpoint last_index (c : Z) (s : bytes) : option nat :=
  match s with
  | [] => None
  | x :: s =>
      match last_index c s with
      | Some i => Some (S i)
      | None => if x =? c then Some 0%nat else None
      end
  end.

Definition contains (c : Z) (s : bytes) : bool := bool_decide (c ∈ s).

(** strings.ReplaceAll(s, old, ""): every occurrence, left to right; an empty
    old leaves the string as it is. *)
Fixpoint remove_all_from (old : bytes) (skip : nat) (s : bytes) : bytes :=
  match s with
  | [] => []
  | x :: s' =>
      match skip with
      | S k => remove_all_from old k s'
      | O =>
          if has_prefix old s then remove_all_from old (length old - 1) s'
          else x :: remove_all_from old 0 s'
      end
  end.
Definition remove_all (old s : bytes) : bytes :=
  match old with [] => s | _ => remove_all_from old 0 s end.

Definition trim_prefix (p s : bytes) : bytes :=
  if has_prefix p s then drop (length p) s else s.

Definition lower_byte (b : Z) : Z := if (65 <=? b) && (b <=? 90) then b + 32 else b.
Definition to_lower (s : bytes) : bytes := map lower_byte s.

(** The byte-wise order of strings. *)
Fixpoint bytes_le (a b : bytes) : bool :=
  match a, b with
  | [], _ => true
  | _, [] => false
  | x :: a, y :: b => (x <? y) || ((x =? y) && bytes_le a b)
  end.

(** ** strconv *)

Definition is_digit (b : Z) : bool := (48 <=? b) && (b <=? 57).

Definition digits_val (s : bytes) : Z := fold_left (fun a d => 10 * a + (d - 48)) s 0.

(** strconv.Atoi: an optional sign, one digit at least, in the range of int64 *)
Definition atoi (s : bytes) : option Z :=
  let '(neg, ds) :=
    match s with
    | 45 :: s => (true, s)
    | 43 :: s => (false, s)
    | _ => (false, s)
    end in
  match ds with
  | [] => None
  | _ =>
      if forallb is_digit ds then
        let v := if neg : bool then - digits_val ds else digits_val ds in
        if (- 2 ^ 63 <=? v) && (v <? 2 ^ 63) then Some v else None
      else None
  end.

(** fmt's %d of a non-negative integer *)
Fixpoint dec_from (fuel : nat) (z : Z) (acc : bytes) : bytes :=
  match fuel with
  | O => acc
  | S fuel =>
      let acc := (48 + z mod 10) :: acc in
      if z / 10 =? 0 then acc else dec_from fuel (z / 10) acc
  end.
Definition dec (z : Z) : bytes := dec_from (S (Z.to_nat (Z.log2 z))) z [].

(** ** Lemmas *)

Lemma has_prefix_app p s : has_prefix p (p ++ s) = true.
Proof. apply bool_decide_eq_true. by rewrite take_app_length. Qed.

Lemma has_suffix_app p s : has_suffix p (s ++ p) = true.
Proof.
  apply bool_decide_eq_true. rewrite length_app.
  replace (length s + length p - length p)%nat with (length s) by lia.
  by rewrite drop_app_length.
Qed.

Lemma split_nosep c s : c ∉ s -> split c s = [s].
Proof.
  induction s as [|x s IH]; intros Hc; simpl; [done|].
  apply not_elem_of_cons in Hc as [Hx Hs].
  rewrite (proj2 (Z.eqb_neq _ _)) by congruence. by rewrite IH.
Qed.

Lemma split_cons c p s : c ∉ p -> split c (p ++ c :: s) = p :: split c s.
Proof.
  induction p as [|x p IH]; intros Hc; simpl; [by rewrite Z.eqb_refl|].
  apply not_elem_of_cons in Hc as [Hx Hs].
  rewrite (proj2 (Z.eqb_neq _ _)) by congruence. by rewrite IH.
Qed.

Lemma split_join c l :
  l <> [] -> Forall (fun p => c ∉ p) l -> split c (join [c] l) = l.
Proof.
  intros Hl Hc. induction Hc as [|p l Hp Hc IH]; [done|].
  destruct l as [|q l]; simpl; [by apply split_nosep|].
  rewrite split_cons by done. f_equal. by apply IH.
Qed.

Lemma index_app c p s : c ∉ p -> index c (p ++ c :: s) = Some (length p).
Proof.
  induction p as [|x p IH]; intros Hc; simpl; [by rewrite Z.eqb_refl|].
  apply not_elem_of_cons in Hc as [Hx Hs].
  rewrite (proj2 (Z.eqb_neq _ _)) by congruence. by rewrite IH.
Qed.

Lemma last_index_none c s : c ∉ s -> last_index c s = None.
Proof.
  induction s as [|x s IH]; intros Hc; simpl; [done|].
  apply not_elem_of_cons in Hc as [Hx Hs].
  rewrite IH by done. by rewrite (proj2 (Z.eqb_neq _ _)) by congruence.
Qed.

Lemma last_index_lookup c s i : last_index c s = Some i -> s !! i = Some c.
Proof.
  revert i. induction s as [|x s IH]; intros i E; [done|]. simpl in E.
  destruct (last_index c s) as [j|]; [injection E as <-; by apply IH|].
  destruct (Z.eqb_spec x c) as [->|]; [by injection E as <-|done].
Qed.

Lemma last_index_app c p s : c ∉ s -> last_index c (p ++ c :: s) = Some (length p).
Proof.
  intros Hc. induction p as [|x p IH]; simpl.
  - by rewrite last_index_none, Z.eqb_refl by done.
  - by rewrite IH.
Qed.

Lemma digits_val_snoc ds d : digits_val (ds ++ [d]) = 10 * digits_val ds + (d - 48).
Proof. unfold digits_val. by rewrite fold_left_app. Qed.

Lemma is_digit_spec b : is_digit b = true <-> 48 <= b <= 57.
Proof. unfold is_digit. rewrite andb_true_iff, !Z.leb_le. done. Qed.

(** dec_from prints the digits of z, most significant first, before acc. *)
Lemma dec_from_spec fuel z acc :
  0 <= z < 10 ^ Z.of_nat fuel -> (0 < fuel)%nat ->
  exists ds, dec_from fuel z acc = ds ++ acc /\ ds <> [] /\
    Forall (fun d => is_digit d = true) ds /\ digits_val ds = z.
Proof.
  revert z acc. induction fuel as [|fuel IH]; intros z acc Hz Hf; [lia|]. cbn [dec_from].
  assert (is_digit (48 + z mod 10) = true) as Hd.
  { apply is_digit_spec. pose proof (Z.mod_pos_bound z 10). lia. }
  destruct (Z.eqb_spec (z / 10) 0) as [E|E].
  - exists [48 + z mod 10]. split_and!; [done..|by constructor|].
    unfold digits_val. simpl. pose proof (Z.div_mod z 10). lia.
  - destruct fuel as [|fuel].
    { exfalso. apply E, Z.div_small. simpl in Hz. lia. }
    destruct (IH (z / 10) (48 + z mod 10 :: acc)) as (ds & -> & Hne & Hds & Hv).
    + split; [apply Z.div_pos; lia|]. apply Z.div_lt_upper_bound; [lia|].
      rewrite <- Z.pow_succ_r, <- Nat2Z.inj_succ by lia. lia.
    + lia.
    + exists (ds ++ [48 + z mod 10]). split_and!.
      * by rewrite <- (assoc_L (++)).
      * by destruct ds.
      * apply Forall_app. split; [done|by constructor].
      * rewrite digits_val_snoc, Hv. pose proof (Z.div_mod z 10). lia.
Qed.

Lemma dec_spec z :
  0 <= z -> dec z <> [] /\ Forall (fun d => is_digit d = true) (dec z) /\ digits_val (dec z) = z.
Proof.
  intros Hz. unfold dec.
  destruct (dec_from_spec (S (Z.to_nat (Z.log2 z))) z []) as (ds & -> & ?); [|lia|].
  - split; [done|]. destruct (decide (z = 0)) as [->|]; [done|].
    pose proof (Z.log2_spec z). pose proof (Z.log2_nonneg z).
    rewrite Nat2Z.inj_succ, Z2Nat.id by done.
    pose proof (Z.pow_le_mono_l 2 10 (Z.succ (Z.log2 z))). lia.
  - by rewrite app_nil_r.
Qed.

Lemma atoi_digits ds :
  ds <> [] -> Forall (fun d => is_digit d = true) ds -> 0 <= digits_val ds < 2 ^ 63 ->
  atoi ds = Some (digits_val ds).
Proof.
  intros Hne Hds Hv. unfold atoi.
  assert ((match ds with 45 :: s => (true, s) | 43 :: s => (false, s) | _ => (false, ds) end)
    = (false, ds)) as ->.
  { destruct Hds as [|d ds Hd _]; [done|].
    apply is_digit_spec in Hd. destruct d as [|d|d]; [lia| |lia].
    do 6 (destruct d as [d|d|]; try lia; try done). }
  assert (forallb is_digit ds = true) as ->.
  { apply forallb_forall, List.Forall_forall, Hds. }
  destruct ds; [done|]. cbv zeta.
  by rewrite (proj2 (andb_true_iff _ _)) by (rewrite Z.leb_le, Z.ltb_lt; lia).
Qed.

Lemma atoi_dec z : 0 <= z < 2 ^ 63 -> atoi (dec z) = Some z.
Proof.
  intros Hz. destruct (dec_spec z) as (Hne & Hds & Hv); [lia|].
  rewrite atoi_digits; rewrite ?Hv; done.
Qed.

Lemma dec_digits z : 0 <= z -> Forall (fun d => is_digit d = true) (dec z).
Proof. intros Hz. by apply dec_spec. Qed.

Lemma dec_not_elem c z : is_digit c = false -> 0 <= z -> c ∉ dec z.
Proof.
  intros Hc Hz Hin. pose proof (dec_digits z Hz) as Hd.
  apply list_elem_of_In in Hin. rewrite List.Forall_forall in Hd.
  apply Hd in Hin. congruence.
Qed.

Lemma to_lower_idemp s : to_lower (to_lower s) = to_lower s.
Proof.
  unfold to_lower. rewrite map_map. apply map_ext. intros b. unfold lower_byte.
  destruct (Z.leb_spec 65 b), (Z.leb_spec b 90); simpl; try lia.
  all: destruct (Z.leb_spec 65 (b + 32)), (Z.leb_spec (b + 32) 90),
    (Z.leb_spec 65 b), (Z.leb_spec b 90); simpl; lia.
Qed.

Lemma elem_of_join c sep l :
  c ∈ join sep l -> c ∈ sep \/ exists p, p ∈ l /\ c ∈ p.
Proof.
  induction l as [|p l IH]; [by intros ?%elem_of_nil|]. destruct l as [|q l].
  - intros H. right. exists p. split; [left|done].
  - change (join sep (p :: q :: l)) with (p ++ sep ++ join sep (q :: l)).
    rewrite !elem_of_app. intros [H|[H|H]].
    + right. exists p. split; [left|done].
    + by left.
    + destruct (IH H) as [?|(p' & ? & ?)]; [by left|].
      right. exists p'. split; [by right|done].
Qed.
