(* ===== verification/GoStrconv.v ===== *)
(** * strconv: parsing of numbers

    ParseInt, ParseBool and ParseFloat of the standard library, of which the
    callers use the value also when there is an error: the nearest number of
    the width for one out of range, zero for what is not a number.  Floats
    are bit patterns, rounded correctly through the rational number that the
    text denotes. *)
From Stdlib Require Import SpecFloat.
From S2P Require Import Prelude GoStrings GoValue GoFloat.

(** ** ParseInt, base 10 *)

Inductive parsed := POk (n : Z) | PRange | PSyntax.

(** The digits from left to right, up to the first that is none or too much. *)
Fixpoint parse_digits (maxVal n : Z) (s : bytes) : parsed :=
  match s with
  | [] => POk n
  | c :: s =>
      if is_digit c then
        let n := n * 10 + (c - 48) in
        if maxVal <? n then PRange else parse_digits maxVal n s
      else PSyntax
  end.

Definition strip_sign (s : bytes) : bool * bytes :=
  match s with 45 :: s => (true, s) | 43 :: s => (false, s) | _ => (false, s) end.

(** The value and whether there is no error. *)
Definition ParseInt (s : bytes) (bits : Z) : Z * bool :=
  let '(neg, ds) := strip_sign s in
  match ds with
  | [] => (0, false)
  | _ =>
      let cutoff := 2 ^ (bits - 1) in
      let clamp (un : Z) (ok : bool) :=
        if negb neg && (cutoff <=? un) then (cutoff - 1, false)
        else if neg && (cutoff <? un) then (- cutoff, false)
        else (if neg then - un else un, ok) in
      match parse_digits (2 ^ bits - 1) 0 ds with
      | PSyntax => (0, false)
      | PRange => clamp (2 ^ bits - 1) false
      | POk un => clamp un true
      end
  end.

(** %d of an int *)
Definition dec_int (z : Z) : bytes := if z <? 0 then 45 :: dec (- z) else dec z.

(** ** ParseBool *)

Definition ParseBool (s : bytes) : bool :=
  bool_decide (s ∈ map str ["1"; "t"; "T"; "TRUE"; "true"; "True"]%string).

(** ** ParseFloat, 64 bits *)

(** The float64 nearest to num / den (even on ties). *)
Definition round_ratio (neg : bool) (num den : Z) : Z :=
  if num =? 0 then sign_bit 52 11 neg
  else
    let k := 57 + Z.log2 den - Z.log2 num in
    let num' := num * 2 ^ Z.max 0 k in
    let den' := den * 2 ^ Z.max 0 (- k) in
    let q := 2 * (num' / den') + (if num' mod den' =? 0 then 0 else 1) in
    u64 (bits_of_sf 52 11 (binary_normalize 53 1024 (if neg then - q else q) (- k - 1) neg)).

(** Letters in lower case; digits stay what they are. *)
Definition lower (c : Z) : Z := Z.lor c 32.

Definition hex_digit (c : Z) : option Z :=
  if is_digit c then Some (c - 48)
  else if (97 <=? lower c) && (lower c <=? 102) then Some (lower c - 87) else None.

(** Digits with underscores, and one point: the number of all digits, how many
    there are behind the point, whether there is one, the rest. *)
Record mantissa := { m_val : Z; m_frac : Z; m_digits : bool; m_dot : bool; m_under : bool }.

Fixpoint scan_mantissa (hex : bool) (m : mantissa) (s : bytes) : mantissa * bytes :=
  match s with
  | [] => (m, [])
  | c :: s' =>
      if c =? 95 then
        scan_mantissa hex {| m_val := m_val m; m_frac := m_frac m; m_digits := m_digits m; m_dot := m_dot m; m_under := true |} s'
      else if c =? 46 then
        if m_dot m then (m, s)
        else scan_mantissa hex {| m_val := m_val m; m_frac := 0; m_digits := m_digits m; m_dot := true; m_under := m_under m |} s'
      else
        match (if hex then hex_digit c else if is_digit c then Some (c - 48) else None) with
        | Some d =>
            scan_mantissa hex {| m_val := m_val m * (if hex then 16 else 10) + d;
                                 m_frac := if m_dot m then m_frac m + 1 else m_frac m;
                                 m_digits := true; m_dot := m_dot m; m_under := m_under m |} s'
        | None => (m, s)
        end
  end.

(** Digits and underscores of an exponent, saturated. *)
Fixpoint scan_exponent (e : Z) (under : bool) (s : bytes) : Z * bool * bytes :=
  match s with
  | c :: s' =>
      if c =? 95 then scan_exponent e true s'
      else if is_digit c then scan_exponent (if e <? 10000 then e * 10 + (c - 48) else e) under s'
      else (e, under, s)
  | [] => (e, under, [])
  end.

(** The last character seen by underscoreOK. *)
Inductive saw := SawStart | SawDigit | SawUnder | SawOther.

Fixpoint underscores_ok (hex : bool) (st : saw) (s : bytes) : bool :=
  match s with
  | [] => match st with SawUnder => false | _ => true end
  | c :: s =>
      if is_digit c || (hex && bool_decide (is_Some (hex_digit c))) then underscores_ok hex SawDigit s
      else if c =? 95 then match st with SawDigit => underscores_ok hex SawUnder s | _ => false end
      else match st with SawUnder => false | _ => underscores_ok hex SawOther s end
  end.

Definition underscoreOK (s : bytes) : bool :=
  match s with
  | 48 :: c :: s' =>
      if bool_decide (lower c ∈ [98; 111; 120]) then underscores_ok (lower c =? 120) SawDigit s'
      else underscores_ok false SawStart s
  | _ => underscores_ok false SawStart s
  end.

(** infinity, inf and nan, in any case *)
Definition special (s : bytes) : option Z :=
  let '(neg, u) := strip_sign s in
  if bool_decide (to_lower u ∈ [str "inf"; str "infinity"]) then Some (bits_of_sf 52 11 (S754_infinity neg))
  else if bool_decide (to_lower s = str "nan") then Some 0x7FF8000000000001 else None.

(** The number behind the sign, all of the text; None is a syntax error. *)
Definition read_number (neg : bool) (s : bytes) : option Z :=
  let '(hex, body) :=
    match s with
    | 48 :: c :: (_ :: _) as body => if lower c =? 120 then (true, body) else (false, s)
    | _ => (false, s)
    end in
  let '(m, rest) := scan_mantissa hex {| m_val := 0; m_frac := 0; m_digits := false; m_dot := false; m_under := false |} body in
  if negb (m_digits m) then None
  else
    let finish (e : Z) (under : bool) (rest : bytes) : option Z :=
      if negb (bool_decide (rest = [])) then None
      else if (under || m_under m) && negb (underscoreOK s) then None
      else
        let base := if hex then 2 else 10 in
        let e := e - (if hex then 4 * m_frac m else m_frac m) in
        Some (round_ratio neg (m_val m * base ^ Z.max 0 e) (base ^ Z.max 0 (- e))) in
    match rest with
    | c :: rest' =>
        if lower c =? (if hex then 112 else 101) then
          let '(eneg, ds) := strip_sign rest' in
          match ds with
          | d :: _ =>
              if is_digit d then
                let '(e, under, rest) := scan_exponent 0 false ds in finish (if eneg then - e else e) under rest
              else None
          | [] => None
          end
        else None
    | [] => if hex then None else finish 0 false []
    end.

(** The value also when there is an error: 0 for a syntax error, infinite
    when out of range. *)
Definition ParseFloat (s : bytes) : Z :=
  match special s with
  | Some f => f
  | None => let '(neg, u) := strip_sign s in default 0 (read_number neg u)
  end.

Example parse_ints : map (fun s => fst (ParseInt (str s) 8)) ["12"; "-128"; "300x"; "12x"; ""; "-"; "+7"; "-129"]%string =
  [12; -128; 127; 0; 0; 0; 7; -128].
Proof. vm_compute. reflexivity. Qed.
Example parse_floats : map (fun s => ParseFloat (str s)) ["0.1"; "1e400"; "5e-324"; "1.#QNAN"; "-0.0"; "1.50000000e+001"; "-Inf";
    "0x1p-2"; "1_0"; "1__0"; "2.4703282292062327e-324"; "2.4703282292062328e-324"]%string =
  [0x3FB999999999999A; 0x7FF0000000000000; 1; 0; 0x8000000000000000; 0x402E000000000000; 0xFFF0000000000000;
   0x3FD0000000000000; 0x4024000000000000; 0; 0; 1].
Proof. vm_compute. reflexivity. Qed.

(** ** Bounds *)

Lemma parse_digits_bounds maxVal s : forall n, 0 <= n -> n <= maxVal -> match parse_digits maxVal n s with POk m => 0 <= m <= maxVal | _ => True end.
Proof.
  induction s as [|c s IH]; intros n Hn Hm; cbn [parse_digits]; [lia|].
  destruct (is_digit c) eqn:Ec; [|done]. unfold is_digit in Ec. cbv zeta.
  destruct (Z.ltb_spec maxVal (n * 10 + (c - 48))); [done|]. apply IH; lia.
Qed.

(** Whatever the text, the value is in the range of the width. *)
Lemma ParseInt_bounds s bits : 1 < bits -> - 2 ^ (bits - 1) <= fst (ParseInt s bits) < 2 ^ (bits - 1).
Proof.
  intros Hb. assert (0 < 2 ^ (bits - 1)) by (apply Z.pow_pos_nonneg; lia). unfold ParseInt.
  destruct (strip_sign s) as [neg [|d ds]]; [simpl; lia|]. cbv zeta.
  set (cutoff := 2 ^ (bits - 1)) in *.
  assert (forall un ok, 0 <= un -> - cutoff <= fst (if negb neg && (cutoff <=? un) then (cutoff - 1, false)
    else if neg && (cutoff <? un) then (- cutoff, false) else (if neg then - un else un, ok)) < cutoff) as Hc.
  { intros un ok Hu. destruct neg, (Z.leb_spec cutoff un), (Z.ltb_spec cutoff un); simpl; lia. }
  assert (0 < 2 ^ bits) by (apply Z.pow_pos_nonneg; lia).
  pose proof (parse_digits_bounds (2 ^ bits - 1) (d :: ds) 0 ltac:(lia) ltac:(lia)) as Hd.
  destruct (parse_digits _ _ _); [apply Hc; lia|apply Hc; lia|simpl; lia].
Qed.

Lemma read_number_bits neg s : match read_number neg s with Some b => is_bits 64 b | None => True end.
Proof.
  unfold read_number.
  assert (forall num den, is_bits 64 (round_ratio neg num den)) as Hr.
  { intros num den. unfold round_ratio. destruct (num =? 0); [by destruct neg|]. apply wrap_bound. lia. }
  repeat (case_match; try done); simplify_eq; apply Hr.
Qed.

Lemma ParseFloat_bits s : is_bits 64 (ParseFloat s).
Proof.
  unfold ParseFloat. destruct (special s) as [f|] eqn:Es.
  - unfold special in Es. destruct (strip_sign s) as [neg u].
    destruct (bool_decide _); [injection Es as <-; by destruct neg|]. by destruct (bool_decide _); [injection Es as <-|].
  - destruct (strip_sign s) as [neg u]. pose proof (read_number_bits neg u). by destruct (read_number neg u).
Qed.

(** ** Numbers are read back *)

Lemma parse_digits_fold maxVal s : forall n, Forall (fun d => is_digit d = true) s -> 0 <= n ->
  fold_left (fun a d => 10 * a + (d - 48)) s n <= maxVal ->
  parse_digits maxVal n s = POk (fold_left (fun a d => 10 * a + (d - 48)) s n).
Proof.
  assert (forall s n, Forall (fun d => is_digit d = true) s -> 0 <= n -> n <= fold_left (fun a d => 10 * a + (d - 48)) s n) as Hmono.
  { clear s. induction s as [|c s IH]; intros n Hs Hn; [simpl; lia|]. apply Forall_cons_iff in Hs as [Hc Hs].
    apply is_digit_spec in Hc. cbn [fold_left]. specialize (IH (10 * n + (c - 48)) Hs ltac:(lia)). lia. }
  induction s as [|c s IH]; intros n Hs Hn Hm; [done|]. apply Forall_cons_iff in Hs as [Hc Hs]. cbn [parse_digits fold_left] in *.
  rewrite Hc. cbv zeta. apply is_digit_spec in Hc. replace (n * 10 + (c - 48)) with (10 * n + (c - 48)) by lia.
  pose proof (Hmono s (10 * n + (c - 48)) Hs ltac:(lia)).
  destruct (Z.ltb_spec maxVal (10 * n + (c - 48))); [lia|]. apply IH; [done|lia|done].
Qed.

Lemma strip_sign_digits ds : Forall (fun d => is_digit d = true) ds -> strip_sign ds = (false, ds).
Proof.
  intros [|d l Hd _]; [done|]. apply is_digit_spec in Hd. unfold strip_sign.
  destruct d as [|d|d]; [done| |done]. do 6 (destruct d as [d|d|]; try lia; try done).
Qed.

(** The text of a number in the range of the width is read as the number. *)
Lemma ParseInt_dec_int z bits : 1 < bits -> - 2 ^ (bits - 1) <= z < 2 ^ (bits - 1) -> ParseInt (dec_int z) bits = (z, true).
Proof.
  intros Hb Hz. assert (2 ^ bits = 2 * 2 ^ (bits - 1)) as Hp.
  { replace bits with (1 + (bits - 1)) at 1 by lia. by rewrite Z.pow_add_r by lia. }
  assert (0 < 2 ^ (bits - 1)) by (apply Z.pow_pos_nonneg; lia).
  assert (exists neg ds, strip_sign (dec_int z) = (neg, ds) /\ ds <> [] /\ Forall (fun d => is_digit d = true) ds /\
    (if neg : bool then z < 0 /\ digits_val ds = - z else 0 <= z /\ digits_val ds = z)) as (neg & ds & Es & Hne & Hds & Hv).
  { unfold dec_int. destruct (Z.ltb_spec z 0).
    - destruct (dec_spec (- z)) as (? & ? & ?); [lia|]. exists true, (dec (- z)). by split_and!.
    - destruct (dec_spec z) as (? & ? & ?); [lia|]. exists false, (dec z). split_and!; try done. by apply strip_sign_digits. }
  unfold ParseInt. rewrite Es. destruct ds as [|d ds]; [done|]. cbv zeta.
  rewrite (parse_digits_fold (2 ^ bits - 1) (d :: ds) 0 Hds) by (try lia; fold (digits_val (d :: ds)); destruct neg; lia).
  fold (digits_val (d :: ds)). set (un := digits_val (d :: ds)) in *. clearbody un.
  destruct neg; cbn [negb andb].
  - destruct (Z.ltb_spec (2 ^ (bits - 1)) un); [lia|]. f_equal. lia.
  - destruct (Z.leb_spec (2 ^ (bits - 1)) un); [lia|]. f_equal. lia.
Qed.
