(* ===== verification/Pack.v ===== *)
(** * Packing structures for the wire (pack.go)

    Pack and Unpack walk a structure's fields with reflect: alignment and
    padding, runs of bools packed into bytes, strings of 82 bytes, nested
    structures, and the field tags [pack] and [byteIndex].  Struct types with
    methods of their own (Packable, Unpackable, Serializable, KnownType) are
    given by their names in a [Methods] instance.  The checksum of a type
    text is a parameter (package crc16). *)
From S2P Require Import Prelude Reader GoStrings GoValue CipNames CipDefs Types Items.

(** ** Types with methods

    Pack (or Bytes) of a value, Unpack with the number of bytes it reports,
    and the type text and checksum of TypeAbbr. *)

Class Methods := {
  m_Pack : bytes -> option (goval -> res bytes);
  m_Unpack : bytes -> option (goval -> M bytes (goval * Z));   (* the target's value before *)
  m_TypeAbbr : bytes -> option (bytes * Z);
}.

Definition no_methods : Methods :=
  {| m_Pack := fun _ => None; m_Unpack := fun _ => None; m_TypeAbbr := fun _ => None |}.

(** ** Sizes and alignments of Go types (reflect.Type.Size, Align; 64 bits) *)

Fixpoint go_align (t : gotype) : Z :=
  match t with
  | TBool => 1
  | TInt k => ikind_bits k / 8
  | TFloat32 => 4
  | TFloat64 | TString | TAny | TSlice _ | TPtr _ => 8
  | TArray _ t => go_align t
  | TStruct _ fields =>
      (fix go (l : list (fieldinfo * gotype)) : Z :=
        match l with [] => 1 | (_, t) :: l => Z.max (go_align t) (go l) end) fields
  end.

Definition round_up (z a : Z) : Z := if z mod a =? 0 then z else z + (a - z mod a).

Fixpoint go_size (t : gotype) : Z :=
  match t with
  | TBool => 1
  | TInt k => ikind_bits k / 8
  | TFloat32 => 4
  | TFloat64 | TPtr _ => 8
  | TString | TAny => 16
  | TSlice _ => 24
  | TArray n t => Z.of_nat n * go_size t
  | TStruct _ fields =>
      round_up
        ((fix go (l : list (fieldinfo * gotype)) (off : Z) : Z :=
          match l with [] => off | (_, t) :: l => go l (round_up off (go_align t) + go_size t) end) fields 0)
        (go_align t)
  end.

(** cipPack.Align *)
Fixpoint Align (t : gotype) : Z :=
  match t with
  | TString => 4
  | TArray _ t | TSlice t => Align t
  | TStruct _ fields =>
      Z.max 4 ((fix go (l : list (fieldinfo * gotype)) : Z :=
        match l with [] => 1 | (_, t) :: l => Z.max (Align t) (go l) end) fields)
  | _ => go_align t
  end.

(** ** Field tags *)

(** fmt.Sscanf(tag, "%d", &byteIndex) *)
Fixpoint digits_prefix (s : bytes) : bytes :=
  match s with
  | c :: s => if is_digit c then c :: digits_prefix s else []
  | [] => []
  end.
Fixpoint skip_space (s : bytes) : bytes :=
  match s with
  | c :: s' => if (c =? 32) || (c =? 9) then skip_space s' else s
  | [] => []
  end.
Definition sscanf_d (s : bytes) : option Z :=
  match skip_space s with
  | [] => None
  | c :: s' =>
      let '(sign, s) := if c =? 45 then (-1, s') else if c =? 43 then (1, s') else (1, c :: s') in
      match digits_prefix s with
      | [] => None
      | d => if digits_val d <? 2 ^ 63 then Some (sign * digits_val d) else None
      end
  end.

Definition has_byteIndex (f : fieldinfo) : bool := negb (bool_decide (f_byteIndex f = [])).
Definition nopack (f : fieldinfo) : bool := bool_decide (f_pack f = str "nopack").

(** ** Pack *)

Record pack_state := {
  pk_pos : Z;       (* bytes written *)
  pk_bitpos : Z;
  pk_bitpack : Z;   (* byte: bits not written yet *)
  pk_lastA : Z;
  pk_w : bytes;     (* the buffer written to *)
}.

Definition pk_start (w : bytes) : pack_state :=
  {| pk_pos := 0; pk_bitpos := 0; pk_bitpack := 0; pk_lastA := 1; pk_w := w |}.
(** w.Write and pos += n *)
Definition pk_write (b : bytes) (n : Z) (s : pack_state) : pack_state :=
  {| pk_pos := pk_pos s + n; pk_bitpos := pk_bitpos s; pk_bitpack := pk_bitpack s; pk_lastA := pk_lastA s;
     pk_w := pk_w s ++ b |}.
Definition pk_bits (pos pack : Z) (s : pack_state) : pack_state :=
  {| pk_pos := pk_pos s; pk_bitpos := pos; pk_bitpack := pack; pk_lastA := pk_lastA s; pk_w := pk_w s |}.
Definition pk_set_lastA (a : Z) (s : pack_state) : pack_state :=
  {| pk_pos := pk_pos s; pk_bitpos := pk_bitpos s; pk_bitpack := pk_bitpack s; pk_lastA := a; pk_w := pk_w s |}.

(** Zero bytes up to the next multiple of a *)
Definition padding (pos a : Z) : Z := let rem := a - pos mod a in if rem <? a then rem else 0.
Definition zeros (n : Z) : bytes := replicate (Z.to_nat n) 0.

Abbreviation PK := (M pack_state).
Definition pack_pad (a : Z) : PK unit :=
  modify (fun s => let n := padding (pk_pos s) a in pk_write (zeros n) n s).

(** Where a field starts: at its byteIndex, or aligned when its alignment is
    larger than the last one's. *)
Definition pack_seek (f : fieldinfo) (a : Z) : PK unit :=
  if has_byteIndex f then
    match sscanf_d (f_byteIndex f) with
    | None => fail (Errorf "problem parsing byteIndex tag")
    | Some byteIndex =>
        modify (fun s => if pk_pos s <? byteIndex
          then pk_write (zeros (byteIndex - pk_pos s)) (byteIndex - pk_pos s) s else s)
    end
  else modify (fun s => if pk_lastA s <? a
         then let n := padding (pk_pos s) a in pk_write (zeros n) n s else s).

Definition pack_bool (b : bool) : PK unit :=
  modify (fun s =>
    let bitpack := Z.lor (pk_bitpack s) (u8 (Z.shiftl (if b then 1 else 0) (pk_bitpos s))) in
    let bitpos := pk_bitpos s + 1 in
    if 8 <=? bitpos then pk_bits 0 0 (pk_write [bitpack] 1 s) else pk_bits bitpos bitpack s).

Definition pack_flush : PK unit :=
  modify (fun s => if 0 <? pk_bitpos s then pk_bits 0 0 (pk_write [pk_bitpack s] 1 s) else s).

(** bitpos = 0 with whatever bits are pending *)
Definition drop_bits : PK unit := modify (fun s => pk_bits 0 (pk_bitpack s) s).

Definition pack_string (str : bytes) : PK unit :=
  modify (pk_write (le_bytes 4 (u32 (blen str)) ++ copy_into 82 str) 86).

Definition ill_typed {S A} : M S A := panic "value does not have the type".

(** A field that is no packed bool, bool array, string, ... *)
Definition pack_plain (pack : goval -> PK unit) (f : fieldinfo) (t : gotype) (v : goval) : PK unit :=
  let a := Align t in
  _ ← pack_flush;
  _ ← (if has_byteIndex f then mret tt else pack_pad a);
  match t with
  | TStruct _ _ =>
      _ ← wrapM "problem packing interface" (pack v);
      if has_byteIndex f then mret tt else pack_pad a
  | _ =>
      b ← lift (res_wrap "problem reading sub-structure" (binary_write v));
      modify (pk_write b (go_size t))
  end.

(** The elements of an array, one after another. *)
Definition bool_of (v : goval) : PK bool := match v with VBool b => mret b | _ => ill_typed end.
Definition string_of (v : goval) : PK bytes := match v with VString s => mret s | _ => ill_typed end.

Fixpoint pack_bools (l : list goval) : PK unit :=
  match l with [] => mret tt | v :: l => b ← bool_of v; _ ← pack_bool b; pack_bools l end.
Fixpoint pack_strings (l : list goval) : PK unit :=
  match l with [] => mret tt | v :: l => s ← string_of v; _ ← pack_string s; pack_strings l end.

Definition pack_field (pack : goval -> PK unit) (f : fieldinfo) (t : gotype) (v : goval) : PK unit :=
  _ ← pack_seek f (Align t);
  _ ← modify (pk_set_lastA (Align t));
  if nopack f then pack_plain pack f t v
  else
    match t, v with
    | TArray _ TBool, VArray _ l => pack_bools l
    | TArray _ (TStruct _ _), VArray _ l =>
        _ ← (fix go (l : list goval) : PK unit :=
               match l with
               | [] => mret tt
               | v :: l => _ ← wrapM "problem packing array element" (pack v); go l
               end) l;
        drop_bits
    | TArray _ TString, VArray _ l => _ ← pack_strings l; drop_bits
    | TArray _ _, VArray _ _ => _ ← drop_bits; pack_plain pack f t v
    | TBool, VBool b => pack_bool b
    | TString, VString s => _ ← pack_string s; drop_bits
    | _, _ => pack_plain pack f t v
    end.

(** A nested Pack: its own position and bits on the same writer; pos += n. *)
Definition pack_sub (m : PK unit) : PK unit := fun s =>
  let '(r, s') := m (pk_start (pk_w s)) in
  (r, {| pk_pos := pk_pos s + pk_pos s'; pk_bitpos := pk_bitpos s; pk_bitpack := pk_bitpack s;
         pk_lastA := pk_lastA s; pk_w := pk_w s' |}).

Section Pack.
Context `{Methods}.

Fixpoint pack_struct (data : goval) : PK unit :=
  match data with
  | VStruct name fields vals =>
      match m_Pack name with
      | Some pack => b ← lift (pack data); modify (pk_write b (blen b))
      | None =>
          pack_sub (
            _ ← (fix go (vals : list goval) (fields : list (fieldinfo * gotype)) : PK unit :=
                   match vals, fields with
                   | v :: vals, (f, t) :: fields => _ ← pack_field pack_struct f t v; go vals fields
                   | [], [] => mret tt
                   | _, _ => ill_typed
                   end) vals fields;
            pack_flush)
      end
  | _ => panic "reflect: NumField of non-struct type"
  end.

(** Pack(w, data): the bytes count and the writer afterwards. *)
Definition Pack (data : goval) : M bytes Z := fun w =>
  match pack_struct data (pk_start w) with
  | (Ok _, s) => (Ok (pk_pos s), pk_w s)
  | (Err e, s) => (Err e, pk_w s)
  | (Panic why, s) => (Panic why, pk_w s)
  end.
End Pack.

(** ** Unpack

    The target is given by its value before: it fixes the lengths of
    slices; the computation returns the value filled in. *)

Record unpack_state := {
  un_n : Z;         (* bytes read *)
  un_bitpos : Z;
  un_bitpack : Z;
  un_lastA : Z;
  un_r : bytes;     (* the bytes.Buffer read from *)
}.

Definition un_start (r : bytes) : unpack_state :=
  {| un_n := 0; un_bitpos := 0; un_bitpack := 0; un_lastA := 1; un_r := r |}.
Definition un_add (n : Z) (s : unpack_state) : unpack_state :=
  {| un_n := un_n s + n; un_bitpos := un_bitpos s; un_bitpack := un_bitpack s; un_lastA := un_lastA s;
     un_r := un_r s |}.
Definition un_bits (pos pack : Z) (s : unpack_state) : unpack_state :=
  {| un_n := un_n s; un_bitpos := pos; un_bitpack := pack; un_lastA := un_lastA s; un_r := un_r s |}.
Definition un_set_lastA (a : Z) (s : unpack_state) : unpack_state :=
  {| un_n := un_n s; un_bitpos := un_bitpos s; un_bitpack := un_bitpack s; un_lastA := a; un_r := un_r s |}.

Abbreviation UN := (M unpack_state).

Definition un_reader {A} (m : M bytes A) : UN A :=
  zoom un_r (fun r s => {| un_n := un_n s; un_bitpos := un_bitpos s; un_bitpack := un_bitpack s;
    un_lastA := un_lastA s; un_r := r |}) m.

(** bytes.Buffer.Read: what there is, EOF only when there is nothing. *)
Definition buffer_Read (k : nat) : M bytes bytes := fun r =>
  if (length r =? 0)%nat && negb (k =? 0)%nat then (Err EOF, []) else (Ok (take k r), drop k r).

(** r.Read(pad); n += rem, which counts the padding in full *)
Definition un_skip (rem : Z) : UN unit :=
  _ ← wrapM "problem reading padding bits" (un_reader (buffer_Read (Z.to_nat rem)));
  modify (un_add rem).

Definition unpack_pad (a : Z) : UN unit :=
  s ← get;
  if 0 <? padding (un_n s) a then un_skip (padding (un_n s) a) else mret tt.

Definition unpack_seek (f : fieldinfo) (a : Z) : UN unit :=
  s ← get;
  if has_byteIndex f then
    match sscanf_d (f_byteIndex f) with
    | None => fail (Errorf "problem parsing byteIndex tag")
    | Some byteIndex => if un_n s <? byteIndex then un_skip (byteIndex - un_n s) else mret tt
    end
  else if un_lastA s <? a then unpack_pad a else mret tt.

Definition unpack_bool : UN goval :=
  s ← get;
  _ ← (if un_bitpos s =? 0 then
         br ← wrapM "problem reading packed bool" (un_reader (buffer_Read 1));
         modify (fun s => un_add 1 (un_bits 0 (List.hd 0 br) s))
       else mret tt);
  s ← get;
  let bitpos := un_bitpos s + 1 in
  _ ← modify (un_bits (if 8 <=? bitpos then 0 else bitpos) (un_bitpack s));
  mret (VBool (negb (Z.land (un_bitpack s) (u8 (Z.shiftl 1 (un_bitpos s))) =? 0))).

Definition un_drop_bits : UN unit := modify (fun s => un_bits 0 (un_bitpack s) s).

(** 86 bytes: the length, at most 82, and the characters *)
Definition unpack_string : UN goval :=
  r ← try (un_reader (buffer_Read 86));
  match r with
  | inl _ => fail (Errorf "problem reading packed string")
  | inr strArray =>
      if (length strArray <? 86)%nat then fail (Errorf "problem reading packed string")
      else
        let strLen := le_val (take 4 strArray) in
        if 82 <? strLen then fail (Errorf "problem reading packed string. string length unexpected")
        else
          _ ← modify (un_add 86);
          mret (VString (take (Z.to_nat strLen) (drop 4 strArray)))
  end.

(** binary.Read into a field: the bytes of the whole value, then its parts. *)
Fixpoint fixed_decode (v : goval) : M bytes goval :=
  match v with
  | VBool _ => b ← read_u8; mret (VBool (negb (b =? 0)))
  | VInt k _ =>
      match ikind_size k with
      | None => fail (Errorf "binary.Read: invalid type")
      | Some n => if ikind_signed k then z ← read_sint n; mret (VInt k z) else z ← read_uint n; mret (VInt k z)
      end
  | VFloat32 _ => z ← read_u32; mret (VFloat32 z)
  | VFloat64 _ => z ← read_u64; mret (VFloat64 z)
  | VArray t l =>
      l ← (fix go (l : list goval) : M bytes (list goval) :=
             match l with
             | [] => mret []
             | v :: l => v ← fixed_decode v; l ← go l; mret (v :: l)
             end) l;
      mret (VArray t l)
  | VStruct name fields l =>
      l ← (fix go (l : list goval) : M bytes (list goval) :=
             match l with
             | [] => mret []
             | v :: l => v ← fixed_decode v; l ← go l; mret (v :: l)
             end) l;
      mret (VStruct name fields l)
  | VSlice t l =>
      l ← (fix go (l : list goval) : M bytes (list goval) :=
             match l with
             | [] => mret []
             | v :: l => v ← fixed_decode v; l ← go l; mret (v :: l)
             end) l;
      mret (VSlice t l)
  | _ => fail (Errorf "binary.Read: invalid type")
  end.

Definition binary_read (v : goval) : M bytes goval :=
  match binary_write v with
  | Ok b => read_struct (length b) (fixed_decode v)
  | _ => fail (Errorf "binary.Read: invalid type")
  end.

Definition unpack_plain (unpack : goval -> UN goval) (f : fieldinfo) (t : gotype) (v : goval) : UN goval :=
  let a := Align t in
  _ ← modify (fun s => if 0 <? un_bitpos s then un_bits 0 (un_bitpack s) s else s);
  _ ← (if has_byteIndex f then mret tt else unpack_pad a);
  match t with
  | TStruct _ _ =>
      v ← wrapM "problem unpacking sub-structure" (unpack v);
      _ ← (if has_byteIndex f then mret tt else unpack_pad a);
      mret v
  | _ =>
      v ← wrapM "problem reading field data" (un_reader (binary_read v));
      _ ← modify (un_add (go_size t));
      mret v
  end.

Fixpoint unpack_times (n : nat) (m : UN goval) : UN (list goval) :=
  match n with
  | O => mret []
  | S n => v ← m; l ← unpack_times n m; mret (v :: l)
  end.

Definition unpack_field (unpack : goval -> UN goval) (f : fieldinfo) (t : gotype) (v : goval) : UN goval :=
  _ ← unpack_seek f (Align t);
  _ ← modify (un_set_lastA (Align t));
  if nopack f then unpack_plain unpack f t v
  else
    match t, v with
    | TArray _ TBool, VArray t l => l ← unpack_times (length l) unpack_bool; mret (VArray t l)
    | TArray _ (TStruct _ _), VArray t l =>
        l ← (fix go (l : list goval) : UN (list goval) :=
               match l with
               | [] => mret []
               | v :: l => v ← wrapM "problem unpacking array element" (unpack v); l ← go l; mret (v :: l)
               end) l;
        _ ← un_drop_bits;
        mret (VArray t l)
    | TArray _ TString, VArray t l =>
        l ← unpack_times (length l) unpack_string; _ ← un_drop_bits; mret (VArray t l)
    | TArray _ _, VArray _ _ => _ ← un_drop_bits; unpack_plain unpack f t v
    | TBool, VBool _ => unpack_bool
    | TString, VString _ => v ← unpack_string; _ ← un_drop_bits; mret v
    | _, _ => unpack_plain unpack f t v
    end.

(** A nested Unpack on the same reader; n += s. *)
Definition unpack_sub (m : UN goval) : UN goval := fun s =>
  let '(r, s') := m (un_start (un_r s)) in
  (r, {| un_n := un_n s + un_n s'; un_bitpos := un_bitpos s; un_bitpack := un_bitpack s;
         un_lastA := un_lastA s; un_r := un_r s' |}).

Section Unpack.
Context `{Methods}.

Fixpoint unpack_struct (data : goval) : UN goval :=
  match data with
  | VStruct name fields vals =>
      match m_Unpack name with
      | Some unpack => '(v, n) ← un_reader (unpack data); _ ← modify (un_add n); mret v
      | None =>
          unpack_sub (
            vals ← (fix go (vals : list goval) (fs : list (fieldinfo * gotype)) : UN (list goval) :=
                      match vals, fs with
                      | v :: vals, (f, t) :: fs =>
                          v ← unpack_field unpack_struct f t v; vals ← go vals fs; mret (v :: vals)
                      | [], [] => mret []
                      | _, _ => ill_typed
                      end) vals fields;
            mret (VStruct name fields vals))
      end
  | _ => panic "reflect: NumField of non-struct type"
  end.

(** An element of a slice, and the padding up to the element alignment. *)
Definition unpack_element (t : gotype) (v : goval) : UN goval :=
  before ← get;
  v ← wrapM "problem unpacking slice element" (unpack_struct v);
  after ← get;
  let rem := (un_n after - un_n before) mod Align t in
  if rem =? 0 then mret v
  else
    b ← wrapM "problem reading slice element padding" (un_reader (buffer_Read (Z.to_nat (Align t - rem))));
    _ ← modify (un_add (blen b));
    mret v.

Fixpoint unpack_slice (t : gotype) (l : list goval) : UN (list goval) :=
  match l with
  | [] => mret []
  | v :: l => v ← unpack_element t v; l ← unpack_slice t l; mret (v :: l)
  end.

Definition Unpack (data : goval) : M bytes (goval * Z) := fun r =>
  let m :=
    match data with
    | VSlice t l => l ← unpack_slice t l; mret (VSlice t l)
    | _ => unpack_struct data
    end in
  match m (un_start r) with
  | (Ok v, s) => (Ok (v, un_n s), un_r s)
  | (Err e, s) => (Err e, un_r s)
  | (Panic why, s) => (Panic why, un_r s)
  end.
End Unpack.

(** ** TypeEncode *)

Definition goTypeToLogixTypeName (t : gotype) : bytes :=
  match t with
  | TInt I8 => str "SINT"
  | TInt I16 => str "INT"
  | TInt I32 => str "DINT"
  | TInt I64 => str "LINT"
  | TInt U8 => str "SINT"
  | TInt U16 => str "UINT"
  | TInt U32 => str "UDINT"
  | TInt U64 => str "ULINT"
  | TFloat32 => str "REAL"
  | TFloat64 => str "LREAL"
  | _ => []
  end.

(** ",SINT" opens every run of up to eight bools. *)
Definition encode_field (encode : goval -> res bytes) (t : gotype) (v : goval) (bitpos : Z) : res (bytes * Z) :=
  match t with
  | TArray _ e =>
      match v with
      | VArray _ l =>
          at_ ← match e with
                | TStruct _ _ => match l with v :: _ => encode v | [] => Panic out_of_range end
                | _ => Ok (goTypeToLogixTypeName e)
                end;
          Ok ([44] ++ at_ ++ [91] ++ dec (Z.of_nat (length l)) ++ [93], bitpos)
      | _ => Panic "value does not have the type"
      end
  | TBool =>
      Ok (if bitpos =? 0 then [44] ++ str "SINT" else [], if 8 <=? bitpos + 1 then 0 else bitpos + 1)
  | TStruct _ _ => s ← res_wrap "problem encoding sub-structure" (encode v); Ok ([44] ++ s, 0)
  | _ => Ok ([44] ++ goTypeToLogixTypeName t, 0)
  end.

Section TypeEncode.
Context `{Methods} (crc16_Checksum : bytes -> Z).

Fixpoint type_text (data : goval) : res bytes :=
  match data with
  | VStruct name fields vals =>
      match m_TypeAbbr name with
      | Some (s, _) => Ok s
      | None =>
          s ← (fix go (vals : list goval) (fs : list (fieldinfo * gotype)) (bitpos : Z) : res bytes :=
                 match vals, fs with
                 | v :: vals, (_, t) :: fs =>
                     '(s, bitpos) ← encode_field type_text t v bitpos;
                     rest ← go vals fs bitpos;
                     Ok (s ++ rest)
                 | [], [] => Ok []
                 | _, _ => Panic "value does not have the type"
                 end) vals fields 0;
          Ok (name ++ s)
      end
  | _ => Panic "reflect: NumField of non-struct type"
  end.

Definition TypeEncode (data : goval) : res (bytes * Z) :=
  match data with
  | VStruct name _ _ =>
      match m_TypeAbbr name with
      | Some (s, t) => Ok (s, t)
      | None => s ← type_text data; Ok (s, crc16_Checksum s)
      end
  | _ => s ← type_text data; Ok (s, crc16_Checksum s)
  end.
End TypeEncode.

(** ** Serialize: the parts one after another, strings in 82 bytes *)

Definition serialize_part (a : sarg) : res bytes :=
  match a with
  | SString s => Ok (le_bytes 4 (u32 (blen s)) ++ copy_into 82 s)
  | SStrings l => Err (Wrap "problem writing str to buffer" (Errorf "binary.Write: some values are not fixed-sized in type"))
  | SBytes b => Ok b
  | SValue v => res_wrap "problem writing str to buffer" (binary_write v)
  end.
Fixpoint Serialize (strs : list sarg) : res bytes :=
  match strs with
  | [] => Ok []
  | a :: strs => b ← serialize_part a; r ← Serialize strs; Ok (b ++ r)
  end.
