(* ===== verification/PackProofs.v ===== *)
(** * What Pack writes, Unpack reads back

    [layout] follows the position, the pending bits and the last alignment of
    Pack through a type, and refuses the types whose pending bools would be
    lost or written behind padding.  For every other type Unpack yields the
    packed value and consumes exactly the bytes written.  The proof is a
    simulation of Pack by Unpack: while bools are pending, Unpack has already
    read the byte that Pack has still to write. *)
From S2P Require Import Prelude Reader GoStrings GoValue CipNames CipDefs Types Items Pack.

(** ** What a Methods instance owes to the clients of Pack *)

Class MethodsLaws `{Methods} := {
  m_size : bytes -> option Z;               (* bytes of a type with methods *)
  m_ok : bytes -> goval -> Prop;            (* values that survive the trip *)
  m_law name n : m_size name = Some n ->
    exists pack unpack, m_Pack name = Some pack /\ m_Unpack name = Some unpack /\
      forall v v0, m_ok name v -> m_ok name v0 ->
        exists bs, pack v = Ok bs /\ blen bs = n /\ parses (R:=bytes) (unpack v0) bs (v, n);
}.

(** ** Layouts *)

Record layout := { l_pos : Z; l_bit : Z; l_A : Z }.

Definition l_start : layout := {| l_pos := 0; l_bit := 0; l_A := 1 |}.
Definition align_up (p a : Z) : Z := p + padding p a.

Definition lay_bits (n : nat) (l : layout) : layout :=
  {| l_pos := l_pos l + (l_bit l + Z.of_nat n) / 8; l_bit := (l_bit l + Z.of_nat n) mod 8; l_A := l_A l |}.
Definition lay_bytes (n : Z) (l : layout) : layout :=
  {| l_pos := l_pos l + n; l_bit := l_bit l; l_A := l_A l |}.

(** A field that keeps the pending bits pending. *)
Definition lay_seek (f : fieldinfo) (a : Z) (l : layout) : option layout :=
  p ← (if has_byteIndex f then
         i ← sscanf_d (f_byteIndex f);
         if l_pos l <? i then if l_bit l =? 0 then Some i else None else Some (l_pos l)
       else if l_A l <? a then
         if l_bit l =? 0 then Some (align_up (l_pos l) a) else None
       else Some (l_pos l));
  Some {| l_pos := p; l_bit := l_bit l; l_A := a |}.

(** A field that flushes them. *)
Definition lay_plain (f : fieldinfo) (a : Z) (l : layout) : option layout :=
  p ← (if has_byteIndex f then
         i ← sscanf_d (f_byteIndex f);
         if l_bit l =? 0 then Some (Z.max (l_pos l) i)
         else if l_pos l <? i then None else Some (l_pos l + 1)
       else if l_bit l =? 0 then Some (align_up (l_pos l) a)
       else if (l_A l <? a) && negb (padding (l_pos l) a =? 0) then None
       else Some (align_up (l_pos l + 1) a));
  Some {| l_pos := p; l_bit := 0; l_A := a |}.

Definition no_bits (l : layout) : option layout := if l_bit l =? 0 then Some l else None.

Fixpoint plain_fixed (t : gotype) : bool :=
  match t with
  | TBool | TFloat32 | TFloat64 => true
  | TInt k => match k with GoInt | GoUint => false | _ => true end
  | TArray _ t => plain_fixed t
  | _ => false
  end.

Definition lay_data (size : gotype -> option Z) (f : fieldinfo) (t : gotype) (l : layout) : option layout :=
  l ← lay_plain f (Align t) l;
  match t with
  | TStruct _ _ =>
      n ← size t;
      let l := lay_bytes n l in
      Some (if has_byteIndex f then l else lay_bytes (padding (l_pos l) (Align t)) l)
  | _ => if plain_fixed t then Some (lay_bytes (go_size t) l) else None
  end.

Definition lay_field (size : gotype -> option Z) (f : fieldinfo) (t : gotype) (l : layout) : option layout :=
  if nopack f then lay_data size f t l
  else
    match t with
    | TBool => lay_bits 1 <$> lay_seek f (Align t) l
    | TArray n TBool => lay_bits n <$> lay_seek f (Align t) l
    | TString => l ← no_bits l; lay_bytes 86 <$> lay_seek f (Align t) l
    | TArray n TString => l ← no_bits l; lay_bytes (Z.of_nat n * 86) <$> lay_seek f (Align t) l
    | TArray n (TStruct name fields as e) =>
        l ← no_bits l; s ← size e; lay_bytes (Z.of_nat n * s) <$> lay_seek f (Align t) l
    | TArray _ _ => l ← no_bits l; lay_data size f t l
    | _ => lay_data size f t l
    end.

Section Layout.
Context `{MethodsLaws}.

(** The packed size of a structure type that Unpack reads back. *)
Fixpoint packed_size (t : gotype) : option Z :=
  match t with
  | TStruct name fields =>
      match m_Pack name, m_Unpack name with
      | Some _, Some _ => m_size name
      | None, None =>
          l ← (fix go (fields : list (fieldinfo * gotype)) (l : layout) : option layout :=
                 match fields with
                 | [] => Some l
                 | (f, t) :: fields => l ← lay_field packed_size f t l; go fields l
                 end) fields l_start;
          Some (l_pos l + (if l_bit l =? 0 then 0 else 1))
      | _, _ => None
      end
  | _ => None
  end.

(** Values of a type: integers in range, strings that fit their slot. *)
Fixpoint typed (t : gotype) (v : goval) : Prop :=
  match t, v with
  | TBool, VBool _ => True
  | TInt k, VInt k' z => k' = k /\ int_ok k z
  | TFloat32, VFloat32 b => is_bits 32 b
  | TFloat64, VFloat64 b => is_bits 64 b
  | TString, VString s => (length s <= 82)%nat
  | TArray n t, VArray t' l => t' = t /\ length l = n /\ Forall (typed t) l
  | TStruct name fields, VStruct name' fields' l =>
      name' = name /\ fields' = fields /\
      match m_Pack name with
      | Some _ => m_ok name v
      | None =>
          (fix go (fields : list (fieldinfo * gotype)) (l : list goval) : Prop :=
             match fields, l with
             | [], [] => True
             | (_, t) :: fields, v :: l => typed t v /\ go fields l
             | _, _ => False
             end) fields l
      end
  | _, _ => False
  end.
End Layout.

(** ** The simulation *)

Definition at_layout (l : layout) (s : pack_state) : Prop :=
  pk_pos s = l_pos l /\ pk_bitpos s = l_bit l /\ pk_lastA s = l_A l /\
  0 <= pk_bitpos s < 8 /\ 0 <= pk_bitpack s < 2 ^ pk_bitpos s.

(** The bytes X that follow agree with the bits pending in s. *)
Definition pmatch (s : pack_state) (X : bytes) : Prop :=
  pk_bitpos s = 0 \/ exists b Y, X = b :: Y /\ b mod 2 ^ pk_bitpos s = pk_bitpack s.

(** Unpack's state where Pack's is s and the bytes X follow. *)
Definition view (s : pack_state) (X : bytes) (u : unpack_state) : Prop :=
  un_bitpos u = pk_bitpos s /\ un_lastA u = pk_lastA s /\
  if pk_bitpos s =? 0 then un_n u = pk_pos s /\ un_r u = X
  else un_n u = pk_pos s + 1 /\ X = un_bitpack u :: un_r u.

(** The bytes written between two states. *)
Definition writes (s s' : pack_state) (chunk : bytes) : Prop :=
  pk_w s' = pk_w s ++ chunk /\ pk_pos s' = pk_pos s + blen chunk.

Lemma writes_nil s s' : pk_w s' = pk_w s -> pk_pos s' = pk_pos s -> writes s s' [].
Proof. intros Hw Hp. split; [by rewrite app_nil_r|]. unfold blen. simpl. lia. Qed.

Lemma writes_app s1 s2 s3 c1 c2 : writes s1 s2 c1 -> writes s2 s3 c2 -> writes s1 s3 (c1 ++ c2).
Proof.
  intros [W1 P1] [W2 P2]. split; [by rewrite W2, W1, <- (assoc_L (++))|].
  unfold blen in *. rewrite length_app. lia.
Qed.

Definition sim {A} (p : M pack_state unit) (m : M unpack_state A) (a : A) (l l' : layout) : Prop :=
  forall s, at_layout l s -> exists s' chunk,
    p s = (Ok tt, s') /\ at_layout l' s' /\ writes s s' chunk /\
    forall X, pmatch s' X -> pmatch s (chunk ++ X) /\
      forall u, view s (chunk ++ X) u -> exists u', m u = (Ok a, u') /\ view s' X u'.

Lemma sim_ret {A} (a : A) l : sim (mret tt) (mret a) a l l.
Proof.
  intros s Hs. exists s, []. split_and!; [done|done|by apply writes_nil|].
  intros X HX. split; [done|]. intros u Hu. by exists u.
Qed.

Lemma sim_bind {A B} p (k : unit -> M pack_state unit) (m : M unpack_state A) (g : A -> M unpack_state B) a b l1 l2 l3 :
  sim p m a l1 l2 -> sim (k tt) (g a) b l2 l3 -> sim (p ≫= k) (m ≫= g) b l1 l3.
Proof.
  intros H1 H2 s Hs. destruct (H1 s Hs) as (s1 & c1 & E1 & Hs1 & W1 & F1).
  destruct (H2 s1 Hs1) as (s2 & c2 & E2 & Hs2 & W2 & F2).
  exists s2, (c1 ++ c2). split_and!; [by rewrite (bind_Ok _ _ _ _ _ E1)|done|by eapply writes_app|].
  intros X HX. rewrite <- (assoc_L (++)). destruct (F2 X HX) as [P2 G2]. destruct (F1 _ P2) as [P1 G1].
  split; [done|]. intros u Hu. destruct (G1 u Hu) as (u1 & Eu1 & Hu1). destruct (G2 u1 Hu1) as (u2 & Eu2 & Hu2).
  exists u2. by rewrite (bind_Ok _ _ _ _ _ Eu1).
Qed.

(** A step of one side only, or its result passed on. *)
Lemma sim_bind_r {A B} p (m : M unpack_state A) (f : A -> B) a l l' :
  sim p m a l l' -> sim p (m ≫= (fun x => mret (f x)) : M unpack_state B) (f a) l l'.
Proof.
  intros H s Hs. destruct (H s Hs) as (s' & c & E & Hs' & W & F). exists s', c. split_and!; [done..|].
  intros X HX. destruct (F X HX) as [P G]. split; [done|]. intros u Hu. destruct (G u Hu) as (u' & Eu & Hu').
  exists u'. by rewrite (bind_Ok _ _ _ _ _ Eu).
Qed.

Lemma sim_wrapM {A} msg msg' p (m : M unpack_state A) a l l' :
  sim p m a l l' -> sim (wrapM msg p) (wrapM msg' m) a l l'.
Proof.
  intros H s Hs. destruct (H s Hs) as (s' & c & E & Hs' & W & F). exists s', c.
  split_and!; [by apply wrapM_Ok|done..|].
  intros X HX. destruct (F X HX) as [P G]. split; [done|]. intros u Hu. destruct (G u Hu) as (u' & Eu & Hu').
  exists u'. split; [by apply wrapM_Ok|done].
Qed.

(** Equal runs may replace each other. *)
Lemma sim_ext {A} p p' (m m' : M unpack_state A) a l l' :
  (forall s, p s = p' s) -> (forall u, m u = m' u) -> sim p m a l l' -> sim p' m' a l l'.
Proof.
  intros Hp Hm H s Hs. destruct (H s Hs) as (s' & c & E & Hs' & W & F). exists s', c. rewrite <- Hp.
  split_and!; [done..|]. intros X HX. destruct (F X HX) as [P G]. split; [done|]. intros u Hu.
  rewrite <- Hm. by apply G.
Qed.

(** ** Bits *)

Lemma u8_shiftl1 k : 0 <= k < 8 -> u8 (Z.shiftl 1 k) = 2 ^ k.
Proof.
  intros Hk. rewrite Z.shiftl_1_l. apply wrap_small. split; [apply Z.pow_nonneg; lia|].
  apply Z.pow_lt_mono_r; lia.
Qed.

Lemma bits_add k p (b : bool) :
  0 <= k < 8 -> 0 <= p < 2 ^ k ->
  Z.lor p (u8 (Z.shiftl (if b then 1 else 0) k)) = p + Z.b2z b * 2 ^ k.
Proof.
  intros Hk Hp. assert (u8 (Z.shiftl (if b then 1 else 0) k) = Z.b2z b * 2 ^ k) as ->.
  { destruct b; [rewrite u8_shiftl1 by done; simpl; lia|by rewrite Z.shiftl_0_l]. }
  rewrite <- Z.lxor_lor.
  - symmetry. apply Z.add_nocarry_lxor. destruct b; [|apply Z.land_0_r]. rewrite Z.mul_1_l.
    apply Z.eqb_eq. rewrite land_pow2_eqb by lia. rewrite <- (Z.mod_small p (2 ^ k)) by done.
    by rewrite Z.mod_pow2_bits_high by lia.
  - destruct b; [|apply Z.land_0_r]. rewrite Z.mul_1_l.
    apply Z.eqb_eq. rewrite land_pow2_eqb by lia. rewrite <- (Z.mod_small p (2 ^ k)) by done.
    by rewrite Z.mod_pow2_bits_high by lia.
Qed.

(** A byte whose low k+1 bits are known gives bit k and the bits below. *)
Lemma bit_of_mod B k p (b : bool) :
  0 <= k < 8 -> 0 <= p < 2 ^ k -> B mod 2 ^ (k + 1) = p + Z.b2z b * 2 ^ k ->
  negb (Z.land B (u8 (Z.shiftl 1 k)) =? 0) = b /\ B mod 2 ^ k = p.
Proof.
  intros Hk Hp HB. split.
  - rewrite u8_shiftl1, land_pow2_eqb, negb_involutive by lia.
    rewrite <- (Z.mod_pow2_bits_low B (k + 1)) by lia. rewrite HB, Z.testbit_odd, Z.shiftr_div_pow2 by lia.
    rewrite Z.div_add, Z.div_small by lia. by destruct b.
  - assert (B mod 2 ^ k = (B mod 2 ^ (k + 1)) mod 2 ^ k) as ->.
    { rewrite Z.pow_add_r by lia. rewrite Z.rem_mul_r by lia.
      rewrite Z.add_mod, Z.mul_comm, Z.mod_mul, Z.add_0_r, !Z.mod_mod by lia. done. }
    rewrite HB, Z.mod_add by lia. by apply Z.mod_small.
Qed.

(** ** Steps *)

Lemma sim_pk_set_lastA a l :
  sim (modify (pk_set_lastA a)) (modify (un_set_lastA a)) tt l
    {| l_pos := l_pos l; l_bit := l_bit l; l_A := a |}.
Proof.
  intros s Hs. exists (pk_set_lastA a s), []. split_and!; [done| |by apply writes_nil|].
  - unfold at_layout in *. simpl. tauto.
  - intros X HX. split; [done|]. intros u (? & ? & Hu). by exists (un_set_lastA a u).
Qed.

Lemma length_zeros n : 0 <= n -> blen (zeros n) = n.
Proof. intros. unfold blen, zeros. rewrite length_replicate. lia. Qed.

Lemma zeros_nil n : n <= 0 -> zeros n = [].
Proof. intros. unfold zeros. by replace (Z.to_nat n) with 0%nat by lia. Qed.

Lemma buffer_Read_app b X : buffer_Read (length b) (b ++ X) = (Ok b, X).
Proof.
  unfold buffer_Read. rewrite take_app_length, drop_app_length.
  destruct b as [|c b]; simpl; [by rewrite andb_false_r|done].
Qed.

Definition un_take (n : Z) (X : bytes) (u : unpack_state) : unpack_state :=
  {| un_n := un_n u + n; un_bitpos := un_bitpos u; un_bitpack := un_bitpack u; un_lastA := un_lastA u; un_r := X |}.

Lemma un_skip_zeros n X u : 0 <= n -> un_r u = zeros n ++ X -> un_skip n u = (Ok tt, un_take n X u).
Proof.
  intros Hn Hu. unfold un_skip. assert (Z.to_nat n = length (zeros n)) as E.
  { unfold zeros. by rewrite length_replicate. }
  erewrite bind_Ok; [|apply wrapM_Ok; unfold un_reader, zoom; rewrite Hu, E, buffer_Read_app; reflexivity].
  done.
Qed.

(** A byte chunk written on one side and read on the other. *)
Lemma sim_bytes {A} bs n (m : M unpack_state A) a l :
  l_bit l = 0 -> blen bs = n ->
  (forall u X, un_r u = bs ++ X -> m u = (Ok a, un_take n X u)) ->
  sim (modify (pk_write bs n)) m a l (lay_bytes n l).
Proof.
  intros Hl Hn Hm s (? & Hb & ? & ? & ?). exists (pk_write bs n s), bs. split_and!; [done| |by subst|].
  - split_and!; simpl; lia.
  - intros X _. split; [left; by rewrite Hb|]. unfold view. simpl. rewrite Hb, Hl. simpl.
    intros u (? & ? & ? & Hr). exists (un_take n X u). split; [by apply Hm|]. simpl. split_and!; [done..| |done].
    lia.
Qed.

Lemma unpack_bool_view s B Y u :
  view s (B :: Y) u ->
  unpack_bool u = (Ok (VBool (negb (Z.land B (u8 (Z.shiftl 1 (pk_bitpos s))) =? 0))),
    {| un_n := pk_pos s + 1; un_bitpos := if 8 <=? pk_bitpos s + 1 then 0 else pk_bitpos s + 1;
       un_bitpack := B; un_lastA := pk_lastA s; un_r := Y |}).
Proof.
  intros (Eb & EA & Hu). rewrite <- Eb in Hu |- *. unfold unpack_bool. rewrite bind_eq. cbn [get fst snd].
  destruct (Z.eqb_spec (un_bitpos u) 0) as [E|E]; destruct Hu as [En Er]; destruct u as [n k bp A r];
    cbn [un_n un_bitpos un_bitpack un_lastA un_r] in *; subst.
  - rewrite bind_eq. erewrite bind_Ok; [|by apply wrapM_Ok]. by rewrite !E.
  - injection Er as <- <-. reflexivity.
Qed.

Lemma sim_bool b l :
  0 <= l_bit l < 8 -> sim (pack_bool b) unpack_bool (VBool b) l (lay_bits 1 l).
Proof.
  intros Hl s (Hp & Hb & HA & Hlt & Hbp). unfold pack_bool, modify.
  rewrite bits_add by done. set (bp := pk_bitpack s + Z.b2z b * 2 ^ pk_bitpos s).
  assert (0 <= bp < 2 ^ (pk_bitpos s + 1)) as Hbp'.
  { unfold bp. rewrite Z.pow_add_r by lia. destruct b; simpl; lia. }
  destruct (Z.leb_spec 8 (pk_bitpos s + 1)) as [H8|H8].
  - assert (pk_bitpos s = 7) as H7 by lia. eexists _, [bp]. split_and!; [done| |by split|].
    { unfold at_layout. simpl. rewrite <- Hb, H7, Hp. by split_and!. }
    intros X _. assert (bp mod 2 ^ (pk_bitpos s + 1) = bp) as Hm by (by apply Z.mod_small).
    destruct (bit_of_mod bp (pk_bitpos s) (pk_bitpack s) b) as [Hbit Hlow]; [lia|done|done|].
    split; [right; exists bp, X; done|]. intros u Hu. rewrite (unpack_bool_view _ _ _ _ Hu), Hbit, H7.
    eexists. split; [done|]. by split_and!.
  - eexists _, []. split_and!; [done| |by apply writes_nil|].
    { unfold at_layout. simpl. rewrite <- Hb, Z.div_small, Z.mod_small by lia. split_and!; lia. }
    intros X [HX|(B & Y & -> & HB)]; [simpl in HX; lia|]. simpl in HB.
    destruct (bit_of_mod B (pk_bitpos s) (pk_bitpack s) b) as [Hbit Hlow]; [lia|done|done|].
    split; [right; by exists B, Y|]. intros u Hu. rewrite (unpack_bool_view _ _ _ _ Hu), Hbit.
    rewrite (proj2 (Z.leb_gt _ _)) by lia. eexists. split; [done|]. split_and!; [done..|].
    simpl. by rewrite (proj2 (Z.eqb_neq _ _)) by lia.
Qed.

Lemma lay_bits_S n l : lay_bits (S n) l = lay_bits n (lay_bits 1 l).
Proof.
  unfold lay_bits. simpl l_pos. simpl l_bit. simpl l_A. f_equal.
  - rewrite <- Z.add_assoc. f_equal. replace (l_bit l + Z.of_nat (S n)) with ((l_bit l + Z.of_nat 1) + Z.of_nat n) by lia.
    pose proof (Z.div_mod (l_bit l + Z.of_nat 1) 8). set (q := l_bit l + Z.of_nat 1) in *.
    replace (q + Z.of_nat n) with (q mod 8 + Z.of_nat n + (q / 8) * 8) by lia. rewrite Z.div_add by lia. lia.
  - rewrite Zplus_mod_idemp_l. f_equal. lia.
Qed.

Lemma sim_bools n vs l :
  0 <= l_bit l < 8 -> length vs = n -> Forall (fun v => exists b, v = VBool b) vs ->
  sim (pack_bools vs) (unpack_times n unpack_bool) vs l (lay_bits n l).
Proof.
  intros Hl <- Hvs. revert l Hl. induction Hvs as [|v vs [b ->] Hvs IH]; intros l Hl.
  - replace (lay_bits (length []) l) with l; [apply sim_ret|]. destruct l as [p b A]. unfold lay_bits. simpl in *.
    by rewrite Z.add_0_r, Z.div_small, Z.mod_small, Z.add_0_r by lia.
  - simpl length. rewrite lay_bits_S. simpl pack_bools. simpl unpack_times.
    eapply sim_ext; [intros s; reflexivity..|].
    eapply sim_bind; [by apply sim_bool|]. apply sim_bind_r. apply IH. unfold lay_bits. simpl.
    apply Z.mod_pos_bound. lia.
Qed.


(** ** Induction on types through the fields of structures *)

Section GoTypeInd.
Variable P : gotype -> Prop.
Hypothesis scalar : forall t,
  match t with TSlice _ | TArray _ _ | TPtr _ | TStruct _ _ => False | _ => True end -> P t.
Hypothesis slice : forall t, P t -> P (TSlice t).
Hypothesis array : forall n t, P t -> P (TArray n t).
Hypothesis ptr : forall t, P t -> P (TPtr t).
Hypothesis struct : forall name fields, Forall (fun ft => P ft.2) fields -> P (TStruct name fields).

Fixpoint gotype_fields_ind (t : gotype) : P t :=
  match t with
  | TSlice t => slice t (gotype_fields_ind t)
  | TArray n t => array n t (gotype_fields_ind t)
  | TPtr t => ptr t (gotype_fields_ind t)
  | TStruct name fields =>
      struct name fields
        ((fix go (l : list (fieldinfo * gotype)) : Forall (fun ft => P ft.2) l :=
            match l with
            | [] => Forall_nil _
            | ft :: l => @List.Forall_cons _ (fun ft => P ft.2) ft l (gotype_fields_ind ft.2) (go l)
            end) fields)
  | TBool => scalar TBool I
  | TInt k => scalar (TInt k) I
  | TFloat32 => scalar TFloat32 I
  | TFloat64 => scalar TFloat64 I
  | TString => scalar TString I
  | TAny => scalar TAny I
  end.
End GoTypeInd.

Lemma go_align_pos t : 0 < go_align t.
Proof.
  induction t as [t|t IH|n t IH|t IH|name fields IH] using gotype_fields_ind; simpl; try lia.
  - destruct t as [|k| | | | | | | |]; try done. by destruct k.
  - induction IH as [|[f t] l Ht _ IHl]; simpl in *; lia.
Qed.

Lemma Align_pos t : 0 < Align t.
Proof.
  induction t as [t|t IH|n t IH|t IH|name fields IH] using gotype_fields_ind; cbn [Align]; try lia; [|apply go_align_pos].
  destruct t; try done; try lia; apply go_align_pos.
Qed.

Lemma padding_bound p a : 0 < a -> 0 <= padding p a < a.
Proof.
  intros Ha. unfold padding. pose proof (Z.mod_pos_bound p a Ha). cbv zeta.
  destruct (Z.ltb_spec (a - p mod a) a); lia.
Qed.

Lemma padding_aligned p a : 0 < a -> padding (p + padding p a) a = 0.
Proof.
  intros Ha. unfold padding. pose proof (Z.mod_pos_bound p a Ha). cbv zeta.
  destruct (Z.ltb_spec (a - p mod a) a) as [H1|H1].
  - replace (p + (a - p mod a)) with (0 + (p / a + 1) * a) by (pose proof (Z.div_mod p a); lia).
    rewrite Z.mod_add, Z.mod_0_l, Z.sub_0_r by lia. by rewrite (proj2 (Z.ltb_ge _ _)) by lia.
  - rewrite Z.add_0_r. by rewrite (proj2 (Z.ltb_ge _ _)) by lia.
Qed.

(** Padding, the same number of bytes on both sides. *)
Lemma sim_zeros n l :
  l_bit l = 0 -> 0 <= n ->
  sim (modify (pk_write (zeros n) n)) (un_skip n) tt l (lay_bytes n l).
Proof.
  intros Hl Hn. apply sim_bytes; [done|by apply length_zeros|]. intros u X Hu. by apply un_skip_zeros.
Qed.

Lemma un_take_id u : un_take 0 (un_r u) u = u.
Proof. destruct u. unfold un_take. simpl. by rewrite Z.add_0_r. Qed.

Lemma sim_pad a l :
  l_bit l = 0 -> 0 < a ->
  sim (pack_pad a) (unpack_pad a) tt l (lay_bytes (padding (l_pos l) a) l).
Proof.
  intros Hl Ha s Hs. pose proof (padding_bound (l_pos l) a Ha) as Hp.
  destruct (sim_zeros (padding (l_pos l) a) l Hl ltac:(lia) s Hs) as (s' & c & E & Hs' & W & F).
  destruct Hs as (Hpos & Hb & _). exists s', c. split_and!; [|done..|].
  { unfold pack_pad, modify in *. by rewrite Hpos. }
  intros X HX. destruct (F X HX) as [P G]. split; [done|]. intros u Hu. destruct (G u Hu) as (u' & Eu & Hu').
  unfold view in Hu. rewrite Hb, Hl in Hu. destruct Hu as (_ & _ & En & Er).
  unfold unpack_pad. rewrite bind_eq. cbn [get]. rewrite En, Hpos.
  destruct (Z.ltb_spec 0 (padding (l_pos l) a)) as [H0|H0]; [by exists u'|].
  exists u. split; [done|]. injection E as <-. replace (padding (l_pos l) a) with 0 in * by lia.
  rewrite (un_skip_zeros 0 (un_r u)) in Eu by done. rewrite un_take_id in Eu. by injection Eu as <-.
Qed.

(** Steps whose condition depends on the position only. *)
Lemma sim_at {A} p p' (m m' : M unpack_state A) a l l' :
  (forall s, at_layout l s -> p' s = p s) ->
  (forall s X u, at_layout l s -> view s X u -> m' u = m u) ->
  sim p m a l l' -> sim p' m' a l l'.
Proof.
  intros Hp Hm H s Hs. destruct (H s Hs) as (s' & c & E & Hs' & W & F). exists s', c. rewrite Hp by done.
  split_and!; [done..|]. intros X HX. destruct (F X HX) as [P G]. split; [done|]. intros u Hu.
  rewrite (Hm _ _ _ Hs Hu). by apply G.
Qed.

Lemma view_n l s X u :
  at_layout l s -> view s X u -> un_n u = l_pos l + (if l_bit l =? 0 then 0 else 1) /\ un_lastA u = l_A l.
Proof.
  intros (Hp & Hb & HA & _) (_ & Hu & H). rewrite Hb in H. destruct (l_bit l =? 0); lia.
Qed.

Lemma pack_seek_eq f a l s :
  at_layout l s ->
  pack_seek f a s =
    if has_byteIndex f then
      match sscanf_d (f_byteIndex f) with
      | None => (Err (Errorf "problem parsing byteIndex tag"), s)
      | Some i => if l_pos l <? i then modify (pk_write (zeros (i - l_pos l)) (i - l_pos l)) s else (Ok tt, s)
      end
    else if l_A l <? a then pack_pad a s else (Ok tt, s).
Proof.
  intros (Hp & _ & HA & _). unfold pack_seek, pack_pad, modify. rewrite <- Hp, <- HA.
  destruct (has_byteIndex f).
  - destruct (sscanf_d _) as [i|]; [|done]. by destruct (_ <? _).
  - by destruct (_ <? _).
Qed.

Lemma unpack_seek_eq f a l s X u :
  at_layout l s -> view s X u ->
  let n := l_pos l + (if l_bit l =? 0 then 0 else 1) in
  unpack_seek f a u =
    if has_byteIndex f then
      match sscanf_d (f_byteIndex f) with
      | None => (Err (Errorf "problem parsing byteIndex tag"), u)
      | Some i => if n <? i then un_skip (i - n) u else (Ok tt, u)
      end
    else if l_A l <? a then unpack_pad a u else (Ok tt, u).
Proof.
  intros Hs Hu n. destruct (view_n _ _ _ _ Hs Hu) as [En EA]. unfold unpack_seek. rewrite bind_eq. cbn [get].
  rewrite En, EA. fold n. destruct (has_byteIndex f).
  - destruct (sscanf_d _) as [i|]; [|done]. by destruct (_ <? _).
  - by destruct (_ <? _).
Qed.

Lemma sim_seek_only f a l p :
  0 < a -> lay_seek f a l = Some p ->
  sim (pack_seek f a) (unpack_seek f a) tt l {| l_pos := l_pos p; l_bit := l_bit l; l_A := l_A l |}.
Proof.
  intros Ha H. unfold lay_seek in H. apply bind_Some in H as (q & Hp & [= <-]). cbn [l_pos].
  assert (forall n, lay_bytes n l = {| l_pos := l_pos l + n; l_bit := l_bit l; l_A := l_A l |}) as El by done.
  destruct (has_byteIndex f) eqn:Hf.
  - apply bind_Some in Hp as (i & Hi & Hp). destruct (Z.ltb_spec (l_pos l) i) as [Hlt|Hge].
    + destruct (Z.eqb_spec (l_bit l) 0) as [H0|]; [|done]. injection Hp as <-.
      replace i with (l_pos l + (i - l_pos l)) at 1 by lia. rewrite <- El.
      eapply sim_at; [| |apply sim_zeros; [done|lia]].
      * intros s Hs. rewrite (pack_seek_eq _ _ _ _ Hs), Hf, Hi. by rewrite (proj2 (Z.ltb_lt _ _)).
      * intros s X u Hs Hu. rewrite (unpack_seek_eq _ _ _ _ _ _ Hs Hu), Hf, Hi, H0. simpl. rewrite Z.add_0_r.
        by rewrite (proj2 (Z.ltb_lt _ _)).
    + injection Hp as <-. rewrite <- (Z.add_0_r (l_pos l)), <- El. replace (lay_bytes 0 l) with l.
      2: { rewrite El, Z.add_0_r. by destruct l. }
      eapply sim_at; [| |apply sim_ret].
      * intros s Hs. rewrite (pack_seek_eq _ _ _ _ Hs), Hf, Hi. by rewrite (proj2 (Z.ltb_ge _ _)).
      * intros s X u Hs Hu. rewrite (unpack_seek_eq _ _ _ _ _ _ Hs Hu), Hf, Hi.
        by rewrite (proj2 (Z.ltb_ge _ _)) by (destruct (_ =? _); lia).
  - destruct (Z.ltb_spec (l_A l) a) as [Hlt|Hge].
    + destruct (Z.eqb_spec (l_bit l) 0) as [H0|]; [|done]. injection Hp as <-.
      unfold align_up. rewrite <- El. eapply sim_at; [| |by apply sim_pad].
      * intros s Hs. rewrite (pack_seek_eq _ _ _ _ Hs), Hf. by rewrite (proj2 (Z.ltb_lt _ _)).
      * intros s X u Hs Hu. rewrite (unpack_seek_eq _ _ _ _ _ _ Hs Hu), Hf. by rewrite (proj2 (Z.ltb_lt _ _)).
    + injection Hp as <-. rewrite <- (Z.add_0_r (l_pos l)), <- El. replace (lay_bytes 0 l) with l.
      2: { rewrite El, Z.add_0_r. by destruct l. }
      eapply sim_at; [| |apply sim_ret].
      * intros s Hs. rewrite (pack_seek_eq _ _ _ _ Hs), Hf. by rewrite (proj2 (Z.ltb_ge _ _)).
      * intros s X u Hs Hu. rewrite (unpack_seek_eq _ _ _ _ _ _ Hs Hu), Hf. by rewrite (proj2 (Z.ltb_ge _ _)).
Qed.

Lemma sim_seek {A} f a l p (k : M pack_state unit) (m : M unpack_state A) v l' :
  0 < a -> lay_seek f a l = Some p -> sim k m v p l' ->
  sim (_ ← pack_seek f a; _ ← modify (pk_set_lastA a); k)
      (_ ← unpack_seek f a; _ ← modify (un_set_lastA a); m) v l l'.
Proof.
  intros Ha Hp Hk. eapply sim_bind; [by eapply sim_seek_only|]. eapply sim_bind; [apply sim_pk_set_lastA|].
  unfold lay_seek in Hp. apply bind_Some in Hp as (q & _ & [= <-]). exact Hk.
Qed.

(** ** The start of a field that flushes *)

Definition un_flush : M unpack_state unit :=
  modify (fun u => if 0 <? un_bitpos u then un_bits 0 (un_bitpack u) u else u).

Lemma sim_flush l :
  sim pack_flush un_flush tt l
    {| l_pos := l_pos l + (if l_bit l =? 0 then 0 else 1); l_bit := 0; l_A := l_A l |}.
Proof.
  intros s (Hp & Hb & HA & Hlt & Hbp). unfold pack_flush, modify. rewrite <- Hb.
  destruct (Z.ltb_spec 0 (pk_bitpos s)) as [H0|H0].
  - eexists _, [pk_bitpack s]. split_and!; [done| |by split|].
    { rewrite (proj2 (Z.eqb_neq _ _)) by lia. unfold at_layout. simpl. split_and!; lia. }
    intros X _. split. { right. exists (pk_bitpack s), X. split; [done|]. by apply Z.mod_small. }
    intros u (Eb & EA & Hu). rewrite (proj2 (Z.eqb_neq _ _)) in Hu by lia. destruct Hu as [En Er].
    injection Er as _ Er. eexists. split; [reflexivity|]. rewrite Eb, (proj2 (Z.ltb_lt _ _)) by done.
    by split_and!.
  - assert (pk_bitpos s = 0) as E by lia. eexists _, []. split_and!; [done| |by apply writes_nil|].
    { rewrite E. unfold at_layout. simpl. split_and!; lia. }
    intros X HX. split; [done|]. intros u Hu. exists u. split; [|done]. destruct Hu as (Eb & _).
    unfold un_flush, modify. by rewrite Eb, E.
Qed.

Lemma unpack_pad_twice a u u' (f : unpack_state -> unpack_state) :
  0 < a -> (forall u, un_n (f u) = un_n u) -> (forall u, un_r (f u) = un_r u) ->
  (forall n X u, f (un_take n X u) = un_take n X (f u)) ->
  (_ ← modify f; unpack_pad a) u = (Ok tt, u') ->
  (_ ← unpack_pad a; _ ← modify f; unpack_pad a) u = (Ok tt, u').
Proof.
  intros Ha Hn Hr Hf. rewrite !bind_eq. cbn [modify]. unfold unpack_pad at 1 2. rewrite !bind_eq. cbn [get].
  rewrite Hn. destruct (Z.ltb_spec 0 (padding (un_n u) a)) as [H0|H0].
  - unfold un_skip. rewrite !bind_eq. unfold wrapM, un_reader, zoom. rewrite Hr.
    destruct (buffer_Read _ (un_r u)) as [[b|e|w] r]; [|done..]. intros [= <-].
    change ((_ ← modify f; unpack_pad a) (un_take (padding (un_n u) a) r u) = (Ok tt, un_take (padding (un_n u) a) r (f u))).
    rewrite bind_eq. cbn [modify]. unfold unpack_pad. rewrite bind_eq. cbn [get]. rewrite Hn. cbn [un_take un_n].
    rewrite padding_aligned by done. cbn. by rewrite Hf.
  - intros [= <-]. change ((_ ← modify f; unpack_pad a) u = (Ok tt, f u)).
    rewrite bind_eq. cbn [modify]. unfold unpack_pad. rewrite bind_eq. cbn [get].
    by rewrite Hn, (proj2 (Z.ltb_ge _ _)).
Qed.

Definition pack_start (f : fieldinfo) (a : Z) : M pack_state unit :=
  _ ← pack_seek f a; _ ← modify (pk_set_lastA a); _ ← pack_flush; if has_byteIndex f then mret tt else pack_pad a.
Definition unpack_start (f : fieldinfo) (a : Z) : M unpack_state unit :=
  _ ← unpack_seek f a; _ ← modify (un_set_lastA a); _ ← un_flush; if has_byteIndex f then mret tt else unpack_pad a.

(** Where the seek does nothing to the pending bits. *)
Lemma sim_start_seek f a l p :
  0 < a -> lay_seek f a l = Some p ->
  sim (pack_start f a) (unpack_start f a) tt l
    (let q := l_pos p + (if l_bit p =? 0 then 0 else 1) in
     {| l_pos := if has_byteIndex f then q else align_up q a; l_bit := 0; l_A := a |}).
Proof.
  intros Ha Hp. eapply (sim_seek _ _ _ p); [done|done|]. eapply sim_bind; [apply sim_flush|].
  assert (l_A p = a) as ->. { unfold lay_seek in Hp. by apply bind_Some in Hp as (q & _ & [= <-]). }
  cbv zeta. destruct (has_byteIndex f); [apply sim_ret|]. by apply (sim_pad a {| l_pos := _; l_bit := 0; l_A := a |}).
Qed.

Lemma sim_start_skip a l :
  0 < a -> l_bit l <> 0 -> padding (l_pos l) a = 0 ->
  let l' := {| l_pos := align_up (l_pos l + 1) a; l_bit := 0; l_A := a |} in
  sim (_ ← pack_pad a; _ ← modify (pk_set_lastA a); _ ← pack_flush; pack_pad a)
      (_ ← unpack_pad a; _ ← modify (un_set_lastA a); _ ← un_flush; unpack_pad a) tt l l'.
Proof.
  intros Ha Hb Hp l'.
  assert (sim (_ ← modify (pk_set_lastA a); _ ← pack_flush; pack_pad a)
              (_ ← modify (un_set_lastA a); _ ← un_flush; unpack_pad a) tt l l') as H.
  { eapply sim_bind; [apply sim_pk_set_lastA|]. eapply sim_bind; [apply sim_flush|]. simpl.
    rewrite (proj2 (Z.eqb_neq _ _)) by done.
    by apply (sim_pad a {| l_pos := _; l_bit := 0; l_A := a |}). }
  intros s Hs. destruct (H s Hs) as (s' & c & E & Hs' & W & F). exists s', c. split_and!; [|done..|].
  { rewrite (bind_Ok _ _ s tt s); [done|]. unfold pack_pad, modify. destruct Hs as (-> & _). rewrite Hp.
    unfold pk_write. simpl. rewrite app_nil_r, Z.add_0_r. by destruct s. }
  intros X HX. destruct (F X HX) as [P G]. split; [done|]. intros u Hu. destruct (G u Hu) as (u' & Eu & Hu').
  exists u'. split; [|done].
  refine (unpack_pad_twice a u u' (fun u => snd (un_flush (un_set_lastA a u))) Ha _ _ _ _);
    [intros v; simpl; by destruct (0 <? un_bitpos v)..| |exact Eu].
  intros n Y v. simpl. by destruct (0 <? un_bitpos v).
Qed.

Lemma sim_start f a l l' :
  0 < a -> lay_plain f a l = Some l' -> sim (pack_start f a) (unpack_start f a) tt l l'.
Proof.
  intros Ha H. unfold lay_plain in H. apply bind_Some in H as (q & Hq & [= <-]).
  assert (forall p, lay_seek f a l = Some p ->
    (let r := l_pos p + (if l_bit p =? 0 then 0 else 1) in if has_byteIndex f then r else align_up r a) = q ->
    sim (pack_start f a) (unpack_start f a) tt l {| l_pos := q; l_bit := 0; l_A := a |}) as Hseek.
  { intros p Hp <-. by apply sim_start_seek. }
  unfold lay_seek in Hseek. destruct (has_byteIndex f) eqn:Hf.
  - apply bind_Some in Hq as (i & Hi & Hq). rewrite Hi in Hseek. simpl in Hseek.
    destruct (Z.ltb_spec (l_pos l) i), (Z.eqb_spec (l_bit l) 0) as [Hb|Hb]; try done; injection Hq as <-;
      (eapply Hseek; [done|]); simpl; rewrite ?Hb; simpl; try lia.
    by rewrite (proj2 (Z.eqb_neq _ _)).
  - destruct (Z.ltb_spec (l_A l) a) as [HA|HA], (Z.eqb_spec (l_bit l) 0) as [Hb|Hb]; simpl in Hq, Hseek.
    + injection Hq as <-. eapply Hseek; [done|]. rewrite Hb. simpl. rewrite Z.add_0_r. unfold align_up at 1.
      unfold align_up. rewrite padding_aligned by done. lia.
    + destruct (Z.eqb_spec (padding (l_pos l) a) 0) as [H0|]; [|done]. injection Hq as <-. clear Hseek.
      eapply sim_at; [| |by apply (sim_start_skip a l)].
      * intros s Hs. unfold pack_start. rewrite !(bind_eq _ _ s), (pack_seek_eq _ _ _ _ Hs), Hf.
        by rewrite (proj2 (Z.ltb_lt _ _)).
      * intros s X u Hs Hu. unfold unpack_start. rewrite !(bind_eq _ _ u), (unpack_seek_eq _ _ _ _ _ _ Hs Hu), Hf.
        by rewrite (proj2 (Z.ltb_lt _ _)).
    + injection Hq as <-. eapply Hseek; [done|]. rewrite Hb. simpl. by rewrite Z.add_0_r.
    + injection Hq as <-. eapply Hseek; [done|]. simpl. by rewrite (proj2 (Z.eqb_neq _ _)).
Qed.

(** ** Strings, fixed-size values, nested structures *)

Lemma take_copy_into n s : (length s <= n)%nat -> take (length s) (copy_into n s) = s.
Proof. intros Hs. unfold copy_into. rewrite (take_ge s) by done. by rewrite take_app_length. Qed.

Lemma sim_string s l :
  l_bit l = 0 -> (length s <= 82)%nat ->
  sim (pack_string s) unpack_string (VString s) l (lay_bytes 86 l).
Proof.
  intros Hl Hs. assert (0 <= blen s < 2 ^ 32) as Hb by (unfold blen; lia).
  set (bs := le_bytes 4 (u32 (blen s)) ++ copy_into 82 s).
  assert (length bs = 86)%nat as Hbs by (unfold bs; rewrite length_app, length_le_bytes, length_copy_into; done).
  apply (sim_bytes bs); [done|unfold blen; by rewrite Hbs|]. intros u X Hu. unfold unpack_string.
  assert (try (un_reader (buffer_Read 86)) u = (Ok (inr bs), un_take 0 X u)) as E.
  { apply try_Ok. unfold un_reader, zoom. rewrite Hu, <- Hbs, buffer_Read_app. unfold un_take. by rewrite Z.add_0_r. }
  rewrite (bind_Ok _ _ _ _ _ E), Hbs. cbn [Nat.ltb Nat.leb]. unfold bs.
  rewrite take_app_length' by by rewrite length_le_bytes. rewrite drop_app_length' by by rewrite length_le_bytes.
  rewrite le_val_le_bytes_small by (rewrite wrap_small; done). rewrite wrap_small by done.
  rewrite (proj2 (Z.ltb_ge _ _)) by (unfold blen; lia). unfold blen. rewrite Nat2Z.id, take_copy_into by done.
  rewrite bind_eq. cbn [modify mret M_ret]. unfold un_add, un_take. cbn. do 2 f_equal. lia.
Qed.

Lemma sim_strings n vs l :
  l_bit l = 0 -> length vs = n -> Forall (fun v => exists s, v = VString s /\ (length s <= 82)%nat) vs ->
  sim (pack_strings vs) (unpack_times n unpack_string) vs l (lay_bytes (Z.of_nat n * 86) l).
Proof.
  intros Hl <- Hvs. revert l Hl. induction Hvs as [|v vs (s & -> & Hs) Hvs IH]; intros l Hl.
  - replace (lay_bytes _ l) with l; [apply sim_ret|]. destruct l. unfold lay_bytes. simpl. by rewrite Z.add_0_r.
  - simpl length. replace (lay_bytes (Z.of_nat (S (length vs)) * 86) l)
      with (lay_bytes (Z.of_nat (length vs) * 86) (lay_bytes 86 l)) by (unfold lay_bytes; simpl; f_equal; lia).
    simpl pack_strings. simpl unpack_times. eapply sim_ext; [intros st; reflexivity..|].
    eapply sim_bind; [by apply sim_string|]. apply sim_bind_r. by apply IH.
Qed.

(** The elements decoded one after another. *)
Definition fixed_decode_list : list goval -> M bytes (list goval) :=
  fix go (l : list goval) : M bytes (list goval) :=
    match l with
    | [] => mret []
    | v :: l => v ← fixed_decode v; l ← go l; mret (v :: l)
    end.

Section Values.
Context `{MethodsLaws}.

Lemma typed_bools n vs : Forall (typed TBool) vs -> length vs = n -> Forall (fun v => exists b, v = VBool b) vs.
Proof. intros Hv _. eapply Forall_impl; [|exact Hv]. intros [] ?; try done. by eexists. Qed.

Lemma typed_strings vs :
  Forall (typed TString) vs -> Forall (fun v => exists s, v = VString s /\ (length s <= 82)%nat) vs.
Proof. intros Hv. eapply Forall_impl; [|exact Hv]. intros [] ?; try done. by eexists. Qed.

Lemma int_decode k z z0 n :
  ikind_size k = Some n -> int_ok k z ->
  parses (R:=bytes) (fixed_decode (VInt k z0)) (le_bytes n z) (VInt k z).
Proof.
  intros Hk Hz. assert (ikind_bits k = 8 * Z.of_nat n /\ (0 < n)%nat) as [Hb Hn].
  { destruct k; simpl in Hk; try discriminate; injection Hk as <-; simpl; lia. }
  unfold fixed_decode. rewrite Hk. unfold int_ok in Hz. rewrite Hb in Hz. destruct (ikind_signed k).
  - eapply parses_bind_nil; [by apply parses_sint|apply parses_ret].
  - eapply parses_bind_nil; [by apply parses_uint|apply parses_ret].
Qed.

Definition decodes (t : gotype) (v v0 : goval) : Prop :=
  exists b, fixed_bytes v = Some b /\ blen b = go_size t /\ parses (R:=bytes) (fixed_decode v0) b v.

Lemma fixed_decodes t v v0 : plain_fixed t = true -> typed t v -> typed t v0 -> decodes t v v0.
Proof.
  intros Ht. revert v v0. induction t as [t|t IH|n t IH|t IH|name fields IH] using gotype_fields_ind; try done.
  - destruct t as [|k| | | | | | | |]; try done; intros v v0 Hv; destruct v; try done; destruct v0; try done;
      revert Hv; simpl.
    + intros _ _. eexists. split_and!; [done..|]. eapply parses_bind_nil; [apply parses_u8|].
      { destruct b; solve_byte. }
      replace (negb _) with b by by destruct b. apply parses_ret.
    + intros [-> Hz] [-> _]. destruct (ikind_size k) as [m|] eqn:Hk; [|by destruct k].
      exists (le_bytes m z). split_and!; [by simpl; rewrite Hk| |by apply int_decode].
      unfold blen. rewrite length_le_bytes. by destruct k; simpl in Hk; try discriminate; injection Hk as <-.
    + intros Hb _. eexists. split_and!; [done..|]. eapply parses_bind_nil; [by apply parses_u32|]. apply parses_ret.
    + intros Hb _. eexists. split_and!; [done..|]. eapply parses_bind_nil; [by apply (parses_uint 8)|]. apply parses_ret.
  - intros [| | | | | | |t1 vs| |] [| | | | | | |t2 vs0| |]; try done. intros (-> & <- & Hvs) (-> & Hlen & Hvs0).
    enough (exists b, fixed_bytes_list vs = Some b /\ blen b = Z.of_nat (length vs) * go_size t /\
      parses (R:=bytes) (fixed_decode_list vs0) b vs) as (b & Eb & Hb & Hp).
    { exists b. split_and!; [done..|]. eapply (parses_bind_nil (fixed_decode_list vs0)); [exact Hp|apply parses_ret]. }
    revert vs0 Hlen Hvs0. induction Hvs as [|v vs Hv Hvs IHl]; intros [|v0 vs0] Hlen Hvs0; try done.
    { exists []. split_and!; [done..|]. apply parses_ret. }
    apply Forall_cons_iff in Hvs0 as [Hv0 Hvs0]. destruct (IH Ht v v0 Hv Hv0) as (b & Eb & Hb & Hp).
    injection Hlen as Hlen. destruct (IHl Ht vs0 Hlen Hvs0) as (bl & El & Hbl & Hpl).
    exists (b ++ bl). split_and!.
    + simpl. by rewrite Eb, El.
    + unfold blen in *. rewrite length_app. simpl length. lia.
    + eapply parses_bind; [exact Hp|]. eapply (parses_bind_nil (fixed_decode_list vs0)); [exact Hpl|apply parses_ret].
Qed.

Lemma sim_fixed t v v0 l :
  l_bit l = 0 -> plain_fixed t = true -> typed t v -> typed t v0 ->
  sim (b ← lift (res_wrap "problem reading sub-structure" (binary_write v)); modify (pk_write b (go_size t)))
      (v ← wrapM "problem reading field data" (un_reader (binary_read v0)); _ ← modify (un_add (go_size t)); mret v)
      v l (lay_bytes (go_size t) l).
Proof.
  intros Hl Ht Hv Hv0. destruct (fixed_decodes t v v0 Ht Hv Hv0) as (b & Eb & Hb & Hp).
  destruct (fixed_decodes t v0 v0 Ht Hv0 Hv0) as (b0 & Eb0 & Hb0 & _).
  assert (forall w c, typed t w -> fixed_bytes w = Some c -> binary_write w = Ok c) as Hw.
  { intros w c Hw Hc. unfold binary_write. destruct t, w; try done; by rewrite Hc. }
  rewrite (Hw v b) by done. apply (sim_ext (modify (pk_write b (go_size t))) _
    (v ← wrapM "problem reading field data" (un_reader (binary_read v0)); _ ← modify (un_add (go_size t)); mret v));
    [done..|].
  apply sim_bytes; [done..|]. intros u X Hu.
  assert (parses (R:=bytes) (binary_read v0) b v) as Hr.
  { unfold binary_read. rewrite (Hw v0 b0) by done. apply parses_struct; [done|]. unfold blen in *. lia. }
  assert (binary_read v0 (un_r u) = (Ok v, X)) as E.
  { rewrite (Hr (un_r u) X I Hu). simpl. by rewrite Hu, drop_app_length. }
  erewrite bind_Ok; [|apply wrapM_Ok; unfold un_reader, zoom; rewrite E; reflexivity].
  reflexivity.
Qed.
End Values.

(** ** Structures *)

Lemma start_assoc {A} f a (k : M pack_state A) s :
  (_ ← pack_seek f a; _ ← modify (pk_set_lastA a); _ ← pack_flush;
   _ ← (if has_byteIndex f then mret tt else pack_pad a); k) s = (_ ← pack_start f a; k) s.
Proof.
  unfold pack_start. rewrite !bind_eq. destruct (pack_seek f a s) as [[[]|e|w] s1]; [|done..].
  rewrite !bind_eq. cbn [modify]. rewrite !bind_eq. by destruct (pack_flush _) as [[[]|e|w] s2].
Qed.

Lemma un_start_assoc {A} f a (k : M unpack_state A) u :
  (_ ← unpack_seek f a; _ ← modify (un_set_lastA a); _ ← un_flush;
   _ ← (if has_byteIndex f then mret tt else unpack_pad a); k) u = (_ ← unpack_start f a; k) u.
Proof.
  unfold unpack_start. rewrite !bind_eq. destruct (unpack_seek f a u) as [[[]|e|w] s1]; [|done..].
  rewrite !bind_eq. cbn [modify]. rewrite !bind_eq. by destruct (un_flush _) as [[[]|e|w] s2].
Qed.

Lemma sim_sub {A} p (m : M unpack_state A) (g : A -> goval) vals l1 l :
  sim p m vals l_start l1 -> l_bit l = 0 ->
  sim (pack_sub (_ ← p; pack_flush)) (unpack_sub (vals ← m; mret (g vals))) (g vals) l
    (lay_bytes (l_pos l1 + (if l_bit l1 =? 0 then 0 else 1)) l).
Proof.
  intros H Hl s Hs. destruct (H (pk_start (pk_w s))) as (s1 & c1 & E1 & Hs1 & W1 & F1); [done|].
  destruct (sim_flush l1 s1 Hs1) as (s2 & c2 & E2 & Hs2 & W2 & F2). destruct Hs as (Hp & Hb & HA & Hr).
  eexists _, (c1 ++ c2). split_and!.
  - unfold pack_sub. by rewrite (bind_Ok _ _ _ _ _ E1), E2.
  - destruct Hs2 as (Hp2 & _). unfold at_layout. cbn [pk_pos pk_bitpos pk_lastA pk_bitpack lay_bytes l_pos l_bit l_A] in *.
    rewrite Hp2. split_and!; try lia; done.
  - destruct (writes_app _ _ _ _ _ W1 W2) as [Hw Hn]. simpl in Hw, Hn. split; [done|]. simpl. lia.
  - intros X _. split; [left; lia|]. rewrite <- (assoc_L (++)). intros u Hu. unfold view in Hu.
    rewrite Hb, Hl in Hu. destruct Hu as (Eb & EA & En & Er).
    destruct (F2 X) as [P2 G2]; [left; by destruct Hs2 as (_ & -> & _)|]. destruct (F1 _ P2) as [_ G1].
    destruct (G1 (un_start (un_r u))) as (u1 & Eu1 & Hu1); [by rewrite Er|].
    destruct (G2 u1 Hu1) as (u2 & Eu2 & Hu2). injection Eu2 as <-. unfold view in Hu2.
    destruct Hs2 as (_ & Hb2 & _). cbn [l_bit] in Hb2. rewrite Hb2 in Hu2. destruct Hu2 as (_ & _ & En2 & Er2).
    assert (un_n u1 = pk_pos s2 /\ un_r u1 = X) as [En1 Er1] by (by destruct (0 <? un_bitpos u1)).
    eexists. unfold unpack_sub. rewrite (bind_Ok _ _ _ _ _ Eu1). cbn [mret M_ret]. split; [done|].
    unfold view. cbn [pk_bitpos pk_lastA pk_pos un_bitpos un_lastA un_n un_r]. rewrite Hb, Hl, En, En1.
    by split_and!.
Qed.

Section Structures.
Context `{MethodsLaws}.

(** The loops over the fields, and over the elements of an array of structures. *)
Definition pack_fields : list goval -> list (fieldinfo * gotype) -> M pack_state unit :=
  fix go (vals : list goval) (fields : list (fieldinfo * gotype)) : M pack_state unit :=
    match vals, fields with
    | v :: vals, (f, t) :: fields => _ ← pack_field pack_struct f t v; go vals fields
    | [], [] => mret tt
    | _, _ => ill_typed
    end.
Definition unpack_fields : list goval -> list (fieldinfo * gotype) -> M unpack_state (list goval) :=
  fix go (vals : list goval) (fs : list (fieldinfo * gotype)) : M unpack_state (list goval) :=
    match vals, fs with
    | v :: vals, (f, t) :: fs => v ← unpack_field unpack_struct f t v; vals ← go vals fs; mret (v :: vals)
    | [], [] => mret []
    | _, _ => ill_typed
    end.
Definition lay_fields : list (fieldinfo * gotype) -> layout -> option layout :=
  fix go (fields : list (fieldinfo * gotype)) (l : layout) : option layout :=
    match fields with
    | [] => Some l
    | (f, t) :: fields => l ← lay_field packed_size f t l; go fields l
    end.
Definition typed_fields : list (fieldinfo * gotype) -> list goval -> Prop :=
  fix go (fields : list (fieldinfo * gotype)) (l : list goval) : Prop :=
    match fields, l with
    | [], [] => True
    | (_, t) :: fields, v :: l => typed t v /\ go fields l
    | _, _ => False
    end.
Definition pack_elements : list goval -> M pack_state unit :=
  fix go (l : list goval) : M pack_state unit :=
    match l with
    | [] => mret tt
    | v :: l => _ ← wrapM "problem packing array element" (pack_struct v); go l
    end.
Definition unpack_elements : list goval -> M unpack_state (list goval) :=
  fix go (l : list goval) : M unpack_state (list goval) :=
    match l with
    | [] => mret []
    | v :: l => v ← wrapM "problem unpacking array element" (unpack_struct v); l ← go l; mret (v :: l)
    end.

(** A structure packs to its size at any unencumbered position. *)
Definition struct_sim (t : gotype) : Prop := forall n v v0 l,
  packed_size t = Some n -> typed t v -> typed t v0 -> l_bit l = 0 ->
  sim (pack_struct v) (unpack_struct v0) v l (lay_bytes n l).

(** A type, and the elements of an array type. *)
Definition field_sim (t : gotype) : Prop :=
  struct_sim t /\ forall n e, t = TArray n e -> struct_sim e.

Lemma lay_bytes_0 l : lay_bytes 0 l = l.
Proof. destruct l. unfold lay_bytes. simpl. by rewrite Z.add_0_r. Qed.

Lemma sim_elements e n k vs vs0 l :
  struct_sim e -> packed_size e = Some n -> Forall (typed e) vs -> Forall (typed e) vs0 ->
  length vs = k -> length vs0 = k -> l_bit l = 0 ->
  sim (pack_elements vs) (unpack_elements vs0) vs l (lay_bytes (Z.of_nat k * n) l).
Proof.
  intros He Hn Hvs Hvs0 <- Hlen. revert vs0 Hvs0 Hlen l.
  induction Hvs as [|v vs Hv Hvs IH]; intros [|v0 vs0] Hvs0 Hlen l Hl; try done.
  { rewrite lay_bytes_0. apply sim_ret. }
  apply Forall_cons_iff in Hvs0 as [Hv0 Hvs0]. injection Hlen as Hlen.
  replace (lay_bytes (Z.of_nat (length (v :: vs)) * n) l) with (lay_bytes (Z.of_nat (length vs) * n) (lay_bytes n l))
    by (unfold lay_bytes; simpl; f_equal; lia).
  eapply sim_bind; [by apply sim_wrapM, He|]. apply (sim_bind_r _ (unpack_elements vs0) (cons v)). by apply IH.
Qed.

Lemma sim_data f t v v0 l l' :
  struct_sim t -> lay_data packed_size f t l = Some l' -> typed t v -> typed t v0 ->
  sim (_ ← pack_seek f (Align t); _ ← modify (pk_set_lastA (Align t)); pack_plain pack_struct f t v)
      (_ ← unpack_seek f (Align t); _ ← modify (un_set_lastA (Align t)); unpack_plain unpack_struct f t v0) v l l'.
Proof.
  intros Ht Hl Hv Hv0. unfold lay_data in Hl. apply bind_Some in Hl as (l1 & Hl1 & Hl).
  assert (l_bit l1 = 0) as Hb1. { unfold lay_plain in Hl1. by apply bind_Some in Hl1 as (p & _ & [= <-]). }
  unfold pack_plain, unpack_plain. fold un_flush.
  eapply sim_ext; [intros s; symmetry; apply start_assoc|intros u; symmetry; apply un_start_assoc|].
  eapply sim_bind; [apply sim_start; [apply Align_pos|exact Hl1]|].
  assert (plain_fixed t = true -> Some (lay_bytes (go_size t) l1) = Some l' ->
    sim (b ← lift (res_wrap "problem reading sub-structure" (binary_write v)); modify (pk_write b (go_size t)))
      (v ← wrapM "problem reading field data" (un_reader (binary_read v0)); _ ← modify (un_add (go_size t)); mret v)
      v l1 l') as Hfix.
  { intros Hp [= <-]. by apply sim_fixed. }
  destruct t as [| | | | | | | | |name fields]; try (destruct (plain_fixed _) eqn:Hp; [by apply Hfix|done]); try done.
  apply bind_Some in Hl as (n & Hn & [= <-]).
  eapply sim_bind; [by apply sim_wrapM, Ht|]. destruct (has_byteIndex f); [apply sim_ret|].
  apply (sim_bind_r _ _ (fun _ => v) tt). apply sim_pad; [done|apply (Align_pos (TStruct name fields))].
Qed.
Lemma sim_bounded {A} p (m : M unpack_state A) a l l' :
  (0 <= l_bit l < 8 -> sim p m a l l') -> sim p m a l l'.
Proof. intros Hm s Hs. apply Hm; [|done]. destruct Hs as (_ & <- & _ & Hb & _). done. Qed.

Lemma lay_seek_bit f a l p : lay_seek f a l = Some p -> l_bit p = l_bit l.
Proof. intros Hp. unfold lay_seek in Hp. by apply bind_Some in Hp as (q & _ & [= <-]). Qed.

Lemma no_bits_Some {B} l (k : layout -> option B) b : (l ← no_bits l; k l) = Some b -> l_bit l = 0 /\ k l = Some b.
Proof. unfold no_bits. by destruct (Z.eqb_spec (l_bit l) 0). Qed.

(** Nothing is pending: nothing is dropped. *)
Lemma sim_drop l : l_bit l = 0 -> sim drop_bits un_drop_bits tt l l.
Proof.
  intros Hl s (Hp & Hb & HA & Hr). exists s, []. unfold drop_bits, un_drop_bits, modify, pk_bits.
  rewrite Hl in Hb. split_and!; [by destruct s; simpl in *; subst|unfold at_layout; rewrite Hl; tauto|by apply writes_nil|].
  intros X HX. split; [done|]. intros u Hu. exists u. split; [|done]. destruct Hu as (Eb & _).
  unfold un_bits. destruct u. simpl in *. congruence.
Qed.

Lemma sim_then_drop {A B} p (m : M unpack_state A) (g : A -> B) a l l' :
  l_bit l' = 0 -> sim p m a l l' -> sim (_ ← p; drop_bits) (x ← m; _ ← un_drop_bits; mret (g x)) (g a) l l'.
Proof.
  intros Hl Hm. eapply sim_bind; [exact Hm|]. apply (sim_bind_r _ _ (fun _ => g a) tt). by apply sim_drop.
Qed.

(** The seek leaves the pending bits alone on both sides. *)
Lemma pack_seek_bits f a s : pk_bitpos (snd (pack_seek f a s)) = pk_bitpos s.
Proof.
  unfold pack_seek, modify. destruct (has_byteIndex f); [destruct (sscanf_d _); [|done]|]; simpl; by destruct (_ <? _).
Qed.

Lemma unpack_seek_bits f a u : un_bitpos (snd (unpack_seek f a u)) = un_bitpos u.
Proof.
  assert (forall n u, un_bitpos (snd (un_skip n u)) = un_bitpos u) as Hskip.
  { intros n v. unfold un_skip, wrapM, un_reader, zoom. rewrite bind_eq. by destruct (buffer_Read _ _) as [[] ?]. }
  unfold unpack_seek. rewrite bind_eq. cbn [get]. destruct (has_byteIndex f).
  - destruct (sscanf_d _); [|done]. by destruct (_ <? _).
  - destruct (_ <? _); [|done]. unfold unpack_pad. rewrite bind_eq. cbn [get]. by destruct (_ <? _).
Qed.

Lemma sim_array_data f n e v v0 l l' :
  struct_sim (TArray n e) -> l_bit l = 0 -> lay_data packed_size f (TArray n e) l = Some l' ->
  typed (TArray n e) v -> typed (TArray n e) v0 ->
  let t := TArray n e in
  sim (_ ← pack_seek f (Align t); _ ← modify (pk_set_lastA (Align t)); _ ← drop_bits; pack_plain pack_struct f t v)
      (_ ← unpack_seek f (Align t); _ ← modify (un_set_lastA (Align t)); _ ← un_drop_bits; unpack_plain unpack_struct f t v0)
      v l l'.
Proof.
  intros He Hl Hd Hv Hv0 t. eapply sim_at; [| |by apply (sim_data f t v v0 l l')].
  - intros s (_ & Hb & _). pose proof (pack_seek_bits f (Align t) s) as E. rewrite !bind_eq.
    destruct (pack_seek f (Align t) s) as [[[]|w|w] s1]; [|done..]. rewrite !bind_eq. cbn [modify]. rewrite bind_eq.
    unfold drop_bits, modify. simpl in E. rewrite Hb, Hl in E. destruct s1. simpl in *. by rewrite E.
  - intros s X u (_ & Hb & _) (Eb & _). pose proof (unpack_seek_bits f (Align t) u) as E. rewrite !bind_eq.
    destruct (unpack_seek f (Align t) u) as [[[]|w|w] s1]; [|done..]. rewrite !bind_eq. cbn [modify]. rewrite bind_eq.
    unfold un_drop_bits, modify. simpl in E. rewrite Eb, Hb, Hl in E. destruct s1. simpl in *. by rewrite E.
Qed.

Lemma sim_field f t v v0 l l' :
  field_sim t -> lay_field packed_size f t l = Some l' -> typed t v -> typed t v0 ->
  sim (pack_field pack_struct f t v) (unpack_field unpack_struct f t v0) v l l'.
Proof.
  intros [Ht He] Hl Hv Hv0. apply sim_bounded. intros Hlb.
  unfold pack_field, unpack_field, lay_field in *. destruct (nopack f); [by apply (sim_data f t v v0 l l')|].
  destruct t as [| | | | | | |n e| |name fields].
  all: try (by apply (sim_data _ _ v v0 l l')).
  - destruct v as [|b| | | | | | | |], v0; try done. apply fmap_Some in Hl as (p & Hp & ->).
    apply (sim_seek _ _ _ p); [done|done|]. apply sim_bool. by rewrite (lay_seek_bit _ _ _ _ Hp).
  - destruct v as [| | | | |s| | | |], v0; try done. apply no_bits_Some in Hl as [H0b Hl].
    apply fmap_Some in Hl as (p & Hp & ->). pose proof (lay_seek_bit _ _ _ _ Hp) as Hpb. rewrite H0b in Hpb.
    apply (sim_seek _ _ _ p); [done|done|]. apply (sim_then_drop _ _ id); [done|]. by apply sim_string.
  - destruct v as [| | | | | | |t' vs| |], v0 as [| | | | | | |t0 vs0| |]; try done.
    pose proof Hv as (-> & Hlen & Hvs). pose proof Hv0 as (-> & Hlen0 & Hvs0).
    destruct e as [| | | | | | | | |name fields];
      try (apply no_bits_Some in Hl as [H0b Hl]; by apply (sim_array_data f n _ (VArray _ vs) (VArray _ vs0))).
    + apply fmap_Some in Hl as (p & Hp & ->). apply (sim_seek _ _ _ p); [done|done|]. apply sim_bind_r.
      rewrite Hlen0. apply sim_bools; [by rewrite (lay_seek_bit _ _ _ _ Hp)|done|by eapply typed_bools].
    + apply no_bits_Some in Hl as [H0b Hl]. apply fmap_Some in Hl as (p & Hp & ->).
      pose proof (lay_seek_bit _ _ _ _ Hp) as Hpb. rewrite H0b in Hpb.
      apply (sim_seek _ _ _ p); [done|done|]. apply sim_then_drop; [done|]. rewrite Hlen0.
      apply sim_strings; [done|done|by apply typed_strings].
    + apply no_bits_Some in Hl as [H0b Hl]. apply bind_Some in Hl as (s & Hs & Hl).
      apply fmap_Some in Hl as (p & Hp & ->). pose proof (lay_seek_bit _ _ _ _ Hp) as Hpb. rewrite H0b in Hpb.
      apply (sim_seek _ _ _ p); [apply Align_pos|done|]. apply (sim_then_drop (pack_elements vs) (unpack_elements vs0)); [done|].
      apply (sim_elements (TStruct name fields)); [by eapply He|done..].
Qed.

Lemma sim_fields fields vals vals0 l l' :
  Forall (fun ft => field_sim ft.2) fields -> lay_fields fields l = Some l' ->
  typed_fields fields vals -> typed_fields fields vals0 ->
  sim (pack_fields vals fields) (unpack_fields vals0 fields) vals l l'.
Proof.
  intros Hf. revert vals vals0 l. induction Hf as [|[f t] fields Ht Hf IH]; intros [|v vals] [|v0 vals0] l Hl Hv Hv0;
    try done.
  - injection Hl as <-. apply sim_ret.
  - simpl in Hl. apply bind_Some in Hl as (l1 & Hl1 & Hl). destruct Hv as [Hv Hvs], Hv0 as [Hv0 Hvs0].
    eapply sim_bind; [by eapply sim_field|]. apply (sim_bind_r _ (unpack_fields vals0 fields) (cons v)). by apply IH.
Qed.

Lemma all_field_sim t : field_sim t.
Proof.
  induction t as [t|t IH|n t IH|t IH|name fields IH] using gotype_fields_ind.
  - split; [by intros n v v0 l Hn; destruct t|]. intros n e ->. done.
  - split; [by intros n v v0 l Hn|done].
  - split; [by intros m v v0 l Hn|]. intros m e [= <- <-]. by destruct IH.
  - split; [by intros n v v0 l Hn|done].
  - split; [|done]. intros n v v0 l Hn Hv Hv0 Hl. simpl in Hn.
    destruct v as [| | | | | | | |nm fs vals|], v0 as [| | | | | | | |nm0 fs0 vals0|]; try done.
    destruct Hv as (-> & -> & Hv), Hv0 as (-> & -> & Hv0). simpl pack_struct. simpl unpack_struct.
    destruct (m_Pack name) as [pack|] eqn:Hpk, (m_Unpack name) as [unpack|] eqn:Hup; try done.
    + destruct (m_law name n Hn) as (pack' & unpack' & E1 & E2 & Hlaw).
      rewrite Hpk in E1. rewrite Hup in E2. injection E1 as <-. injection E2 as <-.
      destruct (Hlaw _ _ Hv Hv0) as (bs & Ebs & Hlen & Hp). rewrite Ebs.
      apply (sim_ext (modify (pk_write bs n)) _ ('(v, n) ← un_reader (unpack (VStruct name fields vals0)); _ ← modify (un_add n); mret v)); [by intros s; rewrite <- Hlen|done|].
      apply sim_bytes; [done|done|]. intros u X Hu.
      assert (un_reader (unpack (VStruct name fields vals0)) u = (Ok (VStruct name fields vals, n), un_take 0 X u)) as E.
      { unfold un_reader, zoom. rewrite (Hp _ _ I Hu). simpl. rewrite Hu, drop_app_length. unfold un_take.
        by rewrite Z.add_0_r. }
      rewrite (bind_Ok _ _ _ _ _ E). rewrite bind_eq. cbn. unfold un_take. do 2 f_equal. unfold un_add. cbn. f_equal. lia.
    + apply bind_Some in Hn as (l1 & Hl1 & [= <-]).
      apply (sim_sub (pack_fields vals fields) (unpack_fields vals0 fields) (VStruct name fields)); [|done].
      by apply (sim_fields fields vals vals0).
Qed.

(** The structure at the head of a stream. *)
Lemma Unpack_struct v0 v n bs rest u :
  unpack_struct v0 (un_start (bs ++ rest)) = (Ok v, u) -> un_n u = n -> un_r u = rest ->
  (forall t l, v0 <> VSlice t l) -> Unpack v0 (bs ++ rest) = (Ok (v, n), rest).
Proof.
  intros E <- <- Hv. unfold Unpack.
  assert (match v0 with
          | VSlice t l => l ← unpack_slice t l; mret (VSlice t l)
          | _ => unpack_struct v0
          end = unpack_struct v0) as -> by (destruct v0; try done; by destruct (Hv t l)).
  by rewrite E.
Qed.

(** C13.  Whatever its fields (nested structures, arrays, strings, packed
    bools, padding, byteIndex tags, types with methods), a value of a type
    whose layout is sound packs to exactly [packed_size] bytes, appended to
    what the writer holds; and Unpack of those bytes, into any other value of
    the type, yields the value, reports that size and leaves what follows. *)
Theorem Unpack_Pack t n v v0 w rest :
  packed_size t = Some n -> typed t v -> typed t v0 ->
  exists bs, blen bs = n /\ Pack v w = (Ok n, w ++ bs) /\ Unpack v0 (bs ++ rest) = (Ok (v, n), rest).
Proof.
  intros Hn Hv Hv0. destruct (all_field_sim t) as [Ht _].
  destruct (Ht n v v0 l_start Hn Hv Hv0 eq_refl (pk_start w)) as (s & bs & E & Hs & W & F); [done|].
  destruct Hs as (Hp & Hb & _). destruct (F rest) as [_ G]; [by left|].
  destruct (G (un_start (bs ++ rest))) as (u & Eu & Hu); [done|]. unfold view in Hu. rewrite Hb in Hu.
  destruct Hu as (_ & _ & En & Er). exists bs. simpl in Hp. split_and!.
  - destruct W as [_ W]. simpl in W. lia.
  - unfold Pack. destruct W as [W _]. by rewrite E, W, Hp.
  - eapply Unpack_struct; [exact Eu|by rewrite En|done|]. intros t' l' ->. by destruct t.
Qed.
End Structures.
