(* ===== verification/LgxTypes.v ===== *)
(** * The predefined structure types (lgxtypes)

    TIMER, COUNTER, CONTROL and PID pack their flag fields into a control
    word in front of their data; STRING is an ordinary structure with a type
    text of its own.  [lgx_methods] gives the methods by type name, and
    [lgx_laws] that every value whose flags are in its control word survives
    Pack and Unpack, alone or inside any structure. *)
From S2P Require Import Prelude Reader GoStrings GoValue CipNames CipDefs Types Items Pack PackProofs.

(** ** Control words *)

(** if t.F { word |= 1 << p }, flag by flag *)
Fixpoint control_word (ps : list Z) (flags : list bool) : Z :=
  match ps, flags with
  | p :: ps, b :: flags => Z.lor (if b then Z.shiftl 1 p else 0) (control_word ps flags)
  | _, _ => 0
  end.

(** t.F = word & (1 << p) != 0 *)
Definition control_flags (ps : list Z) (word : Z) : list bool :=
  map (fun p => negb (Z.land word (Z.shiftl 1 p) =? 0)) ps.

Definition vbools (l : list bool) : list goval := VBool <$> l.
Fixpoint bools_of (l : list goval) : option (list bool) :=
  match l with
  | [] => Some []
  | VBool b :: l => r ← bools_of l; Some (b :: r)
  | _ => None
  end.

Definition fld (name : string) (t : gotype) : fieldinfo * gotype :=
  ({| f_name := str name; f_pack := []; f_byteIndex := []; f_gologix := [] |}, t).
Definition bool_fields (l : list string) : list (fieldinfo * gotype) := (fun n => fld n TBool) <$> l.

(** ** TIMER, COUNTER, CONTROL: the control word and two DINTs

    The fields behind the flags in the word (the four unused ones of a TIMER)
    are neither written nor read. *)

Definition words_pack (ps : list Z) (v : goval) : res bytes :=
  match v with
  | VStruct _ _ (VInt _ x :: VInt _ y :: flags) =>
      match bools_of flags with
      | Some flags => Ok (le_bytes 4 (control_word ps flags) ++ le_bytes 4 x ++ le_bytes 4 y)
      | None => Panic "value does not have the type"
      end
  | _ => Panic "value does not have the type"
  end.

Definition words_unpack (ps : list Z) (v : goval) : M bytes (goval * Z) :=
  match v with
  | VStruct name fields (VInt _ _ :: VInt _ _ :: flags) =>
      w ← read_u32;
      x ← read_sint 4;
      y ← read_sint 4;
      mret (VStruct name fields (VInt I32 x :: VInt I32 y :: vbools (control_flags ps w) ++ drop (length ps) flags), 12)
  | _ => panic "value does not have the type"
  end.

Definition timer_bits : list Z := [31; 30; 29].
Definition timer_fields : list (fieldinfo * gotype) :=
  fld "PRE" (TInt I32) :: fld "ACC" (TInt I32) :: bool_fields ["EN"; "TT"; "DN"; "FS"; "LS"; "OV"; "ER"]%string.
Definition TIMER : gotype := TStruct (str "TIMER") timer_fields.
Definition TIMER_Pack : goval -> res bytes := words_pack timer_bits.
Definition TIMER_Unpack : goval -> M bytes (goval * Z) := words_unpack timer_bits.

Definition counter_bits : list Z := [31; 30; 29; 28; 27].
Definition counter_fields : list (fieldinfo * gotype) :=
  fld "PRE" (TInt I32) :: fld "ACC" (TInt I32) :: bool_fields ["CU"; "CD"; "DN"; "OV"; "UN"]%string.
Definition COUNTER : gotype := TStruct (str "COUNTER") counter_fields.
Definition COUNTER_Pack : goval -> res bytes := words_pack counter_bits.
Definition COUNTER_Unpack : goval -> M bytes (goval * Z) := words_unpack counter_bits.

Definition control_bits : list Z := [31; 30; 29; 28; 27; 26; 25; 24].
Definition control_fields : list (fieldinfo * gotype) :=
  fld "LEN" (TInt I32) :: fld "POS" (TInt I32) :: bool_fields ["EN"; "EU"; "DN"; "EM"; "ER"; "UL"; "IN"; "FD"]%string.
Definition CONTROL : gotype := TStruct (str "CONTROL") control_fields.
Definition CONTROL_Pack : goval -> res bytes := words_pack control_bits.
Definition CONTROL_Unpack : goval -> M bytes (goval * Z) := words_unpack control_bits.

(** ** PID: the control word, 28 REALs, REAL[17]; 21 flags *)

Definition pid_bits : list Z :=
  [31; 30; 29; 28; 27; 26; 25; 24; 23; 22; 21; 20; 15; 14; 13; 12; 11; 10; 9; 8; 7].
Definition pid_reals : list string :=
  ["SP"; "KP"; "KI"; "KD"; "BIAS"; "MAXS"; "MINS"; "DB"; "SO"; "MAXO"; "MINO"; "UPD"; "PV"; "ERR"; "OUT"; "PVH";
   "PVL"; "DVP"; "DVN"; "PVDB"; "DVDB"; "MAXI"; "MINI"; "TIE"; "MAXCV"; "MINCV"; "MINTIE"; "MAXTIE"]%string.
Definition pid_flags : list string :=
  ["EN"; "CT"; "CL"; "PVT"; "DOE"; "SWM"; "CA"; "MO"; "PE"; "NDF"; "NOBC"; "NOZC"; "INI"; "SPOR"; "OLL"; "OLH"; "EWD";
   "DVNA"; "DVPA"; "PVLA"; "PVHA"]%string.
Definition pid_fields : list (fieldinfo * gotype) :=
  fld "CTL" (TInt I32) :: ((fun n => fld n TFloat32) <$> pid_reals) ++
  fld "DATA" (TArray 17 TFloat32) :: bool_fields pid_flags.
Definition PID : gotype := TStruct (str "PID") pid_fields.

Fixpoint reals_of (l : list goval) : option (list Z) :=
  match l with
  | [] => Some []
  | VFloat32 x :: l => r ← reals_of l; Some (x :: r)
  | _ => None
  end.
Definition reals_bytes (l : list Z) : bytes := concat (le_bytes 4 <$> l).

(** int32(ctrlWord) *)
Definition controlWord (flags : list bool) : Z := swrap 32 (control_word pid_bits flags).

(** CTL, the REALs, DATA, the flags *)
Definition pid_parts (v : goval) : option (Z * list Z * list Z * list bool) :=
  match v with
  | VStruct _ _ (VInt _ ctl :: l) =>
      reals ← reals_of (take 28 l);
      flags ← bools_of (drop 29 l);
      match l !! 28%nat with
      | Some (VArray _ data) => data ← reals_of data; Some (ctl, reals, data, flags)
      | _ => None
      end
  | _ => None
  end.
Definition pid_value (ctl : Z) (reals data : list Z) (flags : list bool) : goval :=
  VStruct (str "PID") pid_fields
    (VInt I32 ctl :: (VFloat32 <$> reals) ++ VArray TFloat32 (VFloat32 <$> data) :: vbools flags).

Definition PID_Pack (v : goval) : res bytes :=
  match pid_parts v with
  | Some (ctl, reals, data, flags) =>
      let ctrlWord := if ctl =? 0 then controlWord flags else ctl in
      Ok (le_bytes 4 ctrlWord ++ reals_bytes reals ++ reals_bytes data)
  | None => Panic "value does not have the type"
  end.

Fixpoint read_reals (n : nat) : M bytes (list Z) :=
  match n with O => mret [] | S n => x ← read_u32; l ← read_reals n; mret (x :: l) end.

Definition PID_Unpack (v : goval) : M bytes (goval * Z) :=
  ctrlWord ← read_sint 4;
  reals ← read_reals 28;
  data ← read_struct (4 * 17) (read_reals 17);
  mret (pid_value ctrlWord reals data (control_flags pid_bits (u32 ctrlWord)), 184).

(** ** TypeAbbr *)

Definition string_fields : list (fieldinfo * gotype) := [fld "Len" (TInt I32); fld "Data" (TArray 82 (TInt I8))].
Definition STRING : gotype := TStruct (str "STRING") string_fields.

Definition TypeAbbr (name : bytes) : option (bytes * Z) :=
  if bool_decide (name = str "TIMER") then Some (str "TIMER,DINT,DINT,DINT", 0x0F83)
  else if bool_decide (name = str "COUNTER") then Some (str "COUNTER,DINT,DINT,DINT", 0x0F82)
  else if bool_decide (name = str "CONTROL") then Some (str "CONTROL,DINT,DINT,DINT", 0x0F81)
  else if bool_decide (name = str "PID") then
    Some (str "PID,DINT,REAL,REAL,REAL,REAL,REAL,REAL,REAL,REAL,REAL,REAL,REAL,REAL,REAL,REAL,REAL,REAL,REAL,REAL,REAL,REAL,REAL,REAL,REAL,REAL,REAL,REAL,REAL,REAL,REAL[17]", 0x0F8A)
  else if bool_decide (name = str "STRING") then Some (str "STRING,DINT,SINT[82]", 0x0FCE)
  else None.

#[export] Instance lgx_methods : Methods := {|
  m_Pack name :=
    if bool_decide (name = str "TIMER") then Some TIMER_Pack
    else if bool_decide (name = str "COUNTER") then Some COUNTER_Pack
    else if bool_decide (name = str "CONTROL") then Some CONTROL_Pack
    else if bool_decide (name = str "PID") then Some PID_Pack
    else None;
  m_Unpack name :=
    if bool_decide (name = str "TIMER") then Some TIMER_Unpack
    else if bool_decide (name = str "COUNTER") then Some COUNTER_Unpack
    else if bool_decide (name = str "CONTROL") then Some CONTROL_Unpack
    else if bool_decide (name = str "PID") then Some PID_Unpack
    else None;
  m_TypeAbbr := TypeAbbr;
|}.

(** ** Control words keep their flags *)

Definition good_bits (ps : list Z) : Prop := NoDup ps /\ Forall (fun p => 0 <= p < 32) ps.

Lemma land_shiftl1 w p : 0 <= p -> negb (Z.land w (Z.shiftl 1 p) =? 0) = Z.testbit w p.
Proof. intros Hp. rewrite Z.shiftl_1_l, land_pow2_eqb, negb_involutive by done. done. Qed.

Lemma control_word_bit ps flags q :
  Forall (fun p => 0 <= p < 32) ps -> q ∉ ps -> 0 <= q -> Z.testbit (control_word ps flags) q = false.
Proof.
  intros Hps Hq H0. revert flags. induction Hps as [|p ps Hp Hps IH]; intros [|b flags]; simpl; rewrite ?Z.bits_0; try done.
  apply not_elem_of_cons in Hq as [Hqp Hq]. rewrite Z.lor_spec, IH, orb_false_r by done.
  destruct b; [|apply Z.bits_0]. rewrite Z.shiftl_1_l. by apply Z.pow2_bits_false.
Qed.

Lemma control_flags_ext ps w w' :
  Forall (fun p => 0 <= p < 32) ps -> (forall p, p ∈ ps -> Z.testbit w p = Z.testbit w' p) ->
  control_flags ps w = control_flags ps w'.
Proof.
  intros Hps Hw. unfold control_flags. apply map_ext_Forall. apply list.Forall_forall. intros p Hp.
  rewrite !land_shiftl1 by (by eapply list.Forall_forall in Hps; [destruct Hps|]). by apply Hw.
Qed.

Lemma control_flags_word ps flags :
  good_bits ps -> length flags = length ps -> control_flags ps (control_word ps flags) = flags.
Proof.
  intros [Hnd Hps]. revert flags. induction Hps as [|p ps Hp Hps IH]; intros [|b flags] Hlen; try done.
  apply list.NoDup_cons in Hnd as [Hp' Hnd]. injection Hlen as Hlen. simpl. f_equal.
  - rewrite land_shiftl1, Z.lor_spec, control_word_bit, orb_false_r by (done || lia).
    destruct b; [|apply Z.bits_0]. rewrite Z.shiftl_1_l. apply Z.pow2_bits_true. lia.
  - etrans; [|by apply IH]. apply control_flags_ext; [done|]. intros q Hq. rewrite Z.lor_spec.
    assert (Z.testbit (if b then Z.shiftl 1 p else 0) q = false) as ->; [|done].
    destruct b; [|apply Z.bits_0]. rewrite Z.shiftl_1_l. apply Z.pow2_bits_false. intros ->. done.
Qed.

Lemma control_flags_mod ps w :
  Forall (fun p => 0 <= p < 32) ps -> control_flags ps (w mod 2 ^ 32) = control_flags ps w.
Proof.
  intros Hps. apply control_flags_ext; [done|]. intros p Hp. apply Z.mod_pow2_bits_low.
  eapply list.Forall_forall in Hps; [|done]. lia.
Qed.

Lemma bools_of_vbools l : bools_of (vbools l) = Some l.
Proof. induction l as [|b l IH]; [done|]. simpl. by rewrite IH. Qed.

Lemma reals_of_map l r : reals_of ((VFloat32 <$> l) ++ r) = (l' ← reals_of r; Some (l ++ l')).
Proof.
  induction l as [|x l IH]; [simpl; by destruct (reals_of r)|]. rewrite fmap_cons, <- app_comm_cons. cbn [reals_of].
  rewrite IH. by destruct (reals_of r).
Qed.

(** ** The types keep the contract of [MethodsLaws] *)

(** A structure of two DINTs and flags; the last k flags are not on the wire. *)
Definition words_ok (name : bytes) (fields : list (fieldinfo * gotype)) (ps : list Z) (k : nat) (v : goval) : Prop :=
  exists x y flags,
    v = VStruct name fields (VInt I32 x :: VInt I32 y :: vbools (flags ++ replicate k false)) /\
    int_ok I32 x /\ int_ok I32 y /\ length flags = length ps.

Definition pid_ok (v : goval) : Prop :=
  exists ctl reals data,
    v = pid_value ctl reals data (control_flags pid_bits (u32 ctl)) /\
    int_ok I32 ctl /\ length reals = 28%nat /\ length data = 17%nat /\
    Forall (is_bits 32) reals /\ Forall (is_bits 32) data.

Lemma control_word_app ps flags l : length flags = length ps -> control_word ps (flags ++ l) = control_word ps flags.
Proof.
  revert flags. induction ps as [|p ps IH]; intros [|b flags] Hl; try done. simpl. rewrite IH; [done|]. by injection Hl.
Qed.

Lemma words_law name fields ps k v v0 :
  good_bits ps -> words_ok name fields ps k v -> words_ok name fields ps k v0 ->
  exists bs, words_pack ps v = Ok bs /\ blen bs = 12 /\ parses (R:=bytes) (words_unpack ps v0) bs (v, 12).
Proof.
  intros Hps (x & y & flags & -> & Hx & Hy & Hf) (x0 & y0 & flags0 & -> & _ & _ & Hf0).
  cbn [words_pack]. rewrite bools_of_vbools. eexists. split_and!; [done|by unfold blen; rewrite !length_app, !length_le_bytes|].
  eapply parses_bind; [apply (parses_uint_wrap 4)|]. eapply parses_bind; [by apply parses_sint; [lia|exact Hx]|].
  eapply parses_bind_nil; [by apply parses_sint; [lia|exact Hy]|].
  rewrite control_flags_mod, control_word_app, control_flags_word by (done || apply Hps).
  unfold vbools. rewrite !fmap_app, drop_app_length' by (by rewrite length_fmap). apply parses_ret.
Qed.

Lemma parses_reals l : Forall (is_bits 32) l -> parses (R:=bytes) (read_reals (length l)) (reals_bytes l) l.
Proof.
  induction 1 as [|x l Hx Hl IH]; [apply parses_ret|]. eapply parses_bind; [by apply parses_u32|].
  eapply parses_bind_nil; [exact IH|apply parses_ret].
Qed.

Lemma length_reals_bytes l : length (reals_bytes l) = (4 * length l)%nat.
Proof.
  induction l as [|x l IH]; [done|]. change (reals_bytes (x :: l)) with (le_bytes 4 x ++ reals_bytes l).
  rewrite length_app, length_le_bytes, IH. simpl. lia.
Qed.

Lemma pid_parts_value ctl reals data flags :
  length reals = 28%nat -> pid_parts (pid_value ctl reals data flags) = Some (ctl, reals, data, flags).
Proof.
  intros Hl. unfold pid_parts, pid_value.
  assert (forall l, reals_of (VFloat32 <$> l) = Some l) as Hreals.
  { intros l. rewrite <- (app_nil_r (VFloat32 <$> l)), reals_of_map. cbn. by rewrite app_nil_r. }
  rewrite take_app_length' by (by rewrite length_fmap). rewrite Hreals.
  rewrite drop_app_ge, length_fmap, Hl by (rewrite length_fmap; lia).
  change (drop (29 - 28) (VArray TFloat32 (VFloat32 <$> data) :: vbools flags)) with (vbools flags).
  rewrite bools_of_vbools, lookup_app_r, length_fmap, Hl by (rewrite length_fmap; lia).
  cbn -[reals_of fmap]. by rewrite Hreals.
Qed.

Lemma pid_unpack_parses v0 ctl reals data :
  int_ok I32 ctl -> length reals = 28%nat -> length data = 17%nat ->
  Forall (is_bits 32) reals -> Forall (is_bits 32) data ->
  parses (R:=bytes) (PID_Unpack v0) (le_bytes 4 ctl ++ reals_bytes reals ++ reals_bytes data)
    (pid_value ctl reals data (control_flags pid_bits (u32 ctl)), 184).
Proof.
  intros Hc Hr Hd Fr Fd. unfold PID_Unpack.
  eapply parses_bind; [by apply parses_sint; [lia|exact Hc]|].
  eapply parses_bind; [rewrite <- Hr; by apply parses_reals|].
  eapply parses_bind_nil; [apply parses_struct; [rewrite <- Hd; by apply parses_reals|by rewrite length_reals_bytes, Hd]|].
  apply parses_ret.
Qed.

Lemma pid_law v v0 :
  pid_ok v -> exists bs, PID_Pack v = Ok bs /\ blen bs = 184 /\ parses (R:=bytes) (PID_Unpack v0) bs (v, 184).
Proof.
  intros (ctl & reals & data & -> & Hc & Hr & Hd & Fr & Fd). unfold PID_Pack. rewrite pid_parts_value by done.
  exists (le_bytes 4 ctl ++ reals_bytes reals ++ reals_bytes data). split_and!.
  - destruct (Z.eqb_spec ctl 0) as [->|]; done.
  - unfold blen. by rewrite !length_app, !length_reals_bytes, length_le_bytes, Hr, Hd.
  - by apply pid_unpack_parses.
Qed.

Lemma good_bits_all : good_bits timer_bits /\ good_bits counter_bits /\ good_bits control_bits.
Proof.
  unfold good_bits. split_and!; first [apply (bool_decide_unpack _); vm_compute; exact I
    | repeat (apply Forall_cons_2; [lia|]); apply Forall_nil_2].
Qed.

Definition lgx_size (name : bytes) : option Z :=
  if bool_decide (name = str "TIMER") then Some 12
  else if bool_decide (name = str "COUNTER") then Some 12
  else if bool_decide (name = str "CONTROL") then Some 12
  else if bool_decide (name = str "PID") then Some 184
  else None.

Definition lgx_ok (name : bytes) : goval -> Prop :=
  if bool_decide (name = str "TIMER") then words_ok name timer_fields timer_bits 4
  else if bool_decide (name = str "COUNTER") then words_ok name counter_fields counter_bits 0
  else if bool_decide (name = str "CONTROL") then words_ok name control_fields control_bits 0
  else pid_ok.

#[export] Instance lgx_laws : @MethodsLaws lgx_methods.
Proof.
  refine (Build_MethodsLaws _ lgx_size lgx_ok _). intros name n Hn.
  destruct good_bits_all as (Ht & Hc & Hk). unfold lgx_size, lgx_ok in *. simpl.
  repeat (case_bool_decide; [injection Hn as <-; eexists _, _; split_and!; [done..|];
    first [intros v v0 Hv _; by apply pid_law | intros; by eapply words_law]|]).
  done.
Defined.

(** ** A PID whose CTL is 0 sends its flags *)

Lemma length_control_flags ps w : length (control_flags ps w) = length ps.
Proof. apply length_map. Qed.

Lemma control_flags_u32 ps w : Forall (fun p => 0 <= p < 32) ps -> control_flags ps (u32 (swrap 32 w)) = control_flags ps w.
Proof.
  intros Hps. assert (u32 (swrap 32 w) = w mod 2 ^ 32) as ->; [|by apply control_flags_mod].
  unfold wrap, swrap. rewrite Zminus_mod_idemp_l, Z.add_simpl_r. done.
Qed.

Lemma good_pid_bits : good_bits pid_bits.
Proof.
  split; [apply (bool_decide_unpack _); vm_compute; exact I|].
  repeat (apply Forall_cons_2; [lia|]). apply Forall_nil_2.
Qed.

(** A PID is sent with its CTL field as the control word, or with its
    21 flags when CTL is 0.  Unpack of the 184 bytes answers a PID with the
    same REALs and data, CTL the control word sent, and as flags the word's:
    the sender's own flags when CTL was 0. *)
Theorem PID_roundtrip ctl reals data flags v0 :
  int_ok I32 ctl -> length reals = 28%nat -> length data = 17%nat -> length flags = 21%nat ->
  Forall (is_bits 32) reals -> Forall (is_bits 32) data ->
  let word := if ctl =? 0 then controlWord flags else ctl in
  exists bs, PID_Pack (pid_value ctl reals data flags) = Ok bs /\
    parses (R:=bytes) (PID_Unpack v0) bs (pid_value word reals data (control_flags pid_bits (u32 word)), 184) /\
    (ctl = 0 -> control_flags pid_bits (u32 word) = flags).
Proof.
  intros Hc Hr Hd Hf Fr Fd word. unfold PID_Pack. rewrite pid_parts_value by done. eexists. split_and!; [done|..].
  - apply pid_unpack_parses; try done. unfold word. destruct (ctl =? 0); [|done].
    unfold controlWord. by apply (int_conv_ok I32).
  - intros ->. unfold word, controlWord. rewrite Z.eqb_refl, control_flags_u32 by apply good_pid_bits.
    apply control_flags_word; [apply good_pid_bits|done].
Qed.

Lemma PID_roundtrip_witness :
  exists bs, PID_Pack (pid_value 0 (replicate 28 0) (replicate 17 0) (replicate 20 false ++ [true])) = Ok bs /\
    parses (R:=bytes) (PID_Unpack VNil) bs
      (pid_value 128 (replicate 28 0) (replicate 17 0) (control_flags pid_bits (u32 128)), 184) /\
    (0 = 0 -> control_flags pid_bits (u32 128) = replicate 20 false ++ [true]).
Proof.
  apply (PID_roundtrip 0 (replicate 28 0) (replicate 17 0) (replicate 20 false ++ [true]) VNil); try done.
  - apply Forall_replicate. split; [done|reflexivity].
  - apply Forall_replicate. split; [done|reflexivity].
Defined.

(** ** A structure of the repository's kind: flags, a TIMER, a string, data *)

Definition sample_sub : gotype :=
  TStruct (str "S2") [fld "Flag1" TBool; fld "U32" (TInt U32); fld "PostFlag" TBool].
Definition sample_type : gotype :=
  TStruct (str "S")
    [fld "Flag0" TBool; fld "Flag1" TBool; fld "U64" (TInt U64); fld "Name" TString;
     fld "Sub1" sample_sub; fld "Tmr" TIMER; fld "Flags" (TArray 16 TBool); fld "Sub2" (TArray 2 sample_sub)].
Definition sample_sub_value (a : bool) (z : Z) (b : bool) : goval :=
  VStruct (str "S2") [fld "Flag1" TBool; fld "U32" (TInt U32); fld "PostFlag" TBool] [VBool a; VInt U32 z; VBool b].
Definition sample_timer (pre acc : Z) (en tt dn : bool) : goval :=
  VStruct (str "TIMER") timer_fields (VInt I32 pre :: VInt I32 acc :: vbools ([en; tt; dn] ++ replicate 4 false)).
Definition sample_value (s : bytes) (b : bool) (z : Z) : goval :=
  VStruct (str "S")
    [fld "Flag0" TBool; fld "Flag1" TBool; fld "U64" (TInt U64); fld "Name" TString;
     fld "Sub1" sample_sub; fld "Tmr" TIMER; fld "Flags" (TArray 16 TBool); fld "Sub2" (TArray 2 sample_sub)]
    [VBool b; VBool (negb b); VInt U64 z; VString s; sample_sub_value b z (negb b); sample_timer z (-1) b b (negb b);
     VArray TBool (VBool <$> replicate 15 b ++ [negb b]);
     VArray sample_sub [sample_sub_value b 7 b; sample_sub_value (negb b) z b]].

Lemma sample_typed s b z : (length s <= 82)%nat -> 0 <= z < 2 ^ 31 -> typed sample_type (sample_value s b z).
Proof.
  intros Hs Hz. assert (forall k, 32 <= ikind_bits k -> int_ok k z) as Hk.
  { intros k Hk. unfold int_ok. pose proof (Z.pow_le_mono_r 2 31 (ikind_bits k - 1)).
    pose proof (Z.pow_le_mono_r 2 31 (ikind_bits k)). destruct (ikind_signed k); lia. }
  assert (forall a z b, int_ok U32 z -> typed sample_sub (sample_sub_value a z b)) as Hsub.
  { intros a z' b' Hz'. by split_and!. }
  assert (typed TIMER (sample_timer z (-1) b b (negb b))) as Ht.
  { split_and!; [done..|]. exists z, (-1), [b; b; negb b]. split_and!; [done|by apply Hk|by split|done]. }
  split; [done|]. split; [done|]. simpl m_Pack. cbv beta iota.
  split; [done|]. split; [done|]. split; [split; [done|by apply Hk]|]. split; [exact Hs|].
  split; [by apply Hsub, Hk|]. split; [exact Ht|]. split; [|split; [|done]].
  - split_and!; [done|by destruct b|]. apply Forall_fmap, Forall_forall. by intros [] _.
  - split_and!; [done..|]. apply Forall_cons_2; [by apply Hsub|]. apply Forall_cons_2; [by apply Hsub, Hk|].
    apply Forall_nil_2.
Qed.

Lemma Unpack_Pack_witness :
  packed_size sample_type = Some 150 /\
  exists bs, blen bs = 150 /\ Pack (sample_value (str "Pump") true 5) [1; 2] = (Ok 150, [1; 2] ++ bs) /\
    Unpack (sample_value [] false 0) (bs ++ [9]) = (Ok (sample_value (str "Pump") true 5, 150), [9]).
Proof.
  split; [vm_compute; reflexivity|].
  apply (Unpack_Pack sample_type); [vm_compute; reflexivity|apply sample_typed; simpl; lia..].
Defined.

(** ** The values of pack_test.go *)

Definition nopack_fld (name : string) (t : gotype) : fieldinfo * gotype :=
  ({| f_name := str name; f_pack := str "nopack"; f_byteIndex := []; f_gologix := [] |}, t).
Definition test_fields : list (fieldinfo * gotype) :=
  fld "Flag0" TBool :: nopack_fld "Flag1" TBool ::
  bool_fields ["Flag2"; "Flag3"; "Flag4"; "Flag5"; "Flag6"; "Flag7"; "Flag8"; "Flag9"; "Flag10"; "Flag11"]%string ++
  [fld "U32" (TInt U32)].
Definition test_value (u : Z) : goval :=
  VStruct (str "S") test_fields
    (vbools [false; true; false; true; false; false; false; false; false; true; true; true] ++ [VInt U32 u]).

(** TestPack wants 0 1 130 3 and then U32: the second byte of bits comes
    behind the padding instead, so U32 is pushed to offset 8, and Unpack,
    which takes the bits from offset 3, reads back other values.  [packed_size]
    refuses the type. *)
Example Pack_bits_behind_padding :
  Pack (test_value (2 ^ 32 - 1)) [] = (Ok 12, [0; 1; 130; 0; 3; 0; 0; 0; 255; 255; 255; 255]) /\
  (exists v, fst (Unpack (test_value 0) [0; 1; 130; 0; 3; 0; 0; 0; 255; 255; 255; 255]) = Ok (v, 8) /\
    v = VStruct (str "S") test_fields
      (vbools [false; true; false; true; false; false; false; false; false; true; false; false] ++ [VInt U32 3])) /\
  packed_size (TStruct (str "S") test_fields) = None.
Proof. split_and!; [vm_compute; reflexivity|eexists; split; [vm_compute; reflexivity|reflexivity]|vm_compute; reflexivity]. Qed.

Definition UDT3 : goval :=
  VStruct (str "UDT3") [fld "U3A" (TInt I8); fld "U3B" (TArray 4 (TInt I8))]
    [VInt I8 0; VArray (TInt I8) (replicate 4 (VInt I8 0))].
Definition UDT3_type : gotype := TStruct (str "UDT3") [fld "U3A" (TInt I8); fld "U3B" (TArray 4 (TInt I8))].
Definition UDT2 : goval :=
  VStruct (str "UDT2")
    [fld "U2A" (TInt I32); fld "U2B" (TArray 3 (TInt I8)); fld "U2C" UDT3_type; fld "U2D" (TArray 2 UDT3_type)]
    [VInt I32 0; VArray (TInt I8) (replicate 3 (VInt I8 0)); UDT3; VArray UDT3_type [UDT3; UDT3]].
Definition UDT1 : goval :=
  VStruct (str "UDT1")
    [fld "U1A" (TInt I8); fld "U1B" (TArray 2 (TInt I8));
     fld "U1C" (TStruct (str "UDT2") []); fld "U1D" (TArray 4 UDT3_type)]
    [VInt I8 0; VArray (TInt I8) (replicate 2 (VInt I8 0)); UDT2; VArray UDT3_type (replicate 4 UDT3)].

(** TestEncodeUDT *)
Example type_text_UDT1 :
  type_text UDT1 =
    Ok (str "UDT1,SINT,SINT[2],UDT2,DINT,SINT[3],UDT3,SINT,SINT[4],UDT3,SINT,SINT[4][2],UDT3,SINT,SINT[4][4]").
Proof. vm_compute. reflexivity. Qed.
