(* ===== verification/Templates.v ===== *)
(** * Symbols and structure templates (listalltags.go, listmembers.go)

    What the controller tells about a tag ([TagInfo]) and about a structure
    type ([UDTDescriptor]), the bits of a type word, and the reading of a
    template in chunks.  The chunks come from a computation of any state, so
    that the reading is proved against any controller. *)
From S2P Require Import Prelude Reader GoStrings CipNames Types.
#[local] Set Warnings "-register-all".

(** ** TagInfo *)

Record TagInfo := {
  ti_Type : Z;          (* CIPType, a byte *)
  ti_TypeInfo : Z;      (* byte *)
  ti_Dimension1 : Z;
  ti_Dimension2 : Z;
  ti_Dimension3 : Z;
}.

Definition type_word (f : TagInfo) : Z := le_val [ti_Type f; ti_TypeInfo f].

Definition PreDefined (f : TagInfo) : bool := Z.land (type_word f) 0x0FFF <=? 0x0100.
Definition Atomic (f : TagInfo) : bool := Z.land (type_word f) 0x9000 =? 0.

(** The template number in a type word: 0 when the structure bit (15) is
    clear or the reserved bit (12) is set. *)
Definition template_word (val : Z) : Z :=
  let b12_set := negb (Z.land val (Z.shiftl 1 12) =? 0) in
  let b15_set := negb (Z.land val (Z.shiftl 1 15) =? 0) in
  if negb b15_set || b12_set then 0 else Z.land val 0x0FFF.

Definition Template_ID (f : TagInfo) : Z := template_word (type_word f).

(** The dimensions that are in use, the first one first. *)
Definition array_order (f : TagInfo) : list Z :=
  if negb (ti_Dimension3 f =? 0) then [ti_Dimension1 f; ti_Dimension2 f; ti_Dimension3 f]
  else if negb (ti_Dimension2 f =? 0) then [ti_Dimension1 f; ti_Dimension2 f]
  else if negb (ti_Dimension1 f =? 0) then [ti_Dimension1 f]
  else [].

Definition isValidTag (tag_string : bytes) : bool :=
  if bool_decide (tag_string = []) then false
  else if has_prefix (str "__") tag_string then false
  else if contains 58 tag_string then has_prefix (str "Program:") tag_string || has_prefix (str "Local:") tag_string
  else true.

(** ** Templates *)

Record msgGetTemplateAttrListResponse := {
  tr_SequenceCount : Z; tr_Service : Z; tr_Reserved : Z; tr_Status : Z; tr_Status_extended : Z; tr_Count : Z;
  tr_SizeWords_ID : Z; tr_SizeWords_Status : Z; tr_SizeWords : Z;
  tr_SizeBytes_ID : Z; tr_SizeBytes_Status : Z; tr_SizeBytes : Z;
  tr_MemberCount_ID : Z; tr_MemberCount_Status : Z; tr_MemberCount : Z;
  tr_Handle_ID : Z; tr_Handle_Status : Z; tr_Handle : Z;
}.

Definition read_template_attrs : M bytes msgGetTemplateAttrListResponse :=
  read_struct 36 (
    a ← read_u16; b ← read_u8; c ← read_u8; d ← read_u8; e ← read_u8; f ← read_u16;
    g ← read_u16; h ← read_u16; i ← read_u32;
    j ← read_u16; k ← read_u16; l ← read_u32;
    m ← read_u16; n ← read_u16; o ← read_u16;
    p ← read_u16; q ← read_u16; r ← read_u16;
    mret {| tr_SequenceCount := a; tr_Service := b; tr_Reserved := c; tr_Status := d; tr_Status_extended := e; tr_Count := f;
            tr_SizeWords_ID := g; tr_SizeWords_Status := h; tr_SizeWords := i;
            tr_SizeBytes_ID := j; tr_SizeBytes_Status := k; tr_SizeBytes := l;
            tr_MemberCount_ID := m; tr_MemberCount_Status := n; tr_MemberCount := o;
            tr_Handle_ID := p; tr_Handle_Status := q; tr_Handle := r |}).

Definition parseTemplateAttrResponse (data : bytes) : res msgGetTemplateAttrListResponse :=
  result ← res_wrap "problem reading result" (fst (read_template_attrs data));
  if tr_Status result =? CIPStatus_OK then Ok result
  else if tr_Status result =? CIPStatus_PartialTransfer then
    Err (Errorf "template attribute read returned unexpected status")
  else Err (Errorf "template attribute read returned status").

Record msgMemberInfo := { mi_Info : Z; mi_Type : Z; mi_Offset : Z }.

Definition read_member_info : M bytes msgMemberInfo :=
  a ← read_u16; b ← read_u16; c ← read_u32; mret {| mi_Info := a; mi_Type := b; mi_Offset := c |}.

Definition mi_CIPType (m : msgMemberInfo) : Z := u8 (Z.land (mi_Type m) 0x00FF).

(** A member of a structure, over the type of its own structure. *)
Record member (D : Type) := {
  um_Name : bytes;
  um_Info : msgMemberInfo;
  um_UDT : option D;
}.
Arguments um_Name {D}.
Arguments um_Info {D}.
Arguments um_UDT {D}.
Arguments Build_member {D}.

Inductive UDTDescriptor :=
  | mkUDT (id : Z) (name : bytes) (info : msgGetTemplateAttrListResponse) (members : list (member UDTDescriptor)).

Definition ud_Instance_ID (u : UDTDescriptor) : Z := let 'mkUDT id _ _ _ := u in id.
Definition ud_Name (u : UDTDescriptor) : bytes := let 'mkUDT _ name _ _ := u in name.
Definition ud_Info (u : UDTDescriptor) : msgGetTemplateAttrListResponse := let 'mkUDT _ _ info _ := u in info.
Definition ud_Members (u : UDTDescriptor) : list (member UDTDescriptor) := let 'mkUDT _ _ _ members := u in members.

Definition member_Template_ID {D} (m : member D) : Z := template_word (mi_Type (um_Info m)).

(** UDTDescriptor.Size: the furthest end of a member, in uint32 *)
Definition UDT_Size (u : UDTDescriptor) : Z :=
  fold_left (fun maxsize m =>
    let end_ := u32 (mi_Offset (um_Info m) + u32 (Types.Size (mi_CIPType (um_Info m)))) in
    if maxsize <? end_ then end_ else maxsize) (ud_Members u) 0.

(** ** Reading a template in chunks *)

(** The controller: what it answers to a request at an offset for a length,
    a status and some bytes. *)
Section Collect.
Context {S : Type} (fetch : Z -> Z -> M S (Z * bytes)).

Definition request_len (remaining : Z) : Z := if 0xFFFF <? remaining then 0xFFFF else u16 remaining.

Fixpoint collect_rounds (rounds : nat) (totalBytes offset : Z) (payload : bytes) : M S bytes :=
  match rounds with
  | O => fail (Errorf "template member read exceeded max continuation rounds")
  | Datatypes.S rounds =>
      let remaining := u32 (totalBytes - offset) in
      if remaining =? 0 then mret payload
      else
        '(hdr_status, chunk) ← fetch offset (request_len remaining);
        let status := u8 hdr_status in
        if negb (status =? CIPStatus_OK) && negb (status =? CIPStatus_PartialTransfer) then
          fail (Errorf "template member read returned status")
        else
          let payload := payload ++ chunk in
          let offset := u32 (offset + u32 (blen chunk)) in
          if negb (status =? CIPStatus_PartialTransfer) then mret payload
          else if blen chunk =? 0 then
            fail (Errorf "template member read returned partial transfer with empty payload")
          else collect_rounds rounds totalBytes offset payload
  end.

Definition member_rounds : nat := 1024.

Definition collectMemberReadPayload (totalBytes : Z) : M S bytes :=
  if totalBytes =? 0 then mret [] else collect_rounds member_rounds totalBytes 0 [].
End Collect.

(** ** Names *)

(** data2.ReadString(0x00): up to and with the delimiter, or all there is and
    io.EOF (false). *)
Definition ReadString0 (b : bytes) : bytes * bool * bytes :=
  match index 0 b with
  | Some i => (take (S i) b, true, drop (S i) b)
  | None => (b, false, [])
  end.

(** strings.TrimRight(s, "\000") *)
Fixpoint trim_right0 (s : bytes) : bytes :=
  match s with
  | [] => []
  | c :: s => match trim_right0 s with [] => if c =? 0 then [] else [c] | s' => c :: s' end
  end.

(** The name of the structure: what is before the first semicolon. *)
Definition struct_name (s : bytes) : bytes :=
  trim_right0 (if contains 59 s then default [] (head (split 59 s)) else s).
