(* ===== verification/TemplatesProofs.v ===== *)
(** * Reading a template from any controller, and the bits of a type word *)
From S2P Require Import Prelude Reader GoStrings CipNames Types Templates.

(** ** Type words *)

Lemma land_bit_nonzero w n : 0 <= n -> negb (Z.land w (Z.shiftl 1 n) =? 0) = Z.testbit w n.
Proof.
  intros Hn. rewrite Z.shiftl_1_l. destruct (Z.testbit w n) eqn:E.
  - apply negb_true_iff, Z.eqb_neq. intros H0.
    assert (Z.testbit (Z.land w (2 ^ n)) n = true) as Hb by (rewrite Z.land_spec, E, Z.pow2_bits_true; [done|lia]).
    rewrite H0, Z.bits_0 in Hb. done.
  - apply negb_false_iff, Z.eqb_eq. apply Z.bits_inj'. intros m Hm. rewrite Z.land_spec, Z.bits_0.
    destruct (Z.eq_dec m n) as [->|Hne]; [by rewrite E|]. rewrite Z.pow2_bits_false by lia. apply andb_false_r.
Qed.

(** A type word names template t exactly when its structure bit is set, its
    reserved bit is clear, and its low twelve bits are t. *)
Lemma template_word_spec w :
  template_word w = (if Z.testbit w 15 && negb (Z.testbit w 12) then w mod 2 ^ 12 else 0).
Proof.
  unfold template_word. cbv zeta. rewrite !land_bit_nonzero by lia.
  change 0x0FFF with (Z.ones 12). rewrite Z.land_ones by lia.
  by destruct (Z.testbit w 15), (Z.testbit w 12).
Qed.

(** ** Chunks *)

Section Collect.
Context {S : Type} (fetch : Z -> Z -> M S (Z * bytes)).

(** A controller that holds a template: as long as the invariant of its state
    holds, it answers a request inside the template with the bytes asked for
    or fewer, but m at least unless the template or the request ends there,
    and with status OK only when the template ends there. *)
Definition holds (I : S -> Prop) (content : bytes) (m : Z) : Prop :=
  forall off len s, I s -> 0 <= off < blen content -> 1 <= len ->
  exists status k s',
    fetch off len s = (Ok (status, take (Z.to_nat k) (drop (Z.to_nat off) content)), s') /\ I s' /\
    1 <= k <= Z.min len (blen content - off) /\ Z.min m (Z.min len (blen content - off)) <= k /\
    (status = CIPStatus_OK \/ status = CIPStatus_PartialTransfer) /\
    (status = CIPStatus_OK -> off + k = blen content).

Lemma request_len_bound remaining : 0 < remaining < 2 ^ 32 -> 1 <= request_len remaining <= 0xFFFF /\ request_len remaining <= remaining.
Proof.
  intros Hr. unfold request_len. destruct (Z.ltb_spec 0xFFFF remaining); [lia|]. rewrite wrap_small; lia.
Qed.

Lemma request_len_full remaining m :
  0 < remaining < 2 ^ 32 -> m <= 0xFFFF -> Z.min m (Z.min (request_len remaining) remaining) = Z.min m remaining.
Proof.
  intros Hr Hm. unfold request_len. destruct (Z.ltb_spec 0xFFFF remaining); [lia|]. rewrite wrap_small; lia.
Qed.

Lemma collect_rounds_complete I content m :
  holds I content m -> 1 <= m <= 0xFFFF -> blen content < 2 ^ 32 ->
  forall rounds off s,
    I s -> 0 <= off <= blen content -> blen content - off <= m * (Z.of_nat rounds - 1) -> (0 < rounds)%nat ->
    exists s', collect_rounds fetch rounds (blen content) off (take (Z.to_nat off) content) s = (Ok content, s') /\ I s'.
Proof.
  intros Hc Hm Hsize rounds. induction rounds as [|rounds IH]; intros off s Hs Hoff Hleft Hpos; [lia|].
  cbn [collect_rounds]. cbv zeta. rewrite (wrap_small 32 (blen content - off)) by lia.
  destruct (Z.eqb_spec (blen content - off) 0) as [E|E].
  { exists s. split; [|done]. rewrite take_ge; [done|]. unfold blen in *. lia. }
  destruct (request_len_bound (blen content - off)) as [[L1 L2] L3]; [lia|].
  destruct (Hc off (request_len (blen content - off)) s Hs) as (st & k & s1 & Ef & Hs1 & Hk & Hmk & Hst & Hok); [lia|lia|].
  rewrite request_len_full in Hmk by lia.
  rewrite (bind_Ok _ _ _ _ _ Ef). cbv beta iota.
  set (chunk := take (Z.to_nat k) (drop (Z.to_nat off) content)).
  assert (blen chunk = k) as Hblen.
  { unfold chunk, blen in *. rewrite length_take, length_drop. lia. }
  assert (take (Z.to_nat off) content ++ chunk = take (Z.to_nat (off + k)) content) as Happ.
  { unfold chunk. replace (Z.to_nat (off + k)) with (Z.to_nat off + Z.to_nat k)%nat by lia.
    by rewrite take_take_drop. }
  rewrite Happ, Hblen. rewrite (wrap_small 32 k) by lia. rewrite (wrap_small 32 (off + k)) by lia.
  destruct Hst as [-> | ->].
  - exists s1. split; [|done]. change (u8 CIPStatus_OK) with CIPStatus_OK. cbn. rewrite Hok by done.
    rewrite take_ge; [done|]. unfold blen in *. lia.
  - change (u8 CIPStatus_PartialTransfer) with CIPStatus_PartialTransfer.
    change (negb (CIPStatus_PartialTransfer =? CIPStatus_OK) && negb (CIPStatus_PartialTransfer =? CIPStatus_PartialTransfer)) with false.
    change (negb (CIPStatus_PartialTransfer =? CIPStatus_PartialTransfer)) with false. cbv iota.
    rewrite (proj2 (Z.eqb_neq k 0)) by lia.
    replace (Z.of_nat (Datatypes.S rounds) - 1) with (Z.of_nat rounds) in Hleft by lia.
    destruct rounds as [|rounds]; [lia|]. apply IH; [done|lia| |lia].
    replace (Z.of_nat (Datatypes.S rounds) - 1) with (Z.of_nat rounds) by lia.
    assert (m * Z.of_nat (Datatypes.S rounds) = m * Z.of_nat rounds + m) as Hm' by lia. lia.
Qed.

(** C32.  A template is read whole, within the 1024 rounds of the loop: from
    every controller that holds it, however it cuts its answers as long as
    each carries at least m bytes of what is left (or all of it) and the
    template is at most 1023 * m bytes long, the chunks are put together to
    exactly the template. *)
Theorem collectMemberReadPayload_complete I content m s :
  holds I content m -> 1 <= m <= 0xFFFF -> blen content <= m * 1023 -> I s ->
  exists s', collectMemberReadPayload fetch (blen content) s = (Ok content, s') /\ I s'.
Proof.
  intros Hc Hm Hsize Hs. unfold collectMemberReadPayload. destruct (Z.eqb_spec (blen content) 0) as [E|E].
  { exists s. split; [|done]. by destruct content. }
  apply (collect_rounds_complete I content m); try done; unfold member_rounds, blen in *; try lia.
Qed.

(** The answers that a reading took, each at the offset where the one before
    it ended. *)
Inductive fetched : Z -> S -> list bytes -> S -> Prop :=
  | fetched_none off s : fetched off s [] s
  | fetched_one off len status chunk chunks s s1 s2 :
      fetch off len s = (Ok (status, chunk), s1) -> 0 <= len <= 0xFFFF ->
      fetched (u32 (off + u32 (blen chunk))) s1 chunks s2 -> fetched off s (chunk :: chunks) s2.

Lemma collect_rounds_fetched rounds total off payload s p s' :
  collect_rounds fetch rounds total off payload s = (Ok p, s') ->
  exists chunks, p = payload ++ concat chunks /\ (length chunks <= rounds)%nat /\ fetched off s chunks s'.
Proof.
  revert off payload s. induction rounds as [|rounds IH]; intros off payload s E; [done|].
  cbn [collect_rounds] in E. cbv zeta in E. destruct (u32 (total - off) =? 0).
  { injection E as <- <-. exists []. split; [by rewrite app_nil_r|]. split; [simpl; lia|constructor]. }
  apply bind_Ok_inv in E as ([st chunk] & s1 & Ef & E).
  assert (0 <= request_len (u32 (total - off)) <= 0xFFFF) as Hlen.
  { unfold request_len. destruct (Z.ltb_spec 0xFFFF (u32 (total - off))); [lia|]. pose proof (wrap_bound 16 (u32 (total - off))). lia. }
  destruct (negb _ && _); [done|]. destruct (negb _).
  { injection E as <- <-. exists [chunk]. split; [cbn [concat]; by rewrite app_nil_r|]. split; [simpl; lia|].
    eapply fetched_one; [exact Ef|exact Hlen|constructor]. }
  destruct (blen chunk =? 0); [done|]. apply IH in E as (chunks & -> & Hl & Hf).
  exists (chunk :: chunks). split; [cbn [concat]; by rewrite (assoc_L (++))|]. split; [simpl; lia|].
  by eapply fetched_one.
Qed.

(** Whatever the controller does, a reading that succeeds is the answers
    of at most 1024 requests put together, none for more than 65535 bytes,
    each at the offset where the answer before it ended. *)
Theorem collectMemberReadPayload_requests total s p s' :
  collectMemberReadPayload fetch total s = (Ok p, s') ->
  exists chunks, p = concat chunks /\ (length chunks <= 1024)%nat /\ fetched 0 s chunks s'.
Proof.
  unfold collectMemberReadPayload. destruct (total =? 0).
  - intros [= <- <-]. exists []. split; [done|]. split; [simpl; lia|constructor].
  - intros E. by apply collect_rounds_fetched in E.
Qed.
End Collect.

(** ** Witnesses *)

(** A controller that answers at most two bytes at a time, and counts. *)
Definition two_bytes (content : bytes) : Z -> Z -> M nat (Z * bytes) := fun off len n =>
  let k := Z.min 2 (Z.min len (blen content - off)) in
  (Ok (if off + k =? blen content then CIPStatus_OK else CIPStatus_PartialTransfer,
       take (Z.to_nat k) (drop (Z.to_nat off) content)), S n).

Lemma two_bytes_holds content : holds (two_bytes content) (fun _ => True) content 2.
Proof.
  intros off len n _ Hoff Hlen. exists (if off + Z.min 2 (Z.min len (blen content - off)) =? blen content then CIPStatus_OK else CIPStatus_PartialTransfer),
    (Z.min 2 (Z.min len (blen content - off))), (S n).
  split; [done|]. split; [done|]. split; [lia|]. split; [lia|].
  destruct (Z.eqb_spec (off + Z.min 2 (Z.min len (blen content - off))) (blen content)) as [E|E]; split; auto. intros H; discriminate H.
Qed.

Lemma collectMemberReadPayload_complete_witness :
  exists s', collectMemberReadPayload (two_bytes [1; 2; 3; 4; 5]) (blen [1; 2; 3; 4; 5]) 0%nat = (Ok [1; 2; 3; 4; 5], s') /\ True.
Proof.
  apply (collectMemberReadPayload_complete (two_bytes [1; 2; 3; 4; 5]) (fun _ => True) [1; 2; 3; 4; 5] 2).
  - apply two_bytes_holds.
  - lia.
  - vm_compute. discriminate.
  - done.
Defined.

Lemma collectMemberReadPayload_requests_witness :
  exists chunks, [1; 2; 3] = concat chunks /\ (length chunks <= 1024)%nat /\ fetched (two_bytes [1; 2; 3]) 0 0%nat chunks 2%nat.
Proof. apply (collectMemberReadPayload_requests (two_bytes [1; 2; 3]) 3). vm_compute. reflexivity. Defined.
