(* ===== verification/Ioi.v ===== *)
(** * Tag names and their wire form: ioi.go, KnownTag and KnownProgram of client.go

    A tag path is split into parts, each a name with an optional array index
    or a bit number; an IOI is its EPATH.  The client builds IOIs (symbolic,
    or through a known tag's instance when that is shorter, with a cache);
    the server turns the EPATH of a request back into the tag path
    (getTagFromPath). *)
From S2P Require Import Prelude Reader GoStrings CipNames CipDefs Types Templates Items.
(** ** tagPartDescriptor and parse_tag_name *)

Record tagPartDescriptor := {
  FullPath : bytes;
  BasePath : bytes;
  Array_Order : list Z;       (* nil when there is no index *)
  BitNumber : Z;
  BitAccess : bool;
}.

Definition is_space (b : Z) : bool :=
  (b =? 9) || (b =? 10) || (b =? 12) || (b =? 13) || (b =? 32).

(** The regexp \.\d+$ : the digits after the last dot. *)
Definition bit_access_match (s : bytes) : option bytes :=
  i ← last_index 46 s;
  let t := drop (S i) s in
  if negb (bool_decide (t = [])) && forallb is_digit t then Some t else None.

(** The regexp \[([\d]|[,]|[\s])*\]$ : the text between the last bracket and
    the closing one that ends the string. *)
Definition array_access_match (s : bytes) : option bytes :=
  if has_suffix [93] s then
    i ← last_index 91 s;
    let t := take (length s - 1 - S i) (drop (S i) s) in
    if (S i <? length s)%nat && forallb (fun b => is_digit b || (b =? 44) || is_space b) t
    then Some t else None
  else None.

Fixpoint atoi_list (msg : string) (parts : list bytes) : res (list Z) :=
  match parts with
  | [] => Ok []
  | p :: parts =>
      match atoi p with
      | Some z => zs ← atoi_list msg parts; Ok (z :: zs)
      | None => Err (Errorf msg)
      end
  end.

(** Parse into a zero descriptor, which is what parse_tag_name does. *)
Definition parse_tag_name (tagpath : bytes) : res tagPartDescriptor :=
  '(base, bitno, bitacc) ←
    match bit_access_match tagpath with
    | None => Ok (tagpath, 0, false)
    | Some text =>
        match atoi text with
        | Some n => Ok (remove_all text tagpath, n, true)
        | None => Err (Errorf "could't parse to a bit portion of tag")
        end
    end;
  match array_access_match tagpath with
  | None =>
      Ok {| FullPath := tagpath; BasePath := base; Array_Order := [];
            BitNumber := bitno; BitAccess := bitacc |}
  | Some text =>
      order ← atoi_list "could't parse to an array position"
        (if contains 44 text then split 44 text else [text]);
      Ok {| FullPath := tagpath; BasePath := remove_all text base; Array_Order := order;
            BitNumber := bitno; BitAccess := bitacc |}
  end.

(** ** tagIOI *)

Record tagIOI := {
  ioi_Path : bytes;
  ioi_Type : Z;
  ioi_BitAccess : bool;
  ioi_BitPosition : Z;
  ioi_Buffer : bytes;
}.

#[export] Instance tagIOI_eq_dec : EqDecision tagIOI.
Proof. solve_decision. Defined.

Definition ioi_Write (p : bytes) (i : tagIOI) : tagIOI :=
  {| ioi_Path := ioi_Path i; ioi_Type := ioi_Type i; ioi_BitAccess := ioi_BitAccess i;
     ioi_BitPosition := ioi_BitPosition i; ioi_Buffer := ioi_Buffer i ++ p |}.

Definition set_bit (pos : Z) (i : tagIOI) : tagIOI :=
  {| ioi_Path := ioi_Path i; ioi_Type := ioi_Type i; ioi_BitAccess := true;
     ioi_BitPosition := pos; ioi_Buffer := ioi_Buffer i |}.

Definition segmentTypeExtendedSymbolic := 0x91.

Definition marshalIOIPart (tagpath : bytes) : res bytes :=
  t ← res_wrap "could not parse tag path" (parse_tag_name tagpath);
  let tag_size := blen (BasePath t) in
  Ok ([segmentTypeExtendedSymbolic; u8 tag_size] ++ BasePath t ++
      (if tag_size mod 2 =? 1 then [0] else [])).

(** The element segment of one array index. *)
Definition index_part (orderSize : Z) : bytes :=
  if orderSize <? 256 then [Element.cipElement_8bit; u8 orderSize]
  else if orderSize <? 65536 then le_bytes 2 Element.cipElement_16bit ++ le_bytes 2 orderSize
  else le_bytes 2 Element.cipElement_32bit ++ le_bytes 4 orderSize.

(** For a BOOL the last index counts bits of a DWORD array. *)
Definition bool_index (order : list Z) (i : tagIOI) : list Z * tagIOI :=
  if (ioi_Type i =? CIPTypeBOOL) && negb (bool_decide (order = [])) then
    let bitIndex := List.last order 0 in
    (removelast order ++ [Z.quot bitIndex 32], set_bit (Z.rem bitIndex 32) i)
  else (order, i).

Definition appendIOIPart (i : tagIOI) (tagPart : bytes) : res tagIOI :=
  match tagPart with
  | [] => Ok i
  | _ =>
      if has_suffix [93] tagPart then
        let startIndex := default (length tagPart) (index 91 tagPart) in
        i ← (if (0 <? startIndex)%nat then
               p ← marshalIOIPart (take startIndex tagPart); Ok (ioi_Write p i)
             else Ok i);
        t ← res_wrap "problem parsing path" (parse_tag_name tagPart);
        let '(order, i) := bool_index (Array_Order t) i in
        Ok (fold_left (fun i o => ioi_Write (index_part o) i) order i)
      else
        match atoi tagPart with
        | Some n =>
            if n <=? 31 then Ok (set_bit n i)
            else p ← marshalIOIPart tagPart; Ok (ioi_Write p i)
        | None => p ← marshalIOIPart tagPart; Ok (ioi_Write p i)
        end
  end.

Fixpoint appendIOIParts (i : tagIOI) (parts : list bytes) : res tagIOI :=
  match parts with
  | [] => Ok i
  | p :: parts => i ← appendIOIPart i p; appendIOIParts i parts
  end.

Definition empty_IOI (tagpath : bytes) (datatype : Z) (prefix : bytes) : tagIOI :=
  {| ioi_Path := tagpath; ioi_Type := datatype; ioi_BitAccess := false;
     ioi_BitPosition := 0; ioi_Buffer := prefix |}.

Definition newSymbolicIOI (tagpath : bytes) (datatype : Z) : res tagIOI :=
  appendIOIParts (empty_IOI tagpath datatype []) (split 46 tagpath).

(** ** Known tags *)

Record KnownProgram := { kp_Name : bytes; kp_ID : Z }.

Definition KnownProgram_Bytes (kp : KnownProgram) : bytes :=
  if kp_ID kp =? 0 then
    match marshalIOIPart (str "Program:" ++ kp_Name kp) with Ok b => b | _ => [] end
  else Class_.Bytes CipObject_Programs ++ Instance_.Bytes (kp_ID kp).

Record KnownTag := {
  kt_Name : bytes;
  kt_Info : TagInfo;
  kt_Instance : Z;
  kt_Array_Order : list Z;
  kt_UDT : option UDTDescriptor;
  kt_Parent : option KnownProgram;
  kt_DataTableID : Z;
}.

Definition KnownTag_Bytes (t : KnownTag) : bytes :=
  match kt_Parent t with
  | None => Class_.Bytes CipObject_Symbol ++ Instance_.Bytes (kt_Instance t)
  | Some p => KnownProgram_Bytes p ++ Class_.Bytes CipObject_Symbol ++ Instance_.Bytes (kt_Instance t)
  end.

Definition KnownProgram_Len (kp : KnownProgram) : Z := blen (KnownProgram_Bytes kp).
Definition KnownTag_Len (t : KnownTag) : Z := blen (KnownTag_Bytes t).

(** The names of the parts kept in a candidate: bit numbers are skipped and
    array indexes dropped. *)
Fixpoint candidate_parts (parts : list bytes) : res (list bytes) :=
  match parts with
  | [] => Ok []
  | part :: parts =>
      let keep :=
        parsed ← parse_tag_name part;
        rest ← candidate_parts parts;
        Ok (if bool_decide (BasePath parsed = []) then rest else BasePath parsed :: rest) in
      match atoi part with
      | Some n => if n <=? 31 then candidate_parts parts else keep
      | None => keep
      end
  end.

Fixpoint find_prefix (known : gmap bytes KnownTag) (tagpath : bytes) (raw : list bytes)
    (end_ : nat) : res (option (KnownTag * bytes)) :=
  match end_ with
  | O => Ok None
  | S e =>
      parts ← candidate_parts (take end_ raw);
      match parts with
      | [] => find_prefix known tagpath raw e
      | _ =>
          let candidate := join [46] parts in
          match known !! candidate with
          | Some kt => Ok (Some (kt, trim_prefix candidate tagpath))
          | None => find_prefix known tagpath raw e
          end
      end
  end.

Definition findKnownTagPrefix (known : gmap bytes KnownTag) (tagpath : bytes) :
    res (option (KnownTag * bytes)) :=
  let raw := split 46 tagpath in find_prefix known tagpath raw (length raw).

Definition newKnownTagIOI (known : option (gmap bytes KnownTag)) (tagpath : bytes)
    (datatype : Z) : res (option tagIOI) :=
  match known with
  | None => Ok None
  | Some known =>
      f ← findKnownTagPrefix known tagpath;
      match f with
      | None => Ok None
      | Some (kt, remainder) =>
          if (ti_Type (kt_Info kt) =? CIPTypeStruct) && negb (bool_decide (kt_Array_Order kt = [])) then Ok None
          else
            let ioi := empty_IOI tagpath datatype (KnownTag_Bytes kt) in
            let remainder := trim_prefix [46] remainder in
            match remainder with
            | [] => Ok (Some ioi)
            | _ => ioi ← appendIOIParts ioi (split 46 remainder); Ok (Some ioi)
            end
      end
  end.

(** ** newIOI and its cache

    The client's part of the state: the cache keyed by the lower-cased tag
    path, the known tags, the firmware revision (what firmware() answers, a
    value the controller reports), and the types and programs discovered. *)

Record known_types := {
  KnownTypes : gmap bytes UDTDescriptor;
  KnownTypesByID : gmap Z UDTDescriptor;
  KnownPrograms : gmap bytes KnownProgram;
}.

Definition no_types : known_types := {| KnownTypes := ∅; KnownTypesByID := ∅; KnownPrograms := ∅ |}.

Record ioi_client := {
  ioi_cache : gmap bytes tagIOI;
  KnownTags : option (gmap bytes KnownTag);
  firmware : Z;
  catalog : known_types;
}.

Definition cache_ioi (tagpath : bytes) (i : tagIOI) (c : ioi_client) : ioi_client :=
  {| ioi_cache := <[tagpath := i]> (ioi_cache c); KnownTags := KnownTags c; firmware := firmware c; catalog := catalog c |}.

Definition newIOI (tagpath : bytes) (datatype : Z) : M ioi_client tagIOI := fun c =>
  let tagpath := to_lower tagpath in
  let exists_ := ioi_cache c !! tagpath in
  let symbolic : M ioi_client tagIOI := fun c =>
    match exists_ with
    | Some cached => (Ok cached, c)
    | None =>
        match newSymbolicIOI tagpath datatype with
        | Ok ioi => (Ok ioi, cache_ioi tagpath ioi c)
        | Err e => (Err e, c)
        | Panic w => (Panic w, c)
        end
    end in
  if 20 <? firmware c then
    match newKnownTagIOI (KnownTags c) tagpath datatype with
    | Err e => (Err e, c)
    | Panic w => (Panic w, c)
    | Ok None => symbolic c
    | Ok (Some knownIOI) =>
        match (match exists_ with Some cached => Ok cached | None => newSymbolicIOI tagpath datatype end) with
        | Ok cached =>
            if (length (ioi_Buffer knownIOI) <? length (ioi_Buffer cached))%nat
            then (Ok knownIOI, cache_ioi tagpath knownIOI c)
            else symbolic c
        | Err e => (Err e, c)
        | Panic w => (Panic w, c)
        end
    end
  else symbolic c.

(** ** The server's side: from the EPATH back to the tag path *)

Definition getAsciiTagPart : M CIPItem bytes :=
  tag_len ← wrapM "problem getting tag len" read_u8;
  b ← wrapM "problem reading tag path" (read_slice (Z.to_nat tag_len));
  if tag_len mod 2 =? 1 then
    _ ← wrapM "problem reading pad byte" read_u8; mret b
  else mret b.

(** "tag[3]" then index 4 is "tag[3,4]"; the last byte of an empty string is
    an index out of range. *)
Definition append_index (tag_str : bytes) (array_index : Z) : res bytes :=
  match list.last tag_str with
  | None => Panic "index out of range [-1]"
  | Some c =>
      if c =? 93 then Ok (removelast tag_str ++ [44] ++ dec array_index ++ [93])
      else Ok (tag_str ++ [91] ++ dec array_index ++ [93])
  end.

Definition append_name (tag_str s : bytes) : bytes :=
  match tag_str with [] => s | _ => tag_str ++ [46] ++ s end.

(** One round of the loop: the path so far, or the finished tag path. *)
Definition tag_path_round (tag_str : bytes) : M CIPItem (bytes + bytes) :=
  ty ← try read_u8;
  match ty with
  | inl e =>
      if is_EOF e then mret (inr tag_str)
      else fail (Wrap "couldn't get path part type" e)
  | inr ty =>
      if ty =? 0x28 then
        array_index ← wrapM "couldn't get array index" read_u8;
        s ← lift (append_index tag_str array_index); mret (inl s)
      else if ty =? 0x29 then
        _ ← wrapM "couldn't get padding" read_u8;
        array_index ← wrapM "couldn't get array index" read_u16;
        s ← lift (append_index tag_str array_index); mret (inl s)
      else if ty =? 0x91 then
        s ← wrapM "problem in ascii tag part" getAsciiTagPart;
        mret (inl (append_name tag_str s))
      else
        _ ← modify (fun i => set_Pos (item_Pos i - 1) i);   (* "unread" it *)
        mret (inr tag_str)
  end.

Fixpoint tag_path_loop (fuel : nat) (tag_str : bytes) : M CIPItem bytes :=
  match fuel with
  | O => panic "out of fuel"
  | S fuel =>
      r ← tag_path_round tag_str;
      match r with
      | inl tag_str => tag_path_loop fuel tag_str
      | inr tag_str => mret tag_str
      end
  end.

(** Every round but the last consumes a byte at least. *)
Definition getTagFromPath : M CIPItem bytes := fun i =>
  tag_path_loop (S (length (item_unread i))) [] i.
