(* ===== verification/TagPath.v ===== *)
(** * Tag paths: client and server agree (ioi.go)

    The abstract syntax of a tag path (parts with array indexes), how it is
    written, and the EPATH that stands for it.  The client's newSymbolicIOI
    produces exactly that EPATH, and the server's getTagFromPath reads the
    path back and stops right behind it. *)
From S2P Require Import Prelude Reader GoStrings CipNames CipDefs Types Items Ioi.
(** ** Abstract tag paths *)

Record tag_part := { tp_name : bytes; tp_idx : list Z }.

Definition render_part (p : tag_part) : bytes :=
  match tp_idx p with
  | [] => tp_name p
  | idx => tp_name p ++ [91] ++ join [44] (map dec idx) ++ [93]
  end.

Definition render (path : list tag_part) : bytes := join [46] (map render_part path).

(** The symbolic segment of a name, and of a part. *)
Definition name_seg (n : bytes) : bytes :=
  [segmentTypeExtendedSymbolic; blen n] ++ n ++ (if blen n mod 2 =? 1 then [0] else []).

Definition part_bytes (p : tag_part) : bytes :=
  name_seg (tp_name p) ++ concat (map index_part (tp_idx p)).

Definition path_bytes (path : list tag_part) : bytes := concat (map part_bytes path).

(** Not a bit number, which the client turns into a bit access. *)
Definition bit_number (n : bytes) : bool :=
  match atoi n with Some k => k <=? 31 | None => false end.

Definition name_char (b : Z) : Prop := is_byte b /\ b <> 46 /\ b <> 91 /\ b <> 93.

Record name_ok (n : bytes) : Prop := {
  name_nonempty : n <> [];
  name_len : blen n < 256;
  name_chars : Forall name_char n;
  name_not_bit : bit_number n = false;
}.

Definition idx_ok (i : Z) : Prop := 0 <= i < 2 ^ 16.

Definition part_ok (p : tag_part) : Prop := name_ok (tp_name p) /\ Forall idx_ok (tp_idx p).

(** ** Lemmas on names *)

Lemma name_notin n c : Forall name_char n -> c = 46 \/ c = 91 \/ c = 93 -> c ∉ n.
Proof.
  intros Hn Hc Hin. rewrite list.Forall_forall in Hn. destruct (Hn c Hin) as (_ & ? & ? & ?). lia.
Qed.

Lemma bit_access_none s : 46 ∉ s -> bit_access_match s = None.
Proof. intros Hs. unfold bit_access_match. by rewrite last_index_none. Qed.

Lemma no_bracket_suffix n : Forall name_char n -> has_suffix [93] n = false.
Proof.
  intros Hn. apply bool_decide_eq_false. intros E.
  apply (name_notin n 93 Hn); [lia|]. rewrite <- (take_drop (length n - 1) n).
  apply elem_of_app. right. simpl in E. rewrite E. left.
Qed.

Lemma parse_name n :
  name_ok n ->
  parse_tag_name n = Ok {| FullPath := n; BasePath := n; Array_Order := [];
                           BitNumber := 0; BitAccess := false |}.
Proof.
  intros [_ _ Hc _]. unfold parse_tag_name, array_access_match.
  rewrite bit_access_none by (apply name_notin; [done|lia]).
  by rewrite no_bracket_suffix.
Qed.

Lemma marshal_name n : name_ok n -> marshalIOIPart n = Ok (name_seg n).
Proof.
  intros Hn. unfold marshalIOIPart. rewrite parse_name by done. simpl.
  unfold name_seg. rewrite wrap_small; [done|]. pose proof (name_len n Hn).
  unfold blen in *. lia.
Qed.

(** ** The indexes of a part *)

Definition idx_text (idx : list Z) : bytes := join [44] (map dec idx).

Lemma idx_text_elem idx b :
  Forall idx_ok idx -> b ∈ idx_text idx -> is_digit b = true \/ b = 44.
Proof.
  intros Hidx [H|(p & Hp & Hb)]%elem_of_join.
  - right. by apply list_elem_of_singleton in H.
  - left. apply list_elem_of_fmap in Hp as (i & -> & Hi).
    rewrite list.Forall_forall in Hidx. apply Hidx in Hi. red in Hi.
    pose proof (dec_digits i (proj1 Hi)) as Hd. rewrite list.Forall_forall in Hd. by apply Hd.
Qed.

Lemma idx_text_notin idx c :
  Forall idx_ok idx -> is_digit c = false -> c <> 44 -> c ∉ idx_text idx.
Proof. intros Hidx Hc Hne Hin. destruct (idx_text_elem idx c Hidx Hin); congruence. Qed.

Lemma split_idx_text idx :
  idx <> [] -> Forall idx_ok idx ->
  (if contains 44 (idx_text idx) then split 44 (idx_text idx) else [idx_text idx]) = map dec idx.
Proof.
  intros Hne Hidx. assert (split 44 (idx_text idx) = map dec idx) as E.
  { apply split_join; [by destruct idx|]. apply list.Forall_forall.
    intros p (i & -> & Hi)%list_elem_of_fmap. rewrite list.Forall_forall in Hidx.
    apply dec_not_elem; [done|]. by apply Hidx. }
  destruct (contains 44 (idx_text idx)) eqn:C; [done|].
  apply bool_decide_eq_false in C. by rewrite split_nosep in E.
Qed.

Lemma atoi_list_dec msg idx : Forall idx_ok idx -> atoi_list msg (map dec idx) = Ok idx.
Proof.
  induction 1 as [|i idx Hi _ IH]; simpl; [done|]. red in Hi.
  rewrite atoi_dec by lia. by rewrite IH.
Qed.

Lemma array_access_indexed n idx :
  Forall idx_ok idx ->
  array_access_match (n ++ [91] ++ idx_text idx ++ [93]) = Some (idx_text idx).
Proof.
  intros Hidx. unfold array_access_match.
  replace (n ++ [91] ++ idx_text idx ++ [93]) with ((n ++ [91] ++ idx_text idx) ++ [93])
    by (by rewrite <- !(assoc_L (++))).
  rewrite has_suffix_app, <- !(assoc_L (++)). cbn [app].
  rewrite last_index_app.
  2: { intros [H|H]%elem_of_app; [by eapply idx_text_notin in H|].
       by apply list_elem_of_singleton in H. }
  cbn [mbind option_bind]. rewrite !length_app. cbn [length]. rewrite length_app. cbn [length].
  assert (drop (S (length n)) (n ++ 91 :: idx_text idx ++ [93]) = idx_text idx ++ [93]) as ->.
  { replace (S (length n)) with (length n + 1)%nat by lia.
    by rewrite <- drop_drop, drop_app_length. }
  replace (length n + S (length (idx_text idx) + 1) - 1 - S (length n))%nat
    with (length (idx_text idx)) by lia.
  rewrite take_app_length, (proj2 (Nat.ltb_lt _ _)) by lia.
  assert (forallb (fun b => is_digit b || (b =? 44) || is_space b) (idx_text idx) = true) as ->;
    [|done].
  apply forallb_forall. intros b Hb%list_elem_of_In.
  by destruct (idx_text_elem idx b Hidx Hb) as [-> | ->].
Qed.

(** What ends in a bracket is no bit access. *)
Lemma bit_access_bracket s : bit_access_match (s ++ [93]) = None.
Proof.
  unfold bit_access_match. destruct (last_index 46 (s ++ [93])) as [i|] eqn:E; [|done]. cbn [mbind option_bind].
  assert (forallb is_digit (drop (S i) (s ++ [93])) = false) as ->; [|by rewrite andb_false_r].
  apply last_index_lookup in E. apply not_true_iff_false. intros Hd.
  assert (i < length s)%nat as Hi.
  { pose proof (lookup_lt_Some _ _ _ E) as Hl. rewrite length_app in Hl. simpl in Hl.
    destruct (decide (i = length s)) as [->|]; [|lia]. by rewrite list_lookup_middle in E. }
  rewrite drop_app_le in Hd by lia. by rewrite forallb_app, andb_false_r in Hd.
Qed.

Lemma parse_indexed n idx :
  idx <> [] -> Forall idx_ok idx ->
  exists t, parse_tag_name (n ++ [91] ++ idx_text idx ++ [93]) = Ok t /\ Array_Order t = idx.
Proof.
  intros Hne Hidx. unfold parse_tag_name. rewrite !(assoc_L (++)), bit_access_bracket, <- !(assoc_L (++)).
  cbn [mbind res_bind]. rewrite array_access_indexed, split_idx_text, atoi_list_dec by done.
  eexists. by split.
Qed.

(** ** What the client writes *)

Lemma write_index_parts idx i :
  fold_left (fun i o => ioi_Write (index_part o) i) idx i =
  ioi_Write (concat (map index_part idx)) i.
Proof.
  revert i. induction idx as [|o idx IH]; intros i; simpl.
  - unfold ioi_Write. rewrite app_nil_r. by destruct i.
  - rewrite IH. unfold ioi_Write. simpl. by rewrite (assoc_L (++)).
Qed.

Lemma appendIOIPart_render i p :
  part_ok p -> ioi_Type i <> CIPTypeBOOL \/ tp_idx p = [] ->
  appendIOIPart i (render_part p) = Ok (ioi_Write (part_bytes p) i).
Proof.
  destruct p as [n idx]. intros [Hn Hidx] Hty. cbn [tp_name tp_idx] in *.
  unfold render_part, part_bytes. cbn [tp_name tp_idx].
  pose proof (name_nonempty n Hn) as Hne. destruct idx as [|o idx].
  - unfold appendIOIPart. destruct n as [|b n]; [done|].
    rewrite no_bracket_suffix by apply Hn. pose proof (name_not_bit _ Hn) as Hb.
    unfold bit_number in Hb. rewrite app_nil_r.
    destruct (atoi (b :: n)); [rewrite Hb|]; by rewrite marshal_name.
  - fold (idx_text (o :: idx)). set (idx' := o :: idx) in *.
    assert (idx' <> []) as Hidx' by done. clearbody idx'. destruct n as [|b n]; [done|].
    unfold appendIOIPart. cbn [app].
    change (b :: n ++ 91 :: idx_text idx' ++ [93]) with ((b :: n) ++ 91 :: idx_text idx' ++ [93]).
    assert (has_suffix [93] ((b :: n) ++ 91 :: idx_text idx' ++ [93]) = true) as ->.
    { replace ((b :: n) ++ 91 :: idx_text idx' ++ [93])
        with (((b :: n) ++ 91 :: idx_text idx') ++ [93]) by by rewrite <- (assoc_L (++)).
      apply has_suffix_app. }
    rewrite index_app by (apply name_notin; [apply Hn|lia]). cbn [from_option id].
    change (0 <? length (b :: n))%nat with true. cbv iota.
    rewrite take_app_length, marshal_name by done. cbn [mbind res_bind].
    destruct (parse_indexed (b :: n) idx') as (t & Ht & Ho); [done|done|].
    change ([91] ++ idx_text idx' ++ [93]) with (91 :: idx_text idx' ++ [93]) in Ht. rewrite Ht. cbn [res_wrap mbind res_bind]. rewrite Ho.
    assert (forall j, ioi_Type j = ioi_Type i -> bool_index idx' j = (idx', j)) as Hbool.
    { intros j Hj. unfold bool_index. rewrite Hj.
      destruct Hty as [Hty|]; [|done]. by rewrite (proj2 (Z.eqb_neq _ _)). }
    rewrite Hbool by done. rewrite write_index_parts. unfold ioi_Write. simpl.
    by rewrite <- (assoc_L (++)).
Qed.

Lemma appendIOIParts_render path i :
  Forall part_ok path -> Forall (fun p => ioi_Type i <> CIPTypeBOOL \/ tp_idx p = []) path ->
  appendIOIParts i (map render_part path) = Ok (ioi_Write (path_bytes path) i).
Proof.
  intros Hp. revert i. induction Hp as [|p path Hp _ IH]; intros i Hty; cbn [map appendIOIParts].
  - unfold ioi_Write, path_bytes. simpl. rewrite app_nil_r. by destruct i.
  - apply Forall_cons_iff in Hty as [Hp' Hty]. rewrite appendIOIPart_render by done.
    cbn [mbind res_bind]. rewrite IH by done. unfold ioi_Write, path_bytes. simpl.
    by rewrite <- (assoc_L (++)).
Qed.

Lemma render_part_nodot p : part_ok p -> 46 ∉ render_part p.
Proof.
  destruct p as [n idx]. intros [Hn Hidx]. unfold render_part. cbn [tp_name tp_idx] in *.
  assert (46 ∉ n) by (apply name_notin; [apply Hn|lia]).
  destruct idx as [|o idx]; [done|]. rewrite !not_elem_of_app.
  split_and!; [done| |by apply idx_text_notin|]; by intros ?%list_elem_of_singleton.
Qed.

Lemma split_render path :
  path <> [] -> Forall part_ok path -> split 46 (render path) = map render_part path.
Proof.
  intros Hne Hp. apply split_join; [by destruct path|].
  apply Forall_map. revert Hp. apply List.Forall_impl. intros p. apply render_part_nodot.
Qed.

Lemma newSymbolicIOI_render path ty :
  path <> [] -> Forall part_ok path ->
  Forall (fun p => ty <> CIPTypeBOOL \/ tp_idx p = []) path ->
  newSymbolicIOI (render path) ty = Ok (empty_IOI (render path) ty (path_bytes path)).
Proof.
  intros Hne Hp Hty. unfold newSymbolicIOI. rewrite split_render by done.
  by rewrite appendIOIParts_render.
Qed.

(** C21. The client's symbolic IOI of a well-formed path is exactly its EPATH:
    per part an extended symbolic segment with its pad byte, then the element
    segments of its indexes (for any type but an indexed BOOL, whose last
    index the client turns into a word and a bit). *)
Theorem newSymbolicIOI_path_bytes path ty :
  path <> [] -> Forall part_ok path ->
  Forall (fun p => ty <> CIPTypeBOOL \/ tp_idx p = []) path ->
  newSymbolicIOI (render path) ty = Ok (empty_IOI (render path) ty (path_bytes path)).
Proof. apply newSymbolicIOI_render. Qed.

Lemma name_ok_dec n :
  n <> [] -> blen n < 256 ->
  forallb (fun b => (0 <=? b) && (b <? 256) && negb (b =? 46) && negb (b =? 91) && negb (b =? 93)) n
    = true -> bit_number n = false -> name_ok n.
Proof.
  intros H1 H2 H3 H4. split; [done..| |done]. apply list.Forall_forall. intros b Hb%list_elem_of_In.
  rewrite forallb_forall in H3. apply H3 in Hb. rewrite !andb_true_iff in Hb.
  destruct Hb as [[[[]]]]. rewrite !negb_true_iff in *. unfold name_char, is_byte. lia.
Qed.

Ltac ok_path := repeat lazymatch goal with
  | |- Forall _ (_ :: _) => constructor
  | |- Forall _ [] => constructor
  | |- part_ok _ => split; cbn [tp_name tp_idx]
  | |- name_ok _ => apply name_ok_dec
  | |- idx_ok _ => split
  | |- _ <> [] => discriminate
  | |- _ = _ => vm_compute; reflexivity
  | |- _ => vm_compute; first [reflexivity | discriminate]
  end.

Definition sample_path : list tag_part :=
  [{| tp_name := str "tag"; tp_idx := [3; 500] |}; {| tp_name := str "x"; tp_idx := [] |}].

Lemma sample_path_ok : sample_path <> [] /\ Forall part_ok sample_path.
Proof. split; [done|]. unfold sample_path. ok_path. Qed.

Lemma newSymbolicIOI_path_bytes_witness :
  render sample_path = str "tag[3,500].x" /\
  path_bytes sample_path = [0x91; 3] ++ str "tag" ++ [0; 0x28; 3; 0x29; 0; 0xF4; 1; 0x91; 1] ++ str "x" ++ [0] /\
  newSymbolicIOI (render sample_path) CIPTypeDINT =
    Ok (empty_IOI (render sample_path) CIPTypeDINT (path_bytes sample_path)).
Proof.
  split; [vm_compute; reflexivity|split; [vm_compute; reflexivity|]].
  apply newSymbolicIOI_path_bytes; [apply sample_path_ok..|].
  unfold sample_path. constructor; [by left|constructor; [by left|constructor]].
Defined.

(** ** What the server reads *)

Lemma parses_getAsciiTagPart n :
  name_ok n -> parses (R:=CIPItem) getAsciiTagPart (drop 1 (name_seg n)) n.
Proof.
  intros Hn. unfold getAsciiTagPart, name_seg. cbn [app drop].
  pose proof (name_len n Hn) as Hl. assert (0 <= blen n) by (unfold blen; lia).
  change (blen n :: n ++ (if blen n mod 2 =? 1 then [0] else []))
    with ([blen n] ++ n ++ (if blen n mod 2 =? 1 then [0] else [])).
  eapply parses_bind; [apply parses_wrapM, parses_u8; solve_byte|].
  eapply parses_bind; [apply parses_wrapM, parses_slice; unfold blen; lia|].
  cbv beta. destruct (blen n mod 2 =? 1); [|apply parses_ret].
  eapply parses_bind_nil; [apply parses_wrapM, parses_u8; solve_byte|]. apply parses_ret.
Qed.

Lemma round_name t n :
  name_ok n -> parses (tag_path_round t) (name_seg n) (inl (append_name t n)).
Proof.
  intros Hn. unfold tag_path_round. change (name_seg n) with ([0x91] ++ drop 1 (name_seg n)).
  eapply parses_bind; [apply parses_try, parses_u8; solve_byte|]. simpl Z.eqb. cbv iota.
  eapply parses_bind_nil; [by apply parses_wrapM, parses_getAsciiTagPart|]. apply parses_ret.
Qed.

Lemma round_index t t' i :
  idx_ok i -> append_index t i = Ok t' ->
  parses (tag_path_round t) (index_part i) (inl t').
Proof.
  intros Hi Ht. red in Hi. unfold tag_path_round, index_part.
  assert (forall P : bytes + bytes, P = inl t' -> parses (R:=CIPItem)
    (s ← lift (append_index t i); mret (inl s)) [] P) as Hfin.
  { intros P ->. eapply parses_bind_nil; [by apply parses_lift|]. apply parses_ret. }
  destruct (Z.ltb_spec i 256).
  - rewrite wrap_small by lia. change [Element.cipElement_8bit; i] with ([0x28] ++ [i]).
    eapply parses_bind; [apply parses_try, parses_u8; solve_byte|]. simpl Z.eqb. cbv iota.
    eapply parses_bind_nil; [apply parses_wrapM, parses_u8; solve_byte|]. by apply Hfin.
  - rewrite (proj2 (Z.ltb_lt i 65536)) by lia.
    change (le_bytes 2 Element.cipElement_16bit) with ([0x29] ++ [0]). rewrite <- (assoc_L (++)).
    eapply parses_bind; [apply parses_try, parses_u8; solve_byte|]. simpl Z.eqb. cbv iota.
    eapply parses_bind; [apply parses_wrapM, parses_u8; solve_byte|].
    eapply parses_bind_nil; [by apply parses_wrapM, parses_u16|]. by apply Hfin.
Qed.

(** The rounds that read one part after another. *)
Inductive rounds : bytes -> list bytes -> bytes -> Prop :=
  | rounds_nil t : rounds t [] t
  | rounds_cons t t' t'' seg segs :
      parses (tag_path_round t) seg (inl t') -> (0 < length seg)%nat ->
      rounds t' segs t'' -> rounds t (seg :: segs) t''.

Lemma rounds_app t segs t' segs' t'' :
  rounds t segs t' -> rounds t' segs' t'' -> rounds t (segs ++ segs') t''.
Proof. induction 1; intros; [done|]. econstructor; eauto. Qed.

Definition indexed (base : bytes) (idx : list Z) : bytes :=
  match idx with [] => base | _ => base ++ [91] ++ idx_text idx ++ [93] end.

Lemma append_index_indexed base idx i :
  base <> [] -> list.last base <> Some 93 ->
  append_index (indexed base idx) i = Ok (indexed base (idx ++ [i])).
Proof.
  intros Hne Hl. unfold append_index. destruct idx as [|o idx].
  - simpl. destruct (list.last base) as [c|] eqn:E; [|by apply last_None in E].
    rewrite (proj2 (Z.eqb_neq _ _)) by congruence. done.
  - unfold indexed. set (idx' := o :: idx).
    assert (exists x l, idx' ++ [i] = x :: l) as (x & l & Hx) by (by eexists _, _).
    rewrite Hx, <- Hx. assert (idx' <> []) as Hne' by done. clearbody idx'. clear Hx.
    replace (base ++ [91] ++ idx_text idx' ++ [93])
      with ((base ++ [91] ++ idx_text idx') ++ [93]) by by rewrite <- !(assoc_L (++)).
    rewrite last_snoc, Z.eqb_refl, removelast_last. f_equal. rewrite <- !(assoc_L (++)).
    do 2 f_equal. rewrite (assoc_L (++)), (assoc_L (++)). f_equal. rewrite <- (assoc_L (++)).
    clear -Hne'. unfold idx_text. induction idx' as [|a idx IH]; [done|].
    destruct idx as [|b idx]; [done|]. cbn [map app] in *.
    change (join [44] (dec a :: dec b :: map dec idx))
      with (dec a ++ [44] ++ join [44] (dec b :: map dec idx)).
    change (join [44] (dec a :: dec b :: map dec (idx ++ [i])))
      with (dec a ++ [44] ++ join [44] (dec b :: map dec (idx ++ [i]))).
    rewrite <- IH by done. by rewrite <- !(assoc_L (++)).
Qed.

Lemma rounds_indexes base done_ idx :
  base <> [] -> list.last base <> Some 93 -> Forall idx_ok idx ->
  rounds (indexed base done_) (map index_part idx) (indexed base (done_ ++ idx)).
Proof.
  intros Hne Hl Hidx. revert done_. induction Hidx as [|i idx Hi _ IH]; intros done_; simpl.
  - rewrite app_nil_r. constructor.
  - econstructor; [by apply round_index, append_index_indexed| |].
    + unfold index_part. repeat case_match; simpl; lia.
    + replace (done_ ++ i :: idx) with ((done_ ++ [i]) ++ idx) by by rewrite <- (assoc_L (++)).
      apply IH.
Qed.

Definition part_segs (p : tag_part) : list bytes :=
  name_seg (tp_name p) :: map index_part (tp_idx p).

Lemma append_name_indexed t n idx :
  indexed (append_name t n) idx = append_name t (render_part {| tp_name := n; tp_idx := idx |}).
Proof.
  unfold indexed, append_name, render_part, idx_text. simpl.
  destruct t; [by destruct idx|]. destruct idx; [done|]. by rewrite <- !(assoc_L (++)).
Qed.

Lemma last_append_name t n :
  name_ok n -> append_name t n <> [] /\ list.last (append_name t n) <> Some 93.
Proof.
  intros Hn. destruct (exists_last (name_nonempty n Hn)) as (n' & c & ->).
  assert (c <> 93) as Hc.
  { pose proof (name_chars _ Hn) as H. apply Forall_app in H as [_ H].
    by apply Forall_inv in H as (_ & _ & _ & ?). }
  destruct t as [|b t]; simpl append_name.
  - split; [by destruct n'|]. rewrite last_snoc. congruence.
  - split; [done|]. change (b :: t ++ 46 :: n' ++ [c]) with ((b :: t) ++ (46 :: n') ++ [c]).
    rewrite (assoc_L (++)), last_snoc. congruence.
Qed.

Lemma rounds_part t p :
  part_ok p -> rounds t (part_segs p) (append_name t (render_part p)).
Proof.
  destruct p as [n idx]. intros [Hn Hidx]. cbn [tp_name tp_idx] in *.
  rewrite <- append_name_indexed. destruct (last_append_name t n Hn) as [H1 H2].
  econstructor; [by apply round_name| |].
  - unfold name_seg. simpl. lia.
  - exact (rounds_indexes (append_name t n) [] idx H1 H2 Hidx).
Qed.

Definition extend (t : bytes) (path : list tag_part) : bytes :=
  fold_left (fun t p => append_name t (render_part p)) path t.

Lemma rounds_path t path :
  Forall part_ok path -> rounds t (concat (map part_segs path)) (extend t path).
Proof.
  intros Hp. revert t. induction Hp as [|p path Hp _ IH]; intros t; simpl; [constructor|].
  apply (rounds_app t (part_segs p) _ _ _ (rounds_part t p Hp)), IH.
Qed.

Lemma render_part_nonempty p : part_ok p -> render_part p <> [].
Proof.
  destruct p as [n idx]. intros [Hn _]. pose proof (name_nonempty _ Hn). simpl in *.
  unfold render_part. simpl. by destruct idx, n.
Qed.

Lemma extend_nonempty t path :
  t <> [] -> extend t path = join [46] (t :: map render_part path).
Proof.
  revert t. induction path as [|p path IH]; intros t Ht; [done|].
  cbn [extend fold_left map]. fold (extend (append_name t (render_part p)) path).
  unfold append_name. destruct t as [|b t]; [done|]. rewrite IH by done.
  set (r := map render_part path). clearbody r.
  change (join [46] ((b :: t) :: render_part p :: r))
    with ((b :: t) ++ [46] ++ join [46] (render_part p :: r)).
  destruct r as [|x r]; [done|].
  change (join [46] (render_part p :: x :: r))
    with (render_part p ++ [46] ++ join [46] (x :: r)).
  change (join [46] (((b :: t) ++ [46] ++ render_part p) :: x :: r))
    with (((b :: t) ++ [46] ++ render_part p) ++ [46] ++ join [46] (x :: r)).
  by rewrite <- !(assoc_L (++)).
Qed.

Lemma extend_render path : Forall part_ok path -> extend [] path = render path.
Proof.
  intros [|p path' Hp _]; [done|]. cbn [extend fold_left].
  change (append_name [] (render_part p)) with (render_part p).
  fold (extend (render_part p) path'). by apply extend_nonempty, render_part_nonempty.
Qed.

Lemma concat_part_segs path : concat (concat (map part_segs path)) = path_bytes path.
Proof.
  induction path as [|p path IH]; [done|]. cbn [map concat]. rewrite concat_app, IH. done.
Qed.

Lemma rounds_loop t segs t' :
  rounds t segs t' -> forall fuel i rest,
  0 <= item_Pos i -> item_unread i = concat segs ++ rest ->
  tag_path_loop (length segs + fuel) t i =
    tag_path_loop fuel t' (rd_advance (length (concat segs)) i).
Proof.
  induction 1 as [t|t t' t'' seg segs Hr Hl Hrs IH]; intros fuel i rest Hi Hd.
  - simpl. by rewrite set_Pos_id by lia.
  - cbn [concat] in Hd. rewrite <- (assoc_L (++)) in Hd.
    cbn [length Nat.add tag_path_loop]. erewrite bind_Ok by (by eapply Hr). cbv iota beta.
    erewrite IH.
    + cbn [concat]. by rewrite rd_advance_add, length_app.
    + simpl. lia.
    + exact (advance_prefix (R:=CIPItem) i seg _ Hi Hd).
Qed.

Lemma rounds_length t segs t' : rounds t segs t' -> (length segs <= length (concat segs))%nat.
Proof. induction 1; cbn [concat length]; [lia|]. rewrite length_app. lia. Qed.

(** What may follow a path: nothing, or a byte that starts no segment. *)
Definition path_stop (rest : bytes) : Prop :=
  match rest with [] => True | b :: _ => is_byte b /\ b <> 0x28 /\ b <> 0x29 /\ b <> 0x91 end.

Lemma round_stop t i rest :
  0 <= item_Pos i -> item_unread i = rest -> path_stop rest ->
  tag_path_round t i = (Ok (inr t), i).
Proof.
  intros Hi Hd Hs. unfold tag_path_round. destruct rest as [|b rest].
  - assert (read_u8 i = (Err EOF, i)) as E.
    { unfold read_u8, read_uint. rewrite (bind_Err _ _ _ EOF i); [done|].
      simpl. unfold item_read_full, Read. apply (f_equal length) in Hd.
      rewrite length_item_unread in Hd. simpl in Hd.
      by rewrite (proj2 (Z.leb_le _ _)) by (unfold blen; lia). }
    by erewrite bind_Ok by (by apply try_Err).
  - destruct Hs as (Hb & H1 & H2 & H3). pose proof (parses_u8 (R:=CIPItem) b Hb i rest Hi Hd) as E.
    erewrite bind_Ok by (by apply try_Ok). cbv iota beta.
    rewrite !(proj2 (Z.eqb_neq _ _)) by done.
    erewrite bind_Ok by reflexivity. cbv [mret M_ret]. f_equal.
    destruct i. cbn. unfold set_Pos. simpl. f_equal. lia.
Qed.

Lemma read_path_spec path rest i :
  Forall part_ok path -> path_stop rest -> 0 <= item_Pos i ->
  item_unread i = path_bytes path ++ rest ->
  getTagFromPath i = (Ok (render path), set_Pos (item_Pos i + blen (path_bytes path)) i).
Proof.
  intros Hp Hs Hi Hd. unfold getTagFromPath.
  pose proof (rounds_path [] path Hp) as Hr. rewrite extend_render in Hr by done.
  pose proof (rounds_length _ _ _ Hr) as Hl. rewrite concat_part_segs in Hl.
  set (segs := concat (map part_segs path)) in *.
  assert (S (length (item_unread i)) =
    (length segs + S (length (item_unread i) - length segs)))%nat as ->.
  { rewrite Hd, length_app. lia. }
  rewrite (rounds_loop _ _ _ Hr _ _ rest) by (unfold segs; rewrite ?concat_part_segs; done).
  unfold segs. rewrite concat_part_segs. cbn [tag_path_loop].
  erewrite bind_Ok; [|eapply round_stop; [|exact (advance_prefix (R:=CIPItem) i _ rest Hi Hd)|exact Hs]].
  - reflexivity.
  - simpl. lia.
Qed.

(** C16. The server reads back the path the client wrote: on any request whose
    unread data starts with the EPATH of a well-formed path and goes on with
    a byte that starts no segment (or ends), getTagFromPath answers exactly
    the written path and leaves the item right behind it. *)
Theorem getTagFromPath_path_bytes path rest i :
  Forall part_ok path -> path_stop rest -> 0 <= item_Pos i ->
  item_unread i = path_bytes path ++ rest ->
  getTagFromPath i = (Ok (render path), set_Pos (item_Pos i + blen (path_bytes path)) i).
Proof. apply read_path_spec. Qed.

Lemma getTagFromPath_path_bytes_witness :
  let i := {| item_ID := 0xB1; item_Length := 0; item_Pos := 1;
    item_Data := 7 :: path_bytes sample_path ++ [1; 0] |} in
  getTagFromPath i = (Ok (render sample_path), set_Pos (1 + blen (path_bytes sample_path)) i).
Proof.
  cbv zeta. apply (getTagFromPath_path_bytes sample_path [1; 0]).
  - apply sample_path_ok.
  - zbound.
  - discriminate.
  - reflexivity.
Defined.

(** ** Termination *)

(** The one panic a round can end with: an index on the empty path. *)
Definition path_panic (w : string) : Prop := w = "index out of range [-1]"%string.

Lemma append_index_panics t i w : append_index t i = Panic w -> path_panic w.
Proof. unfold append_index, path_panic. repeat case_match; intros; by simplify_eq. Qed.

Ltac shrink_binds :=
  repeat first
    [ apply shrinks_read_uint | apply shrinks_read_full | apply shrinks_ret | apply shrinks_fail
    | apply shrinks_lift; intros; by eapply append_index_panics
    | apply shrinks_wrapM | progress case_match
    | match goal with |- shrinks _ (_ ≫= _) => apply shrinks_bind; intros end ].

Lemma shrinks_getAsciiTagPart : shrinks path_panic getAsciiTagPart.
Proof. unfold getAsciiTagPart, read_slice. shrink_binds. Qed.

Lemma shrinks_round t : shrinks path_panic (tag_path_round t).
Proof.
  intros i Hi. unfold tag_path_round. rewrite bind_eq.
  destruct (shrinks_try path_panic _ (shrinks_read_uint _ 1) i Hi) as (H1 & H2 & H3).
  fold read_u8 in H1, H2, H3.
  destruct (try read_u8 i) as [[[e|ty]|e|w] i1] eqn:E; cbn [fst snd] in *.
  all: try by split_and!; [lia|lia|intros w' [= <-]; by apply H3].
  { by destruct (is_EOF e). }
  assert (forall m : M CIPItem (bytes + bytes), shrinks path_panic m ->
    0 <= item_Pos (snd (m i1)) /\
    (length (item_unread (snd (m i1))) <= length (item_unread i))%nat /\
    (forall w, fst (m i1) = Panic w -> path_panic w)) as Hm.
  { intros m Hm. destruct (Hm i1 H1) as (? & ? & ?). split_and!; [done|lia|done]. }
  destruct (ty =? 0x28); [|destruct (ty =? 0x29); [|destruct (ty =? 0x91)]].
  1-3: apply Hm; shrink_binds; apply shrinks_getAsciiTagPart.
  - simpl. assert (read_u8 i = (Ok ty, i1)) as Hr.
    { unfold try in E. destruct (read_u8 i) as [[]]; congruence. }
    apply read_uint_consumes in Hr as [Hl Hp]; [|done].
    split_and!; [lia| |done]. rewrite !length_item_unread in *. simpl. lia.
Qed.

(** A round that does not finish the path consumed a byte. *)
Lemma round_consumes t t' i i' :
  0 <= item_Pos i -> tag_path_round t i = (Ok (inl t'), i') ->
  0 <= item_Pos i' /\ (length (item_unread i') < length (item_unread i))%nat.
Proof.
  intros Hi H. apply bind_Ok_inv in H as (ty & i1 & Hty & H).
  destruct ty as [e|ty].
  { destruct (is_EOF e); discriminate. }
  assert (read_u8 i = (Ok ty, i1)) as Hr.
  { unfold try in Hty. destruct (read_u8 i) as [[]]; congruence. }
  apply read_uint_consumes in Hr as [Hl Hp]; [|done].
  assert (forall m : M CIPItem (bytes + bytes), shrinks path_panic m -> m i1 = (Ok (inl t'), i') ->
    0 <= item_Pos i' /\ (length (item_unread i') < length (item_unread i))%nat) as Hm.
  { intros m Hm E. destruct (Hm i1) as (H1 & H2 & _); [lia|]. rewrite E in H1, H2. simpl in *.
    split; [done|lia]. }
  destruct (ty =? 0x28); [|destruct (ty =? 0x29); [|destruct (ty =? 0x91)]].
  4: { apply bind_Ok_inv in H as (? & ? & _ & H). discriminate. }
  all: revert H; apply Hm; shrink_binds.
  apply shrinks_getAsciiTagPart.
Qed.

Lemma tag_path_loop_panics fuel t i w :
  0 <= item_Pos i -> (length (item_unread i) < fuel)%nat ->
  fst (tag_path_loop fuel t i) = Panic w -> path_panic w.
Proof.
  revert t i. induction fuel as [|fuel IH]; intros t i Hi Hf; [lia|]. cbn [tag_path_loop].
  unfold mbind, M_bind. destruct (shrinks_round t i Hi) as (_ & _ & Hp).
  destruct (tag_path_round t i) as [[[t'|t']|e|w'] i'] eqn:E; simpl in *; try done.
  - apply round_consumes in E as [H1 H2]; [|done]. apply IH; [done|lia].
  - intros [= ->]. by apply Hp.
Qed.

(** Decoding a request path always ends: with as much fuel as the item
    has bytes left the loop returns the path or an error, or stops at the one
    index the code does not guard, an element segment before any name. *)
Theorem getTagFromPath_terminates i :
  0 <= item_Pos i ->
  (exists t, fst (getTagFromPath i) = Ok t) \/ (exists e, fst (getTagFromPath i) = Err e) \/
  fst (getTagFromPath i) = Panic "index out of range [-1]".
Proof.
  intros Hi. unfold getTagFromPath.
  pose proof (fun w => tag_path_loop_panics (S (length (item_unread i))) [] i w Hi) as H.
  destruct (fst _) as [t|e|w]; [eauto..|]. right. right. f_equal. apply H; [lia|done].
Qed.

Lemma getTagFromPath_terminates_witness :
  let i := {| item_ID := 0; item_Length := 0; item_Data := [0x28; 1]; item_Pos := 0 |} in
  (exists t, fst (getTagFromPath i) = Ok t) \/ (exists e, fst (getTagFromPath i) = Err e) \/
  fst (getTagFromPath i) = Panic "index out of range [-1]".
Proof. apply getTagFromPath_terminates. discriminate. Defined.

(** What follows the path is not delimited by the declared path length:
    an element count whose low byte is 0x28 is taken for an index.  A read of
    40 elements of a tag is answered for another path, two bytes on. *)
Theorem getTagFromPath_count_40 n i :
  name_ok n -> 0 <= item_Pos i ->
  item_unread i = path_bytes [{| tp_name := n; tp_idx := [] |}] ++ le_bytes 2 40 ->
  fst (getTagFromPath i) = Ok (render [{| tp_name := n; tp_idx := [0] |}]).
Proof.
  intros Hn Hi Hd.
  rewrite (read_path_spec [{| tp_name := n; tp_idx := [0] |}] []); [done| |done..|].
  - constructor; [|constructor]. split; [done|]. constructor; [|constructor]. zbound.
  - rewrite Hd. unfold path_bytes, part_bytes. simpl. by rewrite !app_nil_r.
Qed.

Lemma getTagFromPath_count_40_witness :
  fst (getTagFromPath {| item_ID := 0; item_Length := 0; item_Pos := 0;
    item_Data := path_bytes [{| tp_name := str "arr"; tp_idx := [] |}] ++ [40; 0] |}) =
  Ok (render [{| tp_name := str "arr"; tp_idx := [0] |}]).
Proof. apply (getTagFromPath_count_40 (str "arr")); [ok_path|discriminate|reflexivity]. Defined.
