(* ===== verification/Path.v ===== *)
(** * Routes and logical paths: path.go

    ParsePath turns a route in the text form of a Logix MSG instruction into
    bytes; PathBuilder builds a CIP path segment by segment.  A route is
    specified as its hops, a builder run as the list of the calls made on it. *)
From S2P Require Import Prelude Reader GoStrings CipNames CipDefs Types Items Ioi.
(** ** CIPPort *)

Module Port_.
Record CIPPort := { PortNo : Z; ExtensionLen : Z }.

Definition Len (p : CIPPort) : Z := 2.

Definition Bytes (p : CIPPort) : bytes :=
  if negb (ExtensionLen p =? 0) then [PortNo p; ExtensionLen p] else [PortNo p].
End Port_.

(** ** ParsePath *)

(** One part of the comma-separated text, appended to byte_path.  An address
    marks the byte before it as an extended one (bit 4); at the start of the
    path there is none. *)
Definition parse_part (byte_path : bytes) (part : bytes) : res bytes :=
  if contains 46 part then
    match list.last byte_path with
    | None => Panic "index out of range [-1]"
    | Some last_byte =>
        Ok (removelast byte_path ++ [Z.lor last_byte (Z.shiftl 1 4)] ++ [u8 (blen part)] ++ part)
    end
  else
    match atoi part with
    | None => Err (Wrap "problem converting to number" (Errorf "invalid syntax"))
    | Some val =>
        if (val <? 0) || (255 <? val) then Err (Errorf "number out of range")
        else Ok (byte_path ++ [u8 val])
    end.

Fixpoint parse_parts (byte_path : bytes) (parts : list bytes) : res bytes :=
  match parts with
  | [] => Ok byte_path
  | part :: parts => byte_path ← parse_part byte_path part; parse_parts byte_path parts
  end.

Definition ParsePath (path : bytes) : res bytes :=
  match path with
  | [] => Ok []
  | _ => parse_parts [] (split 44 (remove_all [93] (remove_all [91] (remove_all [32] path))))
  end.

(** ** PathBuilder *)

Record PathBuilder := { pb_b : bytes; pb_Err : option error }.

Definition NewPathBuilder : PathBuilder := {| pb_b := []; pb_Err := None |}.

(** A write into a bytes.Buffer does not fail. *)
Definition pb_write (s : bytes) (pb : PathBuilder) : PathBuilder :=
  match pb_Err pb with
  | Some _ => pb
  | None => {| pb_b := pb_b pb ++ s; pb_Err := None |}
  end.

Definition Custom (data : bytes) : PathBuilder -> PathBuilder := pb_write data.
Definition Class (classID : Z) : PathBuilder -> PathBuilder := pb_write (Class_.Bytes classID).
Definition Instance_ (instanceID : Z) : PathBuilder -> PathBuilder := pb_write (Instance_.Bytes instanceID).
Definition Attribute_ (attributeID : Z) : PathBuilder -> PathBuilder := pb_write (Attribute.Bytes attributeID).
Definition Element_ (elementID : Z) : PathBuilder -> PathBuilder := pb_write (Element.Bytes elementID).
Definition Port (portNo : Z) : PathBuilder -> PathBuilder := pb_write (le_bytes 1 portNo).
Definition Address_ (address : Z) : PathBuilder -> PathBuilder := pb_write (Address.Bytes address).
Definition Slot (slotNo : Z) : PathBuilder -> PathBuilder := pb_write (le_bytes 1 slotNo).

(** A fallible segment: the error is kept and nothing is written. *)
Definition pb_try (msg : string) (r : res bytes) (pb : PathBuilder) : res PathBuilder :=
  match pb_Err pb with
  | Some _ => Ok pb
  | None =>
      match r with
      | Ok s => Ok (pb_write s pb)
      | Err e => Ok {| pb_b := pb_b pb; pb_Err := Some (Wrap msg e) |}
      | Panic w => Panic w
      end
  end.

Definition Symbolic (symbol : bytes) (pb : PathBuilder) : res PathBuilder :=
  pb_try "error writing symbolic ID" (marshalIOIPart symbol) pb.
Definition Parse (path : bytes) (pb : PathBuilder) : res PathBuilder :=
  pb_try "error parsing path" (ParsePath path) pb.

Definition pb_Bytes (pb : PathBuilder) : bytes := pb_b pb.

(** ** A run of the builder *)

Inductive pb_call :=
  | CCustom (data : bytes)
  | CClass (c : Z)
  | CInstance (i : Z)
  | CAttribute (a : Z)
  | CSymbolic (s : bytes)
  | CElement (e : Z)
  | CPort (p : Z)
  | CAddress (a : Z)
  | CSlot (s : Z)
  | CParse (p : bytes).

Definition pb_step (c : pb_call) (pb : PathBuilder) : res PathBuilder :=
  match c with
  | CCustom data => Ok (Custom data pb)
  | CClass c => Ok (Class c pb)
  | CInstance i => Ok (Instance_ i pb)
  | CAttribute a => Ok (Attribute_ a pb)
  | CSymbolic s => Symbolic s pb
  | CElement e => Ok (Element_ e pb)
  | CPort p => Ok (Port p pb)
  | CAddress a => Ok (Address_ a pb)
  | CSlot s => Ok (Slot s pb)
  | CParse p => Parse p pb
  end.

Fixpoint pb_run (l : list pb_call) (pb : PathBuilder) : res PathBuilder :=
  match l with
  | [] => Ok pb
  | c :: l => pb ← pb_step c pb; pb_run l pb
  end.

(** What a call contributes: its segment, or its failure. *)
Definition call_bytes (c : pb_call) : res bytes :=
  match c with
  | CCustom data => Ok data
  | CClass c => Ok (Class_.Bytes c)
  | CInstance i => Ok (Instance_.Bytes i)
  | CAttribute a => Ok (Attribute.Bytes a)
  | CSymbolic s => res_wrap "error writing symbolic ID" (marshalIOIPart s)
  | CElement e => Ok (Element.Bytes e)
  | CPort p => Ok (le_bytes 1 p)
  | CAddress a => Ok (Address.Bytes a)
  | CSlot s => Ok (le_bytes 1 s)
  | CParse p => res_wrap "error parsing path" (ParsePath p)
  end.

(** The specification of a run: the segments before the first failing call,
    and that failure. *)
Fixpoint calls_spec (l : list pb_call) : res (bytes * option error) :=
  match l with
  | [] => Ok ([], None)
  | c :: l =>
      match call_bytes c with
      | Ok s => '(bs, e) ← calls_spec l; Ok (s ++ bs, e)
      | Err e => Ok ([], Some e)
      | Panic w => Panic w
      end
  end.

Lemma pb_step_spec c pb :
  pb_Err pb = None ->
  pb_step c pb = match call_bytes c with
                 | Ok s => Ok (pb_write s pb)
                 | Err e => Ok {| pb_b := pb_b pb; pb_Err := Some e |}
                 | Panic w => Panic w
                 end.
Proof.
  intros Hn. destruct c; try done; cbn [pb_step call_bytes]; unfold Symbolic, Parse, pb_try;
    rewrite Hn; [destruct (marshalIOIPart s)|destruct (ParsePath p)]; done.
Qed.

Lemma pb_step_err c pb e : pb_Err pb = Some e -> pb_step c pb = Ok pb.
Proof.
  intros He. destruct c; cbn [pb_step];
    unfold Symbolic, Parse, pb_try, Custom, Class, Instance_, Attribute_, Element_, Port, Address_,
      Slot, pb_write; by rewrite He.
Qed.

Lemma pb_run_err l pb e : pb_Err pb = Some e -> pb_run l pb = Ok pb.
Proof.
  intros He. induction l as [|c l IH]; [done|]. cbn [pb_run]. by rewrite (pb_step_err c pb e He).
Qed.

(** A builder run yields the concatenation of the segments of its calls;
    the first failing call is reported in Err, contributes nothing, and
    silences every call after it. *)
Theorem pb_run_calls_spec l pb :
  pb_Err pb = None ->
  pb_run l pb = '(bs, e) ← calls_spec l; Ok {| pb_b := pb_b pb ++ bs; pb_Err := e |}.
Proof.
  revert pb. induction l as [|c l IH]; intros pb Hn; cbn [pb_run calls_spec].
  - cbn [mbind res_bind]. rewrite app_nil_r. destruct pb. cbn in *. congruence.
  - rewrite pb_step_spec by done. destruct (call_bytes c) as [s|e|w]; cbn [mbind res_bind]; [|by rewrite (pb_run_err _ _ e), app_nil_r|done].
    unfold pb_write. rewrite Hn, IH by done.
    destruct (calls_spec l) as [[bs e]|e|w]; cbn [mbind res_bind pb_b]; [|done..].
    by rewrite <- (assoc_L (++)).
Qed.

Lemma pb_run_calls_spec_witness :
  pb_run [CClass 0x6B; CSymbolic (str "a.1"); CInstance 300; CParse (str "x"); CSlot 1] NewPathBuilder =
  '(bs, e) ← calls_spec [CClass 0x6B; CSymbolic (str "a.1"); CInstance 300; CParse (str "x"); CSlot 1];
    Ok {| pb_b := [] ++ bs; pb_Err := e |}.
Proof. by apply (pb_run_calls_spec _ NewPathBuilder). Defined.

(** What the builder writes for an object address is read back by the
    segment decoders, whatever the widths of the three numbers. *)
Theorem path_object_roundtrip {R} `{ReaderLaws R} c i a pb :
  0 <= c < 2 ^ 16 -> 0 <= i < 2 ^ 32 -> 0 <= a < 2 ^ 16 ->
  pb_run [CClass c; CInstance i; CAttribute a] NewPathBuilder = Ok pb ->
  pb_Err pb = None /\
  parses (R:=R) (c ← Class_.Read; i ← Instance_.Read; a ← Attribute.Read; mret (c, i, a))
    (pb_Bytes pb) (c, i, a).
Proof.
  intros Hc Hi Ha Hr. injection Hr as <-. split; [done|].
  unfold pb_Bytes, Class, Instance_, Attribute_, pb_write. cbn [pb_b pb_Err NewPathBuilder app].
  rewrite <- (assoc_L (++)). rewrite <- (app_nil_r (Attribute.Bytes a)).
  repeat (eapply parses_bind; [by auto with go|]). apply parses_ret.
Qed.

Lemma path_object_roundtrip_witness :
  exists pb, pb_run [CClass 0x6B; CInstance 70000; CAttribute 300] NewPathBuilder = Ok pb /\
  pb_Err pb = None /\
  parses (R:=bytes) (c ← Class_.Read; i ← Instance_.Read; a ← Attribute.Read; mret (c, i, a))
    (pb_Bytes pb) (0x6B, 70000, 300).
Proof.
  eexists. split; [reflexivity|].
  apply (path_object_roundtrip 0x6B 70000 300); [zbound..|reflexivity].
Defined.

(** ** Routes *)

(** A hop is a number (a port or a slot) or a port followed by an address. *)
Inductive hop := HNum (n : Z) | HAddr (n : Z) (addr : bytes).

Definition hop_parts (h : hop) : list bytes :=
  match h with HNum n => [dec n] | HAddr n addr => [dec n; addr] end.

Definition hop_bytes (h : hop) : bytes :=
  match h with HNum n => [n] | HAddr n addr => [Z.lor n 16; blen addr] ++ addr end.

Definition route_text (r : list hop) : bytes := join [44] (concat (map hop_parts r)).
Definition route_bytes (r : list hop) : bytes := concat (map hop_bytes r).

Record addr_ok (addr : bytes) : Prop := {
  addr_dot : 46 ∈ addr;
  addr_plain : (44 ∉ addr) /\ (32 ∉ addr) /\ (91 ∉ addr) /\ (93 ∉ addr);
  addr_len : blen addr < 256;
}.

Definition hop_ok (h : hop) : Prop :=
  match h with
  | HNum n => is_byte n
  | HAddr n addr => is_byte n /\ addr_ok addr
  end.

Lemma remove_absent c s : c ∉ s -> remove_all [c] s = s.
Proof.
  unfold remove_all. induction s as [|x s IH]; intros Hc; [done|].
  apply not_elem_of_cons in Hc as [Hx Hs]. cbn [remove_all_from].
  assert (has_prefix [c] (x :: s) = false) as ->.
  { apply bool_decide_eq_false. simpl. rewrite take_0. congruence. }
  by rewrite IH.
Qed.

Lemma parse_part_num bs n :
  is_byte n -> parse_part bs (dec n) = Ok (bs ++ [n]).
Proof.
  intros Hn. red in Hn. unfold parse_part, contains.
  rewrite bool_decide_eq_false_2 by (apply dec_not_elem; [done|lia]).
  rewrite atoi_dec by lia. rewrite (proj2 (orb_false_iff _ _)), wrap_small; [done|lia|].
  rewrite !Z.ltb_ge. lia.
Qed.

Lemma parse_parts_route r bs :
  Forall hop_ok r -> parse_parts bs (concat (map hop_parts r)) = Ok (bs ++ route_bytes r).
Proof.
  intros Hr. revert bs. induction Hr as [|h r Hh _ IH]; intros bs.
  - simpl. by rewrite app_nil_r.
  - unfold route_bytes. cbn [map concat]. destruct h as [n|n addr]; simpl in Hh |- *.
    + rewrite parse_part_num by done. cbn [mbind res_bind]. rewrite IH.
      by rewrite <- (assoc_L (++)).
    + destruct Hh as [Hn Ha]. rewrite parse_part_num by done. cbn [mbind res_bind].
      unfold parse_part at 1, contains. rewrite bool_decide_eq_true_2 by apply Ha.
      rewrite last_snoc, removelast_last. cbn [mbind res_bind]. rewrite IH.
      rewrite wrap_small by (pose proof (addr_len _ Ha); unfold blen in *; lia).
      by rewrite <- !(assoc_L (++)).
Qed.

Lemma route_text_elem r b :
  Forall hop_ok r -> b ∈ route_text r ->
  b = 44 \/ is_digit b = true \/ exists n addr, HAddr n addr ∈ r /\ b ∈ addr.
Proof.
  intros Hr [H|(p & Hp & Hb)]%elem_of_join.
  { left. by apply list_elem_of_singleton in H. }
  right. apply list_elem_of_In, in_concat in Hp as (ps & Hps & Hp).
  apply in_map_iff in Hps as (h & <- & Hh). apply list_elem_of_In in Hp, Hh.
  rewrite list.Forall_forall in Hr. pose proof (Hr h Hh) as Hok.
  assert (forall n, is_byte n -> b ∈ dec n -> is_digit b = true) as Hd.
  { intros n Hn Hin. red in Hn. pose proof (dec_digits n (proj1 Hn)) as Hf.
    rewrite list.Forall_forall in Hf. by apply Hf. }
  destruct h as [n|n addr]; simpl in Hp, Hok.
  - apply list_elem_of_singleton in Hp as ->. left. by eapply Hd.
  - apply elem_of_cons in Hp as [->|Hp%list_elem_of_singleton].
    + left. destruct Hok. by eapply Hd.
    + subst p. right. eauto.
Qed.

Lemma route_text_plain r c :
  Forall hop_ok r -> c = 32 \/ c = 91 \/ c = 93 -> c ∉ route_text r.
Proof.
  intros Hr Hc Hin. destruct (route_text_elem r c Hr Hin) as [->|[Hd|(n & a & Ha & Hb)]].
  - lia.
  - apply is_digit_spec in Hd. lia.
  - rewrite list.Forall_forall in Hr. destruct (Hr _ Ha) as [_ [_ (_ & ? & ? & ?) _]].
    destruct Hc as [->|[->| ->]]; done.
Qed.

Lemma hop_parts_nocomma r : Forall hop_ok r -> Forall (fun p => 44 ∉ p) (concat (map hop_parts r)).
Proof.
  induction 1 as [|h r Hh _ IH]; simpl; [constructor|]. apply Forall_app. split; [|done].
  assert (forall n, is_byte n -> 44 ∉ dec n) as Hd.
  { intros n [Hn _]. by apply dec_not_elem. }
  destruct h as [n|n addr]; simpl in *; repeat constructor; try (by apply Hd).
  - destruct Hh. by apply Hd.
  - apply Hh.
Qed.

(** C34. Parsing the text of a route gives its bytes: one byte per number, and
    for an address its port with the extended bit set, the length and the
    characters; a route is a list of numbers below 256 and of ports with an
    address (with a dot, of less than 256 characters, none of them a comma, a
    space or a bracket). *)
Theorem ParsePath_route r :
  r <> [] -> Forall hop_ok r -> ParsePath (route_text r) = Ok (route_bytes r).
Proof.
  intros Hne Hr.
  assert (concat (map hop_parts r) <> []) as Hparts by (by destruct r as [|[]]).
  assert (split 44 (route_text r) = concat (map hop_parts r)) as Hs.
  { apply split_join; [done|]. by apply hop_parts_nocomma. }
  unfold ParsePath. destruct (route_text r) as [|b t] eqn:E.
  - exfalso. destruct r as [|h r]; [done|]. apply Forall_inv in Hr.
    assert (forall n, is_byte n -> dec n <> []) as Hd by (intros n [? _]; by apply dec_spec).
    destruct h as [n|n a]; injection Hs as Hs; by apply (Hd n); [apply Hr|].
  - rewrite <- E in *. rewrite !remove_absent by (repeat rewrite remove_absent; apply route_text_plain; auto).
    rewrite Hs. by apply parse_parts_route.
Qed.

Definition sample_route : list hop := [HNum 1; HNum 0; HAddr 2 (str "172.25.58.11"); HNum 1; HNum 1].

Lemma ParsePath_route_witness :
  ParsePath (route_text sample_route) = Ok (route_bytes sample_route) /\
  route_text sample_route = str "1,0,2,172.25.58.11,1,1".
Proof.
  split; [|vm_compute; reflexivity].
  apply ParsePath_route; [discriminate|]. unfold sample_route.
  repeat first [apply List.Forall_cons | apply List.Forall_nil]; try zbound.
  split; [zbound|]. split; [|split_and!|zbound].
  - apply list_elem_of_In. vm_compute. tauto.
  - intros H%list_elem_of_In. vm_compute in H. intuition discriminate.
  - intros H%list_elem_of_In. vm_compute in H. intuition discriminate.
  - intros H%list_elem_of_In. vm_compute in H. intuition discriminate.
  - intros H%list_elem_of_In. vm_compute in H. intuition discriminate.
Defined.
