(* ===== verification/Conns.v ===== *)
(** * The server's connection table: server_connections.go

    Connections are shared by pointer: the table holds locations of a heap,
    Close clears Open on the shared object and removes the location by moving
    the last one into its place.  Every method runs under the table's lock,
    so an execution is a sequence of whole operations, whatever goroutines
    they come from; the table refines a finite map from keys to connections. *)
From S2P Require Import Prelude.
Record serverConnection := {
  conn_ID : Z;          (* uint16 *)
  conn_OT : Z;          (* uint32 *)
  conn_TO : Z;          (* uint32 *)
  conn_RPI : Z;         (* time.Duration: nanoseconds *)
  conn_Path : bytes;
  conn_Open : bool;
}.

Definition set_Open (b : bool) (c : serverConnection) : serverConnection :=
  {| conn_ID := conn_ID c; conn_OT := conn_OT c; conn_TO := conn_TO c; conn_RPI := conn_RPI c;
     conn_Path := conn_Path c; conn_Open := b |}.

(** A location is a pointer to a connection. *)
Abbreviation loc := positive.

Record serverConnectionManager := {
  cm_heap : gmap loc serverConnection;
  Connections : list loc;
}.

Definition set_Connections (l : list loc) (cm : serverConnectionManager) :=
  {| cm_heap := cm_heap cm; Connections := l |}.
Definition set_heap (h : gmap loc serverConnection) (cm : serverConnectionManager) :=
  {| cm_heap := h; Connections := Connections cm |}.

Definition CM := M serverConnectionManager.

(** &serverConnection{...} *)
Definition new_conn (c : serverConnection) : CM loc := fun cm =>
  let l := fresh (dom (cm_heap cm)) in (Ok l, set_heap (<[l := c]> (cm_heap cm)) cm).

Definition deref (l : loc) : CM serverConnection := fun cm =>
  match cm_heap cm !! l with
  | Some c => (Ok c, cm)
  | None => (Panic "nil pointer dereference", cm)
  end.

Definition Init : CM unit := modify (set_Connections []).

Definition Add (l : loc) : CM unit :=
  _ ← deref l;                                (* the log line *)
  modify (fun cm => set_Connections (Connections cm ++ [l]) cm).

(** for i, conn := range cm.Connections: the first whose key is v *)
Fixpoint find_conn (key : serverConnection -> Z) (v : Z) (i : nat) (ls : list loc) :
    CM (option (nat * loc)) :=
  match ls with
  | [] => mret None
  | l :: ls =>
      c ← deref l;
      if key c =? v then mret (Some (i, l)) else find_conn key v (S i) ls
  end.

Definition get_by (key : serverConnection -> Z) (msg : string) (v : Z) : CM loc :=
  cm ← get;
  r ← find_conn key v 0 (Connections cm);
  match r with
  | Some (_, l) => mret l
  | None => fail (Errorf msg)
  end.

(** conns[i] = conns[len-1]; conns = conns[:len-1] *)
Definition swap_delete (i : nat) (ls : list loc) : list loc :=
  match list.last ls with
  | Some x => take (length ls - 1) (<[i := x]> ls)
  | None => ls
  end.

Definition close_by (key : serverConnection -> Z) (msg : string) (v : Z) : CM unit :=
  cm ← get;
  r ← find_conn key v 0 (Connections cm);
  match r with
  | Some (i, l) =>
      _ ← modify (fun cm => set_heap (alter (set_Open false) l (cm_heap cm)) cm);
      if (length (Connections cm) =? 1)%nat then modify (set_Connections [])
      else modify (set_Connections (swap_delete i (Connections cm)))
  | None => fail (Errorf msg)
  end.

Definition GetByID : Z -> CM loc := get_by conn_ID "couldn't find connection by ID".
Definition GetByOT : Z -> CM loc := get_by conn_OT "couldn't find connection by OT".
Definition GetByTO : Z -> CM loc := get_by conn_TO "couldn't find connection by TO".
Definition CloseByID : Z -> CM unit := close_by conn_ID "couldn't find connection by ID".
Definition CloseByOT : Z -> CM unit := close_by conn_OT "couldn't find connection by OT".
Definition CloseByTO : Z -> CM unit := close_by conn_TO "couldn't find connection by TO".

(** ** Invariant and abstract view *)

(** The table's connections: allocated, distinct and open. *)
Record cm_ok (cm : serverConnectionManager) : Prop := {
  cm_nodup : NoDup (Connections cm);
  cm_open : forall l, l ∈ Connections cm -> exists c, cm_heap cm !! l = Some c /\ conn_Open c = true;
}.

Definition listed (cm : serverConnectionManager) : list serverConnection :=
  omap (fun l => cm_heap cm !! l) (Connections cm).

(** No two listed connections have the same key. *)
Definition keys_unique (key : serverConnection -> Z) (cm : serverConnectionManager) : Prop :=
  NoDup (map key (listed cm)).

Definition cm_view (key : serverConnection -> Z) (cm : serverConnectionManager) :
    gmap Z serverConnection :=
  list_to_map (map (fun c => (key c, c)) (listed cm)).

Section Heap.
Context (key : serverConnection -> Z).

Lemma deref_Ok l c cm : cm_heap cm !! l = Some c -> deref l cm = (Ok c, cm).
Proof. intros H. unfold deref. by rewrite H. Qed.

(** The scan stops at the first listed connection with the key. *)
Lemma find_conn_spec v i ls cm :
  (forall l, l ∈ ls -> is_Some (cm_heap cm !! l)) ->
  exists r, find_conn key v i ls cm = (Ok r, cm) /\
  match r with
  | Some (j, l) => exists n c, j = (i + n)%nat /\ ls !! n = Some l /\
      cm_heap cm !! l = Some c /\ key c = v
  | None => forall l c, l ∈ ls -> cm_heap cm !! l = Some c -> key c <> v
  end.
Proof.
  revert i. induction ls as [|l ls IH]; intros i Hls; cbn [find_conn].
  - exists None. split; [done|]. by intros ? ? ?%elem_of_nil.
  - destruct (Hls l) as [c Hc]; [by left|]. rewrite (bind_Ok _ _ _ _ _ (deref_Ok l c cm Hc)).
    destruct (Z.eqb_spec (key c) v) as [Hk|Hk].
    + exists (Some (i, l)). split; [done|]. exists 0%nat, c. split_and!; [lia|done..].
    + destruct (IH (S i)) as (r & -> & Hr); [intros; apply Hls; by right|].
      exists r. split; [done|]. destruct r as [[j l']|].
      * destruct Hr as (n & c' & -> & ?). exists (S n), c'. split; [lia|done].
      * intros l' c' [->|Hl]%elem_of_cons; [congruence|by apply Hr].
Qed.

Lemma listed_elem cm c :
  c ∈ listed cm <-> exists l, l ∈ Connections cm /\ cm_heap cm !! l = Some c.
Proof. unfold listed. rewrite list_elem_of_omap. done. Qed.

Lemma view_lookup cm v c :
  keys_unique key cm -> cm_view key cm !! v = Some c <-> c ∈ listed cm /\ key c = v.
Proof.
  intros Hu. unfold cm_view. rewrite <- elem_of_list_to_map.
  - rewrite list_elem_of_fmap. split; [intros (c' & [= -> ->] & ?); done|].
    intros [? <-]. by exists c.
  - unfold keys_unique in Hu. rewrite <- list_fmap_compose. exact Hu.
Qed.
End Heap.

Lemma swap_delete_perm i ls l :
  ls !! i = Some l -> Permutation (l :: swap_delete i ls) ls.
Proof.
  intros Hi. unfold swap_delete. destruct (list.last ls) as [x|] eqn:Hl.
  2: { apply last_None in Hl. by subst ls. }
  apply last_Some in Hl as [ls' ->]. rewrite length_app. cbn [length].
  replace (length ls' + 1 - 1)%nat with (length ls') by lia.
  destruct (decide (i < length ls')%nat) as [H|H].
  - rewrite lookup_app_l in Hi by done. rewrite insert_app_l by done.
    rewrite take_app_length' by (by rewrite length_insert).
    rewrite insert_take_drop by done. pose proof (take_drop_middle ls' i l Hi) as E.
    revert E. generalize (take i ls') (drop (S i) ls'). intros a b <-.
    rewrite <- Permutation_cons_append, <- !Permutation_middle. apply perm_swap.
  - assert (i = length ls') as ->.
    { apply lookup_lt_Some in Hi. rewrite length_app in Hi. simpl in Hi. lia. }
    rewrite lookup_app_r, Nat.sub_diag in Hi by lia. injection Hi as <-.
    rewrite insert_app_r_alt, Nat.sub_diag by lia. cbn. rewrite take_app_length.
    apply Permutation_cons_append.
Qed.

Lemma omap_agree {A B} (f g : A -> option B) (l : list A) :
  (forall x, x ∈ l -> f x = g x) -> omap f l = omap g l.
Proof.
  induction l as [|x l IH]; intros H; [done|]. cbn [omap list_omap].
  rewrite H, IH; [done|intros; apply H; by right|by left].
Qed.

Lemma swap_delete_one (ls : list loc) : length ls = 1%nat -> forall i l, ls !! i = Some l -> Permutation [l] ls.
Proof.
  intros Hl i l Hi. destruct ls as [|x [|]]; try done. destruct i; [|done]. by injection Hi as ->.
Qed.

Section Table.
Context (key : serverConnection -> Z) (msg : string).
Context (key_Open : forall b c, key (set_Open b c) = key c).

Lemma cm_ok_alloc cm l : cm_ok cm -> l ∈ Connections cm -> is_Some (cm_heap cm !! l).
Proof. intros Hok Hl. destruct (cm_open _ Hok l Hl) as (c & -> & _). done. Qed.

(** What closing does when a listed connection has the key. *)
Definition closed_state (l : loc) (cm cm' : serverConnectionManager) : Prop :=
  Permutation (l :: Connections cm') (Connections cm) /\
  cm_heap cm' = alter (set_Open false) l (cm_heap cm).

Lemma close_by_found v cm :
  cm_ok cm ->
  (exists l c cm', l ∈ Connections cm /\ cm_heap cm !! l = Some c /\ key c = v /\
     close_by key msg v cm = (Ok tt, cm') /\ closed_state l cm cm') \/
  (close_by key msg v cm = (Err (Errorf msg), cm) /\
   forall l c, l ∈ Connections cm -> cm_heap cm !! l = Some c -> key c <> v).
Proof.
  intros Hok. unfold close_by. rewrite (bind_Ok get _ cm cm cm eq_refl).
  destruct (find_conn_spec key v 0 (Connections cm) cm (fun l => cm_ok_alloc cm l Hok))
    as (r & E & Hr).
  rewrite (bind_Ok _ _ _ _ _ E). destruct r as [[j l]|]; [|by right].
  destruct Hr as (n & c & -> & Hn & Hc & Hk). left. exists l, c.
  assert (l ∈ Connections cm) as Hl by by eapply list_elem_of_lookup_2.
  destruct (Nat.eqb_spec (length (Connections cm)) 1) as [H1|H1];
    (eexists; split_and!; [done..|split; [cbn|done]]).
  - by eapply swap_delete_one.
  - by apply swap_delete_perm.
Qed.

Lemma closed_state_ok l cm cm' :
  cm_ok cm -> closed_state l cm cm' ->
  cm_ok cm' /\ (l ∉ Connections cm') /\
  forall l', l' ∈ Connections cm' -> l' ∈ Connections cm /\ cm_heap cm' !! l' = cm_heap cm !! l'.
Proof.
  intros [Hnd Hop] [Hp Hh]. rewrite <- Hp in Hnd. apply list.NoDup_cons in Hnd as [Hl Hnd].
  assert (forall l', l' ∈ Connections cm' ->
    l' ∈ Connections cm /\ cm_heap cm' !! l' = cm_heap cm !! l') as Hsame.
  { intros l' Hl'. split; [rewrite <- Hp; by right|]. rewrite Hh, lookup_alter_ne; [done|].
    by intros ->. }
  split_and!; [split; [done|]|done..].
  intros l' Hl'. destruct (Hsame l' Hl') as [Hin ->]. by apply Hop.
Qed.

Lemma listed_perm l c cm cm' :
  cm_ok cm -> cm_heap cm !! l = Some c -> closed_state l cm cm' ->
  Permutation (c :: listed cm') (listed cm).
Proof.
  intros Hok Hc Hcl. destruct (closed_state_ok _ _ _ Hok Hcl) as (_ & _ & Hsame).
  unfold listed. rewrite <- (proj1 Hcl). cbn [omap list_omap]. rewrite Hc.
  f_equiv. erewrite omap_agree; [done|]. intros l' Hl'. by apply Hsame.
Qed.

Lemma get_by_refines v cm :
  cm_ok cm -> keys_unique key cm ->
  match cm_view key cm !! v with
  | Some c => exists l, get_by key msg v cm = (Ok l, cm) /\ l ∈ Connections cm /\
                cm_heap cm !! l = Some c
  | None => get_by key msg v cm = (Err (Errorf msg), cm)
  end.
Proof.
  intros Hok Hu. unfold get_by. rewrite (bind_Ok get _ cm cm cm eq_refl).
  destruct (find_conn_spec key v 0 (Connections cm) cm (fun l => cm_ok_alloc cm l Hok))
    as (r & E & Hr).
  rewrite (bind_Ok _ _ _ _ _ E). destruct r as [[j l]|].
  - destruct Hr as (n & c & -> & Hn & Hc & Hk).
    assert (l ∈ Connections cm) as Hl by by eapply list_elem_of_lookup_2.
    assert (cm_view key cm !! v = Some c) as ->.
    { apply view_lookup; [done|]. split; [|done]. apply listed_elem. eauto. }
    eauto.
  - destruct (cm_view key cm !! v) as [c|] eqn:Hv; [|done].
    apply view_lookup in Hv as [(l & Hl & Hc)%listed_elem Hk]; [|done].
    by destruct (Hr l c Hl Hc).
Qed.

Lemma close_by_refines v cm :
  cm_ok cm -> keys_unique key cm ->
  match cm_view key cm !! v with
  | Some c => exists l cm', close_by key msg v cm = (Ok tt, cm') /\
      cm_ok cm' /\ keys_unique key cm' /\ cm_view key cm' = delete v (cm_view key cm) /\
      l ∈ Connections cm /\ cm_heap cm !! l = Some c /\ cm_heap cm' !! l = Some (set_Open false c)
  | None => close_by key msg v cm = (Err (Errorf msg), cm)
  end.
Proof using key_Open.
  intros Hok Hu. destruct (close_by_found v cm Hok) as [(l & c & cm' & Hl & Hc & Hk & E & Hcl)|[E Hn]].
  - assert (cm_view key cm !! v = Some c) as Hv.
    { apply view_lookup; [done|]. split; [|done]. apply listed_elem. eauto. }
    rewrite Hv. exists l, cm'. pose proof (listed_perm _ _ _ _ Hok Hc Hcl) as Hp.
    destruct (closed_state_ok _ _ _ Hok Hcl) as (Hok' & _ & _).
    assert (keys_unique key cm' /\ key c ∉ map key (listed cm')) as [Hu' Hnk].
    { unfold keys_unique in Hu. rewrite <- Hp in Hu. cbn [map] in Hu.
      apply list.NoDup_cons in Hu as [??]. done. }
    split_and!; [done|done|done| |done|done|by rewrite (proj2 Hcl), lookup_alter_eq, Hc].
    apply map_eq. intros v'. apply option_eq. intros c'. rewrite view_lookup by done.
    rewrite lookup_delete_Some, view_lookup by done. rewrite <- Hp, elem_of_cons. subst v.
    split.
    + intros [Hin <-]. split_and!; [|by right|done]. intros He. apply Hnk. rewrite He.
      by apply (list_elem_of_fmap_2 key).
    + intros (Hne & [->|?] & <-); done.
  - destruct (cm_view key cm !! v) as [c|] eqn:Hv; [|done].
    apply view_lookup in Hv as [(l & Hl & Hc)%listed_elem Hk]; [|done].
    by destruct (Hn l c Hl Hc).
Qed.

Lemma unique_loc cm l l' c c' :
  keys_unique key cm -> l ∈ Connections cm -> cm_heap cm !! l = Some c ->
  l' ∈ Connections cm -> cm_heap cm !! l' = Some c' -> key c = key c' -> l = l'.
Proof.
  intros Hu Hl Hc Hl' Hc' Hk. destruct (decide (l = l')) as [|Hne]; [done|exfalso].
  apply elem_of_Permutation in Hl as [rest Hp].
  rewrite Hp in Hl'. apply elem_of_cons in Hl' as [?|Hl']; [congruence|].
  unfold keys_unique, listed in Hu. rewrite Hp in Hu. cbn [omap list_omap] in Hu. rewrite Hc in Hu.
  cbn [map] in Hu. apply list.NoDup_cons in Hu as [Hn _]. apply Hn. rewrite Hk.
  apply (list_elem_of_fmap_2 key), list_elem_of_omap. eauto.
Qed.

(** new(serverConnection) and Add, as the forward open handler does. *)
Definition add_new (c : serverConnection) : CM loc := l ← new_conn c; _ ← Add l; mret l.

Lemma add_new_refines c cm :
  cm_ok cm -> keys_unique key cm -> conn_Open c = true -> cm_view key cm !! key c = None ->
  exists l cm', add_new c cm = (Ok l, cm') /\
    cm_ok cm' /\ keys_unique key cm' /\ cm_view key cm' = <[key c := c]> (cm_view key cm).
Proof.
  intros Hok Hu Hopen Hfresh. set (l := fresh (dom (cm_heap cm))).
  assert (cm_heap cm !! l = None) as Hl by apply not_elem_of_dom, is_fresh.
  set (cm' := {| cm_heap := <[l := c]> (cm_heap cm); Connections := Connections cm ++ [l] |}).
  exists l, cm'.
  assert (forall l', l' ∈ Connections cm -> l' <> l) as Hne.
  { intros l' Hin ->. destruct (cm_ok_alloc cm l Hok Hin) as [? Hx]. congruence. }
  assert (listed cm' = listed cm ++ [c]) as Hlist.
  { unfold listed, cm'. cbn [cm_heap Connections]. rewrite omap_app. f_equal.
    - apply omap_agree. intros l' Hl'.
      rewrite lookup_insert_ne; [done|]. intros ->. by apply (Hne l').
    - cbn. by rewrite lookup_insert_eq. }
  assert (keys_unique key cm') as Hu'.
  { unfold keys_unique. rewrite Hlist, map_app. apply list.NoDup_app. split_and!; [done| |].
    - intros k Hk ->%list_elem_of_singleton.
      apply list_elem_of_fmap in Hk as (c' & Ek & Hc').
      assert (cm_view key cm !! key c' = Some c') as Hv by by apply view_lookup.
      congruence.
    - apply NoDup_singleton. }
  split_and!; [| |done|].
  - unfold add_new, new_conn. cbv [mbind M_bind]. fold l. unfold Add, deref. cbv [mbind M_bind].
    cbn [set_heap cm_heap]. by rewrite lookup_insert_eq.
  - split; cbn [cm' cm_heap Connections].
    + apply list.NoDup_app. split_and!; [apply Hok| |apply NoDup_singleton].
      intros l' Hin ->%list_elem_of_singleton. by apply (Hne l).
    + intros l' [Hin|He]%elem_of_app; [|apply list_elem_of_singleton in He as ->].
      * rewrite lookup_insert_ne; [by apply Hok|]. intros ->. by apply (Hne l').
      * exists c. by rewrite lookup_insert_eq.
  - apply map_eq. intros v. apply option_eq. intros c'.
    rewrite view_lookup, Hlist, elem_of_app, list_elem_of_singleton by done.
    rewrite lookup_insert_Some, view_lookup by done. split.
    + intros [[?|He'] <-]; [|subst c'; by left]. right. split_and!; try done. intros He.
      assert (cm_view key cm !! key c' = Some c') as Hv by by apply view_lookup. congruence.
    + intros [[<- ->]|(Hn & ? & <-)]; auto.
Qed.
End Table.

(** ** The table as a finite map *)

Inductive table_key := KID | KOT | KTO.

Definition key_of (k : table_key) : serverConnection -> Z :=
  match k with KID => conn_ID | KOT => conn_OT | KTO => conn_TO end.
Definition GetBy (k : table_key) : Z -> CM loc :=
  match k with KID => GetByID | KOT => GetByOT | KTO => GetByTO end.
Definition CloseBy (k : table_key) : Z -> CM unit :=
  match k with KID => CloseByID | KOT => CloseByOT | KTO => CloseByTO end.
Definition missing (k : table_key) : error :=
  Errorf match k with
  | KID => "couldn't find connection by ID"
  | KOT => "couldn't find connection by OT"
  | KTO => "couldn't find connection by TO"
  end.

Lemma key_of_Open k b c : key_of k (set_Open b c) = key_of k c.
Proof. by destruct k. Qed.

Inductive table_op :=
  | OpAdd (c : serverConnection)
  | OpGet (v : Z)
  | OpClose (v : Z).

(** What a caller sees: the connection a lookup's pointer leads to, or the error. *)
Definition table_run1 (k : table_key) (op : table_op) : CM (error + option serverConnection) :=
  match op with
  | OpAdd c => try (_ ← add_new c; mret None)
  | OpGet v => try (l ← GetBy k v; c ← deref l; mret (Some c))
  | OpClose v => try (_ ← CloseBy k v; mret None)
  end.

Fixpoint table_run (k : table_key) (ops : list table_op) :
    CM (list (error + option serverConnection)) :=
  match ops with
  | [] => mret []
  | op :: ops => r ← table_run1 k op; rs ← table_run k ops; mret (r :: rs)
  end.

Definition spec_run1 (k : table_key) (op : table_op) (m : gmap Z serverConnection) :
    (error + option serverConnection) * gmap Z serverConnection :=
  match op with
  | OpAdd c => (inr None, <[key_of k c := c]> m)
  | OpGet v => (match m !! v with Some c => inr (Some c) | None => inl (missing k) end, m)
  | OpClose v => (match m !! v with Some _ => inr None | None => inl (missing k) end, delete v m)
  end.

Fixpoint spec_run (k : table_key) (ops : list table_op) (m : gmap Z serverConnection) :
    list (error + option serverConnection) * gmap Z serverConnection :=
  match ops with
  | [] => ([], m)
  | op :: ops =>
      let '(r, m) := spec_run1 k op m in
      let '(rs, m) := spec_run k ops m in (r :: rs, m)
  end.

(** New connections are open and their key is not in use. *)
Fixpoint adds_fresh (k : table_key) (ops : list table_op) (m : gmap Z serverConnection) : Prop :=
  match ops with
  | [] => True
  | op :: ops =>
      match op with OpAdd c => conn_Open c = true /\ m !! key_of k c = None | _ => True end /\
      adds_fresh k ops (snd (spec_run1 k op m))
  end.

Lemma GetBy_refines k v cm :
  cm_ok cm -> keys_unique (key_of k) cm ->
  match cm_view (key_of k) cm !! v with
  | Some c => exists l, GetBy k v cm = (Ok l, cm) /\ l ∈ Connections cm /\ cm_heap cm !! l = Some c
  | None => GetBy k v cm = (Err (missing k), cm)
  end.
Proof. destruct k; apply get_by_refines. Qed.

Lemma CloseBy_refines k v cm :
  cm_ok cm -> keys_unique (key_of k) cm ->
  match cm_view (key_of k) cm !! v with
  | Some c => exists l cm', CloseBy k v cm = (Ok tt, cm') /\
      cm_ok cm' /\ keys_unique (key_of k) cm' /\
      cm_view (key_of k) cm' = delete v (cm_view (key_of k) cm) /\
      l ∈ Connections cm /\ cm_heap cm !! l = Some c /\ cm_heap cm' !! l = Some (set_Open false c)
  | None => CloseBy k v cm = (Err (missing k), cm)
  end.
Proof. destruct k; by apply close_by_refines. Qed.

Lemma table_run1_refines k op cm :
  cm_ok cm -> keys_unique (key_of k) cm ->
  match op with OpAdd c => conn_Open c = true /\ cm_view (key_of k) cm !! key_of k c = None
              | _ => True end ->
  exists cm', table_run1 k op cm = (Ok (fst (spec_run1 k op (cm_view (key_of k) cm))), cm') /\
    cm_ok cm' /\ keys_unique (key_of k) cm' /\
    cm_view (key_of k) cm' = snd (spec_run1 k op (cm_view (key_of k) cm)).
Proof.
  intros Hok Hu Hadd. destruct op as [c|v|v]; cbn [table_run1 spec_run1 fst snd].
  - destruct Hadd as [Ho Hf].
    destruct (add_new_refines (key_of k) c cm Hok Hu Ho Hf) as (l & cm' & E & ? & ? & ?).
    exists cm'. split; [|done]. apply try_Ok. by rewrite (bind_Ok _ _ _ _ _ E).
  - pose proof (GetBy_refines k v cm Hok Hu) as H. destruct (_ !! v) as [c|].
    + destruct H as (l & E & _ & Hc). exists cm. split; [|done]. apply try_Ok.
      rewrite (bind_Ok _ _ _ _ _ E). by rewrite (bind_Ok _ _ _ _ _ (deref_Ok l c cm Hc)).
    + exists cm. split; [|done]. apply try_Err. by rewrite (bind_Err _ _ _ _ _ H).
  - pose proof (CloseBy_refines k v cm Hok Hu) as H. destruct (_ !! v) as [c|] eqn:Hv.
    + destruct H as (l & cm' & E & ? & ? & ? & _). exists cm'. split; [|done]. apply try_Ok.
      by rewrite (bind_Ok _ _ _ _ _ E).
    + exists cm. split; [apply try_Err; by rewrite (bind_Err _ _ _ _ _ H)|].
      split_and!; [done..|]. symmetry. by apply delete_id.
Qed.

(** C14. The connection table is a finite map as long as its keys are unique:
    any sequence of lookups, closings and additions of connections whose key
    is not listed at that moment (Add does not look for one), all by one key
    and interleaved in any way, gives every caller the answers the map gives,
    keeps the listed connections allocated, distinct and open, and leaves the
    map's contents listed. *)
Theorem table_refines_map k ops cm :
  cm_ok cm -> keys_unique (key_of k) cm -> adds_fresh k ops (cm_view (key_of k) cm) ->
  exists cm', table_run k ops cm = (Ok (fst (spec_run k ops (cm_view (key_of k) cm))), cm') /\
    cm_ok cm' /\ cm_view (key_of k) cm' = snd (spec_run k ops (cm_view (key_of k) cm)).
Proof.
  revert cm. induction ops as [|op ops IH]; intros cm Hok Hu Hf; cbn [table_run spec_run].
  - by exists cm.
  - destruct Hf as [Hf1 Hf].
    destruct (table_run1_refines k op cm Hok Hu Hf1) as (cm1 & E1 & Hok1 & Hu1 & Hv1).
    rewrite (bind_Ok _ _ _ _ _ E1).
    destruct (spec_run1 k op (cm_view (key_of k) cm)) as [r m]. cbn [fst snd] in *. subst m.
    destruct (IH cm1 Hok1 Hu1 Hf) as (cm2 & E2 & Hok2 & Hv2).
    rewrite (bind_Ok _ _ _ _ _ E2).
    destruct (spec_run k ops (cm_view (key_of k) cm1)) as [rs m]. by exists cm2.
Qed.

Definition empty_cm : serverConnectionManager := {| cm_heap := ∅; Connections := [] |}.

Lemma empty_cm_ok : cm_ok empty_cm.
Proof. split; [apply NoDup_nil_2|]. by intros l ?%elem_of_nil. Qed.

Definition sample_conn (ot : Z) : serverConnection :=
  {| conn_ID := 1; conn_OT := ot; conn_TO := 7; conn_RPI := 0; conn_Path := []; conn_Open := true |}.

Definition sample_ops : list table_op :=
  [OpAdd (sample_conn 5); OpAdd (sample_conn 6); OpClose 5; OpGet 5; OpGet 6].

Lemma table_refines_map_witness :
  (fst (spec_run KOT sample_ops ∅) =
     [inr None; inr None; inr None; inl (missing KOT); inr (Some (sample_conn 6))]) /\
  exists cm', table_run KOT sample_ops empty_cm =
    (Ok (fst (spec_run KOT sample_ops (cm_view (key_of KOT) empty_cm))), cm') /\
    cm_ok cm' /\
    cm_view (key_of KOT) cm' = snd (spec_run KOT sample_ops (cm_view (key_of KOT) empty_cm)).
Proof.
  split; [vm_compute; reflexivity|]. apply (table_refines_map KOT sample_ops empty_cm).
  - apply empty_cm_ok.
  - apply NoDup_nil_2.
  - vm_compute. tauto.
Defined.

(** Closing by a key that several connections share closes exactly the
    first of them: it is marked closed for everyone who holds it, and every
    other connection stays listed and unchanged. *)
Theorem CloseBy_removes_one k v cm :
  cm_ok cm ->
  (exists l c cm', CloseBy k v cm = (Ok tt, cm') /\
     cm_heap cm !! l = Some c /\ key_of k c = v /\
     Permutation (l :: Connections cm') (Connections cm) /\
     cm_heap cm' !! l = Some (set_Open false c) /\
     (forall l', l' <> l -> cm_heap cm' !! l' = cm_heap cm !! l') /\ cm_ok cm') \/
  (CloseBy k v cm = (Err (missing k), cm) /\ forall c, c ∈ listed cm -> key_of k c <> v).
Proof.
  intros Hok. pose proof (close_by_found (key_of k)) as H.
  assert (CloseBy k = close_by (key_of k) (match missing k with Errorf m => m | _ => "" end)) as -> by by destruct k.
  destruct (H (match missing k with Errorf m => m | _ => "" end) v cm Hok)
    as [(l & c & cm' & Hl & Hc & Hk & E & Hcl)|[E Hn]].
  - left. exists l, c, cm'. destruct (closed_state_ok _ _ _ Hok Hcl) as (Hok' & _ & _).
    destruct Hcl as [Hp Hh]. split_and!; [done..| | |done].
    + by rewrite Hh, lookup_alter_eq, Hc.
    + intros l' Hne. by rewrite Hh, lookup_alter_ne.
  - right. split; [by destruct k|]. intros c (l & Hl & Hc)%listed_elem. by apply (Hn l).
Qed.

Lemma CloseBy_removes_one_witness :
  let c := {| conn_ID := 1; conn_OT := 5; conn_TO := 7; conn_RPI := 0; conn_Path := [];
              conn_Open := true |} in
  let cm := {| cm_heap := <[1%positive := c]> (<[2%positive := c]> ∅); Connections := [1%positive; 2%positive] |} in
  cm_ok cm /\
  ((exists l c cm', CloseBy KTO 7 cm = (Ok tt, cm') /\
     cm_heap cm !! l = Some c /\ key_of KTO c = 7 /\
     Permutation (l :: Connections cm') (Connections cm) /\
     cm_heap cm' !! l = Some (set_Open false c) /\
     (forall l', l' <> l -> cm_heap cm' !! l' = cm_heap cm !! l') /\ cm_ok cm') \/
  (CloseBy KTO 7 cm = (Err (missing KTO), cm) /\ forall c, c ∈ listed cm -> key_of KTO c <> 7)).
Proof.
  intros c cm. assert (cm_ok cm) as Hok.
  { split; [repeat constructor; set_solver|]. intros l Hl. exists c.
    repeat (apply elem_of_cons in Hl as [->|Hl]; [done|]). by apply elem_of_nil in Hl. }
  split; [exact Hok|]. apply (CloseBy_removes_one KTO 7 cm Hok).
Defined.
