(* ===== verification/Router.v ===== *)
(** * Routing and the built-in tag provider: server_router.go

    [CIPEndpoint] is the interface the server is written against; a
    [PathRouter] maps CIP routes to endpoints, which are shared by pointer
    ([eps] is the store of endpoint objects).  [MapTagProvider] is the
    program's own endpoint: a map from lower-cased tag names to Go values.
    Each method of it runs under its mutex; each slice in its map has a
    backing array of its own. *)
From S2P Require Import Prelude Reader GoStrings GoValue GoFloat Types Items.
(** ** The interface *)

Record ServerTagInfo := { sti_Name : bytes; sti_Type : Z }.

Class CIPEndpoint (P : Type) := {
  TagRead : bytes -> Z -> M P goval;              (* tag, qty int16 *)
  TagWrite : bytes -> goval -> M P unit;
  IORead : M P bytes;
  IOWrite : list CIPItem -> M P unit;
  TagLister : option (P -> list ServerTagInfo);   (* the optional interface *)
}.

Definition is_slice (v : goval) : bool := match v with VSlice _ _ => true | _ => false end.

(** What a successful write may make of a value: the value itself, or its
    conversion to the element type of the array it went into. *)
Definition written (v v' : goval) : Prop := v' = v \/ exists t, reflect_Convert v t = Ok (Some v').

(** What a client of the interface relies on: [stores p tag qty v] says that
    the endpoint answers v to a read; reads change nothing, a written value
    is what the next reads see, and other tags keep their values. *)
Class EndpointLaws (P : Type) `{CIPEndpoint P} := {
  stores : P -> bytes -> Z -> goval -> Prop;
  tag_base : bytes -> bytes;
  TagRead_stores p tag qty v : stores p tag qty v -> TagRead tag qty p = (Ok v, p);
  TagWrite_stores p tag v p' :
    TagWrite tag v p = (Ok tt, p') -> is_slice v = false -> v <> VNil ->
    exists v', written v v' /\ stores p' tag 1 v';
  TagWrite_frame p tag v p' tag2 qty v2 :
    TagWrite tag v p = (Ok tt, p') -> tag_base tag2 <> tag_base tag ->
    stores p tag2 qty v2 -> stores p' tag2 qty v2;
}.

(** ** PathRouter *)

Abbreviation eloc := positive.

Record PathRouter := { router_Path : gmap bytes eloc }.

Definition NewRouter : PathRouter := {| router_Path := ∅ |}.

Definition Handle (path : bytes) (p : eloc) (router : PathRouter) : PathRouter :=
  {| router_Path := <[path := p]> (router_Path router) |}.

Definition Resolve (router : PathRouter) (path : bytes) : res eloc :=
  match router_Path router !! path with
  | Some tp => Ok tp
  | None => Err (Errorf "path not recognized")
  end.

(** ** MapTagProvider *)

Record MapTagProvider := { mtp_Data : option (gmap bytes goval) }.   (* None: a nil map *)

Definition data_of (p : MapTagProvider) : gmap bytes goval := default ∅ (mtp_Data p).
Definition put_tag (name : bytes) (v : goval) (d : gmap bytes goval) : MapTagProvider :=
  {| mtp_Data := Some (<[name := v]> d) |}.

(** A trailing [N] of the tag name. *)
Definition parseElementTag (tag : bytes) : bytes * Z * bool :=
  if negb (has_suffix [93] tag) then (tag, 0, false)
  else
    match last_index 91 tag with
    | None => (tag, 0, false)
    | Some open =>
        match atoi (take (length tag - 1 - S open) (drop (S open) tag)) with
        | None => (tag, 0, false)
        | Some n => (take open tag, n, true)
        end
    end.

(** reflect's Slice(i, j) and Index(i) on a slice *)
Definition slice_range (l : list goval) (i j : Z) : res (list goval) :=
  if (0 <=? i) && (i <=? j) && (j <=? Z.of_nat (length l)) then
    Ok (take (Z.to_nat (j - i)) (drop (Z.to_nat i) l))
  else Panic "reflect.Value.Slice: slice index out of bounds".

Definition slice_index (l : list goval) (i : Z) : res goval :=
  match (if i <? 0 then None else l !! Z.to_nat i) with
  | Some v => Ok v
  | None => Panic "reflect: slice index out of range"
  end.

Definition mtp_TagRead (tag : bytes) (qty : Z) : M MapTagProvider goval := fun p =>
  let tag := to_lower tag in
  let d := data_of p in
  let p := {| mtp_Data := Some d |} in
  let '(baseName, elemIdx, hasElem) := parseElementTag tag in
  (match d !! baseName with
   | None => Err (Errorf "tag not in map")
   | Some val =>
       if hasElem : bool then
         match val with
         | VSlice t l =>
             if (elemIdx <? 0) || (Z.of_nat (length l) <=? elemIdx) then
               Err (Errorf "element index out of range")
             else
               let end_ := elemIdx + qty in
               if Z.of_nat (length l) <? end_ then Err (Errorf "requested too many elements")
               else if qty =? 1 then slice_index l elemIdx
               else l ← slice_range l elemIdx end_; Ok (VSlice t l)
         | _ => Err (Errorf "element access on non-slice")
         end
       else
         match val with
         | VSlice t l =>
             if qty <=? Z.of_nat (length l) then l ← slice_range l 0 qty; Ok (VSlice t l)
             else Err (Errorf "too many elements requested")
         | _ => Ok val
         end
   end, p).

Definition convertToElement (value : goval) (target : gotype) : res goval :=
  c ← reflect_Convert value target;
  match c with
  | Some v => Ok v
  | None => Err (Errorf "cannot convert")
  end.

(** The loop over the new elements; the first that does not convert stops it. *)
Fixpoint convert_elements (l : list goval) (elemType : gotype) : res (list goval) :=
  match l with
  | [] => Ok []
  | v :: l =>
      v ← res_wrap "tag element" (convertToElement v elemType);
      l ← convert_elements l elemType; Ok (v :: l)
  end.

Definition write_element (value existing : goval) (elemIdx : Z) : res goval :=
  match existing with
  | VSlice t l =>
      if (elemIdx <? 0) || (Z.of_nat (length l) <=? elemIdx) then
        Err (Errorf "element index out of range")
      else
        converted ← res_wrap "tag" (convertToElement value t);
        Ok (VSlice t (<[Z.to_nat elemIdx := converted]> l))
  | _ => Err (Errorf "element write on non-slice")
  end.

(** What a full write of value stores over what is there. *)
Definition write_whole (value : goval) (existing : option goval) : res goval :=
  match existing, value with
  | Some (VSlice elemType _), VSlice TAny l =>
      l ← convert_elements l elemType; Ok (VSlice elemType l)
  | _, _ => Ok value
  end.

Definition mtp_TagWrite (tag : bytes) (value : goval) : M MapTagProvider unit := fun p =>
  let tag := to_lower tag in
  let d := data_of p in
  let p := {| mtp_Data := Some d |} in
  let '(baseName, elemIdx, hasElem) := parseElementTag tag in
  let r :=
    if hasElem : bool then
      match d !! baseName with
      | None => Err (Errorf "cannot write element of non-existent array")
      | Some existing => write_element value existing elemIdx
      end
    else write_whole value (d !! baseName) in
  match r with
  | Ok v => (Ok tt, put_tag baseName v d)
  | Err e => (Err e, p)
  | Panic w => (Panic w, p)
  end.

Definition mtp_IORead : M MapTagProvider bytes := fail (Errorf "not implemented").
Definition mtp_IOWrite (items : list CIPItem) : M MapTagProvider unit := fail (Errorf "not implemented").

(** The order of a Go map range is any; the model lists the keys in the
    map's own order. *)
Definition TagList (p : MapTagProvider) : list ServerTagInfo :=
  match mtp_Data p with
  | None => []
  | Some d => map (fun '(name, val) => {| sti_Name := name; sti_Type := fst (GoVarToCIPType val) |})
                (map_to_list d)
  end.

#[export] Instance MapTagProvider_CIPEndpoint : CIPEndpoint MapTagProvider := {|
  TagRead := mtp_TagRead;
  TagWrite := mtp_TagWrite;
  IORead := mtp_IORead;
  IOWrite := mtp_IOWrite;
  TagLister := Some TagList;
|}.

(** ** What a read answers *)

Definition read_of (tag : bytes) (qty : Z) (d : gmap bytes goval) : res goval :=
  fst (mtp_TagRead tag qty {| mtp_Data := Some d |}).

Definition mtp_stores (p : MapTagProvider) (tag : bytes) (qty : Z) (v : goval) : Prop :=
  exists d, mtp_Data p = Some d /\ read_of tag qty d = Ok v.

Definition mtp_base (tag : bytes) : bytes := fst (fst (parseElementTag (to_lower tag))).

Lemma read_of_spec tag qty d :
  mtp_TagRead tag qty {| mtp_Data := Some d |} = (read_of tag qty d, {| mtp_Data := Some d |}).
Proof.
  unfold read_of, mtp_TagRead. by destruct (parseElementTag (to_lower tag)) as [[? ?] ?].
Qed.

(** A read looks at the value under the base name only. *)
Lemma read_of_agree tag qty d d' :
  d !! mtp_base tag = d' !! mtp_base tag -> read_of tag qty d = read_of tag qty d'.
Proof.
  unfold read_of, mtp_TagRead, mtp_base.
  destruct (parseElementTag (to_lower tag)) as [[base idx] has]. cbn. by intros ->.
Qed.

Lemma slice_index_spec l i v : 0 <= i -> l !! Z.to_nat i = Some v -> slice_index l i = Ok v.
Proof. intros Hi H. unfold slice_index. by rewrite (proj2 (Z.ltb_ge _ _)), H by lia. Qed.

Lemma TagWrite_Ok_inv tag v p p' :
  mtp_TagWrite tag v p = (Ok tt, p') ->
  exists v', p' = put_tag (mtp_base tag) v' (data_of p) /\
    if snd (parseElementTag (to_lower tag)) then
      exists existing, data_of p !! mtp_base tag = Some existing /\
        write_element v existing (snd (fst (parseElementTag (to_lower tag)))) = Ok v'
    else write_whole v (data_of p !! mtp_base tag) = Ok v'.
Proof.
  unfold mtp_TagWrite, mtp_base. destruct (parseElementTag (to_lower tag)) as [[base idx] has].
  cbn [fst snd]. destruct has.
  - destruct (data_of p !! base) as [ex|] eqn:E; [|done].
    destruct (write_element v ex idx) as [v'| |] eqn:W; [|done..]. intros [= <-].
    exists v'. split; [done|]. by exists ex.
  - destruct (write_whole v _) as [v'| |] eqn:W; [|done..]. intros [= <-]. by exists v'.
Qed.

Lemma convertToElement_written v t v' : convertToElement v t = Ok v' -> written v v'.
Proof.
  unfold convertToElement. intros H. right. exists t.
  destruct (reflect_Convert v t) as [[w|]| |] eqn:E; simplify_eq/=; done.
Qed.

Lemma write_element_inv v existing i v' :
  write_element v existing i = Ok v' ->
  exists t l w, existing = VSlice t l /\ 0 <= i < Z.of_nat (length l) /\
    convertToElement v t = Ok w /\ v' = VSlice t (<[Z.to_nat i := w]> l).
Proof.
  destruct existing as [| | | | | |t l| | |]; try done. cbn [write_element].
  destruct (_ || _) eqn:B; [done|]. apply orb_false_iff in B as [B1 B2].
  apply Z.ltb_ge in B1. apply Z.leb_gt in B2. unfold mbind, res_bind.
  destruct (res_wrap "tag" (convertToElement v t)) as [w| |] eqn:C; [|done..].
  apply res_wrap_Ok in C. intros [= <-]. exists t, l, w. done.
Qed.

Lemma read_element tag d t l w :
  snd (parseElementTag (to_lower tag)) = true ->
  d !! mtp_base tag = Some (VSlice t l) ->
  0 <= snd (fst (parseElementTag (to_lower tag))) < Z.of_nat (length l) ->
  l !! Z.to_nat (snd (fst (parseElementTag (to_lower tag)))) = Some w ->
  read_of tag 1 d = Ok w.
Proof.
  unfold read_of, mtp_TagRead, mtp_base.
  destruct (parseElementTag (to_lower tag)) as [[base idx] has]. cbn. intros -> Hd Hi Hw.
  rewrite Hd. rewrite (proj2 (orb_false_iff _ _)) by (rewrite Z.ltb_ge, Z.leb_gt; lia).
  rewrite (proj2 (Z.ltb_ge _ _)) by lia. apply slice_index_spec; [lia|done].
Qed.

Lemma read_scalar tag qty d v :
  snd (parseElementTag (to_lower tag)) = false ->
  d !! mtp_base tag = Some v -> is_slice v = false -> read_of tag qty d = Ok v.
Proof.
  unfold read_of, mtp_TagRead, mtp_base.
  destruct (parseElementTag (to_lower tag)) as [[base idx] has]. cbn. intros -> -> Hs.
  by destruct v.
Qed.

(** The value a successful write of v to the tag leaves there: v itself, or for
    an element address v converted to the element type of the array. *)
Definition write_result (p : MapTagProvider) (tag : bytes) (v v' : goval) : Prop :=
  if snd (parseElementTag (to_lower tag)) then
    exists t l, data_of p !! mtp_base tag = Some (VSlice t l) /\ convertToElement v t = Ok v'
  else v' = v.

Lemma write_result_written p tag v v' : write_result p tag v v' -> written v v'.
Proof.
  unfold write_result. destruct (snd _); [|by left]. intros (t & l & _ & H).
  by eapply convertToElement_written.
Qed.

Lemma mtp_write_stores p tag v p' :
  mtp_TagWrite tag v p = (Ok tt, p') -> is_slice v = false ->
  exists v', write_result p tag v v' /\ mtp_stores p' tag 1 v'.
Proof.
  intros H Hs. unfold write_result. apply TagWrite_Ok_inv in H as (v' & -> & H).
  destruct (snd (parseElementTag (to_lower tag))) eqn:Hel.
  - destruct H as (ex & Hex & (t & l & w & -> & Hi & Hc & ->)%write_element_inv).
    exists w. split; [by eauto|]. eexists. split; [done|].
    eapply read_element; [done|by rewrite lookup_insert_eq|by rewrite length_insert|].
    apply list_lookup_insert_eq. lia.
  - exists v. split; [done|]. eexists. split; [done|].
    assert (v' = v) as -> by (destruct (data_of p !! _) as [[]|], v; simplify_eq/=; done).
    apply read_scalar; [done|by rewrite lookup_insert_eq|done].
Qed.

Lemma mtp_write_frame p tag v p' tag2 qty v2 :
  mtp_TagWrite tag v p = (Ok tt, p') -> mtp_base tag2 <> mtp_base tag ->
  mtp_stores p tag2 qty v2 -> mtp_stores p' tag2 qty v2.
Proof.
  intros H Hne (d & Hd & Hr). apply TagWrite_Ok_inv in H as (v' & -> & _).
  eexists. split; [done|]. rewrite <- Hr. apply read_of_agree.
  rewrite lookup_insert_ne by done. unfold data_of. by rewrite Hd.
Qed.

(** The first element a read of the tag asks for. *)
Definition first_read (tag : bytes) : Z :=
  let '(_, idx, has) := parseElementTag (to_lower tag) in if has : bool then idx else 0.

(** A read of an array looks at the elements it asks for only. *)
Lemma read_of_elements tag qty d d' t l l' v :
  d !! mtp_base tag = Some (VSlice t l) -> d' !! mtp_base tag = Some (VSlice t l') -> length l' = length l ->
  (forall k : nat, first_read tag <= Z.of_nat k < first_read tag + qty -> l' !! k = l !! k) ->
  read_of tag qty d = Ok v -> read_of tag qty d' = Ok v.
Proof.
  unfold read_of, mtp_TagRead, mtp_base, first_read.
  destruct (parseElementTag (to_lower tag)) as [[base idx] has]. cbn [fst snd data_of mtp_Data default id].
  assert (forall i, 0 <= i -> i + qty <= Z.of_nat (length l) -> 0 <= qty ->
    (forall k : nat, i <= Z.of_nat k < i + qty -> l' !! k = l !! k) ->
    take (Z.to_nat qty) (drop (Z.to_nat i) l') = take (Z.to_nat qty) (drop (Z.to_nat i) l)) as Hpart.
  { intros i Hi Hle Hq Hk. apply list_eq. intros k.
    destruct (decide (k < Z.to_nat qty)%nat) as [Hlt|Hge]; [|by rewrite !lookup_take_ge by lia].
    rewrite !lookup_take_lt, !lookup_drop by done. apply Hk. lia. }
  intros -> -> Hlen Hk. rewrite Hlen. unfold slice_range, slice_index. rewrite Hlen. destruct has.
  - destruct (idx <? 0) eqn:Hneg; cbn [orb]; [done|]. apply Z.ltb_ge in Hneg.
    destruct (Z.of_nat (length l) <=? idx); [done|].
    destruct (Z.ltb_spec (Z.of_nat (length l)) (idx + qty)) as [|Hend]; [done|].
    destruct (Z.eqb_spec qty 1) as [->|_]; [by rewrite Hk by lia|].
    rewrite Z.add_simpl_l. destruct (_ && _) eqn:B; [|done]. rewrite !andb_true_iff, !Z.leb_le in B. cbn [mbind res_bind].
    intros [= <-]. by rewrite Hpart by (try exact Hk; lia).
  - rewrite Z.sub_0_r. destruct (Z.leb_spec qty (Z.of_nat (length l))) as [Hend|]; [|done]. destruct (_ && _) eqn:B; [|done].
    rewrite !andb_true_iff, !Z.leb_le in B. cbn [mbind res_bind]. intros [= <-]. by rewrite Hpart by (try exact Hk; lia).
Qed.

(** A write into an array leaves its other elements alone. *)
Lemma mtp_write_elements tag v p p' tag2 qty v2 :
  mtp_TagWrite tag v p = (Ok tt, p') -> snd (parseElementTag (to_lower tag)) = true -> mtp_base tag2 = mtp_base tag ->
  ~ first_read tag2 <= first_read tag < first_read tag2 + qty ->
  mtp_stores p tag2 qty v2 -> mtp_stores p' tag2 qty v2.
Proof.
  intros H Hel Hb Hout (d & Hd & Hr). apply TagWrite_Ok_inv in H as (v' & -> & H). rewrite Hel in H.
  destruct H as (ex & Hex & (t & l & w & -> & Hi & _ & ->)%write_element_inv).
  eexists. split; [done|]. unfold data_of in *. rewrite Hd in Hex |- *. cbn [default id] in *.
  refine (read_of_elements tag2 qty d _ t l _ v2 _ _ (length_insert _ _ _) _ Hr);
    [by rewrite Hb|rewrite Hb; by apply lookup_insert_eq|].
  intros k Hk. apply list_lookup_insert_ne.
  assert (first_read tag = snd (fst (parseElementTag (to_lower tag)))) as Ef.
  { unfold first_read. destruct (parseElementTag (to_lower tag)) as [[base idx] has]. cbn [fst snd] in *. by subst has. }
  rewrite Ef in Hout. intros E. apply Hout. lia.
Qed.

(** A read before any data is there fails: it is one of the empty map. *)
Lemma TagRead_Ok_stores tag qty p v p2 : mtp_TagRead tag qty p = (Ok v, p2) ->
  mtp_stores {| mtp_Data := Some (data_of p) |} tag qty v.
Proof.
  intros Hr. eexists. split; [done|]. destruct p as [o].
  assert (mtp_TagRead tag qty {| mtp_Data := o |} =
    mtp_TagRead tag qty {| mtp_Data := Some (default ∅ o) |}) as E by by destruct o.
  rewrite E, read_of_spec in Hr. by injection Hr.
Qed.

#[export] Program Instance MapTagProvider_laws : EndpointLaws MapTagProvider := {|
  stores := mtp_stores;
  tag_base := mtp_base;
|}.
Next Obligation.
  intros [o] tag qty v (d & [= ->] & Hr). simpl. rewrite read_of_spec. by rewrite Hr.
Qed.
Next Obligation.
  intros p tag v p' H Hs _. destruct (mtp_write_stores p tag v p' H Hs) as (v' & Hw & Hst).
  exists v'. split; [by eapply write_result_written|done].
Qed.
Next Obligation. exact mtp_write_frame. Qed.

(** ** Properties *)

(** A route resolves to the endpoint last handled for exactly those
    bytes, and to an error when none was. *)
Theorem Resolve_Handle router path p path' :
  Resolve (Handle path p router) path' = if decide (path = path') then Ok p else Resolve router path'.
Proof.
  unfold Resolve, Handle. simpl. destruct (decide (path = path')) as [->|Hne].
  - by rewrite lookup_insert_eq.
  - by rewrite lookup_insert_ne.
Qed.

(** C36. What is written is read back: after a successful write of a single
    value, a read of the same tag (element addresses included, any case)
    answers it, converted to the array's element type if it went into one;
    the reads of every tag of another base name, for any count, are unchanged,
    and after the write of an element so is every read of that array whose
    range the element is not in. *)
Theorem TagWrite_then_TagRead p tag v p' :
  mtp_TagWrite tag v p = (Ok tt, p') -> is_slice v = false ->
  (exists v', write_result p tag v v' /\ mtp_TagRead tag 1 p' = (Ok v', p')) /\
  (forall tag2 qty v2 p2, mtp_TagRead tag2 qty p = (Ok v2, p2) ->
     mtp_base tag2 <> mtp_base tag \/
       snd (parseElementTag (to_lower tag)) = true /\ mtp_base tag2 = mtp_base tag /\
       ~ first_read tag2 <= first_read tag < first_read tag2 + qty ->
     mtp_TagRead tag2 qty p' = (Ok v2, p')).
Proof.
  intros H Hs. split.
  - destruct (mtp_write_stores p tag v p' H Hs) as (v' & Hw & Hst).
    exists v'. split; [done|]. exact (TagRead_stores (P:=MapTagProvider) p' tag 1 v' Hst).
  - intros tag2 qty v2 p2 Hr Hne. refine (TagRead_stores (P:=MapTagProvider) p' tag2 qty v2 _).
    apply TagRead_Ok_stores in Hr.
    assert (mtp_TagWrite tag v {| mtp_Data := Some (data_of p) |} = (Ok tt, p')) as H' by (rewrite <- H; by destruct p as [[d|]]).
    destruct Hne as [Hne|(Hel & Hb & Hout)]; [by eapply mtp_write_frame|by eapply mtp_write_elements].
Qed.

Definition sample_provider : MapTagProvider :=
  {| mtp_Data := Some {[ str "arr" := VSlice (TInt I16) [VInt I16 1; VInt I16 2]; str "x" := VInt I32 5 ]} |}.

Lemma TagWrite_then_TagRead_witness :
  exists p', mtp_TagWrite (str "Arr[1]") (VInt I32 70000) sample_provider = (Ok tt, p') /\
  mtp_TagRead (str "Arr[1]") 1 p' = (Ok (VInt I16 4464), p') /\
  mtp_TagRead (str "x") 1 p' = (Ok (VInt I32 5), p') /\
  mtp_TagRead (str "ARR[0]") 1 p' = (Ok (VInt I16 1), p').
Proof.
  destruct (TagWrite_then_TagRead sample_provider (str "Arr[1]") (VInt I32 70000)
    (put_tag (str "arr") (VSlice (TInt I16) [VInt I16 1; VInt I16 4464]) (data_of sample_provider)))
    as [(v' & (t & l & Hd & Hc) & Hr) Hframe]; [vm_compute; reflexivity|reflexivity|].
  exists (put_tag (str "arr") (VSlice (TInt I16) [VInt I16 1; VInt I16 4464]) (data_of sample_provider)).
  split; [vm_compute; reflexivity|]. split.
  - rewrite Hr. vm_compute in Hd. injection Hd as <- <-. vm_compute in Hc. injection Hc as <-. reflexivity.
  - split; (eapply Hframe; [vm_compute; reflexivity|]).
    + left. vm_compute. discriminate.
    + right. vm_compute. split_and!; [reflexivity|reflexivity|]. intros [_ E]. discriminate E.
Defined.

(** ** Arrays keep their element type *)

Definition scalar_type (t : gotype) : bool :=
  match t with TBool | TInt _ | TFloat32 | TFloat64 => true | _ => false end.

Lemma fixed_bytes_scalar v t s :
  scalar_type t = true -> sizeof t = Some s -> type_of v = Some t ->
  exists b, fixed_bytes v = Some b /\ length b = s.
Proof.
  intros Ht Hs Hv. destruct v; simplify_eq/=; try done.
  - by eexists.
  - rewrite Hs. simpl. eexists. split; [done|]. apply length_le_bytes.
  - eexists. split; [done|]. apply length_le_bytes.
  - eexists. split; [done|]. apply length_le_bytes.
Qed.

Lemma fixed_bytes_scalars l t s :
  scalar_type t = true -> sizeof t = Some s -> Forall (fun v => type_of v = Some t) l ->
  exists b, fixed_bytes_list l = Some b /\ length b = (length l * s)%nat.
Proof.
  intros Ht Hs. induction 1 as [|v l Hv _ IH]; [by eexists|].
  destruct (fixed_bytes_scalar v t s Ht Hs Hv) as (b & Hb & Hlb), IH as (bs & Hbs & Hl).
  cbn [fixed_bytes_list]. rewrite Hb, Hbs. eexists. split; [done|].
  rewrite length_app. simpl. lia.
Qed.

Lemma convert_elements_type l t l' :
  convert_elements l t = Ok l' -> t <> TAny ->
  length l' = length l /\ Forall (fun v => type_of v = Some t) l'.
Proof.
  revert l'. induction l as [|v l IH]; intros l' H Ht; cbn [convert_elements] in H.
  { injection H as <-. by split. }
  unfold mbind, res_bind in H.
  destruct (res_wrap _ (convertToElement v t)) as [w| |] eqn:C; [|done..].
  destruct (convert_elements l t) as [l''| |]; [|done..]. injection H as <-.
  destruct (IH l'' eq_refl Ht) as [Hl Hf]. split; [simpl; by rewrite Hl|].
  constructor; [|done]. apply res_wrap_Ok in C. unfold convertToElement in C.
  destruct (reflect_Convert v t) as [[w'|]| |] eqn:E; simplify_eq/=.
  by eapply reflect_Convert_type.
Qed.

Lemma read_array tag qty d t l :
  snd (parseElementTag (to_lower tag)) = false ->
  d !! mtp_base tag = Some (VSlice t l) -> 0 <= qty <= Z.of_nat (length l) ->
  read_of tag qty d = Ok (VSlice t (take (Z.to_nat qty) l)).
Proof.
  unfold read_of, mtp_TagRead, mtp_base.
  destruct (parseElementTag (to_lower tag)) as [[base idx] has]. cbn. intros -> -> Hq.
  rewrite (proj2 (Z.leb_le _ _)) by lia. unfold slice_range.
  rewrite (proj2 (andb_true_iff _ _)) by (rewrite andb_true_iff, !Z.leb_le; lia).
  cbn [mbind res_bind]. by rewrite Z.sub_0_r.
Qed.

(** An array tag stays readable: the untyped values a CIP write decodes
    to are converted to the element type the tag has, so that after the write
    a read of any number of the new elements can be serialized, at the size
    of that type per element. *)
Theorem array_write_readable p tag t l0 l p' qty s :
  snd (parseElementTag (to_lower tag)) = false ->
  data_of p !! mtp_base tag = Some (VSlice t l0) -> scalar_type t = true -> sizeof t = Some s ->
  mtp_TagWrite tag (VSlice TAny l) p = (Ok tt, p') -> 0 <= qty <= Z.of_nat (length l) ->
  exists v b, mtp_TagRead tag qty p' = (Ok v, p') /\
    binary_write v = Ok b /\ blen b = qty * Z.of_nat s.
Proof.
  intros Hel Hd Ht Hs Hw Hq. apply TagWrite_Ok_inv in Hw as (v' & -> & H).
  rewrite Hel, Hd in H. cbn [write_whole] in H. unfold mbind, res_bind in H.
  destruct (convert_elements l t) as [l'| |] eqn:Hc; [|done..]. injection H as <-.
  apply convert_elements_type in Hc as [Hl Hf]; [|by destruct t].
  exists (VSlice t (take (Z.to_nat qty) l')).
  destruct (fixed_bytes_scalars (take (Z.to_nat qty) l') t s) as (b & Hb & Hlb);
    [done|done|by apply Forall_take|].
  exists b. unfold put_tag. rewrite read_of_spec.
  rewrite (read_array tag qty _ t l'); [|done|by rewrite lookup_insert_eq|lia].
  split_and!; [done| |].
  - unfold binary_write. rewrite Hs. by rewrite Hb.
  - unfold blen. rewrite Hlb, length_take. rewrite Nat2Z.inj_mul. f_equal. lia.
Qed.

Lemma array_write_readable_witness :
  exists p', mtp_TagWrite (str "ARR") (VSlice TAny [VInt I32 7; VFloat32 0x3FC00000; VInt I64 (-1)])
      sample_provider = (Ok tt, p') /\
  exists v b, mtp_TagRead (str "ARR") 3 p' = (Ok v, p') /\ binary_write v = Ok b /\ blen b = 3 * 2.
Proof.
  eexists. split; [vm_compute; reflexivity|].
  apply (array_write_readable sample_provider (str "ARR") (TInt I16) [VInt I16 1; VInt I16 2]
    [VInt I32 7; VFloat32 0x3FC00000; VInt I64 (-1)] _ 3 2);
    first [vm_compute; reflexivity | zbound].
Defined.

(** ** Bounds *)

(** C39. A read with a count that is not negative never panics, and reads an
    array exactly within its bounds: it succeeds when the elements asked for
    all exist, and is an error otherwise.  (A negative count, which a request
    for 32768 elements or more becomes, slices out of range.) *)
Theorem TagRead_bounds tag qty d t l :
  let '(base, idx, has) := parseElementTag (to_lower tag) in
  d !! base = Some (VSlice t l) ->
  let first := if has then idx else 0 in
  if 0 <=? qty then
    if (0 <=? first) && (first + qty <=? Z.of_nat (length l)) && (negb has || (first <? Z.of_nat (length l)))
    then exists v, read_of tag qty d = Ok v /\
      v = if has && (qty =? 1) then default VNil (l !! Z.to_nat first)
          else VSlice t (take (Z.to_nat qty) (drop (Z.to_nat first) l))
    else exists e, read_of tag qty d = Err e
  else (exists e, read_of tag qty d = Err e) \/
       read_of tag qty d = Panic "reflect.Value.Slice: slice index out of bounds".
Proof.
  unfold read_of, mtp_TagRead. destruct (parseElementTag (to_lower tag)) as [[base idx] has].
  intros Hd. cbn [data_of mtp_Data default fst snd id]. rewrite Hd.
  destruct has; cbn [negb orb andb].
  - destruct (Z.ltb_spec idx 0) as [H1|H1]; cbn [orb].
    { rewrite (proj2 (Z.leb_gt 0 idx)) by lia. destruct (0 <=? qty); simpl; eauto. }
    destruct (Z.leb_spec (Z.of_nat (length l)) idx) as [H2|H2]; cbn [orb].
    { rewrite (proj2 (Z.ltb_ge idx _)), !andb_false_r by lia. destruct (0 <=? qty); simpl; eauto. }
    rewrite (proj2 (Z.leb_le 0 idx)), (proj2 (Z.ltb_lt idx _)) by lia. cbn [andb].
    rewrite !andb_true_r.
    destruct (Z.ltb_spec (Z.of_nat (length l)) (idx + qty)) as [H3|H3].
    { rewrite (proj2 (Z.leb_gt (idx + qty) (Z.of_nat (length l)))) by lia. destruct (0 <=? qty); simpl; eauto. }
    rewrite (proj2 (Z.leb_le (idx + qty) _)) by lia.
    destruct (Z.eqb_spec qty 1) as [->|Hq].
    + simpl. destruct (l !! Z.to_nat idx) as [w|] eqn:Hw.
      * eexists. split; [by apply slice_index_spec|done].
      * apply lookup_ge_None in Hw. lia.
    + unfold slice_range. destruct (Z.leb_spec 0 qty).
      * rewrite (proj2 (andb_true_iff _ _)) by (rewrite andb_true_iff, !Z.leb_le; lia).
        eexists. split; [reflexivity|]. cbn [andb].
        replace (idx + qty - idx) with qty by lia. done.
      * right. rewrite (proj2 (andb_false_iff _ _)); [done|].
        left. apply andb_false_iff. right. apply Z.leb_gt. lia.
  - rewrite andb_true_r, Z.add_0_l. cbn [andb Z.leb]. unfold slice_range.
    destruct (Z.leb_spec qty (Z.of_nat (length l))) as [H1|H1].
    + destruct (Z.leb_spec 0 qty).
      * simpl andb. cbn iota.
        eexists. split; [reflexivity|]. by rewrite Z.sub_0_r.
      * right. by rewrite andb_false_r.
    + destruct (0 <=? qty); simpl; eauto.
Qed.

Lemma TagRead_bounds_witness :
  exists e, read_of (str "arr[1]") 2
    {[ str "arr" := VSlice (TInt I16) [VInt I16 1; VInt I16 2] ]} = Err e.
Proof.
  apply (TagRead_bounds (str "arr[1]") 2 {[ str "arr" := VSlice (TInt I16) [VInt I16 1; VInt I16 2] ]}
    (TInt I16) [VInt I16 1; VInt I16 2]). vm_compute. reflexivity.
Defined.
