(* ===== verification/Messages.v ===== *)
(** * Wire messages: messages.go and the structs of sendreceive.go, server.go, connect.go, read.go, write.go

    Fixed-size structs as records, with the bytes binary.Write produces
    ([_bytes]) and what binary.Read makes of them ([read_]); the fields are
    little-endian and packed. *)
From S2P Require Import Prelude Reader CipNames CipDefs Types Items.
(** ** The encapsulation header *)

Record eipHeader := {
  hdr_Command : Z;         (* uint16 *)
  hdr_Length : Z;          (* uint16 *)
  hdr_SessionHandle : Z;   (* uint32 *)
  hdr_Status : Z;          (* uint32 *)
  hdr_Context : Z;         (* uint64 *)
  hdr_Options : Z;         (* uint32 *)
}.

Definition eipHeader_bytes (h : eipHeader) : bytes :=
  le_bytes 2 (hdr_Command h) ++ le_bytes 2 (hdr_Length h) ++ le_bytes 4 (hdr_SessionHandle h) ++
  le_bytes 4 (hdr_Status h) ++ le_bytes 8 (hdr_Context h) ++ le_bytes 4 (hdr_Options h).

Definition eipHeader_ok (h : eipHeader) : Prop :=
  0 <= hdr_Command h < 2 ^ 16 /\ 0 <= hdr_Length h < 2 ^ 16 /\ 0 <= hdr_SessionHandle h < 2 ^ 32 /\
  0 <= hdr_Status h < 2 ^ 32 /\ 0 <= hdr_Context h < 2 ^ 64 /\ 0 <= hdr_Options h < 2 ^ 32.

(** ** Register session *)

Record msgCIPRegister := { reg_ProtocolVersion : Z; reg_OptionFlag : Z }.   (* uint16, uint16 *)

Definition msgCIPRegister_bytes (m : msgCIPRegister) : bytes :=
  le_bytes 2 (reg_ProtocolVersion m) ++ le_bytes 2 (reg_OptionFlag m).

(** ** Results *)

Definition msgWriteResultHeader_bytes (seq service status ext : Z) : bytes :=
  le_bytes 2 seq ++ [service; 0; status; ext].

Definition msgUnconnWriteResultHeader_bytes (service status ext : Z) : bytes :=
  [service; 0; status; ext].

Definition msgMultiReadResult_bytes (service status : Z) : bytes := [service; 0] ++ le_bytes 2 status.
Definition msgMultiReadResultTypeHdr_bytes (ty tyinfolen : Z) : bytes := [ty; tyinfolen].

(** ** Forward open and close

    The standard and the large forward open differ in the width of the
    network connection parameters only: 2 and 4 bytes. *)

Record forwardOpen := {
  fo_Service : Z;
  fo_PathSize : Z;
  fo_ClassType : Z;
  fo_Class : Z;
  fo_InstanceType : Z;
  fo_Instance : Z;
  fo_Priority : Z;
  fo_TimeoutTicks : Z;
  fo_OTConnectionID : Z;            (* uint32 *)
  fo_TOConnectionID : Z;            (* uint32 *)
  fo_ConnectionSerialNumber : Z;    (* uint16 *)
  fo_VendorID : Z;                  (* uint16 *)
  fo_OriginatorSerialNumber : Z;    (* uint32 *)
  fo_Multiplier : Z;                (* uint32 *)
  fo_OTRPI : Z;                     (* uint32 *)
  fo_OTNetworkConnParams : Z;
  fo_TORPI : Z;                     (* uint32 *)
  fo_TONetworkConnParams : Z;
  fo_TransportTrigger : Z;
  fo_ConnPathSize : Z;
}.

Definition forwardOpen_bytes (params : nat) (m : forwardOpen) : bytes :=
  [fo_Service m] ++ [fo_PathSize m] ++ [fo_ClassType m] ++ [fo_Class m] ++ [fo_InstanceType m] ++
  [fo_Instance m] ++ [fo_Priority m] ++ [fo_TimeoutTicks m] ++
  le_bytes 4 (fo_OTConnectionID m) ++ le_bytes 4 (fo_TOConnectionID m) ++
  le_bytes 2 (fo_ConnectionSerialNumber m) ++ le_bytes 2 (fo_VendorID m) ++
  le_bytes 4 (fo_OriginatorSerialNumber m) ++ le_bytes 4 (fo_Multiplier m) ++
  le_bytes 4 (fo_OTRPI m) ++ le_bytes params (fo_OTNetworkConnParams m) ++
  le_bytes 4 (fo_TORPI m) ++ le_bytes params (fo_TONetworkConnParams m) ++
  [fo_TransportTrigger m] ++ [fo_ConnPathSize m].

Record forwardOpenReply := {
  fr_Service : Z;
  fr_Status : Z;
  fr_StatusLen : Z;
  fr_OTConnectionID : Z;
  fr_TOConnectionID : Z;
  fr_ConnectionSerialNumber : Z;
  fr_VendorID : Z;
  fr_OriginatorSerialNumber : Z;
  fr_OTApi : Z;
  fr_TOApi : Z;
}.

Definition forwardOpenReply_bytes (m : forwardOpenReply) : bytes :=
  [fr_Service m; 0; fr_Status m; fr_StatusLen m] ++
  le_bytes 4 (fr_OTConnectionID m) ++ le_bytes 4 (fr_TOConnectionID m) ++
  le_bytes 2 (fr_ConnectionSerialNumber m) ++ le_bytes 2 (fr_VendorID m) ++
  le_bytes 4 (fr_OriginatorSerialNumber m) ++ le_bytes 4 (fr_OTApi m) ++ le_bytes 4 (fr_TOApi m) ++
  [0; 0].

Record msgEIPForwardClose := {
  fc_Service : Z;
  fc_PathSize : Z;
  fc_ClassType : Z;
  fc_Class : Z;
  fc_InstanceType : Z;
  fc_Instance : Z;
  fc_Priority : Z;
  fc_TimeoutTicks : Z;
  fc_ConnectionSerialNumber : Z;    (* uint16 *)
  fc_VendorID : Z;                  (* uint16 *)
  fc_OriginatorSerialNumber : Z;    (* uint32 *)
  fc_ConnPathSize : Z;
}.

Definition msgEIPForwardClose_bytes (m : msgEIPForwardClose) : bytes :=
  [fc_Service m] ++ [fc_PathSize m] ++ [fc_ClassType m] ++ [fc_Class m] ++ [fc_InstanceType m] ++
  [fc_Instance m] ++ [fc_Priority m] ++ [fc_TimeoutTicks m] ++
  le_bytes 2 (fc_ConnectionSerialNumber m) ++ le_bytes 2 (fc_VendorID m) ++
  le_bytes 4 (fc_OriginatorSerialNumber m) ++ [fc_ConnPathSize m].

Section Decoders.
Context {R : Type} `{Reader R}.

Definition read_eipHeader : M R eipHeader :=
  read_struct 24
    (command ← read_u16; length ← read_u16; handle ← read_u32; status ← read_u32;
     context ← read_u64; options ← read_u32;
     mret {| hdr_Command := command; hdr_Length := length; hdr_SessionHandle := handle;
             hdr_Status := status; hdr_Context := context; hdr_Options := options |}).

Definition read_msgCIPRegister : M R msgCIPRegister :=
  read_struct 4 (v ← read_u16; o ← read_u16; mret {| reg_ProtocolVersion := v; reg_OptionFlag := o |}).

Definition read_forwardOpen (params : nat) : M R forwardOpen :=
  read_struct (38 + 2 * params)
    (service ← read_u8; pathsize ← read_u8; classtype ← read_u8; class ← read_u8;
     insttype ← read_u8; inst ← read_u8; priority ← read_u8; ticks ← read_u8;
     ot ← read_u32; to ← read_u32; serial ← read_u16; vendor ← read_u16;
     orig ← read_u32; mult ← read_u32; otrpi ← read_u32; otparams ← read_uint params;
     torpi ← read_u32; toparams ← read_uint params; trigger ← read_u8; connpath ← read_u8;
     mret {| fo_Service := service; fo_PathSize := pathsize; fo_ClassType := classtype;
             fo_Class := class; fo_InstanceType := insttype; fo_Instance := inst;
             fo_Priority := priority; fo_TimeoutTicks := ticks; fo_OTConnectionID := ot;
             fo_TOConnectionID := to; fo_ConnectionSerialNumber := serial; fo_VendorID := vendor;
             fo_OriginatorSerialNumber := orig; fo_Multiplier := mult; fo_OTRPI := otrpi;
             fo_OTNetworkConnParams := otparams; fo_TORPI := torpi;
             fo_TONetworkConnParams := toparams; fo_TransportTrigger := trigger;
             fo_ConnPathSize := connpath |}).

Definition read_forwardClose : M R msgEIPForwardClose :=
  read_struct 17
    (service ← read_u8; pathsize ← read_u8; classtype ← read_u8; class ← read_u8;
     insttype ← read_u8; inst ← read_u8; priority ← read_u8; ticks ← read_u8;
     serial ← read_u16; vendor ← read_u16; orig ← read_u32; connpath ← read_u8;
     mret {| fc_Service := service; fc_PathSize := pathsize; fc_ClassType := classtype;
             fc_Class := class; fc_InstanceType := insttype; fc_Instance := inst;
             fc_Priority := priority; fc_TimeoutTicks := ticks;
             fc_ConnectionSerialNumber := serial; fc_VendorID := vendor;
             fc_OriginatorSerialNumber := orig; fc_ConnPathSize := connpath |}).
End Decoders.

(** ** Round trips *)

Record forwardOpen_ok (params : nat) (m : forwardOpen) : Prop := {
  fo_bytes_ok : Forall is_byte [fo_Service m; fo_PathSize m; fo_ClassType m; fo_Class m;
    fo_InstanceType m; fo_Instance m; fo_Priority m; fo_TimeoutTicks m; fo_TransportTrigger m;
    fo_ConnPathSize m];
  fo_u16_ok : Forall (fun z => 0 <= z < 2 ^ 16) [fo_ConnectionSerialNumber m; fo_VendorID m];
  fo_u32_ok : Forall (fun z => 0 <= z < 2 ^ 32) [fo_OTConnectionID m; fo_TOConnectionID m;
    fo_OriginatorSerialNumber m; fo_Multiplier m; fo_OTRPI m; fo_TORPI m];
  fo_params_ok : Forall (fun z => 0 <= z < 2 ^ (8 * Z.of_nat params))
    [fo_OTNetworkConnParams m; fo_TONetworkConnParams m];
}.

Ltac split_Forall :=
  repeat match goal with
  | H : Forall _ (_ :: _) |- _ => apply Forall_cons_iff in H as [? H]
  end.

Ltac parse_field :=
  eapply parses_bind;
  [ first [ apply parses_u8; done | apply parses_u16; lia | apply parses_u32; lia
          | apply parses_uint; first [done | lia] ] | cbv beta ].

Section RoundTrips.
Context {R : Type} `{ReaderLaws R}.

Lemma parses_eipHeader h : eipHeader_ok h -> parses (R:=R) read_eipHeader (eipHeader_bytes h) h.
Proof.
  intros (? & ? & ? & ? & ? & ?). apply parses_struct; [|unfold eipHeader_bytes, msgCIPRegister_bytes; by rewrite !length_app, !length_le_bytes].
  unfold eipHeader_bytes. rewrite <- (app_nil_r (le_bytes 4 (hdr_Options h))).
  unfold read_u64. do 6 parse_field. destruct h. apply parses_ret.
Qed.

Lemma parses_msgCIPRegister m :
  0 <= reg_ProtocolVersion m < 2 ^ 16 -> 0 <= reg_OptionFlag m < 2 ^ 16 ->
  parses (R:=R) read_msgCIPRegister (msgCIPRegister_bytes m) m.
Proof.
  intros. apply parses_struct; [|unfold eipHeader_bytes, msgCIPRegister_bytes; by rewrite !length_app, !length_le_bytes].
  unfold msgCIPRegister_bytes. rewrite <- (app_nil_r (le_bytes 2 (reg_OptionFlag m))).
  do 2 parse_field. destruct m. apply parses_ret.
Qed.

Lemma parses_forwardOpen params m :
  forwardOpen_ok params m ->
  parses (R:=R) (read_forwardOpen params) (forwardOpen_bytes params m) m.
Proof.
  intros [Hb H16 H32 Hp]. split_Forall.
  apply parses_struct; [|unfold forwardOpen_bytes; rewrite !length_app, !length_le_bytes; simpl; lia].
  unfold forwardOpen_bytes. rewrite <- (app_nil_r [fo_ConnPathSize m]).
  do 20 parse_field. destruct m. apply parses_ret.
Qed.

Lemma parses_forwardClose m :
  Forall is_byte [fc_Service m; fc_PathSize m; fc_ClassType m; fc_Class m; fc_InstanceType m;
    fc_Instance m; fc_Priority m; fc_TimeoutTicks m; fc_ConnPathSize m] ->
  0 <= fc_ConnectionSerialNumber m < 2 ^ 16 -> 0 <= fc_VendorID m < 2 ^ 16 ->
  0 <= fc_OriginatorSerialNumber m < 2 ^ 32 ->
  parses (R:=R) read_forwardClose (msgEIPForwardClose_bytes m) m.
Proof.
  intros Hb ? ? ?. split_Forall.
  apply parses_struct; [|unfold msgEIPForwardClose_bytes; by rewrite !length_app, !length_le_bytes].
  unfold msgEIPForwardClose_bytes. rewrite <- (app_nil_r [fc_ConnPathSize m]).
  do 12 parse_field. destruct m. apply parses_ret.
Qed.
End RoundTrips.

#[export] Hint Resolve parses_eipHeader parses_forwardOpen : go.

Lemma length_eipHeader h : length (eipHeader_bytes h) = 24%nat.
Proof. unfold eipHeader_bytes. by rewrite !length_app, !length_le_bytes. Qed.
