(* ===== verification/Server.v ===== *)
(** * The server: state, transport and replies (server.go)

    One handler serves one TCP connection; the world of a handler is the
    server it belongs to (connection table, router, endpoint objects,
    identity attributes), its own fields, the connection's byte streams, the
    random numbers drawn so far and the I/O goroutines it has spawned.  The
    endpoints are any type with the CIPEndpoint interface. *)
From S2P Require Import Prelude Reader GoStrings GoValue CipNames CipDefs Types Items Conns Router Messages.
(** ** State *)

Record Server (P : Type) := {
  ConnMgr : serverConnectionManager;
  srv_Router : PathRouter;
  srv_eps : gmap eloc P;             (* the endpoint objects *)
  Attributes : gmap Z goval;
}.
Arguments ConnMgr {P} s. Arguments srv_Router {P} s.
Arguments srv_eps {P} s. Arguments Attributes {P} s.

(** net.Addr: the addresses extractLocalSocket tells apart *)
Inductive net_addr :=
  | TCPAddr (ip : bytes) (port : Z)
  | UDPAddr (ip : bytes) (port : Z)
  | OtherAddr.

(** net.Conn: the unread input, the writes so far, and the error the next
    write answers, if any. *)
Record tcp_conn := {
  c_in : bytes;
  c_out : list bytes;
  c_werr : option error;
  c_local : net_addr;
}.

Record serverTCPHandler := {
  h_conn : tcp_conn;
  h_handle : Z;              (* uint32 *)
  h_options : Z;             (* uint32 *)
  h_context : Z;             (* uint64 *)
  OTConnectionID : Z;        (* uint32 *)
  TOConnectionID : Z;        (* uint32 *)
  UnitDataSequencer : Z;     (* uint16 *)
}.

(** A running ioConnection: the fields of the forward open it uses, its
    endpoint, the shared connection and its sequence number. *)
Record io_task := {
  io_TO : Z;
  io_TORPI : Z;
  io_ep : eloc;
  io_conn : loc;
  io_seq : Z;                (* uint32 *)
}.

Record world (P : Type) := {
  w_srv : Server P;
  w_h : serverTCPHandler;
  w_rand : nat;              (* random numbers drawn *)
  w_io : list io_task;
}.
Arguments w_srv {P} w. Arguments w_h {P} w. Arguments w_rand {P} w. Arguments w_io {P} w.

Definition upd_srv {P} (f : Server P -> Server P) (w : world P) : world P :=
  {| w_srv := f (w_srv w); w_h := w_h w; w_rand := w_rand w; w_io := w_io w |}.
Definition upd_h {P} (f : serverTCPHandler -> serverTCPHandler) (w : world P) : world P :=
  {| w_srv := w_srv w; w_h := f (w_h w); w_rand := w_rand w; w_io := w_io w |}.

Definition set_ConnMgr {P} (cm : serverConnectionManager) (s : Server P) : Server P :=
  {| ConnMgr := cm; srv_Router := srv_Router s; srv_eps := srv_eps s; Attributes := Attributes s |}.
Definition set_eps {P} (eps : gmap eloc P) (s : Server P) : Server P :=
  {| ConnMgr := ConnMgr s; srv_Router := srv_Router s; srv_eps := eps; Attributes := Attributes s |}.

Definition set_conn (c : tcp_conn) (h : serverTCPHandler) : serverTCPHandler :=
  {| h_conn := c; h_handle := h_handle h; h_options := h_options h; h_context := h_context h;
     OTConnectionID := OTConnectionID h; TOConnectionID := TOConnectionID h;
     UnitDataSequencer := UnitDataSequencer h |}.
Definition set_session (handle options : Z) (h : serverTCPHandler) : serverTCPHandler :=
  {| h_conn := h_conn h; h_handle := handle; h_options := options; h_context := h_context h;
     OTConnectionID := OTConnectionID h; TOConnectionID := TOConnectionID h;
     UnitDataSequencer := UnitDataSequencer h |}.
Definition set_context (c : Z) (h : serverTCPHandler) : serverTCPHandler :=
  {| h_conn := h_conn h; h_handle := h_handle h; h_options := h_options h; h_context := c;
     OTConnectionID := OTConnectionID h; TOConnectionID := TOConnectionID h;
     UnitDataSequencer := UnitDataSequencer h |}.
Definition set_OT (z : Z) (h : serverTCPHandler) : serverTCPHandler :=
  {| h_conn := h_conn h; h_handle := h_handle h; h_options := h_options h; h_context := h_context h;
     OTConnectionID := z; TOConnectionID := TOConnectionID h;
     UnitDataSequencer := UnitDataSequencer h |}.
Definition set_TO (z : Z) (h : serverTCPHandler) : serverTCPHandler :=
  {| h_conn := h_conn h; h_handle := h_handle h; h_options := h_options h; h_context := h_context h;
     OTConnectionID := OTConnectionID h; TOConnectionID := z;
     UnitDataSequencer := UnitDataSequencer h |}.
Definition set_Sequencer (z : Z) (h : serverTCPHandler) : serverTCPHandler :=
  {| h_conn := h_conn h; h_handle := h_handle h; h_options := h_options h; h_context := h_context h;
     OTConnectionID := OTConnectionID h; TOConnectionID := TOConnectionID h;
     UnitDataSequencer := z |}.

Definition set_in (l : bytes) (c : tcp_conn) : tcp_conn :=
  {| c_in := l; c_out := c_out c; c_werr := c_werr c; c_local := c_local c |}.
Definition add_out (b : bytes) (c : tcp_conn) : tcp_conn :=
  {| c_in := c_in c; c_out := c_out c ++ [b]; c_werr := c_werr c; c_local := c_local c |}.

(** make([]byte, n*2) where n is a byte (or a uint16): the product wraps *)
Definition double_u8 (n : Z) : nat := Z.to_nat (u8 (n * 2)).
Definition double_u16 (n : Z) : nat := Z.to_nat (u16 (2 * n)).

Section Handler.
Context {P : Type} `{CIPEndpoint P} (rand_Uint32 : nat -> Z).
Abbreviation W := (M (world P)).

(** ** Access to the parts of the world *)

(** binary.Read(h.conn, ...) *)
Definition on_conn {A} (m : M bytes A) : W A :=
  zoom (fun w => c_in (h_conn (w_h w)))
       (fun l => upd_h (fun h => set_conn (set_in l (h_conn h)) h)) m.

Definition on_ConnMgr {A} (m : CM A) : W A :=
  zoom (fun w => ConnMgr (w_srv w)) (fun cm => upd_srv (set_ConnMgr cm)) m.

(** A method call on an endpoint. *)
Definition call_ep {A} (l : eloc) (m : M P A) : W A := fun w =>
  match srv_eps (w_srv w) !! l with
  | Some p => let '(r, p') := m p in (r, upd_srv (set_eps (<[l := p']> (srv_eps (w_srv w)))) w)
  | None => (Panic "nil pointer dereference", w)
  end.

Definition rand : W Z := fun w =>
  (Ok (rand_Uint32 (w_rand w)),
   {| w_srv := w_srv w; w_h := w_h w; w_rand := S (w_rand w); w_io := w_io w |}).

Definition router_Resolve (path : bytes) : W eloc := fun w => (Resolve (srv_Router (w_srv w)) path, w).

Definition set_handler (f : serverTCPHandler -> serverTCPHandler) : W unit := modify (upd_h f).

(** ** Sending *)

Definition newEIPHeader (cmd size : Z) (h : serverTCPHandler) : eipHeader :=
  {| hdr_Command := cmd; hdr_Length := u16 size; hdr_SessionHandle := h_handle h; hdr_Status := 0;
     hdr_Context := h_context h; hdr_Options := h_options h |}.

(** h.conn.Write until everything is written. *)
Definition conn_Write (b : bytes) : W unit := fun w =>
  match c_werr (h_conn (w_h w)) with
  | Some e => (Err e, w)
  | None => (Ok tt, upd_h (fun h => set_conn (add_out b (h_conn h)) h) w)
  end.

Definition frame (cmd : Z) (msgs : list bytes) (h : serverTCPHandler) : bytes :=
  eipHeader_bytes (newEIPHeader cmd (blen (concat msgs)) h) ++ concat msgs.

Definition send (cmd : Z) (msgs : list bytes) : W unit :=
  w ← get; conn_Write (frame cmd msgs (w_h w)).

(** Items [id0 connID] and [ID1 ...], serialized and sent: the shape of all replies. *)
Definition send_items (cmd : Z) (item0 item1 : CIPItem) (args : list sarg) : W unit :=
  '(_, item1) ← on item1 (wrapM "problem serializing reply" (Serialize args));
  send cmd [serializeItems [item0; item1]].

(** ** Reply senders of server.go, server_connected.go, server_unconnected.go *)

Definition u32_arg (z : Z) : sarg := SBytes (le_bytes 4 z).
Definition u16_arg (z : Z) : sarg := SBytes (le_bytes 2 z).

Definition sendUnitDataErrorReply (s status : Z) : W unit :=
  w ← get;
  send_items cipCommandSendUnitData
    (newItem cipItem_ConnectionAddress (Some (u32_arg (TOConnectionID (w_h w)))))
    (newItem cipItem_ConnectedData None)
    [SBytes (msgWriteResultHeader_bytes (UnitDataSequencer (w_h w)) (Service.AsResponse s) status 0)].

Definition sendUnitDataReplyWithPayload (s : Z) (payload : bytes) : W unit :=
  w ← get;
  send_items cipCommandSendUnitData
    (newItem cipItem_ConnectionAddress (Some (u32_arg (TOConnectionID (w_h w)))))
    (newItem cipItem_ConnectedData None)
    [SBytes (msgWriteResultHeader_bytes (UnitDataSequencer (w_h w)) (Service.AsResponse s) 0 0);
     SBytes payload].

Definition sendUnitDataReply (s : Z) : W unit :=
  w ← get;
  send_items cipCommandSendUnitData
    (newItem cipItem_ConnectionAddress (Some (u32_arg (TOConnectionID (w_h w)))))
    (newItem cipItem_ConnectedData None)
    [SBytes (msgWriteResultHeader_bytes (UnitDataSequencer (w_h w)) (Service.AsResponse s) 0 0)].

Definition sendConnectedReply (s seq connID : Z) (payload : list sarg) : W unit :=
  send_items cipCommandSendUnitData
    (newItem cipItem_ConnectionAddress (Some (u32_arg connID)))
    (newItem cipItem_ConnectedData (Some (u16_arg seq)))
    (SBytes (msgUnconnWriteResultHeader_bytes (Service.AsResponse s) 0 0) :: payload).

Definition sendConnectedError (s seq connID status statusExtended : Z) : W unit :=
  send_items cipCommandSendUnitData
    (newItem cipItem_ConnectionAddress (Some (u32_arg connID)))
    (newItem cipItem_ConnectedData (Some (u16_arg seq)))
    [SBytes (msgUnconnWriteResultHeader_bytes (Service.AsResponse s) status statusExtended)].

Definition sendUnconnectedErrorReply (s status : Z) : W unit :=
  send_items cipCommandSendRRData
    (newItem cipItem_Null None) (newItem cipItem_UnconnectedData None)
    [SBytes (msgUnconnWriteResultHeader_bytes (Service.AsResponse s) status 0)].

Definition sendUnconnectedRRDataReply (s : Z) (payload : list sarg) : W unit :=
  send_items cipCommandSendRRData
    (newItem cipItem_Null None) (newItem cipItem_UnconnectedData None)
    (SBytes (msgUnconnWriteResultHeader_bytes (Service.AsResponse s) 0 0) :: payload).

Definition sendUnconnectedUnitDataReply (s : Z) : W unit :=
  w ← get;
  send_items cipCommandSendUnitData
    (newItem cipItem_Null None) (newItem cipItem_UnconnectedData None)
    [SBytes (msgWriteResultHeader_bytes (UnitDataSequencer (w_h w)) (Service.AsResponse s) 0 0)].

(** ** Sessions and services *)

Definition registerSession (hdr : eipHeader) : W unit :=
  reg_msg ← wrapM "problem reading register session message" (on_conn read_msgCIPRegister);
  handle ← (if hdr_SessionHandle hdr =? 0 then rand else mret (hdr_SessionHandle hdr));
  _ ← set_handler (set_session handle (hdr_Options hdr));
  wrapM "problem sending register response"
    (send cipCommandRegisterSession [msgCIPRegister_bytes reg_msg]).

Definition ServiceCapabilityFlag_CipEncapsulation := Z.shiftl 1 5.
Definition ServiceCapabilityFlag_SupportsClass1UDP := Z.shiftl 1 8.

Definition listServicesReply_bytes : bytes :=
  le_bytes 2 1 ++ le_bytes 2 0x0100 ++ le_bytes 2 10 ++ le_bytes 2 1 ++
  le_bytes 2 (Z.lor ServiceCapabilityFlag_CipEncapsulation ServiceCapabilityFlag_SupportsClass1UDP) ++
  str "Communications  ".

Definition sendListServicesData (hdr : eipHeader) : W unit :=
  send cipCommandSendRRData [listServicesReply_bytes].

(** ** Forward open and close *)

Definition new_connection_id (requested : Z) : W Z :=
  if requested =? 0 then rand else mret requested.

(** fwd_path[:2] *)
Definition first_two (path : bytes) : res bytes :=
  if (length path <? 2)%nat then Panic out_of_range else Ok (take 2 path).

(** The part forwardOpen and largeForwardOpen share: the reply, then the new
    connection in the table. *)
Definition open_connection (fwd_open : forwardOpen) (path : bytes) : W (loc * Z) :=
  to ← new_connection_id (fo_TOConnectionID fwd_open);
  _ ← set_handler (set_TO to);
  ot ← new_connection_id (fo_OTConnectionID fwd_open);
  _ ← set_handler (set_OT ot);
  _ ← wrapM "problem sending response data"
    (send_items cipCommandSendRRData (empty_item cipItem_Null) (newItem cipItem_UnconnectedData None)
      [SBytes (forwardOpenReply_bytes {|
         fr_Service := Service.AsResponse (fo_Service fwd_open); fr_Status := 0; fr_StatusLen := 0;
         fr_OTConnectionID := ot; fr_TOConnectionID := to;
         fr_ConnectionSerialNumber := fo_ConnectionSerialNumber fwd_open;
         fr_VendorID := fo_VendorID fwd_open;
         fr_OriginatorSerialNumber := fo_OriginatorSerialNumber fwd_open;
         fr_OTApi := fo_OTRPI fwd_open; fr_TOApi := fo_TORPI fwd_open |})]);
  conn ← on_ConnMgr (new_conn {|
    conn_ID := fo_ConnectionSerialNumber fwd_open; conn_OT := ot; conn_TO := to;
    conn_RPI := fo_TORPI fwd_open * 1000; conn_Path := path; conn_Open := true |});
  _ ← on_ConnMgr (Add conn);
  mret (conn, to).

Definition read_open (params : nat) (i : CIPItem) : W (forwardOpen * bytes) :=
  '(fwd_open, i) ← on i (wrapM "problem with fwd open parsing" (read_forwardOpen params));
  '(fwd_path, i) ← on i (wrapM "problem with fwd open path parsing"
    (read_slice (double_u8 (fo_ConnPathSize fwd_open))));
  path ← lift (first_two fwd_path);
  mret (fwd_open, path).

Definition largeForwardOpen (i : CIPItem) : W unit :=
  '(fwd_open, path) ← read_open 4 i;
  _ ← open_connection fwd_open path;
  mret tt.

(** go h.ioConnection(fwd_open, tp, cipConnection) *)
Definition spawn_io (t : io_task) : W unit :=
  modify (fun w => {| w_srv := w_srv w; w_h := w_h w; w_rand := w_rand w; w_io := w_io w ++ [t] |}).

Definition forwardOpen_ (i : CIPItem) : W unit :=
  '(fwd_open, path) ← read_open 2 i;
  '(conn, to) ← open_connection fwd_open path;
  if fo_TransportTrigger fwd_open =? 1 then
    tp ← wrapM "no tag provider for path" (router_Resolve path);
    spawn_io {| io_TO := to; io_TORPI := fo_TORPI fwd_open; io_ep := tp; io_conn := conn; io_seq := 0 |}
  else mret tt.

Definition forwardClose (i : CIPItem) : W unit :=
  '(fwd_close, i) ← on i (wrapM "problem parsing forward close" read_forwardClose);
  _ ← wrapM "couldn't close open connection" (on_ConnMgr (CloseByID (fc_ConnectionSerialNumber fwd_close)));
  '(_, i) ← on i (wrapM "problem parsing forward close path"
    (read_slice (double_u8 (fc_PathSize fwd_close))));
  mret tt.

(** ** I/O messages *)

(** One tick of ioConnection: None when the goroutine ends, the datagram to
    send (if any) and the task for the next tick. *)
Definition io_tick (t : io_task) : W (option (io_task * option bytes)) :=
  let seq := u32 (io_seq t + 1) in
  let t' := {| io_TO := io_TO t; io_TORPI := io_TORPI t; io_ep := io_ep t; io_conn := io_conn t;
               io_seq := seq |} in
  c ← on_ConnMgr (deref (io_conn t));
  if negb (conn_Open c) then mret None
  else
    dat ← try (call_ep (io_ep t) IORead);
    match dat with
    | inl _ => mret (Some (t', None))
    | inr dat =>
        '(_, item0) ← on (newItem cipItem_SequenceAddress None)
          (Serialize [u32_arg (io_TO t); u32_arg seq]);
        '(_, item1) ← on (newItem cipItem_ConnectedData None)
          (Serialize [u16_arg (u16 seq); SBytes dat]);
        mret (Some (t', Some (drop 6 (serializeItems [item0; item1]))))
    end.

(** One datagram of serveUDP.  The buffer is the whole 4096-byte array, zeros
    after the datagram; what goes wrong is logged and the loop goes on. *)
Definition serveUDP_datagram (d : bytes) : W unit :=
  if (length d =? 0)%nat || (4096 <=? length d)%nat then mret tt
  else
    r ← try (
      '(items, _) ← on (d ++ replicate (4096 - length d) 0) readItems;
      match items with
      | [item0; item1] =>
          if item_ID item0 =? cipItem_SequenceAddress then
            '(connid, item0) ← on item0 (read_struct 8 (c ← read_u32; _ ← read_u32; mret c));
            conn ← on_ConnMgr (l ← GetByOT connid; deref l);
            tp ← router_Resolve (conn_Path conn);
            call_ep tp (IOWrite [item0; item1])
          else mret tt
      | _ => mret tt
      end);
    mret tt.
End Handler.
