(* ===== verification/ServerAttr.v ===== *)
(** * Identity, program and symbol objects (server.go, server_listidentity.go, server_unconnected.go)

    The attribute table of the server, the payload builders of the identity,
    program and symbol objects, and the list identity reply. *)
From stdpp Require Import sorting.
From S2P Require Import Prelude Reader GoStrings GoValue CipNames CipDefs Types Items Conns Router Messages Server.
(** NewServer's attribute table; the serial number is random. *)
Definition default_Attributes (serial : Z) : gmap Z goval :=
  {[ 1 := VInt I16 0x1776; 2 := VInt I16 0x000E; 3 := VInt I16 0x0001; 4 := VInt I16 0x1412;
     5 := VInt I16 0x3060; 6 := VInt U32 serial; 7 := VString (str "Gologix") ]}.

Definition NewServer {P} (serial : Z) (r : PathRouter) (eps : gmap eloc P) : Server P :=
  {| ConnMgr := {| cm_heap := ∅; Connections := [] |}; srv_Router := r; srv_eps := eps;
     Attributes := default_Attributes serial |}.

(** attrs[k].(int16), .(uint32) and .(string) *)
Definition attr_int (attrs : gmap Z goval) (k : Z) (kind : ikind) : res Z :=
  match attrs !! k with
  | Some (VInt k' z) =>
      if decide (k' = kind) then Ok z else Err (Errorf "attribute missing or wrong type")
  | _ => Err (Errorf "attribute missing or wrong type")
  end.

Definition attr_string (attrs : gmap Z goval) (k : Z) : res bytes :=
  match attrs !! k with
  | Some (VString s) => Ok s
  | _ => Err (Errorf "attribute missing or wrong type")
  end.

(** if len(s) > 255 { s = s[:255] } *)
Definition cap255 (s : bytes) : bytes := if 255 <? blen s then take 255 s else s.

(** The fields both identity builders take from the table. *)
Definition identity_fields (attrs : gmap Z goval) : res (list bytes * bytes) :=
  vendor ← attr_int attrs 1 I16;
  deviceType ← attr_int attrs 2 I16;
  productCode ← attr_int attrs 3 I16;
  revision ← attr_int attrs 4 I16;
  status ← attr_int attrs 5 I16;
  serial ← attr_int attrs 6 U32;
  productName ← attr_string attrs 7;
  Ok ([le_bytes 2 vendor; le_bytes 2 deviceType; le_bytes 2 productCode; le_bytes 2 revision;
       le_bytes 2 status; le_bytes 4 serial], cap255 productName).

Definition buildIdentityGetAttributesAllResponse (attrs : gmap Z goval) : res bytes :=
  '(fields, productName) ← identity_fields attrs;
  Ok (concat fields ++ [u8 (blen productName)] ++ productName).

Definition buildProgramObjectGetAttributesAllResponse (attrs : gmap Z goval) : res bytes :=
  name ← attr_string attrs 7;
  let name := cap255 name in
  Ok ([u8 (blen name)] ++ name).

(** net.IP.To4 *)
Definition To4 (ip : bytes) : option bytes :=
  if (length ip =? 4)%nat then Some ip
  else if (length ip =? 16)%nat && bool_decide (take 12 ip = replicate 10 0 ++ [255; 255])
  then Some (drop 12 ip) else None.

Definition buildListIdentityItemBody (attrs : gmap Z goval) (localIP : bytes) (localPort : Z) : res bytes :=
  '(fields, productName) ← identity_fields attrs;
  let addr := default [0; 0; 0; 0] (To4 localIP) in
  Ok (le_bytes 2 1 ++ be_bytes 2 2 ++ be_bytes 2 localPort ++ addr ++ replicate 8 0 ++
      concat fields ++ [u8 (blen productName)] ++ productName ++ [0xFF]).

Definition cipIdentityItemType := 0x000C.

Definition frameListIdentityResponse (itemBody : bytes) : bytes :=
  le_bytes 2 1 ++ le_bytes 2 cipIdentityItemType ++ le_bytes 2 (blen itemBody) ++ itemBody.

Definition extractLocalSocket (addr : net_addr) : bytes * Z :=
  match addr with
  | TCPAddr ip port => (ip, u16 port)
  | UDPAddr ip port => (ip, u16 port)
  | OtherAddr => (replicate 10 0 ++ [255; 255; 0; 0; 0; 0], 44818)   (* net.IPv4zero *)
  end.

(** ** Symbols *)

Definition name_le (a b : ServerTagInfo) : Prop := bytes_le (sti_Name a) (sti_Name b) = true.
#[export] Instance name_le_dec : RelDecision name_le.
Proof. intros a b. unfold name_le. apply _. Defined.

(** sort.Slice by name *)
Definition sort_tags (tags : list ServerTagInfo) : list ServerTagInfo := merge_sort name_le tags.

Fixpoint symbol_entries (i : Z) (startInstance : Z) (tags : list ServerTagInfo) : bytes :=
  match tags with
  | [] => []
  | tag :: tags =>
      let instanceID := u32 (i + 1) in
      let name := cap255 (sti_Name tag) in
      (if instanceID <? startInstance then []
       else le_bytes 4 instanceID ++ le_bytes 2 (blen name) ++ name ++ le_bytes 2 (sti_Type tag)) ++
      symbol_entries (i + 1) startInstance tags
  end.

Definition buildSymbolObjectInstanceListResponse (tags : list ServerTagInfo) (startInstance : Z) : bytes :=
  symbol_entries 0 startInstance (sort_tags tags).

Definition parseClassInstancePath {R} `{Reader R} : M R (Z * Z) :=
  cls ← wrapM "read class" Class_.Read;
  inst ← wrapM "read instance" Instance_.Read;
  mret (cls, inst).

Definition defaultLocalPath : bytes := [1; 0].

Section Handler.
Context {P : Type} `{CIPEndpoint P} (rand_Uint32 : nat -> Z).
Abbreviation W := (M (world P)).

Definition attributes : W (gmap Z goval) := gets (fun w => Attributes (w_srv w)).

Definition sendListIdentityReply (hdr : eipHeader) : W unit :=
  w ← get;
  let '(ip, port) := extractLocalSocket (c_local (h_conn (w_h w))) in
  attrs ← attributes;
  body ← lift (res_wrap "build list identity body" (buildListIdentityItemBody attrs ip port));
  send cipCommandListIdentity [frameListIdentityResponse body].

(** The endpoint as a TagLister, and its sorted tags. *)
Definition lister_tags (ep : eloc) : W (option (list ServerTagInfo)) := fun w =>
  match TagLister with
  | None => (Ok None, w)
  | Some f =>
      match srv_eps (w_srv w) !! ep with
      | Some p => (Ok (Some (f p)), w)
      | None => (Panic "nil pointer dereference", w)
      end
  end.

Definition resolveSymbolicTagFromCustomClass (instance : Z) : W (option bytes) :=
  provider ← try (router_Resolve defaultLocalPath);
  match provider with
  | inl _ => mret None
  | inr provider =>
      tags ← lister_tags provider;
      match tags with
      | None => mret None
      | Some tags =>
          let tags := sort_tags tags in
          if (instance =? 0) || (Z.of_nat (length tags) <? instance) then mret None
          else mret (sti_Name <$> tags !! Z.to_nat (instance - 1))
      end
  end.
End Handler.
