(* ===== verification/ServerConnected.v ===== *)
(** * Connected requests (server_connected.go)

    Reads, writes, multiple-service packets and attribute reads over an open
    connection: the request items are parsed, the connection found by its
    id, the endpoint by the connection's route, and one reply sent. *)
From S2P Require Import Prelude Reader GoStrings GoValue CipNames CipDefs Types Items Ioi Conns Router Messages Server ServerAttr.
(** ** Strings on the wire *)

Definition cipStringStructCRC := 0x0FCE.
Definition cipStringDataLen : nat := 82.
Definition cipStringStructPad : nat := 2.
Definition cipStringTagDataLen : nat := 4 + cipStringDataLen + cipStringStructPad.
Definition cipStringSlotLen : nat := 4 + cipStringTagDataLen.

(** cipStringPacker.Bytes *)
Definition cipStringPacker_Bytes (c : bytes) : bytes :=
  let l := if Z.of_nat cipStringDataLen <? blen c then Z.of_nat cipStringDataLen else blen c in
  [0xA0; 0x02] ++ le_bytes 2 cipStringStructCRC ++ le_bytes 4 l ++
  copy_into cipStringDataLen c ++ replicate cipStringStructPad 0.

(** ** parseWriteValues *)

Fixpoint read_n {R A} `{Reader R} (n : nat) (m : M R A) : M R (list A) :=
  match n with
  | O => mret []
  | S n => v ← m; l ← read_n n m; mret (v :: l)
  end.

Section Parse.
Context {R : Type} `{Reader R}.

Definition read_string_element : M R goval :=
  slen ← wrapM "error reading STRING LEN" read_u32;
  data ← wrapM "error reading STRING DATA" (read_slice cipStringDataLen);
  let slen := if Z.of_nat cipStringDataLen <? slen then Z.of_nat cipStringDataLen else slen in
  mret (VString (take (Z.to_nat slen) data)).

Definition parseWriteValues : M R (list goval) :=
  typ ← wrapM "error reading write type" read_u8;
  typeInfoLen ← wrapM "error reading type-info length" read_u8;
  structCRC ← (if 0 <? typeInfoLen then
    typeInfo ← wrapM "error reading type info" (read_slice (Z.to_nat typeInfoLen));
    mret (if (typ =? CIPTypeStruct) && (2 <=? typeInfoLen) then le_val (take 2 typeInfo) else 0)
  else mret 0);
  qty ← wrapM "error reading element count" read_u16;
  if typ =? CIPTypeStruct then
    if negb (structCRC =? cipStringStructCRC) then
      fail (Errorf "server only supports STRING struct writes")
    else read_n (Z.to_nat qty) read_string_element
  else read_n (Z.to_nat qty) (wrapM "error reading element" (readValue typ)).
End Parse.

(** results[0] *)
Definition first_result (results : list goval) : res goval :=
  match results with
  | v :: _ => Ok v
  | [] => Panic "index out of range [0] with length 0"
  end.

(** result.([]string) *)
Definition strings_of (v : goval) : option (list bytes) :=
  match v with
  | VSlice TString l => Some (map (fun v => match v with VString s => s | _ => [] end) l)
  | _ => None
  end.

(** The package-level Serialize of pack.go, on one value of a read. *)
Definition pack_Serialize (v : goval) : res bytes :=
  match v with
  | VString s => Ok (le_bytes 4 (blen s) ++ copy_into 82 s)
  | _ => binary_write v
  end.

(** ** The multiple service packet *)

Fixpoint jump_table (pos : Z) (results : list bytes) : bytes :=
  match results with
  | [] => []
  | r :: results => le_bytes 2 pos ++ jump_table (pos + blen r) results
  end.

(** b.Truncate(4): the two bytes of the type header go away. *)
Definition multi_read_result (svc typ : Z) (result : goval) : res bytes :=
  let hdr := msgMultiReadResult_bytes (Service.AsResponse svc) 0 in
  if typ =? CIPTypeSTRING then
    match result with
    | VString s => Ok (hdr ++ cipStringPacker_Bytes s)
    | _ => Err (Errorf "expected a string but didn't get one")
    end
  else
    b_dat ← res_wrap "problem serializing data" (pack_Serialize result);
    Ok (hdr ++ msgMultiReadResultTypeHdr_bytes typ 0 ++ b_dat).

Section Handler.
Context {P : Type} `{CIPEndpoint P} (rand_Uint32 : nat -> Z).
Abbreviation W := (M (world P)).

(** qty := uint16(len(results)); several values are written as one array. *)
Definition write_results (p : eloc) (tag : bytes) (results : list goval) : W unit :=
  let qty := u16 (Z.of_nat (length results)) in
  if 1 <? qty then wrapM "problem writing tag" (call_ep p (TagWrite tag (VSlice TAny results)))
  else
    v ← lift (first_result results);
    wrapM "problem writing tag" (call_ep p (TagWrite tag v)).

Definition find_connection (connID : Z) : W serverConnection :=
  on_ConnMgr (l ← GetByOT connID; deref l).

Definition cipConnectedWrite (item0 item1 : CIPItem) : W unit :=
  '(_, item) ← on item1 (wrapM "problem deserializing item length" read_u8);
  '(tag, item) ← on item (wrapM "problem deserializing tag bytes" getTagFromPath);
  '(results, item) ← on item (wrapM "problem parsing write values" parseWriteValues);
  if negb (item_ID item0 =? cipItem_ConnectionAddress) then
    fail (Errorf "expected a connection address item in item 0")
  else
    '(connID, _) ← on (Reset item0) (wrapM "problem deserializing connection ID" read_u32);
    conn ← wrapM "no server handler" (find_connection connID);
    p ← wrapM "problem finding tag provider" (router_Resolve (conn_Path conn));
    _ ← write_results p tag results;
    sendUnitDataReply CIPService_Write.

(** One request of the packet.  An unknown service leaves no result. *)
Definition multi_request (p : eloc) (offset : Z) (item : CIPItem) : W (bytes * CIPItem) :=
  let item := set_Pos (offset + 8) item in
  '(svc, item) ← on item (wrapM "problem getting multiread service" read_u8);
  '(_, item) ← on item (wrapM "problem getting service req payload size" item_Byte);
  if (svc =? CIPService_FragRead) || (svc =? CIPService_Read) then
    '(tagname, item) ← on item (wrapM "problem getting multiread tagname" getTagFromPath);
    '(qty, item) ← on item (wrapM "error getting write qty" Uint16);
    result ← wrapM "problem getting data from provider" (call_ep p (TagRead tagname (swrap 16 qty)));
    b ← lift (multi_read_result svc (fst (GoVarToCIPType result)) result);
    mret (b, item)
  else if (svc =? CIPService_Write) || (svc =? CIPService_FragWrite) then
    '(tag, item) ← on item (wrapM "problem deserializing tag bytes" getTagFromPath);
    '(typ, item) ← on item (wrapM "problem deserializing cip type" read_u8);
    '(_, item) ← on item (wrapM "problem deserializing reserved byte" read_u8);
    '(qty, item) ← on item (wrapM "problem deserializing element count" read_u16);
    '(writeTags, item) ← on item (read_n (Z.to_nat qty) (wrapM "problem getting write element" (readValue typ)));
    _ ← write_results p tag writeTags;
    mret ([Service.AsResponse svc; 0; 0; 0], item)
  else mret ([], item).

Fixpoint multi_requests (p : eloc) (offsets : list Z) (item : CIPItem) : W (list bytes) :=
  match offsets with
  | [] => mret []
  | o :: offsets =>
      '(r, item) ← multi_request p o item;
      rs ← multi_requests p offsets item;
      mret (r :: rs)
  end.

(** response[0] = qty, response[1] the jump table, then the results *)
Definition multi_response (qty : Z) (results : list bytes) : list sarg :=
  SBytes (le_bytes 2 qty) :: SBytes (jump_table ((qty + 1) * 2) results) :: map SBytes results.

Definition connectedMulti (item0 item1 : CIPItem) : W unit :=
  '(connID, _) ← on (Reset item0) (wrapM "couldn't get connection ID from item 0" read_u32);
  connection ← wrapM "couldn't get connection" (find_connection connID);
  p ← wrapM "problem finding tag provider" (router_Resolve (conn_Path connection));
  let item := Reset item1 in
  '(seq, item) ← on item (wrapM "error getting sequence ID" read_u16);
  '(_, item) ← on item (wrapM "error getting service" read_u8);
  '(pathlen, item) ← on item (wrapM "error getting path len" read_u8);
  '(_, item) ← on item (wrapM "problem dumping path bytes" (read_slice (double_u8 pathlen)));
  '(qty, item) ← on item (wrapM "problem getting multisvc item count" Uint16);
  '(offsets, item) ← on item (read_n (Z.to_nat qty) (wrapM "problem getting multisvc offset" Int16));
  results ← multi_requests p offsets item;
  sendConnectedReply CIPService_MultipleService seq (conn_TO connection) (multi_response qty results).

(** ** Reads *)

(** The error reply, and then the handler's own error. *)
Definition reply_error {A} (reqSvc seq connID status : Z) (msg : string) (e : error) : W A :=
  _ ← try (sendConnectedError reqSvc seq connID status 0);
  fail (Wrap msg e).

Definition or_reply {A} (reqSvc seq connID status : Z) (msg : string) (m : W A) : W A :=
  r ← try m;
  match r with
  | inl e => reply_error reqSvc seq connID status msg e
  | inr a => mret a
  end.

Definition read_reply (reqSvc seq connID : Z) (result : goval) : W unit :=
  let typ := fst (GoVarToCIPType result) in
  if typ =? CIPTypeSTRING then
    match result with
    | VString s => sendConnectedReply reqSvc seq connID [SBytes (cipStringPacker_Bytes s)]
    | _ =>
        match strings_of result with
        | Some l => sendConnectedReply reqSvc seq connID (map (fun s => SBytes (cipStringPacker_Bytes s)) l)
        | None =>
            reply_error reqSvc seq connID CIPStatus_InvalidAttributeValue "was expecting a string"
              (Errorf "nil")
        end
    end
  else sendConnectedReply reqSvc seq connID [SBytes [typ]; SBytes [0]; sarg_of result].

Definition connectedRead (reqSvc : Z) (item0 item1 : CIPItem) : W unit :=
  '(connID, _) ← or_reply reqSvc 0 0 CIPStatus_InvalidParameter "couldn't get connection ID"
    (on (Reset item0) read_u32);
  connection ← or_reply reqSvc 0 0 CIPStatus_ConnectionLost "couldn't get connection"
    (find_connection connID);
  let TO := conn_TO connection in
  let item := Reset item1 in
  '(seq, item) ← or_reply reqSvc 0 TO CIPStatus_InvalidParameter "error getting sequence ID"
    (on item read_u16);
  '(_, item) ← or_reply reqSvc seq TO CIPStatus_InvalidParameter "error getting path len"
    (on item read_u16);
  '(tag, item) ← or_reply reqSvc seq TO CIPStatus_InvalidParameter "couldn't parse path"
    (on item getTagFromPath);
  '(qty, item) ← or_reply reqSvc seq TO CIPStatus_InvalidParameter "error getting write qty"
    (on item read_u16);
  p ← or_reply reqSvc seq TO CIPStatus_PathDestinationUnknown "problem finding tag provider"
    (router_Resolve (conn_Path connection));
  result ← or_reply reqSvc seq TO CIPStatus_InvalidMemberID "problem getting data from provider"
    (call_ep p (TagRead tag (swrap 16 qty)));
  read_reply reqSvc seq TO result.

(** ** Attributes *)

Definition getAttrSingle (connection : serverConnection) (item : CIPItem) : W unit :=
  '(seq, item) ← on item (wrapM "error getting sequence ID" read_u16);
  '(_, item) ← on item (wrapM "couldn't read cmd type" item_Byte);
  '(path_size, item) ← on item (wrapM "couldn't read data len" item_Byte);
  if negb (path_size =? 3) then fail (Errorf "currently only support getattrsingle path size of 3")
  else
    '(cls, item) ← on item (wrapM "could not read class" Class_.Read);
    '(inst, item) ← on item (wrapM "could not read instance" Instance_.Read);
    if negb (cls =? 1) || negb (inst =? 1) then fail (Errorf "only support class 1 instance 1 so far")
    else
      '(attr, item) ← on item (wrapM "could not read attribute ID" Attribute.Read);
      attrs ← attributes;
      match attrs !! attr with
      | None => fail (Errorf "bad attribute")
      | Some result =>
          sendConnectedReply CIPService_FragRead seq (conn_TO connection) [sarg_of result]
      end.

Definition connectedGetAttr (item0 item1 : CIPItem) : W unit :=
  '(connID, _) ← on (Reset item0) (wrapM "couldn't get connection ID from item 0" read_u32);
  connection ← wrapM "couldn't get connection" (find_connection connID);
  getAttrSingle connection (Reset item1).

(** The class and instance cases both GetAttributesAll handlers share, with
    the way each sends its reply. *)
Definition get_attributes_all (class instance : Z) (send_error : Z -> W unit)
    (send_payload : bytes -> W unit) : W unit :=
  attrs ← attributes;
  if class =? CipObject_Identity then
    if negb (instance =? 1) then send_error CIPStatus_PathDestinationUnknown
    else
      payload ← lift (res_wrap "build identity response" (buildIdentityGetAttributesAllResponse attrs));
      send_payload payload
  else if class =? 0x64 then
    if negb (instance =? 1) then send_error CIPStatus_PathDestinationUnknown
    else
      payload ← lift (res_wrap "build program response" (buildProgramObjectGetAttributesAllResponse attrs));
      send_payload payload
  else send_error CIPStatus_PathDestinationUnknown.

Definition connectedGetAttributeAll (item1 : CIPItem) : W unit :=
  let item := Reset item1 in
  '(_, item) ← on item (wrapM "connected GAA: read seq" Uint16);
  '(_, item) ← on item (wrapM "connected GAA: read service byte" item_Byte);
  '(pathSize, item) ← on item (wrapM "connected GAA: read path size" item_Byte);
  '(pathBytes, item) ← on item (wrapM "connected GAA: read path" (read_slice (Z.to_nat (pathSize * 2))));
  path ← try (on pathBytes parseClassInstancePath);
  match path with
  | inl _ => sendUnitDataErrorReply CIPService_GetAttributeAll CIPStatus_PathSegmentError
  | inr ((class, instance), _) =>
      get_attributes_all class instance
        (sendUnitDataErrorReply CIPService_GetAttributeAll)
        (sendUnitDataReplyWithPayload CIPService_GetAttributeAll)
  end.

Definition connectedSymbolList (item0 : CIPItem) : W unit :=
  '(connID, _) ← on (Reset item0) (wrapM "symbol list: conn ID" read_u32);
  conn ← wrapM "symbol list: conn lookup" (find_connection connID);
  provider ← wrapM "symbol list: provider lookup" (router_Resolve (conn_Path conn));
  tags ← lister_tags provider;
  match tags with
  | None => sendUnitDataReplyWithPayload CIPService_GetInstanceAttributeList []
  | Some tags =>
      sendUnitDataReplyWithPayload CIPService_GetInstanceAttributeList
        (buildSymbolObjectInstanceListResponse tags 0)
  end.
End Handler.
