(* ===== verification/ServerUnconnected.v ===== *)
(** * Unconnected requests and the serve loop (server_unconnected.go, server.go)

    The services of an unconnected data item, the dispatch of SendRRData and
    SendUnitData, and the loop that reads one encapsulated message after
    another from the connection. *)
From S2P Require Import Prelude Reader GoStrings GoValue CipNames CipDefs Types Items Ioi Conns Router Messages Server ServerAttr ServerConnected.
Section Handler.
Context {P : Type} `{CIPEndpoint P} (rand_Uint32 : nat -> Z).
Abbreviation W := (M (world P)).

(** ** Services *)

Definition unconnectedGetAttributeAll (item : CIPItem) : W unit :=
  '(pathSize, item) ← on item (wrapM "get_attributes_all: read path size" read_u8);
  '(pathBytes, item) ← on item (wrapM "get_attributes_all: read path" (read_slice (Z.to_nat (pathSize * 2))));
  path ← try (on pathBytes parseClassInstancePath);
  match path with
  | inl _ => sendUnconnectedErrorReply CIPService_GetAttributeAll CIPStatus_PathSegmentError
  | inr ((class, instance), _) =>
      get_attributes_all class instance
        (sendUnconnectedErrorReply CIPService_GetAttributeAll)
        (fun payload => sendUnconnectedRRDataReply CIPService_GetAttributeAll [SBytes payload])
  end.

(** The tag, the values and the route that follow a Read or Write request in
    an unconnected send. *)
Definition read_route (item : CIPItem) : W bytes :=
  '(path_size, item) ← on item (wrapM "couldn't get path size" read_u16);
  '(path, item) ← on item (wrapM "couldn't get path" (read_slice (double_u16 path_size)));
  mret path.

Definition unconnectedServiceWrite (item : CIPItem) : W unit :=
  '(_, item) ← on item (wrapM "error getting reserved byte" read_u8);
  '(tag, item) ← on item (wrapM "couldn't parse path" getTagFromPath);
  '(results, item) ← on item (wrapM "problem parsing write values" parseWriteValues);
  path ← read_route item;
  p ← wrapM "problem finding tag provider" (router_Resolve path);
  _ ← write_results p tag results;
  sendUnconnectedRRDataReply CIPService_Write [].

Definition value_reply (s : Z) (val : goval) : list sarg :=
  [SBytes [fst (GoVarToCIPType val)]; SBytes [0]; sarg_of val].

Definition unconnectedServiceRead (item : CIPItem) : W unit :=
  '(_, item) ← on item (wrapM "error getting reserved byte" read_u8);
  '(tag, item) ← on item (wrapM "couldn't parse path" getTagFromPath);
  '(qty, item) ← on item (wrapM "error getting write qty" read_u16);
  path ← read_route item;
  p ← wrapM "problem finding tag provider" (router_Resolve path);
  result ← wrapM "problem getting data from provider" (call_ep p (TagRead tag (swrap 16 qty)));
  let typ := fst (GoVarToCIPType result) in
  sendUnconnectedRRDataReply CIPService_Read
    (if typ =? CIPTypeSTRING then
       match result with
       | VString s => [SBytes (cipStringPacker_Bytes s)]
       | _ =>
           match strings_of result with
           | Some l => map (fun s => SBytes (cipStringPacker_Bytes s)) l
           | None => value_reply CIPService_Read result
           end
       end
     else value_reply CIPService_Read result).

(** The class, instance and attribute of a request path of three words. *)
Definition read_attribute_path (item : CIPItem) : W (Z * Z * Z * CIPItem) :=
  '(cls, item) ← on item (wrapM "could not read class" Class_.Read);
  '(inst, item) ← on item (wrapM "could not read instance" Instance_.Read);
  '(attr, item) ← on item (wrapM "could not read attribute ID" Attribute.Read);
  mret (cls, inst, attr, item).

Definition customClass := 0xC8.

Definition unconnectedServiceGetAttrSingle (item : CIPItem) : W unit :=
  let err := sendUnconnectedErrorReply CIPService_GetAttributeSingle in
  '(pathSize, item) ← on item (wrapM "couldn't read path size" item_Byte);
  if negb (pathSize =? 3) then err CIPStatus_PathSegmentError
  else
    '(cls, inst, attr, item) ← read_attribute_path item;
    if cls =? customClass then
      tagName ← resolveSymbolicTagFromCustomClass (u16 inst);
      match tagName with
      | None => err CIPStatus_PathDestinationUnknown
      | Some tagName =>
          if negb (attr =? 1) then err CIPStatus_AttributeNotSupported
          else
            provider ← try (router_Resolve defaultLocalPath);
            match provider with
            | inl _ => err CIPStatus_PathDestinationUnknown
            | inr provider =>
                val ← try (call_ep provider (TagRead tagName 1));
                match val with
                | inl _ => err CIPStatus_ObjectDoesNotExist
                | inr val =>
                    match (if fst (GoVarToCIPType val) =? CIPTypeSTRING then val else VNil) with
                    | VString s =>
                        sendUnconnectedRRDataReply CIPService_GetAttributeSingle
                          [SBytes (cipStringPacker_Bytes s)]
                    | _ =>
                        sendUnconnectedRRDataReply CIPService_GetAttributeSingle
                          (value_reply CIPService_GetAttributeSingle val)
                    end
                end
            end
      end
    else if negb (cls =? CipObject_Identity) || negb (inst =? 1) then
      err CIPStatus_PathDestinationUnknown
    else
      attrs ← attributes;
      match attrs !! attr with
      | None => err CIPStatus_AttributeNotSupported
      | Some val =>
          sendUnconnectedRRDataReply CIPService_GetAttributeSingle
            (value_reply CIPService_GetAttributeSingle val)
      end.

Definition unconnectedServiceSetAttrSingle (item : CIPItem) : W unit :=
  let err := sendUnconnectedErrorReply CIPService_SetAttributeSingle in
  '(pathSize, item) ← on item (wrapM "couldn't read path size" item_Byte);
  if negb (pathSize =? 3) then err CIPStatus_PathSegmentError
  else
    '(cls, inst, attr, item) ← read_attribute_path item;
    if negb (cls =? customClass) then err CIPStatus_PathDestinationUnknown
    else if negb (attr =? 1) then err CIPStatus_AttributeNotSupported
    else
      tagName ← resolveSymbolicTagFromCustomClass (u16 inst);
      match tagName with
      | None => err CIPStatus_PathDestinationUnknown
      | Some tagName =>
          '(values, item) ← on item (wrapM "set_attr_single: parse value" parseWriteValues);
          match values with
          | [] => err CIPStatus_NotEnoughData
          | value :: _ =>
              provider ← try (router_Resolve defaultLocalPath);
              match provider with
              | inl _ => err CIPStatus_PathDestinationUnknown
              | inr provider =>
                  r ← try (call_ep provider (TagWrite tagName value));
                  match r with
                  | inl _ => err CIPStatus_InvalidAttributeValue
                  | inr _ => sendUnconnectedRRDataReply CIPService_SetAttributeSingle []
                  end
              end
          end
      end.

(** ** Dispatch *)

Definition unconnectedSend_service := 0x52.

Definition unconnectedSend (item : CIPItem) : W unit :=
  '(pathsize, item) ← on item (wrapM "error getting path size" read_u8);
  '(_, item) ← on item (wrapM "error getting path" (read_slice (double_u8 pathsize)));
  '(_, item) ← on item (wrapM "error getting timeout" read_u16);
  '(_, item) ← on item (wrapM "error getting embedded size" read_u16);
  '(emService, item) ← on item (wrapM "error getting embedded service" read_u8);
  if emService =? CIPService_Write then unconnectedServiceWrite item
  else if emService =? CIPService_Read then unconnectedServiceRead item
  else if emService =? CIPService_GetAttributeSingle then unconnectedServiceGetAttrSingle item
  else if emService =? CIPService_SetAttributeSingle then unconnectedServiceSetAttrSingle item
  else if emService =? CIPService_GetAttributeAll then unconnectedGetAttributeAll item
  else sendUnconnectedErrorReply emService CIPStatus_ServiceNotSupported.

Definition unconnectedData (item : CIPItem) : W unit :=
  '(service, item) ← on item (wrapM "problem unmarshling service" read_u8);
  if service =? CIPService_ForwardOpen then
    wrapM "problem handling forward open" (forwardOpen_ rand_Uint32 (Reset item))
  else if service =? CIPService_LargeForwardOpen then
    wrapM "problem handling large forward open" (largeForwardOpen rand_Uint32 (Reset item))
  else if service =? CIPService_ForwardClose then
    wrapM "problem handling forward close" (forwardClose (Reset item))
  else if service =? CIPService_GetAttributeAll then
    wrapM "problem handling get attributes all" (unconnectedGetAttributeAll item)
  else if service =? CIPService_GetAttributeSingle then
    wrapM "problem handling get attribute single" (unconnectedServiceGetAttrSingle item)
  else if service =? CIPService_SetAttributeSingle then
    wrapM "problem handling set attribute single" (unconnectedServiceSetAttrSingle item)
  else if service =? unconnectedSend_service then unconnectedSend item
  else sendUnconnectedErrorReply service CIPStatus_ServiceNotSupported.

(** The interface handle, the timeout and exactly two items. *)
Definition read_request : W (CIPItem * CIPItem) :=
  _ ← wrapM "problem reading interface handle" (on_conn read_u32);
  _ ← wrapM "problem reading timeout" (on_conn read_u16);
  items ← wrapM "problem reading items for rrData" (on_conn readItems);
  match items with
  | [item0; item1] => mret (item0, item1)
  | _ => fail (Errorf "expected 2 items")
  end.

Definition sendRRData (hdr : eipHeader) : W unit :=
  '(item0, item1) ← read_request;
  if item_ID item1 =? cipItem_ConnectedData then
    '(service, item1) ← on item1 (wrapM "failed to get service" read_u8);
    connectedRead service item0 item1
  else if item_ID item1 =? cipItem_UnconnectedData then unconnectedData item1
  else mret tt.

Definition connected_service (service : Z) (item0 item1 : CIPItem) : W unit :=
  if service =? CIPService_Write then
    wrapM "problem handling write" (cipConnectedWrite item0 item1)
  else if service =? CIPService_FragRead then
    wrapM "problem handling frag read" (connectedRead CIPService_FragRead item0 item1)
  else if service =? CIPService_Read then
    wrapM "problem handling non-frag read" (connectedRead CIPService_Read item0 item1)
  else if service =? CIPService_MultipleService then
    wrapM "problem handling multi service" (connectedMulti item0 item1)
  else if service =? CIPService_GetAttributeSingle then
    wrapM "problem handling getAttrSingle" (connectedGetAttr item0 item1)
  else if service =? CIPService_GetAttributeAll then
    wrapM "problem handling connected getAttributesAll" (connectedGetAttributeAll item1)
  else if service =? CIPService_GetInstanceAttributeList then
    wrapM "problem handling connected symbol list" (connectedSymbolList item0)
  else sendUnitDataErrorReply service CIPStatus_ServiceNotSupported.

Definition sendUnitData (hdr : eipHeader) : W unit :=
  '(item0, item1) ← read_request;
  if negb (item_ID item0 =? cipItem_ConnectionAddress) then
    fail (Errorf "should have had a connected data item in position 0")
  else
    '(_, item0) ← on item0 (wrapM "problem deserializing connection ID" read_u32);
    '(seq, item1) ← on item1 (wrapM "problem deserializing unit data seq" read_u16);
    _ ← set_handler (set_Sequencer seq);
    '(service, item1) ← on item1 (wrapM "problem deserializing service" read_u8);
    connected_service service item0 item1.

(** ** The serve loop *)

Definition handle_command (hdr : eipHeader) : W unit :=
  let cmd := hdr_Command hdr in
  if cmd =? cipCommandRegisterSession then
    wrapM "problem with register session" (registerSession rand_Uint32 hdr)
  else if cmd =? cipCommandSendRRData then wrapM "problem with sendRRData" (sendRRData hdr)
  else if cmd =? cipCommandSendUnitData then wrapM "problem with sendUnitData" (sendUnitData hdr)
  else if cmd =? cipCommandListServices then
    wrapM "problem with sendListServices" (sendListServicesData hdr)
  else if cmd =? cipCommandListIdentity then
    wrapM "problem with sendListIdentity" (sendListIdentityReply hdr)
  else mret tt.

Definition serve_one : W unit :=
  eipHdr ← wrapM "problem reading eip header" (on_conn read_eipHeader);
  _ ← set_handler (set_context (hdr_Context eipHdr));
  handle_command eipHdr.

(** The loop ends with the error of a message, at the latest at the end of
    the stream; every message takes the 24 bytes of its header at least. *)
Fixpoint serve_loop (fuel : nat) : W unit :=
  match fuel with
  | O => panic "out of fuel"
  | S fuel => _ ← serve_one; serve_loop fuel
  end.

Definition serve : W unit := fun w => serve_loop (S (length (c_in (h_conn (w_h w))))) w.
End Handler.
