(* ===== verification/ServerReplies.v ===== *)
(** * The reply discipline of the server

    [emits okn errn m]: a handler that succeeds has written exactly okn
    frames, one that fails at most errn; every frame is well formed (its
    header's length is that of the payload) and echoes the context of the
    request; the connection's input only loses bytes from its front.  The discipline is compositional, so it is established handler
    by handler. *)
From S2P Require Import Prelude Reader GoStrings GoValue CipNames CipDefs Types Items Ioi Conns Router Messages Server ServerAttr ServerConnected ServerUnconnected.
Section Discipline.
Context {P : Type} `{CIPEndpoint P} (rand_Uint32 : nat -> Z).
Abbreviation W := (M (world P)).

Definition outs (w : world P) : list bytes := c_out (h_conn (w_h w)).

(** A frame sent in reply to a request with the context ctx. *)
Definition framed (ctx : Z) (f : bytes) : Prop :=
  exists h payload, f = eipHeader_bytes h ++ payload /\
    hdr_Length h = u16 (blen payload) /\ hdr_Context h = ctx /\ hdr_Status h = 0.

(** What is left to read on the connection. *)
Definition ins (w : world P) : bytes := c_in (h_conn (w_h w)).

Definition emits {A} (okn errn : nat) (m : W A) : Prop := forall w,
  (h_context (w_h (snd (m w))) = h_context (w_h w) /\ ins (snd (m w)) `suffix_of` ins w) /\
  exists fs, outs (snd (m w)) = outs w ++ fs /\ Forall (framed (h_context (w_h w))) fs /\
    if is_Ok (fst (m w)) then length fs = okn else (length fs <= errn)%nat.

Lemma emits_same {A} (m : W A) :
  (forall w, h_context (w_h (snd (m w))) = h_context (w_h w) /\ outs (snd (m w)) = outs w /\
     ins (snd (m w)) `suffix_of` ins w) ->
  emits 0 0 m.
Proof.
  intros Hm w. destruct (Hm w) as (Hc & Ho & Hi). split; [done|]. exists []. rewrite Ho, app_nil_r.
  split_and!; [done..|]. by destruct (is_Ok _).
Qed.

Lemma emits_weaken {A} n e e' (m : W A) : emits n e m -> (e <= e')%nat -> emits n e' m.
Proof.
  intros Hm He w. destruct (Hm w) as ([Hc Hi] & fs & Ho & Hf & Hl). split; [done|].
  exists fs. split_and!; [done..|]. destruct (is_Ok _); [done|lia].
Qed.

Lemma emits_ret {A} (a : A) : emits 0 0 (mret a).
Proof. by apply emits_same. Qed.
Lemma emits_fail {A} e : emits (A:=A) 0 0 (fail e).
Proof. by apply emits_same. Qed.
Lemma emits_fail1 {A} n e : emits (A:=A) n 1 (fail e).
Proof. intros w. split; [done|]. exists []. rewrite app_nil_r. split_and!; [done..|simpl; lia]. Qed.
Lemma emits_lift {A} (r : res A) : emits 0 0 (lift r).
Proof. by apply emits_same. Qed.
Lemma emits_get : emits 0 0 get.
Proof. by apply emits_same. Qed.
Lemma emits_gets {A} (f : world P -> A) : emits 0 0 (gets f).
Proof. by apply emits_same. Qed.
Lemma emits_on {T A} (t : T) (m : M T A) : emits 0 0 (on t m).
Proof. apply emits_same. intros w. unfold on. by destruct (m t) as [[] ?]. Qed.
Lemma emits_on_conn {A} (m : M bytes A) : eats m -> emits 0 0 (on_conn m).
Proof.
  intros Hm. apply emits_same. intros w. unfold on_conn, zoom. specialize (Hm (ins w)).
  unfold ins in *. by destruct (m _).
Qed.
Lemma emits_on_ConnMgr {A} (m : CM A) : emits 0 0 (on_ConnMgr m).
Proof. apply emits_same. intros w. unfold on_ConnMgr, zoom. by destruct (m _). Qed.
Lemma emits_call_ep {A} l (m : M P A) : emits 0 0 (call_ep l m).
Proof.
  apply emits_same. intros w. unfold call_ep. destruct (srv_eps _ !! l); [|done].
  by destruct (m _).
Qed.
Lemma emits_rand : emits 0 0 (rand rand_Uint32).
Proof. by apply emits_same. Qed.
Lemma emits_Resolve path : emits 0 0 (router_Resolve path).
Proof. by apply emits_same. Qed.
Lemma emits_set_handler f :
  (forall h, h_conn (f h) = h_conn h /\ h_context (f h) = h_context h) ->
  emits 0 0 (set_handler (P:=P) f).
Proof.
  intros Hf. apply emits_same. intros w. simpl. unfold outs, ins. simpl.
  by destruct (Hf (w_h w)) as [-> ->].
Qed.
Lemma emits_spawn t : emits 0 0 (spawn_io t).
Proof. by apply emits_same. Qed.
Lemma emits_lister ep : emits 0 0 (lister_tags ep).
Proof.
  apply emits_same. intros w. unfold lister_tags. destruct TagLister; [|done].
  by destruct (_ !! ep).
Qed.

Lemma emits_wrapM {A} n e msg (m : W A) : emits n e m -> emits n e (wrapM msg m).
Proof.
  intros Hm w. unfold wrapM. specialize (Hm w). by destruct (m w) as [[] w'].
Qed.

Lemma emits_try {A} (m : W A) : emits 0 0 m -> emits 0 0 (try m).
Proof.
  intros Hm w. unfold try. destruct (Hm w) as ([Hc Hi] & fs & Ho & Hf & Hl).
  destruct (m w) as [[] w']; (split; [done|]; exists fs; split_and!; try done).
  simpl in *. lia.
Qed.

Lemma emits_bind {A B} n1 e1 n2 e2 (m : W A) (f : A -> W B) :
  emits n1 e1 m -> (forall a, emits n2 e2 (f a)) ->
  emits (n1 + n2) (Nat.max e1 (n1 + e2)) (m ≫= f).
Proof.
  intros Hm Hf w. rewrite bind_eq. destruct (Hm w) as ([Hc Hi] & fs & Ho & Hfr & Hl).
  destruct (m w) as [[a|e|s] w1]; cbn [fst snd is_Ok] in *.
  - destruct (Hf a w1) as ([Hc' Hi'] & fs' & Ho' & Hfr' & Hl'). rewrite Hc in *.
    split; [split; [done|by etrans]|]. exists (fs ++ fs'). rewrite Ho', Ho, length_app, <- (assoc_L (++)).
    split_and!; [done|by apply Forall_app|]. destruct (is_Ok _); lia.
  - split; [done|]. exists fs. split_and!; [done..|lia].
  - split; [done|]. exists fs. split_and!; [done..|lia].
Qed.

(** The three compositions the handlers use. *)
Lemma emits_quiet {A B} n e (m : W A) (f : A -> W B) :
  emits 0 0 m -> (forall a, emits n e (f a)) -> emits n e (m ≫= f).
Proof. intros Hm Hf. exact (emits_bind 0 0 n e m f Hm Hf). Qed.

Lemma emits_may {A B} n (m : W A) (f : A -> W B) :
  emits 0 1 m -> (forall a, emits n 1 (f a)) -> emits n 1 (m ≫= f).
Proof. intros Hm Hf. exact (emits_bind 0 1 n 1 m f Hm Hf). Qed.

Lemma emits_then_quiet {A B} (m : W A) (f : A -> W B) :
  emits 1 1 m -> (forall a, emits 0 0 (f a)) -> emits 1 1 (m ≫= f).
Proof. intros Hm Hf. exact (emits_bind 1 1 0 0 m f Hm Hf). Qed.

(** ** Sending *)

Lemma emits_send cmd msgs : emits 1 0 (send (P:=P) cmd msgs).
Proof.
  intros w. unfold send. rewrite (bind_Ok get _ w w w eq_refl). unfold conn_Write.
  destruct (c_werr _); (split; [split; [done|reflexivity]|]).
  - exists []. rewrite app_nil_r. split_and!; [done..|simpl; lia].
  - exists [frame cmd msgs (w_h w)]. split_and!; [done| |done].
    constructor; [|constructor]. by eexists _, _.
Qed.

Lemma emits_send_items cmd i0 i1 args : emits 1 1 (send_items (P:=P) cmd i0 i1 args).
Proof.
  unfold send_items. apply emits_quiet; [apply emits_on|intros [_ item1]].
  eapply emits_weaken; [apply emits_send|lia].
Qed.
End Discipline.

Lemma eats_readItems : eats readItems.
Proof.
  unfold readItems. apply eats_bind; [apply eats_wrapM, eats_uint|intros n].
  induction (Z.to_nat n); cbn [read_n_items]; [apply eats_ret|].
  apply eats_bind; [|intros; apply eats_bind; [done|intros; apply eats_ret]].
  unfold read_item, read_item_header. apply eats_bind; [apply eats_wrapM, eats_struct|intros [id len]].
  apply eats_bind; [apply eats_wrapM, eats_full|intros; apply eats_ret].
Qed.
(** The automation: a handler is a chain of quiet steps that ends in a
    sender; what each step emits is in the hint database. *)
Create HintDb emits discriminated.
#[export] Hint Constants Opaque : emits.
#[export] Hint Resolve emits_ret emits_fail emits_fail1 emits_lift emits_get emits_gets emits_on
  emits_on_ConnMgr emits_call_ep emits_rand emits_Resolve emits_spawn emits_lister
  emits_send_items : emits.
#[export] Hint Extern 1 (emits 0 0 (on_conn _)) =>
  apply emits_on_conn; first [apply eats_readItems | apply eats_struct | apply eats_uint] : emits.
#[export] Hint Extern 1 (emits 0 0 (set_handler _)) =>
  apply emits_set_handler; by intros [] : emits.

Ltac emits_step := lazymatch goal with
  | |- emits _ _ (wrapM _ _) => apply emits_wrapM
  | |- emits 0 0 (try _) => apply emits_try
  | |- emits _ _ (_ ≫= _) => apply emits_quiet; [solve [repeat emits_step]|intros ?]
  | |- emits _ _ (let '_ := ?x in _) => destruct x
  | |- emits _ _ (if ?b then _ else _) => destruct b
  | |- emits _ _ (match ?x with _ => _ end) => destruct x
  | |- emits _ _ _ => solve [auto 2 with emits nocore]
  end.
Ltac emits_tac := cbv zeta; repeat (emits_step; cbv zeta).

Section Handlers.
Context {P : Type} `{CIPEndpoint P} (rand_Uint32 : nat -> Z).
Abbreviation W := (M (world P)).

Lemma emits_sendUnitDataErrorReply s status : emits 1 1 (sendUnitDataErrorReply (P:=P) s status).
Proof. unfold sendUnitDataErrorReply. emits_tac. Qed.
Lemma emits_sendUnitDataReplyWithPayload s p : emits 1 1 (sendUnitDataReplyWithPayload (P:=P) s p).
Proof. unfold sendUnitDataReplyWithPayload. emits_tac. Qed.
Lemma emits_sendUnitDataReply s : emits 1 1 (sendUnitDataReply (P:=P) s).
Proof. unfold sendUnitDataReply. emits_tac. Qed.
Lemma emits_sendConnectedReply s q c p : emits 1 1 (sendConnectedReply (P:=P) s q c p).
Proof. unfold sendConnectedReply. emits_tac. Qed.
Lemma emits_sendConnectedError s q c st x : emits 1 1 (sendConnectedError (P:=P) s q c st x).
Proof. unfold sendConnectedError. emits_tac. Qed.
Lemma emits_sendUnconnectedErrorReply s st : emits 1 1 (sendUnconnectedErrorReply (P:=P) s st).
Proof. unfold sendUnconnectedErrorReply. emits_tac. Qed.
Lemma emits_sendUnconnectedRRDataReply s p : emits 1 1 (sendUnconnectedRRDataReply (P:=P) s p).
Proof. unfold sendUnconnectedRRDataReply. emits_tac. Qed.

#[local] Hint Resolve emits_sendUnitDataErrorReply emits_sendUnitDataReplyWithPayload
  emits_sendUnitDataReply emits_sendConnectedReply emits_sendConnectedError
  emits_sendUnconnectedErrorReply emits_sendUnconnectedRRDataReply : emits.

(** ** Connected handlers *)

Lemma emits_find_connection c : emits 0 0 (find_connection (P:=P) c).
Proof. unfold find_connection. emits_tac. Qed.

Lemma emits_write_results p tag l : emits 0 0 (write_results (P:=P) p tag l).
Proof. unfold write_results. emits_tac. Qed.

Lemma emits_multi_requests p offsets item : emits 0 0 (multi_requests (P:=P) p offsets item).
Proof.
  revert item. induction offsets as [|o offsets IH]; intros item; cbn [multi_requests]; [apply emits_ret|].
  apply emits_quiet.
  - unfold multi_request, write_results. emits_tac.
  - intros [r item']. apply emits_quiet; [apply IH|intros; apply emits_ret].
Qed.

Lemma emits_reply_error {A} s q c st msg e n : emits n 1 (reply_error (P:=P) (A:=A) s q c st msg e).
Proof.
  unfold reply_error. intros w. rewrite bind_eq. unfold try.
  destruct (emits_sendConnectedError s q c st 0 w) as ([Hc Hi] & fs & Ho & Hf & Hl).
  destruct (sendConnectedError s q c st 0 w) as [[] w']; cbn in *;
    (split; [done|]; exists fs; split_and!; try done; lia).
Qed.

Lemma emits_or_reply {A} s q c st msg (m : W A) : emits 0 0 m -> emits 0 1 (or_reply s q c st msg m).
Proof.
  intros Hm. unfold or_reply. apply emits_quiet; [by apply emits_try|intros [e|a]].
  - apply emits_reply_error.
  - eapply emits_weaken; [apply emits_ret|lia].
Qed.

Lemma emits_read_reply s q c v : emits 1 1 (read_reply (P:=P) s q c v).
Proof.
  unfold read_reply. destruct (_ =? _); [|apply emits_sendConnectedReply].
  destruct v; try apply emits_sendConnectedReply; destruct (strings_of _);
    first [apply emits_sendConnectedReply | apply emits_reply_error].
Qed.

Lemma emits_connectedRead s i0 i1 : emits 1 1 (connectedRead (P:=P) s i0 i1).
Proof.
  unfold connectedRead.
  repeat (cbv zeta; apply emits_may;
    [apply emits_or_reply; first [apply emits_find_connection | solve [auto 2 with emits nocore]]
    |let x := fresh in intros x; lazymatch type of x with prod _ _ => destruct x | _ => idtac end]).
  apply emits_read_reply.
Qed.

Lemma emits_cipConnectedWrite i0 i1 : emits 1 1 (cipConnectedWrite (P:=P) i0 i1).
Proof.
  unfold cipConnectedWrite, find_connection, write_results. emits_tac.
Qed.

Lemma emits_connectedMulti i0 i1 : emits 1 1 (connectedMulti (P:=P) i0 i1).
Proof.
  unfold connectedMulti, find_connection.
  repeat (emits_step; cbv zeta); apply emits_quiet; intros; [apply emits_multi_requests|emits_tac].
Qed.

Lemma emits_connectedGetAttr i0 i1 : emits 1 1 (connectedGetAttr (P:=P) i0 i1).
Proof.
  unfold connectedGetAttr, find_connection, getAttrSingle, attributes. emits_tac.
Qed.

Lemma emits_get_attributes_all c i send_error send_payload :
  (forall st, emits 1 1 (send_error st)) -> (forall p, emits 1 1 (send_payload p)) ->
  emits 1 1 (get_attributes_all (P:=P) c i send_error send_payload).
Proof. intros He Hp. unfold get_attributes_all, attributes. emits_tac; auto. Qed.

Lemma emits_connectedGetAttributeAll i1 : emits 1 1 (connectedGetAttributeAll (P:=P) i1).
Proof.
  unfold connectedGetAttributeAll. emits_tac.
  apply emits_get_attributes_all; intros;
      [apply emits_sendUnitDataErrorReply|apply emits_sendUnitDataReplyWithPayload].
Qed.

Lemma emits_connectedSymbolList i0 : emits 1 1 (connectedSymbolList (P:=P) i0).
Proof.
  unfold connectedSymbolList, find_connection. emits_tac.
Qed.

Lemma emits_connected_service s i0 i1 : emits 1 1 (connected_service (P:=P) s i0 i1).
Proof.
  unfold connected_service.
  repeat match goal with |- emits _ _ (if ?b then _ else _) => destruct b end;
    try apply emits_wrapM.
  - apply emits_cipConnectedWrite.
  - apply emits_connectedRead.
  - apply emits_connectedRead.
  - apply emits_connectedMulti.
  - apply emits_connectedGetAttr.
  - apply emits_connectedGetAttributeAll.
  - apply emits_connectedSymbolList.
  - apply emits_sendUnitDataErrorReply.
Qed.

Lemma emits_read_request : emits 0 0 (read_request (P:=P)).
Proof. unfold read_request. emits_tac. Qed.

#[local] Hint Resolve emits_find_connection emits_write_results emits_multi_requests emits_read_request : emits.

(** ** Unconnected handlers *)

Lemma emits_unconnectedGetAttributeAll i : emits 1 1 (unconnectedGetAttributeAll (P:=P) i).
Proof.
  unfold unconnectedGetAttributeAll. emits_tac.
  apply emits_get_attributes_all; intros;
      [apply emits_sendUnconnectedErrorReply|apply emits_sendUnconnectedRRDataReply].
Qed.

Lemma emits_unconnectedServiceWrite i : emits 1 1 (unconnectedServiceWrite (P:=P) i).
Proof.
  unfold unconnectedServiceWrite, read_route, write_results. emits_tac.
Qed.

Lemma emits_unconnectedServiceRead i : emits 1 1 (unconnectedServiceRead (P:=P) i).
Proof.
  unfold unconnectedServiceRead, read_route. emits_tac.
Qed.

Lemma emits_resolveSymbolic n : emits 0 0 (resolveSymbolicTagFromCustomClass (P:=P) n).
Proof. unfold resolveSymbolicTagFromCustomClass. emits_tac. Qed.

Lemma emits_read_attribute_path i : emits 0 0 (read_attribute_path (P:=P) i).
Proof. unfold read_attribute_path. emits_tac. Qed.

#[local] Hint Resolve emits_resolveSymbolic emits_read_attribute_path : emits.

Lemma emits_GetAttrSingle i : emits 1 1 (unconnectedServiceGetAttrSingle (P:=P) i).
Proof. unfold unconnectedServiceGetAttrSingle, attributes. emits_tac. Qed.

Lemma emits_SetAttrSingle i : emits 1 1 (unconnectedServiceSetAttrSingle (P:=P) i).
Proof. unfold unconnectedServiceSetAttrSingle. emits_tac. Qed.

Lemma emits_unconnectedSend i : emits 1 1 (unconnectedSend (P:=P) i).
Proof.
  unfold unconnectedSend. emits_tac; first
    [ apply emits_unconnectedServiceWrite | apply emits_unconnectedServiceRead
    | apply emits_GetAttrSingle | apply emits_SetAttrSingle
    | apply emits_unconnectedGetAttributeAll | apply emits_sendUnconnectedErrorReply ].
Qed.

Lemma emits_open_connection m path : emits 1 1 (open_connection (P:=P) rand_Uint32 m path).
Proof.
  unfold open_connection, new_connection_id. do 4 (apply emits_quiet; [by emits_tac|intros ?]).
  apply emits_then_quiet; [apply emits_wrapM, emits_send_items|intros ?]. emits_tac.
Qed.

Lemma emits_forwardOpen i : emits 1 1 (forwardOpen_ (P:=P) rand_Uint32 i).
Proof.
  unfold forwardOpen_, read_open. apply emits_quiet; [by emits_tac|intros [m path]].
  apply emits_then_quiet; [apply emits_open_connection|intros [conn to]]. emits_tac.
Qed.

Lemma emits_largeForwardOpen i : emits 1 1 (largeForwardOpen (P:=P) rand_Uint32 i).
Proof.
  unfold largeForwardOpen, read_open. apply emits_quiet; [by emits_tac|intros [m path]].
  apply emits_then_quiet; [apply emits_open_connection|intros; apply emits_ret].
Qed.

Lemma emits_forwardClose i : emits 0 0 (forwardClose (P:=P) i).
Proof. unfold forwardClose. emits_tac. Qed.
End Handlers.

#[export] Hint Resolve emits_sendUnitDataErrorReply emits_sendUnitDataReplyWithPayload
  emits_sendUnitDataReply emits_sendConnectedReply emits_sendConnectedError
  emits_sendUnconnectedErrorReply emits_sendUnconnectedRRDataReply emits_read_request
  emits_connected_service emits_connectedRead : emits.

(** ** Properties *)

Section Properties.
Context {P : Type} `{CIPEndpoint P} (rand_Uint32 : nat -> Z).

(** C10. Every connected request gets an answer: whatever the bytes of a
    SendUnitData message are, and whatever the endpoint does, a handler that
    succeeds has sent exactly one reply, and one that fails at most one,
    each framed to its payload's length and echoing the request's context. *)
Theorem sendUnitData_one_reply hdr : emits (P:=P) 1 1 (sendUnitData hdr).
Proof.
  unfold sendUnitData. emits_tac.
Qed.

Lemma emits_on_known {T A B} n e (t : T) (m : M T A) a t' (f : A * T -> M (world P) B) :
  m t = (Ok a, t') -> emits n e (f (a, t')) -> emits n e (on t m ≫= f).
Proof. intros Hm Hf w. erewrite bind_Ok by (by apply on_Ok). apply Hf. Qed.

(** C38. Every unconnected request is answered too, with the one exception of
    a forward close, which the server acts on without a reply. *)
Theorem unconnectedData_replies item service rest :
  0 <= item_Pos item -> item_unread item = service :: rest -> is_byte service ->
  if service =? CIPService_ForwardClose then emits (P:=P) 0 0 (unconnectedData rand_Uint32 item)
  else emits (P:=P) 1 1 (unconnectedData rand_Uint32 item).
Proof.
  intros Hi Hd Hb.
  assert (exists item', read_u8 item = (Ok service, item')) as (item' & E).
  { eexists. by apply (parses_u8 (R:=CIPItem) service Hb item rest). }
  destruct (Z.eqb_spec service CIPService_ForwardClose) as [->|Hne];
    (unfold unconnectedData; eapply emits_on_known; [by apply wrapM_Ok|cbv beta iota]).
  - apply emits_wrapM, emits_forwardClose.
  - rewrite (proj2 (Z.eqb_neq service CIPService_ForwardClose)) by done.
    repeat match goal with |- emits _ _ (if ?b then _ else _) => destruct b end;
      try apply emits_wrapM.
    + apply emits_forwardOpen.
    + apply emits_largeForwardOpen.
    + apply emits_unconnectedGetAttributeAll.
    + apply emits_GetAttrSingle.
    + apply emits_SetAttrSingle.
    + apply emits_unconnectedSend.
    + apply emits_sendUnconnectedErrorReply.
Qed.

(** ** The serve loop *)

(** At most one frame, however the call ends. *)
Definition within {A} (m : M (world P) A) : Prop := forall w,
  (h_context (w_h (snd (m w))) = h_context (w_h w) /\ ins (snd (m w)) `suffix_of` ins w) /\
  exists fs, outs (snd (m w)) = outs w ++ fs /\ Forall (framed (h_context (w_h w))) fs /\
    (length fs <= 1)%nat.

Lemma emits_within {A} n e (m : M (world P) A) :
  emits n e m -> (n <= 1)%nat -> (e <= 1)%nat -> within m.
Proof.
  intros Hm Hn He w. destruct (Hm w) as (Hc & fs & Ho & Hf & Hl). split; [done|].
  exists fs. split_and!; [done..|]. destruct (is_Ok _); lia.
Qed.

Lemma within_quiet {A B} (m : M (world P) A) (f : A -> M (world P) B) :
  emits 0 0 m -> (forall a, within (f a)) -> within (m ≫= f).
Proof.
  intros Hm Hf w. rewrite bind_eq. destruct (Hm w) as ([Hc Hi] & fs & Ho & Hfr & Hl).
  assert (fs = []) as ->.
  { apply nil_length_inv. destruct (is_Ok _); [done|lia]. }
  rewrite app_nil_r in Ho. destruct (m w) as [[a|e|s] w1]; cbn [fst snd] in *.
  - destruct (Hf a w1) as ([Hc' Hi'] & fs' & Ho' & Hfr' & Hl'). rewrite Hc, Ho in *.
    split; [split; [done|by etrans]|]. by exists fs'.
  - split; [done|]. exists []. rewrite app_nil_r. split_and!; [done..|simpl; lia].
  - split; [done|]. exists []. rewrite app_nil_r. split_and!; [done..|simpl; lia].
Qed.

Lemma within_wrapM {A} msg (m : M (world P) A) : within m -> within (wrapM msg m).
Proof. intros Hm w. unfold wrapM. specialize (Hm w). by destruct (m w). Qed.

Lemma within_unconnectedData item : within (unconnectedData rand_Uint32 item).
Proof.
  unfold unconnectedData. apply within_quiet; [apply emits_on|intros [service item']].
  repeat match goal with |- within (if ?b then _ else _) => destruct b end;
    try apply within_wrapM.
  - eapply emits_within; [apply emits_forwardOpen|done..].
  - eapply emits_within; [apply emits_largeForwardOpen|done..].
  - eapply emits_within; [apply emits_forwardClose|lia..].
  - eapply emits_within; [apply emits_unconnectedGetAttributeAll|done..].
  - eapply emits_within; [apply emits_GetAttrSingle|done..].
  - eapply emits_within; [apply emits_SetAttrSingle|done..].
  - eapply emits_within; [apply emits_unconnectedSend|done..].
  - eapply emits_within; [apply emits_sendUnconnectedErrorReply|done..].
Qed.

Lemma within_handle_command hdr : within (handle_command rand_Uint32 hdr).
Proof.
  unfold handle_command. cbv zeta.
  repeat match goal with |- within (if ?b then _ else _) => destruct b end;
    try apply within_wrapM.
  - unfold registerSession. apply (emits_within 1 1); [|done..]. emits_tac.
    eapply emits_weaken; [apply emits_send|lia].
  - unfold sendRRData. apply within_quiet; [apply emits_read_request|intros [i0 i1]].
    repeat match goal with |- within (if ?b then _ else _) => destruct b end.
    + apply (emits_within 1 1); [|done..]. emits_tac.
    + apply within_unconnectedData.
    + apply (emits_within 0 0); [emits_tac|lia..].
  - apply (emits_within 1 1); [|done..]. unfold sendUnitData. emits_tac.
  - eapply (emits_within 1 0); [apply emits_send|lia..].
  - apply (emits_within 1 1); [|done..]. unfold sendListIdentityReply, attributes. emits_tac.
    eapply emits_weaken; [apply emits_send|lia].
  - apply (emits_within 0 0); [emits_tac|lia..].
Qed.

(** One round of the loop takes the header of a message at least, and answers
    the message with the context that came in it. *)
Lemma serve_one_spec w w' :
  serve_one rand_Uint32 w = (Ok tt, w') ->
  (length (ins w') + 24 <= length (ins w))%nat /\
  exists hdr rest, read_eipHeader (ins w) = (Ok hdr, rest) /\
    h_context (w_h w') = hdr_Context hdr /\
    exists fs, outs w' = outs w ++ fs /\ Forall (framed (hdr_Context hdr)) fs /\ (length fs <= 1)%nat.
Proof.
  intros E. unfold serve_one in E. apply bind_Ok_inv in E as (hdr & w1 & E1 & E).
  apply wrapM_Ok_inv in E1. unfold on_conn, zoom in E1. fold (ins w) in E1.
  destruct (read_eipHeader (ins w)) as [r rest] eqn:Er. injection E1 as -> <-.
  rewrite bind_eq in E. cbv [set_handler modify] in E.
  destruct (within_handle_command hdr (upd_h (set_context (hdr_Context hdr))
    (upd_h (fun h => set_conn (set_in rest (h_conn h)) h) w))) as ([Hc Hi] & fs & Ho & Hf & Hl).
  rewrite E in *. cbn [fst snd] in *. split.
  - apply read_struct_length in Er. apply suffix_length in Hi. unfold ins in *. simpl in *. lia.
  - exists hdr, rest. split_and!; [done..|]. by exists fs.
Qed.

(** [n] messages are served without an error. *)
Fixpoint rounds (n : nat) (w w' : world P) : Prop :=
  match n with
  | O => w' = w
  | S n => exists w1, serve_one rand_Uint32 w = (Ok tt, w1) /\ rounds n w1 w'
  end.

Lemma served_rounds_length n : forall w w', rounds n w w' -> (length (ins w') + 24 * n <= length (ins w))%nat.
Proof.
  induction n as [|n IH]; intros w w'; cbn [rounds]; [intros ->; lia|].
  intros (w1 & [H1 _]%serve_one_spec & H2%IH). lia.
Qed.

(** The loop with enough fuel comes to the message that ends it. *)
Lemma serve_loop_ends fuel : forall w, (length (ins w) < fuel)%nat ->
  exists n w1, rounds n w w1 /\ fst (serve_one rand_Uint32 w1) <> Ok tt /\
    forall fuel', (length (ins w) < fuel')%nat -> serve_loop rand_Uint32 fuel' w = serve_one rand_Uint32 w1.
Proof.
  induction fuel as [|fuel IH]; intros w Hf; [lia|].
  assert (fst (serve_one rand_Uint32 w) <> Ok tt -> forall f, (length (ins w) < f)%nat ->
    serve_loop rand_Uint32 f w = serve_one rand_Uint32 w) as Hlast.
  { intros Hr [|f] Hlt; [lia|]. cbn [serve_loop]. rewrite bind_eq. by destruct (serve_one rand_Uint32 w) as [[[]| |] w1]. }
  destruct (serve_one rand_Uint32 w) as [[[]|e|s] w1] eqn:E.
  - pose proof (serve_one_spec _ _ E) as [Hl _]. destruct (IH w1) as (n & w2 & Hn & Hend & Hloop); [lia|].
    exists (S n), w2. split; [by exists w1|]. split; [exact Hend|]. intros [|f] Hlt; [lia|].
    cbn [serve_loop]. rewrite bind_eq, E. apply Hloop. lia.
  - exists 0%nat, w. rewrite E. split_and!; [done|done|]. by apply Hlast.
  - exists 0%nat, w. rewrite E. split_and!; [done|done|]. by apply Hlast.
Qed.

(** C37. Serving a connection terminates: from a finite input the loop serves
    some messages, each of which takes the 24 bytes of a header at least, and
    then comes to one whose handling does not succeed (at the latest the read
    of a header at the end of the stream); the outcome of that message is the
    outcome of the loop, for every number of rounds from one per byte on, and
    so the connection is closed. *)
Theorem serve_terminates fuel w :
  (length (ins w) < fuel)%nat ->
  exists n w1, rounds n w w1 /\ (24 * n <= length (ins w))%nat /\
    fst (serve_one rand_Uint32 w1) <> Ok tt /\
    serve_loop rand_Uint32 fuel w = serve_one rand_Uint32 w1 /\ serve rand_Uint32 w = serve_one rand_Uint32 w1.
Proof.
  intros Hf. destruct (serve_loop_ends fuel w Hf) as (n & w1 & Hn & Hend & Hloop). exists n, w1.
  split; [exact Hn|]. split; [apply served_rounds_length in Hn; lia|]. split; [exact Hend|].
  split; [by apply Hloop|]. unfold serve. apply Hloop. unfold ins. lia.
Qed.
End Properties.

Lemma unconnectedData_replies_witness :
  emits (P:=MapTagProvider) 0 0 (unconnectedData (fun _ => 1)
    {| item_ID := 0xB2; item_Length := 1; item_Data := [0x4E]; item_Pos := 0 |}).
Proof.
  apply (unconnectedData_replies (P:=MapTagProvider) (fun _ => 1)
    {| item_ID := 0xB2; item_Length := 1; item_Data := [0x4E]; item_Pos := 0 |} 0x4E []);
    [zbound|reflexivity|zbound].
Defined.

Definition sample_world (input : bytes) (p : MapTagProvider) : world MapTagProvider :=
  {| w_srv := NewServer 7 {| router_Path := {[ [1; 0] := 1%positive ]} |} {[ 1%positive := p ]};
     w_h := {| h_conn := {| c_in := input; c_out := []; c_werr := None; c_local := OtherAddr |};
               h_handle := 0; h_options := 0; h_context := 0; OTConnectionID := 0;
               TOConnectionID := 0; UnitDataSequencer := 0 |};
     w_rand := 0; w_io := [] |}.

(** A message that is served, then the rest of a header. *)
Definition two_messages : bytes :=
  eipHeader_bytes {| hdr_Command := cipCommandListServices; hdr_Length := 0; hdr_SessionHandle := 0; hdr_Status := 0;
    hdr_Context := 9; hdr_Options := 0 |} ++ [0x65; 0].

Lemma serve_terminates_witness :
  let w := sample_world two_messages sample_provider in
  exists w1, (exists n, rounds (fun _ => 1) n w w1 /\ (24 * n <= 26)%nat) /\
    fst (serve_one (fun _ => 1) w1) <> Ok tt /\ serve (fun _ => 1) w = serve_one (fun _ => 1) w1.
Proof.
  destruct (serve_terminates (fun _ => 1) 27 (sample_world two_messages sample_provider)) as (n & w1 & Hn & Hl & Hend & _ & E).
  { vm_compute. lia. }
  exists w1. split; [by exists n|]. split; [exact Hend|exact E].
Defined.
