(* ===== verification/ServerData.v ===== *)
(** * What the server answers: reads, writes, unsupported services, forward opens

    Requests are given as their bytes and the handlers run symbolically on
    them; the endpoint enters only through the laws of its interface. *)
From S2P Require Import Prelude Reader GoStrings GoValue CipNames CipDefs Types Items Ioi TagPath Conns Router Messages Server ServerAttr ServerConnected ServerUnconnected ServerReplies.

(** ** Values of a write request *)

Lemma parses_read_n {R A} `{ReaderLaws R} (m : M R A) l bs :
  Forall2 (fun b v => parses m b v) bs l -> parses (read_n (length l) m) (concat bs) l.
Proof.
  induction 1 as [|b v bs l Hb _ IH]; cbn [length read_n concat]; [apply parses_ret|].
  eapply parses_bind; [exact Hb|]. eapply parses_bind_nil; [exact IH|]. apply parses_ret.
Qed.

(** The value part of a write request: the type, no type info, the number of
    elements and their bytes. *)
Definition write_values (t : Z) (n : nat) (bs : list bytes) : bytes :=
  [t] ++ [0] ++ le_bytes 2 (Z.of_nat n) ++ concat bs.

Lemma parses_write_values {R} `{ReaderLaws R} t l bs :
  t <> CIPTypeStruct -> is_byte t -> Z.of_nat (length l) < 2 ^ 16 ->
  Forall2 (fun b v => scalar_ok v /\ binary_write v = Ok b /\ fst (GoVarToCIPType v) = t) bs l ->
  parses (R:=R) parseWriteValues (write_values t (length l) bs) l.
Proof.
  intros Ht Hb Hn Hl. unfold parseWriteValues, write_values.
  eapply parses_bind; [apply parses_wrapM, parses_u8, Hb|].
  eapply parses_bind; [apply parses_wrapM, parses_u8; solve_byte|].
  change (0 <? 0) with false. cbv iota.
  apply (parses_bind _ _ [] (le_bytes 2 (Z.of_nat (length l)) ++ concat bs) 0); [apply parses_ret|].
  eapply parses_bind; [apply parses_wrapM, parses_u16; lia|].
  rewrite (proj2 (Z.eqb_neq t CIPTypeStruct)), Nat2Z.id by done.
  apply parses_read_n. clear Hn. induction Hl as [|b v bs l (Hv & Hw & <-) _ IH]; constructor; [|done].
  by apply parses_wrapM, parses_readValue.
Qed.

(** ** Replies *)

Section Replies.
Context {P : Type} `{EndpointLaws P} (rand_Uint32 : nat -> Z).

(** The world after a frame was sent. *)
Definition sent (f : bytes) (w : world P) : world P :=
  upd_h (fun h => set_conn (add_out f (h_conn h)) h) w.

Definition can_write (w : world P) : Prop := c_werr (h_conn (w_h w)) = None.

(** A reply's frame: a connected or unconnected item with the given data. *)
Definition connected_frame (connID : Z) (data : bytes) (w : world P) : bytes :=
  frame cipCommandSendUnitData
    [serializeItems [Write (le_bytes 4 connID) (empty_item cipItem_ConnectionAddress);
                     Write data (empty_item cipItem_ConnectedData)]] (w_h w).

Definition unconnected_frame (data : bytes) (w : world P) : bytes :=
  frame cipCommandSendRRData
    [serializeItems [empty_item cipItem_Null; Write data (empty_item cipItem_UnconnectedData)]] (w_h w).

Lemma send_items_Ok cmd i0 i1 args bs w :
  can_write w -> item_len_ok i1 -> Forall2 (fun a b => serialize_arg a = Ok b) args bs ->
  send_items cmd i0 i1 args w =
    (Ok tt, sent (frame cmd [serializeItems [i0; Write (concat bs) i1]] (w_h w)) w).
Proof.
  intros Hw Hi Ha. unfold send_items.
  eapply step; [apply on_Ok, wrapM_Ok, Serialize_Ok; [exact Hi|exact Ha]|].
  unfold send. rewrite (bind_Ok get _ w w w eq_refl). unfold conn_Write.
  unfold can_write in Hw. by rewrite Hw.
Qed.

Lemma sendConnectedReply_Ok s seq connID args bs w :
  can_write w -> Forall2 (fun a b => serialize_arg a = Ok b) args bs ->
  sendConnectedReply s seq connID args w =
    (Ok tt, sent (connected_frame connID
      (le_bytes 2 seq ++ [Service.AsResponse s; 0; 0; 0] ++ concat bs) w) w).
Proof.
  intros Hw Ha. unfold sendConnectedReply.
  rewrite (send_items_Ok _ _ _ _ ([Service.AsResponse s; 0; 0; 0] :: bs)); [|done|done|by constructor].
  unfold connected_frame, newItem. cbn [Serialize1 u32_arg u16_arg serialize_arg snd concat].
  by rewrite Write_Write.
Qed.

Lemma sendUnitDataReply_Ok s w :
  can_write w ->
  sendUnitDataReply s w =
    (Ok tt, sent (connected_frame (TOConnectionID (w_h w))
      (le_bytes 2 (UnitDataSequencer (w_h w)) ++ [Service.AsResponse s; 0; 0; 0]) w) w).
Proof.
  intros Hw. unfold sendUnitDataReply. eapply step; [done|].
  by erewrite send_items_Ok; [|done|done|repeat constructor].
Qed.

(** ** Unsupported services *)

Definition connected_services : list Z :=
  [CIPService_Write; CIPService_FragRead; CIPService_Read; CIPService_MultipleService;
   CIPService_GetAttributeSingle; CIPService_GetAttributeAll; CIPService_GetInstanceAttributeList].

Lemma existsb_not_in l z : existsb (Z.eqb z) l = false -> forall x, x ∈ l -> (z =? x) = false.
Proof.
  intros Hl x Hx. destruct (z =? x) eqn:E; [|done]. exfalso.
  assert (existsb (Z.eqb z) l = true); [|congruence].
  apply existsb_exists. exists x. split; [by apply list_elem_of_In|done].
Qed.

(** A service the server does not implement is refused in the protocol:
    the reply carries the request's sequence number, the service with the
    response bit, and status 8, service not supported. *)
Theorem unsupported_service_refused service item0 item1 w :
  can_write w -> existsb (Z.eqb service) connected_services = false ->
  connected_service service item0 item1 w =
    (Ok tt, sent (connected_frame (TOConnectionID (w_h w))
      (le_bytes 2 (UnitDataSequencer (w_h w)) ++
         [Service.AsResponse service; 0; CIPStatus_ServiceNotSupported; 0]) w) w).
Proof.
  intros Hw Hs. pose proof (existsb_not_in _ _ Hs) as Hn. unfold connected_services in Hn.
  unfold connected_service. rewrite !Hn by set_solver.
  unfold sendUnitDataErrorReply. eapply step; [done|].
  by erewrite send_items_Ok; [|done|done|repeat constructor].
Qed.
(** ** The connection and the endpoint of a request *)

Record routed (w : world P) (connID : Z) (c : serverConnection) (ep : eloc) (p : P) : Prop := {
  routed_conn : exists l, GetByOT connID (ConnMgr (w_srv w)) = (Ok l, ConnMgr (w_srv w)) /\
    cm_heap (ConnMgr (w_srv w)) !! l = Some c;
  routed_path : router_Path (srv_Router (w_srv w)) !! conn_Path c = Some ep;
  routed_ep : srv_eps (w_srv w) !! ep = Some p;
}.

Lemma find_connection_Ok w connID c ep p :
  routed w connID c ep p -> find_connection connID w = (Ok c, w).
Proof.
  intros [(l & E & Hc) _ _]. unfold find_connection, on_ConnMgr, zoom.
  rewrite (bind_Ok _ _ _ _ _ E), (deref_Ok l c _ Hc). by destruct w as [[] ? ? ?].
Qed.

Lemma router_Resolve_Ok w connID c ep p :
  routed w connID c ep p -> router_Resolve (conn_Path c) w = (Ok ep, w).
Proof. intros [_ Hp _]. unfold router_Resolve, Resolve. by rewrite Hp. Qed.

(** The world after the endpoint changed. *)
Definition with_ep (ep : eloc) (p : P) (w : world P) : world P :=
  upd_srv (set_eps (<[ep := p]> (srv_eps (w_srv w)))) w.

Lemma call_ep_eq {A} ep (m : M P A) p a p' (w : world P) :
  srv_eps (w_srv w) !! ep = Some p -> m p = (Ok a, p') -> call_ep ep m w = (Ok a, with_ep ep p' w).
Proof. intros Hp Hm. unfold call_ep. by rewrite Hp, Hm. Qed.

Lemma call_ep_Ok {A} w connID c ep p (m : M P A) a p' :
  routed w connID c ep p -> m p = (Ok a, p') -> call_ep ep m w = (Ok a, with_ep ep p' w).
Proof. intros [_ _ He] Hm. unfold call_ep. rewrite He, Hm. done. Qed.

Lemma with_ep_same w connID c ep p : routed w connID c ep p -> with_ep ep p w = w.
Proof.
  intros [_ _ He]. unfold with_ep, upd_srv, set_eps. rewrite insert_id by done.
  by destruct w as [[] ? ? ?].
Qed.

Lemma routed_with_ep w connID c ep p p' :
  routed w connID c ep p -> routed (with_ep ep p' w) connID c ep p'.
Proof. intros [? ? He]. split; [done..|]. simpl. by rewrite lookup_insert_eq. Qed.

Lemma routed_sent f w connID c ep p : routed w connID c ep p -> routed (sent f w) connID c ep p.
Proof. by intros []. Qed.

Lemma or_reply_Ok {A} s q conn st msg (m : M (world P) A) w a w' :
  m w = (Ok a, w') -> or_reply s q conn st msg m w = (Ok a, w').
Proof. intros E. unfold or_reply. by erewrite bind_Ok by (by apply try_Ok). Qed.

(** An item's step of connectedRead. *)
Lemma step_or_reply {A B} s q conn st msg (m : M CIPItem A) bs v rest i (f : A * CIPItem -> M (world P) B) w r :
  parses m bs v -> left i (bs ++ rest) ->
  (forall i', left i' rest -> f (v, i') w = r) ->
  (or_reply s q conn st msg (on i m) ≫= f) w = r.
Proof.
  intros Hm [Hi Hd] Hf. destruct (parses_run m bs v i rest Hm Hi Hd) as (i' & E & Hd' & Hi').
  erewrite bind_Ok by (by apply or_reply_Ok, on_Ok). by apply Hf.
Qed.

Lemma parses_path path rest' :
  Forall part_ok path -> path_stop rest' ->
  forall i, left i (path_bytes path ++ rest') ->
  exists i', getTagFromPath i = (Ok (render path), i') /\ left i' rest'.
Proof.
  intros Hp Hs i [Hi Hd]. eexists. split; [by eapply read_path_spec|].
  pose proof (advance_prefix (R:=CIPItem) i (path_bytes path) rest' Hi Hd) as E.
  split; [|exact E]. simpl. unfold blen. lia.
Qed.

(** ** Reading *)

(** How a value travels in the reply to a read. *)
Inductive value_image : goval -> bytes -> Prop :=
  | image_fixed v b :
      sarg_of v = SValue v -> fst (GoVarToCIPType v) <> CIPTypeSTRING -> binary_write v = Ok b ->
      value_image v ([fst (GoVarToCIPType v); 0] ++ b)
  | image_string s : value_image (VString s) (cipStringPacker_Bytes s).

Lemma read_reply_Ok s seq connID v b w :
  can_write w -> value_image v b ->
  read_reply s seq connID v w =
    (Ok tt, sent (connected_frame connID
      (le_bytes 2 seq ++ [Service.AsResponse s; 0; 0; 0] ++ b) w) w).
Proof.
  intros Hw Hv. unfold read_reply. destruct Hv as [v b Ha Ht Hb|str].
  - rewrite (proj2 (Z.eqb_neq _ _)) by done.
    rewrite (sendConnectedReply_Ok _ _ _ _ [[fst (GoVarToCIPType v)]; [0]; b]); [|done|].
    + cbn [concat app]. by rewrite app_nil_r.
    + rewrite Ha. by repeat constructor.
  - change (fst (GoVarToCIPType (VString str)) =? CIPTypeSTRING) with true. cbv iota.
    rewrite (sendConnectedReply_Ok _ _ _ _ [cipStringPacker_Bytes str]); [|done|by repeat constructor].
    cbn [concat]. by rewrite app_nil_r.
Qed.

(** A read request over a connection: the sequence number, the service, the
    path length, the path and the element count. *)
Definition read_request_data (seq svc pathlen : Z) (path : list tag_part) (qty : Z) (rest : bytes) : bytes :=
  le_bytes 2 seq ++ ([svc] ++ [pathlen]) ++ path_bytes path ++ le_bytes 2 qty ++ rest.

Lemma parses_two a b : is_byte a -> is_byte b -> parses (R:=CIPItem) read_u16 ([a] ++ [b]) (a + 256 * b).
Proof.
  intros Ha Hb. red in Ha, Hb. pose proof (parses_uint (R:=CIPItem) 2 (a + 256 * b)) as Hp.
  assert (le_bytes 2 (a + 256 * b) = [a] ++ [b]) as E.
  { transitivity (le_bytes 2 (le_val [a; b])); [f_equal; unfold le_val; lia|].
    apply (le_bytes_le_val [a; b]). constructor; [done|constructor; [done|constructor]]. }
  rewrite E in Hp. apply Hp. lia.
Qed.

Lemma connectedRead_spec w connID c ep p svc item0 item1 seq pathlen path qty rest rest0 v b :
  can_write w -> routed w connID c ep p ->
  0 <= connID < 2 ^ 32 -> item_Data item0 = le_bytes 4 connID ++ rest0 ->
  0 <= seq < 2 ^ 16 -> is_byte svc -> is_byte pathlen -> Forall part_ok path ->
  0 <= qty < 2 ^ 15 -> path_stop (le_bytes 2 qty ++ rest) ->
  item_Data item1 = read_request_data seq svc pathlen path qty rest ->
  stores p (render path) qty v -> value_image v b ->
  connectedRead svc item0 item1 w =
    (Ok tt, sent (connected_frame (conn_TO c)
      (le_bytes 2 seq ++ [Service.AsResponse svc; 0; 0; 0] ++ b) w) w).
Proof.
  intros Hw Hr Hid Hd0 Hseq Hsvc Hpl Hpath Hqty Hstop Hd1 Hst Hv. unfold connectedRead.
  pose proof (left_Reset item0) as L0. rewrite Hd0 in L0.
  pose proof (left_Reset item1) as L1. rewrite Hd1 in L1. unfold read_request_data in L1.
  eapply step_or_reply; [by apply parses_u32|exact L0|intros i0' _].
  eapply step; [by eapply or_reply_Ok, find_connection_Ok|]. cbv zeta.
  eapply step_or_reply; [by apply parses_u16|exact L1|intros i1 L1']. cbv beta iota.
  eapply step_or_reply; [exact (parses_two svc pathlen Hsvc Hpl)|exact L1'|intros i2 L2]. cbv beta iota.
  destruct (parses_path path (le_bytes 2 qty ++ rest) Hpath Hstop i2 L2) as (i3 & E3 & L3).
  eapply step; [by eapply or_reply_Ok, on_Ok|]. cbv beta iota.
  eapply step_or_reply; [apply (parses_u16 qty); lia|exact L3|intros i4 _]. cbv beta iota.
  eapply step; [by eapply or_reply_Ok, router_Resolve_Ok|].
  eapply step; [eapply or_reply_Ok, call_ep_Ok; [exact Hr|]|].
  - apply TagRead_stores. rewrite swrap_small by lia. exact Hst.
  - rewrite (with_ep_same w connID c ep p Hr). by apply read_reply_Ok.
Qed.

(** ** Writing *)

Definition write_request_data (pathlen : Z) (path : list tag_part) (t : Z) (v : list bytes) (rest : bytes) : bytes :=
  [pathlen] ++ path_bytes path ++ write_values t (length v) v ++ rest.

(** The type codes of values start no path segment. *)
Lemma type_code_stop v : scalar_ok v ->
  let t := fst (GoVarToCIPType v) in
  is_byte t /\ t <> 0x28 /\ t <> 0x29 /\ t <> 0x91 /\ t <> CIPTypeStruct.
Proof.
  intros Hv. destruct v as [|b|k z|z|z|str| | | |]; try done; try destruct k;
    vm_compute; repeat split; intros; discriminate.
Qed.

Lemma write_results_one ep tag v w connID c p p' :
  routed w connID c ep p -> TagWrite tag v p = (Ok tt, p') ->
  write_results ep tag [v] w = (Ok tt, with_ep ep p' w).
Proof.
  intros Hr Hw. unfold write_results. change (1 <? u16 (Z.of_nat (length [v]))) with false.
  eapply step; [reflexivity|]. apply wrapM_Ok. by eapply call_ep_Ok.
Qed.

Lemma write_results_many ep tag l w connID c p p' :
  1 < Z.of_nat (length l) < 2 ^ 16 ->
  routed w connID c ep p -> TagWrite tag (VSlice TAny l) p = (Ok tt, p') ->
  write_results ep tag l w = (Ok tt, with_ep ep p' w).
Proof.
  intros Hl Hr Hw. unfold write_results. rewrite wrap_small by lia.
  rewrite (proj2 (Z.ltb_lt _ _)) by lia. apply wrapM_Ok. by eapply call_ep_Ok.
Qed.

(** What the endpoint is asked to store: one value, or all of them. *)
Definition write_value (l : list goval) : goval :=
  match l with [v] => v | _ => VSlice TAny l end.

Lemma write_results_Ok ep tag l w connID c p p' :
  l <> [] -> Z.of_nat (length l) < 2 ^ 16 ->
  routed w connID c ep p -> TagWrite tag (write_value l) p = (Ok tt, p') ->
  write_results ep tag l w = (Ok tt, with_ep ep p' w).
Proof.
  intros Hne Hl Hr Hw. destruct l as [|v [|v' l]]; [done|..].
  - by eapply write_results_one.
  - eapply write_results_many; [|done|done]. simpl in *. lia.
Qed.

Lemma cipConnectedWrite_spec w connID c ep p p' item0 item1 pathlen path t l bs rest rest0 :
  can_write w -> routed w connID c ep p ->
  0 <= connID < 2 ^ 32 -> item_ID item0 = cipItem_ConnectionAddress ->
  item_Data item0 = le_bytes 4 connID ++ rest0 ->
  is_byte pathlen -> Forall part_ok path ->
  l <> [] -> Z.of_nat (length l) < 2 ^ 16 ->
  Forall2 (fun b v => scalar_ok v /\ binary_write v = Ok b /\ fst (GoVarToCIPType v) = t) bs l ->
  left item1 (write_request_data pathlen path t bs rest) ->
  TagWrite (render path) (write_value l) p = (Ok tt, p') ->
  cipConnectedWrite item0 item1 w =
    (Ok tt, sent (connected_frame (TOConnectionID (w_h w))
      (le_bytes 2 (UnitDataSequencer (w_h w)) ++ [Service.AsResponse CIPService_Write; 0; 0; 0]) w)
      (with_ep ep p' w)).
Proof.
  intros Hw Hr Hid Hid0 Hd0 Hpl Hpath Hne Hlen Hl L1 Hwr. unfold cipConnectedWrite.
  pose proof (left_Reset item0) as L0. rewrite Hd0 in L0.
  assert (length bs = length l) as Hbs by by eapply Forall2_length.
  assert (is_byte t /\ t <> 0x28 /\ t <> 0x29 /\ t <> 0x91 /\ t <> CIPTypeStruct)
    as (Ht & Ht1 & Ht2 & Ht3 & Ht4).
  { destruct Hl as [|b v bs l (Hv & _ & <-) _]; [done|]. by apply type_code_stop. }
  unfold write_request_data in L1. rewrite Hbs in L1.
  eapply step_on; [apply parses_wrapM, parses_u8, Hpl|exact L1|intros i1 L1']. cbv beta iota.
  destruct (parses_path path (write_values t (length l) bs ++ rest) Hpath ltac:(cbn; tauto) i1 L1')
    as (i2 & E2 & L2).
  eapply step; [by apply on_Ok, wrapM_Ok|]. cbv beta iota.
  eapply step_on; [exact (parses_wrapM _ _ _ _ (parses_write_values t l bs Ht4 Ht Hlen Hl))|exact L2|intros i3 _].
  cbv beta iota. rewrite Hid0, Z.eqb_refl. cbn [negb].
  eapply step_on; [apply parses_wrapM; by apply parses_u32|exact L0|intros i0' _]. cbv beta iota.
  eapply step; [by eapply wrapM_Ok, find_connection_Ok|].
  eapply step; [by eapply wrapM_Ok, router_Resolve_Ok|].
  eapply step; [by eapply write_results_Ok|].
  by rewrite sendUnitDataReply_Ok.
Qed.
End Replies.

(** ** Properties *)

(** A read request is answered with the value the endpoint stores: the
    bytes of a request for a well-formed path, over a registered connection,
    produce exactly one reply, addressed to the connection's originator, with
    the request's sequence number and service, success, and the image of the
    value; nothing of the server's state changes. *)
Theorem connectedRead_answers {P} `{EndpointLaws P} (w : world P) connID c ep p svc item0 item1
    seq pathlen path qty rest rest0 v b :
  can_write w -> routed w connID c ep p ->
  0 <= connID < 2 ^ 32 -> item_Data item0 = le_bytes 4 connID ++ rest0 ->
  0 <= seq < 2 ^ 16 -> is_byte svc -> is_byte pathlen -> Forall part_ok path ->
  0 <= qty < 2 ^ 15 -> path_stop (le_bytes 2 qty ++ rest) ->
  item_Data item1 = read_request_data seq svc pathlen path qty rest ->
  stores p (render path) qty v -> value_image v b ->
  connectedRead svc item0 item1 w =
    (Ok tt, sent (connected_frame (conn_TO c)
      (le_bytes 2 seq ++ [Service.AsResponse svc; 0; 0; 0] ++ b) w) w).
Proof. apply connectedRead_spec. Qed.

(** A write is carried out and acknowledged, and read back: the values of
    the request reach the endpoint under the path of the request, exactly one
    reply is sent, and a later read of the same path over the same connection
    is answered with the image of the value written (as the endpoint keeps
    it). *)
Theorem write_then_read {P} `{EndpointLaws P} (w : world P) connID c ep p p' item0 item1 pathlen
    path v bv rest rest0 :
  can_write w -> routed w connID c ep p ->
  0 <= connID < 2 ^ 32 -> item_ID item0 = cipItem_ConnectionAddress ->
  item_Data item0 = le_bytes 4 connID ++ rest0 ->
  is_byte pathlen -> Forall part_ok path -> scalar_ok v -> binary_write v = Ok bv ->
  left item1 (write_request_data pathlen path (fst (GoVarToCIPType v)) [bv] rest) ->
  TagWrite (render path) v p = (Ok tt, p') ->
  let w' := sent (connected_frame (TOConnectionID (w_h w))
      (le_bytes 2 (UnitDataSequencer (w_h w)) ++ [Service.AsResponse CIPService_Write; 0; 0; 0]) w)
      (with_ep ep p' w) in
  cipConnectedWrite item0 item1 w = (Ok tt, w') /\
  exists v', written v v' /\ forall b seq ritem, value_image v' b -> 0 <= seq < 2 ^ 16 ->
    item_Data ritem = read_request_data seq CIPService_Read pathlen path 1 [] ->
    connectedRead CIPService_Read item0 ritem w' =
      (Ok tt, sent (connected_frame (conn_TO c)
        (le_bytes 2 seq ++ [Service.AsResponse CIPService_Read; 0; 0; 0] ++ b) w') w').
Proof.
  intros Hw Hr Hid Hid0 Hd0 Hpl Hpath Hv Hb L1 Hwr w'. split.
  - eapply (cipConnectedWrite_spec w connID c ep p p' item0 item1 pathlen path _ [v] [bv]); try done.
    repeat constructor; done.
  - destruct (TagWrite_stores p (render path) v p' Hwr) as (v' & Hw' & Hst);
      [by destruct v|by destruct v|].
    exists v'. split; [done|]. intros b seq ritem Hb' Hseq Hd1.
    apply (connectedRead_spec w' connID c ep p' CIPService_Read item0 ritem seq pathlen path 1 [] rest0 v' b);
      try done.
    apply routed_sent. by eapply routed_with_ep.
Qed.

(** ** Witnesses *)

Definition sample_connection : serverConnection :=
  {| conn_ID := 3; conn_OT := 5; conn_TO := 9; conn_RPI := 0; conn_Path := [1; 0]; conn_Open := true |}.

(** A server with one provider at route 1,0 and one open connection. *)
Definition sample_server (p : MapTagProvider) : world MapTagProvider :=
  upd_srv (set_ConnMgr {| cm_heap := {[ 1%positive := sample_connection ]}; Connections := [1%positive] |})
    (sample_world [] p).

Lemma sample_routed p : routed (sample_server p) 5 sample_connection 1%positive p.
Proof. split; [exists 1%positive; by split|done|done]. Qed.

Definition sample_item (id : Z) (data : bytes) (pos : Z) : CIPItem :=
  {| item_ID := id; item_Length := blen data; item_Data := data; item_Pos := pos |}.

Definition tag_x : list tag_part := [{| tp_name := str "x"; tp_idx := [] |}].

Lemma tag_x_ok : Forall part_ok tag_x.
Proof. unfold tag_x. ok_path. Qed.

Lemma unsupported_service_refused_witness :
  connected_service 0x99 (sample_item 0xA1 [5; 0; 0; 0] 0) (sample_item 0xB1 [] 0) (sample_server sample_provider) =
    (Ok tt, sent (connected_frame 0 ([0; 0] ++ [Service.AsResponse 0x99; 0; 8; 0]) (sample_server sample_provider))
      (sample_server sample_provider)).
Proof.
  apply (unsupported_service_refused (P:=MapTagProvider) 0x99 _ _ (sample_server sample_provider));
    vm_compute; reflexivity.
Defined.

Lemma connectedRead_answers_witness :
  connectedRead CIPService_Read (sample_item 0xA1 [5; 0; 0; 0] 4)
    (sample_item 0xB1 (read_request_data 7 CIPService_Read 2 tag_x 1 []) 3) (sample_server sample_provider) =
  (Ok tt, sent (connected_frame 9 (le_bytes 2 7 ++ [Service.AsResponse CIPService_Read; 0; 0; 0] ++
      [0xC4; 0] ++ [5; 0; 0; 0]) (sample_server sample_provider)) (sample_server sample_provider)).
Proof.
  apply (connectedRead_answers (sample_server sample_provider) 5 sample_connection 1%positive
    sample_provider CIPService_Read _ _ 7 2 tag_x 1 [] [] (VInt I32 5)).
  - reflexivity.
  - apply sample_routed.
  - zbound.
  - reflexivity.
  - zbound.
  - zbound.
  - zbound.
  - apply tag_x_ok.
  - zbound.
  - repeat split; discriminate.
  - reflexivity.
  - eexists. split; [reflexivity|]. vm_compute. reflexivity.
  - apply (image_fixed (VInt I32 5) [5; 0; 0; 0]); [reflexivity|discriminate|reflexivity].
Defined.

Lemma write_then_read_witness :
  let item0 := sample_item 0xA1 [5; 0; 0; 0] 4 in
  let item1 := sample_item 0xB1 ([7; 0; 0x4D] ++ write_request_data 2 tag_x 0xC4 [[9; 0; 0; 0]] []) 3 in
  let w := sample_server sample_provider in
  exists p', TagWrite (render tag_x) (VInt I32 9) sample_provider = (Ok tt, p') /\
  let w' := sent (connected_frame 0 ([0; 0] ++ [Service.AsResponse CIPService_Write; 0; 0; 0]) w)
      (with_ep 1%positive p' w) in
  cipConnectedWrite item0 item1 w = (Ok tt, w') /\
  exists v', written (VInt I32 9) v' /\ forall b seq ritem, value_image v' b -> 0 <= seq < 2 ^ 16 ->
    item_Data ritem = read_request_data seq CIPService_Read 2 tag_x 1 [] ->
    connectedRead CIPService_Read item0 ritem w' =
      (Ok tt, sent (connected_frame 9
        (le_bytes 2 seq ++ [Service.AsResponse CIPService_Read; 0; 0; 0] ++ b) w') w').
Proof.
  eexists. split; [vm_compute; reflexivity|].
  apply (write_then_read (sample_server sample_provider) 5 sample_connection 1%positive sample_provider _
    (sample_item 0xA1 [5; 0; 0; 0] 4)
    (sample_item 0xB1 ([7; 0; 0x4D] ++ write_request_data 2 tag_x 0xC4 [[9; 0; 0; 0]] []) 3)
    2 tag_x (VInt I32 9) [9; 0; 0; 0] [] []).
  - reflexivity.
  - apply sample_routed.
  - zbound.
  - reflexivity.
  - reflexivity.
  - zbound.
  - apply tag_x_ok.
  - zbound.
  - reflexivity.
  - split; [discriminate|reflexivity].
  - vm_compute. reflexivity.
Defined.
