(* ===== verification/ServerOpen.v ===== *)
(** * Opening and closing connections, and their I/O messages

    A forward open is answered with the ids the connection will use and makes
    the connection reachable by them; a forward close ends it for everyone
    who shares it, the I/O goroutine included. *)
From S2P Require Import Prelude Reader GoStrings GoValue CipNames CipDefs Types Items Conns Router Messages Server ServerAttr ServerConnected ServerUnconnected ServerReplies ServerData.
Section Open.
Context {P : Type} `{CIPEndpoint P} (rand_Uint32 : nat -> Z).

(** The ids the server settles on: the requested ones, or random ones. *)
Definition chosen_TO (m : forwardOpen) (w : world P) : Z :=
  if fo_TOConnectionID m =? 0 then rand_Uint32 (w_rand w) else fo_TOConnectionID m.
Definition chosen_OT (m : forwardOpen) (w : world P) : Z :=
  if fo_OTConnectionID m =? 0 then
    rand_Uint32 (if fo_TOConnectionID m =? 0 then S (w_rand w) else w_rand w)
  else fo_OTConnectionID m.

Definition opened (m : forwardOpen) (path : bytes) (w : world P) : serverConnection :=
  {| conn_ID := fo_ConnectionSerialNumber m; conn_OT := chosen_OT m w; conn_TO := chosen_TO m w;
     conn_RPI := fo_TORPI m * 1000; conn_Path := take 2 path; conn_Open := true |}.

Definition open_reply (m : forwardOpen) (w : world P) : forwardOpenReply :=
  {| fr_Service := Service.AsResponse (fo_Service m); fr_Status := 0; fr_StatusLen := 0;
     fr_OTConnectionID := chosen_OT m w; fr_TOConnectionID := chosen_TO m w;
     fr_ConnectionSerialNumber := fo_ConnectionSerialNumber m; fr_VendorID := fo_VendorID m;
     fr_OriginatorSerialNumber := fo_OriginatorSerialNumber m;
     fr_OTApi := fo_OTRPI m; fr_TOApi := fo_TORPI m |}.

(** The handler's world after the ids were settled. *)
Definition settled (m : forwardOpen) (w : world P) : world P :=
  {| w_srv := w_srv w; w_h := set_OT (chosen_OT m w) (set_TO (chosen_TO m w) (w_h w));
     w_rand := w_rand w + (if fo_TOConnectionID m =? 0 then 1 else 0)
                        + (if fo_OTConnectionID m =? 0 then 1 else 0);
     w_io := w_io w |}.

Lemma on_ConnMgr_add {A} c l cm' (k : loc -> M (world P) A) (w : world P) r :
  add_new c (ConnMgr (w_srv w)) = (Ok l, cm') -> k l (upd_srv (set_ConnMgr cm') w) = r ->
  (conn ← on_ConnMgr (new_conn c); _ ← on_ConnMgr (Add conn); k conn) w = r.
Proof.
  intros E <-. unfold add_new in E.
  assert (exists cm1, new_conn c (ConnMgr (w_srv w)) = (Ok l, cm1) /\ Add l cm1 = (Ok tt, cm'))
    as (cm1 & E1 & E2).
  { apply bind_Ok_inv in E as (l0 & cm1 & E1 & E). apply bind_Ok_inv in E as ([] & cm2 & E2 & E).
    injection E as <- <-. by exists cm1. }
  eapply step; [unfold on_ConnMgr; by apply zoom_eq|].
  eapply step; [unfold on_ConnMgr; by apply zoom_eq|]. reflexivity.
Qed.

Lemma open_connection_spec m path w l cm' :
  can_write w ->
  add_new (opened m path w) (ConnMgr (w_srv w)) = (Ok l, cm') ->
  open_connection rand_Uint32 m (take 2 path) w =
    (Ok (l, chosen_TO m w),
     upd_srv (set_ConnMgr cm')
       (sent (unconnected_frame (forwardOpenReply_bytes (open_reply m w)) w) (settled m w))).
Proof.
  intros Hw Ha. unfold open_connection, new_connection_id.
  eapply (step _ _ _ (chosen_TO m w)
    {| w_srv := w_srv w; w_h := w_h w; w_rand := w_rand w + (if fo_TOConnectionID m =? 0 then 1 else 0);
       w_io := w_io w |}).
  { unfold chosen_TO. destruct (_ =? 0); unfold rand, mret, M_ret;
    rewrite ?Nat.add_1_r, ?Nat.add_0_r; by destruct w. }
  eapply step; [reflexivity|].
  eapply (step _ _ _ (chosen_OT m w)
    {| w_srv := w_srv w; w_h := set_TO (chosen_TO m w) (w_h w);
       w_rand := w_rand w + (if fo_TOConnectionID m =? 0 then 1 else 0)
                          + (if fo_OTConnectionID m =? 0 then 1 else 0);
       w_io := w_io w |}).
  { unfold chosen_OT. cbv [upd_h]. simpl.
    destruct (fo_OTConnectionID m =? 0), (fo_TOConnectionID m =? 0);
      unfold rand, mret, M_ret; simpl; rewrite ?Nat.add_1_r, ?Nat.add_0_r; done. }
  eapply step; [reflexivity|]. cbv [upd_h]. cbn [w_srv w_h w_rand w_io].
  eapply step; [apply wrapM_Ok, send_items_Ok; [exact Hw|done|by repeat constructor]|].
  cbv beta. set (w2 := sent _ _).
  change w2 with (sent (unconnected_frame (forwardOpenReply_bytes (open_reply m w)) w) (settled m w)).
  refine (on_ConnMgr_add (opened m path w) l cm' (fun conn => mret (conn, chosen_TO m w)) _ _ _ eq_refl).
  exact Ha.
Qed.

Lemma read_open_spec params m path rest i w :
  forwardOpen_ok params m -> left i (forwardOpen_bytes params m ++ path ++ rest) ->
  length path = double_u8 (fo_ConnPathSize m) -> (2 <= length path)%nat ->
  read_open (P:=P) params i w = (Ok (m, take 2 path), w).
Proof.
  intros Hm L Hl H2. unfold read_open.
  eapply step_on; [exact (parses_wrapM _ _ _ _ (parses_forwardOpen params m Hm))|exact L|intros i1 L1].
  cbv beta iota.
  eapply step_on; [apply parses_wrapM, parses_slice, Hl|exact L1|intros i2 _]. cbv beta iota.
  unfold first_two. rewrite (proj2 (Nat.ltb_ge _ _)) by lia. reflexivity.
Qed.
End Open.

(** C25. A forward open creates the connection it confirms: one reply echoes
    the serial number, vendor, originator and packet intervals of the request
    and carries the two connection ids; afterwards the table maps exactly
    that originator-to-target id to a new open connection with those ids and
    the route of the request, so that requests over it are routed to the
    endpoint at that route. *)
Theorem forwardOpen_registers {P} `{CIPEndpoint P} (rand_Uint32 : nat -> Z) m path rest i (w : world P) ep p :
  can_write w -> forwardOpen_ok 2 m -> fo_TransportTrigger m <> 1 ->
  left i (forwardOpen_bytes 2 m ++ path ++ rest) ->
  length path = double_u8 (fo_ConnPathSize m) -> (2 <= length path)%nat ->
  cm_ok (ConnMgr (w_srv w)) -> keys_unique conn_OT (ConnMgr (w_srv w)) ->
  cm_view conn_OT (ConnMgr (w_srv w)) !! chosen_OT rand_Uint32 m w = None ->
  router_Path (srv_Router (w_srv w)) !! take 2 path = Some ep -> srv_eps (w_srv w) !! ep = Some p ->
  exists w', forwardOpen_ rand_Uint32 i w = (Ok tt, w') /\
    outs w' = outs w ++ [unconnected_frame (forwardOpenReply_bytes (open_reply rand_Uint32 m w)) w] /\
    cm_ok (ConnMgr (w_srv w')) /\ keys_unique conn_OT (ConnMgr (w_srv w')) /\
    cm_view conn_OT (ConnMgr (w_srv w')) =
      <[chosen_OT rand_Uint32 m w := opened rand_Uint32 m path w]> (cm_view conn_OT (ConnMgr (w_srv w))) /\
    routed w' (chosen_OT rand_Uint32 m w) (opened rand_Uint32 m path w) ep p.
Proof.
  intros Hw Hm Ht L Hl H2 Hok Hu Hfresh Hrt Hep.
  destruct (add_new_refines conn_OT (opened rand_Uint32 m path w) (ConnMgr (w_srv w)) Hok Hu eq_refl Hfresh)
    as (l & cm' & Ha & Hok' & Hu' & Hv').
  eexists. split; [|split; [|split; [|split; [|split]]]].
  - unfold forwardOpen_.
    eapply step; [by eapply read_open_spec|]. cbv beta iota.
    eapply step; [by apply open_connection_spec|]. cbv beta iota.
    rewrite (proj2 (Z.eqb_neq _ _)) by done. reflexivity.
  - reflexivity.
  - exact Hok'.
  - exact Hu'.
  - exact Hv'.
  - split; [|done|done].
    pose proof (get_by_refines conn_OT "couldn't find connection by OT" (chosen_OT rand_Uint32 m w) cm' Hok' Hu') as Hg.
    rewrite Hv' in Hg. cbn [opened conn_OT] in Hg. rewrite lookup_insert_eq in Hg.
    destruct Hg as (l' & Eg & _ & Hc). by exists l'.
Qed.

Definition sample_open : forwardOpen :=
  {| fo_Service := 0x54; fo_PathSize := 2; fo_ClassType := 0x20; fo_Class := 6; fo_InstanceType := 0x24;
     fo_Instance := 1; fo_Priority := 10; fo_TimeoutTicks := 14; fo_OTConnectionID := 0;
     fo_TOConnectionID := 77; fo_ConnectionSerialNumber := 5; fo_VendorID := 1;
     fo_OriginatorSerialNumber := 42; fo_Multiplier := 3; fo_OTRPI := 2000; fo_OTNetworkConnParams := 0x43F4;
     fo_TORPI := 2000; fo_TONetworkConnParams := 0x43F4; fo_TransportTrigger := 0xA3; fo_ConnPathSize := 3 |}.

Lemma forwardOpen_registers_witness :
  let w := sample_world [] sample_provider in
  exists w', forwardOpen_ (fun _ => 1000)
      (sample_item 0xB2 (forwardOpen_bytes 2 sample_open ++ [1; 0; 0x20; 2; 0x24; 1]) 0) w = (Ok tt, w') /\
    outs w' = outs w ++ [unconnected_frame (forwardOpenReply_bytes (open_reply (fun _ => 1000) sample_open w)) w] /\
    cm_ok (ConnMgr (w_srv w')) /\ keys_unique conn_OT (ConnMgr (w_srv w')) /\
    cm_view conn_OT (ConnMgr (w_srv w')) =
      <[chosen_OT (fun _ => 1000) sample_open w := opened (fun _ => 1000) sample_open [1; 0; 0x20; 2; 0x24; 1] w]>
        (cm_view conn_OT (ConnMgr (w_srv w))) /\
    routed w' (chosen_OT (fun _ => 1000) sample_open w)
      (opened (fun _ => 1000) sample_open [1; 0; 0x20; 2; 0x24; 1] w) 1%positive sample_provider.
Proof.
  apply (forwardOpen_registers (fun _ => 1000) sample_open [1; 0; 0x20; 2; 0x24; 1] []).
  - reflexivity.
  - split; repeat constructor; zbound.
  - discriminate.
  - split; [discriminate|reflexivity].
  - reflexivity.
  - vm_compute. lia.
  - apply empty_cm_ok.
  - apply NoDup_nil_2.
  - reflexivity.
  - reflexivity.
  - reflexivity.
Defined.
