(* ===== verification/ServerIO.v ===== *)
(** * Closing connections and cyclic I/O

    The forward close ends a connection for everyone who shares it, the I/O
    goroutine included; while it is open, each tick of that goroutine sends
    one datagram with the next sequence number. *)
From S2P Require Import Prelude Reader GoStrings GoValue CipNames CipDefs Types Items Conns Router Messages Server ServerAttr ServerConnected ServerUnconnected ServerReplies ServerData.

(** ** Forward close *)

Record forwardClose_ok (m : msgEIPForwardClose) : Prop := {
  fc_bytes_ok : Forall is_byte [fc_Service m; fc_PathSize m; fc_ClassType m; fc_Class m;
    fc_InstanceType m; fc_Instance m; fc_Priority m; fc_TimeoutTicks m; fc_ConnPathSize m];
  fc_u16_ok : Forall (fun z => 0 <= z < 2 ^ 16) [fc_ConnectionSerialNumber m; fc_VendorID m];
  fc_u32_ok : 0 <= fc_OriginatorSerialNumber m < 2 ^ 32;
}.

Lemma parses_close {R} `{ReaderLaws R} m :
  forwardClose_ok m -> parses (R:=R) read_forwardClose (msgEIPForwardClose_bytes m) m.
Proof. intros [Hb H16 H32]. repeat (apply Forall_cons_iff in H16 as [? H16]). by apply parses_forwardClose. Qed.

Section IO.
Context {P : Type} `{CIPEndpoint P}.
Abbreviation W := (M (world P)).

Lemma on_ConnMgr_eq {A} (m : CM A) (w : world P) r cm' :
  m (ConnMgr (w_srv w)) = (r, cm') -> on_ConnMgr m w = (r, upd_srv (set_ConnMgr cm') w).
Proof. intros E. exact (zoom_eq _ _ m w r cm' E). Qed.

Lemma upd_ConnMgr_same (w : world P) : upd_srv (set_ConnMgr (ConnMgr (w_srv w))) w = w.
Proof. by destruct w as [[] ? ? ?]. Qed.

Lemma forwardClose_spec m path rest i (w : world P) cm' :
  forwardClose_ok m -> left i (msgEIPForwardClose_bytes m ++ path ++ rest) ->
  length path = double_u8 (fc_PathSize m) ->
  CloseByID (fc_ConnectionSerialNumber m) (ConnMgr (w_srv w)) = (Ok tt, cm') ->
  forwardClose i w = (Ok tt, upd_srv (set_ConnMgr cm') w).
Proof.
  intros Hm L Hl Hc. unfold forwardClose.
  eapply step_on; [apply parses_wrapM, parses_close, Hm|exact L|intros i1 L1]. cbv beta iota.
  eapply step; [by apply wrapM_Ok, on_ConnMgr_eq|]. cbv beta.
  eapply step_on; [apply parses_wrapM, parses_slice, Hl|exact L1|intros i2 _]. reflexivity.
Qed.

(** A tick finds the connection closed. *)
Lemma io_tick_closed t c (w : world P) :
  cm_heap (ConnMgr (w_srv w)) !! io_conn t = Some c -> conn_Open c = false ->
  io_tick t w = (Ok None, w).
Proof.
  intros Hc Ho. unfold io_tick.
  eapply step; [by apply on_ConnMgr_eq, deref_Ok|]. rewrite upd_ConnMgr_same. cbv beta. by rewrite Ho.
Qed.

(** ** Ticks *)

(** The task n ticks later. *)
Definition io_at (t : io_task) (n : nat) : io_task :=
  {| io_TO := io_TO t; io_TORPI := io_TORPI t; io_ep := io_ep t; io_conn := io_conn t;
     io_seq := u32 (io_seq t + Z.of_nat n) |}.

Lemma io_at_S t n : io_at (io_at t 1) n = io_at t (S n).
Proof.
  unfold io_at, wrap. cbn [io_TO io_TORPI io_ep io_conn io_seq].
  rewrite Zplus_mod_idemp_l. do 2 f_equal. lia.
Qed.

Definition io_items (t : io_task) (dat : bytes) : list CIPItem :=
  [Write (le_bytes 4 (io_TO t) ++ le_bytes 4 (io_seq t)) (empty_item cipItem_SequenceAddress);
   Write (le_bytes 2 (u16 (io_seq t)) ++ dat) (empty_item cipItem_ConnectedData)].

Definition io_datagram (t : io_task) (dat : bytes) : bytes :=
  le_bytes 2 2 ++ concat (map item_Bytes (io_items t dat)).

Lemma io_tick_open t c p p' dat (w : world P) :
  cm_heap (ConnMgr (w_srv w)) !! io_conn t = Some c -> conn_Open c = true ->
  srv_eps (w_srv w) !! io_ep t = Some p -> IORead p = (Ok dat, p') ->
  io_tick t w =
    (Ok (Some (io_at t 1, Some (io_datagram (io_at t 1) dat))), with_ep (io_ep t) p' w).
Proof.
  intros Hc Ho Hp Hr. unfold io_tick.
  eapply step; [by apply on_ConnMgr_eq, deref_Ok|]. rewrite upd_ConnMgr_same. cbv beta.
  rewrite Ho. cbn [negb]. cbv iota.
  eapply step; [by eapply try_Ok, call_ep_eq|]. cbv beta iota.
  eapply step; [apply on_Ok, Serialize_Ok; [done|repeat constructor]|]. cbv beta iota.
  eapply step; [apply on_Ok, Serialize_Ok; [done|repeat constructor]|]. cbv beta iota.
  cbn [concat u32_arg u16_arg]. rewrite !app_nil_r. reflexivity.
Qed.

(** Ticks in turn; what happens to the world before each is any function. *)
Fixpoint io_run (t : io_task) (between : list (world P -> world P)) :
    W (option io_task * list bytes) :=
  match between with
  | [] => mret (Some t, [])
  | f :: between =>
      _ ← modify f;
      r ← io_tick t;
      match r with
      | None => mret (None, [])
      | Some (t', d) =>
          '(t'', ds) ← io_run t' between;
          mret (t'', option_list d ++ ds)
      end
  end.

(** The connection is open and the endpoint there. *)
Definition io_ready (t : io_task) (w : world P) : Prop :=
  (exists c, cm_heap (ConnMgr (w_srv w)) !! io_conn t = Some c /\ conn_Open c = true) /\
  is_Some (srv_eps (w_srv w) !! io_ep t).

Lemma io_ready_with_ep t p (w : world P) : io_ready t w -> io_ready t (with_ep (io_ep t) p w).
Proof. intros [Hc _]. split; [exact Hc|]. exists p. simpl. apply lookup_insert_eq. Qed.

(** The endpoint answers every IORead, with data that fits an item. *)
Class IOReads : Prop := ioread_ok : forall p : P, exists dat p',
  IORead p = (Ok dat, p') /\ 2 + blen dat < 2 ^ 16.

Lemma io_run_ready `{IOReads} fs t (w : world P) :
  io_ready t w -> Forall (fun f => forall w, io_ready t w -> io_ready t (f w)) fs ->
  exists dats w', io_run t fs w =
      (Ok (Some (match fs with [] => t | _ => io_at t (length fs) end),
           imap (fun k => io_datagram (io_at t (S k))) dats), w') /\
    length dats = length fs /\ Forall (fun dat => 2 + blen dat < 2 ^ 16) dats /\ io_ready t w'.
Proof.
  intros Hw Hfs. revert t w Hw Hfs. induction fs as [|f fs IH]; intros t w Hw Hfs; cbn [io_run].
  - by exists [], w.
  - apply Forall_cons_iff in Hfs as [Hf Hfs].
    pose proof (Hf w Hw) as Hw1. pose proof Hw1 as [(c & Hc & Ho) [p Hp]].
    destruct (ioread_ok p) as (dat & p' & Hr & Hl).
    rewrite (bind_Ok (modify f) _ w tt (f w) eq_refl).
    rewrite (bind_Ok _ _ _ _ _ (io_tick_open t c p p' dat (f w) Hc Ho Hp Hr)). cbv iota.
    destruct (IH (io_at t 1) (with_ep (io_ep t) p' (f w)) (io_ready_with_ep t p' (f w) Hw1) Hfs)
      as (dats & w' & E & Hlen & Hd & Hw').
    exists (dat :: dats), w'. split_and!; [|by simpl; rewrite Hlen|by constructor|done].
    rewrite (bind_Ok _ _ _ _ _ E). cbv beta iota.
    assert (match fs with [] => io_at t 1 | _ => io_at (io_at t 1) (length fs) end =
      io_at t (S (length fs))) as -> by (destruct fs; [done|apply io_at_S]).
    by erewrite (imap_ext (fun k => io_datagram (io_at (io_at t 1) (S k)))) by
      (intros; by rewrite io_at_S).
Qed.

Lemma parses_datagram {R} `{ReaderLaws R} t dat :
  0 <= io_TO t < 2 ^ 32 -> 2 + blen dat < 2 ^ 16 ->
  parses (R:=R) readItems (io_datagram t dat) (map Reset (io_items t dat)).
Proof.
  intros HT Hl. apply (parses_items (io_items t dat)); [|done].
  unfold io_items. repeat apply Forall_cons_2; [..|apply Forall_nil_2];
    apply item_len_ok_wf; try apply Write_len_ok; try zbound;
    cbn [item_Data Write empty_item]; unfold blen in *; rewrite ?length_app, ?length_le_bytes;
    change (length (A:=Z) []) with 0%nat; lia.
Qed.
End IO.

(** C28. A forward close ends the connection with the given serial number: it
    leaves the table, no reply is sent, and the I/O goroutine that shares the
    connection object stops at its next tick instead of sending another
    message. *)
Theorem forwardClose_ends_connection {P} `{CIPEndpoint P} m path rest i (w : world P) l c t :
  cm_ok (ConnMgr (w_srv w)) -> keys_unique conn_ID (ConnMgr (w_srv w)) ->
  l ∈ Connections (ConnMgr (w_srv w)) -> cm_heap (ConnMgr (w_srv w)) !! l = Some c ->
  forwardClose_ok m -> conn_ID c = fc_ConnectionSerialNumber m ->
  left i (msgEIPForwardClose_bytes m ++ path ++ rest) -> length path = double_u8 (fc_PathSize m) ->
  io_conn t = l ->
  exists w', forwardClose i w = (Ok tt, w') /\ outs w' = outs w /\
    cm_ok (ConnMgr (w_srv w')) /\
    cm_view conn_ID (ConnMgr (w_srv w')) = delete (conn_ID c) (cm_view conn_ID (ConnMgr (w_srv w))) /\
    io_tick t w' = (Ok None, w').
Proof.
  intros Hok Hu Hl Hc Hm Hid L Hlen Ht.
  assert (cm_view conn_ID (ConnMgr (w_srv w)) !! conn_ID c = Some c) as Hv.
  { apply view_lookup; [done|]. split; [|done]. apply listed_elem. eauto. }
  pose proof (close_by_refines conn_ID "couldn't find connection by ID"
    (fun b c => eq_refl) (conn_ID c) (ConnMgr (w_srv w)) Hok Hu) as Hcl. rewrite Hv in Hcl.
  destruct Hcl as (l' & cm' & E & Hok' & _ & Hv' & Hl' & Hc' & Hcl').
  assert (l' = l) as -> by (symmetry; by eapply (unique_loc conn_ID)).
  exists (upd_srv (set_ConnMgr cm') w). rewrite Hid in E.
  split_and!; [by eapply forwardClose_spec|done..|].
  subst l. eapply io_tick_closed; [exact Hcl'|done].
Qed.

Definition sample_close : msgEIPForwardClose :=
  {| fc_Service := 0x4E; fc_PathSize := 2; fc_ClassType := 0x20; fc_Class := 6; fc_InstanceType := 0x24;
     fc_Instance := 1; fc_Priority := 10; fc_TimeoutTicks := 14; fc_ConnectionSerialNumber := 5;
     fc_VendorID := 1; fc_OriginatorSerialNumber := 42; fc_ConnPathSize := 2 |}.

Definition io_connection : serverConnection :=
  {| conn_ID := 5; conn_OT := 1000; conn_TO := 77; conn_RPI := 2000; conn_Path := [1; 0]; conn_Open := true |}.

Definition io_cm : serverConnectionManager :=
  {| cm_heap := {[ 1%positive := io_connection ]}; Connections := [1%positive] |}.

Lemma io_cm_ok : cm_ok io_cm.
Proof.
  split; [apply NoDup_singleton|]. intros l ->%list_elem_of_singleton. by exists io_connection.
Qed.

Definition sample_task : io_task :=
  {| io_TO := 77; io_TORPI := 2; io_ep := 1%positive; io_conn := 1%positive; io_seq := 0xFFFE |}.

Lemma forwardClose_ends_connection_witness :
  let w := upd_srv (set_ConnMgr io_cm) (sample_world [] sample_provider) in
  exists w', forwardClose (sample_item 0xB2 (msgEIPForwardClose_bytes sample_close ++ [1; 0; 0x20; 2]) 0) w
      = (Ok tt, w') /\ outs w' = outs w /\
    cm_ok (ConnMgr (w_srv w')) /\
    cm_view conn_ID (ConnMgr (w_srv w')) =
      delete (conn_ID io_connection) (cm_view conn_ID (ConnMgr (w_srv w))) /\
    io_tick sample_task w' = (Ok None, w').
Proof.
  intros w. apply (forwardClose_ends_connection sample_close [1; 0; 0x20; 2] [] _ w 1%positive io_connection).
  - exact io_cm_ok.
  - apply NoDup_singleton.
  - by apply list_elem_of_singleton.
  - reflexivity.
  - split; repeat apply Forall_cons_2; try apply Forall_nil_2; zbound.
  - reflexivity.
  - split; [discriminate|reflexivity].
  - reflexivity.
  - reflexivity.
Defined.

(** While its connection stays open and the endpoint answers, an I/O
    goroutine never skips a message: n ticks, whatever the rest of the server
    does in between, send n datagrams, and the receiver reads in the k-th the
    originator's connection id, the 32-bit sequence number k further on (which
    wraps around), its low 16 bits, and the data the endpoint gave. *)
Theorem io_run_datagrams {P} `{CIPEndpoint P} `{!IOReads} fs t (w : world P) :
  io_ready t w -> Forall (fun f => forall w, io_ready t w -> io_ready t (f w)) fs ->
  0 <= io_TO t < 2 ^ 32 -> 0 <= io_seq t < 2 ^ 32 ->
  exists t' ds dats w', io_run t fs w = (Ok (Some t', ds), w') /\
    length ds = length fs /\ length dats = length fs /\
    io_seq t' = (io_seq t + Z.of_nat (length fs)) mod 2 ^ 32 /\
    forall k d dat, ds !! k = Some d -> dats !! k = Some dat ->
      parses (R:=bytes) readItems d (map Reset (io_items (io_at t (S k)) dat)).
Proof.
  intros Hw Hfs HT Hs. destruct (io_run_ready fs t w Hw Hfs) as (dats & w' & E & Hl & Hd & _).
  do 4 eexists. split; [exact E|]. split; [by rewrite length_imap|]. split; [exact Hl|]. split.
  - destruct fs; [|done]. simpl. rewrite Z.add_0_r. symmetry. by apply Z.mod_small.
  - intros k d dat Hk Hdat. rewrite list_lookup_imap, Hdat in Hk. injection Hk as <-.
    apply parses_datagram; [exact HT|]. rewrite list.Forall_forall in Hd.
    apply Hd. by eapply list_elem_of_lookup_2.
Qed.

(** An endpoint that serves its contents as I/O data. *)
Definition data_endpoint : CIPEndpoint bytes :=
  {| TagRead _ _ := fail (Errorf "not implemented"); TagWrite _ _ := fail (Errorf "not implemented");
     IORead := gets (take 500); IOWrite _ := mret tt; TagLister := None |}.

Lemma data_endpoint_reads : @IOReads bytes data_endpoint.
Proof.
  intros p. exists (take 500 p), p. split; [done|]. unfold blen.
  rewrite length_take. lia.
Qed.

Lemma io_run_datagrams_witness :
  let w := {| w_srv := {| ConnMgr := io_cm; srv_Router := NewRouter;
                          srv_eps := {[ 1%positive := [1; 2; 3] ]}; Attributes := ∅ |};
              w_h := w_h (sample_world [] sample_provider); w_rand := 0; w_io := [] |} in
  exists t' ds dats w', @io_run bytes data_endpoint sample_task [id; id; id] w = (Ok (Some t', ds), w') /\
    length ds = 3%nat /\ length dats = 3%nat /\
    io_seq t' = (0xFFFE + 3) mod 2 ^ 32 /\
    forall k d dat, ds !! k = Some d -> dats !! k = Some dat ->
      parses (R:=bytes) readItems d (map Reset (io_items (io_at sample_task (S k)) dat)).
Proof.
  intros w. apply (@io_run_datagrams bytes data_endpoint data_endpoint_reads [id; id; id] sample_task w).
  - split; [exists io_connection; done|by eexists].
  - repeat apply Forall_cons_2; try apply Forall_nil_2; done.
  - zbound.
  - zbound.
Defined.
