(* ===== verification/Serving.v ===== *)
(** * The running server: all its connections and goroutines together (server.go)

    Serve accepts TCP connections, each served by its own goroutine, reads
    datagrams, and has an I/O goroutine per class 1 connection.  They share
    the connection table, the router and the endpoints.  Here they run
    interleaved: an event is one of them taking its next step (a handler one
    message, an I/O goroutine one tick) or what a peer sends, and a state is
    reached by any sequence of events.  The input of a connection is what its
    peer has sent and is not read yet; a handler waits in the middle of a
    message for the rest of it, so its round comes when the message is there,
    or when the peer is gone. *)
From S2P Require Import Prelude Reader GoStrings GoValue CipNames CipDefs Types Items Ioi Conns Router Messages Server ServerAttr ServerConnected ServerUnconnected ServerReplies ServerData ServerOpen ServerIO.

(** ** The state and its steps *)

Record system (P : Type) := {
  sy_srv : Server P;
  sy_rand : nat;
  sy_io : list io_task;                          (* the I/O goroutines *)
  sy_handlers : list (bool * serverTCPHandler);  (* in the order of their connections; false when it has ended *)
  sy_sent : list (loc * bytes);                  (* the datagrams sent, each with its goroutine's connection *)
}.
Arguments sy_srv {P} s. Arguments sy_rand {P} s. Arguments sy_io {P} s. Arguments sy_handlers {P} s. Arguments sy_sent {P} s.

Definition set_handlers {P} (l : list (bool * serverTCPHandler)) (s : system P) : system P :=
  {| sy_srv := sy_srv s; sy_rand := sy_rand s; sy_io := sy_io s; sy_handlers := l; sy_sent := sy_sent s |}.
Definition set_io {P} (l : list io_task) (ds : list (loc * bytes)) (s : system P) : system P :=
  {| sy_srv := sy_srv s; sy_rand := sy_rand s; sy_io := l; sy_handlers := sy_handlers s; sy_sent := sy_sent s ++ ds |}.

(** serverTCPHandler{conn: conn, server: srv} *)
Definition new_handler (c : tcp_conn) : serverTCPHandler :=
  {| h_conn := c; h_handle := 0; h_options := 0; h_context := 0; OTConnectionID := 0; TOConnectionID := 0; UnitDataSequencer := 0 |}.
Definition no_handler : serverTCPHandler := new_handler {| c_in := []; c_out := []; c_werr := None; c_local := OtherAddr |}.

(** What a goroutine sees and changes of the system. *)
Definition world_of {P} (h : serverTCPHandler) (s : system P) : world P :=
  {| w_srv := sy_srv s; w_h := h; w_rand := sy_rand s; w_io := sy_io s |}.
Definition absorb {P} (w : world P) (s : system P) : system P :=
  {| sy_srv := w_srv w; sy_rand := w_rand w; sy_io := w_io w; sy_handlers := sy_handlers s; sy_sent := sy_sent s |}.

Inductive event :=
  | Accept (r : error + tcp_conn)   (* serveTCP: what Accept answered *)
  | Arrive (i : nat) (b : bytes)    (* the peer of the connection i sends *)
  | Round (i : nat)                 (* the loop of serve, for the connection i *)
  | Tick (j : nat)                  (* the loop of ioConnection, of the goroutine j *)
  | Datagram (d : bytes).           (* serveUDP *)

Section Serving.
Context {P : Type} `{CIPEndpoint P} (rand_Uint32 : nat -> Z).
Abbreviation SY := (M (system P)).

(** A round of a handler; with an error it closes its connection and ends,
    with a panic the process does. *)
Definition serve_round (i : nat) : SY unit := fun s =>
  match sy_handlers s !! i with
  | Some (true, h) =>
      let '(r, w) := serve_one rand_Uint32 (world_of h s) in
      let after (running : bool) := set_handlers (<[i := (running, w_h w)]> (sy_handlers s)) (absorb w s) in
      match r with
      | Ok _ => (Ok tt, after true)
      | Err _ => (Ok tt, after false)
      | Panic why => (Panic why, after false)
      end
  | _ => (Ok tt, s)
  end.

(** A tick of an I/O goroutine.  Its ticker is made when it starts, which
    panics for an interval of 0. *)
Definition io_step (j : nat) : SY unit := fun s =>
  match sy_io s !! j with
  | None => (Ok tt, s)
  | Some t =>
      if io_TORPI t =? 0 then (Panic "non-positive interval for NewTicker", s)
      else
        let '(r, w) := io_tick t (world_of no_handler s) in
        let s := absorb w s in
        match r with
        | Ok (Some (t', d)) => (Ok tt, set_io (<[j := t']> (sy_io s)) (pair (io_conn t) <$> option_list d) s)
        | Ok None | Err _ => (Ok tt, set_io (delete j (sy_io s)) [] s)
        | Panic why => (Panic why, s)
        end
  end.

Definition serveUDP (d : bytes) : SY unit := fun s =>
  let '(r, w) := serveUDP_datagram d (world_of no_handler s) in (r, absorb w s).

(** With an error it goes on to the next connection. *)
Definition serveTCP (r : error + tcp_conn) : SY unit :=
  match r with
  | inl _ => mret tt
  | inr c => modify (fun s => set_handlers (sy_handlers s ++ [(true, new_handler c)]) s)
  end.

Definition receive (b : bytes) (h : serverTCPHandler) : serverTCPHandler := set_conn (set_in (c_in (h_conn h) ++ b) (h_conn h)) h.
Definition arrive (i : nat) (b : bytes) : SY unit := modify (fun s => set_handlers (alter (prod_map id (receive b)) i (sy_handlers s)) s).

Definition handle (e : event) : SY unit :=
  match e with
  | Arrive i b => arrive i b
  | Accept r => serveTCP r
  | Round i => serve_round i
  | Tick j => io_step j
  | Datagram d => serveUDP d
  end.

Fixpoint run_events (es : list event) : SY unit :=
  match es with
  | [] => mret tt
  | e :: es => _ ← handle e; run_events es
  end.

(** The server when both listeners are open and nothing has come yet. *)
Definition Serve_start (srv : Server P) (rand : nat) : system P :=
  {| sy_srv := set_ConnMgr (snd (Init (ConnMgr srv))) srv; sy_rand := rand; sy_io := []; sy_handlers := []; sy_sent := [] |}.

(** Serve: what net.Listen and net.ListenPacket answer.  serveTCP and serveUDP
    have no way out, so that a server that runs never returns. *)
Definition Serve (tcp udp : option error) (srv : Server P) (rand : nat) : res (system P) :=
  match tcp, udp with
  | Some e, _ => Err (Wrap "couldn't open tcp listener" e)
  | None, Some _ => Err (Errorf "couldn't open udp listener")
  | None, None => Ok (Serve_start srv rand)
  end.

(** The states of a server that was started and has not crashed. *)
Inductive serving (srv : Server P) (rand : nat) : system P -> Prop :=
  | serving_start : serving srv rand (Serve_start srv rand)
  | serving_step s e s' : serving srv rand s -> handle e s = (Ok tt, s') -> serving srv rand s'.

(** ** The invariant *)

(** The connection of a goroutine is there, and open only while the table
    lists it. *)
Definition conn_ok (cm : serverConnectionManager) (l : loc) : Prop :=
  exists c, cm_heap cm !! l = Some c /\ (conn_Open c = true -> l ∈ Connections cm).
Definition tasks_ok (cm : serverConnectionManager) (l : list io_task) : Prop := Forall (fun t => conn_ok cm (io_conn t)) l.
Definition io_inv (w : world P) : Prop := cm_ok (ConnMgr (w_srv w)) /\ tasks_ok (ConnMgr (w_srv w)) (w_io w).

(** A connection that was closed stays closed. *)
Definition later (cm cm' : serverConnectionManager) : Prop := forall l c, cm_heap cm !! l = Some c ->
  exists c', cm_heap cm' !! l = Some c' /\ (conn_Open c = false -> conn_Open c' = false).
Definition kept (w w' : world P) : Prop := io_inv w' /\ later (ConnMgr (w_srv w)) (ConnMgr (w_srv w')).
#[export] Instance later_preorder : PreOrder later.
Proof.
  split; [by intros cm l c Hc; exists c|]. intros cm1 cm2 cm3 H12 H23 l c Hc.
  destruct (H12 l c Hc) as (c2 & H2 & Ho). destruct (H23 l c2 H2) as (c3 & H3 & Ho'). exists c3. split; auto.
Qed.

Definition stays {A} (m : M (world P) A) : Prop := forall w, io_inv w -> kept w (snd (m w)).
(** ... and what it returns satisfies Q *)
Definition stays_to {A} (Q : A -> world P -> Prop) (m : M (world P) A) : Prop := forall w, io_inv w ->
  kept w (snd (m w)) /\ forall a, fst (m w) = Ok a -> Q a (snd (m w)).

Lemma stays_same {A} (m : M (world P) A) :
  (forall w, ConnMgr (w_srv (snd (m w))) = ConnMgr (w_srv w) /\ w_io (snd (m w)) = w_io w) -> stays m.
Proof. intros Hm w Hw. unfold kept, io_inv in *. by destruct (Hm w) as [-> ->]. Qed.

Lemma stays_ret {A} (a : A) : stays (mret a).
Proof. by apply stays_same. Qed.
Lemma stays_fail {A} e : stays (A:=A) (fail e).
Proof. by apply stays_same. Qed.
Lemma stays_panic {A} e : stays (A:=A) (panic e).
Proof. by apply stays_same. Qed.
Lemma stays_lift {A} (r : res A) : stays (lift r).
Proof. by apply stays_same. Qed.
Lemma stays_get : stays get.
Proof. by apply stays_same. Qed.
Lemma stays_gets {A} (f : world P -> A) : stays (gets f).
Proof. by apply stays_same. Qed.
Lemma stays_on {T A} (t : T) (m : M T A) : stays (on t m).
Proof. apply stays_same. intros w. unfold on. by destruct (m t) as [[] ?]. Qed.
Lemma stays_on_conn {A} (m : M bytes A) : stays (on_conn m).
Proof. apply stays_same. intros w. unfold on_conn, zoom. by destruct (m _). Qed.
Lemma stays_call_ep {A} l (m : M P A) : stays (call_ep l m).
Proof. apply stays_same. intros w. unfold call_ep. destruct (srv_eps _ !! l); [|done]. by destruct (m _). Qed.
Lemma stays_rand : stays (rand rand_Uint32).
Proof. by apply stays_same. Qed.
Lemma stays_Resolve path : stays (router_Resolve path).
Proof. by apply stays_same. Qed.
Lemma stays_set_handler f : stays (set_handler (P:=P) f).
Proof. by apply stays_same. Qed.
Lemma stays_lister ep : stays (lister_tags ep).
Proof. apply stays_same. intros w. unfold lister_tags. destruct TagLister; [|done]. by destruct (_ !! ep). Qed.
Lemma stays_conn_Write b : stays (conn_Write (P:=P) b).
Proof. apply stays_same. intros w. unfold conn_Write. by destruct (c_werr _). Qed.

Lemma stays_bind {A B} (m : M (world P) A) (f : A -> M (world P) B) : stays m -> (forall a, stays (f a)) -> stays (m ≫= f).
Proof.
  intros Hm Hf w Hw. rewrite bind_eq. specialize (Hm w Hw). destruct (m w) as [[a|e|s] w1]; [|done..].
  destruct Hm as [H1 Hl], (Hf a w1 H1) as [H2 Hl']. split; [done|by etrans].
Qed.
Lemma stays_wrapM {A} msg (m : M (world P) A) : stays m -> stays (wrapM msg m).
Proof. intros Hm w Hw. unfold wrapM. specialize (Hm w Hw). by destruct (m w) as [[] w1]. Qed.
Lemma stays_try {A} (m : M (world P) A) : stays m -> stays (try m).
Proof. intros Hm w Hw. unfold try. specialize (Hm w Hw). by destruct (m w) as [[] w1]. Qed.
Lemma stays_send cmd msgs : stays (send (P:=P) cmd msgs).
Proof. unfold send. apply stays_bind; [apply stays_get|intros; apply stays_conn_Write]. Qed.
Lemma stays_send_items cmd i0 i1 args : stays (send_items (P:=P) cmd i0 i1 args).
Proof. unfold send_items. apply stays_bind; [apply stays_on|intros [_ i]; apply stays_send]. Qed.

(** ** The connection table *)

Lemma find_conn_same key v i ls cm : snd (find_conn key v i ls cm) = cm.
Proof.
  revert i. induction ls as [|l ls IH]; intros i; [done|]. cbn [find_conn]. rewrite (bind_eq (deref l)). unfold deref.
  destruct (cm_heap cm !! l); [|done]. destruct (_ =? _); [done|apply IH].
Qed.

Lemma get_by_same key msg v cm : snd (get_by key msg v cm) = cm.
Proof.
  unfold get_by. rewrite (bind_Ok get _ cm cm cm eq_refl), (bind_eq (find_conn _ _ _ _)). pose proof (find_conn_same key v 0 (Connections cm) cm) as E.
  destruct (find_conn _ _ _ _ _) as [[[[? ?]|]| |] ?]; simpl in *; by subst.
Qed.

Lemma stays_find_conn v : stays (on_ConnMgr (P:=P) (l ← GetByOT v; deref l)).
Proof.
  apply stays_same. intros w. unfold on_ConnMgr, zoom. set (cm := ConnMgr (w_srv w)).
  assert (snd ((l ← GetByOT v; deref l) cm) = cm) as E.
  { rewrite (bind_eq (GetByOT v)). pose proof (get_by_same conn_OT "couldn't find connection by OT" v cm) as E. unfold GetByOT.
    destruct (get_by _ _ _ cm) as [[l| |] cm']; simpl in *; subst; try done. unfold deref. by destruct (_ !! l). }
  destruct ((l ← GetByOT v; deref l) cm) as [r cm']. simpl in *. by subst.
Qed.

Lemma stays_deref l : stays (on_ConnMgr (P:=P) (deref l)).
Proof. apply stays_same. intros w. unfold on_ConnMgr, zoom, deref. by destruct (_ !! l). Qed.

Lemma closed_conn_ok l0 l cm cm' : cm_ok cm -> closed_state l cm cm' -> conn_ok cm l0 -> conn_ok cm' l0.
Proof.
  intros Hok [Hp Hh] (c & Hc & Ho). destruct (decide (l0 = l)) as [->|Hne].
  - exists (set_Open false c). rewrite Hh, lookup_alter_eq, Hc. by split.
  - exists c. rewrite Hh, lookup_alter_ne by congruence. split; [done|]. intros Hopen. specialize (Ho Hopen).
    rewrite <- Hp in Ho. by apply elem_of_cons in Ho as [->|].
Qed.

Lemma stays_close v : stays (on_ConnMgr (P:=P) (CloseByID v)).
Proof.
  intros w [Hok Hio]. unfold on_ConnMgr, zoom.
  destruct (close_by_found conn_ID "couldn't find connection by ID" v (ConnMgr (w_srv w)) Hok) as [(l & c & cm' & Hl & Hc & Hk & E & Hcl)|[E _]].
  - unfold CloseByID. rewrite E. split; [split; [by apply (closed_state_ok _ _ _ Hok Hcl)|]|].
    + eapply Forall_impl; [|exact Hio]. intros t Ht. by eapply closed_conn_ok.
    + intros l' c' Hc'. cbn [snd upd_srv w_srv set_ConnMgr ConnMgr]. rewrite (proj2 Hcl).
      destruct (decide (l' = l)) as [->|Hne]; [|by rewrite lookup_alter_ne by congruence; exists c'].
      rewrite lookup_alter_eq, Hc'. by eexists.
  - unfold CloseByID. rewrite E. by split; [split|].
Qed.

(** A new connection in the table: the others stay as they are. *)
Lemma stays_add_new {A} c (k : loc -> A) : conn_Open c = true ->
  stays_to (fun a w => forall l, a = k l -> (forall l', k l = k l' -> l = l') -> conn_ok (ConnMgr (w_srv w)) l)
    (conn ← on_ConnMgr (P:=P) (new_conn c); _ ← on_ConnMgr (Add conn); mret (k conn)).
Proof.
  intros Hopen w [Hok Hio]. set (cm := ConnMgr (w_srv w)) in *. set (l := fresh (dom (cm_heap cm))).
  assert (cm_heap cm !! l = None) as Hl by apply not_elem_of_dom, is_fresh.
  set (cm' := {| cm_heap := <[l := c]> (cm_heap cm); Connections := Connections cm ++ [l] |}).
  assert ((conn ← on_ConnMgr (P:=P) (new_conn c); _ ← on_ConnMgr (Add conn); mret (k conn)) w =
    (Ok (k l), upd_srv (set_ConnMgr cm') w)) as E.
  { refine (on_ConnMgr_add c l cm' (fun conn => mret (k conn)) w _ _ eq_refl).
    unfold add_new, new_conn. cbv [mbind M_bind]. fold cm l. unfold Add, deref. cbv [mbind M_bind].
    cbn [set_heap cm_heap]. by rewrite lookup_insert_eq. }
  rewrite E. cbn [fst snd]. assert (forall l', is_Some (cm_heap cm !! l') -> l' <> l) as Hne by (intros l' [? Hx] ->; congruence).
  split; [split; [split|]|].
  - split; cbn [upd_srv w_srv set_ConnMgr ConnMgr cm' Connections cm_heap].
    + apply list.NoDup_app. split; [apply Hok|]. split; [|apply NoDup_singleton].
      intros l' Hin ->%list_elem_of_singleton. by apply (Hne l (cm_ok_alloc cm l Hok Hin)).
    + intros l' [Hin|Heq]%elem_of_app; [|apply list_elem_of_singleton in Heq as ->].
      * rewrite lookup_insert_ne; [by apply Hok|]. apply not_eq_sym, Hne. by apply cm_ok_alloc.
      * exists c. by rewrite lookup_insert_eq.
  - eapply Forall_impl; [|exact Hio]. intros t (c' & Hc' & Ho). exists c'. cbn [upd_srv w_srv set_ConnMgr ConnMgr cm' cm_heap Connections].
    rewrite lookup_insert_ne by (apply not_eq_sym, Hne; by eexists). split; [done|]. intros Hop. apply elem_of_app. left. by apply Ho.
  - intros l' c' Hc'. cbn [upd_srv w_srv set_ConnMgr ConnMgr cm' cm_heap].
    rewrite lookup_insert_ne by (apply not_eq_sym, Hne; by eexists). by exists c'.
  - intros a [= <-] l0 Hk Hinj. assert (l0 = l) as -> by (apply Hinj; by rewrite Hk). exists c.
    cbn [upd_srv w_srv set_ConnMgr ConnMgr cm' cm_heap Connections]. rewrite lookup_insert_eq. split; [done|].
    intros _. apply elem_of_app. right. by left.
Qed.

Lemma stays_bind_to {A B} Q (m : M (world P) A) (f : A -> M (world P) B) :
  stays m -> (forall a, stays_to Q (f a)) -> stays_to Q (m ≫= f).
Proof.
  intros Hm Hf w Hw. rewrite bind_eq. specialize (Hm w Hw). destruct (m w) as [[a|e|s] w1]; [|done..].
  destruct Hm as [H1 Hl], (Hf a w1 H1) as [[H2 Hl'] Hq]. split; [split; [done|by etrans]|done].
Qed.
End Serving.

(** The automation: every step a handler takes leaves the invariant as it
    is; what the components do is in the hint database. *)
Create HintDb stays discriminated.
#[export] Hint Constants Opaque : stays.
#[export] Hint Resolve stays_ret stays_fail stays_panic stays_lift stays_get stays_gets stays_on stays_on_conn stays_call_ep stays_rand
  stays_Resolve stays_set_handler stays_lister stays_send stays_send_items stays_find_conn stays_deref stays_close : stays.

Ltac stays_step := lazymatch goal with
  | |- stays (wrapM _ _) => apply stays_wrapM
  | |- stays (try _) => apply stays_try
  | |- stays (_ ≫= _) => apply stays_bind; [|intros ?]
  | |- stays (let '_ := ?x in _) => destruct x
  | |- stays (if ?b then _ else _) => destruct b
  | |- stays (match ?x with _ => _ end) => destruct x
  | |- stays _ => solve [auto 2 with stays nocore]
  end.
Ltac stays_tac := cbv zeta; repeat (stays_step; cbv zeta).

Section Handlers.
Context {P : Type} `{CIPEndpoint P} (rand_Uint32 : nat -> Z).

(** ** Senders *)

Lemma stays_UnitDataErrorReply s status : stays (sendUnitDataErrorReply (P:=P) s status).
Proof. unfold sendUnitDataErrorReply. stays_tac. Qed.
Lemma stays_UnitDataReplyWithPayload s p : stays (sendUnitDataReplyWithPayload (P:=P) s p).
Proof. unfold sendUnitDataReplyWithPayload. stays_tac. Qed.
Lemma stays_UnitDataReply s : stays (sendUnitDataReply (P:=P) s).
Proof. unfold sendUnitDataReply. stays_tac. Qed.
Lemma stays_ConnectedReply s q c p : stays (sendConnectedReply (P:=P) s q c p).
Proof. unfold sendConnectedReply. stays_tac. Qed.
Lemma stays_ConnectedError s q c st x : stays (sendConnectedError (P:=P) s q c st x).
Proof. unfold sendConnectedError. stays_tac. Qed.
Lemma stays_UnconnectedErrorReply s st : stays (sendUnconnectedErrorReply (P:=P) s st).
Proof. unfold sendUnconnectedErrorReply. stays_tac. Qed.
Lemma stays_UnconnectedRRDataReply s p : stays (sendUnconnectedRRDataReply (P:=P) s p).
Proof. unfold sendUnconnectedRRDataReply. stays_tac. Qed.
#[local] Hint Resolve stays_UnitDataErrorReply stays_UnitDataReplyWithPayload stays_UnitDataReply stays_ConnectedReply
  stays_ConnectedError stays_UnconnectedErrorReply stays_UnconnectedRRDataReply : stays.

(** ** Connected handlers *)

Lemma stays_find_connection c : stays (find_connection (P:=P) c).
Proof. apply stays_find_conn. Qed.
Lemma stays_write_results p tag l : stays (write_results (P:=P) p tag l).
Proof. unfold write_results. stays_tac. Qed.
Lemma stays_reply_error {A} s q c st msg e : stays (reply_error (P:=P) (A:=A) s q c st msg e).
Proof. unfold reply_error. stays_tac. Qed.
#[local] Hint Resolve stays_find_connection stays_write_results stays_reply_error : stays.
Lemma stays_or_reply {A} s q c st msg (m : M (world P) A) : stays m -> stays (or_reply s q c st msg m).
Proof. intros Hm. unfold or_reply. stays_tac. Qed.

Lemma stays_multi_requests p offsets item : stays (multi_requests (P:=P) p offsets item).
Proof.
  revert item. induction offsets as [|o offsets IH]; intros item; cbn [multi_requests]; [apply stays_ret|].
  apply stays_bind; [unfold multi_request; stays_tac|].
  intros [r item']. apply stays_bind; [apply IH|intros; apply stays_ret].
Qed.

Lemma stays_connectedRead s i0 i1 : stays (connectedRead (P:=P) s i0 i1).
Proof.
  unfold connectedRead, read_reply. cbv zeta.
  repeat first [apply stays_or_reply | stays_step].
Qed.
Lemma stays_connectedWrite i0 i1 : stays (cipConnectedWrite (P:=P) i0 i1).
Proof. unfold cipConnectedWrite. stays_tac. Qed.
Lemma stays_connectedMulti i0 i1 : stays (connectedMulti (P:=P) i0 i1).
Proof. unfold connectedMulti. cbv zeta. repeat first [apply stays_multi_requests | stays_step]. Qed.
Lemma stays_connectedGetAttr i0 i1 : stays (connectedGetAttr (P:=P) i0 i1).
Proof. unfold connectedGetAttr, getAttrSingle, attributes. stays_tac. Qed.
Lemma stays_get_attributes_all c i send_error send_payload :
  (forall st, stays (send_error st)) -> (forall p, stays (send_payload p)) ->
  stays (get_attributes_all (P:=P) c i send_error send_payload).
Proof. intros He Hp. unfold get_attributes_all, attributes. stays_tac; auto. Qed.
Lemma stays_connectedGetAttributeAll i1 : stays (connectedGetAttributeAll (P:=P) i1).
Proof. unfold connectedGetAttributeAll. cbv zeta. repeat first [apply stays_get_attributes_all; intros | stays_step]. Qed.
Lemma stays_connectedSymbolList i0 : stays (connectedSymbolList (P:=P) i0).
Proof. unfold connectedSymbolList. stays_tac. Qed.
#[local] Hint Resolve stays_connectedRead stays_connectedWrite stays_connectedMulti stays_connectedGetAttr
  stays_connectedGetAttributeAll stays_connectedSymbolList : stays.
Lemma stays_connected_service s i0 i1 : stays (connected_service (P:=P) s i0 i1).
Proof. unfold connected_service. stays_tac. Qed.
Lemma stays_read_request : stays (read_request (P:=P)).
Proof. unfold read_request. stays_tac. Qed.
#[local] Hint Resolve stays_connected_service stays_read_request : stays.

(** ** Unconnected handlers *)

Lemma stays_unconnectedGetAttributeAll i : stays (unconnectedGetAttributeAll (P:=P) i).
Proof. unfold unconnectedGetAttributeAll. cbv zeta. repeat first [apply stays_get_attributes_all; intros | stays_step]. Qed.
Lemma stays_ServiceWrite i : stays (unconnectedServiceWrite (P:=P) i).
Proof. unfold unconnectedServiceWrite, read_route. stays_tac. Qed.
Lemma stays_ServiceRead i : stays (unconnectedServiceRead (P:=P) i).
Proof. unfold unconnectedServiceRead, read_route. stays_tac. Qed.
Lemma stays_resolveSymbolic n : stays (resolveSymbolicTagFromCustomClass (P:=P) n).
Proof. unfold resolveSymbolicTagFromCustomClass. stays_tac. Qed.
Lemma stays_read_attribute_path i : stays (read_attribute_path (P:=P) i).
Proof. unfold read_attribute_path. stays_tac. Qed.
#[local] Hint Resolve stays_unconnectedGetAttributeAll stays_ServiceWrite stays_ServiceRead stays_resolveSymbolic
  stays_read_attribute_path : stays.
Lemma stays_GetAttrSingle i : stays (unconnectedServiceGetAttrSingle (P:=P) i).
Proof. unfold unconnectedServiceGetAttrSingle, attributes. stays_tac. Qed.
Lemma stays_SetAttrSingle i : stays (unconnectedServiceSetAttrSingle (P:=P) i).
Proof. unfold unconnectedServiceSetAttrSingle. stays_tac. Qed.
#[local] Hint Resolve stays_GetAttrSingle stays_SetAttrSingle : stays.
Lemma stays_unconnectedSend i : stays (unconnectedSend (P:=P) i).
Proof. unfold unconnectedSend. stays_tac. Qed.

(** ** Connections and their goroutines *)

Lemma stays_read_open n i : stays (read_open (P:=P) n i).
Proof. unfold read_open. stays_tac. Qed.
Lemma stays_forwardClose i : stays (forwardClose (P:=P) i).
Proof. unfold forwardClose. stays_tac. Qed.

Definition opened_ok (a : loc * Z) (w : world P) : Prop := conn_ok (ConnMgr (w_srv w)) (fst a).

Lemma stays_open_connection m path : stays_to opened_ok (open_connection rand_Uint32 m path).
Proof.
  unfold open_connection, new_connection_id. apply stays_bind_to; [stays_tac|intros to].
  apply stays_bind_to; [stays_tac|intros _]. apply stays_bind_to; [stays_tac|intros ot].
  apply stays_bind_to; [stays_tac|intros _]. apply stays_bind_to; [stays_tac|intros _].
  intros w Hw. set (c := {| conn_ID := _ |}).
  destruct (stays_add_new c (fun conn => (conn, to)) eq_refl w Hw) as [Hw' Ha]. split; [exact Hw'|].
  intros [l z] E. apply (Ha (l, z) E l); [|by intros l' [= ->]].
  rewrite bind_eq in E. destruct (on_ConnMgr (new_conn c) w) as [[a| |] w1]; [|done..].
  rewrite bind_eq in E. destruct (on_ConnMgr (Add a) w1) as [[[]| |] w2]; [|done..]. by injection E as -> ->.
Qed.

Lemma stays_largeForwardOpen i : stays (largeForwardOpen (P:=P) rand_Uint32 i).
Proof.
  unfold largeForwardOpen. apply stays_bind; [apply stays_read_open|intros [m path]].
  apply stays_bind; [|intros; apply stays_ret]. intros w Hw. by apply stays_open_connection.
Qed.

Lemma stays_forwardOpen i : stays (forwardOpen_ (P:=P) rand_Uint32 i).
Proof.
  unfold forwardOpen_. apply stays_bind; [apply stays_read_open|intros [m path]].
  intros w Hw. rewrite bind_eq. destruct (stays_open_connection m path w Hw) as [Hw1 Hq].
  destruct (open_connection rand_Uint32 m path w) as [[[l to]|e|s] w1]; [|done..]. cbn [fst snd] in *.
  specialize (Hq _ eq_refl). destruct (_ =? 1); [|done].
  rewrite bind_eq. unfold wrapM, router_Resolve. destruct (Resolve _ path); [|done..].
  destruct Hw1 as [[Hok Hio] Hl]. split; [split; [done|]|done]. cbn. by apply Forall_app_2; [|apply Forall_cons_2].
Qed.
#[local] Hint Resolve stays_unconnectedSend stays_forwardClose stays_largeForwardOpen stays_forwardOpen : stays.

Lemma stays_unconnectedData i : stays (unconnectedData (P:=P) rand_Uint32 i).
Proof. unfold unconnectedData. stays_tac. Qed.
#[local] Hint Resolve stays_unconnectedData stays_connected_service stays_read_request stays_connectedRead : stays.

(** ** The events *)

Lemma stays_serve_one : stays (serve_one (P:=P) rand_Uint32).
Proof.
  unfold serve_one, handle_command, registerSession, sendRRData, sendUnitData, sendListServicesData, sendListIdentityReply, attributes.
  stays_tac.
Qed.

Lemma stays_datagram d : stays (serveUDP_datagram (P:=P) d).
Proof. unfold serveUDP_datagram. destruct (_ || _); [apply stays_ret|]. stays_tac. Qed.

Lemma stays_io_tick t : stays (io_tick (P:=P) t).
Proof. unfold io_tick. stays_tac. Qed.
End Handlers.

(** ** The whole system *)

Section System.
Context {P : Type} `{CIPEndpoint P} (rand_Uint32 : nat -> Z).

(** What the goroutines rely on: the table is well formed and every
    connection an I/O goroutine holds is one of its objects. *)
Definition sys_inv (s : system P) : Prop := cm_ok (ConnMgr (sy_srv s)) /\ tasks_ok (ConnMgr (sy_srv s)) (sy_io s).
Definition sys_kept (s s' : system P) : Prop := sys_inv s' /\ later (ConnMgr (sy_srv s)) (ConnMgr (sy_srv s')).

Lemma io_inv_world h (s : system P) : io_inv (world_of h s) <-> sys_inv s.
Proof. done. Qed.

Lemma stays_system {A} (m : M (world P) A) h (s : system P) : stays m -> sys_inv s ->
  sys_kept s (absorb (snd (m (world_of h s))) s).
Proof. intros Hm Hs. exact (Hm (world_of h s) Hs). Qed.

(** A tick keeps the goroutine's connection. *)
Lemma io_tick_conn t w t' d w' : io_tick (P:=P) t w = (Ok (Some (t', d)), w') -> io_conn t' = io_conn t.
Proof.
  unfold io_tick. intros E. apply bind_Ok_inv in E as (c & w1 & _ & E). destruct (negb _); [done|].
  apply bind_Ok_inv in E as ([e|dat] & w2 & _ & E); [by injection E as <- _ _|].
  apply bind_Ok_inv in E as ([] & w3 & _ & E). apply bind_Ok_inv in E as ([] & w4 & _ & E). by injection E as <- _ _.
Qed.

Lemma io_tick_frame t (w : world P) :
  ConnMgr (w_srv (snd (io_tick t w))) = ConnMgr (w_srv w) /\ w_io (snd (io_tick t w)) = w_io w.
Proof.
  unfold io_tick. rewrite bind_eq. unfold on_ConnMgr, zoom, deref. destruct (cm_heap _ !! _) as [c|]; [|done].
  destruct (negb _); [done|]. rewrite bind_eq. unfold try, call_ep. cbn [w_srv upd_srv set_ConnMgr ConnMgr srv_eps].
  destruct (srv_eps _ !! _) as [p|]; [|done]. destruct (IORead p) as [[dat|e|] p']; [|done..].
  rewrite bind_eq. unfold on. destruct (Serialize _ _) as [[] i]; [|done..]. cbn beta iota.
  rewrite bind_eq. by destruct (Serialize _ (newItem cipItem_ConnectedData None)) as [[] i'].
Qed.

Lemma io_step_kept j s : sys_inv s -> sys_kept s (snd (io_step (P:=P) j s)).
Proof.
  intros Hs. unfold io_step. destruct (sy_io s !! j) as [t|] eqn:Hj; [|by split]. destruct (_ =? 0); [by split|].
  pose proof (io_tick_conn t (world_of no_handler s)) as Hc. destruct (io_tick_frame t (world_of no_handler s)) as [Hcm Hio].
  destruct Hs as [Hok Ht]. pose proof (Forall_lookup_1 _ _ _ _ Ht Hj) as Htj.
  destruct (io_tick t (world_of no_handler s)) as [[[[t' d]|]| |] w]; cbn [snd w_srv w_io world_of] in *;
    unfold sys_kept, sys_inv; cbn [set_io absorb sy_srv sy_io]; rewrite Hcm, ?Hio; (split; [split; [done|]|done]); try done.
  - apply Forall_insert; [done|]. by rewrite (Hc t' d w eq_refl).
  - by apply Forall_delete.
  - by apply Forall_delete.
Qed.

Lemma serve_round_kept i s : sys_inv s -> sys_kept s (snd (serve_round (P:=P) rand_Uint32 i s)).
Proof.
  intros Hs. unfold serve_round. destruct (sy_handlers s !! i) as [[[] h]|]; [|by split..].
  pose proof (stays_system _ h s (stays_serve_one rand_Uint32) Hs) as Hk.
  by destruct (serve_one rand_Uint32 (world_of h s)) as [[] w].
Qed.

Lemma handle_kept e s : sys_inv s -> sys_kept s (snd (handle (P:=P) rand_Uint32 e s)).
Proof.
  intros Hs. destruct e as [[e|c]|i b|i|j|d]; cbn [handle].
  - by split.
  - by split.
  - by split.
  - by apply serve_round_kept.
  - by apply io_step_kept.
  - pose proof (stays_system _ no_handler s (stays_datagram d) Hs) as Hk. unfold serveUDP.
    by destruct (serveUDP_datagram d _).
Qed.

Lemma handle_kept_ok e s s' : handle (P:=P) rand_Uint32 e s = (Ok tt, s') -> sys_inv s -> sys_kept s s'.
Proof. intros E Hs. pose proof (handle_kept e s Hs) as Hk. by rewrite E in Hk. Qed.

Lemma serving_sys_inv srv rnd s : serving (P:=P) rand_Uint32 srv rnd s -> sys_inv s.
Proof.
  induction 1 as [|s e s' _ IH E].
  - split; [|apply Forall_nil_2]. split; [apply NoDup_nil_2|]. intros l Hl. by apply not_elem_of_nil in Hl.
  - by eapply handle_kept_ok.
Qed.

(** ** One event of a run at a time *)

Lemma run_events_inv (J : system P -> Prop) (I : system P -> system P -> Prop) :
  (forall s, I s s) -> (forall s1 s2 s3, I s1 s2 -> I s2 s3 -> I s1 s3) ->
  (forall e s, J s -> J (snd (handle rand_Uint32 e s)) /\ I s (snd (handle rand_Uint32 e s))) ->
  forall es s, J s -> J (snd (run_events rand_Uint32 es s)) /\ I s (snd (run_events rand_Uint32 es s)).
Proof.
  intros Hr Ht He es. induction es as [|e es IH]; intros s Hs; [done|]. cbn [run_events].
  rewrite bind_eq. destruct (He e s Hs) as [Hs' HI].
  destruct (handle rand_Uint32 e s) as [[[]| |] s1]; cbn [snd] in *; [|done..].
  destruct (IH s1 Hs') as [H1 H2]. split; [done|by eapply Ht].
Qed.

(** ** Each client and its own stream *)

(** A frame that replies to a message of the stream x0: it is framed to its
    length and has the context of a header found there. *)
Definition answers (x0 f : bytes) : Prop :=
  exists before x after hdr rest, x0 = before ++ x ++ after /\ read_eipHeader x = (Ok hdr, rest) /\ framed (hdr_Context hdr) f.

(** From the handler h to h', while its peer sent x: more of the stream was
    read, and answered. *)
Definition progress (x : bytes) (h h' : serverTCPHandler) : Prop :=
  c_in (h_conn h') `suffix_of` c_in (h_conn h) ++ x /\
  exists fs, c_out (h_conn h') = c_out (h_conn h) ++ fs /\ Forall (answers (c_in (h_conn h) ++ x)) fs /\
    (24 * length fs + length (c_in (h_conn h')) <= length (c_in (h_conn h) ++ x))%nat.

Lemma answers_within before x after f : answers x f -> answers (before ++ x ++ after) f.
Proof.
  intros (b & y & a & hdr & rest & -> & Hr & Hf). exists (before ++ b), y, (a ++ after), hdr, rest.
  split; [by rewrite <- !(assoc_L (++))|done].
Qed.

Lemma progress_refl h : progress [] h h.
Proof. split; [by rewrite app_nil_r|]. exists []. rewrite !app_nil_r. split; [done|]. split; [apply Forall_nil_2|simpl; lia]. Qed.

Lemma progress_trans x y h1 h2 h3 : progress x h1 h2 -> progress y h2 h3 -> progress (x ++ y) h1 h3.
Proof.
  intros ([b Hb] & f1 & O1 & A1 & L1) ([b2 Hb2] & f2 & O2 & A2 & L2). unfold progress. rewrite (assoc_L (++)), Hb, <- (assoc_L (++)). split.
  { rewrite Hb2. exists (b ++ b2). by rewrite (assoc_L (++)). }
  exists (f1 ++ f2). rewrite O2, O1, length_app, <- (assoc_L (++)). split; [done|]. split.
  - apply Forall_app. split.
    + eapply Forall_impl; [|exact A1]. intros f Hf. rewrite (assoc_L (++)), <- Hb. exact (answers_within [] _ y f Hf).
    + eapply Forall_impl; [|exact A2]. intros f Hf. pose proof (answers_within b _ [] f Hf) as Hx. by rewrite app_nil_r in Hx.
  - rewrite Hb in L1. rewrite !length_app in *. lia.
Qed.

Lemma serve_one_progress (w : world P) : progress [] (w_h w) (w_h (snd (serve_one rand_Uint32 w))).
Proof.
  unfold progress. rewrite app_nil_r. unfold serve_one. rewrite bind_eq. unfold wrapM, on_conn, zoom.
  destruct (read_eipHeader (c_in (h_conn (w_h w)))) as [r rest] eqn:Er.
  assert (rest `suffix_of` c_in (h_conn (w_h w))) as Hrest.
  { pose proof (eats_struct _ _ (c_in (h_conn (w_h w))) : snd (read_eipHeader _) `suffix_of` _) as Hs. by rewrite Er in Hs. }
  destruct r as [hdr| |]; cbn [res_wrap]; [|split; [done|exists []; rewrite app_nil_r; split; [done|split; [apply Forall_nil_2|apply suffix_length in Hrest; simpl in *; lia]]]..].
  rewrite bind_eq. cbv [set_handler modify].
  destruct (within_handle_command rand_Uint32 hdr (upd_h (set_context (hdr_Context hdr))
    (upd_h (fun h => set_conn (set_in rest (h_conn h)) h) w))) as ([Hc Hi] & fs & Ho & Hf & Hl).
  unfold ins, outs in *. cbn [upd_h w_h set_context set_conn h_conn c_in c_out set_in h_context] in *.
  split; [by etrans|]. exists fs. split; [exact Ho|]. split.
  - eapply Forall_impl; [|exact Hf]. intros f Hfr. exists [], (c_in (h_conn (w_h w))), [], hdr, rest.
    by rewrite app_nil_r.
  - apply read_struct_length in Er. apply suffix_length in Hi. lia.
Qed.

(** What the peer of the connection k sends in an event. *)
Definition arrived (k : nat) (e : event) : bytes :=
  match e with Arrive i b => if decide (i = k) then b else [] | _ => [] end.

Definition handler_progress (k : nat) (x : bytes) (s s' : system P) : Prop := forall b h, sy_handlers s !! k = Some (b, h) ->
  exists b' h', sy_handlers s' !! k = Some (b', h') /\ progress x h h'.

Lemma serve_round_progress k i s : handler_progress k [] s (snd (serve_round rand_Uint32 i s)).
Proof.
  intros b h Hk. unfold serve_round. destruct (sy_handlers s !! i) as [[[] hi]|] eqn:Hi; [|by exists b, h; split; [|apply progress_refl]..].
  pose proof (serve_one_progress (world_of hi s)) as Hp.
  assert (exists b', sy_handlers (snd (serve_round rand_Uint32 i s)) = <[i := (b', w_h (snd (serve_one rand_Uint32 (world_of hi s))))]> (sy_handlers s)) as (b' & E).
  { unfold serve_round. rewrite Hi. destruct (serve_one rand_Uint32 (world_of hi s)) as [[] w]; by eexists. }
  unfold serve_round in E. rewrite Hi in E. rewrite E. destruct (decide (k = i)) as [->|Hne].
  - rewrite list_lookup_insert_eq by (by eapply lookup_lt_Some). do 2 eexists. split; [done|].
    rewrite Hk in Hi. injection Hi as -> ->. exact Hp.
  - rewrite list_lookup_insert_ne by done. exists b, h. split; [done|apply progress_refl].
Qed.

Lemma arrive_progress k i x s : handler_progress k (arrived k (Arrive i x)) s (snd (arrive i x s)).
Proof.
  intros b h Hk. cbn [arrive modify snd set_handlers sy_handlers arrived]. destruct (decide (i = k)) as [->|Hne].
  - rewrite list_lookup_alter_eq, Hk. do 2 eexists. split; [reflexivity|]. unfold progress. cbn [receive set_conn h_conn set_in c_in c_out].
    split; [done|]. exists []. rewrite app_nil_r. split; [done|]. split; [apply Forall_nil_2|simpl; lia].
  - rewrite list_lookup_alter_ne by done. exists b, h. split; [done|apply progress_refl].
Qed.

Lemma handle_progress k e s : handler_progress k (arrived k e) s (snd (handle rand_Uint32 e s)).
Proof.
  destruct e as [[e|c]|i x|i|j|d]; cbn [handle]; [| |apply arrive_progress|apply serve_round_progress|..]; intros b h Hk;
    exists b, h; (split; [|apply progress_refl]).
  - done.
  - cbn. by apply lookup_app_l_Some.
  - unfold io_step. destruct (sy_io s !! j); [|done]. destruct (_ =? 0); [done|]. by destruct (io_tick _ _) as [[[[]|]| |] w].
  - unfold serveUDP. by destruct (serveUDP_datagram d _).
Qed.

(** A run may end with a crash, before the rest arrives. *)
Lemma run_progress k es s : exists x, x `prefix_of` concat (map (arrived k) es) /\
  handler_progress k x s (snd (run_events rand_Uint32 es s)).
Proof.
  revert s. induction es as [|e es IH]; intros s; cbn [run_events map concat].
  { exists []. split; [done|]. intros b h Hk. exists b, h. split; [done|apply progress_refl]. }
  pose proof (handle_progress k e s) as He. rewrite bind_eq.
  destruct (handle rand_Uint32 e s) as [[[]| |] s1]; cbn [snd] in *; [|by exists (arrived k e); split; [by eexists|]..].
  destruct (IH s1) as (x & Hx & Hp). exists (arrived k e ++ x). split; [by apply prefix_app|]. intros b h Hk.
  destruct (He b h Hk) as (b1 & h1 & H1 & P1). destruct (Hp b1 h1 H1) as (b2 & h2 & H2 & P2).
  exists b2, h2. split; [done|by eapply progress_trans].
Qed.

(** ** Closed connections *)

Definition closed (l : loc) (s : system P) : Prop :=
  exists c, cm_heap (ConnMgr (sy_srv s)) !! l = Some c /\ conn_Open c = false.
(** The datagrams a connection has sent. *)
Definition sent_on (l : loc) (s : system P) : list bytes := (filter (fun d => fst d = l) (sy_sent s)).*2.

Lemma closed_later l s s' : sys_kept s s' -> closed l s -> closed l s'.
Proof. intros [_ Hl] (c & Hc & Ho). destruct (Hl l c Hc) as (c' & Hc' & Ho'). exists c'. by auto. Qed.

Lemma io_step_closed j t s : sy_io s !! j = Some t -> closed (io_conn t) s -> io_TORPI t <> 0 ->
  io_step j s = (Ok tt, set_io (delete j (sy_io s)) [] s).
Proof.
  intros Hj (c & Hc & Ho) Ht. unfold io_step. rewrite Hj, (proj2 (Z.eqb_neq _ _) Ht).
  rewrite (io_tick_closed t c (world_of no_handler s) Hc Ho). by destruct s.
Qed.

Lemma io_step_sent j l s : closed l s -> sent_on l (snd (io_step j s)) = sent_on l s.
Proof.
  intros Hl. unfold io_step. destruct (sy_io s !! j) as [t|] eqn:Hj; [|done].
  destruct (Z.eqb_spec (io_TORPI t) 0) as [|Ht]; [done|]. destruct (decide (io_conn t = l)) as [<-|Hne].
  - destruct Hl as (c & Hc & Ho). rewrite (io_tick_closed t c (world_of no_handler s) Hc Ho).
    unfold sent_on. cbn. by rewrite app_nil_r.
  - destruct (io_tick t (world_of no_handler s)) as [[[[t' d]|]| |] w]; unfold sent_on; cbn; rewrite ?app_nil_r; try done.
    rewrite list.filter_app, fmap_app. destruct d as [d|]; cbn; rewrite ?app_nil_r; [|done].
    destruct (decide _); [done|by rewrite app_nil_r].
Qed.

Lemma handle_sent e l s : closed l s -> sent_on l (snd (handle rand_Uint32 e s)) = sent_on l s.
Proof.
  intros Hl. destruct e as [[e|c]|i b|i|j|d]; cbn [handle]; [done|done|done| |by apply io_step_sent|].
  - unfold serve_round. destruct (sy_handlers s !! i) as [[[] h]|]; [|done..]. by destruct (serve_one _ _) as [[] w].
  - unfold serveUDP. by destruct (serveUDP_datagram d _).
Qed.
End System.

(** C11. A connection that has left the table is silent for good: in every
    state the server reaches, an I/O goroutine whose connection the table does
    not list ends at its next tick without sending, and until then, whatever
    messages, datagrams, ticks and new connections come in whatever order, no
    datagram goes out on that connection any more. *)
Theorem unlisted_connection_silent {P} `{CIPEndpoint P} (rand_Uint32 : nat -> Z) srv rnd s j t :
  serving rand_Uint32 srv rnd s -> sy_io s !! j = Some t -> io_TORPI t <> 0 ->
  io_conn t ∉ Connections (ConnMgr (sy_srv s)) ->
  handle rand_Uint32 (Tick j) s = (Ok tt, set_io (delete j (sy_io s)) [] s) /\
  forall es, sent_on (io_conn t) (snd (run_events rand_Uint32 es s)) = sent_on (io_conn t) s.
Proof.
  intros Hs Hj Ht Hl. pose proof (serving_sys_inv _ _ _ _ Hs) as [Hok Hio].
  assert (closed (io_conn t) s) as Hc.
  { destruct (Forall_lookup_1 _ _ _ _ Hio Hj) as (c & Hc & Ho). exists c. split; [done|]. destruct (conn_Open c); [|done]. by destruct Hl; apply Ho. }
  split; [by apply (io_step_closed _ t)|]. intros es.
  refine (proj2 (run_events_inv rand_Uint32 (fun s => sys_inv s /\ closed (io_conn t) s)
    (fun s s' => sent_on (io_conn t) s' = sent_on (io_conn t) s) _ _ _ es s (conj (conj Hok Hio) Hc))).
  - done.
  - by intros s1 s2 s3 -> ->.
  - intros e s1 [H1 H2]. pose proof (handle_kept rand_Uint32 e s1 H1) as Hk.
    split; [split; [apply Hk|by eapply closed_later]|by apply handle_sent].
Qed.

(** C9. Every client gets its own answers only: whatever the other clients,
    the datagrams and the I/O goroutines do in between, a handler's
    connection receives only frames that reply to messages of its own stream,
    what it had to read and what its peer sent since, framed to their length
    and with the context that came in it, no more than one for each header it
    read; and nothing it has sent is lost. *)
Theorem clients_get_own_answers {P} `{CIPEndpoint P} (rand_Uint32 : nat -> Z) es s k b h :
  sy_handlers s !! k = Some (b, h) ->
  exists b' h' x fs, sy_handlers (snd (run_events rand_Uint32 es s)) !! k = Some (b', h') /\
    x `prefix_of` concat (map (arrived k) es) /\
    c_in (h_conn h') `suffix_of` c_in (h_conn h) ++ x /\
    c_out (h_conn h') = c_out (h_conn h) ++ fs /\ Forall (answers (c_in (h_conn h) ++ x)) fs /\
    (24 * length fs + length (c_in (h_conn h')) <= length (c_in (h_conn h) ++ x))%nat.
Proof.
  intros Hk. destruct (run_progress rand_Uint32 k es s) as (x & Hx & Hp).
  destruct (Hp b h Hk) as (b' & h' & Hk' & Hs & fs & Hfs). by exists b', h', x, fs.
Qed.

(** ** Witnesses *)

Lemma run_serving {P} `{CIPEndpoint P} rand_Uint32 srv rnd es s s' :
  serving rand_Uint32 srv rnd s -> run_events (P:=P) rand_Uint32 es s = (Ok tt, s') -> serving rand_Uint32 srv rnd s'.
Proof.
  revert s. induction es as [|e es IH]; intros s Hs E; [by injection E as <-|]. cbn [run_events] in E.
  apply bind_Ok_inv in E as ([] & s1 & E1 & E). apply (IH s1); [by eapply serving_step|done].
Qed.

(** A client that opens a cyclic connection, and one that closes it. *)
Definition cyclic_open (rpi : Z) : forwardOpen :=
  {| fo_Service := 0x54; fo_PathSize := 2; fo_ClassType := 0x20; fo_Class := 6; fo_InstanceType := 0x24;
     fo_Instance := 1; fo_Priority := 10; fo_TimeoutTicks := 14; fo_OTConnectionID := 0;
     fo_TOConnectionID := 77; fo_ConnectionSerialNumber := 5; fo_VendorID := 1;
     fo_OriginatorSerialNumber := 42; fo_Multiplier := 3; fo_OTRPI := 2000; fo_OTNetworkConnParams := 0x43F4;
     fo_TORPI := rpi; fo_TONetworkConnParams := 0x43F4; fo_TransportTrigger := 1; fo_ConnPathSize := 3 |}.
Definition rr_message (ctx : Z) (data : bytes) : bytes :=
  let payload := serializeItems [newItem cipItem_Null None; Write data (newItem cipItem_UnconnectedData None)] in
  eipHeader_bytes {| hdr_Command := cipCommandSendRRData; hdr_Length := blen payload; hdr_SessionHandle := 1;
    hdr_Status := 0; hdr_Context := ctx; hdr_Options := 0 |} ++ payload.
Definition open_message (ctx rpi : Z) : bytes := rr_message ctx (forwardOpen_bytes 2 (cyclic_open rpi) ++ [1; 0; 0x20; 2; 0x24; 1]).
Definition close_message (ctx : Z) : bytes := rr_message ctx (msgEIPForwardClose_bytes sample_close ++ [1; 0; 0x20; 2]).

Definition client_conn (input : bytes) : tcp_conn := {| c_in := input; c_out := []; c_werr := None; c_local := OtherAddr |}.
Definition io_server : Server bytes :=
  {| ConnMgr := {| cm_heap := ∅; Connections := [] |}; srv_Router := {| router_Path := {[ [1; 0] := 1%positive ]} |};
     srv_eps := {[ 1%positive := [1; 2; 3] ]}; Attributes := ∅ |}.
Definition io_start : system bytes := Serve_start io_server 0.
Definition io_after (es : list event) : system bytes := snd (run_events (H:=data_endpoint) (fun _ => 1000) es io_start).
Definition io_outcome (es : list event) : res unit := fst (run_events (H:=data_endpoint) (fun _ => 1000) es io_start).

Definition open_and_close : list event :=
  [Accept (inr (client_conn (open_message 8 2000))); Round 0; Tick 0; Accept (inr (client_conn (close_message 9))); Round 1].

Lemma unlisted_connection_silent_witness :
  let s := io_after open_and_close in
  exists t, sy_io s !! 0%nat = Some t /\ sent_on (io_conn t) s <> [] /\
    handle (H:=data_endpoint) (fun _ => 1000) (Tick 0) s = (Ok tt, set_io (delete 0%nat (sy_io s)) [] s) /\
    forall es, sent_on (io_conn t) (snd (run_events (H:=data_endpoint) (fun _ => 1000) es s)) = sent_on (io_conn t) s.
Proof.
  intros s. exists {| io_TO := 77; io_TORPI := 2000; io_ep := 1%positive; io_conn := 1%positive; io_seq := 1 |}.
  split; [by vm_compute|]. split; [by vm_compute|].
  apply (unlisted_connection_silent (H:=data_endpoint) (fun _ => 1000) io_server 0 s 0).
  - apply (run_serving (H:=data_endpoint) _ _ _ open_and_close io_start); [apply serving_start|by vm_compute].
  - by vm_compute.
  - done.
  - vm_compute. apply not_elem_of_nil.
Defined.

Lemma clients_get_own_answers_witness :
  let s := io_after [Accept (inr (client_conn [])); Accept (inr (client_conn (close_message 9)))] in
  let es := [Arrive 0 (open_message 8 2000); Round 0; Tick 0; Round 1] in
  exists b' h' x fs, sy_handlers (snd (run_events (H:=data_endpoint) (fun _ => 1000) es s)) !! 0%nat = Some (b', h') /\
    x `prefix_of` open_message 8 2000 /\
    c_in (h_conn h') `suffix_of` [] ++ x /\
    c_out (h_conn h') = [] ++ fs /\ Forall (answers ([] ++ x)) fs /\
    (24 * length fs + length (c_in (h_conn h')) <= length ([] ++ x))%nat.
Proof.
  intros s es. rewrite <- (app_nil_r (open_message 8 2000)).
  apply (clients_get_own_answers (H:=data_endpoint) (fun _ => 1000) es s 0 true (new_handler (client_conn []))). by vm_compute.
Defined.

(** ** What the server does not do *)

(** A handler that ends leaves the connections it opened in the table, and
    their goroutines go on sending: here the client opened a cyclic
    connection and went away. *)
Example ended_handler_leaves_connections :
  let s := io_after [Accept (inr (client_conn (open_message 8 2000))); Round 0; Round 0] in
  (fst <$> sy_handlers s) = [false] /\ Connections (ConnMgr (sy_srv s)) = [1%positive] /\
  length (sent_on 1%positive (io_after [Accept (inr (client_conn (open_message 8 2000))); Round 0; Round 0; Tick 0; Tick 0; Tick 0])) = 3%nat.
Proof. by vm_compute. Qed.

(** A forward open with an interval of 0 crashes the whole server: the client
    is answered, and then the ticker of the goroutine panics. *)
Example zero_interval_crashes :
  io_outcome [Accept (inr (client_conn (open_message 8 0))); Round 0] = Ok tt /\
  io_outcome [Accept (inr (client_conn (open_message 8 0))); Round 0; Tick 0] = Panic "non-positive interval for NewTicker".
Proof. by vm_compute. Qed.
