(* ===== verification/IOProvider.v ===== *)
(** * I/O providers (server_io.go, server_iochannel.go)

    The two endpoints for class 1 I/O: what the originator sends is unpacked
    into the output structure, or sent to the output channels; the input
    structure is what the I/O goroutine packs.  Structures are reached through
    pointers into a store of their own, since the program shares them. *)
From S2P Require Import Prelude Reader GoStrings GoValue CipNames CipDefs Types Items Pack PackProofs LgxTypes Conns Router Server ServerAttr ServerConnected ServerUnconnected ServerReplies ServerData ServerIO.

(** ** What both do with a datagram's items *)

Definition not_implemented {S A} : M S A := fail (Errorf "not implemented").

(** Pack(&b, data) into an empty buffer *)
Definition pack_bytes `{Methods} (data : goval) : res bytes :=
  match Pack data [] with
  | (Ok _, b) => Ok b
  | (Err e, _) => Err e
  | (Panic why, _) => Panic why
  end.

(** The sequence counter, the run/idle header and the rest of the item. *)
Definition io_payload {S} (items : list CIPItem) : M S bytes :=
  match items with
  | [_; item1] =>
      if negb (item_ID item1 =? cipItem_ConnectedData) then fail (Errorf "expected item 2 to be a connected data item")
      else
        '(_, item1) ← on item1 (wrapM "problem getting sequence counter" read_u32);
        '(_, item1) ← on item1 (wrapM "problem getting header" read_u16);
        '(payload, _) ← on item1 (wrapM "problem getting raw data" (read_slice (Z.to_nat (u16 (item_Length item1 - 6)))));
        mret payload
  | _ => fail (Errorf "expeted 2 items")
  end.

(** ** IOProvider *)

Abbreviation ploc := positive.

Record IOProvider := {
  iop_store : gmap ploc goval;   (* what the pointers point to *)
  iop_In : option ploc;          (* nil or a pointer *)
  iop_Out : option ploc;
}.

Definition set_store (m : gmap ploc goval) (p : IOProvider) : IOProvider :=
  {| iop_store := m; iop_In := iop_In p; iop_Out := iop_Out p |}.

Section Provider.
Context `{Methods}.
(* What a failed Unpack leaves in its target, some of whose fields may have
   been set: the bytes it read from, the target's value before. *)
Context (torn : bytes -> goval -> goval).
Abbreviation IO := (M IOProvider).

(** *l *)
Definition load (l : option ploc) : IO goval := fun p =>
  match l ≫= fun l => iop_store p !! l with
  | Some v => (Ok v, p)
  | None => (Panic "nil pointer dereference", p)
  end.

Definition IOProvider_IORead : IO bytes :=
  l ← gets iop_In;
  v ← load l;
  lift (pack_bytes v).

(** Unpack(b, p.Out), in place *)
Definition unpack_out (payload : bytes) : IO unit := fun p =>
  match iop_Out p with
  | Some l =>
      match iop_store p !! l with
      | Some v0 =>
          match Unpack v0 payload with
          | (Ok (v, _), _) => (Ok tt, set_store (<[l := v]> (iop_store p)) p)
          | (Err e, _) => (Err e, set_store (<[l := torn payload v0]> (iop_store p)) p)
          | (Panic why, _) => (Panic why, set_store (<[l := torn payload v0]> (iop_store p)) p)
          end
      | None => (Panic "nil pointer dereference", p)
      end
  | None => (Panic "reflect: call of reflect.Value.Type on zero Value", p)
  end.

Definition IOProvider_IOWrite (items : list CIPItem) : IO unit :=
  payload ← io_payload items;
  wrapM "problem unpacking data into output struct" (unpack_out payload).

Definition IOProvider_TagRead (tag : bytes) (qty : Z) : IO goval := not_implemented.
Definition IOProvider_TagWrite (tag : bytes) (value : goval) : IO unit := not_implemented.

Definition GetOutputData : IO goval := l ← gets iop_Out; load l.

(** p.In = &newin: a new object, the old one keeps its value *)
Definition IOProvider_SetInputData (newin : goval) : IO unit := fun p =>
  let l := fresh (dom (iop_store p)) in
  (Ok tt, {| iop_store := <[l := newin]> (iop_store p); iop_In := Some l; iop_Out := iop_Out p |}).

Definition IOProvider_endpoint : CIPEndpoint IOProvider :=
  {| TagRead := IOProvider_TagRead; TagWrite := IOProvider_TagWrite; IORead := IOProvider_IORead;
     IOWrite := IOProvider_IOWrite; TagLister := None |}.
End Provider.

(** ** IOChannelProvider *)

(** An unbuffered channel: the receivers that wait on it, and what they got. *)
Record channel := { ch_waiting : nat; ch_got : list goval }.

Definition new_channel : channel := {| ch_waiting := 0; ch_got := [] |}.

(** select { case ch <- out: default: }, false when the default runs *)
Definition try_send (out : goval) (ch : channel) : bool * channel :=
  match ch_waiting ch with
  | O => (false, ch)
  | S n => (true, {| ch_waiting := n; ch_got := ch_got ch ++ [out] |})
  end.

(** A receiver comes to wait. *)
Definition receive (ch : channel) : channel := {| ch_waiting := S (ch_waiting ch); ch_got := ch_got ch |}.

Record IOChannelProvider := { icp_in : goval; icp_outChannels : list channel }.

Definition set_outChannels (l : list channel) (p : IOChannelProvider) : IOChannelProvider :=
  {| icp_in := icp_in p; icp_outChannels := l |}.

Section ChannelProvider.
Context `{Methods} (Tout : gotype).
Abbreviation IC := (M IOChannelProvider).

Definition IOChannelProvider_IORead : IC bytes := v ← gets icp_in; lift (pack_bytes v).

(** The loop over the channels: it ends at the first that nobody waits on. *)
Fixpoint send_all (out : goval) (l : list channel) : res unit * list channel :=
  match l with
  | [] => (Ok tt, [])
  | ch :: l =>
      match try_send out ch with
      | (true, ch) => let '(r, l) := send_all out l in (r, ch :: l)
      | (false, ch) => (Err (Errorf "problem sending IOWrite data. channel full?"), ch :: l)
      end
  end.

Definition IOChannelProvider_IOWrite (items : list CIPItem) : IC unit :=
  payload ← io_payload items;
  '(out, _) ← wrapM "problem unpacking data into output struct" (lift (fst (Unpack (go_zero Tout) payload)));
  zoom icp_outChannels set_outChannels (send_all out).

Definition IOChannelProvider_TagRead (tag : bytes) (qty : Z) : IC goval := not_implemented.
Definition IOChannelProvider_TagWrite (tag : bytes) (value : goval) : IC unit := not_implemented.

(** A new channel; its index stands for it. *)
Definition GetOutputDataChannel : IC nat := fun p =>
  (Ok (length (icp_outChannels p)), set_outChannels (icp_outChannels p ++ [new_channel]) p).

Definition IOChannelProvider_SetInputData (newin : goval) : IC unit :=
  modify (fun p => {| icp_in := newin; icp_outChannels := icp_outChannels p |}).

Definition IOChannelProvider_endpoint : CIPEndpoint IOChannelProvider :=
  {| TagRead := IOChannelProvider_TagRead; TagWrite := IOChannelProvider_TagWrite; IORead := IOChannelProvider_IORead;
     IOWrite := IOChannelProvider_IOWrite; TagLister := None |}.
End ChannelProvider.

(** ** What the items mean *)

Definition output_data (seq hdr : Z) (payload : bytes) : bytes := le_bytes 4 seq ++ le_bytes 2 hdr ++ payload.

Lemma io_payload_Ok {S} seq hdr payload item0 item1 (s : S) :
  0 <= seq < 2 ^ 32 -> 0 <= hdr < 2 ^ 16 -> item_ID item1 = cipItem_ConnectedData ->
  item_Length item1 = blen (output_data seq hdr payload) -> blen (output_data seq hdr payload) < 2 ^ 16 ->
  left item1 (output_data seq hdr payload) ->
  io_payload [item0; item1] s = (Ok payload, s).
Proof.
  intros Hs Hh Hid Hl Hb [Hp L]. unfold output_data in *. unfold io_payload. rewrite Hid.
  change (negb (cipItem_ConnectedData =? cipItem_ConnectedData)) with false. cbv iota.
  pose proof (parses_u32 (R:=CIPItem) seq Hs) as P1. pose proof (parses_u16 (R:=CIPItem) hdr Hh) as P2.
  pose proof (parses_slice (R:=CIPItem) (length payload) payload eq_refl) as P3.
  eapply step; [by apply on_Ok, wrapM_Ok, (P1 item1 (le_bytes 2 hdr ++ payload))|]. cbv beta iota.
  eapply step; [apply on_Ok, wrapM_Ok, (P2 _ payload); [by apply rd_ok_advance|by apply advance_prefix]|]. cbv beta iota.
  assert (Z.to_nat (u16 (item_Length (rd_advance (length (le_bytes 2 hdr)) (rd_advance (length (le_bytes 4 seq)) item1)) - 6)) =
    length payload) as ->.
  { change (item_Length (rd_advance _ _)) with (item_Length item1). rewrite Hl. unfold blen in *.
    rewrite !length_app, !length_le_bytes in *. rewrite wrap_small; lia. }
  eapply step; [apply on_Ok, wrapM_Ok, (P3 _ [])|reflexivity].
  - by do 2 apply rd_ok_advance.
  - rewrite app_nil_r. by apply advance_prefix; [by apply rd_ok_advance|by apply advance_prefix].
Qed.

(** Anything else is refused before the output is touched. *)
Lemma io_payload_state {S} items (s : S) : snd (io_payload items s) = s.
Proof.
  unfold io_payload. destruct items as [|i0 [|i1 [|]]]; try done.
  destruct (negb _); [done|]. unfold mbind, M_bind, on.
  do 3 (match goal with |- context [wrapM ?a ?m ?i] => destruct (wrapM a m i) as [[] ?]; try done end).
Qed.

Section ProviderProofs.
Context `{MethodsLaws} (torn : bytes -> goval -> goval).

Lemma pack_bytes_Ok t n v :
  packed_size t = Some n -> typed t v -> typed t v ->
  exists bs, pack_bytes v = Ok bs /\ blen bs = n /\
    forall v0 rest, typed t v0 -> Unpack v0 (bs ++ rest) = (Ok (v, n), rest).
Proof.
  intros Hn Hv _. destruct (Unpack_Pack t n v v [] [] Hn Hv Hv) as (bs & Hl & Hp & _).
  exists bs. unfold pack_bytes. rewrite Hp. split_and!; [done|done|].
  intros v0 rest Hv0. destruct (Unpack_Pack t n v v0 [] rest Hn Hv Hv0) as (bs' & _ & Hp' & Hu).
  rewrite Hp in Hp'. simpl in Hp'. by simplify_eq.
Qed.

(** The pointer points to the value. *)
Definition points (l : option ploc) (v : goval) (p : IOProvider) : Prop :=
  exists k, l = Some k /\ iop_store p !! k = Some v.

Lemma load_points l v p : points l v p -> load l p = (Ok v, p).
Proof. intros (k & -> & E). unfold load. simpl. by rewrite E. Qed.

Lemma IORead_points v bs p : points (iop_In p) v p -> pack_bytes v = Ok bs -> IOProvider_IORead p = (Ok bs, p).
Proof.
  intros Hp Hb. unfold IOProvider_IORead. eapply step; [reflexivity|].
  rewrite (bind_Ok _ _ _ _ _ (load_points _ _ _ Hp)). unfold lift. by rewrite Hb.
Qed.

(** The state after the output structure was written. *)
Definition with_out (v : goval) (p : IOProvider) : IOProvider :=
  set_store (match iop_Out p with Some l => <[l := v]> (iop_store p) | None => iop_store p end) p.

Lemma with_out_points v v0 p : points (iop_Out p) v0 p -> points (iop_Out p) v (with_out v p).
Proof. intros (k & E & _). exists k. unfold with_out. rewrite E. split; [done|]. simpl. apply lookup_insert_eq. Qed.

Lemma with_out_in v x p : iop_In p <> iop_Out p -> points (iop_In p) x p -> points (iop_In p) x (with_out v p).
Proof.
  intros Hne (k & E & Hk). exists k. split; [done|]. unfold with_out. destruct (iop_Out p) as [l|] eqn:El; [|done].
  simpl. rewrite lookup_insert_ne; [done|]. congruence.
Qed.

Lemma IOWrite_points t n v v0 bs seq hdr item0 item1 p :
  0 <= seq < 2 ^ 32 -> 0 <= hdr < 2 ^ 16 -> item_ID item1 = cipItem_ConnectedData ->
  item_Length item1 = blen (output_data seq hdr bs) -> blen (output_data seq hdr bs) < 2 ^ 16 ->
  left item1 (output_data seq hdr bs) ->
  packed_size t = Some n -> typed t v -> pack_bytes v = Ok bs -> typed t v0 -> points (iop_Out p) v0 p ->
  IOProvider_IOWrite torn [item0; item1] p = (Ok tt, with_out v p).
Proof.
  intros Hs Hh Hid Hl Hb L Hn Hv Hbs Hv0 (k & Ek & Hk). unfold IOProvider_IOWrite.
  rewrite (bind_Ok _ _ _ _ _ (io_payload_Ok seq hdr bs item0 item1 p Hs Hh Hid Hl Hb L)).
  destruct (pack_bytes_Ok t n v Hn Hv Hv) as (bs' & E & _ & Hu). rewrite Hbs in E. injection E as <-.
  apply wrapM_Ok. unfold unpack_out, with_out. rewrite Ek, Hk.
  pose proof (Hu v0 [] Hv0) as Hu1. rewrite app_nil_r in Hu1. by rewrite Hu1.
Qed.
End ProviderProofs.

(** ** Outputs through the server *)

(** A datagram of class 1 output data. *)
Definition output_items (connid cnt seq hdr : Z) (payload : bytes) : list CIPItem :=
  [Write (le_bytes 4 connid ++ le_bytes 4 cnt) (empty_item cipItem_SequenceAddress);
   Write (output_data seq hdr payload) (empty_item cipItem_ConnectedData)].
Definition output_datagram (connid cnt seq hdr : Z) (payload : bytes) : bytes :=
  le_bytes 2 2 ++ concat (map item_Bytes (output_items connid cnt seq hdr payload)).

Lemma blen_output_data seq hdr payload : blen (output_data seq hdr payload) = 6 + blen payload.
Proof. unfold output_data, blen. rewrite !length_app, !length_le_bytes. lia. Qed.

Lemma length_output_datagram connid cnt seq hdr payload :
  length (output_datagram connid cnt seq hdr payload) = (24 + length payload)%nat.
Proof.
  unfold output_datagram, output_items, item_Bytes, output_data. cbn [map concat Write item_ID item_Length item_Data empty_item].
  rewrite !length_app, !length_le_bytes. cbn [length]. lia.
Qed.

Section Delivery.
Context `{MethodsLaws} (torn : bytes -> goval -> goval).
#[local] Instance endpoint : CIPEndpoint IOProvider := IOProvider_endpoint torn.

Lemma output_delivered (w : world IOProvider) c ep p t n v v0 bs connid cnt seq hdr :
  routed w connid c ep p -> Forall (fun z => 0 <= z < 2 ^ 32) [connid; cnt; seq] -> 0 <= hdr < 2 ^ 16 -> n <= 4071 ->
  packed_size t = Some n -> typed t v -> pack_bytes v = Ok bs -> typed t v0 -> points (iop_Out p) v0 p ->
  serveUDP_datagram (output_datagram connid cnt seq hdr bs) w = (Ok tt, with_ep ep (with_out v p) w).
Proof.
  intros Hr Hz Hh Hsz Hn Hv Hbs Hv0 Ho. apply Forall_cons_iff in Hz as [Hc Hz].
  apply Forall_cons_iff in Hz as [Hcnt Hz]. apply Forall_cons_iff in Hz as [Hs _].
  destruct (pack_bytes_Ok t n v Hn Hv Hv) as (bs' & E & Hl & _). rewrite Hbs in E. injection E as <-.
  unfold serveUDP_datagram. rewrite length_output_datagram.
  rewrite (proj2 (Nat.eqb_neq _ _)), (proj2 (Nat.leb_gt _ _)) by (unfold blen in *; lia). cbn [orb].
  eapply step; [|reflexivity]. eapply try_Ok. set (zeros := replicate _ 0).
  set (items := output_items connid cnt seq hdr bs).
  assert (parses (R:=bytes) readItems (output_datagram connid cnt seq hdr bs) (map Reset items)) as Hp.
  { apply (parses_items items); [|done]. pose proof (blen_output_data seq hdr bs).
    unfold items, output_items. repeat apply Forall_cons_2; [..|apply Forall_nil_2]; apply item_len_ok_wf; try apply Write_len_ok;
      try done; cbn [item_Data Write empty_item app]; lia. }
  eapply step; [apply on_Ok, (Hp _ zeros); [exact Logic.I|reflexivity]|]. cbv beta iota.
  unfold items, output_items. cbn [map]. change (item_ID (Reset _)) with cipItem_SequenceAddress. rewrite Z.eqb_refl.
  set (item0 := Reset (Write _ (empty_item cipItem_SequenceAddress))).
  set (item1 := Reset (Write _ (empty_item cipItem_ConnectedData))).
  assert (left item0 ((le_bytes 4 connid ++ le_bytes 4 cnt) ++ [])) as L0.
  { rewrite app_nil_r. apply (left_Reset (Write (le_bytes 4 connid ++ le_bytes 4 cnt) (empty_item cipItem_SequenceAddress))). }
  eapply (step_on (read_struct 8 (c ← read_u32; _ ← read_u32; mret c)) _ connid);
    [|exact L0|intros i1 _].
  { apply parses_struct; [|by rewrite length_app, !length_le_bytes].
    eapply parses_bind; [by apply (parses_u32 connid)|]. rewrite <- (app_nil_r (le_bytes 4 cnt)).
    eapply parses_bind; [by apply (parses_u32 cnt)|apply parses_ret]. }
  cbv beta iota. destruct Hr as [(l & El & Hcl) Hpath Hep].
  eapply step; [apply on_ConnMgr_eq; eapply step; [exact El|]; exact (deref_Ok l c _ Hcl)|]. rewrite upd_ConnMgr_same.
  eapply step; [unfold router_Resolve, Resolve; by rewrite Hpath|]. cbv beta iota.
  apply (call_ep_eq ep _ p); [exact Hep|].
  eapply (IOWrite_points torn t n v v0 bs seq hdr); try done.
  - rewrite blen_output_data. change (item_Length item1) with (u16 (blen (output_data seq hdr bs))).
    rewrite blen_output_data. unfold blen in *. rewrite wrap_small; lia.
  - rewrite blen_output_data. lia.
Qed.

(** Datagrams one after the other. *)
Fixpoint serve_datagrams (ds : list bytes) : M (world IOProvider) unit :=
  match ds with
  | [] => mret tt
  | d :: ds => _ ← serveUDP_datagram d; serve_datagrams ds
  end.

(** What the originator sends: its counters, the header, the value. *)
Record output := { o_cnt : Z; o_seq : Z; o_hdr : Z; o_val : goval }.

Definition output_ok (t : gotype) (o : output) : Prop :=
  0 <= o_cnt o < 2 ^ 32 /\ 0 <= o_seq o < 2 ^ 32 /\ 0 <= o_hdr o < 2 ^ 16 /\ typed t (o_val o).

(** The datagram carries what Pack makes of the value. *)
Definition sends (connid : Z) (o : output) (d : bytes) : Prop :=
  exists bs, pack_bytes (o_val o) = Ok bs /\ d = output_datagram connid (o_cnt o) (o_seq o) (o_hdr o) bs.

Lemma with_ep_again ep p1 p2 (w : world IOProvider) : with_ep ep p2 (with_ep ep p1 w) = with_ep ep p2 w.
Proof. unfold with_ep, upd_srv, set_eps. cbn. by rewrite insert_insert_eq. Qed.

Lemma last_of_cons {A} (x : A) l d : List.last (x :: l) d = List.last l x.
Proof. revert x d. induction l as [|y l IH]; intros x d; [done|]. change (List.last (y :: l) d = List.last (y :: l) x). by rewrite !IH. Qed.

Lemma outputs_delivered t n c ep connid os ds : 0 <= connid < 2 ^ 32 -> n <= 4071 -> packed_size t = Some n ->
  Forall (output_ok t) os -> Forall2 (sends connid) os ds -> forall (w : world IOProvider) p v0,
  routed w connid c ep p -> points (iop_Out p) v0 p -> typed t v0 ->
  exists p', serve_datagrams ds w = (Ok tt, with_ep ep p' w) /\
    points (iop_Out p') (List.last (o_val <$> os) v0) p' /\ iop_In p' = iop_In p /\ iop_Out p' = iop_Out p /\
    (iop_In p <> iop_Out p -> forall x, points (iop_In p) x p -> points (iop_In p) x p').
Proof.
  intros Hc Hsz Hn Hos Hds. induction Hds as [|o d os ds (bs & Hbs & ->) _ IH]; intros w p v0 Hr Ho Hv0.
  { exists p. split_and!; try done. by rewrite (with_ep_same w connid c ep p Hr). }
  apply Forall_cons_iff in Hos as [(H1 & H2 & H3 & H4) Hos].
  assert (iop_In (with_out (o_val o) p) = iop_In p) as Ei by done.
  assert (iop_Out (with_out (o_val o) p) = iop_Out p) as Eo by done.
  destruct (IH Hos (with_ep ep (with_out (o_val o) p) w) (with_out (o_val o) p) (o_val o)) as (p' & E & Hlast & Hi & Hout & Hin).
  { by eapply routed_with_ep. } { rewrite Eo. by eapply with_out_points. } { done. }
  exists p'. split_and!; [|by rewrite fmap_cons, last_of_cons|by rewrite Hi|by rewrite Hout|].
  - cbn [serve_datagrams]. eapply step; [apply (output_delivered w c ep p t n (o_val o) v0 bs); try done; by repeat apply Forall_cons_2; try apply Forall_nil_2|].
    by rewrite E, with_ep_again.
  - intros Hne x Hx. rewrite Ei, Eo in Hin. apply Hin; [done|]. by apply with_out_in.
Qed.
End Delivery.

(** C24.  Output data the originator of a connection sends reaches the
    provider the connection is routed to: whatever sequence of datagrams the
    server is given, each carrying the packed value of the output type,
    GetOutputData then answers the value of the last one, and what IORead
    sends to the controller is unchanged. *)
Theorem io_outputs_delivered `{MethodsLaws} torn t n c ep connid os o ds (w : world IOProvider) p v0 vin bin :
  0 <= connid < 2 ^ 32 -> n <= 4071 -> packed_size t = Some n ->
  Forall (output_ok t) (os ++ [o]) -> Forall2 (sends connid) (os ++ [o]) ds ->
  routed w connid c ep p -> points (iop_Out p) v0 p -> typed t v0 ->
  iop_In p <> iop_Out p -> points (iop_In p) vin p -> pack_bytes vin = Ok bin ->
  exists p', serve_datagrams torn ds w = (Ok tt, with_ep ep p' w) /\
    GetOutputData p' = (Ok (o_val o), p') /\ IOProvider_IORead p' = (Ok bin, p').
Proof.
  intros Hc Hsz Hn Hos Hds Hr Hp Hv0 Hne Hin Hb.
  destruct (outputs_delivered torn t n c ep connid _ _ Hc Hsz Hn Hos Hds w p v0 Hr Hp Hv0) as (p' & E & Ho & Ei & Eo & Hi).
  exists p'. split; [done|]. rewrite fmap_app in Ho. change (o_val <$> [o]) with [o_val o] in Ho. rewrite List.last_last in Ho. split.
  - unfold GetOutputData. eapply step; [reflexivity|]. by apply load_points.
  - eapply IORead_points; [|done]. rewrite Ei. by apply Hi.
Qed.

(** ** Channels *)

(** Whatever its channels do, a failed IOWrite of the provider reached the
    channels in front of the first that nobody waits on, and no other. *)
Lemma send_all_spec out l :
  match list_find (fun ch => ch_waiting ch = 0%nat) l with
  | None => send_all out l = (Ok tt, snd ∘ try_send out <$> l)
  | Some (i, _) =>
      exists e, send_all out l = (Err e, (snd ∘ try_send out <$> take i l) ++ drop i l)
  end.
Proof.
  induction l as [|ch l IH]; [done|]. cbn [list_find send_all].
  destruct (decide (ch_waiting ch = 0%nat)) as [E|E].
  - unfold try_send at 1. rewrite E. by eexists.
  - destruct (ch_waiting ch) as [|n] eqn:En; [done|].
    assert (try_send out ch = (true, {| ch_waiting := n; ch_got := ch_got ch ++ [out] |})) as Et by (unfold try_send; by rewrite En).
    destruct (list_find _ l) as [[i x]|]; cbn [fmap option_fmap option_map prod_map].
    + destruct IH as [e IH]. exists e. rewrite Et, IH. cbn [take drop]. rewrite fmap_cons. cbn. by rewrite Et.
    + rewrite Et, IH, fmap_cons. cbn. by rewrite Et.
Qed.

Lemma channel_write t n v bs seq hdr item0 item1 `{MethodsLaws} p :
  0 <= seq < 2 ^ 32 -> 0 <= hdr < 2 ^ 16 -> item_ID item1 = cipItem_ConnectedData ->
  item_Length item1 = blen (output_data seq hdr bs) -> blen (output_data seq hdr bs) < 2 ^ 16 ->
  left item1 (output_data seq hdr bs) ->
  packed_size t = Some n -> typed t v -> pack_bytes v = Ok bs -> typed t (go_zero t) ->
  IOChannelProvider_IOWrite t [item0; item1] p =
    let '(r, l) := send_all v (icp_outChannels p) in (r, set_outChannels l p).
Proof.
  intros Hs Hh Hid Hl Hb L Hn Hv Hbs Hz. unfold IOChannelProvider_IOWrite.
  rewrite (bind_Ok _ _ _ _ _ (io_payload_Ok seq hdr bs item0 item1 p Hs Hh Hid Hl Hb L)).
  destruct (pack_bytes_Ok t n v Hn Hv Hv) as (bs' & E & _ & Hu). rewrite Hbs in E. injection E as <-.
  pose proof (Hu (go_zero t) [] Hz) as Hu1. rewrite app_nil_r in Hu1.
  eapply step; [apply wrapM_Ok; unfold lift; by rewrite Hu1|]. cbv beta iota. unfold zoom.
  destruct (send_all v (icp_outChannels p)) as [r l]. done.
Qed.

(** C31.  A datagram's value goes to the receivers, one of each channel in
    the order the channels were made, up to the first channel on which nobody
    waits: there IOWrite fails, and neither that channel nor a later one,
    waited on or not, gets the value.  Only when every channel is waited on
    does it succeed. *)
Theorem channel_provider_delivers `{MethodsLaws} t n v bs seq hdr item0 item1 p :
  0 <= seq < 2 ^ 32 -> 0 <= hdr < 2 ^ 16 -> item_ID item1 = cipItem_ConnectedData ->
  item_Length item1 = blen (output_data seq hdr bs) -> blen (output_data seq hdr bs) < 2 ^ 16 ->
  left item1 (output_data seq hdr bs) ->
  packed_size t = Some n -> typed t v -> pack_bytes v = Ok bs -> typed t (go_zero t) ->
  exists r got,
    IOChannelProvider_IOWrite t [item0; item1] p = (r, set_outChannels got p) /\ length got = length (icp_outChannels p) /\
    (r = Ok tt <-> Forall (fun ch => ch_waiting ch <> 0%nat) (icp_outChannels p)) /\
    forall i ch, icp_outChannels p !! i = Some ch ->
      (Forall (fun ch => ch_waiting ch <> 0%nat) (take (S i) (icp_outChannels p)) ->
         got !! i = Some {| ch_waiting := pred (ch_waiting ch); ch_got := ch_got ch ++ [v] |}) /\
      (Exists (fun ch => ch_waiting ch = 0%nat) (take (S i) (icp_outChannels p)) -> got !! i = Some ch).
Proof.
  intros Hs Hh Hid Hl Hb L Hn Hv Hbs Hz.
  pose proof (channel_write t n v bs seq hdr item0 item1 p Hs Hh Hid Hl Hb L Hn Hv Hbs Hz) as E.
  pose proof (send_all_spec v (icp_outChannels p)) as S. set (chs := icp_outChannels p) in *.
  assert (forall ch, ch_waiting ch <> 0%nat ->
    snd (try_send v ch) = {| ch_waiting := pred (ch_waiting ch); ch_got := ch_got ch ++ [v] |}) as Ht.
  { intros ch Hw. unfold try_send. by destruct (ch_waiting ch). }
  destruct (list_find _ chs) as [[k x]|] eqn:Ef.
  - destruct S as [e S]. rewrite S in E. do 2 eexists. split; [exact E|].
    apply list_find_Some in Ef as (Hk & Hx & Hfirst). pose proof (lookup_lt_Some _ _ _ Hk).
    split; [rewrite length_app, length_fmap, length_take, length_drop; lia|]. split.
    { split; [done|]. intros Hall. rewrite list.Forall_lookup in Hall. by destruct (Hall _ _ Hk). }
    intros i ch Hi. split.
    + intros Hall. rewrite list.Forall_lookup in Hall. assert (i < k)%nat as Hlt.
      { destruct (decide (i < k)%nat); [done|]. exfalso. apply (Hall k x); [|done]. rewrite lookup_take_lt by lia. done. }
      rewrite lookup_app_l by (rewrite length_fmap, length_take; lia). rewrite list_lookup_fmap, lookup_take_lt, Hi by lia.
      simpl. rewrite Ht; [done|]. apply (Hall i). by rewrite lookup_take_lt by lia.
    + intros Hex. apply list.Exists_exists in Hex as (y & Hy & Hy0). apply list_elem_of_lookup in Hy as [j Hj].
      apply lookup_take_Some in Hj as [Hj Hji].
      assert (k <= i)%nat. { destruct (decide (k <= j)%nat); [lia|]. exfalso. eapply (Hfirst j y); [done|lia|done]. }
      rewrite lookup_app_r by (rewrite length_fmap, length_take; lia). rewrite length_fmap, length_take, lookup_drop, <- Hi.
      f_equal. lia.
  - rewrite S in E. do 2 eexists. split; [exact E|]. apply list_find_None in Ef.
    split; [by rewrite length_fmap|]. split; [done|]. intros i ch Hi. rewrite list_lookup_fmap, Hi. split.
    + intros _. simpl. rewrite Ht; [done|]. rewrite list.Forall_lookup in Ef. by apply (Ef i).
    + intros Hex. exfalso. apply list.Exists_exists in Hex as (y & Hy & Hy0). apply list_elem_of_lookup in Hy as [j Hj].
      apply lookup_take_Some in Hj as [Hj _]. rewrite list.Forall_lookup in Ef. by apply (Ef j y).
Qed.

(** ** Witnesses *)

Definition sample_bytes (v : goval) : bytes := match pack_bytes v with Ok b => b | _ => [] end.
Definition io_value (z : Z) : goval := sample_value (str "Pump") true z.
Definition io_provider : IOProvider :=
  {| iop_store := {[ 1%positive := io_value 1; 2%positive := go_zero sample_type ]};
     iop_In := Some 1%positive; iop_Out := Some 2%positive |}.
Definition io_world : world IOProvider :=
  {| w_srv := {| ConnMgr := {| cm_heap := {[ 1%positive := sample_connection ]}; Connections := [1%positive] |};
                 srv_Router := {| router_Path := {[ [1; 0] := 1%positive ]} |};
                 srv_eps := {[ 1%positive := io_provider ]}; Attributes := ∅ |};
     w_h := w_h (sample_world [] sample_provider); w_rand := 0; w_io := [] |}.
Definition io_output (k : Z) : output := {| o_cnt := k; o_seq := k; o_hdr := 1; o_val := io_value k |}.
Definition io_output_datagram (o : output) : bytes :=
  output_datagram 5 (o_cnt o) (o_seq o) (o_hdr o) (sample_bytes (o_val o)).

Lemma io_typed z : 0 <= z < 2 ^ 31 -> typed sample_type (io_value z).
Proof. intros Hz. by apply sample_typed; [simpl; lia|]. Qed.

Lemma zero_typed : typed sample_type (go_zero sample_type).
Proof.
  assert (typed sample_sub (go_zero sample_sub)) as Hsub by by split_and!.
  assert (typed TIMER (go_zero TIMER)) as Ht.
  { split_and!; [done..|]. exists 0, 0, [false; false; false]. split_and!; [done|by split|by split|done]. }
  split; [done|]. split; [done|]. split; [done|]. split; [done|]. split; [by split|]. split; [simpl; lia|].
  split; [exact Hsub|]. split; [exact Ht|]. split; [|split; [|done]].
  - split_and!; [done..|]. by apply list.Forall_replicate.
  - split_and!; [done..|]. apply list.Forall_replicate. exact Hsub.
Qed.

Lemma io_sends z : 0 <= z < 2 ^ 31 -> sends 5 (io_output z) (io_output_datagram (io_output z)).
Proof.
  intros Hz. destruct (pack_bytes_Ok sample_type 150 (io_value z)) as (bs & E & _); [by vm_compute|by apply io_typed..|].
  exists bs. split; [exact E|]. unfold io_output_datagram, sample_bytes. cbn [o_val io_output]. by rewrite E.
Qed.

Lemma io_outputs_delivered_witness :
  exists p', serve_datagrams (fun _ v => v) (io_output_datagram <$> [io_output 1; io_output 2]) io_world =
      (Ok tt, with_ep 1%positive p' io_world) /\
    GetOutputData p' = (Ok (io_value 2), p') /\ IOProvider_IORead p' = (Ok (sample_bytes (io_value 1)), p').
Proof.
  apply (io_outputs_delivered (fun _ v => v) sample_type 150 sample_connection 1%positive 5 [io_output 1] (io_output 2) _
    io_world io_provider (go_zero sample_type) (io_value 1) (sample_bytes (io_value 1))).
  - zbound.
  - zbound.
  - vm_compute. reflexivity.
  - apply Forall_cons_2; [|apply Forall_cons_2; [|apply Forall_nil_2]]; (split; [zbound|]; split; [zbound|]; split; [zbound|]);
      apply io_typed; lia.
  - repeat constructor; apply io_sends; lia.
  - split; [by exists 1%positive|done|done].
  - by exists 2%positive.
  - exact zero_typed.
  - discriminate.
  - by exists 1%positive.
  - vm_compute. reflexivity.
Defined.

Definition io_channels : IOChannelProvider :=
  {| icp_in := io_value 1; icp_outChannels := [receive new_channel; new_channel; receive new_channel] |}.

Lemma channel_provider_delivers_witness :
  exists r got,
    let item1 := Reset (Write (output_data 1 1 (sample_bytes (io_value 7))) (empty_item cipItem_ConnectedData)) in
    let item0 := empty_item cipItem_SequenceAddress in
    IOChannelProvider_IOWrite sample_type [item0; item1] io_channels = (r, set_outChannels got io_channels) /\
    length got = 3%nat /\
    (r = Ok tt <-> Forall (fun ch => ch_waiting ch <> 0%nat) (icp_outChannels io_channels)) /\
    forall i ch, icp_outChannels io_channels !! i = Some ch ->
      (Forall (fun ch => ch_waiting ch <> 0%nat) (take (S i) (icp_outChannels io_channels)) ->
         got !! i = Some {| ch_waiting := pred (ch_waiting ch); ch_got := ch_got ch ++ [io_value 7] |}) /\
      (Exists (fun ch => ch_waiting ch = 0%nat) (take (S i) (icp_outChannels io_channels)) -> got !! i = Some ch).
Proof.
  apply (channel_provider_delivers sample_type 150 (io_value 7) (sample_bytes (io_value 7)) 1 1).
  - zbound.
  - zbound.
  - reflexivity.
  - vm_compute. reflexivity.
  - vm_compute. reflexivity.
  - apply (left_Reset (Write (output_data 1 1 (sample_bytes (io_value 7))) (empty_item cipItem_ConnectedData))).
  - vm_compute. reflexivity.
  - apply io_typed. lia.
  - vm_compute. reflexivity.
  - exact zero_typed.
Defined.
