(* ===== verification/ServerObjects.v ===== *)
(** * What the attribute objects and multi-service replies contain

    The layout of the replies, stated as what a receiver reads from them:
    the jump table of a multiple-service reply, the symbol listing and the
    custom attribute class that addresses the same tags by number, and the
    identity payloads. *)
From stdpp Require Import sorting.
From S2P Require Import Prelude Reader GoStrings GoValue CipNames CipDefs Types Items Conns Router Messages Server ServerAttr ServerConnected ServerUnconnected ServerReplies ServerData.

(** ** The jump table *)

Lemma length_jump_table pos rs : length (jump_table pos rs) = (2 * length rs)%nat.
Proof.
  revert pos. induction rs as [|r rs IH]; intros pos; cbn [jump_table]; [done|].
  rewrite length_app, length_le_bytes, IH. simpl. lia.
Qed.

Definition total (rs : list bytes) : Z := blen (concat rs).

Lemma total_cons r rs : total (r :: rs) = blen r + total rs.
Proof. unfold total, blen. cbn [concat]. rewrite length_app. lia. Qed.

Lemma total_nonneg rs : 0 <= total rs.
Proof. unfold total, blen. lia. Qed.

Lemma jump_table_entry pos rs k :
  (k < length rs)%nat -> 0 <= pos -> pos + total rs < 2 ^ 16 ->
  le_val (take 2 (drop (2 * k) (jump_table pos rs))) = pos + total (take k rs).
Proof.
  revert pos k. induction rs as [|r rs IH]; intros pos k Hk Hp Ht; [simpl in Hk; lia|].
  rewrite total_cons in Ht. pose proof (total_nonneg rs).
  assert (0 <= blen r) by (unfold blen; lia). cbn [jump_table]. destruct k as [|k].
  - rewrite drop_0, (take_app_length' _ _ 2) by (symmetry; apply length_le_bytes).
    rewrite le_val_le_bytes_small by lia. unfold total, blen. simpl. lia.
  - replace (2 * S k)%nat with (length (le_bytes 2 pos) + 2 * k)%nat
      by (rewrite length_le_bytes; lia).
    rewrite drop_app_add, IH by (simpl in Hk; lia). cbn [take]. rewrite total_cons. lia.
Qed.

Lemma jump_table_offset n rs k :
  n = Z.of_nat (length rs) -> (k < length rs)%nat -> (n + 1) * 2 + total rs < 2 ^ 16 ->
  le_val (take 2 (drop (2 + 2 * k) (le_bytes 2 n ++ jump_table ((n + 1) * 2) rs ++ concat rs))) =
    (n + 1) * 2 + total (take k rs).
Proof.
  intros -> Hk Ht.
  replace (2 + 2 * k)%nat with (length (le_bytes 2 (Z.of_nat (length rs))) + 2 * k)%nat
    by by rewrite length_le_bytes.
  rewrite drop_app_add, drop_app_le by (rewrite length_jump_table; lia).
  rewrite take_app_le by (rewrite length_drop, length_jump_table; lia).
  apply jump_table_entry; lia.
Qed.

Lemma drop_concat rs k r : rs !! k = Some r ->
  drop (Z.to_nat (total (take k rs))) (concat rs) = r ++ concat (drop (S k) rs).
Proof.
  intros Hk. rewrite <- (take_drop_middle rs k r Hk) at 2. rewrite concat_app.
  unfold total, blen. rewrite Nat2Z.id. apply drop_app_length.
Qed.

(** In a multiple-service reply every entry of the jump table is the
    offset, counted from the number of replies, at which that reply starts,
    as long as the whole reply is shorter than 64 KiB. *)
Theorem multi_response_offsets rs :
  (Z.of_nat (length rs) + 1) * 2 + total rs < 2 ^ 16 ->
  exists bs, Forall2 (fun a b => serialize_arg a = Ok b) (multi_response (Z.of_nat (length rs)) rs) bs /\
    let payload := concat bs in
    le_val (take 2 payload) = Z.of_nat (length rs) /\
    forall k r, rs !! k = Some r ->
      let o := le_val (take 2 (drop (2 + 2 * k) payload)) in
      take (length r) (drop (Z.to_nat o) payload) = r.
Proof.
  intros Ht. pose proof (total_nonneg rs).
  set (n := Z.of_nat (length rs)) in *.
  exists (le_bytes 2 n :: jump_table ((n + 1) * 2) rs :: rs). split.
  { unfold multi_response. do 2 (constructor; [done|]). clear. induction rs; by constructor. }
  cbn [concat]. split.
  { rewrite take_app_length' by (symmetry; apply length_le_bytes). apply le_val_le_bytes_small. lia. }
  intros k r Hk. pose proof (lookup_lt_Some _ _ _ Hk).
  rewrite (jump_table_offset n rs k) by (lia || done).
  replace (Z.to_nat ((n + 1) * 2 + total (take k rs)))
    with (length (le_bytes 2 n ++ jump_table ((n + 1) * 2) rs) + Z.to_nat (total (take k rs)))%nat
    by (rewrite length_app, length_le_bytes, length_jump_table; pose proof (total_nonneg (take k rs)); lia).
  rewrite (assoc_L (++)), drop_app_add, (drop_concat rs k r Hk). apply take_app_length.
Qed.

Lemma multi_response_offsets_witness :
  exists bs, Forall2 (fun a b => serialize_arg a = Ok b)
      (multi_response 2 [[0xCC; 0; 0; 0; 0xC4; 0; 7; 0; 0; 0]; [0xCD; 0; 0; 0]]) bs /\
    let payload := concat bs in
    le_val (take 2 payload) = 2 /\
    forall k r, [[0xCC; 0; 0; 0; 0xC4; 0; 7; 0; 0; 0]; [0xCD; 0; 0; 0]] !! k = Some r ->
      let o := le_val (take 2 (drop (2 + 2 * k) payload)) in
      take (length r) (drop (Z.to_nat o) payload) = r.
Proof. apply (multi_response_offsets [[0xCC; 0; 0; 0; 0xC4; 0; 7; 0; 0; 0]; [0xCD; 0; 0; 0]]). reflexivity. Defined.

(** ** The symbol listing *)

Lemma bytes_le_refl a : bytes_le a a = true.
Proof. induction a as [|x a IH]; [done|]. simpl. rewrite Z.eqb_refl, IH. by rewrite orb_true_r. Qed.

Lemma bytes_le_cons x a y b :
  bytes_le (x :: a) (y :: b) = true <-> x < y \/ (x = y /\ bytes_le a b = true).
Proof. cbn [bytes_le]. rewrite orb_true_iff, andb_true_iff, Z.ltb_lt, Z.eqb_eq. done. Qed.

Lemma bytes_le_total a b : bytes_le a b = true \/ bytes_le b a = true.
Proof.
  revert b. induction a as [|x a IH]; intros [|y b]; [by left..|by right|].
  rewrite !bytes_le_cons. destruct (Ztrichotomy x y) as [?|[->|?]]; [by left; left| |right; left; lia].
  destruct (IH b); [left|right]; by right.
Qed.

Lemma bytes_le_trans a b c : bytes_le a b = true -> bytes_le b c = true -> bytes_le a c = true.
Proof.
  revert b c. induction a as [|x a IH]; intros [|y b] [|z c]; try done.
  rewrite !bytes_le_cons. intros [?|[-> ?]] [?|[-> ?]]; [left; lia..|]. right. eauto.
Qed.

Lemma bytes_le_antisym a b : bytes_le a b = true -> bytes_le b a = true -> a = b.
Proof.
  revert b. induction a as [|x a IH]; intros [|y b]; try done.
  rewrite !bytes_le_cons. intros [?|[-> ?]] [?|[? ?]]; try lia. f_equal. auto.
Qed.

#[export] Instance name_le_total : Total name_le.
Proof. intros a b. apply bytes_le_total. Qed.
#[export] Instance name_le_trans : Transitive name_le.
Proof. intros a b c. apply bytes_le_trans. Qed.

(** The order of a tag listing is the provider's tags', not the iteration's. *)
Lemma sort_tags_order l l' :
  NoDup (map sti_Name l) -> Permutation l l' -> sort_tags l = sort_tags l'.
Proof.
  intros Hnd Hp. apply (Sorted_unique_strong name_le).
  - intros a b Ha Hb H1 H2. unfold sort_tags in *.
    rewrite merge_sort_Permutation in Ha. rewrite merge_sort_Permutation, <- Hp in Hb.
    apply list_elem_of_lookup in Ha as [i Hi], Hb as [j Hj].
    pose proof (bytes_le_antisym _ _ H1 H2) as En.
    assert (i = j) as <-; [|congruence].
    apply (NoDup_lookup (map sti_Name l) i j (sti_Name a)); [done| |].
    + by apply (list_lookup_fmap_Some_2 sti_Name).
    + rewrite En. by apply (list_lookup_fmap_Some_2 sti_Name).
  - apply Sorted_merge_sort, _.
  - apply Sorted_merge_sort, _.
  - unfold sort_tags. by rewrite !merge_sort_Permutation.
Qed.

(** What a browsing client reads per symbol. *)
Definition read_symbol {R} `{Reader R} : M R (Z * bytes * Z) :=
  id ← read_u32; len ← read_u16; name ← read_slice (Z.to_nat len); ty ← read_u16; mret (id, name, ty).

Lemma blen_cap255 s : 0 <= blen (cap255 s) <= 255.
Proof.
  unfold cap255, blen. destruct (Z.ltb_spec 255 (Z.of_nat (length s))); [rewrite length_take|]; lia.
Qed.

Lemma parses_symbols {R} `{ReaderLaws R} tags i :
  Forall (fun t => 0 <= sti_Type t < 2 ^ 16) tags -> 0 <= i ->
  i + Z.of_nat (length tags) < 2 ^ 32 ->
  parses (R:=R) (read_n (length tags) read_symbol) (symbol_entries i 0 tags)
    (imap (fun k t => (i + Z.of_nat k + 1, cap255 (sti_Name t), sti_Type t)) tags).
Proof.
  intros Ht. revert i. induction Ht as [|t tags Ht _ IH]; intros i Hi Hl; [apply parses_ret|].
  cbn [length read_n symbol_entries imap]. simpl in Hl. pose proof (blen_cap255 (sti_Name t)).
  rewrite wrap_small by lia. rewrite (proj2 (Z.ltb_ge _ _)) by lia.
  eapply parses_bind.
  - unfold read_symbol. eapply parses_bind; [apply parses_u32; lia|].
    eapply parses_bind; [apply parses_u16; lia|].
    eapply parses_bind; [apply parses_slice; unfold blen; by rewrite Nat2Z.id|].
    eapply parses_bind_nil; [by apply parses_u16|apply parses_ret].
  - eapply parses_bind_nil; [apply (IH (i + 1)); lia|].
    rewrite Z.add_0_r.
    rewrite (imap_ext (fun k t => (i + 1 + Z.of_nat k + 1, cap255 (sti_Name t), sti_Type t))
      ((fun k t => (i + Z.of_nat k + 1, cap255 (sti_Name t), sti_Type t)) ∘ S)); [apply parses_ret|].
    intros k x _. simpl. do 2 f_equal. lia.
Qed.

Section Symbols.
Context {P : Type} `{CIPEndpoint P}.

(** The endpoint of the default route, with its tags. *)
Record local_tags (w : world P) (ep : eloc) (p : P) (tags : list ServerTagInfo) : Prop := {
  local_path : router_Path (srv_Router (w_srv w)) !! defaultLocalPath = Some ep;
  local_ep : srv_eps (w_srv w) !! ep = Some p;
  local_lister : exists f, TagLister = Some f /\ f p = tags;
}.

Lemma resolve_Ok w ep p tags n :
  local_tags w ep p tags ->
  resolveSymbolicTagFromCustomClass n w =
    (Ok (if (n =? 0) || (Z.of_nat (length tags) <? n) then None
         else sti_Name <$> sort_tags tags !! Z.to_nat (n - 1)), w).
Proof.
  intros [Hp He (f & Hf & Ht)]. unfold resolveSymbolicTagFromCustomClass.
  eapply step; [apply try_Ok; unfold router_Resolve, Resolve; by rewrite Hp|]. cbv iota.
  eapply step; [unfold lister_tags; by rewrite Hf, He, Ht|]. cbv beta iota zeta.
  assert (length (sort_tags tags) = length tags) as -> by apply Permutation_length, merge_sort_Permutation.
  by case_match.
Qed.
End Symbols.

(** The symbol listing and the custom attribute class number the tags
    alike: a client reads from the listing one entry per tag, in name order,
    with the instance ids 1, 2, ...; an instance id resolves to the tag listed
    under it and no other id resolves; and the numbering depends on the set
    of tags only, not on the order in which the provider's map yields them. *)
Theorem symbol_listing_resolves {P} `{CIPEndpoint P} (w : world P) ep p tags tags' :
  local_tags w ep p tags -> NoDup (map sti_Name tags) -> Permutation tags tags' ->
  Forall (fun t => 0 <= sti_Type t < 2 ^ 16) tags -> Z.of_nat (length tags) < 2 ^ 16 ->
  parses (R:=bytes) (read_n (length tags) read_symbol) (buildSymbolObjectInstanceListResponse tags 0)
    (imap (fun k t => (Z.of_nat k + 1, cap255 (sti_Name t), sti_Type t)) (sort_tags tags)) /\
  Permutation (sort_tags tags) tags /\ Sorted name_le (sort_tags tags) /\
  sort_tags tags' = sort_tags tags /\
  (forall k t, sort_tags tags !! k = Some t ->
     resolveSymbolicTagFromCustomClass (Z.of_nat k + 1) w = (Ok (Some (sti_Name t)), w)) /\
  (forall n, n = 0 \/ Z.of_nat (length tags) < n -> resolveSymbolicTagFromCustomClass n w = (Ok None, w)).
Proof.
  intros Hloc Hnd Hp Ht Hl.
  assert (Permutation (sort_tags tags) tags) as Hs by apply merge_sort_Permutation.
  pose proof (Permutation_length Hs) as Hsl. split_and!.
  - unfold buildSymbolObjectInstanceListResponse. rewrite <- Hsl.
    rewrite (imap_ext (fun k t => (Z.of_nat k + 1, cap255 (sti_Name t), sti_Type t))
      (fun k t => (0 + Z.of_nat k + 1, cap255 (sti_Name t), sti_Type t))) by (intros; by rewrite Z.add_0_l).
    apply (parses_symbols (R:=bytes) (sort_tags tags) 0); [by rewrite Hs|lia|lia].
  - done.
  - apply Sorted_merge_sort, _.
  - symmetry. by apply sort_tags_order.
  - intros k t Hk. rewrite (resolve_Ok w ep p tags _ Hloc). apply lookup_lt_Some in Hk as Hlt.
    rewrite (proj2 (Z.eqb_neq _ _)), (proj2 (Z.ltb_ge _ _)) by lia. cbn [orb].
    replace (Z.to_nat (Z.of_nat k + 1 - 1)) with k by lia. by rewrite Hk.
  - intros n Hn. rewrite (resolve_Ok w ep p tags _ Hloc).
    destruct Hn as [->|Hn]; [done|]. rewrite (proj2 (Z.ltb_lt _ _) Hn). by rewrite orb_true_r.
Qed.

Lemma symbol_listing_resolves_witness :
  let w := sample_world [] sample_provider in
  let tags := TagList sample_provider in
  map sti_Name (sort_tags tags) = [str "arr"; str "x"] /\
  parses (R:=bytes) (read_n (length tags) read_symbol) (buildSymbolObjectInstanceListResponse tags 0)
    (imap (fun k t => (Z.of_nat k + 1, cap255 (sti_Name t), sti_Type t)) (sort_tags tags)) /\
  Permutation (sort_tags tags) tags /\ Sorted name_le (sort_tags tags) /\
  sort_tags (rev tags) = sort_tags tags /\
  (forall k t, sort_tags tags !! k = Some t ->
     resolveSymbolicTagFromCustomClass (Z.of_nat k + 1) w = (Ok (Some (sti_Name t)), w)) /\
  (forall n, n = 0 \/ Z.of_nat (length tags) < n -> resolveSymbolicTagFromCustomClass n w = (Ok None, w)).
Proof.
  intros w tags. split; [vm_compute; reflexivity|].
  apply (symbol_listing_resolves w 1%positive sample_provider tags (rev tags)).
  - split; [reflexivity|reflexivity|]. by exists TagList.
  - apply (bool_decide_unpack _). vm_compute. exact I.
  - apply Permutation_rev.
  - apply (bool_decide_unpack _). vm_compute. exact I.
  - vm_compute. reflexivity.
Defined.

(** ** The custom attribute class *)

(** The three segments of an attribute request. *)
Definition attribute_path (c i a : Z) : bytes := Class_.Bytes c ++ Instance_.Bytes i ++ Attribute.Bytes a.

Lemma read_attribute_path_Ok {P} `{CIPEndpoint P} {A} c i a rest item (w : world P)
    (f : Z * Z * Z * CIPItem -> M (world P) A) r :
  0 <= c < 2 ^ 16 -> 0 <= i < 2 ^ 32 -> 0 <= a < 2 ^ 16 ->
  left item (attribute_path c i a ++ rest) ->
  (forall item', left item' rest -> f (c, i, a, item') w = r) ->
  (read_attribute_path item ≫= f) w = r.
Proof.
  intros Hc Hi Ha [Hp L] Hf. unfold attribute_path in L. rewrite <- !(assoc_L (++)) in L.
  set (r1 := rd_advance (length (Class_.Bytes c)) item).
  assert (forall bs v (m : M CIPItem Z) msg (i0 : CIPItem) rest0,
    parses m bs v -> left i0 (bs ++ rest0) ->
    exists i1, on i0 (wrapM msg m) w = (Ok (v, i1), w) /\ left i1 rest0) as Hstep.
  { intros bs v m msg i0 rest0 Hm [H0 H1].
    destruct (parses_run m bs v i0 rest0 Hm H0 H1) as (i1 & E & Hd & Hi1).
    exists i1. split; [by eapply on_Ok, wrapM_Ok|done]. }
  destruct (Hstep _ _ _ "could not read class"%string item _ (class_parses c Hc) (conj Hp L)) as (i1 & E1 & L1).
  destruct (Hstep _ _ _ "could not read instance"%string i1 _ (instance_parses i Hi) L1) as (i2 & E2 & L2).
  destruct (Hstep _ _ _ "could not read attribute ID"%string i2 _ (attribute_parses a Ha) L2) as (i3 & E3 & L3).
  eapply step; [|by apply Hf]. unfold read_attribute_path.
  eapply step; [exact E1|]. cbv beta iota. eapply step; [exact E2|]. cbv beta iota.
  eapply step; [exact E3|]. reflexivity.
Qed.

Section Custom.
Context {P : Type} `{EndpointLaws P}.

Lemma sendUnconnectedRRDataReply_Ok s args bs (w : world P) :
  can_write w -> Forall2 (fun a b => serialize_arg a = Ok b) args bs ->
  sendUnconnectedRRDataReply s args w =
    (Ok tt, sent (unconnected_frame ([Service.AsResponse s; 0; 0; 0] ++ concat bs) w) w).
Proof.
  intros Hw Ha. unfold sendUnconnectedRRDataReply, newItem.
  by rewrite (send_items_Ok _ _ _ _ ([Service.AsResponse s; 0; 0; 0] :: bs)); [|done|done|constructor].
Qed.

Lemma sendUnconnectedErrorReply_Ok s st (w : world P) :
  can_write w ->
  sendUnconnectedErrorReply s st w =
    (Ok tt, sent (unconnected_frame [Service.AsResponse s; 0; st; 0] w) w).
Proof.
  intros Hw. unfold sendUnconnectedErrorReply, newItem.
  by erewrite send_items_Ok; [|done|done|repeat constructor].
Qed.

Lemma Resolve_local w ep p tags :
  local_tags w ep p tags -> router_Resolve defaultLocalPath w = (Ok ep, w).
Proof. intros [Hp _ _]. unfold router_Resolve, Resolve. by rewrite Hp. Qed.

Lemma with_ep_id ep p (w : world P) : srv_eps (w_srv w) !! ep = Some p -> with_ep ep p w = w.
Proof.
  intros He. unfold with_ep, upd_srv, set_eps. rewrite insert_id by done.
  by destruct w as [[] ? ? ?].
Qed.

Lemma value_image_reply v b (w : world P) s :
  can_write w -> value_image v b ->
  match (if fst (GoVarToCIPType v) =? CIPTypeSTRING then v else VNil) with
  | VString str => sendUnconnectedRRDataReply s [SBytes (cipStringPacker_Bytes str)]
  | _ => sendUnconnectedRRDataReply s (value_reply s v)
  end w = (Ok tt, sent (unconnected_frame ([Service.AsResponse s; 0; 0; 0] ++ b) w) w).
Proof.
  intros Hw [v' b' Ha Ht Hb|str].
  - rewrite (proj2 (Z.eqb_neq _ _)) by done.
    rewrite (sendUnconnectedRRDataReply_Ok _ _ [[fst (GoVarToCIPType v')]; [0]; b']); [|done|].
    + cbn [concat app]. by rewrite app_nil_r.
    + unfold value_reply. rewrite Ha. by repeat constructor.
  - change (fst (GoVarToCIPType (VString str)) =? CIPTypeSTRING) with true. cbv iota.
    rewrite (sendUnconnectedRRDataReply_Ok _ _ [cipStringPacker_Bytes str]); [|done|by repeat constructor].
    cbn [concat]. by rewrite app_nil_r.
Qed.

(** The custom attribute class is a window on the tags: attribute 1 of
    instance k is answered with the value a read of the k-th tag gives, and
    the state stays as it is; an instance that numbers no tag, and any other
    attribute, is refused with the CIP status that says so. *)
Theorem custom_class_reads_tag (w : world P) ep p tags item k a v b t rest :
  can_write w -> local_tags w ep p tags -> 0 <= k < 256 -> 0 <= a < 256 ->
  left item ([3] ++ attribute_path customClass k a ++ rest) ->
  Z.of_nat (length tags) < 2 ^ 16 ->
  (1 <= k <= Z.of_nat (length tags) -> sort_tags tags !! Z.to_nat (k - 1) = Some t /\
     stores p (sti_Name t) 1 v /\ value_image v b) ->
  unconnectedServiceGetAttrSingle item w =
    (Ok tt, sent (unconnected_frame
      (if (k =? 0) || (Z.of_nat (length tags) <? k) then
         [Service.AsResponse CIPService_GetAttributeSingle; 0; CIPStatus_PathDestinationUnknown; 0]
       else if negb (a =? 1) then
         [Service.AsResponse CIPService_GetAttributeSingle; 0; CIPStatus_AttributeNotSupported; 0]
       else [Service.AsResponse CIPService_GetAttributeSingle; 0; 0; 0] ++ b) w) w).
Proof.
  intros Hw Hloc Hk Ha L Hl Hv. unfold unconnectedServiceGetAttrSingle.
  destruct L as [Hp L].
  assert (exists i1, item_Byte item = (Ok 3, i1) /\ left i1 (attribute_path customClass k a ++ rest))
    as (i1 & E1 & L1).
  { destruct (parses_run read_u8 [3] 3 item _ (parses_u8 (R:=CIPItem) 3 ltac:(zbound)) Hp L) as (i1 & E & Hd & Hi).
    exists i1. split; [apply (item_uint_agrees 1); [lia|exact Hp|exact E]|done]. }
  eapply step; [by apply on_Ok, wrapM_Ok|]. cbv beta iota. change (negb (3 =? 3)) with false. cbv iota.
  eapply (read_attribute_path_Ok customClass k a); [zbound|lia|lia|exact L1|intros i2 _]. cbv beta iota.
  change (customClass =? customClass) with true. cbv iota.
  eapply step; [by eapply resolve_Ok|]. rewrite (wrap_small 16 k) by lia.
  destruct (_ || _) eqn:E; [by apply sendUnconnectedErrorReply_Ok|].
  apply orb_false_iff in E as [E2%Z.eqb_neq E3%Z.ltb_ge].
  destruct Hv as (Ht & Hst & Hi); [lia|]. rewrite Ht. cbn [fmap option_fmap option_map].
  destruct (negb (a =? 1)); [by apply sendUnconnectedErrorReply_Ok|].
  eapply step; [by eapply try_Ok, Resolve_local|]. cbv iota.
  eapply step; [by eapply try_Ok, call_ep_eq; [apply Hloc|apply TagRead_stores]|].
  rewrite (with_ep_id ep p) by apply Hloc. cbv iota. by apply value_image_reply.
Qed.
(** Writing attribute 1 of instance k of the custom class writes the k-th
    tag: the endpoint gets the decoded value under that tag's name, and the
    reply says whether it took it. *)
Theorem custom_class_writes_tag (w : world P) ep p tags item k t v bv rest r p' :
  can_write w -> local_tags w ep p tags -> 1 <= k <= Z.of_nat (length tags) -> k < 256 ->
  sort_tags tags !! Z.to_nat (k - 1) = Some t ->
  scalar_ok v -> binary_write v = Ok bv ->
  left item ([3] ++ attribute_path customClass k 1 ++
    write_values (fst (GoVarToCIPType v)) 1 [bv] ++ rest) ->
  TagWrite (sti_Name t) v p = (r, p') -> (forall why, r <> Panic why) ->
  unconnectedServiceSetAttrSingle item w =
    (Ok tt, sent (unconnected_frame
      [Service.AsResponse CIPService_SetAttributeSingle; 0;
       if is_Ok r then 0 else CIPStatus_InvalidAttributeValue; 0] w) (with_ep ep p' w)).
Proof.
  intros Hw Hloc Hk Hk2 Ht Hs Hb [Hp L] Hr Hnp. unfold unconnectedServiceSetAttrSingle.
  assert (exists i1, item_Byte item = (Ok 3, i1) /\ left i1 (attribute_path customClass k 1 ++
    write_values (fst (GoVarToCIPType v)) 1 [bv] ++ rest)) as (i1 & E1 & L1).
  { destruct (parses_run read_u8 [3] 3 item _ (parses_u8 (R:=CIPItem) 3 ltac:(zbound)) Hp L) as (i1 & E & Hd & Hi).
    exists i1. split; [apply (item_uint_agrees 1); [lia|exact Hp|exact E]|done]. }
  eapply step; [apply on_Ok, wrapM_Ok, E1|]. cbv beta iota. change (negb (3 =? 3)) with false. cbv iota.
  eapply (read_attribute_path_Ok customClass k 1); [zbound|lia|lia|exact L1|intros i2 L2]. cbv beta iota.
  change (negb (customClass =? customClass)) with false. change (negb (1 =? 1)) with false. cbv iota.
  eapply step; [by eapply resolve_Ok|]. rewrite (wrap_small 16 k) by lia.
  rewrite (proj2 (Z.eqb_neq _ _)), (proj2 (Z.ltb_ge _ _)) by lia. cbn [orb].
  rewrite Ht. cbn [fmap option_fmap option_map].
  destruct (type_code_stop v Hs) as (Htc1 & _ & _ & _ & Htc2).
  eapply step_on; [apply parses_wrapM, (parses_write_values (fst (GoVarToCIPType v)) [v] [bv])|exact L2|intros i3 _].
  { exact Htc2. }
  { exact Htc1. }
  { zbound. }
  { by repeat constructor. }
  cbv beta iota. eapply step; [by eapply try_Ok, Resolve_local|]. cbv iota.
  destruct r as [[]|e|why]; [| |by destruct (Hnp why)].
  - eapply step; [by eapply try_Ok, call_ep_eq; [apply Hloc|]|]. cbv iota.
    by rewrite (sendUnconnectedRRDataReply_Ok _ [] []).
  - eapply step; [eapply try_Err; unfold call_ep; rewrite (local_ep _ _ _ _ Hloc), Hr; reflexivity|].
    cbv iota. by rewrite sendUnconnectedErrorReply_Ok.
Qed.
End Custom.

Lemma sample_tags : local_tags (sample_world [] sample_provider) 1%positive sample_provider (TagList sample_provider).
Proof. split; [reflexivity|reflexivity|]. by exists TagList. Qed.

(** Instance 2 is the tag x. *)
Definition x_info : ServerTagInfo := {| sti_Name := str "x"; sti_Type := CIPTypeDINT |}.

Lemma custom_class_reads_tag_witness :
  let w := sample_world [] sample_provider in
  unconnectedServiceGetAttrSingle (sample_item 0xB2 [0x0E; 3; 0x20; 0xC8; 0x24; 2; 0x30; 1] 1) w =
    (Ok tt, sent (unconnected_frame
      ([Service.AsResponse CIPService_GetAttributeSingle; 0; 0; 0] ++ [CIPTypeDINT; 0; 5; 0; 0; 0]) w) w).
Proof.
  intros w. apply (custom_class_reads_tag w 1%positive sample_provider (TagList sample_provider) _ 2 1
    (VInt I32 5) [CIPTypeDINT; 0; 5; 0; 0; 0] x_info []).
  - reflexivity.
  - exact sample_tags.
  - zbound.
  - zbound.
  - split; [discriminate|reflexivity].
  - reflexivity.
  - intros _. split; [vm_compute; reflexivity|]. split; [eexists; split; vm_compute; reflexivity|].
    apply (image_fixed (VInt I32 5) [5; 0; 0; 0]); [reflexivity|discriminate|reflexivity].
Defined.

Lemma custom_class_writes_tag_witness :
  let w := sample_world [] sample_provider in
  exists p', unconnectedServiceSetAttrSingle
      (sample_item 0xB2 [0x10; 3; 0x20; 0xC8; 0x24; 2; 0x30; 1; CIPTypeDINT; 0; 1; 0; 9; 0; 0; 0] 1) w =
    (Ok tt, sent (unconnected_frame [Service.AsResponse CIPService_SetAttributeSingle; 0; 0; 0] w)
      (with_ep 1%positive p' w)).
Proof.
  intros w. eexists.
  apply (custom_class_writes_tag w 1%positive sample_provider (TagList sample_provider) _ 2 x_info
    (VInt I32 9) [9; 0; 0; 0] [] (Ok tt)).
  - reflexivity.
  - exact sample_tags.
  - zbound.
  - reflexivity.
  - vm_compute. reflexivity.
  - zbound.
  - reflexivity.
  - split; [discriminate|reflexivity].
  - vm_compute. reflexivity.
  - discriminate.
Defined.

(** ** Identity *)

Record identity := {
  id_vendor : Z; id_type : Z; id_product : Z; id_revision : Z; id_status : Z;   (* int16 *)
  id_serial : Z;                                                                (* uint32 *)
  id_name : bytes;
}.

(** An attribute table with the types the builders ask for. *)
Record identity_attrs (attrs : gmap Z goval) (d : identity) : Prop := {
  ia_ints : Forall (int_ok I16) [id_vendor d; id_type d; id_product d; id_revision d; id_status d];
  ia_serial : int_ok U32 (id_serial d);
  ia_1 : attrs !! 1 = Some (VInt I16 (id_vendor d));
  ia_2 : attrs !! 2 = Some (VInt I16 (id_type d));
  ia_3 : attrs !! 3 = Some (VInt I16 (id_product d));
  ia_4 : attrs !! 4 = Some (VInt I16 (id_revision d));
  ia_5 : attrs !! 5 = Some (VInt I16 (id_status d));
  ia_6 : attrs !! 6 = Some (VInt U32 (id_serial d));
  ia_7 : attrs !! 7 = Some (VString (id_name d));
}.

(** What a client reads of an identity: five INTs, a UDINT and a short string. *)
Definition read_identity {R} `{Reader R} : M R identity :=
  vendor ← read_sint 2; type ← read_sint 2; product ← read_sint 2; revision ← read_sint 2;
  status ← read_sint 2; serial ← read_u32; len ← read_u8; name ← read_slice (Z.to_nat len);
  mret {| id_vendor := vendor; id_type := type; id_product := product; id_revision := revision;
          id_status := status; id_serial := serial; id_name := name |}.

Definition cap_name (d : identity) : identity :=
  {| id_vendor := id_vendor d; id_type := id_type d; id_product := id_product d;
     id_revision := id_revision d; id_status := id_status d; id_serial := id_serial d;
     id_name := cap255 (id_name d) |}.

Lemma attr_int_Ok attrs k kind z : attrs !! k = Some (VInt kind z) -> attr_int attrs k kind = Ok z.
Proof. intros E. unfold attr_int. rewrite E. by rewrite decide_True. Qed.

Lemma identity_fields_Ok attrs d : identity_attrs attrs d ->
  identity_fields attrs = Ok ([le_bytes 2 (id_vendor d); le_bytes 2 (id_type d); le_bytes 2 (id_product d);
    le_bytes 2 (id_revision d); le_bytes 2 (id_status d); le_bytes 4 (id_serial d)], cap255 (id_name d)).
Proof.
  intros [_ _ H1 H2 H3 H4 H5 H6 H7]. unfold identity_fields, attr_string.
  by rewrite (attr_int_Ok _ _ _ _ H1), (attr_int_Ok _ _ _ _ H2), (attr_int_Ok _ _ _ _ H3),
    (attr_int_Ok _ _ _ _ H4), (attr_int_Ok _ _ _ _ H5), (attr_int_Ok _ _ _ _ H6), H7.
Qed.

(** The bytes of an identity with a capped name. *)
Definition identity_bytes (d : identity) : bytes :=
  le_bytes 2 (id_vendor d) ++ le_bytes 2 (id_type d) ++ le_bytes 2 (id_product d) ++
  le_bytes 2 (id_revision d) ++ le_bytes 2 (id_status d) ++ le_bytes 4 (id_serial d) ++
  [blen (cap255 (id_name d))] ++ cap255 (id_name d).

Lemma parses_identity {R} `{ReaderLaws R} attrs d :
  identity_attrs attrs d -> parses (R:=R) read_identity (identity_bytes d) (cap_name d).
Proof.
  intros [Hi Hs _ _ _ _ _ _ _]. split_Forall. unfold int_ok in *. simpl in *.
  pose proof (blen_cap255 (id_name d)). unfold read_identity, identity_bytes.
  do 5 (eapply parses_bind; [apply parses_sint; [lia|assumption]|]).
  eapply parses_bind; [apply parses_u32; assumption|].
  eapply parses_bind; [apply parses_u8; red; lia|].
  eapply parses_bind_nil; [apply parses_slice; unfold blen; by rewrite Nat2Z.id|apply parses_ret].
Qed.

Lemma To4_length ip : length (default [0; 0; 0; 0] (To4 ip)) = 4%nat.
Proof.
  unfold To4. destruct (Nat.eqb_spec (length ip) 4) as [E|_]; [exact E|].
  destruct (Nat.eqb_spec (length ip) 16) as [E|_]; [|done]. cbn [andb].
  destruct (bool_decide _); [|done]. change (length (drop 12 ip) = 4%nat). rewrite length_drop. lia.
Qed.

(** The values of the attribute table follow the version and the socket
    address in the body of a list identity item. *)
Lemma list_identity_body attrs d ip port : identity_attrs attrs d ->
  buildListIdentityItemBody attrs ip port =
    Ok (le_bytes 2 1 ++ be_bytes 2 2 ++ be_bytes 2 port ++ default [0; 0; 0; 0] (To4 ip) ++ replicate 8 0 ++
        identity_bytes d ++ [0xFF]).
Proof.
  intros Hd. pose proof (blen_cap255 (id_name d)) as Hn. unfold buildListIdentityItemBody.
  rewrite (identity_fields_Ok _ _ Hd). cbn [mbind res_bind]. unfold identity_bytes. rewrite wrap_small by lia.
  cbn [concat]. by rewrite !app_nil_r, <- !(assoc_L (++)).
Qed.

(** Both ways to ask for the identity agree: Get_Attributes_All answers
    the values of the attribute table (the name cut to the 255 bytes its
    length byte can count), and the list identity item carries the same bytes
    after its 18 bytes of version and socket address, and is read as one
    identity item of exactly its length. *)
Theorem identity_replies attrs d :
  identity_attrs attrs d ->
  exists b, buildIdentityGetAttributesAllResponse attrs = Ok b /\
    parses (R:=bytes) read_identity b (cap_name d) /\
    forall ip port, exists body, buildListIdentityItemBody attrs ip port = Ok body /\
      drop 18 body = b ++ [0xFF] /\
      parses (R:=bytes) readItems (frameListIdentityResponse body)
        [{| item_ID := cipItem_ListIdentityResponse; item_Length := blen body;
            item_Data := body; item_Pos := 0 |}].
Proof.
  intros Hd. pose proof (blen_cap255 (id_name d)) as Hn. exists (identity_bytes d).
  split_and!; [|by eapply parses_identity|].
  - unfold buildIdentityGetAttributesAllResponse. rewrite (identity_fields_Ok _ _ Hd).
    cbn [mbind res_bind]. unfold identity_bytes. rewrite wrap_small by lia.
    cbn [concat]. by rewrite !app_nil_r, <- !(assoc_L (++)).
  - intros ip port. rewrite (list_identity_body _ _ _ _ Hd). eexists. split; [reflexivity|]. split.
    + rewrite !(assoc_L (++)), <- (assoc_L (++) _ (identity_bytes d)). apply drop_app_length'.
      rewrite !length_app, To4_length. reflexivity.
    + set (body := _ ++ _). set (i := {| item_ID := 0x0C; item_Length := blen body;
        item_Data := body; item_Pos := 0 |}).
      assert (frameListIdentityResponse body = le_bytes 2 1 ++ concat (map item_Bytes [i])) as ->.
      { cbn [map concat]. by rewrite app_nil_r. }
      apply (parses_items [i]); [|done].
      apply Forall_cons_2; [|apply Forall_nil_2]. split_and!; [zbound|zbound| |done].
      unfold i, body, identity_bytes, blen in *. cbn [item_Data].
      rewrite !length_app, To4_length, !length_le_bytes, length_replicate. unfold be_bytes.
      rewrite !length_rev, !length_le_bytes. simpl (length [_]). lia.
Qed.

Lemma identity_replies_witness :
  let attrs := default_Attributes 7 in
  let d := {| id_vendor := 0x1776; id_type := 14; id_product := 1; id_revision := 0x1412;
              id_status := 0x3060; id_serial := 7; id_name := str "Gologix" |} in
  exists b, buildIdentityGetAttributesAllResponse attrs = Ok b /\
    parses (R:=bytes) read_identity b (cap_name d) /\
    forall ip port, exists body, buildListIdentityItemBody attrs ip port = Ok body /\
      drop 18 body = b ++ [0xFF] /\
      parses (R:=bytes) readItems (frameListIdentityResponse body)
        [{| item_ID := cipItem_ListIdentityResponse; item_Length := blen body;
            item_Data := body; item_Pos := 0 |}].
Proof.
  intros attrs d. apply identity_replies. split; try reflexivity.
  - repeat apply Forall_cons_2; try apply Forall_nil_2; zbound.
  - zbound.
Defined.
