(* ===== verification/Client.v ===== *)
(** * The client: connection, transport and sessions (client.go, connect.go, disconnect.go, sendreceive.go)

    One client in one goroutine: its configuration, its link to the
    controller (status, socket, session, connection ids and sequence
    counters) and its IOI cache.  The network is the outcome of each dial, a
    connection being the outcome of each write on it: an error, or the bytes
    the peer sends in answer.  Logging and deadlines are left out; a read past
    what the peer sent is the error a deadline or a closed stream gives. *)
From S2P Require Import Prelude Reader GoStrings GoValue CipNames CipDefs Types Items Ioi Path Messages.
(** ** State *)

Inductive connectionStatus :=
  | connectionStatusDisconnected
  | connectionStatusConnecting
  | connectionStatusConnected
  | connectionStatusDisconnecting.

#[export] Instance connectionStatus_eq_dec : EqDecision connectionStatus.
Proof. solve_decision. Defined.

Inductive exchange :=
  | WriteErr (e : error)
  | Reply (b : bytes).

Record net_conn := {
  nc_open : bool;
  nc_script : list exchange;   (* the peer's answer to each write to come *)
  nc_rx : bytes;               (* sent by the peer and not read yet *)
  nc_sent : list bytes;        (* written so far *)
}.

Record client_config := {
  Controller_Path : option bytes;   (* *bytes.Buffer, None: nil *)
  SerialNumber : Z;                 (* uint32 *)
  VendorId : Z;                     (* uint16 *)
  AutoConnect : bool;
  RPI : Z;                          (* time.Duration, nanoseconds *)
  Context_ : Z;                     (* uint64 *)
  KeepAliveAutoStart : bool;
}.

Record client_link := {
  connStatus : connectionStatus;
  conn : option net_conn;
  SessionHandle : Z;   (* uint32 *)
  OTNetworkConnectionID : Z;   (* uint32 *)
  HeaderSequenceCounter : Z;   (* uint16 *)
  ConnectionSize : Z;   (* uint16 *)
  ConnectionSerialNumber : Z;   (* uint16 *)
  sequenceNumber : Z;   (* atomic uint32 *)
  keepAliveRunning : bool;
  keepalive_closed : bool;   (* cancel_keepalive was closed *)
  keepalives : nat;   (* goroutines of KeepAlive that Connect has started *)
}.

Definition set_connStatus (x : connectionStatus) (l : client_link) : client_link :=
  {| connStatus := x; conn := conn l; SessionHandle := SessionHandle l;
     OTNetworkConnectionID := OTNetworkConnectionID l; HeaderSequenceCounter :=
     HeaderSequenceCounter l; ConnectionSize := ConnectionSize l; ConnectionSerialNumber :=
     ConnectionSerialNumber l; sequenceNumber := sequenceNumber l; keepAliveRunning :=
     keepAliveRunning l; keepalive_closed := keepalive_closed l; keepalives := keepalives l |}.
Definition set_conn (x : option net_conn) (l : client_link) : client_link :=
  {| connStatus := connStatus l; conn := x; SessionHandle := SessionHandle l;
     OTNetworkConnectionID := OTNetworkConnectionID l; HeaderSequenceCounter :=
     HeaderSequenceCounter l; ConnectionSize := ConnectionSize l; ConnectionSerialNumber :=
     ConnectionSerialNumber l; sequenceNumber := sequenceNumber l; keepAliveRunning :=
     keepAliveRunning l; keepalive_closed := keepalive_closed l; keepalives := keepalives l |}.
Definition set_SessionHandle (x : Z) (l : client_link) : client_link :=
  {| connStatus := connStatus l; conn := conn l; SessionHandle := x; OTNetworkConnectionID
     := OTNetworkConnectionID l; HeaderSequenceCounter := HeaderSequenceCounter l;
     ConnectionSize := ConnectionSize l; ConnectionSerialNumber := ConnectionSerialNumber l;
     sequenceNumber := sequenceNumber l; keepAliveRunning := keepAliveRunning l;
     keepalive_closed := keepalive_closed l; keepalives := keepalives l |}.
Definition set_OTNetworkConnectionID (x : Z) (l : client_link) : client_link :=
  {| connStatus := connStatus l; conn := conn l; SessionHandle := SessionHandle l;
     OTNetworkConnectionID := x; HeaderSequenceCounter := HeaderSequenceCounter l;
     ConnectionSize := ConnectionSize l; ConnectionSerialNumber := ConnectionSerialNumber l;
     sequenceNumber := sequenceNumber l; keepAliveRunning := keepAliveRunning l;
     keepalive_closed := keepalive_closed l; keepalives := keepalives l |}.
Definition set_HeaderSequenceCounter (x : Z) (l : client_link) : client_link :=
  {| connStatus := connStatus l; conn := conn l; SessionHandle := SessionHandle l;
     OTNetworkConnectionID := OTNetworkConnectionID l; HeaderSequenceCounter := x;
     ConnectionSize := ConnectionSize l; ConnectionSerialNumber := ConnectionSerialNumber l;
     sequenceNumber := sequenceNumber l; keepAliveRunning := keepAliveRunning l;
     keepalive_closed := keepalive_closed l; keepalives := keepalives l |}.
Definition set_ConnectionSize (x : Z) (l : client_link) : client_link :=
  {| connStatus := connStatus l; conn := conn l; SessionHandle := SessionHandle l;
     OTNetworkConnectionID := OTNetworkConnectionID l; HeaderSequenceCounter :=
     HeaderSequenceCounter l; ConnectionSize := x; ConnectionSerialNumber :=
     ConnectionSerialNumber l; sequenceNumber := sequenceNumber l; keepAliveRunning :=
     keepAliveRunning l; keepalive_closed := keepalive_closed l; keepalives := keepalives l |}.
Definition set_ConnectionSerialNumber (x : Z) (l : client_link) : client_link :=
  {| connStatus := connStatus l; conn := conn l; SessionHandle := SessionHandle l;
     OTNetworkConnectionID := OTNetworkConnectionID l; HeaderSequenceCounter :=
     HeaderSequenceCounter l; ConnectionSize := ConnectionSize l; ConnectionSerialNumber :=
     x; sequenceNumber := sequenceNumber l; keepAliveRunning := keepAliveRunning l;
     keepalive_closed := keepalive_closed l; keepalives := keepalives l |}.
Definition set_sequenceNumber (x : Z) (l : client_link) : client_link :=
  {| connStatus := connStatus l; conn := conn l; SessionHandle := SessionHandle l;
     OTNetworkConnectionID := OTNetworkConnectionID l; HeaderSequenceCounter :=
     HeaderSequenceCounter l; ConnectionSize := ConnectionSize l; ConnectionSerialNumber :=
     ConnectionSerialNumber l; sequenceNumber := x; keepAliveRunning := keepAliveRunning l;
     keepalive_closed := keepalive_closed l; keepalives := keepalives l |}.
Definition set_keepAliveRunning (x : bool) (l : client_link) : client_link :=
  {| connStatus := connStatus l; conn := conn l; SessionHandle := SessionHandle l;
     OTNetworkConnectionID := OTNetworkConnectionID l; HeaderSequenceCounter :=
     HeaderSequenceCounter l; ConnectionSize := ConnectionSize l; ConnectionSerialNumber :=
     ConnectionSerialNumber l; sequenceNumber := sequenceNumber l; keepAliveRunning := x;
     keepalive_closed := keepalive_closed l; keepalives := keepalives l |}.
Definition set_keepalive_closed (x : bool) (l : client_link) : client_link :=
  {| connStatus := connStatus l; conn := conn l; SessionHandle := SessionHandle l;
     OTNetworkConnectionID := OTNetworkConnectionID l; HeaderSequenceCounter :=
     HeaderSequenceCounter l; ConnectionSize := ConnectionSize l; ConnectionSerialNumber :=
     ConnectionSerialNumber l; sequenceNumber := sequenceNumber l; keepAliveRunning :=
     keepAliveRunning l; keepalive_closed := x; keepalives := keepalives l |}.

Definition set_keepalives (x : nat) (l : client_link) : client_link :=
  {| connStatus := connStatus l; conn := conn l; SessionHandle := SessionHandle l;
     OTNetworkConnectionID := OTNetworkConnectionID l; HeaderSequenceCounter :=
     HeaderSequenceCounter l; ConnectionSize := ConnectionSize l; ConnectionSerialNumber :=
     ConnectionSerialNumber l; sequenceNumber := sequenceNumber l; keepAliveRunning :=
     keepAliveRunning l; keepalive_closed := keepalive_closed l; keepalives := x |}.

Record Client := {
  cfg : client_config;
  lnk : client_link;
  ioi : ioi_client;
}.

(** The client, the dials to come, and the package's counters. *)
Record client_world := {
  cw_client : Client;
  cw_dials : list (option (list exchange));
  cw_sequenceValue : Z;            (* uint32 *)
  cw_connectionSerialValue : Z;    (* uint32 *)
  cw_clock : nat;                  (* readings of time.Now *)
}.

Definition upd_client (f : Client -> Client) (w : client_world) : client_world :=
  {| cw_client := f (cw_client w); cw_dials := cw_dials w; cw_sequenceValue := cw_sequenceValue w;
     cw_connectionSerialValue := cw_connectionSerialValue w; cw_clock := cw_clock w |}.
Definition upd_cfg (f : client_config -> client_config) : client_world -> client_world :=
  upd_client (fun c => {| cfg := f (cfg c); lnk := lnk c; ioi := ioi c |}).
Definition upd_link (f : client_link -> client_link) : client_world -> client_world :=
  upd_client (fun c => {| cfg := cfg c; lnk := f (lnk c); ioi := ioi c |}).
Definition upd_ioi (f : ioi_client -> ioi_client) : client_world -> client_world :=
  upd_client (fun c => {| cfg := cfg c; lnk := lnk c; ioi := f (ioi c) |}).

Definition link (w : client_world) : client_link := lnk (cw_client w).
Definition config (w : client_world) : client_config := cfg (cw_client w).

Section Client.
Variable UnixMilli : nat -> Z.
Abbreviation C := (M client_world).

Definition set_link (f : client_link -> client_link) : C unit := modify (upd_link f).

(** ** Counters *)

(** sequencer() *)
Definition sequencer : C Z := fun w =>
  let s := u32 (cw_sequenceValue w + 1) in
  (Ok s, {| cw_client := cw_client w; cw_dials := cw_dials w; cw_sequenceValue := s;
            cw_connectionSerialValue := cw_connectionSerialValue w; cw_clock := cw_clock w |}).

(** client.sequenceNumber.Add(n) *)
Definition sequenceNumber_Add (n : Z) : C Z := fun w =>
  let s := u32 (sequenceNumber (link w) + n) in (Ok s, upd_link (set_sequenceNumber s) w).

(** The loop of nextConnectionSerialNumber: the counter moves until its low
    16 bits are not zero. *)
Fixpoint next_serial (fuel : nat) (v : Z) : res (Z * Z) :=
  match fuel with
  | O => Panic "out of fuel"
  | S fuel =>
      let v := u32 (v + 1) in
      let serial := u16 v in
      if negb (serial =? 0) then Ok (serial, v) else next_serial fuel v
  end.

Definition nextConnectionSerialNumber : C Z := fun w =>
  match next_serial 2 (cw_connectionSerialValue w) with
  | Ok (serial, v) =>
      (Ok serial, {| cw_client := cw_client w; cw_dials := cw_dials w;
                     cw_sequenceValue := cw_sequenceValue w; cw_connectionSerialValue := v;
                     cw_clock := cw_clock w |})
  | Err e => (Err e, w)
  | Panic why => (Panic why, w)
  end.

Definition now_millis : C Z := fun w =>
  (Ok (UnixMilli (cw_clock w)),
   {| cw_client := cw_client w; cw_dials := cw_dials w; cw_sequenceValue := cw_sequenceValue w;
      cw_connectionSerialValue := cw_connectionSerialValue w; cw_clock := S (cw_clock w) |}).

(** ** The socket *)

Definition with_conn {A} (f : net_conn -> res A * net_conn) : C A := fun w =>
  match conn (link w) with
  | None => (Panic "nil pointer dereference", w)
  | Some c => let '(r, c') := f c in (r, upd_link (set_conn (Some c')) w)
  end.

Definition closed_socket : error := Errorf "use of closed network connection".

(** net.Conn.Write of a whole packet, and what the peer answers to it *)
Definition net_Write (b : bytes) (c : net_conn) : res unit * net_conn :=
  if negb (nc_open c) then (Err closed_socket, c)
  else
    match nc_script c with
    | Reply r :: s =>
        (Ok tt, {| nc_open := true; nc_script := s; nc_rx := nc_rx c ++ r; nc_sent := nc_sent c ++ [b] |})
    | WriteErr e :: s =>
        (Err e, {| nc_open := true; nc_script := s; nc_rx := nc_rx c; nc_sent := nc_sent c |})
    | [] => (Err (Errorf "broken pipe"), c)
    end.

(** binary.Read from the socket *)
Definition net_Read {A} (m : M bytes A) (c : net_conn) : res A * net_conn :=
  if negb (nc_open c) then (Err closed_socket, c)
  else
    let '(r, rx) := m (nc_rx c) in
    (r, {| nc_open := true; nc_script := nc_script c; nc_rx := rx; nc_sent := nc_sent c |}).

(** client.conn.Close() when there is a connection; its error is logged. *)
Definition close_conn : C unit :=
  set_link (fun l => set_conn
    (option_map (fun c => {| nc_open := false; nc_script := nc_script c; nc_rx := nc_rx c;
                             nc_sent := nc_sent c |}) (conn l)) l).

(** client.conn.Close() without asking whether there is one *)
Definition DebugCloseConn : C unit :=
  c ← gets (fun w => conn (link w));
  match c with
  | None => panic "nil pointer dereference"
  | Some _ => close_conn
  end.

(** ** sendreceive.go *)

Definition client_newEIPHeader (cmd size : Z) : C eipHeader :=
  _ ← set_link (fun l => set_HeaderSequenceCounter (u16 (HeaderSequenceCounter l + 1)) l);
  gets (fun w => {| hdr_Command := cmd; hdr_Length := u16 size; hdr_SessionHandle := SessionHandle (link w);
                    hdr_Status := 0; hdr_Context := Context_ (config w); hdr_Options := 0 |}).

Definition sendMsgBuild (cmd : Z) (msgs : list bytes) : C bytes :=
  hdr ← client_newEIPHeader cmd (blen (concat msgs));
  mret (eipHeader_bytes hdr ++ concat msgs).

Definition sendData (b : bytes) : C unit := wrapM "problem writing to socket" (with_conn (net_Write b)).

Definition recvData : C (eipHeader * bytes) :=
  hdr ← wrapM "problem reading header from socket" (with_conn (net_Read read_eipHeader));
  if 0 <? hdr_Length hdr then
    data ← wrapM "problem reading socket payload"
      (with_conn (net_Read (read_slice (Z.to_nat (hdr_Length hdr)))));
    mret (hdr, data)
  else mret (hdr, []).

(** ** Responses *)

Record router_response := { rr_Service : Z; rr_Status : Z; rr_StatusLen : Z }.

Definition read_router_response {R} `{Reader R} : M R router_response :=
  read_struct 4 (s ← read_u8; _ ← read_u8; st ← read_u8; len ← read_u8;
    mret {| rr_Service := s; rr_Status := st; rr_StatusLen := len |}).

(** msgPreItemData and msgCSDHeader: a uint32 and a uint16 *)
Definition read_preitem {R} `{Reader R} : M R (Z * Z) :=
  read_struct 6 (h ← read_u32; t ← read_u16; mret (h, t)).

(** The items of a response, item 1 behind the router's header. *)
Definition parseResponse (header : eipHeader) (data : bytes) : res (list CIPItem) :=
  if negb (hdr_Status header =? 0) then Err (Errorf "forward open failed")
  else
    fst ((
      _ ← wrapM "problem reading items header from forward open request" read_preitem;
      items ← wrapM "problem reading items from forward open request" readItems;
      match items with
      | i0 :: i1 :: rest =>
          '(hdr, i1) ← on i1 (wrapM "error deserializing forward open response header" read_router_response);
          '(_, i1) ← on i1 (if negb (rr_StatusLen hdr =? 0) then
             _ ← wrapM "error deserializing forward open response header extended status"
               (read_slice (Z.to_nat (2 * rr_StatusLen hdr))); mret tt
           else mret tt);
          if negb (rr_Status hdr =? CIPStatus_OK) then fail (Errorf "bad status on response")
          else mret (i0 :: i1 :: rest)
      | _ => fail (Errorf "not enough items in forward open response")
      end) data).

(** ** Disconnect *)

Definition startDisconnect : C unit :=
  l ← gets link;
  match connStatus l with
  | connectionStatusDisconnected => fail (Errorf "client is already disconnected")
  | connectionStatusDisconnecting => fail (Errorf "client is already disconnecting")
  | connectionStatusConnecting | connectionStatusConnected =>
      set_link (set_connStatus connectionStatusDisconnecting)
  end.

(** Serialize(client.Controller.Path, CipObject_MessageRouter, CIPInstance(1)) *)
Definition connection_path : C bytes := fun w =>
  match Controller_Path (config w) with
  | Some p => (Ok (p ++ Class_.Bytes CipObject_MessageRouter ++ Instance_.Bytes 1), w)
  | None => (Panic "nil pointer dereference", w)
  end.

(** msgCipUnRegister: the forward close with one reserved byte at its end *)
Definition unregister_bytes (m : msgEIPForwardClose) : bytes := msgEIPForwardClose_bytes m ++ [0].

Definition disconnect_item : C CIPItem :=
  path ← connection_path;
  w ← get;
  mret (Write path (Write (unregister_bytes {|
    fc_Service := CIPService_ForwardClose; fc_PathSize := 2; fc_ClassType := Class_.cipClass_8bit;
    fc_Class := CipObject_ConnectionManager; fc_InstanceType := Instance_.cipInstance_8bit;
    fc_Instance := 1; fc_Priority := 0x0A; fc_TimeoutTicks := 0x0E;
    fc_ConnectionSerialNumber := ConnectionSerialNumber (link w); fc_VendorID := VendorId (config w);
    fc_OriginatorSerialNumber := SerialNumber (config w); fc_ConnPathSize := u8 (blen path / 2) |})
    (empty_item cipItem_UnconnectedData))).

(** A deferred assignment of the status, whatever the body does. *)
Definition finally_status {A} (st : res A -> connectionStatus) (m : C A) : C A := fun w =>
  let '(r, w') := m w in (r, upd_link (set_connStatus (st r)) w').

(** close(client.cancel_keepalive) when the keep-alive goroutine runs *)
Definition cancel_keepalive : C unit :=
  l ← gets link;
  if keepAliveRunning l then
    if keepalive_closed l then panic "close of closed channel" else set_link (set_keepalive_closed true)
  else mret tt.

(** The forward close and its answer; what goes wrong with them is logged. *)
Definition goodbye (send_recv : Z -> list bytes -> C (eipHeader * bytes)) (item1 : CIPItem) : C unit :=
  '(header, data) ← send_recv cipCommandSendRRData [serializeItems [empty_item cipItem_Null; item1]];
  _ ← lift (parseResponse header data);
  mret tt.

(** Disconnect, given the send_recv_data of its forward close. *)
Definition Disconnect_with (send_recv : Z -> list bytes -> C (eipHeader * bytes)) : C unit :=
  status ← gets (fun w => connStatus (link w));
  _ ← startDisconnect;
  finally_status (fun _ => connectionStatusDisconnected) (
    _ ← cancel_keepalive;
    if decide (status = connectionStatusConnecting) then close_conn
    else item1 ← disconnect_item; _ ← try (goodbye send_recv item1); close_conn).

(** send_recv_data and Disconnect call each other; the status admits two
    levels at most. *)
Fixpoint send_recv_fuel (fuel : nat) (cmd : Z) (msgs : list bytes) : C (eipHeader * bytes) :=
  match fuel with
  | O => panic "out of fuel"
  | S fuel =>
      buffer ← sendMsgBuild cmd msgs;
      sent ← try (sendData buffer);
      let forced {A} (what1 what2 : string) (e : error) : C A :=
        d ← try (Disconnect_with (send_recv_fuel fuel));
        match d with
        | inl _ => fail (Wrap what1 e)
        | inr _ => fail (Wrap what2 e)
        end in
      match sent with
      | inl e =>
          forced "error disconnecting after send error" "error sending data resulting in forced disconnect" e
      | inr _ =>
          r ← try recvData;
          match r with
          | inl e =>
              forced "error disconnecting after recvError" "error receiving data resulting in forced disconnect" e
          | inr d => mret d
          end
      end
  end.

Definition send_recv_data : Z -> list bytes -> C (eipHeader * bytes) := send_recv_fuel 2.
Definition Disconnect : C unit := Disconnect_with send_recv_data.

(** ** Connect *)

Definition ErrAutoReconnectInProgress : error := Errorf "AutoConnect retry already in progress".

Definition startConnect : C unit :=
  l ← gets link;
  match connStatus l with
  | connectionStatusConnected => fail (Errorf "already connected")
  | connectionStatusConnecting => fail (Wrap "connection is already in progress" ErrAutoReconnectInProgress)
  | connectionStatusDisconnecting => fail (Wrap "connection is currently disconnecting" ErrAutoReconnectInProgress)
  | connectionStatusDisconnected => set_link (set_connStatus connectionStatusConnecting)
  end.

Definition connSizeLargeDefault := 4000.
Definition connSizeStandardDefault := 511.
Definition connSizeStandardMax := 511.
Definition rpiDefault := 2500 * 1000000.

Definition set_path (p : bytes) (c : client_config) : client_config :=
  {| Controller_Path := Some p; SerialNumber := SerialNumber c; VendorId := VendorId c;
     AutoConnect := AutoConnect c; RPI := RPI c; Context_ := Context_ c;
     KeepAliveAutoStart := KeepAliveAutoStart c |}.
Definition set_RPI (z : Z) (c : client_config) : client_config :=
  {| Controller_Path := Controller_Path c; SerialNumber := SerialNumber c; VendorId := VendorId c;
     AutoConnect := AutoConnect c; RPI := z; Context_ := Context_ c;
     KeepAliveAutoStart := KeepAliveAutoStart c |}.

Definition set_KeepAliveAutoStart (b : bool) (c : client_config) : client_config :=
  {| Controller_Path := Controller_Path c; SerialNumber := SerialNumber c; VendorId := VendorId c;
     AutoConnect := AutoConnect c; RPI := RPI c; Context_ := Context_ c; KeepAliveAutoStart := b |}.

(** net.DialTimeout; a failed dial leaves a nil connection. *)
Definition dial : C unit := fun w =>
  match cw_dials w with
  | Some s :: ds =>
      (Ok tt, upd_link (set_conn (Some {| nc_open := true; nc_script := s; nc_rx := []; nc_sent := [] |}))
        {| cw_client := cw_client w; cw_dials := ds; cw_sequenceValue := cw_sequenceValue w;
           cw_connectionSerialValue := cw_connectionSerialValue w; cw_clock := cw_clock w |})
  | None :: ds =>
      (Err (Errorf "dial"), upd_link (set_conn None)
        {| cw_client := cw_client w; cw_dials := ds; cw_sequenceValue := cw_sequenceValue w;
           cw_connectionSerialValue := cw_connectionSerialValue w; cw_clock := cw_clock w |})
  | [] => (Err (Errorf "dial"), upd_link (set_conn None) w)
  end.

Definition client_registerSession : C unit :=
  '(header, _) ← wrapM "cannot get connect response"
    (send_recv_data cipCommandRegisterSession
      [msgCIPRegister_bytes {| reg_ProtocolVersion := 1; reg_OptionFlag := 0 |}]);
  set_link (set_SessionHandle (hdr_SessionHandle header)).

(** The network connection parameters: point to point, low priority, variable size. *)
Definition params_large (size : Z) : Z := Z.lor (Z.lor (Z.shiftl 2 29) (Z.shiftl 1 25)) size.
Definition params_standard (size : Z) : Z := Z.lor (Z.lor (Z.shiftl 2 13) (Z.shiftl 1 9)) size.

(** The message newForwardOpenLarge and newForwardOpenStandard build, and its item. *)
Definition newForwardOpen (service priority ticks mult : Z) (params : Z -> Z) (width : nat) : C CIPItem :=
  path ← connection_path;
  serial ← nextConnectionSerialNumber;
  _ ← set_link (set_ConnectionSerialNumber serial);
  ot ← sequenceNumber_Add 1;
  to ← sequenceNumber_Add 1;
  w ← get;
  let rpi := u32 (Z.quot (RPI (config w)) 1000) in
  let size := ConnectionSize (link w) in
  mret (Write path (Write (forwardOpen_bytes width {|
    fo_Service := service; fo_PathSize := 2; fo_ClassType := Class_.cipClass_8bit;
    fo_Class := CipObject_ConnectionManager; fo_InstanceType := Instance_.cipInstance_8bit;
    fo_Instance := 1; fo_Priority := priority; fo_TimeoutTicks := ticks; fo_OTConnectionID := ot;
    fo_TOConnectionID := to; fo_ConnectionSerialNumber := serial; fo_VendorID := VendorId (config w);
    fo_OriginatorSerialNumber := SerialNumber (config w); fo_Multiplier := mult; fo_OTRPI := rpi;
    fo_OTNetworkConnParams := params size; fo_TORPI := rpi; fo_TONetworkConnParams := params size;
    fo_TransportTrigger := 0xA3; fo_ConnPathSize := u8 (blen path / 2) |})
    (empty_item cipItem_UnconnectedData))).

Definition default_size (d : Z) : C unit :=
  set_link (fun l => if ConnectionSize l =? 0 then set_ConnectionSize d l else l).

Definition newForwardOpenLarge : C CIPItem :=
  _ ← default_size connSizeLargeDefault;
  newForwardOpen CIPService_LargeForwardOpen 0x0A 0x0E 3 params_large 4.

Definition newForwardOpenStandard : C CIPItem :=
  _ ← default_size connSizeStandardDefault;
  _ ← set_link (fun l =>
        if connSizeStandardMax <? ConnectionSize l then set_ConnectionSize connSizeStandardMax l else l);
  newForwardOpen CIPService_ForwardOpen 0x07 0xE9 0 params_standard 2.

(** msgCipForwardOpenReply: its first field, the rest of its 26 bytes unused *)
Definition read_open_reply {R} `{Reader R} : M R Z := read_struct 26 read_u32.

Definition client_forwardOpen (forwardOpenMsg : CIPItem) : C unit :=
  '(header, data) ← send_recv_data cipCommandSendRRData
    [serializeItems [empty_item cipItem_Null; forwardOpenMsg]];
  items ← lift (parseResponse header data);
  match items with
  | _ :: i1 :: _ =>
      '(ot, _) ← on i1 (wrapM "error deserializing forward open response content" read_open_reply);
      set_link (set_OTNetworkConnectionID ot)
  | _ => panic "index out of range [1]"
  end.

Definition connect_defaults : C unit :=
  _ ← default_size connSizeLargeDefault;
  _ ← modify (upd_cfg (fun c => if RPI c =? 0 then set_RPI rpiDefault c else c));
  t ← now_millis;
  _ ← sequenceNumber_Add (u32 t);
  modify (upd_cfg (fun c =>
    match Controller_Path c with
    | None => set_path (Port_.Bytes {| Port_.PortNo := 1; Port_.ExtensionLen := 0 |} ++ Address.Bytes 0) c
    | Some _ => c
    end)).

Definition open_large : C unit :=
  item ← newForwardOpenLarge;
  r ← try (client_forwardOpen item);
  match r with
  | inl _ => set_link (set_ConnectionSize connSizeStandardDefault)   (* fall back *)
  | inr _ => mret tt
  end.

Definition open_standard : C unit := item ← newForwardOpenStandard; client_forwardOpen item.

Definition connect_body : C unit :=
  _ ← connect_defaults;
  _ ← wrapM "cannot connect to controller" dial;
  _ ← client_registerSession;
  l ← gets link;
  _ ← (if connSizeStandardMax <? ConnectionSize l then open_large else mret tt);
  l ← gets link;
  if ConnectionSize l <=? connSizeStandardMax then open_standard else mret tt.

(** go client.KeepAlive(), when the client is set up so *)
Definition go_KeepAlive : C unit :=
  w ← get;
  if KeepAliveAutoStart (config w) then set_link (fun l => set_keepalives (S (keepalives l)) l) else mret tt.

Definition Connect : C unit :=
  _ ← startConnect;
  finally_status (fun r => if is_Ok r then connectionStatusConnected else connectionStatusDisconnected)
    (_ ← connect_body; go_KeepAlive).

Definition Connected : C bool := gets (fun w => bool_decide (connStatus (link w) = connectionStatusConnected)).

(** errors.Is(err, ErrAutoReconnectInProgress) *)
Fixpoint is_reconnect (e : error) : bool :=
  bool_decide (e = ErrAutoReconnectInProgress) ||
  match e with Wrap _ e => is_reconnect e | _ => false end.

Definition checkConnection : C unit :=
  up ← Connected;
  if (up : bool) then mret tt
  else
    w ← get;
    if AutoConnect (config w) then
      r ← try Connect;
      match r with
      | inr _ => mret tt
      | inl e =>
          if is_reconnect e then fail (Wrap "not connected and" ErrAutoReconnectInProgress)
          else fail (Wrap "not connected and connect attempt failed" e)
      end
    else fail (Errorf "not connected and AutoConnect not enabled").
End Client.
