(* ===== verification/ClientTags.v ===== *)
(** * Client requests: attributes, single reads and writes (getattr.go, read.go, write.go)

    What the client puts in a connected request, and what it makes of the
    reply. *)
From S2P Require Import Prelude Reader GoStrings GoValue CipNames CipDefs Types Items Ioi Path Messages Client.
(** ** Requests and replies over a connection *)

(** msgCIPConnectedServiceReq and msgCIPIOIHeader: sequence, service, path length *)
Definition service_req_bytes (seq service pathlen : Z) : bytes := le_bytes 2 seq ++ [service; pathlen].

(** items[1] *)
Definition second_item (items : list CIPItem) : res CIPItem :=
  match items with
  | _ :: i1 :: _ => Ok i1
  | _ => Panic "index out of range [1]"
  end.

(** binary.Read of the interface handle and timeout whose error is logged only *)
Definition after_CSD (data : bytes) : bytes := snd (read_preitem data).

Section Tags.
Variable UnixMilli : nat -> Z.
Abbreviation C := (M client_world).

(** send_recv_data of the connection address item and item 1 *)
Definition unit_request (item1 : CIPItem) : C (eipHeader * bytes) :=
  w ← get;
  send_recv_data cipCommandSendUnitData
    [serializeItems [newItem cipItem_ConnectionAddress (Some (SBytes (le_bytes 4 (OTNetworkConnectionID (link w)))));
                     item1]].

(** ** getattr.go *)

Definition read_attribute_hdr {R} `{Reader R} : M R Z :=
  read_struct 6 (_ ← read_u16; _ ← read_u8; _ ← read_u8; read_u16).

Definition GetAttrSingle (class instance attr : Z) : C CIPItem :=
  _ ← wrapM "could not start single read" (checkConnection UnixMilli);
  seq ← sequencer;
  let pl := (Class_.Len class + Instance_.Len instance + Attribute.Len attr) / 2 in
  '(_, data) ← unit_request
    (Write (Class_.Bytes class ++ Instance_.Bytes instance ++ Attribute.Bytes attr)
      (newItem cipItem_ConnectedData
        (Some (SBytes (service_req_bytes (u16 seq) CIPService_GetAttributeSingle (u8 pl))))));
  '(items, _) ← on (after_CSD data) readItems;
  i1 ← lift (second_item items);
  '(_, i1) ← on i1 (wrapM "couldn't read response header" read_attribute_hdr);
  mret i1.

Definition GetAttrList (class instance : Z) (attrs : list Z) : C CIPItem :=
  let path := Class_.Bytes class ++ Instance_.Bytes instance in
  seq ← sequenceNumber_Add 1;
  '(_, data) ← unit_request
    (Write (path ++ le_bytes 2 (blen attrs) ++ concat (map (le_bytes 2) attrs))
      (newItem cipItem_ConnectedData
        (Some (SBytes (service_req_bytes (u16 seq) CIPService_GetAttributeList (u8 (blen path / 2)))))));
  '(_, data) ← on data read_preitem;
  '(items, _) ← on data readItems;
  i1 ← lift (second_item items);
  '(status, i1) ← on i1 (wrapM "couldn't read response header" read_attribute_hdr);
  if negb (status =? CIPStatus_OK) then fail (Errorf "response header has bad status")
  else '(_, i1) ← on i1 Int16; mret i1.

Definition GenericCIPMessage (service : Z) (path msg_data : bytes) : C CIPItem :=
  seq ← sequencer;
  '(_, data) ← unit_request
    (Write (path ++ msg_data)
      (newItem cipItem_ConnectedData (Some (SBytes (service_req_bytes (u16 seq) service (u8 (blen path / 2)))))));
  '(_, data) ← on data (wrapM "problpm reading read result header" read_preitem);
  '(items, _) ← on data (wrapM "problem reading items" readItems);
  i1 ← lift (second_item items);
  '(_, i1) ← on i1 (wrapM "problem reading sequence counter" Int16);
  '(s_response, i1) ← on i1 (wrapM "problem reading service response" Int16);
  if negb (Service.UnResponse (u8 s_response) =? service) then fail (Errorf "expected service response")
  else
    '(status, i1) ← on i1 (wrapM "problem getting resposne status" Int16);
    if negb (status =? 0) then fail (Errorf "CIP status error") else mret i1.

(** firmware(): asked once, kept when it is not 0 *)
Definition set_firmware (z : Z) (c : ioi_client) : ioi_client :=
  {| ioi_cache := ioi_cache c; KnownTags := KnownTags c; firmware := z; catalog := catalog c |}.

Definition client_firmware : C Z :=
  w ← get;
  if negb (firmware (ioi (cw_client w)) =? 0) then mret (firmware (ioi (cw_client w)))
  else
    i ← try (GetAttrSingle CipObject_Identity 1 4);
    match i with
    | inl _ => mret 0
    | inr i =>
        match item_Byte i with
        | (Ok major, _) => _ ← modify (upd_ioi (set_firmware major)); mret major
        | (Err _, _) => mret 0
        | (Panic why, _) => panic why
        end
    end.

Definition client_newIOI (tagpath : bytes) (datatype : Z) : C tagIOI :=
  _ ← client_firmware;
  zoom (fun w => ioi (cw_client w)) (fun i => upd_ioi (fun _ => i)) (newIOI tagpath datatype).

(** ** read.go: the service of a read *)

Record tagDesc := {
  td_TagName : bytes;
  td_TagType : Z;
  td_Elements : Z;    (* int *)
  td_Struct : goval;  (* nil, or the struct to unpack into *)
}.

Definition multi_reply_overhead (replyCount : Z) : Z :=
  6 + 2 + (4 + 4) + 4 + 8 + 2 * Z.max 0 replyCount.

(** The response of a tag that is not a struct: reply header, type header, elements. *)
Definition atomic_response_size (tag : tagDesc) : Z :=
  4 + 2 + Size (td_TagType tag) * Z.max 1 (td_Elements tag).

Definition readServiceForTag (tag : tagDesc) (connectionSize : Z) : Z :=
  if (td_TagType tag =? CIPTypeStruct) || (1 <? td_Elements tag) then CIPService_FragRead
  else
    let connSize := if 0 <? connectionSize then connectionSize else connSizeLargeDefault in
    if connSize <=? multi_reply_overhead 1 + atomic_response_size tag then CIPService_FragRead
    else CIPService_Read.

(** ** read.go: Read_single *)

Definition read_result_header {R} `{Reader R} : M R (Z * Z * Z * Z * Z) :=
  read_struct 8 (seq ← read_u16; svc ← read_u8; _ ← read_u8; status ← read_u8; ext ← read_u8;
    ty ← read_u8; infolen ← read_u8; mret (seq, svc, status, ty, infolen)).

Definition byte_slice (b : bytes) : goval := VSlice (TInt U8) (map (VInt U8) b).

Section Decode.
Context {R : Type} `{Reader R}.

(** A STRING element: its length, then that many bytes. *)
Definition read_short_string : M R bytes :=
  len ← wrapM "couldn't unpack struct header" (read_struct 4 read_u32);
  wrapM "couldn't unpack struct data" (read_slice (Z.to_nat len)).

(** A STRING element of an array: its length, then 82 bytes. *)
Definition read_slot_string : M R bytes :=
  len ← wrapM "couldn't unpack struct header" (read_struct 4 read_u32);
  s ← wrapM "couldn't unpack struct data" (read_slice 82);
  if 82 <? len then panic out_of_range else mret (take (Z.to_nat len) s).

Fixpoint read_times {A} (n : nat) (m : M R A) : M R (list A) :=
  match n with
  | O => mret []
  | S n => v ← m; l ← read_times n m; mret (v :: l)
  end.

Definition decodeSingleReadPayload (datatype elements : Z) (ioi : tagIOI) (respType : Z) : M R goval :=
  if respType =? CIPTypeStruct then
    if datatype =? CIPTypeSTRING then
      if elements =? 1 then s ← read_short_string; mret (byte_slice s)
      else l ← read_times (Z.to_nat elements) read_slot_string; mret (VSlice TAny (map byte_slice l))
    else fun r => (Ok (byte_slice (rd_data r)), r)
  else if elements =? 1 then
    if (datatype =? CIPTypeBOOL) && negb (respType =? CIPTypeBOOL) && ioi_BitAccess ioi then
      value ← wrapM "problem reading bool tag" (readValue respType);
      b ← lift (getBit respType value (ioi_BitPosition ioi));
      mret (VBool b)
    else wrapM "problem reading tag" (readValue respType)
  else
    l ← read_times (Z.to_nat elements) (wrapM "problem reading element" (readValue respType));
    mret (VSlice TAny l).
End Decode.

(** What one reply adds: its status, the type it names and its payload. *)
Definition parse_read_reply (hdr : eipHeader) (data : bytes) (respType : Z) : res (Z * Z * bytes) :=
  if negb (hdr_Status hdr =? 0) then Err (Errorf "problem reading tags")
  else
    items ← fst (readItems (after_CSD data));
    match items with
    | [_; i1] =>
        fst ((
          '(_, _, status, ty, infolen) ← wrapM "problem reading item 2's header" read_result_header;
          if negb (status =? CIPStatus_OK) && negb (status =? CIPStatus_PartialTransfer) then
            fail (Errorf "service returned status")
          else
            let respType := if negb (ty =? CIPTypeUnknown) || (respType =? CIPTypeUnknown) then ty else respType in
            _ ← (if negb (infolen =? 0) then
                   wrapM "problem reading additional type info header" (read_struct 2 read_u16)
                 else mret 0);
            i ← get;
            chunk ← lift (Rest i);
            mret (status, respType, chunk)) i1)
    | _ => Err (Errorf "wrong Number of Items")
    end.

Definition read_item (ioi : tagIOI) (seq service elements offset : Z) : CIPItem :=
  Write (ioi_Buffer ioi ++
         if service =? CIPService_FragRead then le_bytes 2 elements ++ le_bytes 4 offset
         else le_bytes 2 elements)
    (newItem cipItem_ConnectedData
      (Some (SBytes (service_req_bytes seq service (u8 (blen (ioi_Buffer ioi) / 2)))))).

(** The rounds left; after 1025 the read is given up. *)
Fixpoint read_rounds (rounds : nat) (datatype elements : Z) (ioi : tagIOI)
    (service offset : Z) (payload : bytes) (respType : Z) : C goval :=
  match rounds with
  | O => fail (Errorf "single read exceeded max continuation rounds")
  | S rounds =>
      seq ← sequencer;
      '(hdr, data) ← unit_request (read_item ioi (u16 seq) service elements offset);
      '(status, respType, chunk) ← lift (parse_read_reply hdr data respType);
      let payload := payload ++ chunk in
      let offset := u32 (offset + blen chunk) in
      if negb (status =? CIPStatus_PartialTransfer) then
        lift (fst (decodeSingleReadPayload datatype elements ioi respType payload))
      else read_rounds rounds datatype elements ioi CIPService_FragRead offset payload respType
  end.

Definition max_rounds : nat := 1025.

Definition Read_single (tag : bytes) (datatype elements : Z) : C goval :=
  _ ← wrapM "could not start single read" (checkConnection UnixMilli);
  i ← client_newIOI tag datatype;
  w ← get;
  let service := readServiceForTag
    {| td_TagName := tag; td_TagType := datatype; td_Elements := elements; td_Struct := VNil |}
    (ConnectionSize (link w)) in
  read_rounds max_rounds datatype elements i service 0 [] datatype.

(** ** read.go: typed reads

    The type parameter T ranges over the scalar types and string
    (GoLogixTypes); a target is a pointer to one, or a slice of them. *)

Definition zero_value (t : gotype) : goval :=
  match t with
  | TBool => VBool false
  | TInt k => VInt k 0
  | TFloat32 => VFloat32 0
  | TFloat64 => VFloat64 0
  | TString => VString []
  | _ => VNil
  end.

(** val.([]byte), as a string *)
Definition as_string (v : goval) : option goval :=
  match v with
  | VSlice (TInt U8) l => Some (VString (map (fun v => match v with VInt _ z => z | _ => 0 end) l))
  | _ => None
  end.

(** val.(T) *)
Definition cast_to (t : gotype) (v : goval) : option goval :=
  if decide (type_of v = Some t) then Some v else None.

Definition read_cast (t : gotype) (v : goval) : option goval :=
  if fst (GoVarToCIPType (zero_value t)) =? CIPTypeSTRING then as_string v else cast_to t v.

(** read[T] *)
Definition read_typed (t : gotype) (tag : bytes) : C goval :=
  val ← Read_single tag (fst (GoVarToCIPType (zero_value t))) 1;
  match read_cast t val with
  | Some v => mret v
  | None => fail (Errorf "couldn't convert to correct type")
  end.

(** readArray[T]; an empty array has no t[0], and one element is not a []any. *)
Definition readArray (t : gotype) (tag : bytes) (elements : Z) : C (list goval) :=
  if elements =? 0 then panic "index out of range [0] with length 0"
  else
    val ← Read_single tag (fst (GoVarToCIPType (zero_value t))) elements;
    match val with
    | VSlice TAny l =>
        match mapM (read_cast t) l with
        | Some l => mret l
        | None => fail (Errorf "couldn't convert to correct type")
        end
    | _ => fail (Errorf "couldn't cast array")
    end.

Inductive read_target :=
  | TgtScalar (t : gotype)              (* a *T *)
  | TgtSlice (t : gotype) (n : nat)     (* a []T of n elements *)
  | TgtAny.                             (* a *any *)

(** The 32 bits of a DWORD *)
Definition word_bits (v : goval) : list goval :=
  match v with
  | VInt _ z => map (fun i => VBool (Z.testbit z (Z.of_nat i))) (seq 0 32)
  | _ => []
  end.

(** case []bool: a whole number of DWORDs *)
Definition read_bools (tag : bytes) (n : nat) : C goval :=
  let count := (n / 32)%nat in
  if negb (count * 32 =? n)%nat then fail (Errorf "slice length must be a multiple of 32 for []bool")
  else if (count =? 1)%nat then
    v ← read_typed (TInt U32) tag; mret (VSlice TBool (word_bits v))
  else
    v ← readArray (TInt U32) tag (u16 (Z.of_nat count));
    if negb (length v =? count)%nat then fail (Errorf "got wrong number of elements")
    else mret (VSlice TBool (concat (map word_bits v))).

(** Read: what the target holds afterwards. *)
Definition Read_ (tag : bytes) (target : read_target) : C goval :=
  _ ← wrapM "could not start read" (checkConnection UnixMilli);
  match target with
  | TgtScalar t => read_typed t tag
  | TgtSlice TBool n => read_bools tag n
  | TgtSlice t n =>
      v ← readArray t tag (u16 (Z.of_nat n));
      if negb (length v =? n)%nat then fail (Errorf "got wrong number of elements")
      else mret (VSlice t v)
  | TgtAny => Read_single tag CIPTypeStruct 1
  end.

(** ** write.go: write_single *)

Definition msgCIPWriteIOIFooter_Bytes (datatype elements : Z) : bytes :=
  if datatype =? CIPTypeSTRING then [0xA0; 0x02; 0xCE; 0x0F] ++ le_bytes 2 elements
  else le_bytes 2 datatype ++ le_bytes 2 elements.

Definition msgCIPWriteIOIFooter_Len (datatype : Z) : Z := if datatype =? CIPTypeSTRING then 6 else 4.

Definition write_elements (value : goval) : Z :=
  match value with VSlice _ l => u16 (Z.of_nat (length l)) | _ => 1 end.

(** The answer to a write: the router's status, and with it an error. *)
Definition parse_write_reply (hdr : eipHeader) (data : bytes) : res unit :=
  if negb (hdr_Status hdr =? 0) then Err (Errorf "got non-success status when writing")
  else
    items ← res_wrap "problem reading items from write" (fst (readItems (after_CSD data)));
    i1 ← second_item items;
    status ← res_wrap "problem deserializing write response header"
      (fst (read_struct 6 (_ ← read_u16; _ ← read_u8; _ ← read_u8; status ← read_u8; _ ← read_u8;
                           mret status) i1));
    if negb (status =? CIPStatus_OK) then Err (Errorf "got status instead of 0 in write response")
    else Ok tt.

Definition write_single (tag : bytes) (value : goval) : C unit :=
  let datatype := fst (GoVarToCIPType value) in
  i ← wrapM "problem generating IOI" (client_newIOI tag datatype);
  seq ← sequencer;
  '(_, item1) ← on (empty_item cipItem_ConnectedData)
    (wrapM "problem serializing value"
      (Serialize [SBytes (service_req_bytes (u16 seq) CIPService_Write (u8 (blen (ioi_Buffer i) / 2)));
                  SBytes (ioi_Buffer i);
                  SBytes (msgCIPWriteIOIFooter_Bytes datatype (write_elements value));
                  sarg_of value]));
  '(hdr, data) ← unit_request item1;
  lift (parse_write_reply hdr data).
End Tags.
