(* ===== verification/Discovery.v ===== *)
(** * Discovery of programs, tags and types (listalltags.go, listsubtags.go,
    listmembers.go, listallprograms.go), and the keepalive (connect.go)

    What the client asks the controller for, and how it fills its catalog.
    The order in which a range statement visits a map is a parameter. *)
From S2P Require Import Prelude Reader GoStrings CipNames CipDefs Types Templates Items Pack Ioi Messages Client ClientTags.

(** errors.As(err, &CIPStatusError) *)
Fixpoint is_status_error (e : error) : bool :=
  match e with
  | Errorf msg => String.eqb msg "CIP status error"
  | Wrap _ e => is_status_error e
  | _ => false
  end.

Definition upd_types (f : known_types -> known_types) : client_world -> client_world :=
  upd_ioi (fun c => {| ioi_cache := ioi_cache c; KnownTags := KnownTags c; firmware := firmware c; catalog := f (catalog c) |}).
Definition add_type (u : UDTDescriptor) (k : known_types) : known_types :=
  {| KnownTypes := <[ud_Name u := u]> (KnownTypes k); KnownTypesByID := KnownTypesByID k; KnownPrograms := KnownPrograms k |}.
Definition add_type_by_id (id : Z) (u : UDTDescriptor) (k : known_types) : known_types :=
  {| KnownTypes := KnownTypes k; KnownTypesByID := <[id := u]> (KnownTypesByID k); KnownPrograms := KnownPrograms k |}.
Definition set_programs (m : gmap bytes KnownProgram) (k : known_types) : known_types :=
  {| KnownTypes := KnownTypes k; KnownTypesByID := KnownTypesByID k; KnownPrograms := m |}.
Definition add_program (p : KnownProgram) (k : known_types) : known_types :=
  set_programs (<[to_lower (kp_Name p) := p]> (KnownPrograms k)) k.

Section Discovery.
Context (UnixMilli : nat -> Z).
Abbreviation C := (M client_world).

(** client.KnownTags[strings.ToLower(name)] = kt; the map may be nil. *)
Definition add_tag (kt : KnownTag) : C unit := fun w =>
  match KnownTags (ioi (cw_client w)) with
  | None => (Panic "assignment to entry in nil map", w)
  | Some known =>
      (Ok tt, upd_ioi (fun c =>
        {| ioi_cache := ioi_cache c; KnownTags := Some (<[to_lower (kt_Name kt) := kt]> known);
           firmware := firmware c; catalog := catalog c |}) w)
  end.

(** The request of a service on a path, with the data behind it. *)
Definition object_request (service : Z) (path data : bytes) : C (eipHeader * bytes) :=
  seq ← sequencer;
  unit_request (Write (path ++ data)
    (newItem cipItem_ConnectedData (Some (SBytes (service_req_bytes (u16 seq) service (u8 (blen path / 2))))))).

(** The data of the second item, behind six bytes of padding that may be cut
    short, or fails with the list. *)
Definition padded_items (data : bytes) : res (list CIPItem) :=
  fst ((_ ← wrapM "problem getting padding bytes" (buffer_Read 6);
        wrapM "couldn't parse items" readItems) data).

Definition two_items (items : list CIPItem) : res CIPItem :=
  match items with
  | _ :: i1 :: _ => Ok i1
  | _ => Err (Errorf "wrong number of items")
  end.

(** fmt.Errorf with %v: the error is only text in the new one. *)
Definition textM {S A} (msg : string) (m : M S A) : M S A := fun s =>
  match m s with (Err _, s) => (Err (Errorf msg), s) | r => r end.

(** ** listmembers.go *)

Definition GetTemplateInstanceAttr (str_instance : Z) : C msgGetTemplateAttrListResponse :=
  let str_instance := if str_instance =? 0 then 1 else str_instance in
  '(_, data) ← object_request CIPService_GetAttributeList
    (Class_.Bytes CipObject_Template ++ Instance_.Bytes str_instance)
    (le_bytes 2 4 ++ le_bytes 2 4 ++ le_bytes 2 5 ++ le_bytes 2 2 ++ le_bytes 2 1);
  items ← lift (padded_items data);
  i1 ← lift (two_items items);
  lift (parseTemplateAttrResponse (item_Data i1)).

(** msgMemberInfoHdr: of sequence, service, reserved and status the status *)
Definition read_member_hdr : M bytes Z :=
  read_struct 6 (_ ← read_u16; _ ← read_u8; _ ← read_u8; read_u16).

Definition requestMemberReadChunk (str_instance start_offset read_length : Z) : C (Z * bytes) :=
  '(_, data) ← object_request CIPService_Read
    (Class_.Bytes CipObject_Template ++ Instance_.Bytes str_instance)
    (le_bytes 4 start_offset ++ le_bytes 2 read_length);
  items ← lift (padded_items data);
  i1 ← lift (two_items items);
  '(status, rest) ← on (item_Data i1) (wrapM "couldn't read member info header" read_member_hdr);
  mret (status, rest).

(** A field that is left as it was made. *)
Definition zero_member : member UDTDescriptor :=
  {| um_Name := []; um_Info := {| mi_Info := 0; mi_Type := 0; mi_Offset := 0 |}; um_UDT := None |}.

(** The members' names, and the types of those that are structures; an error
    of the inner call leaves the member without its type. *)
Fixpoint read_members (list_members : Z -> C UDTDescriptor) (infos : list msgMemberInfo) (data2 : bytes)
    : C (list (member UDTDescriptor)) :=
  match infos with
  | [] => mret []
  | info :: infos =>
      let '(fieldname, ok, data2) := ReadString0 data2 in
      if negb ok && bool_decide (fieldname = []) then
        l ← read_members list_members infos data2; mret (zero_member :: l)
      else
        let id := template_word (mi_Type info) in
        udt ← (if negb (id =? 0) then
                 d ← try (list_members id); mret (match d with inr d => Some d | inl _ => None end)
               else mret None);
        l ← read_members list_members infos data2;
        mret ({| um_Name := trim_right0 fieldname; um_Info := info; um_UDT := udt |} :: l)
  end.

(** A type that contains itself is asked for again and again: the fuel is
    the stack. *)
Fixpoint ListMembers (fuel : nat) (str_instance : Z) : C UDTDescriptor :=
  match fuel with
  | O => panic "stack overflow"
  | S fuel =>
      w ← get;
      match KnownTypesByID (catalog (ioi (cw_client w))) !! str_instance with
      | Some d => mret d
      | None =>
          template_info ← wrapM "couldn't get template info" (GetTemplateInstanceAttr str_instance);
          let totalBytes := u32 (tr_SizeWords template_info * 4) in
          if totalBytes <? 20 then fail (Errorf "template size too small for member read")
          else
            payload ← wrapM "couldn't read fragmented member payload"
              (collectMemberReadPayload (requestMemberReadChunk str_instance) (u32 (totalBytes - 20)));
            let n := Z.to_nat (tr_MemberCount template_info) in
            '(memberInfos, data2) ← on payload (wrapM "couldn't read memberinfos"
              (read_struct (8 * n) (read_times n read_member_info)));
            let '(name, ok, data2) := ReadString0 data2 in
            if negb ok then fail (Wrap "couldn't read struct name" EOF)
            else
              members ← read_members (ListMembers fuel) memberInfos data2;
              let descriptor := mkUDT str_instance (struct_name name) template_info members in
              _ ← modify (upd_types (add_type_by_id str_instance descriptor));
              mret descriptor
      end
  end.

(** ** Symbol lists *)

(** msgtagResultDataHeader, the name, TagInfo *)
Record symbol_entry := { se_InstanceID : Z; se_Name : bytes; se_Info : TagInfo }.

Definition read_symbol : M bytes symbol_entry :=
  '(id, len) ← wrapM "problem reading tag header" (read_struct 6 (id ← read_u32; len ← read_u16; mret (id, len)));
  name ← wrapM "problem reading tag name" (read_slice (Z.to_nat len));
  info ← wrapM "problem reading tag footer" (read_struct 14 (
    ty ← read_u8; i ← read_u8; d1 ← read_u32; d2 ← read_u32; d3 ← read_u32;
    mret {| ti_Type := ty; ti_TypeInfo := i; ti_Dimension1 := d1; ti_Dimension2 := d2; ti_Dimension3 := d3 |}));
  mret {| se_InstanceID := id; se_Name := name; se_Info := info |}.

(** msgListInstanceHeader: of service, reserved, sequence count and status
    the status *)
Definition read_list_header : M bytes Z :=
  read_struct 6 (_ ← read_u8; _ ← read_u8; _ ← read_u16; read_u16).

(** Every entry of a reply, and where a continuation starts. *)
Fixpoint symbol_loop (n : nat) (f : symbol_entry -> C (list KnownTag)) (start : Z) (data2 : bytes)
    : C (list KnownTag * Z) :=
  match data2 with
  | [] => mret ([], start)
  | _ =>
      match n with
      | O => panic "out of fuel"
      | S n =>
          '(e, data2) ← on data2 read_symbol;
          kts ← f e;
          '(l, start) ← symbol_loop n f (se_InstanceID e) data2;
          mret (kts ++ l, start)
      end
  end.

(** A byte at least is read in each round. *)
Definition symbol_entries (f : symbol_entry -> C (list KnownTag)) (start : Z) (data2 : bytes) :=
  symbol_loop (length data2) f start data2.

(** The request of a symbol list from an instance on *)
Definition symbol_list_request (prefix : bytes) (start_instance : Z) : C (eipHeader * bytes) :=
  object_request CIPService_GetInstanceAttributeList
    (prefix ++ Class_.Bytes CipObject_Symbol ++ Instance_.Bytes start_instance)
    (le_bytes 2 3 ++ le_bytes 2 1 ++ le_bytes 2 2 ++ le_bytes 2 8).

Definition nextListInstanceStart (lastInstance : Z) : Z := lastInstance.

(** The structure type of a tag, when it has one and it can be read; it is
    kept by its name as well. *)
Definition tag_type (fuel : nat) (info : TagInfo) : C (option UDTDescriptor) :=
  if negb (Template_ID info =? 0) then
    u ← try (ListMembers fuel (Template_ID info));
    match u with
    | inl _ => mret None
    | inr u => _ ← modify (upd_types (add_type u)); mret (Some u)
    end
  else mret None.

(** The entry in the catalog. *)
Definition catalog_tag (fuel : nat) (name : bytes) (parent : option KnownProgram) (e : symbol_entry) : C KnownTag :=
  udt ← tag_type fuel (se_Info e);
  let kt := {| kt_Name := name; kt_Info := se_Info e; kt_Instance := se_InstanceID e;
               kt_Array_Order := array_order (se_Info e); kt_UDT := udt; kt_Parent := parent; kt_DataTableID := 0 |} in
  _ ← add_tag kt;
  mret kt.

(** ** listsubtags.go *)

Definition sub_tag (fuel : nat) (Program : KnownProgram) (e : symbol_entry) : C (list KnownTag) :=
  if negb (isValidTag (se_Name e)) then mret []
  else
    kt ← catalog_tag fuel (str "program:" ++ kp_Name Program ++ [46] ++ se_Name e) (Some Program) e;
    mret [kt].

Fixpoint ListSubTags (fuel : nat) (Program : KnownProgram) (start_instance : Z) : C (list KnownTag) :=
  match fuel with
  | O => panic "stack overflow"
  | S fuel =>
      let start_instance := if start_instance =? 0 then 1 else start_instance in
      '(_, data) ← symbol_list_request (KnownProgram_Bytes Program) start_instance;
      '(_, data) ← on data (textM "problem reading message command specific data header" read_preitem);
      '(items, _) ← on data (wrapM "couldn't parse items" readItems);
      i1 ← lift (second_item items);
      '(status, data2) ← on (item_Data i1) (wrapM "problem reading tag header" read_list_header);
      '(new_kts, start_instance) ← symbol_entries (sub_tag fuel Program) start_instance data2;
      if status =? CIPStatus_PartialTransfer then
        moreTags ← wrapM "problem listing subtags" (ListSubTags fuel Program (nextListInstanceStart start_instance));
        mret (new_kts ++ moreTags)
      else mret new_kts
  end.

(** ** listallprograms.go *)

(** strings.TrimSpace; of the white space of Unicode the ASCII part *)
Definition trim_space (s : bytes) : bytes :=
  let space b := is_space b || (b =? 11) in
  let fix left s := match s with c :: s' => if space c then left s' else s | [] => [] end in
  rev (left (rev (left s))).

(** Until the header of an entry cannot be read. *)
Fixpoint program_loop (n : nat) (results : gmap bytes KnownProgram) : M CIPItem (gmap bytes KnownProgram) :=
  match n with
  | O => panic "out of fuel"
  | S n =>
      hdr ← try (read_struct 8 (id ← read_u16; _ ← read_u16; len ← read_u32; mret (id, len)));
      match hdr with
      | inl _ => mret results
      | inr (id, len) =>
          name ← read_slice (Z.to_nat len);
          let namestr := trim_space name in
          program_loop n (<[namestr := {| kp_Name := namestr; kp_ID := id |}]> results)
      end
  end.

Definition ListAllPrograms : C unit :=
  resp ← wrapM "problem reading programs"
    (GenericCIPMessage CIPService_GetInstanceAttributeList
      (Class_.Bytes CipObject_Programs ++ Instance_.Bytes 0) (le_bytes 2 1 ++ le_bytes 2 28));
  '(results, _) ← on resp (program_loop (S (length (item_unread resp))) ∅);
  modify (upd_types (set_programs results)).

(** ** listalltags.go *)

Context (range : gmap bytes KnownProgram -> list KnownProgram).

(** The programs first, when the list is asked for from its start; true when
    their names have to come from the tag list. *)
Definition list_programs (fuel : nat) : C bool :=
  r ← try ListAllPrograms;
  fallback ← (match r with
              | inr _ => mret false
              | inl e =>
                  if is_status_error e then _ ← modify (upd_types (set_programs ∅)); mret true
                  else fail (Wrap "problem listing programs" e)
              end);
  w ← get;
  _ ← (fix go (l : list KnownProgram) : C unit :=
         match l with
         | [] => mret tt
         | p :: l => _ ← wrapM "problem listing sub tags" (ListSubTags fuel p 1); go l
         end) (range (KnownPrograms (catalog (ioi (cw_client w)))));
  mret fallback.

Definition all_tag (fuel : nat) (fallbackProgramNames : bool) (e : symbol_entry) : C (list KnownTag) :=
  let tag_string := se_Name e in
  if negb (isValidTag tag_string) then mret []
  else
    let program := (8 <? blen tag_string) && has_prefix (str "Program:") tag_string in
    let progName := trim_prefix (str "Program:") tag_string in
    if program && negb fallbackProgramNames then mret []
    else if program && bool_decide (progName = []) then mret []
    else
      _ ← (if program then
             let p := {| kp_Name := progName; kp_ID := 0 |} in
             _ ← modify (upd_types (add_program p));
             _ ← wrapM "problem listing sub tags" (ListSubTags fuel p 1);
             mret tt
           else mret tt);
      _ ← catalog_tag fuel tag_string None e;
      mret [].

Fixpoint ListAllTags (fuel : nat) (start_instance : Z) : C unit :=
  match fuel with
  | O => panic "stack overflow"
  | S fuel =>
      let start_instance := if start_instance <? 1 then 1 else start_instance in
      fallbackProgramNames ← (if start_instance =? 1 then list_programs fuel else mret false);
      '(_, data) ← symbol_list_request [] start_instance;
      items ← lift (padded_items data);
      i1 ← lift (second_item items);
      '(status, data2) ← on (item_Data i1) (wrapM "problem reading list instance header" read_list_header);
      '(_, start_instance) ← symbol_entries (all_tag fuel fallbackProgramNames) start_instance data2;
      if status =? CIPStatus_PartialTransfer then ListAllTags fuel (nextListInstanceStart start_instance)
      else mret tt
  end.

(** ** The keepalive

    The goroutine waits for its ticker or for its channel to be closed; a
    step is what it does then.  It holds the properties it compares with, and
    is gone when there are none. *)

Record keepalive := {
  SocketTimeout : Z;
  KeepAliveProps : list Z;
  KeepAlivePollTags : bool;
  cancel_keepalive_made : bool;   (* the channel is not nil: KeepAlive has been started *)
}.

(** return, with the deferred assignment *)
Definition keepalive_stop : C (option CIPItem) := _ ← set_link (set_keepAliveRunning false); mret None.

(** The tags are listed anew when the client is set up so. *)
Definition keepalive_poll (fuel : nat) (ka : keepalive) (props : CIPItem) : C (option CIPItem) :=
  if KeepAlivePollTags ka then
    r ← try (ListAllTags fuel 0);
    match r with inl _ => keepalive_stop | inr _ => mret (Some props) end
  else mret (Some props).

(** KeepAlive up to its loop; one that runs already is only logged. *)
Definition keepalive_start (fuel : nat) (ka : keepalive) : C (option CIPItem) :=
  w ← get;
  if negb (KeepAliveAutoStart (config w)) || (SocketTimeout ka =? 0) then mret None
  else
    _ ← set_link (fun l => set_keepAliveRunning true (set_keepalive_closed false l));
    originalProps ← try (GetAttrList CipObject_ControllerInfo 1 (KeepAliveProps ka));
    match originalProps with
    | inl _ => keepalive_stop
    | inr props => keepalive_poll fuel ka props
    end.

Definition keepalive_tick (fuel : nat) (ka : keepalive) (originalProps : CIPItem) : C (option CIPItem) :=
  up ← Connected;
  if negb up then keepalive_stop
  else
    newProps ← try (GetAttrList CipObject_ControllerInfo 1 (KeepAliveProps ka));
    match newProps with
    | inl _ => _ ← try Disconnect; keepalive_stop
    | inr newProps =>
        new ← lift (Rest newProps);
        old ← lift (Rest originalProps);
        if bool_decide (new = old) then mret (Some originalProps) else keepalive_poll fuel ka newProps
    end.

(** The channel was closed: it does not start again by itself. *)
Definition keepalive_cancelled : C (option CIPItem) :=
  _ ← modify (upd_cfg (set_KeepAliveAutoStart false)); keepalive_stop.

Definition KeepAliveCancel (ka : keepalive) (force : bool) : C unit :=
  w ← get;
  if KeepAliveAutoStart (config w) && negb force then fail (Errorf "unable to cancel keepalive due to AutoKeepAlive == true")
  else
    l ← gets link;
    if negb (cancel_keepalive_made ka) then panic "close of nil channel"
    else if keepalive_closed l then panic "close of closed channel"
    else set_link (set_keepalive_closed true).
End Discovery.
