(* ===== verification/L5x.v ===== *)
(** * L5X projects (l5x/load_tags.go, l5x/types.go)

    The tags, comments and rung comments of an exported project, from the
    structs encoding/xml has decoded (a pointer is an option; of a struct the
    fields the loaders read).  The order of a range over a map is a
    parameter. *)
From S2P Require Import Prelude GoStrings GoStrconv GoValue CipNames Ioi Discovery.

Definition nil_deref {A} : res A := Panic "nil pointer dereference".
Definition deref {A} (p : option A) : res A := match p with Some a => Ok a | None => nil_deref end.

(** ** l5x/schema.go *)

Definition trim_suffix (p s : bytes) : bytes := if has_suffix p s then take (length s - length p) s else s.

(** The text of a CDATA section, without the quotes of a string. *)
Definition ParseCData (iv : bytes) : bytes :=
  trim_suffix [39] (trim_prefix [39] (trim_suffix (str "]]>") (trim_prefix (str "<![CDATA[") (trim_space iv)))).

Record DataValue := { dv_Name : bytes; dv_DataType : bytes; dv_Value : bytes; dv_InnerValue : bytes }.
Definition DataValue_CData (d : DataValue) : bytes := ParseCData (dv_InnerValue d).

Record DataStructure := { ds_DataValueMember : list DataValue }.
Record DataArrayElement := { de_Value : bytes; de_Structure : list DataStructure }.
Record DataArray := { da_Element : list DataArrayElement }.
Record DataWideType := { dw_DataValue : option DataValue; dw_Structure : option DataStructure; dw_Array : option DataArray }.

Record DescriptionType := { dt_InnerValue : bytes }.
Definition Description_CData (d : DescriptionType) : bytes := ParseCData (dt_InnerValue d).

Record CommentWideType := { cw_Operand : bytes; cw_InnerValue : bytes }.
Definition Comment_CData (c : CommentWideType) : bytes := ParseCData (cw_InnerValue c).

Record TagType := {
  tg_Name : bytes; tg_DataType : bytes; tg_Dimensions : bytes;
  tg_Description : list DescriptionType; tg_Data : list DataWideType;
}.
Record TagCollectionType := { tc_Tag : list TagType }.

Definition TagType_Descriptions (t : TagType) : bytes := concat (map Description_CData (tg_Description t)).

Record DataTypeMemberType := {
  mt_Name : bytes; mt_DataType : bytes; mt_Target : bytes; mt_BitNumber : Z; mt_Description : option DescriptionType;
}.
Record DataTypeType := {
  ty_Name : bytes; ty_Description : option DescriptionType; ty_Members : option (list DataTypeMemberType);
}.

Record RungType := { rg_Number : bytes; rg_Comment : list CommentWideType }.
Record RoutineType := { rt_Name : bytes; rt_RLLContent : list (list RungType) }.
Record AProgramType := { ap_Name : bytes; ap_Tags : option TagCollectionType; ap_Routines : option (list RoutineType) }.

(** The comment groups of an input or an output tag. *)
Record IOTagType := { io_Comments : list (list CommentWideType) }.
Record MapConnectionType := { mc_InputTag : option IOTagType; mc_OutputTag : option IOTagType }.
Record CommunicationsType := { cm_Connections : option (list MapConnectionType) }.
Record MapDeviceType := { md_Name : bytes; md_Communications : option CommunicationsType }.

(** A task and the names of its scheduled programs. *)
Record TaskType := { tk_Name : bytes; tk_ScheduledPrograms : option (list bytes) }.

Record ControllerType := {
  ct_DataTypes : option (list DataTypeType); ct_Modules : option (list MapDeviceType);
  ct_Tags : option TagCollectionType; ct_Programs : option (list AProgramType); ct_Tasks : option (list TaskType);
}.
Record ProjectType := { pj_Controller : option ControllerType }.
(** *ProjectType *)
Definition RSLogix5000Content : Type := option ProjectType.

Definition controller (l5xData : RSLogix5000Content) : res ControllerType := p ← deref l5xData; deref (pj_Controller p).

(** ** l5x/types.go *)

(** The errors of the conversions are dropped: what they return counts. *)
Definition L5xTypeToGoType (typestr valuestr : bytes) : res goval :=
  let int k bits := VInt k (fst (ParseInt valuestr bits)) in
  let named s := bool_decide (typestr = str s) in
  Ok (if named "REAL" then VFloat64 (ParseFloat valuestr)
      else if named "DINT" then int I32 32
      else if named "BOOL" || named "BIT" then VBool (ParseBool valuestr)
      else if named "INT" then int I16 16
      else if named "STRING" then VString valuestr
      else if named "SINT" then int I8 8
      else if named "LINT" then int I64 64
      else if named "BYTE" then VInt U8 (u8 (fst (ParseInt valuestr 8)))
      else if named "WORD" then VInt U16 (u16 (fst (ParseInt valuestr 16)))
      else if named "DWORD" then VInt U32 (u32 (fst (ParseInt valuestr 32)))
      else if named "LWORD" then VInt U64 (u64 (fst (ParseInt valuestr 64)))
      else VString (str "Unknown type: " ++ typestr)).

(** ** LoadTags *)

Inductive array_elem := EVal (v : goval) | EStruct (m : gmap bytes goval).
Inductive tag_value := TVal (v : goval) | TStruct (m : gmap bytes goval) | TArray (l : list array_elem).
Inductive root_value := RTag (v : goval) | RProgram (m : gmap bytes tag_value).

(** tag.Data[1] *)
Definition data1 (tag : TagType) : option DataWideType := tg_Data tag !! 1%nat.

Fixpoint controller_tags (l : list TagType) (tags : gmap bytes root_value) : res (gmap bytes root_value) :=
  match l with
  | [] => Ok tags
  | tag :: l =>
      tags ← match data1 tag with
             | Some {| dw_DataValue := Some dv |} =>
                 v ← res_wrap "error converting" (L5xTypeToGoType (tg_DataType tag) (dv_Value dv));
                 Ok (<[tg_Name tag := RTag v]> tags)
             | _ => Ok tags
             end;
      controller_tags l tags
  end.

(** The members of a structure, each converted from the text that f takes. *)
Fixpoint struct_members (f : DataValue -> bytes) (l : list DataValue) (m : gmap bytes goval) : res (gmap bytes goval) :=
  match l with
  | [] => Ok m
  | member :: l =>
      v ← res_wrap "error converting" (L5xTypeToGoType (dv_DataType member) (f member));
      struct_members f l (<[dv_Name member := v]> m)
  end.

(** In an array of structures a string is the character data. *)
Definition element_text (member : DataValue) : bytes :=
  if bool_decide (dv_DataType member = str "STRING") then DataValue_CData member else dv_Value member.

Fixpoint array_values (tagtype : bytes) (l : list DataArrayElement) : res (list array_elem) :=
  match l with
  | [] => Ok []
  | element :: l =>
      v ← match de_Structure element with
          | s :: _ => m ← struct_members element_text (ds_DataValueMember s) ∅; Ok (EStruct m)
          | [] => v ← res_wrap "error converting" (L5xTypeToGoType tagtype (de_Value element)); Ok (EVal v)
          end;
      vs ← array_values tagtype l;
      Ok (v :: vs)
  end.

(** make([]any, 0, dims), of 16 bytes per element *)
Definition make_cap (dims : Z) : res unit :=
  if (dims <? 0) || (2 ^ 48 <? dims * 16) then Panic "makeslice: cap out of range" else Ok tt.

Definition array_tag (tag : TagType) (a : DataArray) : res tag_value :=
  let '(dims, ok) := ParseInt (tg_Dimensions tag) 64 in
  if negb ok then Err (Errorf "invalid dimensions")
  else _ ← make_cap dims; l ← array_values (tg_DataType tag) (da_Element a); Ok (TArray l).

(** What is stored of a program's tag: its atomic value, structure or array. *)
Definition program_tag (tag : TagType) : res (option tag_value) :=
  match data1 tag with
  | None => Ok None
  | Some d =>
      match dw_DataValue d, dw_Structure d, dw_Array d with
      | Some dv, _, _ => v ← res_wrap "error converting" (L5xTypeToGoType (tg_DataType tag) (dv_Value dv)); Ok (Some (TVal v))
      | None, Some s, _ => m ← struct_members dv_Value (ds_DataValueMember s) ∅; Ok (Some (TStruct m))
      | None, None, Some a => v ← array_tag tag a; Ok (Some v)
      | None, None, None => Ok None
      end
  end.

Fixpoint program_tags (l : list TagType) (progtags : gmap bytes tag_value) : res (gmap bytes tag_value) :=
  match l with
  | [] => Ok progtags
  | tag :: l =>
      v ← program_tag tag;
      program_tags l (match v with Some v => <[tg_Name tag := v]> progtags | None => progtags end)
  end.

Definition progprefix (name : bytes) : bytes := str "program:" ++ name.

Fixpoint load_programs (l : list AProgramType) (tags : gmap bytes root_value) : res (gmap bytes root_value) :=
  match l with
  | [] => Ok tags
  | program :: l =>
      ts ← deref (ap_Tags program);
      progtags ← program_tags (tc_Tag ts) ∅;
      load_programs l (<[progprefix (ap_Name program) := RProgram progtags]> tags)
  end.

Definition LoadTags (l5xData : RSLogix5000Content) : res (gmap bytes root_value) :=
  c ← controller l5xData;
  ts ← deref (ct_Tags c);
  tags ← controller_tags (tc_Tag ts) ∅;
  ps ← deref (ct_Programs c);
  load_programs ps tags.

(** ** LoadTagComments *)

(** strings.TrimLeft by letters and underscores *)
Definition is_letter (c : Z) : bool := ((97 <=? c) && (c <=? 122)) || ((65 <=? c) && (c <=? 90)) || (c =? 95).
Fixpoint trim_letters (s : bytes) : bytes :=
  match s with c :: s' => if is_letter c then trim_letters s' else s | [] => [] end.

(** What is taken from the position for the number of a field. *)
Definition field_shift (num : Z) : Z :=
  switch num [(9, 1); (18, 2); (27, 3); (36, 4); (45, 5); (54, 6); (63, 7)] 0.

(** The name of a bit, from the number its target ends in; None skips it. *)
Definition bit_name (member : DataTypeMemberType) : res (option bytes) :=
  let target := mt_Target member in
  if (length target <? 2)%nat then Panic "slice bounds out of range"
  else
    match atoi (trim_letters (drop (length target - 2) target)) with
    | None => Ok None
    | Some num => Ok (Some (mt_Name member ++ [60] ++ dec_int (swrap 64 (mt_BitNumber member + num - field_shift num)) ++ [62]))
    end.

Definition insert_all (entries : list (bytes * bytes)) (out : gmap bytes bytes) : gmap bytes bytes :=
  fold_left (fun out '(k, v) => <[k := v]> out) entries out.

(** A comment below another. *)
Definition below (comment sub : bytes) : bytes := if bool_decide (comment = []) then sub else comment ++ [32] ++ sub.

(** fmt.Sprintf("%s.%s", a, b) *)
Definition dotted (a b : bytes) : bytes := a ++ [46] ++ b.

Section Comments.
Context (range : gmap bytes bytes -> list (bytes * bytes)).

Fixpoint member_comments (sub : bytes -> res (gmap bytes bytes)) (myDescription : bytes) (ms : list DataTypeMemberType)
    (out : gmap bytes bytes) : res (gmap bytes bytes) :=
  match ms with
  | [] => Ok out
  | member :: ms =>
      let memberDesc := match mt_Description member with
                        | None => myDescription
                        | Some d => below myDescription (Description_CData d)
                        end in
      submembers ← sub (mt_DataType member);
      name ← (if bool_decide (mt_DataType member = str "BIT") then bit_name member else Ok (Some (mt_Name member)));
      match name with
      | None => member_comments sub myDescription ms out
      | Some name =>
          member_comments sub myDescription ms
            (insert_all (map (fun '(subName, subDesc) => (dotted (mt_Name member) subName, below memberDesc subDesc)) (range submembers))
               (<[name := memberDesc]> out))
      end
  end.

(** GetDataTypeMap: the last type of a name *)
Definition GetDataTypeMap (dataTypes : list DataTypeType) : gmap bytes DataTypeType :=
  fold_left (fun m dt => <[ty_Name dt := dt]> m) dataTypes ∅.

(** The recursion ends when the types do not contain themselves. *)
Fixpoint GetTypeComments (fuel : nat) (types : gmap bytes DataTypeType) (typeName : bytes) : res (gmap bytes bytes) :=
  match types !! typeName with
  | None => Ok ∅
  | Some dt =>
      match fuel with
      | O => Panic "out of fuel"
      | S fuel =>
          let myDescription := match ty_Description dt with Some d => Description_CData d | None => [] end in
          ms ← deref (ty_Members dt);
          member_comments (GetTypeComments fuel types) myDescription ms {[ typeName := myDescription ]}
      end
  end.

(** The comments of the groups of a tag of a module. *)
Fixpoint io_comments (prefix : bytes) (l : list CommentWideType) (tags : gmap bytes bytes) : gmap bytes bytes :=
  match l with
  | [] => tags
  | comment :: l =>
      let c := Comment_CData comment in
      io_comments prefix l (if bool_decide (c = []) then tags else <[prefix ++ cw_Operand comment := c]> tags)
  end.
Definition io_tag_comments (prefix : bytes) (t : option IOTagType) (tags : gmap bytes bytes) : gmap bytes bytes :=
  match t with Some t => io_comments prefix (concat (io_Comments t)) tags | None => tags end.

Definition module_comments (module : MapDeviceType) (tags : gmap bytes bytes) : gmap bytes bytes :=
  match md_Communications module with
  | Some {| cm_Connections := Some connections |} =>
      fold_left (fun tags connection =>
          io_tag_comments (md_Name module ++ str ":O") (mc_OutputTag connection)
            (io_tag_comments (md_Name module ++ str ":I") (mc_InputTag connection) tags))
        connections tags
  | _ => tags
  end.

(** The description of a tag and, below it, the comments of its type. *)
Definition tag_comments (types : gmap bytes DataTypeType) (fuel : nat) (tag : TagType) (tags : gmap bytes bytes) : res (gmap bytes bytes) :=
  let desc := match tg_Data tag, tg_Description tag with _ :: _, d :: _ => Some (Description_CData d) | _, _ => None end in
  let mydesc := default [] desc in
  let tags := match desc with Some d => <[tg_Name tag := d]> tags | None => tags end in
  typeComments ← GetTypeComments fuel types (tg_DataType tag);
  Ok (insert_all (map (fun '(typeName, typeComment) => (dotted (tg_Name tag) typeName, below mydesc typeComment))
        (List.filter (fun e => negb (bool_decide (e.2 = []))) (range typeComments))) tags).

Fixpoint controller_comments (types : gmap bytes DataTypeType) (fuel : nat) (l : list TagType) (tags : gmap bytes bytes) : res (gmap bytes bytes) :=
  match l with
  | [] => Ok tags
  | tag :: l => tags ← tag_comments types fuel tag tags; controller_comments types fuel l tags
  end.

(** The comments of a program's tags are gathered in a map that is dropped:
    what is left is that the program has tags. *)
Definition program_comments (program : AProgramType) : res unit := _ ← deref (ap_Tags program); Ok tt.

Definition LoadTagComments (fuel : nat) (l5xData : RSLogix5000Content) : res (gmap bytes bytes) :=
  c ← controller l5xData;
  dataTypes ← deref (ct_DataTypes c);
  let dtm := GetDataTypeMap dataTypes in
  modules ← deref (ct_Modules c);
  let tags := fold_left (fun tags module => module_comments module tags) modules ∅ in
  ts ← deref (ct_Tags c);
  tags ← controller_comments dtm fuel (tc_Tag ts) tags;
  ps ← deref (ct_Programs c);
  _ ← mapM program_comments ps;
  Ok tags.
End Comments.

(** ** LoadRungComments *)

Definition task_lookup (tasks : list TaskType) : gmap bytes bytes :=
  fold_left (fun m task => match tk_ScheduledPrograms task with
                           | Some ps => fold_left (fun m p => <[p := tk_Name task]> m) ps m
                           | None => m
                           end) tasks ∅.

(** "%s/%s/%s[%s]" *)
Definition rung_location (task program routine number : bytes) : bytes :=
  task ++ [47] ++ program ++ [47] ++ routine ++ [91] ++ number ++ [93].

Definition rung_comments (task program routine : bytes) (rung : RungType) (comments : gmap bytes bytes) : gmap bytes bytes :=
  fold_left (fun comments comment =>
      let c := Comment_CData comment in
      if bool_decide (c = []) then comments else <[rung_location task program routine (rg_Number rung) := c]> comments)
    (rg_Comment rung) comments.

Fixpoint program_rungs (lookup : gmap bytes bytes) (l : list AProgramType) (comments : gmap bytes bytes) : res (gmap bytes bytes) :=
  match l with
  | [] => Ok comments
  | program :: l =>
      routines ← deref (ap_Routines program);
      let task := default [] (lookup !! ap_Name program) in
      program_rungs lookup l
        (fold_left (fun comments routine =>
             fold_left (fun comments rung => rung_comments task (ap_Name program) (rt_Name routine) rung comments)
               (concat (rt_RLLContent routine)) comments)
           routines comments)
  end.

Definition LoadRungComments (l5xData : RSLogix5000Content) : res (gmap bytes bytes) :=
  c ← controller l5xData;
  tasks ← deref (ct_Tasks c);
  ps ← deref (ct_Programs c);
  program_rungs (task_lookup tasks) ps ∅.
