(* ===== verification/L5xProofs.v ===== *)
(** * Loading of L5X projects: types of the values, ends of the recursion *)
From S2P Require Import Prelude GoStrings GoStrconv GoValue CipNames L5x.

(** ** Every value has the Go type of its L5X type *)

(** The Go type a type of the project is loaded as. *)
Definition l5x_type (typestr : bytes) : gotype :=
  let named s := bool_decide (typestr = str s) in
  if named "REAL" then TFloat64
  else if named "DINT" then TInt I32
  else if named "BOOL" || named "BIT" then TBool
  else if named "INT" then TInt I16
  else if named "STRING" then TString
  else if named "SINT" then TInt I8
  else if named "LINT" then TInt I64
  else if named "BYTE" then TInt U8
  else if named "WORD" then TInt U16
  else if named "DWORD" then TInt U32
  else if named "LWORD" then TInt U64
  else TString.

(** A number in the range of its width. *)
Definition num_ok (v : goval) : Prop :=
  match v with VInt k z => int_ok k z | VFloat64 b => is_bits 64 b | _ => True end.

Definition loads (typestr : bytes) (v : goval) : Prop := type_of v = Some (l5x_type typestr) /\ num_ok v.

Lemma L5xTypeToGoType_loads typestr valuestr v : L5xTypeToGoType typestr valuestr = Ok v -> loads typestr v.
Proof.
  unfold L5xTypeToGoType, loads, l5x_type. intros [= <-].
  assert (forall bits, 1 < bits -> - 2 ^ (bits - 1) <= fst (ParseInt valuestr bits) < 2 ^ (bits - 1)) as Hb
    by (intros; by apply ParseInt_bounds).
  pose proof (Hb 8 eq_refl). pose proof (Hb 16 eq_refl). pose proof (Hb 32 eq_refl). pose proof (Hb 64 eq_refl).
  repeat (case_match; [split; [done|]; simpl; first [apply ParseFloat_bits | by apply wrap_bound | done | red; simpl; lia]|]).
  done.
Qed.

(** The value of a tag of a program. *)
Definition struct_loads (s : DataStructure) (m : gmap bytes goval) : Prop :=
  map_Forall (fun name v => exists d, d ∈ ds_DataValueMember s /\ dv_Name d = name /\ loads (dv_DataType d) v) m.

Definition elem_loads (ty : bytes) (e : DataArrayElement) (v : array_elem) : Prop :=
  match v with
  | EVal v => loads ty v
  | EStruct m => exists s, head (de_Structure e) = Some s /\ struct_loads s m
  end.

Definition tag_loads (tag : TagType) (v : tag_value) : Prop :=
  match v with
  | TVal v => loads (tg_DataType tag) v
  | TStruct m => exists d s, data1 tag = Some d /\ dw_Structure d = Some s /\ struct_loads s m
  | TArray l => exists d a, data1 tag = Some d /\ dw_Array d = Some a /\ Forall2 (elem_loads (tg_DataType tag)) (da_Element a) l
  end.

Ltac inv_res H :=
  match type of H with
  | mbind _ ?x = Ok _ => let v := fresh "v" in let E := fresh "E" in destruct x as [v| |] eqn:E; cbn [mbind res_bind] in H; [|discriminate H|discriminate H]
  end.

Lemma struct_members_loads s f l : forall m m', (forall d, d ∈ l -> d ∈ ds_DataValueMember s) ->
  struct_loads s m -> struct_members f l m = Ok m' -> struct_loads s m'.
Proof.
  induction l as [|d l IH]; intros m m' Hl Hm E; cbn [struct_members] in E; [by injection E as <-|].
  inv_res E. apply res_wrap_Ok, L5xTypeToGoType_loads in E0.
  eapply IH; [..|exact E]; [intros; apply Hl; by right|].
  apply map_Forall_insert_2; [|done]. exists d. split; [apply Hl; by left|done].
Qed.

Lemma array_values_loads ty l : forall vs, array_values ty l = Ok vs -> Forall2 (elem_loads ty) l vs.
Proof.
  induction l as [|e l IH]; intros vs E; cbn [array_values] in E; [by injection E as <-|].
  inv_res E. inv_res E. injection E as <-. constructor; [|by apply IH]. clear E1 IH.
  destruct (de_Structure e) as [|s ss] eqn:Es; inv_res E0; injection E0 as <-; simpl.
  - eapply L5xTypeToGoType_loads, res_wrap_Ok; eassumption.
  - exists s. rewrite Es. split; [done|]. eapply struct_members_loads; [done| |exact E]. apply map_Forall_empty.
Qed.

Lemma program_tag_loads tag v : program_tag tag = Ok (Some v) -> tag_loads tag v.
Proof.
  unfold program_tag. destruct (data1 tag) as [d|] eqn:Ed; [|done]. intros E.
  destruct (dw_DataValue d) as [dv|]; [|destruct (dw_Structure d) as [s|] eqn:Es; [|destruct (dw_Array d) as [a|] eqn:Ea; [|done]]];
    inv_res E; injection E as <-; simpl.
  - eapply L5xTypeToGoType_loads, res_wrap_Ok; eassumption.
  - exists d, s. split; [done|]. split; [done|]. eapply struct_members_loads; [done| |exact E0]. apply map_Forall_empty.
  - unfold array_tag in E0. destruct (ParseInt _ _) as [dims ok]. destruct (negb ok); [done|].
    inv_res E0. inv_res E0. injection E0 as <-. exists d, a. split; [done|]. split; [done|]. by apply array_values_loads.
Qed.

(** A value under a name, from a tag of the list with the name. *)
Definition from_tags {A} (P : TagType -> A -> Prop) (l : list TagType) (name : bytes) (v : A) : Prop :=
  exists tag, tag ∈ l /\ tg_Name tag = name /\ P tag v.

Lemma from_tags_app {A} (P : TagType -> A -> Prop) l l' name v : from_tags P l name v -> from_tags P (l ++ l') name v.
Proof. intros (tag & Hin & ?). exists tag. split; [set_solver|done]. Qed.

Lemma program_tags_loads l : forall done m m', map_Forall (from_tags tag_loads done) m -> program_tags l m = Ok m' ->
  map_Forall (from_tags tag_loads (done ++ l)) m'.
Proof.
  induction l as [|tag l IH]; intros dn m m' Hm E; cbn [program_tags] in E.
  { injection E as <-. by rewrite app_nil_r. }
  inv_res E. assert (dn ++ tag :: l = (dn ++ [tag]) ++ l) as -> by by rewrite <- (assoc_L (++)).
  eapply IH; [|exact E]. destruct v as [v|].
  - apply map_Forall_insert_2.
    + exists tag. split; [set_solver|]. split; [done|]. by apply program_tag_loads.
    + eapply map_Forall_impl; [exact Hm|]. intros. by apply from_tags_app.
  - eapply map_Forall_impl; [exact Hm|]. intros. by apply from_tags_app.
Qed.

(** The values of a loaded project: controller tags, and the programs' tags. *)
Definition root_loads (ctags : list TagType) (programs : list AProgramType) (name : bytes) (r : root_value) : Prop :=
  match r with
  | RTag v => from_tags (fun tag v => loads (tg_DataType tag) v) ctags name v
  | RProgram m => exists p ts, p ∈ programs /\ name = progprefix (ap_Name p) /\ ap_Tags p = Some ts /\
                    map_Forall (from_tags tag_loads (tc_Tag ts)) m
  end.

Lemma controller_tags_loads l : forall dn m m', map_Forall (root_loads dn []) m -> controller_tags l m = Ok m' ->
  map_Forall (root_loads (dn ++ l) []) m'.
Proof.
  assert (forall dn l' ps name r, root_loads dn ps name r -> root_loads (dn ++ l') ps name r) as Hmono.
  { intros dn l' ps name [v|m]; [apply from_tags_app|done]. }
  induction l as [|tag l IH]; intros dn m m' Hm E; cbn [controller_tags] in E.
  { injection E as <-. by rewrite app_nil_r. }
  inv_res E. assert (dn ++ tag :: l = (dn ++ [tag]) ++ l) as -> by by rewrite <- (assoc_L (++)).
  eapply IH; [|exact E]. assert (map_Forall (root_loads (dn ++ [tag]) []) m) as Hm1
    by (eapply map_Forall_impl; [exact Hm|]; intros; by apply Hmono).
  destruct (data1 tag) as [[[dv|] s a]|]; [|by injection E0 as <-..].
  inv_res E0. injection E0 as <-. apply map_Forall_insert_2; [|done].
  exists tag. split; [set_solver|]. split; [done|]. eapply L5xTypeToGoType_loads, res_wrap_Ok; eassumption.
Qed.

Lemma load_programs_loads ctags l : forall dn m m', map_Forall (root_loads ctags dn) m -> load_programs l m = Ok m' ->
  map_Forall (root_loads ctags (dn ++ l)) m'.
Proof.
  induction l as [|p l IH]; intros dn m m' Hm E; cbn [load_programs] in E.
  { injection E as <-. by rewrite app_nil_r. }
  inv_res E. inv_res E. assert (dn ++ p :: l = (dn ++ [p]) ++ l) as -> by by rewrite <- (assoc_L (++)).
  eapply IH; [|exact E]. destruct (ap_Tags p) as [ts|] eqn:Et; [|done]. injection E0 as <-.
  apply map_Forall_insert_2.
  - exists p, ts. split; [set_solver|]. split; [done|]. split; [done|].
    apply (program_tags_loads (tc_Tag ts) [] ∅); [apply map_Forall_empty|done].
  - eapply map_Forall_impl; [exact Hm|]. intros name [v|m1]; [done|]. intros (q & ts' & Hq & ?). exists q, ts'.
    split; [set_solver|done].
Qed.

(** C22.  Whatever an exported project holds, LoadTags gives only values of the
    Go types its type names stand for, numbers within their widths: every
    controller tag has the type of a tag of its name, and every tag, member
    and array element of a program that of its declaration. *)
Theorem LoadTags_typed p c ts programs tags :
  LoadTags (Some p) = Ok tags -> pj_Controller p = Some c -> ct_Tags c = Some ts -> ct_Programs c = Some programs ->
  map_Forall (root_loads (tc_Tag ts) programs) tags.
Proof.
  intros E Hc Ht Hp. unfold LoadTags, controller in E. cbn [deref mbind res_bind] in E. rewrite Hc in E. cbn [deref mbind res_bind] in E.
  rewrite Ht in E. cbn [deref mbind res_bind] in E. inv_res E. rewrite Hp in E. cbn [deref mbind res_bind] in E.
  apply (load_programs_loads (tc_Tag ts) programs [] v tags); [|exact E].
  apply (controller_tags_loads (tc_Tag ts) [] ∅); [apply map_Forall_empty|done].
Qed.

(** ** The comments of types that do not contain themselves *)

(** The types of the members come before the type. *)
Definition acyclic (rank : bytes -> nat) (types : gmap bytes DataTypeType) : Prop :=
  forall name dt ms m, types !! name = Some dt -> ty_Members dt = Some ms -> m ∈ ms -> is_Some (types !! mt_DataType m) ->
    (rank (mt_DataType m) < rank name)%nat.

Definition fuelled {A} (r : res A) : Prop := r <> Panic "out of fuel".

Lemma fuelled_bind {A B} (r : res A) (k : A -> res B) : fuelled r -> (forall a, r = Ok a -> fuelled (k a)) -> fuelled (r ≫= k).
Proof. intros Hr Hk. destruct r; [by apply Hk|done|]. intros [= ->]. by apply Hr. Qed.

Section Comments.
Context (range : gmap bytes bytes -> list (bytes * bytes)).

Lemma member_comments_ext sub1 sub2 desc ms : forall out, (forall m, m ∈ ms -> sub1 (mt_DataType m) = sub2 (mt_DataType m)) ->
  member_comments range sub1 desc ms out = member_comments range sub2 desc ms out.
Proof.
  induction ms as [|m ms IH]; intros out Hs; [done|]. cbn [member_comments]. cbv zeta. rewrite (Hs m) by left.
  assert (forall o, member_comments range sub1 desc ms o = member_comments range sub2 desc ms o) as IH1
    by (intros; apply IH; intros; apply Hs; by right).
  destruct (sub2 (mt_DataType m)); cbn [mbind res_bind]; [|done|done].
  destruct (if bool_decide (mt_DataType m = str "BIT") then bit_name m else _) as [[name|]| |]; cbn [mbind res_bind]; [apply IH1..|done|done].
Qed.

Lemma bit_name_fuelled m : fuelled (bit_name m).
Proof. unfold bit_name, fuelled. destruct (_ <? _)%nat; [done|]. by destruct (atoi _). Qed.

Lemma member_comments_fuelled sub desc ms : forall out, (forall m, m ∈ ms -> fuelled (sub (mt_DataType m))) ->
  fuelled (member_comments range sub desc ms out).
Proof.
  induction ms as [|m ms IH]; intros out Hs; [done|]. cbn [member_comments]. cbv zeta.
  apply fuelled_bind; [apply Hs; by left|]. intros subs _.
  assert (forall o, fuelled (member_comments range sub desc ms o)) as IH1 by (intros; apply IH; intros; apply Hs; by right).
  apply fuelled_bind; [destruct (bool_decide _); [apply bit_name_fuelled|done]|]. intros [name|] _; apply IH1.
Qed.

(** Fuel above the rank of a type is enough, and more changes nothing. *)
Lemma GetTypeComments_spec rank types n : acyclic rank types -> forall name, (rank name < n)%nat ->
  forall fuel, (rank name < fuel)%nat ->
  fuelled (GetTypeComments range fuel types name) /\ GetTypeComments range fuel types name = GetTypeComments range n types name.
Proof.
  intros Ha. induction n as [|n IH]; intros name Hn fuel Hf; [lia|]. destruct fuel as [|fuel]; [lia|]. cbn [GetTypeComments].
  destruct (types !! name) as [dt|] eqn:Et; [|done]. cbv zeta. destruct (ty_Members dt) as [ms|] eqn:Em; [|done].
  cbn [deref mbind res_bind].
  assert (forall m, m ∈ ms -> fuelled (GetTypeComments range fuel types (mt_DataType m)) /\
    GetTypeComments range fuel types (mt_DataType m) = GetTypeComments range n types (mt_DataType m)) as Hm.
  { intros m Hin. destruct (types !! mt_DataType m) as [dt'|] eqn:Et'.
    - pose proof (Ha name dt ms m Et Em Hin (mk_is_Some _ _ Et')). apply IH; lia.
    - assert (forall f, GetTypeComments range f types (mt_DataType m) = Ok ∅) as Hnone by (intros [|f]; cbn [GetTypeComments]; by rewrite Et').
      by rewrite !Hnone. }
  split; [apply member_comments_fuelled; intros; by apply Hm|]. apply member_comments_ext. intros. by apply Hm.
Qed.

Lemma controller_comments_spec rank types n l : acyclic rank types -> (forall name, (rank name < n)%nat) ->
  forall fuel tags, (forall name, (rank name < fuel)%nat) ->
  fuelled (controller_comments range types fuel l tags) /\
  controller_comments range types fuel l tags = controller_comments range types n l tags.
Proof.
  intros Ha Hn. induction l as [|tag l IH]; intros fuel tags Hf; [done|]. cbn [controller_comments].
  assert (fuelled (tag_comments range types fuel tag tags) /\ tag_comments range types fuel tag tags = tag_comments range types n tag tags) as [Ht ->].
  { unfold tag_comments. destruct (GetTypeComments_spec rank types n Ha (tg_DataType tag) (Hn _) fuel (Hf _)) as [H1 H2].
    split; [by apply fuelled_bind|]. by rewrite H2. }
  destruct (tag_comments range types n tag tags) as [t| |] eqn:Et; cbn [mbind res_bind]; [by apply IH|done|].
  split; [|done]. intros [= ->]. unfold tag_comments in Et.
  destruct (GetTypeComments_spec rank types n Ha (tg_DataType tag) (Hn _) n (Hn _)) as [H1 _].
  destruct (GetTypeComments range n types (tg_DataType tag)); [done|done|]. injection Et as ->. by apply H1.
Qed.

(** LoadTagComments ends on every project whose data types do not
    contain themselves: enough fuel for the deepest nesting of types decides
    the outcome, which more does not change. *)
Theorem LoadTagComments_ends rank p c dts n :
  pj_Controller p = Some c -> ct_DataTypes c = Some dts -> acyclic rank (GetDataTypeMap dts) -> (forall name, (rank name < n)%nat) ->
  exists r, fuelled r /\ forall fuel, (n <= fuel)%nat -> LoadTagComments range fuel (Some p) = r.
Proof.
  intros Hc Hd Ha Hn. exists (LoadTagComments range n (Some p)).
  assert (forall fuel, (n <= fuel)%nat -> fuelled (LoadTagComments range fuel (Some p)) /\
    LoadTagComments range fuel (Some p) = LoadTagComments range n (Some p)) as Hspec.
  { intros fuel Hf. unfold LoadTagComments, controller. cbn [deref mbind res_bind]. rewrite Hc. cbn [deref mbind res_bind]. rewrite Hd.
    cbn [deref mbind res_bind]. destruct (ct_Modules c) as [mods|]; [|done]. cbn [deref mbind res_bind].
    destruct (ct_Tags c) as [ts|]; [|done]. cbn [deref mbind res_bind].
    destruct (controller_comments_spec rank (GetDataTypeMap dts) n (tc_Tag ts) Ha Hn fuel
      (fold_left (fun tags module => module_comments module tags) mods ∅)) as [H1 H2]; [intros name; specialize (Hn name); lia|].
    rewrite H2 in *. split; [|done]. apply fuelled_bind; [done|]. intros tags _.
    apply fuelled_bind; [by destruct (ct_Programs c)|]. intros ps _.
    apply fuelled_bind; [|done]. induction ps as [|q ps IHp]; [done|]. cbn. apply fuelled_bind.
    - unfold program_comments. by destruct (ap_Tags q).
    - intros b _. by apply fuelled_bind. }
  split; [by apply Hspec|]. intros fuel Hf. by apply Hspec.
Qed.
End Comments.

(** ** Numbers are loaded as they were exported *)

Definition int_type (typestr : bytes) : option (ikind * Z) :=
  if bool_decide (typestr = str "DINT") then Some (I32, 32)
  else if bool_decide (typestr = str "INT") then Some (I16, 16)
  else if bool_decide (typestr = str "SINT") then Some (I8, 8)
  else if bool_decide (typestr = str "LINT") then Some (I64, 64) else None.

Lemma L5xTypeToGoType_int typestr k bits z : int_type typestr = Some (k, bits) -> - 2 ^ (bits - 1) <= z < 2 ^ (bits - 1) ->
  L5xTypeToGoType typestr (dec_int z) = Ok (VInt k z).
Proof.
  unfold int_type. intros Ht Hz.
  assert (fst (ParseInt (dec_int z) bits) = z) as Hp.
  { rewrite ParseInt_dec_int; [done| |done]. repeat case_match; simplify_eq; done. }
  unfold L5xTypeToGoType.
  repeat (case_bool_decide; [simplify_eq; subst; cbn; by rewrite Hp|]). done.
Qed.

Lemma controller_tags_keep l : forall m m' name, controller_tags l m = Ok m' -> name ∉ tg_Name <$> l -> m' !! name = m !! name.
Proof.
  induction l as [|tag l IH]; intros m m' name E Hn; cbn [controller_tags] in E; [by injection E as <-|].
  rewrite fmap_cons, not_elem_of_cons in Hn. destruct Hn as [Hne Hn]. inv_res E. rewrite (IH _ _ _ E Hn).
  destruct (data1 tag) as [[[dv|] s a]|]; [|by injection E0 as <-..]. inv_res E0. injection E0 as <-. by apply lookup_insert_ne.
Qed.

Lemma controller_tags_value l tag d dv : forall m m', controller_tags l m = Ok m' -> NoDup (tg_Name <$> l) -> tag ∈ l ->
  data1 tag = Some d -> dw_DataValue d = Some dv ->
  exists v, L5xTypeToGoType (tg_DataType tag) (dv_Value dv) = Ok v /\ m' !! tg_Name tag = Some (RTag v).
Proof.
  induction l as [|t l IH]; intros m m' E Hnd Hin Hd Hv; cbn [controller_tags] in E; [by apply not_elem_of_nil in Hin|].
  rewrite fmap_cons in Hnd. apply list.NoDup_cons in Hnd as [Hni Hnd]. inv_res E.
  apply elem_of_cons in Hin as [->|Hin]; [|by eapply IH].
  rewrite Hd in E0. destruct d as [dv' s a]. simpl in Hv. subst dv'. inv_res E0. injection E0 as <-.
  exists v0. split; [by eapply res_wrap_Ok|]. rewrite (controller_tags_keep _ _ _ _ E Hni). apply lookup_insert_eq.
Qed.

Lemma load_programs_keep l : forall m m' name, load_programs l m = Ok m' -> (forall p, p ∈ l -> progprefix (ap_Name p) <> name) ->
  m' !! name = m !! name.
Proof.
  induction l as [|p l IH]; intros m m' name E Hn; cbn [load_programs] in E; [by injection E as <-|].
  inv_res E. inv_res E. rewrite (IH _ _ _ E) by (intros; apply Hn; by right). apply lookup_insert_ne, Hn. by left.
Qed.

(** A controller tag of a signed integer type is loaded as the number
    its exported text denotes: whatever else the project holds, as long as no
    other tag and no program is loaded under the name. *)
Theorem LoadTags_numbers p c ts programs tags tag d dv k bits z :
  LoadTags (Some p) = Ok tags -> pj_Controller p = Some c -> ct_Tags c = Some ts -> ct_Programs c = Some programs ->
  NoDup (tg_Name <$> tc_Tag ts) -> (forall q, q ∈ programs -> progprefix (ap_Name q) <> tg_Name tag) ->
  tag ∈ tc_Tag ts -> data1 tag = Some d -> dw_DataValue d = Some dv -> dv_Value dv = dec_int z ->
  int_type (tg_DataType tag) = Some (k, bits) -> - 2 ^ (bits - 1) <= z < 2 ^ (bits - 1) ->
  tags !! tg_Name tag = Some (RTag (VInt k z)).
Proof.
  intros E Hc Ht Hp Hnd Hpr Hin Hd Hdv Hz Hk Hb. unfold LoadTags, controller in E.
  cbn [deref mbind res_bind] in E. rewrite Hc in E. cbn [deref mbind res_bind] in E.
  rewrite Ht in E. cbn [deref mbind res_bind] in E. inv_res E. rewrite Hp in E. cbn [deref mbind res_bind] in E.
  rewrite (load_programs_keep _ _ _ _ E Hpr).
  destruct (controller_tags_value _ _ _ _ _ _ E0 Hnd Hin Hd Hdv) as (w & Ew & ->).
  by rewrite Hz, (L5xTypeToGoType_int _ _ _ _ Hk Hb) in Ew; injection Ew as <-.
Qed.

(** ** Witnesses *)

Definition sample_value (name ty text : bytes) : DataValue := {| dv_Name := name; dv_DataType := ty; dv_Value := text; dv_InnerValue := [] |}.
Definition no_data : DataWideType := {| dw_DataValue := None; dw_Structure := None; dw_Array := None |}.
Definition sample_tag (name ty dims : bytes) (d : DataWideType) : TagType :=
  {| tg_Name := name; tg_DataType := ty; tg_Dimensions := dims; tg_Description := []; tg_Data := [no_data; d] |}.
Definition atomic (v : DataValue) : DataWideType := {| dw_DataValue := Some v; dw_Structure := None; dw_Array := None |}.
Definition sample_tags : TagCollectionType :=
  {| tc_Tag := [sample_tag (str "Level") (str "DINT") [] (atomic (sample_value [] [] (str "-42")));
                sample_tag (str "Big") (str "BYTE") [] (atomic (sample_value [] [] (str "200")))] |}.
Definition sample_member (name ty : bytes) : DataTypeMemberType :=
  {| mt_Name := name; mt_DataType := ty; mt_Target := []; mt_BitNumber := 0; mt_Description := Some {| dt_InnerValue := str "<![CDATA[the " ++ name ++ str "]]>" |} |}.
Definition sample_types : list DataTypeType :=
  [{| ty_Name := str "Inner"; ty_Description := None; ty_Members := Some [sample_member (str "x") (str "DINT")] |};
   {| ty_Name := str "Outer"; ty_Description := Some {| dt_InnerValue := str "outer" |}; ty_Members := Some [sample_member (str "in") (str "Inner")] |}].
Definition sample_program : AProgramType :=
  {| ap_Name := str "Main"; ap_Routines := Some [];
     ap_Tags := Some {| tc_Tag := [sample_tag (str "arr") (str "INT") (str "2")
       {| dw_DataValue := None; dw_Structure := None;
          dw_Array := Some {| da_Element := [{| de_Value := str "1"; de_Structure := [] |}; {| de_Value := str "70000"; de_Structure := [] |}] |} |}] |} |}.
Definition sample_controller : ControllerType :=
  {| ct_DataTypes := Some sample_types; ct_Modules := Some []; ct_Tags := Some sample_tags;
     ct_Programs := Some [sample_program]; ct_Tasks := Some [] |}.
Definition sample_project : ProjectType := {| pj_Controller := Some sample_controller |}.
Definition sample_loaded : gmap bytes root_value :=
  {[str "Level" := RTag (VInt I32 (-42)); str "Big" := RTag (VInt U8 127);
    str "program:Main" := RProgram {[str "arr" := TArray [EVal (VInt I16 1); EVal (VInt I16 32767)]]}]}.

Lemma LoadTags_typed_witness :
  LoadTags (Some sample_project) = Ok sample_loaded /\ map_Forall (root_loads (tc_Tag sample_tags) [sample_program]) sample_loaded.
Proof.
  assert (LoadTags (Some sample_project) = Ok sample_loaded) as E by (vm_compute; reflexivity).
  split; [exact E|]. by apply (LoadTags_typed sample_project sample_controller sample_tags [sample_program] sample_loaded).
Defined.

Lemma LoadTags_numbers_witness : sample_loaded !! str "Level" = Some (RTag (VInt I32 (-42))).
Proof.
  apply (LoadTags_numbers sample_project sample_controller sample_tags [sample_program] sample_loaded
    (sample_tag (str "Level") (str "DINT") [] (atomic (sample_value [] [] (str "-42")))) (atomic (sample_value [] [] (str "-42")))
    (sample_value [] [] (str "-42")) I32 32 (-42)); [vm_compute; reflexivity|reflexivity|reflexivity|reflexivity| | | |reflexivity|reflexivity|vm_compute; reflexivity|vm_compute; reflexivity|zbound].
  - apply (bool_decide_unpack _). vm_compute. exact I.
  - intros q Hq. apply list_elem_of_singleton in Hq as ->. vm_compute. discriminate.
  - by left.
Defined.

Definition sample_rank (name : bytes) : nat := if bool_decide (name = str "Outer") then 1%nat else 0%nat.

Lemma LoadTagComments_ends_witness :
  acyclic sample_rank (GetDataTypeMap sample_types) /\
  exists r, fuelled r /\ forall fuel, (2 <= fuel)%nat -> LoadTagComments map_to_list fuel (Some sample_project) = r.
Proof.
  assert (acyclic sample_rank (GetDataTypeMap sample_types)) as Ha.
  { intros name dt ms m E Em Hm Hs. unfold GetDataTypeMap in *. cbn [fold_left sample_types ty_Name] in E.
    apply lookup_insert_Some in E as [[<- <-]|[Hne E]].
    - injection Em as <-. apply list_elem_of_singleton in Hm as ->. vm_compute. lia.
    - apply lookup_insert_Some in E as [[<- <-]|[_ E]]; [|done].
      injection Em as <-. apply list_elem_of_singleton in Hm as ->. destruct Hs as [? Hs]. vm_compute in Hs. discriminate Hs. }
  split; [exact Ha|].
  apply (LoadTagComments_ends map_to_list sample_rank sample_project sample_controller sample_types 2); [done|done|exact Ha|].
  intros name. unfold sample_rank. destruct (bool_decide _); lia.
Defined.

Example nested_comments : GetTypeComments map_to_list 2 (GetDataTypeMap sample_types) (str "Outer") =
  Ok {[str "Outer" := str "outer"; str "in" := str "outer the in"; str "in.Inner" := str "outer the in ";
       str "in.x" := str "outer the in the x"]}.
Proof. vm_compute. reflexivity. Qed.
