(* ===== verification/L5xSchema.v ===== *)
(** * The schema of an exported project (l5x/schema.go)

    The structs of the schema as encoding/xml sees them: of every struct type
    the fields in their order, each with its name, its type and the text of
    its xml tag, as written in the source. *)
From Stdlib Require Import Ascii String.
From S2P Require Import Prelude.

#[local] Open Scope string_scope.

(** ** Fields *)

(** The types of the fields: string, int, []byte, []string, xml.Name, a
    pointer to a struct type or a slice of such pointers. *)
Inductive kind :=
  | KString | KInt | KBytes | KStrings | KName
  | KPtr (T : string)
  | KSlice (T : string).

#[export] Instance kind_eq_dec : EqDecision kind.
Proof. solve_decision. Defined.

Record xfield := { f_Name : string; f_Kind : kind; f_Tag : string (* empty without a tag *) }.

Definition field (name : string) (k : kind) (tag : string) : xfield := {| f_Name := name; f_Kind := k; f_Tag := tag |}.
Definition untagged (name : string) (k : kind) : xfield := {| f_Name := name; f_Kind := k; f_Tag := EmptyString |}.

(** ** The struct types *)

Definition ProjectType_fields : list xfield := [
  field "SchemaRevisionAttr" KString "SchemaRevision,attr";
  field "SoftwareRevisionAttr" KString "SoftwareRevision,attr";
  field "ArchitectureIDAttr" KString "ArchitectureID,attr,omitempty";
  field "TargetNameAttr" KString "TargetName,attr,omitempty";
  field "TargetTypeAttr" KString "TargetType,attr,omitempty";
  field "TargetSubTypeAttr" KString "TargetSubType,attr,omitempty";
  field "TargetClassAttr" KString "TargetClass,attr,omitempty";
  field "TargetCountAttr" KString "TargetCount,attr,omitempty";
  field "TargetRevisionAttr" KString "TargetRevision,attr,omitempty";
  field "TargetLastEditedAttr" KString "TargetLastEdited,attr,omitempty";
  field "TargetSignatureAttr" KString "TargetSignature,attr,omitempty";
  field "TargetIsEncryptedAttr" KString "TargetIsEncrypted,attr,omitempty";
  field "CurrentLanguageAttr" KString "CurrentLanguage,attr,omitempty";
  field "ContainsContextAttr" KString "ContainsContext,attr,omitempty";
  field "OwnerAttr" KString "Owner,attr,omitempty";
  field "ExportDateAttr" KString "ExportDate,attr,omitempty";
  field "ExportOptionsAttr" KString "ExportOptions,attr,omitempty";
  field "ForceMemorySavingAttr" KString "ForceMemorySaving,attr,omitempty";
  field "UseAttr" KString "Use,attr,omitempty";
  field "CustomProperties" (KPtr "CustomPropertiesCollectionType") "CustomProperties";
  field "Controller" (KPtr "ControllerType") "Controller"
].

Definition DeviceObjType_fields : list xfield := [
  field "UseAttr" KString "Use,attr,omitempty";
  field "CustomProperties" (KPtr "CustomPropertiesCollectionType") "CustomProperties"
].

Definition ExtDeviceObjType_fields : list xfield := [
  field "UseAttr" KString "Use,attr,omitempty";
  field "CustomProperties" (KPtr "CustomPropertiesCollectionType") "CustomProperties"
].

Definition ControllerType_fields : list xfield := [
  field "NameAttr" KString "Name,attr";
  field "UIdAttr" KString "UId,attr,omitempty";
  field "ParentUIdAttr" KString "ParentUId,attr,omitempty";
  field "ProcessorTypeAttr" KString "ProcessorType,attr,omitempty";
  field "MajorRevAttr" KString "MajorRev,attr,omitempty";
  field "MinorRevAttr" KString "MinorRev,attr,omitempty";
  field "TimeSliceAttr" KString "TimeSlice,attr,omitempty";
  field "ShareUnusedTimeSliceAttr" KString "ShareUnusedTimeSlice,attr,omitempty";
  field "PowerLossProgramAttr" KString "PowerLossProgram,attr,omitempty";
  field "PowerLossProgramUIdAttr" KString "PowerLossProgramUId,attr,omitempty";
  field "MajorFaultProgramAttr" KString "MajorFaultProgram,attr,omitempty";
  field "MajorFaultProgramUIdAttr" KString "MajorFaultProgramUId,attr,omitempty";
  field "ProjectCreationDateAttr" KString "ProjectCreationDate,attr,omitempty";
  field "LastModifiedDateAttr" KString "LastModifiedDate,attr,omitempty";
  field "SFCExecutionControlAttr" KString "SFCExecutionControl,attr,omitempty";
  field "SFCRestartPositionAttr" KString "SFCRestartPosition,attr,omitempty";
  field "SFCLastScanAttr" KString "SFCLastScan,attr,omitempty";
  field "CommDriverAttr" KString "CommDriver,attr,omitempty";
  field "CommPathAttr" KString "CommPath,attr,omitempty";
  field "ProjectSNAttr" KString "ProjectSN,attr,omitempty";
  field "OnlineSNAttr" KString "OnlineSN,attr,omitempty";
  field "MatchProjectToControllerAttr" KString "MatchProjectToController,attr,omitempty";
  field "CanUseRPIFromProducerAttr" KString "CanUseRPIFromProducer,attr,omitempty";
  field "InhibitAutomaticFirmwareUpdateAttr" KString "InhibitAutomaticFirmwareUpdate,attr,omitempty";
  field "CurrentProjectLanguageAttr" KString "CurrentProjectLanguage,attr,omitempty";
  field "DefaultProjectLanguageAttr" KString "DefaultProjectLanguage,attr,omitempty";
  field "ControllerLanguageAttr" KString "ControllerLanguage,attr,omitempty";
  field "PassThroughConfigurationAttr" KString "PassThroughConfiguration,attr,omitempty";
  field "DownloadProjectDocumentationAndExtendedPropertiesAttr" KString "DownloadProjectDocumentationAndExtendedProperties,attr,omitempty";
  field "DownloadProjectCustomPropertiesAttr" KString "DownloadProjectCustomProperties,attr,omitempty";
  field "ReportMinorOverflowAttr" KString "ReportMinorOverflow,attr,omitempty";
  field "IOForcesEnabledAttr" KString "IOForcesEnabled,attr,omitempty";
  field "SFCForcesEnabledAttr" KString "SFCForcesEnabled,attr,omitempty";
  field "RedundancyUIdAttr" KString "RedundancyUId,attr,omitempty";
  field "SafetyUIdAttr" KString "SafetyUId,attr,omitempty";
  field "DataTypesUIdAttr" KString "DataTypesUId,attr,omitempty";
  field "ModulesUIdAttr" KString "ModulesUId,attr,omitempty";
  field "AddOnInstructionDefinitionsUIdAttr" KString "AddOnInstructionDefinitionsUId,attr,omitempty";
  field "TagsUIdAttr" KString "TagsUId,attr,omitempty";
  field "ProgramsUIdAttr" KString "ProgramsUId,attr,omitempty";
  field "TasksUIdAttr" KString "TasksUId,attr,omitempty";
  field "AxesUIdAttr" KString "AxesUId,attr,omitempty";
  field "CoordinateSystemsUIdAttr" KString "CoordinateSystemsUId,attr,omitempty";
  field "MotionGroupsUIdAttr" KString "MotionGroupsUId,attr,omitempty";
  field "CSTUIdAttr" KString "CSTUId,attr,omitempty";
  field "WallClockTimeUIdAttr" KString "WallClockTimeUId,attr,omitempty";
  field "TrendGroupCollectionUIdAttr" KString "TrendGroupCollectionUId,attr,omitempty";
  field "DataLogCollectionUIdAttr" KString "DataLogCollectionUId,attr,omitempty";
  field "TimeSynchronizeUIdAttr" KString "TimeSynchronizeUId,attr,omitempty";
  field "FilePathAttr" KString "FilePath,attr,omitempty";
  field "ProductCodeAttr" KString "ProductCode,attr,omitempty";
  field "VerifiedAttr" KString "Verified,attr,omitempty";
  field "ControllerEditsExistAttr" KString "ControllerEditsExist,attr,omitempty";
  field "PendingEditsExistAttr" KString "PendingEditsExist,attr,omitempty";
  field "ForcesExistAttr" KString "ForcesExist,attr,omitempty";
  field "EditResourceAttr" KString "EditResource,attr,omitempty";
  field "FaultedAttr" KString "Faulted,attr,omitempty";
  field "GeneralStatusAttr" KString "GeneralStatus,attr,omitempty";
  field "IOMapLEDStatusAttr" KString "IOMapLEDStatus,attr,omitempty";
  field "KeySwitchPositionAttr" KString "KeySwitchPosition,attr,omitempty";
  field "ModeAttr" KString "Mode,attr,omitempty";
  field "ConnectedStateAttr" KString "ConnectedState,attr,omitempty";
  field "IsProjectDirtyAttr" KString "IsProjectDirty,attr,omitempty";
  field "IsProjectDirtyFromAnotherWorkstationAttr" KString "IsProjectDirtyFromAnotherWorkstation,attr,omitempty";
  field "EtherNetIPModeAttr" KString "EtherNetIPMode,attr,omitempty";
  field "InstructionUsageConfiguredAOIsAttr" KString "InstructionUsageConfiguredAOIs,attr,omitempty";
  field "InstructionUsageConfiguredInstructionsAttr" KString "InstructionUsageConfiguredInstructions,attr,omitempty";
  field "IsPlantPAxTaskingModelEnabledAttr" KString "IsPlantPAxTaskingModelEnabled,attr,omitempty";
  field "AutoDiagsEnabledAttr" KString "AutoDiagsEnabled,attr,omitempty";
  field "WebServerEnabledAttr" KString "WebServerEnabled,attr,omitempty";
  field "UseAttr" KString "Use,attr,omitempty";
  field "CustomProperties" (KPtr "CustomPropertiesCollectionType") "CustomProperties";
  field "Description" (KPtr "DescriptionType") "Description";
  field "RedundancyInfo" (KPtr "RedundancyInfoType") "RedundancyInfo";
  field "Security" (KPtr "SecurityInfoType") "Security";
  field "SafetyInfo" (KPtr "SafetyInfoType") "SafetyInfo";
  field "DataTypes" (KPtr "DataTypeCollectionType") "DataTypes";
  field "DiagnosticMessages" (KPtr "DiagnosticsMessageCollectionType") "DiagnosticMessages";
  field "DeviceDiagnosticProfiles" (KPtr "DeviceDiagnosticProfileCollectionType") "DeviceDiagnosticProfiles";
  field "Modules" (KPtr "MapDeviceCollectionType") "Modules";
  field "AddOnInstructionDefinitions" (KPtr "UDIDefinitionCollectionType") "AddOnInstructionDefinitions";
  field "AlarmDefinitions" (KPtr "AlarmDefinitionCollectionAdaptorType") "AlarmDefinitions";
  field "Tags" (KPtr "TagCollectionType") "Tags";
  field "Programs" (KPtr "ProgramCollectionType") "Programs";
  field "Tasks" (KPtr "TaskCollectionType") "Tasks";
  field "ParameterConnections" (KPtr "ParameterConnectionCollectionType") "ParameterConnections";
  field "CommPorts" (KPtr "CommPortCollectionType") "CommPorts";
  field "CST" (KPtr "CSTType") "CST";
  field "WallClockTime" (KPtr "WallClockTimeType") "WallClockTime";
  field "Trends" (KPtr "TrendGroupCollectionType") "Trends";
  field "DataLogs" (KPtr "DataLogCollectionType") "DataLogs";
  field "QuickWatchLists" (KPtr "QuickWatchCollectionAdaptorType") "QuickWatchLists";
  field "TimeSynchronize" (KPtr "TimeSynchronizeType") "TimeSynchronize";
  field "InternetProtocol" (KPtr "TCPIPType") "InternetProtocol";
  field "EthernetPorts" (KPtr "EthernetLinkCollectionType") "EthernetPorts";
  field "EthernetNetwork" (KPtr "DeviceLevelRingType") "EthernetNetwork"
].

Definition DescriptionType_fields : list xfield := [
  field "UseAttr" KString "Use,attr,omitempty";
  field "CustomProperties" (KPtr "CustomPropertiesCollectionType") "CustomProperties";
  field "LocalizedDescription" (KSlice "DescriptionTextType") "LocalizedDescription";
  field "InnerValue" KBytes ",innerxml"
].

Definition DescriptionTextType_fields : list xfield := [
  field "LangAttr" KString "Lang,attr";
  field "UseAttr" KString "Use,attr,omitempty";
  field "CustomProperties" (KPtr "CustomPropertiesCollectionType") "CustomProperties"
].

Definition RedundancyInfoType_fields : list xfield := [
  field "UIdAttr" KString "UId,attr,omitempty";
  field "EnabledAttr" KString "Enabled,attr,omitempty";
  field "KeepTestEditsOnSwitchOverAttr" KString "KeepTestEditsOnSwitchOver,attr,omitempty";
  field "IOMemoryPadPercentageAttr" KString "IOMemoryPadPercentage,attr,omitempty";
  field "DataTablePadPercentageAttr" KString "DataTablePadPercentage,attr,omitempty";
  field "UseAttr" KString "Use,attr,omitempty";
  field "CustomProperties" (KPtr "CustomPropertiesCollectionType") "CustomProperties"
].

Definition SecurityInfoType_fields : list xfield := [
  field "CodeAttr" KString "Code,attr,omitempty";
  field "SecurityAuthorityIDAttr" KString "SecurityAuthorityID,attr,omitempty";
  field "SecurityAuthorityURIAttr" KString "SecurityAuthorityURI,attr,omitempty";
  field "SecondarySecurityAuthorityIDAttr" KString "SecondarySecurityAuthorityID,attr,omitempty";
  field "SecondarySecurityAuthorityURIAttr" KString "SecondarySecurityAuthorityURI,attr,omitempty";
  field "ChangesToDetectAttr" KString "ChangesToDetect,attr,omitempty";
  field "TrustedSlotsAttr" KString "TrustedSlots,attr,omitempty";
  field "PermissionSetAttr" KString "PermissionSet,attr,omitempty";
  field "UseAttr" KString "Use,attr,omitempty";
  field "CustomProperties" (KPtr "CustomPropertiesCollectionType") "CustomProperties";
  field "PrimaryActionSets" (KPtr "PrimaryActionSetCollectionType") "PrimaryActionSets"
].

Definition SafetyTagMap_fields : list xfield := [
  field "Value" KString ",chardata"
].

Definition SafetyInfoType_fields : list xfield := [
  field "UIdAttr" KString "UId,attr,omitempty";
  field "SafetySignatureAttr" KString "SafetySignature,attr,omitempty";
  field "SafetyLockedAttr" KString "SafetyLocked,attr,omitempty";
  field "SafetyLockPasswordAttr" KString "SafetyLockPassword,attr,omitempty";
  field "SafetyUnlockPasswordAttr" KString "SafetyUnlockPassword,attr,omitempty";
  field "SignatureRunModeProtectAttr" KString "SignatureRunModeProtect,attr,omitempty";
  field "ConfigureSafetyIOAlwaysAttr" KString "ConfigureSafetyIOAlways,attr,omitempty";
  field "SafetySignedAttr" KString "SafetySigned,attr,omitempty";
  field "SafetyLevelAttr" KString "SafetyLevel,attr,omitempty";
  field "UseAttr" KString "Use,attr,omitempty";
  field "CustomProperties" (KPtr "CustomPropertiesCollectionType") "CustomProperties";
  field "SafetyTaskFaultString" KString "SafetyTaskFaultString";
  field "SafetyTagMap" (KPtr "SafetyTagMap") "SafetyTagMap"
].

Definition DataTypeCollectionType_fields : list xfield := [
  field "UIdAttr" KString "UId,attr,omitempty";
  field "ParentUIdAttr" KString "ParentUId,attr,omitempty";
  field "UseAttr" KString "Use,attr,omitempty";
  field "CustomProperties" (KPtr "CustomPropertiesCollectionType") "CustomProperties";
  field "DataType" (KSlice "DataTypeType") "DataType"
].

Definition DataTypeType_fields : list xfield := [
  field "NameAttr" KString "Name,attr";
  field "FamilyAttr" KString "Family,attr,omitempty";
  field "ClassAttr" KString "Class,attr,omitempty";
  field "UIdAttr" KString "UId,attr,omitempty";
  field "ParentUIdAttr" KString "ParentUId,attr,omitempty";
  field "SizeAttr" KString "Size,attr,omitempty";
  field "VerifiedAttr" KString "Verified,attr,omitempty";
  field "DeletionProhibitedAttr" KString "DeletionProhibited,attr,omitempty";
  field "UseAttr" KString "Use,attr,omitempty";
  field "CustomProperties" (KPtr "CustomPropertiesCollectionType") "CustomProperties";
  field "Description" (KPtr "DescriptionType") "Description";
  field "EngineeringUnit" (KPtr "EngineeringUnitType") "EngineeringUnit";
  field "Members" (KPtr "TypeMemberCollectionType") "Members";
  field "Dependencies" (KSlice "DependenciesWideType") "Dependencies"
].

Definition TypeMemberCollectionType_fields : list xfield := [
  field "UseAttr" KString "Use,attr,omitempty";
  field "CustomProperties" (KPtr "CustomPropertiesCollectionType") "CustomProperties";
  field "Member" (KSlice "DataTypeMemberType") "Member"
].

Definition DataTypeMemberType_fields : list xfield := [
  field "NameAttr" KString "Name,attr";
  field "DataTypeAttr" KString "DataType,attr";
  field "DataTypeUIdAttr" KString "DataTypeUId,attr,omitempty";
  field "DimensionAttr" KString "Dimension,attr,omitempty";
  field "RadixAttr" KString "Radix,attr,omitempty";
  field "HiddenAttr" KString "Hidden,attr,omitempty";
  field "TargetAttr" KString "Target,attr,omitempty";
  field "BitNumberAttr" KInt "BitNumber,attr,omitempty";
  field "SizeAttr" KString "Size,attr,omitempty";
  field "OffsetAttr" KString "Offset,attr,omitempty";
  field "MaxAttr" KString "Max,attr,omitempty";
  field "MinAttr" KString "Min,attr,omitempty";
  field "DefaultValueAttr" KString "DefaultValue,attr,omitempty";
  field "EditIDAttr" KString "EditID,attr,omitempty";
  field "ExternalAccessAttr" KString "ExternalAccess,attr,omitempty";
  field "UIdAttr" KString "UId,attr,omitempty";
  field "UseAttr" KString "Use,attr,omitempty";
  field "CustomProperties" (KPtr "CustomPropertiesCollectionType") "CustomProperties";
  field "Description" (KPtr "DescriptionType") "Description";
  field "EngineeringUnit" (KPtr "EngineeringUnitType") "EngineeringUnit";
  field "State0" (KPtr "State0Type") "State0";
  field "State1" (KPtr "State1Type") "State1"
].

Definition DataTypeDependencyCollectionType_fields : list xfield := [
  field "UseAttr" KString "Use,attr,omitempty";
  field "CustomProperties" (KPtr "CustomPropertiesCollectionType") "CustomProperties";
  field "Dependency" (KSlice "DependencyWideType") "Dependency"
].

Definition DataTypeDependencyType_fields : list xfield := [
  field "TypeAttr" KString "Type,attr,omitempty";
  field "NameAttr" KString "Name,attr,omitempty";
  field "UseAttr" KString "Use,attr,omitempty";
  field "CustomProperties" (KPtr "CustomPropertiesCollectionType") "CustomProperties"
].

Definition DiagnosticsMessageCollectionType_fields : list xfield := [
  field "UseAttr" KString "Use,attr,omitempty";
  field "CustomProperties" (KPtr "CustomPropertiesCollectionType") "CustomProperties";
  field "DiagnosticMessage" (KSlice "DiagnosticsMessageAdaptorType") "DiagnosticMessage"
].

Definition DiagnosticsMessageAdaptorType_fields : list xfield := [
  field "IDAttr" KString "ID,attr";
  field "VersionAttr" KString "Version,attr";
  field "DisplayCodeAttr" KString "DisplayCode,attr";
  field "UseAttr" KString "Use,attr,omitempty";
  field "CustomProperties" (KPtr "CustomPropertiesCollectionType") "CustomProperties";
  field "DisplayText" (KSlice "DisplayTextType") "DisplayText"
].

Definition DisplayTextType_fields : list xfield := [
  field "LangAttr" KString "Lang,attr";
  field "UseAttr" KString "Use,attr,omitempty";
  field "CustomProperties" (KPtr "CustomPropertiesCollectionType") "CustomProperties"
].

Definition DeviceDiagnosticProfileCollectionType_fields : list xfield := [
  field "UseAttr" KString "Use,attr,omitempty";
  field "CustomProperties" (KPtr "CustomPropertiesCollectionType") "CustomProperties";
  field "DeviceDiagnosticProfile" (KSlice "DeviceDiagnosticProfileType") "DeviceDiagnosticProfile"
].

Definition ProfileDefinition_fields : list xfield := [

].

Definition DeviceDiagnosticProfileType_fields : list xfield := [
  field "IDAttr" KString "ID,attr";
  field "VersionAttr" KString "Version,attr";
  field "ProfileReferencesAttr" KString "ProfileReferences,attr,omitempty";
  field "MessageReferencesAttr" KString "MessageReferences,attr,omitempty";
  field "UseAttr" KString "Use,attr,omitempty";
  field "CustomProperties" (KPtr "CustomPropertiesCollectionType") "CustomProperties";
  field "ProfileDefinition" (KPtr "ProfileDefinition") "ProfileDefinition"
].

Definition MapDeviceCollectionType_fields : list xfield := [
  field "UIdAttr" KString "UId,attr,omitempty";
  field "ParentUIdAttr" KString "ParentUId,attr,omitempty";
  field "UseAttr" KString "Use,attr,omitempty";
  field "CustomProperties" (KPtr "CustomPropertiesCollectionType") "CustomProperties";
  field "Module" (KSlice "MapDeviceType") "Module"
].

Definition ExtendedProperties_fields : list xfield := [

].

Definition MapDeviceType_fields : list xfield := [
  field "NameAttr" KString "Name,attr,omitempty";
  field "UIdAttr" KString "UId,attr,omitempty";
  field "CatalogNumberAttr" KString "CatalogNumber,attr,omitempty";
  field "VendorAttr" KString "Vendor,attr,omitempty";
  field "ProductTypeAttr" KString "ProductType,attr,omitempty";
  field "ProductCodeAttr" KString "ProductCode,attr,omitempty";
  field "MajorAttr" KString "Major,attr,omitempty";
  field "MinorAttr" KString "Minor,attr,omitempty";
  field "UserDefinedVendorAttr" KString "UserDefinedVendor,attr,omitempty";
  field "UserDefinedProductTypeAttr" KString "UserDefinedProductType,attr,omitempty";
  field "UserDefinedProductCodeAttr" KString "UserDefinedProductCode,attr,omitempty";
  field "UserDefinedMajorAttr" KString "UserDefinedMajor,attr,omitempty";
  field "UserDefinedMinorAttr" KString "UserDefinedMinor,attr,omitempty";
  field "ParentUIdAttr" KString "ParentUId,attr,omitempty";
  field "ParentModuleAttr" KString "ParentModule,attr,omitempty";
  field "ParentModuleUIdAttr" KString "ParentModuleUId,attr,omitempty";
  field "ParentModPortIdAttr" KString "ParentModPortId,attr,omitempty";
  field "InhibitedAttr" KString "Inhibited,attr,omitempty";
  field "MajorFaultAttr" KString "MajorFault,attr,omitempty";
  field "DriverTypeAttr" KString "DriverType,attr,omitempty";
  field "ThrottleAttr" KString "Throttle,attr,omitempty";
  field "ControlNetSignatureAttr" KString "ControlNetSignature,attr,omitempty";
  field "SafetyNetworkAttr" KString "SafetyNetwork,attr,omitempty";
  field "ConfigRevSupportedAttr" KString "ConfigRevSupported,attr,omitempty";
  field "BumplessReconfigSupportedAttr" KString "BumplessReconfigSupported,attr,omitempty";
  field "IncludePortSegmentAttr" KString "IncludePortSegment,attr,omitempty";
  field "IncludeKeySegmentAttr" KString "IncludeKeySegment,attr,omitempty";
  field "ShutdownParentOnFaultAttr" KString "ShutdownParentOnFault,attr,omitempty";
  field "DrivesADCModeAttr" KString "DrivesADCMode,attr,omitempty";
  field "DrivesADCEnabledAttr" KString "DrivesADCEnabled,attr,omitempty";
  field "VerifiedAttr" KString "Verified,attr,omitempty";
  field "FaultCodeAttr" KString "FaultCode,attr,omitempty";
  field "FaultInfoAttr" KString "FaultInfo,attr,omitempty";
  field "StatusAttr" KString "Status,attr,omitempty";
  field "StatusStringAttr" KString "StatusString,attr,omitempty";
  field "UserDefinedCatalogNumberAttr" KString "UserDefinedCatalogNumber,attr,omitempty";
  field "SafetyEnabledAttr" KString "SafetyEnabled,attr,omitempty";
  field "TrackingGroupsAttr" KString "TrackingGroups,attr,omitempty";
  field "ImportCreateModeAttr" KString "ImportCreateMode,attr,omitempty";
  field "AutoDiagsEnabledAttr" KString "AutoDiagsEnabled,attr,omitempty";
  field "DiagnosticProfileIDAttr" KString "DiagnosticProfileID,attr,omitempty";
  field "DuplexEnabledAttr" KString "DuplexEnabled,attr,omitempty";
  field "UseAttr" KString "Use,attr,omitempty";
  field "CustomProperties" (KPtr "CustomPropertiesCollectionType") "CustomProperties";
  field "Description" (KPtr "DescriptionType") "Description";
  field "FaultString" KString "FaultString";
  field "EKey" (KPtr "ModuleEKeyType") "EKey";
  field "Ports" (KPtr "PortCollectionType") "Ports";
  field "Communications" (KPtr "CommunicationsType") "Communications";
  field "ExtendedProperties" (KPtr "ExtendedProperties") "ExtendedProperties";
  field "PingMethod" (KPtr "PingMethodType") "PingMethod";
  field "SiblingDependencies" (KPtr "SiblingDependenciesCollectionType") "SiblingDependencies"
].

Definition ModuleEKeyType_fields : list xfield := [
  field "StateAttr" KString "State,attr";
  field "RelaxedAttr" KString "Relaxed,attr,omitempty";
  field "VendorAttr" KString "Vendor,attr,omitempty";
  field "ProductCodeAttr" KString "ProductCode,attr,omitempty";
  field "ProductTypeAttr" KString "ProductType,attr,omitempty";
  field "MajorAttr" KString "Major,attr,omitempty";
  field "MinorAttr" KString "Minor,attr,omitempty";
  field "UseAttr" KString "Use,attr,omitempty";
  field "CustomProperties" (KPtr "CustomPropertiesCollectionType") "CustomProperties"
].

Definition PortCollectionType_fields : list xfield := [
  field "UseAttr" KString "Use,attr,omitempty";
  field "CustomProperties" (KPtr "CustomPropertiesCollectionType") "CustomProperties";
  field "Port" (KSlice "PortType") "Port"
].

Definition PortType_fields : list xfield := [
  field "IdAttr" KString "Id,attr";
  field "UIdAttr" KString "UId,attr,omitempty";
  field "AddressAttr" KString "Address,attr,omitempty";
  field "AddressBAttr" KString "AddressB,attr,omitempty";
  field "RcpGatewayAddress1Attr" KString "RcpGatewayAddress1,attr,omitempty";
  field "RcpGatewayAddress2Attr" KString "RcpGatewayAddress2,attr,omitempty";
  field "TypeAttr" KString "Type,attr,omitempty";
  field "UpstreamAttr" KString "Upstream,attr,omitempty";
  field "ConnectorOffsetAttr" KString "ConnectorOffset,attr,omitempty";
  field "WidthAttr" KString "Width,attr,omitempty";
  field "NATActualAddressAttr" KString "NATActualAddress,attr,omitempty";
  field "ValidationAttr" KString "Validation,attr,omitempty";
  field "SafetyNetworkAttr" KString "SafetyNetwork,attr,omitempty";
  field "UseAttr" KString "Use,attr,omitempty";
  field "CustomProperties" (KPtr "CustomPropertiesCollectionType") "CustomProperties";
  field "Bus" (KPtr "ABusType") "Bus"
].

Definition ABusType_fields : list xfield := [
  field "UIdAttr" KString "UId,attr,omitempty";
  field "SizeAttr" KString "Size,attr,omitempty";
  field "BaudAttr" KString "Baud,attr,omitempty";
  field "AddressMaskAttr" KString "AddressMask,attr,omitempty";
  field "UseAttr" KString "Use,attr,omitempty";
  field "CustomProperties" (KPtr "CustomPropertiesCollectionType") "CustomProperties"
].

Definition CommunicationsType_fields : list xfield := [
  field "CommMethodAttr" KString "CommMethod,attr,omitempty";
  field "ConfigTagUIdAttr" KString "ConfigTagUId,attr,omitempty";
  field "PrimCxnInputSizeAttr" KString "PrimCxnInputSize,attr,omitempty";
  field "PrimCxnOutputSizeAttr" KString "PrimCxnOutputSize,attr,omitempty";
  field "SecCxnInputSizeAttr" KString "SecCxnInputSize,attr,omitempty";
  field "SecCxnOutputSizeAttr" KString "SecCxnOutputSize,attr,omitempty";
  field "UseAttr" KString "Use,attr,omitempty";
  field "CustomProperties" (KPtr "CustomPropertiesCollectionType") "CustomProperties";
  field "ConfigData" (KPtr "ConfigDataType") "ConfigData";
  field "ConfigTag" (KPtr "ConfigTagType") "ConfigTag";
  field "ConfigScript" (KPtr "ConfigScriptType") "ConfigScript";
  field "SafetyScript" (KPtr "SafetyScriptType") "SafetyScript";
  field "Connections" (KPtr "MapConnectionCollectionType") "Connections"
].

Definition ConfigTagType_fields : list xfield := [
  field "SuffixAttr" KString "Suffix,attr,omitempty";
  field "UIdAttr" KString "UId,attr,omitempty";
  field "ParentUIdAttr" KString "ParentUId,attr,omitempty";
  field "ConfigSizeAttr" KString "ConfigSize,attr,omitempty";
  field "DataTypeAttr" KString "DataType,attr,omitempty";
  field "DimensionsAttr" KString "Dimensions,attr,omitempty";
  field "RadixAttr" KString "Radix,attr,omitempty";
  field "MaxAttr" KString "Max,attr,omitempty";
  field "MinAttr" KString "Min,attr,omitempty";
  field "ExternalAccessAttr" KString "ExternalAccess,attr,omitempty";
  field "ConstantAttr" KString "Constant,attr,omitempty";
  field "PermissionSetAttr" KString "PermissionSet,attr,omitempty";
  field "VerifiedAttr" KString "Verified,attr,omitempty";
  field "TrackingGroupsAttr" KString "TrackingGroups,attr,omitempty";
  field "UseAttr" KString "Use,attr,omitempty";
  field "CustomProperties" (KSlice "CustomPropertiesCollectionType") "CustomProperties";
  field "Description" (KSlice "DescriptionType") "Description";
  field "Data" (KSlice "DataWideType") "Data";
  field "Comments" (KSlice "CommentCollectionType") "Comments";
  field "EngineeringUnits" (KSlice "EngineeringUnitCollectionType") "EngineeringUnits";
  field "Maxes" (KSlice "MaxLimitCollectionType") "Maxes";
  field "Mins" (KSlice "MinLimitCollectionType") "Mins";
  field "State0s" (KSlice "State0CollectionType") "State0s";
  field "State1s" (KSlice "State1CollectionType") "State1s"
].

Definition ConfigDataType_fields : list xfield := [
  field "UIdAttr" KString "UId,attr,omitempty";
  field "ConfigSizeAttr" KString "ConfigSize,attr,omitempty";
  field "DataTypeAttr" KString "DataType,attr,omitempty";
  field "DimensionAttr" KString "Dimension,attr,omitempty";
  field "UseAttr" KString "Use,attr,omitempty";
  field "CustomProperties" (KPtr "CustomPropertiesCollectionType") "CustomProperties";
  field "Data" (KSlice "DataWideType") "Data"
].

Definition ConfigScriptType_fields : list xfield := [
  field "UIdAttr" KString "UId,attr,omitempty";
  field "SizeAttr" KString "Size,attr";
  field "UseAttr" KString "Use,attr,omitempty";
  field "CustomProperties" (KPtr "CustomPropertiesCollectionType") "CustomProperties";
  field "Data" (KSlice "DataWideType") "Data"
].

Definition SafetyScriptType_fields : list xfield := [
  field "UIdAttr" KString "UId,attr,omitempty";
  field "SizeAttr" KString "Size,attr";
  field "UseAttr" KString "Use,attr,omitempty";
  field "CustomProperties" (KPtr "CustomPropertiesCollectionType") "CustomProperties";
  field "Data" (KSlice "DataWideType") "Data"
].

Definition MapConnectionCollectionType_fields : list xfield := [
  field "UIdAttr" KString "UId,attr,omitempty";
  field "UseAttr" KString "Use,attr,omitempty";
  field "CustomProperties" (KPtr "CustomPropertiesCollectionType") "CustomProperties";
  field "Connection" (KSlice "MapConnectionType") "Connection";
  field "RackConnection" (KPtr "RackConnectionType") "RackConnection"
].

Definition MapConnectionType_fields : list xfield := [
  field "NameAttr" KString "Name,attr";
  field "UIdAttr" KString "UId,attr,omitempty";
  field "RPIAttr" KString "RPI,attr";
  field "TypeAttr" KString "Type,attr,omitempty";
  field "InputTagUIdAttr" KString "InputTagUId,attr,omitempty";
  field "OutputTagUIdAttr" KString "OutputTagUId,attr,omitempty";
  field "InputCxnPointAttr" KString "InputCxnPoint,attr,omitempty";
  field "OutputCxnPointAttr" KString "OutputCxnPoint,attr,omitempty";
  field "InputSizeAttr" KString "InputSize,attr,omitempty";
  field "OutputSizeAttr" KString "OutputSize,attr,omitempty";
  field "EventIDAttr" KString "EventID,attr,omitempty";
  field "ProgrammaticallySendEventTriggerAttr" KString "ProgrammaticallySendEventTrigger,attr,omitempty";
  field "TimeoutMultiplierAttr" KString "TimeoutMultiplier,attr,omitempty";
  field "NetworkDelayMultiplierAttr" KString "NetworkDelayMultiplier,attr,omitempty";
  field "ReactionTimeLimitAttr" KString "ReactionTimeLimit,attr,omitempty";
  field "MaxObservedNetworkDelayAttr" KString "MaxObservedNetworkDelay,attr,omitempty";
  field "ControlNetScheduledAttr" KString "ControlNetScheduled,attr,omitempty";
  field "UnicastAttr" KString "Unicast,attr,omitempty";
  field "OpenOrderAttr" KString "OpenOrder,attr,omitempty";
  field "InputRealTimeFormatAttr" KString "InputRealTimeFormat,attr,omitempty";
  field "OutputRealTimeFormatAttr" KString "OutputRealTimeFormat,attr,omitempty";
  field "ConnMultiplierAttr" KString "ConnMultiplier,attr,omitempty";
  field "OutputSizeVariableAttr" KString "OutputSizeVariable,attr,omitempty";
  field "InputSizeVariableAttr" KString "InputSizeVariable,attr,omitempty";
  field "OutputPriorityAttr" KString "OutputPriority,attr,omitempty";
  field "PriorityAttr" KString "Priority,attr,omitempty";
  field "OutputConnectionTypeAttr" KString "OutputConnectionType,attr,omitempty";
  field "InputConnectionTypeAttr" KString "InputConnectionType,attr,omitempty";
  field "OutputRedundantOwnerAttr" KString "OutputRedundantOwner,attr,omitempty";
  field "OutputRPIAttr" KString "OutputRPI,attr,omitempty";
  field "TransportClassAttr" KString "TransportClass,attr,omitempty";
  field "InputProductionTriggerAttr" KString "InputProductionTrigger,attr,omitempty";
  field "DirectionAttr" KString "Direction,attr,omitempty";
  field "ConnectionPathAttr" KString "ConnectionPath,attr,omitempty";
  field "IncludeDataSegmentAttr" KString "IncludeDataSegment,attr,omitempty";
  field "GenerateFaultMemberAttr" KString "GenerateFaultMember,attr,omitempty";
  field "InputTagSuffixAttr" KString "InputTagSuffix,attr,omitempty";
  field "OutputTagSuffixAttr" KString "OutputTagSuffix,attr,omitempty";
  field "DisplayNameAttr" KString "DisplayName,attr,omitempty";
  field "MaxConsumerNumberAttr" KString "MaxConsumerNumber,attr,omitempty";
  field "ExcludeFromAggregationAttr" KString "ExcludeFromAggregation,attr,omitempty";
  field "IsConcurrentAttr" KString "IsConcurrent,attr,omitempty";
  field "UseAttr" KString "Use,attr,omitempty";
  field "CustomProperties" (KPtr "CustomPropertiesCollectionType") "CustomProperties";
  field "InputTag" (KPtr "InputTagType") "InputTag";
  field "InputData" (KPtr "InputDataType") "InputData";
  field "OutputTag" (KPtr "OutputTagType") "OutputTag";
  field "OutputData" (KPtr "OutputDataType") "OutputData";
  field "InputImageInit" (KPtr "InputImageInitType") "InputImageInit"
].

Definition InputTagType_fields : list xfield := [
  field "SuffixAttr" KString "Suffix,attr,omitempty";
  field "UIdAttr" KString "UId,attr,omitempty";
  field "ParentUIdAttr" KString "ParentUId,attr,omitempty";
  field "DataTypeAttr" KString "DataType,attr,omitempty";
  field "MaxAttr" KString "Max,attr,omitempty";
  field "MinAttr" KString "Min,attr,omitempty";
  field "ExternalAccessAttr" KString "ExternalAccess,attr,omitempty";
  field "ConstantAttr" KString "Constant,attr,omitempty";
  field "PermissionSetAttr" KString "PermissionSet,attr,omitempty";
  field "VerifiedAttr" KString "Verified,attr,omitempty";
  field "TrackingGroupsAttr" KString "TrackingGroups,attr,omitempty";
  field "UseAttr" KString "Use,attr,omitempty";
  field "CustomProperties" (KSlice "CustomPropertiesCollectionType") "CustomProperties";
  field "Description" (KSlice "DescriptionType") "Description";
  field "Comments" (KSlice "CommentCollectionType") "Comments";
  field "EngineeringUnits" (KSlice "EngineeringUnitCollectionType") "EngineeringUnits";
  field "Maxes" (KSlice "MaxLimitCollectionType") "Maxes";
  field "Mins" (KSlice "MinLimitCollectionType") "Mins";
  field "State0s" (KSlice "State0CollectionType") "State0s";
  field "State1s" (KSlice "State1CollectionType") "State1s";
  field "Data" (KSlice "DataWideType") "Data";
  field "ForceData" (KSlice "ForceDataWideType") "ForceData"
].

Definition InputDataType_fields : list xfield := [
  field "UIdAttr" KString "UId,attr,omitempty";
  field "DataTypeAttr" KString "DataType,attr,omitempty";
  field "DimensionAttr" KString "Dimension,attr,omitempty";
  field "UseAttr" KString "Use,attr,omitempty";
  field "CustomProperties" (KPtr "CustomPropertiesCollectionType") "CustomProperties";
  field "Data" (KSlice "DataWideType") "Data"
].

Definition OutputTagType_fields : list xfield := [
  field "SuffixAttr" KString "Suffix,attr,omitempty";
  field "UIdAttr" KString "UId,attr,omitempty";
  field "ParentUIdAttr" KString "ParentUId,attr,omitempty";
  field "DataTypeAttr" KString "DataType,attr,omitempty";
  field "MaxAttr" KString "Max,attr,omitempty";
  field "MinAttr" KString "Min,attr,omitempty";
  field "ExternalAccessAttr" KString "ExternalAccess,attr,omitempty";
  field "ConstantAttr" KString "Constant,attr,omitempty";
  field "PermissionSetAttr" KString "PermissionSet,attr,omitempty";
  field "VerifiedAttr" KString "Verified,attr,omitempty";
  field "TrackingGroupsAttr" KString "TrackingGroups,attr,omitempty";
  field "UseAttr" KString "Use,attr,omitempty";
  field "CustomProperties" (KSlice "CustomPropertiesCollectionType") "CustomProperties";
  field "Description" (KSlice "DescriptionType") "Description";
  field "Comments" (KSlice "CommentCollectionType") "Comments";
  field "EngineeringUnits" (KSlice "EngineeringUnitCollectionType") "EngineeringUnits";
  field "Maxes" (KSlice "MaxLimitCollectionType") "Maxes";
  field "Mins" (KSlice "MinLimitCollectionType") "Mins";
  field "State0s" (KSlice "State0CollectionType") "State0s";
  field "State1s" (KSlice "State1CollectionType") "State1s";
  field "Data" (KSlice "DataWideType") "Data";
  field "ForceData" (KSlice "ForceDataWideType") "ForceData"
].

Definition OutputDataType_fields : list xfield := [
  field "UIdAttr" KString "UId,attr,omitempty";
  field "DataTypeAttr" KString "DataType,attr,omitempty";
  field "DimensionAttr" KString "Dimension,attr,omitempty";
  field "UseAttr" KString "Use,attr,omitempty";
  field "CustomProperties" (KPtr "CustomPropertiesCollectionType") "CustomProperties";
  field "Data" (KSlice "DataWideType") "Data"
].

Definition InputImageInitType_fields : list xfield := [
  field "UIdAttr" KString "UId,attr,omitempty";
  field "TypeAttr" KString "Type,attr";
  field "SizeAttr" KString "Size,attr,omitempty";
  field "MaskValueSizeAttr" KString "MaskValueSize,attr,omitempty";
  field "UseAttr" KString "Use,attr,omitempty";
  field "CustomProperties" (KPtr "CustomPropertiesCollectionType") "CustomProperties";
  field "Data" (KSlice "DataWideType") "Data"
].

Definition RackConnectionType_fields : list xfield := [
  field "UseAttr" KString "Use,attr,omitempty";
  field "CustomProperties" (KPtr "CustomPropertiesCollectionType") "CustomProperties";
  field "InAliasTag" (KPtr "InAliasTagType") "InAliasTag";
  field "OutAliasTag" (KPtr "OutAliasTagType") "OutAliasTag"
].

Definition InAliasTagType_fields : list xfield := [
  field "SuffixAttr" KString "Suffix,attr,omitempty";
  field "UIdAttr" KString "UId,attr,omitempty";
  field "ParentUIdAttr" KString "ParentUId,attr,omitempty";
  field "MaxAttr" KString "Max,attr,omitempty";
  field "MinAttr" KString "Min,attr,omitempty";
  field "VerifiedAttr" KString "Verified,attr,omitempty";
  field "UseAttr" KString "Use,attr,omitempty";
  field "CustomProperties" (KPtr "CustomPropertiesCollectionType") "CustomProperties";
  field "Description" (KPtr "DescriptionType") "Description";
  field "Comments" (KPtr "CommentCollectionType") "Comments";
  field "EngineeringUnits" (KPtr "EngineeringUnitCollectionType") "EngineeringUnits";
  field "Maxes" (KPtr "MaxLimitCollectionType") "Maxes";
  field "Mins" (KPtr "MinLimitCollectionType") "Mins";
  field "State0s" (KPtr "State0CollectionType") "State0s";
  field "State1s" (KPtr "State1CollectionType") "State1s"
].

Definition OutAliasTagType_fields : list xfield := [
  field "SuffixAttr" KString "Suffix,attr,omitempty";
  field "UIdAttr" KString "UId,attr,omitempty";
  field "ParentUIdAttr" KString "ParentUId,attr,omitempty";
  field "MaxAttr" KString "Max,attr,omitempty";
  field "MinAttr" KString "Min,attr,omitempty";
  field "VerifiedAttr" KString "Verified,attr,omitempty";
  field "UseAttr" KString "Use,attr,omitempty";
  field "CustomProperties" (KPtr "CustomPropertiesCollectionType") "CustomProperties";
  field "Description" (KPtr "DescriptionType") "Description";
  field "Comments" (KPtr "CommentCollectionType") "Comments";
  field "EngineeringUnits" (KPtr "EngineeringUnitCollectionType") "EngineeringUnits";
  field "Maxes" (KPtr "MaxLimitCollectionType") "Maxes";
  field "Mins" (KPtr "MinLimitCollectionType") "Mins";
  field "State0s" (KPtr "State0CollectionType") "State0s";
  field "State1s" (KPtr "State1CollectionType") "State1s"
].

Definition PingMethodType_fields : list xfield := [
  field "TypeAttr" KString "Type,attr";
  field "UseAttr" KString "Use,attr,omitempty";
  field "CustomProperties" (KPtr "CustomPropertiesCollectionType") "CustomProperties"
].

Definition SiblingDependenciesCollectionType_fields : list xfield := [
  field "UseAttr" KString "Use,attr,omitempty";
  field "CustomProperties" (KPtr "CustomPropertiesCollectionType") "CustomProperties";
  field "SiblingDependency" (KSlice "SiblingDependencyAdaptorType") "SiblingDependency"
].

Definition SiblingDependencyAdaptorType_fields : list xfield := [
  field "ParentModPortIdAttr" KString "ParentModPortId,attr";
  field "AddressAttr" KString "Address,attr";
  field "UseAttr" KString "Use,attr,omitempty";
  field "CustomProperties" (KPtr "CustomPropertiesCollectionType") "CustomProperties"
].

Definition UDIDefinitionCollectionType_fields : list xfield := [
  field "UIdAttr" KString "UId,attr,omitempty";
  field "ParentUIdAttr" KString "ParentUId,attr,omitempty";
  field "UseAttr" KString "Use,attr,omitempty";
  field "EncodedData" (KSlice "EncodedUDIDefinitionType") "EncodedData";
  field "CustomProperties" (KSlice "CustomPropertiesCollectionType") "CustomProperties";
  field "AddOnInstructionDefinition" (KSlice "UDIDefinitionType") "AddOnInstructionDefinition"
].

Definition EncryptedAOIContent_fields : list xfield := [
  field "Value" KString ",chardata"
].

Definition UDIDefinitionType_fields : list xfield := [
  field "NameAttr" KString "Name,attr";
  field "UIdAttr" KString "UId,attr,omitempty";
  field "ParentUIdAttr" KString "ParentUId,attr,omitempty";
  field "ClassAttr" KString "Class,attr,omitempty";
  field "RevisionAttr" KString "Revision,attr,omitempty";
  field "RevisionExtensionAttr" KString "RevisionExtension,attr,omitempty";
  field "VendorAttr" KString "Vendor,attr,omitempty";
  field "ExecutePrescanAttr" KString "ExecutePrescan,attr,omitempty";
  field "ExecutePostscanAttr" KString "ExecutePostscan,attr,omitempty";
  field "ExecuteEnableInFalseAttr" KString "ExecuteEnableInFalse,attr,omitempty";
  field "SignatureIDAttr" KString "SignatureID,attr,omitempty";
  field "SignatureTimestampAttr" KString "SignatureTimestamp,attr,omitempty";
  field "SafetySignatureIDAttr" KString "SafetySignatureID,attr,omitempty";
  field "CreatedDateAttr" KString "CreatedDate,attr,omitempty";
  field "CreatedByAttr" KString "CreatedBy,attr,omitempty";
  field "EditedDateAttr" KString "EditedDate,attr,omitempty";
  field "EditedByAttr" KString "EditedBy,attr,omitempty";
  field "SoftwareRevisionAttr" KString "SoftwareRevision,attr,omitempty";
  field "OriginalLibraryAttr" KString "OriginalLibrary,attr,omitempty";
  field "OriginalNameAttr" KString "OriginalName,attr,omitempty";
  field "OriginalRevisionAttr" KString "OriginalRevision,attr,omitempty";
  field "OriginalVendorAttr" KString "OriginalVendor,attr,omitempty";
  field "AddedToProjectAttr" KString "AddedToProject,attr,omitempty";
  field "SourceKeyAttr" KString "SourceKey,attr,omitempty";
  field "EncodedSourceKeyAttr" KString "EncodedSourceKey,attr,omitempty";
  field "SourceProtectionTypeAttr" KString "SourceProtectionType,attr,omitempty";
  field "IsEncryptedAttr" KString "IsEncrypted,attr,omitempty";
  field "PermissionSetAttr" KString "PermissionSet,attr,omitempty";
  field "TrackingGroupsAttr" KString "TrackingGroups,attr,omitempty";
  field "LogicHashAttr" KString "LogicHash,attr,omitempty";
  field "DescriptionHashAttr" KString "DescriptionHash,attr,omitempty";
  field "UseAttr" KString "Use,attr,omitempty";
  field "CustomProperties" (KPtr "CustomPropertiesCollectionType") "CustomProperties";
  field "Description" (KPtr "DescriptionType") "Description";
  field "RevisionNote" (KPtr "RevisionNoteType") "RevisionNote";
  field "SignatureHistory" (KPtr "SignatureHistoryType") "SignatureHistory";
  field "AdditionalHelpText" (KPtr "AdditionalHelpTextType") "AdditionalHelpText";
  field "EncryptionInfo" (KPtr "EncryptionInfoType") "EncryptionInfo";
  field "Parameters" (KPtr "UDIParameterCollectionType") "Parameters";
  field "LocalTags" (KPtr "UDILocalTagCollectionType") "LocalTags";
  field "Tags" (KPtr "TagCollectionType") "Tags";
  field "Routines" (KPtr "RoutineCollectionType") "Routines";
  field "Dependencies" (KSlice "DependenciesWideType") "Dependencies";
  field "EncryptedAOIContent" (KPtr "EncryptedAOIContent") "EncryptedAOIContent"
].

Definition EncodedUDIDefinitionType_fields : list xfield := [
  field "EncodedTypeAttr" KString "EncodedType,attr,omitempty";
  field "NameAttr" KString "Name,attr,omitempty";
  field "UIdAttr" KString "UId,attr,omitempty";
  field "ClassAttr" KString "Class,attr,omitempty";
  field "RevisionAttr" KString "Revision,attr,omitempty";
  field "RevisionExtensionAttr" KString "RevisionExtension,attr,omitempty";
  field "VendorAttr" KString "Vendor,attr,omitempty";
  field "SignatureIDAttr" KString "SignatureID,attr,omitempty";
  field "SignatureTimestampAttr" KString "SignatureTimestamp,attr,omitempty";
  field "SafetySignatureIDAttr" KString "SafetySignatureID,attr,omitempty";
  field "EditedDateAttr" KString "EditedDate,attr,omitempty";
  field "SoftwareRevisionAttr" KString "SoftwareRevision,attr,omitempty";
  field "OriginalLibraryAttr" KString "OriginalLibrary,attr,omitempty";
  field "OriginalNameAttr" KString "OriginalName,attr,omitempty";
  field "OriginalRevisionAttr" KString "OriginalRevision,attr,omitempty";
  field "OriginalVendorAttr" KString "OriginalVendor,attr,omitempty";
  field "PermissionSetAttr" KString "PermissionSet,attr,omitempty";
  field "EncryptionConfigAttr" KString "EncryptionConfig,attr,omitempty";
  field "IsEncryptedAttr" KString "IsEncrypted,attr,omitempty";
  field "LogicHashAttr" KString "LogicHash,attr,omitempty";
  field "DescriptionHashAttr" KString "DescriptionHash,attr,omitempty";
  field "UseAttr" KString "Use,attr,omitempty";
  field "CustomProperties" (KPtr "CustomPropertiesCollectionType") "CustomProperties";
  field "Description" (KPtr "DescriptionType") "Description";
  field "RevisionNote" (KPtr "RevisionNoteType") "RevisionNote";
  field "SignatureHistory" (KPtr "SignatureHistoryType") "SignatureHistory";
  field "AdditionalHelpText" (KPtr "AdditionalHelpTextType") "AdditionalHelpText";
  field "Parameters" (KPtr "UDIParameterCollectionType") "Parameters";
  field "Dependencies" (KSlice "DependenciesWideType") "Dependencies"
].

Definition RevisionNoteType_fields : list xfield := [
  field "UseAttr" KString "Use,attr,omitempty";
  field "CustomProperties" (KPtr "CustomPropertiesCollectionType") "CustomProperties";
  field "LocalizedRevisionNote" (KSlice "RevisionNoteTextType") "LocalizedRevisionNote"
].

Definition RevisionNoteTextType_fields : list xfield := [
  field "LangAttr" KString "Lang,attr";
  field "UseAttr" KString "Use,attr,omitempty";
  field "CustomProperties" (KPtr "CustomPropertiesCollectionType") "CustomProperties"
].

Definition SignatureHistoryType_fields : list xfield := [
  field "UseAttr" KString "Use,attr,omitempty";
  field "CustomProperties" (KPtr "CustomPropertiesCollectionType") "CustomProperties";
  field "HistoryEntry" (KSlice "HistoryEntryType") "HistoryEntry"
].

Definition HistoryEntryType_fields : list xfield := [
  field "UserAttr" KString "User,attr";
  field "TimestampAttr" KString "Timestamp,attr";
  field "SignatureIDAttr" KString "SignatureID,attr";
  field "UseAttr" KString "Use,attr,omitempty";
  field "CustomProperties" (KPtr "CustomPropertiesCollectionType") "CustomProperties";
  field "Description" (KPtr "DescriptionType") "Description"
].

Definition AdditionalHelpTextType_fields : list xfield := [
  field "UseAttr" KString "Use,attr,omitempty";
  field "CustomProperties" (KPtr "CustomPropertiesCollectionType") "CustomProperties";
  field "LocalizedAdditionalHelpText" (KSlice "LocalizedAdditionalHelpTextType") "LocalizedAdditionalHelpText"
].

Definition LocalizedAdditionalHelpTextType_fields : list xfield := [
  field "LangAttr" KString "Lang,attr";
  field "UseAttr" KString "Use,attr,omitempty";
  field "CustomProperties" (KPtr "CustomPropertiesCollectionType") "CustomProperties"
].

Definition UDIParameterCollectionType_fields : list xfield := [
  field "UseAttr" KString "Use,attr,omitempty";
  field "CustomProperties" (KPtr "CustomPropertiesCollectionType") "CustomProperties";
  field "Parameter" (KSlice "UDIParameterType") "Parameter"
].

Definition UDIParameterType_fields : list xfield := [
  field "NameAttr" KString "Name,attr";
  field "UIdAttr" KString "UId,attr,omitempty";
  field "ParentUIdAttr" KString "ParentUId,attr,omitempty";
  field "TagTypeAttr" KString "TagType,attr,omitempty";
  field "DataTypeAttr" KString "DataType,attr,omitempty";
  field "DataTypeUIdAttr" KString "DataTypeUId,attr,omitempty";
  field "DimensionsAttr" KString "Dimensions,attr,omitempty";
  field "UsageAttr" KString "Usage,attr";
  field "RadixAttr" KString "Radix,attr,omitempty";
  field "AliasForAttr" KString "AliasFor,attr,omitempty";
  field "AliasBaseAttr" KString "AliasBase,attr,omitempty";
  field "RequiredAttr" KString "Required,attr,omitempty";
  field "VisibleAttr" KString "Visible,attr,omitempty";
  field "ConstantAttr" KString "Constant,attr,omitempty";
  field "ExternalAccessAttr" KString "ExternalAccess,attr,omitempty";
  field "MaxAttr" KString "Max,attr,omitempty";
  field "MinAttr" KString "Min,attr,omitempty";
  field "VerifiedAttr" KString "Verified,attr,omitempty";
  field "CanBeNullAttr" KString "CanBeNull,attr,omitempty";
  field "UseAttr" KString "Use,attr,omitempty";
  field "CustomProperties" (KPtr "CustomPropertiesCollectionType") "CustomProperties";
  field "Description" (KPtr "DescriptionType") "Description";
  field "Comments" (KPtr "CommentCollectionType") "Comments";
  field "EngineeringUnits" (KPtr "EngineeringUnitCollectionType") "EngineeringUnits";
  field "Maxes" (KPtr "MaxLimitCollectionType") "Maxes";
  field "Mins" (KPtr "MinLimitCollectionType") "Mins";
  field "State0s" (KPtr "State0CollectionType") "State0s";
  field "State1s" (KPtr "State1CollectionType") "State1s";
  field "DefaultData" (KSlice "DefaultDataWideType") "DefaultData"
].

Definition UDILocalTagCollectionType_fields : list xfield := [
  field "UseAttr" KString "Use,attr,omitempty";
  field "CustomProperties" (KPtr "CustomPropertiesCollectionType") "CustomProperties";
  field "LocalTag" (KSlice "UDILocalTagType") "LocalTag"
].

Definition UDILocalTagType_fields : list xfield := [
  field "NameAttr" KString "Name,attr";
  field "UIdAttr" KString "UId,attr,omitempty";
  field "ParentUIdAttr" KString "ParentUId,attr,omitempty";
  field "DataTypeAttr" KString "DataType,attr";
  field "DataTypeUIdAttr" KString "DataTypeUId,attr,omitempty";
  field "DimensionsAttr" KString "Dimensions,attr,omitempty";
  field "RadixAttr" KString "Radix,attr,omitempty";
  field "ExternalAccessAttr" KString "ExternalAccess,attr,omitempty";
  field "MaxAttr" KString "Max,attr,omitempty";
  field "MinAttr" KString "Min,attr,omitempty";
  field "VerifiedAttr" KString "Verified,attr,omitempty";
  field "UseAttr" KString "Use,attr,omitempty";
  field "CustomProperties" (KPtr "CustomPropertiesCollectionType") "CustomProperties";
  field "Description" (KPtr "DescriptionType") "Description";
  field "Comments" (KPtr "CommentCollectionType") "Comments";
  field "EngineeringUnits" (KPtr "EngineeringUnitCollectionType") "EngineeringUnits";
  field "Maxes" (KPtr "MaxLimitCollectionType") "Maxes";
  field "Mins" (KPtr "MinLimitCollectionType") "Mins";
  field "State0s" (KPtr "State0CollectionType") "State0s";
  field "State1s" (KPtr "State1CollectionType") "State1s";
  field "DefaultData" (KSlice "DefaultDataWideType") "DefaultData"
].

Definition UDIDependencyCollectionType_fields : list xfield := [
  field "UseAttr" KString "Use,attr,omitempty";
  field "CustomProperties" (KPtr "CustomPropertiesCollectionType") "CustomProperties";
  field "Dependency" (KSlice "DependencyWideType") "Dependency"
].

Definition UDIDependencyType_fields : list xfield := [
  field "TypeAttr" KString "Type,attr,omitempty";
  field "NameAttr" KString "Name,attr,omitempty";
  field "UseAttr" KString "Use,attr,omitempty";
  field "CustomProperties" (KPtr "CustomPropertiesCollectionType") "CustomProperties"
].

Definition RawDefaultDataType_fields : list xfield := [
  field "FormatAttr" KString "Format,attr,omitempty";
  field "UseAttr" KString "Use,attr,omitempty";
  field "CustomProperties" (KPtr "CustomPropertiesCollectionType") "CustomProperties"
].

Definition L5KDefaultDataType_fields : list xfield := [
  field "FormatAttr" KString "Format,attr";
  field "UseAttr" KString "Use,attr,omitempty";
  field "CustomProperties" (KPtr "CustomPropertiesCollectionType") "CustomProperties"
].

Definition StringDefaultDataType_fields : list xfield := [
  field "FormatAttr" KString "Format,attr";
  field "LengthAttr" KString "Length,attr";
  field "UseAttr" KString "Use,attr,omitempty";
  field "CustomProperties" (KPtr "CustomPropertiesCollectionType") "CustomProperties"
].

Definition DecoratedDefaultDataType_fields : list xfield := [

].

Definition AlarmDefinitionCollectionAdaptorType_fields : list xfield := [
  field "UseAttr" KString "Use,attr,omitempty";
  field "CustomProperties" (KPtr "CustomPropertiesCollectionType") "CustomProperties";
  field "DatatypeAlarmDefinition" (KSlice "DatatypeAlarmDefinitionType") "DatatypeAlarmDefinition"
].

Definition DatatypeAlarmDefinitionType_fields : list xfield := [
  field "NameAttr" KString "Name,attr";
  field "UseAttr" KString "Use,attr,omitempty";
  field "CustomProperties" (KPtr "CustomPropertiesCollectionType") "CustomProperties";
  field "MemberAlarmDefinition" (KSlice "MemberAlarmDefinitionType") "MemberAlarmDefinition"
].

Definition MemberAlarmDefinitionType_fields : list xfield := [
  field "AckRequiredAttr" KString "AckRequired,attr,omitempty";
  field "LatchedAttr" KString "Latched,attr,omitempty";
  field "RequiredAttr" KString "Required,attr,omitempty";
  field "AlarmSetOperIncludedAttr" KString "AlarmSetOperIncluded,attr,omitempty";
  field "AlarmSetRollupIncludedAttr" KString "AlarmSetRollupIncluded,attr,omitempty";
  field "NameAttr" KString "Name,attr";
  field "InputAttr" KString "Input,attr";
  field "ConditionTypeAttr" KString "ConditionType,attr,omitempty";
  field "LimitAttr" KString "Limit,attr,omitempty";
  field "SeverityAttr" KString "Severity,attr,omitempty";
  field "OnDelayAttr" KString "OnDelay,attr,omitempty";
  field "OffDelayAttr" KString "OffDelay,attr,omitempty";
  field "ShelveDurationAttr" KString "ShelveDuration,attr,omitempty";
  field "MaxShelveDurationAttr" KString "MaxShelveDuration,attr,omitempty";
  field "DeadbandAttr" KString "Deadband,attr,omitempty";
  field "EvaluationPeriodAttr" KString "EvaluationPeriod,attr,omitempty";
  field "ExpressionAttr" KString "Expression,attr,omitempty";
  field "TargetTagAttr" KString "TargetTag,attr,omitempty";
  field "AssocTag1Attr" KString "AssocTag1,attr,omitempty";
  field "AssocTag2Attr" KString "AssocTag2,attr,omitempty";
  field "AssocTag3Attr" KString "AssocTag3,attr,omitempty";
  field "AssocTag4Attr" KString "AssocTag4,attr,omitempty";
  field "UIdAttr" KString "UId,attr,omitempty";
  field "IsTemplateAttr" KString "IsTemplate,attr,omitempty";
  field "UseAttr" KString "Use,attr,omitempty";
  field "CustomProperties" (KPtr "CustomPropertiesCollectionType") "CustomProperties";
  field "AlarmConfig" (KPtr "AlarmConfigType") "AlarmConfig"
].

Definition TagCollectionType_fields : list xfield := [
  field "UIdAttr" KString "UId,attr,omitempty";
  field "ParentUIdAttr" KString "ParentUId,attr,omitempty";
  field "UseAttr" KString "Use,attr,omitempty";
  field "CustomProperties" (KPtr "CustomPropertiesCollectionType") "CustomProperties";
  field "Tag" (KSlice "TagType") "Tag"
].

Definition TagType_fields : list xfield := [
  field "NameAttr" KString "Name,attr";
  field "UIdAttr" KString "UId,attr,omitempty";
  field "ParentUIdAttr" KString "ParentUId,attr,omitempty";
  field "ClassAttr" KString "Class,attr,omitempty";
  field "TagTypeAttr" KString "TagType,attr,omitempty";
  field "DataTypeAttr" KString "DataType,attr,omitempty";
  field "DataTypeUIdAttr" KString "DataTypeUId,attr,omitempty";
  field "DimensionsAttr" KString "Dimensions,attr,omitempty";
  field "RadixAttr" KString "Radix,attr,omitempty";
  field "AliasForAttr" KString "AliasFor,attr,omitempty";
  field "AliasBaseAttr" KString "AliasBase,attr,omitempty";
  field "UsageAttr" KString "Usage,attr,omitempty";
  field "SequencingAttr" KString "Sequencing,attr,omitempty";
  field "ConstantAttr" KString "Constant,attr,omitempty";
  field "RequiredAttr" KString "Required,attr,omitempty";
  field "VisibleAttr" KString "Visible,attr,omitempty";
  field "ExternalAccessAttr" KString "ExternalAccess,attr,omitempty";
  field "MaxAttr" KString "Max,attr,omitempty";
  field "MinAttr" KString "Min,attr,omitempty";
  field "IOAttr" KString "IO,attr,omitempty";
  field "PermissionSetAttr" KString "PermissionSet,attr,omitempty";
  field "ScopeAttr" KString "Scope,attr,omitempty";
  field "CanForceAttr" KString "CanForce,attr,omitempty";
  field "FullNameAttr" KString "FullName,attr,omitempty";
  field "VerifiedAttr" KString "Verified,attr,omitempty";
  field "TrackingGroupsAttr" KString "TrackingGroups,attr,omitempty";
  field "CanBeNullAttr" KString "CanBeNull,attr,omitempty";
  field "UseAttr" KString "Use,attr,omitempty";
  field "CustomProperties" (KSlice "CustomPropertiesCollectionType") "CustomProperties";
  field "ConsumeInfo" (KSlice "ConsumeTagInfoType") "ConsumeInfo";
  field "ProduceInfo" (KSlice "ProduceTagInfoType") "ProduceInfo";
  field "TagConfiguration" (KSlice "TagConfigurationAdaptorType") "TagConfiguration";
  field "AlarmConditions" (KSlice "ConfiguredAlarmCollectionAdaptorType") "AlarmConditions";
  field "Description" (KSlice "DescriptionType") "Description";
  field "BaseDescription" KStrings "BaseDescription";
  field "Comments" (KSlice "CommentCollectionType") "Comments";
  field "EngineeringUnits" (KSlice "EngineeringUnitCollectionType") "EngineeringUnits";
  field "Maxes" (KSlice "MaxLimitCollectionType") "Maxes";
  field "Mins" (KSlice "MinLimitCollectionType") "Mins";
  field "State0s" (KSlice "State0CollectionType") "State0s";
  field "State1s" (KSlice "State1CollectionType") "State1s";
  field "Librarys" (KSlice "LibraryAdaptorCollectionType") "Librarys";
  field "Labels" (KSlice "LabelsWideType") "Labels";
  field "Instructions" (KSlice "InstructionAdaptorCollectionType") "Instructions";
  field "Areas" (KSlice "AreaAdaptorCollectionType") "Areas";
  field "URLs" (KSlice "URLAdaptorCollectionType") "URLs";
  field "Navigations" (KSlice "NavigationCollectionType") "Navigations";
  field "Data" (KSlice "DataWideType") "Data";
  field "ForceData" (KSlice "ForceDataWideType") "ForceData"
].

Definition CommentCollectionType_fields : list xfield := [
  field "UseAttr" KString "Use,attr,omitempty";
  field "CustomProperties" (KPtr "CustomPropertiesCollectionType") "CustomProperties";
  field "Comment" (KSlice "CommentWideType") "Comment"
].

Definition CommentAdaptorType_fields : list xfield := [
  field "OperandAttr" KString "Operand,attr";
  field "UnusedAttr" KString "Unused,attr,omitempty";
  field "UseAttr" KString "Use,attr,omitempty";
  field "CustomProperties" (KPtr "CustomPropertiesCollectionType") "CustomProperties";
  field "LocalizedComment" (KSlice "LocalizedCommentWideType") "LocalizedComment"
].

Definition CommentAdaptorTextType_fields : list xfield := [
  field "LangAttr" KString "Lang,attr,omitempty";
  field "UseAttr" KString "Use,attr,omitempty";
  field "CustomProperties" (KPtr "CustomPropertiesCollectionType") "CustomProperties"
].

Definition EngineeringUnitCollectionType_fields : list xfield := [
  field "UseAttr" KString "Use,attr,omitempty";
  field "CustomProperties" (KPtr "CustomPropertiesCollectionType") "CustomProperties";
  field "EngineeringUnit" (KSlice "EngineeringUnitType") "EngineeringUnit"
].

Definition EngineeringUnitType_fields : list xfield := [
  field "OperandAttr" KString "Operand,attr,omitempty";
  field "UseAttr" KString "Use,attr,omitempty";
  field "CustomProperties" (KPtr "CustomPropertiesCollectionType") "CustomProperties";
  field "LocalizedEngineeringUnit" (KSlice "EngineeringUnitTextType") "LocalizedEngineeringUnit"
].

Definition EngineeringUnitTextType_fields : list xfield := [
  field "LangAttr" KString "Lang,attr,omitempty";
  field "UseAttr" KString "Use,attr,omitempty";
  field "CustomProperties" (KPtr "CustomPropertiesCollectionType") "CustomProperties"
].

Definition MaxLimitCollectionType_fields : list xfield := [
  field "UseAttr" KString "Use,attr,omitempty";
  field "CustomProperties" (KPtr "CustomPropertiesCollectionType") "CustomProperties";
  field "Max" (KSlice "MaxLimitType") "Max"
].

Definition MaxLimitType_fields : list xfield := [
  field "OperandAttr" KString "Operand,attr,omitempty";
  field "UseAttr" KString "Use,attr,omitempty";
  field "CustomProperties" (KPtr "CustomPropertiesCollectionType") "CustomProperties"
].

Definition MinLimitCollectionType_fields : list xfield := [
  field "UseAttr" KString "Use,attr,omitempty";
  field "CustomProperties" (KPtr "CustomPropertiesCollectionType") "CustomProperties";
  field "Min" (KSlice "MinLimitType") "Min"
].

Definition MinLimitType_fields : list xfield := [
  field "OperandAttr" KString "Operand,attr,omitempty";
  field "UseAttr" KString "Use,attr,omitempty";
  field "CustomProperties" (KPtr "CustomPropertiesCollectionType") "CustomProperties"
].

Definition State0CollectionType_fields : list xfield := [
  field "UseAttr" KString "Use,attr,omitempty";
  field "CustomProperties" (KPtr "CustomPropertiesCollectionType") "CustomProperties";
  field "State0" (KSlice "State0Type") "State0"
].

Definition State0Type_fields : list xfield := [
  field "OperandAttr" KString "Operand,attr,omitempty";
  field "UseAttr" KString "Use,attr,omitempty";
  field "CustomProperties" (KPtr "CustomPropertiesCollectionType") "CustomProperties";
  field "LocalizedState0" (KSlice "State0TextType") "LocalizedState0"
].

Definition State0TextType_fields : list xfield := [
  field "LangAttr" KString "Lang,attr,omitempty";
  field "UseAttr" KString "Use,attr,omitempty";
  field "CustomProperties" (KPtr "CustomPropertiesCollectionType") "CustomProperties"
].

Definition State1CollectionType_fields : list xfield := [
  field "UseAttr" KString "Use,attr,omitempty";
  field "CustomProperties" (KPtr "CustomPropertiesCollectionType") "CustomProperties";
  field "State1" (KSlice "State1Type") "State1"
].

Definition State1Type_fields : list xfield := [
  field "OperandAttr" KString "Operand,attr,omitempty";
  field "UseAttr" KString "Use,attr,omitempty";
  field "CustomProperties" (KPtr "CustomPropertiesCollectionType") "CustomProperties";
  field "LocalizedState1" (KSlice "State1TextType") "LocalizedState1"
].

Definition State1TextType_fields : list xfield := [
  field "LangAttr" KString "Lang,attr,omitempty";
  field "UseAttr" KString "Use,attr,omitempty";
  field "CustomProperties" (KPtr "CustomPropertiesCollectionType") "CustomProperties"
].

Definition CustomPropertiesCollectionType_fields : list xfield := [
  field "UseAttr" KString "Use,attr,omitempty";
  field "Provider" (KSlice "CustomPropertiesAdaptorType") "Provider"
].

Definition CustomPropertiesAdaptorType_fields : list xfield := [

].

Definition CustomPropertiesTextType_fields : list xfield := [
  field "LangAttr" KString "Lang,attr,omitempty";
  field "UseAttr" KString "Use,attr,omitempty";
  field "CustomProperties" (KPtr "CustomPropertiesCollectionType") "CustomProperties"
].

Definition PrimaryActionSetCollectionType_fields : list xfield := [
  field "UseAttr" KString "Use,attr,omitempty";
  field "CustomProperties" (KPtr "CustomPropertiesCollectionType") "CustomProperties";
  field "PrimaryActionSet" (KSlice "PrimaryActionSetAdaptorType") "PrimaryActionSet"
].

Definition PrimaryActionSetAdaptorType_fields : list xfield := [
  field "PermissionSetAttr" KString "PermissionSet,attr";
  field "IsPermissionSetAttr" KString "IsPermissionSet,attr";
  field "UseAttr" KString "Use,attr,omitempty";
  field "CustomProperties" (KPtr "CustomPropertiesCollectionType") "CustomProperties";
  field "LocalizedPrimaryActionSet" (KSlice "PrimaryActionSetTextType") "LocalizedPrimaryActionSet"
].

Definition PrimaryActionSetTextType_fields : list xfield := [
  field "LangAttr" KString "Lang,attr,omitempty";
  field "UseAttr" KString "Use,attr,omitempty";
  field "CustomProperties" (KPtr "CustomPropertiesCollectionType") "CustomProperties"
].

Definition LibraryAdaptorCollectionType_fields : list xfield := [
  field "UseAttr" KString "Use,attr,omitempty";
  field "CustomProperties" (KPtr "CustomPropertiesCollectionType") "CustomProperties";
  field "Library" (KSlice "LibraryAdaptorType") "Library"
].

Definition LibraryAdaptorType_fields : list xfield := [
  field "OperandAttr" KString "Operand,attr,omitempty";
  field "UseAttr" KString "Use,attr,omitempty";
  field "CustomProperties" (KPtr "CustomPropertiesCollectionType") "CustomProperties"
].

Definition LabelAdaptorCollectionType_fields : list xfield := [
  field "UseAttr" KString "Use,attr,omitempty";
  field "CustomProperties" (KPtr "CustomPropertiesCollectionType") "CustomProperties";
  field "Label" (KSlice "LabelWideType") "Label"
].

Definition LabelAdaptorType_fields : list xfield := [
  field "OperandAttr" KString "Operand,attr,omitempty";
  field "UseAttr" KString "Use,attr,omitempty";
  field "CustomProperties" (KPtr "CustomPropertiesCollectionType") "CustomProperties";
  field "LocalizedLabel" (KSlice "LabelTextType") "LocalizedLabel"
].

Definition LabelTextType_fields : list xfield := [
  field "LangAttr" KString "Lang,attr,omitempty";
  field "UseAttr" KString "Use,attr,omitempty";
  field "CustomProperties" (KPtr "CustomPropertiesCollectionType") "CustomProperties"
].

Definition InstructionAdaptorCollectionType_fields : list xfield := [
  field "UseAttr" KString "Use,attr,omitempty";
  field "CustomProperties" (KPtr "CustomPropertiesCollectionType") "CustomProperties";
  field "Instruction" (KSlice "InstructionAdaptorType") "Instruction"
].

Definition InstructionAdaptorType_fields : list xfield := [
  field "OperandAttr" KString "Operand,attr,omitempty";
  field "UseAttr" KString "Use,attr,omitempty";
  field "CustomProperties" (KPtr "CustomPropertiesCollectionType") "CustomProperties"
].

Definition AreaAdaptorCollectionType_fields : list xfield := [
  field "UseAttr" KString "Use,attr,omitempty";
  field "CustomProperties" (KPtr "CustomPropertiesCollectionType") "CustomProperties";
  field "Area" (KSlice "AreaAdaptorType") "Area"
].

Definition AreaAdaptorType_fields : list xfield := [
  field "OperandAttr" KString "Operand,attr,omitempty";
  field "UseAttr" KString "Use,attr,omitempty";
  field "CustomProperties" (KPtr "CustomPropertiesCollectionType") "CustomProperties"
].

Definition URLAdaptorCollectionType_fields : list xfield := [
  field "UseAttr" KString "Use,attr,omitempty";
  field "CustomProperties" (KPtr "CustomPropertiesCollectionType") "CustomProperties";
  field "URL" (KSlice "URLAdaptorType") "URL"
].

Definition URLAdaptorType_fields : list xfield := [
  field "OperandAttr" KString "Operand,attr,omitempty";
  field "UseAttr" KString "Use,attr,omitempty";
  field "CustomProperties" (KPtr "CustomPropertiesCollectionType") "CustomProperties"
].

Definition NavigationCollectionType_fields : list xfield := [
  field "UseAttr" KString "Use,attr,omitempty";
  field "CustomProperties" (KPtr "CustomPropertiesCollectionType") "CustomProperties";
  field "Navigation" (KSlice "NavigationAdaptorType") "Navigation"
].

Definition NavigationAdaptorType_fields : list xfield := [
  field "OperandAttr" KString "Operand,attr";
  field "UseAttr" KString "Use,attr,omitempty";
  field "CustomProperties" (KPtr "CustomPropertiesCollectionType") "CustomProperties"
].

Definition ConsumeTagInfoType_fields : list xfield := [
  field "ProducerAttr" KString "Producer,attr";
  field "RemoteTagAttr" KString "RemoteTag,attr,omitempty";
  field "RemoteInstanceAttr" KString "RemoteInstance,attr,omitempty";
  field "RPIAttr" KString "RPI,attr";
  field "TimeoutMultiplierAttr" KString "TimeoutMultiplier,attr,omitempty";
  field "NetworkDelayMultiplierAttr" KString "NetworkDelayMultiplier,attr,omitempty";
  field "ReactionTimeLimitAttr" KString "ReactionTimeLimit,attr,omitempty";
  field "MaxObservedNetworkDelayAttr" KString "MaxObservedNetworkDelay,attr,omitempty";
  field "UnicastAttr" KString "Unicast,attr,omitempty";
  field "UseAttr" KString "Use,attr,omitempty";
  field "CustomProperties" (KPtr "CustomPropertiesCollectionType") "CustomProperties"
].

Definition ProduceTagInfoType_fields : list xfield := [
  field "ProduceCountAttr" KString "ProduceCount,attr,omitempty";
  field "PLCMappingFileAttr" KString "PLCMappingFile,attr,omitempty";
  field "PLC2MappingAttr" KString "PLC2Mapping,attr,omitempty";
  field "ProgrammaticallySendEventTriggerAttr" KString "ProgrammaticallySendEventTrigger,attr,omitempty";
  field "UnicastPermittedAttr" KString "UnicastPermitted,attr,omitempty";
  field "MinimumRPIAttr" KString "MinimumRPI,attr,omitempty";
  field "MaximumRPIAttr" KString "MaximumRPI,attr,omitempty";
  field "DefaultRPIAttr" KString "DefaultRPI,attr,omitempty";
  field "UseAttr" KString "Use,attr,omitempty";
  field "CustomProperties" (KPtr "CustomPropertiesCollectionType") "CustomProperties"
].

Definition ConfiguredAlarmCollectionAdaptorType_fields : list xfield := [
  field "UseAttr" KString "Use,attr,omitempty";
  field "CustomProperties" (KPtr "CustomPropertiesCollectionType") "CustomProperties";
  field "AlarmCondition" (KSlice "ConfiguredAlarmAdaptorType") "AlarmCondition"
].

Definition ConfiguredAlarmAdaptorType_fields : list xfield := [
  field "InFaultAttr" KString "InFault,attr,omitempty";
  field "AckRequiredAttr" KString "AckRequired,attr,omitempty";
  field "LatchedAttr" KString "Latched,attr,omitempty";
  field "ProgAckAttr" KString "ProgAck,attr,omitempty";
  field "OperAckAttr" KString "OperAck,attr,omitempty";
  field "ProgResetAttr" KString "ProgReset,attr,omitempty";
  field "OperResetAttr" KString "OperReset,attr,omitempty";
  field "ProgSuppressAttr" KString "ProgSuppress,attr,omitempty";
  field "OperSuppressAttr" KString "OperSuppress,attr,omitempty";
  field "ProgUnsuppressAttr" KString "ProgUnsuppress,attr,omitempty";
  field "OperUnsuppressAttr" KString "OperUnsuppress,attr,omitempty";
  field "OperShelveAttr" KString "OperShelve,attr,omitempty";
  field "ProgUnshelveAttr" KString "ProgUnshelve,attr,omitempty";
  field "OperUnshelveAttr" KString "OperUnshelve,attr,omitempty";
  field "ProgDisableAttr" KString "ProgDisable,attr,omitempty";
  field "OperDisableAttr" KString "OperDisable,attr,omitempty";
  field "ProgEnableAttr" KString "ProgEnable,attr,omitempty";
  field "OperEnableAttr" KString "OperEnable,attr,omitempty";
  field "AlarmCountResetAttr" KString "AlarmCountReset,attr,omitempty";
  field "UsedAttr" KString "Used,attr,omitempty";
  field "AlarmSetOperIncludedAttr" KString "AlarmSetOperIncluded,attr,omitempty";
  field "AlarmSetRollupIncludedAttr" KString "AlarmSetRollupIncluded,attr,omitempty";
  field "NameAttr" KString "Name,attr";
  field "InputAttr" KString "Input,attr";
  field "ConditionTypeAttr" KString "ConditionType,attr,omitempty";
  field "AlarmConditionDefinitionAttr" KString "AlarmConditionDefinition,attr,omitempty";
  field "LimitAttr" KString "Limit,attr,omitempty";
  field "SeverityAttr" KString "Severity,attr,omitempty";
  field "OnDelayAttr" KString "OnDelay,attr,omitempty";
  field "OffDelayAttr" KString "OffDelay,attr,omitempty";
  field "ShelveDurationAttr" KString "ShelveDuration,attr,omitempty";
  field "MaxShelveDurationAttr" KString "MaxShelveDuration,attr,omitempty";
  field "DeadbandAttr" KString "Deadband,attr,omitempty";
  field "EvaluationPeriodAttr" KString "EvaluationPeriod,attr,omitempty";
  field "ExpressionAttr" KString "Expression,attr,omitempty";
  field "TargetTagAttr" KString "TargetTag,attr,omitempty";
  field "AssocTag1Attr" KString "AssocTag1,attr,omitempty";
  field "AssocTag2Attr" KString "AssocTag2,attr,omitempty";
  field "AssocTag3Attr" KString "AssocTag3,attr,omitempty";
  field "AssocTag4Attr" KString "AssocTag4,attr,omitempty";
  field "UIdAttr" KString "UId,attr,omitempty";
  field "UseAttr" KString "Use,attr,omitempty";
  field "CustomProperties" (KPtr "CustomPropertiesCollectionType") "CustomProperties";
  field "AlarmConfig" (KPtr "AlarmConfigType") "AlarmConfig"
].

Definition StringDataType_fields : list xfield := [
  field "FormatAttr" KString "Format,attr";
  field "LengthAttr" KString "Length,attr";
  field "UseAttr" KString "Use,attr,omitempty";
  field "CustomProperties" (KPtr "CustomPropertiesCollectionType") "CustomProperties"
].

Definition RawDataType_fields : list xfield := [
  field "FormatAttr" KString "Format,attr,omitempty";
  field "UseAttr" KString "Use,attr,omitempty";
  field "CustomProperties" (KPtr "CustomPropertiesCollectionType") "CustomProperties"
].

Definition L5KDataType_fields : list xfield := [
  field "FormatAttr" KString "Format,attr";
  field "UseAttr" KString "Use,attr,omitempty";
  field "CustomProperties" (KPtr "CustomPropertiesCollectionType") "CustomProperties"
].

Definition DecoratedDataType_fields : list xfield := [

].

Definition RawForceDataType_fields : list xfield := [
  field "FormatAttr" KString "Format,attr,omitempty";
  field "UseAttr" KString "Use,attr,omitempty";
  field "CustomProperties" (KPtr "CustomPropertiesCollectionType") "CustomProperties"
].

Definition L5KForceDataType_fields : list xfield := [
  field "FormatAttr" KString "Format,attr";
  field "UseAttr" KString "Use,attr,omitempty";
  field "CustomProperties" (KPtr "CustomPropertiesCollectionType") "CustomProperties"
].

Definition MessageDataType_fields : list xfield := [
  field "FormatAttr" KString "Format,attr";
  field "UseAttr" KString "Use,attr,omitempty";
  field "CustomProperties" (KPtr "CustomPropertiesCollectionType") "CustomProperties";
  field "MessageParameters" (KPtr "MsgType") "MessageParameters"
].

Definition MotionGroupDataType_fields : list xfield := [
  field "FormatAttr" KString "Format,attr";
  field "UseAttr" KString "Use,attr,omitempty";
  field "CustomProperties" (KPtr "CustomPropertiesCollectionType") "CustomProperties";
  field "MotionGroupParameters" (KPtr "MotionGroupType") "MotionGroupParameters"
].

Definition CoordinateSystemDataType_fields : list xfield := [
  field "FormatAttr" KString "Format,attr";
  field "UseAttr" KString "Use,attr,omitempty";
  field "CustomProperties" (KPtr "CustomPropertiesCollectionType") "CustomProperties";
  field "CoordinateSystemParameters" (KPtr "CoordinateSystemType") "CoordinateSystemParameters"
].

Definition AxisDataType_fields : list xfield := [
  field "FormatAttr" KString "Format,attr";
  field "UseAttr" KString "Use,attr,omitempty";
  field "CustomProperties" (KPtr "CustomPropertiesCollectionType") "CustomProperties";
  field "AxisParameters" (KPtr "AxisType") "AxisParameters"
].

Definition AlarmDataType_fields : list xfield := [
  field "FormatAttr" KString "Format,attr";
  field "UseAttr" KString "Use,attr,omitempty";
  field "CustomProperties" (KPtr "CustomPropertiesCollectionType") "CustomProperties";
  field "AlarmAnalogParameters" (KPtr "AlarmAnalogType") "AlarmAnalogParameters";
  field "AlarmDigitalParameters" (KPtr "AlarmDigitalType") "AlarmDigitalParameters";
  field "AlarmConfig" (KPtr "AlarmConfigType") "AlarmConfig"
].

Definition HMIBCDataType_fields : list xfield := [
  field "FormatAttr" KString "Format,attr";
  field "UseAttr" KString "Use,attr,omitempty";
  field "CustomProperties" (KPtr "CustomPropertiesCollectionType") "CustomProperties";
  field "HMIBCParameters" (KPtr "HMIBCType") "HMIBCParameters"
].

Definition BEODataType_fields : list xfield := [
  field "FormatAttr" KString "Format,attr";
  field "UseAttr" KString "Use,attr,omitempty";
  field "CustomProperties" (KPtr "CustomPropertiesCollectionType") "CustomProperties";
  field "BEOParameters" (KPtr "BEOType") "BEOParameters"
].

Definition EEODataType_fields : list xfield := [
  field "FormatAttr" KString "Format,attr";
  field "UseAttr" KString "Use,attr,omitempty";
  field "CustomProperties" (KPtr "CustomPropertiesCollectionType") "CustomProperties";
  field "EEOParameters" (KPtr "EEOType") "EEOParameters"
].

Definition AlarmConfigType_fields : list xfield := [
  field "UseAttr" KString "Use,attr,omitempty";
  field "CustomProperties" (KPtr "CustomPropertiesCollectionType") "CustomProperties";
  field "Messages" (KPtr "AlarmMessageCollectionType") "Messages";
  field "AlarmClass" KString "AlarmClass";
  field "HMICmd" KString "HMICmd";
  field "HMIGroup" KString "HMIGroup"
].

Definition AlarmMessageCollectionType_fields : list xfield := [
  field "UseAttr" KString "Use,attr,omitempty";
  field "CustomProperties" (KPtr "CustomPropertiesCollectionType") "CustomProperties";
  field "Message" (KSlice "AlarmMessageType") "Message"
].

Definition AlarmMessageType_fields : list xfield := [
  field "TypeAttr" KString "Type,attr";
  field "IDAttr" KString "ID,attr,omitempty";
  field "UseAttr" KString "Use,attr,omitempty";
  field "CustomProperties" (KPtr "CustomPropertiesCollectionType") "CustomProperties";
  field "Text" (KSlice "TextWideType") "Text"
].

Definition AlarmMessageTextType_fields : list xfield := [
  field "LangAttr" KString "Lang,attr,omitempty";
  field "UseAttr" KString "Use,attr,omitempty";
  field "CustomProperties" (KPtr "CustomPropertiesCollectionType") "CustomProperties"
].

Definition ProgramCollectionType_fields : list xfield := [
  field "UIdAttr" KString "UId,attr,omitempty";
  field "ParentUIdAttr" KString "ParentUId,attr,omitempty";
  field "UseAttr" KString "Use,attr,omitempty";
  field "CustomProperties" (KPtr "CustomPropertiesCollectionType") "CustomProperties";
  field "Program" (KSlice "AProgramType") "Program"
].

Definition AProgramType_fields : list xfield := [
  field "NameAttr" KString "Name,attr";
  field "UIdAttr" KString "UId,attr,omitempty";
  field "ParentUIdAttr" KString "ParentUId,attr,omitempty";
  field "TypeAttr" KString "Type,attr,omitempty";
  field "TestEditsAttr" KString "TestEdits,attr,omitempty";
  field "MainRoutineNameAttr" KString "MainRoutineName,attr,omitempty";
  field "PreStateRoutineNameAttr" KString "PreStateRoutineName,attr,omitempty";
  field "FaultRoutineNameAttr" KString "FaultRoutineName,attr,omitempty";
  field "ExecutingTaskNameAttr" KString "ExecutingTaskName,attr,omitempty";
  field "VerifiedAttr" KString "Verified,attr,omitempty";
  field "EditsExistAttr" KString "EditsExist,attr,omitempty";
  field "DisabledAttr" KString "Disabled,attr,omitempty";
  field "InitialStepIndexAttr" KString "InitialStepIndex,attr,omitempty";
  field "InitialStateAttr" KString "InitialState,attr,omitempty";
  field "CompleteStateIfNotImplAttr" KString "CompleteStateIfNotImpl,attr,omitempty";
  field "LossOfCommCmdAttr" KString "LossOfCommCmd,attr,omitempty";
  field "ExternalRequestActionAttr" KString "ExternalRequestAction,attr,omitempty";
  field "EquipmentIdAttr" KString "EquipmentId,attr,omitempty";
  field "RecipePhaseNamesAttr" KString "RecipePhaseNames,attr,omitempty";
  field "LastScanTimeAttr" KString "LastScanTime,attr,omitempty";
  field "MaxScanTimeAttr" KString "MaxScanTime,attr,omitempty";
  field "TagsUIdAttr" KString "TagsUId,attr,omitempty";
  field "RoutinesUIdAttr" KString "RoutinesUId,attr,omitempty";
  field "ClassAttr" KString "Class,attr,omitempty";
  field "SynchronizeRedundancyDataAfterExecutionAttr" KString "SynchronizeRedundancyDataAfterExecution,attr,omitempty";
  field "UseAsFolderAttr" KString "UseAsFolder,attr,omitempty";
  field "AutoValueAssignStepToPhaseAttr" KString "AutoValueAssignStepToPhase,attr,omitempty";
  field "AutoValueAssignPhaseToStepOnCompleteAttr" KString "AutoValueAssignPhaseToStepOnComplete,attr,omitempty";
  field "AutoValueAssignPhaseToStepOnStoppedAttr" KString "AutoValueAssignPhaseToStepOnStopped,attr,omitempty";
  field "AutoValueAssignPhaseToStepOnAbortedAttr" KString "AutoValueAssignPhaseToStepOnAborted,attr,omitempty";
  field "RevisionAttr" KString "Revision,attr,omitempty";
  field "RevisionExtensionAttr" KString "RevisionExtension,attr,omitempty";
  field "UnitIDAttr" KString "UnitID,attr,omitempty";
  field "RetainSequenceIDOnResetAttr" KString "RetainSequenceIDOnReset,attr,omitempty";
  field "GenerateSequenceEventsAttr" KString "GenerateSequenceEvents,attr,omitempty";
  field "ValuesToUseOnStartAttr" KString "ValuesToUseOnStart,attr,omitempty";
  field "ValuesToUseOnResetAttr" KString "ValuesToUseOnReset,attr,omitempty";
  field "UseAttr" KString "Use,attr,omitempty";
  field "CustomProperties" (KPtr "CustomPropertiesCollectionType") "CustomProperties";
  field "Description" (KPtr "DescriptionType") "Description";
  field "RevisionNote" (KPtr "RevisionNoteType") "RevisionNote";
  field "Tags" (KPtr "TagCollectionType") "Tags";
  field "Parameters" (KPtr "UDIParameterCollectionType") "Parameters";
  field "LocalTags" (KPtr "UDILocalTagCollectionType") "LocalTags";
  field "Routines" (KPtr "RoutineCollectionType") "Routines";
  field "ChildPrograms" (KPtr "ChildProgramCollectionType") "ChildPrograms"
].

Definition RoutineCollectionType_fields : list xfield := [
  field "UIdAttr" KString "UId,attr,omitempty";
  field "ParentUIdAttr" KString "ParentUId,attr,omitempty";
  field "UseAttr" KString "Use,attr,omitempty";
  field "EncodedData" (KSlice "EncodedRoutineType") "EncodedData";
  field "CustomProperties" (KSlice "CustomPropertiesCollectionType") "CustomProperties";
  field "Routine" (KSlice "RoutineType") "Routine"
].

Definition EncryptedSegments_fields : list xfield := [
  field "Value" KString ",chardata"
].

Definition RoutineType_fields : list xfield := [
  field "NameAttr" KString "Name,attr";
  field "TypeAttr" KString "Type,attr";
  field "SourceKeyAttr" KString "SourceKey,attr,omitempty";
  field "EncodedSourceKeyAttr" KString "EncodedSourceKey,attr,omitempty";
  field "SourceProtectionTypeAttr" KString "SourceProtectionType,attr,omitempty";
  field "UIdAttr" KString "UId,attr,omitempty";
  field "ParentUIdAttr" KString "ParentUId,attr,omitempty";
  field "PermissionSetAttr" KString "PermissionSet,attr,omitempty";
  field "VerifiedAttr" KString "Verified,attr,omitempty";
  field "TrackingGroupsAttr" KString "TrackingGroups,attr,omitempty";
  field "LogicHashAttr" KString "LogicHash,attr,omitempty";
  field "DescriptionHashAttr" KString "DescriptionHash,attr,omitempty";
  field "UseAttr" KString "Use,attr,omitempty";
  field "CustomProperties" (KPtr "CustomPropertiesCollectionType") "CustomProperties";
  field "Description" (KPtr "DescriptionType") "Description";
  field "EncryptionInfo" (KPtr "EncryptionInfoType") "EncryptionInfo";
  field "RLLContent" (KSlice "RungCollectionType") "RLLContent";
  field "FBDContent" (KSlice "FBDContentType") "FBDContent";
  field "SFCContent" (KSlice "SFCContentType") "SFCContent";
  field "STContent" (KSlice "STContentType") "STContent";
  field "ExternalContent" (KSlice "ExternalContentType") "ExternalContent";
  field "SEQContent" (KSlice "SEQContentType") "SEQContent";
  field "EncryptedContent" (KSlice "EncryptedContentType") "EncryptedContent";
  field "EncryptedSegments" (KPtr "EncryptedSegments") "EncryptedSegments"
].

Definition EncodedRoutineType_fields : list xfield := [
  field "EncodedTypeAttr" KString "EncodedType,attr,omitempty";
  field "NameAttr" KString "Name,attr,omitempty";
  field "UIdAttr" KString "UId,attr,omitempty";
  field "TypeAttr" KString "Type,attr,omitempty";
  field "PermissionSetAttr" KString "PermissionSet,attr,omitempty";
  field "EncryptionConfigAttr" KString "EncryptionConfig,attr,omitempty";
  field "LogicHashAttr" KString "LogicHash,attr,omitempty";
  field "DescriptionHashAttr" KString "DescriptionHash,attr,omitempty";
  field "UseAttr" KString "Use,attr,omitempty";
  field "CustomProperties" (KPtr "CustomPropertiesCollectionType") "CustomProperties";
  field "Description" (KPtr "DescriptionType") "Description"
].

Definition RungCollectionType_fields : list xfield := [
  field "UseAttr" KString "Use,attr,omitempty";
  field "StartAttr" KString "Start,attr,omitempty";
  field "CountAttr" KString "Count,attr,omitempty";
  field "OnlineEditTypeAttr" KString "OnlineEditType,attr,omitempty";
  field "CustomProperties" (KPtr "CustomPropertiesCollectionType") "CustomProperties";
  field "Labels" (KSlice "LabelsWideType") "Labels";
  field "Rung" (KSlice "RungType") "Rung"
].

Definition RungType_fields : list xfield := [
  field "NumberAttr" KString "Number,attr,omitempty";
  field "TypeAttr" KString "Type,attr,omitempty";
  field "UIdAttr" KString "UId,attr,omitempty";
  field "RungIdAttr" KString "RungId,attr,omitempty";
  field "VerifiedAttr" KString "Verified,attr,omitempty";
  field "RegionIdAttr" KString "RegionId,attr,omitempty";
  field "UseAttr" KString "Use,attr,omitempty";
  field "CustomProperties" (KSlice "CustomPropertiesCollectionType") "CustomProperties";
  field "Comment" (KSlice "CommentWideType") "Comment";
  field "Text" (KSlice "TextWideType") "Text";
  field "TextIOI" KStrings "TextIOI";
  field "TextNTT" KStrings "TextNTT"
].

Definition RungCommentType_fields : list xfield := [
  field "UseAttr" KString "Use,attr,omitempty";
  field "CustomProperties" (KPtr "CustomPropertiesCollectionType") "CustomProperties";
  field "LocalizedComment" (KSlice "LocalizedCommentWideType") "LocalizedComment"
].

Definition RungCommentTextType_fields : list xfield := [
  field "LangAttr" KString "Lang,attr,omitempty";
  field "UseAttr" KString "Use,attr,omitempty";
  field "CustomProperties" (KPtr "CustomPropertiesCollectionType") "CustomProperties"
].

Definition LabelCollectionType_fields : list xfield := [
  field "UIdAttr" KString "UId,attr,omitempty";
  field "UseAttr" KString "Use,attr,omitempty";
  field "CustomProperties" (KPtr "CustomPropertiesCollectionType") "CustomProperties";
  field "Label" (KSlice "LabelWideType") "Label"
].

Definition LabelType_fields : list xfield := [
  field "NameAttr" KString "Name,attr,omitempty";
  field "UIdAttr" KString "UId,attr,omitempty";
  field "UseAttr" KString "Use,attr,omitempty";
  field "CustomProperties" (KPtr "CustomPropertiesCollectionType") "CustomProperties"
].

Definition FBDContentType_fields : list xfield := [
  field "UseAttr" KString "Use,attr,omitempty";
  field "StartAttr" KString "Start,attr,omitempty";
  field "CountAttr" KString "Count,attr,omitempty";
  field "SheetSizeAttr" KString "SheetSize,attr,omitempty";
  field "SheetOrientationAttr" KString "SheetOrientation,attr,omitempty";
  field "OnlineEditTypeAttr" KString "OnlineEditType,attr,omitempty";
  field "UIdAttr" KString "UId,attr,omitempty";
  field "CustomProperties" (KPtr "CustomPropertiesCollectionType") "CustomProperties";
  field "Sheet" (KSlice "SheetType") "Sheet"
].

Definition SheetType_fields : list xfield := [
  field "NumberAttr" KString "Number,attr,omitempty";
  field "UIdAttr" KString "UId,attr,omitempty";
  field "MetadataIdAttr" KString "MetadataId,attr,omitempty";
  field "UseAttr" KString "Use,attr,omitempty";
  field "CustomProperties" (KPtr "CustomPropertiesCollectionType") "CustomProperties";
  field "Description" (KPtr "DescriptionType") "Description";
  field "LanguageElements" KStrings "LanguageElements";
  field "IRef" (KSlice "FBDInputRefType") "IRef";
  field "ORef" (KSlice "FBDOutputRefType") "ORef";
  field "ICon" (KSlice "FBDInputWireConnectorType") "ICon";
  field "OCon" (KSlice "FBDOutputWireConnectorType") "OCon";
  field "Block" (KSlice "AFBDBlockType") "Block";
  field "Function" (KSlice "AFBDFunctionType") "Function";
  field "AddOnInstruction" (KSlice "FBDUDIBlockType") "AddOnInstruction";
  field "GSV" (KSlice "FBDGsvBlockType") "GSV";
  field "SSV" (KSlice "FBDSsvBlockType") "SSV";
  field "JSR" (KSlice "FBDJSRType") "JSR";
  field "SBR" (KSlice "FBDSBRType") "SBR";
  field "RET" (KSlice "FBDRETType") "RET";
  field "Wire" (KSlice "FBDWireType") "Wire";
  field "FeedbackWire" (KSlice "FBDFeedbackWireType") "FeedbackWire";
  field "TextBox" (KSlice "TextBoxType") "TextBox";
  field "Attachment" (KSlice "AAttachmentType") "Attachment"
].

Definition FBDInputRefType_fields : list xfield := [
  field "XMLName" KName "IRef";
  field "IDAttr" KString "ID,attr";
  field "XAttr" KString "X,attr";
  field "YAttr" KString "Y,attr";
  field "OperandAttr" KString "Operand,attr,omitempty";
  field "OperandIOIAttr" KString "OperandIOI,attr,omitempty";
  field "OperandIOINTTAttr" KString "OperandIOINTT,attr,omitempty";
  field "HideDescAttr" KString "HideDesc,attr,omitempty";
  field "VerifiedAttr" KString "Verified,attr,omitempty";
  field "LatchedTagIOIAttr" KString "LatchedTagIOI,attr,omitempty";
  field "LatchedTagIOINTTAttr" KString "LatchedTagIOINTT,attr,omitempty";
  field "UIdAttr" KString "UId,attr,omitempty";
  field "MetadataIdAttr" KString "MetadataId,attr,omitempty";
  field "RegionIdAttr" KString "RegionId,attr,omitempty";
  field "UseAttr" KString "Use,attr,omitempty";
  field "CustomProperties" (KPtr "CustomPropertiesCollectionType") "CustomProperties"
].

Definition FBDOutputRefType_fields : list xfield := [
  field "XMLName" KName "ORef";
  field "IDAttr" KString "ID,attr";
  field "XAttr" KString "X,attr";
  field "YAttr" KString "Y,attr";
  field "OperandAttr" KString "Operand,attr,omitempty";
  field "OperandIOIAttr" KString "OperandIOI,attr,omitempty";
  field "OperandIOINTTAttr" KString "OperandIOINTT,attr,omitempty";
  field "HideDescAttr" KString "HideDesc,attr,omitempty";
  field "VerifiedAttr" KString "Verified,attr,omitempty";
  field "RegionIdAttr" KString "RegionId,attr,omitempty";
  field "UIdAttr" KString "UId,attr,omitempty";
  field "MetadataIdAttr" KString "MetadataId,attr,omitempty";
  field "UseAttr" KString "Use,attr,omitempty";
  field "CustomProperties" (KPtr "CustomPropertiesCollectionType") "CustomProperties"
].

Definition FBDInputWireConnectorType_fields : list xfield := [
  field "XMLName" KName "ICon";
  field "IDAttr" KString "ID,attr";
  field "XAttr" KString "X,attr";
  field "YAttr" KString "Y,attr";
  field "NameAttr" KString "Name,attr";
  field "VerifiedAttr" KString "Verified,attr,omitempty";
  field "UIdAttr" KString "UId,attr,omitempty";
  field "MetadataIdAttr" KString "MetadataId,attr,omitempty";
  field "UseAttr" KString "Use,attr,omitempty";
  field "CustomProperties" (KPtr "CustomPropertiesCollectionType") "CustomProperties"
].

Definition FBDOutputWireConnectorType_fields : list xfield := [
  field "XMLName" KName "OCon";
  field "IDAttr" KString "ID,attr";
  field "XAttr" KString "X,attr";
  field "YAttr" KString "Y,attr";
  field "NameAttr" KString "Name,attr";
  field "VerifiedAttr" KString "Verified,attr,omitempty";
  field "UIdAttr" KString "UId,attr,omitempty";
  field "MetadataIdAttr" KString "MetadataId,attr,omitempty";
  field "UseAttr" KString "Use,attr,omitempty";
  field "CustomProperties" (KPtr "CustomPropertiesCollectionType") "CustomProperties"
].

Definition FBDUDIBlockType_fields : list xfield := [
  field "XMLName" KName "AddOnInstruction";
  field "NameAttr" KString "Name,attr";
  field "IDAttr" KString "ID,attr";
  field "XAttr" KString "X,attr";
  field "YAttr" KString "Y,attr";
  field "OperandAttr" KString "Operand,attr,omitempty";
  field "OperandIOIAttr" KString "OperandIOI,attr,omitempty";
  field "OperandIOINTTAttr" KString "OperandIOINTT,attr,omitempty";
  field "VisiblePinsAttr" KString "VisiblePins,attr,omitempty";
  field "VerifiedAttr" KString "Verified,attr,omitempty";
  field "RegionIdAttr" KString "RegionId,attr,omitempty";
  field "UIdAttr" KString "UId,attr,omitempty";
  field "MetadataIdAttr" KString "MetadataId,attr,omitempty";
  field "UseAttr" KString "Use,attr,omitempty";
  field "CustomProperties" (KPtr "CustomPropertiesCollectionType") "CustomProperties";
  field "InOutParameter" (KSlice "FBDUDIArgumentType") "InOutParameter"
].

Definition FBDUDIArgumentType_fields : list xfield := [
  field "XMLName" KName "FBD_UDIArgumentType";
  field "NameAttr" KString "Name,attr";
  field "ArgumentAttr" KString "Argument,attr,omitempty";
  field "ArgumentIOIAttr" KString "ArgumentIOI,attr,omitempty";
  field "ArgumentIOINTTAttr" KString "ArgumentIOINTT,attr,omitempty";
  field "UseAttr" KString "Use,attr,omitempty";
  field "CustomProperties" (KPtr "CustomPropertiesCollectionType") "CustomProperties"
].

Definition AFBDBlockType_fields : list xfield := [
  field "XMLName" KName "Block";
  field "TypeAttr" KString "Type,attr";
  field "IDAttr" KString "ID,attr";
  field "XAttr" KString "X,attr";
  field "YAttr" KString "Y,attr";
  field "OperandAttr" KString "Operand,attr,omitempty";
  field "OperandIOIAttr" KString "OperandIOI,attr,omitempty";
  field "OperandIOINTTAttr" KString "OperandIOINTT,attr,omitempty";
  field "VisiblePinsAttr" KString "VisiblePins,attr,omitempty";
  field "HideDescAttr" KString "HideDesc,attr,omitempty";
  field "AutotuneTagAttr" KString "AutotuneTag,attr,omitempty";
  field "AutotuneTagIOIAttr" KString "AutotuneTagIOI,attr,omitempty";
  field "AutotuneTagIOINTTAttr" KString "AutotuneTagIOINTT,attr,omitempty";
  field "VerifiedAttr" KString "Verified,attr,omitempty";
  field "UIdAttr" KString "UId,attr,omitempty";
  field "MetadataIdAttr" KString "MetadataId,attr,omitempty";
  field "RegionIdAttr" KString "RegionId,attr,omitempty";
  field "UseAttr" KString "Use,attr,omitempty";
  field "CustomProperties" (KPtr "CustomPropertiesCollectionType") "CustomProperties";
  field "Array" (KSlice "FBDSpecialArrayType") "Array"
].

Definition AFBDFunctionType_fields : list xfield := [
  field "XMLName" KName "Function";
  field "TypeAttr" KString "Type,attr";
  field "IDAttr" KString "ID,attr";
  field "XAttr" KString "X,attr";
  field "YAttr" KString "Y,attr";
  field "OutputTagIOIAttr" KString "OutputTagIOI,attr,omitempty";
  field "OutputTagIOINTTAttr" KString "OutputTagIOINTT,attr,omitempty";
  field "RegionIdAttr" KString "RegionId,attr,omitempty";
  field "OutputTagArrayIndexAttr" KString "OutputTagArrayIndex,attr,omitempty";
  field "UIdAttr" KString "UId,attr,omitempty";
  field "MetadataIdAttr" KString "MetadataId,attr,omitempty";
  field "UseAttr" KString "Use,attr,omitempty";
  field "CustomProperties" (KPtr "CustomPropertiesCollectionType") "CustomProperties"
].

Definition FBDSpecialArrayType_fields : list xfield := [
  field "XMLName" KName "Array";
  field "NameAttr" KString "Name,attr";
  field "OperandAttr" KString "Operand,attr,omitempty";
  field "OperandIOIAttr" KString "OperandIOI,attr,omitempty";
  field "OperandIOINTTAttr" KString "OperandIOINTT,attr,omitempty";
  field "UseAttr" KString "Use,attr,omitempty";
  field "CustomProperties" (KPtr "CustomPropertiesCollectionType") "CustomProperties"
].

Definition FBDGsvBlockType_fields : list xfield := [
  field "XMLName" KName "FBD_GsvBlockType";
  field "IDAttr" KString "ID,attr";
  field "XAttr" KString "X,attr";
  field "YAttr" KString "Y,attr";
  field "ObjectAttr" KString "Object,attr";
  field "VerifiedAttr" KString "Verified,attr,omitempty";
  field "UIdAttr" KString "UId,attr,omitempty";
  field "MetadataIdAttr" KString "MetadataId,attr,omitempty";
  field "UseAttr" KString "Use,attr,omitempty";
  field "CustomProperties" (KPtr "CustomPropertiesCollectionType") "CustomProperties"
].

Definition FBDSsvBlockType_fields : list xfield := [
  field "XMLName" KName "FBD_SsvBlockType";
  field "IDAttr" KString "ID,attr";
  field "XAttr" KString "X,attr";
  field "YAttr" KString "Y,attr";
  field "ObjectAttr" KString "Object,attr";
  field "VerifiedAttr" KString "Verified,attr,omitempty";
  field "UIdAttr" KString "UId,attr,omitempty";
  field "MetadataIdAttr" KString "MetadataId,attr,omitempty";
  field "UseAttr" KString "Use,attr,omitempty";
  field "CustomProperties" (KPtr "CustomPropertiesCollectionType") "CustomProperties"
].

Definition FBDJSRType_fields : list xfield := [
  field "XMLName" KName "FBD_JSRType";
  field "IDAttr" KString "ID,attr";
  field "XAttr" KString "X,attr";
  field "YAttr" KString "Y,attr";
  field "RoutineAttr" KString "Routine,attr,omitempty";
  field "RoutineIOIAttr" KString "RoutineIOI,attr,omitempty";
  field "RoutineIOINTTAttr" KString "RoutineIOINTT,attr,omitempty";
  field "InAttr" KString "In,attr,omitempty";
  field "InIOIAttr" KString "InIOI,attr,omitempty";
  field "InIOINTTAttr" KString "InIOINTT,attr,omitempty";
  field "RetAttr" KString "Ret,attr,omitempty";
  field "RetIOIAttr" KString "RetIOI,attr,omitempty";
  field "RetIOINTTAttr" KString "RetIOINTT,attr,omitempty";
  field "UIdAttr" KString "UId,attr,omitempty";
  field "MetadataIdAttr" KString "MetadataId,attr,omitempty";
  field "VerifiedAttr" KString "Verified,attr,omitempty";
  field "RegionIdAttr" KString "RegionId,attr,omitempty";
  field "UseAttr" KString "Use,attr,omitempty";
  field "CustomProperties" (KPtr "CustomPropertiesCollectionType") "CustomProperties"
].

Definition FBDSBRType_fields : list xfield := [
  field "XMLName" KName "FBD_SBRType";
  field "IDAttr" KString "ID,attr";
  field "XAttr" KString "X,attr";
  field "YAttr" KString "Y,attr";
  field "RetAttr" KString "Ret,attr,omitempty";
  field "RetIOIAttr" KString "RetIOI,attr,omitempty";
  field "RetIOINTTAttr" KString "RetIOINTT,attr,omitempty";
  field "VerifiedAttr" KString "Verified,attr,omitempty";
  field "RegionIdAttr" KString "RegionId,attr,omitempty";
  field "UIdAttr" KString "UId,attr,omitempty";
  field "MetadataIdAttr" KString "MetadataId,attr,omitempty";
  field "UseAttr" KString "Use,attr,omitempty";
  field "CustomProperties" (KPtr "CustomPropertiesCollectionType") "CustomProperties"
].

Definition FBDRETType_fields : list xfield := [
  field "XMLName" KName "FBD_RETType";
  field "IDAttr" KString "ID,attr";
  field "XAttr" KString "X,attr";
  field "YAttr" KString "Y,attr";
  field "InAttr" KString "In,attr,omitempty";
  field "InIOIAttr" KString "InIOI,attr,omitempty";
  field "InIOINTTAttr" KString "InIOINTT,attr,omitempty";
  field "VerifiedAttr" KString "Verified,attr,omitempty";
  field "RegionIdAttr" KString "RegionId,attr,omitempty";
  field "UIdAttr" KString "UId,attr,omitempty";
  field "MetadataIdAttr" KString "MetadataId,attr,omitempty";
  field "UseAttr" KString "Use,attr,omitempty";
  field "CustomProperties" (KPtr "CustomPropertiesCollectionType") "CustomProperties"
].

Definition FBDWireType_fields : list xfield := [
  field "XMLName" KName "Wire";
  field "FromIDAttr" KString "FromID,attr";
  field "FromParamAttr" KString "FromParam,attr,omitempty";
  field "ToIDAttr" KString "ToID,attr";
  field "ToParamAttr" KString "ToParam,attr,omitempty";
  field "VerifiedAttr" KString "Verified,attr,omitempty";
  field "UIdAttr" KString "UId,attr,omitempty";
  field "MetadataIdAttr" KString "MetadataId,attr,omitempty";
  field "UseAttr" KString "Use,attr,omitempty";
  field "CustomProperties" (KPtr "CustomPropertiesCollectionType") "CustomProperties"
].

Definition FBDFeedbackWireType_fields : list xfield := [
  field "XMLName" KName "FeedbackWire";
  field "FromIDAttr" KString "FromID,attr";
  field "FromParamAttr" KString "FromParam,attr,omitempty";
  field "ToIDAttr" KString "ToID,attr";
  field "ToParamAttr" KString "ToParam,attr,omitempty";
  field "VerifiedAttr" KString "Verified,attr,omitempty";
  field "UIdAttr" KString "UId,attr,omitempty";
  field "MetadataIdAttr" KString "MetadataId,attr,omitempty";
  field "UseAttr" KString "Use,attr,omitempty";
  field "CustomProperties" (KPtr "CustomPropertiesCollectionType") "CustomProperties"
].

Definition TextBoxType_fields : list xfield := [
  field "IDAttr" KString "ID,attr";
  field "XAttr" KString "X,attr";
  field "YAttr" KString "Y,attr";
  field "WidthAttr" KString "Width,attr,omitempty";
  field "VerifiedAttr" KString "Verified,attr,omitempty";
  field "UIdAttr" KString "UId,attr,omitempty";
  field "MetadataIdAttr" KString "MetadataId,attr,omitempty";
  field "UseAttr" KString "Use,attr,omitempty";
  field "CustomProperties" (KPtr "CustomPropertiesCollectionType") "CustomProperties";
  field "Text" (KSlice "TextWideType") "Text"
].

Definition TextBoxAdaptorType_fields : list xfield := [
  field "UseAttr" KString "Use,attr,omitempty";
  field "CustomProperties" (KPtr "CustomPropertiesCollectionType") "CustomProperties";
  field "LocalizedText" (KSlice "TextBoxAdaptorTextType") "LocalizedText"
].

Definition TextBoxAdaptorTextType_fields : list xfield := [
  field "LangAttr" KString "Lang,attr,omitempty";
  field "UseAttr" KString "Use,attr,omitempty";
  field "CustomProperties" (KPtr "CustomPropertiesCollectionType") "CustomProperties"
].

Definition SFCContentType_fields : list xfield := [
  field "SheetSizeAttr" KString "SheetSize,attr,omitempty";
  field "SheetOrientationAttr" KString "SheetOrientation,attr,omitempty";
  field "StepNameAttr" KString "StepName,attr,omitempty";
  field "TransitionNameAttr" KString "TransitionName,attr,omitempty";
  field "ActionNameAttr" KString "ActionName,attr,omitempty";
  field "StopNameAttr" KString "StopName,attr,omitempty";
  field "OnlineEditTypeAttr" KString "OnlineEditType,attr,omitempty";
  field "UIdAttr" KString "UId,attr,omitempty";
  field "UseAttr" KString "Use,attr,omitempty";
  field "CustomProperties" (KPtr "CustomPropertiesCollectionType") "CustomProperties";
  field "LanguageElements" KStrings "LanguageElements";
  field "Step" (KSlice "ASFCStepElementType") "Step";
  field "Transition" (KSlice "ASFCTransitionElementType") "Transition";
  field "Branch" (KSlice "ASFCBranchElementType") "Branch";
  field "SbrRet" (KSlice "SFCSBRRETType") "SbrRet";
  field "Stop" (KSlice "ASFCStopElementType") "Stop";
  field "DirectedLink" (KSlice "ASFCLangElemWireType") "DirectedLink";
  field "TextBox" (KSlice "TextBoxType") "TextBox";
  field "Attachment" (KSlice "AAttachmentType") "Attachment"
].

Definition SEQContentType_fields : list xfield := [
  field "SheetSizeAttr" KString "SheetSize,attr,omitempty";
  field "SheetOrientationAttr" KString "SheetOrientation,attr,omitempty";
  field "UIdAttr" KString "UId,attr,omitempty";
  field "UseAttr" KString "Use,attr,omitempty";
  field "CustomProperties" (KPtr "CustomPropertiesCollectionType") "CustomProperties";
  field "LanguageElements" KStrings "LanguageElements";
  field "Step" (KSlice "ASFCStepElementType") "Step";
  field "Transition" (KSlice "ASFCTransitionElementType") "Transition";
  field "Branch" (KSlice "ASFCBranchElementType") "Branch";
  field "Stop" (KSlice "ASFCStopElementType") "Stop";
  field "DirectedLink" (KSlice "ASFCLangElemWireType") "DirectedLink";
  field "TextBox" (KSlice "TextBoxType") "TextBox";
  field "Attachment" (KSlice "AAttachmentType") "Attachment";
  field "TagConfigurations" (KPtr "TagConfigurationsAdaptorType") "TagConfigurations"
].

Definition TagConfigurationsAdaptorType_fields : list xfield := [
  field "UseAttr" KString "Use,attr,omitempty";
  field "CustomProperties" (KPtr "CustomPropertiesCollectionType") "CustomProperties";
  field "TagConfiguration" (KSlice "TagConfigurationAdaptorType") "TagConfiguration"
].

Definition TagConfigurationAdaptorType_fields : list xfield := [
  field "TagNameAttr" KString "TagName,attr,omitempty";
  field "TagIOIAttr" KString "TagIOI,attr,omitempty";
  field "Action1FirstRegionIDAttr" KString "Action1FirstRegionID,attr,omitempty";
  field "Action2FirstRegionIDAttr" KString "Action2FirstRegionID,attr,omitempty";
  field "UseAttr" KString "Use,attr,omitempty";
  field "CustomProperties" (KPtr "CustomPropertiesCollectionType") "CustomProperties";
  field "Expression" (KPtr "EmbeddedLanguageBlockType") "Expression"
].

Definition ASFCStepElementType_fields : list xfield := [
  field "XMLName" KName "ASFC_StepElementType";
  field "IDAttr" KString "ID,attr";
  field "XAttr" KString "X,attr";
  field "YAttr" KString "Y,attr";
  field "OperandAttr" KString "Operand,attr,omitempty";
  field "OperandIOIAttr" KString "OperandIOI,attr,omitempty";
  field "ComponentIOIAttr" KString "ComponentIOI,attr,omitempty";
  field "HideDescAttr" KString "HideDesc,attr,omitempty";
  field "DescXAttr" KString "DescX,attr,omitempty";
  field "DescYAttr" KString "DescY,attr,omitempty";
  field "DescWidthAttr" KString "DescWidth,attr,omitempty";
  field "InitialStepAttr" KString "InitialStep,attr,omitempty";
  field "PresetUsesExprAttr" KString "PresetUsesExpr,attr,omitempty";
  field "LimitHighUsesExprAttr" KString "LimitHighUsesExpr,attr,omitempty";
  field "LimitLowUsesExprAttr" KString "LimitLowUsesExpr,attr,omitempty";
  field "ShowActionsAttr" KString "ShowActions,attr,omitempty";
  field "NoPhaseStepAttr" KString "NoPhaseStep,attr,omitempty";
  field "PhaseNameAttr" KString "PhaseName,attr,omitempty";
  field "PhaseIOIAttr" KString "PhaseIOI,attr,omitempty";
  field "TransferOfControlSourceAttr" KString "TransferOfControlSource,attr,omitempty";
  field "TransferOfControlTargetAttr" KString "TransferOfControlTarget,attr,omitempty";
  field "UIdAttr" KString "UId,attr,omitempty";
  field "MetadataIdAttr" KString "MetadataId,attr,omitempty";
  field "UseAttr" KString "Use,attr,omitempty";
  field "CustomProperties" (KPtr "CustomPropertiesCollectionType") "CustomProperties";
  field "Preset" (KPtr "EmbeddedLanguageBlockType") "Preset";
  field "LimitHigh" (KPtr "EmbeddedLanguageBlockType") "LimitHigh";
  field "LimitLow" (KPtr "EmbeddedLanguageBlockType") "LimitLow";
  field "Action" (KSlice "SFCActionElementType") "Action"
].

Definition EmbeddedLanguageBlockType_fields : list xfield := [
  field "UseAttr" KString "Use,attr,omitempty";
  field "CustomProperties" (KPtr "CustomPropertiesCollectionType") "CustomProperties";
  field "STContent" (KPtr "STContentType") "STContent"
].

Definition SFCActionElementType_fields : list xfield := [
  field "XMLName" KName "SFC_ActionElementType";
  field "IDAttr" KString "ID,attr";
  field "OperandAttr" KString "Operand,attr,omitempty";
  field "OperandIOIAttr" KString "OperandIOI,attr,omitempty";
  field "ComponentIOIAttr" KString "ComponentIOI,attr,omitempty";
  field "QualifierAttr" KString "Qualifier,attr,omitempty";
  field "IsBooleanAttr" KString "IsBoolean,attr,omitempty";
  field "PresetUsesExprAttr" KString "PresetUsesExpr,attr,omitempty";
  field "IndicatorTagAttr" KString "IndicatorTag,attr,omitempty";
  field "IndicatorTagIOIAttr" KString "IndicatorTagIOI,attr,omitempty";
  field "UIdAttr" KString "UId,attr,omitempty";
  field "MetadataIdAttr" KString "MetadataId,attr,omitempty";
  field "UseAttr" KString "Use,attr,omitempty";
  field "CustomProperties" (KPtr "CustomPropertiesCollectionType") "CustomProperties";
  field "Preset" (KPtr "EmbeddedLanguageBlockType") "Preset";
  field "Body" (KPtr "EmbeddedLanguageBlockType") "Body"
].

Definition ASFCTransitionElementType_fields : list xfield := [
  field "XMLName" KName "ASFC_TransitionElementType";
  field "IDAttr" KString "ID,attr";
  field "XAttr" KString "X,attr";
  field "YAttr" KString "Y,attr";
  field "OperandAttr" KString "Operand,attr,omitempty";
  field "OperandIOIAttr" KString "OperandIOI,attr,omitempty";
  field "ComponentIOIAttr" KString "ComponentIOI,attr,omitempty";
  field "HideDescAttr" KString "HideDesc,attr,omitempty";
  field "DescXAttr" KString "DescX,attr,omitempty";
  field "DescYAttr" KString "DescY,attr,omitempty";
  field "DescWidthAttr" KString "DescWidth,attr,omitempty";
  field "ForceAttr" KString "Force,attr,omitempty";
  field "UIdAttr" KString "UId,attr,omitempty";
  field "MetadataIdAttr" KString "MetadataId,attr,omitempty";
  field "UseAttr" KString "Use,attr,omitempty";
  field "CustomProperties" (KPtr "CustomPropertiesCollectionType") "CustomProperties";
  field "Condition" (KPtr "EmbeddedLanguageBlockType") "Condition"
].

Definition ASFCBranchElementType_fields : list xfield := [
  field "XMLName" KName "ASFC_BranchElementType";
  field "IDAttr" KString "ID,attr";
  field "XAttr" KString "X,attr,omitempty";
  field "YAttr" KString "Y,attr";
  field "BranchTypeAttr" KString "BranchType,attr";
  field "BranchFlowAttr" KString "BranchFlow,attr";
  field "PriorityAttr" KString "Priority,attr,omitempty";
  field "UIdAttr" KString "UId,attr,omitempty";
  field "MetadataIdAttr" KString "MetadataId,attr,omitempty";
  field "UseAttr" KString "Use,attr,omitempty";
  field "CustomProperties" (KPtr "CustomPropertiesCollectionType") "CustomProperties";
  field "Leg" (KSlice "ASFCLegElementType") "Leg"
].

Definition ASFCLegElementType_fields : list xfield := [
  field "XMLName" KName "ASFC_LegElementType";
  field "IDAttr" KString "ID,attr";
  field "ForceAttr" KString "Force,attr,omitempty";
  field "ComponentIOIAttr" KString "ComponentIOI,attr,omitempty";
  field "UIdAttr" KString "UId,attr,omitempty";
  field "MetadataIdAttr" KString "MetadataId,attr,omitempty";
  field "UseAttr" KString "Use,attr,omitempty";
  field "CustomProperties" (KPtr "CustomPropertiesCollectionType") "CustomProperties"
].

Definition SFCSBRRETType_fields : list xfield := [
  field "XMLName" KName "SFC_SBR_RETType";
  field "IDAttr" KString "ID,attr";
  field "XAttr" KString "X,attr";
  field "YAttr" KString "Y,attr";
  field "InAttr" KString "In,attr,omitempty";
  field "InIOIAttr" KString "InIOI,attr,omitempty";
  field "RetAttr" KString "Ret,attr,omitempty";
  field "RetIOIAttr" KString "RetIOI,attr,omitempty";
  field "VerifiedAttr" KString "Verified,attr,omitempty";
  field "UIdAttr" KString "UId,attr,omitempty";
  field "InRegionIdAttr" KString "InRegionId,attr,omitempty";
  field "RetRegionIdAttr" KString "RetRegionId,attr,omitempty";
  field "MetadataIdAttr" KString "MetadataId,attr,omitempty";
  field "UseAttr" KString "Use,attr,omitempty";
  field "CustomProperties" (KPtr "CustomPropertiesCollectionType") "CustomProperties"
].

Definition ASFCStopElementType_fields : list xfield := [
  field "XMLName" KName "ASFC_StopElementType";
  field "IDAttr" KString "ID,attr";
  field "XAttr" KString "X,attr";
  field "YAttr" KString "Y,attr";
  field "OperandAttr" KString "Operand,attr,omitempty";
  field "OperandIOIAttr" KString "OperandIOI,attr,omitempty";
  field "ComponentIOIAttr" KString "ComponentIOI,attr,omitempty";
  field "HideDescAttr" KString "HideDesc,attr,omitempty";
  field "DescXAttr" KString "DescX,attr,omitempty";
  field "DescYAttr" KString "DescY,attr,omitempty";
  field "DescWidthAttr" KString "DescWidth,attr,omitempty";
  field "UIdAttr" KString "UId,attr,omitempty";
  field "MetadataIdAttr" KString "MetadataId,attr,omitempty";
  field "UseAttr" KString "Use,attr,omitempty";
  field "CustomProperties" (KPtr "CustomPropertiesCollectionType") "CustomProperties"
].

Definition ASFCLangElemWireType_fields : list xfield := [
  field "XMLName" KName "ASFC_LangElemWireType";
  field "FromIDAttr" KString "FromID,attr";
  field "ToIDAttr" KString "ToID,attr";
  field "ShowAttr" KString "Show,attr";
  field "VerifiedAttr" KString "Verified,attr,omitempty";
  field "UIdAttr" KString "UId,attr,omitempty";
  field "MetadataIdAttr" KString "MetadataId,attr,omitempty";
  field "UseAttr" KString "Use,attr,omitempty";
  field "CustomProperties" (KPtr "CustomPropertiesCollectionType") "CustomProperties"
].

Definition AAttachmentType_fields : list xfield := [
  field "FromIDAttr" KString "FromID,attr";
  field "ToIDAttr" KString "ToID,attr";
  field "VerifiedAttr" KString "Verified,attr,omitempty";
  field "UIdAttr" KString "UId,attr,omitempty";
  field "MetadataIdAttr" KString "MetadataId,attr,omitempty";
  field "UseAttr" KString "Use,attr,omitempty";
  field "CustomProperties" (KPtr "CustomPropertiesCollectionType") "CustomProperties"
].

Definition STContentType_fields : list xfield := [
  field "UseAttr" KString "Use,attr,omitempty";
  field "StartAttr" KString "Start,attr,omitempty";
  field "CountAttr" KString "Count,attr,omitempty";
  field "OnlineEditTypeAttr" KString "OnlineEditType,attr,omitempty";
  field "UIdAttr" KString "UId,attr,omitempty";
  field "CustomProperties" (KPtr "CustomPropertiesCollectionType") "CustomProperties";
  field "RegionIdList" KString "RegionIdList";
  field "CompactSTLines" KString "CompactSTLines";
  field "MetadataIdList" KString "MetadataIdList";
  field "Line" (KSlice "STLineType") "Line"
].

Definition STLineType_fields : list xfield := [
  field "NumberAttr" KString "Number,attr,omitempty";
  field "UIdAttr" KString "UId,attr,omitempty";
  field "MetadataIdAttr" KString "MetadataId,attr,omitempty";
  field "UseAttr" KString "Use,attr,omitempty";
  field "CustomProperties" (KPtr "CustomPropertiesCollectionType") "CustomProperties";
  field "Value" KString "Value"
].

Definition DLL_fields : list xfield := [
  field "Value" KString ",chardata"
].

Definition EntryPoint_fields : list xfield := [
  field "Value" KString ",chardata"
].

Definition ExternalContentType_fields : list xfield := [
  field "UseAttr" KString "Use,attr,omitempty";
  field "CustomProperties" (KPtr "CustomPropertiesCollectionType") "CustomProperties";
  field "DLL" (KPtr "DLL") "DLL";
  field "EntryPoint" (KPtr "EntryPoint") "EntryPoint";
  field "ExternalRoutineXml" KString "ExternalRoutineXml"
].

Definition ChildProgramCollectionType_fields : list xfield := [
  field "UseAttr" KString "Use,attr,omitempty";
  field "CustomProperties" (KPtr "CustomPropertiesCollectionType") "CustomProperties";
  field "ChildProgram" (KSlice "ChildProgramType") "ChildProgram"
].

Definition ChildProgramType_fields : list xfield := [
  field "NameAttr" KString "Name,attr";
  field "UIdAttr" KString "UId,attr,omitempty";
  field "UseAttr" KString "Use,attr,omitempty";
  field "CustomProperties" (KPtr "CustomPropertiesCollectionType") "CustomProperties"
].

Definition TaskCollectionType_fields : list xfield := [
  field "UIdAttr" KString "UId,attr,omitempty";
  field "ParentUIdAttr" KString "ParentUId,attr,omitempty";
  field "UseAttr" KString "Use,attr,omitempty";
  field "CustomProperties" (KPtr "CustomPropertiesCollectionType") "CustomProperties";
  field "Task" (KSlice "TaskType") "Task"
].

Definition TaskType_fields : list xfield := [
  field "NameAttr" KString "Name,attr";
  field "UIdAttr" KString "UId,attr,omitempty";
  field "ParentUIdAttr" KString "ParentUId,attr,omitempty";
  field "TypeAttr" KString "Type,attr";
  field "WatchdogAttr" KString "Watchdog,attr,omitempty";
  field "PriorityAttr" KString "Priority,attr,omitempty";
  field "RateAttr" KString "Rate,attr,omitempty";
  field "DisableUpdateOutputsAttr" KString "DisableUpdateOutputs,attr,omitempty";
  field "InhibitTaskAttr" KString "InhibitTask,attr,omitempty";
  field "VerifiedAttr" KString "Verified,attr,omitempty";
  field "LastScanTimeAttr" KString "LastScanTime,attr,omitempty";
  field "MaxScanTimeAttr" KString "MaxScanTime,attr,omitempty";
  field "MaxIntervalAttr" KString "MaxInterval,attr,omitempty";
  field "MinIntervalAttr" KString "MinInterval,attr,omitempty";
  field "StartTimeAttr" KString "StartTime,attr,omitempty";
  field "ClassAttr" KString "Class,attr,omitempty";
  field "UseAttr" KString "Use,attr,omitempty";
  field "CustomProperties" (KPtr "CustomPropertiesCollectionType") "CustomProperties";
  field "Description" (KPtr "DescriptionType") "Description";
  field "EventInfo" (KPtr "TaskEventInfoType") "EventInfo";
  field "ScheduledPrograms" (KPtr "ScheduledProgramCollectionType") "ScheduledPrograms"
].

Definition TaskEventInfoType_fields : list xfield := [
  field "EventTriggerAttr" KString "EventTrigger,attr,omitempty";
  field "EventTagAttr" KString "EventTag,attr,omitempty";
  field "EnableTimeoutAttr" KString "EnableTimeout,attr,omitempty";
  field "UseAttr" KString "Use,attr,omitempty";
  field "CustomProperties" (KPtr "CustomPropertiesCollectionType") "CustomProperties"
].

Definition ScheduledProgramCollectionType_fields : list xfield := [
  field "UseAttr" KString "Use,attr,omitempty";
  field "CustomProperties" (KPtr "CustomPropertiesCollectionType") "CustomProperties";
  field "ScheduledProgram" (KSlice "ScheduledProgramType") "ScheduledProgram"
].

Definition ScheduledProgramType_fields : list xfield := [
  field "NameAttr" KString "Name,attr";
  field "UIdAttr" KString "UId,attr,omitempty";
  field "UseAttr" KString "Use,attr,omitempty";
  field "CustomProperties" (KPtr "CustomPropertiesCollectionType") "CustomProperties"
].

Definition CSTType_fields : list xfield := [
  field "MasterIDAttr" KString "MasterID,attr";
  field "UIdAttr" KString "UId,attr,omitempty";
  field "VerifiedAttr" KString "Verified,attr,omitempty";
  field "StatusAttr" KString "Status,attr,omitempty";
  field "MasterAttr" KString "Master,attr,omitempty";
  field "UseAttr" KString "Use,attr,omitempty";
  field "CustomProperties" (KPtr "CustomPropertiesCollectionType") "CustomProperties"
].

Definition WallClockTimeType_fields : list xfield := [
  field "UIdAttr" KString "UId,attr,omitempty";
  field "LocalTimeAdjustmentAttr" KString "LocalTimeAdjustment,attr,omitempty";
  field "TimeZoneAttr" KString "TimeZone,attr,omitempty";
  field "VerifiedAttr" KString "Verified,attr,omitempty";
  field "UseAttr" KString "Use,attr,omitempty";
  field "CustomProperties" (KPtr "CustomPropertiesCollectionType") "CustomProperties"
].

Definition SafetyControllerType_fields : list xfield := [
  field "UseAttr" KString "Use,attr,omitempty";
  field "CustomProperties" (KPtr "CustomPropertiesCollectionType") "CustomProperties"
].

Definition RedundancyType_fields : list xfield := [
  field "UseAttr" KString "Use,attr,omitempty";
  field "CustomProperties" (KPtr "CustomPropertiesCollectionType") "CustomProperties"
].

Definition FaultLogType_fields : list xfield := [
  field "UseAttr" KString "Use,attr,omitempty";
  field "CustomProperties" (KPtr "CustomPropertiesCollectionType") "CustomProperties"
].

Definition CommPortCollectionType_fields : list xfield := [
  field "UseAttr" KString "Use,attr,omitempty";
  field "CustomProperties" (KPtr "CustomPropertiesCollectionType") "CustomProperties";
  field "SerialPort" (KSlice "SerialPortType") "SerialPort"
].

Definition SerialPortType_fields : list xfield := [
  field "ChannelAttr" KString "Channel,attr,omitempty";
  field "BaudRateAttr" KString "BaudRate,attr,omitempty";
  field "ParityAttr" KString "Parity,attr,omitempty";
  field "DataBitsAttr" KString "DataBits,attr,omitempty";
  field "StopBitsAttr" KString "StopBits,attr,omitempty";
  field "ComDriverIdAttr" KString "ComDriverId,attr,omitempty";
  field "RTSOffDelayAttr" KString "RTSOffDelay,attr,omitempty";
  field "RTSSendDelayAttr" KString "RTSSendDelay,attr,omitempty";
  field "ControlLineAttr" KString "ControlLine,attr,omitempty";
  field "RemoteModeChangeFlagAttr" KString "RemoteModeChangeFlag,attr,omitempty";
  field "ModeChangeAttentionCharAttr" KString "ModeChangeAttentionChar,attr,omitempty";
  field "SystemModeCharacterAttr" KString "SystemModeCharacter,attr,omitempty";
  field "UserModeCharacterAttr" KString "UserModeCharacter,attr,omitempty";
  field "DCDWaitDelayAttr" KString "DCDWaitDelay,attr,omitempty";
  field "VerifiedAttr" KString "Verified,attr,omitempty";
  field "UseAttr" KString "Use,attr,omitempty";
  field "CustomProperties" (KPtr "CustomPropertiesCollectionType") "CustomProperties";
  field "ASCII" (KPtr "ASCIIDriverType") "ASCII";
  field "DF1" (KPtr "DF1DriverType") "DF1"
].

Definition DF1DriverType_fields : list xfield := [
  field "UIdAttr" KString "UId,attr,omitempty";
  field "DuplicateDetectionAttr" KString "DuplicateDetection,attr";
  field "ErrorDetectionAttr" KString "ErrorDetection,attr";
  field "EmbeddedResponseEnableAttr" KString "EmbeddedResponseEnable,attr";
  field "DF1ModeAttr" KString "DF1Mode,attr";
  field "ACKTimeoutAttr" KString "ACKTimeout,attr";
  field "NAKReceiveLimitAttr" KString "NAKReceiveLimit,attr";
  field "ENQTransmitLimitAttr" KString "ENQTransmitLimit,attr";
  field "TransmitRetriesAttr" KString "TransmitRetries,attr";
  field "StationAddressAttr" KString "StationAddress,attr";
  field "ReplyMessageWaitAttr" KString "ReplyMessageWait,attr";
  field "PollingModeAttr" KString "PollingMode,attr";
  field "MasterMessageTransmitAttr" KString "MasterMessageTransmit,attr";
  field "NormalPollNodeFileAttr" KString "NormalPollNodeFile,attr";
  field "NormalPollGroupSizeAttr" KString "NormalPollGroupSize,attr";
  field "PriorityPollNodeFileAttr" KString "PriorityPollNodeFile,attr";
  field "ActiveStationFileAttr" KString "ActiveStationFile,attr";
  field "SlavePollTimeoutAttr" KString "SlavePollTimeout,attr";
  field "EOTSuppressionAttr" KString "EOTSuppression,attr";
  field "MaxStationAddressAttr" KString "MaxStationAddress,attr";
  field "TokenHoldFactorAttr" KString "TokenHoldFactor,attr";
  field "StoreFwdFileAttr" KString "StoreFwdFile,attr";
  field "EnableStoreFwdAttr" KString "EnableStoreFwd,attr";
  field "VerifiedAttr" KString "Verified,attr,omitempty";
  field "UseAttr" KString "Use,attr,omitempty";
  field "CustomProperties" (KPtr "CustomPropertiesCollectionType") "CustomProperties"
].

Definition ASCIIDriverType_fields : list xfield := [
  field "UIdAttr" KString "UId,attr,omitempty";
  field "XONXOFFEnableAttr" KString "XONXOFFEnable,attr";
  field "DeleteModeAttr" KString "DeleteMode,attr";
  field "EchoModeAttr" KString "EchoMode,attr";
  field "TerminationCharsAttr" KString "TerminationChars,attr";
  field "AppendCharsAttr" KString "AppendChars,attr";
  field "BufferSizeAttr" KString "BufferSize,attr";
  field "VerifiedAttr" KString "Verified,attr,omitempty";
  field "UseAttr" KString "Use,attr,omitempty";
  field "CustomProperties" (KPtr "CustomPropertiesCollectionType") "CustomProperties"
].

Definition AlarmAnalogType_fields : list xfield := [
  field "EnableInAttr" KString "EnableIn,attr,omitempty";
  field "InFaultAttr" KString "InFault,attr,omitempty";
  field "HHEnabledAttr" KString "HHEnabled,attr,omitempty";
  field "HEnabledAttr" KString "HEnabled,attr,omitempty";
  field "LEnabledAttr" KString "LEnabled,attr,omitempty";
  field "LLEnabledAttr" KString "LLEnabled,attr,omitempty";
  field "AckRequiredAttr" KString "AckRequired,attr,omitempty";
  field "ProgAckAllAttr" KString "ProgAckAll,attr,omitempty";
  field "OperAckAllAttr" KString "OperAckAll,attr,omitempty";
  field "HHProgAckAttr" KString "HHProgAck,attr,omitempty";
  field "HHOperAckAttr" KString "HHOperAck,attr,omitempty";
  field "HProgAckAttr" KString "HProgAck,attr,omitempty";
  field "HOperAckAttr" KString "HOperAck,attr,omitempty";
  field "LProgAckAttr" KString "LProgAck,attr,omitempty";
  field "LOperAckAttr" KString "LOperAck,attr,omitempty";
  field "LLProgAckAttr" KString "LLProgAck,attr,omitempty";
  field "LLOperAckAttr" KString "LLOperAck,attr,omitempty";
  field "ROCPosProgAckAttr" KString "ROCPosProgAck,attr,omitempty";
  field "ROCPosOperAckAttr" KString "ROCPosOperAck,attr,omitempty";
  field "ROCNegProgAckAttr" KString "ROCNegProgAck,attr,omitempty";
  field "ROCNegOperAckAttr" KString "ROCNegOperAck,attr,omitempty";
  field "ProgSuppressAttr" KString "ProgSuppress,attr,omitempty";
  field "OperSuppressAttr" KString "OperSuppress,attr,omitempty";
  field "ProgUnsuppressAttr" KString "ProgUnsuppress,attr,omitempty";
  field "OperUnsuppressAttr" KString "OperUnsuppress,attr,omitempty";
  field "HHOperShelveAttr" KString "HHOperShelve,attr,omitempty";
  field "HOperShelveAttr" KString "HOperShelve,attr,omitempty";
  field "LOperShelveAttr" KString "LOperShelve,attr,omitempty";
  field "LLOperShelveAttr" KString "LLOperShelve,attr,omitempty";
  field "ROCPosOperShelveAttr" KString "ROCPosOperShelve,attr,omitempty";
  field "ROCNegOperShelveAttr" KString "ROCNegOperShelve,attr,omitempty";
  field "ProgUnshelveAllAttr" KString "ProgUnshelveAll,attr,omitempty";
  field "HHOperUnshelveAttr" KString "HHOperUnshelve,attr,omitempty";
  field "HOperUnshelveAttr" KString "HOperUnshelve,attr,omitempty";
  field "LOperUnshelveAttr" KString "LOperUnshelve,attr,omitempty";
  field "LLOperUnshelveAttr" KString "LLOperUnshelve,attr,omitempty";
  field "ROCPosOperUnshelveAttr" KString "ROCPosOperUnshelve,attr,omitempty";
  field "ROCNegOperUnshelveAttr" KString "ROCNegOperUnshelve,attr,omitempty";
  field "ProgDisableAttr" KString "ProgDisable,attr,omitempty";
  field "OperDisableAttr" KString "OperDisable,attr,omitempty";
  field "ProgEnableAttr" KString "ProgEnable,attr,omitempty";
  field "OperEnableAttr" KString "OperEnable,attr,omitempty";
  field "AlarmCountResetAttr" KString "AlarmCountReset,attr,omitempty";
  field "HHMinDurationEnableAttr" KString "HHMinDurationEnable,attr,omitempty";
  field "HMinDurationEnableAttr" KString "HMinDurationEnable,attr,omitempty";
  field "LMinDurationEnableAttr" KString "LMinDurationEnable,attr,omitempty";
  field "LLMinDurationEnableAttr" KString "LLMinDurationEnable,attr,omitempty";
  field "InAttr" KString "In,attr,omitempty";
  field "HHLimitAttr" KString "HHLimit,attr,omitempty";
  field "HHSeverityAttr" KString "HHSeverity,attr,omitempty";
  field "HLimitAttr" KString "HLimit,attr,omitempty";
  field "HSeverityAttr" KString "HSeverity,attr,omitempty";
  field "LLimitAttr" KString "LLimit,attr,omitempty";
  field "LSeverityAttr" KString "LSeverity,attr,omitempty";
  field "LLLimitAttr" KString "LLLimit,attr,omitempty";
  field "LLSeverityAttr" KString "LLSeverity,attr,omitempty";
  field "MinDurationPREAttr" KString "MinDurationPRE,attr,omitempty";
  field "ShelveDurationAttr" KString "ShelveDuration,attr,omitempty";
  field "MaxShelveDurationAttr" KString "MaxShelveDuration,attr,omitempty";
  field "DeadbandAttr" KString "Deadband,attr,omitempty";
  field "ROCPosLimitAttr" KString "ROCPosLimit,attr,omitempty";
  field "ROCPosSeverityAttr" KString "ROCPosSeverity,attr,omitempty";
  field "ROCNegLimitAttr" KString "ROCNegLimit,attr,omitempty";
  field "ROCNegSeverityAttr" KString "ROCNegSeverity,attr,omitempty";
  field "ROCPeriodAttr" KString "ROCPeriod,attr,omitempty";
  field "AssocTag1Attr" KString "AssocTag1,attr,omitempty";
  field "AssocTag2Attr" KString "AssocTag2,attr,omitempty";
  field "AssocTag3Attr" KString "AssocTag3,attr,omitempty";
  field "AssocTag4Attr" KString "AssocTag4,attr,omitempty";
  field "EnableOutAttr" KString "EnableOut,attr,omitempty";
  field "InAlarmAttr" KString "InAlarm,attr,omitempty";
  field "AnyInAlarmUnackAttr" KString "AnyInAlarmUnack,attr,omitempty";
  field "HHInAlarmAttr" KString "HHInAlarm,attr,omitempty";
  field "HHAckedAttr" KString "HHAcked,attr,omitempty";
  field "HHInAlarmUnackAttr" KString "HHInAlarmUnack,attr,omitempty";
  field "HInAlarmAttr" KString "HInAlarm,attr,omitempty";
  field "HAckedAttr" KString "HAcked,attr,omitempty";
  field "HInAlarmUnackAttr" KString "HInAlarmUnack,attr,omitempty";
  field "LInAlarmAttr" KString "LInAlarm,attr,omitempty";
  field "LAckedAttr" KString "LAcked,attr,omitempty";
  field "LInAlarmUnackAttr" KString "LInAlarmUnack,attr,omitempty";
  field "LLInAlarmAttr" KString "LLInAlarm,attr,omitempty";
  field "LLAckedAttr" KString "LLAcked,attr,omitempty";
  field "LLInAlarmUnackAttr" KString "LLInAlarmUnack,attr,omitempty";
  field "ROCPosInAlarmAttr" KString "ROCPosInAlarm,attr,omitempty";
  field "ROCPosAckedAttr" KString "ROCPosAcked,attr,omitempty";
  field "ROCPosInAlarmUnackAttr" KString "ROCPosInAlarmUnack,attr,omitempty";
  field "ROCNegInAlarmAttr" KString "ROCNegInAlarm,attr,omitempty";
  field "ROCNegAckedAttr" KString "ROCNegAcked,attr,omitempty";
  field "ROCNegInAlarmUnackAttr" KString "ROCNegInAlarmUnack,attr,omitempty";
  field "SuppressedAttr" KString "Suppressed,attr,omitempty";
  field "HHShelvedAttr" KString "HHShelved,attr,omitempty";
  field "HShelvedAttr" KString "HShelved,attr,omitempty";
  field "LShelvedAttr" KString "LShelved,attr,omitempty";
  field "LLShelvedAttr" KString "LLShelved,attr,omitempty";
  field "ROCPosShelvedAttr" KString "ROCPosShelved,attr,omitempty";
  field "ROCNegShelvedAttr" KString "ROCNegShelved,attr,omitempty";
  field "DisabledAttr" KString "Disabled,attr,omitempty";
  field "HHInAlarmTimeAttr" KString "HHInAlarmTime,attr,omitempty";
  field "HHAlarmCountAttr" KString "HHAlarmCount,attr,omitempty";
  field "HInAlarmTimeAttr" KString "HInAlarmTime,attr,omitempty";
  field "HAlarmCountAttr" KString "HAlarmCount,attr,omitempty";
  field "LInAlarmTimeAttr" KString "LInAlarmTime,attr,omitempty";
  field "LAlarmCountAttr" KString "LAlarmCount,attr,omitempty";
  field "LLInAlarmTimeAttr" KString "LLInAlarmTime,attr,omitempty";
  field "LLAlarmCountAttr" KString "LLAlarmCount,attr,omitempty";
  field "ROCPosInAlarmTimeAttr" KString "ROCPosInAlarmTime,attr,omitempty";
  field "ROCPosAlarmCntAttr" KString "ROCPosAlarmCnt,attr,omitempty";
  field "ROCNegInAlarmTimeAttr" KString "ROCNegInAlarmTime,attr,omitempty";
  field "ROCNegAlarmCntAttr" KString "ROCNegAlarmCnt,attr,omitempty";
  field "AckTimeAttr" KString "AckTime,attr,omitempty";
  field "RetToNormalTimeAttr" KString "RetToNormalTime,attr,omitempty";
  field "AlarmCountResetTimeAttr" KString "AlarmCountResetTime,attr,omitempty";
  field "ShelveTimeAttr" KString "ShelveTime,attr,omitempty";
  field "UnshelveTimeAttr" KString "UnshelveTime,attr,omitempty";
  field "InstructFaultAttr" KString "InstructFault,attr,omitempty";
  field "InFaultedAttr" KString "InFaulted,attr,omitempty";
  field "SeverityInvAttr" KString "SeverityInv,attr,omitempty";
  field "AlarmLimitsInvAttr" KString "AlarmLimitsInv,attr,omitempty";
  field "DeadbandInvAttr" KString "DeadbandInv,attr,omitempty";
  field "ROCPosLimitInvAttr" KString "ROCPosLimitInv,attr,omitempty";
  field "ROCNegLimitInvAttr" KString "ROCNegLimitInv,attr,omitempty";
  field "ROCPeriodInvAttr" KString "ROCPeriodInv,attr,omitempty";
  field "UseAttr" KString "Use,attr,omitempty";
  field "CustomProperties" (KPtr "CustomPropertiesCollectionType") "CustomProperties"
].

Definition AlarmDigitalType_fields : list xfield := [
  field "EnableInAttr" KString "EnableIn,attr,omitempty";
  field "InAttr" KString "In,attr,omitempty";
  field "InFaultAttr" KString "InFault,attr,omitempty";
  field "ConditionAttr" KString "Condition,attr,omitempty";
  field "AckRequiredAttr" KString "AckRequired,attr,omitempty";
  field "LatchedAttr" KString "Latched,attr,omitempty";
  field "ProgAckAttr" KString "ProgAck,attr,omitempty";
  field "OperAckAttr" KString "OperAck,attr,omitempty";
  field "ProgResetAttr" KString "ProgReset,attr,omitempty";
  field "OperResetAttr" KString "OperReset,attr,omitempty";
  field "ProgSuppressAttr" KString "ProgSuppress,attr,omitempty";
  field "OperSuppressAttr" KString "OperSuppress,attr,omitempty";
  field "ProgUnsuppressAttr" KString "ProgUnsuppress,attr,omitempty";
  field "OperUnsuppressAttr" KString "OperUnsuppress,attr,omitempty";
  field "OperShelveAttr" KString "OperShelve,attr,omitempty";
  field "ProgUnshelveAttr" KString "ProgUnshelve,attr,omitempty";
  field "OperUnshelveAttr" KString "OperUnshelve,attr,omitempty";
  field "ProgDisableAttr" KString "ProgDisable,attr,omitempty";
  field "OperDisableAttr" KString "OperDisable,attr,omitempty";
  field "ProgEnableAttr" KString "ProgEnable,attr,omitempty";
  field "OperEnableAttr" KString "OperEnable,attr,omitempty";
  field "AlarmCountResetAttr" KString "AlarmCountReset,attr,omitempty";
  field "UseProgTimeAttr" KString "UseProgTime,attr,omitempty";
  field "SeverityAttr" KString "Severity,attr,omitempty";
  field "MinDurationPREAttr" KString "MinDurationPRE,attr,omitempty";
  field "ShelveDurationAttr" KString "ShelveDuration,attr,omitempty";
  field "MaxShelveDurationAttr" KString "MaxShelveDuration,attr,omitempty";
  field "ProgTimeAttr" KString "ProgTime,attr,omitempty";
  field "AssocTag1Attr" KString "AssocTag1,attr,omitempty";
  field "AssocTag2Attr" KString "AssocTag2,attr,omitempty";
  field "AssocTag3Attr" KString "AssocTag3,attr,omitempty";
  field "AssocTag4Attr" KString "AssocTag4,attr,omitempty";
  field "EnableOutAttr" KString "EnableOut,attr,omitempty";
  field "InAlarmAttr" KString "InAlarm,attr,omitempty";
  field "AckedAttr" KString "Acked,attr,omitempty";
  field "InAlarmUnackAttr" KString "InAlarmUnack,attr,omitempty";
  field "SuppressedAttr" KString "Suppressed,attr,omitempty";
  field "ShelvedAttr" KString "Shelved,attr,omitempty";
  field "DisabledAttr" KString "Disabled,attr,omitempty";
  field "AlarmCountAttr" KString "AlarmCount,attr,omitempty";
  field "InAlarmTimeAttr" KString "InAlarmTime,attr,omitempty";
  field "AckTimeAttr" KString "AckTime,attr,omitempty";
  field "RetToNormalTimeAttr" KString "RetToNormalTime,attr,omitempty";
  field "AlarmCountResetTimeAttr" KString "AlarmCountResetTime,attr,omitempty";
  field "ShelveTimeAttr" KString "ShelveTime,attr,omitempty";
  field "UnshelveTimeAttr" KString "UnshelveTime,attr,omitempty";
  field "InstructFaultAttr" KString "InstructFault,attr,omitempty";
  field "InFaultedAttr" KString "InFaulted,attr,omitempty";
  field "SeverityInvAttr" KString "SeverityInv,attr,omitempty";
  field "UseAttr" KString "Use,attr,omitempty";
  field "CustomProperties" (KPtr "CustomPropertiesCollectionType") "CustomProperties"
].

Definition HMIBCType_fields : list xfield := [
  field "EnableInAttr" KString "EnableIn,attr,omitempty";
  field "ProgFBAttr" KString "ProgFB,attr,omitempty";
  field "BitIndexAttr" KString "BitIndex,attr,omitempty";
  field "TerminalCountAttr" KString "TerminalCount,attr,omitempty";
  field "EnableOutAttr" KString "EnableOut,attr,omitempty";
  field "ButtonStateAttr" KString "ButtonState,attr,omitempty";
  field "OutAttr" KString "Out,attr,omitempty";
  field "UseAttr" KString "Use,attr,omitempty";
  field "CustomProperties" (KPtr "CustomPropertiesCollectionType") "CustomProperties"
].

Definition MsgType_fields : list xfield := [
  field "MessageTypeAttr" KString "MessageType,attr";
  field "RemoteElementAttr" KString "RemoteElement,attr,omitempty";
  field "RequestedLengthAttr" KString "RequestedLength,attr,omitempty";
  field "ConnectedFlagAttr" KString "ConnectedFlag,attr,omitempty";
  field "ConnectionPathAttr" KString "ConnectionPath,attr,omitempty";
  field "CommTypeCodeAttr" KString "CommTypeCode,attr,omitempty";
  field "ServiceCodeAttr" KString "ServiceCode,attr,omitempty";
  field "ObjectTypeAttr" KString "ObjectType,attr,omitempty";
  field "TargetObjectAttr" KString "TargetObject,attr,omitempty";
  field "AttributeNumberAttr" KString "AttributeNumber,attr,omitempty";
  field "ChannelAttr" KString "Channel,attr,omitempty";
  field "DHPlusSourceLinkAttr" KString "DHPlusSourceLink,attr,omitempty";
  field "DHPlusDestinationLinkAttr" KString "DHPlusDestinationLink,attr,omitempty";
  field "DHPlusDestinationNodeAttr" KString "DHPlusDestinationNode,attr,omitempty";
  field "RackAttr" KString "Rack,attr,omitempty";
  field "GroupAttr" KString "Group,attr,omitempty";
  field "SlotAttr" KString "Slot,attr,omitempty";
  field "LocalIndexAttr" KString "LocalIndex,attr,omitempty";
  field "RemoteIndexAttr" KString "RemoteIndex,attr,omitempty";
  field "LocalElementAttr" KString "LocalElement,attr,omitempty";
  field "DestinationTagAttr" KString "DestinationTag,attr,omitempty";
  field "CacheConnectionsAttr" KString "CacheConnections,attr,omitempty";
  field "LargePacketUsageAttr" KString "LargePacketUsage,attr,omitempty";
  field "UseAttr" KString "Use,attr,omitempty";
  field "CustomProperties" (KPtr "CustomPropertiesCollectionType") "CustomProperties"
].

Definition MotionGroupType_fields : list xfield := [
  field "CoarseUpdatePeriodAttr" KString "CoarseUpdatePeriod,attr,omitempty";
  field "PhaseShiftAttr" KString "PhaseShift,attr,omitempty";
  field "GeneralFaultTypeAttr" KString "GeneralFaultType,attr,omitempty";
  field "AutoTagUpdateAttr" KString "AutoTagUpdate,attr,omitempty";
  field "Alternate1UpdateMultiplierAttr" KString "Alternate1UpdateMultiplier,attr,omitempty";
  field "Alternate2UpdateMultiplierAttr" KString "Alternate2UpdateMultiplier,attr,omitempty";
  field "UseAttr" KString "Use,attr,omitempty";
  field "CustomProperties" (KPtr "CustomPropertiesCollectionType") "CustomProperties"
].

Definition CoordinateSystemType_fields : list xfield := [
  field "MotionGroupInstanceAttr" KString "MotionGroupInstance,attr,omitempty";
  field "ApplicationCatalogNumberInstanceAttr" KString "ApplicationCatalogNumberInstance,attr,omitempty";
  field "ApplicationCatalogNumberVersionAttr" KString "ApplicationCatalogNumberVersion,attr,omitempty";
  field "ApplicationCatalogNumberAttr" KString "ApplicationCatalogNumber,attr,omitempty";
  field "SystemTypeAttr" KString "SystemType,attr,omitempty";
  field "CoordinateDefinitionAttr" KString "CoordinateDefinition,attr,omitempty";
  field "DimensionAttr" KString "Dimension,attr,omitempty";
  field "AxesAttr" KString "Axes,attr,omitempty";
  field "MaximumPendingMovesAttr" KString "MaximumPendingMoves,attr,omitempty";
  field "CoordinationModeAttr" KString "CoordinationMode,attr,omitempty";
  field "CoordinationUnitsAttr" KString "CoordinationUnits,attr,omitempty";
  field "ConversionRatioNumeratorAttr" KString "ConversionRatioNumerator,attr,omitempty";
  field "ConversionRatioDenominatorAttr" KString "ConversionRatioDenominator,attr,omitempty";
  field "CoordinateSystemAutoTagUpdateAttr" KString "CoordinateSystemAutoTagUpdate,attr,omitempty";
  field "MaximumSpeedAttr" KString "MaximumSpeed,attr,omitempty";
  field "MaximumAccelerationAttr" KString "MaximumAcceleration,attr,omitempty";
  field "MaximumDecelerationAttr" KString "MaximumDeceleration,attr,omitempty";
  field "ActualPositionToleranceAttr" KString "ActualPositionTolerance,attr,omitempty";
  field "CommandPositionToleranceAttr" KString "CommandPositionTolerance,attr,omitempty";
  field "TransformDimensionAttr" KString "TransformDimension,attr,omitempty";
  field "JointRatioNumeratorAttr" KString "JointRatioNumerator,attr,omitempty";
  field "JointRatioDenominatorAttr" KString "JointRatioDenominator,attr,omitempty";
  field "LinkLength1Attr" KString "LinkLength1,attr,omitempty";
  field "LinkLength2Attr" KString "LinkLength2,attr,omitempty";
  field "ZeroAngleOffset1Attr" KString "ZeroAngleOffset1,attr,omitempty";
  field "ZeroAngleOffset2Attr" KString "ZeroAngleOffset2,attr,omitempty";
  field "ZeroAngleOffset3Attr" KString "ZeroAngleOffset3,attr,omitempty";
  field "BaseOffset1Attr" KString "BaseOffset1,attr,omitempty";
  field "BaseOffset2Attr" KString "BaseOffset2,attr,omitempty";
  field "BaseOffset3Attr" KString "BaseOffset3,attr,omitempty";
  field "EndEffectorOffset1Attr" KString "EndEffectorOffset1,attr,omitempty";
  field "EndEffectorOffset2Attr" KString "EndEffectorOffset2,attr,omitempty";
  field "EndEffectorOffset3Attr" KString "EndEffectorOffset3,attr,omitempty";
  field "DynamicsConfigurationBitsAttr" KString "DynamicsConfigurationBits,attr,omitempty";
  field "MaximumAccelerationJerkAttr" KString "MaximumAccelerationJerk,attr,omitempty";
  field "MaximumDecelerationJerkAttr" KString "MaximumDecelerationJerk,attr,omitempty";
  field "MasterInputConfigurationBitsAttr" KString "MasterInputConfigurationBits,attr,omitempty";
  field "MasterPositionFilterBandwidthAttr" KString "MasterPositionFilterBandwidth,attr,omitempty";
  field "LinkLength3Attr" KString "LinkLength3,attr,omitempty";
  field "BallScrewLeadAttr" KString "BallScrewLead,attr,omitempty";
  field "ZeroAngleOffset4Attr" KString "ZeroAngleOffset4,attr,omitempty";
  field "ZeroAngleOffset5Attr" KString "ZeroAngleOffset5,attr,omitempty";
  field "ZeroAngleOffset6Attr" KString "ZeroAngleOffset6,attr,omitempty";
  field "MaximumOrientationSpeedAttr" KString "MaximumOrientationSpeed,attr,omitempty";
  field "MaximumOrientationAccelerationAttr" KString "MaximumOrientationAcceleration,attr,omitempty";
  field "MaximumOrientationDecelerationAttr" KString "MaximumOrientationDeceleration,attr,omitempty";
  field "SwingArmA3Attr" KString "SwingArmA3,attr,omitempty";
  field "SwingArmD3Attr" KString "SwingArmD3,attr,omitempty";
  field "SwingArmA4Attr" KString "SwingArmA4,attr,omitempty";
  field "SwingArmD4Attr" KString "SwingArmD4,attr,omitempty";
  field "SwingArmD5Attr" KString "SwingArmD5,attr,omitempty";
  field "SwingArmCouplingRatioNumeratorAttr" KString "SwingArmCouplingRatioNumerator,attr,omitempty";
  field "SwingArmCouplingRatioDenominatorAttr" KString "SwingArmCouplingRatioDenominator,attr,omitempty";
  field "SwingArmCouplingDirectionAttr" KString "SwingArmCouplingDirection,attr,omitempty";
  field "RobotJointsDirectionSenseBitsAttr" KString "RobotJointsDirectionSenseBits,attr,omitempty";
  field "UseAttr" KString "Use,attr,omitempty";
  field "CustomProperties" (KPtr "CustomPropertiesCollectionType") "CustomProperties"
].

Definition AxisType_fields : list xfield := [
  field "MotionGroupAttr" KString "MotionGroup,attr,omitempty";
  field "CIPDriveSetAttrUpdateBitsAttr" KString "CIPDriveSetAttrUpdateBits,attr,omitempty";
  field "CIPDriveGetAttrUpdateBitsAttr" KString "CIPDriveGetAttrUpdateBits,attr,omitempty";
  field "CIPControllerSetAttrUpdateBitsAttr" KString "CIPControllerSetAttrUpdateBits,attr,omitempty";
  field "CIPControllerGetAttrUpdateBitsAttr" KString "CIPControllerGetAttrUpdateBits,attr,omitempty";
  field "MotionModuleAttr" KString "MotionModule,attr,omitempty";
  field "ApplicationCatalogNumberInstanceAttr" KString "ApplicationCatalogNumberInstance,attr,omitempty";
  field "ApplicationCatalogNumberVersionAttr" KString "ApplicationCatalogNumberVersion,attr,omitempty";
  field "ApplicationCatalogNumberAttr" KString "ApplicationCatalogNumber,attr,omitempty";
  field "AxisConfigurationAttr" KString "AxisConfiguration,attr,omitempty";
  field "FeedbackConfigurationAttr" KString "FeedbackConfiguration,attr,omitempty";
  field "MotorDataSourceAttr" KString "MotorDataSource,attr,omitempty";
  field "MotorCatalogNumberAttr" KString "MotorCatalogNumber,attr,omitempty";
  field "Feedback1TypeAttr" KString "Feedback1Type,attr,omitempty";
  field "Feedback2TypeAttr" KString "Feedback2Type,attr,omitempty";
  field "MotorTypeAttr" KString "MotorType,attr,omitempty";
  field "MotionScalingConfigurationAttr" KString "MotionScalingConfiguration,attr,omitempty";
  field "RotationalPosResolutionAttr" KString "RotationalPosResolution,attr,omitempty";
  field "ConversionConstantAttr" KString "ConversionConstant,attr,omitempty";
  field "OutputCamExecutionTargetsAttr" KString "OutputCamExecutionTargets,attr,omitempty";
  field "PositionUnitsAttr" KString "PositionUnits,attr,omitempty";
  field "AverageVelocityTimebaseAttr" KString "AverageVelocityTimebase,attr,omitempty";
  field "RotaryAxisAttr" KString "RotaryAxis,attr,omitempty";
  field "PositionUnwindAttr" KString "PositionUnwind,attr,omitempty";
  field "HomeModeAttr" KString "HomeMode,attr,omitempty";
  field "HomeDirectionAttr" KString "HomeDirection,attr,omitempty";
  field "HomeSequenceAttr" KString "HomeSequence,attr,omitempty";
  field "HomeConfigurationBitsAttr" KString "HomeConfigurationBits,attr,omitempty";
  field "HomePositionAttr" KString "HomePosition,attr,omitempty";
  field "HomeOffsetAttr" KString "HomeOffset,attr,omitempty";
  field "HomeSpeedAttr" KString "HomeSpeed,attr,omitempty";
  field "HomeReturnSpeedAttr" KString "HomeReturnSpeed,attr,omitempty";
  field "MaximumSpeedAttr" KString "MaximumSpeed,attr,omitempty";
  field "MaximumAccelerationAttr" KString "MaximumAcceleration,attr,omitempty";
  field "MaximumDecelerationAttr" KString "MaximumDeceleration,attr,omitempty";
  field "ProgrammedStopModeAttr" KString "ProgrammedStopMode,attr,omitempty";
  field "MasterInputConfigurationBitsAttr" KString "MasterInputConfigurationBits,attr,omitempty";
  field "MasterPositionFilterBandwidthAttr" KString "MasterPositionFilterBandwidth,attr,omitempty";
  field "AxisTypeAttr" KString "AxisType,attr,omitempty";
  field "ServoLoopConfigurationAttr" KString "ServoLoopConfiguration,attr,omitempty";
  field "ExternalDriveTypeAttr" KString "ExternalDriveType,attr,omitempty";
  field "FaultConfigurationBitsAttr" KString "FaultConfigurationBits,attr,omitempty";
  field "AxisInfoSelect1Attr" KString "AxisInfoSelect1,attr,omitempty";
  field "AxisInfoSelect2Attr" KString "AxisInfoSelect2,attr,omitempty";
  field "LDTTypeAttr" KString "LDTType,attr,omitempty";
  field "LDTRecirculationsAttr" KString "LDTRecirculations,attr,omitempty";
  field "LDTCalibrationConstantAttr" KString "LDTCalibrationConstant,attr,omitempty";
  field "LDTCalibrationConstantUnitsAttr" KString "LDTCalibrationConstantUnits,attr,omitempty";
  field "LDTScalingAttr" KString "LDTScaling,attr,omitempty";
  field "LDTScalingUnitsAttr" KString "LDTScalingUnits,attr,omitempty";
  field "LDTLengthAttr" KString "LDTLength,attr,omitempty";
  field "LDTLengthUnitsAttr" KString "LDTLengthUnits,attr,omitempty";
  field "SSICodeTypeAttr" KString "SSICodeType,attr,omitempty";
  field "SSIDataLengthAttr" KString "SSIDataLength,attr,omitempty";
  field "SSIClockFrequencyAttr" KString "SSIClockFrequency,attr,omitempty";
  field "AbsoluteFeedbackEnableAttr" KString "AbsoluteFeedbackEnable,attr,omitempty";
  field "AbsoluteFeedbackOffsetAttr" KString "AbsoluteFeedbackOffset,attr,omitempty";
  field "ServoFeedbackTypeAttr" KString "ServoFeedbackType,attr,omitempty";
  field "ServoPolarityBitsAttr" KString "ServoPolarityBits,attr,omitempty";
  field "VelocityFeedforwardGainAttr" KString "VelocityFeedforwardGain,attr,omitempty";
  field "AccelerationFeedforwardGainAttr" KString "AccelerationFeedforwardGain,attr,omitempty";
  field "PositionProportionalGainAttr" KString "PositionProportionalGain,attr,omitempty";
  field "PositionIntegralGainAttr" KString "PositionIntegralGain,attr,omitempty";
  field "VelocityProportionalGainAttr" KString "VelocityProportionalGain,attr,omitempty";
  field "VelocityIntegralGainAttr" KString "VelocityIntegralGain,attr,omitempty";
  field "VelocityScalingAttr" KString "VelocityScaling,attr,omitempty";
  field "TorqueScalingAttr" KString "TorqueScaling,attr,omitempty";
  field "OutputLPFilterBandwidthAttr" KString "OutputLPFilterBandwidth,attr,omitempty";
  field "IntegratorHoldEnableAttr" KString "IntegratorHoldEnable,attr,omitempty";
  field "PositionDifferentialGainAttr" KString "PositionDifferentialGain,attr,omitempty";
  field "DirectionalScalingRatioAttr" KString "DirectionalScalingRatio,attr,omitempty";
  field "MaximumPositiveTravelAttr" KString "MaximumPositiveTravel,attr,omitempty";
  field "MaximumNegativeTravelAttr" KString "MaximumNegativeTravel,attr,omitempty";
  field "PositionErrorToleranceAttr" KString "PositionErrorTolerance,attr,omitempty";
  field "PositionLockToleranceAttr" KString "PositionLockTolerance,attr,omitempty";
  field "OutputLimitAttr" KString "OutputLimit,attr,omitempty";
  field "DirectDriveRampRateAttr" KString "DirectDriveRampRate,attr,omitempty";
  field "OutputOffsetAttr" KString "OutputOffset,attr,omitempty";
  field "VelocityOffsetAttr" KString "VelocityOffset,attr,omitempty";
  field "TorqueOffsetAttr" KString "TorqueOffset,attr,omitempty";
  field "FrictionCompensationAttr" KString "FrictionCompensation,attr,omitempty";
  field "FrictionCompensationWindowAttr" KString "FrictionCompensationWindow,attr,omitempty";
  field "BacklashStabilizationWindowAttr" KString "BacklashStabilizationWindow,attr,omitempty";
  field "BacklashReversalOffsetAttr" KString "BacklashReversalOffset,attr,omitempty";
  field "HardOvertravelFaultActionAttr" KString "HardOvertravelFaultAction,attr,omitempty";
  field "SoftOvertravelFaultActionAttr" KString "SoftOvertravelFaultAction,attr,omitempty";
  field "PositionErrorFaultActionAttr" KString "PositionErrorFaultAction,attr,omitempty";
  field "FeedbackFaultActionAttr" KString "FeedbackFaultAction,attr,omitempty";
  field "FeedbackNoiseFaultActionAttr" KString "FeedbackNoiseFaultAction,attr,omitempty";
  field "DriveFaultActionAttr" KString "DriveFaultAction,attr,omitempty";
  field "TestIncrementAttr" KString "TestIncrement,attr,omitempty";
  field "TuningTravelLimitAttr" KString "TuningTravelLimit,attr,omitempty";
  field "TuningSpeedAttr" KString "TuningSpeed,attr,omitempty";
  field "TuningTorqueAttr" KString "TuningTorque,attr,omitempty";
  field "DampingFactorAttr" KString "DampingFactor,attr,omitempty";
  field "DriveModelTimeConstantAttr" KString "DriveModelTimeConstant,attr,omitempty";
  field "PositionServoBandwidthAttr" KString "PositionServoBandwidth,attr,omitempty";
  field "VelocityServoBandwidthAttr" KString "VelocityServoBandwidth,attr,omitempty";
  field "TuningConfigurationBitsAttr" KString "TuningConfigurationBits,attr,omitempty";
  field "TorqueLimitSourceAttr" KString "TorqueLimitSource,attr,omitempty";
  field "DriveUnitAttr" KString "DriveUnit,attr,omitempty";
  field "PositionDataScalingAttr" KString "PositionDataScaling,attr,omitempty";
  field "PositionDataScalingFactorAttr" KString "PositionDataScalingFactor,attr,omitempty";
  field "PositionDataScalingExpAttr" KString "PositionDataScalingExp,attr,omitempty";
  field "VelocityDataScalingAttr" KString "VelocityDataScaling,attr,omitempty";
  field "VelocityDataScalingFactorAttr" KString "VelocityDataScalingFactor,attr,omitempty";
  field "VelocityDataScalingExpAttr" KString "VelocityDataScalingExp,attr,omitempty";
  field "AccelerationDataScalingAttr" KString "AccelerationDataScaling,attr,omitempty";
  field "AccelerationDataScalingFactorAttr" KString "AccelerationDataScalingFactor,attr,omitempty";
  field "AccelerationDataScalingExpAttr" KString "AccelerationDataScalingExp,attr,omitempty";
  field "TorqueDataScalingAttr" KString "TorqueDataScaling,attr,omitempty";
  field "TorqueDataScalingFactorAttr" KString "TorqueDataScalingFactor,attr,omitempty";
  field "TorqueDataScalingExpAttr" KString "TorqueDataScalingExp,attr,omitempty";
  field "DrivePolarityAttr" KString "DrivePolarity,attr,omitempty";
  field "MotorFeedbackTypeAttr" KString "MotorFeedbackType,attr,omitempty";
  field "MotorFeedbackResolutionAttr" KString "MotorFeedbackResolution,attr,omitempty";
  field "AuxFeedbackTypeAttr" KString "AuxFeedbackType,attr,omitempty";
  field "AuxFeedbackResolutionAttr" KString "AuxFeedbackResolution,attr,omitempty";
  field "MotorFeedbackUnitAttr" KString "MotorFeedbackUnit,attr,omitempty";
  field "AuxFeedbackUnitAttr" KString "AuxFeedbackUnit,attr,omitempty";
  field "OutputNotchFilterFrequencyAttr" KString "OutputNotchFilterFrequency,attr,omitempty";
  field "VelocityDroopAttr" KString "VelocityDroop,attr,omitempty";
  field "VelocityLimitBipolarAttr" KString "VelocityLimitBipolar,attr,omitempty";
  field "AccelerationLimitBipolarAttr" KString "AccelerationLimitBipolar,attr,omitempty";
  field "TorqueLimitBipolarAttr" KString "TorqueLimitBipolar,attr,omitempty";
  field "VelocityLimitPositiveAttr" KString "VelocityLimitPositive,attr,omitempty";
  field "VelocityLimitNegativeAttr" KString "VelocityLimitNegative,attr,omitempty";
  field "VelocityThresholdAttr" KString "VelocityThreshold,attr,omitempty";
  field "VelocityWindowAttr" KString "VelocityWindow,attr,omitempty";
  field "VelocityStandstillWindowAttr" KString "VelocityStandstillWindow,attr,omitempty";
  field "AccelerationLimitPositiveAttr" KString "AccelerationLimitPositive,attr,omitempty";
  field "AccelerationLimitNegativeAttr" KString "AccelerationLimitNegative,attr,omitempty";
  field "TorqueLimitPositiveAttr" KString "TorqueLimitPositive,attr,omitempty";
  field "TorqueLimitNegativeAttr" KString "TorqueLimitNegative,attr,omitempty";
  field "TorqueThresholdAttr" KString "TorqueThreshold,attr,omitempty";
  field "DriveThermalFaultActionAttr" KString "DriveThermalFaultAction,attr,omitempty";
  field "MotorThermalFaultActionAttr" KString "MotorThermalFaultAction,attr,omitempty";
  field "DriveEnableInputFaultActionAttr" KString "DriveEnableInputFaultAction,attr,omitempty";
  field "StoppingTorqueAttr" KString "StoppingTorque,attr,omitempty";
  field "StoppingTimeLimitAttr" KString "StoppingTimeLimit,attr,omitempty";
  field "BrakeEngageDelayTimeAttr" KString "BrakeEngageDelayTime,attr,omitempty";
  field "BrakeReleaseDelayTimeAttr" KString "BrakeReleaseDelayTime,attr,omitempty";
  field "PowerSupplyIDAttr" KString "PowerSupplyID,attr,omitempty";
  field "BusRegulatorIDAttr" KString "BusRegulatorID,attr,omitempty";
  field "PWMFrequencySelectAttr" KString "PWMFrequencySelect,attr,omitempty";
  field "LoadInertiaRatioAttr" KString "LoadInertiaRatio,attr,omitempty";
  field "AmplifierCatalogNumberAttr" KString "AmplifierCatalogNumber,attr,omitempty";
  field "AuxFeedbackRatioAttr" KString "AuxFeedbackRatio,attr,omitempty";
  field "ContinuousTorqueLimitAttr" KString "ContinuousTorqueLimit,attr,omitempty";
  field "ResistiveBrakeContactDelayAttr" KString "ResistiveBrakeContactDelay,attr,omitempty";
  field "ConfigurationProfileAttr" KString "ConfigurationProfile,attr,omitempty";
  field "RegistrationInputsAttr" KString "RegistrationInputs,attr,omitempty";
  field "MaximumAccelerationJerkAttr" KString "MaximumAccelerationJerk,attr,omitempty";
  field "MaximumDecelerationJerkAttr" KString "MaximumDecelerationJerk,attr,omitempty";
  field "DynamicsConfigurationBitsAttr" KString "DynamicsConfigurationBits,attr,omitempty";
  field "PhaseLossFaultActionAttr" KString "PhaseLossFaultAction,attr,omitempty";
  field "HomeTorqueLevelAttr" KString "HomeTorqueLevel,attr,omitempty";
  field "InputPowerPhaseAttr" KString "InputPowerPhase,attr,omitempty";
  field "FeedbackUnitRatioAttr" KString "FeedbackUnitRatio,attr,omitempty";
  field "AccelerationLimitAttr" KString "AccelerationLimit,attr,omitempty";
  field "DecelerationLimitAttr" KString "DecelerationLimit,attr,omitempty";
  field "RampJerkControlAttr" KString "RampJerkControl,attr,omitempty";
  field "FlyingStartEnableAttr" KString "FlyingStartEnable,attr,omitempty";
  field "SkipSpeed1Attr" KString "SkipSpeed1,attr,omitempty";
  field "SkipSpeed2Attr" KString "SkipSpeed2,attr,omitempty";
  field "SkipSpeed3Attr" KString "SkipSpeed3,attr,omitempty";
  field "SkipSpeedBandAttr" KString "SkipSpeedBand,attr,omitempty";
  field "CommandTorqueAttr" KString "CommandTorque,attr,omitempty";
  field "PositionIntegratorBandwidthAttr" KString "PositionIntegratorBandwidth,attr,omitempty";
  field "PositionErrorToleranceTimeAttr" KString "PositionErrorToleranceTime,attr,omitempty";
  field "PositionIntegratorControlAttr" KString "PositionIntegratorControl,attr,omitempty";
  field "PositionIntegratorPreloadAttr" KString "PositionIntegratorPreload,attr,omitempty";
  field "VelocityErrorToleranceAttr" KString "VelocityErrorTolerance,attr,omitempty";
  field "VelocityErrorToleranceTimeAttr" KString "VelocityErrorToleranceTime,attr,omitempty";
  field "VelocityIntegratorControlAttr" KString "VelocityIntegratorControl,attr,omitempty";
  field "VelocityIntegratorPreloadAttr" KString "VelocityIntegratorPreload,attr,omitempty";
  field "VelocityLockToleranceAttr" KString "VelocityLockTolerance,attr,omitempty";
  field "SystemInertiaAttr" KString "SystemInertia,attr,omitempty";
  field "TorqueLowPassFilterBandwidthAttr" KString "TorqueLowPassFilterBandwidth,attr,omitempty";
  field "TorqueNotchFilterFrequencyAttr" KString "TorqueNotchFilterFrequency,attr,omitempty";
  field "TorqueRateLimitAttr" KString "TorqueRateLimit,attr,omitempty";
  field "OvertorqueLimitAttr" KString "OvertorqueLimit,attr,omitempty";
  field "OvertorqueLimitTimeAttr" KString "OvertorqueLimitTime,attr,omitempty";
  field "UndertorqueLimitAttr" KString "UndertorqueLimit,attr,omitempty";
  field "UndertorqueLimitTimeAttr" KString "UndertorqueLimitTime,attr,omitempty";
  field "FluxCurrentReferenceAttr" KString "FluxCurrentReference,attr,omitempty";
  field "CurrentErrorAttr" KString "CurrentError,attr,omitempty";
  field "TorqueLoopBandwidthAttr" KString "TorqueLoopBandwidth,attr,omitempty";
  field "TorqueIntegralTimeConstantAttr" KString "TorqueIntegralTimeConstant,attr,omitempty";
  field "FluxLoopBandwidthAttr" KString "FluxLoopBandwidth,attr,omitempty";
  field "FluxIntegralTimeConstantAttr" KString "FluxIntegralTimeConstant,attr,omitempty";
  field "FluxUpControlAttr" KString "FluxUpControl,attr,omitempty";
  field "FluxUpTimeAttr" KString "FluxUpTime,attr,omitempty";
  field "FrequencyControlMethodAttr" KString "FrequencyControlMethod,attr,omitempty";
  field "MaximumVoltageAttr" KString "MaximumVoltage,attr,omitempty";
  field "MaximumFrequencyAttr" KString "MaximumFrequency,attr,omitempty";
  field "BreakVoltageAttr" KString "BreakVoltage,attr,omitempty";
  field "BreakFrequencyAttr" KString "BreakFrequency,attr,omitempty";
  field "StartBoostAttr" KString "StartBoost,attr,omitempty";
  field "RunBoostAttr" KString "RunBoost,attr,omitempty";
  field "StoppingActionAttr" KString "StoppingAction,attr,omitempty";
  field "MechanicalBrakeControlAttr" KString "MechanicalBrakeControl,attr,omitempty";
  field "MechanicalBrakeReleaseDelayAttr" KString "MechanicalBrakeReleaseDelay,attr,omitempty";
  field "MechanicalBrakeEngageDelayAttr" KString "MechanicalBrakeEngageDelay,attr,omitempty";
  field "PowerLossActionAttr" KString "PowerLossAction,attr,omitempty";
  field "PowerLossThresholdAttr" KString "PowerLossThreshold,attr,omitempty";
  field "ShutdownActionAttr" KString "ShutdownAction,attr,omitempty";
  field "InverterCapacityAttr" KString "InverterCapacity,attr,omitempty";
  field "ConverterCapacityAttr" KString "ConverterCapacity,attr,omitempty";
  field "InverterOverloadActionAttr" KString "InverterOverloadAction,attr,omitempty";
  field "MotorOverloadActionAttr" KString "MotorOverloadAction,attr,omitempty";
  field "CIPAxisExceptionActionAttr" KString "CIPAxisExceptionAction,attr,omitempty";
  field "CIPAxisExceptionActionRAAttr" KString "CIPAxisExceptionActionRA,attr,omitempty";
  field "MotorOverspeedUserLimitAttr" KString "MotorOverspeedUserLimit,attr,omitempty";
  field "MotorThermalOverloadUserLimitAttr" KString "MotorThermalOverloadUserLimit,attr,omitempty";
  field "InverterThermalOverloadUserLimitAttr" KString "InverterThermalOverloadUserLimit,attr,omitempty";
  field "LocalControlAttr" KString "LocalControl,attr,omitempty";
  field "PositionLeadLagFilterBandwidthAttr" KString "PositionLeadLagFilterBandwidth,attr,omitempty";
  field "PositionLeadLagFilterGainAttr" KString "PositionLeadLagFilterGain,attr,omitempty";
  field "PositionNotchFilterFrequencyAttr" KString "PositionNotchFilterFrequency,attr,omitempty";
  field "VelocityNegativeFeedforwardGainAttr" KString "VelocityNegativeFeedforwardGain,attr,omitempty";
  field "BacklashCompensationWindowAttr" KString "BacklashCompensationWindow,attr,omitempty";
  field "TorqueLeadLagFilterBandwidthAttr" KString "TorqueLeadLagFilterBandwidth,attr,omitempty";
  field "TorqueLeadLagFilterGainAttr" KString "TorqueLeadLagFilterGain,attr,omitempty";
  field "SLATConfigurationAttr" KString "SLATConfiguration,attr,omitempty";
  field "SLATSetPointAttr" KString "SLATSetPoint,attr,omitempty";
  field "SLATTimeDelayAttr" KString "SLATTimeDelay,attr,omitempty";
  field "CurrentDisturbanceAttr" KString "CurrentDisturbance,attr,omitempty";
  field "CommutationSelfSensingCurrentAttr" KString "CommutationSelfSensingCurrent,attr,omitempty";
  field "DCInjectionBrakeCurrentAttr" KString "DCInjectionBrakeCurrent,attr,omitempty";
  field "FluxBrakingEnableAttr" KString "FluxBrakingEnable,attr,omitempty";
  field "DCInjectionBrakeTimeAttr" KString "DCInjectionBrakeTime,attr,omitempty";
  field "MotorDeviceCodeAttr" KString "MotorDeviceCode,attr,omitempty";
  field "MotorUnitAttr" KString "MotorUnit,attr,omitempty";
  field "MotorPolarityAttr" KString "MotorPolarity,attr,omitempty";
  field "MotorRatedVoltageAttr" KString "MotorRatedVoltage,attr,omitempty";
  field "MotorRatedContinuousCurrentAttr" KString "MotorRatedContinuousCurrent,attr,omitempty";
  field "MotorRatedPeakCurrentAttr" KString "MotorRatedPeakCurrent,attr,omitempty";
  field "MotorRatedOutputPowerAttr" KString "MotorRatedOutputPower,attr,omitempty";
  field "MotorOverloadLimitAttr" KString "MotorOverloadLimit,attr,omitempty";
  field "MotorIntegralThermalSwitchAttr" KString "MotorIntegralThermalSwitch,attr,omitempty";
  field "MotorMaxWindingTemperatureAttr" KString "MotorMaxWindingTemperature,attr,omitempty";
  field "MotorWindingToAmbientCapacitanceAttr" KString "MotorWindingToAmbientCapacitance,attr,omitempty";
  field "MotorWindingToAmbientResistanceAttr" KString "MotorWindingToAmbientResistance,attr,omitempty";
  field "PMMotorResistanceAttr" KString "PMMotorResistance,attr,omitempty";
  field "PMMotorInductanceAttr" KString "PMMotorInductance,attr,omitempty";
  field "RotaryMotorPolesAttr" KString "RotaryMotorPoles,attr,omitempty";
  field "RotaryMotorInertiaAttr" KString "RotaryMotorInertia,attr,omitempty";
  field "RotaryMotorRatedSpeedAttr" KString "RotaryMotorRatedSpeed,attr,omitempty";
  field "RotaryMotorMaxSpeedAttr" KString "RotaryMotorMaxSpeed,attr,omitempty";
  field "RotaryMotorDampingCoefficientAttr" KString "RotaryMotorDampingCoefficient,attr,omitempty";
  field "LinearMotorPolePitchAttr" KString "LinearMotorPolePitch,attr,omitempty";
  field "LinearMotorRatedSpeedAttr" KString "LinearMotorRatedSpeed,attr,omitempty";
  field "LinearMotorMassAttr" KString "LinearMotorMass,attr,omitempty";
  field "LinearMotorMaxSpeedAttr" KString "LinearMotorMaxSpeed,attr,omitempty";
  field "LinearMotorDampingCoefficientAttr" KString "LinearMotorDampingCoefficient,attr,omitempty";
  field "PMMotorRatedTorqueAttr" KString "PMMotorRatedTorque,attr,omitempty";
  field "PMMotorTorqueConstantAttr" KString "PMMotorTorqueConstant,attr,omitempty";
  field "PMMotorRotaryVoltageConstantAttr" KString "PMMotorRotaryVoltageConstant,attr,omitempty";
  field "PMMotorRatedForceAttr" KString "PMMotorRatedForce,attr,omitempty";
  field "PMMotorForceConstantAttr" KString "PMMotorForceConstant,attr,omitempty";
  field "PMMotorLinearVoltageConstantAttr" KString "PMMotorLinearVoltageConstant,attr,omitempty";
  field "InductionMotorRatedFrequencyAttr" KString "InductionMotorRatedFrequency,attr,omitempty";
  field "InductionMotorFluxCurrentAttr" KString "InductionMotorFluxCurrent,attr,omitempty";
  field "InductionMotorStatorResistanceAttr" KString "InductionMotorStatorResistance,attr,omitempty";
  field "InductionMotorStatorLeakageReactanceAttr" KString "InductionMotorStatorLeakageReactance,attr,omitempty";
  field "InductionMotorMagnetizationReactanceAttr" KString "InductionMotorMagnetizationReactance,attr,omitempty";
  field "InductionMotorRotorResistanceAttr" KString "InductionMotorRotorResistance,attr,omitempty";
  field "InductionMotorRotorLeakageReactanceAttr" KString "InductionMotorRotorLeakageReactance,attr,omitempty";
  field "Feedback1UnitAttr" KString "Feedback1Unit,attr,omitempty";
  field "Feedback1PolarityAttr" KString "Feedback1Polarity,attr,omitempty";
  field "Feedback1StartupMethodAttr" KString "Feedback1StartupMethod,attr,omitempty";
  field "Feedback1CycleResolutionAttr" KString "Feedback1CycleResolution,attr,omitempty";
  field "Feedback1CycleInterpolationAttr" KString "Feedback1CycleInterpolation,attr,omitempty";
  field "Feedback1TurnsAttr" KString "Feedback1Turns,attr,omitempty";
  field "Feedback1LengthAttr" KString "Feedback1Length,attr,omitempty";
  field "Feedback1DataLengthAttr" KString "Feedback1DataLength,attr,omitempty";
  field "Feedback1DataCodeAttr" KString "Feedback1DataCode,attr,omitempty";
  field "Feedback1ResolverTransformerRatioAttr" KString "Feedback1ResolverTransformerRatio,attr,omitempty";
  field "Feedback1ResolverExcitationVoltageAttr" KString "Feedback1ResolverExcitationVoltage,attr,omitempty";
  field "Feedback1ResolverExcitationFrequencyAttr" KString "Feedback1ResolverExcitationFrequency,attr,omitempty";
  field "Feedback1ResolverCableBalanceAttr" KString "Feedback1ResolverCableBalance,attr,omitempty";
  field "Feedback1VelocityFilterBandwidthAttr" KString "Feedback1VelocityFilterBandwidth,attr,omitempty";
  field "Feedback1AccelFilterBandwidthAttr" KString "Feedback1AccelFilterBandwidth,attr,omitempty";
  field "PMMotorFluxSaturationAttr" KString "PMMotorFluxSaturation,attr,omitempty";
  field "RotaryMotorFanCoolingSpeedAttr" KString "RotaryMotorFanCoolingSpeed,attr,omitempty";
  field "RotaryMotorFanCoolingDeratingAttr" KString "RotaryMotorFanCoolingDerating,attr,omitempty";
  field "LinearMotorIntegralLimitSwitchAttr" KString "LinearMotorIntegralLimitSwitch,attr,omitempty";
  field "Feedback1LossActionAttr" KString "Feedback1LossAction,attr,omitempty";
  field "Feedback1VelocityFilterTapsAttr" KString "Feedback1VelocityFilterTaps,attr,omitempty";
  field "Feedback1AccelFilterTapsAttr" KString "Feedback1AccelFilterTaps,attr,omitempty";
  field "CIPAxisFaultLogAttr" KString "CIPAxisFaultLog,attr,omitempty";
  field "CyclicReadUpdateListAttr" KString "CyclicReadUpdateList,attr,omitempty";
  field "CyclicWriteUpdateListAttr" KString "CyclicWriteUpdateList,attr,omitempty";
  field "ScalingSourceAttr" KString "ScalingSource,attr,omitempty";
  field "LoadTypeAttr" KString "LoadType,attr,omitempty";
  field "ActuatorTypeAttr" KString "ActuatorType,attr,omitempty";
  field "TravelModeAttr" KString "TravelMode,attr,omitempty";
  field "PositionScalingNumeratorAttr" KString "PositionScalingNumerator,attr,omitempty";
  field "PositionScalingDenominatorAttr" KString "PositionScalingDenominator,attr,omitempty";
  field "PositionUnwindNumeratorAttr" KString "PositionUnwindNumerator,attr,omitempty";
  field "PositionUnwindDenominatorAttr" KString "PositionUnwindDenominator,attr,omitempty";
  field "TravelRangeAttr" KString "TravelRange,attr,omitempty";
  field "MotionResolutionAttr" KString "MotionResolution,attr,omitempty";
  field "MotionPolarityAttr" KString "MotionPolarity,attr,omitempty";
  field "MotorTestResistanceAttr" KString "MotorTestResistance,attr,omitempty";
  field "MotorTestInductanceAttr" KString "MotorTestInductance,attr,omitempty";
  field "MotorTestFluxCurrentAttr" KString "MotorTestFluxCurrent,attr,omitempty";
  field "MotorTestSlipSpeedAttr" KString "MotorTestSlipSpeed,attr,omitempty";
  field "TuneFrictionAttr" KString "TuneFriction,attr,omitempty";
  field "TuneLoadOffsetAttr" KString "TuneLoadOffset,attr,omitempty";
  field "TotalInertiaAttr" KString "TotalInertia,attr,omitempty";
  field "TuningSelectAttr" KString "TuningSelect,attr,omitempty";
  field "TuningDirectionAttr" KString "TuningDirection,attr,omitempty";
  field "ApplicationTypeAttr" KString "ApplicationType,attr,omitempty";
  field "LoopResponseAttr" KString "LoopResponse,attr,omitempty";
  field "FeedbackCommutationAlignedAttr" KString "FeedbackCommutationAligned,attr,omitempty";
  field "FrictionCompensationSlidingAttr" KString "FrictionCompensationSliding,attr,omitempty";
  field "FrictionCompensationStaticAttr" KString "FrictionCompensationStatic,attr,omitempty";
  field "FrictionCompensationViscousAttr" KString "FrictionCompensationViscous,attr,omitempty";
  field "PositionLoopBandwidthAttr" KString "PositionLoopBandwidth,attr,omitempty";
  field "VelocityLoopBandwidthAttr" KString "VelocityLoopBandwidth,attr,omitempty";
  field "VelocityIntegratorBandwidthAttr" KString "VelocityIntegratorBandwidth,attr,omitempty";
  field "FeedbackNoiseUserLimitAttr" KString "FeedbackNoiseUserLimit,attr,omitempty";
  field "FeedbackSignalLossUserLimitAttr" KString "FeedbackSignalLossUserLimit,attr,omitempty";
  field "FeedbackDataLossUserLimitAttr" KString "FeedbackDataLossUserLimit,attr,omitempty";
  field "Feedback1BatteryAbsoluteAttr" KString "Feedback1BatteryAbsolute,attr,omitempty";
  field "CIPAxisAlarmtLogAttr" KString "CIPAxisAlarmtLog,attr,omitempty";
  field "MotionExceptionActionAttr" KString "MotionExceptionAction,attr,omitempty";
  field "SoftTravelLimitCheckingAttr" KString "SoftTravelLimitChecking,attr,omitempty";
  field "MoveRepeatModeAttr" KString "MoveRepeatMode,attr,omitempty";
  field "MoveRepeatDwellAttr" KString "MoveRepeatDwell,attr,omitempty";
  field "Feedback2UnitAttr" KString "Feedback2Unit,attr,omitempty";
  field "Feedback2PolarityAttr" KString "Feedback2Polarity,attr,omitempty";
  field "Feedback2StartupMethodAttr" KString "Feedback2StartupMethod,attr,omitempty";
  field "Feedback2CycleResolutionAttr" KString "Feedback2CycleResolution,attr,omitempty";
  field "Feedback2CycleInterpolationAttr" KString "Feedback2CycleInterpolation,attr,omitempty";
  field "Feedback2TurnsAttr" KString "Feedback2Turns,attr,omitempty";
  field "Feedback2LengthAttr" KString "Feedback2Length,attr,omitempty";
  field "Feedback2DataLengthAttr" KString "Feedback2DataLength,attr,omitempty";
  field "Feedback2DataCodeAttr" KString "Feedback2DataCode,attr,omitempty";
  field "Feedback2ResolverTransformerRatioAttr" KString "Feedback2ResolverTransformerRatio,attr,omitempty";
  field "Feedback2ResolverExcitationVoltageAttr" KString "Feedback2ResolverExcitationVoltage,attr,omitempty";
  field "Feedback2ResolverExcitationFrequencyAttr" KString "Feedback2ResolverExcitationFrequency,attr,omitempty";
  field "Feedback2ResolverCableBalanceAttr" KString "Feedback2ResolverCableBalance,attr,omitempty";
  field "Feedback2VelocityFilterBandwidthAttr" KString "Feedback2VelocityFilterBandwidth,attr,omitempty";
  field "Feedback2AccelFilterBandwidthAttr" KString "Feedback2AccelFilterBandwidth,attr,omitempty";
  field "Feedback2LossActionAttr" KString "Feedback2LossAction,attr,omitempty";
  field "Feedback2VelocityFilterTapsAttr" KString "Feedback2VelocityFilterTaps,attr,omitempty";
  field "Feedback2AccelFilterTapsAttr" KString "Feedback2AccelFilterTaps,attr,omitempty";
  field "Feedback2BatteryAbsoluteAttr" KString "Feedback2BatteryAbsolute,attr,omitempty";
  field "LoadRatioAttr" KString "LoadRatio,attr,omitempty";
  field "TotalMassAttr" KString "TotalMass,attr,omitempty";
  field "TuneInertiaMassAttr" KString "TuneInertiaMass,attr,omitempty";
  field "SoftTravelLimitPositiveAttr" KString "SoftTravelLimitPositive,attr,omitempty";
  field "SoftTravelLimitNegativeAttr" KString "SoftTravelLimitNegative,attr,omitempty";
  field "GainTuningConfigurationBitsAttr" KString "GainTuningConfigurationBits,attr,omitempty";
  field "CommutationOffsetAttr" KString "CommutationOffset,attr,omitempty";
  field "PowerLossTimeAttr" KString "PowerLossTime,attr,omitempty";
  field "SystemBandwidthAttr" KString "SystemBandwidth,attr,omitempty";
  field "VelocityLowPassFilterBandwidthAttr" KString "VelocityLowPassFilterBandwidth,attr,omitempty";
  field "FeedbackMasterSelectAttr" KString "FeedbackMasterSelect,attr,omitempty";
  field "TransmissionRatioInputAttr" KString "TransmissionRatioInput,attr,omitempty";
  field "TransmissionRatioOutputAttr" KString "TransmissionRatioOutput,attr,omitempty";
  field "ActuatorLeadAttr" KString "ActuatorLead,attr,omitempty";
  field "ActuatorLeadUnitAttr" KString "ActuatorLeadUnit,attr,omitempty";
  field "ActuatorDiameterAttr" KString "ActuatorDiameter,attr,omitempty";
  field "ActuatorDiameterUnitAttr" KString "ActuatorDiameterUnit,attr,omitempty";
  field "SystemAccelerationBaseAttr" KString "SystemAccelerationBase,attr,omitempty";
  field "DriveModelTimeConstantBaseAttr" KString "DriveModelTimeConstantBase,attr,omitempty";
  field "DriveRatedPeakCurrentAttr" KString "DriveRatedPeakCurrent,attr,omitempty";
  field "HookupTestDistanceAttr" KString "HookupTestDistance,attr,omitempty";
  field "HookupTestTimeAttr" KString "HookupTestTime,attr,omitempty";
  field "HookupTestFeedbackChannelAttr" KString "HookupTestFeedbackChannel,attr,omitempty";
  field "LoadCouplingAttr" KString "LoadCoupling,attr,omitempty";
  field "SystemDampingAttr" KString "SystemDamping,attr,omitempty";
  field "CurrentVectorLimitAttr" KString "CurrentVectorLimit,attr,omitempty";
  field "InductionMotorRatedSlipSpeedAttr" KString "InductionMotorRatedSlipSpeed,attr,omitempty";
  field "CommutationPolarityAttr" KString "CommutationPolarity,attr,omitempty";
  field "LoadObserverConfigurationAttr" KString "LoadObserverConfiguration,attr,omitempty";
  field "LoadObserverBandwidthAttr" KString "LoadObserverBandwidth,attr,omitempty";
  field "LoadObserverIntegratorBandwidthAttr" KString "LoadObserverIntegratorBandwidth,attr,omitempty";
  field "LoadObserverFeedbackGainAttr" KString "LoadObserverFeedbackGain,attr,omitempty";
  field "AxisIDAttr" KString "AxisID,attr,omitempty";
  field "MotorDataAttr" KString "MotorData,attr,omitempty";
  field "AdditionalBusCapacitanceAttr" KString "AdditionalBusCapacitance,attr,omitempty";
  field "InterpolatedPositionConfigurationAttr" KString "InterpolatedPositionConfiguration,attr,omitempty";
  field "AxisUpdateScheduleAttr" KString "AxisUpdateSchedule,attr,omitempty";
  field "ProvingConfigurationAttr" KString "ProvingConfiguration,attr,omitempty";
  field "TorqueProveCurrentAttr" KString "TorqueProveCurrent,attr,omitempty";
  field "BrakeTestTorqueAttr" KString "BrakeTestTorque,attr,omitempty";
  field "BrakeProveRampTimeAttr" KString "BrakeProveRampTime,attr,omitempty";
  field "BrakeSlipToleranceAttr" KString "BrakeSlipTolerance,attr,omitempty";
  field "ZeroSpeedAttr" KString "ZeroSpeed,attr,omitempty";
  field "ZeroSpeedTimeAttr" KString "ZeroSpeedTime,attr,omitempty";
  field "MotorPhaseLossLimitAttr" KString "MotorPhaseLossLimit,attr,omitempty";
  field "AdaptiveTuningConfigurationAttr" KString "AdaptiveTuningConfiguration,attr,omitempty";
  field "TorqueNotchFilterHighFrequencyLimitAttr" KString "TorqueNotchFilterHighFrequencyLimit,attr,omitempty";
  field "TorqueNotchFilterLowFrequencyLimitAttr" KString "TorqueNotchFilterLowFrequencyLimit,attr,omitempty";
  field "TorqueNotchFilterTuningThresholdAttr" KString "TorqueNotchFilterTuningThreshold,attr,omitempty";
  field "AutoSagConfigurationAttr" KString "AutoSagConfiguration,attr,omitempty";
  field "AutoSagSlipIncrementAttr" KString "AutoSagSlipIncrement,attr,omitempty";
  field "AutoSagSlipTimeLimitAttr" KString "AutoSagSlipTimeLimit,attr,omitempty";
  field "AutoSagStartAttr" KString "AutoSagStart,attr,omitempty";
  field "CoastingTimeLimitAttr" KString "CoastingTimeLimit,attr,omitempty";
  field "SafeTorqueOffActionAttr" KString "SafeTorqueOffAction,attr,omitempty";
  field "FlyingStartMethodAttr" KString "FlyingStartMethod,attr,omitempty";
  field "CommutationOffsetCompensationAttr" KString "CommutationOffsetCompensation,attr,omitempty";
  field "PMMotorLqInductanceAttr" KString "PMMotorLqInductance,attr,omitempty";
  field "PMMotorLdInductanceAttr" KString "PMMotorLdInductance,attr,omitempty";
  field "PMMotorLqFluxSaturationAttr" KString "PMMotorLqFluxSaturation,attr,omitempty";
  field "PMMotorLdFluxSaturationAttr" KString "PMMotorLdFluxSaturation,attr,omitempty";
  field "PMMotorRotaryBusOvervoltageSpeedAttr" KString "PMMotorRotaryBusOvervoltageSpeed,attr,omitempty";
  field "PMMotorLinearBusOvervoltageSpeedAttr" KString "PMMotorLinearBusOvervoltageSpeed,attr,omitempty";
  field "PMMotorRotaryMaxExtendedSpeedAttr" KString "PMMotorRotaryMaxExtendedSpeed,attr,omitempty";
  field "PMMotorLinearMaxExtendedSpeedAttr" KString "PMMotorLinearMaxExtendedSpeed,attr,omitempty";
  field "PMMotorExtendedSpeedPermissiveAttr" KString "PMMotorExtendedSpeedPermissive,attr,omitempty";
  field "BusOvervoltageOperationalLimitAttr" KString "BusOvervoltageOperationalLimit,attr,omitempty";
  field "ConnectionLossStoppingActionAttr" KString "ConnectionLossStoppingAction,attr,omitempty";
  field "SafeTorqueOffActionSourceAttr" KString "SafeTorqueOffActionSource,attr,omitempty";
  field "SafeStoppingActionAttr" KString "SafeStoppingAction,attr,omitempty";
  field "SafeStoppingActionSourceAttr" KString "SafeStoppingActionSource,attr,omitempty";
  field "VerticalLoadControlAttr" KString "VerticalLoadControl,attr,omitempty";
  field "BusVoltageSetPointAttr" KString "BusVoltageSetPoint,attr,omitempty";
  field "ConverterMotoringPowerLimitAttr" KString "ConverterMotoringPowerLimit,attr,omitempty";
  field "ConverterRegenerativePowerLimitAttr" KString "ConverterRegenerativePowerLimit,attr,omitempty";
  field "ConverterOvertemperatureUserLimitAttr" KString "ConverterOvertemperatureUserLimit,attr,omitempty";
  field "ConverterThermalOverloadUserLimitAttr" KString "ConverterThermalOverloadUserLimit,attr,omitempty";
  field "ConverterGroundCurrentUserLimitAttr" KString "ConverterGroundCurrentUserLimit,attr,omitempty";
  field "ConverterPreChargeOverloadUserLimitAttr" KString "ConverterPreChargeOverloadUserLimit,attr,omitempty";
  field "TotalDCBusCapacitanceAttr" KString "TotalDCBusCapacitance,attr,omitempty";
  field "ExternalDCBusCapacitanceAttr" KString "ExternalDCBusCapacitance,attr,omitempty";
  field "ConverterModelTimeConstantBaseAttr" KString "ConverterModelTimeConstantBase,attr,omitempty";
  field "ConverterCurrentLoopBandwidthBaseAttr" KString "ConverterCurrentLoopBandwidthBase,attr,omitempty";
  field "ConverterRatedCurrentAttr" KString "ConverterRatedCurrent,attr,omitempty";
  field "ConverterRatedPeakCurrentAttr" KString "ConverterRatedPeakCurrent,attr,omitempty";
  field "ConverterRatedVoltageAttr" KString "ConverterRatedVoltage,attr,omitempty";
  field "ConverterDCBusCapacitanceAttr" KString "ConverterDCBusCapacitance,attr,omitempty";
  field "ACLineVoltageTimeConstantAttr" KString "ACLineVoltageTimeConstant,attr,omitempty";
  field "BusVoltageErrorToleranceAttr" KString "BusVoltageErrorTolerance,attr,omitempty";
  field "BusVoltageErrorToleranceTimeAttr" KString "BusVoltageErrorToleranceTime,attr,omitempty";
  field "ReactivePowerSetPointAttr" KString "ReactivePowerSetPoint,attr,omitempty";
  field "ReactivePowerRateLimitAttr" KString "ReactivePowerRateLimit,attr,omitempty";
  field "SystemCapacitanceAttr" KString "SystemCapacitance,attr,omitempty";
  field "ConverterCurrentLoopBandwidthAttr" KString "ConverterCurrentLoopBandwidth,attr,omitempty";
  field "ConverterCurrentIntegratorBandwidthAttr" KString "ConverterCurrentIntegratorBandwidth,attr,omitempty";
  field "ConverterCurrentVectorLimitAttr" KString "ConverterCurrentVectorLimit,attr,omitempty";
  field "ACLineVoltageSagThresholdAttr" KString "ACLineVoltageSagThreshold,attr,omitempty";
  field "ACLineVoltageSagTimeAttr" KString "ACLineVoltageSagTime,attr,omitempty";
  field "ConverterInputPhaseLossTimeAttr" KString "ConverterInputPhaseLossTime,attr,omitempty";
  field "ACLineFrequencyChangeThresholdAttr" KString "ACLineFrequencyChangeThreshold,attr,omitempty";
  field "ACLineFrequencyChangeTimeAttr" KString "ACLineFrequencyChangeTime,attr,omitempty";
  field "ACLineSyncLossTimeAttr" KString "ACLineSyncLossTime,attr,omitempty";
  field "ACLineOvervoltageUserLimitAttr" KString "ACLineOvervoltageUserLimit,attr,omitempty";
  field "ACLineUndervoltageUserLimitAttr" KString "ACLineUndervoltageUserLimit,attr,omitempty";
  field "ACLineOvervoltageUserLimitAlternateAttr" KString "ACLineOvervoltageUserLimitAlternate,attr,omitempty";
  field "ACLineUndervoltageUserLimitAlternateAttr" KString "ACLineUndervoltageUserLimitAlternate,attr,omitempty";
  field "ACLineHighFreqUserLimitAttr" KString "ACLineHighFreqUserLimit,attr,omitempty";
  field "ACLineLowFreqUserLimitAttr" KString "ACLineLowFreqUserLimit,attr,omitempty";
  field "ACLineHighFreqUserLimitAlternateAttr" KString "ACLineHighFreqUserLimitAlternate,attr,omitempty";
  field "ACLineLowFreqUserLimitAlternateAttr" KString "ACLineLowFreqUserLimitAlternate,attr,omitempty";
  field "ConverterHeatsinkOvertempUserLimitAttr" KString "ConverterHeatsinkOvertempUserLimit,attr,omitempty";
  field "ACLineOverloadUserLimitAttr" KString "ACLineOverloadUserLimit,attr,omitempty";
  field "ConverterCurrentLoopDampingAttr" KString "ConverterCurrentLoopDamping,attr,omitempty";
  field "BusObserverBandwidthAttr" KString "BusObserverBandwidth,attr,omitempty";
  field "BusObserverIntegratorBandwidthAttr" KString "BusObserverIntegratorBandwidth,attr,omitempty";
  field "ACLineVoltageUnbalanceLimitAttr" KString "ACLineVoltageUnbalanceLimit,attr,omitempty";
  field "ACLineCurrentUnbalanceLimitAttr" KString "ACLineCurrentUnbalanceLimit,attr,omitempty";
  field "ACLineSyncErrorToleranceAttr" KString "ACLineSyncErrorTolerance,attr,omitempty";
  field "ACLineSourceImpedanceAttr" KString "ACLineSourceImpedance,attr,omitempty";
  field "ACLineSourcePowerAttr" KString "ACLineSourcePower,attr,omitempty";
  field "ACLineSourceImpedanceAlternateAttr" KString "ACLineSourceImpedanceAlternate,attr,omitempty";
  field "ACLineSourcePowerAlternateAttr" KString "ACLineSourcePowerAlternate,attr,omitempty";
  field "BusVoltageLoopBandwidthAttr" KString "BusVoltageLoopBandwidth,attr,omitempty";
  field "BusVoltageIntegratorBandwidthAttr" KString "BusVoltageIntegratorBandwidth,attr,omitempty";
  field "BusVoltageRateLimitAttr" KString "BusVoltageRateLimit,attr,omitempty";
  field "ActiveCurrentCommandAttr" KString "ActiveCurrentCommand,attr,omitempty";
  field "ReactiveCurrentCommandAttr" KString "ReactiveCurrentCommand,attr,omitempty";
  field "ActiveCurrentTrimAttr" KString "ActiveCurrentTrim,attr,omitempty";
  field "ActiveCurrentLowPassFilterBandwidthAttr" KString "ActiveCurrentLowPassFilterBandwidth,attr,omitempty";
  field "ActiveCurrentNotchFilterFrequencyAttr" KString "ActiveCurrentNotchFilterFrequency,attr,omitempty";
  field "ActiveCurrentRateLimitAttr" KString "ActiveCurrentRateLimit,attr,omitempty";
  field "ReactiveCurrentRateLimitAttr" KString "ReactiveCurrentRateLimit,attr,omitempty";
  field "ConverterControlModeAttr" KString "ConverterControlMode,attr,omitempty";
  field "ReactivePowerControlAttr" KString "ReactivePowerControl,attr,omitempty";
  field "ConverterStartupMethodAttr" KString "ConverterStartupMethod,attr,omitempty";
  field "ACLineVoltageSagActionAttr" KString "ACLineVoltageSagAction,attr,omitempty";
  field "ConverterInputPhaseLossActionAttr" KString "ConverterInputPhaseLossAction,attr,omitempty";
  field "ACLineFrequencyChangeActionAttr" KString "ACLineFrequencyChangeAction,attr,omitempty";
  field "ACLineSyncLossActionAttr" KString "ACLineSyncLossAction,attr,omitempty";
  field "ConverterOverloadActionAttr" KString "ConverterOverloadAction,attr,omitempty";
  field "ConverterCurrentLoopTuningMethodAttr" KString "ConverterCurrentLoopTuningMethod,attr,omitempty";
  field "ConverterACInputPhasingAttr" KString "ConverterACInputPhasing,attr,omitempty";
  field "ConverterACInputFrequencyAttr" KString "ConverterACInputFrequency,attr,omitempty";
  field "ACLineSourceSelectAttr" KString "ACLineSourceSelect,attr,omitempty";
  field "BusVoltageReferenceSourceAttr" KString "BusVoltageReferenceSource,attr,omitempty";
  field "BusObserverConfigurationAttr" KString "BusObserverConfiguration,attr,omitempty";
  field "ConverterACInputVoltageAttr" KString "ConverterACInputVoltage,attr,omitempty";
  field "CIPAxisExceptionAction2Attr" KString "CIPAxisExceptionAction2,attr,omitempty";
  field "CIPAxisExceptionAction2RAAttr" KString "CIPAxisExceptionAction2RA,attr,omitempty";
  field "ConverterConfigurationAttr" KString "ConverterConfiguration,attr,omitempty";
  field "ConverterCurrentLimitSourceAttr" KString "ConverterCurrentLimitSource,attr,omitempty";
  field "SafetyFaultActionAttr" KString "SafetyFaultAction,attr,omitempty";
  field "ACLineContactorInputCheckingAttr" KString "ACLineContactorInputChecking,attr,omitempty";
  field "ConverterModelTimeConstantAttr" KString "ConverterModelTimeConstant,attr,omitempty";
  field "ConverterRatedPowerAttr" KString "ConverterRatedPower,attr,omitempty";
  field "CurrentLoopBandwidthScalingFactorAttr" KString "CurrentLoopBandwidthScalingFactor,attr,omitempty";
  field "CurrentLoopBandwidthAttr" KString "CurrentLoopBandwidth,attr,omitempty";
  field "DriveRatedVoltageAttr" KString "DriveRatedVoltage,attr,omitempty";
  field "MaxOutputFrequencyAttr" KString "MaxOutputFrequency,attr,omitempty";
  field "ACLineResonanceUserLimitAttr" KString "ACLineResonanceUserLimit,attr,omitempty";
  field "MotorTestDataValidAttr" KString "MotorTestDataValid,attr,omitempty";
  field "TrackMoverLengthAttr" KString "TrackMoverLength,attr,omitempty";
  field "TrackMoverCenterofMassOffsetAttr" KString "TrackMoverCenterofMassOffset,attr,omitempty";
  field "Feedback1CalibrationOffsetAttr" KString "Feedback1CalibrationOffset,attr,omitempty";
  field "Feedback2CalibrationOffsetAttr" KString "Feedback2CalibrationOffset,attr,omitempty";
  field "CommandNotchFilterFrequencyAttr" KString "CommandNotchFilterFrequency,attr,omitempty";
  field "CommandNotchFilterWidthAttr" KString "CommandNotchFilterWidth,attr,omitempty";
  field "CommandNotchFilterDepthAttr" KString "CommandNotchFilterDepth,attr,omitempty";
  field "CommandNotchFilterGainAttr" KString "CommandNotchFilterGain,attr,omitempty";
  field "CommandNotchFilter2FrequencyAttr" KString "CommandNotchFilter2Frequency,attr,omitempty";
  field "CommandNotchFilter2WidthAttr" KString "CommandNotchFilter2Width,attr,omitempty";
  field "CommandNotchFilter2DepthAttr" KString "CommandNotchFilter2Depth,attr,omitempty";
  field "CommandNotchFilter2GainAttr" KString "CommandNotchFilter2Gain,attr,omitempty";
  field "TorqueNotchFilter2FrequencyAttr" KString "TorqueNotchFilter2Frequency,attr,omitempty";
  field "TorqueNotchFilter3FrequencyAttr" KString "TorqueNotchFilter3Frequency,attr,omitempty";
  field "TorqueNotchFilter4FrequencyAttr" KString "TorqueNotchFilter4Frequency,attr,omitempty";
  field "TorqueNotchFilterWidthAttr" KString "TorqueNotchFilterWidth,attr,omitempty";
  field "TorqueNotchFilterDepthAttr" KString "TorqueNotchFilterDepth,attr,omitempty";
  field "TorqueNotchFilterGainAttr" KString "TorqueNotchFilterGain,attr,omitempty";
  field "TorqueNotchFilter2WidthAttr" KString "TorqueNotchFilter2Width,attr,omitempty";
  field "TorqueNotchFilter2DepthAttr" KString "TorqueNotchFilter2Depth,attr,omitempty";
  field "TorqueNotchFilter2GainAttr" KString "TorqueNotchFilter2Gain,attr,omitempty";
  field "TorqueNotchFilter3WidthAttr" KString "TorqueNotchFilter3Width,attr,omitempty";
  field "TorqueNotchFilter3DepthAttr" KString "TorqueNotchFilter3Depth,attr,omitempty";
  field "TorqueNotchFilter3GainAttr" KString "TorqueNotchFilter3Gain,attr,omitempty";
  field "TorqueNotchFilter4WidthAttr" KString "TorqueNotchFilter4Width,attr,omitempty";
  field "TorqueNotchFilter4DepthAttr" KString "TorqueNotchFilter4Depth,attr,omitempty";
  field "TorqueNotchFilter4GainAttr" KString "TorqueNotchFilter4Gain,attr,omitempty";
  field "AdaptiveTuningTrackingNotchFiltersAttr" KString "AdaptiveTuningTrackingNotchFilters,attr,omitempty";
  field "AdaptiveTuningGainScalingFactorMinAttr" KString "AdaptiveTuningGainScalingFactorMin,attr,omitempty";
  field "TorqueLowPassFilterBandwidthMinAttr" KString "TorqueLowPassFilterBandwidthMin,attr,omitempty";
  field "TorqueNotchFilterWidthMinAttr" KString "TorqueNotchFilterWidthMin,attr,omitempty";
  field "TorqueNotchFilterWidthMaxAttr" KString "TorqueNotchFilterWidthMax,attr,omitempty";
  field "MotorTestTravelLimitAttr" KString "MotorTestTravelLimit,attr,omitempty";
  field "MotorTestSpeedAttr" KString "MotorTestSpeed,attr,omitempty";
  field "MotorTestTorqueAttr" KString "MotorTestTorque,attr,omitempty";
  field "HookupTestSpeedAttr" KString "HookupTestSpeed,attr,omitempty";
  field "TorqueEstimateCrossoverSpeedAttr" KString "TorqueEstimateCrossoverSpeed,attr,omitempty";
  field "TorqueEstimateNotch1FrequencyAttr" KString "TorqueEstimateNotch1Frequency,attr,omitempty";
  field "TorqueEstimateNotch1WidthAttr" KString "TorqueEstimateNotch1Width,attr,omitempty";
  field "TorqueEstimateNotch1DepthAttr" KString "TorqueEstimateNotch1Depth,attr,omitempty";
  field "TorqueEstimateNotch1GainAttr" KString "TorqueEstimateNotch1Gain,attr,omitempty";
  field "TorqueEstimateNotch2FrequencyAttr" KString "TorqueEstimateNotch2Frequency,attr,omitempty";
  field "TorqueEstimateNotch2WidthAttr" KString "TorqueEstimateNotch2Width,attr,omitempty";
  field "TorqueEstimateNotch2DepthAttr" KString "TorqueEstimateNotch2Depth,attr,omitempty";
  field "TorqueEstimateNotch2GainAttr" KString "TorqueEstimateNotch2Gain,attr,omitempty";
  field "FlyingStartCEMFReconnectDelayAttr" KString "FlyingStartCEMFReconnectDelay,attr,omitempty";
  field "FlyingStartCEMFCurrentRegKpAttr" KString "FlyingStartCEMFCurrentRegKp,attr,omitempty";
  field "FlyingStartCEMFCurrentRegKiAttr" KString "FlyingStartCEMFCurrentRegKi,attr,omitempty";
  field "FlyingStartCEMFVelocityRegKpAttr" KString "FlyingStartCEMFVelocityRegKp,attr,omitempty";
  field "FlyingStartCEMFVelocityRegKiAttr" KString "FlyingStartCEMFVelocityRegKi,attr,omitempty";
  field "FlyingStartCEMFExcitationRegKpAttr" KString "FlyingStartCEMFExcitationRegKp,attr,omitempty";
  field "FlyingStartCEMFExcitationRegKiAttr" KString "FlyingStartCEMFExcitationRegKi,attr,omitempty";
  field "FlyingStartCEMFBrakeLevelAttr" KString "FlyingStartCEMFBrakeLevel,attr,omitempty";
  field "FlyingStartCEMFBrakeTimeAttr" KString "FlyingStartCEMFBrakeTime,attr,omitempty";
  field "FlyingStartCEMFZeroSpeedThresholdAttr" KString "FlyingStartCEMFZeroSpeedThreshold,attr,omitempty";
  field "FlyingStartSweepReconnectDelayAttr" KString "FlyingStartSweepReconnectDelay,attr,omitempty";
  field "FlyingStartSweepInitialVoltageRegKpAttr" KString "FlyingStartSweepInitialVoltageRegKp,attr,omitempty";
  field "FlyingStartSweepInitialVoltageRegKiAttr" KString "FlyingStartSweepInitialVoltageRegKi,attr,omitempty";
  field "FlyingStartSweepTimeAttr" KString "FlyingStartSweepTime,attr,omitempty";
  field "FlyingStartSweepVHzDCBoostAdjustAttr" KString "FlyingStartSweepVHzDCBoostAdjust,attr,omitempty";
  field "FlyingStartSweepVHzRatioAttr" KString "FlyingStartSweepVHzRatio,attr,omitempty";
  field "FlyingStartSweepSpeedDetectLevelAttr" KString "FlyingStartSweepSpeedDetectLevel,attr,omitempty";
  field "FlyingStartSweepSpeedDetectTimeAttr" KString "FlyingStartSweepSpeedDetectTime,attr,omitempty";
  field "FlyingStartSweepRecoveryCurrentRegKiAttr" KString "FlyingStartSweepRecoveryCurrentRegKi,attr,omitempty";
  field "FlyingStartSweepVelocityRegKpAttr" KString "FlyingStartSweepVelocityRegKp,attr,omitempty";
  field "FlyingStartSweepVelocityRegKiAttr" KString "FlyingStartSweepVelocityRegKi,attr,omitempty";
  field "FlyingStartSweepBrakeLevelAttr" KString "FlyingStartSweepBrakeLevel,attr,omitempty";
  field "FlyingStartSweepBrakeTimeAttr" KString "FlyingStartSweepBrakeTime,attr,omitempty";
  field "FlyingStartSweepZeroSpeedThresholdAttr" KString "FlyingStartSweepZeroSpeedThreshold,attr,omitempty";
  field "FrictionCompensationMethodAttr" KString "FrictionCompensationMethod,attr,omitempty";
  field "FrictionCompensationStartSpeedAttr" KString "FrictionCompensationStartSpeed,attr,omitempty";
  field "FrictionCompensationHysteresisAttr" KString "FrictionCompensationHysteresis,attr,omitempty";
  field "FrictionCompensationBreakawayTimeAttr" KString "FrictionCompensationBreakawayTime,attr,omitempty";
  field "MotorAdaptionSpeedAttr" KString "MotorAdaptionSpeed,attr,omitempty";
  field "TorqueAdaptionEnableAttr" KString "TorqueAdaptionEnable,attr,omitempty";
  field "SlipAdaptionEnableAttr" KString "SlipAdaptionEnable,attr,omitempty";
  field "FluxAdaptionEnableAttr" KString "FluxAdaptionEnable,attr,omitempty";
  field "TorqueAdaptionRegulatorKpAttr" KString "TorqueAdaptionRegulatorKp,attr,omitempty";
  field "TorqueAdaptionRegulatorKiAttr" KString "TorqueAdaptionRegulatorKi,attr,omitempty";
  field "TorqueAdaptionRegulatorLimitPositiveAttr" KString "TorqueAdaptionRegulatorLimitPositive,attr,omitempty";
  field "TorqueAdaptionRegulatorLimitNegativeAttr" KString "TorqueAdaptionRegulatorLimitNegative,attr,omitempty";
  field "SlipandFluxRegulatorSlewTimeAttr" KString "SlipandFluxRegulatorSlewTime,attr,omitempty";
  field "SlipandFluxRegulatorSlewRateAttr" KString "SlipandFluxRegulatorSlewRate,attr,omitempty";
  field "SlipandFluxRegulatorConvergenceLevelAttr" KString "SlipandFluxRegulatorConvergenceLevel,attr,omitempty";
  field "SlipandFluxRegulatorConvergenceTimeAttr" KString "SlipandFluxRegulatorConvergenceTime,attr,omitempty";
  field "SlipAdaptionRegulatorIqThresholdAttr" KString "SlipAdaptionRegulatorIqThreshold,attr,omitempty";
  field "SlipAdaptionRegulatorKpAttr" KString "SlipAdaptionRegulatorKp,attr,omitempty";
  field "SlipAdaptionRegulatorKiAttr" KString "SlipAdaptionRegulatorKi,attr,omitempty";
  field "FluxAdaptionRegulatorKpAttr" KString "FluxAdaptionRegulatorKp,attr,omitempty";
  field "FluxAdaptionRegulatorKiAttr" KString "FluxAdaptionRegulatorKi,attr,omitempty";
  field "VqIdDecouplingGainAttr" KString "VqIdDecouplingGain,attr,omitempty";
  field "VdIqDecouplingGainAttr" KString "VdIqDecouplingGain,attr,omitempty";
  field "LqIqFeedbackFilterBandwidthAttr" KString "LqIqFeedbackFilterBandwidth,attr,omitempty";
  field "CurrentLimitRegulatorKpAttr" KString "CurrentLimitRegulatorKp,attr,omitempty";
  field "CurrentLimitRegulatorKiAttr" KString "CurrentLimitRegulatorKi,attr,omitempty";
  field "CurrentLimitRegulatorKdAttr" KString "CurrentLimitRegulatorKd,attr,omitempty";
  field "LowFrequencyIdCurrentLimitRegulatorKpAttr" KString "LowFrequencyIdCurrentLimitRegulatorKp,attr,omitempty";
  field "LowFrequencyIqCurrentLimitRegulatorKpAttr" KString "LowFrequencyIqCurrentLimitRegulatorKp,attr,omitempty";
  field "PreChargeHoldControlAttr" KString "PreChargeHoldControl,attr,omitempty";
  field "PreChargeHoldDelayAttr" KString "PreChargeHoldDelay,attr,omitempty";
  field "MotorOvertemperatureUserLimitAttr" KString "MotorOvertemperatureUserLimit,attr,omitempty";
  field "InverterOvertemperatureUserLimitAttr" KString "InverterOvertemperatureUserLimit,attr,omitempty";
  field "SensorlessVectorEconomyAccelDecelKpAttr" KString "SensorlessVectorEconomyAccelDecelKp,attr,omitempty";
  field "SensorlessVectorEconomyAccelDecelKiAttr" KString "SensorlessVectorEconomyAccelDecelKi,attr,omitempty";
  field "SensorlessVectorEconomyAtSpeedKiAttr" KString "SensorlessVectorEconomyAtSpeedKi,attr,omitempty";
  field "SensorlessVectorBoostFilterBandwidthAttr" KString "SensorlessVectorBoostFilterBandwidth,attr,omitempty";
  field "VelocityFeedbackDelayCompensationAttr" KString "VelocityFeedbackDelayCompensation,attr,omitempty";
  field "TorqueCalibrationFactorMotoringAttr" KString "TorqueCalibrationFactorMotoring,attr,omitempty";
  field "TorqueCalibrationFactorRegeneratingAttr" KString "TorqueCalibrationFactorRegenerating,attr,omitempty";
  field "FluxVectorFrequencyRegulatorKpAttr" KString "FluxVectorFrequencyRegulatorKp,attr,omitempty";
  field "FluxVectorFrequencyRegulatorKiAttr" KString "FluxVectorFrequencyRegulatorKi,attr,omitempty";
  field "MotorStabilityControlEnableAttr" KString "MotorStabilityControlEnable,attr,omitempty";
  field "MotorStabilityControlFilterBandwidthAttr" KString "MotorStabilityControlFilterBandwidth,attr,omitempty";
  field "MotorStabilityControlVoltageGainAttr" KString "MotorStabilityControlVoltageGain,attr,omitempty";
  field "MotorStabilityControlFrequencyGainAttr" KString "MotorStabilityControlFrequencyGain,attr,omitempty";
  field "PowerDeviceCompensationEnableAttr" KString "PowerDeviceCompensationEnable,attr,omitempty";
  field "PowerDeviceDeadTimeCompensationAttr" KString "PowerDeviceDeadTimeCompensation,attr,omitempty";
  field "DCInjectionCurrentRegulatorKpAttr" KString "DCInjectionCurrentRegulatorKp,attr,omitempty";
  field "DCInjectionCurrentRegulatorKiAttr" KString "DCInjectionCurrentRegulatorKi,attr,omitempty";
  field "FluxBrakingRegulatorKpAttr" KString "FluxBrakingRegulatorKp,attr,omitempty";
  field "FluxBrakingRegulatorKiAttr" KString "FluxBrakingRegulatorKi,attr,omitempty";
  field "FluxBrakingVoltageLimitAttr" KString "FluxBrakingVoltageLimit,attr,omitempty";
  field "FluxDownRegulatorKpAttr" KString "FluxDownRegulatorKp,attr,omitempty";
  field "FluxDownRegulatorKiAttr" KString "FluxDownRegulatorKi,attr,omitempty";
  field "ACInjectionBrakeRegulatorKpAttr" KString "ACInjectionBrakeRegulatorKp,attr,omitempty";
  field "ACInjectionBrakeRegulatorKiAttr" KString "ACInjectionBrakeRegulatorKi,attr,omitempty";
  field "ACInjectionBrakePowerThresholdAttr" KString "ACInjectionBrakePowerThreshold,attr,omitempty";
  field "ACInjectionBrakeFrequencyThresholdAttr" KString "ACInjectionBrakeFrequencyThreshold,attr,omitempty";
  field "BusRegulatorVoltageLevelAttr" KString "BusRegulatorVoltageLevel,attr,omitempty";
  field "BusRegulatorSetPointSourceAttr" KString "BusRegulatorSetPointSource,attr,omitempty";
  field "BusRegulatorKpAttr" KString "BusRegulatorKp,attr,omitempty";
  field "BusRegulatorKiAttr" KString "BusRegulatorKi,attr,omitempty";
  field "BusLimitRegulatorKpAttr" KString "BusLimitRegulatorKp,attr,omitempty";
  field "BusLimitRegulatorKdAttr" KString "BusLimitRegulatorKd,attr,omitempty";
  field "BusLimitActiveCurrentRegulatorKpAttr" KString "BusLimitActiveCurrentRegulatorKp,attr,omitempty";
  field "BusLimitActiveCurrentRegulatorKiAttr" KString "BusLimitActiveCurrentRegulatorKi,attr,omitempty";
  field "InverterGroundCurrentUserLimitAttr" KString "InverterGroundCurrentUserLimit,attr,omitempty";
  field "TestModeConfigurationAttr" KString "TestModeConfiguration,attr,omitempty";
  field "TestModeEnableAttr" KString "TestModeEnable,attr,omitempty";
  field "UseAttr" KString "Use,attr,omitempty";
  field "CustomProperties" (KPtr "CustomPropertiesCollectionType") "CustomProperties"
].

Definition TrendGroupCollectionType_fields : list xfield := [
  field "UIdAttr" KString "UId,attr,omitempty";
  field "ParentUIdAttr" KString "ParentUId,attr,omitempty";
  field "UseAttr" KString "Use,attr,omitempty";
  field "CustomProperties" (KPtr "CustomPropertiesCollectionType") "CustomProperties";
  field "Trend" (KSlice "TrendGroupType") "Trend"
].

Definition Template_fields : list xfield := [
  field "Value" KString ",chardata"
].

Definition TrendGroupType_fields : list xfield := [
  field "NameAttr" KString "Name,attr";
  field "UIdAttr" KString "UId,attr,omitempty";
  field "SamplePeriodAttr" KString "SamplePeriod,attr,omitempty";
  field "NumberOfCapturesAttr" KString "NumberOfCaptures,attr,omitempty";
  field "CaptureSizeTypeAttr" KString "CaptureSizeType,attr,omitempty";
  field "CaptureSizeAttr" KString "CaptureSize,attr,omitempty";
  field "StartTriggerTypeAttr" KString "StartTriggerType,attr,omitempty";
  field "StartTriggerTag1Attr" KString "StartTriggerTag1,attr,omitempty";
  field "StartTriggerOperation1Attr" KString "StartTriggerOperation1,attr,omitempty";
  field "StartTriggerTargetType1Attr" KString "StartTriggerTargetType1,attr,omitempty";
  field "StartTriggerTargetValue1Attr" KString "StartTriggerTargetValue1,attr,omitempty";
  field "StartTriggerTargetTag1Attr" KString "StartTriggerTargetTag1,attr,omitempty";
  field "StartTriggerLogicalOperationAttr" KString "StartTriggerLogicalOperation,attr,omitempty";
  field "StartTriggerTag2Attr" KString "StartTriggerTag2,attr,omitempty";
  field "StartTriggerOperation2Attr" KString "StartTriggerOperation2,attr,omitempty";
  field "StartTriggerTargetType2Attr" KString "StartTriggerTargetType2,attr,omitempty";
  field "StartTriggerTargetValue2Attr" KString "StartTriggerTargetValue2,attr,omitempty";
  field "StartTriggerTargetTag2Attr" KString "StartTriggerTargetTag2,attr,omitempty";
  field "PreSampleTypeAttr" KString "PreSampleType,attr,omitempty";
  field "PreSamplesAttr" KString "PreSamples,attr,omitempty";
  field "StopTriggerTypeAttr" KString "StopTriggerType,attr,omitempty";
  field "StopTriggerTag1Attr" KString "StopTriggerTag1,attr,omitempty";
  field "StopTriggerOperation1Attr" KString "StopTriggerOperation1,attr,omitempty";
  field "StopTriggerTargetType1Attr" KString "StopTriggerTargetType1,attr,omitempty";
  field "StopTriggerTargetValue1Attr" KString "StopTriggerTargetValue1,attr,omitempty";
  field "StopTriggerTargetTag1Attr" KString "StopTriggerTargetTag1,attr,omitempty";
  field "StopTriggerLogicalOperationAttr" KString "StopTriggerLogicalOperation,attr,omitempty";
  field "StopTriggerTag2Attr" KString "StopTriggerTag2,attr,omitempty";
  field "StopTriggerOperation2Attr" KString "StopTriggerOperation2,attr,omitempty";
  field "StopTriggerTargetType2Attr" KString "StopTriggerTargetType2,attr,omitempty";
  field "StopTriggerTargetValue2Attr" KString "StopTriggerTargetValue2,attr,omitempty";
  field "StopTriggerTargetTag2Attr" KString "StopTriggerTargetTag2,attr,omitempty";
  field "PostSampleTypeAttr" KString "PostSampleType,attr,omitempty";
  field "PostSamplesAttr" KString "PostSamples,attr,omitempty";
  field "TrendxVersionAttr" KString "TrendxVersion,attr,omitempty";
  field "UseAttr" KString "Use,attr,omitempty";
  field "CustomProperties" (KPtr "CustomPropertiesCollectionType") "CustomProperties";
  field "Description" (KPtr "DescriptionType") "Description";
  field "Template" (KPtr "Template") "Template";
  field "Pens" (KPtr "PenCollectionType") "Pens"
].

Definition PenCollectionType_fields : list xfield := [
  field "UseAttr" KString "Use,attr,omitempty";
  field "CustomProperties" (KPtr "CustomPropertiesCollectionType") "CustomProperties";
  field "Pen" (KSlice "PenType") "Pen"
].

Definition PenType_fields : list xfield := [
  field "NameAttr" KString "Name,attr";
  field "ColorAttr" KString "Color,attr,omitempty";
  field "VisibleAttr" KString "Visible,attr,omitempty";
  field "WidthAttr" KString "Width,attr,omitempty";
  field "TypeAttr" KString "Type,attr,omitempty";
  field "StyleAttr" KString "Style,attr,omitempty";
  field "MarkerAttr" KString "Marker,attr,omitempty";
  field "MinAttr" KString "Min,attr,omitempty";
  field "MaxAttr" KString "Max,attr,omitempty";
  field "EngUnitsAttr" KString "EngUnits,attr,omitempty";
  field "UseAttr" KString "Use,attr,omitempty";
  field "CustomProperties" (KPtr "CustomPropertiesCollectionType") "CustomProperties";
  field "Description" (KPtr "DescriptionType") "Description"
].

Definition ParameterConnectionCollectionType_fields : list xfield := [
  field "UseAttr" KString "Use,attr,omitempty";
  field "CustomProperties" (KPtr "CustomPropertiesCollectionType") "CustomProperties";
  field "ParameterConnection" (KSlice "ParameterConnectionType") "ParameterConnection"
].

Definition ParameterConnectionType_fields : list xfield := [
  field "EndPoint1Attr" KString "EndPoint1,attr";
  field "EndPoint2Attr" KString "EndPoint2,attr";
  field "UIdAttr" KString "UId,attr,omitempty";
  field "UseAttr" KString "Use,attr,omitempty";
  field "CustomProperties" (KPtr "CustomPropertiesCollectionType") "CustomProperties"
].

Definition QuickWatchCollectionAdaptorType_fields : list xfield := [
  field "UseAttr" KString "Use,attr,omitempty";
  field "CustomProperties" (KPtr "CustomPropertiesCollectionType") "CustomProperties";
  field "QuickWatchList" (KSlice "QuickWatchAdaptorType") "QuickWatchList"
].

Definition QuickWatchAdaptorType_fields : list xfield := [
  field "NameAttr" KString "Name,attr";
  field "UseAttr" KString "Use,attr,omitempty";
  field "CustomProperties" (KPtr "CustomPropertiesCollectionType") "CustomProperties";
  field "WatchTag" (KSlice "QuickWatchTagAdaptorType") "WatchTag"
].

Definition QuickWatchTagAdaptorType_fields : list xfield := [
  field "SpecifierAttr" KString "Specifier,attr";
  field "ScopeAttr" KString "Scope,attr";
  field "UseAttr" KString "Use,attr,omitempty";
  field "CustomProperties" (KPtr "CustomPropertiesCollectionType") "CustomProperties"
].

Definition TimeSynchronizeType_fields : list xfield := [
  field "UIdAttr" KString "UId,attr,omitempty";
  field "Priority1Attr" KString "Priority1,attr,omitempty";
  field "Priority2Attr" KString "Priority2,attr,omitempty";
  field "PTPEnableAttr" KString "PTPEnable,attr,omitempty";
  field "UseAttr" KString "Use,attr,omitempty";
  field "CustomProperties" (KPtr "CustomPropertiesCollectionType") "CustomProperties"
].

Definition TCPIPType_fields : list xfield := [
  field "ConfigTypeAttr" KString "ConfigType,attr,omitempty";
  field "IPAddressAttr" KString "IPAddress,attr,omitempty";
  field "SubnetMaskAttr" KString "SubnetMask,attr,omitempty";
  field "GatewayAttr" KString "Gateway,attr,omitempty";
  field "PrimaryDNSAttr" KString "PrimaryDNS,attr,omitempty";
  field "SecondaryDNSAttr" KString "SecondaryDNS,attr,omitempty";
  field "DomainNameAttr" KString "DomainName,attr,omitempty";
  field "HostNameAttr" KString "HostName,attr,omitempty";
  field "UseAttr" KString "Use,attr,omitempty";
  field "CustomProperties" (KPtr "CustomPropertiesCollectionType") "CustomProperties"
].

Definition EthernetLinkCollectionType_fields : list xfield := [
  field "UseAttr" KString "Use,attr,omitempty";
  field "CustomProperties" (KPtr "CustomPropertiesCollectionType") "CustomProperties";
  field "EthernetPort" (KSlice "EthernetLinkType") "EthernetPort"
].

Definition EthernetLinkType_fields : list xfield := [
  field "PortAttr" KString "Port,attr,omitempty";
  field "LabelAttr" KString "Label,attr,omitempty";
  field "PortEnabledAttr" KString "PortEnabled,attr,omitempty";
  field "AutoNegotiateEnabledAttr" KString "AutoNegotiateEnabled,attr,omitempty";
  field "InterfaceSpeedAttr" KString "InterfaceSpeed,attr,omitempty";
  field "DuplexModeAttr" KString "DuplexMode,attr,omitempty";
  field "UseAttr" KString "Use,attr,omitempty";
  field "CustomProperties" (KPtr "CustomPropertiesCollectionType") "CustomProperties"
].

Definition DeviceLevelRingType_fields : list xfield := [
  field "SupervisorModeEnabledAttr" KString "SupervisorModeEnabled,attr,omitempty";
  field "SupervisorPrecedenceAttr" KString "SupervisorPrecedence,attr,omitempty";
  field "BeaconIntervalAttr" KString "BeaconInterval,attr,omitempty";
  field "BeaconTimeoutAttr" KString "BeaconTimeout,attr,omitempty";
  field "VLANIDAttr" KString "VLANID,attr,omitempty";
  field "UseAttr" KString "Use,attr,omitempty";
  field "CustomProperties" (KPtr "CustomPropertiesCollectionType") "CustomProperties"
].

Definition DataLogCollectionType_fields : list xfield := [
  field "UIdAttr" KString "UId,attr,omitempty";
  field "ParentUIdAttr" KString "ParentUId,attr,omitempty";
  field "UseAttr" KString "Use,attr,omitempty";
  field "CustomProperties" (KPtr "CustomPropertiesCollectionType") "CustomProperties";
  field "DataLog" (KSlice "DataLogType") "DataLog"
].

Definition DataLogType_fields : list xfield := [
  field "NameAttr" KString "Name,attr";
  field "UIdAttr" KString "UId,attr,omitempty";
  field "PeriodAttr" KString "Period,attr,omitempty";
  field "PeriodUnitAttr" KString "PeriodUnit,attr,omitempty";
  field "EnableDataLoggingOnDownloadAttr" KString "EnableDataLoggingOnDownload,attr,omitempty";
  field "CollectDataOnlyInRunModeAttr" KString "CollectDataOnlyInRunMode,attr,omitempty";
  field "DataCollectionTypeAttr" KString "DataCollectionType,attr,omitempty";
  field "SampleEventAttr" KString "SampleEvent,attr,omitempty";
  field "StartTriggerConditionAttr" KString "StartTriggerCondition,attr,omitempty";
  field "TriggerConditionAttr" KString "TriggerCondition,attr,omitempty";
  field "PreSamplesAttr" KString "PreSamples,attr,omitempty";
  field "PreSampleUnitAttr" KString "PreSampleUnit,attr,omitempty";
  field "StopTriggerConditionAttr" KString "StopTriggerCondition,attr,omitempty";
  field "PostSamplesAttr" KString "PostSamples,attr,omitempty";
  field "PostSampleUnitAttr" KString "PostSampleUnit,attr,omitempty";
  field "CaptureSizeAttr" KString "CaptureSize,attr,omitempty";
  field "CaptureSizeUnitAttr" KString "CaptureSizeUnit,attr,omitempty";
  field "CaptureSizeExceededAttr" KString "CaptureSizeExceeded,attr,omitempty";
  field "DataCapturesToKeepAttr" KString "DataCapturesToKeep,attr,omitempty";
  field "DataLogCapturesExceededAttr" KString "DataLogCapturesExceeded,attr,omitempty";
  field "NumberOfDataLogTagsAttr" KString "NumberOfDataLogTags,attr,omitempty";
  field "DataLogSizeAttr" KString "DataLogSize,attr,omitempty";
  field "DataLogSizeUnitAttr" KString "DataLogSizeUnit,attr,omitempty";
  field "DataLogSizeExceededAttr" KString "DataLogSizeExceeded,attr,omitempty";
  field "UseAttr" KString "Use,attr,omitempty";
  field "CustomProperties" (KPtr "CustomPropertiesCollectionType") "CustomProperties";
  field "Description" (KPtr "DescriptionType") "Description";
  field "StartTriggerExpression" KString "StartTriggerExpression";
  field "TriggerExpression" KString "TriggerExpression";
  field "StopTriggerExpression" KString "StopTriggerExpression";
  field "DataLogTags" (KPtr "DataLogTagCollectionType") "DataLogTags"
].

Definition DataLogTagCollectionType_fields : list xfield := [
  field "UseAttr" KString "Use,attr,omitempty";
  field "CustomProperties" (KPtr "CustomPropertiesCollectionType") "CustomProperties";
  field "DataLogTag" (KSlice "DataLogTagType") "DataLogTag"
].

Definition DataLogTagType_fields : list xfield := [
  field "NameAttr" KString "Name,attr";
  field "UseAttr" KString "Use,attr,omitempty";
  field "CustomProperties" (KPtr "CustomPropertiesCollectionType") "CustomProperties"
].

Definition EncryptionInfoType_fields : list xfield := [
  field "UseAttr" KString "Use,attr,omitempty";
  field "CustomProperties" (KPtr "CustomPropertiesCollectionType") "CustomProperties";
  field "EncryptionKey" (KSlice "EncryptionKeyType") "EncryptionKey"
].

Definition EncryptionKeyType_fields : list xfield := [
  field "NameAttr" KString "Name,attr,omitempty";
  field "IDAttr" KString "ID,attr,omitempty";
  field "DescriptionAttr" KString "Description,attr,omitempty";
  field "VendorAttr" KString "Vendor,attr,omitempty";
  field "PublicKeyAttr" KString "PublicKey,attr,omitempty";
  field "UseAttr" KString "Use,attr,omitempty";
  field "CustomProperties" (KPtr "CustomPropertiesCollectionType") "CustomProperties"
].

Definition EncryptedContentType_fields : list xfield := [
  field "EncryptedTypeAttr" KString "EncryptedType,attr";
  field "OnlineEditTypeAttr" KString "OnlineEditType,attr,omitempty";
  field "UseAttr" KString "Use,attr,omitempty";
  field "CustomProperties" (KPtr "CustomPropertiesCollectionType") "CustomProperties"
].

Definition HardwareStatusType_fields : list xfield := [
  field "UseAttr" KString "Use,attr,omitempty";
  field "CustomProperties" (KPtr "CustomPropertiesCollectionType") "CustomProperties"
].

Definition BEOType_fields : list xfield := [
  field "EnergyResourceTypeAttr" KString "EnergyResourceType,attr";
  field "BaseEnergyObjectCapabilitiesAttr" KString "BaseEnergyObjectCapabilities,attr";
  field "EnergyAccuracyAttr" KString "EnergyAccuracy,attr,omitempty";
  field "DataStatusAttr" KString "DataStatus,attr,omitempty";
  field "ConsumedEnergyOdometerAttr" KString "ConsumedEnergyOdometer,attr,omitempty";
  field "GeneratedEnergyOdometerAttr" KString "GeneratedEnergyOdometer,attr,omitempty";
  field "NetEnergyOdometerAttr" KString "NetEnergyOdometer,attr,omitempty";
  field "EnergyTransferRateAttr" KString "EnergyTransferRate,attr,omitempty";
  field "ExtendedDataStatusAttr" KString "ExtendedDataStatus,attr,omitempty";
  field "UseAttr" KString "Use,attr,omitempty";
  field "CustomProperties" (KPtr "CustomPropertiesCollectionType") "CustomProperties"
].

Definition EEOType_fields : list xfield := [
  field "RealEnergyConsumedOdometerAttr" KString "RealEnergyConsumedOdometer,attr,omitempty";
  field "RealEnergyGeneratedOdometerAttr" KString "RealEnergyGeneratedOdometer,attr,omitempty";
  field "RealEnergyNetOdometerAttr" KString "RealEnergyNetOdometer,attr,omitempty";
  field "TotalRealPowerAttr" KString "TotalRealPower,attr,omitempty";
  field "ThreePhaseTruePowerFactorAttr" KString "ThreePhaseTruePowerFactor,attr,omitempty";
  field "PhaseRotationAttr" KString "PhaseRotation,attr,omitempty";
  field "UseAttr" KString "Use,attr,omitempty";
  field "CustomProperties" (KPtr "CustomPropertiesCollectionType") "CustomProperties"
].

Definition DependenciesWideType_fields : list xfield := [
  untagged "DecoratedDataElements" (KSlice "DecoratedDataElements");
  field "Dependency" (KSlice "DataTypeDependencyType") "Dependency"
].

Definition DependencyWideType_fields : list xfield := [
  field "TypeAttr" KString "Type,attr,omitempty";
  field "NameAttr" KString "Name,attr,omitempty";
  untagged "DecoratedDataElements" (KSlice "DecoratedDataElements")
].

Definition EncodedWideType_fields : list xfield := [
  field "EncodedTypeAttr" KString "EncodedType,attr,omitempty";
  field "NameAttr" KString "Name,attr,omitempty";
  field "UIdAttr" KString "UId,attr,omitempty";
  field "ClassAttr" KString "Class,attr,omitempty";
  field "RevisionAttr" KString "Revision,attr,omitempty";
  field "RevisionExtensionAttr" KString "RevisionExtension,attr,omitempty";
  field "VendorAttr" KString "Vendor,attr,omitempty";
  field "SignatureIDAttr" KString "SignatureID,attr,omitempty";
  field "SignatureTimestampAttr" KString "SignatureTimestamp,attr,omitempty";
  field "SafetySignatureIDAttr" KString "SafetySignatureID,attr,omitempty";
  field "EditedDateAttr" KString "EditedDate,attr,omitempty";
  field "SoftwareRevisionAttr" KString "SoftwareRevision,attr,omitempty";
  field "OriginalLibraryAttr" KString "OriginalLibrary,attr,omitempty";
  field "OriginalNameAttr" KString "OriginalName,attr,omitempty";
  field "OriginalRevisionAttr" KString "OriginalRevision,attr,omitempty";
  field "OriginalVendorAttr" KString "OriginalVendor,attr,omitempty";
  field "PermissionSetAttr" KString "PermissionSet,attr,omitempty";
  field "EncryptionConfigAttr" KString "EncryptionConfig,attr,omitempty";
  field "IsEncryptedAttr" KString "IsEncrypted,attr,omitempty";
  field "LogicHashAttr" KString "LogicHash,attr,omitempty";
  field "DescriptionHashAttr" KString "DescriptionHash,attr,omitempty";
  field "TypeAttr" KString "Type,attr,omitempty";
  untagged "DecoratedDataElements" (KSlice "DecoratedDataElements");
  field "Description" (KSlice "DescriptionType") "Description";
  field "RevisionNote" (KSlice "RevisionNoteType") "RevisionNote";
  field "SignatureHistory" (KSlice "SignatureHistoryType") "SignatureHistory";
  field "AdditionalHelpText" (KSlice "AdditionalHelpTextType") "AdditionalHelpText";
  field "Parameters" (KSlice "UDIParameterCollectionType") "Parameters";
  field "Dependencies" (KSlice "DataTypeDependencyCollectionType") "Dependencies"
].

Definition Value_fields : list xfield := [

].

Definition DefaultDataWideType_fields : list xfield := [
  field "FormatAttr" KString "Format,attr,omitempty";
  field "LengthAttr" KString "Length,attr,omitempty";
  untagged "DecoratedDataElements" (KSlice "DecoratedDataElements");
  field "Value" (KSlice "Value") "Value"
].

Definition CommentWideType_fields : list xfield := [
  field "OperandAttr" KString "Operand,attr,omitempty";
  field "UnusedAttr" KString "Unused,attr,omitempty";
  untagged "DecoratedDataElements" (KSlice "DecoratedDataElements");
  field "Value" KStrings "Value";
  field "LocalizedComment" (KSlice "CommentAdaptorTextType") "LocalizedComment";
  field "InnerValue" KBytes ",innerxml"
].

Definition LocalizedCommentWideType_fields : list xfield := [
  field "LangAttr" KString "Lang,attr,omitempty";
  untagged "DecoratedDataElements" (KSlice "DecoratedDataElements");
  field "Value" KStrings "Value"
].

Definition DataWideType_fields : list xfield := [
  field "FormatAttr" KString "Format,attr,omitempty";
  field "LengthAttr" KString "Length,attr,omitempty";
  untagged "DecoratedDataElements" (KSlice "DecoratedDataElements");
  field "Value" (KSlice "Value") "Value";
  field "MessageParameters" (KSlice "MsgType") "MessageParameters";
  field "MotionGroupParameters" (KSlice "MotionGroupType") "MotionGroupParameters";
  field "HMIBCParameters" (KSlice "HMIBCType") "HMIBCParameters";
  field "BEOParameters" (KSlice "BEOType") "BEOParameters";
  field "EEOParameters" (KSlice "EEOType") "EEOParameters";
  field "CoordinateSystemParameters" (KSlice "CoordinateSystemType") "CoordinateSystemParameters";
  field "AxisParameters" (KSlice "AxisType") "AxisParameters";
  field "AlarmAnalogParameters" (KSlice "AlarmAnalogType") "AlarmAnalogParameters";
  field "AlarmDigitalParameters" (KSlice "AlarmDigitalType") "AlarmDigitalParameters";
  field "AlarmConfig" (KSlice "AlarmConfigType") "AlarmConfig";
  field "DataValue" (KPtr "DataValue") "DataValue";
  field "Structure" (KPtr "DataStructure") "Structure";
  field "Array" (KPtr "DataArray") "Array";
  field "InnerValue" KBytes ",innerxml"
].

Definition ForceDataWideType_fields : list xfield := [
  field "FormatAttr" KString "Format,attr,omitempty";
  untagged "DecoratedDataElements" (KSlice "DecoratedDataElements");
  field "Value" (KSlice "Value") "Value"
].

Definition TextWideType_fields : list xfield := [
  field "LangAttr" KString "Lang,attr,omitempty";
  untagged "DecoratedDataElements" (KSlice "DecoratedDataElements");
  field "Value" KStrings "Value";
  field "LocalizedText" (KSlice "TextBoxAdaptorTextType") "LocalizedText"
].

Definition LabelsWideType_fields : list xfield := [
  field "UIdAttr" KString "UId,attr,omitempty";
  untagged "DecoratedDataElements" (KSlice "DecoratedDataElements");
  field "Label" (KSlice "LabelType") "Label"
].

Definition LabelWideType_fields : list xfield := [
  field "NameAttr" KString "Name,attr,omitempty";
  field "UIdAttr" KString "UId,attr,omitempty";
  field "OperandAttr" KString "Operand,attr,omitempty";
  untagged "DecoratedDataElements" (KSlice "DecoratedDataElements");
  field "Value" KStrings "Value";
  field "LocalizedLabel" (KSlice "LabelTextType") "LocalizedLabel"
].

Definition DecoratedDataElements_fields : list xfield := [
  untagged "DataValue" (KPtr "DataValue");
  untagged "Array" (KPtr "DataArray");
  untagged "Structure" (KPtr "DataStructure")
].

Definition DataValue_fields : list xfield := [
  field "NameAttr" KString "Name,attr,omitempty";
  field "DataTypeAttr" KString "DataType,attr,omitempty";
  field "RadixAttr" KString "Radix,attr,omitempty";
  field "ValueAttr" KString "Value,attr,omitempty";
  field "ForceValueAttr" KString "ForceValue,attr,omitempty";
  field "InnerValue" KBytes ",innerxml"
].

Definition DataArray_fields : list xfield := [
  field "NameAttr" KString "Name,attr,omitempty";
  field "DataTypeAttr" KString "DataType,attr,omitempty";
  field "DimensionsAttr" KString "Dimensions,attr,omitempty";
  field "RadixAttr" KString "Radix,attr,omitempty";
  field "Element" (KSlice "DataArrayElement") "Element"
].

Definition DataArrayElement_fields : list xfield := [
  field "IndexAttr" KString "Index,attr,omitempty";
  field "ValueAttr" KString "Value,attr,omitempty";
  field "ForceValueAttr" KString "ForceValue,attr,omitempty";
  field "Structure" (KSlice "DataStructure") "Structure"
].

Definition DataStructure_fields : list xfield := [
  field "NameAttr" KString "Name,attr,omitempty";
  field "DataTypeAttr" KString "DataType,attr,omitempty";
  field "DataValueMember" (KSlice "DataValue") "DataValueMember";
  field "StructureMember" (KSlice "DataStructure") "StructureMember";
  field "ArrayMember" (KSlice "DataArray") "ArrayMember"
].

(** ** All of them, by their names *)

Definition schema : list (string * list xfield) := [
  ("ProjectType", ProjectType_fields);
  ("DeviceObjType", DeviceObjType_fields);
  ("ExtDeviceObjType", ExtDeviceObjType_fields);
  ("ControllerType", ControllerType_fields);
  ("DescriptionType", DescriptionType_fields);
  ("DescriptionTextType", DescriptionTextType_fields);
  ("RedundancyInfoType", RedundancyInfoType_fields);
  ("SecurityInfoType", SecurityInfoType_fields);
  ("SafetyTagMap", SafetyTagMap_fields);
  ("SafetyInfoType", SafetyInfoType_fields);
  ("DataTypeCollectionType", DataTypeCollectionType_fields);
  ("DataTypeType", DataTypeType_fields);
  ("TypeMemberCollectionType", TypeMemberCollectionType_fields);
  ("DataTypeMemberType", DataTypeMemberType_fields);
  ("DataTypeDependencyCollectionType", DataTypeDependencyCollectionType_fields);
  ("DataTypeDependencyType", DataTypeDependencyType_fields);
  ("DiagnosticsMessageCollectionType", DiagnosticsMessageCollectionType_fields);
  ("DiagnosticsMessageAdaptorType", DiagnosticsMessageAdaptorType_fields);
  ("DisplayTextType", DisplayTextType_fields);
  ("DeviceDiagnosticProfileCollectionType", DeviceDiagnosticProfileCollectionType_fields);
  ("ProfileDefinition", ProfileDefinition_fields);
  ("DeviceDiagnosticProfileType", DeviceDiagnosticProfileType_fields);
  ("MapDeviceCollectionType", MapDeviceCollectionType_fields);
  ("ExtendedProperties", ExtendedProperties_fields);
  ("MapDeviceType", MapDeviceType_fields);
  ("ModuleEKeyType", ModuleEKeyType_fields);
  ("PortCollectionType", PortCollectionType_fields);
  ("PortType", PortType_fields);
  ("ABusType", ABusType_fields);
  ("CommunicationsType", CommunicationsType_fields);
  ("ConfigTagType", ConfigTagType_fields);
  ("ConfigDataType", ConfigDataType_fields);
  ("ConfigScriptType", ConfigScriptType_fields);
  ("SafetyScriptType", SafetyScriptType_fields);
  ("MapConnectionCollectionType", MapConnectionCollectionType_fields);
  ("MapConnectionType", MapConnectionType_fields);
  ("InputTagType", InputTagType_fields);
  ("InputDataType", InputDataType_fields);
  ("OutputTagType", OutputTagType_fields);
  ("OutputDataType", OutputDataType_fields);
  ("InputImageInitType", InputImageInitType_fields);
  ("RackConnectionType", RackConnectionType_fields);
  ("InAliasTagType", InAliasTagType_fields);
  ("OutAliasTagType", OutAliasTagType_fields);
  ("PingMethodType", PingMethodType_fields);
  ("SiblingDependenciesCollectionType", SiblingDependenciesCollectionType_fields);
  ("SiblingDependencyAdaptorType", SiblingDependencyAdaptorType_fields);
  ("UDIDefinitionCollectionType", UDIDefinitionCollectionType_fields);
  ("EncryptedAOIContent", EncryptedAOIContent_fields);
  ("UDIDefinitionType", UDIDefinitionType_fields);
  ("EncodedUDIDefinitionType", EncodedUDIDefinitionType_fields);
  ("RevisionNoteType", RevisionNoteType_fields);
  ("RevisionNoteTextType", RevisionNoteTextType_fields);
  ("SignatureHistoryType", SignatureHistoryType_fields);
  ("HistoryEntryType", HistoryEntryType_fields);
  ("AdditionalHelpTextType", AdditionalHelpTextType_fields);
  ("LocalizedAdditionalHelpTextType", LocalizedAdditionalHelpTextType_fields);
  ("UDIParameterCollectionType", UDIParameterCollectionType_fields);
  ("UDIParameterType", UDIParameterType_fields);
  ("UDILocalTagCollectionType", UDILocalTagCollectionType_fields);
  ("UDILocalTagType", UDILocalTagType_fields);
  ("UDIDependencyCollectionType", UDIDependencyCollectionType_fields);
  ("UDIDependencyType", UDIDependencyType_fields);
  ("RawDefaultDataType", RawDefaultDataType_fields);
  ("L5KDefaultDataType", L5KDefaultDataType_fields);
  ("StringDefaultDataType", StringDefaultDataType_fields);
  ("DecoratedDefaultDataType", DecoratedDefaultDataType_fields);
  ("AlarmDefinitionCollectionAdaptorType", AlarmDefinitionCollectionAdaptorType_fields);
  ("DatatypeAlarmDefinitionType", DatatypeAlarmDefinitionType_fields);
  ("MemberAlarmDefinitionType", MemberAlarmDefinitionType_fields);
  ("TagCollectionType", TagCollectionType_fields);
  ("TagType", TagType_fields);
  ("CommentCollectionType", CommentCollectionType_fields);
  ("CommentAdaptorType", CommentAdaptorType_fields);
  ("CommentAdaptorTextType", CommentAdaptorTextType_fields);
  ("EngineeringUnitCollectionType", EngineeringUnitCollectionType_fields);
  ("EngineeringUnitType", EngineeringUnitType_fields);
  ("EngineeringUnitTextType", EngineeringUnitTextType_fields);
  ("MaxLimitCollectionType", MaxLimitCollectionType_fields);
  ("MaxLimitType", MaxLimitType_fields);
  ("MinLimitCollectionType", MinLimitCollectionType_fields);
  ("MinLimitType", MinLimitType_fields);
  ("State0CollectionType", State0CollectionType_fields);
  ("State0Type", State0Type_fields);
  ("State0TextType", State0TextType_fields);
  ("State1CollectionType", State1CollectionType_fields);
  ("State1Type", State1Type_fields);
  ("State1TextType", State1TextType_fields);
  ("CustomPropertiesCollectionType", CustomPropertiesCollectionType_fields);
  ("CustomPropertiesAdaptorType", CustomPropertiesAdaptorType_fields);
  ("CustomPropertiesTextType", CustomPropertiesTextType_fields);
  ("PrimaryActionSetCollectionType", PrimaryActionSetCollectionType_fields);
  ("PrimaryActionSetAdaptorType", PrimaryActionSetAdaptorType_fields);
  ("PrimaryActionSetTextType", PrimaryActionSetTextType_fields);
  ("LibraryAdaptorCollectionType", LibraryAdaptorCollectionType_fields);
  ("LibraryAdaptorType", LibraryAdaptorType_fields);
  ("LabelAdaptorCollectionType", LabelAdaptorCollectionType_fields);
  ("LabelAdaptorType", LabelAdaptorType_fields);
  ("LabelTextType", LabelTextType_fields);
  ("InstructionAdaptorCollectionType", InstructionAdaptorCollectionType_fields);
  ("InstructionAdaptorType", InstructionAdaptorType_fields);
  ("AreaAdaptorCollectionType", AreaAdaptorCollectionType_fields);
  ("AreaAdaptorType", AreaAdaptorType_fields);
  ("URLAdaptorCollectionType", URLAdaptorCollectionType_fields);
  ("URLAdaptorType", URLAdaptorType_fields);
  ("NavigationCollectionType", NavigationCollectionType_fields);
  ("NavigationAdaptorType", NavigationAdaptorType_fields);
  ("ConsumeTagInfoType", ConsumeTagInfoType_fields);
  ("ProduceTagInfoType", ProduceTagInfoType_fields);
  ("ConfiguredAlarmCollectionAdaptorType", ConfiguredAlarmCollectionAdaptorType_fields);
  ("ConfiguredAlarmAdaptorType", ConfiguredAlarmAdaptorType_fields);
  ("StringDataType", StringDataType_fields);
  ("RawDataType", RawDataType_fields);
  ("L5KDataType", L5KDataType_fields);
  ("DecoratedDataType", DecoratedDataType_fields);
  ("RawForceDataType", RawForceDataType_fields);
  ("L5KForceDataType", L5KForceDataType_fields);
  ("MessageDataType", MessageDataType_fields);
  ("MotionGroupDataType", MotionGroupDataType_fields);
  ("CoordinateSystemDataType", CoordinateSystemDataType_fields);
  ("AxisDataType", AxisDataType_fields);
  ("AlarmDataType", AlarmDataType_fields);
  ("HMIBCDataType", HMIBCDataType_fields);
  ("BEODataType", BEODataType_fields);
  ("EEODataType", EEODataType_fields);
  ("AlarmConfigType", AlarmConfigType_fields);
  ("AlarmMessageCollectionType", AlarmMessageCollectionType_fields);
  ("AlarmMessageType", AlarmMessageType_fields);
  ("AlarmMessageTextType", AlarmMessageTextType_fields);
  ("ProgramCollectionType", ProgramCollectionType_fields);
  ("AProgramType", AProgramType_fields);
  ("RoutineCollectionType", RoutineCollectionType_fields);
  ("EncryptedSegments", EncryptedSegments_fields);
  ("RoutineType", RoutineType_fields);
  ("EncodedRoutineType", EncodedRoutineType_fields);
  ("RungCollectionType", RungCollectionType_fields);
  ("RungType", RungType_fields);
  ("RungCommentType", RungCommentType_fields);
  ("RungCommentTextType", RungCommentTextType_fields);
  ("LabelCollectionType", LabelCollectionType_fields);
  ("LabelType", LabelType_fields);
  ("FBDContentType", FBDContentType_fields);
  ("SheetType", SheetType_fields);
  ("FBDInputRefType", FBDInputRefType_fields);
  ("FBDOutputRefType", FBDOutputRefType_fields);
  ("FBDInputWireConnectorType", FBDInputWireConnectorType_fields);
  ("FBDOutputWireConnectorType", FBDOutputWireConnectorType_fields);
  ("FBDUDIBlockType", FBDUDIBlockType_fields);
  ("FBDUDIArgumentType", FBDUDIArgumentType_fields);
  ("AFBDBlockType", AFBDBlockType_fields);
  ("AFBDFunctionType", AFBDFunctionType_fields);
  ("FBDSpecialArrayType", FBDSpecialArrayType_fields);
  ("FBDGsvBlockType", FBDGsvBlockType_fields);
  ("FBDSsvBlockType", FBDSsvBlockType_fields);
  ("FBDJSRType", FBDJSRType_fields);
  ("FBDSBRType", FBDSBRType_fields);
  ("FBDRETType", FBDRETType_fields);
  ("FBDWireType", FBDWireType_fields);
  ("FBDFeedbackWireType", FBDFeedbackWireType_fields);
  ("TextBoxType", TextBoxType_fields);
  ("TextBoxAdaptorType", TextBoxAdaptorType_fields);
  ("TextBoxAdaptorTextType", TextBoxAdaptorTextType_fields);
  ("SFCContentType", SFCContentType_fields);
  ("SEQContentType", SEQContentType_fields);
  ("TagConfigurationsAdaptorType", TagConfigurationsAdaptorType_fields);
  ("TagConfigurationAdaptorType", TagConfigurationAdaptorType_fields);
  ("ASFCStepElementType", ASFCStepElementType_fields);
  ("EmbeddedLanguageBlockType", EmbeddedLanguageBlockType_fields);
  ("SFCActionElementType", SFCActionElementType_fields);
  ("ASFCTransitionElementType", ASFCTransitionElementType_fields);
  ("ASFCBranchElementType", ASFCBranchElementType_fields);
  ("ASFCLegElementType", ASFCLegElementType_fields);
  ("SFCSBRRETType", SFCSBRRETType_fields);
  ("ASFCStopElementType", ASFCStopElementType_fields);
  ("ASFCLangElemWireType", ASFCLangElemWireType_fields);
  ("AAttachmentType", AAttachmentType_fields);
  ("STContentType", STContentType_fields);
  ("STLineType", STLineType_fields);
  ("DLL", DLL_fields);
  ("EntryPoint", EntryPoint_fields);
  ("ExternalContentType", ExternalContentType_fields);
  ("ChildProgramCollectionType", ChildProgramCollectionType_fields);
  ("ChildProgramType", ChildProgramType_fields);
  ("TaskCollectionType", TaskCollectionType_fields);
  ("TaskType", TaskType_fields);
  ("TaskEventInfoType", TaskEventInfoType_fields);
  ("ScheduledProgramCollectionType", ScheduledProgramCollectionType_fields);
  ("ScheduledProgramType", ScheduledProgramType_fields);
  ("CSTType", CSTType_fields);
  ("WallClockTimeType", WallClockTimeType_fields);
  ("SafetyControllerType", SafetyControllerType_fields);
  ("RedundancyType", RedundancyType_fields);
  ("FaultLogType", FaultLogType_fields);
  ("CommPortCollectionType", CommPortCollectionType_fields);
  ("SerialPortType", SerialPortType_fields);
  ("DF1DriverType", DF1DriverType_fields);
  ("ASCIIDriverType", ASCIIDriverType_fields);
  ("AlarmAnalogType", AlarmAnalogType_fields);
  ("AlarmDigitalType", AlarmDigitalType_fields);
  ("HMIBCType", HMIBCType_fields);
  ("MsgType", MsgType_fields);
  ("MotionGroupType", MotionGroupType_fields);
  ("CoordinateSystemType", CoordinateSystemType_fields);
  ("AxisType", AxisType_fields);
  ("TrendGroupCollectionType", TrendGroupCollectionType_fields);
  ("Template", Template_fields);
  ("TrendGroupType", TrendGroupType_fields);
  ("PenCollectionType", PenCollectionType_fields);
  ("PenType", PenType_fields);
  ("ParameterConnectionCollectionType", ParameterConnectionCollectionType_fields);
  ("ParameterConnectionType", ParameterConnectionType_fields);
  ("QuickWatchCollectionAdaptorType", QuickWatchCollectionAdaptorType_fields);
  ("QuickWatchAdaptorType", QuickWatchAdaptorType_fields);
  ("QuickWatchTagAdaptorType", QuickWatchTagAdaptorType_fields);
  ("TimeSynchronizeType", TimeSynchronizeType_fields);
  ("TCPIPType", TCPIPType_fields);
  ("EthernetLinkCollectionType", EthernetLinkCollectionType_fields);
  ("EthernetLinkType", EthernetLinkType_fields);
  ("DeviceLevelRingType", DeviceLevelRingType_fields);
  ("DataLogCollectionType", DataLogCollectionType_fields);
  ("DataLogType", DataLogType_fields);
  ("DataLogTagCollectionType", DataLogTagCollectionType_fields);
  ("DataLogTagType", DataLogTagType_fields);
  ("EncryptionInfoType", EncryptionInfoType_fields);
  ("EncryptionKeyType", EncryptionKeyType_fields);
  ("EncryptedContentType", EncryptedContentType_fields);
  ("HardwareStatusType", HardwareStatusType_fields);
  ("BEOType", BEOType_fields);
  ("EEOType", EEOType_fields);
  ("DependenciesWideType", DependenciesWideType_fields);
  ("DependencyWideType", DependencyWideType_fields);
  ("EncodedWideType", EncodedWideType_fields);
  ("Value", Value_fields);
  ("DefaultDataWideType", DefaultDataWideType_fields);
  ("CommentWideType", CommentWideType_fields);
  ("LocalizedCommentWideType", LocalizedCommentWideType_fields);
  ("DataWideType", DataWideType_fields);
  ("ForceDataWideType", ForceDataWideType_fields);
  ("TextWideType", TextWideType_fields);
  ("LabelsWideType", LabelsWideType_fields);
  ("LabelWideType", LabelWideType_fields);
  ("DecoratedDataElements", DecoratedDataElements_fields);
  ("DataValue", DataValue_fields);
  ("DataArray", DataArray_fields);
  ("DataArrayElement", DataArrayElement_fields);
  ("DataStructure", DataStructure_fields)
].

(** The fields of a struct type. *)
Fixpoint find_type (T : string) (l : list (string * list xfield)) : option (list xfield) :=
  match l with
  | [] => None
  | (n, fs) :: l => if (T =? n)%string then Some fs else find_type T l
  end.

Definition fields_of (T : string) : list xfield := default [] (find_type T schema).
