(* ===== verification/L5xXml.v ===== *)
(** * The decoding of an exported project (encoding/xml, l5x/schema.go)

    What xml.Unmarshal makes of a document for a *ProjectType: the meaning
    encoding/xml gives to the fields and tags of the schema, and the walk over
    the elements of the document.  The text of the document is given as the
    tree of its elements; comments and processing instructions are skipped by
    the decoder and left out.  Of the flags of a tag those the schema has are
    modelled. *)
From Stdlib Require Import Ascii String.
From S2P Require Import Prelude GoStrings GoStrconv GoValue Discovery L5x L5xProofs L5xSchema.

(** ** Documents *)

(** Character data, or an element with its local name, its attributes, what
    is in it and the text of that. *)
Inductive node :=
  | Text (b : bytes)
  | Element (name : string) (attrs : list (string * bytes)) (children : list node) (inner : bytes).

(** ** What a tag means (encoding/xml, typeinfo.go) *)

Inductive mode := fElement | fAttr | fCharData | fInnerXML.
#[export] Instance mode_eq_dec : EqDecision mode.
Proof. solve_decision. Defined.

Record fieldInfo := { fi_Field : string; fi_Kind : kind; fi_name : string; fi_mode : mode }.
Record typeInfo := { ti_xmlname : option string; ti_fields : list fieldInfo }.

Definition xmlName : string := "XMLName".

(** strings.Split(tag, ",") *)
Fixpoint split_comma (s : string) : string * list string :=
  match s with
  | EmptyString => (EmptyString, [])
  | String a s =>
      let '(t, ts) := split_comma s in
      if (a =? ",")%char then (EmptyString, t :: ts) else (String a t, ts)
  end.

(** The mode the flags ask for; several of them are no valid tag. *)
Fixpoint flags_mode (flags : list string) : option mode :=
  match flags with
  | [] => Some fElement
  | f :: flags =>
      let this := if (f =? "attr")%string then Some fAttr
                  else if (f =? "chardata")%string then Some fCharData
                  else if (f =? "innerxml")%string then Some fInnerXML
                  else None in
      match this, flags_mode flags with
      | None, m => m
      | Some m, Some fElement => Some m
      | Some m, Some m' => if decide (m = m') then Some m else None
      | Some _, None => None
      end
  end.

(** The name part of the tag and its mode; None if the tag is not valid. *)
Definition parse_tag (f : xfield) : option (string * mode) :=
  let '(tag, flags) := split_comma (f_Tag f) in
  match flags_mode flags with
  | None => None
  | Some fElement => Some (tag, fElement)
  | Some fAttr => if (f_Name f =? xmlName)%string then None else Some (tag, fAttr)
  | Some m =>
      if (f_Name f =? xmlName)%string || negb (tag =? EmptyString)%string || existsb (String.eqb "omitempty") flags then None
      else Some (tag, m)
  end.

(** The name the XMLName field of the pointed-to struct type demands. *)
Definition lookupXMLName (k : kind) : option string :=
  match k with
  | KPtr T =>
      match List.find (fun f => (f_Name f =? xmlName)%string) (fields_of T) with
      | None => None
      | Some f =>
          match parse_tag f with
          | Some (tag, _) => if (tag =? EmptyString)%string then None else Some tag
          | None => None
          end
      end
  | _ => None
  end.

Definition structFieldInfo (f : xfield) : res fieldInfo :=
  match parse_tag f with
  | None => Err (Errorf "xml: invalid tag in field")
  | Some (tag, m) =>
      let info name := {| fi_Field := f_Name f; fi_Kind := f_Kind f; fi_name := name; fi_mode := m |} in
      if (f_Name f =? xmlName)%string then Ok (info tag)
      else if (tag =? EmptyString)%string then Ok (info (default (f_Name f) (lookupXMLName (f_Kind f))))
      else
        match m, lookupXMLName (f_Kind f) with
        | fElement, Some name =>
            if (name =? tag)%string then Ok (info tag) else Err (Errorf "xml: name in tag conflicts with name in XMLName")
        | _, _ => Ok (info tag)
        end
  end.

Definition is_info (m : mode) (name : string) (fi : fieldInfo) : bool :=
  bool_decide (fi_mode fi = m) && (fi_name fi =? name)%string.
Definition find_info (m : mode) (name : string) (l : list fieldInfo) : option fieldInfo := List.find (is_info m name) l.

Definition addFieldInfo (fi : fieldInfo) (l : list fieldInfo) : res (list fieldInfo) :=
  match find_info (fi_mode fi) (fi_name fi) l with
  | Some _ => Err (Errorf "TagPathError")
  | None => Ok (l ++ [fi])
  end.

Fixpoint add_fields (fs : list xfield) (ti : typeInfo) : res typeInfo :=
  match fs with
  | [] => Ok ti
  | f :: fs =>
      fi ← structFieldInfo f;
      if (f_Name f =? xmlName)%string then add_fields fs {| ti_xmlname := Some (fi_name fi); ti_fields := ti_fields ti |}
      else l ← addFieldInfo fi (ti_fields ti); add_fields fs {| ti_xmlname := ti_xmlname ti; ti_fields := l |}
  end.

Definition getTypeInfo (T : string) : res typeInfo :=
  add_fields (fields_of T) {| ti_xmlname := None; ti_fields := [] |}.

(** ** Values *)

(** The value of a field; a struct is the values of its fields. *)
Inductive xval :=
  | XString (b : bytes) | XInt (z : Z) | XBytes (b : bytes) | XStrings (l : list bytes) | XName (s : string)
  | XPtr (p : option (gmap string xval))
  | XSlice (l : list (gmap string xval)).
Abbreviation xstruct := (gmap string xval).

Definition zero_of (k : kind) : xval :=
  match k with
  | KString => XString []
  | KInt => XInt 0
  | KBytes => XBytes []
  | KStrings => XStrings []
  | KName => XName EmptyString
  | KPtr _ => XPtr None
  | KSlice _ => XSlice []
  end.

Definition zero_struct (T : string) : xstruct := list_to_map ((fun f => (f_Name f, zero_of (f_Kind f))) <$> fields_of T).

(** ** Unmarshal (encoding/xml, read.go) *)

Definition maxUnmarshalDepth : Z := 10000.

(** copyValue of an int, empty text is 0 *)
Definition copy_int (src : bytes) : res Z :=
  if bool_decide (src = []) then Ok 0
  else let '(z, ok) := ParseInt (trim_space src) 64 in if ok then Ok z else Err (Errorf "strconv.ParseInt").

(** copyValue into a field that holds text; a slice grows by one. *)
Definition set_text (fi : fieldInfo) (src : bytes) (sv : xstruct) : res xstruct :=
  match fi_Kind fi with
  | KString => Ok (<[fi_Field fi := XString src]> sv)
  | KBytes => Ok (<[fi_Field fi := XBytes src]> sv)
  | KInt => z ← copy_int src; Ok (<[fi_Field fi := XInt z]> sv)
  | KStrings =>
      let old := match sv !! fi_Field fi with Some (XStrings l) => l | _ => [] end in
      Ok (<[fi_Field fi := XStrings (old ++ [src])]> sv)
  | _ => Err (Errorf "cannot unmarshal into")
  end.

(** The start element must have the name the XMLName field demands, which
    then records it. *)
Definition check_name (ti : typeInfo) (name : string) (sv : xstruct) : res xstruct :=
  match ti_xmlname ti with
  | None => Ok sv
  | Some x =>
      if negb (x =? EmptyString)%string && negb (x =? name)%string then Err (Errorf "expected element type")
      else Ok (<[xmlName := XName name]> sv)
  end.

(** No two attributes of a struct have one name, so there is one to set. *)
Fixpoint set_attrs (ti : typeInfo) (attrs : list (string * bytes)) (sv : xstruct) : res xstruct :=
  match attrs with
  | [] => Ok sv
  | (name, value) :: attrs =>
      sv ← match find_info fAttr name (ti_fields ti) with
           | Some fi => set_text fi value sv
           | None => Ok sv
           end;
      set_attrs ti attrs sv
  end.

(** The first field of a mode that has no name, chardata or innerxml. *)
Definition first_of (m : mode) (ti : typeInfo) : option fieldInfo := List.find (fun fi => bool_decide (fi_mode fi = m)) (ti_fields ti).

(** The character data directly in an element *)
Fixpoint char_data (children : list node) : bytes :=
  match children with
  | Text b :: children => b ++ char_data children
  | _ :: children => char_data children
  | [] => []
  end.

(** unmarshal of an element into its field; sub does a struct of it, a level
    deeper for the elements of a slice. *)
Definition unmarshal_field (depth : Z) (fi : fieldInfo) (sub : Z -> string -> xstruct -> res xstruct)
    (name : string) (text : bytes) (sv : xstruct) : res xstruct :=
  match fi_Kind fi with
  | KPtr T =>
      s ← sub (depth + 1) T match sv !! fi_Field fi with Some (XPtr (Some s)) => s | _ => zero_struct T end;
      Ok (<[fi_Field fi := XPtr (Some s)]> sv)
  | KSlice T =>
      s ← sub (depth + 2) T (zero_struct T);
      Ok (<[fi_Field fi := XSlice (match sv !! fi_Field fi with Some (XSlice l) => l | _ => [] end ++ [s])]> sv)
  | k =>
      if maxUnmarshalDepth <=? depth + (if decide (k = KStrings) then 2 else 1) then Err (Errorf "exceeded max depth")
      else if decide (k = KName) then Ok (<[fi_Field fi := XName name]> sv)
      else set_text fi text sv
  end.

Fixpoint unmarshal (depth : Z) (T : string) (sv : xstruct) (start : node) {struct start} : res xstruct :=
  match start with
  | Text _ => Ok sv
  | Element name attrs children inner =>
      if maxUnmarshalDepth <=? depth then Err (Errorf "exceeded max depth")
      else
        tinfo ← getTypeInfo T;
        sv ← check_name tinfo name sv;
        sv ← set_attrs tinfo attrs sv;
        sv ← (fix elements l sv :=
                match l with
                | [] => Ok sv
                | Text _ :: l => elements l sv
                | (Element cname _ cchildren _ as c) :: l =>
                    sv ← match find_info fElement cname (ti_fields tinfo) with
                         | None => Ok sv
                         | Some fi =>
                             unmarshal_field depth fi (fun depth T sv => unmarshal depth T sv c) cname (char_data cchildren) sv
                         end;
                    elements l sv
                end) children sv;
        sv ← match first_of fCharData tinfo with
             | Some fi => set_text fi (char_data children) sv
             | None => Ok sv
             end;
        Ok (match first_of fInnerXML tinfo with
            | Some fi => <[fi_Field fi := XBytes inner]> sv
            | None => sv
            end)
  end.

(** ** The fields the loaders read *)

Definition get_string (f : string) (s : xstruct) : bytes := match s !! f with Some (XString b) => b | _ => [] end.
Definition get_bytes (f : string) (s : xstruct) : bytes := match s !! f with Some (XBytes b) => b | _ => [] end.
Definition get_int (f : string) (s : xstruct) : Z := match s !! f with Some (XInt z) => z | _ => 0 end.
Definition get_ptr (f : string) (s : xstruct) : option xstruct := match s !! f with Some (XPtr p) => p | _ => None end.
Definition get_slice (f : string) (s : xstruct) : list xstruct := match s !! f with Some (XSlice l) => l | _ => [] end.

Section Views.
#[local] Open Scope string_scope.

Definition value_of (s : xstruct) : DataValue :=
  {| dv_Name := get_string "NameAttr" s; dv_DataType := get_string "DataTypeAttr" s; dv_Value := get_string "ValueAttr" s;
     dv_InnerValue := get_bytes "InnerValue" s |}.
Definition structure_of (s : xstruct) : DataStructure :=
  {| ds_DataValueMember := value_of <$> get_slice "DataValueMember" s |}.
Definition element_of (s : xstruct) : DataArrayElement :=
  {| de_Value := get_string "ValueAttr" s; de_Structure := structure_of <$> get_slice "Structure" s |}.
Definition array_of (s : xstruct) : DataArray := {| da_Element := element_of <$> get_slice "Element" s |}.
Definition data_of (s : xstruct) : DataWideType :=
  {| dw_DataValue := value_of <$> get_ptr "DataValue" s; dw_Structure := structure_of <$> get_ptr "Structure" s;
     dw_Array := array_of <$> get_ptr "Array" s |}.
Definition description_of (s : xstruct) : DescriptionType := {| dt_InnerValue := get_bytes "InnerValue" s |}.
Definition comment_of (s : xstruct) : CommentWideType :=
  {| cw_Operand := get_string "OperandAttr" s; cw_InnerValue := get_bytes "InnerValue" s |}.
Definition tag_of (s : xstruct) : TagType :=
  {| tg_Name := get_string "NameAttr" s; tg_DataType := get_string "DataTypeAttr" s;
     tg_Dimensions := get_string "DimensionsAttr" s; tg_Description := description_of <$> get_slice "Description" s;
     tg_Data := data_of <$> get_slice "Data" s |}.
Definition tags_of (s : xstruct) : TagCollectionType := {| tc_Tag := tag_of <$> get_slice "Tag" s |}.
Definition member_of (s : xstruct) : DataTypeMemberType :=
  {| mt_Name := get_string "NameAttr" s; mt_DataType := get_string "DataTypeAttr" s; mt_Target := get_string "TargetAttr" s;
     mt_BitNumber := get_int "BitNumberAttr" s; mt_Description := description_of <$> get_ptr "Description" s |}.
Definition datatype_of (s : xstruct) : DataTypeType :=
  {| ty_Name := get_string "NameAttr" s; ty_Description := description_of <$> get_ptr "Description" s;
     ty_Members := (fun m => member_of <$> get_slice "Member" m) <$> get_ptr "Members" s |}.
Definition comments_of (s : xstruct) : list CommentWideType := comment_of <$> get_slice "Comment" s.
Definition rung_of (s : xstruct) : RungType :=
  {| rg_Number := get_string "NumberAttr" s; rg_Comment := comments_of s |}.
Definition routine_of (s : xstruct) : RoutineType :=
  {| rt_Name := get_string "NameAttr" s;
     rt_RLLContent := (fun c => rung_of <$> get_slice "Rung" c) <$> get_slice "RLLContent" s |}.
Definition program_of (s : xstruct) : AProgramType :=
  {| ap_Name := get_string "NameAttr" s; ap_Tags := tags_of <$> get_ptr "Tags" s;
     ap_Routines := (fun r => routine_of <$> get_slice "Routine" r) <$> get_ptr "Routines" s |}.
Definition io_tag_of (s : xstruct) : IOTagType := {| io_Comments := comments_of <$> get_slice "Comments" s |}.
Definition connection_of (s : xstruct) : MapConnectionType :=
  {| mc_InputTag := io_tag_of <$> get_ptr "InputTag" s; mc_OutputTag := io_tag_of <$> get_ptr "OutputTag" s |}.
Definition communications_of (s : xstruct) : CommunicationsType :=
  {| cm_Connections := (fun c => connection_of <$> get_slice "Connection" c) <$> get_ptr "Connections" s |}.
Definition module_of (s : xstruct) : MapDeviceType :=
  {| md_Name := get_string "NameAttr" s; md_Communications := communications_of <$> get_ptr "Communications" s |}.
Definition task_of (s : xstruct) : TaskType :=
  {| tk_Name := get_string "NameAttr" s;
     tk_ScheduledPrograms := (fun p => get_string "NameAttr" <$> get_slice "ScheduledProgram" p) <$> get_ptr "ScheduledPrograms" s |}.
Definition controller_of (s : xstruct) : ControllerType :=
  {| ct_DataTypes := (fun c => datatype_of <$> get_slice "DataType" c) <$> get_ptr "DataTypes" s;
     ct_Modules := (fun c => module_of <$> get_slice "Module" c) <$> get_ptr "Modules" s;
     ct_Tags := tags_of <$> get_ptr "Tags" s;
     ct_Programs := (fun c => program_of <$> get_slice "Program" c) <$> get_ptr "Programs" s;
     ct_Tasks := (fun c => task_of <$> get_slice "Task" c) <$> get_ptr "Tasks" s |}.
Definition project_of (s : xstruct) : ProjectType := {| pj_Controller := controller_of <$> get_ptr "Controller" s |}.

(** xml.Unmarshal into a RSLogix5000Content *)
Definition Unmarshal (root : node) : res RSLogix5000Content :=
  s ← unmarshal 0 "ProjectType" (zero_struct "ProjectType") root; Ok (Some (project_of s)).
End Views.
