(* ===== verification/L5xXmlProofs.v ===== *)
(** * The decoding of a project: which documents, and what of them (encoding/xml, l5x/schema.go)

    The schema is consistent, up to the elements of 19 fields whose type
    demands another name; which documents are refused; where the values of
    the fields come from; and a tag's value, from the document to the map of
    tags. *)
From Stdlib Require Import Ascii String.
From S2P Require Import Prelude GoStrings GoStrconv GoValue Discovery L5x L5xProofs L5xSchema L5xXml.

(** ** The schema *)

(** The types of a type's fields: strings and numbers are attributes, texts
    and structs elements, bytes the inner text. *)
Definition kind_fits (fi : fieldInfo) : bool :=
  match fi_mode fi, fi_Kind fi with
  | fAttr, (KString | KInt) => true
  | fElement, (KString | KStrings) => true
  | fElement, (KPtr T | KSlice T) => bool_decide (is_Some (find_type T schema))
  | fCharData, KString => true
  | fInnerXML, KBytes => true
  | _, _ => false
  end.

(** encoding/xml accepts the type, its fields have different names and types
    that fit. *)
Definition type_ok (T : string) : bool :=
  match getTypeInfo T with
  | Ok ti => bool_decide (NoDup (xmlName :: (fi_Field <$> ti_fields ti))) && forallb kind_fits (ti_fields ti) &&
             bool_decide (NoDup (f_Name <$> fields_of T))
  | _ => false
  end.

Lemma schema_types_ok : forallb (fun '(T, _) => type_ok T) schema = true.
Proof. vm_compute. reflexivity. Qed.

Lemma find_type_In T l fs : find_type T l = Some fs -> (T, fs) ∈ l.
Proof.
  induction l as [|[n gs] l IH]; [done|]. simpl. destruct (String.eqb_spec T n) as [->|]; [intros [= ->]; by left|].
  intros H. right. by apply IH.
Qed.

Lemma type_ok_all T : type_ok T = true.
Proof.
  destruct (find_type T schema) as [fs|] eqn:E.
  - apply find_type_In, list_elem_of_In in E. exact (proj1 (forallb_forall _ _) schema_types_ok _ E).
  - unfold type_ok, getTypeInfo, fields_of. by rewrite E.
Qed.

Lemma type_info T : exists ti, getTypeInfo T = Ok ti /\ NoDup (xmlName :: (fi_Field <$> ti_fields ti)) /\
  Forall (fun fi => kind_fits fi = true) (ti_fields ti) /\ NoDup (f_Name <$> fields_of T).
Proof.
  pose proof (type_ok_all T) as H. unfold type_ok in H. destruct (getTypeInfo T) as [ti| |]; [|done..].
  exists ti. apply andb_true_iff in H as [H H3]. apply andb_true_iff in H as [H1 H2].
  apply bool_decide_eq_true in H1. apply bool_decide_eq_true in H3. split; [done|]. split; [done|]. split; [|done].
  apply list.Forall_forall. intros fi Hfi. apply (proj1 (forallb_forall _ _) H2). by apply list_elem_of_In.
Qed.

(** What the schema says of an attribute or an element of a type. *)
Definition field_at (m : mode) (T name : string) : option (string * kind) :=
  match getTypeInfo T with
  | Ok ti => (fun fi => (fi_Field fi, fi_Kind fi)) <$> find_info m name (ti_fields ti)
  | _ => None
  end.
Definition xml_name (T : string) : option string :=
  match getTypeInfo T with Ok ti => ti_xmlname ti | _ => None end.

(** The struct type an element is decoded as, and the levels it costs. *)
Definition struct_kind (k : kind) : option (string * Z) :=
  match k with KPtr T => Some (T, 1) | KSlice T => Some (T, 2) | _ => None end.

(** The elements of a type whose struct type demands another name. *)
Definition mismatch (fi : fieldInfo) : bool :=
  match fi_mode fi, struct_kind (fi_Kind fi) with
  | fElement, Some (T, _) => match xml_name T with Some x => negb (x =? fi_name fi)%string | None => false end
  | _, _ => false
  end.
Definition mismatches (T : string) : list (string * string) :=
  match getTypeInfo T with
  | Ok ti => (fun fi => (T, fi_name fi)) <$> List.filter mismatch (ti_fields ti)
  | _ => []
  end.

Lemma schema_mismatches : concat ((fun '(T, _) => mismatches T) <$> schema) =
  [("SheetType", "GSV"); ("SheetType", "SSV"); ("SheetType", "JSR"); ("SheetType", "SBR"); ("SheetType", "RET");
   ("FBDUDIBlockType", "InOutParameter");
   ("SFCContentType", "Step"); ("SFCContentType", "Transition"); ("SFCContentType", "Branch"); ("SFCContentType", "SbrRet");
   ("SFCContentType", "Stop"); ("SFCContentType", "DirectedLink");
   ("SEQContentType", "Step"); ("SEQContentType", "Transition"); ("SEQContentType", "Branch"); ("SEQContentType", "Stop");
   ("SEQContentType", "DirectedLink");
   ("ASFCStepElementType", "Action"); ("ASFCBranchElementType", "Leg")]%string.
Proof. vm_compute. reflexivity. Qed.

(** ** Induction over documents *)

Section Node_ind.
Context (P : node -> Prop) (HT : forall b, P (Text b))
  (HE : forall name attrs children inner, Forall P children -> P (Element name attrs children inner)).

Fixpoint node_ind' (n : node) : P n :=
  match n with
  | Text b => HT b
  | Element name attrs children inner =>
      HE name attrs children inner
        ((fix go l : Forall P l := match l with [] => Forall_nil_2 _ | c :: l => Forall_cons_2 _ _ _ (node_ind' c) (go l) end) children)
  end.
End Node_ind.

(** The loop of [unmarshal] over the elements. *)
Fixpoint unmarshal_elements (depth : Z) (ti : typeInfo) (l : list node) (sv : xstruct) : res xstruct :=
  match l with
  | [] => Ok sv
  | Text _ :: l => unmarshal_elements depth ti l sv
  | (Element cname _ cchildren _ as c) :: l =>
      sv ← match find_info fElement cname (ti_fields ti) with
           | None => Ok sv
           | Some fi => unmarshal_field depth fi (fun depth T sv => unmarshal depth T sv c) cname (char_data cchildren) sv
           end;
      unmarshal_elements depth ti l sv
  end.

Lemma unmarshal_eq depth T sv name attrs children inner :
  unmarshal depth T sv (Element name attrs children inner) =
  if maxUnmarshalDepth <=? depth then Err (Errorf "exceeded max depth")
  else
    ti ← getTypeInfo T;
    sv ← check_name ti name sv;
    sv ← set_attrs ti attrs sv;
    sv ← unmarshal_elements depth ti children sv;
    sv ← match first_of fCharData ti with Some fi => set_text fi (char_data children) sv | None => Ok sv end;
    Ok (match first_of fInnerXML ti with Some fi => <[fi_Field fi := XBytes inner]> sv | None => sv end).
Proof.
  cbn [unmarshal]. destruct (maxUnmarshalDepth <=? depth); [done|].
  destruct (getTypeInfo T) as [ti| |]; [|done..]. cbn [mbind res_bind].
  destruct (check_name ti name sv) as [sv1| |]; [|done..]. cbn [mbind res_bind].
  destruct (set_attrs ti attrs sv1) as [sv2| |]; [|done..]. cbn [mbind res_bind].
  match goal with |- _ ≫= ?k = _ => apply (f_equal (fun r => r ≫= k)) end.
  clear. revert sv2. induction children as [|[b|cname cattrs cchildren cinner] l IH]; intros sv; [done|apply IH|].
  cbn [unmarshal_elements].
  destruct (match find_info fElement cname (ti_fields ti) with Some _ => _ | None => _ end); [apply IH|done..].
Qed.

(** ** Which documents are refused *)

(** What an attribute holds must be a number where the field is one. *)
Definition attr_fits (T : string) (a : string * bytes) : bool :=
  match field_at fAttr T (fst a) with
  | Some (_, KInt) => is_Ok (copy_int (snd a))
  | _ => true
  end.
Definition name_fits (T name : string) : bool :=
  match xml_name T with Some x => (x =? EmptyString)%string || (x =? name)%string | None => true end.
(** An element of text needs a level, or two if it is one of a slice. *)
Definition text_fits (depth : Z) (T : string) (c : node) : bool :=
  match c with
  | Element cname _ _ _ =>
      match field_at fElement T cname with
      | Some (_, KString) => depth + 1 <? maxUnmarshalDepth
      | Some (_, KStrings) => depth + 2 <? maxUnmarshalDepth
      | _ => true
      end
  | Text _ => true
  end.

(** An element that is decoded as a struct of type T at that depth is fit. *)
Definition fit (depth : Z) (T : string) (n : node) : bool :=
  match n with
  | Text _ => true
  | Element name attrs children _ =>
      (depth <? maxUnmarshalDepth) && name_fits T name && forallb (attr_fits T) attrs && forallb (text_fits depth T) children
  end.

(** The elements below one that are decoded as structs. *)
Inductive reached : Z -> string -> node -> Z -> string -> node -> Prop :=
  | reached_here depth T n : reached depth T n depth T n
  | reached_child depth T name attrs children inner cname cattrs cchildren cinner f k T' levels depth2 T2 n2 :
      Element cname cattrs cchildren cinner ∈ children -> field_at fElement T cname = Some (f, k) ->
      struct_kind k = Some (T', levels) ->
      reached (depth + levels) T' (Element cname cattrs cchildren cinner) depth2 T2 n2 ->
      reached depth T (Element name attrs children inner) depth2 T2 n2.

(** The computation succeeds, or fails with an error. *)
Definition settles {A} (b : bool) (r : res A) : Prop := if b then exists a, r = Ok a else exists e, r = Err e.

Lemma settles_Ok {A} (a : A) : settles true (Ok a).
Proof. by exists a. Qed.
Lemma settles_bind {A B} b c (r : res A) (k : A -> res B) :
  settles b r -> (forall a, settles c (k a)) -> settles (b && c) (r ≫= k).
Proof. destruct b; intros [x ->] Hk; [apply Hk|by exists x]. Qed.

Lemma field_at_eq m T name ti : getTypeInfo T = Ok ti ->
  field_at m T name = (fun fi => (fi_Field fi, fi_Kind fi)) <$> find_info m name (ti_fields ti).
Proof. unfold field_at. by intros ->. Qed.

Lemma find_info_Some m name l fi : find_info m name l = Some fi -> fi ∈ l /\ fi_mode fi = m /\ fi_name fi = name.
Proof.
  intros H. apply List.find_some in H as [Hin H]. apply list_elem_of_In in Hin. unfold is_info in H.
  apply andb_true_iff in H as [H1%bool_decide_eq_true H2%String.eqb_eq]. done.
Qed.

(** A field of the type, and that it fits. *)
Lemma find_info_fits T ti m name fi : getTypeInfo T = Ok ti -> find_info m name (ti_fields ti) = Some fi ->
  fi_mode fi = m /\ kind_fits fi = true.
Proof.
  intros E H. apply find_info_Some in H as (Hin & Hm & _). split; [done|].
  destruct (type_info T) as (ti' & E' & _ & Hf & _). rewrite E in E'. injection E' as <-.
  by apply (proj1 (list.Forall_forall _ _) Hf).
Qed.

Lemma check_name_settles T ti name sv : getTypeInfo T = Ok ti -> settles (name_fits T name) (check_name ti name sv).
Proof.
  intros E. unfold name_fits, xml_name, check_name. rewrite E. destruct (ti_xmlname ti) as [x|]; [|apply settles_Ok].
  destruct (x =? EmptyString)%string, (x =? name)%string; first [apply settles_Ok|by eexists].
Qed.

Lemma set_text_settles fi src sv :
  match fi_Kind fi with KString | KBytes | KStrings => true | KInt => is_Ok (copy_int src) | _ => false end = true ->
  settles true (set_text fi src sv).
Proof.
  unfold set_text. destruct (fi_Kind fi); try done; intros H; try apply settles_Ok.
  destruct (copy_int src); [apply settles_Ok|done..].
Qed.

Lemma copy_int_settles src : settles (is_Ok (copy_int src)) (copy_int src).
Proof.
  unfold copy_int. destruct (bool_decide _); [apply settles_Ok|]. destruct (ParseInt _ _) as [z []]; [apply settles_Ok|by eexists].
Qed.

Lemma set_attrs_settles T ti attrs sv : getTypeInfo T = Ok ti -> settles (forallb (attr_fits T) attrs) (set_attrs ti attrs sv).
Proof.
  intros E. revert sv. induction attrs as [|[name value] attrs IH]; intros sv; [apply settles_Ok|].
  cbn [set_attrs forallb]. apply settles_bind; [|apply IH]. unfold attr_fits. cbn [fst snd].
  rewrite (field_at_eq _ _ _ _ E). destruct (find_info fAttr name (ti_fields ti)) as [fi|] eqn:Ef; [|apply settles_Ok].
  destruct (find_info_fits _ _ _ _ _ E Ef) as [Hm Hk]. unfold kind_fits in Hk. rewrite Hm in Hk. cbn [fmap option_fmap option_map].
  unfold set_text. destruct (fi_Kind fi); try done; [apply settles_Ok|].
  rewrite <- (andb_true_r (is_Ok _)). apply settles_bind; [apply copy_int_settles|intros; apply settles_Ok].
Qed.

(** ** The elements of a struct are fit *)

Fixpoint accepted (depth : Z) (T : string) (n : node) {struct n} : bool :=
  match n with
  | Text _ => true
  | Element _ _ children _ =>
      fit depth T n &&
      forallb (fun c =>
        match c with
        | Text _ => true
        | Element cname _ _ _ =>
            match field_at fElement T cname with
            | Some (_, k) => match struct_kind k with Some (T', levels) => accepted (depth + levels) T' c | None => true end
            | None => true
            end
        end) children
  end.

Definition child_accepted (depth : Z) (T : string) (c : node) : bool :=
  match c with
  | Text _ => true
  | Element cname _ _ _ =>
      match field_at fElement T cname with
      | Some (_, k) => match struct_kind k with Some (T', levels) => accepted (depth + levels) T' c | None => true end
      | None => true
      end
  end.

Lemma accepted_eq depth T name attrs children inner :
  accepted depth T (Element name attrs children inner) =
  fit depth T (Element name attrs children inner) && forallb (child_accepted depth T) children.
Proof. reflexivity. Qed.

Lemma accepted_reached depth T n depth2 T2 n2 : reached depth T n depth2 T2 n2 -> accepted depth T n = true -> fit depth2 T2 n2 = true.
Proof.
  induction 1 as [depth T n|depth T name attrs children inner cname cattrs cchildren cinner f k T' levels depth2 T2 n2 Hin Hf Hk _ IH]; intros Ha.
  - destruct n; [done|]. rewrite accepted_eq in Ha. by apply andb_true_iff in Ha as [Ha _].
  - apply IH. rewrite accepted_eq in Ha. apply andb_true_iff in Ha as [_ Ha].
    apply list_elem_of_In in Hin. pose proof (proj1 (forallb_forall _ _) Ha _ Hin) as H. unfold child_accepted in H.
    by rewrite Hf, Hk in H.
Qed.

Lemma not_accepted_reached n : forall depth T, accepted depth T n = false ->
  exists depth2 T2 n2, reached depth T n depth2 T2 n2 /\ fit depth2 T2 n2 = false.
Proof.
  induction n as [b|name attrs children inner IH] using node_ind'; intros depth T Ha; [done|].
  rewrite accepted_eq in Ha. apply andb_false_iff in Ha as [Ha|Ha]; [do 3 eexists; split; [apply reached_here|done]|].
  assert (exists c, c ∈ children /\ child_accepted depth T c = false) as (c & Hin & Hc).
  { clear IH. induction children as [|c l IHl]; [done|]. cbn [forallb] in Ha.
    apply andb_false_iff in Ha as [Ha|Ha]; [exists c; split; [by left|done]|].
    destruct (IHl Ha) as (c' & ? & ?). exists c'. split; [by right|done]. }
  pose proof (proj1 (list.Forall_forall _ _) IH c Hin) as IHc. unfold child_accepted in Hc.
  destruct c as [|cname cattrs cchildren cinner]; [done|]. destruct (field_at fElement T cname) as [[f k]|] eqn:Hf; [|done].
  destruct (struct_kind k) as [[T' levels]|] eqn:Hk; [|done].
  destruct (IHc _ _ Hc) as (d2 & T2 & n2 & Hr & Hfit). do 3 eexists. split; [|exact Hfit].
  by eapply reached_child.
Qed.

(** ** Decoding succeeds exactly then *)

Definition decodes (n : node) : Prop := forall depth T sv, settles (accepted depth T n) (unmarshal depth T sv n).

Lemma settles_if {A} b (e : error) (r : res A) c : settles c r -> settles (negb b && c) (if b then Err e else r).
Proof. destruct b; [by eexists|done]. Qed.

Lemma unmarshal_field_settles depth T ti fi cname cattrs cchildren cinner sv :
  let c := Element cname cattrs cchildren cinner in
  getTypeInfo T = Ok ti -> find_info fElement cname (ti_fields ti) = Some fi -> decodes c ->
  settles (text_fits depth T c && child_accepted depth T c)
    (unmarshal_field depth fi (fun depth T sv => unmarshal depth T sv c) cname (char_data cchildren) sv).
Proof.
  intros c E Ef IH. destruct (find_info_fits _ _ _ _ _ E Ef) as [Hm Hk]. unfold kind_fits in Hk. rewrite Hm in Hk.
  subst c. unfold text_fits, child_accepted. cbv beta iota. rewrite (field_at_eq _ _ _ _ E), Ef.
  cbn [fmap option_fmap option_map]. unfold unmarshal_field, set_text. rewrite !Z.ltb_antisym.
  destruct (fi_Kind fi) as [| | | | |T'|T']; try done; cbn [struct_kind].
  1,2: rewrite andb_true_r, <- (andb_true_r (negb _)); apply settles_if; apply settles_Ok.
  all: rewrite andb_true_l, <- (andb_true_r (accepted _ _ _)); apply settles_bind; [apply IH|intros; apply settles_Ok].
Qed.

Lemma unmarshal_elements_settles depth T ti children sv :
  getTypeInfo T = Ok ti -> Forall decodes children ->
  settles (forallb (fun c => text_fits depth T c && child_accepted depth T c) children) (unmarshal_elements depth ti children sv).
Proof.
  intros E IH. revert sv. induction IH as [|c children Hc _ IHl]; intros sv; [apply settles_Ok|].
  destruct c as [|cname cattrs cchildren cinner]; [apply IHl|]. cbn [unmarshal_elements forallb].
  apply settles_bind; [|apply IHl]. destruct (find_info fElement cname (ti_fields ti)) as [fi|] eqn:Ef.
  - by apply (unmarshal_field_settles depth T ti).
  - unfold text_fits, child_accepted. cbv beta iota. rewrite (field_at_eq _ _ _ _ E), Ef. apply settles_Ok.
Qed.

Lemma forallb_andb {A} (f g : A -> bool) l : forallb (fun x => f x && g x) l = forallb f l && forallb g l.
Proof. induction l as [|x l IH]; [done|]. simpl. rewrite IH. by destruct (f x), (g x), (forallb f l), (forallb g l). Qed.

Lemma unmarshal_settles n : decodes n.
Proof.
  induction n as [b|name attrs children inner IH] using node_ind'; intros depth T sv; [apply settles_Ok|].
  rewrite unmarshal_eq, accepted_eq. destruct (type_info T) as (ti & E & _ & Hf & _). rewrite E. cbn [mbind res_bind].
  unfold fit. rewrite Z.ltb_antisym.
  replace (_ && forallb (child_accepted depth T) children) with
    (negb (maxUnmarshalDepth <=? depth) && (name_fits T name && (forallb (attr_fits T) attrs &&
      (forallb (fun c => text_fits depth T c && child_accepted depth T c) children && true)))).
  2: { rewrite forallb_andb, andb_true_r, !andb_assoc. done. }
  apply settles_if, settles_bind; [by apply check_name_settles|]. intros sv1.
  apply settles_bind; [by apply set_attrs_settles|]. intros sv2.
  apply settles_bind; [by apply unmarshal_elements_settles|]. intros sv3.
  rewrite <- (andb_true_r true). apply settles_bind; [|intros; apply settles_Ok].
  unfold first_of. destruct (List.find _ (ti_fields ti)) as [fi|] eqn:Ef; [|apply settles_Ok].
  apply List.find_some in Ef as [Hin Hm%bool_decide_eq_true]. apply list_elem_of_In in Hin.
  pose proof (proj1 (list.Forall_forall _ _) Hf _ Hin) as Hk. unfold kind_fits in Hk. rewrite Hm in Hk.
  apply set_text_settles. by destruct (fi_Kind fi).
Qed.

Lemma Unmarshal_refused root :
  (exists depth T n, reached 0 "ProjectType" root depth T n /\ fit depth T n = false) -> exists e, Unmarshal root = Err e.
Proof.
  intros (depth & T & n & Hr & Hf). pose proof (unmarshal_settles root 0 "ProjectType" (zero_struct "ProjectType")) as H.
  destruct (accepted 0 "ProjectType" root) eqn:Ha; [by rewrite (accepted_reached _ _ _ _ _ _ Hr Ha) in Hf|].
  destruct H as [e He]. exists e. unfold Unmarshal. by rewrite He.
Qed.

(** Which documents are decoded: Unmarshal gives a project exactly when
    every element that the schema decodes as a struct is fit (it has the name
    its type demands, numbers where numbers are read, and is not nested too
    deep); when one is not, it gives an error, and it never panics. *)
Theorem Unmarshal_accepts root :
  ((exists p, Unmarshal root = Ok (Some p)) <->
     forall depth T n, reached 0 "ProjectType" root depth T n -> fit depth T n = true) /\
  ((exists e, Unmarshal root = Err e) <->
     exists depth T n, reached 0 "ProjectType" root depth T n /\ fit depth T n = false).
Proof.
  split; split.
  - intros [p Hp] depth T n Hr. apply not_false_iff_true. intros Hf.
    destruct (Unmarshal_refused root) as [e He]; [by do 3 eexists|]. congruence.
  - intros Hall. pose proof (unmarshal_settles root 0 "ProjectType" (zero_struct "ProjectType")) as H.
    destruct (accepted 0 "ProjectType" root) eqn:Ha.
    + destruct H as [s Hs]. exists (project_of s). unfold Unmarshal. by rewrite Hs.
    + destruct (not_accepted_reached _ _ _ Ha) as (depth & T & n & Hr & Hf). by rewrite (Hall _ _ _ Hr) in Hf.
  - intros [e He]. pose proof (unmarshal_settles root 0 "ProjectType" (zero_struct "ProjectType")) as H.
    destruct (accepted 0 "ProjectType" root) eqn:Ha; [|by apply not_accepted_reached].
    destruct H as [s Hs]. unfold Unmarshal in He. by rewrite Hs in He.
  - apply Unmarshal_refused.
Qed.

(** An element whose type demands another name is refused, wherever it is. *)
Lemma mismatch_refused root depth T name attrs children inner cname cattrs cchildren cinner fi ti :
  reached 0 "ProjectType" root depth T (Element name attrs children inner) ->
  getTypeInfo T = Ok ti -> find_info fElement cname (ti_fields ti) = Some fi -> mismatch fi = true ->
  (forall T', struct_kind (fi_Kind fi) = Some T' -> xml_name (fst T') <> Some EmptyString) ->
  Element cname cattrs cchildren cinner ∈ children -> exists e, Unmarshal root = Err e.
Proof.
  intros Hr E Ef Hmis Hne Hin. apply Unmarshal_refused. unfold mismatch in Hmis.
  destruct (find_info_Some _ _ _ _ Ef) as (_ & Hm & Hn). rewrite Hm in Hmis.
  destruct (struct_kind (fi_Kind fi)) as [[T' levels]|] eqn:Hk; [|done]. specialize (Hne _ eq_refl). cbn [fst] in Hne.
  exists (depth + levels), T', (Element cname cattrs cchildren cinner). split.
  - assert (forall d1 T1 n1, reached d1 T1 n1 depth T (Element name attrs children inner) ->
      reached d1 T1 n1 (depth + levels) T' (Element cname cattrs cchildren cinner)) as Htrans; [|by apply Htrans].
    intros d1 T1 n1. remember (Element name attrs children inner) as n eqn:En. induction 1 as [|]; subst.
    + eapply reached_child; [exact Hin|rewrite (field_at_eq _ _ _ _ E), Ef; reflexivity|exact Hk|apply reached_here].
    + eapply reached_child; [done..|]. by apply IHreached.
  - unfold fit, name_fits. destruct (xml_name T') as [x|]; [|done].
    destruct (String.eqb_spec x EmptyString) as [->|]; [done|].
    rewrite Hn in Hmis. apply negb_true_iff in Hmis. rewrite Hmis. cbn [orb]. rewrite andb_false_r. done.
Qed.

(** ** Where the values of a struct come from *)

(** The elements with a name, and the last attribute with a name. *)
Definition named (name : string) (l : list node) : list node :=
  List.filter (fun c => match c with Element n _ _ _ => (name =? n)%string | Text _ => false end) l.
Definition attr_value (name : string) (attrs : list (string * bytes)) : bytes :=
  fold_left (fun v a => if (name =? fst a)%string then snd a else v) attrs [].

Lemma info_inj T ti fi fi' : getTypeInfo T = Ok ti -> fi ∈ ti_fields ti -> fi' ∈ ti_fields ti ->
  fi_Field fi = fi_Field fi' -> fi = fi'.
Proof.
  intros E H1 H2 Heq. destruct (type_info T) as (ti' & E' & Hn & _). rewrite E in E'. injection E' as <-.
  apply list.NoDup_cons in Hn as [_ Hn]. apply list_elem_of_lookup in H1 as [i Hi], H2 as [j Hj].
  assert (i = j) as ->; [|congruence]. eapply (NoDup_lookup _ i j (fi_Field fi) Hn); rewrite list_lookup_fmap; [by rewrite Hi|by rewrite Hj, Heq].
Qed.
Lemma info_not_xmlName T ti fi : getTypeInfo T = Ok ti -> fi ∈ ti_fields ti -> fi_Field fi <> xmlName.
Proof.
  intros E H. destruct (type_info T) as (ti' & E' & Hn & _). rewrite E in E'. injection E' as <-.
  apply list.NoDup_cons in Hn as [Hn _]. intros Heq. apply Hn. rewrite <- Heq. by apply list_elem_of_fmap_2.
Qed.

Lemma set_text_other fi src sv sv' f : set_text fi src sv = Ok sv' -> f <> fi_Field fi -> sv' !! f = sv !! f.
Proof.
  unfold set_text. intros E Hf. destruct (fi_Kind fi); try done; try (injection E as <-; by rewrite lookup_insert_ne).
  destruct (copy_int src) as [z| |]; [|done..]. injection E as <-. by rewrite lookup_insert_ne.
Qed.

Lemma unmarshal_field_other depth fi sub name text sv sv' f :
  unmarshal_field depth fi sub name text sv = Ok sv' -> f <> fi_Field fi -> sv' !! f = sv !! f.
Proof.
  unfold unmarshal_field. intros E Hf.
  destruct (fi_Kind fi); try (inv_res E; injection E as <-; by rewrite lookup_insert_ne);
    (destruct (_ <=? _); [done|]); (destruct (decide (_ = KName)); [injection E as <-; by rewrite lookup_insert_ne|]);
    by eapply set_text_other.
Qed.

(** What every step of the decoding leaves alone. *)
Lemma check_name_other ti name sv sv' f : check_name ti name sv = Ok sv' -> f <> xmlName -> sv' !! f = sv !! f.
Proof.
  unfold check_name. intros E Hf. destruct (ti_xmlname ti); [|by injection E as <-].
  destruct (_ && _); [done|]. injection E as <-. by rewrite lookup_insert_ne.
Qed.

Lemma set_attrs_other T ti fi : getTypeInfo T = Ok ti -> fi ∈ ti_fields ti ->
  forall attrs sv sv', set_attrs ti attrs sv = Ok sv' ->
  (fi_mode fi = fAttr -> Forall (fun a => fst a <> fi_name fi) attrs) -> sv' !! fi_Field fi = sv !! fi_Field fi.
Proof.
  intros Et Hin. induction attrs as [|[name value] attrs IH]; intros sv sv' E Hm; [by injection E as <-|].
  cbn [set_attrs] in E. inv_res E. rewrite (IH _ _ E); [|intros Ha; by apply Forall_cons_iff in Hm as [_ ?]].
  destruct (find_info fAttr name (ti_fields ti)) as [fi'|] eqn:Ef; [|by injection E0 as <-].
  eapply set_text_other; [exact E0|]. intros Heq. destruct (find_info_Some _ _ _ _ Ef) as (Hin' & Hmode & Hname).
  rewrite (info_inj T ti fi fi' Et Hin Hin' Heq) in Hm. specialize (Hm Hmode). apply Forall_cons_iff in Hm as [Hne _].
  by apply Hne.
Qed.

Lemma elements_other T ti fi depth : getTypeInfo T = Ok ti -> fi ∈ ti_fields ti ->
  forall l sv sv', unmarshal_elements depth ti l sv = Ok sv' ->
  (fi_mode fi = fElement -> named (fi_name fi) l = []) -> sv' !! fi_Field fi = sv !! fi_Field fi.
Proof.
  intros Et Hin. induction l as [|[b|cname cattrs cchildren cinner] l IH]; intros sv sv' E Hm; [by injection E as <-|by eapply IH|].
  cbn [unmarshal_elements] in E. inv_res E. unfold named in Hm. cbn [List.filter] in Hm.
  destruct (find_info fElement cname (ti_fields ti)) as [fi'|] eqn:Ef.
  - destruct (find_info_Some _ _ _ _ Ef) as (Hin' & Hmode & Hname).
    assert (fi_Field fi <> fi_Field fi') as Hne.
    { intros Heq. rewrite (info_inj T ti fi fi' Et Hin Hin' Heq) in Hm. specialize (Hm Hmode). by rewrite Hname, String.eqb_refl in Hm. }
    rewrite (IH _ _ E); [by eapply unmarshal_field_other|]. intros Ha. specialize (Hm Ha).
    destruct (fi_name fi =? cname)%string; [done|exact Hm].
  - injection E0 as <-. apply (IH _ _ E). intros Ha. specialize (Hm Ha). destruct (fi_name fi =? cname)%string; [done|exact Hm].
Qed.

Lemma set_attrs_string T ti fi a : getTypeInfo T = Ok ti -> find_info fAttr a (ti_fields ti) = Some fi -> fi_Kind fi = KString ->
  forall attrs sv sv', set_attrs ti attrs sv = Ok sv' ->
  get_string (fi_Field fi) sv' = fold_left (fun v x => if (a =? fst x)%string then snd x else v) attrs (get_string (fi_Field fi) sv).
Proof.
  intros Et Ef Hk. destruct (find_info_Some _ _ _ _ Ef) as (Hin & Hmode & Hname).
  induction attrs as [|[name value] attrs IH]; intros sv sv' E; [by injection E as <-|].
  cbn [set_attrs fold_left fst snd] in *. inv_res E. rewrite (IH _ _ E). f_equal.
  destruct (String.eqb_spec a name) as [<-|Hne].
  - rewrite Ef in E0. unfold set_text in E0. rewrite Hk in E0. injection E0 as <-. unfold get_string. by rewrite lookup_insert_eq.
  - unfold get_string. destruct (find_info fAttr name (ti_fields ti)) as [fi'|] eqn:Ef'; [|by injection E0 as <-].
    rewrite (set_text_other _ _ _ _ (fi_Field fi) E0); [done|]. intros Heq. destruct (find_info_Some _ _ _ _ Ef') as (Hin' & _ & Hname').
    apply Hne. by rewrite <- Hname, <- Hname', (info_inj T ti fi fi' Et Hin Hin' Heq).
Qed.

(** A step of the loop on an element of another name. *)
Lemma element_other_name T ti fi depth cname cattrs cchildren cinner sv sv' :
  getTypeInfo T = Ok ti -> fi ∈ ti_fields ti -> fi_name fi <> cname ->
  (match find_info fElement cname (ti_fields ti) with
   | None => Ok sv
   | Some fi => unmarshal_field depth fi (fun depth T sv => unmarshal depth T sv (Element cname cattrs cchildren cinner))
                  cname (char_data cchildren) sv
   end) = Ok sv' -> sv' !! fi_Field fi = sv !! fi_Field fi.
Proof.
  intros Et Hin Hne E. destruct (find_info fElement cname (ti_fields ti)) as [fi'|] eqn:Ef; [|by injection E as <-].
  destruct (find_info_Some _ _ _ _ Ef) as (Hin' & _ & Hname). eapply unmarshal_field_other; [exact E|].
  intros Heq. apply Hne. by rewrite (info_inj T ti fi fi' Et Hin Hin' Heq).
Qed.

(** The struct an element is decoded as. *)
Definition decoded (depth : Z) (T : string) (c : node) (s : xstruct) : Prop := unmarshal depth T (zero_struct T) c = Ok s.

Lemma elements_slice T ti fi e depth T' : getTypeInfo T = Ok ti -> find_info fElement e (ti_fields ti) = Some fi ->
  fi_Kind fi = KSlice T' -> forall l sv sv', unmarshal_elements depth ti l sv = Ok sv' ->
  exists ss, Forall2 (decoded (depth + 2) T') (named e l) ss /\
    get_slice (fi_Field fi) sv' = get_slice (fi_Field fi) sv ++ ss.
Proof.
  intros Et Ef Hk. destruct (find_info_Some _ _ _ _ Ef) as (Hin & Hmode & Hname).
  induction l as [|[b|cname cattrs cchildren cinner] l IH]; intros sv sv' E.
  - injection E as <-. exists []. by rewrite app_nil_r.
  - by apply IH.
  - cbn [unmarshal_elements] in E. inv_res E. destruct (IH _ _ E) as (ss & Hss & Hg). unfold named. cbn [List.filter].
    destruct (String.eqb_spec e cname) as [<-|Hne].
    + rewrite Ef in E0. unfold unmarshal_field in E0. rewrite Hk in E0. inv_res E0. injection E0 as <-.
      exists (v0 :: ss). split; [by constructor|]. rewrite Hg. unfold get_slice at 1. rewrite lookup_insert_eq.
      unfold get_slice. by rewrite <- (assoc_L (++)).
    + exists ss. split; [done|]. rewrite Hg. f_equal. unfold get_slice.
      rewrite (element_other_name T ti fi depth _ _ _ _ _ _ Et Hin ltac:(by rewrite Hname) E0). done.
Qed.

Lemma elements_ptr T ti fi e depth T' c : getTypeInfo T = Ok ti -> find_info fElement e (ti_fields ti) = Some fi ->
  fi_Kind fi = KPtr T' -> forall l sv sv', unmarshal_elements depth ti l sv = Ok sv' -> named e l = [c] ->
  get_ptr (fi_Field fi) sv = None -> exists s, decoded (depth + 1) T' c s /\ get_ptr (fi_Field fi) sv' = Some s.
Proof.
  intros Et Ef Hk. destruct (find_info_Some _ _ _ _ Ef) as (Hin & Hmode & Hname).
  induction l as [|[b|cname cattrs cchildren cinner] l IH]; intros sv sv' E Hl Hz; [done|by eapply IH|].
  cbn [unmarshal_elements] in E. inv_res E. unfold named in Hl. cbn [List.filter] in Hl.
  destruct (String.eqb_spec e cname) as [<-|Hne].
  - injection Hl as <- Hl. rewrite Ef in E0. unfold unmarshal_field in E0. rewrite Hk in E0. inv_res E0. injection E0 as <-.
    exists v0. unfold get_ptr in Hz |- *. split.
    + unfold decoded. destruct (sv !! fi_Field fi) as [[]|]; try done. by destruct p.
    + rewrite (elements_other T ti fi depth Et Hin l _ _ E); [by rewrite lookup_insert_eq|]. intros _. by rewrite Hname.
  - apply (IH _ _ E Hl). unfold get_ptr in *.
    by rewrite (element_other_name T ti fi depth _ _ _ _ _ _ Et Hin ltac:(by rewrite Hname) E0).
Qed.

Lemma zero_fields T f v : zero_struct T !! f = Some v -> exists k, v = zero_of k.
Proof.
  intros H. apply elem_of_list_to_map_2, list_elem_of_fmap in H as (x & Heq & _). injection Heq as _ ->. by eexists.
Qed.
Lemma zero_slice T f : get_slice f (zero_struct T) = [].
Proof. unfold get_slice. destruct (_ !! _) eqn:E; [|done]. by apply zero_fields in E as [[] ->]. Qed.
Lemma zero_ptr T f : get_ptr f (zero_struct T) = None.
Proof. unfold get_ptr. destruct (_ !! _) eqn:E; [|done]. by apply zero_fields in E as [[] ->]. Qed.
Lemma zero_string T f : get_string f (zero_struct T) = [].
Proof. unfold get_string. destruct (_ !! _) eqn:E; [|done]. by apply zero_fields in E as [[] ->]. Qed.

Lemma first_of_Some m ti fi : first_of m ti = Some fi -> fi ∈ ti_fields ti /\ fi_mode fi = m.
Proof. intros H. apply List.find_some in H as [Hin H%bool_decide_eq_true]. by apply list_elem_of_In in Hin. Qed.

(** The run of [unmarshal] on an element in its three parts. *)
Lemma decoded_parts depth T name attrs children inner s : decoded depth T (Element name attrs children inner) s ->
  exists ti sv0 sv1 sv2, getTypeInfo T = Ok ti /\
    (forall f, f <> xmlName -> sv0 !! f = zero_struct T !! f) /\ set_attrs ti attrs sv0 = Ok sv1 /\
    unmarshal_elements depth ti children sv1 = Ok sv2 /\
    forall fi, fi ∈ ti_fields ti -> fi_mode fi = fElement \/ fi_mode fi = fAttr -> s !! fi_Field fi = sv2 !! fi_Field fi.
Proof.
  unfold decoded. rewrite unmarshal_eq. destruct (_ <=? _); [done|]. intros E. inv_res E. rename v into ti.
  inv_res E. rename v into sv0. inv_res E. rename v into sv1. inv_res E. rename v into sv2. inv_res E. rename v into sv3. injection E as <-.
  exists ti, sv0, sv1, sv2. split; [done|]. split; [intros f Hf; by eapply check_name_other|]. split; [done|]. split; [done|].
  intros fi Hin Hm.
  assert (forall m fi', first_of m ti = Some fi' -> m <> fElement -> m <> fAttr -> fi_Field fi <> fi_Field fi') as Hne.
  { intros m fi' H Hm1 Hm2 Heq. apply first_of_Some in H as [Hin' Hm'].
    rewrite (info_inj T ti fi fi' E0 Hin Hin' Heq) in Hm. by destruct Hm; congruence. }
  transitivity (sv3 !! fi_Field fi).
  - destruct (first_of fInnerXML ti) as [fi'|] eqn:Ef; [|done].
    rewrite lookup_insert_ne; [done|]. apply not_eq_sym. by apply (Hne _ _ Ef).
  - destruct (first_of fCharData ti) as [fi'|] eqn:Ef; [|by injection E4 as <-].
    eapply set_text_other; [exact E4|]. by apply (Hne _ _ Ef).
Qed.

Lemma field_at_info m T name ti f k : getTypeInfo T = Ok ti -> field_at m T name = Some (f, k) ->
  exists fi, find_info m name (ti_fields ti) = Some fi /\ fi_Field fi = f /\ fi_Kind fi = k /\ fi ∈ ti_fields ti /\
    fi_mode fi = m /\ fi_name fi = name /\ f <> xmlName.
Proof.
  intros Et H. rewrite (field_at_eq _ _ _ _ Et) in H. destruct (find_info m name (ti_fields ti)) as [fi|] eqn:Ef; [|done].
  injection H as <- <-. destruct (find_info_Some _ _ _ _ Ef) as (Hin & Hm & Hn). exists fi.
  do 6 (split; [done|]). by eapply info_not_xmlName.
Qed.

(** An attribute's text is in its field; the structs of a slice are those of
    the elements with its name, in order; the struct behind a pointer is that
    of the element with its name, if there is one only. *)
Lemma decoded_attr depth T name attrs children inner s a f :
  decoded depth T (Element name attrs children inner) s -> field_at fAttr T a = Some (f, KString) ->
  get_string f s = attr_value a attrs.
Proof.
  intros Hd Hf. apply decoded_parts in Hd as (ti & sv0 & sv1 & sv2 & Et & H0 & H1 & H2 & H3).
  destruct (field_at_info _ _ _ _ _ _ Et Hf) as (fi & Ef & <- & Hk & Hin & Hm & Hn & Hx).
  unfold get_string. rewrite (H3 fi Hin (or_intror Hm)), (elements_other T ti fi depth Et Hin children _ _ H2) by (rewrite Hm; done).
  fold (get_string (fi_Field fi) sv1). rewrite (set_attrs_string T ti fi a Et Ef Hk _ _ _ H1).
  unfold attr_value. f_equal. unfold get_string. rewrite (H0 _ Hx). apply zero_string.
Qed.

Lemma decoded_before_elements T ti attrs sv0 sv1 fi : getTypeInfo T = Ok ti -> fi ∈ ti_fields ti -> fi_mode fi = fElement ->
  fi_Field fi <> xmlName -> (forall f, f <> xmlName -> sv0 !! f = zero_struct T !! f) -> set_attrs ti attrs sv0 = Ok sv1 ->
  sv1 !! fi_Field fi = zero_struct T !! fi_Field fi.
Proof.
  intros Et Hin Hm Hx H0 H1. rewrite (set_attrs_other T ti fi Et Hin attrs _ _ H1) by (rewrite Hm; done). by apply H0.
Qed.

Lemma decoded_slice depth T name attrs children inner s e f T' :
  decoded depth T (Element name attrs children inner) s -> field_at fElement T e = Some (f, KSlice T') ->
  Forall2 (decoded (depth + 2) T') (named e children) (get_slice f s).
Proof.
  intros Hd Hf. apply decoded_parts in Hd as (ti & sv0 & sv1 & sv2 & Et & H0 & H1 & H2 & H3).
  destruct (field_at_info _ _ _ _ _ _ Et Hf) as (fi & Ef & <- & Hk & Hin & Hm & Hn & Hx).
  destruct (elements_slice T ti fi e depth T' Et Ef Hk children _ _ H2) as (ss & Hss & Hg).
  unfold get_slice in *. rewrite (H3 fi Hin (or_introl Hm)). rewrite Hg.
  rewrite (decoded_before_elements T ti attrs sv0 sv1 fi Et Hin Hm Hx H0 H1).
  fold (get_slice (fi_Field fi) (zero_struct T)). by rewrite zero_slice.
Qed.

Lemma decoded_ptr depth T name attrs children inner s e f T' c :
  decoded depth T (Element name attrs children inner) s -> field_at fElement T e = Some (f, KPtr T') ->
  named e children = [c] -> exists s', decoded (depth + 1) T' c s' /\ get_ptr f s = Some s'.
Proof.
  intros Hd Hf Hc. apply decoded_parts in Hd as (ti & sv0 & sv1 & sv2 & Et & H0 & H1 & H2 & H3).
  destruct (field_at_info _ _ _ _ _ _ Et Hf) as (fi & Ef & <- & Hk & Hin & Hm & Hn & Hx).
  destruct (elements_ptr T ti fi e depth T' c Et Ef Hk children _ _ H2 Hc) as (s' & Hs & Hg).
  { unfold get_ptr. rewrite (decoded_before_elements T ti attrs sv0 sv1 fi Et Hin Hm Hx H0 H1). apply zero_ptr. }
  exists s'. split; [done|]. unfold get_ptr in *. by rewrite (H3 fi Hin (or_introl Hm)).
Qed.

(** ** From the document to the tags *)

Definition attr_of (name : string) (n : node) : bytes :=
  match n with Element _ attrs _ _ => attr_value name attrs | Text _ => [] end.
Definition elems (name : string) (n : node) : list node :=
  match n with Element _ _ children _ => named name children | Text _ => [] end.

Lemma decoded_string depth T n s a f : decoded depth T n s -> field_at fAttr T a = Some (f, KString) -> get_string f s = attr_of a n.
Proof.
  destruct n; intros Hd Hf; [|by eapply decoded_attr]. unfold decoded in Hd. injection Hd as <-. apply zero_string.
Qed.
Lemma decoded_elems depth T n s e f T' : decoded depth T n s -> field_at fElement T e = Some (f, KSlice T') ->
  Forall2 (decoded (depth + 2) T') (elems e n) (get_slice f s).
Proof.
  destruct n; intros Hd Hf; [|by eapply decoded_slice]. unfold decoded in Hd. injection Hd as <-. rewrite zero_slice. constructor.
Qed.
Lemma decoded_elem depth T n s e f T' c : decoded depth T n s -> field_at fElement T e = Some (f, KPtr T') -> elems e n = [c] ->
  exists s', decoded (depth + 1) T' c s' /\ get_ptr f s = Some s'.
Proof. destruct n; intros Hd Hf Hc; [done|by eapply decoded_ptr]. Qed.

Lemma decoded_strings depth T ns ss a f : Forall2 (decoded depth T) ns ss -> field_at fAttr T a = Some (f, KString) ->
  get_string f <$> ss = attr_of a <$> ns.
Proof. intros H Hf. induction H as [|n s ns ss Hd _ IH]; [done|]. rewrite !fmap_cons, IH. f_equal. by eapply decoded_string. Qed.

(** The entries of the schema on the way to a tag's value. *)
Lemma at_controller : field_at fElement "ProjectType" "Controller" = Some ("Controller", KPtr "ControllerType")%string.
Proof. vm_compute. reflexivity. Qed.
Lemma at_tags : field_at fElement "ControllerType" "Tags" = Some ("Tags", KPtr "TagCollectionType")%string.
Proof. vm_compute. reflexivity. Qed.
Lemma at_programs : field_at fElement "ControllerType" "Programs" = Some ("Programs", KPtr "ProgramCollectionType")%string.
Proof. vm_compute. reflexivity. Qed.
Lemma at_tag : field_at fElement "TagCollectionType" "Tag" = Some ("Tag", KSlice "TagType")%string.
Proof. vm_compute. reflexivity. Qed.
Lemma at_program : field_at fElement "ProgramCollectionType" "Program" = Some ("Program", KSlice "AProgramType")%string.
Proof. vm_compute. reflexivity. Qed.
Lemma at_data : field_at fElement "TagType" "Data" = Some ("Data", KSlice "DataWideType")%string.
Proof. vm_compute. reflexivity. Qed.
Lemma at_value : field_at fElement "DataWideType" "DataValue" = Some ("DataValue", KPtr "DataValue")%string.
Proof. vm_compute. reflexivity. Qed.
Lemma at_attrs : field_at fAttr "TagType" "Name" = Some ("NameAttr", KString)%string /\
  field_at fAttr "TagType" "DataType" = Some ("DataTypeAttr", KString)%string /\
  field_at fAttr "AProgramType" "Name" = Some ("NameAttr", KString)%string /\
  field_at fAttr "DataValue" "Value" = Some ("ValueAttr", KString)%string.
Proof. vm_compute. repeat split. Qed.

(** C35.  From the text of an export to the map of tags: a controller tag of a
    signed integer type, whose second Data element holds a DataValue with the
    decimal text of a number, is loaded under its name as that number, of the
    Go type its type name stands for.  Nothing else in the document matters,
    as long as no other tag and no program is loaded under the name. *)
Theorem document_numbers root p tags controller ts ps tag d0 d1 rest dv k bits z :
  Unmarshal root = Ok p -> LoadTags p = Ok tags ->
  elems "Controller" root = [controller] -> elems "Tags" controller = [ts] -> elems "Programs" controller = [ps] ->
  NoDup (attr_of "Name" <$> elems "Tag" ts) ->
  (forall q, q ∈ elems "Program" ps -> progprefix (attr_of "Name" q) <> attr_of "Name" tag) ->
  tag ∈ elems "Tag" ts -> elems "Data" tag = d0 :: d1 :: rest -> elems "DataValue" d1 = [dv] ->
  attr_of "Value" dv = dec_int z -> int_type (attr_of "DataType" tag) = Some (k, bits) ->
  - 2 ^ (bits - 1) <= z < 2 ^ (bits - 1) ->
  tags !! attr_of "Name" tag = Some (RTag (VInt k z)).
Proof.
  intros Hu Hl Hc Ht Hp Hnd Hpr Hin Hd Hdv Hz Hk Hb. unfold Unmarshal in Hu. inv_res Hu. injection Hu as <-. rename v into s.
  destruct at_attrs as (Aname & Atype & Aprog & Aval).
  destruct (decoded_elem _ _ _ _ _ _ _ _ E at_controller Hc) as (sc & Dc & Gc).
  destruct (decoded_elem _ _ _ _ _ _ _ _ Dc at_tags Ht) as (st & Dt & Gt).
  destruct (decoded_elem _ _ _ _ _ _ _ _ Dc at_programs Hp) as (sp & Dp & Gp).
  pose proof (decoded_elems _ _ _ _ _ _ _ Dt at_tag) as Dtags.
  pose proof (decoded_elems _ _ _ _ _ _ _ Dp at_program) as Dprogs.
  apply list_elem_of_lookup in Hin as [i Hi]. destruct (Forall2_lookup_l _ _ _ _ _ Dtags Hi) as (stag & Hs & Dtag).
  pose proof (decoded_elems _ _ _ _ _ _ _ Dtag at_data) as Ddata. rewrite Hd in Ddata.
  destruct (get_slice "Data" stag) as [|sd0 [|sd1 sds]] eqn:Esd; [inversion Ddata|by inversion Ddata as [|? ? ? ? ? Q]; inversion Q|].
  assert (decoded (0 + 1 + 1 + 2 + 2) "DataWideType" d1 sd1) as Dd1 by by inversion Ddata as [|? ? ? ? ? Q]; inversion Q.
  destruct (decoded_elem _ _ _ _ _ _ _ _ Dd1 at_value Hdv) as (sdv & Ddv & Gdv).
  rewrite <- (decoded_string _ _ _ _ "Name" "NameAttr" Dtag Aname).
  eapply (LoadTags_numbers (project_of s) (controller_of sc) (tags_of st) (program_of <$> get_slice "Program" sp) tags (tag_of stag)
            (data_of sd1) (value_of sdv) k bits z).
  - exact Hl.
  - cbn [project_of pj_Controller]. by rewrite Gc.
  - cbn [controller_of ct_Tags]. by rewrite Gt.
  - cbn [controller_of ct_Programs]. by rewrite Gp.
  - cbn [tags_of tc_Tag]. rewrite <- list_fmap_compose.
    change (tg_Name ∘ tag_of) with (get_string "NameAttr"). by rewrite (decoded_strings _ _ _ _ "Name" "NameAttr" Dtags Aname).
  - intros q Hq. apply list_elem_of_fmap in Hq as (sq & -> & Hq). apply list_elem_of_lookup in Hq as [j Hj].
    destruct (Forall2_lookup_r _ _ _ _ _ Dprogs Hj) as (nq & Hnq & Dq). cbn [program_of ap_Name tag_of tg_Name].
    rewrite (decoded_string _ _ _ _ "Name" "NameAttr" Dq Aprog), (decoded_string _ _ _ _ "Name" "NameAttr" Dtag Aname).
    apply Hpr. by eapply list_elem_of_lookup_2.
  - cbn [tags_of tc_Tag]. by eapply list_elem_of_fmap_2, list_elem_of_lookup_2.
  - unfold data1. cbn [tag_of tg_Data]. by rewrite Esd.
  - cbn [data_of dw_DataValue]. by rewrite Gdv.
  - cbn [value_of dv_Value]. by rewrite (decoded_string _ _ _ _ "Value" "ValueAttr" Ddv Aval).
  - cbn [tag_of tg_DataType]. by rewrite (decoded_string _ _ _ _ "DataType" "DataTypeAttr" Dtag Atype).
  - done.
Qed.

(** ** Witness, and documents that are refused *)

Definition el (name : string) (attrs : list (string * bytes)) (children : list node) : node := Element name attrs children [].
Definition sample_data (ty value : string) : node :=
  el "Data" [("Format", str "Decorated")%string] [el "DataValue" [("DataType", str ty); ("Value", str value)]%string []].
Definition raw_data (text : string) : node := el "Data" [("Format", str "L5K")%string] [Text (str text)].
Definition sample_flag : node :=
  el "Tag" [("Name", str "Flag"); ("DataType", str "BOOL")]%string [raw_data "1"; sample_data "BOOL" "1"].
Definition sample_level : node :=
  el "Tag" [("Name", str "Level"); ("DataType", str "DINT"); ("Radix", str "Decimal")]%string
    [el "Description" [] [Text (str "mm")]; raw_data "-40"; Text [10]; sample_data "DINT" "-40"].
Definition sample_main : node := el "Program" [("Name", str "main")%string] [el "Tags" [] []].
Definition sample_document : node :=
  el "RSLogix5000Content" [("SchemaRevision", str "1.0")%string]
    [Text [10];
     el "Controller" [("Name", str "plc")%string]
       [el "DataTypes" [] []; el "Tags" [] [sample_flag; sample_level]; el "Programs" [] [sample_main]]].

Lemma document_numbers_witness : exists p tags, Unmarshal sample_document = Ok p /\ LoadTags p = Ok tags /\
  tags !! str "Level" = Some (RTag (VInt I32 (-40))).
Proof.
  eexists _, _. split; [vm_compute; reflexivity|]. split; [vm_compute; reflexivity|].
  refine (document_numbers sample_document _ _ _ (el "Tags" [] [sample_flag; sample_level]) (el "Programs" [] [sample_main])
    sample_level _ _ [] _ I32 32 (-40) _ _ eq_refl eq_refl eq_refl _ _ _ eq_refl eq_refl _ _ _).
  all: try (vm_compute; reflexivity).
  - apply (bool_decide_unpack _). vm_compute. exact Logic.I.
  - intros q Hq. apply list_elem_of_singleton in Hq as ->. vm_compute. discriminate.
  - right. left.
  - split; vm_compute; discriminate || reflexivity.
Defined.

(** A routine with a step of a sequential function chart: encoding/xml expects
    an ASFC_StepElementType and refuses the whole document. *)
Definition chart_document : node :=
  el "RSLogix5000Content" [] [el "Controller" [] [el "Programs" [] [el "Program" [] [el "Routines" []
    [el "Routine" [("Type", str "SFC")%string] [el "SFCContent" [] [el "Step" [("ID", str "0")%string] []]]]]]]].

Example chart_refused : Unmarshal chart_document = Err (Errorf "expected element type").
Proof. vm_compute. reflexivity. Qed.

(** So is a function block diagram that calls a subroutine. *)
Definition block_document : node :=
  el "RSLogix5000Content" [] [el "Controller" [] [el "Programs" [] [el "Program" [] [el "Routines" []
    [el "Routine" [("Type", str "FBD")%string] [el "FBDContent" [] [el "Sheet" [("Number", str "1")%string] [el "JSR" [] []]]]]]]]].

Example block_refused : Unmarshal block_document = Err (Errorf "expected element type").
Proof. vm_compute. reflexivity. Qed.

(** An export of a program or of tags has no modules and no tasks: its tags
    are loaded, its comments are not. *)
Example export_without_modules :
  (p ← Unmarshal sample_document; LoadTagComments map_to_list 9 p) = Panic "nil pointer dereference" /\
  (p ← Unmarshal sample_document; LoadRungComments p) = Panic "nil pointer dereference".
Proof. vm_compute. split; reflexivity. Qed.
