(* ===== verification/MultiRead.v ===== *)
(** * Reading many tags at once (read.go, partialread.go)

    How tags are chosen for a message by the sizes estimated for its request
    and its response, the multiple-service request, and what is made of the
    reply, entry by entry; fragmented rounds, and the public ReadList,
    ReadMap, ReadMapFrag and ReadMulti on top.  A Go map is the list of its
    entries in the order the range statement takes them. *)
From S2P Require Import Prelude Reader GoStrings GoValue CipNames CipDefs Types Items Ioi Pack Messages Client ClientTags.

(** A result: a value; a value whose bytes ran out, so that only its first
    fields are the controller's; an error kept in the value's place. *)
Inductive read_result :=
  | RVal (v : goval)
  | RCut (t : gotype)
  | RErr (e : error).

(** ** Size estimates *)

Definition estimateMultiReadRequestOverhead (serviceCount : Z) : Z :=
  6 + 2 + (4 + 4) + 4 + 10 + 2 * Z.max 0 serviceCount.
Definition estimateMultiReadReplyOverhead (replyCount : Z) : Z := multi_reply_overhead replyCount.

(** strings.ReplaceAll with a non-empty old; the first skip bytes are passed over. *)
Fixpoint replace_all (old new : bytes) (skip : nat) (s : bytes) : bytes :=
  match s with
  | [] => []
  | c :: s' =>
      match skip with
      | S skip => replace_all old new skip s'
      | O =>
          if decide (take (length old) s = old) then new ++ replace_all old new (length old - 1) s'
          else c :: replace_all old new 0 s'
      end
  end.

Section MultiRead.
Context `{Methods} (UnixMilli : nat -> Z).
Abbreviation C := (M client_world).

(** The bytes Pack counts, or those it wrote when it counted none. *)
Definition packed_bytes (v : goval) : res Z :=
  match Pack v [] with
  | (Ok n, b) => Ok (if 0 <? n then n else blen b)
  | (Err e, _) => Err e
  | (Panic why, _) => Panic why
  end.

(** packedStructSize of a zero value: what a nil pointer counts for. *)
Fixpoint zero_size (t : gotype) : res Z :=
  match t with
  | TStruct _ _ => packed_bytes (go_zero t)
  | TArray n t => if (n =? 0)%nat then Ok 0 else s ← zero_size t; Ok (Z.of_nat n * s)
  | TSlice _ => Ok 0
  | TAny => Err (Errorf "nil value")
  | TPtr t => match t with TPtr _ => Err (Errorf "unsupported struct payload type") | _ => zero_size t end
  | _ => match sizeof t with Some n => Ok (Z.of_nat n) | None => Err (Errorf "unsupported struct payload type") end
  end.

Fixpoint packedStructSize (v : goval) : res Z :=
  match v with
  | VNil => Err (Errorf "nil value")
  | VPtr t None => zero_size (TPtr t)
  | VPtr _ (Some v) => packedStructSize v
  | VStruct _ _ _ => packed_bytes v
  | VArray _ l | VSlice _ l =>
      (fix go (l : list goval) : res Z :=
         match l with
         | [] => Ok 0
         | v :: l => n ← packedStructSize v; r ← go l; Ok (n + r)
         end) l
  | _ =>
      match fixed_bytes v with
      | Some b => Ok (blen b)
      | None => Err (Errorf "unsupported struct payload type")
      end
  end.

Definition estimateTagResponseSize (tag : tagDesc) : res Z :=
  let elements := Z.max 1 (td_Elements tag) in
  let resultHdrSize := 4 + 2 in
  if negb (td_TagType tag =? CIPTypeStruct) then Ok (resultHdrSize + Size (td_TagType tag) * elements)
  else
    match packedStructSize (td_Struct tag) with
    | Panic why => Panic why
    | r =>
        let size := match r with Ok n => if n <=? 0 then Size CIPTypeStruct else n | _ => Size CIPTypeStruct end in
        let rem := size mod 8 in
        let size := if rem =? 0 then size else size + (8 - rem) in
        Ok (resultHdrSize + 2 + size * elements)
    end.

(** ** Choosing the tags of a message *)

Definition footer_size (service : Z) : Z := if service =? CIPService_FragRead then 6 else 2.

(** Would the tag be one too many?  The sizes of request and response with
    it, given the requests' and the responses' bytes so far. *)
Definition candidate_sizes (count packedBytes responseSize : Z) (tag : tagDesc) (i : tagIOI) (connSize : Z)
    : res (Z * Z * bool) :=
  let service := readServiceForTag tag connSize in
  let req := 2 + blen (ioi_Buffer i) + footer_size service in
  resp ← estimateTagResponseSize tag;
  let candidateMsgSize := estimateMultiReadRequestOverhead (count + 1) + packedBytes + req in
  let candidateRespSize := estimateMultiReadReplyOverhead (count + 1) + responseSize + resp in
  Ok (req, resp, (connSize <=? candidateMsgSize) || (connSize <=? candidateRespSize)).

(** iois[i], or a new IOI when there is no list *)
Definition tag_ioi (iois : option (list tagIOI)) (pos : nat) (tag : tagDesc) : C tagIOI :=
  match iois with
  | Some l => match l !! pos with Some i => mret i | None => panic "index out of range" end
  | None => client_newIOI UnixMilli (td_TagName tag) (td_TagType tag)
  end.

Fixpoint select_tags (tags : list tagDesc) (iois : option (list tagIOI)) (pos : nat)
    (selected packedBytes responseSize : Z) : C (list nat) :=
  match tags with
  | [] => mret []
  | tag :: tags =>
      i ← tag_ioi iois pos tag;
      w ← get;
      '(req, resp, full) ← lift (candidate_sizes selected packedBytes responseSize tag i (ConnectionSize (link w)));
      if (full : bool) then select_tags tags iois (S pos) selected packedBytes responseSize
      else
        l ← select_tags tags iois (S pos) (selected + 1) (packedBytes + req) (responseSize + resp);
        mret (pos :: l)
  end.

Definition selectPackedTagIndexes (tags : list tagDesc) (iois : option (list tagIOI)) : C (list nat) :=
  match tags with
  | [] => mret []
  | _ =>
      if match iois with Some l => negb (length l =? length tags)%nat | None => false end
      then fail (Errorf "mismatched tag and IOI counts")
      else
        selected ← select_tags tags iois 0 0 0 0;
        mret (match selected with [] => [0%nat] | _ => selected end)
  end.

(** The pending indexes at the selected positions, in order, and the others. *)
Fixpoint split_selected (pos : nat) (pending selected : list nat) : list nat * list nat :=
  match pending with
  | [] => ([], [])
  | idx :: pending =>
      match selected with
      | s :: selected' =>
          if (s =? pos)%nat then
            let '(a, b) := split_selected (S pos) pending selected' in (idx :: a, b)
          else let '(a, b) := split_selected (S pos) pending selected in (a, idx :: b)
      | [] => let '(a, b) := split_selected (S pos) pending [] in (a, idx :: b)
      end
  end.

(** tags[idx] *)
Definition index_all {A} (l : list A) (idxs : list nat) : res (list A) :=
  match mapM (fun i => l !! i) idxs with Some r => Ok r | None => Panic "index out of range" end.

Definition selectPackedTagBatch (pending : list nat) (tags : list tagDesc) (iois : option (list tagIOI))
    : C (list nat * list tagDesc * option (list tagIOI) * list nat) :=
  match pending with
  | [] => mret ([], [], None, [])
  | _ =>
      batchTags ← lift (index_all tags pending);
      batchIOIs ← match iois with
                  | None => mret None
                  | Some l => b ← lift (index_all l pending); mret (Some b)
                  end;
      selectedLocal ← selectPackedTagIndexes batchTags batchIOIs;
      let '(selectedOrig, nextPending) := split_selected 0 pending selectedLocal in
      chosenTags ← lift (index_all tags selectedOrig);
      chosenIOIs ← match iois with
                   | None => mret None
                   | Some l => b ← lift (index_all l selectedOrig); mret (Some b)
                   end;
      mret (selectedOrig, chosenTags, chosenIOIs, nextPending)
  end.

(** How many leading tags fit, at least one; the service is always the plain
    read here. *)
Fixpoint count_fit (tags : list tagDesc) (n : nat) (buffered responseSize : Z) : C nat :=
  match tags with
  | [] => mret n
  | tag :: tags =>
      i ← client_newIOI UnixMilli (td_TagName tag) (td_TagType tag);
      w ← get;
      let connSize := ConnectionSize (link w) in
      let req := 2 + blen (ioi_Buffer i) + 2 in
      resp ← lift (estimateTagResponseSize tag);
      if (connSize <=? estimateMultiReadRequestOverhead (Z.of_nat n + 1) + buffered + req) ||
         (connSize <=? estimateMultiReadReplyOverhead (Z.of_nat n + 1) + responseSize + resp)
      then mret n
      else count_fit tags (S n) (buffered + req) (responseSize + resp)
  end.
Definition countIOIsThatFit (tags : list tagDesc) : C nat := n ← count_fit tags 0 0 0; mret (Nat.max 1 n).

Fixpoint count_frag_fit (tags : list tagDesc) (n : nat) (buffered responseSize : Z) : C nat :=
  match tags with
  | [] => mret n
  | tag :: tags =>
      i ← client_newIOI UnixMilli (td_TagName tag) (td_TagType tag);
      w ← get;
      '(req, resp, full) ← lift (candidate_sizes (Z.of_nat n) buffered responseSize tag i (ConnectionSize (link w)));
      if (full : bool) then mret n else count_frag_fit tags (S n) (buffered + req) (responseSize + resp)
  end.
Definition countFragIOIsThatFit (tags : list tagDesc) : C nat := n ← count_frag_fit tags 0 0 0; mret (Nat.max 1 n).

(** ** The request and its reply *)

(** msgCIPConnectedMultiServiceReq: sequence, service, path to the message
    router, count *)
Definition multi_service_req (seq qty : Z) : bytes :=
  le_bytes 2 seq ++ [CIPService_MultipleService; 2; 0x20; 0x02; 0x24; 0x01] ++ le_bytes 2 qty.

(** One request of the packet: service and path size, the IOI, the footer. *)
Definition tag_request (service : Z) (tag : tagDesc) (i : tagIOI) (offset : Z) : bytes :=
  [service; u8 (blen (ioi_Buffer i) / 2)] ++ ioi_Buffer i ++
  if service =? CIPService_FragRead then le_bytes 2 (td_Elements tag) ++ le_bytes 4 offset
  else le_bytes 2 (td_Elements tag).

(** Where each request starts, from the count on. *)
Fixpoint request_offsets (start : Z) (reqs : list bytes) : list Z :=
  match reqs with [] => [] | r :: reqs => u16 start :: request_offsets (start + blen r) reqs end.

Definition multi_item (seq : Z) (reqs : list bytes) : CIPItem :=
  let qty := Z.of_nat (length reqs) in
  Write (multi_service_req seq (u16 qty) ++ concat (le_bytes 2 <$> request_offsets (2 + qty * 2) reqs) ++ concat reqs)
    (empty_item cipItem_ConnectedData).

(** The reply's second item: the count, the offsets, and the item's bytes,
    with its own header, into which the offsets point. *)
Definition read_multi_header : M CIPItem Z :=
  _ ← wrapM "problem reading reply header sequence count" Uint16;
  _ ← wrapM "problem reading reply header service code" item_Byte;
  _ ← wrapM "problem reading reply header padding byte" item_Byte;
  status ← wrapM "problem reading reply header status" Uint16;
  if negb (status =? CIPStatus_OK) && negb (status =? CIPStatus_EmbeddedServiceError) then
    fail (Errorf "service returned status")
  else wrapM "problem reading reply header item count" Uint16.

Definition parse_multi_reply (hdr : eipHeader) (data : bytes) : res (list Z * bytes) :=
  if negb (hdr_Status hdr =? 0) then Err (Errorf "problem reading tags")
  else
    items ← res_wrap "problem reading items" (fst (readItems (after_CSD data)));
    match items with
    | [_; i1] =>
        fst ((
          count ← read_multi_header;
          offset_table ← wrapM "problem reading offset table"
            (read_struct (2 * Z.to_nat count) (read_times (Z.to_nat count) read_u16));
          mret (offset_table, item_Bytes i1)) i1)
    | _ => Err (Errorf "wrong Number of Items")
    end.

(** msgMultiReadResult: service and status *)
Definition read_result_hdr : M bytes (Z * Z) :=
  read_struct 4 (svc ← read_u8; _ ← read_u8; status ← read_u16; mret (svc, status)).
(** msgMultiReadResultTypeHdr: type and the length of what more there is of it *)
Definition read_type_hdr : M bytes (Z * Z) := read_struct 2 (ty ← read_u8; len ← read_u8; mret (ty, len)).

(** ** readList: the values of one reply *)

Definition unread : M bytes bytes := get.

(** reflect.New(TypeOf(tag.Struct)), unpacked *)
Definition unpack_as (v : goval) : M bytes read_result :=
  match type_of v with
  | None => b ← unread; mret (RVal (byte_slice b))
  | Some t =>
      '(v, _) ← wrapM "couldn't unpack struct data" (Unpack (go_zero t));
      mret (RVal v)
  end.

Definition list_value (ty : Z) (tag : tagDesc) (i : tagIOI) : M bytes read_result :=
  if td_Elements tag =? 1 then
    if (td_TagType tag =? CIPTypeBOOL) && negb (ty =? CIPTypeBOOL) && ioi_BitAccess i then
      value ← wrapM "problem reading tag" (readValue ty);
      match getBit ty value (ioi_BitPosition i) with
      | Ok b => mret (RVal (VBool b))
      | Err _ => mret (RVal VNil)
      | Panic why => panic why
      end
    else if td_TagType tag =? CIPTypeSTRING then s ← read_short_string; mret (RVal (VString s))
    else if ty =? CIPTypeStruct then
      _ ← wrapM "couldn't unpack struct header" (read_struct 2 read_u16);
      unpack_as (td_Struct tag)
    else v ← wrapM "problem reading tag" (readValue ty); mret (RVal v)
  else if td_Elements tag <? 0 then panic "makeslice: len out of range"
  else if td_TagType tag =? CIPTypeSTRING then
    l ← read_times (Z.to_nat (td_Elements tag)) read_slot_string;
    mret (RVal (VSlice TAny (VString <$> l)))
  else
    l ← read_times (Z.to_nat (td_Elements tag)) (wrapM "problem reading tag" (readValue ty));
    mret (RVal (VSlice TAny l)).

(** The i-th entry of a reply; tags has no i-th element when the controller
    sends more entries than it was asked for. *)
Definition list_entry (tag : option (tagDesc * tagIOI)) : M bytes read_result :=
  '(svc, status) ← wrapM "problem reading multi result header" read_result_hdr;
  if negb (Service.IsResponse svc) then fail (Errorf "wasn't a response service")
  else
    if negb (Z.land status 0xFF =? CIPStatus_OK) then
      match tag with
      | Some _ => mret (RErr (Errorf "problem reading tag"))
      | None => panic "index out of range"
      end
    else
      '(ty, _) ← wrapM "problem reading multi result type header" read_type_hdr;
      match tag with
      | Some (tag, i) => list_value ty tag i
      | None => panic "index out of range"
      end.

(** rb[offset_table[i]+10:] for every entry; the sum is a uint16 *)
Fixpoint list_entries (offsets : list Z) (rb : bytes) (tags : list (tagDesc * tagIOI)) : res (list read_result) :=
  match offsets with
  | [] => Ok []
  | o :: offsets =>
      let offset := u16 (o + 10) in
      if blen rb <? offset then Panic out_of_range
      else
        v ← fst (list_entry (head tags) (drop (Z.to_nat offset) rb));
        l ← list_entries offsets rb (tail tags);
        Ok (v :: l)
  end.

(** The first tag at which the packed IOIs pass the connection size *)
Fixpoint first_over (connSize buffered : Z) (pos : nat) (iois : list tagIOI) : option nat :=
  match iois with
  | [] => None
  | i :: iois =>
      let buffered := buffered + (2 + blen (ioi_Buffer i) + 2) in
      if connSize <? buffered + 2 + 2 + 2 then Some pos else first_over connSize buffered (S pos) iois
  end.

Fixpoint sequence_iois (tags : list tagDesc) : C (list tagIOI) :=
  match tags with
  | [] => mret []
  | tag :: tags =>
      i ← client_newIOI UnixMilli (td_TagName tag) (td_TagType tag);
      l ← sequence_iois tags;
      mret (i :: l)
  end.

(** The request for tags that fit, and its values. *)
Definition list_exchange (seq : Z) (tags : list tagDesc) (iois : list tagIOI) : C (list read_result) :=
  let reqs := zip_with (fun tag i => tag_request CIPService_Read tag i 0) tags iois in
  '(hdr, data) ← unit_request (multi_item (u16 seq) reqs);
  '(offsets, rb) ← lift (parse_multi_reply hdr data);
  lift (list_entries offsets rb (zip tags iois)).

(** Tags that do not fit are read in two calls; a single tag that does not
    fit would be split for ever, which is where the fuel runs out. *)
Fixpoint readList (fuel : nat) (tags : list tagDesc) : C (list read_result) :=
  match fuel with
  | O => panic "stack overflow"
  | S fuel =>
      iois ← sequence_iois tags;
      w ← get;
      seq ← sequencer;
      match first_over (ConnectionSize (link w)) 0 0 iois with
      | Some i =>
          results0 ← wrapM "problem reading first part of tags" (readList fuel (take i tags));
          results1 ← wrapM "problem reading second part of tags" (readList fuel (drop i tags));
          mret (results0 ++ results1)
      | None => list_exchange seq tags iois
      end
  end.

(** ReadList: the leading tags that fit, until none is left.  The three
    slices are indexed by the first. *)
Fixpoint read_list_batches (rounds fuel : nat) (tags : list tagDesc) : C (list read_result) :=
  match tags with
  | [] => mret []
  | _ =>
      match rounds with
      | O => panic "out of fuel"
      | S rounds =>
          n ← countIOIsThatFit tags;
          subresults ← readList fuel (take n tags);
          rest ← read_list_batches rounds fuel (drop n tags);
          mret (subresults ++ rest)
      end
  end.

Definition ReadList (fuel : nat) (tagnames : list bytes) (types : list goval) (elements : list Z)
    : C (list read_result) :=
  _ ← wrapM "could not start list read" (checkConnection UnixMilli);
  if (length types <? length tagnames)%nat || (length elements <? length tagnames)%nat then panic "index out of range"
  else
    let tags := zip_with (fun nt e =>
      {| td_TagName := nt.1; td_TagType := fst (GoVarToCIPType nt.2); td_Elements := e; td_Struct := nt.2 |})
      (zip tagnames types) elements in
    read_list_batches (length tags) fuel tags.

(** ** Fragmented rounds *)

Record fragReadTagResult := { fr_Status : Z; fr_Type : Z; fr_Data : bytes }.
Definition frag_status (status : Z) : fragReadTagResult := {| fr_Status := status; fr_Type := 0; fr_Data := [] |}.

(** One entry, its bytes cut out of the reply. *)
Definition frag_entry : M bytes fragReadTagResult :=
  '(svc, status) ← wrapM "problem reading fragmented multi result header" read_result_hdr;
  if negb (Service.IsResponse svc) then fail (Errorf "mixed item was not a response service")
  else
    let svc := Service.UnResponse svc in
    if negb (svc =? CIPService_FragRead) && negb (svc =? CIPService_Read) then
      fail (Errorf "mixed item had unexpected service")
    else
      let status := Z.land status 0xFF in
      if negb (status =? CIPStatus_OK) && negb ((svc =? CIPService_FragRead) && (status =? CIPStatus_PartialTransfer))
      then mret (frag_status status)
      else
        '(ty, infolen) ← wrapM "problem reading fragmented multi result type header" read_type_hdr;
        _ ← (if negb (infolen =? 0) then
               wrapM "problem reading additional type info header" (read_struct 2 read_u16)
             else mret 0);
        n ← unread;
        payload ← wrapM "problem reading fragmented payload" (buffer_Read (length n));
        mret {| fr_Status := status; fr_Type := ty; fr_Data := payload |}.

(** Entry i reaches to where entry i+1 starts; the messages of the errors
    name tags[i], which must exist. *)
Fixpoint frag_entries (offsets : list Z) (rb : bytes) (tags : nat) : res (list fragReadTagResult) :=
  match offsets with
  | [] => Ok []
  | o :: offsets =>
      let start := o + 10 in
      let stop := match offsets with o' :: _ => o' + 10 | [] => blen rb end in
      let failed : res (list fragReadTagResult) :=
        if (tags =? 0)%nat then Panic "index out of range" else Err (Errorf "fragmented entry") in
      if (start <? 0) || (blen rb <? start) || (stop <? start) || (blen rb <? stop) then failed
      else
        let entry := take (Z.to_nat (stop - start)) (drop (Z.to_nat start) rb) in
        if blen entry <? 4 then failed
        else
          match fst (frag_entry entry) with
          | Err e => if (tags =? 0)%nat then Panic "index out of range" else Err e
          | Panic why => Panic why
          | Ok r => l ← frag_entries offsets rb (tags - 1); Ok (r :: l)
          end
  end.

Definition frag_requests (connSize : Z) : list tagDesc -> list tagIOI -> list Z -> list bytes :=
  fix go (tags : list tagDesc) (iois : list tagIOI) (offsets : list Z) : list bytes :=
    match tags, iois, offsets with
    | tag :: tags, i :: iois, o :: offsets =>
        tag_request (readServiceForTag tag connSize) tag i o :: go tags iois offsets
    | _, _, _ => []
    end.

Definition readListFragRound (tags : list tagDesc) (iois : list tagIOI) (offsets : list Z)
    : C (list fragReadTagResult) :=
  seq ← sequencer;
  w ← get;
  '(hdr, data) ← unit_request (multi_item (u16 seq) (frag_requests (ConnectionSize (link w)) tags iois offsets));
  '(offset_table, rb) ← lift (parse_multi_reply hdr data);
  lift (frag_entries offset_table rb (length tags)).

(** ** Decoding what the rounds brought together *)

(** The error is io.EOF, itself or wrapped. *)
Fixpoint is_EOF (e : error) : bool :=
  match e with EOF => true | Wrap _ e => is_EOF e | _ => false end.

(** One value: whole, or with zeros from where the bytes ran out. *)
Definition unpackOne (t : gotype) : M bytes (option goval) := fun r =>
  match Unpack (go_zero t) r with
  | (Ok (v, _), r) => (Ok (Some v), r)
  | (Err e, r) => if is_EOF e then (Ok None, r) else (Err (Wrap "couldn't unpack struct data" e), r)
  | (Panic why, r) => (Panic why, r)
  end.

Fixpoint strip_pointers (t : gotype) : gotype := match t with TPtr t => strip_pointers t | _ => t end.

Definition all_whole (t : gotype) (wrap : list goval -> goval) (l : list (option goval)) : read_result :=
  match mapM id l with Some l => RVal (wrap l) | None => RCut t end.

Definition decodeStructReadValue (tag : tagDesc) : M bytes read_result :=
  match type_of (td_Struct tag) with
  | None => b ← unread; mret (RVal (byte_slice b))
  | Some t =>
      match strip_pointers t with
      | TSlice e =>
          if td_Elements tag <? 0 then panic "reflect.MakeSlice: negative len"
          else
            l ← read_times (Z.to_nat (td_Elements tag)) (unpackOne e);
            mret (all_whole (TSlice e) (VSlice e) l)
      | TArray n e =>
          l ← read_times (Nat.min (Z.to_nat (td_Elements tag)) n) (unpackOne e);
          mret (all_whole (TArray n e) (fun l => VArray e (l ++ replicate (n - length l) (go_zero e))) l)
      | t =>
          v ← unpackOne t;
          mret (match v with Some v => RVal v | None => RCut t end)
      end
  end.

Definition decodeReadTagValue (tag : tagDesc) (i : tagIOI) (respType : Z) (status : Z) : M bytes read_result :=
  if negb (status =? CIPStatus_OK) then mret (RErr (Errorf "tag read failed with status"))
  else if td_Elements tag =? 1 then
    if (td_TagType tag =? CIPTypeBOOL) && negb (respType =? CIPTypeBOOL) && ioi_BitAccess i then
      value ← wrapM "problem reading bool tag" (readValue respType);
      b ← lift (getBit respType value (ioi_BitPosition i));
      mret (RVal (VBool b))
    else if td_TagType tag =? CIPTypeSTRING then s ← read_short_string; mret (RVal (VString s))
    else if respType =? CIPTypeStruct then decodeStructReadValue tag
    else v ← readValue respType; mret (RVal v)
  else if respType =? CIPTypeStruct then decodeStructReadValue tag
  else if td_Elements tag <? 0 then panic "makeslice: len out of range"
  else
    l ← read_times (Z.to_nat (td_Elements tag)) (wrapM "problem reading tag" (readValue respType));
    mret (RVal (VSlice TAny l)).

(** The state of one tag between rounds *)
Record frag_tag := {
  ft_offset : Z;       (* uint32 *)
  ft_chunks : bytes;
  ft_respType : Z;
  ft_status : Z;
}.
Definition frag_start : frag_tag := {| ft_offset := 0; ft_chunks := []; ft_respType := 0; ft_status := 0 |}.

(** What a round's result adds: its data only when the status is OK. *)
Definition add_result (r : fragReadTagResult) (t : frag_tag) : frag_tag :=
  if fr_Status r =? CIPStatus_OK then
    {| ft_offset := u32 (ft_offset t + u32 (blen (fr_Data r)));
       ft_chunks := ft_chunks t ++ fr_Data r;
       ft_respType := if ft_respType t =? 0 then fr_Type r else ft_respType t;
       ft_status := fr_Status r |}
  else {| ft_offset := ft_offset t; ft_chunks := ft_chunks t; ft_respType := ft_respType t; ft_status := fr_Status r |}.

(** The results of a round, by the pending index they belong to; the indexes
    that go on. *)
Fixpoint add_results (results : list fragReadTagResult) (pending : list nat) (st : list frag_tag)
    : res (list frag_tag * list nat) :=
  match results with
  | [] => Ok (st, [])
  | r :: results =>
      match pending with
      | [] => Panic "index out of range"
      | idx :: pending =>
          '(st, next) ← add_results results pending (alter (add_result r) idx st);
          Ok (st, if fr_Status r =? CIPStatus_PartialTransfer then idx :: next else next)
      end
  end.

Fixpoint frag_rounds (rounds : nat) (tags : list tagDesc) (iois : list tagIOI) (pending : list nat)
    (st : list frag_tag) : C (list frag_tag) :=
  match pending with
  | [] => mret st
  | _ =>
      match rounds with
      | O => fail (Errorf "fragmented read exceeded max continuation rounds")
      | S rounds =>
          roundTags ← lift (index_all tags pending);
          roundIOIs ← lift (index_all iois pending);
          roundTagsState ← lift (index_all st pending);
          results ← readListFragRound roundTags roundIOIs (ft_offset <$> roundTagsState);
          '(st, next) ← lift (add_results results pending st);
          frag_rounds rounds tags iois next st
      end
  end.

(** The value of one tag; a decoding error takes its place. *)
Definition frag_value (tag : tagDesc) (i : tagIOI) (t : frag_tag) : res read_result :=
  match fst (decodeReadTagValue tag i (ft_respType t) (ft_status t) (ft_chunks t)) with
  | Err e => Ok (RErr (Wrap "problem decoding read value" e))
  | r => r
  end.

Fixpoint frag_values (tags : list tagDesc) (iois : list tagIOI) (st : list frag_tag) : res (list read_result) :=
  match tags, iois, st with
  | tag :: tags, i :: iois, t :: st =>
      v ← frag_value tag i t; l ← frag_values tags iois st; Ok (v :: l)
  | _, _, _ => Ok []
  end.

Definition readListFragAll (tags : list tagDesc) : C (list read_result) :=
  iois ← sequence_iois tags;
  st ← frag_rounds max_rounds tags iois (seq 0 (length tags)) (replicate (length tags) frag_start);
  lift (frag_values tags iois st).

(** ** ReadMap, ReadMapFrag, ReadMulti *)

(** A map entry, or a field with its tag: the name, and the value that gives
    the type. *)
Definition tag_of (k : bytes) (v : goval) : tagDesc :=
  let '(ct, elem) := GoVarToCIPType v in
  {| td_TagName := k; td_TagType := ct; td_Elements := elem; td_Struct := v |}.

(** resultValues[selectedOrig[i]] = val *)
Fixpoint store_results (selected : list nat) (vals : list read_result) (results : list read_result)
    : res (list read_result) :=
  match vals with
  | [] => Ok results
  | v :: vals =>
      match selected with
      | [] => Panic "index out of range"
      | idx :: selected => store_results selected vals (<[idx := v]> results)
      end
  end.

Fixpoint map_batches (rounds : nat) (tags : list tagDesc) (pending : list nat) (results : list read_result)
    : C (list read_result) :=
  match pending with
  | [] => mret results
  | _ =>
      match rounds with
      | O => panic "out of fuel"
      | S rounds =>
          '(selected, chosenTags, _, next) ← selectPackedTagBatch pending tags None;
          vals ← readListFragAll chosenTags;
          results ← lift (store_results selected vals results);
          map_batches rounds tags next results
      end
  end.

(** None when a connection is being re-established: the map keeps its values. *)
Definition read_map (m : list (bytes * goval)) : C (option (list (bytes * read_result))) :=
  r ← try (checkConnection UnixMilli);
  match r with
  | inl e => if is_reconnect e then mret None else fail (Wrap "could not start multi read" e)
  | inr _ =>
      let tags := (fun kv => tag_of kv.1 kv.2) <$> m in
      resultValues ← map_batches (length m) tags (seq 0 (length m)) (replicate (length m) (RVal VNil));
      mret (Some (zip (fst <$> m) resultValues))
  end.
Definition ReadMap (m : list (bytes * goval)) : C (option (list (bytes * read_result))) := read_map m.
Definition ReadMapFrag (m : list (bytes * goval)) : C (option (list (bytes * read_result))) := read_map m.

(** fmt.Sprintf("%v", arg) of every argument is given. *)
Definition formatName (template : bytes) (args : list bytes) : bytes :=
  snd (fold_left (fun '(i, s) arg => (i + 1, replace_all ([123] ++ dec i ++ [125]) arg 0 s)) args (0, template)).

(** The fields with a gologix tag: index, path, value *)
Fixpoint tagged_fields (pos : nat) (fields : list (fieldinfo * gotype)) (vals : list goval) (args : option (list bytes))
    : list (nat * bytes * goval) :=
  match fields, vals with
  | (f, _) :: fields, v :: vals =>
      let rest := tagged_fields (S pos) fields vals args in
      if bool_decide (f_gologix f = []) then rest
      else (pos, match args with None => f_gologix f | Some a => formatName (f_gologix f) a end, v) :: rest
  | _, _ => []
  end.

(** tag_map[path]: the last field with the path *)
Fixpoint field_of (path : bytes) (l : list (nat * bytes * goval)) : option nat :=
  match l with
  | [] => None
  | (i, p, _) :: l =>
      match field_of path l with
      | Some j => Some j
      | None => if decide (p = path) then Some i else None
      end
  end.

(** reflect's Set: a value of the same type, or any value into an interface. *)
Definition assignable (t : gotype) (v : goval) : bool :=
  match type_of v with None => false | Some t' => bool_decide (t = TAny \/ t = t') end.

Fixpoint set_elements (t : gotype) (n : nat) (vals : list goval) : res (list goval) :=
  match n with
  | O => Ok []
  | S n =>
      match vals with
      | v :: vals =>
          if assignable t v then r ← set_elements t n vals; Ok (v :: r) else Panic "reflect.Set: not assignable"
      | [] => Panic "reflect: slice index out of range"
      end
  end.

(** fieldVal.Set(reflect.ValueOf(val)), or element by element from a []any *)
Definition set_field (t : gotype) (old : goval) (val : read_result) : res goval :=
  match t, old with
  | TSlice e, VSlice _ l =>
      match val with
      | RVal (VSlice TAny vals) => l ← set_elements e (length l) vals; Ok (VSlice e l)
      | _ => if (length l =? 0)%nat then Ok old else Panic "reflect: Elem of a value that is no interface"
      end
  | _, _ =>
      match val with
      | RVal v => if assignable t v then Ok v else Panic "reflect.Set: not assignable"
      | _ => Panic "reflect.Set: not assignable"
      end
  end.

Fixpoint set_fields (tags all : list (nat * bytes * goval)) (results : list read_result)
    (fields : list (fieldinfo * gotype)) (vals : list goval) : res (list goval) :=
  match tags with
  | [] => Ok vals
  | (_, path, _) :: tags =>
      match field_of path all, results with
      | Some fieldNo, r :: results =>
          match fields !! fieldNo, vals !! fieldNo with
          | Some (_, t), Some old => v ← set_field t old r; set_fields tags all results fields (<[fieldNo := v]> vals)
          | _, _ => Panic "reflect: Field index out of range"
          end
      | _, _ => Panic "index out of range"
      end
  end.

(** ReadMulti of a pointer to a struct: the struct afterwards. *)
Definition ReadMulti (fuel : nat) (tag_str : goval) (args : option (list bytes)) : C goval :=
  match tag_str with
  | VStruct name fields vals =>
      _ ← wrapM "could not start multi read" (checkConnection UnixMilli);
      let tagged := tagged_fields 0 fields vals args in
      results ← wrapM "problem in read list" (readList fuel ((fun t => tag_of t.1.2 t.2) <$> tagged));
      vals ← lift (set_fields tagged tagged results fields vals);
      mret (VStruct name fields vals)
  | _ => panic "reflect: VisibleFields of non-struct type"
  end.
End MultiRead.
