(* ===== verification/WriteTags.v ===== *)
(** * Structures, and writes of several tags (read.go, write.go, udt_write.go)

    Read into a structure asks for the tag's bytes and unpacks them; a
    structure is written with the checksum of its type's text; several tags
    are written in one multiple-service request, whose answer is not looked
    at.  The order of a range over the map of values is a parameter. *)
From S2P Require Import Prelude Reader GoStrings GoValue CipNames CipDefs Types Items Ioi Pack Messages Client ClientTags MultiRead.

(** fmt.Sprintf("%s.%s", tag, name) *)
Definition member_tag (tag name : bytes) : bytes := tag ++ [46] ++ name.

(** udt_to_dict: every member of a structure by its path, nested ones too;
    arrays are left out. *)
Fixpoint udt_to_dict (tag : bytes) (data : goval) : gmap bytes goval :=
  match data with
  | VStruct _ fields vals =>
      (fix go (vals : list goval) (fields : list (fieldinfo * gotype)) (d : gmap bytes goval) : gmap bytes goval :=
         match vals, fields with
         | v :: vals, (f, _) :: fields =>
             let fulltag := member_tag tag (f_name f) in
             go vals fields
               (match v with
                | VStruct _ _ _ => udt_to_dict fulltag v ∪ d
                | VArray _ _ => d
                | _ => <[fulltag := v]> d
                end)
         | _, _ => d
         end) vals fields ∅
  | _ => ∅
  end.

(** multi_to_dict: the same of a struct whose fields carry the tags. *)
Fixpoint multi_to_dict (fields : list (fieldinfo * gotype)) (vals : list goval) (d : gmap bytes goval) : gmap bytes goval :=
  match fields, vals with
  | (f, _) :: fields, v :: vals =>
      multi_to_dict fields vals
        (match v with
         | VStruct _ _ _ => udt_to_dict (f_gologix f) v ∪ d
         | VArray _ _ => d
         | _ => <[f_gologix f := v]> d
         end)
  | _, _ => d
  end.

Section Write.
Context `{Methods} (crc16_Checksum : bytes -> Z) (UnixMilli : nat -> Z)
        (range : gmap bytes goval -> list (bytes * goval)).
Abbreviation C := (M client_world).

(** val.([]byte) *)
Definition as_byte_slice (v : goval) : option bytes :=
  match v with
  | VSlice (TInt U8) l => Some (map (fun v => match v with VInt _ z => z | _ => 0 end) l)
  | _ => None
  end.

(** The reflective end of Read: the tag's bytes, unpacked into data. *)
Definition read_unpacked (tag : bytes) (elements : Z) (data : goval) : C goval :=
  val ← Read_single UnixMilli tag CIPTypeStruct elements;
  match as_byte_slice val with
  | None => fail (Errorf "couldn't convert to byte slice")
  | Some b => '(v, _) ← wrapM "couldn't parse str data" (lift (fst (Unpack data b))); mret v
  end.

(** Read into a slice of structs *)
Definition Read_structs (tag : bytes) (t : gotype) (l : list goval) : C goval :=
  _ ← wrapM "could not start read" (checkConnection UnixMilli);
  read_unpacked tag (u16 (Z.of_nat (length l))) (VSlice t l).

(** The types whose pointers Read has a case for *)
Definition read_case (t : gotype) : bool :=
  match t with
  | TBool | TFloat32 | TFloat64 | TString => true
  | TInt k => match k with GoInt | GoUint => false | _ => true end
  | _ => false
  end.

(** var v T; client.Read(tag, &v): what v holds when it succeeds.  A pointer to
    a slice is read as one element. *)
Definition Read_into (t : gotype) (tag : bytes) : C goval :=
  if read_case t then Read_ UnixMilli tag (TgtScalar t)
  else if bool_decide (t = TAny) then Read_ UnixMilli tag TgtAny
  else
    _ ← wrapM "could not start read" (checkConnection UnixMilli);
    read_unpacked tag 1 (go_zero t).

(** b := make([]byte, n); client.Read(tag, &b): what b holds then.  A pointer
    to a slice takes the reflective end, which unpacks into its elements. *)
Definition Read_bytes (tag : bytes) (n : Z) : C bytes :=
  _ ← wrapM "could not start read" (checkConnection UnixMilli);
  v ← read_unpacked tag 1 (VSlice (TInt U8) (replicate (Z.to_nat n) (VInt U8 0)));
  mret (default [] (as_byte_slice v)).

(** var data T *)
Definition ReadPacked (t : gotype) (tag : bytes) : C goval :=
  let data := go_zero t in
  '(size, _) ← on [] (Pack data);
  b ← wrapM "couldn't read as bytes" (Read_bytes tag size);
  '(v, _) ← wrapM "problem unpacking from buffer" (lift (fst (Unpack data b)));
  mret v.

(** The elements one after the other.  readArray would come here with a
    struct, which the constraint on its type parameter excludes. *)
Fixpoint unpack_copies (t : gotype) (n : nat) : M bytes (list goval) :=
  match n with
  | O => mret []
  | S n => '(v, _) ← wrapM "couldn't parse str data" (Unpack (go_zero t)); l ← unpack_copies t n; mret (v :: l)
  end.
Definition parseArrayStruct (t : gotype) (dat : bytes) (elements : Z) : res (list goval) :=
  fst (unpack_copies t (Z.to_nat elements) dat).

(** Path, type code 0xA0 with the length of the checksum, the checksum, one
    element, the packed structure. *)
Definition write_udt (tag : bytes) (value : goval) : C unit :=
  i ← wrapM "problem generating IOI" (client_newIOI UnixMilli tag CIPTypeStruct);
  seq ← sequencer;
  '(_, typecrc) ← lift (res_wrap "problem encoding type" (TypeEncode crc16_Checksum value));
  '(_, UDTdata) ← on [] (wrapM "problem packing data" (_ ← Pack value; get));
  '(_, item1) ← on (empty_item cipItem_ConnectedData)
    (wrapM "problem serializing"
      (Items.Serialize [SBytes (service_req_bytes (u16 seq) CIPService_Write (u8 (blen (ioi_Buffer i) / 2)));
                  SBytes (ioi_Buffer i);
                  SBytes [CIPTypeStruct]; SBytes [2]; SBytes (le_bytes 2 typecrc); SBytes (le_bytes 2 1);
                  SBytes UDTdata]));
  '(hdr, data) ← unit_request item1;
  lift (parse_write_reply hdr data).

(** Write: by the kind of the value. *)
Definition Write_tag (tag : bytes) (value : goval) : C unit :=
  _ ← wrapM "could not start write" (checkConnection UnixMilli);
  match value with
  | VStruct _ _ _ => write_udt tag value
  | _ => write_single UnixMilli tag value
  end.

(** The paths of the tags, in the order of the range. *)
Fixpoint write_iois (tags : list (bytes * goval)) : C (list tagIOI) :=
  match tags with
  | [] => mret []
  | (tag, v) :: tags =>
      i ← client_newIOI UnixMilli tag (fst (GoVarToCIPType v));
      l ← write_iois tags;
      mret (i :: l)
  end.

(** One request of the packet: the footer always announces one element. *)
Definition write_request (i : tagIOI) (v : goval) : res bytes :=
  item_buf ← res_wrap "problem serializing" (Pack.Serialize [sarg_of v]);
  Ok ([CIPService_Write; u8 (blen (ioi_Buffer i) / 2)] ++ ioi_Buffer i ++
      msgCIPWriteIOIFooter_Bytes (fst (GoVarToCIPType v)) 1 ++ item_buf).

Fixpoint write_requests (tags : list (bytes * goval)) (iois : list tagIOI) : res (list bytes) :=
  match tags, iois with
  | (_, v) :: tags, i :: iois => r ← write_request i v; rs ← write_requests tags iois; Ok (r :: rs)
  | _, _ => Ok []
  end.

(** WriteMap, of the map in the order of its range *)
Definition WriteMap (tags : list (bytes * goval)) : C unit :=
  iois ← write_iois tags;
  seq ← sequencer;
  reqs ← lift (write_requests tags iois);
  _ ← unit_request (multi_item (u16 seq) reqs);
  mret tt.

Definition WriteMulti (value : goval) : C unit :=
  _ ← wrapM "could not start multi write" (checkConnection UnixMilli);
  match value with
  | VStruct _ fields vals => WriteMap (range (multi_to_dict fields vals ∅))
  | _ => fail (Errorf "value must be a struct with gologix tags")
  end.
End Write.

(** ReadPacked gives no value of a type that takes a byte or more: the bytes
    it reads into are unpacked as structures, which panics. *)
Lemma ReadPacked_never `{Methods} (UnixMilli : nat -> Z) t tag size buf w v w' :
  Pack (go_zero t) [] = (Ok size, buf) -> 0 < size -> ReadPacked UnixMilli t tag w <> (Ok v, w').
Proof.
  intros Hp Hs E. unfold ReadPacked in E. apply bind_Ok_inv in E as ([n b] & w1 & E1 & E).
  rewrite (on_Ok _ _ _ _ _ Hp) in E1. injection E1 as <- <- <-.
  apply bind_Ok_inv in E as (d & w2 & E2 & _). apply wrapM_Ok_inv in E2. unfold Read_bytes in E2.
  apply bind_Ok_inv in E2 as (u & w3 & _ & E2). apply bind_Ok_inv in E2 as (x & w4 & E2 & _).
  unfold read_unpacked in E2. apply bind_Ok_inv in E2 as (val & w5 & _ & E2).
  destruct (as_byte_slice val) as [l|]; [|done]. apply bind_Ok_inv in E2 as ([y k] & w6 & E2 & _).
  apply wrapM_Ok_inv in E2. destruct (Z.to_nat size) as [|m] eqn:Hm; [lia|]. done.
Qed.
