(* ===== verification/ImplicitSub.v ===== *)
(** * Implicit subscriptions (implicit_subscribe.go)

    A class 1 connection of its own, opened over the client's session, and
    the loop that takes its datagrams off a UDP socket, decodes them and puts
    them into a channel.  Channels are buffers of bounded length; what the
    other goroutines do to a subscription while its loop waits is any function
    on its state. *)
From S2P Require Import Prelude Reader GoStrings GoValue CipNames CipDefs Types Items Ioi Pack Messages Client ClientTags Discovery IOProvider.

(** ** Connection paths *)

Module CIPConnectionPoint.
Definition cipConnectionPoint_8bit := 0x2C.
Definition cipConnectionPoint_16bit := 0x2D.
Definition cipConnectionPoint_32bit := 0x2E.

Definition Bytes (p : Z) : bytes :=
  if p <? 256 then [cipConnectionPoint_8bit; u8 p]
  else if p <=? 0xFFFF then [cipConnectionPoint_16bit; 0; u8 p; u8 (Z.shiftr p 8)]
  else [cipConnectionPoint_32bit; 0; u8 p; u8 (Z.shiftr p 8); u8 (Z.shiftr p 16); u8 (Z.shiftr p 24)].

Definition Len (p : Z) : Z := if p <? 256 then 2 else if p <=? 0xFFFF then 4 else 6.
End CIPConnectionPoint.

Record ImplicitAssemblyPathConfig := {
  AssemblyClass : Z;     (* CIPClass, 0: the default *)
  ConfigInstance : Z;    (* CIPInstance, 0: omitted *)
  OutputPoint : Z;       (* CIPConnectionPoint *)
  InputPoint : Z;
}.

Record ImplicitProducedConsumedPathConfig := {
  ConsumedTag : bytes;
  IOClass : Z;           (* 0: the default *)
  IOInstance : Z;        (* 0: 1 *)
  ConnectionPoint : Z;   (* 0: 1 *)
  IncludeKeying : bool;
  KeyingWords : Z;       (* int, 0: 4 *)
  TrailerBytes : bytes;
}.

Definition ABGenericEthernetModuleOutputInstanceDefault := 150.
Definition ABGenericEthernetModuleInputInstanceDefault := 100.
Definition ABGenericEthernetModuleConfigInstanceDefault := 151.

Definition NewABGenericEthernetModuleAssemblyPath (out input config : Z) : ImplicitAssemblyPathConfig :=
  {| AssemblyClass := CipObject_Assembly; OutputPoint := out; InputPoint := input;
     ConfigInstance := if negb (config =? 0) then config else 0 |}.

Definition NewABGenericEthernetModuleAssemblyPathDefault : ImplicitAssemblyPathConfig :=
  NewABGenericEthernetModuleAssemblyPath ABGenericEthernetModuleOutputInstanceDefault
    ABGenericEthernetModuleInputInstanceDefault ABGenericEthernetModuleConfigInstanceDefault.

Definition NewProducedConsumedPathDefault (consumedTag : bytes) : ImplicitProducedConsumedPathConfig :=
  {| ConsumedTag := consumedTag; IOClass := CipObject_IOClass; IOInstance := 1; ConnectionPoint := 1;
     IncludeKeying := true; KeyingWords := 4; TrailerBytes := [] |}.

Definition or_default (d x : Z) : Z := if x =? 0 then d else x.

(** A zero byte behind an odd number of bytes. *)
Definition pad_even (b : bytes) : bytes := if (length b mod 2 =? 1)%nat then b ++ [0] else b.

(** make([]byte, keyingWords*2), without the limit of the memory *)
Definition keying (words : Z) : res bytes :=
  if words <? 0 then Err (Errorf "keying words must be >= 0")
  else
    let n := swrap 64 (words * 2) in
    if n <? 0 then Panic "makeslice: len out of range" else Ok (replicate (Z.to_nat n) 0).

Definition BuildImplicitProducedConsumedPath (cfg : ImplicitProducedConsumedPathConfig) : res bytes :=
  if bool_decide (trim_space (ConsumedTag cfg) = []) then Err (Errorf "consumed tag must not be empty")
  else
    key ← (if IncludeKeying cfg then keying (or_default 4 (KeyingWords cfg)) else Ok []);
    tagSeg ← res_wrap "failed building symbolic consumed-tag segment" (marshalIOIPart (ConsumedTag cfg));
    Ok (pad_even (key ++ Class_.Bytes (or_default CipObject_IOClass (IOClass cfg)) ++
                  Instance_.Bytes (or_default 1 (IOInstance cfg)) ++ tagSeg ++
                  CIPConnectionPoint.Bytes (or_default 1 (ConnectionPoint cfg)) ++ TrailerBytes cfg)).

Definition BuildImplicitAssemblyPath (cfg : ImplicitAssemblyPathConfig) : res bytes :=
  if (OutputPoint cfg =? 0) || (InputPoint cfg =? 0) then
    Err (Errorf "output and input connection points must be non-zero")
  else
    b ← res_wrap "failed building implicit assembly path" (Pack.Serialize (
      [SBytes (Class_.Bytes (or_default CipObject_Assembly (AssemblyClass cfg)))] ++
      (if negb (ConfigInstance cfg =? 0) then [SBytes (Instance_.Bytes (ConfigInstance cfg))] else []) ++
      [SBytes (CIPConnectionPoint.Bytes (OutputPoint cfg)); SBytes (CIPConnectionPoint.Bytes (InputPoint cfg))]));
    Ok (pad_even b).

(** ** Configuration *)

Record ImplicitSubscriptionConfig := {
  ConnectionPath : bytes;
  AssemblyPath : option ImplicitAssemblyPathConfig;
  ProducedConsumedPath : option ImplicitProducedConsumedPathConfig;
  sub_RPI : Z;               (* time.Duration *)
  TransportTrigger : Z;      (* byte *)
  ListenAddress : bytes;
  ReceiveTimeout : Z;        (* time.Duration *)
  ValueBuffer : Z;           (* int *)
  ErrorBuffer : Z;
}.

Definition positive_or (d x : Z) : Z := if x <=? 0 then d else x.

(** The defaults SubscribeImplicit fills in, given the client's RPI. *)
Definition with_defaults (client_RPI : Z) (cfg : ImplicitSubscriptionConfig) : ImplicitSubscriptionConfig :=
  {| ConnectionPath := ConnectionPath cfg; AssemblyPath := AssemblyPath cfg;
     ProducedConsumedPath := ProducedConsumedPath cfg;
     sub_RPI := positive_or (positive_or rpiDefault client_RPI) (sub_RPI cfg);
     TransportTrigger := or_default 1 (TransportTrigger cfg);
     ListenAddress := if bool_decide (ListenAddress cfg = []) then str ":2222" else ListenAddress cfg;
     ReceiveTimeout := positive_or (3 * 1000000000) (ReceiveTimeout cfg);
     ValueBuffer := positive_or 32 (ValueBuffer cfg);
     ErrorBuffer := positive_or 8 (ErrorBuffer cfg) |}.

(** ** The subscription *)

(** A buffered channel: it takes a value when there is room; what was received
    from it is kept. *)
Record chan (A : Type) := { chan_cap : nat; chan_buf : list A; chan_got : list A; chan_closed : bool }.
Arguments chan_cap {A} c. Arguments chan_buf {A} c. Arguments chan_got {A} c. Arguments chan_closed {A} c.
Arguments Build_chan {A} _ _ _ _.

Definition make_chan {A} (cap : nat) : chan A := Build_chan cap [] [] false.
Definition chan_full {A} (c : chan A) : bool := (chan_cap c <=? length (chan_buf c))%nat.
Definition chan_send {A} (x : A) (c : chan A) : chan A :=
  Build_chan (chan_cap c) (chan_buf c ++ [x]) (chan_got c) (chan_closed c).
Definition chan_close {A} (c : chan A) : chan A := Build_chan (chan_cap c) (chan_buf c) (chan_got c) true.

(** A receive that does not block. *)
Definition chan_receive {A} (c : chan A) : chan A :=
  match chan_buf c with
  | [] => c
  | x :: buf => Build_chan (chan_cap c) buf (chan_got c ++ [x]) (chan_closed c)
  end.

Record ImplicitSubscription := {
  sub_values : chan goval;
  sub_errs : chan error;
  sub_udp_open : bool;
  sub_stopCh : bool;             (* closed *)
  sub_doneCh : bool;             (* closed *)
  sub_connectionSerial : Z;      (* uint16 *)
  sub_vendorID : Z;              (* uint16 *)
  sub_originatorSerial : Z;      (* uint32 *)
  sub_toConnectionID : Z;        (* uint32 *)
  sub_closed : bool;
}.

Definition set_channels (v : chan goval) (e : chan error) (s : ImplicitSubscription) : ImplicitSubscription :=
  {| sub_values := v; sub_errs := e; sub_udp_open := sub_udp_open s; sub_stopCh := sub_stopCh s;
     sub_doneCh := sub_doneCh s; sub_connectionSerial := sub_connectionSerial s; sub_vendorID := sub_vendorID s;
     sub_originatorSerial := sub_originatorSerial s; sub_toConnectionID := sub_toConnectionID s;
     sub_closed := sub_closed s |}.

(** Stop's first steps: closed, the stop channel and the socket. *)
Definition mark_stopped (s : ImplicitSubscription) : ImplicitSubscription :=
  {| sub_values := sub_values s; sub_errs := sub_errs s; sub_udp_open := false; sub_stopCh := true;
     sub_doneCh := sub_doneCh s; sub_connectionSerial := sub_connectionSerial s; sub_vendorID := sub_vendorID s;
     sub_originatorSerial := sub_originatorSerial s; sub_toConnectionID := sub_toConnectionID s;
     sub_closed := true |}.

(** The deferred calls of run. *)
Definition run_returned (s : ImplicitSubscription) : ImplicitSubscription :=
  {| sub_values := chan_close (sub_values s); sub_errs := chan_close (sub_errs s); sub_udp_open := sub_udp_open s;
     sub_stopCh := sub_stopCh s; sub_doneCh := true; sub_connectionSerial := sub_connectionSerial s;
     sub_vendorID := sub_vendorID s; sub_originatorSerial := sub_originatorSerial s;
     sub_toConnectionID := sub_toConnectionID s; sub_closed := sub_closed s |}.

(** ** Opening *)

Section Open.
Context (UnixMilli : nat -> Z) (ListenPacket : bytes -> option error).
Abbreviation C := (M client_world).

(** The client's path, when the configuration has none. *)
Definition subscription_path (cfg : ImplicitSubscriptionConfig) : C bytes :=
  match ConnectionPath cfg with
  | [] =>
      match ProducedConsumedPath cfg, AssemblyPath cfg with
      | Some pc, _ => lift (BuildImplicitProducedConsumedPath pc)
      | None, Some a => lift (BuildImplicitAssemblyPath a)
      | None, None =>
          w ← get;
          match Controller_Path (config w) with
          | None => fail (Errorf "connection path is empty and controller path is not configured")
          | Some p => mret p
          end
      end
  | p => mret p
  end.

Definition newImplicitForwardOpenItem (connPath : bytes) (serial otID toID rpi trigger : Z) : C CIPItem :=
  w ← get;
  let connPath := pad_even connPath in
  let params := params_standard connSizeStandardMax in
  let us := u32 (Z.quot rpi 1000) in
  mret (Write connPath (Write (forwardOpen_bytes 2 {|
    fo_Service := CIPService_ForwardOpen; fo_PathSize := 2; fo_ClassType := Class_.cipClass_8bit;
    fo_Class := CipObject_ConnectionManager; fo_InstanceType := Instance_.cipInstance_8bit;
    fo_Instance := 1; fo_Priority := 0x07; fo_TimeoutTicks := 0xE9; fo_OTConnectionID := otID;
    fo_TOConnectionID := toID; fo_ConnectionSerialNumber := serial; fo_VendorID := VendorId (config w);
    fo_OriginatorSerialNumber := SerialNumber (config w); fo_Multiplier := 0; fo_OTRPI := us;
    fo_OTNetworkConnParams := params; fo_TORPI := us; fo_TONetworkConnParams := params;
    fo_TransportTrigger := trigger; fo_ConnPathSize := u8 (Z.quot (blen connPath) 2) |})
    (empty_item cipItem_UnconnectedData))).

(** The fields of msgCipForwardOpenReply that are used: its two ids, of 26 bytes *)
Definition read_reply_ids {R} `{Reader R} : M R (Z * Z) := read_struct 26 (ot ← read_u32; to ← read_u32; mret (ot, to)).

Definition forwardOpenCustom (forwardOpenMsg : CIPItem) : C (Z * Z) :=
  '(header, data) ← wrapM "error sending implicit forward-open request"
    (send_recv_data cipCommandSendRRData [serializeItems [empty_item cipItem_Null; forwardOpenMsg]]);
  items ← wrapM "error parsing implicit forward-open response" (lift (parseResponse header data));
  match items with
  | _ :: i1 :: _ =>
      '(ids, _) ← on i1 (wrapM "error deserializing implicit forward-open response" read_reply_ids);
      mret ids
  | _ => panic "index out of range [1]"
  end.

Definition SubscribeImplicit (cfg : ImplicitSubscriptionConfig) : C ImplicitSubscription :=
  _ ← wrapM "could not start implicit subscription" (checkConnection UnixMilli);
  w ← get;
  let cfg := with_defaults (RPI (config w)) cfg in
  connPath ← subscription_path cfg;
  serial ← nextConnectionSerialNumber;
  otID ← sequenceNumber_Add 1;
  toID ← sequenceNumber_Add 1;
  item ← newImplicitForwardOpenItem connPath serial otID toID (sub_RPI cfg) (TransportTrigger cfg);
  '(_, to) ← forwardOpenCustom item;
  match ListenPacket (ListenAddress cfg) with
  | Some e => fail (Wrap "unable to listen for implicit UDP" e)
  | None =>
      mret {| sub_values := make_chan (Z.to_nat (ValueBuffer cfg)); sub_errs := make_chan (Z.to_nat (ErrorBuffer cfg));
              sub_udp_open := true; sub_stopCh := false; sub_doneCh := false; sub_connectionSerial := serial;
              sub_vendorID := VendorId (config w); sub_originatorSerial := SerialNumber (config w);
              sub_toConnectionID := to; sub_closed := false |}
  end.
End Open.

(** ** The receive loop *)

Section Receive.
Context `{Methods} (T : gotype).   (* the type parameter *)
Abbreviation SB := (M ImplicitSubscription).

Definition byte_slice_type : gotype := TSlice (TInt U8).

(** A []byte is the payload itself, anything else is unpacked. *)
Definition decodeImplicitPayload (payload : bytes) : res goval :=
  if bool_decide (T = byte_slice_type) then Ok (VSlice (TInt U8) (VInt U8 <$> payload))
  else '(out, _) ← fst (Unpack (go_zero T) payload); Ok out.

(** select { case errs <- err: default: } *)
Definition emitErr (e : error) : SB unit :=
  modify (fun s => set_channels (sub_values s) (if chan_full (sub_errs s) then sub_errs s else chan_send e (sub_errs s)) s).

(** select { case values <- value: default: emitErr } *)
Definition emitValue (v : goval) : SB unit :=
  s ← get;
  if chan_full (sub_values s) then emitErr (Errorf "implicit values channel full; dropping packet")
  else modify (fun s => set_channels (chan_send v (sub_values s)) (sub_errs s) s).

(** emitErr and continue *)
Definition or_emit {A} (what : string) (r : res A) (k : A -> SB unit) : SB unit :=
  match r with
  | Ok a => k a
  | Err e => emitErr (Wrap what e)
  | Panic why => panic why
  end.

Definition udp_buffer : nat := Z.to_nat 8192.

(** A datagram: buf[:n] of the bytes of buf. *)
Definition receive_datagram (d : bytes) : SB unit :=
  let d := take udp_buffer d in
  if (length d =? 0)%nat then mret tt
  else
    or_emit "implicit packet decode failed" (fst (readItems d)) (fun items =>
    match items with
    | [item0; item1] =>
        if negb (item_ID item0 =? cipItem_SequenceAddress) || negb (item_ID item1 =? cipItem_ConnectedData) then mret tt
        else
          or_emit "implicit sequence address decode failed"
            (fst (read_struct 8 (c ← read_u32; _ ← read_u32; mret c) item0)) (fun connectionID =>
          s ← get;
          if negb (connectionID =? sub_toConnectionID s) then mret tt
          else
            match Uint16 item1 with
            | (Ok _, item1) =>
                payload ← lift (Rest item1);
                or_emit "implicit payload unpack failed" (decodeImplicitPayload payload) emitValue
            | (Err e, _) => emitErr (Wrap "implicit connected-data sequence decode failed" e)
            | (Panic why, _) => panic why
            end)
    | _ => mret tt
    end).

(** What ReadFrom comes back with. *)
Inductive udp_event :=
  | Datagram (d : bytes)
  | Timeout_
  | ReceiveError (e : error).

(** One round of the loop, false when it returns: the stop channel is looked
    at, then the socket is read, while others do [during]. *)
Definition run_round (during : ImplicitSubscription -> ImplicitSubscription) (ev : udp_event) : SB bool :=
  s ← get;
  if sub_stopCh s then mret false
  else
    _ ← modify during;
    match ev with
    | Timeout_ => mret true
    | ReceiveError e =>
        s ← get;
        if sub_stopCh s then mret false
        else _ ← emitErr (Wrap "implicit UDP receive failed" e); mret true
    | Datagram d => _ ← receive_datagram d; mret true
    end.

(** The loop over what comes, with what others do before and during each
    round; [None] while it still runs. *)
Fixpoint run (evs : list ((ImplicitSubscription -> ImplicitSubscription) * (ImplicitSubscription -> ImplicitSubscription) * udp_event))
    : SB bool :=
  match evs with
  | [] => mret false
  | (before, during, ev) :: evs =>
      _ ← modify before;
      go_on ← run_round during ev;
      if (go_on : bool) then run evs else _ ← modify run_returned; mret true
  end.
End Receive.

(** ** Stopping *)

Section Stop.
Abbreviation CS := (M (client_world * ImplicitSubscription)).

Definition forwardCloseBySerial (serial vendorID originatorSerial : Z) : M client_world unit :=
  path ← connection_path;
  let item1 := Write path (Write (unregister_bytes {|
    fc_Service := CIPService_ForwardClose; fc_PathSize := 2; fc_ClassType := Class_.cipClass_8bit;
    fc_Class := 0x06; fc_InstanceType := Instance_.cipInstance_8bit;
    fc_Instance := 1; fc_Priority := 0x0A; fc_TimeoutTicks := 0x0E;
    fc_ConnectionSerialNumber := serial; fc_VendorID := vendorID;
    fc_OriginatorSerialNumber := originatorSerial; fc_ConnPathSize := u8 (blen path / 2) |})
    (empty_item cipItem_UnconnectedData)) in
  '(header, data) ← wrapM "error sending forward-close request"
    (send_recv_data cipCommandSendRRData [serializeItems [empty_item 0; item1]]);
  _ ← wrapM "error parsing forward-close response" (lift (parseResponse header data));
  mret tt.

(** The second call does nothing.  The loop, whose socket is closed, sees the
    stop channel at its next select: that is the wait for doneCh. *)
Definition Stop : CS unit := fun '(w, s) =>
  if sub_closed s then (Ok tt, (w, s))
  else
    let s := mark_stopped s in
    let '(r, w) :=
      if bool_decide (connStatus (link w) = connectionStatusConnected) then
        forwardCloseBySerial (sub_connectionSerial s) (sub_vendorID s) (sub_originatorSerial s) w
      else (Ok tt, w) in
    (r, (w, run_returned s)).
End Stop.
