(* ===== verification/Identity.v ===== *)
(** * Identity and services of a device (listidentity.go, listservices.go, device_type.go)

    The two discovery commands of the client, sent without a payload and
    outside any connection, and the decoders of their answers; the table of
    device types. *)
From Stdlib Require Import Ascii String.
From S2P Require Import Prelude Reader CipNames VendorNames Items Templates Messages Client ClientTags.

(** ** device_type.go *)

Definition cipDeviceTypeNames : list (Z * string) := [
  (0x00, "Generic Device (deprecated)"%string);
  (0x02, "AC Drive"%string);
  (0x03, "Motor Overload"%string);
  (0x04, "Limit Switch"%string);
  (0x05, "Inductive Proximity Switch"%string);
  (0x06, "Photoelectric Sensor"%string);
  (0x07, "General Purpose Discrete I/O"%string);
  (0x09, "Resolver"%string);
  (0x0C, "Communications Adapter"%string);
  (0x0E, "Programmable Logic Controller"%string);
  (0x10, "Position Controller"%string);
  (0x13, "DC Drive"%string);
  (0x15, "Contactor"%string);
  (0x16, "Motor Starter"%string);
  (0x17, "Soft Start"%string);
  (0x18, "Human-Machine Interface"%string);
  (0x1A, "Mass Flow Controller"%string);
  (0x1B, "Pneumatic Valve"%string);
  (0x1C, "Vacuum Pressure Gauge"%string);
  (0x1D, "Process Control Value"%string);
  (0x1E, "Residual Gas Analyzer"%string);
  (0x1F, "DC Power Generator"%string);
  (0x20, "RF Power Generator"%string);
  (0x21, "Turbomolecular Vacuum Pump"%string);
  (0x22, "Encoder"%string);
  (0x23, "Safety Discrete I/O Device"%string);
  (0x24, "Fluid Flow Controller"%string);
  (0x25, "CIP Motion Drive"%string);
  (0x26, "CompoNet Repeater"%string);
  (0x27, "Mass Flow Controller, Enhanced"%string);
  (0x28, "CIP Modbus Device"%string);
  (0x29, "CIP Modbus Translator"%string);
  (0x2A, "Safety Analog I/O Device"%string);
  (0x2B, "Generic Device (keyable)"%string);
  (0x2C, "Managed Ethernet Switch"%string);
  (0x2D, "CIP Motion Safety Drive Device"%string);
  (0x2E, "Safety Drive Device"%string);
  (0x2F, "CIP Motion Encoder"%string);
  (0x30, "CIP Motion Converter"%string);
  (0x31, "CIP Motion I/O"%string);
  (0x32, "ControlNet Physical Layer Component"%string);
  (0x33, "Circuit Breaker"%string);
  (0x34, "HART Device"%string);
  (0x35, "CIP-HART Translator"%string);
  (0xC8, "Embedded Component"%string)
].

Definition DeviceType_Name (v : Z) : string := switch v cipDeviceTypeNames "Unknown"%string.

(** ** listidentity.go *)

(** binary.Read with binary.BigEndian *)
Definition read_be {R} `{Reader R} (n : nat) : M R Z := b ← read_full n; mret (le_val (rev b)).

Record listIdentitySocketAddress := {
  Family : Z; Port : Z;                     (* uint16 *)
  Address : Z; Zero0 : Z; Zero1 : Z;        (* uint32 *)
}.

Record listIdentityResponeBody := {
  EncapProtocolVersion : Z;                 (* uint16 *)
  SocketAddress : listIdentitySocketAddress;
  Vendor : Z; DeviceType : Z; ProductCode : Z; Revision : Z; Status : Z;   (* uint16 *)
  SerialNumber : Z;                         (* uint32 *)
  ProductName : bytes;
  State : Z;                                (* uint8 *)
}.

Definition read_socket_address {R} `{Reader R} : M R listIdentitySocketAddress :=
  read_struct 16 (f ← read_be 2; p ← read_be 2; a ← read_be 4; z0 ← read_be 4; z1 ← read_be 4;
    mret {| Family := f; Port := p; Address := a; Zero0 := z0; Zero1 := z1 |}).

(** ParseFromBytes, of a buffer over the item's data *)
Definition ParseIdentity {R} `{Reader R} : M R listIdentityResponeBody :=
  version ← wrapM "problem reading list identity response. field EncapProtocolVersion" read_u16;
  address ← wrapM "problem reading list identity response. field SocketAddress" read_socket_address;
  vendor ← wrapM "problem reading list identity response. field Vendor" read_u16;
  device ← wrapM "problem reading list identity response. field DeviceType" read_u16;
  product ← wrapM "problem reading list identity response. field ProductCode" read_u16;
  revision ← wrapM "problem reading list identity response. field Revision" read_u16;
  status ← wrapM "problem reading list identity response. field Status" read_u16;
  serial ← wrapM "problem reading list identity response. field SerialNumber" read_u32;
  productNameLength ← wrapM "problem reading list identity response. field ProductNameLength" read_u8;
  productName ← wrapM "problem reading list identity response. field ProductName"
    (read_slice (Z.to_nat productNameLength));
  state ← wrapM "problem reading list identity response. field State" read_u8;
  mret {| EncapProtocolVersion := version; SocketAddress := address; Vendor := vendor; DeviceType := device;
          ProductCode := product; Revision := revision; Status := status; SerialNumber := serial;
          ProductName := productName; State := state |}.

(** ** listservices.go *)

Record CIPListService := {
  ls_EncapProtocolVersion : Z;              (* uint16 *)
  ls_Capabilities : Z;                      (* ServiceCapabilityFlags *)
  ls_Name : bytes;
}.

(** ParseFromBytes: the name is 16 bytes, less the NULs at its end. *)
Definition ParseService {R} `{Reader R} : M R CIPListService :=
  version ← wrapM "problem reading list services response. field EncapProtocolVersion" read_u16;
  flags ← wrapM "problem reading list services response. field CapFlags" read_u16;
  name ← wrapM "problem reading list services response. field Name" (read_slice 16);
  mret {| ls_EncapProtocolVersion := version; ls_Capabilities := flags; ls_Name := trim_right0 name |}.

(** The services of the items, up to the first that is not one. *)
Fixpoint parse_services (items : list CIPItem) : res (list CIPListService) :=
  match items with
  | [] => Ok []
  | i :: items =>
      s ← res_wrap "problem reading list services response" (fst (ParseService (item_Data i)));
      l ← parse_services items;
      Ok (s :: l)
  end.

(** ** The commands *)

Section Commands.
Abbreviation C := (M client_world).

(** The first item is the one of interest: a device with two ports may
    answer several. *)
Definition ListIdentity : C listIdentityResponeBody :=
  '(_, data) ← send_recv_data cipCommandListIdentity [];
  items ← wrapM "couldn't parse items" (lift (fst (readItems data)));
  match items with
  | [] => fail (Errorf "expected at least 1 item")
  | i :: _ => wrapM "problem reading list identity response" (lift (fst (ParseIdentity (item_Data i))))
  end.

Definition ListServices : C (list CIPListService) :=
  '(_, data) ← send_recv_data cipCommandListServices [];
  items ← wrapM "couldn't parse items" (lift (fst (readItems data)));
  lift (parse_services items).
End Commands.
