(* ===== verification/TagGroup.v ===== *)
(** * Tag groups (taggroup.go, taggroup_readmap.go)

    A reusable list of tags with placeholders in their names, the Go values
    that ReadMap takes their types from, the names of the elements of an
    array tag, and the typed accessors of the result. *)
From S2P Require Import Prelude Reader GoStrings GoValue CipNames CipDefs Types Templates Items Ioi TagPath Pack Messages Client ClientTags MultiRead.

Record TagDef := {
  tg_Name : bytes;
  tg_Type : Z;
  tg_Elements : Z;   (* int: 0 or 1 is a scalar *)
}.

(** TagGroup: its defs *)
Abbreviation TagGroup := (list TagDef).

Definition NewTagGroup (defs : list TagDef) : TagGroup :=
  map (fun d => if tg_Elements d <=? 0 then {| tg_Name := tg_Name d; tg_Type := tg_Type d; tg_Elements := 1 |} else d) defs.

Definition Defs (g : TagGroup) : list TagDef := g.

(** make([]T, n) *)
Definition make_slice (t : gotype) (n : Z) : goval := VSlice t (replicate (Z.to_nat n) (go_zero t)).

(** The Go types of the codes, in a slice and alone; int32 for the others. *)
Definition slice_type (ty : Z) : gotype :=
  switch ty [
    (CIPTypeBOOL, TBool); (CIPTypeSINT, TInt I8); (CIPTypeBYTE, TInt U8); (CIPTypeUSINT, TInt U8);
    (CIPTypeINT, TInt I16); (CIPTypeUINT, TInt U16); (CIPTypeDINT, TInt I32); (CIPTypeUDINT, TInt U32);
    (CIPTypeDWORD, TInt U32); (CIPTypeLINT, TInt I64); (CIPTypeLWORD, TInt U64); (CIPTypeULINT, TInt U64);
    (CIPTypeREAL, TFloat32); (CIPTypeLREAL, TFloat64); (CIPTypeSTRING, TString)
  ] (TInt I32).
Definition scalar_type (ty : Z) : gotype := if ty =? CIPTypeWORD then TInt U16 else slice_type ty.

Definition zeroValueForTagDef (def : TagDef) : goval :=
  if 1 <? tg_Elements def then make_slice (slice_type (tg_Type def)) (tg_Elements def)
  else go_zero (scalar_type (tg_Type def)).

(** fmt.Sprintf("%d", z) *)
Definition Sprintf_d (z : Z) : bytes := if z <? 0 then 45 :: dec (- z) else dec z.

Definition expandArrayTag (baseName : bytes) (count : Z) : list bytes :=
  if count <=? 1 then [baseName]
  else
    let same := replicate (Z.to_nat count) baseName in
    match parse_tag_name baseName with
    | Ok tag =>
        match Array_Order tag, last_index 91 baseName with
        | [], _ | _, None => same
        | order, Some bracketPos =>
            let prefix := take bracketPos baseName in
            let baseIndex := List.last order 0 in
            map (fun i =>
              let indices := map Sprintf_d (removelast order) ++ [Sprintf_d (swrap 64 (baseIndex + Z.of_nat i))] in
              prefix ++ [91] ++ join [44] indices ++ [93]) (seq 0 (Z.to_nat count))
        end
    | _ => same
    end.

(** ** Results *)

(** TagGroupResult: its values, by resolved name *)
Abbreviation TagGroupResult := (gmap bytes read_result).

Definition Raw (r : TagGroupResult) : TagGroupResult := r.

Definition Value (r : TagGroupResult) (name : bytes) : res read_result :=
  match r !! name with Some v => Ok v | None => Err (Errorf "tag not found in result") end.

(** v.(T), by a function that knows the type *)
Definition typed_value {A} (as_ : goval -> option A) (r : TagGroupResult) (name : bytes) : res A :=
  v ← Value r name;
  match v with
  | RVal v => match as_ v with Some a => Ok a | None => Err (Errorf "tag has another type") end
  | _ => Err (Errorf "tag has another type")
  end.

Definition as_string_val (v : goval) : option bytes := match v with VString s => Some s | _ => None end.
Definition as_bool_val (v : goval) : option bool := match v with VBool b => Some b | _ => None end.
Definition as_int_val (k : ikind) (v : goval) : option Z :=
  match v with VInt k' z => if decide (k = k') then Some z else None | _ => None end.
Definition as_float32_val (v : goval) : option Z := match v with VFloat32 b => Some b | _ => None end.
Definition as_float64_val (v : goval) : option Z := match v with VFloat64 b => Some b | _ => None end.

Definition Result_String : TagGroupResult -> bytes -> res bytes := typed_value as_string_val.
Definition Result_Bool : TagGroupResult -> bytes -> res bool := typed_value as_bool_val.
Definition Result_Int16 : TagGroupResult -> bytes -> res Z := typed_value (as_int_val I16).
Definition Result_Int32 : TagGroupResult -> bytes -> res Z := typed_value (as_int_val I32).
Definition Result_Float32 : TagGroupResult -> bytes -> res Z := typed_value as_float32_val.
Definition Result_Float64 : TagGroupResult -> bytes -> res Z := typed_value as_float64_val.

(** A DINT is taken for a UDINT. *)
Definition Result_Uint32 : TagGroupResult -> bytes -> res Z :=
  typed_value (fun v => match v with VInt U32 z => Some z | VInt I32 z => Some (u32 z) | _ => None end).

(** A slice of the type, or a []any of such values. *)
Definition slice_value (t : gotype) (as_ : goval -> option Z) : TagGroupResult -> bytes -> res (list Z) :=
  typed_value (fun v =>
    match v with
    | VSlice t' l => if decide (t' = t \/ t' = TAny) then mapM as_ l else None
    | _ => None
    end).
Definition Int32Slice : TagGroupResult -> bytes -> res (list Z) := slice_value (TInt I32) (as_int_val I32).
Definition Float32Slice : TagGroupResult -> bytes -> res (list Z) := slice_value TFloat32 as_float32_val.

(** ** ReadTagGroup *)

(** The map of a group: a name that occurs again replaces the value. *)
Definition group_map (group : TagGroup) (args : list bytes) : gmap bytes goval :=
  fold_left (fun m def => <[formatName (tg_Name def) args := zeroValueForTagDef def]> m) group ∅.

Section ReadTagGroup.
Context `{Methods} (UnixMilli : nat -> Z) (range : gmap bytes goval -> list (bytes * goval)).
Abbreviation C := (M client_world).

Definition ReadTagGroup (group : TagGroup) (args : list bytes) : C TagGroupResult :=
  _ ← wrapM "could not start tag group read" (checkConnection UnixMilli);
  let m := group_map group args in
  r ← wrapM "tag group read failed" (ReadMap UnixMilli (range m));
  mret (match r with
        | Some l => list_to_map l
        | None => RVal <$> m     (* the map as it was: zero values *)
        end).
End ReadTagGroup.

(** ** The elements of an array tag *)

Lemma Sprintf_d_dec z : 0 <= z -> Sprintf_d z = dec z.
Proof. intros Hz. unfold Sprintf_d. by rewrite (proj2 (Z.ltb_ge z 0)). Qed.

(** The names of an array tag's elements: from an element "name[i,..,k]",
    behind any path, the names count the last index up from k and keep the
    others. *)
Theorem expandArrayTag_elements n idx k count :
  Forall idx_ok idx -> 0 <= k -> k + count <= 2 ^ 16 -> 1 < count ->
  expandArrayTag (n ++ [91] ++ idx_text (idx ++ [k]) ++ [93]) count =
    map (fun i => n ++ [91] ++ idx_text (idx ++ [k + Z.of_nat i]) ++ [93]) (seq 0 (Z.to_nat count)).
Proof.
  intros Hidx Hk Hc Hcount. unfold expandArrayTag. rewrite (proj2 (Z.leb_gt count 1)) by done.
  assert (Forall idx_ok (idx ++ [k])) as Hall.
  { apply Forall_app. split; [done|]. apply Forall_cons_2; [unfold idx_ok; lia|apply Forall_nil_2]. }
  destruct (parse_indexed n (idx ++ [k])) as (t & -> & Ho); [by destruct idx|done|]. rewrite Ho.
  change (n ++ [91] ++ idx_text (idx ++ [k]) ++ [93]) with (n ++ 91 :: (idx_text (idx ++ [k]) ++ [93])).
  rewrite last_index_app.
  2: { rewrite not_elem_of_app. split; [by apply idx_text_notin|]. by intros ?%list_elem_of_singleton. }
  destruct (idx ++ [k]) as [|z l] eqn:E; [by destruct idx|]. rewrite <- E.
  rewrite take_app_length. apply map_ext_in. intros i [_ Hi]%in_seq.
  rewrite removelast_last, List.last_last, swrap_small by lia.
  rewrite Sprintf_d_dec by lia. unfold idx_text. rewrite map_app.
  assert (map Sprintf_d idx = map dec idx) as ->; [|done].
  apply map_ext_in. intros z' Hz%list_elem_of_In. apply Sprintf_d_dec.
  rewrite list.Forall_forall in Hidx. by apply Hidx in Hz as [].
Qed.

(** ** The types ReadMap gets *)

(** The code GoVarToCIPType has for the Go type of a code. *)
Definition read_type (ty : Z) (array : bool) : Z :=
  switch ty [
    (CIPTypeBOOL, CIPTypeBOOL); (CIPTypeSINT, CIPTypeSINT); (CIPTypeBYTE, CIPTypeBYTE); (CIPTypeUSINT, CIPTypeBYTE);
    (CIPTypeINT, CIPTypeINT); (CIPTypeUINT, CIPTypeUINT); (CIPTypeDINT, CIPTypeDINT); (CIPTypeUDINT, CIPTypeUDINT);
    (CIPTypeDWORD, CIPTypeUDINT); (CIPTypeLINT, CIPTypeLINT); (CIPTypeLWORD, CIPTypeLWORD); (CIPTypeULINT, CIPTypeLWORD);
    (CIPTypeREAL, CIPTypeREAL); (CIPTypeLREAL, CIPTypeLREAL); (CIPTypeSTRING, CIPTypeSTRING);
    (CIPTypeWORD, if array then CIPTypeDINT else CIPTypeUINT)
  ] CIPTypeDINT.

(** A definition reaches ReadMap with its type (the unsigned and bit string
    codes as their Go integers', an array of WORD and an unknown code as
    DINT) and its number of elements, unless it is an array of BOOL. *)
Lemma zeroValueForTagDef_type def :
  0 < tg_Elements def -> tg_Type def <> CIPTypeBOOL \/ tg_Elements def = 1 ->
  GoVarToCIPType (zeroValueForTagDef def) = (read_type (tg_Type def) (1 <? tg_Elements def), tg_Elements def).
Proof.
  destruct def as [name ty n]. cbn [tg_Type tg_Elements]. intros Hn Hb. unfold zeroValueForTagDef. cbn [tg_Type tg_Elements].
  destruct (Z.ltb_spec 1 n) as [H1|H1].
  - destruct Hb as [Hb|Hb]; [|lia].
    unfold make_slice, slice_type, read_type. cbn [switch]. rewrite (proj2 (Z.eqb_neq ty CIPTypeBOOL)) by done.
    repeat match goal with |- context [if ty =? ?c then _ else _] => destruct (Z.eqb_spec ty c); [subst; cbn; rewrite ?length_replicate, ?Z2Nat.id by lia; done|] end.
    cbn. by rewrite length_replicate, Z2Nat.id by lia.
  - assert (n = 1) as -> by lia. unfold scalar_type, slice_type, read_type. cbn [switch].
    repeat match goal with |- context [if ty =? ?c then _ else _] => destruct (Z.eqb_spec ty c); [subst; done|] end. done.
Qed.

(** An array of BOOL is read as one element of no type. *)
Lemma zeroValueForTagDef_bools name n :
  1 < n -> GoVarToCIPType (zeroValueForTagDef {| tg_Name := name; tg_Type := CIPTypeBOOL; tg_Elements := n |}) = (CIPTypeUnknown, 1).
Proof. intros Hn. unfold zeroValueForTagDef. cbn [tg_Type tg_Elements]. by rewrite (proj2 (Z.ltb_lt 1 n)). Qed.

Lemma expandArrayTag_elements_witness :
  expandArrayTag (str "Line.Rate" ++ [91] ++ idx_text ([2] ++ [7]) ++ [93]) 3 =
    map (fun i => str "Line.Rate" ++ [91] ++ idx_text ([2] ++ [7 + Z.of_nat i]) ++ [93]) (seq 0 (Z.to_nat 3)) /\
  expandArrayTag (str "Line.Rate[2,7]") 3 = [str "Line.Rate[2,7]"; str "Line.Rate[2,8]"; str "Line.Rate[2,9]"].
Proof.
  split; [apply (expandArrayTag_elements (str "Line.Rate") [2] 7 3)|vm_compute; reflexivity].
  - apply Forall_cons_2; [zbound|apply Forall_nil_2].
  - lia.
  - lia.
  - lia.
Defined.
