(* ===== verification/DataTable.v ===== *)
(** * Data table buffers (datatable.go)

    A buffer in the controller that is filled with tags and read at once.
    Its state is the client with its network, the buffer itself and the
    program's variables, which the tags may refer to: ReadAll stores through
    those references, also what it decoded before it failed.

    The order of a range over a map is a parameter, and so is sort.Slice,
    which leaves the order of tags with the same index open. *)
From S2P Require Import Prelude Reader GoStrings GoValue CipNames CipDefs Types Templates Items Ioi Pack Messages Client ClientTags MultiRead TagGroup.

(** ** The program's variables *)

(** A variable and the way into it, through fields and elements. *)
Record loc := { l_var : nat; l_path : list nat }.

(** What an interface value holds that is given as the place of a tag's
    value: nothing, a plain value, a pointer of a type. *)
Inductive reference :=
  | RefNil
  | RefValue (v : goval)
  | RefPtr (t : gotype) (l : option loc).

Abbreviation variables := (gmap nat goval).

(** The value at the end of a path; the value with another one there. *)
Fixpoint value_at (p : list nat) (v : goval) : option goval :=
  match p with
  | [] => Some v
  | i :: p =>
      match v with
      | VStruct _ _ l | VSlice _ l | VArray _ l => l !! i ≫= value_at p
      | _ => None
      end
  end.
Fixpoint put_at (p : list nat) (x v : goval) : goval :=
  match p with
  | [] => x
  | i :: p =>
      match v with
      | VStruct n fs l => VStruct n fs (alter (put_at p x) i l)
      | VSlice t l => VSlice t (alter (put_at p x) i l)
      | VArray t l => VArray t (alter (put_at p x) i l)
      | _ => v
      end
  end.

Definition load (vs : variables) (l : loc) : option goval := vs !! l_var l ≫= value_at (l_path l).
Definition store (l : loc) (x : goval) (vs : variables) : variables := alter (put_at (l_path l) x) (l_var l) vs.

(** The interface value as GoVarToCIPType sees it. *)
Definition reference_value (vs : variables) (r : reference) : goval :=
  match r with
  | RefNil => VNil
  | RefValue v => v
  | RefPtr t l => VPtr t (l ≫= load vs)
  end.

Definition setGoVar (dest : reference) (value : goval) : M variables unit :=
  match dest with
  | RefPtr t l =>
      match l with
      | None => fail (Errorf "cannot set value on Var field")
      | Some l =>
          if assignable t value then modify (store l value)
          else fail (Errorf "cannot assign value to Var field")
      end
  | _ => fail (Errorf "Var field must be a pointer to set value")
  end.

(** ** The buffer *)

Record DataTableBufferTag := {
  dt_Name : bytes;
  dt_CIPType : Z;
  dt_DataTypeSize : Z;   (* uint16 *)
  dt_index : Z;          (* uint16 *)
  dt_ioi : bytes;
  dt_batchID : Z;        (* uint16 *)
  dt_synched : bool;
  dt_Var : reference;
}.

Definition Index (t : DataTableBufferTag) : Z := dt_index t.

Record DataTableBuffer := {
  instanceID : Z;
  tags : list DataTableBufferTag;
  expansions : gmap bytes (list bytes);
  created : bool;
  synched : bool;
}.

Definition InstanceID (buf : DataTableBuffer) : Z := instanceID buf.
Definition Tags (buf : DataTableBuffer) : list DataTableBufferTag := tags buf.

Definition set_tags (l : list DataTableBufferTag) (b : DataTableBuffer) : DataTableBuffer :=
  {| instanceID := instanceID b; tags := l; expansions := expansions b; created := created b; synched := synched b |}.
Definition set_synched (s : bool) (b : DataTableBuffer) : DataTableBuffer :=
  {| instanceID := instanceID b; tags := tags b; expansions := expansions b; created := created b; synched := s |}.
Definition set_created (c : bool) (b : DataTableBuffer) : DataTableBuffer :=
  {| instanceID := instanceID b; tags := tags b; expansions := expansions b; created := c; synched := synched b |}.
Definition set_expansion (base : bytes) (names : list bytes) (b : DataTableBuffer) : DataTableBuffer :=
  {| instanceID := instanceID b; tags := tags b; expansions := <[base := names]> (expansions b);
     created := created b; synched := synched b |}.

Definition dataTablePath (instanceID : Z) : bytes := [0x20; 0xB2; 0x25; 0x00] ++ le_bytes 2 instanceID.

Definition dataTableTypeSize (t : Z) : res Z :=
  if (t =? CIPTypeSTRING) || (t =? CIPTypeStruct) then Ok 88
  else
    let s := Types.Size t in
    if s =? 0 then Err (Errorf "unsupported CIP type for datatable buffer") else Ok (u16 s).

(** The size in the catalog for strings and structures, the default of the
    type otherwise. *)
Definition resolveTypeSize (known : option (gmap bytes KnownTag)) (tagName : bytes) (cipType : Z) : res Z :=
  if (cipType =? CIPTypeSTRING) || (cipType =? CIPTypeStruct) then
    match default ∅ known !! to_lower tagName ≫= kt_UDT with
    | Some u =>
        if 0 <? tr_SizeBytes (ud_Info u) then Ok (u16 (tr_SizeBytes (ud_Info u))) else dataTableTypeSize cipType
    | None => dataTableTypeSize cipType
    end
  else dataTableTypeSize cipType.

Definition decodeDataTableValue (cipType : Z) (raw : bytes) : res goval :=
  if (cipType =? CIPTypeSTRING) || (cipType =? CIPTypeStruct) then
    if blen raw <? 4 then Err (Errorf "STRING data too short")
    else
      let strLen := le_val (take 4 raw) in
      let strLen := if u32 (blen raw - 4) <? strLen then u32 (blen raw - 4) else strLen in
      let strLen := if 82 <? strLen then 82 else strLen in
      Ok (VString (take (Z.to_nat strLen) (drop 4 raw)))
  else fst (readValue cipType raw).

(** ** The client's messages *)

(** addTagEntry: a tag's size, path, and position in the buffer *)
Record addTagEntry := { e_dataTypeSize : Z; e_ioi : bytes; e_index : nat }.

Definition entry_bytes (e : addTagEntry) : bytes :=
  le_bytes 2 (e_dataTypeSize e) ++ [u8 (blen (e_ioi e) / 2)] ++ e_ioi e.

Definition add_tags_data (entries : list addTagEntry) : bytes :=
  [0x02; 0x00; 0x01; 0x01] ++ [u8 (Z.of_nat (length entries))] ++ concat (map entry_bytes entries).

Section Client.
Context (UnixMilli : nat -> Z).
Abbreviation C := (M client_world).

Definition CreateDataTableBuffer : C Z :=
  _ ← wrapM "could not create datatable buffer" (checkConnection UnixMilli);
  resp ← wrapM "datatable buffer create failed"
    (GenericCIPMessage CIPService_Create (dataTablePath 0) [0x01; 0x00; 0x03; 0x00; 0x03; 0x00]);
  '(id, _) ← on resp (wrapM "could not read instance ID from create response" Uint16);
  mret id.

Definition DeleteDataTableBuffer (instanceID : Z) : C unit :=
  _ ← wrapM "could not delete datatable buffer" (checkConnection UnixMilli);
  _ ← wrapM "datatable buffer delete failed" (GenericCIPMessage CIPService_Delete (dataTablePath instanceID) []);
  mret tt.

Definition DataTableAddTags (instanceID : Z) (entries : list addTagEntry) : C Z :=
  _ ← wrapM "could not add tag to datatable buffer" (checkConnection UnixMilli);
  resp ← wrapM "datatable add tag failed"
    (GenericCIPMessage 0x4E (dataTablePath instanceID) (add_tags_data entries));
  '(batchIndex, _) ← on resp (wrapM "could not read batch index from add tag response" Uint16);
  mret batchIndex.

Definition DataTableAddTag (instanceID dataTypeSize : Z) (tagIOIs : bytes) : C Z :=
  DataTableAddTags instanceID [{| e_dataTypeSize := dataTypeSize; e_ioi := tagIOIs; e_index := 0 |}].

Definition DataTableReadBuffer (instanceID : Z) : C CIPItem :=
  _ ← wrapM "could not read datatable buffer" (checkConnection UnixMilli);
  wrapM "datatable buffer read failed" (GenericCIPMessage CIPService_Read (dataTablePath instanceID) []).

Definition DataTableRemoveTag (instanceID tagIndex : Z) : C unit :=
  _ ← wrapM "could not remove tag from datatable buffer" (checkConnection UnixMilli);
  _ ← wrapM "datatable remove tag failed"
    (GenericCIPMessage CIPService_RemoveTagFromBuffer (dataTablePath instanceID) (le_bytes 2 tagIndex));
  mret tt.

Definition NewDataTableBuffer : C DataTableBuffer :=
  id ← CreateDataTableBuffer;
  mret {| instanceID := id; tags := []; expansions := ∅; created := true; synched := false |}.

(** ** The buffer's operations *)

Record table_world := { tw_client : client_world; tw_buf : DataTableBuffer; tw_vars : variables }.
Abbreviation T := (M table_world).

Definition set_client (c : client_world) (w : table_world) : table_world :=
  {| tw_client := c; tw_buf := tw_buf w; tw_vars := tw_vars w |}.
Definition set_buf (b : DataTableBuffer) (w : table_world) : table_world :=
  {| tw_client := tw_client w; tw_buf := b; tw_vars := tw_vars w |}.
Definition set_vars (vs : variables) (w : table_world) : table_world :=
  {| tw_client := tw_client w; tw_buf := tw_buf w; tw_vars := vs |}.

Definition on_client {A} (m : C A) : T A := zoom tw_client set_client m.
Definition on_vars {A} (m : M variables A) : T A := zoom tw_vars set_vars m.
Definition upd_buf (f : DataTableBuffer -> DataTableBuffer) : T unit := modify (fun w => set_buf (f (tw_buf w)) w).

Definition require_created : T unit :=
  b ← gets tw_buf;
  if created b then mret tt else fail (Errorf "datatable buffer not created").

(** The path and the size of a tag that is to be added. *)
Definition prepare_tag (tagName : bytes) (cipType : Z) : T (Z * bytes) :=
  path ← wrapM "could not create IOI for tag" (on_client (client_newIOI UnixMilli tagName cipType));
  known ← gets (fun w => KnownTags (ioi (cw_client (tw_client w))));
  typeSize ← lift (res_wrap "tag" (resolveTypeSize known tagName cipType));
  mret (typeSize, ioi_Buffer path).

Definition new_tag (name : bytes) (cipType typeSize index : Z) (path : bytes) (data : reference) : DataTableBufferTag :=
  {| dt_Name := name; dt_CIPType := cipType; dt_DataTypeSize := typeSize; dt_index := index; dt_ioi := path;
     dt_batchID := 0; dt_synched := false; dt_Var := data |}.

Definition append_tag (name : bytes) (cipType typeSize : Z) (path : bytes) (data : reference) (b : DataTableBuffer)
    : DataTableBuffer :=
  set_tags (tags b ++ [new_tag name cipType typeSize (u16 (Z.of_nat (length (tags b)) + 1)) path data]) (set_synched false b).

Definition AddTagRef (tagName : bytes) (data : reference) : T unit :=
  _ ← require_created;
  vs ← gets tw_vars;
  let cipType := fst (GoVarToCIPType (reference_value vs data)) in
  '(typeSize, path) ← prepare_tag tagName cipType;
  upd_buf (append_tag tagName cipType typeSize path data).

Definition AddTag (tagName : bytes) (cipType : Z) : T unit :=
  _ ← require_created;
  '(typeSize, path) ← prepare_tag tagName cipType;
  upd_buf (append_tag tagName cipType typeSize path RefNil).

(** The entries of the tags that were not sent yet. *)
Fixpoint unsynched_entries (i : nat) (l : list DataTableBufferTag) : list addTagEntry :=
  match l with
  | [] => []
  | t :: l =>
      if dt_synched t then unsynched_entries (S i) l
      else {| e_dataTypeSize := dt_DataTypeSize t; e_ioi := dt_ioi t; e_index := i |} :: unsynched_entries (S i) l
  end.

Definition mark_synched (batchID : Z) (t : DataTableBufferTag) : DataTableBufferTag :=
  {| dt_Name := dt_Name t; dt_CIPType := dt_CIPType t; dt_DataTypeSize := dt_DataTypeSize t; dt_index := dt_index t;
     dt_ioi := dt_ioi t; dt_batchID := batchID; dt_synched := true; dt_Var := dt_Var t |}.

Definition SyncTags : T unit :=
  b ← gets tw_buf;
  let entries := unsynched_entries 0 (tags b) in
  batchID ← wrapM "could not add tags to buffer" (on_client (DataTableAddTags (instanceID b) entries));
  upd_buf (fun b => set_synched true
    (set_tags (fold_left (fun l e => alter (mark_synched batchID) (e_index e) l) entries (tags b)) b)).

(** What AddTags has prepared for a tag: name, type, size, path. *)
Fixpoint prepare_tags (l : list (bytes * Z)) : T (list (bytes * Z * Z * bytes)) :=
  match l with
  | [] => mret []
  | (name, cipType) :: l =>
      '(typeSize, path) ← prepare_tag name cipType;
      rest ← prepare_tags l;
      mret ((name, cipType, typeSize, path) :: rest)
  end.

Fixpoint numbered_tags (index : Z) (l : list (bytes * Z * Z * bytes)) : list DataTableBufferTag :=
  match l with
  | [] => []
  | (name, cipType, typeSize, path) :: l =>
      new_tag name cipType typeSize (u16 index) path RefNil :: numbered_tags (index + 1) l
  end.

(** The tags of the map, in the order of its range. *)
Definition AddTags (types : list (bytes * Z)) : T unit :=
  _ ← require_created;
  prepared ← prepare_tags types;
  upd_buf (fun b => set_synched false
    (set_tags (tags b ++ numbered_tags (Z.of_nat (length (tags b)) + 1) prepared) b)).

(** ** Reading *)

Context (sort_slice : list DataTableBufferTag -> list DataTableBufferTag).

(** The next slot of a reply: the header of its batch, when that is another
    one than before, then the bytes of the tag's size. *)
Definition read_slot (currentBatch : Z) (tag : DataTableBufferTag) : M CIPItem bytes :=
  _ ← (if negb (dt_batchID tag =? currentBatch) then wrapM "could not read batch header" (_ ← Uint16; mret tt)
       else mret tt);
  i ← get;
  if blen (item_Data i) <? item_Pos i + dt_DataTypeSize tag then fail (Errorf "not enough data for tag")
  else
    let raw := take (Z.to_nat (dt_DataTypeSize tag)) (drop (Z.to_nat (item_Pos i)) (item_Data i)) in
    _ ← modify (set_Pos (item_Pos i + dt_DataTypeSize tag));
    mret raw.

(** Decode the value, keep it under its name and in the variable. *)
Definition store_value (tag : DataTableBufferTag) (raw : bytes) : M variables goval :=
  value ← lift (res_wrap "could not decode value for tag" (decodeDataTableValue (dt_CIPType tag) raw));
  _ ← (match dt_Var tag with
       | RefNil => mret tt
       | dest => wrapM "could not set Var field for tag" (setGoVar dest value)
       end);
  mret value.

Fixpoint read_values (currentBatch : Z) (resp : CIPItem) (sorted : list DataTableBufferTag) (result : gmap bytes goval)
    : M variables (gmap bytes goval) :=
  match sorted with
  | [] => mret result
  | tag :: sorted =>
      '(raw, resp) ← on resp (read_slot currentBatch tag);
      value ← store_value tag raw;
      read_values (dt_batchID tag) resp sorted (<[dt_Name tag := value]> result)
  end.

Fixpoint read_raw (currentBatch : Z) (sorted : list DataTableBufferTag) (result : gmap bytes bytes)
    : M CIPItem (gmap bytes bytes) :=
  match sorted with
  | [] => mret result
  | tag :: sorted =>
      raw ← read_slot currentBatch tag;
      read_raw (dt_batchID tag) sorted (<[dt_Name tag := raw]> result)
  end.

(** What both reads do first: send the new tags, ask for the buffer. *)
Definition read_reply : T (CIPItem * list DataTableBufferTag) :=
  _ ← require_created;
  b ← gets tw_buf;
  if bool_decide (tags b = []) then fail (Errorf "no tags in datatable buffer")
  else
    _ ← (if negb (synched b) then wrapM "could not sync tags before read" SyncTags else mret tt);
    resp ← on_client (DataTableReadBuffer (instanceID b));
    b ← gets tw_buf;
    mret (resp, sort_slice (tags b)).

Definition ReadAll : T (gmap bytes goval) :=
  '(resp, sorted) ← read_reply;
  on_vars (read_values 0 resp sorted ∅).

Definition ReadAllRaw : T (gmap bytes bytes) :=
  '(resp, sorted) ← read_reply;
  '(result, _) ← on resp (read_raw 0 sorted ∅);
  mret result.

(** The first tag of the name. *)
Fixpoint tag_position (name : bytes) (l : list DataTableBufferTag) : option nat :=
  match l with
  | [] => None
  | t :: l => if bool_decide (dt_Name t = name) then Some O else S <$> tag_position name l
  end.

Definition RemoveTag (tagName : bytes) : T unit :=
  _ ← require_created;
  b ← gets tw_buf;
  match tag_position tagName (tags b) with
  | None => fail (Errorf "tag not found in buffer")
  | Some idx =>
      index ← lift (match tags b !! idx with Some t => Ok (dt_index t) | None => Panic out_of_range end);
      _ ← wrapM "could not remove tag from buffer" (on_client (DataTableRemoveTag (instanceID b) index));
      upd_buf (fun b => set_tags (take idx (tags b) ++ drop (S idx) (tags b)) b)
  end.

Definition Close : T unit :=
  b ← gets tw_buf;
  if negb (created b) then mret tt
  else
    r ← try (on_client (DeleteDataTableBuffer (instanceID b)));
    _ ← upd_buf (set_created false);
    match r with
    | inl e => fail (Wrap "could not delete datatable buffer" e)
    | inr _ => mret tt
    end.

(** ** Tag groups and tagged structs *)

Context (range_types : gmap bytes Z -> list (bytes * Z))
        (range_expansions : gmap bytes (list bytes) -> list (bytes * list bytes)).

(** A group's map of types; the names of its arrays' elements are noted. *)
Fixpoint group_types (defs : list TagDef) (args : list bytes) (tagMap : gmap bytes Z) : T (gmap bytes Z) :=
  match defs with
  | [] => mret tagMap
  | def :: defs =>
      let resolvedName := formatName (tg_Name def) args in
      let expanded := if 1 <? tg_Elements def then expandArrayTag resolvedName (tg_Elements def) else [resolvedName] in
      _ ← upd_buf (set_expansion resolvedName expanded);
      group_types defs args (fold_left (fun m name => <[name := tg_Type def]> m) expanded tagMap)
  end.

Definition AddTagGroup (group : TagGroup) (args : list bytes) : T unit :=
  _ ← require_created;
  tagMap ← group_types group args ∅;
  AddTags (range_types tagMap).

(** The names of a slice's elements with the pointers to them. *)
Fixpoint element_refs (t : gotype) (l : loc) (len : nat) (i : nat) (names : list bytes) (ptrs : gmap bytes reference)
    : gmap bytes reference :=
  match names with
  | [] => ptrs
  | name :: names =>
      let p := {| l_var := l_var l; l_path := l_path l ++ [i] |} in
      element_refs t l len (S i) names (if (i <? len)%nat then <[name := RefPtr t (Some p)]> ptrs else ptrs)
  end.

(** The fields of the struct at a place: position, path, value. *)
Fixpoint struct_types (str : loc) (fields : list (fieldinfo * gotype)) (tagged : list (nat * bytes * goval))
    (tagMap : gmap bytes Z) (varPtrs : gmap bytes reference) : T (gmap bytes Z * gmap bytes reference) :=
  match tagged with
  | [] => mret (tagMap, varPtrs)
  | (i, tagPath, fieldVal) :: tagged =>
      let '(cipType, elements) := GoVarToCIPType fieldVal in
      let here := {| l_var := l_var str; l_path := l_path str ++ [i] |} in
      if 1 <? elements then
        let expanded := expandArrayTag tagPath elements in
        _ ← upd_buf (set_expansion tagPath expanded);
        struct_types str fields tagged (fold_left (fun m name => <[name := cipType]> m) expanded tagMap)
          (match fieldVal with
           | VSlice t l => element_refs t here (length l) 0 expanded varPtrs
           | _ => varPtrs
           end)
      else
        _ ← upd_buf (set_expansion tagPath [tagPath]);
        struct_types str fields tagged (<[tagPath := cipType]> tagMap)
          (match fields !! i with
           | Some (_, t) => <[tagPath := RefPtr t (Some here)]> varPtrs
           | None => varPtrs
           end)
  end.

Definition set_Var (ptrs : gmap bytes reference) (t : DataTableBufferTag) : DataTableBufferTag :=
  match ptrs !! dt_Name t with
  | Some p =>
      {| dt_Name := dt_Name t; dt_CIPType := dt_CIPType t; dt_DataTypeSize := dt_DataTypeSize t; dt_index := dt_index t;
         dt_ioi := dt_ioi t; dt_batchID := dt_batchID t; dt_synched := dt_synched t; dt_Var := p |}
  | None => t
  end.

(** Of a pointer to the struct at a place. *)
Definition AddTaggedStruct (str : loc) (args : option (list bytes)) : T unit :=
  _ ← require_created;
  vs ← gets tw_vars;
  match load vs str with
  | Some (VStruct _ fields vals) =>
      '(tagMap, varPtrs) ← struct_types str fields (tagged_fields 0 fields vals args) ∅ ∅;
      _ ← AddTags (range_types tagMap);
      upd_buf (fun b => set_tags (map (set_Var varPtrs) (tags b)) b)
  | _ => panic "reflect: VisibleFields of non-struct type"
  end.

(** The values of an array tag's elements, collapsed into a slice; the names
    that were used. *)
Fixpoint collapse (rawValues : gmap bytes goval) (l : list (bytes * list bytes)) (result : gmap bytes goval) (consumed : gset bytes)
    : res (gmap bytes goval * gset bytes) :=
  match l with
  | [] => Ok (result, consumed)
  | (baseName, expanded) :: l =>
      match mapM (fun name => rawValues !! name) expanded with
      | None => Err (Errorf "expanded tag not found in buffer response")
      | Some values =>
          let result :=
            match values with
            | [] => result
            | [v] => <[baseName := v]> result
            | _ => <[baseName := VSlice TAny values]> result
            end in
          collapse rawValues l result (list_to_set expanded ∪ consumed)
      end
  end.

Definition collapse_all (rawValues : gmap bytes goval) (exps : gmap bytes (list bytes)) : res TagGroupResult :=
  '(result, consumed) ← collapse rawValues (range_expansions exps) ∅ ∅;
  Ok (RVal <$> (filter (fun kv => kv.1 ∉ consumed) rawValues ∪ result)).

Definition ReadAllTyped : T TagGroupResult :=
  rawValues ← ReadAll;
  b ← gets tw_buf;
  if bool_decide (expansions b = ∅) then mret (RVal <$> rawValues : TagGroupResult)
  else lift (collapse_all rawValues (expansions b)).
End Client.
