(* ===== verification/ClientConn.v ===== *)
(** * The client's connection state machine

    What the status and the socket are after each operation, however the
    network behaves, and what the connection messages contain. *)
From S2P Require Import Prelude Reader GoStrings GoValue CipNames CipDefs Types Items Ioi Path Messages Client.

(** ** What leaves the status alone *)

Definition status (w : client_world) : connectionStatus := connStatus (link w).

(** A computation that does not touch the status, nor the socket's being open. *)
Definition open_ (w : client_world) : option bool := option_map nc_open (conn (link w)).
Definition shape (w : client_world) :=
  (status w, open_ w, keepAliveRunning (link w), keepalive_closed (link w), config w).
Definition quiet {A} (m : M client_world A) : Prop := forall w, shape (snd (m w)) = shape w.

Lemma quiet_ret {A} (a : A) : quiet (mret a).
Proof. done. Qed.
Lemma quiet_fail {A} e : quiet (A:=A) (fail e).
Proof. done. Qed.
Lemma quiet_gets {A} (f : client_world -> A) : quiet (gets f).
Proof. done. Qed.
Lemma quiet_get : quiet get.
Proof. done. Qed.
Lemma quiet_lift {A} (r : res A) : quiet (lift r).
Proof. done. Qed.
Lemma quiet_on {T A} (t : T) (m : M T A) : quiet (on t m).
Proof. intros w. unfold on. by destruct (m t) as [[]]. Qed.

Lemma quiet_bind {A B} (m : M client_world A) (f : A -> M client_world B) :
  quiet m -> (forall a, quiet (f a)) -> quiet (m ≫= f).
Proof.
  intros Hm Hf w. rewrite bind_eq. specialize (Hm w).
  destruct (m w) as [[a|e|s] w1]; cbn [fst snd] in *; [|done..]. by rewrite Hf.
Qed.

Lemma quiet_wrapM {A} msg (m : M client_world A) : quiet m -> quiet (wrapM msg m).
Proof. intros Hm w. unfold wrapM. specialize (Hm w). by destruct (m w). Qed.

Lemma quiet_try {A} (m : M client_world A) : quiet m -> quiet (try m).
Proof. intros Hm w. unfold try. specialize (Hm w). by destruct (m w) as [[]]. Qed.

Lemma quiet_net_Write b : quiet (with_conn (net_Write b)).
Proof.
  intros w. unfold with_conn. destruct (conn (link w)) as [c|] eqn:E; [|done].
  unfold net_Write, shape, open_. destruct (nc_open c) eqn:Eo; cbn [negb];
    [destruct (nc_script c) as [|[]]|]; simpl; by rewrite ?E; simpl; rewrite ?Eo.
Qed.

Lemma quiet_net_Read {A} (m : M bytes A) : quiet (with_conn (net_Read m)).
Proof.
  intros w. unfold with_conn. destruct (conn (link w)) as [c|] eqn:E; [|done].
  unfold net_Read, shape, open_. destruct (nc_open c) eqn:Eo; cbn [negb];
    [destruct (m (nc_rx c))|]; simpl; by rewrite ?E; simpl; rewrite ?Eo.
Qed.

Lemma quiet_sendMsgBuild cmd msgs : quiet (sendMsgBuild cmd msgs).
Proof. by intros w. Qed.

Lemma quiet_sendData b : quiet (sendData b).
Proof. apply quiet_wrapM, quiet_net_Write. Qed.

Lemma quiet_recvData : quiet recvData.
Proof.
  apply quiet_bind; [apply quiet_wrapM, quiet_net_Read|]. intros hdr. destruct (0 <? hdr_Length hdr).
  - apply quiet_bind; [apply quiet_wrapM, quiet_net_Read|intros; apply quiet_ret].
  - apply quiet_ret.
Qed.

(** ** send_recv_data and Disconnect *)

Lemma startDisconnect_fails w :
  status w = connectionStatusDisconnected \/ status w = connectionStatusDisconnecting ->
  exists e, startDisconnect w = (Err e, w).
Proof. unfold status, startDisconnect. intros [E|E]; rewrite bind_eq; simpl; rewrite E; eauto. Qed.

Lemma Disconnect_fails f w :
  status w = connectionStatusDisconnected \/ status w = connectionStatusDisconnecting ->
  exists e, Disconnect_with f w = (Err e, w).
Proof.
  intros Hs. destruct (startDisconnect_fails w Hs) as (e & E). exists e.
  unfold Disconnect_with. rewrite bind_eq. simpl. by rewrite (bind_Err _ _ _ _ _ E).
Qed.

(** One exchange, and what the failure of one leads to. *)
Definition exchange_once (cmd : Z) (msgs : list bytes) : M client_world (eipHeader * bytes) :=
  buffer ← sendMsgBuild cmd msgs;
  _ ← sendData buffer;
  recvData.

Lemma quiet_exchange cmd msgs : quiet (exchange_once cmd msgs).
Proof.
  apply quiet_bind; [apply quiet_sendMsgBuild|intros]. apply quiet_bind; [apply quiet_sendData|intros].
  apply quiet_recvData.
Qed.

Lemma sendMsgBuild_Ok cmd msgs w : exists b w1, sendMsgBuild cmd msgs w = (Ok b, w1).
Proof. by do 2 eexists. Qed.

(** send_recv_data is the exchange, and on an error a Disconnect too. *)
Definition after_failure (d : res unit) (r : res (eipHeader * bytes)) : Prop :=
  match d with Panic s => r = Panic s | _ => exists e, r = Err e end.

Lemma send_recv_cases fuel cmd msgs w :
  match exchange_once cmd msgs w with
  | (Err _, w1) =>
      after_failure (fst (Disconnect_with (send_recv_fuel fuel) w1)) (fst (send_recv_fuel (S fuel) cmd msgs w)) /\
      snd (send_recv_fuel (S fuel) cmd msgs w) = snd (Disconnect_with (send_recv_fuel fuel) w1)
  | r => send_recv_fuel (S fuel) cmd msgs w = r
  end.
Proof.
  destruct (sendMsgBuild_Ok cmd msgs w) as (b & w0 & E0).
  unfold exchange_once. rewrite (bind_Ok _ _ _ _ _ E0). cbn [send_recv_fuel].
  rewrite (bind_Ok _ _ _ _ _ E0), !(bind_eq _ _ w0).
  destruct (sendData b w0) as [[[]|e|s] w1] eqn:E1.
  - rewrite (try_Ok _ _ _ _ E1), bind_eq. destruct (recvData w1) as [[d|e|s] w2] eqn:E2.
    + by rewrite (try_Ok _ _ _ _ E2).
    + rewrite (try_Err _ _ _ _ E2), !bind_eq. unfold try.
      destruct (Disconnect_with (send_recv_fuel fuel) w2) as [[[]|e2|s] w3]; simpl; eauto.
    + unfold try. by rewrite E2.
  - rewrite (try_Err _ _ _ _ E1), !bind_eq. unfold try.
    destruct (Disconnect_with (send_recv_fuel fuel) w1) as [[[]|e2|s] w3]; simpl; eauto.
  - unfold try. by rewrite E1.
Qed.

(** Away from a connection that is up, Disconnect does not send. *)
Lemma Disconnect_no_send f g w :
  status w <> connectionStatusConnected -> Disconnect_with f w = Disconnect_with g w.
Proof.
  intros Hs. destruct (status w) eqn:E; [| |done|].
  - destruct (startDisconnect_fails w (or_introl E)) as (e & E1). unfold Disconnect_with.
    rewrite !bind_eq. cbn [gets]. by rewrite !(bind_Err _ _ _ _ _ E1).
  - unfold Disconnect_with. rewrite !bind_eq. cbn [gets]. unfold status in E. rewrite E.
    by rewrite !decide_True by done.
  - destruct (startDisconnect_fails w (or_intror E)) as (e & E1). unfold Disconnect_with.
    rewrite !bind_eq. cbn [gets]. by rewrite !(bind_Err _ _ _ _ _ E1).
Qed.

Lemma send_recv_fuel_down fuel1 fuel2 cmd msgs w :
  status w <> connectionStatusConnected ->
  send_recv_fuel (S fuel1) cmd msgs w = send_recv_fuel (S fuel2) cmd msgs w.
Proof.
  intros Hs. assert (status (snd (exchange_once cmd msgs w)) = status w) as Hq
    by (pose proof (quiet_exchange cmd msgs w) as Hq; unfold shape in Hq; congruence).
  destruct (sendMsgBuild_Ok cmd msgs w) as (b & w0 & E0).
  revert Hq. unfold exchange_once. rewrite (bind_Ok _ _ _ _ _ E0). cbn [send_recv_fuel].
  rewrite !(bind_Ok _ _ _ _ _ E0), !(bind_eq _ _ w0).
  destruct (sendData b w0) as [[[]|e|s] w1] eqn:E1; cbn [fst snd]; intros Hq.
  - rewrite !(try_Ok _ _ _ _ E1), !bind_eq. destruct (recvData w1) as [[d|e|s] w2] eqn:E2.
    + by rewrite !(try_Ok _ _ _ _ E2).
    + rewrite !(try_Err _ _ _ _ E2), !bind_eq. unfold try. cbn [snd] in Hq.
      by rewrite (Disconnect_no_send (send_recv_fuel fuel1) (send_recv_fuel fuel2) w2) by congruence.
    + unfold try. by rewrite E2.
  - rewrite !(try_Err _ _ _ _ E1), !bind_eq. unfold try.
    by rewrite (Disconnect_no_send (send_recv_fuel fuel1) (send_recv_fuel fuel2) w1) by congruence.
  - unfold try. by rewrite E1.
Qed.

(** ** Parsing never panics *)

Definition safe {A} (m : M bytes A) : Prop := forall l why, fst (m l) <> Panic why.

Lemma safe_bind {A B} (m : M bytes A) (f : A -> M bytes B) : safe m -> (forall a, safe (f a)) -> safe (m ≫= f).
Proof.
  intros Hm Hf l why. rewrite bind_eq. specialize (Hm l why). destruct (m l) as [[]]; simpl in *; [apply Hf|done|congruence].
Qed.

Lemma safe_wrapM {A} msg (m : M bytes A) : safe m -> safe (wrapM msg m).
Proof. intros Hm l why. unfold wrapM. specialize (Hm l why). destruct (m l) as [[]]; simpl in *; congruence. Qed.

Lemma safe_full n : safe (read_full n).
Proof. intros l why. simpl. unfold buffer_read_full. by repeat case_match. Qed.

Lemma safe_ret {A} (a : A) : safe (mret a).
Proof. done. Qed.

Lemma safe_uint n : safe (read_uint n).
Proof. apply safe_bind; [apply safe_full|intros; apply safe_ret]. Qed.

Lemma safe_struct {A} n (f : M bytes A) : safe f -> safe (read_struct n f).
Proof. intros Hf. apply safe_bind; [apply safe_full|intros b l why]. apply Hf. Qed.

Lemma safe_read_item : safe read_item.
Proof.
  apply safe_bind.
  - apply safe_wrapM, safe_struct. repeat (apply safe_bind; [apply safe_uint|intros]). apply safe_ret.
  - intros [id len]. apply safe_bind; [apply safe_wrapM, safe_full|intros; apply safe_ret].
Qed.

Lemma safe_readItems : safe readItems.
Proof.
  apply safe_bind; [apply safe_wrapM, safe_uint|]. intros n. generalize (Z.to_nat n) as k. clear n.
  induction k; cbn [read_n_items]; [apply safe_ret|]. apply safe_bind; [apply safe_read_item|intros].
  apply safe_bind; [done|intros; apply safe_ret].
Qed.

(** The items read are at their start. *)
Lemma readItems_start (l : bytes) items l' : readItems l = (Ok items, l') -> Forall (fun i => item_Pos i = 0) items.
Proof.
  intros (n & l1 & _ & H)%bind_Ok_inv. revert items l1 l' H.
  generalize (Z.to_nat n) as k. clear l n. induction k as [|k IH]; intros items l1 l' H.
  - injection H as <- <-. constructor.
  - cbn [read_n_items] in H. apply bind_Ok_inv in H as (i & l2 & Hi & H).
    apply bind_Ok_inv in H as (is1 & l3 & His & H). injection H as <- <-. constructor; [|by eapply IH].
    apply bind_Ok_inv in Hi as ([id len] & l4 & _ & Hi). apply bind_Ok_inv in Hi as (d & l5 & _ & Hi).
    by injection Hi as <- _.
Qed.

(** A computation on an item at a valid position that never panics. *)
Definition calm {A} (m : M CIPItem A) : Prop := shrinks (fun _ => False) m.

Lemma calm_struct {A} n (f : M bytes A) : safe f -> calm (read_struct n f).
Proof.
  intros Hf. apply shrinks_bind; [apply shrinks_read_full|]. intros b. apply shrinks_lift.
  intros why E. by destruct (Hf b why).
Qed.

Lemma calm_on {T A B} (i : CIPItem) (m : M CIPItem A) (f : A * CIPItem -> M T B) l why :
  0 <= item_Pos i -> calm m ->
  (forall a i', 0 <= item_Pos i' -> fst (f (a, i') l) <> Panic why) ->
  fst ((on i m ≫= f) l) <> Panic why.
Proof.
  intros Hi Hm Hf. destruct (Hm i Hi) as (H1 & _ & H3). rewrite bind_eq. unfold on.
  destruct (m i) as [[a|e|s] i']; simpl in *; [by apply Hf|done|by destruct (H3 s)].
Qed.

Lemma parseResponse_calm hdr data why : parseResponse hdr data <> Panic why.
Proof.
  unfold parseResponse. destruct (negb _); [done|]. rewrite bind_eq.
  pose proof (safe_wrapM "problem reading items header from forward open request" read_preitem) as H1.
  specialize (H1 ltac:(apply safe_struct; repeat (apply safe_bind; [apply safe_uint|intros]); apply safe_ret)).
  specialize (H1 data why). destruct (wrapM _ read_preitem data) as [[p|e|s] d]; simpl in *; [|done|congruence].
  rewrite bind_eq. unfold wrapM. pose proof (safe_readItems d why) as H2.
  destruct (readItems d) as [[items|e|s] d2] eqn:E; simpl in *; [|done|congruence].
  apply readItems_start in E. destruct items as [|i0 [|i1 rest]]; [done..|].
  apply Forall_cons_iff in E as [_ [E _]%Forall_cons_iff].
  apply calm_on; [lia|apply shrinks_wrapM, calm_struct|].
  { repeat (apply safe_bind; [apply safe_uint|intros]). apply safe_ret. }
  intros rr i2 Hi2. cbv beta iota. apply calm_on; [done| |].
  - destruct (negb _); [|apply shrinks_ret].
    apply shrinks_bind; [apply shrinks_wrapM, shrinks_read_full|intros; apply shrinks_ret].
  - intros [] i3 _. cbv beta iota. by destruct (negb _).
Qed.

(** ** Disconnect *)

Lemma startDisconnect_Ok w :
  status w = connectionStatusConnecting \/ status w = connectionStatusConnected ->
  startDisconnect w = (Ok tt, upd_link (set_connStatus connectionStatusDisconnecting) w).
Proof. unfold status, startDisconnect. intros [E|E]; rewrite bind_eq; simpl; by rewrite E. Qed.

Lemma Disconnect_connected f w :
  status w = connectionStatusConnected ->
  Disconnect_with f w =
    finally_status (fun _ => connectionStatusDisconnected)
      (_ ← cancel_keepalive; item1 ← disconnect_item; _ ← try (goodbye f item1); close_conn)
      (upd_link (set_connStatus connectionStatusDisconnecting) w).
Proof.
  intros E. unfold Disconnect_with. rewrite bind_eq. cbn [gets].
  rewrite (bind_Ok _ _ _ _ _ (startDisconnect_Ok w (or_intror E))). unfold status in E. by rewrite E.
Qed.

Lemma cancel_status w : status (snd (cancel_keepalive w)) = status w.
Proof. unfold cancel_keepalive. rewrite bind_eq. simpl. by repeat case_match. Qed.

Lemma item_status w : snd (disconnect_item w) = w.
Proof.
  unfold disconnect_item, connection_path. rewrite bind_eq. by destruct (Controller_Path (config w)).
Qed.

(** Disconnect uses its sender on a connection being closed only. *)
Lemma Disconnect_ext f g w :
  (forall cmd msgs w, status w <> connectionStatusConnected -> f cmd msgs w = g cmd msgs w) ->
  Disconnect_with f w = Disconnect_with g w.
Proof.
  intros Hfg. destruct (decide (status w = connectionStatusConnected)) as [E|E];
    [|by apply Disconnect_no_send].
  rewrite !Disconnect_connected by done. unfold finally_status.
  set (w1 := upd_link _ w). pose proof (cancel_status w1) as H2. rewrite !(bind_eq cancel_keepalive).
  destruct (cancel_keepalive w1) as [[[]|e|s] w2]; cbn [snd] in H2; [|done..].
  pose proof (item_status w2) as H3. rewrite !(bind_eq disconnect_item).
  destruct (disconnect_item w2) as [[i|e|s] w3]; cbn [snd] in H3; [|done..]. subst w3.
  rewrite !(bind_eq (try _)). unfold try, goodbye. rewrite !(bind_eq (_ _ _)).
  by rewrite (Hfg _ _ w2) by (rewrite H2; done).
Qed.

(** The recursion of send_recv_data and Disconnect stops: more fuel changes nothing. *)
Lemma send_recv_stable fuel cmd msgs w :
  send_recv_fuel (S (S fuel)) cmd msgs w = send_recv_data cmd msgs w.
Proof.
  unfold send_recv_data. destruct (sendMsgBuild_Ok cmd msgs w) as (b & w0 & E0).
  cbn [send_recv_fuel]. rewrite !(bind_Ok _ _ _ _ _ E0), !(bind_eq _ _ w0).
  assert (forall w1, Disconnect_with (send_recv_fuel (S fuel)) w1 = Disconnect_with (send_recv_fuel 1) w1) as HD.
  { intros w1. apply Disconnect_ext. intros. by apply send_recv_fuel_down. }
  cbn [send_recv_fuel] in HD.
  destruct (sendData b w0) as [[[]|e|s] w1] eqn:E1.
  - rewrite !(try_Ok _ _ _ _ E1), !bind_eq. destruct (recvData w1) as [[d|e|s] w2] eqn:E2.
    + by rewrite !(try_Ok _ _ _ _ E2).
    + rewrite !(try_Err _ _ _ _ E2), !bind_eq. unfold try at 1 3. by rewrite HD.
    + unfold try. by rewrite E2.
  - rewrite !(try_Err _ _ _ _ E1), !bind_eq. unfold try at 1 3. by rewrite HD.
  - unfold try. by rewrite E1.
Qed.

(** ** Outcomes *)

(** There is a socket, a path, and as long as a Disconnect may close it an
    open keep-alive channel. *)
Definition live (s : connectionStatus) : Prop :=
  s = connectionStatusConnecting \/ s = connectionStatusConnected.
Definition usable (w : client_world) : Prop :=
  open_ w <> None /\
  (live (status w) -> keepAliveRunning (link w) && keepalive_closed (link w) = false) /\
  is_Some (Controller_Path (config w)).

Lemma usable_shape w w' : shape w' = shape w -> usable w -> usable w'.
Proof. unfold usable, shape. intros [= -> -> -> -> ->]. done. Qed.

Lemma with_conn_no_panic {A} (f : net_conn -> res A * net_conn) w why :
  open_ w <> None -> (forall c, fst (f c) <> Panic why) -> fst (with_conn f w) <> Panic why.
Proof.
  unfold open_, with_conn. destruct (conn (link w)) as [c|]; [|done]. intros _ Hf. specialize (Hf c).
  by destruct (f c).
Qed.

Lemma no_panic_bind {A B} (m : M client_world A) (f : A -> M client_world B) w why :
  fst (m w) <> Panic why -> (forall a, fst (f a (snd (m w))) <> Panic why) -> fst ((m ≫= f) w) <> Panic why.
Proof. intros Hm Hf. rewrite bind_eq. destruct (m w) as [[a|e|s] w1]; simpl in *; [apply Hf|done|congruence]. Qed.

Lemma no_panic_wrapM {A} msg (m : M client_world A) w why :
  fst (m w) <> Panic why -> fst (wrapM msg m w) <> Panic why.
Proof. intros Hm. unfold wrapM. destruct (m w) as [[]]; simpl in *; congruence. Qed.

Lemma net_Read_no_panic {A} (m : M bytes A) why : safe m -> forall c, fst (net_Read m c) <> Panic why.
Proof.
  intros Hm c. unfold net_Read. destruct (negb _); [done|]. specialize (Hm (nc_rx c) why).
  by destruct (m (nc_rx c)).
Qed.

Lemma safe_eipHeader : safe read_eipHeader.
Proof. apply safe_struct. repeat (apply safe_bind; [apply safe_uint|intros]). apply safe_ret. Qed.

Lemma open_quiet {A} (m : M client_world A) w : quiet m -> open_ w <> None -> open_ (snd (m w)) <> None.
Proof. intros Hm. specialize (Hm w). unfold shape in Hm. by replace (open_ (snd (m w))) with (open_ w) by congruence. Qed.

Lemma exchange_no_panic cmd msgs w why : open_ w <> None -> fst (exchange_once cmd msgs w) <> Panic why.
Proof.
  intros Ho. apply no_panic_bind; [by destruct (sendMsgBuild_Ok cmd msgs w) as (b & w1 & ->)|].
  intros b. pose proof (open_quiet _ w (quiet_sendMsgBuild cmd msgs) Ho) as Ho1.
  apply no_panic_bind; [apply no_panic_wrapM, with_conn_no_panic; [exact Ho1|]|].
  { intros c. unfold net_Write. by repeat case_match. }
  intros []. pose proof (open_quiet _ _ (quiet_sendData b) Ho1) as Ho2.
  apply no_panic_bind; [apply no_panic_wrapM, with_conn_no_panic; [exact Ho2|]|].
  { apply net_Read_no_panic, safe_eipHeader. }
  intros hdr. destruct (0 <? hdr_Length hdr); [|done].
  apply no_panic_bind; [|done]. apply no_panic_wrapM, with_conn_no_panic.
  - apply (open_quiet (wrapM _ _)); [apply quiet_wrapM, quiet_net_Read|exact Ho2].
  - apply net_Read_no_panic, safe_full.
Qed.

(** While the connection is going down, a request changes nothing but the socket's traffic. *)
Lemma send_recv_down fuel cmd msgs w :
  status w = connectionStatusDisconnecting -> open_ w <> None ->
  shape (snd (send_recv_fuel (S fuel) cmd msgs w)) = shape w /\
  forall why, fst (send_recv_fuel (S fuel) cmd msgs w) <> Panic why.
Proof.
  intros Hs Ho. pose proof (send_recv_cases fuel cmd msgs w) as H.
  pose proof (quiet_exchange cmd msgs w) as Hq. pose proof (exchange_no_panic cmd msgs w) as Hp.
  destruct (exchange_once cmd msgs w) as [[d|e|s] w1]; cbn [fst snd] in *.
  - rewrite H. done.
  - destruct H as [H1 H2]. destruct (Disconnect_fails (send_recv_fuel fuel) w1) as (e' & E).
    { right. unfold shape in Hq. congruence. }
    rewrite E in H1, H2. cbn [fst snd] in H1, H2. rewrite H2. split; [done|].
    destruct H1 as (e2 & ->). done.
  - by destruct (Hp s Ho).
Qed.

Definition closed (w : client_world) : Prop :=
  status w = connectionStatusDisconnected /\ open_ w = Some false.

(** The configuration, and whether the keep-alive runs. *)
Definition kept (w : client_world) := (config w, keepAliveRunning (link w)).

Lemma close_conn_spec w : open_ w <> None ->
  exists w', close_conn w = (Ok tt, w') /\ open_ w' = Some false /\ kept w' = kept w.
Proof.
  unfold open_. intros Ho. eexists. split; [reflexivity|]. split; [|done]. simpl.
  unfold link in *. by destruct (conn (lnk (cw_client w))).
Qed.

(** The forward close and the closing of the socket. *)
Lemma goodbye_closes fuel i w :
  status w = connectionStatusDisconnecting -> open_ w <> None ->
  exists w', (_ ← try (goodbye (send_recv_fuel (S fuel)) i); close_conn) w = (Ok tt, w') /\
    open_ w' = Some false /\ kept w' = kept w.
Proof.
  intros Hs Ho. rewrite bind_eq. unfold try, goodbye. rewrite bind_eq.
  destruct (send_recv_down fuel cipCommandSendRRData [serializeItems [empty_item cipItem_Null; i]] w)
    as [Hsh Hnp]; [done..|].
  set (r := send_recv_fuel (S fuel) _ _ w) in *.
  assert (open_ (snd r) <> None /\ kept (snd r) = kept w) as [Ho3 <-].
  { unfold shape, kept in *. split; congruence. }
  destruct r as [[[hdr data]|e|s] w3]; cbn [fst snd] in *;
    [|by apply close_conn_spec|by destruct (Hnp s)].
  rewrite bind_eq. unfold lift. pose proof (parseResponse_calm hdr data) as Hc.
  destruct (parseResponse hdr data) as [items|e|s]; [..|by destruct (Hc s)]; by apply close_conn_spec.
Qed.

Lemma cancel_keepalive_Ok w :
  keepAliveRunning (link w) && keepalive_closed (link w) = false ->
  exists w', cancel_keepalive w = (Ok tt, w') /\ status w' = status w /\ open_ w' = open_ w /\ kept w' = kept w.
Proof.
  intros Hk. unfold cancel_keepalive. rewrite bind_eq. cbn [gets].
  destruct (keepAliveRunning (link w)); simpl in *; [rewrite Hk|]; by eexists.
Qed.

Lemma Disconnect_closes fuel w :
  live (status w) -> usable w ->
  exists w', Disconnect_with (send_recv_fuel (S fuel)) w = (Ok tt, w') /\ closed w' /\ kept w' = kept w.
Proof.
  intros Hs (Ho & Hk & Hp). specialize (Hk Hs).
  assert (forall w0 m, (exists w', m w0 = (Ok tt, w') /\ open_ w' = Some false /\ kept w' = kept w) ->
    exists w', finally_status (A:=unit) (fun _ => connectionStatusDisconnected) m w0 = (Ok tt, w') /\
      closed w' /\ kept w' = kept w) as Hfin.
  { intros w0 m (w' & E & Ho' & Hc'). unfold finally_status. rewrite E. eexists. split; [done|].
    split; [split; [done|exact Ho']|exact Hc']. }
  set (w1 := upd_link (set_connStatus connectionStatusDisconnecting) w).
  destruct (cancel_keepalive_Ok w1) as (w2 & E2 & Hs2 & Ho2 & Hc2); [done|].
  assert (open_ w2 <> None) as Ho3 by by rewrite Ho2.
  change (kept w) with (kept w1) in *. rewrite <- Hc2 in *. destruct Hs as [Hs|Hs].
  - unfold Disconnect_with. rewrite bind_eq. cbn [gets].
    rewrite (bind_Ok _ _ _ _ _ (startDisconnect_Ok w (or_introl Hs))). unfold status in Hs.
    rewrite Hs, decide_True by done. apply Hfin. rewrite (bind_Ok _ _ _ _ _ E2). by apply close_conn_spec.
  - rewrite Disconnect_connected by done. apply Hfin. rewrite (bind_Ok _ _ _ _ _ E2).
    assert (config w2 = config w) as Hc3 by (change (config w) with (config w1); unfold kept in Hc2; congruence).
    assert (exists i, disconnect_item w2 = (Ok i, w2)) as (i & E3).
    { unfold disconnect_item, connection_path. rewrite bind_eq, Hc3. destruct Hp as [p ->]. by eexists. }
    rewrite (bind_Ok _ _ _ _ _ E3). by apply goodbye_closes.
Qed.

(** ** Requests on a usable client *)

(** On success the client is as it was and the socket up, on an error it can
    still be used; there is no panic. *)
Definition attempt {A} (m : M client_world A) : Prop := forall w, usable w ->
  match m w with
  | (Ok _, w') => shape w' = shape w /\ open_ w' = Some true
  | (Err _, w') => usable w' /\ kept w' = kept w
  | (Panic _, _) => False
  end.

Lemma kept_shape w w' : shape w' = shape w -> kept w' = kept w.
Proof. unfold kept, shape. congruence. Qed.

Lemma net_Write_Ok_open b w w' : with_conn (net_Write b) w = (Ok tt, w') -> open_ w' = Some true.
Proof.
  unfold with_conn, open_. destruct (conn (link w)) as [c|]; [|done]. unfold net_Write.
  destruct (nc_open c); [|done]. destruct (nc_script c) as [|[]]; cbn [negb]; try done.
  by intros [= <-].
Qed.

Lemma exchange_Ok_open cmd msgs w d w' : exchange_once cmd msgs w = (Ok d, w') -> open_ w' = Some true.
Proof.
  intros H. apply bind_Ok_inv in H as (b & w1 & _ & H). apply bind_Ok_inv in H as ([] & w2 & H2 & H).
  apply wrapM_Ok_inv, net_Write_Ok_open in H2. pose proof (quiet_recvData w2) as Hq.
  rewrite H in Hq. cbn [snd] in Hq. unfold shape in Hq. congruence.
Qed.

(** A failed request ends the connection it was made on. *)
Lemma send_recv_outcome cmd msgs w : usable w ->
  match send_recv_data cmd msgs w with
  | (Ok _, w') => shape w' = shape w /\ open_ w' = Some true
  | (Err _, w') => kept w' = kept w /\ if decide (live (status w)) then closed w' else shape w' = shape w
  | (Panic _, _) => False
  end.
Proof.
  intros Hu. pose proof (send_recv_cases 1 cmd msgs w) as H.
  pose proof (quiet_exchange cmd msgs w) as Hq. pose proof (exchange_no_panic cmd msgs w) as Hp.
  pose proof (exchange_Ok_open cmd msgs w) as Hopen. unfold send_recv_data.
  destruct (exchange_once cmd msgs w) as [[d|e|s] w1]; cbn [fst snd] in *.
  - rewrite H. split; [done|]. by eapply Hopen.
  - destruct H as [H1 H2]. assert (usable w1) as Hu1 by by eapply usable_shape.
    assert (status w1 = status w) as Hs by (unfold shape in Hq; congruence). rewrite <- Hs.
    destruct (send_recv_fuel 2 cmd msgs w) as [r w2]. cbn [fst snd] in *. subst w2.
    rewrite <- (kept_shape _ _ Hq). destruct (decide (live (status w1))) as [Hl|Hl].
    + destruct (Disconnect_closes 0 w1 Hl Hu1) as (w2 & E & Hc & Hk).
      rewrite E in *. cbn [fst snd] in *. by destruct H1 as (e2 & ->).
    + destruct (Disconnect_fails (send_recv_fuel 1) w1) as (e' & E).
      { unfold live in Hl. destruct (status w1); tauto. }
      rewrite E in *. cbn [fst snd] in *. by destruct H1 as (e2 & ->).
  - by destruct (Hp s (proj1 Hu)).
Qed.

Lemma usable_closed w w' : usable w -> closed w' -> kept w' = kept w -> usable w'.
Proof.
  intros (_ & _ & Hp) [Hs Ho] Hk. injection Hk as Hc _. split; [by rewrite Ho|]. split; [|by rewrite Hc].
  rewrite Hs. by intros [].
Qed.

Lemma send_recv_attempt cmd msgs : attempt (send_recv_data cmd msgs).
Proof.
  intros w Hu. pose proof (send_recv_outcome cmd msgs w Hu) as H.
  destruct (send_recv_data cmd msgs w) as [[d|e|s] w']; [done| |done].
  destruct H as [Hk H]. split; [|done]. case_decide; [by eapply usable_closed|by eapply usable_shape].
Qed.

(** ** Connect *)

Definition gentle {A} (m : M client_world A) : Prop := forall w, usable w ->
  shape (snd (m w)) = shape w /\ forall why, fst (m w) <> Panic why.

Lemma gentle_bind {A B} (m : M client_world A) (f : A -> M client_world B) :
  gentle m -> (forall a, gentle (f a)) -> gentle (m ≫= f).
Proof.
  intros Hm Hf w Hu. destruct (Hm w Hu) as [H1 H2]. rewrite bind_eq.
  destruct (m w) as [[a|e|s] w1]; cbn [fst snd] in *; [|done|by destruct (H2 s)].
  destruct (Hf a w1) as [H3 H4]; [by eapply usable_shape|]. by rewrite H3.
Qed.

Lemma gentle_quiet {A} (m : M client_world A) : quiet m -> (forall w why, fst (m w) <> Panic why) -> gentle m.
Proof. intros Hq Hp w _. split; [apply Hq|apply Hp]. Qed.

Lemma gentle_set_link f :
  (forall l, connStatus (f l) = connStatus l /\ conn (f l) = conn l /\
     keepAliveRunning (f l) = keepAliveRunning l /\ keepalive_closed (f l) = keepalive_closed l) ->
  gentle (set_link f).
Proof.
  intros Hf w _. split; [|done]. unfold shape, status, open_, link. simpl.
  destruct (Hf (lnk (cw_client w))) as (-> & -> & -> & ->). done.
Qed.

Lemma attempt_bind {A B} (m : M client_world A) (f : A -> M client_world B) :
  attempt m -> (forall a, gentle (f a)) -> attempt (m ≫= f).
Proof.
  intros Hm Hf w Hu. specialize (Hm w Hu). rewrite bind_eq.
  destruct (m w) as [[a|e|s] w1]; [|done..]. destruct Hm as [H1 H2].
  assert (usable w1) as Hu1 by by eapply usable_shape.
  destruct (Hf a w1 Hu1) as [H3 H4]. destruct (f a w1) as [[b|e|s] w2]; cbn [fst snd] in *.
  - split; [congruence|]. unfold shape in H3. congruence.
  - split; [by eapply usable_shape|]. apply kept_shape. congruence.
  - by destruct (H4 s).
Qed.

Lemma attempt_wrapM {A} msg (m : M client_world A) : attempt m -> attempt (wrapM msg m).
Proof. intros Hm w Hu. specialize (Hm w Hu). unfold wrapM. by destruct (m w) as [[]]. Qed.

Lemma gentle_attempt {A B} (m : M client_world A) (f : A -> M client_world B) :
  gentle m -> (forall a, attempt (f a)) -> attempt (m ≫= f).
Proof.
  intros Hm Hf w Hu. destruct (Hm w Hu) as [H1 H2]. rewrite bind_eq.
  destruct (m w) as [[a|e|s] w1]; cbn [fst snd] in *.
  - assert (usable w1) as Hu1 by by eapply usable_shape. specialize (Hf a w1 Hu1).
    apply kept_shape in H1 as Hk. destruct (f a w1) as [[]]; [by rewrite <- H1|by rewrite <- Hk|done].
  - split; [by eapply usable_shape|by apply kept_shape].
  - by destruct (H2 s).
Qed.

Lemma next_serial_Ok v : exists s v', next_serial 2 v = Ok (s, v') /\ 0 < s < 2 ^ 16.
Proof.
  assert (forall x, u16 (u32 x) = x mod 2 ^ 16) as Hw.
  { intros x. unfold wrap. apply Z.mod_mod_divide. by exists (2 ^ 16). }
  assert (forall x, u16 (u32 (u32 x + 1)) = (x + 1) mod 2 ^ 16) as Hw2.
  { intros x. rewrite Hw. unfold wrap. rewrite Z.add_mod, Z.mod_mod_divide by
      (try lia; by exists (2 ^ 16)). by rewrite <- Z.add_mod by lia. }
  cbn [next_serial]. rewrite Hw, Hw2.
  pose proof (Z.mod_pos_bound (v + 1) (2 ^ 16) ltac:(lia)).
  destruct (Z.eqb_spec ((v + 1) mod 2 ^ 16) 0) as [E|E]; cbn [negb].
  - assert ((v + 1 + 1) mod 2 ^ 16 = 1) as -> by (rewrite Z.add_mod, E by lia; done).
    cbn [Z.eqb negb]. by eexists _, _.
  - do 2 eexists. split; [done|]. lia.
Qed.

Lemma gentle_ret {A} (a : A) : gentle (mret a).
Proof. done. Qed.
Lemma gentle_get : gentle get.
Proof. done. Qed.
Lemma gentle_sequence n : gentle (sequenceNumber_Add n).
Proof. done. Qed.

Lemma gentle_serial : gentle nextConnectionSerialNumber.
Proof.
  intros w _. unfold nextConnectionSerialNumber.
  by destruct (next_serial_Ok (cw_connectionSerialValue w)) as (s & v & -> & _).
Qed.

Lemma gentle_path : gentle connection_path.
Proof. intros w (_ & _ & [p Hp]). unfold connection_path. by rewrite Hp. Qed.

Lemma gentle_newForwardOpen s p t m f n : gentle (newForwardOpen s p t m f n).
Proof.
  apply gentle_bind; [apply gentle_path|intros path]. apply gentle_bind; [apply gentle_serial|intros serial].
  apply gentle_bind; [by apply gentle_set_link|intros []].
  do 2 (apply gentle_bind; [apply gentle_sequence|intros]). apply gentle_bind; [apply gentle_get|].
  intros w. apply gentle_ret.
Qed.

Lemma gentle_default_size d : gentle (default_size d).
Proof. apply gentle_set_link. intros l. by destruct (_ =? 0). Qed.

Lemma gentle_large : gentle newForwardOpenLarge.
Proof. apply gentle_bind; [apply gentle_default_size|intros; apply gentle_newForwardOpen]. Qed.

Lemma gentle_standard : gentle newForwardOpenStandard.
Proof.
  apply gentle_bind; [apply gentle_default_size|intros []].
  apply gentle_bind; [|intros; apply gentle_newForwardOpen].
  apply gentle_set_link. intros l. by destruct (_ <? _).
Qed.

(** A response that parses has two items, the second one behind the header. *)
Lemma parseResponse_Ok hdr data items : parseResponse hdr data = Ok items ->
  exists i0 i1 rest, items = i0 :: i1 :: rest /\ 0 <= item_Pos i1.
Proof.
  unfold parseResponse. destruct (negb _); [done|].
  match goal with |- fst (?m data) = _ -> _ => destruct (m data) as [r d] eqn:E end. cbn [fst]. intros ->.
  apply bind_Ok_inv in E as (p & d1 & _ & E). apply bind_Ok_inv in E as (is1 & d2 & H & E).
  apply wrapM_Ok_inv, readItems_start in H. destruct is1 as [|i0 [|i1 rest]]; [done..|].
  apply Forall_cons_iff in H as [_ [H _]%Forall_cons_iff].
  assert (forall A (i i' : CIPItem) (m : M CIPItem A) a s s', calm m -> 0 <= item_Pos i ->
    on (S:=bytes) i m s = (Ok (a, i'), s') -> 0 <= item_Pos i') as Hon.
  { intros A i i' m a s s' Hm Hi. destruct (Hm i Hi) as (H1 & _). unfold on.
    destruct (m i) as [[]]; [|done..]. by intros [= <- <- <-]. }
  apply bind_Ok_inv in E as ([rr i2] & d3 & E1 & E). apply Hon in E1; [|apply shrinks_wrapM, calm_struct|lia].
  2: { repeat (apply safe_bind; [apply safe_uint|intros]). apply safe_ret. }
  apply bind_Ok_inv in E as ([u i3] & d4 & E2 & E). apply Hon in E2; [| |done].
  2: { destruct (negb _); [|apply shrinks_ret].
       apply shrinks_bind; [apply shrinks_wrapM, shrinks_read_full|intros; apply shrinks_ret]. }
  destruct (negb _); [done|]. injection E as <- <-. by exists i0, i3, rest.
Qed.

Lemma attempt_forwardOpen item : attempt (client_forwardOpen item).
Proof.
  apply attempt_bind; [apply send_recv_attempt|intros [hdr data] w Hu].
  rewrite bind_eq. unfold lift. pose proof (parseResponse_calm hdr data) as Hc.
  pose proof (parseResponse_Ok hdr data) as Hp.
  destruct (parseResponse hdr data) as [items|e|s]; [|done|by destruct (Hc s)].
  destruct (Hp items eq_refl) as (i0 & i1 & rest & -> & Hi). revert w Hu.
  change (gentle ('(ot, _) ← on i1 (wrapM "error deserializing forward open response content" read_open_reply);
    set_link (set_OTNetworkConnectionID ot))).
  apply gentle_bind; [|intros [ot i2]; by apply gentle_set_link].
  intros w _. split; [apply quiet_on|]. intros why. unfold on.
  assert (calm (wrapM "error deserializing forward open response content" read_open_reply)) as Hcalm.
  { apply shrinks_wrapM, calm_struct, safe_uint. }
  destruct (Hcalm i1 Hi) as (_ & _ & H3).
  destruct (wrapM _ _ i1) as [[]]; cbn [fst] in *; [done|done|by destruct (H3 why0)].
Qed.

Lemma attempt_register : attempt client_registerSession.
Proof.
  apply attempt_bind; [apply attempt_wrapM, send_recv_attempt|intros [hdr data]]. by apply gentle_set_link.
Qed.

Lemma attempt_standard : attempt open_standard.
Proof. apply gentle_attempt; [apply gentle_standard|intros; apply attempt_forwardOpen]. Qed.

(** The large open, or the fall back to the standard size. *)
Lemma open_large_outcome w : usable w ->
  match open_large w with
  | (Ok _, w') => (usable w' /\ (open_ w' = Some true \/ ConnectionSize (link w') = connSizeStandardDefault)) /\
      kept w' = kept w
  | (Err _, w') => kept w' = kept w
  | (Panic _, _) => False
  end.
Proof.
  intros Hu. unfold open_large. rewrite bind_eq. destruct (gentle_large w Hu) as [H1 H2].
  apply kept_shape in H1 as Hk. rewrite <- Hk.
  destruct (newForwardOpenLarge w) as [[item|e|s] w1]; cbn [fst snd] in *; [|done|by destruct (H2 s)].
  assert (usable w1) as Hu1 by by eapply usable_shape.
  pose proof (attempt_forwardOpen item w1 Hu1) as H. rewrite bind_eq. unfold try.
  destruct (client_forwardOpen item w1) as [[[]|e|s] w2]; [| |done]; cbn [fst snd].
  - destruct H as [H3 H4]. split; [|by apply kept_shape]. split; [by eapply usable_shape|by left].
  - destruct H as [H3 H4]. split; [|exact H4]. split; [exact H3|by right].
Qed.

Lemma connect_defaults_Ok UnixMilli w :
  exists w', connect_defaults UnixMilli w = (Ok tt, w') /\ status w' = status w /\
    keepAliveRunning (link w') = keepAliveRunning (link w) /\
    keepalive_closed (link w') = keepalive_closed (link w) /\
    KeepAliveAutoStart (config w') = KeepAliveAutoStart (config w) /\
    is_Some (Controller_Path (config w')).
Proof.
  unfold connect_defaults, default_size. rewrite bind_eq. cbn [set_link modify]. rewrite bind_eq.
  eexists. split; [reflexivity|]. unfold status, link, config. simpl.
  generalize (lnk (cw_client w)) (cfg (cw_client w)). intros l c.
  do 3 (split; [by destruct (ConnectionSize l =? 0)|]).
  destruct (RPI c =? 0); simpl; destruct (Controller_Path c) eqn:E; simpl; rewrite ?E; eauto.
Qed.

(** The keep-alive runs, or Connect starts it. *)
Definition running (w : client_world) : bool := keepAliveRunning (link w) || KeepAliveAutoStart (config w).
Lemma kept_running w w' : kept w' = kept w -> running w' = running w.
Proof. unfold kept, running. congruence. Qed.

Lemma running_off w : running w = false -> keepAliveRunning (link w) = false /\ KeepAliveAutoStart (config w) = false.
Proof. apply orb_false_elim. Qed.
Lemma go_KeepAlive_off w : running w = false -> go_KeepAlive w = (Ok tt, w).
Proof. intros [_ E]%running_off. unfold go_KeepAlive. by rewrite (bind_Ok get _ w w w eq_refl), E. Qed.

(** The choice between the two opens. *)
Definition open_connection_ : M client_world unit :=
  l ← gets link;
  _ ← (if connSizeStandardMax <? ConnectionSize l then open_large else mret tt);
  l ← gets link;
  if ConnectionSize l <=? connSizeStandardMax then open_standard else mret tt.

Definition up_after {A} (w : client_world) (r : res A * client_world) : Prop :=
  match r with
  | (Ok _, w') => open_ w' = Some true /\ kept w' = kept w
  | (Err _, w') => kept w' = kept w
  | (Panic _, _) => False
  end.

Lemma open_connection_outcome w : usable w -> open_ w = Some true -> up_after w (open_connection_ w).
Proof.
  intros Hu Ho. unfold open_connection_. rewrite bind_eq. cbn [gets].
  assert (forall w4, usable w4 -> (open_ w4 = Some true \/ ConnectionSize (link w4) = connSizeStandardDefault) ->
    up_after w4 ((l ← gets link; if ConnectionSize l <=? connSizeStandardMax then open_standard else mret tt) w4)) as Hlast.
  { intros w4 Hu4 H4. rewrite bind_eq. cbn [gets].
    destruct (Z.leb_spec (ConnectionSize (link w4)) connSizeStandardMax) as [Hl|Hl].
    - pose proof (attempt_standard w4 Hu4) as H5.
      destruct (open_standard w4) as [[[]|e|s] w5]; [|apply H5|done].
      split; [apply H5|apply kept_shape, H5].
    - destruct H4 as [H4|H4]; [done|rewrite H4 in Hl; by compute in Hl]. }
  rewrite bind_eq. destruct (connSizeStandardMax <? ConnectionSize (link w)).
  - pose proof (open_large_outcome w Hu) as H4. destruct (open_large w) as [[[]|e|s] w4]; [|done..].
    destruct H4 as [[Hu4 H4] Hk]. specialize (Hlast w4 Hu4 H4). unfold up_after in *. by rewrite <- Hk.
  - apply Hlast; [done|by left].
Qed.

Lemma connect_body_outcome UnixMilli w :
  keepAliveRunning (link w) && keepalive_closed (link w) = false ->
  match connect_body UnixMilli w with
  | (Ok _, w') => open_ w' = Some true /\ is_Some (Controller_Path (config w')) /\ running w' = running w
  | (Err _, w') => running w' = running w
  | (Panic _, _) => False
  end.
Proof.
  intros Hk. unfold connect_body. destruct (connect_defaults_Ok UnixMilli w) as (w1 & E1 & _ & Hr & Hc & Ha & Hp1).
  rewrite (bind_Ok _ _ _ _ _ E1), bind_eq. unfold wrapM, dial at 1. rewrite <- Hr, <- Hc in Hk.
  assert (running w = running w1) as -> by (unfold running; by rewrite Hr, Ha). clear w E1 Hr Hc Ha.
  destruct (cw_dials w1) as [|[script|] ds]; [done| |done].
  set (w2 := upd_link _ _).
  assert (usable w2) as Hu2 by (split; [done|split; [intros _; exact Hk|exact Hp1]]).
  change (running w1) with (running w2). change (config w1) with (config w2) in Hp1. clearbody w2.
  rewrite bind_eq. pose proof (attempt_register w2 Hu2) as H.
  destruct (client_registerSession w2) as [[[]|e|s] w3]; [|by apply kept_running, H|done]. destruct H as [H1 H2].
  assert (usable w3) as Hu3 by by eapply usable_shape. apply kept_shape in H1.
  pose proof (open_connection_outcome w3 Hu3 H2) as H3. unfold open_connection_ in H3.
  destruct ((l ← gets link; _) w3) as [[[]|e|s] w4]; cbn [up_after] in H3; [|apply kept_running; congruence|done].
  destruct H3 as [H3 H4]. rewrite H1 in H4. split; [done|]. split; [|by apply kept_running].
  injection H4 as -> _. exact Hp1.
Qed.

(** ** The states of a client between its calls *)

(** Disconnected, or connected with an open socket; the keep-alive
    goroutine, another thread of control, does not run and Connect does not
    start it. *)
Definition settled (w : client_world) : Prop :=
  running w = false /\
  match status w with
  | connectionStatusDisconnected => True
  | connectionStatusConnected => open_ w = Some true /\ is_Some (Controller_Path (config w))
  | _ => False
  end.

Lemma settled_usable w : settled w -> status w = connectionStatusConnected -> usable w.
Proof.
  intros [Hr Hs] E. rewrite E in Hs. destruct Hs as [Ho Hp]. split; [by rewrite Ho|].
  split; [|done]. intros _. by destruct (running_off _ Hr) as [-> _].
Qed.

(** What Connect, Disconnect and a request make of a settled client. *)
Definition connects (w : client_world) (r : res unit * client_world) : Prop :=
  match r with
  | (Ok _, w') => settled w' /\ status w' = connectionStatusConnected
  | (Err _, w') => settled w' /\ (status w = connectionStatusDisconnected -> status w' = connectionStatusDisconnected)
  | (Panic _, _) => False
  end.

Lemma startConnect_Ok w : status w = connectionStatusDisconnected ->
  startConnect w = (Ok tt, upd_link (set_connStatus connectionStatusConnecting) w).
Proof. unfold status, startConnect. intros E. rewrite bind_eq. simpl. by rewrite E. Qed.

Lemma startConnect_fails w : status w <> connectionStatusDisconnected ->
  exists e, startConnect w = (Err e, w).
Proof. unfold status, startConnect. intros E. rewrite bind_eq. simpl. destruct (connStatus (link w)); eauto; done. Qed.

Lemma Connect_connects UnixMilli w : settled w -> connects w (Connect UnixMilli w).
Proof.
  intros Hw. destruct (decide (status w = connectionStatusDisconnected)) as [E|E].
  - unfold Connect. rewrite (bind_Ok _ _ _ _ _ (startConnect_Ok w E)). unfold finally_status.
    pose proof (connect_body_outcome UnixMilli (upd_link (set_connStatus connectionStatusConnecting) w)) as H.
    change (running (upd_link _ w)) with (running w) in H. destruct Hw as [Hr _]. rewrite Hr in H.
    destruct (running_off w Hr) as [Hr' _]. specialize (H (f_equal (fun b => b && keepalive_closed (link w)) Hr')).
    rewrite bind_eq. destruct (connect_body _ _) as [[[]|e|s] w1]; [|done..].
    destruct H as (Ho & Hp & Hr1). rewrite (go_KeepAlive_off w1 Hr1). split; [|done]. split; [done|]. split; [exact Ho|exact Hp].
  - destruct (startConnect_fails w E) as (e & E1). unfold Connect.
    rewrite (bind_Err _ _ _ _ _ E1). by split.
Qed.

Definition disconnects (w : client_world) (r : res unit * client_world) : Prop :=
  match status w, r with
  | connectionStatusConnected, (Ok _, w') => closed w' /\ settled w'
  | connectionStatusDisconnected, (Err _, w') => w' = w
  | _, _ => False
  end.

Lemma closed_settled w w' : settled w -> closed w' -> kept w' = kept w -> settled w'.
Proof. intros [Hr _] [Hs Ho] Hk. split; [by rewrite (kept_running _ _ Hk)|]. by rewrite Hs. Qed.

Lemma Disconnect_disconnects w : settled w -> disconnects w (Disconnect w).
Proof.
  intros Hw. unfold disconnects. destruct (status w) eqn:E; try (by destruct Hw as [_ Hw]; rewrite E in Hw).
  - unfold Disconnect. by destruct (Disconnect_fails send_recv_data w (or_introl E)) as (e & ->).
  - destruct (Disconnect_closes 1 w (or_intror E) (settled_usable w Hw E)) as (w' & E1 & Hc & Hk).
    unfold Disconnect, send_recv_data. rewrite E1. split; [done|]. by eapply closed_settled.
Qed.

Lemma checkConnection_connects UnixMilli w : settled w -> connects w (checkConnection UnixMilli w).
Proof.
  intros Hw. unfold checkConnection, Connected. rewrite bind_eq. cbn [gets]. case_bool_decide as E; [done|].
  assert (status w = connectionStatusDisconnected) as Ed.
  { destruct Hw as [_ Hs]. unfold status in *. by destruct (connStatus (link w)). }
  rewrite bind_eq. cbn [get]. destruct (AutoConnect _); [|done].
  rewrite bind_eq. unfold try. pose proof (Connect_connects UnixMilli w Hw) as H.
  destruct (Connect UnixMilli w) as [[[]|e|s] w']; [done| |done]. by destruct (is_reconnect e).
Qed.

(** Any request of the API: the connection check, then one exchange. *)
Definition request UnixMilli (cmd : Z) (msgs : list bytes) : M client_world (eipHeader * bytes) :=
  _ ← checkConnection UnixMilli; send_recv_data cmd msgs.

Definition requests (r : res (eipHeader * bytes) * client_world) : Prop :=
  match r with
  | (Ok _, w') => settled w' /\ status w' = connectionStatusConnected
  | (Err _, w') => settled w' /\ status w' = connectionStatusDisconnected
  | (Panic _, _) => False
  end.

Lemma request_requests UnixMilli cmd msgs w : settled w -> requests (request UnixMilli cmd msgs w).
Proof.
  intros Hw. unfold request. rewrite bind_eq. pose proof (checkConnection_connects UnixMilli w Hw) as H.
  destruct (checkConnection UnixMilli w) as [[[]|e|s] w1] eqn:E; [| |done]; destruct H as [H1 H2].
  - pose proof (send_recv_outcome cmd msgs w1 (settled_usable w1 H1 H2)) as H.
    destruct (send_recv_data cmd msgs w1) as [[d|e|s] w2]; [| |done].
    + destruct H as [H3 H4]. assert (status w2 = status w1) as Hs by (unfold shape in H3; congruence).
      split; [|by rewrite Hs]. destruct H1 as [Hr H1]. apply kept_shape in H3.
      split; [by rewrite (kept_running _ _ H3)|]. rewrite Hs, H2 in *. split; [done|].
      injection H3 as -> _. apply H1.
    + destruct H as [H3 H4]. rewrite decide_True in H4 by (by right).
      split; [by eapply closed_settled|apply H4].
  - split; [done|]. apply H2. destruct Hw as [_ Hs].
    destruct (status w) eqn:Es; [done|done| |done].
    unfold checkConnection, Connected in E. rewrite bind_eq in E. cbn [gets] in E.
    unfold status in Es. by rewrite bool_decide_true in E by done.
Qed.

(** ** The calls *)

Inductive client_call :=
  | CallConnect
  | CallDisconnect
  | CallRequest (cmd : Z) (msgs : list bytes).

Definition run_call UnixMilli (c : client_call) : M client_world unit :=
  match c with
  | CallConnect => Connect UnixMilli
  | CallDisconnect => Disconnect
  | CallRequest cmd msgs => _ ← request UnixMilli cmd msgs; mret tt
  end.

Lemma run_call_settled UnixMilli c w : settled w ->
  settled (snd (run_call UnixMilli c w)) /\ forall why, fst (run_call UnixMilli c w) <> Panic why.
Proof.
  intros Hw. destruct c as [| |cmd msgs]; cbn [run_call].
  - pose proof (Connect_connects UnixMilli w Hw) as H. destruct (Connect UnixMilli w) as [[]]; [| |done]; by destruct H.
  - pose proof (Disconnect_disconnects w Hw) as H. unfold disconnects in H.
    destruct (Disconnect w) as [[[]|e|s] w'], (status w); try done; [by destruct H|by subst].
  - rewrite bind_eq. pose proof (request_requests UnixMilli cmd msgs w Hw) as H.
    destruct (request UnixMilli cmd msgs w) as [[]]; [| |done]; by destruct H.
Qed.

(** Connect on a disconnected client: success means connected with an
    open socket and a path, any failure leaves it disconnected, and no answer
    of the peer, however malformed, makes it panic. *)
Theorem Connect_outcome UnixMilli w :
  settled w -> status w = connectionStatusDisconnected ->
  match Connect UnixMilli w with
  | (Ok _, w') => status w' = connectionStatusConnected /\ open_ w' = Some true /\
      is_Some (Controller_Path (config w'))
  | (Err _, w') => status w' = connectionStatusDisconnected
  | (Panic _, _) => False
  end.
Proof.
  intros Hw Hs. pose proof (Connect_connects UnixMilli w Hw) as H.
  destruct (Connect UnixMilli w) as [[]]; [|by apply H|done].
  destruct H as [[_ H] H1]. by rewrite H1 in H.
Qed.

(** Disconnect of a connected client succeeds and leaves it
    disconnected with the socket closed, whatever becomes of the forward close
    it sends; a second one is an error that changes nothing. *)
Theorem Disconnect_outcome w :
  settled w ->
  match status w with
  | connectionStatusConnected => exists w', Disconnect w = (Ok tt, w') /\
      status w' = connectionStatusDisconnected /\ open_ w' = Some false
  | _ => exists e, Disconnect w = (Err e, w)
  end.
Proof.
  intros Hw. pose proof (Disconnect_disconnects w Hw) as H. unfold disconnects in H.
  destruct (status w), (Disconnect w) as [[[]|e|s] w']; try done.
  - subst. eauto.
  - destruct H as [[Hs Ho] _]. eauto.
Qed.

(** C23. A request on a connected client either succeeds and leaves the
    connection as it was, or fails and takes it down: disconnected, the
    socket closed, ready for the next Connect. *)
Theorem send_recv_fails_closed cmd msgs w :
  settled w -> status w = connectionStatusConnected ->
  match send_recv_data cmd msgs w with
  | (Ok _, w') => shape w' = shape w
  | (Err _, w') => status w' = connectionStatusDisconnected /\ open_ w' = Some false /\ settled w'
  | (Panic _, _) => False
  end.
Proof.
  intros Hw Hs. pose proof (send_recv_outcome cmd msgs w (settled_usable w Hw Hs)) as H.
  destruct (send_recv_data cmd msgs w) as [[]]; [by apply H| |done]. destruct H as [Hk H].
  rewrite decide_True in H by (by right). split; [apply H|]. split; [apply H|]. by eapply closed_settled.
Qed.

(** send_recv_data and Disconnect, which call each other on errors, are
    at most two deep: from any state more fuel than two gives the same result. *)
Theorem send_recv_recursion_ends fuel cmd msgs w :
  send_recv_fuel (2 + fuel) cmd msgs w = send_recv_data cmd msgs w.
Proof. apply send_recv_stable. Qed.

(** ** A client of NewClient and a peer *)

Definition new_config : client_config :=
  {| Controller_Path := Some [1; 0]; SerialNumber := 77; VendorId := 0x9999; AutoConnect := true; KeepAliveAutoStart := false;
     RPI := rpiDefault; Context_ := 0 |}.
Definition new_link : client_link :=
  {| connStatus := connectionStatusDisconnected; conn := None; SessionHandle := 0;
     OTNetworkConnectionID := 0; HeaderSequenceCounter := 0; ConnectionSize := connSizeLargeDefault;
     ConnectionSerialNumber := 0; sequenceNumber := 0; keepAliveRunning := false; keepalive_closed := false; keepalives := 0 |}.
Definition new_world (dials : list (option (list exchange))) : client_world :=
  {| cw_client := {| cfg := new_config; lnk := new_link;
       ioi := {| ioi_cache := ∅; KnownTags := Some ∅; firmware := 0; catalog := no_types |} |};
     cw_dials := dials; cw_sequenceValue := 5; cw_connectionSerialValue := 2 ^ 32 - 1; cw_clock := 0 |}.

Definition reply_frame (cmd : Z) (payload : bytes) : exchange :=
  Reply (eipHeader_bytes {| hdr_Command := cmd; hdr_Length := blen payload; hdr_SessionHandle := 9;
    hdr_Status := 0; hdr_Context := 0; hdr_Options := 0 |} ++ payload).
Definition register_reply : exchange := reply_frame cipCommandRegisterSession [1; 0; 0; 0].
Definition open_reply : exchange :=
  reply_frame cipCommandSendRRData (serializeItems [empty_item cipItem_Null;
    newItem cipItem_UnconnectedData (Some (SBytes (forwardOpenReply_bytes {| fr_Service := 0xDB;
      fr_Status := 0; fr_StatusLen := 0; fr_OTConnectionID := 1234; fr_TOConnectionID := 2;
      fr_ConnectionSerialNumber := 1; fr_VendorID := 0x9999; fr_OriginatorSerialNumber := 77;
      fr_OTApi := 2500000; fr_TOApi := 2500000 |})))]).

(** Registered, and the large forward open accepted. *)
Definition up_world (script : list exchange) : client_world :=
  snd (run_call (fun _ => 0) CallConnect (new_world [Some (register_reply :: open_reply :: script)])).

Example up_world_up : status (up_world []) = connectionStatusConnected /\
  OTNetworkConnectionID (link (up_world [])) = 1234 /\ SessionHandle (link (up_world [])) = 9.
Proof. by vm_compute. Qed.

Lemma new_world_settled dials : settled (new_world dials).
Proof. done. Qed.

Lemma up_world_settled script : settled (up_world script).
Proof. unfold up_world. apply run_call_settled, new_world_settled. Qed.

Lemma Connect_outcome_witness :
  match Connect (fun _ => 0) (new_world [None]) with
  | (Ok _, w') => status w' = connectionStatusConnected /\ open_ w' = Some true /\
      is_Some (Controller_Path (config w'))
  | (Err _, w') => status w' = connectionStatusDisconnected
  | (Panic _, _) => False
  end.
Proof. exact (Connect_outcome _ (new_world [None]) (new_world_settled _) eq_refl). Defined.

Lemma Disconnect_outcome_witness :
  match status (up_world []) with
  | connectionStatusConnected => exists w', Disconnect (up_world []) = (Ok tt, w') /\
      status w' = connectionStatusDisconnected /\ open_ w' = Some false
  | _ => exists e, Disconnect (up_world []) = (Err e, up_world [])
  end.
Proof. exact (Disconnect_outcome _ (up_world_settled [])). Defined.

(** The peer resets the connection. *)
Lemma send_recv_fails_closed_witness :
  status (up_world [WriteErr EOF]) = connectionStatusConnected /\
  match send_recv_data cipCommandSendRRData [[1]] (up_world [WriteErr EOF]) with
  | (Ok _, w') => shape w' = shape (up_world [WriteErr EOF])
  | (Err _, w') => status w' = connectionStatusDisconnected /\ open_ w' = Some false /\ settled w'
  | (Panic _, _) => False
  end.
Proof.
  assert (status (up_world [WriteErr EOF]) = connectionStatusConnected) as H by by vm_compute.
  split; [exact H|]. exact (send_recv_fails_closed cipCommandSendRRData [[1]] _ (up_world_settled [WriteErr EOF]) H).
Defined.
