(* ===== verification/ClientScript.v ===== *)
(** * The client and a scripted peer

    The messages a client exchanges with a peer that answers them one after
    the other with given frames: the shape every theorem about requests and
    replies starts from. *)
From S2P Require Import Prelude Reader GoStrings GoValue CipNames CipDefs Types Items Ioi Path Messages Client ClientTags ClientConn.

(** The frame the next message of a client is sent in. *)
Definition client_header (cmd : Z) (payload : bytes) (w : client_world) : eipHeader :=
  {| hdr_Command := cmd; hdr_Length := u16 (blen payload); hdr_SessionHandle := SessionHandle (link w);
     hdr_Status := 0; hdr_Context := Context_ (config w); hdr_Options := 0 |}.
Definition client_frame (cmd : Z) (payload : bytes) (w : client_world) : bytes :=
  eipHeader_bytes (client_header cmd payload w) ++ payload.

(** The client whose peer will do as the script says. *)
Definition scripted (sc : list exchange) (sent_ : list bytes) (w : client_world) : client_world :=
  upd_link (set_conn (Some {| nc_open := true; nc_script := sc; nc_rx := []; nc_sent := sent_ |})) w.

(** One message later. *)
Definition counted (w : client_world) : client_world :=
  upd_link (fun l => set_HeaderSequenceCounter (u16 (HeaderSequenceCounter l + 1)) l) w.

Lemma net_Read_Ok {A} (m : M bytes A) bs v rest (w : client_world) sc se :
  parses m bs v ->
  with_conn (net_Read m) (upd_link (set_conn (Some
      {| nc_open := true; nc_script := sc; nc_rx := bs ++ rest; nc_sent := se |})) w) =
    (Ok v, upd_link (set_conn (Some
      {| nc_open := true; nc_script := sc; nc_rx := rest; nc_sent := se |})) w).
Proof.
  intros Hm. unfold with_conn, net_Read. cbn -[upd_link].
  unfold link. simpl. rewrite (Hm (bs ++ rest) rest I eq_refl). simpl. by rewrite drop_app_length.
Qed.

Lemma exchange_msgs cmd msgs h data sc se w :
  eipHeader_ok h -> hdr_Length h = blen data ->
  exchange_once cmd msgs (scripted (Reply (eipHeader_bytes h ++ data) :: sc) se w) =
    (Ok (h, data), scripted sc (se ++ [client_frame cmd (concat msgs) w]) (counted w)).
Proof.
  intros Hh Hl. unfold exchange_once, sendMsgBuild.
  set (payload := concat msgs).
  eapply step; [reflexivity|].
  eapply step; [unfold sendData; apply wrapM_Ok; reflexivity|].
  unfold recvData.
  eapply step; [exact (wrapM_Ok _ _ _ _ _ (net_Read_Ok _ _ _ data (counted w) sc _ (parses_eipHeader h Hh)))|].
  cbv beta. rewrite Hl. assert (0 <= blen data) by (unfold blen; lia).
  destruct (Z.ltb_spec 0 (blen data)) as [Hd|Hd].
  - assert (Z.to_nat (blen data) = length data) as -> by (unfold blen; lia).
    eapply step; [|reflexivity]. rewrite <- (app_nil_r data) at 2.
    exact (wrapM_Ok _ _ _ _ _ (net_Read_Ok _ _ _ [] (counted w) sc
      (se ++ [client_frame cmd (concat msgs) w]) (parses_slice _ data eq_refl))).
  - assert (data = []) as -> by (destruct data; [done|cbn in *; unfold blen in *; cbn in *; lia]). reflexivity.
Qed.

Lemma send_recv_msgs cmd msgs h data sc se w :
  eipHeader_ok h -> hdr_Length h = blen data ->
  send_recv_data cmd msgs (scripted (Reply (eipHeader_bytes h ++ data) :: sc) se w) =
    (Ok (h, data), scripted sc (se ++ [client_frame cmd (concat msgs) w]) (counted w)).
Proof.
  intros Hh Hl. pose proof (send_recv_cases 1 cmd msgs (scripted (Reply (eipHeader_bytes h ++ data) :: sc) se w)) as H.
  by rewrite exchange_msgs in H.
Qed.

Lemma send_recv_scripted cmd payload h data sc se w :
  eipHeader_ok h -> hdr_Length h = blen data ->
  send_recv_data cmd [payload] (scripted (Reply (eipHeader_bytes h ++ data) :: sc) se w) =
    (Ok (h, data), scripted sc (se ++ [client_frame cmd payload w]) (counted w)).
Proof.
  intros Hh Hl. rewrite (send_recv_msgs cmd [payload] h data sc se w Hh Hl). cbn [concat]. by rewrite app_nil_r.
Qed.

(** The two items of a request over the connection. *)
Definition address_item (w : client_world) : CIPItem :=
  newItem cipItem_ConnectionAddress (Some (SBytes (le_bytes 4 (OTNetworkConnectionID (link w))))).
Definition unit_frame (item1 : CIPItem) (w : client_world) : bytes :=
  client_frame cipCommandSendUnitData (serializeItems [address_item w; item1]) w.

Lemma unit_request_scripted item1 h data sc se w :
  eipHeader_ok h -> hdr_Length h = blen data ->
  unit_request item1 (scripted (Reply (eipHeader_bytes h ++ data) :: sc) se w) =
    (Ok (h, data), scripted sc (se ++ [unit_frame item1 w]) (counted w)).
Proof. intros Hh Hl. unfold unit_request. eapply step; [reflexivity|]. by apply send_recv_scripted. Qed.

(** ** What the client makes of a reply *)

Lemma parses_all {A} (p : M bytes A) bs v : parses p bs v -> fst (p bs) = Ok v.
Proof. intros Hp. by rewrite (Hp bs [] I) by by rewrite app_nil_r. Qed.

Lemma after_CSD_items items : after_CSD (serializeItems items) =
  le_bytes 2 (Z.of_nat (length items)) ++ concat (map item_Bytes items).
Proof.
  unfold after_CSD, serializeItems.
  assert (parses (R:=bytes) read_preitem (le_bytes 4 0 ++ le_bytes 2 0) (0, 0)) as Hp.
  { apply parses_struct; [|done]. rewrite <- (app_nil_r (le_bytes 2 0)). do 2 parse_field. apply parses_ret. }
  rewrite (assoc_L (++)), (Hp _ _ I eq_refl). cbn [snd]. apply drop_app_length.
Qed.

(** A reply of two items. *)
Lemma reply_items i0 i1 : item_wf i0 -> item_wf i1 ->
  exists d, read_preitem (serializeItems [i0; i1]) = (Ok (0, 0), d) /\ readItems d = (Ok [Reset i0; Reset i1], []).
Proof.
  intros H0 H1. eexists. split.
  - unfold serializeItems.
    assert (parses (R:=bytes) read_preitem (le_bytes 4 0 ++ le_bytes 2 0) (0, 0)) as Hp.
    { apply parses_struct; [|done]. rewrite <- (app_nil_r (le_bytes 2 0)). do 2 parse_field. apply parses_ret. }
    rewrite (assoc_L (++)). apply (Hp _ _ I eq_refl).
  - cbn [rd_advance buffer_Reader]. rewrite drop_app_length' by done.
    assert (Forall item_wf [i0; i1]) as Hwf by (apply Forall_cons_2; [done|apply Forall_cons_2; [done|apply Forall_nil_2]]).
    pose proof (parses_items (R:=bytes) _ Hwf eq_refl) as Hp.
    pose proof (Hp _ [] I (eq_sym (app_nil_r _))) as E. rewrite E. f_equal.
    cbn [rd_advance buffer_Reader]. by rewrite skipn_all.
Qed.

Lemma checkConnection_up U w : status w = connectionStatusConnected -> checkConnection U w = (Ok tt, w).
Proof.
  unfold status, checkConnection, Connected. intros E. rewrite bind_eq. cbn [gets].
  by rewrite bool_decide_true.
Qed.

(** ** Generic messages *)

(** The answer to a generic message: header and address of the peer's choice,
    the service's response, no error, and data. *)
Record answer_form := { af_hdr : eipHeader; af_item0 : CIPItem; af_seq : Z }.

Definition generic_data (a : answer_form) (service : Z) (payload : bytes) : bytes :=
  le_bytes 2 (af_seq a) ++ le_bytes 2 (Service.AsResponse service) ++ le_bytes 2 0 ++ payload.
Definition generic_item (a : answer_form) (service : Z) (payload : bytes) : CIPItem :=
  Write (generic_data a service payload) (empty_item cipItem_ConnectedData).
Definition generic_reply (a : answer_form) (service : Z) (payload : bytes) : bytes :=
  eipHeader_bytes (af_hdr a) ++ serializeItems [af_item0 a; generic_item a service payload].

Definition answer_ok (a : answer_form) (service : Z) (payload : bytes) : Prop :=
  eipHeader_ok (af_hdr a) /\ hdr_Length (af_hdr a) = blen (serializeItems [af_item0 a; generic_item a service payload]) /\
  item_wf (af_item0 a) /\ 0 <= af_seq a < 2 ^ 15 /\ 0 <= service < 128 /\ blen (generic_data a service payload) < 2 ^ 16.

(** The request it answers. *)
Definition generic_frame (service : Z) (path msg_data : bytes) (w : client_world) : bytes :=
  unit_frame (Write (path ++ msg_data) (newItem cipItem_ConnectedData
    (Some (SBytes (service_req_bytes (u16 (u32 (cw_sequenceValue w + 1))) service (u8 (blen path / 2))))))) (snd (sequencer w)).

Lemma as_response_small s : 0 <= s < 128 -> 0 <= Service.AsResponse s < 256.
Proof.
  intros Hs. unfold Service.AsResponse. split; [apply Z.lor_nonneg; lia|].
  destruct (decide (s = 0)) as [->|]; [done|].
  apply (Z.log2_lt_pow2 _ 8); [|].
  - enough (0 <> Z.lor s 128) by (assert (0 <= Z.lor s 128) by (apply Z.lor_nonneg; lia); lia).
    intros E%eq_sym%Z.lor_eq_0_iff. lia.
  - rewrite Z.log2_lor by lia. apply Z.max_lub_lt; [|done]. apply Z.log2_lt_pow2; lia.
Qed.

(** The run succeeds with an item of which that much is left to read. *)
Definition gives_item {S} (payload : bytes) (s : S) (r : res CIPItem * S) : Prop :=
  exists i, left i payload /\ r = (Ok i, s).

Lemma GenericCIPMessage_answered a service path msg_data payload sc se w :
  answer_ok a service payload ->
  gives_item payload (scripted sc (se ++ [generic_frame service path msg_data w]) (counted (snd (sequencer w))))
    (GenericCIPMessage service path msg_data (scripted (Reply (generic_reply a service payload) :: sc) se w)).
Proof.
  intros (Hh & Hl & H0 & Hseq & Hs & Hlen). unfold GenericCIPMessage.
  erewrite (bind_Ok _ _ _ (u32 (cw_sequenceValue w + 1))
    (scripted (Reply (generic_reply a service payload) :: sc) se (snd (sequencer w)))) by reflexivity.
  unfold generic_reply. rewrite (bind_Ok _ _ _ _ _ (unit_request_scripted _ _ _ sc se (snd (sequencer w)) Hh Hl)).
  cbv beta iota.
  destruct (reply_items (af_item0 a) (generic_item a service payload)) as (d & Ed & Ei); [done| |].
  { apply item_len_ok_wf; [done|exact Hlen|done]. }
  erewrite bind_Ok by (unfold on; by rewrite (wrapM_Ok _ _ _ _ _ Ed)). cbv beta iota.
  erewrite bind_Ok by (unfold on; by rewrite (wrapM_Ok _ _ _ _ _ Ei)). cbv beta iota.
  erewrite (bind_Ok (lift _)) by reflexivity.
  pose proof (as_response_small service Hs).
  eapply (step_left (gives_item _ _) _ _ _ (le_bytes 2 (Service.AsResponse service) ++ le_bytes 2 0 ++ payload));
    [apply parses_wrapM, (parses_Int16 (af_seq a)); lia|exact (left_Reset (generic_item a service payload))|]. intros i1 L1. cbv beta iota.
  eapply (step_left (gives_item _ _)); [apply parses_wrapM, (parses_Int16 (Service.AsResponse service)); lia|exact L1|]. intros i2 L2. cbv beta iota.
  rewrite (wrap_small 8) by lia. rewrite (proj2 (proj2 (service_response service Hs))), Z.eqb_refl. cbv iota.
  eapply (step_left (gives_item _ _)); [apply parses_wrapM, (parses_Int16 0); lia|exact L2|]. intros i3 L3. cbv beta iota.
  exists i3. by split.
Qed.
