(* ===== verification/ControllerInfo.v ===== *)
(** * The properties of the controller (getattr.go)

    The request for several attributes against a peer that answers it, and the
    five attributes of the controller object that tell whether its program
    was changed: asked for twice, the two lists match exactly when nothing
    was. *)
From S2P Require Import Prelude Reader CipNames CipDefs Items Ioi Templates Messages Client ClientTags ClientConn ClientScript.

(** ** The list of properties *)

(** One attribute of the reply: its id, its status and its value, u16 or u32. *)
Record attr_value := { av_ID : Z; av_Status : Z; av_Value : Z }.

Record msgGetControllerPropList := {
  Attr1 : attr_value; Attr2 : attr_value;                        (* uint16 values *)
  Attr3 : attr_value; Attr4 : attr_value; Attr5 : attr_value;    (* uint32 values *)
}.

(** new.AttrN != old.AttrN || new.AttrN_Status != old.AttrN_Status *)
Definition attr_differs (new old : attr_value) : bool :=
  negb (av_Value new =? av_Value old) || negb (av_Status new =? av_Status old).

Definition Match (old new : msgGetControllerPropList) : bool :=
  if attr_differs (Attr1 new) (Attr1 old) then false
  else if attr_differs (Attr2 new) (Attr2 old) then false
  else if attr_differs (Attr3 new) (Attr3 old) then false
  else if attr_differs (Attr4 new) (Attr4 old) then false
  else if attr_differs (Attr5 new) (Attr5 old) then false
  else true.

Definition read_attr {R} `{Reader R} (value : M R Z) : M R attr_value :=
  id ← read_u16; status ← read_u16; v ← value;
  mret {| av_ID := id; av_Status := status; av_Value := v |}.

Definition read_prop_list {R} `{Reader R} : M R msgGetControllerPropList :=
  read_struct 36
    (a1 ← read_attr read_u16; a2 ← read_attr read_u16;
     a3 ← read_attr read_u32; a4 ← read_attr read_u32; a5 ← read_attr read_u32;
     mret {| Attr1 := a1; Attr2 := a2; Attr3 := a3; Attr4 := a4; Attr5 := a5 |}).

Definition GetControllerPropList : M client_world msgGetControllerPropList :=
  item ← GetAttrList CipObject_ControllerInfo 1 [1; 2; 3; 4; 10];
  '(result, _) ← on item (wrapM "couldn't read data" read_prop_list);
  mret result.

(** ** A list of attributes that is answered *)

(** The answer: no error, the number of attributes, and their data. *)
Definition attr_list_data (a : answer_form) (payload : bytes) : bytes :=
  le_bytes 2 (af_seq a) ++ [Service.AsResponse CIPService_GetAttributeList; 0] ++ le_bytes 2 CIPStatus_OK ++ payload.
Definition attr_list_item (a : answer_form) (count : Z) (payload : bytes) : CIPItem :=
  Write (attr_list_data a (le_bytes 2 count ++ payload)) (empty_item cipItem_ConnectedData).
Definition attr_list_reply (a : answer_form) (count : Z) (payload : bytes) : bytes :=
  eipHeader_bytes (af_hdr a) ++ serializeItems [af_item0 a; attr_list_item a count payload].

Definition attr_answer_ok (a : answer_form) (count : Z) (payload : bytes) : Prop :=
  eipHeader_ok (af_hdr a) /\ hdr_Length (af_hdr a) = blen (serializeItems [af_item0 a; attr_list_item a count payload]) /\
  item_wf (af_item0 a) /\ 0 <= af_seq a < 2 ^ 16 /\ 0 <= count < 2 ^ 15 /\
  blen (attr_list_data a (le_bytes 2 count ++ payload)) < 2 ^ 16.

(** The client behind sequenceNumber.Add(1), and the frame it sends. *)
Definition next_number (w : client_world) : client_world := snd (sequenceNumber_Add 1 w).
Definition attr_list_frame (class instance : Z) (attrs : list Z) (w : client_world) : bytes :=
  let path := Class_.Bytes class ++ Instance_.Bytes instance in
  unit_frame (Write (path ++ le_bytes 2 (blen attrs) ++ concat (map (le_bytes 2) attrs))
    (newItem cipItem_ConnectedData (Some (SBytes
      (service_req_bytes (u16 (u32 (sequenceNumber (link w) + 1))) CIPService_GetAttributeList (u8 (blen path / 2)))))))
    (next_number w).

Lemma parses_attribute_hdr {R} `{ReaderLaws R} seq service status :
  0 <= seq < 2 ^ 16 -> 0 <= service < 2 ^ 8 -> 0 <= status < 2 ^ 16 ->
  parses (R:=R) read_attribute_hdr (le_bytes 2 seq ++ [service; 0] ++ le_bytes 2 status) status.
Proof.
  intros Hs Hv Ht. apply parses_struct; [|done]. parse_field.
  change ([service; 0] ++ le_bytes 2 status) with ([service] ++ [0] ++ le_bytes 2 status).
  do 2 (eapply parses_bind; [by apply parses_u8|]). by apply parses_u16.
Qed.

Lemma GetAttrList_answered a class instance attrs count payload sc se w :
  attr_answer_ok a count payload ->
  gives_item payload
    (scripted sc (se ++ [attr_list_frame class instance attrs w]) (counted (next_number w)))
    (GetAttrList class instance attrs (scripted (Reply (attr_list_reply a count payload) :: sc) se w)).
Proof.
  intros (Hh & Hl & H0 & Hseq & Hc & Hlen). unfold GetAttrList.
  erewrite (bind_Ok _ _ _ (u32 (sequenceNumber (link w) + 1))
    (scripted (Reply (attr_list_reply a count payload) :: sc) se (next_number w))) by reflexivity.
  unfold attr_list_reply. rewrite (bind_Ok _ _ _ _ _ (unit_request_scripted _ _ _ sc se (next_number w) Hh Hl)).
  cbv beta iota.
  destruct (reply_items (af_item0 a) (attr_list_item a count payload)) as (d & Ed & Ei); [done| |].
  { apply item_len_ok_wf; [done|exact Hlen|done]. }
  erewrite bind_Ok by (unfold on; by rewrite Ed). cbv beta iota.
  erewrite bind_Ok by (unfold on; by rewrite Ei). cbv beta iota.
  erewrite (bind_Ok (lift _)) by reflexivity.
  eapply (step_left (gives_item _ _) _ _ _ (le_bytes 2 count ++ payload));
    [apply parses_wrapM, (parses_attribute_hdr (af_seq a) (Service.AsResponse CIPService_GetAttributeList) CIPStatus_OK); [exact Hseq|done|done]
    |exact (left_Reset (attr_list_item a count payload))|]. intros i1 L1. cbv beta iota.
  change (negb (CIPStatus_OK =? CIPStatus_OK)) with false. cbv iota.
  eapply (step_left (gives_item _ _)); [apply (parses_Int16 count); lia|exact L1|]. intros i2 L2. cbv beta iota.
  exists i2. by split.
Qed.

(** ** The properties *)

Definition attr_bytes (n : nat) (a : attr_value) : bytes :=
  le_bytes 2 (av_ID a) ++ le_bytes 2 (av_Status a) ++ le_bytes n (av_Value a).
Definition prop_list_bytes (p : msgGetControllerPropList) : bytes :=
  attr_bytes 2 (Attr1 p) ++ attr_bytes 2 (Attr2 p) ++ attr_bytes 4 (Attr3 p) ++ attr_bytes 4 (Attr4 p) ++ attr_bytes 4 (Attr5 p).

Definition attr_ok (bits : Z) (a : attr_value) : Prop :=
  0 <= av_ID a < 2 ^ 16 /\ 0 <= av_Status a < 2 ^ 16 /\ 0 <= av_Value a < 2 ^ bits.
Definition prop_list_ok (p : msgGetControllerPropList) : Prop :=
  attr_ok 16 (Attr1 p) /\ attr_ok 16 (Attr2 p) /\ attr_ok 32 (Attr3 p) /\ attr_ok 32 (Attr4 p) /\ attr_ok 32 (Attr5 p).

Lemma parses_attr {R} `{ReaderLaws R} n bits value a :
  (forall z, 0 <= z < 2 ^ bits -> parses (R:=R) value (le_bytes n z) z) ->
  attr_ok bits a -> parses (R:=R) (read_attr value) (attr_bytes n a) a.
Proof.
  intros Hv (H1 & H2 & H3). unfold read_attr, attr_bytes. do 2 parse_field.
  eapply parses_bind_nil; [by apply Hv|]. destruct a. apply parses_ret.
Qed.

Lemma length_attr n a : length (attr_bytes n a) = (4 + n)%nat.
Proof. unfold attr_bytes. by rewrite !length_app, !length_le_bytes. Qed.

Lemma parses_prop_list {R} `{ReaderLaws R} p :
  prop_list_ok p -> parses (R:=R) read_prop_list (prop_list_bytes p) p.
Proof.
  intros (H1 & H2 & H3 & H4 & H5). apply parses_struct.
  - unfold prop_list_bytes.
    do 2 (eapply parses_bind; [apply (parses_attr 2 16); [intros; by apply parses_u16|done]|]).
    do 2 (eapply parses_bind; [apply (parses_attr 4 32); [intros; by apply parses_u32|done]|]).
    eapply parses_bind_nil; [apply (parses_attr 4 32); [intros; by apply parses_u32|done]|].
    destruct p. apply parses_ret.
  - unfold prop_list_bytes. by rewrite !length_app, !length_attr.
Qed.

Definition prop_reply (a : answer_form) (p : msgGetControllerPropList) : bytes := attr_list_reply a 5 (prop_list_bytes p).
Definition prop_frame : client_world -> bytes := attr_list_frame CipObject_ControllerInfo 1 [1; 2; 3; 4; 10].

Lemma GetControllerPropList_answered a p sc se w :
  attr_answer_ok a 5 (prop_list_bytes p) -> prop_list_ok p ->
  GetControllerPropList (scripted (Reply (prop_reply a p) :: sc) se w) =
    (Ok p, scripted sc (se ++ [prop_frame w]) (counted (next_number w))).
Proof.
  intros Ha Hp. unfold GetControllerPropList.
  destruct (GetAttrList_answered a CipObject_ControllerInfo 1 [1; 2; 3; 4; 10] 5 (prop_list_bytes p) sc se w Ha)
    as (i & [HL Hd] & E).
  eapply step; [exact E|]. rewrite <- (app_nil_r (prop_list_bytes p)) in Hd.
  pose proof (parses_prop_list (R:=CIPItem) p Hp) as P.
  eapply step; [apply on_Ok, wrapM_Ok, (P i [] HL Hd)|]. done.
Qed.

(** What tells two lists of properties apart: the ids do not. *)
Definition prop_view (p : msgGetControllerPropList) : list (Z * Z) :=
  map (fun a => (av_Status a, av_Value a)) [Attr1 p; Attr2 p; Attr3 p; Attr4 p; Attr5 p].

Lemma attr_differs_false new old :
  attr_differs new old = false <-> (av_Status old, av_Value old) = (av_Status new, av_Value new).
Proof. unfold attr_differs. split; [intros ?|intros [= -> ->]]; [f_equal; lia|lia]. Qed.

Lemma Match_view old new : Match old new = true <-> prop_view old = prop_view new.
Proof.
  unfold Match, prop_view. cbn [map]. split.
  - repeat (case_match; [done|]). intros _. by repeat match goal with
      | H : attr_differs _ _ = false |- _ => apply attr_differs_false in H; rewrite H; clear H end.
  - intros E. injection E as E1 E2 E3 E4 E5 E6 E7 E8 E9 E10.
    by rewrite !(proj2 (attr_differs_false _ _)) by congruence.
Qed.

(** Asked twice for its properties, a controller that answers p1 and
    then p2 makes the client return exactly these, and they match exactly
    when every status and every value is the same. *)
Theorem controller_changes a1 a2 p1 p2 sc se w :
  attr_answer_ok a1 5 (prop_list_bytes p1) -> attr_answer_ok a2 5 (prop_list_bytes p2) ->
  prop_list_ok p1 -> prop_list_ok p2 ->
  (old ← GetControllerPropList; new ← GetControllerPropList; mret (Match old new))
    (scripted (Reply (prop_reply a1 p1) :: Reply (prop_reply a2 p2) :: sc) se w) =
  (Ok (bool_decide (prop_view p1 = prop_view p2)),
   let w1 := counted (next_number w) in
   scripted sc (se ++ [prop_frame w; prop_frame w1]) (counted (next_number w1))).
Proof.
  intros Ha1 Ha2 Hp1 Hp2.
  eapply step; [by apply GetControllerPropList_answered|].
  eapply step; [by apply GetControllerPropList_answered|].
  rewrite <- app_assoc. cbn [app]. apply (f_equal (fun b => (Ok b, _))).
  destruct (bool_decide_reflect (prop_view p1 = prop_view p2)) as [E|E].
  - by apply Match_view.
  - apply not_true_iff_false. by rewrite Match_view.
Qed.

(** ** A witness *)

Definition sample_props (rev : Z) : msgGetControllerPropList :=
  {| Attr1 := {| av_ID := 1; av_Status := 0; av_Value := 5 |};
     Attr2 := {| av_ID := 2; av_Status := 0; av_Value := 1 |};
     Attr3 := {| av_ID := 3; av_Status := 0; av_Value := 0x03B2803B |};
     Attr4 := {| av_ID := 4; av_Status := 0; av_Value := 0x03B2803B |};
     Attr5 := {| av_ID := 10; av_Status := 0; av_Value := rev |} |}.
Definition prop_form : answer_form :=
  {| af_hdr := {| hdr_Command := cipCommandSendUnitData; hdr_Length := 64; hdr_SessionHandle := 1; hdr_Status := 0;
                  hdr_Context := 0; hdr_Options := 0 |};
     af_item0 := Write [5; 0; 0; 0] (empty_item cipItem_ConnectionAddress); af_seq := 7 |}.
Definition prop_peer : client_world :=
  {| cw_client := {| cfg := new_config; lnk := set_connStatus connectionStatusConnected new_link;
                     ioi := {| ioi_cache := ∅; KnownTags := None; firmware := 20; catalog := no_types |} |};
     cw_dials := []; cw_sequenceValue := 5; cw_connectionSerialValue := 0; cw_clock := 0 |}.

Lemma controller_changes_witness :
  fst ((old ← GetControllerPropList; new ← GetControllerPropList; mret (Match old new))
    (scripted [Reply (prop_reply prop_form (sample_props 7)); Reply (prop_reply prop_form (sample_props 8))] [] prop_peer)) =
  Ok false.
Proof.
  eapply eq_trans; [apply (f_equal fst (controller_changes prop_form prop_form (sample_props 7) (sample_props 8) [] [] prop_peer
    ltac:(repeat split; vm_compute; first [reflexivity|discriminate])
    ltac:(repeat split; vm_compute; first [reflexivity|discriminate])
    ltac:(repeat split; vm_compute; first [reflexivity|discriminate])
    ltac:(repeat split; vm_compute; first [reflexivity|discriminate])))|].
  vm_compute. reflexivity.
Defined.
