(* ===== verification/Canned.v ===== *)
(** * Ready-made requests (canned/faults.go, canned/forces.go)

    The fault summary and the state of the forces of a controller, asked for
    with the generic requests of the client; the description of a fault from
    the table of descriptions. *)
From Stdlib Require Import Ascii String.
From S2P Require Import Prelude Reader CipNames CipDefs FaultTable Items Ioi Templates Messages Client ClientTags ClientConn ClientScript ControllerInfo.

(** ** Faults *)

Record FaultEvent := {
  Timestamp : Z;                            (* uint64 *)
  FaultClass : Z; FaultCode : Z;            (* uint16 *)
  Detail : bytes;                           (* 30 bytes *)
}.

Record FaultSummary := {
  MajorType : Z; MinorType : Z;             (* FaultType *)
  MajorCount : Z; MinorCount : Z;           (* uint16 *)
  Events : list FaultEvent;                 (* the last 3 major faults *)
}.

(** string(f.Detail[:]) *)
Definition string_of_bytes (b : bytes) : string :=
  string_of_list_ascii (map (fun z => ascii_of_N (Z.to_N z)) b).

(** %02d of a number that is not negative *)
Definition dec_pad2 (z : Z) : string :=
  if z <? 10 then String "0"%char (dec_string z) else dec_string z.

(** A lookup in a map of the table. *)
Fixpoint find_code {A} (k : Z) (l : list (Z * A)) : option A :=
  match l with
  | [] => None
  | (k', a) :: l => if k =? k' then Some a else find_code k l
  end.

Definition unknown_fault (f : FaultEvent) : FaultDescription :=
  {| fd_Type := FaultClass f; fd_Code := FaultCode f;
     fd_Display := String.append "Unknown fault T"%string
       (String.append (dec_pad2 (FaultClass f)) (String.append ":C"%string (dec_pad2 (FaultCode f))));
     fd_Description := string_of_bytes (Detail f);
     fd_CorrectiveAction := "Unknown"%string; fd_Major := false; fd_TypeName := "Unknown"%string |}.

Definition Description (f : FaultEvent) : FaultDescription :=
  match find_code (FaultClass f) FaultDescriptions with
  | None => unknown_fault f
  | Some t => default (unknown_fault f) (find_code (FaultCode f) t)
  end.

Definition FaultEvent_String (f : FaultEvent) : string :=
  if (FaultClass f =? 0) && (FaultCode f =? 0) then "No Fault"%string else fd_Display (Description f).

Definition FaultType_None := Z.shiftl 1 0.
Definition FaultType_Powerup := Z.shiftl 1 1.
Definition FaultType_IO := Z.shiftl 1 2.
Definition FaultType_Program := Z.shiftl 1 3.
Definition FaultType_Watchdog := Z.shiftl 1 5.
Definition FaultType_NVMemory := Z.shiftl 1 6.
Definition FaultType_ModeChange := Z.shiftl 1 7.
Definition FaultType_SerialPort := Z.shiftl 1 8.
Definition FaultType_EnergyStorage := Z.shiftl 1 9.
Definition FaultType_Motion := Z.shiftl 1 10.
Definition FaultType_Redundancy := Z.shiftl 1 11.
Definition FaultType_RTC := Z.shiftl 1 12.
Definition FaultType_NonRecoverable := Z.shiftl 1 13.
Definition FaultType_Communication := Z.shiftl 1 15.
Definition FaultType_Diagnostics := Z.shiftl 1 16.
Definition FaultType_CIPMotion := Z.shiftl 1 17.
Definition FaultType_Ethernet := Z.shiftl 1 18.
Definition FaultType_License := Z.shiftl 1 19.
Definition FaultType_Alarm := Z.shiftl 1 20.
Definition FaultType_OPCUA := Z.shiftl 1 21.

(** f&FaultType_X != 0 *)
Definition has_flag (flag f : Z) : bool := negb (Z.land f flag =? 0).
Definition PowerupFault := has_flag FaultType_Powerup.
Definition IOFault := has_flag FaultType_IO.
Definition ProgramFault := has_flag FaultType_Program.
Definition WatchdogFault := has_flag FaultType_Watchdog.
Definition NVMemoryFault := has_flag FaultType_NVMemory.
Definition ModeChangeFault := has_flag FaultType_ModeChange.
Definition SerialPortFault := has_flag FaultType_SerialPort.
Definition EnergyStorageFault := has_flag FaultType_EnergyStorage.
Definition MotionFault := has_flag FaultType_Motion.
Definition RedundancyFault := has_flag FaultType_Redundancy.
Definition RTCFault := has_flag FaultType_RTC.
Definition NonRecoverableFault := has_flag FaultType_NonRecoverable.
Definition CommunicationFault := has_flag FaultType_Communication.
Definition DiagnosticsFault := has_flag FaultType_Diagnostics.
Definition CIPMotionFault := has_flag FaultType_CIPMotion.
Definition EthernetFault := has_flag FaultType_Ethernet.
Definition LicenseFault := has_flag FaultType_License.
Definition AlarmFault := has_flag FaultType_Alarm.
Definition OPCUAFault := has_flag FaultType_OPCUA.

(** binary.Read of the structs, their arrays included *)
Definition read_event {R} `{Reader R} : M R FaultEvent :=
  ts ← read_u64; class ← read_u16; code ← read_u16; detail ← read_slice 30;
  mret {| Timestamp := ts; FaultClass := class; FaultCode := code; Detail := detail |}.

Definition read_summary {R} `{Reader R} : M R FaultSummary :=
  read_struct 138
    (major ← read_u32; minor ← read_u32; majorCount ← read_u16; minorCount ← read_u16;
     e0 ← read_event; e1 ← read_event; e2 ← read_event;
     mret {| MajorType := major; MinorType := minor; MajorCount := majorCount; MinorCount := minorCount;
             Events := [e0; e1; e2] |}).

(** ** Forces *)

Definition Enabled (f : Z) : bool := has_flag 1 f.
Definition Exist (f : Z) : bool := has_flag 1 f.

(** The ID, the status and the forces of the reply. *)
Definition read_forces {R} `{Reader R} : M R Z :=
  read_struct 6 (_ ← read_u16; _ ← read_u16; read_u16).

Section Requests.
Abbreviation C := (M client_world).

(** An error that is formatted into the message (%v), not wrapped. *)
Definition decoded {A} (m : M CIPItem A) (item : CIPItem) : C A :=
  r ← try (on item m);
  match r with
  | inl _ => fail (Errorf "could not deserialize response")
  | inr (response, _) => mret response
  end.

Definition fault_path : bytes := Class_.Bytes 0x73 ++ Instance_.Bytes 1.

Definition GetFaults : C FaultSummary :=
  item ← GenericCIPMessage CIPService_GetAttributeAll fault_path [];
  decoded read_summary item.

Definition GetForces : C Z :=
  item ← GetAttrList CipObject_IOClass 0 [9];
  decoded read_forces item.
End Requests.

(** ** Every description is that of its fault *)

Lemma find_code_In {A} k (l : list (Z * A)) a : find_code k l = Some a -> (k, a) ∈ l.
Proof.
  induction l as [|[k' b] l IH]; [done|]. simpl. destruct (Z.eqb_spec k k') as [->|]; [|intros; right; by apply IH].
  intros [= ->]. by left.
Qed.

(** The only entry of the table that is filed under another code than its own. *)
Definition misfiled (class code : Z) : bool := (class =? 17) && (code =? 32).

Definition own_codes (class : Z) (l : list (Z * FaultDescription)) : bool :=
  forallb (fun '(code, d) => (fd_Type d =? class) && ((fd_Code d =? code) || misfiled class code)) l.

Lemma table_own_codes : forallb (fun '(class, l) => own_codes class l) FaultDescriptions = true.
Proof. vm_compute. reflexivity. Qed.

(** The keys of the maps are different, as Go demands of them. *)
Lemma table_keys : NoDup FaultDescriptions.*1 /\ Forall (fun '(_, l) => NoDup (A:=Z) l.*1) FaultDescriptions.
Proof. split; apply (bool_decide_unpack _); vm_compute; exact I. Qed.

(** The description of a fault event is one of its own type and code,
    whether the table knows them or not; the one entry that is filed under
    another code, 17:32, describes 17:31. *)
Theorem description_is_own f :
  fd_Type (Description f) = FaultClass f /\
  fd_Code (Description f) = if misfiled (FaultClass f) (FaultCode f) then 31 else FaultCode f.
Proof.
  destruct (misfiled _ _) eqn:Hm.
  - unfold misfiled in Hm. apply andb_true_iff in Hm as [E1%Z.eqb_eq E2%Z.eqb_eq].
    unfold Description. rewrite E1, E2. vm_compute. done.
  - unfold Description. destruct (find_code (FaultClass f) FaultDescriptions) as [t|] eqn:Et; [|done].
    destruct (find_code (FaultCode f) t) as [d|] eqn:Ed; [|done]. cbn [default].
    apply find_code_In, list_elem_of_In in Et. apply find_code_In, list_elem_of_In in Ed.
    pose proof (proj1 (forallb_forall _ _) table_own_codes _ Et) as H.
    pose proof (proj1 (forallb_forall _ _) H _ Ed) as H2. cbv beta iota in H2.
    rewrite Hm, orb_false_r in H2. apply andb_true_iff in H2 as [E1%Z.eqb_eq E2%Z.eqb_eq]. by split.
Qed.

(** ** The fault summary *)

Definition event_bytes (e : FaultEvent) : bytes :=
  le_bytes 8 (Timestamp e) ++ le_bytes 2 (FaultClass e) ++ le_bytes 2 (FaultCode e) ++ Detail e.
Definition summary_bytes (s : FaultSummary) : bytes :=
  le_bytes 4 (MajorType s) ++ le_bytes 4 (MinorType s) ++ le_bytes 2 (MajorCount s) ++ le_bytes 2 (MinorCount s) ++
  concat (event_bytes <$> Events s).

Definition event_ok (e : FaultEvent) : Prop :=
  0 <= Timestamp e < 2 ^ 64 /\ 0 <= FaultClass e < 2 ^ 16 /\ 0 <= FaultCode e < 2 ^ 16 /\ length (Detail e) = 30%nat.
Definition summary_ok (s : FaultSummary) : Prop :=
  0 <= MajorType s < 2 ^ 32 /\ 0 <= MinorType s < 2 ^ 32 /\ 0 <= MajorCount s < 2 ^ 16 /\ 0 <= MinorCount s < 2 ^ 16 /\
  length (Events s) = 3%nat /\ Forall event_ok (Events s).

Lemma parses_event {R} `{ReaderLaws R} e : event_ok e -> parses (R:=R) read_event (event_bytes e) e.
Proof.
  intros (H1 & H2 & H3 & H4). unfold read_event, event_bytes, read_u64. do 3 parse_field.
  eapply parses_bind_nil; [by apply parses_slice|]. destruct e. apply parses_ret.
Qed.

Lemma length_event e : event_ok e -> length (event_bytes e) = 42%nat.
Proof. intros (_ & _ & _ & Hl). unfold event_bytes. rewrite !length_app, !length_le_bytes, Hl. done. Qed.

Lemma parses_summary {R} `{ReaderLaws R} s : summary_ok s -> parses (R:=R) read_summary (summary_bytes s) s.
Proof.
  intros (H1 & H2 & H3 & H4 & Hl & He). destruct s as [mt nt mc nc es]; cbn [MajorType MinorType MajorCount MinorCount Events] in *.
  destruct es as [|e0 [|e1 [|e2 [|]]]]; try done. split_Forall.
  apply parses_struct.
  - unfold summary_bytes. cbn [MajorType MinorType MajorCount MinorCount Events fmap list_fmap concat]. rewrite app_nil_r.
    do 4 parse_field. do 2 (eapply parses_bind; [by apply parses_event|]).
    eapply parses_bind_nil; [by apply parses_event|]. apply parses_ret.
  - unfold summary_bytes. cbn [MajorType MinorType MajorCount MinorCount Events fmap list_fmap concat].
    rewrite !length_app, !length_le_bytes, !length_event by done. done.
Qed.

(** GetFaults asks the fault object for all its attributes and returns
    exactly the summary the controller answers with: types, counts and the
    three last events with their details. *)
Theorem GetFaults_reports a s sc se w :
  answer_ok a CIPService_GetAttributeAll (summary_bytes s) -> summary_ok s ->
  GetFaults (scripted (Reply (generic_reply a CIPService_GetAttributeAll (summary_bytes s)) :: sc) se w) =
    (Ok s, scripted sc (se ++ [generic_frame CIPService_GetAttributeAll [0x20; 0x73; 0x24; 0x01] [] w])
             (counted (snd (sequencer w)))).
Proof.
  intros Ha Hs. unfold GetFaults.
  destruct (GenericCIPMessage_answered a CIPService_GetAttributeAll fault_path [] (summary_bytes s) sc se w Ha) as (i & [HL Hd] & E).
  eapply step; [exact E|]. unfold decoded. rewrite <- (app_nil_r (summary_bytes s)) in Hd.
  pose proof (parses_summary (R:=CIPItem) s Hs) as P.
  eapply step; [apply try_Ok, on_Ok, (P i [] HL Hd)|]. done.
Qed.

(** ** The forces *)

Lemma parses_forces {R} `{ReaderLaws R} id status f :
  0 <= id < 2 ^ 16 -> 0 <= status < 2 ^ 16 -> 0 <= f < 2 ^ 16 ->
  parses (R:=R) read_forces (attr_bytes 2 {| av_ID := id; av_Status := status; av_Value := f |}) f.
Proof.
  intros H1 H2 H3. apply parses_struct; [|done]. unfold attr_bytes. cbn [av_ID av_Status av_Value].
  do 2 parse_field. by apply parses_u16.
Qed.

(** GetForces returns the value of attribute 9, whatever id and status the
    peer says it has. *)
Lemma GetForces_answered a id status f sc se w :
  let payload := attr_bytes 2 {| av_ID := id; av_Status := status; av_Value := f |} in
  attr_answer_ok a 1 payload -> 0 <= id < 2 ^ 16 -> 0 <= status < 2 ^ 16 -> 0 <= f < 2 ^ 16 ->
  GetForces (scripted (Reply (attr_list_reply a 1 payload) :: sc) se w) =
    (Ok f, scripted sc (se ++ [attr_list_frame CipObject_IOClass 0 [9] w]) (counted (next_number w))).
Proof.
  intros payload Ha H1 H2 H3. unfold GetForces.
  destruct (GetAttrList_answered a CipObject_IOClass 0 [9] 1 payload sc se w Ha) as (i & [HL Hd] & E).
  eapply step; [exact E|]. unfold decoded. rewrite <- (app_nil_r payload) in Hd.
  pose proof (parses_forces (R:=CIPItem) id status f H1 H2 H3) as P.
  eapply step; [apply try_Ok, on_Ok, (P i [] HL Hd)|]. done.
Qed.

(** ** Witnesses *)

Definition sample_event (class code : Z) : FaultEvent :=
  {| Timestamp := 12345; FaultClass := class; FaultCode := code; Detail := replicate 30 0 |}.
Definition sample_summary : FaultSummary :=
  {| MajorType := FaultType_Program; MinorType := 0; MajorCount := 1; MinorCount := 0;
     Events := [sample_event 4 20; sample_event 0 0; sample_event 0 0] |}.
Definition sample_form : answer_form :=
  {| af_hdr := {| hdr_Command := cipCommandSendUnitData; hdr_Length := 164; hdr_SessionHandle := 1; hdr_Status := 0;
                  hdr_Context := 0; hdr_Options := 0 |};
     af_item0 := Write [5; 0; 0; 0] (empty_item cipItem_ConnectionAddress); af_seq := 7 |}.
Definition sample_peer : client_world :=
  {| cw_client := {| cfg := new_config; lnk := set_connStatus connectionStatusConnected new_link;
                     ioi := {| ioi_cache := ∅; KnownTags := None; firmware := 20; catalog := no_types |} |};
     cw_dials := []; cw_sequenceValue := 5; cw_connectionSerialValue := 0; cw_clock := 0 |}.

Lemma GetFaults_reports_witness :
  GetFaults (scripted [Reply (generic_reply sample_form CIPService_GetAttributeAll (summary_bytes sample_summary))] [] sample_peer) =
    (Ok sample_summary, scripted [] ([] ++ [generic_frame CIPService_GetAttributeAll [0x20; 0x73; 0x24; 0x01] [] sample_peer])
             (counted (snd (sequencer sample_peer)))).
Proof.
  apply (GetFaults_reports sample_form sample_summary [] [] sample_peer).
  - repeat split; try (vm_compute; first [reflexivity|discriminate]).
  - split; [zbound|]. split; [zbound|]. split; [zbound|]. split; [zbound|]. split; [reflexivity|].
    repeat apply Forall_cons_2; try apply Forall_nil_2; (split; [zbound|split; [zbound|split; [zbound|reflexivity]]]).
Defined.

Example described : map FaultEvent_String (Events sample_summary) =
  ["Major Fault T04:C20 - Program Fault: Array subscript too large, or CONTROL data type POS or LEN invalid."%string;
   "No Fault"%string; "No Fault"%string].
Proof. vm_compute. reflexivity. Qed.

Example not_described : FaultEvent_String (sample_event 5 7) = "Unknown fault T05:C07"%string.
Proof. vm_compute. reflexivity. Qed.
