(* ===== verification/TagSub.v ===== *)
(** * Tag subscriptions (tag_subscribe.go)

    Goroutines that read tags at every tick of a timer and put what changed
    into a channel.  The order of each range over a map is a parameter; what
    ReadMap leaves in a map is a result, which is a value, a struct cut off by
    the end of the data, or an error. *)
From stdpp Require Import sorting.
From S2P Require Import Prelude Reader GoStrings GoValue GoFloat CipNames CipDefs Types Items Ioi Pack Messages Client ClientTags Discovery MultiRead WriteTags IOProvider ImplicitSub ClientConn ClientScript.

(** ** reflect.DeepEqual and snapshots *)

(** == of floats with [man] bits of mantissa and [exp] of exponent: a NaN
    differs from itself, the two zeros are equal. *)
Definition float_eq (man exp : Z) (a b : Z) : bool :=
  negb (is_nan_bits man exp a) && negb (is_nan_bits man exp b) &&
  ((a =? b) || ((a mod 2 ^ (man + exp) =? 0) && (b mod 2 ^ (man + exp) =? 0))).

(** Of values that share no memory. *)
Fixpoint DeepEqual (a b : goval) {struct a} : bool :=
  let all :=
    fix go (l m : list goval) : bool :=
      match l, m with
      | [], [] => true
      | x :: l, y :: m => DeepEqual x y && go l m
      | _, _ => false
      end in
  match a, b with
  | VNil, VNil => true
  | VBool x, VBool y => Bool.eqb x y
  | VInt k x, VInt k' y => bool_decide (k = k') && (x =? y)
  | VFloat32 x, VFloat32 y => float_eq 23 8 x y
  | VFloat64 x, VFloat64 y => float_eq 52 11 x y
  | VString x, VString y => bool_decide (x = y)
  | VSlice t l, VSlice t' m => bool_decide (t = t') && all l m
  | VArray t l, VArray t' m => bool_decide (t = t') && all l m
  | VStruct n f l, VStruct n' f' m => bool_decide (n = n') && bool_decide (f = f') && all l m
  | VPtr t None, VPtr t' None => bool_decide (t = t')
  | VPtr t (Some x), VPtr t' (Some y) => bool_decide (t = t') && DeepEqual x y
  | _, _ => false
  end.

(** A copy of the top level; a value here has no identity. *)
Definition snapshotValue (v : read_result) : read_result := v.

(** ** One tag *)

Record TagSubscriptionConfig := {
  ts_Tag : bytes;
  ts_PollInterval : Z;   (* time.Duration *)
  ts_EmitInitial : bool;
  ts_ValueBuffer : Z;    (* int *)
  ts_ErrorBuffer : Z;
}.

(** The channels of a subscription, its stop channel, and the locals of its
    loop: the last value, if there was one. *)
Record TagSubscription (A : Type) := {
  ts_values : chan A;
  ts_errs : chan error;
  ts_stopped : bool;   (* stopCh is closed *)
  ts_done : bool;      (* doneCh is closed *)
}.
Arguments Build_TagSubscription {A}. Arguments ts_values {A} _. Arguments ts_errs {A} _.
Arguments ts_stopped {A} _. Arguments ts_done {A} _.

Definition new_subscription {A} (values errs : Z) : TagSubscription A :=
  {| ts_values := make_chan (Z.to_nat values); ts_errs := make_chan (Z.to_nat errs); ts_stopped := false; ts_done := false |}.

(** select { case ch <- x: default: } *)
Definition try_emit {A} (x : A) (c : chan A) : chan A := if chan_full c then c else chan_send x c.

Definition emit_value {A} (x : A) (s : TagSubscription A) : TagSubscription A :=
  {| ts_values := try_emit x (ts_values s); ts_errs := ts_errs s; ts_stopped := ts_stopped s; ts_done := ts_done s |}.
Definition emit_error {A} (e : error) (s : TagSubscription A) : TagSubscription A :=
  {| ts_values := ts_values s; ts_errs := try_emit e (ts_errs s); ts_stopped := ts_stopped s; ts_done := ts_done s |}.

(** Stop: the channel is closed once, then the loop has returned and has
    closed its channels. *)
Definition TagSubscription_Stop {A} (s : TagSubscription A) : TagSubscription A :=
  {| ts_values := chan_close (ts_values s); ts_errs := chan_close (ts_errs s); ts_stopped := true; ts_done := true |}.

Section OneTag.
Context `{Methods} (UnixMilli : nat -> Z) (T : gotype).
Abbreviation C := (M client_world).

(** The defaults, then the subscription and what its loop needs. *)
Definition SubscribeTag (cfg : TagSubscriptionConfig) : C (TagSubscription goval * TagSubscriptionConfig) :=
  _ ← wrapM "could not start tag subscription" (checkConnection UnixMilli);
  if bool_decide (trim_space (ts_Tag cfg) = []) then fail (Errorf "tag must not be empty")
  else
    let cfg := {| ts_Tag := ts_Tag cfg; ts_PollInterval := positive_or (200 * 1000000) (ts_PollInterval cfg);
                  ts_EmitInitial := ts_EmitInitial cfg; ts_ValueBuffer := positive_or 32 (ts_ValueBuffer cfg);
                  ts_ErrorBuffer := positive_or 8 (ts_ErrorBuffer cfg) |} in
    mret (new_subscription (ts_ValueBuffer cfg) (ts_ErrorBuffer cfg), cfg).
End OneTag.

(** What a tick makes of a read's outcome: the locals hasPrev and prev. *)
Definition tag_tick (emitInitial : bool) (r : error + goval) (st : TagSubscription goval * option goval) :
    TagSubscription goval * option goval :=
  let '(s, prev) := st in
  match r with
  | inl e => (emit_error e s, prev)
  | inr cur =>
      match prev with
      | None => (if emitInitial then emit_value cur s else s, Some cur)
      | Some p => if DeepEqual cur p then (s, prev) else (emit_value cur s, Some cur)
      end
  end.

(** Receivers take up to [n] values out of the channel. *)
Definition receive_values {A} (n : nat) (s : TagSubscription A) : TagSubscription A :=
  {| ts_values := Nat.iter n chan_receive (ts_values s); ts_errs := ts_errs s; ts_stopped := ts_stopped s; ts_done := ts_done s |}.

(** The loop over the ticks until it is stopped, with how many values
    receivers ask for before the outcome of each tick. *)
Fixpoint tag_run `{Methods} (UnixMilli : nat -> Z) (T : gotype) (tag : bytes) (emitInitial : bool) (receivers : list nat)
    (st : TagSubscription goval * option goval) : M client_world (TagSubscription goval * option goval) :=
  match receivers with
  | [] => mret st
  | n :: receivers =>
      r ← try (Read_into UnixMilli T tag);
      tag_run UnixMilli T tag emitInitial receivers (tag_tick emitInitial r (prod_map (receive_values n) id st))
  end.

(** ** Many tags *)

Record TagUpdate := { tu_Tag : bytes; tu_Value : read_result; tu_Timestamp : Z }.

Record TagMultiSubscriptionConfig := {
  tm_Tags : gmap bytes goval;
  tm_PollInterval : Z;     (* time.Duration *)
  tm_BatchSize : Z;        (* int *)
  tm_BatchesPerTick : Z;
  tm_EmitInitial : bool;
  tm_ValueBuffer : Z;
  tm_ErrorBuffer : Z;
}.

Definition multi_defaults (cfg : TagMultiSubscriptionConfig) : TagMultiSubscriptionConfig :=
  {| tm_Tags := tm_Tags cfg; tm_PollInterval := positive_or (100 * 1000000) (tm_PollInterval cfg);
     tm_BatchSize := positive_or 200 (tm_BatchSize cfg); tm_BatchesPerTick := positive_or 1 (tm_BatchesPerTick cfg);
     tm_EmitInitial := tm_EmitInitial cfg; tm_ValueBuffer := positive_or 256 (tm_ValueBuffer cfg);
     tm_ErrorBuffer := positive_or 32 (tm_ErrorBuffer cfg) |}.

(** sort.Strings *)
#[global] Instance key_le_dec : RelDecision (fun a b : bytes => bytes_le a b = true).
Proof. intros a b. apply _. Defined.
Definition sort_keys (keys : list bytes) : list bytes := merge_sort (fun a b : bytes => bytes_le a b = true) keys.

(** The loop over the keys: the next [size] of them, until none is left. *)
Fixpoint key_batches (fuel size : nat) (keys : list bytes) : list (list bytes) :=
  match fuel, keys with
  | S fuel, _ :: _ => take size keys :: key_batches fuel size (drop size keys)
  | _, _ => []
  end.

(** batch[k] = cfg.Tags[k] *)
Definition batch_map (tags : gmap bytes goval) (keys : list bytes) : gmap bytes read_result :=
  list_to_map ((fun k => (k, RVal (default VNil (tags !! k)))) <$> keys).

(** make([]map[string]any, 0, cap) *)
Definition batches_cap (n size : Z) : res unit :=
  if Z.quot (swrap 64 (n + size - 1)) size <? 0 then Panic "makeslice: cap out of range" else Ok tt.

(** The locals of the loop; the batches are maps that ReadMap writes to. *)
Record multi_locals := {
  ml_prev : gmap bytes read_result;
  ml_seen : gset bytes;
  ml_batchIndex : nat;
  ml_batches : list (gmap bytes read_result);
  ml_ranges : nat;     (* how many range statements over a map were run *)
}.

Definition new_locals (batches : list (gmap bytes read_result)) : multi_locals :=
  {| ml_prev := ∅; ml_seen := ∅; ml_batchIndex := 0; ml_batches := batches; ml_ranges := 0 |}.
Definition remember (tag : bytes) (v : read_result) (l : multi_locals) : multi_locals :=
  {| ml_prev := <[tag := v]> (ml_prev l); ml_seen := {[tag]} ∪ ml_seen l; ml_batchIndex := ml_batchIndex l;
     ml_batches := ml_batches l; ml_ranges := ml_ranges l |}.
Definition set_batch (i : nat) (b : gmap bytes read_result) (l : multi_locals) : multi_locals :=
  {| ml_prev := ml_prev l; ml_seen := ml_seen l; ml_batchIndex := ml_batchIndex l;
     ml_batches := <[i := b]> (ml_batches l); ml_ranges := ml_ranges l |}.
Definition next_batch (l : multi_locals) : multi_locals :=
  {| ml_prev := ml_prev l; ml_seen := ml_seen l;
     ml_batchIndex := (ml_batchIndex l + 1) mod length (ml_batches l); ml_batches := ml_batches l; ml_ranges := ml_ranges l |}.
Definition ranged (l : multi_locals) : multi_locals :=
  {| ml_prev := ml_prev l; ml_seen := ml_seen l; ml_batchIndex := ml_batchIndex l; ml_batches := ml_batches l;
     ml_ranges := S (ml_ranges l) |}.

Section ManyTags.
Context `{Methods} (UnixMilli : nat -> Z).
(* The entries of a map in the order the n-th range statement takes them; the
   value an error is in an interface; reflect.DeepEqual where an error or a
   cut-off struct is compared. *)
Context (order : nat -> gmap bytes read_result -> list (bytes * read_result))
        (error_value : error -> goval) (other_equal : read_result -> read_result -> bool).
Abbreviation C := (M client_world).
Abbreviation multi := (TagSubscription TagUpdate * multi_locals)%type.

Definition SubscribeTags (cfg : TagMultiSubscriptionConfig) :
    C (TagSubscription TagUpdate * TagMultiSubscriptionConfig * list (gmap bytes read_result)) :=
  _ ← wrapM "could not start tag subscription" (checkConnection UnixMilli);
  if bool_decide (tm_Tags cfg = ∅) then fail (Errorf "tags must not be empty")
  else
    let cfg := multi_defaults cfg in
    let keys := elements (dom (tm_Tags cfg)) in
    if bool_decide (Exists (fun k => trim_space k = []) keys) then fail (Errorf "tag key must not be empty")
    else
      _ ← lift (batches_cap (Z.of_nat (length keys)) (tm_BatchSize cfg));
      let batches := key_batches (length keys) (Z.to_nat (tm_BatchSize cfg)) (sort_keys keys) in
      mret (new_subscription (tm_ValueBuffer cfg) (tm_ErrorBuffer cfg), cfg, batch_map (tm_Tags cfg) <$> batches).

Definition result_value (r : read_result) : goval :=
  match r with RVal v => v | RCut t => go_zero t | RErr e => error_value e end.

Definition result_equal (a b : read_result) : bool :=
  match a, b with RVal v, RVal w => DeepEqual v w | _, _ => other_equal a b end.

(** The body of the range over a batch. *)
Definition scan_entry (emitInitial : bool) (now : Z) (st : multi) (e : bytes * read_result) : multi :=
  let '(s, l) := st in
  let '(tag, cur) := e in
  let update := {| tu_Tag := tag; tu_Value := snapshotValue cur; tu_Timestamp := now |} in
  if decide (tag ∈ ml_seen l) then
    if result_equal cur (default (RVal VNil) (ml_prev l !! tag)) then st
    else (emit_value update s, remember tag (snapshotValue cur) l)
  else (if emitInitial then emit_value update s else s, remember tag (snapshotValue cur) l).

Definition scan (emitInitial : bool) (now : Z) : list (bytes * read_result) -> multi -> multi :=
  fun entries st => fold_left (scan_entry emitInitial now) entries st.

(** One batch of a tick.  A read that is put off by a reconnection leaves the
    map as it is and counts as one. *)
Definition multi_batch (emitInitial : bool) (st : multi) : C multi :=
  let '(s, l) := st in
  match ml_batches l with
  | [] => mret st
  | _ =>
      let i := ml_batchIndex l in
      match ml_batches l !! i with
      | None => panic "index out of range"
      | Some batch =>
          let l := next_batch l in
          r ← try (ReadMap UnixMilli (prod_map id result_value <$> order (ml_ranges l) batch));
          let l := ranged l in
          match r with
          | inl e => mret (emit_error e s, l)
          | inr results =>
              let batch := match results with Some results => list_to_map results | None => batch end in
              let l := set_batch i batch l in
              now ← now_millis UnixMilli;
              mret (scan emitInitial now (order (ml_ranges l) batch) (s, ranged l))
          end
      end
  end.

Fixpoint multi_tick (batchesPerTick : nat) (emitInitial : bool) (st : multi) : C multi :=
  match batchesPerTick with
  | O => mret st
  | S n => st ← multi_batch emitInitial st; multi_tick n emitInitial st
  end.

Fixpoint multi_run (ticks batchesPerTick : nat) (emitInitial : bool) (st : multi) : C multi :=
  match ticks with
  | O => mret st
  | S ticks => st ← multi_tick batchesPerTick emitInitial st; multi_run ticks batchesPerTick emitInitial st
  end.
End ManyTags.

(** ** One tag: what the subscriber sees *)

(** What is emitted for the values read: the changes. *)
Fixpoint changes (emitInitial : bool) (prev : option goval) (vs : list goval) : list goval :=
  match vs with
  | [] => []
  | v :: vs =>
      match prev with
      | None => (if emitInitial then [v] else []) ++ changes emitInitial (Some v) vs
      | Some p => if DeepEqual v p then changes emitInitial prev vs else v :: changes emitInitial (Some v) vs
      end
  end.

(** The values among the outcomes of the reads. *)
Definition read_values (rs : list (error + goval)) : list goval :=
  omap (fun r : error + goval => match r with inr v => Some v | inl _ => None end) rs.

(** The outcomes of successive reads. *)
Fixpoint reads `{Methods} (UnixMilli : nat -> Z) (T : gotype) (tag : bytes) (n : nat) : M client_world (list (error + goval)) :=
  match n with
  | O => mret []
  | S n => r ← try (Read_into UnixMilli T tag); l ← reads UnixMilli T tag n; mret (r :: l)
  end.

(** A tick with the receivers in front of it. *)
Definition tick_step (initial : bool) (st : TagSubscription goval * option goval) (e : nat * (error + goval)) :=
  tag_tick initial (snd e) (prod_map (receive_values (fst e)) id st).

Lemma tag_run_reads `{Methods} U T tag initial ns : forall st w rs w',
  reads U T tag (length ns) w = (Ok rs, w') ->
  length rs = length ns /\
  tag_run U T tag initial ns st w = (Ok (fold_left (tick_step initial) (zip ns rs) st), w').
Proof.
  induction ns as [|n ns IH]; intros st w rs w' E; cbn [reads tag_run length] in *.
  { injection E as <- <-. done. }
  apply bind_Ok_inv in E as (r & w1 & E1 & E). apply bind_Ok_inv in E as (l & w2 & E2 & E). injection E as <- <-.
  destruct (IH (tick_step initial st (n, r)) _ _ _ E2) as [Hl E3].
  rewrite (bind_Ok _ _ _ _ _ E1). split; [by rewrite <- Hl|exact E3].
Qed.

(** ** What a channel has been given *)

(** The values that went through the channel: those taken out, then those in
    it. *)
Definition chan_log {A} (c : chan A) : list A := chan_got c ++ chan_buf c.

Lemma receive_log {A} (c : chan A) :
  chan_log (chan_receive c) = chan_log c /\ chan_cap (chan_receive c) = chan_cap c /\
  length (chan_buf (chan_receive c)) = (length (chan_buf c) - 1)%nat.
Proof.
  destruct c as [k [|x buf] got cl]; cbn; [done|]. unfold chan_log. cbn. rewrite <- (assoc_L (++)).
  split_and!; [done|done|lia].
Qed.

Lemma receives_log {A} n (c : chan A) :
  let c' := Nat.iter n chan_receive c in
  chan_log c' = chan_log c /\ chan_cap c' = chan_cap c /\ length (chan_buf c') = (length (chan_buf c) - n)%nat.
Proof.
  induction n as [|n IH]; cbv zeta in *; [cbn; split_and!; [done|done|lia]|].
  change (Nat.iter (S n) chan_receive c) with (chan_receive (Nat.iter n chan_receive c)).
  destruct (receive_log (Nat.iter n chan_receive c)) as (E1 & E2 & E3). destruct IH as (F1 & F2 & F3).
  split_and!; [congruence|congruence|lia].
Qed.

Lemma try_emit_room {A} (x : A) (c : chan A) : (length (chan_buf c) < chan_cap c)%nat ->
  chan_log (try_emit x c) = chan_log c ++ [x] /\ chan_cap (try_emit x c) = chan_cap c /\
  (length (chan_buf (try_emit x c)) <= chan_cap c)%nat.
Proof.
  intros Hl. unfold try_emit, chan_full. destruct (Nat.leb_spec (chan_cap c) (length (chan_buf c))); [lia|].
  unfold chan_log, chan_send. cbn [chan_got chan_buf chan_cap]. rewrite (assoc_L (++)), length_app. simpl. split_and!; [done|done|lia].
Qed.

(** There is room for every value: for all that are offered at once, or a
    receiver takes one before each tick. *)
Definition room (cap used : nat) (ns : list nat) (offered : list goval) : Prop :=
  (used + length offered <= cap)%nat \/ (0 < cap)%nat /\ Forall (fun n => (1 <= n)%nat) ns.

Lemma room_step {A} (c : chan A) n ns v l : (length (chan_buf c) <= chan_cap c)%nat ->
  room (chan_cap c) (length (chan_log c)) (n :: ns) (v :: l) ->
  (length (chan_buf (Nat.iter n chan_receive c)) < chan_cap c)%nat /\
  room (chan_cap c) (S (length (chan_log c))) ns l.
Proof.
  intros Hl Hr. destruct (receives_log n c) as (_ & _ & ->). unfold room in *. cbn [length] in Hr.
  destruct Hr as [Hr|[Hc Hn]].
  - unfold chan_log in Hr. rewrite length_app in Hr. unfold chan_log. rewrite length_app. split; [lia|]. left. lia.
  - apply Forall_cons_iff in Hn as [Hn Hns]. split; [lia|]. by right.
Qed.

Lemma room_tail cap used n ns l : room cap used (n :: ns) l -> room cap used ns l.
Proof. intros [H|[Hc Hn]]; [by left|]. right. by apply Forall_cons_iff in Hn as [_ Hn]. Qed.

(** With room for them the subscriber is given all the changes. *)
Lemma ticks_all initial ns : forall rs s prev, length rs = length ns ->
  (length (chan_buf (ts_values s)) <= chan_cap (ts_values s))%nat ->
  room (chan_cap (ts_values s)) (length (chan_log (ts_values s))) ns (changes initial prev (read_values rs)) ->
  chan_log (ts_values (fst (fold_left (tick_step initial) (zip ns rs) (s, prev)))) =
    chan_log (ts_values s) ++ changes initial prev (read_values rs).
Proof.
  induction ns as [|n ns IH]; intros [|r rs] s prev Hlen Hl Hr; try discriminate; [by rewrite app_nil_r|].
  injection Hlen as Hlen. change (zip (n :: ns) (r :: rs)) with ((n, r) :: zip ns rs). cbn [fold_left].
  destruct (receives_log n (ts_values s)) as (Elog & Ecap & Ebuf).
  assert (forall p l, changes initial prev (read_values (r :: rs)) = l -> changes initial p (read_values rs) = l ->
    forall s1, ts_values s1 = Nat.iter n chan_receive (ts_values s) ->
    chan_log (ts_values (fst (fold_left (tick_step initial) (zip ns rs) (s1, p)))) = chan_log (ts_values s) ++ l) as Hquiet.
  { intros p l E1 E2 s1 Es. rewrite <- Elog, <- Es, <- E2. apply IH; [exact Hlen|rewrite Es; lia|].
    rewrite Es, Ecap, Elog, E2, <- E1. by eapply room_tail. }
  assert (forall v l, changes initial prev (read_values (r :: rs)) = v :: l -> changes initial (Some v) (read_values rs) = l ->
    chan_log (ts_values (fst (fold_left (tick_step initial) (zip ns rs) (emit_value v (receive_values n s), Some v)))) =
      chan_log (ts_values s) ++ v :: l) as Hemit.
  { intros v l E1 E2. rewrite E1 in Hr. destruct (room_step _ _ _ _ _ Hl Hr) as [Hlt Hr'].
    rewrite <- Ecap in Hlt. destruct (try_emit_room v _ Hlt) as (F1 & F2 & F3).
    rewrite (cons_middle v), (assoc_L (++)), <- Elog, <- F1, <- E2. apply IH; [exact Hlen| |]; cbn [emit_value receive_values ts_values].
    - by rewrite F2.
    - rewrite F2, F1, Ecap, Elog, E2, length_app. cbn [length]. by rewrite Nat.add_1_r. }
  destruct r as [e|v]; [by apply (Hquiet prev)|].
  change (read_values (inr v :: rs)) with (v :: read_values rs) in *. cbn [changes] in *.
  unfold tick_step at 2. cbn [fst snd prod_map tag_tick id]. destruct prev as [p|].
  - destruct (DeepEqual v p); [by apply (Hquiet (Some p))|by apply Hemit].
  - destruct initial; [by apply Hemit|by apply (Hquiet (Some v))].
Qed.

(** Without room some of the changes are dropped, and nothing else is given. *)
Lemma ticks_some initial ns : forall rs s prev, length rs = length ns ->
  exists given, given `sublist_of` changes initial prev (read_values rs) /\
    chan_log (ts_values (fst (fold_left (tick_step initial) (zip ns rs) (s, prev)))) = chan_log (ts_values s) ++ given.
Proof.
  induction ns as [|n ns IH]; intros [|r rs] s prev Hlen; try discriminate; [exists []; by rewrite app_nil_r|].
  injection Hlen as Hlen. change (zip (n :: ns) (r :: rs)) with ((n, r) :: zip ns rs). cbn [fold_left].
  destruct (receives_log n (ts_values s)) as (Elog & _ & _).
  assert (forall v s1, s1 = emit_value v (receive_values n s) ->
    chan_log (ts_values s1) = chan_log (ts_values s) \/ chan_log (ts_values s1) = chan_log (ts_values s) ++ [v]) as Hemit.
  { intros v s1 ->. rewrite <- Elog. unfold emit_value, receive_values. cbn [ts_values]. unfold try_emit.
    destruct (chan_full _); [by left|]. right. unfold chan_log, chan_send. cbn [chan_got chan_buf]. by rewrite (assoc_L (++)). }
  assert (forall p v, exists given, given `sublist_of` v :: changes initial p (read_values rs) /\
    chan_log (ts_values (fst (fold_left (tick_step initial) (zip ns rs) (emit_value v (receive_values n s), p)))) =
      chan_log (ts_values s) ++ given) as Hgive.
  { intros p v. destruct (IH rs (emit_value v (receive_values n s)) p Hlen) as (g & Hg & ->).
    destruct (Hemit v _ eq_refl) as [-> | ->].
    - exists g. split; [by apply sublist_cons|done].
    - exists (v :: g). split; [by apply sublist_skip|]. by rewrite <- (assoc_L (++)). }
  assert (forall p s1, ts_values s1 = ts_values (receive_values n s) -> exists given,
    given `sublist_of` changes initial p (read_values rs) /\
    chan_log (ts_values (fst (fold_left (tick_step initial) (zip ns rs) (s1, p)))) = chan_log (ts_values s) ++ given) as Hquiet.
  { intros p s1 Es. destruct (IH rs s1 p Hlen) as (g & Hg & ->). exists g. by rewrite Es, <- Elog. }
  destruct r as [e|v]; [by apply Hquiet|].
  change (read_values (inr v :: rs)) with (v :: read_values rs) in *. cbn [changes].
  unfold tick_step at 2. cbn [fst snd prod_map tag_tick id]. destruct prev as [p|].
  - destruct (DeepEqual v p); [by apply Hquiet|by apply Hgive].
  - destruct initial; [by apply Hgive|by apply Hquiet].
Qed.

(** ** Properties of the changes *)

(** No two in a row are equal. *)
Fixpoint no_repeat (prev : option goval) (l : list goval) : Prop :=
  match l with
  | [] => True
  | v :: l => match prev with Some p => DeepEqual v p = false | None => True end /\ no_repeat (Some v) l
  end.

Lemma changes_differ initial vs : forall prev, no_repeat prev (changes initial prev vs).
Proof.
  induction vs as [|v vs IH]; intros prev; [done|]. cbn [changes]. destruct prev as [p|].
  - destruct (DeepEqual v p) eqn:E; [apply IH|]. by split.
  - destruct initial; [split; [done|apply IH]|]. specialize (IH (Some v)). cbn [app].
    destruct (changes false (Some v) vs) as [|x l]; [done|]. destruct IH as [_ IH]. by split.
Qed.

Lemma changes_sublist initial vs : forall prev, changes initial prev vs `sublist_of` vs.
Proof.
  induction vs as [|v vs IH]; intros prev; [done|]. cbn [changes]. destruct prev as [p|].
  - destruct (DeepEqual v p); [by apply sublist_cons|by apply sublist_skip].
  - destruct initial; cbn [app]; [by apply sublist_skip|by apply sublist_cons].
Qed.

(** The last value read is the last one kept, as far as DeepEqual sees. *)
Lemma changes_last initial vs : forall p, DeepEqual p p = true -> Forall (fun v => DeepEqual v v = true) vs ->
  DeepEqual (List.last vs p) (List.last (changes initial (Some p) vs) p) = true.
Proof.
  induction vs as [|v vs IH]; intros p Hp Hvs; [done|]. apply Forall_cons_iff in Hvs as [Hv Hvs].
  rewrite last_of_cons. cbn [changes]. destruct (DeepEqual v p) eqn:E.
  - destruct vs as [|u vs]; [done|]. rewrite <- (IH p Hp Hvs). f_equal.
    by rewrite !last_of_cons.
  - rewrite last_of_cons. by apply IH.
Qed.

Lemma length_read_values rs : (length (read_values rs) <= length rs)%nat.
Proof.
  induction rs as [|[e|v] rs IH]; [done| |].
  - change (read_values (inl e :: rs)) with (read_values rs). simpl. lia.
  - change (read_values (inr v :: rs)) with (v :: read_values rs). simpl. lia.
Qed.

Lemma last_default_cons {A} (x : A) l : list.last (x :: l) = Some (List.last l x).
Proof. revert x. induction l as [|y l IH]; intros x; [done|]. rewrite last_of_cons. exact (IH y). Qed.

(** C19.  Whatever the controller answers to the polls of a tag, errors
    included, and whatever receivers take out of the channel between them, a
    subscriber is given some of the changes among the values read, in their
    order.  When the channel has room for them (for all at once, or a receiver
    takes a value before each poll) it is given every change, no two values in
    a row are equal, and, if no value read is a NaN, the last value given is
    equal to the last value read: the first one read counts as given when the
    subscription does not emit it. *)
Theorem tag_subscription_current `{Methods} U T tag initial receivers s w rs w' :
  reads U T tag (length receivers) w = (Ok rs, w') -> chan_log (ts_values s) = [] ->
  exists s' prev, tag_run U T tag initial receivers (s, None) w = (Ok (s', prev), w') /\
    let vs := read_values rs in
    let given := chan_log (ts_values s') in
    given `sublist_of` changes initial None vs /\ given `sublist_of` vs /\
    (room (chan_cap (ts_values s)) 0 receivers (changes initial None vs) ->
       given = changes initial None vs /\ no_repeat None given /\
       forall v0 later, vs = v0 :: later -> Forall (fun v => DeepEqual v v = true) vs ->
         DeepEqual (List.last later v0) (List.last given v0) = true).
Proof.
  intros Hr Hlog. destruct (tag_run_reads U T tag initial receivers (s, None) w rs w' Hr) as [Hlen E].
  destruct (ticks_some initial receivers rs s None Hlen) as (g & Hg & Elog).
  pose proof (ticks_all initial receivers rs s None Hlen) as Hall. rewrite Hlog in Elog, Hall. cbn [app length] in Elog, Hall.
  destruct (fold_left _ _ (s, None)) as [s' prev]. cbn [fst] in *. exists s', prev. split; [exact E|]. cbv zeta. rewrite Elog.
  split; [exact Hg|]. split; [etrans; [exact Hg|apply changes_sublist]|]. intros Hroom.
  rewrite <- Elog, Hall; [|apply app_eq_nil in Hlog as [_ ->]; simpl; lia|exact Hroom].
  split; [done|]. split; [apply changes_differ|]. intros v0 later -> Hrefl.
  apply Forall_cons_iff in Hrefl as [Hv Hvs]. cbn [changes]. destruct initial; cbn [app]; [rewrite last_of_cons|]; by apply changes_last.
Qed.

(** ** Witness *)

(** A client connected to a peer that answers four reads of a DINT: 5, 5, an
    error status, 7. *)
Definition poll_reply (status : Z) (payload : bytes) : exchange :=
  let data := serializeItems [Write (le_bytes 4 9) (empty_item cipItem_ConnectionAddress);
    Write (le_bytes 2 1 ++ [0xCC; 0; status; 0] ++ payload) (empty_item cipItem_ConnectedData)] in
  Reply (eipHeader_bytes {| hdr_Command := cipCommandSendUnitData; hdr_Length := blen data; hdr_SessionHandle := 1;
    hdr_Status := 0; hdr_Context := 0; hdr_Options := 0 |} ++ data).
Definition poll_value (v : Z) : exchange := poll_reply 0 ([0xC4; 0] ++ le_bytes 4 v).
Definition poll_client : client_world :=
  scripted [poll_value 5; poll_value 5; poll_reply 8 []; poll_value 7] []
    {| cw_client := {| cfg := new_config; lnk := set_connStatus connectionStatusConnected new_link;
         ioi := {| ioi_cache := ∅; KnownTags := None; firmware := 20; catalog := no_types |} |};
       cw_dials := []; cw_sequenceValue := 5; cw_connectionSerialValue := 0; cw_clock := 0 |}.

(** A channel with room for one value, which a receiver takes in time. *)
Lemma tag_subscription_current_witness :
  exists e1 w', let vs := [VInt I32 5; VInt I32 5; VInt I32 7] in
    reads (H:=no_methods) (fun _ => 0) (TInt I32) (str "x") 4 poll_client =
      (Ok [inr (VInt I32 5); inr (VInt I32 5); inl e1; inr (VInt I32 7)], w') /\
    exists s' prev, tag_run (H:=no_methods) (fun _ => 0) (TInt I32) (str "x") true [1; 1; 1; 1]%nat (new_subscription 1 8, None)
        poll_client = (Ok (s', prev), w') /\
      chan_log (ts_values s') = [VInt I32 5; VInt I32 7] /\
      DeepEqual (VInt I32 7) (List.last (chan_log (ts_values s')) (VInt I32 5)) = true.
Proof.
  do 2 eexists. cbv zeta. split; [vm_compute; reflexivity|].
  edestruct (tag_subscription_current (H:=no_methods) (fun _ => 0) (TInt I32) (str "x") true [1; 1; 1; 1]%nat
    (new_subscription 1 8) poll_client) as (s' & prev & E & _ & _ & Hroom); [vm_compute; reflexivity|reflexivity|].
  exists s', prev. split; [exact E|]. destruct Hroom as (Eg & _ & Hlast).
  { right. split; [vm_compute; lia|repeat constructor]. }
  split; [rewrite Eg; vm_compute; reflexivity|].
  exact (Hlast (VInt I32 5) [VInt I32 5; VInt I32 7] eq_refl ltac:(repeat constructor)).
Defined.

(** ** Many tags: the batches *)

Lemma key_batches_spec size fuel : forall keys, (0 < size)%nat -> (length keys <= fuel)%nat ->
  concat (key_batches fuel size keys) = keys /\
  Forall (fun b => b <> [] /\ (length b <= size)%nat) (key_batches fuel size keys).
Proof.
  induction fuel as [|fuel IH]; intros [|k keys] Hs Hl; try (split; [done|apply Forall_nil_2]); [simpl in Hl; lia|].
  cbn [key_batches].
  destruct (IH (drop size (k :: keys)) Hs) as [E H]; [rewrite length_drop; simpl in *; lia|]. split.
  - cbn [concat]. by rewrite E, take_drop.
  - apply Forall_cons_2; [|exact H]. split; [destruct size; [lia|done]|]. rewrite length_take. lia.
Qed.

Lemma sort_keys_perm keys : sort_keys keys ≡ₚ keys.
Proof. apply merge_sort_Permutation. Qed.

Lemma dom_batch_map tags keys : dom (batch_map tags keys) = list_to_set keys.
Proof.
  unfold batch_map. rewrite dom_list_to_map_L, <- list_fmap_compose. f_equal. by rewrite list_fmap_id.
Qed.

Lemma lookup_batch_map tags keys k : k ∈ keys -> batch_map tags keys !! k = Some (RVal (default VNil (tags !! k))).
Proof.
  unfold batch_map. induction keys as [|k' keys IH]; [by intros ?%not_elem_of_nil|]. rewrite fmap_cons. cbn [list_to_map foldr].
  intros [->|Hk]%elem_of_cons; cbn [uncurry]; [by rewrite lookup_insert_eq|].
  destruct (decide (k = k')) as [->|Hne]; [by rewrite lookup_insert_eq|]. rewrite lookup_insert_ne by done. by apply IH.
Qed.

Lemma size_batch_map tags keys : NoDup keys -> size (batch_map tags keys) = length keys.
Proof. intros Hn. rewrite <- size_dom, dom_batch_map. by apply size_list_to_set. Qed.

Lemma elem_of_concat {A} (ls : list (list A)) x : x ∈ concat ls -> exists a i, ls !! i = Some a /\ x ∈ a.
Proof.
  induction ls as [|l ls IH]; [by intros ?%not_elem_of_nil|]. cbn [concat]. intros [H|H]%elem_of_app; [by exists l, 0%nat|].
  destruct (IH H) as (a & i & Hi & Ha). by exists a, (S i).
Qed.

Lemma concat_part_elem {A} (ls : list (list A)) i a x : ls !! i = Some a -> x ∈ a -> x ∈ concat ls.
Proof.
  revert i. induction ls as [|l ls IH]; intros i Hi Hx; [done|]. cbn [concat]. apply elem_of_app.
  destruct i as [|i]; [injection Hi as ->; by left|]. right. by eapply IH.
Qed.

Lemma concat_part_NoDup {A} (ls : list (list A)) i a : NoDup (concat ls) -> ls !! i = Some a -> NoDup a.
Proof.
  revert i. induction ls as [|l ls IH]; intros i Hn Hi; [done|]. cbn [concat] in Hn. apply list.NoDup_app in Hn as (Hl & _ & Hn).
  destruct i as [|i]; [by injection Hi as <-|]. by eapply IH.
Qed.

(** In a list without repetition an element is in one part only. *)
Lemma concat_unique {A} (ls : list (list A)) i j a b x :
  NoDup (concat ls) -> ls !! i = Some a -> ls !! j = Some b -> x ∈ a -> x ∈ b -> j = i.
Proof.
  revert i j. induction ls as [|l ls IH]; intros i j Hn Hi Hj Ha Hb; [done|]. cbn [concat] in Hn.
  apply list.NoDup_app in Hn as (_ & Hd & Hn). destruct i as [|i], j as [|j]; [done| | |].
  - injection Hi as ->. destruct (Hd x Ha). by eapply concat_part_elem.
  - injection Hj as ->. destruct (Hd x Hb). by eapply concat_part_elem.
  - f_equal. by eapply IH.
Qed.

(** C29.  The batches of a subscription to many tags split its tags: every tag
    is in exactly one batch, with the value it was given; no batch is empty
    or larger than asked for, and the keys of the batches in their order are
    the tags in the order of their names. *)
Theorem subscription_batches U cfg w s cfg' batches w' :
  SubscribeTags U cfg w = (Ok (s, cfg', batches), w') ->
  (forall k v, tm_Tags cfg !! k = Some v ->
     exists i b, batches !! i = Some b /\ b !! k = Some (RVal v) /\
       forall j c, batches !! j = Some c -> is_Some (c !! k) -> j = i) /\
  Forall (fun b => dom b ⊆ dom (tm_Tags cfg) /\ (0 < size b)%nat /\ Z.of_nat (size b) <= tm_BatchSize cfg') batches /\
  exists keys, concat keys = sort_keys (elements (dom (tm_Tags cfg))) /\ Forall2 (fun ks b => dom b = list_to_set ks) keys batches.
Proof.
  intros E. unfold SubscribeTags in E. apply bind_Ok_inv in E as ([] & w1 & _ & E).
  destruct (bool_decide (tm_Tags cfg = ∅)); [done|]. cbv zeta in E.
  destruct (bool_decide (Exists _ _)); [done|]. apply bind_Ok_inv in E as ([] & w2 & _ & E).
  injection E as <- <- <- <-. set (tags := tm_Tags cfg). change (tm_Tags (multi_defaults cfg)) with tags.
  set (keys := elements (dom tags)). set (size := positive_or 200 (tm_BatchSize cfg)).
  change (tm_BatchSize (multi_defaults cfg)) with size.
  assert (0 < size) as Hsize.
  { unfold size, positive_or. destruct (Z.leb_spec (tm_BatchSize cfg) 0); lia. }
  assert (NoDup (sort_keys keys)) as Hnd by (rewrite sort_keys_perm; apply NoDup_elements).
  destruct (key_batches_spec (Z.to_nat size) (length keys) (sort_keys keys)) as [Hc Hb]; [lia|by rewrite (Permutation_length (sort_keys_perm keys))|].
  set (kb := key_batches (length keys) (Z.to_nat size) (sort_keys keys)) in *.
  assert (forall k, k ∈ concat kb <-> k ∈ dom tags) as Hin.
  { intros k. rewrite Hc, sort_keys_perm. unfold keys. by rewrite elem_of_elements. }
  assert (NoDup (concat kb)) as Hndc by by rewrite Hc. pose proof Hc as Hsorted. clearbody kb. clear Hc Hnd.
  split; [|split].
  - intros k v Hk. assert (k ∈ concat kb) as Hkb by (apply Hin, elem_of_dom; eauto).
    apply elem_of_concat in Hkb as (ks & i & Hi & Hkk). exists i, (batch_map tags ks). split; [by rewrite list_lookup_fmap, Hi|].
    split; [rewrite (lookup_batch_map tags ks k Hkk); by rewrite Hk|].
    intros j c Hj Hc. rewrite list_lookup_fmap in Hj. destruct (kb !! j) as [ks2|] eqn:Hj2; [|done]. injection Hj as <-.
    apply elem_of_dom in Hc. rewrite dom_batch_map, elem_of_list_to_set in Hc.
    by eapply (concat_unique kb).
  - apply Forall_fmap, list.Forall_forall. intros ks Hks. pose proof Hb as Hb'. rewrite list.Forall_forall in Hb'.
    destruct (Hb' ks Hks) as [Hne Hle]. cbn [compose].
    apply list_elem_of_lookup in Hks as [i Hi]. rewrite size_batch_map by by eapply concat_part_NoDup.
    split_and!; [|destruct ks; [done|simpl; lia]|lia].
    rewrite dom_batch_map. intros k Hk. apply elem_of_list_to_set in Hk. apply Hin. by eapply concat_part_elem.
  - exists kb. split; [exact Hsorted|]. clear. induction kb as [|ks kb IH]; [constructor|]. rewrite fmap_cons. constructor; [|exact IH].
    apply dom_batch_map.
Qed.

Definition sample_tags : TagMultiSubscriptionConfig :=
  {| tm_Tags := {[ str "b" := VInt I32 0; str "a" := VBool false; str "c" := VFloat32 0 ]}; tm_PollInterval := 0;
     tm_BatchSize := 2; tm_BatchesPerTick := 0; tm_EmitInitial := true; tm_ValueBuffer := 0; tm_ErrorBuffer := 0 |}.

Lemma subscription_batches_witness :
  exists s cfg' w', let batches := batch_map (tm_Tags sample_tags) <$> [[str "a"; str "b"]; [str "c"]] in
    SubscribeTags (fun _ => 0) sample_tags poll_client = (Ok (s, cfg', batches), w') /\
    (forall k v, tm_Tags sample_tags !! k = Some v ->
       exists i b, batches !! i = Some b /\ b !! k = Some (RVal v) /\
         forall j c, batches !! j = Some c -> is_Some (c !! k) -> j = i) /\
    Forall (fun b => dom b ⊆ dom (tm_Tags sample_tags) /\ (0 < size b)%nat /\ Z.of_nat (size b) <= tm_BatchSize cfg') batches /\
    exists keys, concat keys = sort_keys (elements (dom (tm_Tags sample_tags))) /\
      Forall2 (fun ks b => dom b = list_to_set ks) keys batches.
Proof.
  do 3 eexists. cbv zeta. split.
  - vm_compute. reflexivity.
  - eapply (subscription_batches (fun _ => 0) sample_tags poll_client). vm_compute. reflexivity.
Defined.

(** ** Many tags: what is reported *)

Section Scan.
Context (other_equal : read_result -> read_result -> bool).
Abbreviation equal := (result_equal other_equal).

(** Is the entry reported, given what was seen before the scan? *)
Definition reports (initial : bool) (l : multi_locals) (e : bytes * read_result) : bool :=
  if decide (e.1 ∈ ml_seen l) then negb (equal e.2 (default (RVal VNil) (ml_prev l !! e.1))) else initial.
Definition update_of (now : Z) (e : bytes * read_result) : TagUpdate :=
  {| tu_Tag := e.1; tu_Value := e.2; tu_Timestamp := now |}.

Lemma emit_value_room {A} (x : A) s : (length (chan_buf (ts_values s)) < chan_cap (ts_values s))%nat ->
  chan_buf (ts_values (emit_value x s)) = chan_buf (ts_values s) ++ [x] /\
  chan_cap (ts_values (emit_value x s)) = chan_cap (ts_values s).
Proof.
  intros H. unfold emit_value, try_emit, chan_full. cbn [ts_values]. rewrite (proj2 (Nat.leb_gt _ _)) by done. done.
Qed.

(** One entry. *)
Lemma scan_entry_spec initial now s l tag cur :
  (length (chan_buf (ts_values s)) < chan_cap (ts_values s))%nat -> ml_seen l ⊆ dom (ml_prev l) ->
  let '(s', l') := scan_entry other_equal initial now (s, l) (tag, cur) in
  chan_buf (ts_values s') = chan_buf (ts_values s) ++ (if reports initial l (tag, cur) then [update_of now (tag, cur)] else []) /\
  chan_cap (ts_values s') = chan_cap (ts_values s) /\
  ml_seen l' ≡ {[tag]} ∪ ml_seen l /\ ml_seen l' ⊆ dom (ml_prev l') /\
  (exists p, ml_prev l' !! tag = Some p /\ (p = cur \/ equal cur p = true)) /\
  forall t, t <> tag -> ml_prev l' !! t = ml_prev l !! t.
Proof.
  intros Hr Hd. unfold scan_entry, reports. cbn [fst snd].
  assert (ml_prev (remember tag (snapshotValue cur) l) !! tag = Some cur) as Hp by (simpl; apply lookup_insert_eq).
  assert (forall t, t <> tag -> ml_prev (remember tag (snapshotValue cur) l) !! t = ml_prev l !! t) as Ho
    by (intros t Ht; simpl; by rewrite lookup_insert_ne).
  assert (ml_seen (remember tag (snapshotValue cur) l) ⊆ dom (ml_prev (remember tag (snapshotValue cur) l))) as Hs
    by (simpl; rewrite dom_insert; set_solver).
  pose proof (emit_value_room (update_of now (tag, cur)) s Hr) as [Eb Ec].
  destruct (decide (tag ∈ ml_seen l)) as [Hin|Hin]; [destruct (equal cur _) eqn:E|]; cbn [negb].
  - rewrite app_nil_r. split_and!; [done|done|set_solver|done| |done].
    assert (tag ∈ dom (ml_prev l)) as [p Hpp]%elem_of_dom by set_solver. exists p. rewrite Hpp in E. split; [done|by right].
  - split_and!; [exact Eb|exact Ec|done|exact Hs|exists cur; split; [exact Hp|by left]|exact Ho].
  - destruct initial.
    + split_and!; [exact Eb|exact Ec|done|exact Hs|exists cur; split; [exact Hp|by left]|exact Ho].
    + rewrite app_nil_r. split_and!; [done|done|done|exact Hs|exists cur; split; [exact Hp|by left]|exact Ho].
Qed.

Lemma reports_ext initial l l' e :
  (e.1 ∈ ml_seen l <-> e.1 ∈ ml_seen l') -> ml_prev l' !! e.1 = ml_prev l !! e.1 -> reports initial l' e = reports initial l e.
Proof. intros Hs Hp. unfold reports. rewrite Hp. destruct (decide (e.1 ∈ ml_seen l)), (decide (e.1 ∈ ml_seen l')); tauto. Qed.

Lemma scan_spec initial now entries : forall s l,
  NoDup entries.*1 -> (length (chan_buf (ts_values s)) + length entries <= chan_cap (ts_values s))%nat ->
  ml_seen l ⊆ dom (ml_prev l) ->
  let '(s', l') := scan other_equal initial now entries (s, l) in
  chan_buf (ts_values s') = chan_buf (ts_values s) ++ (update_of now <$> List.filter (reports initial l) entries) /\
  ml_seen l' ⊆ dom (ml_prev l') /\ (forall t, t ∈ ml_seen l' <-> t ∈ entries.*1 \/ t ∈ ml_seen l) /\
  (forall tag cur, (tag, cur) ∈ entries -> exists p, ml_prev l' !! tag = Some p /\ (p = cur \/ equal cur p = true)) /\
  forall t, t ∉ entries.*1 -> ml_prev l' !! t = ml_prev l !! t.
Proof.
  induction entries as [|[tag cur] entries IH]; intros s l Hnd Hroom Hd; unfold scan in *; cbn [fold_left].
  { cbn. rewrite app_nil_r. split_and!; [done|done|set_solver|by intros ?? ?%not_elem_of_nil|done]. }
  rewrite fmap_cons in Hnd. apply list.NoDup_cons in Hnd as [Hni Hnd].
  pose proof (scan_entry_spec initial now s l tag cur ltac:(simpl in Hroom; lia) Hd) as H1.
  destruct (scan_entry other_equal initial now (s, l) (tag, cur)) as [s1 l1].
  destruct H1 as (Eb & Ec & Hseen & Hd1 & Hp & Ho).
  assert (length (chan_buf (ts_values s1)) + length entries <= chan_cap (ts_values s1))%nat as Hroom1.
  { rewrite Eb, Ec, length_app. simpl in Hroom. destruct (reports _ _ _); simpl; lia. }
  specialize (IH s1 l1 Hnd Hroom1 Hd1). destruct (fold_left _ entries (s1, l1)) as [s' l'].
  destruct IH as (Eb' & Hd' & Hseen' & Hp' & Ho').
  split_and!; [|done| | |].
  - rewrite Eb', Eb, <- (assoc_L (++)). f_equal. cbn [List.filter].
    assert (List.filter (reports initial l1) entries = List.filter (reports initial l) entries) as ->.
    { apply List.filter_ext_in. intros e He. apply list_elem_of_In in He.
      assert (e.1 <> tag) as Hne. { intros E. apply Hni. rewrite <- E. apply list_elem_of_fmap; by exists e. }
      apply reports_ext; [rewrite Hseen; set_solver|by apply Ho]. }
    destruct (reports initial l (tag, cur)); done.
  - intros t. rewrite Hseen', Hseen, fmap_cons. set_solver.
  - intros t v [[= -> ->]|Hin]%elem_of_cons; [|by apply Hp'].
    destruct Hp as (p & Hpp & He). exists p. split; [|done]. by rewrite Ho'.
  - intros t Ht. rewrite fmap_cons in Ht. apply not_elem_of_cons in Ht as [Ht1 Ht2]. rewrite Ho' by done. by apply Ho.
Qed.
End Scan.

(** An array is read once: what ReadMap leaves of it in the map is a []any,
    for which the next request asks for one element of no type. *)
Lemma polled_array error_value tag i rt b v r :
  decodeReadTagValue (H:=no_methods) tag i rt CIPStatus_OK b = (Ok (RVal v), r) -> td_Elements tag <> 1 -> rt <> CIPTypeStruct ->
  let next := tag_of (td_TagName tag) (result_value error_value (RVal v)) in
  td_Elements next = 1 /\ td_TagType next = CIPTypeUnknown.
Proof.
  unfold decodeReadTagValue. intros E He Hs. change (negb (CIPStatus_OK =? CIPStatus_OK)) with false in E. cbv iota in E.
  rewrite (proj2 (Z.eqb_neq (td_Elements tag) 1)), (proj2 (Z.eqb_neq rt CIPTypeStruct)) in E by done.
  destruct (td_Elements tag <? 0); [done|]. apply bind_Ok_inv in E as (l & r1 & _ & E). by injection E as <- <-.
Qed.
