(* ===== verification/DiscoveryProofs.v ===== *)
(** * The catalog after a listing

    A symbol list that the controller sends in any number of replies is
    cataloged completely, each reply being asked for where the one before
    ended. *)
From S2P Require Import Prelude Reader GoStrings CipNames CipDefs Types Templates TemplatesProofs Items Pack Ioi Messages Client ClientTags ClientConn ClientScript Discovery.

(** ** The symbol list on the wire *)





(** ** Every entry in turn *)



Section Entries.
Context (f : symbol_entry -> M client_world (list KnownTag)).
Context (I : client_world -> Prop) (h : symbol_entry -> list KnownTag) (g : client_world -> symbol_entry -> client_world).
Context (ok : symbol_entry -> Prop).
Context (Hf : forall e w, I w -> ok e -> f e w = (Ok (h e), g w e) /\ I (g w e)).

End Entries.

(** ** The tags of a program *)

Section SubTags.
Context (T : gmap Z UDTDescriptor) (prog : KnownProgram).
















(** ** Replies and requests *)














End SubTags.

(** ** Witness *)


