(* ===== verification/DataTableProofs.v ===== *)
(** * Data table buffers: the layout of a reply, and the buffer's invariant

    A reply holds, per batch of tags that were sent together, the number of
    the batch and the slots of its tags.  ReadAll finds every slot, decodes
    it, and stores it where the tag refers to. *)
From Stdlib Require Import Sorted.
From stdpp Require Import sorting.
From S2P Require Import Prelude Reader GoStrings GoValue CipNames CipDefs Types Templates Items Ioi Pack Messages Client ClientTags ClientConn ClientScript MultiRead TagGroup DataTable.

(** ** Slots *)

(** A tag with the bytes of its slot and the value in them. *)
Record slot := { s_tag : DataTableBufferTag; s_raw : bytes; s_value : goval }.

Abbreviation string_code t := (t = CIPTypeSTRING \/ t = CIPTypeStruct).

(** The image of a value: what binary.Write makes of a scalar; for a string
    its length, its text, and padding. *)
Inductive slot_image (ty : Z) : goval -> bytes -> Prop :=
  | image_scalar v bs : scalar_ok v -> binary_write v = Ok bs -> ty = fst (GoVarToCIPType v) -> slot_image ty v bs
  | image_string s pad : string_code ty -> blen s <= 82 -> slot_image ty (VString s) (le_bytes 4 (blen s) ++ s ++ pad).

Lemma string_code_spec ty : (ty =? CIPTypeSTRING) || (ty =? CIPTypeStruct) = true <-> string_code ty.
Proof. by rewrite orb_true_iff, !Z.eqb_eq. Qed.

Lemma scalar_no_string v bs : scalar_ok v -> binary_write v = Ok bs ->
  (fst (GoVarToCIPType v) =? CIPTypeSTRING) || (fst (GoVarToCIPType v) =? CIPTypeStruct) = false.
Proof. destruct v as [| |[]| | | | | | |]; done. Qed.

(** Decoding inverts the image, of whatever length the slot is. *)
Lemma decode_image ty v raw : slot_image ty v raw -> blen raw < 2 ^ 32 -> decodeDataTableValue ty raw = Ok v.
Proof.
  intros Hi Hl. destruct Hi as [v bs Hv Hw ->|s pad Hty Hs]; unfold decodeDataTableValue.
  - erewrite scalar_no_string by done. by apply parses_all, parses_readValue.
  - rewrite (proj2 (string_code_spec ty) Hty). rewrite (assoc_L (++)) in *.
    assert (blen ((le_bytes 4 (blen s) ++ s) ++ pad) = 4 + blen s + blen pad) as E.
    { unfold blen. rewrite !length_app, length_le_bytes. lia. }
    rewrite E in *. assert (0 <= blen s /\ 0 <= blen pad) as [? ?] by (unfold blen; lia).
    rewrite (proj2 (Z.ltb_ge _ _)) by lia. rewrite <- (assoc_L (++)).
    rewrite take_app_length', drop_app_length' by done.
    rewrite le_val_le_bytes_small by lia. cbv zeta. rewrite wrap_small by lia.
    rewrite (proj2 (Z.ltb_ge _ (blen s))) by lia. rewrite (proj2 (Z.ltb_ge 82 _)) by lia.
    by rewrite take_app_length' by (unfold blen; lia).
Qed.

(** The variable a tag refers to, if any, takes the value. *)
Definition ref_takes (r : reference) (v : goval) : Prop :=
  match r with
  | RefNil => True
  | RefPtr t (Some _) => assignable t v = true
  | _ => False
  end.

Definition slot_ok (s : slot) : Prop :=
  slot_image (dt_CIPType (s_tag s)) (s_value s) (s_raw s) /\
  blen (s_raw s) = dt_DataTypeSize (s_tag s) /\ 0 < dt_DataTypeSize (s_tag s) < 2 ^ 16 /\
  ref_takes (dt_Var (s_tag s)) (s_value s).

Definition put_value (vs : variables) (s : slot) : variables :=
  match dt_Var (s_tag s) with RefPtr _ (Some l) => store l (s_value s) vs | _ => vs end.
Definition keep_value (m : gmap bytes goval) (s : slot) : gmap bytes goval := <[dt_Name (s_tag s) := s_value s]> m.
Definition keep_raw (m : gmap bytes bytes) (s : slot) : gmap bytes bytes := <[dt_Name (s_tag s) := s_raw s]> m.

Lemma store_value_Ok s vs : slot_ok s -> store_value (s_tag s) (s_raw s) vs = (Ok (s_value s), put_value vs s).
Proof.
  intros (Hi & Hl & Hb & Hr). unfold store_value, put_value, setGoVar.
  rewrite (decode_image _ _ _ Hi) by lia. eapply step; [reflexivity|]. eapply step; [|reflexivity].
  destruct (dt_Var (s_tag s)) as [|v|t [l|]]; try done. simpl in Hr. apply wrapM_Ok. by rewrite Hr.
Qed.

(** ** The layout *)

Definition batch_header (currentBatch : Z) (s : slot) : bytes :=
  if dt_batchID (s_tag s) =? currentBatch then [] else le_bytes 2 (dt_batchID (s_tag s)).

Fixpoint layout (currentBatch : Z) (l : list slot) : bytes :=
  match l with
  | [] => []
  | s :: l => batch_header currentBatch s ++ s_raw s ++ layout (dt_batchID (s_tag s)) l
  end.

(** The reply as the controller makes it: batch after batch. *)
Abbreviation batch := (Z * list slot)%type.
Definition batch_bytes (b : batch) : bytes := le_bytes 2 b.1 ++ concat (map s_raw b.2).
Definition slots_of (bs : list batch) : list slot := concat (map snd bs).

(** Each batch has tags, all of its number; neighbours differ. *)
Fixpoint batches_ok (currentBatch : Z) (bs : list batch) : Prop :=
  match bs with
  | [] => True
  | (id, l) :: bs =>
      id <> currentBatch /\ 0 <= id < 2 ^ 16 /\ l <> [] /\ Forall (fun s => dt_batchID (s_tag s) = id) l /\ batches_ok id bs
  end.

Lemma layout_same id l rest : Forall (fun s => dt_batchID (s_tag s) = id) l ->
  layout id (l ++ rest) = concat (map s_raw l) ++ layout id rest.
Proof.
  induction 1 as [|s l Hs _ IH]; [done|]. cbn [layout app map concat]. unfold batch_header.
  by rewrite Hs, Z.eqb_refl, IH, <- (assoc_L (++)).
Qed.

Lemma layout_batches cur bs : batches_ok cur bs -> layout cur (slots_of bs) = concat (map batch_bytes bs).
Proof.
  revert cur. induction bs as [|[id l] bs IH]; intros cur Hb; [done|]. destruct Hb as (Hid & _ & Hl & Hs & Hbs).
  destruct l as [|s l]; [done|]. apply Forall_cons_iff in Hs as [Es Hs].
  cbn [slots_of map concat snd app layout]. unfold batch_header, batch_bytes. cbn [fst snd map concat].
  rewrite Es, (proj2 (Z.eqb_neq id cur)) by done. fold (slots_of bs).
  by rewrite layout_same, IH, <- !(assoc_L (++)).
Qed.

Lemma batches_ids cur bs : batches_ok cur bs -> Forall (fun s => 0 <= dt_batchID (s_tag s) < 2 ^ 16) (slots_of bs).
Proof.
  revert cur. induction bs as [|[id l] bs IH]; intros cur Hb; [apply Forall_nil_2|]. destruct Hb as (_ & Hid & _ & Hs & Hbs).
  cbn [slots_of map concat snd]. apply Forall_app. split; [|by eapply IH].
  eapply Forall_impl; [|exact Hs]. by intros s ->.
Qed.

Lemma read_slot_left cur s rest i :
  0 <= dt_batchID (s_tag s) < 2 ^ 16 -> blen (s_raw s) = dt_DataTypeSize (s_tag s) -> 0 < dt_DataTypeSize (s_tag s) ->
  left i (batch_header cur s ++ s_raw s ++ rest) ->
  exists i', read_slot cur (s_tag s) i = (Ok (s_raw s), i') /\ left i' rest.
Proof.
  intros Hid Hlen Hpos HL. unfold read_slot.
  assert (exists j, (if negb (dt_batchID (s_tag s) =? cur)
      then wrapM "could not read batch header" (_ ← Uint16; mret tt) else mret tt) i = (Ok tt, j) /\ left j (s_raw s ++ rest))
    as (j & Ej & Hj & Hd).
  { unfold batch_header in HL. destruct (dt_batchID (s_tag s) =? cur); [by exists i|]. destruct HL as [Hi Hd].
    destruct (parses_run (R:=CIPItem) (wrapM "could not read batch header" (_ ← Uint16; mret tt))
      (le_bytes 2 (dt_batchID (s_tag s))) tt i (s_raw s ++ rest)) as (j & E & Hj); [|done|exact Hd|].
    - apply parses_wrapM. eapply parses_bind_nil; [apply parses_item_uint; lia|apply parses_ret].
    - exists j. split; [exact E|]. by destruct Hj. }
  rewrite (bind_Ok _ _ _ _ _ Ej). rewrite (bind_Ok get _ _ _ _ eq_refl).
  assert (length (item_unread j) = (length (s_raw s) + length rest)%nat) as Hn by by rewrite Hd, length_app.
  rewrite length_item_unread in Hn. unfold blen in *.
  rewrite (proj2 (Z.ltb_ge _ _)) by lia.
  fold (item_unread j). rewrite Hd, take_app_length' by lia.
  eexists. split; [reflexivity|]. split; [cbn; lia|].
  unfold item_unread in *. cbn [item_Pos item_Data set_Pos].
  rewrite Z2Nat.inj_add, <- drop_drop, Hd by lia. apply drop_app_length'. lia.
Qed.

Lemma read_values_layout cur i l m vs :
  left i (layout cur l) -> Forall slot_ok l -> Forall (fun s => 0 <= dt_batchID (s_tag s) < 2 ^ 16) l ->
  read_values cur i (map s_tag l) m vs = (Ok (foldl keep_value m l), foldl put_value vs l).
Proof.
  revert cur i m vs. induction l as [|s l IH]; intros cur i m vs HL Hok Hid; [done|].
  apply Forall_cons_iff in Hok as [Hs Hok]. apply Forall_cons_iff in Hid as [Hi Hid].
  destruct (read_slot_left cur s (layout (dt_batchID (s_tag s)) l) i) as (i' & E & HL'); [done|apply Hs..|done|].
  cbn [map read_values]. rewrite (bind_Ok _ _ _ _ _ (on_Ok _ _ _ _ _ E)). cbv beta iota.
  rewrite (bind_Ok _ _ _ _ _ (store_value_Ok s vs Hs)). by apply IH.
Qed.

Lemma read_raw_layout cur i l m :
  left i (layout cur l) -> Forall slot_ok l -> Forall (fun s => 0 <= dt_batchID (s_tag s) < 2 ^ 16) l ->
  fst (read_raw cur (map s_tag l) m i) = Ok (foldl keep_raw m l).
Proof.
  revert cur i m. induction l as [|s l IH]; intros cur i m HL Hok Hid; [done|].
  apply Forall_cons_iff in Hok as [Hs Hok]. apply Forall_cons_iff in Hid as [Hi Hid].
  destruct (read_slot_left cur s (layout (dt_batchID (s_tag s)) l) i) as (i' & E & HL'); [done|apply Hs..|done|].
  cbn [map read_raw]. rewrite (bind_Ok _ _ _ _ _ E). by apply IH.
Qed.

(** ** The order of the slots *)

Abbreviation by_index := (fun t u : DataTableBufferTag => dt_index t <= dt_index u).

(** What sort.Slice promises. *)
Definition sorts (sort_slice : list DataTableBufferTag -> list DataTableBufferTag) : Prop :=
  forall l, StronglySorted by_index (sort_slice l) /\ sort_slice l ≡ₚ l.

(** The numbers of the tags, as long as none was removed. *)
Definition numbered (l : list DataTableBufferTag) : Prop :=
  forall i t, l !! i = Some t -> dt_index t = u16 (Z.of_nat i + 1).

Lemma sorted_unique l l' :
  StronglySorted (fun t u => dt_index t < dt_index u) l -> StronglySorted by_index l' -> l' ≡ₚ l -> l' = l.
Proof.
  revert l'. induction l as [|x l IH]; intros l' Hl Hl' Hp; [by apply Permutation_nil_r in Hp|].
  destruct l' as [|y l']; [by apply Permutation_nil_l in Hp|].
  apply StronglySorted_inv in Hl as [Hl Hx]. apply StronglySorted_inv in Hl' as [Hl' Hy].
  assert (y = x) as ->.
  { assert (y ∈ x :: l) as [->|Hyl]%elem_of_cons by (rewrite <- Hp; left); [done|].
    assert (x ∈ y :: l') as [->|Hxl]%elem_of_cons by (rewrite Hp; left); [done|].
    rewrite list.Forall_forall in Hx, Hy. specialize (Hx y Hyl). specialize (Hy x Hxl). simpl in Hy. lia. }
  f_equal. apply IH; [done|done|]. by apply Permutation_cons_inv in Hp.
Qed.

Lemma numbered_sorted l k : Z.of_nat (k + length l) < 2 ^ 16 ->
  (forall i t, l !! i = Some t -> dt_index t = u16 (Z.of_nat (k + i) + 1)) ->
  StronglySorted (fun t u => dt_index t < dt_index u) l.
Proof.
  revert k. induction l as [|x l IH]; intros k Hk Hl; [constructor|]. simpl in Hk. constructor.
  - apply (IH (S k)); [lia|]. intros i t Hi. rewrite (Hl (S i) t Hi). f_equal. lia.
  - apply list.Forall_forall. intros y [i Hi]%list_elem_of_lookup.
    pose proof (lookup_lt_Some _ _ _ Hi). rewrite (Hl 0%nat x eq_refl), (Hl (S i) y Hi), !wrap_small by lia. lia.
Qed.

Lemma sort_numbered sort_slice l :
  sorts sort_slice -> numbered l -> Z.of_nat (length l) < 2 ^ 16 -> sort_slice l = l.
Proof.
  intros Hs Hn Hl. destruct (Hs l) as [H1 H2]. apply sorted_unique; [|done|done].
  by apply (numbered_sorted l 0).
Qed.

(** ** Sending the new tags *)

Abbreviation all_sent := (Forall (fun t => dt_synched t = true)).
Abbreviation none_sent := (Forall (fun t => dt_synched t = false)).

Definition tag_entry (k : nat) (t : DataTableBufferTag) : addTagEntry :=
  {| e_dataTypeSize := dt_DataTypeSize t; e_ioi := dt_ioi t; e_index := k |}.

Lemma unsynched_old k old fresh : all_sent old ->
  unsynched_entries k (old ++ fresh) = unsynched_entries (k + length old) fresh.
Proof.
  intros Ho. revert k. induction Ho as [|t old Ht _ IH]; intros k; cbn [app unsynched_entries length].
  - by rewrite Nat.add_0_r.
  - rewrite Ht, IH. f_equal. lia.
Qed.

Lemma unsynched_fresh k fresh : none_sent fresh -> unsynched_entries k fresh = imap (fun i => tag_entry (k + i)) fresh.
Proof.
  intros Hf. revert k. induction Hf as [|t fresh Ht _ IH]; intros k; [done|]. cbn [unsynched_entries imap].
  rewrite Ht, IH. unfold tag_entry. rewrite Nat.add_0_r. f_equal. apply imap_ext. intros i x _. simpl. f_equal. lia.
Qed.

Lemma mark_entries nb pre fresh :
  fold_left (fun l e => alter (mark_synched nb) (e_index e) l) (imap (fun i => tag_entry (length pre + i)) fresh) (pre ++ fresh)
    = pre ++ map (mark_synched nb) fresh.
Proof.
  revert pre. induction fresh as [|t fresh IH]; intros pre; [done|]. cbn [imap fold_left tag_entry e_index map].
  rewrite Nat.add_0_r, alter_app_r_alt, Nat.sub_diag by lia. cbn [alter list_alter].
  specialize (IH (pre ++ [mark_synched nb t])). rewrite <- !(assoc_L (++)) in IH. cbn [app] in IH. rewrite <- IH.
  f_equal. apply imap_ext. intros i x _. simpl. rewrite length_app. simpl. unfold tag_entry. f_equal. lia.
Qed.

Definition add_tags_request (tags : list DataTableBufferTag) : bytes :=
  [0x02; 0x00; 0x01; 0x01] ++ [u8 (Z.of_nat (length tags))] ++
  concat (map (fun t => le_bytes 2 (dt_DataTypeSize t) ++ [u8 (blen (dt_ioi t) / 2)] ++ dt_ioi t) tags).

Lemma add_tags_data_fresh k fresh : add_tags_data (imap (fun i => tag_entry (k + i)) fresh) = add_tags_request fresh.
Proof.
  unfold add_tags_data, add_tags_request. rewrite length_imap. do 3 f_equal.
  revert k. induction fresh as [|t fresh IH]; intros k; [done|]. cbn [imap map]. f_equal.
  rewrite <- (IH (S k)). f_equal. apply imap_ext. intros i x _. simpl. unfold tag_entry. f_equal. lia.
Qed.

Lemma on_client_Ok {A} (m : M client_world A) w v c :
  m (tw_client w) = (Ok v, c) -> on_client m w = (Ok v, set_client c w).
Proof. unfold on_client, zoom. by intros ->. Qed.

Section Answered.
Context (U : nat -> Z) (sort_slice : list DataTableBufferTag -> list DataTableBufferTag) (sorting : sorts sort_slice).

Abbreviation table c b vs := {| tw_client := c; tw_buf := b; tw_vars := vs |}.

(** The client when a message has been answered. *)
Abbreviation after_message w := (counted (snd (sequencer w))).

Lemma DataTableAddTags_answered a id entries nb sc se w :
  status w = connectionStatusConnected -> answer_ok a 0x4E (le_bytes 2 nb) -> 0 <= nb < 2 ^ 16 ->
  DataTableAddTags U id entries (scripted (Reply (generic_reply a 0x4E (le_bytes 2 nb)) :: sc) se w) =
    (Ok nb, scripted sc (se ++ [generic_frame 0x4E (dataTablePath id) (add_tags_data entries) w]) (after_message w)).
Proof.
  intros Hst Ha Hnb. unfold DataTableAddTags.
  eapply step; [apply wrapM_Ok; by apply checkConnection_up|].
  destruct (GenericCIPMessage_answered a 0x4E (dataTablePath id) (add_tags_data entries) (le_bytes 2 nb) sc se w Ha) as (i & HL & E).
  eapply step; [by apply wrapM_Ok|].
  eapply (step_on _ _ _ []); [apply parses_wrapM, (parses_item_uint 2 nb); lia|by rewrite app_nil_r|done].
Qed.

Lemma DataTableReadBuffer_answered a id payload sc se w :
  status w = connectionStatusConnected -> answer_ok a CIPService_Read payload ->
  gives_item payload (scripted sc (se ++ [generic_frame CIPService_Read (dataTablePath id) [] w]) (after_message w))
    (DataTableReadBuffer U id (scripted (Reply (generic_reply a CIPService_Read payload) :: sc) se w)).
Proof.
  intros Hst Ha. unfold DataTableReadBuffer.
  erewrite bind_Ok by (apply wrapM_Ok; by apply checkConnection_up).
  destruct (GenericCIPMessage_answered a CIPService_Read (dataTablePath id) [] payload sc se w Ha) as (i & HL & E).
  exists i. split; [done|]. by apply wrapM_Ok.
Qed.

Lemma SyncTags_answered a nb old fresh sc se w b vs :
  status w = connectionStatusConnected -> answer_ok a 0x4E (le_bytes 2 nb) -> 0 <= nb < 2 ^ 16 ->
  tags b = old ++ fresh -> all_sent old -> none_sent fresh ->
  SyncTags U (table (scripted (Reply (generic_reply a 0x4E (le_bytes 2 nb)) :: sc) se w) b vs) =
    (Ok tt, table (scripted sc (se ++ [generic_frame 0x4E (dataTablePath (instanceID b)) (add_tags_request fresh) w]) (after_message w))
              (set_synched true (set_tags (old ++ map (mark_synched nb) fresh) b)) vs).
Proof.
  intros Hst Ha Hnb Hb Ho Hf. unfold SyncTags. eapply step; [reflexivity|]. cbv zeta. cbn [tw_buf]. rewrite Hb.
  rewrite unsynched_old, unsynched_fresh by done. cbn [plus].
  eapply step; [apply wrapM_Ok, on_client_Ok; by apply DataTableAddTags_answered|].
  rewrite add_tags_data_fresh. unfold upd_buf, modify, set_buf, set_client. cbn [tw_client tw_buf tw_vars].
  by rewrite Hb, mark_entries.
Qed.

(** ** Reading the buffer *)

(** A slot whose tag has been sent. *)
Definition sent_slot (nb : Z) (s : slot) : slot :=
  {| s_tag := mark_synched nb (s_tag s); s_raw := s_raw s; s_value := s_value s |}.

Lemma numbered_mark nb old fresh : numbered (old ++ fresh) -> numbered (old ++ map (mark_synched nb) fresh).
Proof.
  intros Hn i t Hi. destruct (decide (i < length old)%nat).
  - apply Hn. rewrite lookup_app_l in * by done. done.
  - rewrite lookup_app_r in Hi by lia. fold ((mark_synched nb) <$> fresh) in Hi.
    rewrite list_lookup_fmap in Hi. destruct (fresh !! _) as [u|] eqn:E; [|done]. injection Hi as <-.
    apply (Hn i u). by rewrite lookup_app_r by lia.
Qed.

(** A buffer with tags that were sent, in batches, and tags that were not; the
    number the controller gives to these, and its answers. *)
Context (old : list batch) (fresh : list slot) (nb : Z) (a_sync a_read : answer_form).

Definition all_batches : list batch := old ++ [(nb, map (sent_slot nb) fresh)].
Definition reply_bytes : bytes := concat (map batch_bytes all_batches).

Record waiting (b : DataTableBuffer) : Prop := {
  wt_created : created b = true;
  wt_synched : synched b = false;
  wt_tags : tags b = map s_tag (slots_of old ++ fresh);
  wt_old : all_sent (map s_tag (slots_of old));
  wt_fresh : none_sent (map s_tag fresh);
  wt_numbered : numbered (tags b);
  wt_length : Z.of_nat (length (tags b)) < 2 ^ 16;
  wt_batches : batches_ok 0 all_batches;
  wt_slots : Forall slot_ok (slots_of old ++ fresh);
  wt_sync : answer_ok a_sync 0x4E (le_bytes 2 nb);
  wt_read : answer_ok a_read CIPService_Read reply_bytes;
}.

Definition answers : list exchange :=
  [Reply (generic_reply a_sync 0x4E (le_bytes 2 nb)); Reply (generic_reply a_read CIPService_Read reply_bytes)].
Definition requests (b : DataTableBuffer) (w : client_world) : list bytes :=
  [generic_frame 0x4E (dataTablePath (instanceID b)) (add_tags_request (map s_tag fresh)) w;
   generic_frame CIPService_Read (dataTablePath (instanceID b)) [] (after_message w)].
Definition sent_buffer (b : DataTableBuffer) : DataTableBuffer :=
  set_synched true (set_tags (map s_tag (slots_of all_batches)) b).
Definition after_read (se : list bytes) (w : client_world) (b : DataTableBuffer) (vs : variables) : table_world :=
  table (scripted [] (se ++ requests b w) (after_message (after_message w))) (sent_buffer b) vs.

Lemma slots_of_all : slots_of all_batches = slots_of old ++ map (sent_slot nb) fresh.
Proof. unfold slots_of, all_batches. rewrite map_app, concat_app. cbn. by rewrite app_nil_r. Qed.

Lemma tags_of_all : map s_tag (slots_of all_batches) = map s_tag (slots_of old) ++ map (mark_synched nb) (map s_tag fresh).
Proof. rewrite slots_of_all, map_app. f_equal. by rewrite !map_map. Qed.

Lemma batches_ok_last cur bs id l : batches_ok cur (bs ++ [(id, l)]) -> 0 <= id < 2 ^ 16 /\ l <> [].
Proof. revert cur. induction bs as [|[i l'] bs IH]; intros cur; cbn; [tauto|]. intros (_ & _ & _ & _ & H'). by eapply IH. Qed.

Lemma waiting_slots b : waiting b -> Forall slot_ok (slots_of all_batches).
Proof.
  intros Hw. rewrite slots_of_all. pose proof (wt_slots _ Hw) as [Ho Hf]%Forall_app. apply Forall_app. split; [done|].
  apply list.Forall_forall. intros s' (s & <- & Hs)%list_elem_of_In%in_map_iff. rewrite list.Forall_forall in Hf.
  exact (Hf s ltac:(by apply list_elem_of_In)).
Qed.

Lemma read_reply_answered se w b vs :
  status w = connectionStatusConnected -> waiting b ->
  exists i, left i reply_bytes /\
    read_reply U sort_slice (table (scripted answers se w) b vs) =
      (Ok (i, map s_tag (slots_of all_batches)), after_read se w b vs).
Proof.
  intros Hst Hw. destruct (batches_ok_last _ _ _ _ (wt_batches _ Hw)) as [Hnb Hne].
  assert (tags b <> []) as Htags.
  { rewrite (wt_tags _ Hw). destruct fresh; [done|]. rewrite map_app. by destruct (map s_tag (slots_of old)). }
  pose proof (wt_tags _ Hw) as Et. rewrite map_app in Et.
  unfold read_reply, require_created, gets, mret, fail.
  erewrite bind_Ok. 2: { erewrite bind_Ok by reflexivity. cbn [tw_buf]. by rewrite (wt_created _ Hw). }
  erewrite bind_Ok by reflexivity. cbn [tw_buf]. rewrite bool_decide_false by done.
  rewrite (wt_synched _ Hw). cbn [negb]. unfold answers.
  erewrite bind_Ok by (apply wrapM_Ok; apply SyncTags_answered; [done|apply (wt_sync _ Hw)|done|exact Et|apply (wt_old _ Hw)|apply (wt_fresh _ Hw)]).
  rewrite <- tags_of_all.
  destruct (DataTableReadBuffer_answered a_read (instanceID b) reply_bytes []
    (se ++ [generic_frame 0x4E (dataTablePath (instanceID b)) (add_tags_request (map s_tag fresh)) w]) (after_message w))
    as (i & HL & E); [done|apply (wt_read _ Hw)|].
  exists i. split; [done|].
  erewrite bind_Ok by (apply on_client_Ok; exact E). erewrite bind_Ok by reflexivity. cbn [tw_buf set_client tags set_synched set_tags].
  rewrite (sort_numbered _ _ sorting).
  - unfold after_read, requests. by rewrite <- (assoc_L (++)).
  - rewrite tags_of_all. apply numbered_mark. rewrite <- Et. apply (wt_numbered _ Hw).
  - pose proof (wt_length _ Hw) as Hl. rewrite Et in Hl. rewrite tags_of_all, !length_app, !length_map in *. done.
Qed.

(** C17.  ReadAll on a buffer with new tags sends them in one message and asks
    for the buffer in a second one; from a reply that holds, batch by batch,
    the batch's number and the slots of its tags, it returns the value of
    every tag under its name and stores it in the variable the tag refers
    to, whatever order sort.Slice gives to equal indexes. *)
Theorem ReadAll_reads se w b vs :
  status w = connectionStatusConnected -> waiting b ->
  ReadAll U sort_slice (table (scripted answers se w) b vs) =
    (Ok (foldl keep_value ∅ (slots_of all_batches)), after_read se w b (foldl put_value vs (slots_of all_batches))).
Proof.
  intros Hst Hw. destruct (read_reply_answered se w b vs Hst Hw) as (i & HL & E).
  unfold ReadAll. rewrite (bind_Ok _ _ _ _ _ E). unfold on_vars, zoom, after_read. cbn [tw_vars].
  unfold reply_bytes in HL. rewrite <- (layout_batches 0) in HL by apply (wt_batches _ Hw).
  rewrite (read_values_layout 0 i (slots_of all_batches)); [done|done|by eapply waiting_slots|].
  eapply batches_ids, (wt_batches _ Hw).
Qed.

(** ReadAllRaw does the same and returns the bytes of the slots. *)
Theorem ReadAllRaw_reads se w b vs :
  status w = connectionStatusConnected -> waiting b ->
  ReadAllRaw U sort_slice (table (scripted answers se w) b vs) =
    (Ok (foldl keep_raw ∅ (slots_of all_batches)), after_read se w b vs).
Proof.
  intros Hst Hw. destruct (read_reply_answered se w b vs Hst Hw) as (i & HL & E).
  unfold ReadAllRaw. rewrite (bind_Ok _ _ _ _ _ E).
  unfold reply_bytes in HL. rewrite <- (layout_batches 0) in HL by apply (wt_batches _ Hw).
  pose proof (read_raw_layout 0 i (slots_of all_batches) ∅ HL (waiting_slots b Hw) (batches_ids _ _ (wt_batches _ Hw))) as Er.
  unfold on. destruct (read_raw 0 _ _ i) as [r i']. simpl in Er. by subst.
Qed.
End Answered.

(** ** The invariant

    Whatever the network answers and whatever the program does with its
    variables: the tags that were sent come first, the others carry no batch
    yet, none of them is left when the buffer says so, and the tags are
    numbered in their order.  Removing a tag breaks the numbering. *)

Record buffer_ok (b : DataTableBuffer) : Prop := {
  bo_numbered : numbered (tags b);
  bo_split : exists old fresh, tags b = old ++ fresh /\ all_sent old /\
    Forall (fun t => dt_synched t = false /\ dt_batchID t = 0) fresh /\ (synched b = true -> fresh = []);
}.

(** A computation that keeps the invariant, however it ends. *)
Definition keeps {A} (m : M table_world A) : Prop :=
  forall w, buffer_ok (tw_buf w) -> buffer_ok (tw_buf (snd (m w))).

Lemma keeps_same {A} (m : M table_world A) : (forall w, tw_buf (snd (m w)) = tw_buf w) -> keeps m.
Proof. intros E w Hw. by rewrite E. Qed.
Lemma keeps_ret {A} (a : A) : keeps (mret a).
Proof. by apply keeps_same. Qed.
Lemma keeps_fail {A} e : keeps (fail (A:=A) e).
Proof. by apply keeps_same. Qed.
Lemma keeps_gets {A} (f : table_world -> A) : keeps (gets f).
Proof. by apply keeps_same. Qed.
Lemma keeps_lift {A} (r : res A) : keeps (lift r).
Proof. by apply keeps_same. Qed.
Lemma keeps_panic {A} why : keeps (panic (A:=A) why).
Proof. by apply keeps_same. Qed.
Lemma keeps_on {A T} (t : T) (m : M T A) : keeps (on t m).
Proof. apply keeps_same. intros w. unfold on. by destruct (m t) as [[] ?]. Qed.
Lemma keeps_client {A} (m : M client_world A) : keeps (on_client m).
Proof. apply keeps_same. intros w. unfold on_client, zoom. by destruct (m _). Qed.
Lemma keeps_vars {A} (m : M variables A) : keeps (on_vars m).
Proof. apply keeps_same. intros w. unfold on_vars, zoom. by destruct (m _). Qed.
Lemma keeps_bind {A B} (m : M table_world A) (f : A -> M table_world B) : keeps m -> (forall a, keeps (f a)) -> keeps (m ≫= f).
Proof.
  intros Hm Hf w Hw. rewrite bind_eq. specialize (Hm w Hw). destruct (m w) as [[a|e|why] w']; [by apply Hf|done|done].
Qed.
Lemma keeps_wrapM {A} msg (m : M table_world A) : keeps m -> keeps (wrapM msg m).
Proof. intros Hm w Hw. specialize (Hm w Hw). unfold wrapM. by destruct (m w) as [[] ?]. Qed.
Lemma keeps_try {A} (m : M table_world A) : keeps m -> keeps (try m).
Proof. intros Hm w Hw. specialize (Hm w Hw). unfold try. by destruct (m w) as [[] ?]. Qed.
Lemma keeps_upd f : (forall b, buffer_ok b -> buffer_ok (f b)) -> keeps (upd_buf f).
Proof. intros Hf w Hw. by apply Hf. Qed.

Create HintDb keeps.
#[export] Hint Resolve keeps_ret keeps_fail keeps_gets keeps_lift keeps_panic keeps_on keeps_client keeps_vars
  keeps_wrapM keeps_try : keeps.
Ltac keep := repeat first
  [ progress auto with keeps
  | apply keeps_bind; [|let a := fresh "a" in intros a; repeat match goal with p : _ * _ |- _ => destruct p end]
  | match goal with |- keeps (match ?x with _ => _ end) => destruct x end ].

Lemma numbered_app l l' : numbered l ->
  (forall i t, l' !! i = Some t -> dt_index t = u16 (Z.of_nat (length l + i) + 1)) -> numbered (l ++ l').
Proof.
  intros Hl Hl' i t Hi. destruct (decide (i < length l)%nat).
  - apply Hl. by rewrite lookup_app_l in Hi.
  - rewrite lookup_app_r in Hi by lia. rewrite (Hl' _ _ Hi). do 3 f_equal. lia.
Qed.

Lemma numbered_map f l : (forall t, dt_index (f t) = dt_index t) -> numbered l -> numbered (map f l).
Proof.
  intros Hf Hl i t Hi. fold (f <$> l) in Hi. rewrite list_lookup_fmap in Hi.
  destruct (l !! i) as [u|] eqn:E; [|done]. injection Hi as <-. rewrite Hf. by apply Hl.
Qed.

(** New tags, numbered behind the others. *)
Lemma append_ok l b : buffer_ok b ->
  Forall (fun t => dt_synched t = false /\ dt_batchID t = 0) l ->
  (forall i t, l !! i = Some t -> dt_index t = u16 (Z.of_nat (length (tags b) + i) + 1)) ->
  buffer_ok (set_synched false (set_tags (tags b ++ l) b)).
Proof.
  intros [Hn (old & fresh & Et & Ho & Hf & _)] Hl Hi. split; [by apply numbered_app|].
  exists old, (fresh ++ l). cbn. rewrite Et, <- (assoc_L (++)). split; [done|]. split; [done|]. split; [by apply Forall_app|done].
Qed.

Lemma numbered_tags_spec k l :
  Forall (fun t => dt_synched t = false /\ dt_batchID t = 0) (numbered_tags k l) /\
  (forall i t, numbered_tags k l !! i = Some t -> dt_index t = u16 (k + Z.of_nat i)).
Proof.
  revert k. induction l as [|[[[name ty] size] path] l IH]; intros k; [split; [apply Forall_nil_2|done]|].
  destruct (IH (k + 1)) as [H1 H2]. cbn [numbered_tags]. split; [by apply Forall_cons_2|].
  intros [|i] t Hi; [injection Hi as <-; cbn; f_equal; lia|]. rewrite (H2 i t Hi). f_equal. lia.
Qed.

Lemma mark_ok nb b : buffer_ok b ->
  buffer_ok (set_synched true
    (set_tags (fold_left (fun l e => alter (mark_synched nb) (e_index e) l) (unsynched_entries 0 (tags b)) (tags b)) b)).
Proof.
  intros [Hn (old & fresh & Et & Ho & Hf & _)]. rewrite Et in *.
  assert (none_sent fresh) as Hfr by (eapply Forall_impl; [|exact Hf]; by intros t []).
  rewrite unsynched_old, unsynched_fresh by done. cbn [plus]. rewrite mark_entries. split.
  - cbn. by apply numbered_mark.
  - exists (old ++ map (mark_synched nb) fresh), []. cbn. rewrite app_nil_r. split; [done|]. split; [|by split; [apply Forall_nil_2|]].
    apply Forall_app. split; [done|]. apply Forall_map. by apply list.Forall_forall.
Qed.

Section Invariant.
Context (U : nat -> Z) (sort_slice : list DataTableBufferTag -> list DataTableBufferTag)
        (range_types : gmap bytes Z -> list (bytes * Z))
        (range_expansions : gmap bytes (list bytes) -> list (bytes * list bytes)).

Lemma keeps_created : keeps require_created.
Proof. unfold require_created. keep. Qed.
Lemma keeps_prepare name ty : keeps (prepare_tag U name ty).
Proof. unfold prepare_tag. keep. Qed.
Lemma keeps_expansion base names : keeps (upd_buf (set_expansion base names)).
Proof. apply keeps_upd. intros b [H1 H2]. by split. Qed.
Hint Resolve keeps_created keeps_prepare keeps_expansion : keeps.

Lemma keeps_append name ty size path r : keeps (upd_buf (append_tag name ty size path r)).
Proof.
  apply keeps_upd. intros b Hb. apply append_ok; [done|by apply Forall_cons_2|].
  intros [|i] t Hi; [|done]. injection Hi as <-. cbn. do 2 f_equal. lia.
Qed.
Hint Resolve keeps_append : keeps.

Lemma keeps_AddTag name ty : keeps (AddTag U name ty).
Proof. unfold AddTag. keep. Qed.
Lemma keeps_AddTagRef name r : keeps (AddTagRef U name r).
Proof. unfold AddTagRef. cbv zeta. keep. Qed.

Lemma keeps_prepare_tags l : keeps (prepare_tags U l).
Proof. induction l as [|[name ty] l IH]; cbn [prepare_tags]; keep. Qed.
Hint Resolve keeps_prepare_tags : keeps.

Lemma keeps_AddTags types : keeps (AddTags U types).
Proof.
  unfold AddTags. keep. apply keeps_upd. intros b Hb.
  match goal with |- context [numbered_tags ?k ?l] => destruct (numbered_tags_spec k l) as [H1 H2] end.
  apply append_ok; [done|done|]. intros i t Hi. rewrite (H2 i t Hi). f_equal. lia.
Qed.

Lemma keeps_SyncTags : keeps (SyncTags U).
Proof.
  intros w Hw. unfold SyncTags. rewrite (bind_Ok (gets tw_buf) _ _ _ _ eq_refl), bind_eq. unfold wrapM, on_client, zoom.
  destruct (DataTableAddTags U _ _ _) as [[nb|e|why] c]; [|exact Hw..]. by apply mark_ok.
Qed.
Hint Resolve keeps_AddTag keeps_AddTagRef keeps_AddTags keeps_SyncTags : keeps.

Lemma keeps_read_reply : keeps (read_reply U sort_slice).
Proof. unfold read_reply. keep. Qed.
Hint Resolve keeps_read_reply : keeps.

Lemma keeps_ReadAll : keeps (ReadAll U sort_slice).
Proof. unfold ReadAll. keep. Qed.
Lemma keeps_ReadAllRaw : keeps (ReadAllRaw U sort_slice).
Proof. unfold ReadAllRaw. keep. Qed.
Hint Resolve keeps_ReadAll keeps_ReadAllRaw : keeps.
Lemma keeps_ReadAllTyped : keeps (ReadAllTyped U sort_slice range_expansions).
Proof. unfold ReadAllTyped. keep. Qed.

Lemma keeps_group_types group args m : keeps (group_types group args m).
Proof. revert m. induction group as [|d group IH]; intros m; cbn [group_types]; cbv zeta; keep. Qed.
Hint Resolve keeps_group_types : keeps.
Lemma keeps_AddTagGroup group args : keeps (AddTagGroup U range_types group args).
Proof. unfold AddTagGroup. keep. Qed.

Lemma keeps_struct_types str fields tagged m ptrs : keeps (struct_types str fields tagged m ptrs).
Proof.
  revert m ptrs. induction tagged as [|[[i path] v] tagged IH]; intros m ptrs; cbn [struct_types]; [keep|].
  destruct (GoVarToCIPType v) as [ty n]. cbv zeta. keep.
Qed.
Hint Resolve keeps_struct_types : keeps.

Lemma set_Var_same ptrs t : dt_index (set_Var ptrs t) = dt_index t /\ dt_synched (set_Var ptrs t) = dt_synched t /\
  dt_batchID (set_Var ptrs t) = dt_batchID t.
Proof. unfold set_Var. by destruct (ptrs !! dt_Name t). Qed.

Lemma keeps_set_Var ptrs : keeps (upd_buf (fun b => set_tags (map (set_Var ptrs) (tags b)) b)).
Proof.
  apply keeps_upd. intros b [Hn (old & fresh & Et & Ho & Hf & Hs)]. split.
  - apply numbered_map; [|done]. intros t. apply set_Var_same.
  - exists (map (set_Var ptrs) old), (map (set_Var ptrs) fresh). cbn. rewrite Et, map_app. split; [done|].
    rewrite !Forall_map. split; [|split].
    + eapply Forall_impl; [|exact Ho]. intros t Ht. by destruct (set_Var_same ptrs t) as (_ & -> & _).
    + eapply Forall_impl; [|exact Hf]. intros t Ht. by destruct (set_Var_same ptrs t) as (_ & -> & ->).
    + intros E. by rewrite (Hs E).
Qed.
Hint Resolve keeps_set_Var : keeps.

Lemma keeps_AddTaggedStruct str args : keeps (AddTaggedStruct U range_types str args).
Proof. unfold AddTaggedStruct. keep. Qed.

Lemma keeps_Close : keeps (Close U).
Proof. unfold Close. keep; apply keeps_upd; intros b [H1 H2]; by split. Qed.

(** The operations but the removal of a tag, and what happens between them:
    the client's other work and the program's on its variables. *)
Inductive table_op :=
  | OpAddTag (name : bytes) (cipType : Z)
  | OpAddTagRef (name : bytes) (data : reference)
  | OpAddTags (types : list (bytes * Z))
  | OpAddTagGroup (group : TagGroup) (args : list bytes)
  | OpAddTaggedStruct (str : loc) (args : option (list bytes))
  | OpSyncTags | OpReadAll | OpReadAllRaw | OpReadAllTyped | OpClose
  | OpOther (c : client_world) (vs : variables).

Definition run_op (op : table_op) (w : table_world) : table_world :=
  match op with
  | OpAddTag name ty => snd (AddTag U name ty w)
  | OpAddTagRef name r => snd (AddTagRef U name r w)
  | OpAddTags l => snd (AddTags U l w)
  | OpAddTagGroup g args => snd (AddTagGroup U range_types g args w)
  | OpAddTaggedStruct str args => snd (AddTaggedStruct U range_types str args w)
  | OpSyncTags => snd (SyncTags U w)
  | OpReadAll => snd (ReadAll U sort_slice w)
  | OpReadAllRaw => snd (ReadAllRaw U sort_slice w)
  | OpReadAllTyped => snd (ReadAllTyped U sort_slice range_expansions w)
  | OpClose => snd (Close U w)
  | OpOther c vs => {| tw_client := c; tw_buf := tw_buf w; tw_vars := vs |}
  end.

Lemma run_op_ok op w : buffer_ok (tw_buf w) -> buffer_ok (tw_buf (run_op op w)).
Proof.
  destruct op; cbn [run_op];
    [apply keeps_AddTag|apply keeps_AddTagRef|apply keeps_AddTags|apply keeps_AddTagGroup|apply keeps_AddTaggedStruct|
     apply keeps_SyncTags|apply keeps_ReadAll|apply keeps_ReadAllRaw|apply keeps_ReadAllTyped|apply keeps_Close|done].
Qed.

(** C20.  The invariant of a buffer: after any operations on a new buffer but
    RemoveTag, in any order, with any answers of the network (failures
    included), the tags are numbered in order and those that were sent come
    first; when the buffer says it is in sync none is left to send. *)
Theorem table_reachable c0 b0 w0 c ops :
  NewDataTableBuffer U c0 = (Ok b0, c) -> tw_buf w0 = b0 ->
  buffer_ok (tw_buf (fold_left (fun w op => run_op op w) ops w0)).
Proof.
  intros Hn Hb. assert (buffer_ok (tw_buf w0)) as H0.
  { unfold NewDataTableBuffer in Hn. apply bind_Ok_inv in Hn as (id & c1 & _ & E). injection E as <- _. rewrite Hb.
    split; [done|]. by exists [], []. }
  clear Hn Hb. revert w0 H0. induction ops as [|op ops IH]; intros w0 H0; [done|]. apply IH. by apply run_op_ok.
Qed.
End Invariant.

(** ** Collapsing array tags *)

(** What the values of a tag's elements become: themselves, or a slice. *)
Definition collapsed (values : list goval) : goval := match values with [v] => v | _ => VSlice TAny values end.

Section Collapse.
Context (rawValues : gmap bytes goval).
Abbreviation values_at names := (mapM (fun name => rawValues !! name) names).

Lemma collapse_spec l result consumed :
  NoDup (map fst l) -> (forall p, p ∈ l -> is_Some (values_at p.2)) ->
  exists r c, collapse rawValues l result consumed = Ok (r, c) /\
    (forall base names vs, (base, names) ∈ l -> names <> [] -> values_at names = Some vs -> r !! base = Some (collapsed vs)) /\
    (forall base, base ∉ map fst l -> r !! base = result !! base) /\
    (forall n, n ∈ c <-> n ∈ consumed \/ exists p, p ∈ l /\ n ∈ p.2).
Proof.
  revert result consumed. induction l as [|[base names] l IH]; intros result consumed Hnd Hall.
  { exists result, consumed. split; [done|]. split; [by intros ??? ?%elem_of_nil|]. split; [done|].
    intros n. split; [by left|]. intros [|(p & ?%elem_of_nil & _)]; done. }
  apply list.NoDup_cons in Hnd as [Hb Hnd]. destruct (Hall (base, names)) as [vs Hvs]; [left|]. cbn [snd] in Hvs.
  cbn [collapse]. rewrite Hvs.
  set (result' := match vs with [] => result | [v] => <[base := v]> result | _ => <[base := VSlice TAny vs]> result end).
  destruct (IH result' (list_to_set names ∪ consumed) Hnd) as (r & c & E & H1 & H2 & H3).
  { intros p Hp. apply Hall. by right. }
  exists r, c. split; [exact E|]. split; [|split].
  - intros base' names' vs' [[= -> ->]|Hin]%elem_of_cons Hne Hvs'; [|by eapply H1].
    rewrite H2 by done. rewrite Hvs in Hvs'. injection Hvs' as <-. subst result'.
    destruct vs as [|v [|v' vs]]; [|by rewrite lookup_insert_eq..].
    apply length_mapM in Hvs. destruct names; [done|discriminate Hvs].
  - intros base' Hn. cbn [map fst] in Hn. apply not_elem_of_cons in Hn as [Hn1 Hn2]. rewrite H2 by done. subst result'.
    destruct vs as [|v [|v' vs]]; [done|by rewrite lookup_insert_ne by congruence..].
  - intros n. rewrite H3, elem_of_union, elem_of_list_to_set. split.
    + intros [[Hn|Hn]|(p & Hp & Hn)]; [right|by left|right].
      * exists (base, names). split; [left|done].
      * exists p. split; [by right|done].
    + intros [Hn|(p & [->|Hp]%elem_of_cons & Hn)]; [by left; right|by left; left|right; by exists p].
Qed.

Lemma values_at_all names : (forall n, n ∈ names -> is_Some (rawValues !! n)) -> is_Some (values_at names).
Proof. intros Hn. apply mapM_is_Some_2. by apply list.Forall_forall. Qed.
End Collapse.

(** ReadAllTyped puts the arrays of a tag group together again, in
    whatever order the map of them is visited: an array's name has the slice
    of its elements' values in order, a scalar its value, and a tag that
    belongs to no group is as it was read. *)
Theorem collapse_all_groups range_expansions rawValues exps :
  (forall m, range_expansions m ≡ₚ map_to_list m) ->
  (forall base names n, exps !! base = Some names -> n ∈ names -> is_Some (rawValues !! n)) ->
  exists r, collapse_all range_expansions rawValues exps = Ok r /\
    (forall base names vs, exps !! base = Some names -> names <> [] -> mapM (fun n => rawValues !! n) names = Some vs ->
       base ∈ names \/ rawValues !! base = None -> r !! base = Some (RVal (collapsed vs))) /\
    (forall n v, rawValues !! n = Some v -> (forall base names, exps !! base = Some names -> n ∉ names) -> r !! n = Some (RVal v)).
Proof.
  intros Hrange Hall.
  destruct (collapse_spec rawValues (range_expansions exps) ∅ ∅) as (r & c & E & H1 & _ & H3).
  { change (NoDup (range_expansions exps).*1). rewrite (Hrange exps). apply NoDup_fst_map_to_list. }
  { intros [base names] Hp. rewrite Hrange in Hp. apply elem_of_map_to_list in Hp. apply values_at_all.
    intros n Hn. by eapply Hall. }
  unfold collapse_all. eexists. split; [by rewrite E|]. split.
  - intros base names vs Hb Hne Hvs Hown. rewrite lookup_fmap. rewrite lookup_union_r.
    + erewrite H1; [done| |exact Hne|exact Hvs]. rewrite Hrange. by apply elem_of_map_to_list.
    + apply map_lookup_filter_None. destruct Hown as [Hin|Hno]; [right|by left].
      intros v _ Hc. apply Hc. cbn. apply H3. right. exists (base, names). split; [|done].
      rewrite Hrange. by apply elem_of_map_to_list.
  - intros n v Hn Hout. rewrite lookup_fmap. erewrite lookup_union_Some_l; [done|].
    apply map_lookup_filter_Some. split; [done|]. cbn. rewrite H3. intros [?%elem_of_empty|([base names] & Hp & Hin)]; [done|].
    rewrite Hrange in Hp. apply elem_of_map_to_list in Hp. by eapply Hout.
Qed.

(** A tag of a group that was removed from the buffer makes every later
    ReadAllTyped fail: its name stays among the expansions. *)
Lemma collapse_missing range_expansions rawValues exps base names n :
  range_expansions exps = [(base, names)] -> n ∈ names -> rawValues !! n = None ->
  collapse_all range_expansions rawValues exps = Err (Errorf "expanded tag not found in buffer response").
Proof.
  intros Hr Hn Hno. unfold collapse_all. rewrite Hr. cbn [collapse].
  destruct (mapM _ names) as [vs|] eqn:E; [|done]. exfalso.
  apply mapM_Some_1 in E. clear Hr. induction E as [|m v names vs Hm _ IH]; [by apply elem_of_nil in Hn|].
  apply elem_of_cons in Hn as [Hn|Hn]; [subst; by rewrite Hno in Hm|by apply IH].
Qed.

(** ** Witnesses *)

#[local] Instance by_index_dec : RelDecision by_index.
Proof. intros t u. apply _. Defined.

Definition sort_by_index (l : list DataTableBufferTag) : list DataTableBufferTag := merge_sort by_index l.

Lemma sort_by_index_sorts : sorts sort_by_index.
Proof.
  intros l. split; [|apply merge_sort_Permutation].
  apply Sorted_StronglySorted; [intros a b c; simpl; lia|]. apply Sorted_merge_sort. intros a b. simpl. lia.
Qed.

Definition sample_answer (len : Z) : answer_form :=
  {| af_hdr := {| hdr_Command := cipCommandSendUnitData; hdr_Length := len; hdr_SessionHandle := 1; hdr_Status := 0;
                  hdr_Context := 0; hdr_Options := 0 |};
     af_item0 := Write [5; 0; 0; 0] (empty_item cipItem_ConnectionAddress); af_seq := 7 |}.

Definition sample_tag (name : string) (ty size index batchID : Z) (sent : bool) (r : reference) : DataTableBufferTag :=
  {| dt_Name := str name; dt_CIPType := ty; dt_DataTypeSize := size; dt_index := index; dt_ioi := [0x91; 1; 120; 0];
     dt_batchID := batchID; dt_synched := sent; dt_Var := r |}.
Definition sample_old : list batch :=
  [(1, [{| s_tag := sample_tag "x" CIPTypeDINT 4 1 1 true RefNil; s_raw := [5; 0; 0; 0]; s_value := VInt I32 5 |}])].
Definition sample_fresh : list slot :=
  [{| s_tag := sample_tag "s" CIPTypeSTRING 8 2 0 false (RefPtr TString (Some {| l_var := 0; l_path := [] |}));
      s_raw := le_bytes 4 2 ++ str "hi" ++ [0; 0]; s_value := VString (str "hi") |}].
Definition sample_buffer : DataTableBuffer :=
  {| instanceID := 3; tags := map s_tag (slots_of sample_old ++ sample_fresh); expansions := ∅; created := true; synched := false |}.

Lemma sample_waiting : waiting sample_old sample_fresh 2 (sample_answer 28) (sample_answer 42) sample_buffer.
Proof.
  split; try done.
  - by apply Forall_cons_2.
  - by apply Forall_cons_2.
  - intros [|[|i]] t Hi; [injection Hi as <-; done..|done].
  - cbn. repeat split; try done; by apply Forall_cons_2.
  - apply Forall_cons_2; [|apply Forall_cons_2; [|apply Forall_nil_2]].
    + split; [|done]. apply image_scalar; [zbound|reflexivity|reflexivity].
    + split; [|done]. apply (image_string _ (str "hi") [0; 0]); [by left|done].
Qed.

Definition sample_vars : variables := {[0%nat := VString []]}.

Lemma ReadAll_reads_witness :
  ReadAll (fun _ => 0) sort_by_index {| tw_client := scripted (answers sample_old sample_fresh 2 (sample_answer 28) (sample_answer 42)) [] (up_world []);
                                        tw_buf := sample_buffer; tw_vars := sample_vars |} =
    (Ok {[str "x" := VInt I32 5; str "s" := VString (str "hi")]},
     after_read sample_old sample_fresh 2 [] (up_world []) sample_buffer {[0%nat := VString (str "hi")]}).
Proof.
  rewrite (ReadAll_reads (fun _ => 0) sort_by_index sort_by_index_sorts sample_old sample_fresh 2 (sample_answer 28) (sample_answer 42)
    [] (up_world []) sample_buffer sample_vars); [|reflexivity|apply sample_waiting].
  vm_compute. reflexivity.
Defined.

Lemma ReadAllRaw_reads_witness :
  ReadAllRaw (fun _ => 0) sort_by_index {| tw_client := scripted (answers sample_old sample_fresh 2 (sample_answer 28) (sample_answer 42)) [] (up_world []);
                                           tw_buf := sample_buffer; tw_vars := ∅ |} =
    (Ok {[str "x" := [5; 0; 0; 0]; str "s" := le_bytes 4 2 ++ str "hi" ++ [0; 0]]},
     after_read sample_old sample_fresh 2 [] (up_world []) sample_buffer ∅).
Proof.
  rewrite (ReadAllRaw_reads (fun _ => 0) sort_by_index sort_by_index_sorts sample_old sample_fresh 2 (sample_answer 28) (sample_answer 42)
    [] (up_world []) sample_buffer ∅); [|reflexivity|apply sample_waiting]. vm_compute. reflexivity.
Defined.

(** The peer grants the buffer 3, then goes away. *)
Definition create_reply : exchange := Reply (generic_reply (sample_answer 28) CIPService_Create (le_bytes 2 3)).
Definition created_buffer : DataTableBuffer :=
  {| instanceID := 3; tags := []; expansions := ∅; created := true; synched := false |}.

Lemma table_reachable_witness :
  fst (NewDataTableBuffer (fun _ => 0) (scripted [create_reply] [] (up_world []))) = Ok created_buffer /\
  buffer_ok (tw_buf (fold_left (fun w op => run_op (fun _ => 0) sort_by_index map_to_list map_to_list op w)
    [OpAddTag (str "x") CIPTypeDINT; OpReadAll; OpAddTags [(str "y", CIPTypeREAL)]; OpClose]
    {| tw_client := up_world []; tw_buf := created_buffer; tw_vars := ∅ |})).
Proof.
  split; [vm_compute; reflexivity|].
  eapply (table_reachable (fun _ => 0) sort_by_index map_to_list map_to_list (scripted [create_reply] [] (up_world [])) created_buffer);
    [vm_compute; reflexivity|reflexivity].
Defined.

(** A tag that is added behind a removed one gets a number that is taken. *)
Example RemoveTag_reuses_index :
  let removed := Reply (generic_reply (sample_answer 26) CIPService_RemoveTagFromBuffer []) in
  let w := upd_ioi (fun c => {| ioi_cache := ∅; KnownTags := None; firmware := 32; catalog := no_types |})
             (scripted [removed] [] (up_world [])) in
  let run := _ ← RemoveTag (fun _ => 0) (str "x"); AddTag (fun _ => 0) (str "z") CIPTypeDINT in
  let w' := snd (run {| tw_client := w; tw_buf := sample_buffer; tw_vars := ∅ |}) in
  map dt_index (tags (tw_buf w')) = [2; 2].
Proof. vm_compute. reflexivity. Qed.

Lemma collapse_all_groups_witness :
  exists r, collapse_all map_to_list {[str "a[0]" := VInt I32 1; str "a[1]" := VInt I32 2; str "b" := VBool true]}
      {[str "a[0]" := [str "a[0]"; str "a[1]"]]} = Ok r /\
    r !! str "a[0]" = Some (RVal (VSlice TAny [VInt I32 1; VInt I32 2])) /\ r !! str "b" = Some (RVal (VBool true)).
Proof.
  destruct (collapse_all_groups map_to_list {[str "a[0]" := VInt I32 1; str "a[1]" := VInt I32 2; str "b" := VBool true]}
    {[str "a[0]" := [str "a[0]"; str "a[1]"]]}) as (r & E & H1 & H2).
  - done.
  - intros base names n [<- <-]%lookup_singleton_Some Hn. apply elem_of_cons in Hn as [->|Hn]; [by eexists|].
    apply list_elem_of_singleton in Hn as ->. by eexists.
  - exists r. split; [exact E|]. split.
    + apply (H1 (str "a[0]") [str "a[0]"; str "a[1]"] [VInt I32 1; VInt I32 2]); [reflexivity|done|reflexivity|left; left].
    + apply (H2 (str "b")); [reflexivity|]. intros base names [<- <-]%lookup_singleton_Some.
      rewrite !not_elem_of_cons. repeat split; [done..|by intros ?%elem_of_nil].
Defined.
