(* ===== verification/MultiReadProofs.v ===== *)
(** * Batches of tags: a partition, within the connection size, and an end

    Choosing the tags of a message splits the pending ones in two, takes at
    least one, and keeps the request below the connection size unless a
    single tag passes it; so the loops over batches end.  A partial transfer
    in a multiple read is not accumulated. *)
From S2P Require Import Prelude Reader GoStrings GoValue CipNames CipDefs Types Items Ioi Pack Messages Client ClientTags ClientConn MultiRead.

(** ** The split of the pending indexes *)

(** Increasing positions from pos on, below n. *)
Fixpoint increasing (pos n : nat) (l : list nat) : Prop :=
  match l with [] => True | s :: l => (pos <= s < n)%nat /\ increasing (S s) n l end.

Lemma increasing_weaken pos pos' n l : (pos' <= pos)%nat -> increasing pos n l -> increasing pos' n l.
Proof. destruct l; simpl; [done|]. intros Hp [Hs Hl]. split; [lia|done]. Qed.

Lemma increasing_ge pos n l : increasing pos n l -> Forall (fun s => (pos <= s < n)%nat) l.
Proof.
  revert pos. induction l as [|s l IH]; intros pos; [constructor|]. intros [Hs Hl]. apply Forall_cons_2; [done|].
  eapply Forall_impl; [|exact (IH _ Hl)]. simpl. lia.
Qed.

Lemma split_selected_perm pos pending selected :
  let '(a, b) := split_selected pos pending selected in a ++ b ≡ₚ pending.
Proof.
  revert pos selected. induction pending as [|idx pending IH]; intros pos selected; [by simpl|]. simpl.
  destruct selected as [|s selected].
  - specialize (IH (S pos) []). destruct (split_selected _ _ _) as [a b]. by rewrite <- Permutation_middle, IH.
  - destruct (s =? pos)%nat.
    + specialize (IH (S pos) selected). destruct (split_selected _ _ _) as [a b]. simpl. by rewrite IH.
    + specialize (IH (S pos) (s :: selected)). destruct (split_selected _ _ _) as [a b].
      by rewrite <- Permutation_middle, IH.
Qed.

Lemma split_selected_length pos pending selected :
  increasing pos (pos + length pending) selected ->
  length (fst (split_selected pos pending selected)) = length selected.
Proof.
  revert pos selected. induction pending as [|idx pending IH]; intros pos selected Hs.
  { destruct selected as [|s selected]; [done|]. simpl in Hs. lia. }
  simpl in Hs. simpl. destruct selected as [|s selected].
  - specialize (IH (S pos) [] I). destruct (split_selected _ _ _) as [a b]. done.
  - destruct Hs as [Hs Hl]. destruct (Nat.eqb_spec s pos) as [->|Hne].
    + specialize (IH (S pos) selected). destruct (split_selected _ _ _) as [a b]. simpl in *. rewrite IH; [done|].
      by replace (S (pos + length pending)) with (pos + S (length pending))%nat by lia.
    + specialize (IH (S pos) (s :: selected)). destruct (split_selected _ _ _) as [a b]. apply IH. split; [lia|].
      by replace (S pos + length pending)%nat with (pos + S (length pending))%nat by lia.
Qed.

Section Batches.
Context `{Methods} (U : nat -> Z).

Lemma select_tags_increasing tags iois pos sel pb rs w l w' :
  select_tags U tags iois pos sel pb rs w = (Ok l, w') -> increasing pos (pos + length tags) l.
Proof.
  revert pos sel pb rs w l w'. induction tags as [|tag tags IH]; intros pos sel pb rs w l w' E.
  { by injection E as <- <-. }
  simpl in E. apply bind_Ok_inv in E as (i & w1 & _ & E). apply bind_Ok_inv in E as (w2 & w3 & _ & E).
  apply bind_Ok_inv in E as ([[req resp] full] & w4 & _ & E). simpl length. rewrite Nat.add_succ_r. destruct full.
  - apply IH in E. eapply increasing_weaken; [|exact E]. lia.
  - apply bind_Ok_inv in E as (l' & w5 & El & E). injection E as <- <-. apply IH in El. split; [lia|done].
Qed.

Lemma selectPackedTagIndexes_ok tags iois w l w' :
  tags <> [] -> selectPackedTagIndexes U tags iois w = (Ok l, w') -> l <> [] /\ increasing 0 (length tags) l.
Proof.
  intros Ht E. destruct tags as [|tag tags]; [done|]. unfold selectPackedTagIndexes in E.
  destruct (match iois with Some l => _ | None => false end); [done|].
  apply bind_Ok_inv in E as (sel & w1 & Es & E). injection E as <- <-. apply select_tags_increasing in Es.
  destruct sel as [|s sel]; [|done]. split; [done|]. simpl. lia.
Qed.

Lemma index_all_lookup {A} (l : list A) idxs r : index_all l idxs = Ok r -> Forall2 (fun i x => l !! i = Some x) idxs r.
Proof.
  unfold index_all. destruct (mapM _ idxs) as [r'|] eqn:E; [|done]. intros [= ->]. by apply mapM_Some_1 in E.
Qed.

Lemma index_all_length {A} (l : list A) idxs r : index_all l idxs = Ok r -> length r = length idxs.
Proof. intros E. symmetry. eapply Forall2_length. by apply index_all_lookup. Qed.

Lemma selectPackedTagBatch_spec pending tags iois w selected chosen chosenIOIs next w' :
  pending <> [] ->
  selectPackedTagBatch U pending tags iois w = (Ok (selected, chosen, chosenIOIs, next), w') ->
  selected ++ next ≡ₚ pending /\ selected <> [] /\ Forall2 (fun i t => tags !! i = Some t) selected chosen.
Proof.
  intros Hp E. destruct pending as [|idx pending]; [done|]. unfold selectPackedTagBatch in E.
  apply bind_Ok_inv in E as (batch & w1 & Eb & E). injection Eb as Eb <-.
  apply bind_Ok_inv in E as (bi & w2 & _ & E). apply bind_Ok_inv in E as (local & w3 & El & E).
  destruct (split_selected 0 (idx :: pending) local) as [a b] eqn:Es.
  apply bind_Ok_inv in E as (ct & w4 & Ec & E). injection Ec as Ec _.
  apply bind_Ok_inv in E as (ci & w5 & _ & E). injection E as <- <- <- <- <-.
  pose proof (index_all_length _ _ _ Eb) as Hlen.
  apply selectPackedTagIndexes_ok in El as [Hne Hinc]; [|by destruct batch].
  rewrite Hlen in Hinc. pose proof (split_selected_perm 0 (idx :: pending) local) as Hperm.
  pose proof (split_selected_length 0 (idx :: pending) local Hinc) as Hl. rewrite Es in Hperm, Hl. simpl in Hl.
  split; [done|]. split; [intros ->; by destruct local|]. by apply index_all_lookup.
Qed.

(** ** The loops over batches end *)

Lemma bind_ext_Ok {S A B} (m : M S A) (f g : A -> M S B) s :
  (forall a s', m s = (Ok a, s') -> f a s' = g a s') -> (m ≫= f) s = (m ≫= g) s.
Proof. intros E. rewrite !bind_eq. destruct (m s) as [[a|e|why] s']; [by apply E|done..]. Qed.

Lemma batch_shorter pending tags iois w selected chosen chosenIOIs next w' :
  pending <> [] ->
  selectPackedTagBatch U pending tags iois w = (Ok (selected, chosen, chosenIOIs, next), w') ->
  (length next < length pending)%nat.
Proof.
  intros Hp E. apply selectPackedTagBatch_spec in E as (Hperm & Hne & _); [|done].
  apply Permutation_length in Hperm. rewrite length_app in Hperm. destruct selected; [done|]. simpl in Hperm. lia.
Qed.

Lemma map_batches_fuel rounds k tags pending results w :
  (length pending <= rounds)%nat ->
  map_batches U (rounds + k) tags pending results w = map_batches U rounds tags pending results w.
Proof.
  revert pending results w. induction rounds as [|rounds IH]; intros pending results w Hp.
  { destruct pending; [|simpl in Hp; lia]. by destruct k. }
  destruct pending as [|idx pending]; [done|]. cbn [map_batches Nat.add]. apply bind_ext_Ok.
  intros [[[sel chosen] ci] next] w1 E1. apply bind_ext_Ok. intros vals w2 _. apply bind_ext_Ok. intros res w3 _.
  apply IH. apply batch_shorter in E1; [|done]. simpl in E1, Hp. lia.
Qed.

Lemma count_fit_bound tags n b r w m w' :
  count_fit U tags n b r w = (Ok m, w') -> (m <= n + length tags)%nat.
Proof.
  revert n b r w. induction tags as [|tag tags IH]; intros n b r w E; simpl in *.
  { injection E as <- <-. lia. }
  apply bind_Ok_inv in E as (i & w1 & _ & E). apply bind_Ok_inv in E as (w2 & w3 & _ & E).
  apply bind_Ok_inv in E as (resp & w4 & _ & E). destruct (_ || _).
  - injection E as <- <-. lia.
  - apply IH in E. lia.
Qed.

Lemma read_list_batches_fuel rounds k fuel tags w :
  (length tags <= rounds)%nat ->
  read_list_batches U (rounds + k) fuel tags w = read_list_batches U rounds fuel tags w.
Proof.
  revert tags w. induction rounds as [|rounds IH]; intros tags w Ht.
  { destruct tags; [|simpl in Ht; lia]. by destruct k. }
  destruct tags as [|tag tags]; [done|]. cbn [read_list_batches Nat.add]. apply bind_ext_Ok. intros n w1 E.
  apply bind_ext_Ok. intros vals w2 _. rewrite !bind_eq.
  rewrite IH; [done|]. unfold countIOIsThatFit in E. apply bind_Ok_inv in E as (m & w3 & _ & E). injection E as <- <-.
  rewrite length_drop. simpl in *. lia.
Qed.

(** ** Sizes *)

(** The bytes of a tag's request, and over a list of tags the bytes of the
    requests and the estimates of the responses. *)
Definition request_size (connSize : Z) (tag : tagDesc) (i : tagIOI) : Z :=
  2 + blen (ioi_Buffer i) + footer_size (readServiceForTag tag connSize).

Fixpoint batch_sizes (connSize : Z) (tags : list tagDesc) (iois : list tagIOI) : res (Z * Z) :=
  match tags, iois with
  | tag :: tags, i :: iois =>
      resp ← estimateTagResponseSize tag;
      '(a, b) ← batch_sizes connSize tags iois;
      Ok (request_size connSize tag i + a, resp + b)
  | _, _ => Ok (0, 0)
  end.

Definition picks {A} (l : list A) (sel : list nat) (r : list A) : Prop := Forall2 (fun s x => l !! s = Some x) sel r.

(** The sizes of count more tags, on top of what is packed, are below the
    connection size. *)
Definition within (connSize count packedBytes responseSize a b : Z) : Prop :=
  estimateMultiReadRequestOverhead count + packedBytes + a < connSize /\
  estimateMultiReadReplyOverhead count + responseSize + b < connSize.

(** *** The client's own IOIs

    The IOI of a path that is built again is never longer: a cached one is
    used, or replaced by a shorter one. *)
Definition shorter (i j : tagIOI) : Prop := (length (ioi_Buffer i) <= length (ioi_Buffer j))%nat.

Lemma shorter_refl i : shorter i i.
Proof. by unfold shorter. Qed.
#[local] Hint Resolve shorter_refl : core.

Definition shrinks (c c' : ioi_client) : Prop :=
  firmware c' = firmware c /\
  forall k j, ioi_cache c !! k = Some j -> exists j', ioi_cache c' !! k = Some j' /\ shorter j' j.

#[local] Instance shrinks_preorder : PreOrder shrinks.
Proof.
  split; [intros c; split; [done|]; intros k j Hk; exists j; split; [done|apply shorter_refl]|]. intros c1 c2 c3 [F1 H1] [F2 H2]. split; [congruence|].
  intros k j Hk. destruct (H1 _ _ Hk) as (j2 & Hk2 & L2), (H2 _ _ Hk2) as (j3 & Hk3 & L3). exists j3. split; [done|].
  unfold shorter in *. lia.
Qed.

Lemma cache_ioi_shrinks k i c : (forall j, ioi_cache c !! k = Some j -> shorter i j) -> shrinks c (cache_ioi k i c).
Proof.
  intros Hs. split; [done|]. intros k' j Hk. cbn [cache_ioi ioi_cache]. destruct (decide (k' = k)) as [->|Hne].
  - exists i. rewrite lookup_insert_eq. split; [done|by apply Hs].
  - exists j. rewrite lookup_insert_ne by done. by split.
Qed.

Lemma newIOI_shrinks tag ty c i c' : newIOI tag ty c = (Ok i, c') ->
  shrinks c c' /\ ioi_cache c' !! to_lower tag = Some i /\ forall j, ioi_cache c !! to_lower tag = Some j -> shorter i j.
Proof.
  unfold newIOI. cbv zeta. set (k := to_lower tag). cbv beta.
  assert (match ioi_cache c !! k with
    | Some cached => (Ok cached, c)
    | None => match newSymbolicIOI k ty with
              | Ok ioi => (Ok ioi, cache_ioi k ioi c) | Err e => (Err e, c) | Panic w => (Panic w, c)
              end
    end = (Ok i, c') ->
    shrinks c c' /\ ioi_cache c' !! k = Some i /\ forall j, ioi_cache c !! k = Some j -> shorter i j) as Hsym.
  { destruct (ioi_cache c !! k) as [cached|] eqn:Hc.
    - intros [= <- <-]. split; [done|]. split; [done|]. by intros j [= <-].
    - destruct (newSymbolicIOI k ty); try done. intros [= <- <-]. split; [|split; [|done]].
      + apply cache_ioi_shrinks. intros j Hj. by rewrite Hc in Hj.
      + cbn [cache_ioi ioi_cache]. by rewrite lookup_insert_eq. }
  destruct (20 <? firmware c); [|exact Hsym].
  assert (forall known, (forall j, ioi_cache c !! k = Some j -> shorter known j) -> known = i -> cache_ioi k known c = c' ->
    shrinks c c' /\ ioi_cache c' !! k = Some i /\ forall j, ioi_cache c !! k = Some j -> shorter i j) as Hknown.
  { intros known Hj <- <-. split; [by apply cache_ioi_shrinks|]. split; [|exact Hj].
    cbn [cache_ioi ioi_cache]. by rewrite lookup_insert_eq. }
  destruct (newKnownTagIOI (KnownTags c) k ty) as [[known|]| |]; try done.
  destruct (ioi_cache c !! k) as [cached|] eqn:Hc.
  - destruct (Nat.ltb_spec (length (ioi_Buffer known)) (length (ioi_Buffer cached))) as [Hlt|]; [|exact Hsym].
    intros [= E1 E2]. apply (Hknown known); [|done|done]. intros j [= <-]. unfold shorter. lia.
  - destruct (newSymbolicIOI k ty) as [sym| |]; try done. destruct (_ <? _)%nat; [|exact Hsym].
    intros [= E1 E2]. by apply (Hknown known).
Qed.

(** A client that knows the firmware builds an IOI without the network. *)
Lemma client_newIOI_Ok_inv tag ty w i w' : firmware (ioi (cw_client w)) <> 0 ->
  client_newIOI U tag ty w = (Ok i, w') ->
  link w' = link w /\ newIOI tag ty (ioi (cw_client w)) = (Ok i, ioi (cw_client w')).
Proof.
  intros Hf E. unfold client_newIOI in E. apply bind_Ok_inv in E as (n & w1 & E1 & E). unfold client_firmware in E1.
  rewrite (bind_Ok get _ w w w) in E1 by done. rewrite (proj2 (Z.eqb_neq _ _) Hf) in E1. cbn [negb] in E1.
  injection E1 as <- <-. unfold zoom in E. destruct (newIOI tag ty (ioi (cw_client w))) as [r c'].
  injection E as -> <-. by split.
Qed.

(** The IOIs the client has for tags are no longer than the given ones. *)
Definition covers (tags : list tagDesc) (iois : list tagIOI) (c : ioi_client) : Prop :=
  Forall2 (fun tag i => exists j, ioi_cache c !! to_lower (td_TagName tag) = Some j /\ shorter j i) tags iois.

Lemma covers_shrinks tags iois c c' : covers tags iois c -> shrinks c c' -> covers tags iois c'.
Proof.
  intros Hc [_ Hs]. refine (Forall2_impl _ _ Hc). intros tag i (j & Hj & L). destruct (Hs _ _ Hj) as (j' & Hj' & L').
  exists j'. split; [done|]. unfold shorter in *. lia.
Qed.

Lemma sequence_iois_shorter tags : forall iois w I w', firmware (ioi (cw_client w)) <> 0 ->
  covers tags iois (ioi (cw_client w)) -> sequence_iois U tags w = (Ok I, w') ->
  link w' = link w /\ Forall2 shorter I iois.
Proof.
  induction tags as [|tag tags IH]; intros iois w I w' Hf Hc E; cbn [sequence_iois] in E.
  { injection E as <- <-. inversion Hc; subst. split; [done|constructor]. }
  destruct iois as [|i iois]; [by inversion Hc|]. apply list.Forall2_cons in Hc as [(j & Hj & L) Hc].
  apply bind_Ok_inv in E as (i' & w1 & E1 & E). apply bind_Ok_inv in E as (I' & w2 & E2 & E). injection E as <- <-.
  apply client_newIOI_Ok_inv in E1 as [Hl1 E1]; [|done]. apply newIOI_shrinks in E1 as (Hs & _ & Hi).
  assert (firmware (ioi (cw_client w1)) <> 0) as Hf1 by (destruct Hs as [-> _]; exact Hf).
  destruct (IH iois w1 I' w2 Hf1 (covers_shrinks _ _ _ _ Hc Hs) E2) as [Hl2 Hsh]. split; [congruence|].
  constructor; [|exact Hsh]. specialize (Hi _ Hj). unfold shorter in *. lia.
Qed.

Lemma batch_sizes_shorter cs tags : forall I J a b, Forall2 shorter I J -> batch_sizes cs tags J = Ok (a, b) ->
  exists a', batch_sizes cs tags I = Ok (a', b) /\ a' <= a.
Proof.
  induction tags as [|tag tags IH]; intros I J a b HF E.
  { injection E as <- <-. exists 0. split; [done|lia]. }
  destruct HF as [|i j I J Hij HF]; [injection E as <- <-; exists 0; split; [done|lia]|].
  cbn [batch_sizes] in *. destruct (estimateTagResponseSize tag) as [r|?|?]; [|done..]. cbn [mbind res_bind] in *.
  destruct (batch_sizes cs tags J) as [[x y]|?|?] eqn:E'; [|done..]. injection E as <- <-.
  destruct (IH I J x y HF E') as (x' & -> & Hx). eexists. split; [reflexivity|].
  unfold request_size, shorter, blen in *. lia.
Qed.

(** *** Which tags are selected *)

(** A tag alone is too large for a message: its request or its response. *)
Definition too_large (cs : Z) (tag : tagDesc) (i : tagIOI) : Prop :=
  exists resp, estimateTagResponseSize tag = Ok resp /\
    (cs <= estimateMultiReadRequestOverhead 1 + request_size cs tag i \/ cs <= estimateMultiReadReplyOverhead 1 + resp).

(** A client that has to build IOIs knows the firmware. *)
Definition can_build (iois : option (list tagIOI)) (w : client_world) : Prop :=
  iois = None -> firmware (ioi (cw_client w)) <> 0.

Lemma tag_ioi_Ok_inv iois pos tag w i w1 : can_build iois w -> tag_ioi U iois pos tag w = (Ok i, w1) ->
  link w1 = link w /\ shrinks (ioi (cw_client w)) (ioi (cw_client w1)) /\
  match iois with
  | Some l => w1 = w /\ l !! pos = Some i
  | None => fst (client_newIOI U (td_TagName tag) (td_TagType tag) w) = Ok i /\
            ioi_cache (ioi (cw_client w1)) !! to_lower (td_TagName tag) = Some i
  end.
Proof.
  intros Hb E. unfold tag_ioi in E. destruct iois as [l|].
  - destruct (l !! pos) as [j|]; [|done]. by injection E as -> <-.
  - rewrite E. apply client_newIOI_Ok_inv in E as [Hl E]; [|by apply Hb]. apply newIOI_shrinks in E as (Hs & Hc & _).
    by split_and!.
Qed.

Lemma can_build_shrinks iois w w1 : can_build iois w -> shrinks (ioi (cw_client w)) (ioi (cw_client w1)) -> can_build iois w1.
Proof. intros Hb [Hf _] E. rewrite Hf. by apply Hb. Qed.

(** The sizes with a selected batch, the IOIs given or built. *)
Lemma select_tags_sizes all iois tags : forall pos sel pb rs w l w',
  tags = drop pos all -> 0 <= sel -> can_build iois w ->
  select_tags U tags iois pos sel pb rs w = (Ok l, w') ->
  link w' = link w /\ shrinks (ioi (cw_client w)) (ioi (cw_client w')) /\
  exists T I a b, picks all l T /\
    match iois with Some l0 => w' = w /\ picks l0 l I | None => covers T I (ioi (cw_client w')) end /\
    batch_sizes (ConnectionSize (link w)) T I = Ok (a, b) /\
    (l <> [] -> within (ConnectionSize (link w)) (sel + Z.of_nat (length l)) pb rs a b).
Proof.
  induction tags as [|tag tags IH]; intros pos sel pb rs w l w' Ht Hsel Hb E.
  { injection E as <- <-. split; [done|]. split; [done|]. exists [], [], 0, 0.
    split; [constructor|]. split; [destruct iois; [by split; [|constructor]|constructor]|]. by split. }
  assert (all !! pos = Some tag /\ tags = drop (S pos) all) as [Htag Htags].
  { split; [rewrite <- (Nat.add_0_r pos), <- lookup_drop, <- Ht; done|].
    replace (S pos) with (pos + 1)%nat by lia. by rewrite <- drop_drop, <- Ht. }
  cbn [select_tags] in E. apply bind_Ok_inv in E as (i & w1 & Ei & E).
  destruct (tag_ioi_Ok_inv _ _ _ _ _ _ Hb Ei) as (Hl & Hs & Hi). pose proof (can_build_shrinks _ _ _ Hb Hs) as Hb1.
  apply bind_Ok_inv in E as (w2 & w3 & E2 & E). injection E2 as <- <-. rewrite <- Hl.
  apply bind_Ok_inv in E as ([[req resp] full] & w4 & Ec & E). injection Ec as Ec <-.
  unfold candidate_sizes in Ec. destruct (estimateTagResponseSize tag) as [rr|?|?] eqn:Hr; [|done..].
  injection Ec as <- <- Hfull. destruct full.
  { destruct (IH (S pos) sel pb rs w1 l w' Htags Hsel Hb1 E) as (Hl' & Hs' & T & I & a & b & HT & HI & Hrest).
    split; [done|]. split; [by trans (ioi (cw_client w1))|]. exists T, I, a, b. split; [done|]. split; [|done].
    destruct iois; [|done]. destruct HI as [-> HI], Hi as [-> _]. by split. }
  apply bind_Ok_inv in E as (l' & w5 & El & E). injection E as <- <-.
  destruct (IH (S pos) (sel + 1) _ _ _ _ _ Htags ltac:(lia) Hb1 El) as (Hl' & Hs' & T & I & a & b & HT & HI & Hsz & Hw).
  split; [done|]. split; [by trans (ioi (cw_client w1))|].
  exists (tag :: T), (i :: I), (request_size (ConnectionSize (link w1)) tag i + a), (rr + b).
  split; [by constructor|]. split; [|split].
  { destruct iois.
    - destruct HI as [-> HI], Hi as [-> Hi]. split; [done|by constructor].
    - constructor; [|exact HI]. destruct Hi as [_ Hi]. by apply Hs'. }
  { cbn [batch_sizes]. by rewrite Hr, Hsz. }
  intros _. apply orb_false_iff in Hfull as [H1 H2]. apply Z.leb_gt in H1, H2. unfold within, request_size in *.
  destruct l' as [|s l'].
  - inversion HT; subst. injection Hsz as <- <-. simpl length.
    replace (sel + Z.of_nat 1) with (sel + 1) by lia. lia.
  - destruct (Hw ltac:(done)) as [W1 W2]. simpl length in *.
    replace (sel + Z.of_nat (S (S (length l')))) with (sel + 1 + Z.of_nat (S (length l'))) by lia. lia.
Qed.

(** Nothing is selected only when every tag, the first too, is too large. *)
Lemma select_tags_none tag tags iois w w' : can_build iois w ->
  select_tags U (tag :: tags) iois 0 0 0 0 w = (Ok [], w') ->
  exists i, too_large (ConnectionSize (link w)) tag i /\
    match iois with
    | Some l => l !! 0%nat = Some i
    | None => fst (client_newIOI U (td_TagName tag) (td_TagType tag) w) = Ok i
    end.
Proof.
  intros Hb E. cbn [select_tags] in E. apply bind_Ok_inv in E as (i & w1 & Ei & E).
  destruct (tag_ioi_Ok_inv _ _ _ _ _ _ Hb Ei) as (Hl & _ & Hi). exists i. split; [|by destruct iois; destruct Hi].
  apply bind_Ok_inv in E as (w2 & w3 & E2 & E). injection E2 as <- <-. rewrite Hl in E.
  apply bind_Ok_inv in E as ([[req resp] full] & w4 & Ec & E). injection Ec as Ec <-.
  unfold candidate_sizes in Ec. destruct (estimateTagResponseSize tag) as [rr|?|?] eqn:Hr; [|done..].
  injection Ec as <- <- Hfull. destruct full.
  - exists rr. split; [done|]. apply orb_true_iff in Hfull. rewrite !Z.leb_le in Hfull. unfold request_size. change (0 + 1) with 1 in Hfull.
    destruct Hfull; [left|right]; lia.
  - by apply bind_Ok_inv in E as (l' & w5 & El & E).
Qed.

(** The selected part of the pending indexes. *)
Lemma split_selected_picks pos pending selected :
  increasing pos (pos + length pending) selected ->
  Forall2 (fun s idx => pending !! (s - pos)%nat = Some idx) selected (fst (split_selected pos pending selected)).
Proof.
  revert pos selected. induction pending as [|idx pending IH]; intros pos selected Hs.
  { destruct selected as [|s selected]; [constructor|]. simpl in Hs. lia. }
  assert (forall selected, increasing (S pos) (S pos + length pending) selected ->
    Forall2 (fun s i => (idx :: pending) !! (s - pos)%nat = Some i) selected
      (fst (split_selected (S pos) pending selected))) as Hstep.
  { intros sel Hsel. pose proof (IH (S pos) sel Hsel) as HF. apply increasing_ge in Hsel. revert Hsel.
    induction HF as [|s i sel r Hs' _ IHF]; intros Hsel; [constructor|]. apply Forall_cons_iff in Hsel as [Hge Hsel].
    constructor; [|by apply IHF]. by replace (s - pos)%nat with (S (s - S pos)) by lia. }
  simpl in Hs. simpl. destruct selected as [|s selected].
  - specialize (Hstep [] I). destruct (split_selected _ _ _) as [a b]. done.
  - destruct Hs as [Hs Hl]. destruct (Nat.eqb_spec s pos) as [->|Hne].
    + specialize (Hstep selected). destruct (split_selected _ _ _) as [a b]. simpl in *. constructor.
      * by rewrite Nat.sub_diag.
      * apply Hstep. by replace (S (pos + length pending)) with (pos + S (length pending))%nat by lia.
    + specialize (Hstep (s :: selected)). destruct (split_selected _ _ _) as [a b]. apply Hstep. simpl. split; [lia|].
      by replace (S (pos + length pending)) with (pos + S (length pending))%nat by lia.
Qed.

(** Picking from what was picked. *)
Lemma picks_through {A} (l batch : list A) pending a sel T :
  picks l pending batch -> Forall2 (fun s idx => pending !! s = Some idx) sel a -> picks batch sel T -> picks l a T.
Proof.
  intros Hb Ha. revert T. induction Ha as [|s idx sel a Hs _ IH]; intros T HT; inversion HT as [|? x ? T' Hx HT']; subst.
  { constructor. }
  constructor; [|by apply IH]. eapply Forall2_lookup_l in Hb as (y & Hy & Hl); [|exact Hs]. congruence.
Qed.

Lemma picks_fun {A} (l : list A) sel r r' : picks l sel r -> picks l sel r' -> r = r'.
Proof.
  intros Hr. revert r'. induction Hr as [|s x sel r Hs _ IH]; intros r' Hr'; inversion Hr'; subst; [done|].
  f_equal; [congruence|by apply IH].
Qed.

(** The size of the request that is sent for a batch is the estimate's. *)
Lemma length_request_offsets start reqs : length (request_offsets start reqs) = length reqs.
Proof. revert start. induction reqs as [|r reqs IH]; intros start; [done|]. simpl. by rewrite IH. Qed.

Lemma blen_concat_le2 l : blen (concat (le_bytes 2 <$> l)) = 2 * Z.of_nat (length l).
Proof.
  unfold blen. induction l as [|z l IH]; [done|]. cbn [fmap list_fmap concat].
  rewrite length_app, length_le_bytes. simpl length in *. lia.
Qed.

Lemma blen_tag_request svc tag i o :
  blen (tag_request svc tag i o) = 2 + blen (ioi_Buffer i) + footer_size svc.
Proof.
  unfold tag_request, footer_size, blen. rewrite !length_app.
  destruct (svc =? CIPService_FragRead); rewrite ?length_app, !length_le_bytes; cbn [length]; lia.
Qed.

Lemma blen_frag_requests connSize tags iois offsets a b :
  length iois = length tags -> length offsets = length tags ->
  batch_sizes connSize tags iois = Ok (a, b) ->
  length (frag_requests connSize tags iois offsets) = length tags /\
  blen (concat (frag_requests connSize tags iois offsets)) = a.
Proof.
  revert iois offsets a b. induction tags as [|tag tags IH]; intros [|i iois] [|o offsets] a b Hi Ho Hs; try done.
  { by injection Hs as <- <-. }
  simpl in Hs. destruct (estimateTagResponseSize tag) as [r|?|?]; [|done..].
  destruct (batch_sizes connSize tags iois) as [[a' b']|?|?] eqn:E; [|done..]. injection Hs as <- <-.
  injection Hi as Hi. injection Ho as Ho. destruct (IH _ _ _ _ Hi Ho E) as [Hl Hb].
  change (frag_requests connSize (tag :: tags) (i :: iois) (o :: offsets)) with
    (tag_request (readServiceForTag tag connSize) tag i o :: frag_requests connSize tags iois offsets).
  split; [simpl; by rewrite Hl|]. unfold request_size. rewrite <- blen_tag_request with (tag := tag) (o := o), <- Hb.
  unfold blen. cbn [concat]. rewrite length_app. lia.
Qed.

Lemma multi_request_size connID seq reqs :
  blen (serializeItems [newItem cipItem_ConnectionAddress (Some (SBytes (le_bytes 4 connID))); multi_item seq reqs]) =
    estimateMultiReadRequestOverhead (Z.of_nat (length reqs)) + blen (concat reqs).
Proof.
  unfold serializeItems, multi_item, newItem, Write, item_Bytes, estimateMultiReadRequestOverhead, multi_service_req.
  cbn [map concat Serialize1 serialize_arg snd Write item_ID item_Length item_Data empty_item app].
  rewrite app_nil_r. unfold blen at 1. rewrite !length_app, !length_le_bytes. simpl length.
  pose proof (blen_concat_le2 (request_offsets (2 + Z.of_nat (length reqs) * 2) reqs)) as E.
  unfold blen in *. rewrite length_request_offsets in E. rewrite Z.max_r by lia. lia.
Qed.

(** The IOIs the request for a batch is made of: the chosen ones, or those the
    client builds for the chosen tags. *)
Definition batch_iois (chosen : list tagDesc) (chosenIOIs : option (list tagIOI)) : M client_world (list tagIOI) :=
  match chosenIOIs with Some l => mret l | None => sequence_iois U chosen end.

(** The request for a batch, as it is sent. *)
Definition batch_request (w : client_world) (chosen : list tagDesc) (I : list tagIOI) (seq : Z) (offsets : list Z) : bytes :=
  serializeItems
    [newItem cipItem_ConnectionAddress (Some (SBytes (le_bytes 4 (OTNetworkConnectionID (link w)))));
     multi_item seq (frag_requests (ConnectionSize (link w)) chosen I offsets)].

Lemma batch_request_size w chosen I seq offsets a b :
  length I = length chosen -> length offsets = length chosen -> batch_sizes (ConnectionSize (link w)) chosen I = Ok (a, b) ->
  blen (batch_request w chosen I seq offsets) = estimateMultiReadRequestOverhead (Z.of_nat (length chosen)) + a.
Proof.
  intros HI Ho Hs. destruct (blen_frag_requests _ _ _ _ _ _ HI Ho Hs) as [L B]. unfold batch_request.
  by rewrite multi_request_size, L, B.
Qed.

(** C27.  The batch chosen for one message keeps to the connection size, for
    tags with the IOIs given and for tags whose IOIs the client builds (once
    it knows the firmware of the controller): the request that is sent for
    it, whatever the offsets it continues at, and the estimate of the
    response are smaller than ConnectionSize, except for a batch of one tag
    that is too large for a message of its own. *)
Theorem selectPackedTagBatch_fits pending tags iois w selected chosen chosenIOIs next w1 I w2 :
  pending <> [] -> can_build iois w ->
  selectPackedTagBatch U pending tags iois w = (Ok (selected, chosen, chosenIOIs, next), w1) ->
  batch_iois chosen chosenIOIs w1 = (Ok I, w2) ->
  link w2 = link w /\
  ((exists a b, batch_sizes (ConnectionSize (link w)) chosen I = Ok (a, b) /\
      estimateMultiReadReplyOverhead (Z.of_nat (length chosen)) + b < ConnectionSize (link w) /\
      forall seq offsets, length offsets = length chosen ->
        blen (batch_request w2 chosen I seq offsets) < ConnectionSize (link w)) \/
   exists tag i, chosen = [tag] /\ too_large (ConnectionSize (link w)) tag i /\
     match iois with
     | Some _ => I = [i]
     | None => fst (client_newIOI U (td_TagName tag) (td_TagType tag) w) = Ok i
     end).
Proof.
  intros Hp Hb E EI. destruct pending as [|idx pending]; [done|]. unfold selectPackedTagBatch in E.
  apply bind_Ok_inv in E as (batch & w3 & Eb & E). injection Eb as Eb <-.
  apply bind_Ok_inv in E as (bi & w4 & Ebi & E).
  assert (w4 = w /\ match iois with Some l => exists b, bi = Some b /\ picks l (idx :: pending) b | None => bi = None end)
    as [-> Hbi].
  { destruct iois as [l|]; [|by injection Ebi as <- <-]. apply bind_Ok_inv in Ebi as (b & w5 & Eb' & Ebi).
    injection Eb' as Eb' <-. injection Ebi as <- <-. split; [done|]. exists b. split; [done|by apply index_all_lookup]. }
  apply bind_Ok_inv in E as (local & w5 & El & E).
  destruct (split_selected 0 (idx :: pending) local) as [a b] eqn:Es.
  apply bind_Ok_inv in E as (ct & w6 & Ec & E). injection Ec as Ec <-.
  apply bind_Ok_inv in E as (ci & w7 & Eci & E). injection E as <- <- <- <- <-.
  assert (w7 = w5 /\ match iois with Some l => exists b, ci = Some b /\ picks l a b | None => ci = None end) as [-> Hci].
  { destruct iois as [l|]; [|by injection Eci as <- <-]. apply bind_Ok_inv in Eci as (b' & w8 & Eb' & Eci).
    injection Eb' as Eb' <-. injection Eci as <- <-. split; [done|]. exists b'. split; [done|by apply index_all_lookup]. }
  clear Ebi Eci. apply index_all_lookup in Eb, Ec.
  pose proof El as El'. apply selectPackedTagIndexes_ok in El' as [Hne Hinc]; [|by destruct batch; [inversion Eb|]].
  rewrite <- (Forall2_length Eb) in Hinc.
  pose proof (split_selected_picks 0 (idx :: pending) local Hinc) as Hpk. rewrite Es in Hpk. simpl fst in Hpk.
  assert (Forall2 (fun s i => (idx :: pending) !! s = Some i) local a) as Hpk'.
  { refine (Forall2_impl _ _ Hpk). intros s i Hs. by rewrite Nat.sub_0_r in Hs. }
  clear Hpk Hinc. unfold selectPackedTagIndexes in El. destruct batch as [|tag batch]; [by inversion Eb|].
  destruct (match bi with Some l => _ | None => false end); [done|]. apply bind_Ok_inv in El as (sel & w6 & Esel & El).
  injection El as El <-.
  assert (can_build bi w) as Hb'.
  { destruct iois; [destruct Hbi as (? & -> & _); done|]. subst bi. exact Hb. }
  destruct sel as [|s sel].
  - subst local. inversion Hpk' as [|? i0 ? a' Hi0 Hr]; subst. inversion Hr; subst. clear Hr. injection Hi0 as <-.
    inversion Ec as [|? t ? ct' Ht Hr]; subst. inversion Hr; subst. clear Hr.
    assert (t = tag) as -> by (apply list.Forall2_cons in Eb as [Eb _]; congruence).
    destruct (select_tags_sizes (tag :: batch) bi (tag :: batch) 0 0 0 0 w [] w6 eq_refl ltac:(lia) Hb' Esel) as (Hl & Hs & _).
    destruct (select_tags_none _ _ _ _ _ Hb' Esel) as (i & Hlarge & Hi).
    unfold batch_iois in EI. destruct iois as [l|].
    + destruct Hbi as (b' & -> & Hbi), Hci as (c' & -> & Hci). injection EI as <- <-. split; [done|]. right. exists tag, i.
      split; [done|]. split; [done|]. inversion Hci as [|? j ? r Hj Hr]; subst. inversion Hr; subst.
      destruct b' as [|j' b']; [done|]. apply list.Forall2_cons in Hbi as [Hbi _]. injection Hi as ->. congruence.
    + subst bi ci. cbn [batch_iois] in EI. split; [|right; by exists tag, i].
      assert (firmware (ioi (cw_client w6)) <> 0) as Hf by (destruct Hs as [-> _]; by apply Hb).
      cbn [sequence_iois] in EI. apply bind_Ok_inv in EI as (i' & w8 & E1 & EI). injection EI as <- <-.
      apply client_newIOI_Ok_inv in E1 as [E1 _]; [congruence|done].
  - subst local.
    destruct (select_tags_sizes (tag :: batch) bi (tag :: batch) 0 0 0 0 w _ w6 eq_refl ltac:(lia) Hb' Esel)
      as (Hl & Hs & T & J & x & y & HT & HJ & Hsz & Hw). destruct (Hw ltac:(done)) as [W1 W2]. clear Hw.
    assert (T = ct) as -> by (eapply picks_fun; [exact (picks_through _ _ _ _ _ _ Eb Hpk' HT)|exact Ec]).
    assert (length ct = length (s :: sel)) as Hct by (symmetry; by eapply Forall2_length).
    assert (exists x', link w2 = link w /\ length I = length ct /\
      batch_sizes (ConnectionSize (link w)) ct I = Ok (x', y) /\ x' <= x) as (x' & Hl2 & HlI & Hsz' & Hx).
    { unfold batch_iois in EI. destruct iois as [l|].
      - destruct Hbi as (b' & -> & Hbi), Hci as (c' & -> & Hci). injection EI as <- <-. destruct HJ as [-> HJ].
        assert (J = c') as -> by (eapply picks_fun; [exact (picks_through _ _ _ _ _ _ Hbi Hpk' HJ)|exact Hci]).
        exists x. split_and!; [done| |done|lia]. rewrite Hct. symmetry. by eapply Forall2_length.
      - subst bi ci. assert (firmware (ioi (cw_client w6)) <> 0) as Hf by (destruct Hs as [-> _]; by apply Hb).
        destruct (sequence_iois_shorter _ _ _ _ _ Hf HJ EI) as [Hl2 Hsh].
        destruct (batch_sizes_shorter _ _ _ _ _ _ Hsh Hsz) as (x' & Hsz' & Hx). exists x'.
        split_and!; [congruence| |done|done]. rewrite (Forall2_length Hsh). symmetry. by eapply Forall2_length. }
    split; [done|]. left. exists x', y. split; [done|]. rewrite <- Hct, Z.add_0_l in W1, W2. split; [lia|].
    intros q offsets Ho. rewrite (batch_request_size w2 ct I q offsets x' y); [lia|done|done|by rewrite Hl2].
Qed.

(** Choosing a batch splits the pending tags: the tags taken and those
    left for later are together exactly the pending ones, each once; at
    least one is taken; and the tags handed on are those of the indexes
    taken. *)
Theorem selectPackedTagBatch_partition pending tags iois w selected chosen chosenIOIs next w' :
  pending <> [] ->
  selectPackedTagBatch U pending tags iois w = (Ok (selected, chosen, chosenIOIs, next), w') ->
  selected ++ next ≡ₚ pending /\ selected <> [] /\ Forall2 (fun i t => tags !! i = Some t) selected chosen.
Proof. apply selectPackedTagBatch_spec. Qed.

(** The loops over batches end: as many rounds as tags are pending are
    enough for ReadMap and for ReadList, whatever the controller answers;
    more rounds change nothing. *)
Theorem batches_end k fuel tags pending results w :
  map_batches U (length pending + k) tags pending results w = map_batches U (length pending) tags pending results w /\
  read_list_batches U (length tags + k) fuel tags w = read_list_batches U (length tags) fuel tags w.
Proof. split; [by apply map_batches_fuel|by apply read_list_batches_fuel]. Qed.

(** ** A defect *)

(** The data of a partial transfer is not kept, and the offset not moved: the
    next round asks for the same bytes again. *)
Lemma partial_not_accumulated r t :
  fr_Status r = CIPStatus_PartialTransfer ->
  ft_offset (add_result r t) = ft_offset t /\ ft_chunks (add_result r t) = ft_chunks t /\
  ft_respType (add_result r t) = ft_respType t.
Proof. intros E. unfold add_result. by rewrite E. Qed.

End Batches.

(** ** Witnesses *)

Definition sample_tag (name : string) : tagDesc :=
  {| td_TagName := str name; td_TagType := CIPTypeDINT; td_Elements := 1; td_Struct := VInt I32 0 |}.
Definition sample_ioi (n : nat) : tagIOI :=
  {| ioi_Path := []; ioi_Type := CIPTypeDINT; ioi_Buffer := replicate n 0; ioi_BitAccess := false; ioi_BitPosition := 0 |}.
(** Connection size 100: two short paths fit, the long one waits. *)
Definition sample_narrow : client_world := upd_link (set_ConnectionSize 100) (up_world []).
Definition sample_iois : list tagIOI := [sample_ioi 6; sample_ioi 60; sample_ioi 8].
Definition sample_tags : list tagDesc := [sample_tag "a"; sample_tag "b"; sample_tag "c"].

Lemma sample_batch :
  selectPackedTagBatch (H:=no_methods) (fun _ => 0) [0; 1; 2]%nat sample_tags (Some sample_iois) sample_narrow =
    (Ok ([0; 2]%nat, [sample_tag "a"; sample_tag "c"], Some [sample_ioi 6; sample_ioi 8], [1]%nat), sample_narrow).
Proof. vm_compute. reflexivity. Qed.

Lemma selectPackedTagBatch_partition_witness :
  [0; 2]%nat ++ [1]%nat ≡ₚ [0; 1; 2]%nat /\ [0; 2]%nat <> [] /\
  Forall2 (fun i t => sample_tags !! i = Some t) [0; 2]%nat [sample_tag "a"; sample_tag "c"].
Proof. eapply selectPackedTagBatch_partition; [discriminate|exact sample_batch]. Defined.

(** The client builds the IOIs: of three tags the one with the long name does
    not fit; read alone on a smaller connection, it is too large. *)
Definition knowing (size : Z) : client_world := upd_ioi (fun _ => {| ioi_cache := ∅; KnownTags := None; firmware := 20;
  catalog := no_types |}) (upd_link (set_ConnectionSize size) (up_world [])).
Definition long_name : string := "a_name_of_more_than_forty_bytes_for_one_tag".
Definition named_tags : list tagDesc := [sample_tag "a"; sample_tag long_name; sample_tag "c"].
Definition symbolic_ioi (name : string) : tagIOI := match newSymbolicIOI (str name) CIPTypeDINT with Ok i => i | _ => sample_ioi 0 end.

Lemma fst_eq {A B} (x : A * B) a : fst x = a -> x = (a, snd x).
Proof. by destruct x; simpl; intros ->. Qed.

Definition chosen_from (size : Z) (pending : list nat) : client_world :=
  snd (selectPackedTagBatch (H:=no_methods) (fun _ => 0) pending named_tags None (knowing size)).
Definition built_for (size : Z) (pending : list nat) (tags : list tagDesc) : client_world :=
  snd (sequence_iois (fun _ => 0) tags (chosen_from size pending)).

Lemma selectPackedTagBatch_fits_witness :
  blen (batch_request (built_for 80 [0; 1; 2]%nat [sample_tag "a"; sample_tag "c"]) [sample_tag "a"; sample_tag "c"]
    [symbolic_ioi "a"; symbolic_ioi "c"] 1 [0; 0]) < 80 /\
  exists tag i, [sample_tag long_name] = [tag] /\ too_large (H:=no_methods) 60 tag i.
Proof.
  split.
  - destruct (selectPackedTagBatch_fits (H:=no_methods) (fun _ => 0) [0; 1; 2]%nat named_tags None (knowing 80)
      [0; 2]%nat [sample_tag "a"; sample_tag "c"] None [1]%nat (chosen_from 80 [0; 1; 2]%nat) [symbolic_ioi "a"; symbolic_ioi "c"]
      (built_for 80 [0; 1; 2]%nat [sample_tag "a"; sample_tag "c"]))
      as [_ [(a & b & _ & _ & Hsz)|(tag & i & Hc & _)]];
      [discriminate|intros _; vm_compute; discriminate|apply fst_eq; vm_compute; reflexivity|apply fst_eq; vm_compute; reflexivity| |].
    + apply (Hsz 1 [0; 0]). reflexivity.
    + discriminate Hc.
  - destruct (selectPackedTagBatch_fits (H:=no_methods) (fun _ => 0) [1]%nat named_tags None (knowing 60)
      [1]%nat [sample_tag long_name] None [] (chosen_from 60 [1]%nat) [symbolic_ioi long_name]
      (built_for 60 [1]%nat [sample_tag long_name]))
      as [_ [(a & b & _ & _ & Hsz)|(tag & i & Hc & Ht & _)]];
      [discriminate|intros _; vm_compute; discriminate|apply fst_eq; vm_compute; reflexivity|apply fst_eq; vm_compute; reflexivity| |].
    + specialize (Hsz 1 [0] eq_refl). vm_compute in Hsz. discriminate Hsz.
    + exists tag, i. split; [exact Hc|exact Ht].
Defined.
