(* ===== verification/InstanceRead.v ===== *)
(** * Reads by symbol instance (read_instance.go)

    The tags of a map are named by the instance ids of their symbols: the
    paths are built without a name, and the batches, the requests and the
    rounds are those of the reads by name.  Unlike there, the error of a tag's
    value ends the whole read. *)
From S2P Require Import Prelude Reader GoStrings GoValue CipNames CipDefs Types Items Ioi TagPath Pack Messages Client ClientTags MultiRead.

(** Class Symbol, then the instance. *)
Definition instanceIOIPath (instance : Z) : bytes := Class_.Bytes CipObject_Symbol ++ Instance_.Bytes instance.

Definition instanceReadService (tag : tagDesc) (connectionSize : Z) : Z := readServiceForTag tag connectionSize.

Definition instanceReadFooterSize (tag : tagDesc) (connectionSize : Z) : Z :=
  if instanceReadService tag connectionSize =? CIPService_FragRead then 6 else 2.

(** What writeInstanceReadFooter appends. *)
Definition instanceReadFooter (tag : tagDesc) (offset connectionSize : Z) : bytes :=
  if instanceReadService tag connectionSize =? CIPService_FragRead then le_bytes 2 (td_Elements tag) ++ le_bytes 4 offset
  else le_bytes 2 (td_Elements tag).

(** fmt.Sprintf("@%d", inst) *)
Definition instance_name (inst : Z) : bytes := 64 :: dec inst.

(** The description and the IOI of an entry of the map. *)
Definition instance_tag (e : Z * goval) : tagDesc := tag_of (instance_name e.1) e.2.
Definition instance_ioi (e : Z * goval) : tagIOI :=
  {| ioi_Path := instance_name e.1; ioi_Type := fst (GoVarToCIPType e.2); ioi_BitAccess := false; ioi_BitPosition := 0;
     ioi_Buffer := instanceIOIPath e.1 |}.

Section InstanceRead.
Context `{Methods} (UnixMilli : nat -> Z).
Abbreviation C := (M client_world).

(** How many leading tags fit, at least one.  A nil entry of the list of
    IOIs is not modelled; a missing one is out of range. *)
Fixpoint count_instances (connSize : Z) (tags : list tagDesc) (iois : list tagIOI) (n : nat) (buffered responseSize : Z) : res nat :=
  match tags with
  | [] => Ok n
  | tag :: tags =>
      match iois with
      | [] => Panic "index out of range"
      | i :: iois =>
          let req := 2 + blen (ioi_Buffer i) + instanceReadFooterSize tag connSize in
          resp ← estimateTagResponseSize tag;
          if (connSize <=? estimateMultiReadRequestOverhead (Z.of_nat n + 1) + buffered + req) ||
             (connSize <=? estimateMultiReadReplyOverhead (Z.of_nat n + 1) + responseSize + resp)
          then Ok n
          else count_instances connSize tags iois (S n) (buffered + req) (responseSize + resp)
      end
  end.
Definition countInstanceIOIsThatFit (connSize : Z) (tags : list tagDesc) (iois : list tagIOI) : res nat :=
  n ← count_instances connSize tags iois 0 0 0; Ok (Nat.max 1 n).

(** One request: the header, the path, the footer. *)
Definition instance_request (connSize : Z) (tag : tagDesc) (i : tagIOI) : bytes :=
  [instanceReadService tag connSize; u8 (blen (ioi_Buffer i) / 2)] ++ ioi_Buffer i ++ instanceReadFooter tag 0 connSize.

(** Entry i of the reply; an entry too many has no tags[i]. *)
Definition instance_entry (tag : option (tagDesc * tagIOI)) : M bytes read_result :=
  '(svc, status) ← wrapM "problem reading multi result header" read_result_hdr;
  if negb (Service.IsResponse svc) then fail (Errorf "item was not a response service")
  else
    let svc := Service.UnResponse svc in
    if negb (svc =? CIPService_Read) && negb (svc =? CIPService_FragRead) then fail (Errorf "item had unexpected service")
    else
      let status := Z.land status 0xFF in
      if negb (status =? CIPStatus_OK) then
        match tag with
        | Some _ => mret (RErr (Errorf "problem reading tag"))
        | None => panic "index out of range"
        end
      else
        '(ty, _) ← wrapM "problem reading multi result type header" read_type_hdr;
        match tag with
        | Some (tag, i) => wrapM "problem decoding value for instance" (decodeReadTagValue tag i ty status)
        | None => panic "index out of range"
        end.

(** rb[offset:], where the sum is an int *)
Fixpoint instance_entries (offsets : list Z) (rb : bytes) (tags : list (tagDesc * tagIOI)) : res (list read_result) :=
  match offsets with
  | [] => Ok []
  | o :: offsets =>
      let offset := o + 10 in
      if blen rb <? offset then Panic out_of_range
      else
        v ← fst (instance_entry (head tags) (drop (Z.to_nat offset) rb));
        l ← instance_entries offsets rb (tail tags);
        Ok (v :: l)
  end.

Definition readListWithIOIs (tags : list tagDesc) (iois : list tagIOI) : C (list read_result) :=
  seq ← sequencer;
  w ← get;
  if (length iois <? length tags)%nat then panic "index out of range"
  else
    let reqs := zip_with (instance_request (ConnectionSize (link w))) tags iois in
    '(hdr, data) ← unit_request (multi_item (u16 seq) reqs);
    '(offsets, rb) ← lift (parse_multi_reply hdr data);
    lift (instance_entries offsets rb (zip tags iois)).

(** The values of all tags, the first error in place of them all. *)
Fixpoint instance_values (tags : list tagDesc) (iois : list tagIOI) (st : list frag_tag) : res (list read_result) :=
  match tags, iois, st with
  | tag :: tags, i :: iois, t :: st =>
      v ← res_wrap "problem decoding fragmented instance read value"
            (fst (decodeReadTagValue tag i (ft_respType t) (ft_status t) (ft_chunks t)));
      l ← instance_values tags iois st;
      Ok (v :: l)
  | _, _, _ => Ok []
  end.

Definition readListFragWithIOIsAll (tags : list tagDesc) (iois : list tagIOI) : C (list read_result) :=
  if negb (length tags =? length iois)%nat then
    fail (Errorf "mismatched tag and IOI counts for instance-based fragmented read")
  else
    st ← frag_rounds max_rounds tags iois (seq 0 (length tags)) (replicate (length tags) frag_start);
    lift (instance_values tags iois st).

(** The loop over the batches. *)
Fixpoint instance_batches (rounds : nat) (tags : list tagDesc) (iois : list tagIOI) (pending : list nat)
    (results : list read_result) : C (list read_result) :=
  match pending with
  | [] => mret results
  | _ =>
      match rounds with
      | O => panic "out of fuel"
      | S rounds =>
          '(selected, chosenTags, chosenIOIs, next) ← selectPackedTagBatch UnixMilli pending tags (Some iois);
          vals ← readListFragWithIOIsAll chosenTags (default [] chosenIOIs);
          results ← lift (store_results selected vals results);
          instance_batches rounds tags iois next results
      end
  end.

(** The map, in the order of the range over it; the new values of its entries. *)
Definition ReadMapByInstance (m : list (Z * goval)) : C (list (Z * read_result)) :=
  _ ← wrapM "could not start instance-based multi read" (checkConnection UnixMilli);
  let tags := instance_tag <$> m in
  let iois := instance_ioi <$> m in
  resultValues ← instance_batches (length m) tags iois (seq 0 (length m)) (replicate (length m) (RVal VNil));
  mret (zip m.*1 resultValues).
End InstanceRead.
