(* ===== verification/ClientCalls.v ===== *)
(** * The client between its calls

    Every call of the client's interface (connecting, attributes, reads and
    writes of all kinds, the catalog, the data tables, subscriptions) leaves a
    client disconnected or connected with an open socket, whatever the network
    does and however the call ends.  Of the calls made here, those that connect,
    disconnect and exchange are also shown not to panic. *)
From S2P Require Import Prelude Reader GoStrings GoValue CipNames CipDefs Types Items Ioi Path Pack Messages Templates Client ClientTags ClientConn MultiRead WriteTags InstanceRead Discovery Identity ControllerInfo ImplicitSub TagGroup DataTable TagSub.

(** ** What keeps a client settled *)

Definition settles {A} (m : M client_world A) : Prop := forall w, settled w -> settled (snd (m w)).

Lemma settled_shape w w' : shape w' = shape w -> settled w -> settled w'.
Proof. unfold shape, settled, running. intros [= -> -> -> _ ->]. done. Qed.

Lemma settles_quiet {A} (m : M client_world A) : quiet m -> settles m.
Proof. intros Hm w. apply settled_shape, Hm. Qed.

Lemma settles_ret {A} (a : A) : settles (mret a).
Proof. by intros w. Qed.
Lemma settles_fail {A} e : settles (A:=A) (fail e).
Proof. by intros w. Qed.
Lemma settles_panic {A} why : settles (A:=A) (panic why).
Proof. by intros w. Qed.
Lemma settles_get : settles get.
Proof. by intros w. Qed.
Lemma settles_gets {A} (f : client_world -> A) : settles (gets f).
Proof. by intros w. Qed.
Lemma settles_lift {A} (r : res A) : settles (lift r).
Proof. by intros w. Qed.
Lemma settles_on {T A} (t : T) (m : M T A) : settles (on t m).
Proof. apply settles_quiet, quiet_on. Qed.
Lemma settles_sequencer : settles sequencer.
Proof. by intros w. Qed.
Lemma settles_sequenceNumber n : settles (sequenceNumber_Add n).
Proof. by intros w. Qed.
Lemma settles_serial : settles nextConnectionSerialNumber.
Proof. apply settles_quiet. intros w. unfold nextConnectionSerialNumber. by destruct (next_serial 2 _) as [[]| |]. Qed.
Lemma settles_path : settles connection_path.
Proof. apply settles_quiet. intros w. unfold connection_path. by destruct (Controller_Path (config w)). Qed.
Lemma settles_now UnixMilli : settles (now_millis UnixMilli).
Proof. by intros w. Qed.
Lemma settles_modify_ioi f : settles (modify (upd_ioi f)).
Proof. by intros w. Qed.
Lemma settles_zoom_ioi {A} (m : M ioi_client A) : settles (zoom (fun w => ioi (cw_client w)) (fun i => upd_ioi (fun _ => i)) m).
Proof. intros w Hw. unfold zoom. by destruct (m (ioi (cw_client w))). Qed.

Lemma settles_mbind {A B} (m : M client_world A) (f : A -> M client_world B) :
  settles m -> (forall a, settles (f a)) -> settles (m ≫= f).
Proof.
  intros Hm Hf w Hw. rewrite bind_eq. specialize (Hm w Hw). destruct (m w) as [[a|e|s] w1]; [by apply Hf|done..].
Qed.
Lemma settles_wrapM {A} msg (m : M client_world A) : settles m -> settles (wrapM msg m).
Proof. intros Hm w Hw. unfold wrapM. specialize (Hm w Hw). by destruct (m w). Qed.
Lemma settles_textM {A} msg (m : M client_world A) : settles m -> settles (textM msg m).
Proof. intros Hm w Hw. unfold textM. specialize (Hm w Hw). by destruct (m w) as [[]]. Qed.
Lemma settles_try {A} (m : M client_world A) : settles m -> settles (try m).
Proof. intros Hm w Hw. unfold try. specialize (Hm w Hw). by destruct (m w) as [[]]. Qed.

Lemma settles_Connect UnixMilli : settles (Connect UnixMilli).
Proof. intros w Hw. pose proof (Connect_connects UnixMilli w Hw) as H. destruct (Connect UnixMilli w) as [[]]; [by apply H..|done]. Qed.
Lemma settles_check UnixMilli : settles (checkConnection UnixMilli).
Proof.
  intros w Hw. pose proof (checkConnection_connects UnixMilli w Hw) as H.
  destruct (checkConnection UnixMilli w) as [[]]; [by apply H..|done].
Qed.
Lemma settles_Disconnect : settles Disconnect.
Proof.
  intros w Hw. pose proof (Disconnect_disconnects w Hw) as H. unfold disconnects in H.
  destruct (Disconnect w) as [[[]|e|s] w'], (status w); try done; [by apply H|by subst].
Qed.

(** An exchange on a client that is down: on a socket that was never opened
    it panics, on a closed one it fails; nothing is disconnected. *)
Lemma settles_send_recv cmd msgs : settles (send_recv_data cmd msgs).
Proof.
  intros w Hw. destruct (decide (status w = connectionStatusConnected)) as [E|E].
  - pose proof (request_requests (fun _ => 0) cmd msgs w Hw) as H. unfold request in H.
    assert (checkConnection (fun _ => 0) w = (Ok tt, w)) as Ec.
    { unfold checkConnection, Connected. rewrite bind_eq. cbn [gets]. unfold status in E. by rewrite bool_decide_true by done. }
    rewrite (bind_Ok _ _ _ _ _ Ec) in H. destruct (send_recv_data cmd msgs w) as [[]]; [by apply H..|done].
  - assert (status w = connectionStatusDisconnected) as Ed by (destruct Hw as [_ Hs]; by destruct (status w)).
    pose proof (send_recv_cases 1 cmd msgs w) as H. pose proof (quiet_exchange cmd msgs w) as Hq. unfold send_recv_data.
    destruct (exchange_once cmd msgs w) as [[d|e|s] w1]; cbn [snd] in Hq; [| |by rewrite H; eapply settled_shape].
    + rewrite H. by eapply settled_shape.
    + destruct H as [_ ->]. destruct (Disconnect_fails (send_recv_fuel 1) w1) as (e' & ->); [|by eapply settled_shape].
      left. unfold shape in Hq. congruence.
Qed.

Create HintDb settles.
#[export] Hint Resolve settles_ret settles_fail settles_panic settles_get settles_gets settles_lift settles_on settles_sequencer
  settles_sequenceNumber settles_serial settles_path settles_now settles_modify_ioi settles_zoom_ioi settles_Connect settles_check
  settles_Disconnect settles_send_recv : settles.

(** Steps through a computation; what it calls is known to the hints. *)
Ltac settle_step :=
  lazymatch goal with
  | |- settles (match ?x with _ => _ end) => destruct x
  | |- settles (_ ≫= _) => apply settles_mbind; [|intros ?]
  | |- settles (wrapM _ _) => apply settles_wrapM
  | |- settles (textM _ _) => apply settles_textM
  | |- settles (try _) => apply settles_try
  end.
Ltac settle := repeat first [solve [auto with settles] | settle_step].

(** ** Requests, attributes, reads and writes *)

Lemma settles_unit_request i : settles (unit_request i).
Proof. unfold unit_request. settle. Qed.
#[export] Hint Resolve settles_unit_request : settles.

Lemma settles_GetAttrSingle U c i a : settles (GetAttrSingle U c i a).
Proof. unfold GetAttrSingle. settle. Qed.
Lemma settles_GetAttrList c i l : settles (GetAttrList c i l).
Proof. unfold GetAttrList. settle. Qed.
Lemma settles_Generic s p d : settles (GenericCIPMessage s p d).
Proof. unfold GenericCIPMessage. settle. Qed.
#[export] Hint Resolve settles_GetAttrSingle settles_GetAttrList settles_Generic : settles.

Lemma settles_firmware U : settles (client_firmware U).
Proof. unfold client_firmware. settle. Qed.
#[export] Hint Resolve settles_firmware : settles.
Lemma settles_newIOI U tag ty : settles (client_newIOI U tag ty).
Proof. unfold client_newIOI. settle. Qed.
#[export] Hint Resolve settles_newIOI : settles.

Section Calls.
Context `{Methods} (U : nat -> Z).

Lemma settles_read_rounds rounds : forall datatype elements i service offset payload respType,
  settles (read_rounds rounds datatype elements i service offset payload respType).
Proof. induction rounds; intros; cbn [read_rounds]; settle. Qed.
#[local] Hint Resolve settles_read_rounds : settles.
Lemma settles_Read_single tag datatype elements : settles (Read_single U tag datatype elements).
Proof. unfold Read_single. settle. Qed.
#[local] Hint Resolve settles_Read_single : settles.
Lemma settles_read_typed t tag : settles (read_typed U t tag).
Proof. unfold read_typed. settle. Qed.
Lemma settles_readArray t tag elements : settles (readArray U t tag elements).
Proof. unfold readArray. settle. Qed.
#[local] Hint Resolve settles_read_typed settles_readArray : settles.
Lemma settles_read_bools tag n : settles (read_bools U tag n).
Proof. unfold read_bools. settle. Qed.
#[local] Hint Resolve settles_read_bools : settles.
Lemma settles_Read tag target : settles (Read_ U tag target).
Proof. unfold Read_. settle. Qed.
Lemma settles_read_unpacked tag elements data : settles (read_unpacked U tag elements data).
Proof. unfold read_unpacked. settle. Qed.
#[local] Hint Resolve settles_Read settles_read_unpacked : settles.
Lemma settles_Read_structs tag t l : settles (Read_structs U tag t l).
Proof. unfold Read_structs. settle. Qed.
Lemma settles_Read_into t tag : settles (Read_into U t tag).
Proof. unfold Read_into. settle. Qed.
Lemma settles_Read_bytes tag n : settles (Read_bytes U tag n).
Proof. unfold Read_bytes. settle. Qed.
#[local] Hint Resolve settles_Read_structs settles_Read_into settles_Read_bytes : settles.
Lemma settles_ReadPacked t tag : settles (ReadPacked U t tag).
Proof. unfold ReadPacked. settle. Qed.
Lemma settles_write_single tag v : settles (write_single U tag v).
Proof. unfold write_single. settle. Qed.
#[local] Hint Resolve settles_ReadPacked settles_write_single : settles.
Lemma settles_write_udt crc tag v : settles (write_udt crc U tag v).
Proof. unfold write_udt. settle. Qed.
#[local] Hint Resolve settles_write_udt : settles.
Lemma settles_Write crc tag v : settles (Write_tag crc U tag v).
Proof. unfold Write_tag. settle. Qed.
Lemma settles_write_iois l : settles (write_iois U l).
Proof. induction l as [|[tag v] l IH]; cbn [write_iois]; settle. Qed.
#[local] Hint Resolve settles_Write settles_write_iois : settles.
Lemma settles_WriteMap l : settles (WriteMap U l).
Proof. unfold WriteMap. settle. Qed.
#[local] Hint Resolve settles_WriteMap : settles.
Lemma settles_WriteMulti range v : settles (WriteMulti U range v).
Proof. unfold WriteMulti. settle. Qed.
#[local] Hint Resolve settles_WriteMulti : settles.

(** *** Many tags at once *)

Lemma settles_tag_ioi iois pos tag : settles (tag_ioi U iois pos tag).
Proof. unfold tag_ioi. settle. Qed.
#[local] Hint Resolve settles_tag_ioi : settles.
Lemma settles_select_tags l : forall iois pos a b c, settles (select_tags U l iois pos a b c).
Proof. induction l; intros; cbn [select_tags]; settle. Qed.
#[local] Hint Resolve settles_select_tags : settles.
Lemma settles_selectPackedTagBatch pending l iois : settles (selectPackedTagBatch U pending l iois).
Proof. unfold selectPackedTagBatch, selectPackedTagIndexes. settle. Qed.
Lemma settles_sequence_iois l : settles (sequence_iois U l).
Proof. induction l; cbn [sequence_iois]; settle. Qed.
Lemma settles_count_fit l : forall n a b, settles (count_fit U l n a b).
Proof. induction l; intros; cbn [count_fit]; settle. Qed.
#[local] Hint Resolve settles_selectPackedTagBatch settles_sequence_iois settles_count_fit : settles.
Lemma settles_list_exchange s l iois : settles (list_exchange s l iois).
Proof. unfold list_exchange. settle. Qed.
#[local] Hint Resolve settles_list_exchange : settles.
Lemma settles_readList fuel : forall l, settles (readList U fuel l).
Proof. induction fuel; intros; cbn [readList]; settle. Qed.
#[local] Hint Resolve settles_readList : settles.
Lemma settles_read_list_batches rounds fuel : forall l, settles (read_list_batches U rounds fuel l).
Proof. induction rounds; intros []; cbn [read_list_batches]; unfold countIOIsThatFit; settle. Qed.
#[local] Hint Resolve settles_read_list_batches : settles.
Lemma settles_ReadList fuel names types elements : settles (ReadList U fuel names types elements).
Proof. unfold ReadList. settle. Qed.
Lemma settles_frag_round l iois offsets : settles (readListFragRound l iois offsets).
Proof. unfold readListFragRound. settle. Qed.
#[local] Hint Resolve settles_ReadList settles_frag_round : settles.
Lemma settles_frag_rounds rounds : forall l iois pending st, settles (frag_rounds rounds l iois pending st).
Proof. induction rounds; intros ? ? [] ?; cbn [frag_rounds]; settle. Qed.
#[local] Hint Resolve settles_frag_rounds : settles.
Lemma settles_map_batches rounds : forall l pending results, settles (map_batches U rounds l pending results).
Proof. induction rounds; intros ? [] ?; cbn [map_batches]; unfold readListFragAll; settle. Qed.
Lemma settles_instance_batches rounds : forall l iois pending results, settles (instance_batches U rounds l iois pending results).
Proof. induction rounds; intros ? ? [] ?; cbn [instance_batches]; unfold readListFragWithIOIsAll; settle. Qed.
#[local] Hint Resolve settles_map_batches settles_instance_batches : settles.
Lemma settles_ReadMap m : settles (ReadMap U m).
Proof. unfold ReadMap, read_map. settle. Qed.
Lemma settles_ReadMulti fuel v args : settles (ReadMulti U fuel v args).
Proof. unfold ReadMulti. settle. Qed.
Lemma settles_ReadMapByInstance m : settles (ReadMapByInstance U m).
Proof. unfold ReadMapByInstance. settle. Qed.
#[local] Hint Resolve settles_ReadMap settles_ReadMulti settles_ReadMapByInstance : settles.
Lemma settles_ReadTagGroup range group args : settles (ReadTagGroup U range group args).
Proof. unfold ReadTagGroup. settle. Qed.
#[local] Hint Resolve settles_ReadTagGroup : settles.

(** *** Subscriptions: the opening, and the polls *)

Lemma settles_SubscribeTag cfg : settles (SubscribeTag U cfg).
Proof. unfold SubscribeTag. settle. Qed.
Lemma settles_SubscribeTags cfg : settles (SubscribeTags U cfg).
Proof. unfold SubscribeTags. settle. Qed.
Lemma settles_tag_run T tag initial ns : forall st, settles (tag_run U T tag initial ns st).
Proof. induction ns; intros; cbn [tag_run]; settle. Qed.
Lemma settles_multi_batch order ev eq initial st : settles (multi_batch U order ev eq initial st).
Proof. unfold multi_batch. settle. Qed.
#[local] Hint Resolve settles_multi_batch : settles.
Lemma settles_multi_tick order ev eq n initial : forall st, settles (multi_tick U order ev eq n initial st).
Proof. induction n; intros; cbn [multi_tick]; settle. Qed.
#[local] Hint Resolve settles_multi_tick : settles.
Lemma settles_multi_run order ev eq ticks n initial : forall st, settles (multi_run U order ev eq ticks n initial st).
Proof. induction ticks; intros; cbn [multi_run]; settle. Qed.
Lemma settles_forwardOpenCustom i : settles (forwardOpenCustom i).
Proof. unfold forwardOpenCustom. settle. Qed.
#[local] Hint Resolve settles_SubscribeTag settles_SubscribeTags settles_tag_run settles_multi_run settles_forwardOpenCustom : settles.
Lemma settles_SubscribeImplicit listen cfg : settles (SubscribeImplicit U listen cfg).
Proof. unfold SubscribeImplicit, subscription_path, newImplicitForwardOpenItem. settle. Qed.
Lemma settles_forwardClose a b c : settles (forwardCloseBySerial a b c).
Proof. unfold forwardCloseBySerial. settle. Qed.
#[local] Hint Resolve settles_SubscribeImplicit settles_forwardClose : settles.

(** *** The catalog and the data tables *)

Lemma settles_add_tag kt : settles (add_tag kt).
Proof. intros w Hw. unfold add_tag. by destruct (KnownTags _). Qed.
Lemma settles_upd_types f : settles (modify (upd_types f)).
Proof. by intros w. Qed.
Lemma settles_object_request s p d : settles (object_request s p d).
Proof. unfold object_request. settle. Qed.
#[local] Hint Resolve settles_add_tag settles_upd_types settles_object_request : settles.
Lemma settles_template n : settles (GetTemplateInstanceAttr n).
Proof. unfold GetTemplateInstanceAttr. settle. Qed.
Lemma settles_collect_rounds fetch total rounds : (forall a b, settles (fetch a b)) ->
  forall off payload, settles (collect_rounds fetch rounds total off payload).
Proof. intros Hf. induction rounds; intros; cbn [collect_rounds]; cbv zeta; settle. Qed.
Lemma settles_collect fetch total : (forall a b, settles (fetch a b)) -> settles (collectMemberReadPayload fetch total).
Proof. intros Hf. unfold collectMemberReadPayload. destruct (_ =? _); [settle|by apply settles_collect_rounds]. Qed.
Lemma settles_chunk n a b : settles (requestMemberReadChunk n a b).
Proof. unfold requestMemberReadChunk. settle. Qed.
Lemma settles_read_members list_members : (forall n, settles (list_members n)) ->
  forall infos d, settles (read_members list_members infos d).
Proof. intros Hf. induction infos; intros; cbn [read_members]; settle. Qed.
#[local] Hint Resolve settles_template settles_collect settles_chunk settles_read_members : settles.
Lemma settles_ListMembers fuel : forall n, settles (ListMembers fuel n).
Proof. induction fuel; intros; cbn [ListMembers]; cbv zeta; settle. Qed.
#[local] Hint Resolve settles_ListMembers : settles.
Lemma settles_symbol_loop f n : (forall e, settles (f e)) -> forall start d, settles (symbol_loop n f start d).
Proof. intros Hf. induction n; intros ? []; cbn [symbol_loop]; settle. Qed.
#[local] Hint Resolve settles_symbol_loop : settles.
Lemma settles_catalog_tag fuel name parent e : settles (catalog_tag fuel name parent e).
Proof. unfold catalog_tag, tag_type. settle. Qed.
#[local] Hint Resolve settles_catalog_tag : settles.
Lemma settles_sub_tag fuel p e : settles (sub_tag fuel p e).
Proof. unfold sub_tag. settle. Qed.
#[local] Hint Resolve settles_sub_tag : settles.
Lemma settles_ListSubTags fuel : forall p start, settles (ListSubTags fuel p start).
Proof. induction fuel; intros; cbn [ListSubTags]; unfold symbol_list_request, symbol_entries; cbv zeta; settle. Qed.
Lemma settles_ListAllPrograms : settles ListAllPrograms.
Proof. unfold ListAllPrograms. settle. Qed.
#[local] Hint Resolve settles_ListSubTags settles_ListAllPrograms : settles.
Lemma settles_list_programs range fuel : settles (list_programs range fuel).
Proof.
  unfold list_programs. settle. generalize (range (KnownPrograms (catalog (ioi (cw_client a1))))). intros l.
  induction l; settle.
Qed.
Lemma settles_all_tag fuel b e : settles (all_tag fuel b e).
Proof. unfold all_tag. cbv zeta. settle. Qed.
#[local] Hint Resolve settles_list_programs settles_all_tag : settles.
Lemma settles_ListAllTags range fuel : forall start, settles (ListAllTags range fuel start).
Proof. induction fuel; intros; cbn [ListAllTags]; unfold symbol_list_request, symbol_entries; cbv zeta; settle. Qed.
#[local] Hint Resolve settles_ListAllTags : settles.

(** ** The calls in any order *)

(** The calls of the interface, with their arguments; a tick of a subscription
    is a call too.  The order of the ranges over maps, the checksum of types
    and the listening for datagrams are those of the call. *)
Inductive api_call :=
  | ApiConnect | ApiDisconnect | ApiExchange (cmd : Z) (msgs : list bytes)
  | ApiGetAttrSingle (class instance attr : Z) | ApiGetAttrList (class instance : Z) (attrs : list Z)
  | ApiGenericCIPMessage (service : Z) (path data : bytes)
  | ApiRead (tag : bytes) (target : read_target) | ApiRead_structs (tag : bytes) (t : gotype) (l : list goval)
  | ApiRead_into (t : gotype) (tag : bytes) | ApiReadPacked (t : gotype) (tag : bytes)
  | ApiReadList (fuel : nat) (names : list bytes) (types : list goval) (elements : list Z)
  | ApiReadMap (m : list (bytes * goval)) | ApiReadMulti (fuel : nat) (v : goval) (args : option (list bytes))
  | ApiReadMapByInstance (m : list (Z * goval))
  | ApiReadTagGroup (range : gmap bytes goval -> list (bytes * goval)) (group : TagGroup) (args : list bytes)
  | ApiWrite (crc : bytes -> Z) (tag : bytes) (v : goval) | ApiWriteMap (l : list (bytes * goval))
  | ApiWriteMulti (range : gmap bytes goval -> list (bytes * goval)) (v : goval)
  | ApiListIdentity | ApiListServices | ApiGetControllerPropList
  | ApiListAllTags (range : gmap bytes KnownProgram -> list KnownProgram) (fuel : nat) (start : Z)
  | ApiListAllPrograms | ApiListSubTags (fuel : nat) (p : KnownProgram) (start : Z) | ApiListMembers (fuel : nat) (id : Z)
  | ApiCreateDataTableBuffer | ApiDeleteDataTableBuffer (id : Z) | ApiDataTableAddTags (id : Z) (entries : list addTagEntry)
  | ApiDataTableReadBuffer (id : Z) | ApiDataTableRemoveTag (id index : Z)
  | ApiSubscribeTag (cfg : TagSubscriptionConfig) | ApiSubscribeTags (cfg : TagMultiSubscriptionConfig)
  | ApiSubscribeImplicit (listen : bytes -> option error) (cfg : ImplicitSubscriptionConfig)
  | ApiForwardClose (serial vendor originator : Z)
  | ApiTagTick (t : gotype) (tag : bytes) (initial : bool) (st : TagSubscription goval * option goval)
  | ApiMultiTick (order : nat -> gmap bytes read_result -> list (bytes * read_result)) (error_value : error -> goval)
      (equal : read_result -> read_result -> bool) (batches : nat) (initial : bool) (st : TagSubscription TagUpdate * multi_locals).

Definition run_api (c : api_call) : M client_world unit :=
  let call {A} (m : M client_world A) : M client_world unit := _ ← m; mret tt in
  match c with
  | ApiConnect => Connect U
  | ApiDisconnect => Disconnect
  | ApiExchange cmd msgs => call (request U cmd msgs)
  | ApiGetAttrSingle c i a => call (GetAttrSingle U c i a)
  | ApiGetAttrList c i l => call (GetAttrList c i l)
  | ApiGenericCIPMessage s p d => call (GenericCIPMessage s p d)
  | ApiRead tag target => call (Read_ U tag target)
  | ApiRead_structs tag t l => call (Read_structs U tag t l)
  | ApiRead_into t tag => call (Read_into U t tag)
  | ApiReadPacked t tag => call (ReadPacked U t tag)
  | ApiReadList fuel names types elements => call (ReadList U fuel names types elements)
  | ApiReadMap m => call (ReadMap U m)
  | ApiReadMulti fuel v args => call (ReadMulti U fuel v args)
  | ApiReadMapByInstance m => call (ReadMapByInstance U m)
  | ApiReadTagGroup range group args => call (ReadTagGroup U range group args)
  | ApiWrite crc tag v => call (Write_tag crc U tag v)
  | ApiWriteMap l => call (WriteMap U l)
  | ApiWriteMulti range v => call (WriteMulti U range v)
  | ApiListIdentity => call ListIdentity
  | ApiListServices => call ListServices
  | ApiGetControllerPropList => call GetControllerPropList
  | ApiListAllTags range fuel start => call (ListAllTags range fuel start)
  | ApiListAllPrograms => call ListAllPrograms
  | ApiListSubTags fuel p start => call (ListSubTags fuel p start)
  | ApiListMembers fuel id => call (ListMembers fuel id)
  | ApiCreateDataTableBuffer => call (CreateDataTableBuffer U)
  | ApiDeleteDataTableBuffer id => call (DeleteDataTableBuffer U id)
  | ApiDataTableAddTags id entries => call (DataTableAddTags U id entries)
  | ApiDataTableReadBuffer id => call (DataTableReadBuffer U id)
  | ApiDataTableRemoveTag id index => call (DataTableRemoveTag U id index)
  | ApiSubscribeTag cfg => call (SubscribeTag U cfg)
  | ApiSubscribeTags cfg => call (SubscribeTags U cfg)
  | ApiSubscribeImplicit listen cfg => call (SubscribeImplicit U listen cfg)
  | ApiForwardClose serial vendor originator => call (forwardCloseBySerial serial vendor originator)
  | ApiTagTick t tag initial st => call (tag_run U t tag initial [0%nat] st)
  | ApiMultiTick order ev eq batches initial st => call (multi_tick U order ev eq batches initial st)
  end.

Lemma settles_run_api c : settles (run_api c).
Proof.
  destruct c; cbn [run_api];
    try unfold request, ListIdentity, ListServices, GetControllerPropList, CreateDataTableBuffer, DeleteDataTableBuffer,
      DataTableAddTags, DataTableReadBuffer, DataTableRemoveTag; settle;
    auto using settles_tag_run, settles_multi_tick.
Qed.

(** A call that returns, with a result or an error; a panic ends the program. *)
Inductive api_step : client_world -> client_world -> Prop :=
  | api_call_step c w : (forall why, fst (run_api c w) <> Panic why) -> api_step w (snd (run_api c w)).

Lemma api_settled w w' : settled w -> rtc api_step w w' -> settled w'.
Proof. intros Hw Hr. induction Hr as [|w1 w2 w3 [c w1' _] _ IH]; [done|]. by apply IH, settles_run_api. Qed.

(** C12. A client without keep-alive, used by one goroutine: whatever calls
    of its interface have returned, in whatever order, with results or with
    errors, and however the network behaves, it is either disconnected, or
    connected with an open socket and a path.  Then Connect, Disconnect and an
    exchange behind the check of the connection do not panic; Connect and the
    exchange leave it connected when they succeed, and Disconnect closes the
    socket.  (Other calls may panic, which ends the program.) *)
Theorem client_calls_reachable w w' :
  settled w -> rtc api_step w w' ->
  (status w' = connectionStatusDisconnected \/
   status w' = connectionStatusConnected /\ open_ w' = Some true /\ is_Some (Controller_Path (config w'))) /\
  connects w' (Connect U w') /\ disconnects w' (Disconnect w') /\ forall cmd msgs, requests (request U cmd msgs w').
Proof.
  intros Hw Hr. apply (api_settled w w' Hw) in Hr as Hw'. split; [|split; [|split]].
  - destruct Hw' as [_ Hs]. destruct (status w'); try done; [by left|by right].
  - by apply Connect_connects.
  - by apply Disconnect_disconnects.
  - intros cmd msgs. by apply request_requests.
Qed.
End Calls.

(** ** Witness *)

(** A client that connects, reads a tag from a peer that breaks the
    connection, and connects again. *)
Definition some_calls : list api_call := [ApiConnect; ApiRead (str "x") (TgtScalar (TInt I32)); ApiConnect].
Definition two_dials : client_world :=
  new_world [Some [register_reply; open_reply; WriteErr EOF]; Some [register_reply; open_reply]].

Fixpoint run_calls (l : list api_call) (w : client_world) : client_world :=
  match l with [] => w | c :: l => run_calls l (snd (run_api (H:=no_methods) (fun _ => 0) c w)) end.

(** None of the calls panics. *)
Fixpoint calls_return (l : list api_call) (w : client_world) : bool :=
  match l with
  | [] => true
  | c :: l =>
      match run_api (H:=no_methods) (fun _ => 0) c w with (Panic _, _) => false | (_, w') => calls_return l w' end
  end.

Lemma run_calls_reachable l : forall w, calls_return l w = true -> rtc (api_step (H:=no_methods) (fun _ => 0)) w (run_calls l w).
Proof.
  induction l as [|c l IH]; intros w Hr; [apply rtc_refl|]. cbn [run_calls calls_return] in *.
  eapply rtc_l; [constructor|apply IH]; by destruct (run_api (fun _ => 0) c w) as [[]].
Qed.

Lemma client_calls_reachable_witness :
  let w := run_calls some_calls two_dials in
  status w = connectionStatusConnected /\ open_ w = Some true /\ disconnects w (Disconnect w).
Proof.
  assert (calls_return some_calls two_dials = true) as Hr by (vm_compute; reflexivity).
  assert (status (run_calls some_calls two_dials) = connectionStatusConnected) as Hs by (vm_compute; reflexivity).
  destruct (client_calls_reachable (H:=no_methods) (fun _ => 0) two_dials (run_calls some_calls two_dials)
    (new_world_settled _) (run_calls_reachable _ _ Hr)) as [[Hd|(_ & Ho & _)] (_ & Hdis & _)].
  - exfalso. rewrite Hs in Hd. discriminate Hd.
  - cbv zeta. split; [exact Hs|]. split; [exact Ho|exact Hdis].
Defined.
