(* ===== verification/ServerMulti.v ===== *)
(** * The server on a packet of requests

    The multiple-service request (connectedMulti): what each request of the
    packet is served with, and the one reply to all of them. *)
From S2P Require Import Prelude Reader GoStrings GoValue CipNames CipDefs Types Items Ioi TagPath Pack Path Conns Router Messages Server ServerAttr ServerConnected ServerUnconnected ServerReplies ServerData Client ClientTags ClientConn ClientScript MultiRead MultiReadProofs.

(** One tag of a packet: its service, path and footer, and what the endpoint
    stores. *)
Record multi_tag := {
  mt_svc : Z;
  mt_path : list tag_part;
  mt_tail : bytes;          (* behind the element count *)
  mt_val : goval;
  mt_image : bytes;
}.

Definition mt_req (m : multi_tag) : bytes :=
  [mt_svc m] ++ [u8 (blen (path_bytes (mt_path m)) / 2)] ++ path_bytes (mt_path m) ++ le_bytes 2 1 ++ mt_tail m.
Definition mt_entry (m : multi_tag) : bytes := [Service.AsResponse (mt_svc m); 0; 0; 0] ++ mt_image m.

(** What is left to read of an item with the given data. *)
Definition at_ (D : bytes) (i : CIPItem) (rest : bytes) : Prop := left i rest /\ item_Data i = D.

Lemma step_at {S A B} (Q : res B * S -> Prop) (m : M CIPItem A) bs v rest D i (f : A * CIPItem -> M S B) s :
  parses m bs v -> at_ D i (bs ++ rest) ->
  (forall i', at_ D i' rest -> Q (f (v, i') s)) -> Q ((on i m ≫= f) s).
Proof.
  intros Hm [[Hi Hd] HD] Hf. pose proof (Hm i rest Hi Hd) as E.
  erewrite bind_Ok by (by apply on_Ok). apply Hf. split; [|done].
  split; [exact (rd_ok_advance (R:=CIPItem) _ _ Hi)|exact (advance_prefix (R:=CIPItem) i bs rest Hi Hd)].
Qed.

Lemma step_at_path {S B} (Q : res B * S -> Prop) path rest D i (f : bytes * CIPItem -> M S B) s msg :
  Forall part_ok path -> path_stop rest -> at_ D i (path_bytes path ++ rest) ->
  (forall i', at_ D i' rest -> Q (f (render path, i') s)) -> Q ((on i (wrapM msg getTagFromPath) ≫= f) s).
Proof.
  intros Hp Hs [[Hi Hd] HD] Hf. pose proof (advance_prefix (R:=CIPItem) i (path_bytes path) rest Hi Hd) as E.
  erewrite bind_Ok by (apply on_Ok, wrapM_Ok; by eapply read_path_spec).
  apply Hf. split; [|done]. split; [simpl; unfold blen; lia|exact E].
Qed.

(** The values ReadMap transports: the image of the value, without bounds. *)
Lemma multi_read_result_image svc v b :
  value_image v b -> scalar_ok v -> multi_read_result svc (fst (GoVarToCIPType v)) v = Ok ([Service.AsResponse svc; 0; 0; 0] ++ b).
Proof.
  intros Hb Hv. unfold multi_read_result. destruct Hb as [v b Ha Ht Hb|s]; [|done].
  rewrite (proj2 (Z.eqb_neq _ CIPTypeSTRING)) by done.
  assert (pack_Serialize v = binary_write v) as -> by (destruct v; done). by rewrite Hb.
Qed.

Section Server.
Context {P : Type} `{EndpointLaws P}.

Definition mt_ok (p : P) (m : multi_tag) : Prop :=
  (mt_svc m = CIPService_Read \/ mt_svc m = CIPService_FragRead) /\
  Forall part_ok (mt_path m) /\ path_stop (le_bytes 2 1 ++ mt_tail m) /\
  stores p (render (mt_path m)) 1 (mt_val m) /\ scalar_ok (mt_val m) /\ value_image (mt_val m) (mt_image m).

Lemma multi_request_spec w connID c ep p o item m rest :
  routed w connID c ep p -> mt_ok p m -> left (set_Pos (o + 8) item) (mt_req m ++ rest) ->
  exists i', multi_request ep o item w = (Ok (mt_entry m, i'), w) /\ item_Data i' = item_Data item.
Proof.
  intros Hr (Hsvc & Hp & Hstop & Hst & Hv & Hb) L. unfold multi_request. cbv zeta.
  assert (at_ (item_Data item) (set_Pos (o + 8) item) (mt_req m ++ rest)) as L0 by by split.
  assert (is_byte (mt_svc m)) as Hsb by by destruct Hsvc as [-> | ->].
  assert (is_byte (u8 (blen (path_bytes (mt_path m)) / 2))) as Hpl by by apply (wrap_bound 8).
  unfold mt_req in L0. rewrite <- !(assoc_L (++)) in L0.
  apply (step_at (fun r => exists i', r = (Ok (mt_entry m, i'), w) /\ item_Data i' = item_Data item)
    _ [mt_svc m] (mt_svc m) _ _ _ _ _ ltac:(by apply parses_wrapM, parses_u8) L0). intros i1 L1. cbv beta iota.
  eapply step_at; [by apply parses_wrapM, parses_item_Byte|exact L1|]. intros i2 L2. cbv beta iota.
  assert ((mt_svc m =? CIPService_FragRead) || (mt_svc m =? CIPService_Read) = true) as ->.
  { by destruct Hsvc as [-> | ->]. }
  eapply step_at_path; [exact Hp| |exact L2|]. { by destruct (mt_tail m). }
  intros i3 L3. cbv beta iota.
  eapply step_at; [apply parses_wrapM, (parses_item_uint 2 1); lia|exact L3|]. intros i4 [_ L4]. cbv beta iota.
  exists i4. split; [|exact L4]. eapply step.
  { apply wrapM_Ok. eapply call_ep_Ok; [exact Hr|]. apply TagRead_stores. exact Hst. }
  rewrite (with_ep_same w connID c ep p Hr).
  eapply step; [|reflexivity]. unfold lift. by rewrite (multi_read_result_image _ _ (mt_image m)).
Qed.

Lemma left_at_offset item start pre Y rest :
  0 <= start -> item_Data item = pre ++ Y -> length pre = 8%nat ->
  drop (Z.to_nat start) Y = rest -> left (set_Pos (start + 8) item) rest.
Proof.
  intros Hs HD Hpre Hd. split; [simpl; lia|]. unfold item_unread. cbn [set_Pos item_Pos item_Data]. rewrite HD.
  replace (Z.to_nat (start + 8)) with (length pre + Z.to_nat start)%nat by lia.
  rewrite <- drop_drop, drop_app_length. exact Hd.
Qed.

(** Requests that are served one after the other, each wherever it stands,
    with their entries of the reply. *)
Inductive served (ep : eloc) : list bytes -> list bytes -> world P -> world P -> Prop :=
  | served_nil w : served ep [] [] w w
  | served_cons req entry reqs entries w w1 w2 :
      (forall o item rest, left (set_Pos (o + 8) item) (req ++ rest) ->
         exists i', multi_request ep o item w = (Ok (entry, i'), w1) /\ item_Data i' = item_Data item) ->
      served ep reqs entries w1 w2 -> served ep (req :: reqs) (entry :: entries) w w2.

Lemma served_reads w connID c ep p ms :
  routed w connID c ep p -> Forall (mt_ok p) ms -> served ep (mt_req <$> ms) (mt_entry <$> ms) w w.
Proof.
  intros Hr Hms. induction Hms as [|m ms Hm Hms IH]; [apply served_nil|]. eapply served_cons; [|exact IH].
  intros o item rest HL. by eapply multi_request_spec.
Qed.

Lemma multi_requests_served ep reqs entries w w' item pre Y start :
  served ep reqs entries w w' ->
  item_Data item = pre ++ Y -> length pre = 8%nat -> 0 <= start ->
  drop (Z.to_nat start) Y = concat reqs -> start + blen (concat reqs) < 2 ^ 15 ->
  multi_requests ep (request_offsets start reqs) item w = (Ok entries, w').
Proof.
  intros Hrun HD Hpre. revert start item HD.
  induction Hrun as [w|req entry reqs entries w w1 w2 H1 Hrun IH]; intros start item HD Hs Hd Hl; [done|].
  cbn [concat request_offsets] in *.
  assert (0 <= blen req /\ 0 <= blen (concat reqs) /\ blen (req ++ concat reqs) = blen req + blen (concat reqs)) as (B1 & B2 & B3).
  { unfold blen. rewrite length_app. lia. }
  rewrite B3 in Hl. rewrite (wrap_small 16 start) by lia. cbn [multi_requests].
  destruct (H1 start item (concat reqs)) as (i' & E & HD'). { by eapply left_at_offset. }
  rewrite (bind_Ok _ _ _ _ _ E). cbv beta iota. rewrite HD in HD'.
  rewrite (bind_Ok _ _ w1 entries w2); [done|]. apply IH; [done|lia| |lia].
  replace (Z.to_nat (start + blen req)) with (Z.to_nat start + length req)%nat by (unfold blen; lia).
  by rewrite <- drop_drop, Hd, drop_app_length.
Qed.

(** The data of item 1: sequence number, service, the path to the message
    router, then what the offsets count from. *)
Definition packet_offsets (ms : list multi_tag) : list Z :=
  request_offsets (2 + Z.of_nat (length ms) * 2) (mt_req <$> ms).
Definition packet_payload (ms : list multi_tag) : bytes :=
  le_bytes 2 (Z.of_nat (length ms)) ++ concat (le_bytes 2 <$> packet_offsets ms) ++ concat (mt_req <$> ms).
Definition packet_data (seq : Z) (ms : list multi_tag) : bytes :=
  le_bytes 2 seq ++ [CIPService_MultipleService; 2; 0x20; 0x02; 0x24; 0x01] ++ packet_payload ms.

(** The same for any requests. *)
Definition requests_offsets (reqs : list bytes) : list Z := request_offsets (2 + Z.of_nat (length reqs) * 2) reqs.
Definition requests_payload (reqs : list bytes) : bytes :=
  le_bytes 2 (Z.of_nat (length reqs)) ++ concat (le_bytes 2 <$> requests_offsets reqs) ++ concat reqs.
Definition requests_data (seq : Z) (reqs : list bytes) : bytes :=
  le_bytes 2 seq ++ [CIPService_MultipleService; 2; 0x20; 0x02; 0x24; 0x01] ++ requests_payload reqs.

Lemma packet_payload_requests ms : packet_payload ms = requests_payload (mt_req <$> ms).
Proof. unfold packet_payload, requests_payload, packet_offsets, requests_offsets. by rewrite length_fmap. Qed.

Lemma length_packet_offsets ms : length (packet_offsets ms) = length ms.
Proof. unfold packet_offsets. by rewrite length_request_offsets, length_fmap. Qed.

Lemma request_offsets_small start reqs :
  0 <= start -> start + blen (concat reqs) < 2 ^ 15 -> Forall (fun o => 0 <= o < 2 ^ 15) (request_offsets start reqs).
Proof.
  revert start. induction reqs as [|r reqs IH]; intros start Hs Hl; [constructor|]. cbn [request_offsets concat] in *.
  assert (0 <= blen r /\ 0 <= blen (concat reqs) /\ blen (r ++ concat reqs) = blen r + blen (concat reqs)) as (B1 & B2 & B3).
  { unfold blen. rewrite length_app. lia. }
  rewrite B3 in Hl. apply Forall_cons_2; [rewrite wrap_small; lia|]. apply IH; lia.
Qed.

Lemma parses_offsets l msg :
  Forall (fun o => 0 <= o < 2 ^ 15) l ->
  parses (R:=CIPItem) (read_n (length l) (wrapM msg Int16)) (concat (le_bytes 2 <$> l)) l.
Proof.
  intros Hl. apply parses_read_n. induction Hl as [|o l Ho Hl IH]; [constructor|].
  constructor; [by apply parses_wrapM, parses_Int16|done].
Qed.

Lemma connectedMulti_served w w' connID c ep p item0 item1 seq reqs entries rest0 :
  can_write w' -> routed w connID c ep p -> 0 <= connID < 2 ^ 32 ->
  item_Data item0 = le_bytes 4 connID ++ rest0 -> 0 <= seq < 2 ^ 16 ->
  served ep reqs entries w w' -> length entries = length reqs -> blen (requests_payload reqs) < 2 ^ 15 ->
  item_Data item1 = requests_data seq reqs ->
  connectedMulti item0 item1 w =
    (Ok tt, sent (connected_frame (conn_TO c)
      (le_bytes 2 seq ++ [Service.AsResponse CIPService_MultipleService; 0; 0; 0] ++
       le_bytes 2 (Z.of_nat (length reqs)) ++ jump_table ((Z.of_nat (length reqs) + 1) * 2) entries ++
       concat entries) w') w').
Proof.
  intros Hw Hr Hid Hd0 Hseq Hrun Hne Hl Hd1. set (n := Z.of_nat (length reqs)) in *. unfold connectedMulti.
  assert (blen (requests_payload reqs) = 2 + 2 * n + blen (concat reqs) /\ 0 <= blen (concat reqs)) as [Bp Bc].
  { unfold requests_payload. pose proof (blen_concat_le2 (requests_offsets reqs)) as E.
    unfold requests_offsets in *. rewrite length_request_offsets in E.
    unfold blen in *. rewrite !length_app, length_le_bytes. lia. }
  match goal with |- ?l = ?r => set (Q := fun x => x = r); change (Q l) end.
  assert (at_ (item_Data item0) (Reset item0) (le_bytes 4 connID ++ rest0)) as L0.
  { split; [rewrite <- Hd0; apply left_Reset|done]. }
  assert (at_ (item_Data item1) (Reset item1) (requests_data seq reqs)) as L1.
  { split; [rewrite <- Hd1; apply left_Reset|done]. }
  unfold requests_data in L1.
  eapply step_at; [by apply parses_wrapM, (parses_u32 connID)|exact L0|]. intros i0 _. cbv beta iota.
  unfold Q. eapply step; [by eapply wrapM_Ok, find_connection_Ok|].
  eapply step; [by eapply wrapM_Ok, router_Resolve_Ok|]. cbv zeta.
  match goal with |- ?l = _ => change (Q l) end.
  eapply step_at; [by apply parses_wrapM, (parses_u16 seq)|exact L1|]. intros i1 L2. cbv beta iota.
  change ([CIPService_MultipleService; 2; 0x20; 0x02; 0x24; 0x01] ++ requests_payload reqs)
    with ([CIPService_MultipleService] ++ [2] ++ [0x20; 0x02; 0x24; 0x01] ++ requests_payload reqs) in L2.
  eapply step_at; [by apply parses_wrapM, (parses_u8 CIPService_MultipleService)|exact L2|]. intros i2 L3. cbv beta iota.
  eapply step_at; [by apply parses_wrapM, (parses_u8 2)|exact L3|]. intros i3 L4. cbv beta iota.
  eapply step_at; [apply parses_wrapM, (parses_slice 4 [0x20; 0x02; 0x24; 0x01]); done|exact L4|]. intros i4 L5. cbv beta iota.
  unfold requests_payload at 1 in L5.
  assert (0 <= n < 2 ^ 16) as Hn by (unfold n in *; lia).
  eapply step_at; [apply parses_wrapM, (parses_item_uint 2 n); [lia|exact Hn]|exact L5|]. intros i5 L6. cbv beta iota.
  fold n. replace (Z.to_nat n) with (length (requests_offsets reqs))
    by (unfold requests_offsets; rewrite length_request_offsets; unfold n; lia).
  eapply step_at; [apply parses_offsets, request_offsets_small; [lia|unfold n in *; lia]|exact L6|]. intros i6 [L7 HD]. cbv beta iota.
  unfold Q. eapply step.
  { apply (multi_requests_served ep reqs entries w w' i6
      (le_bytes 2 seq ++ [CIPService_MultipleService; 2; 0x20; 0x02; 0x24; 0x01]) (requests_payload reqs)); try done.
    - rewrite HD, Hd1. unfold requests_data. by rewrite <- (assoc_L (++)).
    - unfold n in *; lia.
    - unfold requests_payload. rewrite (assoc_L (++)). apply drop_app_length'. rewrite length_app, length_le_bytes.
      pose proof (blen_concat_le2 (requests_offsets reqs)) as E. unfold requests_offsets in *.
      rewrite length_request_offsets in E. unfold blen in E. lia.
    - unfold n in *; lia. }
  cbv beta. rewrite (sendConnectedReply_Ok _ _ _ _ (le_bytes 2 n :: jump_table ((n + 1) * 2) entries :: entries)).
  - done.
  - done.
  - unfold multi_response. do 2 (constructor; [done|]). clear. induction entries; by constructor.
Qed.

Lemma connectedMulti_spec w connID c ep p item0 item1 seq ms rest0 :
  can_write w -> routed w connID c ep p -> 0 <= connID < 2 ^ 32 ->
  item_Data item0 = le_bytes 4 connID ++ rest0 -> 0 <= seq < 2 ^ 16 ->
  Forall (mt_ok p) ms -> blen (packet_payload ms) < 2 ^ 15 ->
  item_Data item1 = packet_data seq ms ->
  connectedMulti item0 item1 w =
    (Ok tt, sent (connected_frame (conn_TO c)
      (le_bytes 2 seq ++ [Service.AsResponse CIPService_MultipleService; 0; 0; 0] ++
       le_bytes 2 (Z.of_nat (length ms)) ++ jump_table ((Z.of_nat (length ms) + 1) * 2) (mt_entry <$> ms) ++
       concat (mt_entry <$> ms)) w) w).
Proof.
  intros Hw Hr Hid Hd0 Hseq Hms Hl Hd1. rewrite packet_payload_requests in Hl. unfold packet_data in Hd1.
  rewrite packet_payload_requests in Hd1. rewrite <- (length_fmap mt_req ms).
  eapply connectedMulti_served; try done; [by eapply served_reads|by rewrite !length_fmap].
Qed.
End Server.
