(* ===== verification/EndToEnd.v ===== *)
(** * The client against the server

    What the client asks over a connection is served by the server of the
    same package, and what the server answers is what the client returns. *)
From S2P Require Import Prelude Reader GoStrings GoValue CipNames CipDefs Types Items Ioi TagPath Path Conns Router Messages Server ServerAttr ServerConnected ServerUnconnected ServerReplies ServerData Client ClientTags ClientConn ClientScript.

(** ** The server on one frame of SendUnitData *)

Section Serve.
Context {P : Type} `{EndpointLaws P} (rand_Uint32 : nat -> Z).

(** The world in which the connection has received the bytes. *)
Definition feed (b : bytes) (w : world P) : world P :=
  upd_h (fun h => Server.set_conn (set_in b (h_conn h)) h) w.

(** The handler behind the header and the sequence number of a request. *)
Definition received (ctx seq : Z) (rest : bytes) (w : world P) : world P :=
  upd_h (fun h => set_Sequencer seq (set_context ctx (Server.set_conn (set_in rest (h_conn h)) h))) w.

Lemma on_conn_Ok {A} (m : M bytes A) bs v rest w :
  parses m bs v -> on_conn m (feed (bs ++ rest) w) = (Ok v, feed rest w).
Proof.
  intros Hm. unfold on_conn, zoom. simpl.
  rewrite (Hm (bs ++ rest) rest I eq_refl). simpl. by rewrite drop_app_length.
Qed.

Lemma read_request_Ok i0 i1 rest w :
  item_wf i0 -> item_wf i1 ->
  read_request (feed (serializeItems [i0; i1] ++ rest) w) = (Ok (Reset i0, Reset i1), feed rest w).
Proof.
  intros Hi0 Hi1.
  assert (serializeItems [i0; i1] ++ rest =
    le_bytes 4 0 ++ le_bytes 2 0 ++ (le_bytes 2 2 ++ concat (map item_Bytes [i0; i1])) ++ rest) as ->
    by (unfold serializeItems; by rewrite <- !(assoc_L (++))).
  unfold read_request.
  eapply step; [by eapply wrapM_Ok, on_conn_Ok, parses_u32|].
  eapply step; [by eapply wrapM_Ok, on_conn_Ok, parses_u16|].
  eapply step; [eapply wrapM_Ok, on_conn_Ok, (parses_items [i0; i1]); [apply Forall_cons_2; [done|apply Forall_cons_2; [done|apply Forall_nil_2]]|done]|]. done.
Qed.

(** The items of a request over a connection, and the handler that gets them. *)
Lemma serve_unit_data hdr i0 i1 connID seq svc body rest w w' :
  eipHeader_ok hdr -> hdr_Command hdr = cipCommandSendUnitData ->
  item_wf i0 -> item_ID i0 = cipItem_ConnectionAddress -> item_Data i0 = le_bytes 4 connID ->
  0 <= connID < 2 ^ 32 ->
  item_wf i1 -> item_Data i1 = le_bytes 2 seq ++ [svc] ++ body -> 0 <= seq < 2 ^ 16 -> is_byte svc ->
  (forall j0 j1, item_ID j0 = cipItem_ConnectionAddress -> item_Data j0 = le_bytes 4 connID ->
     item_Data j1 = item_Data i1 -> left j1 body ->
     connected_service svc j0 j1 (received (hdr_Context hdr) seq rest w) = (Ok tt, w')) ->
  serve_one rand_Uint32 (feed (eipHeader_bytes hdr ++ serializeItems [i0; i1] ++ rest) w) = (Ok tt, w').
Proof.
  intros Hh Hc Hi0 Hid Hd0 Hconn Hi1 Hd1 Hseq Hsvc Hk. unfold serve_one.
  eapply step; [by eapply wrapM_Ok, on_conn_Ok, parses_eipHeader|].
  eapply step; [reflexivity|]. unfold handle_command. rewrite Hc. cbn [Z.eqb].
  change (cipCommandSendUnitData =? cipCommandRegisterSession) with false.
  change (cipCommandSendUnitData =? cipCommandSendRRData) with false.
  rewrite Z.eqb_refl. cbv iota. apply wrapM_Ok. unfold sendUnitData.
  eapply step; [exact (read_request_Ok i0 i1 rest (upd_h (set_context (hdr_Context hdr)) w) Hi0 Hi1)|]. cbv beta iota.
  change (item_ID (Reset i0)) with (item_ID i0). rewrite Hid, Z.eqb_refl. cbn [negb].
  assert (forall n v r, 0 <= v < 2 ^ (8 * Z.of_nat n) -> forall i, left i (le_bytes n v ++ r) ->
    read_uint n i = (Ok v, rd_advance n i) /\ left (rd_advance n i) r) as Hread.
  { intros n v r Hv i [Hi Hd]. pose proof (parses_uint (R:=CIPItem) n v Hv i r Hi Hd) as E.
    rewrite length_le_bytes in E. split; [done|]. split; [exact (rd_ok_advance (R:=CIPItem) n i Hi)|].
    pose proof (advance_prefix (R:=CIPItem) i (le_bytes n v) r Hi Hd) as F. by rewrite length_le_bytes in F. }
  pose proof (left_Reset i0) as L0. rewrite Hd0, <- (app_nil_r (le_bytes 4 connID)) in L0.
  destruct (Hread 4%nat connID [] Hconn _ L0) as [E0 _].
  eapply step; [by apply on_Ok, wrapM_Ok|]. cbv beta iota.
  pose proof (left_Reset i1) as L1. rewrite Hd1 in L1.
  destruct (Hread 2%nat seq _ Hseq _ L1) as [E1 L2].
  eapply step; [by apply on_Ok, wrapM_Ok|]. cbv beta iota.
  eapply step; [reflexivity|].
  assert ([svc] = le_bytes 1 svc) as Esvc by (unfold le_bytes; by rewrite Z.mod_small).
  rewrite Esvc in L2. destruct (Hread 1%nat svc body Hsvc _ L2) as [E2 L3].
  eapply step; [by apply on_Ok, wrapM_Ok|]. cbv beta iota. by apply Hk.
Qed.
End Serve.

(** ** The client on one answer *)

(** The client whose peer answers the next message with the given bytes. *)
Definition answer (f : bytes) (sent_ : list bytes) (w : client_world) : client_world := scripted [Reply f] sent_ w.

(** Where an exchange leaves the client: the answer read, the counter moved. *)
Definition answered (sent_ : list bytes) (w : client_world) : client_world := scripted [] sent_ (counted w).

Lemma unit_request_answered item1 h data se w :
  eipHeader_ok h -> hdr_Length h = blen data ->
  unit_request item1 (answer (eipHeader_bytes h ++ data) se w) =
    (Ok (h, data), answered (se ++ [unit_frame item1 w]) w).
Proof. apply unit_request_scripted. Qed.

Lemma client_newIOI_known U tag ty i c' f se w :
  firmware (ioi (cw_client w)) <> 0 -> newIOI tag ty (ioi (cw_client w)) = (Ok i, c') ->
  client_newIOI U tag ty (answer f se w) = (Ok i, answer f se (upd_ioi (fun _ => c') w)).
Proof.
  intros Hf Hi. unfold client_newIOI, client_firmware. eapply step.
  - rewrite (bind_Ok get _ _ _ _ eq_refl). change (ioi (cw_client (answer f se w))) with (ioi (cw_client w)).
    rewrite (proj2 (Z.eqb_neq _ _)) by done. reflexivity.
  - unfold zoom. change (ioi (cw_client (answer f se w))) with (ioi (cw_client w)). by rewrite Hi.
Qed.

(** The service and the frame of a single read. *)
Definition single_service (ty : Z) (tag : bytes) (w : client_world) : Z :=
  readServiceForTag {| td_TagName := tag; td_TagType := ty; td_Elements := 1; td_Struct := VNil |}
    (ConnectionSize (link w)).
Definition next_seq (w : client_world) : Z := u16 (u32 (cw_sequenceValue w + 1)).
Definition read_frame (tag : bytes) (ty : Z) (i : tagIOI) (w : client_world) : bytes :=
  unit_frame (read_item i (next_seq w) (single_service ty tag w) 1 0) w.

Lemma max_rounds_S : exists n, max_rounds = S n.
Proof. by exists 1024%nat. Qed.

Lemma Read_single_answered U tag ty i c' h data respType chunk v se w :
  status w = connectionStatusConnected ->
  firmware (ioi (cw_client w)) <> 0 -> newIOI tag ty (ioi (cw_client w)) = (Ok i, c') ->
  eipHeader_ok h -> hdr_Length h = blen data ->
  parse_read_reply h data ty = Ok (CIPStatus_OK, respType, chunk) ->
  fst (decodeSingleReadPayload ty 1 i respType chunk) = Ok v ->
  Read_single U tag ty 1 (answer (eipHeader_bytes h ++ data) se w) =
    (Ok v, answered (se ++ [read_frame tag ty i w]) (snd (sequencer (upd_ioi (fun _ => c') w)))).
Proof.
  intros Hs Hf Hi Hh Hl Hp Hd. unfold Read_single.
  eapply step; [apply wrapM_Ok; by apply checkConnection_up|].
  eapply step; [by apply client_newIOI_known|]. eapply step; [reflexivity|]. cbv zeta.
  change (ConnectionSize (link (answer _ _ _))) with (ConnectionSize (link w)).
  fold (single_service ty tag w). destruct max_rounds_S as [n ->]. cbn [read_rounds].
  set (w1 := upd_ioi (fun _ => c') w).
  eapply (step _ _ _ (u32 (cw_sequenceValue w + 1)) (answer (eipHeader_bytes h ++ data) se (snd (sequencer w1)))); [reflexivity|].
  eapply step; [by apply unit_request_answered|]. cbv beta iota.
  eapply step; [unfold lift; by rewrite Hp|]. cbv beta iota.
  change (negb (CIPStatus_OK =? CIPStatus_PartialTransfer)) with true. cbv iota.
  unfold lift. cbn [app]. by rewrite Hd.
Qed.

(** ** What the client makes of a reply *)

(** The data of a reply to a read: sequence number, service, status, type. *)
Definition read_reply_data (seq svc : Z) (image : bytes) : bytes := le_bytes 2 seq ++ [svc; 0; 0; 0] ++ image.

Lemma parses_read_result_header seq svc ty infolen :
  0 <= seq < 2 ^ 16 -> is_byte svc -> is_byte ty -> is_byte infolen ->
  parses (R:=CIPItem) read_result_header (le_bytes 2 seq ++ [svc; 0; 0; 0] ++ [ty] ++ [infolen])
    (seq, svc, 0, ty, infolen).
Proof.
  intros. apply parses_struct; [|by rewrite !length_app, !length_le_bytes].
  change [svc; 0; 0; 0] with ([svc] ++ [0] ++ [0] ++ [0]). rewrite <- !(assoc_L (++)), <- (app_nil_r [infolen]).
  assert (is_byte 0) by done. do 7 parse_field. apply parses_ret.
Qed.

Lemma Rest_left i rest : left i rest -> rest <> [] -> Rest i = Ok rest.
Proof.
  intros [Hi <-] Hne. unfold Rest. rewrite (proj2 (Z.ltb_ge _ _)) by done.
  destruct (Z.ltb_spec (blen (item_Data i)) (item_Pos i)); [|done].
  destruct Hne. unfold item_unread, blen in *. apply drop_ge. lia.
Qed.

Lemma parse_read_reply_items h i0 i1 seq svc ty (ext payload : bytes) rt :
  hdr_Status h = 0 -> item_wf i0 -> item_wf i1 ->
  0 <= seq < 2 ^ 16 -> is_byte svc -> is_byte ty -> ty <> CIPTypeUnknown ->
  (ext = [] \/ exists x, ext = le_bytes 2 x /\ 0 <= x < 2 ^ 16) ->
  payload <> [] -> item_Data i1 = read_reply_data seq svc ([ty; blen ext] ++ ext ++ payload) ->
  parse_read_reply h (serializeItems [i0; i1]) rt = Ok (CIPStatus_OK, ty, payload).
Proof.
  intros Hs Hi0 Hi1 Hseq Hsvc Hty Hu Hext Hne Hd. unfold parse_read_reply. rewrite Hs, after_CSD_items. cbn [negb Z.eqb].
  assert (Forall item_wf [i0; i1]) as Hwf by (apply Forall_cons_2; [done|apply Forall_cons_2; [done|apply Forall_nil_2]]).
  rewrite (parses_all _ _ _ (parses_items (R:=bytes) [i0; i1] Hwf eq_refl)). cbn [mbind res_bind map].
  assert (is_byte (blen ext)) as Hb by (destruct Hext as [->|(x & -> & _)]; done).
  pose proof (parses_read_result_header seq svc ty (blen ext) Hseq Hsvc Hty Hb) as Hp.
  pose proof (left_Reset i1) as [L1 L2]. rewrite Hd in L2. unfold read_reply_data in L2.
  assert (item_unread (Reset i1) = (le_bytes 2 seq ++ [svc; 0; 0; 0] ++ [ty] ++ [blen ext]) ++ ext ++ payload) as L3
    by (rewrite L2; by rewrite <- !(assoc_L (++))).
  rewrite (bind_Ok _ _ _ _ _ (wrapM_Ok _ _ _ _ _ (Hp _ _ L1 L3))). cbv beta iota.
  pose proof (advance_prefix (R:=CIPItem) _ _ _ L1 L3) as L4.
  pose proof (rd_ok_advance (R:=CIPItem) (length (le_bytes 2 seq ++ [svc; 0; 0; 0] ++ [ty] ++ [blen ext])) _ L1) as L5.
  set (i2 := rd_advance _ _) in *. clearbody i2.
  change (negb (0 =? CIPStatus_OK) && _) with false. cbv iota.
  rewrite (proj2 (Z.eqb_neq ty CIPTypeUnknown)) by done. cbn [negb orb]. cbv zeta.
  assert (exists n i3, (if negb (blen ext =? 0) then wrapM "problem reading additional type info header" (read_struct 2 read_u16)
      else mret 0) i2 = (Ok n, i3) /\ left i3 payload) as (n & i3 & E3 & Hi3).
  { destruct Hext as [->|(x & -> & Hx)]; [by exists 0, i2|]. cbn [negb Z.eqb].
    assert (parses (R:=CIPItem) (wrapM "problem reading additional type info header" (read_struct 2 read_u16)) (le_bytes 2 x) x) as Hq.
    { apply parses_wrapM, parses_struct; [by apply parses_u16|done]. }
    destruct (parses_run _ _ _ _ _ Hq L5 L4) as (i3 & E3 & Hd3 & Hi3). exists x, i3. split; [exact E3|by split]. }
  rewrite (bind_Ok _ _ _ _ _ E3). rewrite (bind_Ok get _ _ _ _ eq_refl), bind_eq. unfold lift.
  by rewrite (Rest_left i3 payload).
Qed.

(** ** Values on the way *)

(** The values a read brings back unchanged: scalars, and strings that fit a
    STRING. *)
Definition transferable (v : goval) : Prop :=
  match v with VString s => wf_bytes s /\ blen s <= 82 | _ => scalar_ok v end.

Lemma zero_value_type v t : transferable v -> type_of v = Some t ->
  fst (GoVarToCIPType (zero_value t)) = fst (GoVarToCIPType v).
Proof. by destruct v; intros Hv [= <-]. Qed.

Lemma scalar_code v : scalar_ok v -> (forall s, v <> VString s) ->
  let ty := fst (GoVarToCIPType v) in is_byte ty /\ ty <> CIPTypeUnknown /\ ty <> CIPTypeStruct /\ ty <> CIPTypeSTRING.
Proof.
  intros Hv Hs. destruct v as [|b|k z|z|z|str| | | |]; try done; try destruct k;
    try (by destruct (Hs str)); vm_compute; repeat split; intros; discriminate.
Qed.

Lemma binary_write_nonempty v b : scalar_ok v -> binary_write v = Ok b -> b <> [].
Proof.
  destruct v as [|bl|k z|z|z|str| | | |]; try done; [by intros _ [= <-]| |by intros _ [= <-]..].
  by destruct k; intros _ [= <-].
Qed.

Lemma binary_write_short v b : scalar_ok v -> binary_write v = Ok b -> blen b <= 8.
Proof.
  destruct v as [|bl|k z|z|z|str| | | |]; try done; [by intros _ [= <-]| |by intros _ [= <-]..].
  by destruct k; intros _ [= <-].
Qed.

(** The image a server sends, as the client takes it apart. *)
Definition decodes (image : bytes) (dt : Z) (t : gotype) (v : goval) : Prop :=
  exists ty ext payload, image = [ty; blen ext] ++ ext ++ payload /\
    is_byte ty /\ ty <> CIPTypeUnknown /\
    (ext = [] \/ exists x, ext = le_bytes 2 x /\ 0 <= x < 2 ^ 16) /\ payload <> [] /\ blen image <= 96 /\
    forall i, ioi_BitAccess i = false ->
      exists v0, fst (decodeSingleReadPayload dt 1 i ty payload) = Ok v0 /\ read_cast t v0 = Some v.

Lemma image_decodes v t b :
  transferable v -> type_of v = Some t -> value_image v b ->
  decodes b (fst (GoVarToCIPType (zero_value t))) t v.
Proof.
  intros Hv Ht Hb. rewrite (zero_value_type v t Hv Ht). destruct Hb as [v b Ha Hs Hb|s].
  - assert (scalar_ok v) as Hv' by by destruct v.
    destruct (scalar_code v Hv') as (H1 & H2 & H3 & _); [intros s ->; by destruct Hs|].
    exists (fst (GoVarToCIPType v)), [], b. split; [done|]. split; [done|]. split; [done|]. split; [by left|].
    split; [by eapply binary_write_nonempty|]. split.
    { pose proof (binary_write_short v b Hv' Hb). unfold blen in *. rewrite length_app. simpl. lia. }
    intros i Hi. exists v. split.
    + unfold decodeSingleReadPayload. rewrite (proj2 (Z.eqb_neq _ CIPTypeStruct)) by done.
      rewrite Z.eqb_refl. cbn [Z.eqb]. rewrite Hi, andb_false_r. change (1 =? 1) with true. cbv iota.
      apply parses_all, parses_wrapM. by apply parses_readValue.
    + unfold read_cast. rewrite (zero_value_type v t Hv Ht), (proj2 (Z.eqb_neq _ CIPTypeSTRING)) by done.
      unfold cast_to. by rewrite decide_True.
  - injection Ht as <-. destruct Hv as [Hwf Hl]. unfold cipStringPacker_Bytes.
    change (Z.of_nat cipStringDataLen) with 82. rewrite (proj2 (Z.ltb_ge 82 (blen s))) by done.
    exists 0xA0, (le_bytes 2 cipStringStructCRC), (le_bytes 4 (blen s) ++ copy_into cipStringDataLen s ++ replicate cipStringStructPad 0).
    split; [done|]. split; [done|]. split; [done|]. split; [right; by exists cipStringStructCRC|]. split; [done|].
    assert (length s <= 82)%nat as Hl' by (unfold blen in Hl; lia).
    split.
    { unfold blen, copy_into, cipStringDataLen, cipStringStructPad.
      rewrite !length_app, !length_replicate, length_take, !length_le_bytes. cbn [length]. lia. }
    intros i _. exists (byte_slice s). split; [|].
    2: { unfold read_cast. simpl. unfold as_string, byte_slice. f_equal. f_equal. rewrite map_map. by apply map_id. }
    unfold decodeSingleReadPayload. change (0xA0 =? CIPTypeStruct) with true.
    change (fst (GoVarToCIPType (VString s)) =? CIPTypeSTRING) with true. change (1 =? 1) with true. cbv iota.
    assert (0 <= blen s) by (unfold blen; lia).
    assert (parses (R:=bytes) (s ← read_short_string; mret (byte_slice s)) (le_bytes 4 (blen s) ++ s) (byte_slice s)) as Hp.
    { eapply parses_bind_nil; [|apply parses_ret]. unfold read_short_string.
      eapply parses_bind; [apply parses_wrapM, parses_struct; [apply parses_u32; lia|done]|].
      apply parses_wrapM, parses_slice. unfold blen. lia. }
    unfold copy_into. rewrite take_ge, <- (assoc_L (++) s), (assoc_L (++) (le_bytes 4 _)) by (unfold cipStringDataLen; lia).
    by rewrite (Hp _ _ I eq_refl).
Qed.

(** ** A read, end to end *)

(** A client that names tags symbolically: a firmware revision up to 20, and
    nothing cached for the path but its EPATH. *)
Record names_path (c : ioi_client) (path : list tag_part) (ty : Z) : Prop := {
  np_firmware : 0 < firmware c <= 20;
  np_cache : ioi_cache c !! render path = None \/
    exists i, ioi_cache c !! render path = Some i /\ ioi_Buffer i = path_bytes path /\ ioi_BitAccess i = false;
  np_lower : to_lower (render path) = render path;
  np_path : path <> [] /\ Forall part_ok path /\ blen (path_bytes path) < 2 ^ 15;
  np_bool : Forall (fun p => ty <> CIPTypeBOOL \/ tp_idx p = []) path;
}.

(** The IOI of a path, kept in the cache. *)
Definition cached (c' c : ioi_client) (path : list tag_part) (i : tagIOI) : Prop :=
  firmware c' = firmware c /\ ioi_cache c' !! render path = Some i /\
  ioi_Buffer i = path_bytes path /\ ioi_BitAccess i = false.

Lemma newIOI_names c path ty : names_path c path ty ->
  exists i c', newIOI (render path) ty c = (Ok i, c') /\ cached c' c path i.
Proof.
  intros [Hf Hc Hl (Hne & Hp & _) Hb]. unfold newIOI. rewrite Hl, (proj2 (Z.ltb_ge 20 _)) by lia.
  destruct Hc as [->|(i & E & Hi)]; [|rewrite E; by exists i, c].
  rewrite newSymbolicIOI_render by done. do 2 eexists. split; [done|]. split; [done|].
  split; [simpl; by rewrite lookup_insert_eq|done].
Qed.

Lemma names_path_cached c c' path i ty ty' : names_path c path ty -> cached c' c path i ->
  Forall (fun p => ty' <> CIPTypeBOOL \/ tp_idx p = []) path -> names_path c' path ty'.
Proof. intros [Hf _ Hl Hp _] (E & Hi & Hb). split; [by rewrite E|eauto|done..]. Qed.

Lemma single_service_cases ty tag w :
  single_service ty tag w = CIPService_Read \/ single_service ty tag w = CIPService_FragRead.
Proof. unfold single_service, readServiceForTag. repeat case_match; auto. Qed.

(** The bytes behind the path in a request. *)
Definition read_footer (svc : Z) : bytes := if svc =? CIPService_FragRead then le_bytes 4 0 else [].

Definition read_body (svc : Z) (path : list tag_part) : bytes :=
  [u8 (blen (path_bytes path) / 2)] ++ path_bytes path ++ le_bytes 2 1 ++ read_footer svc.

Lemma read_item_Write i seq svc path :
  ioi_Buffer i = path_bytes path ->
  read_item i seq svc 1 0 = Write (le_bytes 2 seq ++ [svc] ++ read_body svc path) (empty_item cipItem_ConnectedData).
Proof.
  intros Hb. unfold read_item, read_body, service_req_bytes, read_footer. rewrite Hb.
  cbn [newItem Serialize1 serialize_arg snd]. rewrite Write_Write. f_equal.
  rewrite <- !(assoc_L (++)). cbn [app]. by destruct (svc =? CIPService_FragRead); rewrite ?app_nil_r.
Qed.

Lemma read_body_request seq svc path :
  le_bytes 2 seq ++ [svc] ++ read_body svc path =
    read_request_data seq svc (u8 (blen (path_bytes path) / 2)) path 1 (read_footer svc).
Proof. unfold read_request_data, read_body. by rewrite <- !(assoc_L (++)). Qed.

Lemma blen_read_body svc path : blen (read_body svc path) <= blen (path_bytes path) + 7.
Proof.
  unfold read_body, read_footer, blen. rewrite !length_app, length_le_bytes. cbn [length].
  destruct (svc =? CIPService_FragRead); rewrite ?length_le_bytes; cbn [length]; lia.
Qed.

Lemma Write_wf id b : 0 <= id < 2 ^ 16 -> blen b < 2 ^ 16 -> item_wf (Write b (empty_item id)).
Proof. intros. by apply item_len_ok_wf. Qed.

Definition handler_ok (h : serverTCPHandler) : Prop :=
  0 <= h_handle h < 2 ^ 32 /\ 0 <= h_options h < 2 ^ 32.

Definition config_ok (w : client_world) : Prop :=
  0 <= SessionHandle (link w) < 2 ^ 32 /\ 0 <= Context_ (config w) < 2 ^ 64 /\
  0 <= OTNetworkConnectionID (link w) < 2 ^ 32.

Section Composition.
Context {P : Type} `{EndpointLaws P} (rand_Uint32 : nat -> Z) (U : nat -> Z).

(** A request of a client reaches the handler of its connection. *)
Lemma serve_unit_frame ws ws' wc seq svc body rest :
  config_ok wc -> 0 <= seq < 2 ^ 16 -> is_byte svc -> blen body < 2 ^ 15 + 2 ^ 14 ->
  (forall j0 j1, item_ID j0 = cipItem_ConnectionAddress ->
     item_Data j0 = le_bytes 4 (OTNetworkConnectionID (link wc)) ++ [] ->
     item_Data j1 = le_bytes 2 seq ++ [svc] ++ body -> left j1 body ->
     connected_service svc j0 j1 (received (Context_ (config wc)) seq rest ws) = (Ok tt, ws')) ->
  serve_one rand_Uint32 (feed (unit_frame (Write (le_bytes 2 seq ++ [svc] ++ body)
    (empty_item cipItem_ConnectedData)) wc ++ rest) ws) = (Ok tt, ws').
Proof.
  intros (Hsess & Hctx & Hot) Hseq Hsvc Hl Hk. unfold unit_frame, client_frame. rewrite <- (assoc_L (++)).
  eapply serve_unit_data; [| | | | |exact Hot| | |exact Hseq|exact Hsvc|].
  - unfold eipHeader_ok, client_header. cbn [hdr_Command hdr_Length hdr_SessionHandle hdr_Status hdr_Context hdr_Options].
    split_and!; first [lia|apply wrap_bound; lia|done].
  - done.
  - apply Write_wf; done.
  - done.
  - done.
  - apply Write_wf; [done|]. unfold blen in *. rewrite !length_app, length_le_bytes. cbn [length]. lia.
  - done.
  - intros j0 j1 H1 H2 H3 H4. apply Hk; [done|by rewrite app_nil_r|done|done].
Qed.

(** The frame of a reply over a connection, as the client sees it. *)
Definition reply_header (data : bytes) (connID : Z) (w : world P) : eipHeader :=
  Server.newEIPHeader cipCommandSendUnitData
    (blen (concat [serializeItems [Write (le_bytes 4 connID) (empty_item cipItem_ConnectionAddress);
                                   Write data (empty_item cipItem_ConnectedData)]])) (w_h w).

Lemma connected_frame_eq connID data w :
  connected_frame connID data w = eipHeader_bytes (reply_header data connID w) ++
    serializeItems [Write (le_bytes 4 connID) (empty_item cipItem_ConnectionAddress);
                    Write data (empty_item cipItem_ConnectedData)].
Proof. unfold connected_frame, frame. by rewrite (app_nil_r (serializeItems _) : concat [_] = _) at 2. Qed.

Lemma length_two_items i0 i1 :
  blen (serializeItems [i0; i1]) = 16 + blen (item_Data i0) + blen (item_Data i1).
Proof.
  unfold serializeItems, item_Bytes, blen. cbn [map concat length].
  rewrite !length_app, !length_le_bytes. cbn [length]. lia.
Qed.

Lemma reply_header_ok data connID w :
  handler_ok (w_h w) -> 0 <= h_context (w_h w) < 2 ^ 64 -> blen data < 2 ^ 15 ->
  eipHeader_ok (reply_header data connID w) /\
  hdr_Status (reply_header data connID w) = 0 /\
  hdr_Length (reply_header data connID w) =
    blen (serializeItems [Write (le_bytes 4 connID) (empty_item cipItem_ConnectionAddress);
                          Write data (empty_item cipItem_ConnectedData)]).
Proof.
  intros (Hh & Ho) Hc Hl. unfold reply_header, Server.newEIPHeader, eipHeader_ok. cbn [hdr_Command hdr_Length
    hdr_SessionHandle hdr_Status hdr_Context hdr_Options concat]. rewrite app_nil_r.
  split; [split_and!; first [lia|apply wrap_bound; lia|done]|]. split; [done|].
  apply wrap_small. rewrite length_two_items. unfold Write, blen in *. cbn [item_Data empty_item app].
  rewrite length_le_bytes. lia.
Qed.

(** The reply the server sends to a read of v over the connection c. *)
Definition read_answer (c : serverConnection) (seq svc : Z) (image : bytes) (w : world P) : bytes :=
  connected_frame (conn_TO c) (read_reply_data seq (Service.AsResponse svc) image) w.

(** The client after a read. *)
Definition after_read (path : list tag_part) (ty : Z) (i : tagIOI) (c' : ioi_client) (se : list bytes) (wc : client_world) : client_world :=
  answered (se ++ [read_frame (render path) ty i wc]) (snd (sequencer (upd_ioi (fun _ => c') wc))).

Lemma client_reads_answer wc c seq svc image t v path w se :
  status wc = connectionStatusConnected -> handler_ok (w_h w) -> 0 <= h_context (w_h w) < 2 ^ 64 ->
  0 <= seq < 2 ^ 16 -> is_byte (Service.AsResponse svc) -> names_path (ioi (cw_client wc)) path (fst (GoVarToCIPType (zero_value t))) ->
  decodes image (fst (GoVarToCIPType (zero_value t))) t v ->
  exists i c', ioi_Buffer i = path_bytes path /\
    newIOI (render path) (fst (GoVarToCIPType (zero_value t))) (ioi (cw_client wc)) = (Ok i, c') /\
    read_typed U t (render path) (answer (read_answer c seq svc image w) se wc) =
      (Ok v, after_read path (fst (GoVarToCIPType (zero_value t))) i c' se wc).
Proof.
  intros Hs Hh Hctx Hseq Hsvc Hn (ty & ext & payload & -> & Hty & Hu & Hext & Hne & Hlen & Hdec).
  destruct (newIOI_names _ _ _ Hn) as (i & c' & Hi & _ & _ & Hb & Hbit). destruct (Hdec i Hbit) as (v0 & Hd & Hcast).
  unfold read_answer. rewrite connected_frame_eq.
  assert (blen (read_reply_data seq (Service.AsResponse svc) ([ty; blen ext] ++ ext ++ payload)) < 2 ^ 15) as Hl.
  { unfold read_reply_data, blen in *. rewrite !length_app, length_le_bytes. rewrite !length_app in Hlen. cbn [length] in *. lia. }
  destruct (reply_header_ok _ (conn_TO c) w Hh Hctx Hl) as (Hok & Hst & Hlh).
  set (h := reply_header _ _ _) in *. set (data := serializeItems _) in *.
  exists i, c'. split; [done|]. split; [done|].
  unfold read_typed. eapply step.
  - eapply (Read_single_answered U (render path) _ i c' h data ty payload v0); try done; [pose proof (np_firmware _ _ _ Hn); lia|].
    eapply parse_read_reply_items; [done|by apply Write_wf| |exact Hseq|exact Hsvc|exact Hty|exact Hu|exact Hext|exact Hne|reflexivity].
    apply Write_wf; [done|]. etrans; [exact Hl|done].
  - by rewrite Hcast.
Qed.

Lemma client_reads_spec ws wc c ep p path t v image rest se :
  status wc = connectionStatusConnected -> config_ok wc ->
  names_path (ioi (cw_client wc)) path (fst (GoVarToCIPType (zero_value t))) ->
  can_write ws -> handler_ok (w_h ws) -> routed ws (OTNetworkConnectionID (link wc)) c ep p ->
  stores p (render path) 1 v -> transferable v -> type_of v = Some t -> value_image v image ->
  exists i f c', ioi_Buffer i = path_bytes path /\
    newIOI (render path) (fst (GoVarToCIPType (zero_value t))) (ioi (cw_client wc)) = (Ok i, c') /\
    let ws' := received (Context_ (config wc)) (next_seq wc) rest ws in
    serve_one rand_Uint32 (feed (read_frame (render path) (fst (GoVarToCIPType (zero_value t))) i wc ++ rest) ws) = (Ok tt, sent f ws') /\
    read_typed U t (render path) (answer f se wc) = (Ok v, after_read path (fst (GoVarToCIPType (zero_value t))) i c' se wc).
Proof.
  intros Hs Hcfg Hn Hw Hh Hr Hst Hv Ht Him.
  set (dt := fst (GoVarToCIPType (zero_value t))) in *. set (svc := single_service dt (render path) wc).
  assert (0 <= next_seq wc < 2 ^ 16) as Hseq by by apply wrap_bound.
  assert (is_byte svc) as Hsvc by (unfold svc; by destruct (single_service_cases dt (render path) wc) as [->| ->]).
  assert (is_byte (Service.AsResponse svc)) as Hsvc'
    by (unfold svc; by destruct (single_service_cases dt (render path) wc) as [->| ->]).
  set (ws' := received (Context_ (config wc)) (next_seq wc) rest ws).
  destruct (client_reads_answer wc c (next_seq wc) svc image t v path ws' se) as (i & c' & Hb & Hi & Hread);
    [done|done|apply Hcfg|done|done|done|by apply image_decodes|].
  exists i, (read_answer c (next_seq wc) svc image ws'), c'. split; [done|]. split; [done|]. split; [|exact Hread].
  unfold read_frame. fold svc.
  rewrite (read_item_Write i _ svc path Hb). apply (serve_unit_frame ws (sent _ ws')); try done.
  { pose proof (blen_read_body svc path). destruct (np_path _ _ _ Hn) as (_ & _ & ?). lia. }
  intros j0 j1 Hid Hd0 Hd1 _. rewrite read_body_request in Hd1.
  assert (connectedRead svc j0 j1 ws' = (Ok tt, sent (read_answer c (next_seq wc) svc image ws') ws')) as E.
  { apply (connectedRead_spec ws' (OTNetworkConnectionID (link wc)) c ep p svc j0 j1 (next_seq wc)
      (u8 (blen (path_bytes path) / 2)) path 1 (read_footer svc) [] v image); try done.
    - by destruct Hr.
    - apply Hcfg.
    - by apply wrap_bound.
    - apply Hn. }
  unfold connected_service, svc in *.
  destruct (single_service_cases dt (render path) wc) as [Es|Es]; rewrite Es in *; apply wrapM_Ok, E.
Qed.

(** ** A write, end to end *)

(** What a write request carries behind the service. *)
Definition write_body (path : list tag_part) (v : goval) (bv : bytes) : bytes :=
  write_request_data (u8 (blen (path_bytes path) / 2)) path (fst (GoVarToCIPType v)) [bv] [].

Definition write_frame (path : list tag_part) (v : goval) (bv : bytes) (w : client_world) : bytes :=
  unit_frame (Write (le_bytes 2 (next_seq w) ++ [CIPService_Write] ++ write_body path v bv)
    (empty_item cipItem_ConnectedData)) w.

Lemma write_item_Ok seq i path v bv :
  ioi_Buffer i = path_bytes path -> scalar_ok v -> (forall s, v <> VString s) -> binary_write v = Ok bv ->
  Serialize [SBytes (service_req_bytes seq CIPService_Write (u8 (blen (ioi_Buffer i) / 2)));
             SBytes (ioi_Buffer i);
             SBytes (msgCIPWriteIOIFooter_Bytes (fst (GoVarToCIPType v)) (write_elements v));
             sarg_of v] (empty_item cipItem_ConnectedData) =
    (Ok tt, Write (le_bytes 2 seq ++ [CIPService_Write] ++ write_body path v bv) (empty_item cipItem_ConnectedData)).
Proof.
  intros Hi Hv Hs Hb. destruct (scalar_code v Hv Hs) as (Ht & _ & _ & Hts).
  assert (sarg_of v = SValue v) as -> by (destruct v; try done; by destruct (Hs s)).
  assert (write_elements v = 1) as -> by by destruct v.
  rewrite (Serialize_Ok _ [service_req_bytes seq CIPService_Write (u8 (blen (ioi_Buffer i) / 2)); ioi_Buffer i;
    msgCIPWriteIOIFooter_Bytes (fst (GoVarToCIPType v)) 1; bv]) by (try done; by repeat constructor).
  do 2 f_equal. unfold service_req_bytes, msgCIPWriteIOIFooter_Bytes, write_body, write_request_data, write_values.
  rewrite (proj2 (Z.eqb_neq _ CIPTypeSTRING)) by done. rewrite Hi. cbn [concat length].
  assert (le_bytes 2 (fst (GoVarToCIPType v)) = [fst (GoVarToCIPType v); 0]) as ->.
  { red in Ht. unfold le_bytes. rewrite Z.mod_small, Z.div_small by done. done. }
  rewrite <- !(assoc_L (++)), !app_nil_r. done.
Qed.

Lemma parse_write_reply_ok h i0 i1 seq svc :
  hdr_Status h = 0 -> item_wf i0 -> item_wf i1 -> 0 <= seq < 2 ^ 16 -> is_byte svc ->
  item_Data i1 = le_bytes 2 seq ++ [svc; 0; 0; 0] ->
  parse_write_reply h (serializeItems [i0; i1]) = Ok tt.
Proof.
  intros Hs Hi0 Hi1 Hseq Hsvc Hd. unfold parse_write_reply. rewrite Hs, after_CSD_items. cbn [negb Z.eqb].
  assert (Forall item_wf [i0; i1]) as Hwf by (apply Forall_cons_2; [done|apply Forall_cons_2; [done|apply Forall_nil_2]]).
  rewrite (parses_all _ _ _ (parses_items (R:=bytes) [i0; i1] Hwf eq_refl)). cbn [mbind res_bind map res_wrap second_item].
  pose proof (left_Reset i1) as [L1 L2]. rewrite Hd, <- (app_nil_r (_ ++ _)) in L2.
  assert (parses (R:=CIPItem) (read_struct 6 (_ ← read_u16; _ ← read_u8; _ ← read_u8; status ← read_u8; _ ← read_u8; mret status))
    (le_bytes 2 seq ++ [svc; 0; 0; 0]) 0) as Hp.
  { apply parses_struct; [|by rewrite length_app, length_le_bytes].
    change [svc; 0; 0; 0] with ([svc] ++ [0] ++ [0] ++ [0] ++ []). assert (is_byte 0) by done.
    do 5 parse_field. apply parses_ret. }
  by rewrite (Hp _ _ L1 L2).
Qed.

Lemma client_writes_spec ws wc c ep p p' path v bv rest se :
  status wc = connectionStatusConnected -> config_ok wc ->
  names_path (ioi (cw_client wc)) path (fst (GoVarToCIPType v)) ->
  can_write ws -> handler_ok (w_h ws) -> routed ws (OTNetworkConnectionID (link wc)) c ep p ->
  scalar_ok v -> (forall s, v <> VString s) -> binary_write v = Ok bv ->
  TagWrite (render path) v p = (Ok tt, p') ->
  exists f i c',
    let req := write_frame path v bv wc in
    serve_one rand_Uint32 (feed (req ++ rest) ws) =
      (Ok tt, sent f (with_ep ep p' (received (Context_ (config wc)) (next_seq wc) rest ws))) /\
    write_single U (render path) v (answer f se wc) =
      (Ok tt, answered (se ++ [req]) (snd (sequencer (upd_ioi (fun _ => c') wc)))) /\
    newIOI (render path) (fst (GoVarToCIPType v)) (ioi (cw_client wc)) = (Ok i, c') /\
    cached c' (ioi (cw_client wc)) path i.
Proof.
  intros Hs Hcfg Hn Hw Hh Hr Hv Hvs Hb Hwr.
  assert (0 <= next_seq wc < 2 ^ 16) as Hseq by by apply wrap_bound.
  set (ws' := received (Context_ (config wc)) (next_seq wc) rest ws).
  set (reply := le_bytes 2 (next_seq wc) ++ [Service.AsResponse CIPService_Write; 0; 0; 0]).
  set (f := connected_frame (TOConnectionID (w_h ws')) reply ws').
  destruct (newIOI_names _ _ _ Hn) as (i & c' & Hi & Hcached). destruct Hcached as (Hca1 & Hca2 & Hbuf & Hca3).
  exists f, i, c'. split; [|split].
  - apply (serve_unit_frame ws (sent f (with_ep ep p' ws'))); try done.
    { pose proof (binary_write_short v bv Hv Hb). destruct (np_path _ _ _ Hn) as (_ & _ & Hl).
      unfold write_body, write_request_data, write_values, blen in *. rewrite !length_app, length_le_bytes. cbn [concat length].
      rewrite ?length_app in *. cbn [length]. lia. }
    intros j0 j1 Hid Hd0 _ L1. unfold connected_service. change (CIPService_Write =? CIPService_Write) with true.
    cbv iota. apply wrapM_Ok.
    apply (cipConnectedWrite_spec ws' (OTNetworkConnectionID (link wc)) c ep p p' j0 j1
      (u8 (blen (path_bytes path) / 2)) path (fst (GoVarToCIPType v)) [v] [bv] [] []); try done.
    + by destruct Hr.
    + apply Hcfg.
    + by apply wrap_bound.
    + apply Hn.
    + by repeat constructor.
  - assert (blen reply < 2 ^ 15) as Hl by done.
    destruct (reply_header_ok reply (TOConnectionID (w_h ws')) ws' Hh) as (Hok & Hst & Hlh); [apply Hcfg|done|].
    unfold f. rewrite connected_frame_eq.
    unfold write_single. eapply step.
    { apply wrapM_Ok. apply client_newIOI_known; [pose proof (np_firmware _ _ _ Hn); lia|exact Hi]. }
    set (w1 := upd_ioi (fun _ => c') wc).
    match goal with |- context [answer ?g se w1] =>
      eapply (step _ _ _ (u32 (cw_sequenceValue wc + 1)) (answer g se (snd (sequencer w1)))); [reflexivity|] end.
    eapply step; [eapply on_Ok, wrapM_Ok; by apply write_item_Ok|]. cbv beta iota.
    eapply step; [by apply unit_request_answered|]. cbv beta iota. unfold lift.
    rewrite (parse_write_reply_ok _ _ _ (next_seq wc) (Service.AsResponse CIPService_Write)); try done; by apply Write_wf.
  - done.
Qed.

(** C3. What a client writes, a client reads: the frame of a write hands the
    value to the endpoint under the tag path and the one answer makes the
    write succeed; the frame of a later read of the same tag, by the same
    client on the same connection, makes the client return the value as the
    endpoint keeps it. *)
Theorem client_write_then_read ws wc c ep p p' path v bv se :
  status wc = connectionStatusConnected -> config_ok wc ->
  names_path (ioi (cw_client wc)) path (fst (GoVarToCIPType v)) ->
  can_write ws -> handler_ok (w_h ws) -> routed ws (OTNetworkConnectionID (link wc)) c ep p ->
  scalar_ok v -> (forall s, v <> VString s) -> binary_write v = Ok bv ->
  TagWrite (render path) v p = (Ok tt, p') ->
  exists f ws1 wc1 v',
    serve_one rand_Uint32 (feed (write_frame path v bv wc) ws) = (Ok tt, sent f ws1) /\
    write_single U (render path) v (answer f se wc) = (Ok tt, wc1) /\
    written v v' /\
    forall t image, transferable v' -> type_of v' = Some t -> value_image v' image ->
      t <> TBool \/ Forall (fun p => tp_idx p = []) path ->
      exists req f2 wc2,
        serve_one rand_Uint32 (feed req (sent f ws1)) =
          (Ok tt, sent f2 (received (Context_ (config wc1)) (next_seq wc1) [] (sent f ws1))) /\
        read_typed U t (render path) (answer f2 se wc1) = (Ok v', wc2) /\
        conn (link wc2) = Some {| nc_open := true; nc_script := []; nc_rx := []; nc_sent := se ++ [req] |}.
Proof.
  intros Hs Hcfg Hn Hw Hh Hr Hv Hvs Hb Hwr.
  destruct (client_writes_spec ws wc c ep p p' path v bv [] se) as (f & i & c' & E1 & E2 & _ & Hca); try done.
  rewrite app_nil_r in E1.
  destruct (TagWrite_stores p (render path) v p' Hwr) as (v' & Hw' & Hst); [by destruct v|by destruct v|].
  eexists f, _, _, v'. split; [exact E1|]. split; [exact E2|]. split; [done|].
  intros t image Hv' Ht Him Hbool. set (ws1 := with_ep _ _ _). set (wc1 := answered _ _).
  destruct (client_reads_spec (sent f ws1) wc1 c ep p' path t v' image [] se) as (i2 & f2 & c2 & _ & _ & E3 & E4); try done.
  - eapply names_path_cached; [exact Hn|exact Hca|]. destruct Hbool as [Hbool|Hbool].
    + apply list.Forall_forall. intros q _. left. destruct v' as [| |k ?| | | | | | |]; try done; injection Ht as <-; try done.
      by destruct k.
    + eapply Forall_impl; [|exact Hbool]. intros q Hq. by right.
  - apply routed_sent. eapply routed_with_ep. by destruct Hr.
  - rewrite app_nil_r in E3. eexists _, f2, _. split; [exact E3|]. by split.
Qed.

(** C4. A value stored on the server is what the client's Read returns: the
    frame the client sends for a tag path is served, the server's one answer
    makes the client return exactly the stored value in the type asked for,
    and neither the server's store nor the client's connection changes. *)
Theorem client_reads_server ws wc c ep p path t v image rest se :
  status wc = connectionStatusConnected -> config_ok wc ->
  names_path (ioi (cw_client wc)) path (fst (GoVarToCIPType (zero_value t))) ->
  can_write ws -> handler_ok (w_h ws) -> routed ws (OTNetworkConnectionID (link wc)) c ep p ->
  stores p (render path) 1 v -> transferable v -> type_of v = Some t -> value_image v image ->
  exists i f wc',
    let req := read_frame (render path) (fst (GoVarToCIPType (zero_value t))) i wc in
    let ws' := received (Context_ (config wc)) (next_seq wc) rest ws in
    serve_one rand_Uint32 (feed (req ++ rest) ws) = (Ok tt, sent f ws') /\
    read_typed U t (render path) (answer f se wc) = (Ok v, wc') /\
    conn (link wc') = Some {| nc_open := true; nc_script := []; nc_rx := []; nc_sent := se ++ [req] |}.
Proof.
  intros Hs Hcfg Hn Hw Hh Hr Hst Hv Ht Him.
  destruct (client_reads_spec ws wc c ep p path t v image rest se) as (i & f & c' & _ & _ & E1 & E2); [done..|].
  eexists i, f, _. split; [exact E1|]. by split.
Qed.
End Composition.

(** ** Witnesses *)

(** A connected client of the connection that sample_server has open. *)
Definition sample_client : client_world :=
  {| cw_client := {| cfg := new_config;
       lnk := set_OTNetworkConnectionID 5 (set_connStatus connectionStatusConnected new_link);
       ioi := {| ioi_cache := ∅; KnownTags := None; firmware := 20; catalog := no_types |} |};
     cw_dials := []; cw_sequenceValue := 5; cw_connectionSerialValue := 0; cw_clock := 0 |}.

Lemma sample_names ty : names_path (ioi (cw_client sample_client)) tag_x ty.
Proof.
  split; [done|by left|done|split; [done|split; [exact tag_x_ok|done]]|].
  apply Forall_cons_2; [by right|apply Forall_nil_2].
Qed.

Lemma sample_stores : stores sample_provider (render tag_x) 1 (VInt I32 5).
Proof. eexists. split; [reflexivity|]. vm_compute. reflexivity. Qed.

Lemma sample_image : value_image (VInt I32 5) ([0xC4; 0] ++ [5; 0; 0; 0]).
Proof. apply (image_fixed (VInt I32 5) [5; 0; 0; 0]); [reflexivity|discriminate|reflexivity]. Qed.

Lemma client_reads_server_witness :
  let ws := sample_server sample_provider in
  exists i f wc',
    let req := read_frame (render tag_x) CIPTypeDINT i sample_client in
    let ws' := received 0 6 [] ws in
    serve_one (fun _ => 1) (feed (req ++ []) ws) = (Ok tt, sent f ws') /\
    read_typed (fun _ => 0) (TInt I32) (render tag_x) (answer f [] sample_client) = (Ok (VInt I32 5), wc') /\
    conn (link wc') = Some {| nc_open := true; nc_script := []; nc_rx := []; nc_sent := [] ++ [req] |}.
Proof.
  apply (client_reads_server (fun _ => 1) (fun _ => 0) (sample_server sample_provider) sample_client
    sample_connection 1%positive sample_provider tag_x (TInt I32) (VInt I32 5) ([0xC4; 0] ++ [5; 0; 0; 0]) [] []).
  - reflexivity.
  - zbound.
  - apply sample_names.
  - reflexivity.
  - zbound.
  - apply sample_routed.
  - apply sample_stores.
  - zbound.
  - reflexivity.
  - apply sample_image.
Defined.


Lemma client_write_then_read_witness :
  let ws := sample_server sample_provider in
  exists p' f ws1 wc1 v',
    TagWrite (render tag_x) (VInt I32 9) sample_provider = (Ok tt, p') /\
    serve_one (fun _ => 1) (feed (write_frame tag_x (VInt I32 9) [9; 0; 0; 0] sample_client) ws) =
      (Ok tt, sent f ws1) /\
    write_single (fun _ => 0) (render tag_x) (VInt I32 9) (answer f [] sample_client) = (Ok tt, wc1) /\
    written (VInt I32 9) v' /\
    forall t image, transferable v' -> type_of v' = Some t -> value_image v' image ->
      t <> TBool \/ Forall (fun p => tp_idx p = []) tag_x ->
      exists req f2 wc2,
        serve_one (fun _ => 1) (feed req (sent f ws1)) =
          (Ok tt, sent f2 (received (Context_ (config wc1)) (next_seq wc1) [] (sent f ws1))) /\
        read_typed (fun _ => 0) t (render tag_x) (answer f2 [] wc1) = (Ok v', wc2) /\
        conn (link wc2) = Some {| nc_open := true; nc_script := []; nc_rx := []; nc_sent := [] ++ [req] |}.
Proof.
  assert (exists p', TagWrite (render tag_x) (VInt I32 9) sample_provider = (Ok tt, p')) as [p' Hp]
    by (eexists; vm_compute; reflexivity).
  destruct (client_write_then_read (fun _ => 1) (fun _ => 0) (sample_server sample_provider) sample_client
    sample_connection 1%positive sample_provider p' tag_x (VInt I32 9) [9; 0; 0; 0] [])
    as (f & ws1 & wc1 & v' & H1 & H2 & H3 & H4).
  - reflexivity.
  - zbound.
  - apply sample_names.
  - reflexivity.
  - zbound.
  - apply sample_routed.
  - zbound.
  - discriminate.
  - reflexivity.
  - exact Hp.
  - exists p', f, ws1, wc1, v'. split; [exact Hp|]. split; [exact H1|]. split; [exact H2|]. split; [exact H3|].
    exact H4.
Defined.
