(* ===== verification/EndToEndInfo.v ===== *)
(** * The client asks the server what it is

    ListIdentity and ListServices of the client against the server of the
    package, from the client's frame to the values it returns. *)
From S2P Require Import Prelude Reader GoStrings GoValue CipNames CipDefs Types Items Ioi Conns Router Messages Server ServerAttr ServerConnected ServerUnconnected ServerReplies ServerData ServerObjects Client ClientTags ClientConn ClientScript Templates Identity EndToEnd.

(** ** Decoding *)

Section Parse.
Context {R : Type} `{ReaderLaws R}.

Lemma parses_be_raw bs : parses (R:=R) (read_be (length bs)) bs (le_val (rev bs)).
Proof. unfold read_be. eapply parses_bind_nil; [by apply parses_slice|apply parses_ret]. Qed.

Lemma parses_be n v : 0 <= v < 2 ^ (8 * Z.of_nat n) -> parses (R:=R) (read_be n) (be_bytes n v) v.
Proof.
  intros Hv. pose proof (parses_be_raw (be_bytes n v)) as P. unfold be_bytes in *.
  rewrite length_rev, length_le_bytes, rev_involutive, le_val_le_bytes, Z.mod_small in P by done. exact P.
Qed.
End Parse.

(** What a client makes of the identity of a server at an address. *)
Definition identity_response (d : identity) (ip : bytes) (port : Z) : listIdentityResponeBody :=
  {| EncapProtocolVersion := 1;
     SocketAddress := {| Family := 2; Port := port; Address := le_val (rev (default [0; 0; 0; 0] (To4 ip)));
                         Zero0 := 0; Zero1 := 0 |};
     Vendor := u16 (id_vendor d); DeviceType := u16 (id_type d); ProductCode := u16 (id_product d);
     Revision := u16 (id_revision d); Status := u16 (id_status d); SerialNumber := id_serial d;
     ProductName := cap255 (id_name d); State := 0xFF |}.

Lemma parses_ParseIdentity d ip port :
  Forall (int_ok I16) [id_vendor d; id_type d; id_product d; id_revision d; id_status d] -> int_ok U32 (id_serial d) ->
  0 <= port < 2 ^ 16 ->
  parses (R:=bytes) ParseIdentity
    (le_bytes 2 1 ++ be_bytes 2 2 ++ be_bytes 2 port ++ default [0; 0; 0; 0] (To4 ip) ++ replicate 8 0 ++
     identity_bytes d ++ [0xFF]) (identity_response d ip port).
Proof.
  intros _ Hs Hp. pose proof (blen_cap255 (id_name d)) as Hn. unfold identity_bytes. rewrite <- !(assoc_L (++)).
  assert (forall v, parses (R:=bytes) read_u16 (le_bytes 2 v) (u16 v)) as P16 by (intros v; exact (parses_uint_wrap 2 v)).
  unfold ParseIdentity. eapply parses_bind; [by apply parses_wrapM, (parses_u16 1)|].
  set (addr := default [0; 0; 0; 0] (To4 ip)). set (fields := le_bytes 2 (id_vendor d) ++ _).
  assert (be_bytes 2 2 ++ be_bytes 2 port ++ addr ++ replicate 8 0 ++ fields =
    (be_bytes 2 2 ++ be_bytes 2 port ++ addr ++ replicate 8 0) ++ fields) as -> by by rewrite <- !(assoc_L (++)).
  subst addr fields. eapply parses_bind.
  { apply parses_wrapM, parses_struct.
    - eapply parses_bind; [by apply (parses_be 2 2)|]. eapply parses_bind; [by apply (parses_be 2 port)|].
      eapply parses_bind; [rewrite <- (To4_length ip) at 1; apply parses_be_raw|].
      change (replicate 8 0) with ([0; 0; 0; 0] ++ [0; 0; 0; 0]).
      eapply parses_bind; [apply (parses_be_raw [0; 0; 0; 0])|].
      eapply parses_bind_nil; [apply (parses_be_raw [0; 0; 0; 0])|apply parses_ret].
    - rewrite !length_app, To4_length. reflexivity. }
  do 5 (eapply parses_bind; [apply parses_wrapM, P16|]).
  eapply parses_bind; [by apply parses_wrapM, parses_u32|].
  eapply parses_bind; [apply parses_wrapM, parses_u8; red; lia|].
  eapply parses_bind; [apply parses_wrapM, parses_slice; unfold blen; by rewrite Nat2Z.id|].
  eapply parses_bind_nil; [by apply parses_wrapM, (parses_u8 0xFF)|]. apply parses_ret.
Qed.

(** ** The command at the server and its answer at the client *)

Section Composition.
Context {P : Type} `{EndpointLaws P} (rand_Uint32 : nat -> Z).

Definition command_frame (cmd : Z) (w : client_world) : bytes := client_frame cmd [] w.

(** The handler behind the header of a command. *)
Definition heard_command (wc : client_world) (rest : bytes) (w : world P) : world P :=
  upd_h (set_context (Context_ (config wc))) (feed rest w).

Lemma serve_command cmd wc rest ws :
  config_ok wc -> 0 <= cmd < 2 ^ 16 ->
  serve_one rand_Uint32 (feed (command_frame cmd wc ++ rest) ws) =
    handle_command rand_Uint32 (client_header cmd [] wc) (heard_command wc rest ws).
Proof.
  intros (Hsess & Hctx & _) Hcmd. unfold command_frame, client_frame. rewrite app_nil_r. unfold serve_one.
  eapply step.
  { eapply wrapM_Ok, on_conn_Ok, parses_eipHeader. unfold eipHeader_ok, client_header.
    cbn [hdr_Command hdr_Length hdr_SessionHandle hdr_Status hdr_Context hdr_Options].
    split_and!; first [lia|apply wrap_bound; lia|done]. }
  eapply step; [reflexivity|]. reflexivity.
Qed.

(** The header of a reply with the payload, as the client reads it. *)
Lemma frame_parts cmd payload (w : world P) :
  handler_ok (w_h w) -> 0 <= h_context (w_h w) < 2 ^ 64 -> 0 <= cmd < 2 ^ 16 -> blen payload < 2 ^ 16 ->
  exists h, frame cmd [payload] (w_h w) = eipHeader_bytes h ++ payload /\ eipHeader_ok h /\ hdr_Length h = blen payload.
Proof.
  intros (Hh & Ho) Hc Hcmd Hl. exists (Server.newEIPHeader cmd (blen payload) (w_h w)).
  unfold frame. cbn [concat]. rewrite !app_nil_r. split; [done|].
  unfold Server.newEIPHeader, eipHeader_ok. cbn [hdr_Command hdr_Length hdr_SessionHandle hdr_Status hdr_Context hdr_Options].
  split; [split_and!; first [lia|apply wrap_bound; lia|done]|]. apply wrap_small. unfold blen in *. lia.
Qed.

Lemma send_command_answered cmd rcmd payload se wc (w : world P) :
  handler_ok (w_h w) -> 0 <= h_context (w_h w) < 2 ^ 64 -> 0 <= rcmd < 2 ^ 16 -> blen payload < 2 ^ 16 ->
  exists h, send_recv_data cmd [] (answer (frame rcmd [payload] (w_h w)) se wc) =
    (Ok (h, payload), answered (se ++ [command_frame cmd wc]) wc).
Proof.
  intros Hh Hc Hr Hl. destruct (frame_parts rcmd payload w Hh Hc Hr Hl) as (h & -> & Hok & Hlen).
  exists h. exact (send_recv_msgs cmd [] h payload [] se wc Hok Hlen).
Qed.

(** C15.  A client learns from the server what it was configured to be: the
    frame of ListIdentity makes the server answer one frame from its table of
    attributes and the address it was reached at, and from that frame the
    client returns exactly those attributes (the name cut to the 255 bytes
    its length can count), the address and the port. *)
Theorem client_identifies_server ws wc d ip port se rest :
  config_ok wc -> can_write ws -> handler_ok (w_h ws) ->
  identity_attrs (Attributes (w_srv ws)) d ->
  extractLocalSocket (c_local (h_conn (w_h ws))) = (ip, port) -> 0 <= port < 2 ^ 16 ->
  exists f, serve_one rand_Uint32 (feed (command_frame cipCommandListIdentity wc ++ rest) ws) =
      (Ok tt, sent f (heard_command wc rest ws)) /\
    ListIdentity (answer f se wc) =
      (Ok (identity_response d ip port), answered (se ++ [command_frame cipCommandListIdentity wc]) wc).
Proof.
  intros Hc Hw Hh Hd Hsock Hport. set (w := heard_command wc rest ws).
  pose proof (list_identity_body _ _ ip port Hd) as Hbody.
  set (body := _ ++ _) in Hbody. pose proof Hd as [Hi Hs _ _ _ _ _ _ _].
  pose proof (parses_ParseIdentity d ip port Hi Hs Hport) as Hp. fold body in Hp.
  assert (blen body = 34 + blen (cap255 (id_name d))) as Hlen.
  { unfold body, identity_bytes, blen. rewrite !length_app, To4_length, !length_le_bytes, length_replicate.
    unfold be_bytes. rewrite !length_rev, !length_le_bytes. simpl (length [_]). lia. }
  pose proof (blen_cap255 (id_name d)) as Hn.
  exists (frame cipCommandListIdentity [frameListIdentityResponse body] (w_h w)). split.
  - rewrite (serve_command cipCommandListIdentity wc rest ws Hc) by done. fold w. unfold handle_command.
    change (hdr_Command _) with cipCommandListIdentity.
    change (cipCommandListIdentity =? cipCommandRegisterSession) with false.
    change (cipCommandListIdentity =? cipCommandSendRRData) with false.
    change (cipCommandListIdentity =? cipCommandSendUnitData) with false.
    change (cipCommandListIdentity =? cipCommandListServices) with false. rewrite Z.eqb_refl. cbv iota.
    apply wrapM_Ok. unfold sendListIdentityReply. eapply step; [reflexivity|].
    change (c_local (h_conn (w_h w))) with (c_local (h_conn (w_h ws))). rewrite Hsock.
    eapply step; [reflexivity|]. change (Attributes (w_srv w)) with (Attributes (w_srv ws)).
    eapply step; [by rewrite Hbody|]. unfold send. rewrite (bind_Ok get _ w w w eq_refl). unfold conn_Write.
    change (c_werr (h_conn (w_h w))) with (c_werr (h_conn (w_h ws))). unfold can_write in Hw. by rewrite Hw.
  - destruct (send_command_answered cipCommandListIdentity cipCommandListIdentity (frameListIdentityResponse body) se wc w) as (h & E);
      [exact Hh|apply Hc|done| |].
    { unfold frameListIdentityResponse, blen in *. rewrite !length_app, !length_le_bytes. lia. }
    unfold ListIdentity. eapply step; [exact E|]. cbv beta iota.
    set (i := {| item_ID := cipIdentityItemType; item_Length := blen body; item_Data := body; item_Pos := 0 |}).
    assert (parses (R:=bytes) readItems (frameListIdentityResponse body) [i]) as Hitems.
    { assert (frameListIdentityResponse body = le_bytes 2 1 ++ concat (map item_Bytes [i])) as ->
        by (cbn [map concat]; by rewrite app_nil_r).
      apply (parses_items [i]); [|done].
      apply Forall_cons_2; [|apply Forall_nil_2]. split_and!; [zbound|zbound| |done]. cbn [item_Data i]. unfold blen in *. lia. }
    eapply step; [by rewrite (Hitems _ [] Logic.I (eq_sym (app_nil_r _)))|]. cbv beta iota.
    apply wrapM_Ok. exact (f_equal (fun r => lift (fst r) _) (Hp body [] Logic.I (eq_sym (app_nil_r _)))).
Qed.

(** The item of a server's list of services announces 10 bytes, too few for a
    service: the client cannot read it. *)
Lemma services_not_read ws wc se rest :
  config_ok wc -> can_write ws -> handler_ok (w_h ws) ->
  exists f e, serve_one rand_Uint32 (feed (command_frame cipCommandListServices wc ++ rest) ws) =
      (Ok tt, sent f (heard_command wc rest ws)) /\
    fst (ListServices (answer f se wc)) = Err e.
Proof.
  intros Hc Hw Hh. set (w := heard_command wc rest ws).
  destruct (send_command_answered cipCommandListServices cipCommandSendRRData listServicesReply_bytes se wc w) as (h & E);
    [exact Hh|apply Hc|done|done|].
  exists (frame cipCommandSendRRData [listServicesReply_bytes] (w_h w)). eexists. split.
  - rewrite (serve_command cipCommandListServices wc rest ws Hc) by done. fold w. unfold handle_command.
    change (hdr_Command _) with cipCommandListServices. cbn [Z.eqb].
    apply wrapM_Ok. unfold sendListServicesData, send. rewrite (bind_Ok get _ w w w eq_refl). unfold conn_Write.
    change (c_werr (h_conn (w_h w))) with (c_werr (h_conn (w_h ws))). unfold can_write in Hw. by rewrite Hw.
  - unfold ListServices. erewrite bind_Ok by exact E. vm_compute. reflexivity.
Qed.
End Composition.

(** ** Witness, and the inputs of the repository's tests *)

(** A server with the default attributes, reached at an address. *)
Definition sample_device : world MapTagProvider :=
  upd_h (Server.set_conn {| c_in := []; c_out := []; c_werr := None; c_local := TCPAddr [192; 168; 1; 50] 44818 |})
    (sample_server sample_provider).

Definition sample_identity : identity :=
  {| id_vendor := 0x1776; id_type := 14; id_product := 1; id_revision := 0x1412;
     id_status := 0x3060; id_serial := 7; id_name := str "Gologix" |}.

Lemma client_identifies_server_witness :
  exists f, serve_one (fun _ => 1) (feed (command_frame cipCommandListIdentity sample_client ++ []) sample_device) =
      (Ok tt, sent f (heard_command sample_client [] sample_device)) /\
    ListIdentity (answer f [] sample_client) =
      (Ok (identity_response sample_identity [192; 168; 1; 50] 44818),
       answered ([] ++ [command_frame cipCommandListIdentity sample_client]) sample_client).
Proof.
  apply (client_identifies_server (fun _ => 1) sample_device sample_client sample_identity [192; 168; 1; 50] 44818 [] []).
  - zbound.
  - reflexivity.
  - zbound.
  - split; try reflexivity.
    + repeat apply Forall_cons_2; try apply Forall_nil_2; zbound.
    + zbound.
  - reflexivity.
  - zbound.
Defined.

Example identity_address : Address (SocketAddress (identity_response sample_identity [192; 168; 1; 50] 44818)) = 0xC0A80132.
Proof. reflexivity. Qed.

Example device_and_vendor_names :
  VendorNames.VendorId_Name 1 = "Rockwell Automation/Allen-Bradley"%string /\ VendorNames.VendorId_Name 9999 = "Reserved"%string /\
  DeviceType_Name 0x02 = "AC Drive"%string /\ DeviceType_Name 0x99 = "Unknown"%string.
Proof. repeat split. Qed.

Example identity_parsed :
  fst (ParseIdentity (R:=bytes) [1; 0; 0; 2; 175; 18; 192; 168; 1; 65; 0; 0; 0; 0; 0; 0; 0; 0; 21; 5; 12; 0; 1; 0; 1; 2;
    52; 0; 3; 232; 34; 23; 20; 73; 81; 32; 83; 101; 110; 115; 111; 114; 32; 78; 101; 116; 32; 83; 121; 115; 116; 101;
    109; 3]) =
  Ok {| EncapProtocolVersion := 1;
        SocketAddress := {| Family := 2; Port := 44818; Address := 3232235841; Zero0 := 0; Zero1 := 0 |};
        Vendor := 0x0515; DeviceType := 12; ProductCode := 1; Revision := 0x0201; Status := 0x0034;
        SerialNumber := 0x1722E803; ProductName := str "IQ Sensor Net System"; State := 3 |}.
Proof. vm_compute. reflexivity. Qed.

Example service_parsed :
  fst (ParseService (R:=bytes) [1; 0; 32; 1; 67; 111; 109; 109; 117; 110; 105; 99; 97; 116; 105; 111; 110; 115; 0; 0]) =
  Ok {| ls_EncapProtocolVersion := 1;
        ls_Capabilities := Z.lor ServiceCapabilityFlag_CipEncapsulation ServiceCapabilityFlag_SupportsClass1UDP;
        ls_Name := str "Communications" |}.
Proof. vm_compute. reflexivity. Qed.
