(* ===== verification/EndToEndList.v ===== *)
(** * Many tags at once, end to end

    The one multiple-service request of a ReadMap, served by the server of
    the same package, and the values the client takes out of its reply. *)
From S2P Require Import Prelude Reader GoStrings GoValue CipNames CipDefs Types Items Ioi TagPath Pack Path Conns Router Messages Server ServerAttr ServerConnected ServerUnconnected ServerReplies ServerData Client ClientTags ClientConn ClientScript MultiRead MultiReadProofs ServerMulti EndToEnd.

(** ** The client on the reply *)

Lemma jump_table_offsets pos rs : jump_table pos rs = concat (le_bytes 2 <$> request_offsets pos rs).
Proof.
  revert pos. induction rs as [|r rs IH]; intros pos; [done|]. cbn [jump_table request_offsets fmap list_fmap concat].
  change (list_fmap _ _ (le_bytes 2) (request_offsets (pos + blen r) rs)) with (le_bytes 2 <$> request_offsets (pos + blen r) rs).
  rewrite <- IH. f_equal. symmetry. apply (le_bytes_mod 2).
Qed.

(** The data of the second item of a reply with the given entries. *)
Definition reply_payload (rs : list bytes) : bytes :=
  le_bytes 2 (Z.of_nat (length rs)) ++ jump_table ((Z.of_nat (length rs) + 1) * 2) rs ++ concat rs.
Definition reply_offsets (rs : list bytes) : list Z := request_offsets ((Z.of_nat (length rs) + 1) * 2) rs.

Lemma parses_times_u16 l :
  Forall (fun o => 0 <= o < 2 ^ 16) l -> parses (R:=bytes) (read_times (length l) read_u16) (concat (le_bytes 2 <$> l)) l.
Proof.
  induction 1 as [|o l Ho Hl IH]; [apply parses_ret|]. eapply parses_bind; [by apply parses_u16|].
  eapply parses_bind_nil; [exact IH|apply parses_ret].
Qed.

Lemma request_offsets_u16 pos rs : Forall (fun o => 0 <= o < 2 ^ 16) (request_offsets pos rs).
Proof. revert pos. induction rs as [|r rs IH]; intros pos; [constructor|]. apply Forall_cons_2; [by apply wrap_bound|apply IH]. Qed.

Lemma parse_multi_reply_items h i0 i1 seq svc rs :
  hdr_Status h = 0 -> item_wf i0 -> item_wf i1 -> 0 <= seq < 2 ^ 16 -> is_byte svc ->
  Z.of_nat (length rs) < 2 ^ 16 -> item_Data i1 = le_bytes 2 seq ++ [svc; 0; 0; 0] ++ reply_payload rs ->
  parse_multi_reply h (serializeItems [i0; i1]) = Ok (reply_offsets rs, item_Bytes i1).
Proof.
  intros Hs Hi0 Hi1 Hseq Hsvc Hn Hd. unfold parse_multi_reply. rewrite Hs, after_CSD_items. cbn [negb Z.eqb].
  assert (Forall item_wf [i0; i1]) as Hwf by (apply Forall_cons_2; [done|apply Forall_cons_2; [done|apply Forall_nil_2]]).
  rewrite (parses_all _ _ _ (parses_items (R:=bytes) [i0; i1] Hwf eq_refl)). cbn [mbind res_bind map res_wrap].
  set (n := Z.of_nat (length rs)) in *.
  assert (parses (R:=CIPItem) (count ← read_multi_header;
      offset_table ← wrapM "problem reading offset table"
        (read_struct (2 * Z.to_nat count) (read_times (Z.to_nat count) read_u16));
      mret (offset_table, item_Bytes (Reset i1)))
    ((le_bytes 2 seq ++ [svc] ++ [0] ++ le_bytes 2 0 ++ le_bytes 2 n) ++ concat (le_bytes 2 <$> reply_offsets rs))
    (reply_offsets rs, item_Bytes (Reset i1))) as Hp.
  { eapply (parses_bind _ _ _ _ n).
    - unfold read_multi_header.
      eapply parses_bind; [apply parses_wrapM, (parses_item_uint 2 seq); [lia|done]|].
      eapply parses_bind; [by apply parses_wrapM, (parses_item_Byte svc)|].
      eapply parses_bind; [by apply parses_wrapM, (parses_item_Byte 0)|].
      eapply parses_bind; [apply parses_wrapM, (parses_item_uint 2 0); [lia|done]|]. cbv beta.
      change (negb (0 =? CIPStatus_OK) && _) with false. cbv iota.
      apply parses_wrapM, (parses_item_uint 2 n); [lia|]. unfold n in *. lia.
    - cbv beta. assert (Z.to_nat n = length (reply_offsets rs)) as ->.
      { unfold reply_offsets. rewrite length_request_offsets. unfold n. lia. }
      eapply parses_bind_nil; [|apply parses_ret]. apply parses_wrapM, parses_struct.
      + apply parses_times_u16, request_offsets_u16.
      + pose proof (blen_concat_le2 (reply_offsets rs)) as E. unfold blen in E. lia. }
  pose proof (left_Reset i1) as [L1 L2]. rewrite Hd in L2. unfold reply_payload in L2. fold n in L2.
  rewrite jump_table_offsets in L2.
  rewrite (Hp (Reset i1) (concat rs) L1); [done|]. etrans; [exact L2|]. rewrite <- !(assoc_L (++)). done.
Qed.

(** An entry cut out of the reply, decoded. *)
Definition entry_ok (r : bytes) (x : fragReadTagResult) : Prop := 4 <= blen r /\ fst (frag_entry r) = Ok x.

Lemma frag_entries_Ok pre Y rs xs start tags :
  length pre = 10%nat -> 0 <= start -> drop (Z.to_nat start) Y = concat rs -> start + blen (concat rs) < 2 ^ 16 ->
  start <= blen Y -> Forall2 entry_ok rs xs -> (length rs <= tags)%nat ->
  frag_entries (request_offsets start rs) (pre ++ Y) tags = Ok xs.
Proof.
  intros Hpre Hs Hd Hl HY Hrs. revert start tags Hs Hd Hl HY.
  induction Hrs as [|r x rs xs [Hr Hx] Hrs IH]; intros start tags Hs Hd Hl HY Ht; [done|].
  assert (blen (pre ++ Y) = 10 + blen Y) as HB by (unfold blen; rewrite length_app; lia).
  assert (blen (concat (r :: rs)) = blen r + blen (concat rs) /\ 0 <= blen (concat rs)) as [HC HC0].
  { unfold blen. cbn [concat]. rewrite length_app. lia. }
  assert (blen Y = start + blen (concat (r :: rs))) as HY'.
  { unfold blen in *. apply (f_equal length) in Hd. rewrite length_drop in Hd. lia. }
  cbn [request_offsets]. rewrite (wrap_small 16 start) by lia. cbn [frag_entries]. cbv zeta.
  set (stop := match request_offsets (start + blen r) rs with o' :: _ => o' + 10 | [] => blen (pre ++ Y) end) in *.
  assert (stop = start + blen r + 10) as Hstop.
  { unfold stop. destruct rs as [|r2 rs]; cbn [request_offsets].
    - rewrite HB, HY', HC. unfold blen. simpl. lia.
    - rewrite wrap_small; [lia|]. unfold blen in *. cbn [concat] in *. rewrite length_app in *. lia. }
  rewrite (proj2 (Z.ltb_ge (start + 10) 0)), (proj2 (Z.ltb_ge (blen (pre ++ Y)) (start + 10))),
    (proj2 (Z.ltb_ge stop (start + 10))), (proj2 (Z.ltb_ge (blen (pre ++ Y)) stop)) by lia. cbn [orb].
  replace (Z.to_nat (start + 10)) with (length pre + Z.to_nat start)%nat by lia.
  rewrite drop_app_add, Hd. cbn [concat].
  replace (Z.to_nat (stop - (start + 10))) with (length r) by (unfold blen in *; lia).
  rewrite take_app_length, (proj2 (Z.ltb_ge (blen r) 4)) by lia. rewrite Hx. cbv zeta.
  rewrite IH; [done|lia| |lia|lia|simpl in Ht; lia].
  replace (Z.to_nat (start + blen r)) with (Z.to_nat start + length r)%nat by (unfold blen; lia).
  rewrite <- drop_drop, Hd. cbn [concat]. by rewrite drop_app_length.
Qed.

(** ** Rounds *)

Lemma index_all_seq {A} (l : list A) : index_all l (seq 0 (length l)) = Ok l.
Proof.
  unfold index_all. assert (mapM (fun i => l !! i) (seq 0 (length l)) = Some l) as ->; [|done].
  apply mapM_Some_2. apply Forall2_same_length_lookup. split; [apply length_seq|].
  intros k i x Hi Hx. apply lookup_seq in Hi as [-> _]. done.
Qed.

Lemma add_results_all xs pre :
  Forall (fun x => fr_Status x = CIPStatus_OK) xs ->
  add_results xs (seq (length pre) (length xs)) (pre ++ replicate (length xs) frag_start) =
    Ok (pre ++ ((fun x => add_result x frag_start) <$> xs), []).
Proof.
  intros Hx. revert pre. induction Hx as [|x xs Hx Hxs IH]; intros pre; [done|].
  cbn [length seq add_results replicate]. rewrite Hx.
  assert (alter (add_result x) (length pre) (pre ++ frag_start :: replicate (length xs) frag_start) =
    (pre ++ [add_result x frag_start]) ++ replicate (length xs) frag_start) as ->.
  { rewrite <- (assoc_L (++)). cbn [app]. rewrite alter_app_r_alt by lia. by rewrite Nat.sub_diag. }
  replace (S (length pre)) with (length (pre ++ [add_result x frag_start])) by (rewrite length_app; simpl; lia).
  rewrite IH. cbn. by rewrite <- (assoc_L (++)).
Qed.

(** ** The tags of a map *)

(** A map entry: the tag's path, the Go type of the value the map holds, and
    what the server stores, with its image on the wire. *)
Record map_entry := {
  me_path : list tag_part;
  me_type : gotype;
  me_val : goval;
  me_image : bytes;
}.

Definition me_ty (e : map_entry) : Z := fst (GoVarToCIPType (zero_value (me_type e))).
Definition me_kv (e : map_entry) : bytes * goval := (render (me_path e), zero_value (me_type e)).
Definition me_tag (e : map_entry) : tagDesc := tag_of (render (me_path e)) (zero_value (me_type e)).
Definition me_svc (connSize : Z) (e : map_entry) : Z := readServiceForTag (me_tag e) connSize.
Definition me_multi (connSize : Z) (e : map_entry) : multi_tag :=
  {| mt_svc := me_svc connSize e; mt_path := me_path e; mt_tail := read_footer (me_svc connSize e);
     mt_val := me_val e; mt_image := me_image e |}.

Definition me_ok (e : map_entry) : Prop :=
  transferable (me_val e) /\ type_of (me_val e) = Some (me_type e) /\ value_image (me_val e) (me_image e).

(** What a client that names tags by their paths has in its cache. *)
Definition cache_sound (c : ioi_client) : Prop := forall path i,
  path <> [] -> Forall part_ok path -> ioi_cache c !! render path = Some i ->
  ioi_Buffer i = path_bytes path /\ ioi_BitAccess i = false.

(** Go map keys are distinct. *)
Record all_names (c : ioi_client) (es : list map_entry) : Prop := {
  an_keys : NoDup ((fun e => render (me_path e)) <$> es);
  an_names : Forall (fun e => names_path c (me_path e) (me_ty e)) es;
  an_sound : cache_sound c;
}.

(** The rendered path determines the EPATH. *)
Lemma render_bytes path1 path2 : path1 <> [] -> path2 <> [] -> Forall part_ok path1 -> Forall part_ok path2 ->
  render path1 = render path2 -> path_bytes path1 = path_bytes path2.
Proof.
  intros N1 N2 O1 O2 E.
  assert (forall path : list tag_part, Forall (fun p => CIPTypeDINT <> CIPTypeBOOL \/ tp_idx p = []) path) as Hty
    by (intros path; apply list.Forall_forall; intros q _; by left).
  pose proof (newSymbolicIOI_render path1 CIPTypeDINT N1 O1 (Hty _)) as E1. rewrite E in E1.
  rewrite (newSymbolicIOI_render path2 CIPTypeDINT N2 O2 (Hty _)) in E1. by injection E1 as ->.
Qed.

Lemma newIOI_frame c path ty : names_path c path ty ->
  exists i c', newIOI (render path) ty c = (Ok i, c') /\ cached c' c path i /\
    forall k, k <> render path -> ioi_cache c' !! k = ioi_cache c !! k.
Proof.
  intros [Hf Hc Hl (Hne & Hp & _) Hb]. unfold newIOI. rewrite Hl, (proj2 (Z.ltb_ge 20 _)) by lia.
  destruct Hc as [->|(i & E & Hi)]; [|rewrite E; by exists i, c].
  rewrite newSymbolicIOI_render by done. do 2 eexists. split; [done|]. split.
  - split; [done|]. split; [simpl; by rewrite lookup_insert_eq|done].
  - intros k Hk. simpl. by rewrite lookup_insert_ne.
Qed.

Lemma cached_sound c c' path i : path <> [] -> Forall part_ok path -> cache_sound c -> cached c' c path i ->
  (forall k, k <> render path -> ioi_cache c' !! k = ioi_cache c !! k) -> cache_sound c'.
Proof.
  intros Hne Hp Hs (_ & Hi & Hb & Hbit) Hframe path2 i2 Hne2 Hp2 E2.
  destruct (decide (render path2 = render path)) as [Er|Hr].
  - rewrite Er, Hi in E2. injection E2 as <-. by rewrite (render_bytes path2 path).
  - rewrite Hframe in E2 by done. by apply (Hs path2).
Qed.

Lemma names_step c es e : all_names c es -> e ∈ es ->
  exists i c', newIOI (render (me_path e)) (me_ty e) c = (Ok i, c') /\
    ioi_Buffer i = path_bytes (me_path e) /\ ioi_BitAccess i = false /\ all_names c' es.
Proof.
  intros [Hnd Hn Hs] He. assert (names_path c (me_path e) (me_ty e)) as Hne by (by eapply list.Forall_forall in Hn).
  destruct (newIOI_frame _ _ _ Hne) as (i & c' & Hi & Hc & Hframe). exists i, c'. pose proof Hc as (_ & _ & Hb & Hbit).
  split_and!; [done..|]. split; [done| |by eapply cached_sound; [apply Hne..|exact Hs|exact Hc|exact Hframe]].
  apply list.Forall_forall. intros e2 He2.
  assert (names_path c (me_path e2) (me_ty e2)) as Hn2 by (by eapply list.Forall_forall in Hn).
  destruct (decide (render (me_path e2) = render (me_path e))) as [E|E].
  - assert (e2 = e) as ->. { apply list_elem_of_lookup in He as [j Hj], He2 as [k Hk].
      assert (j = k) as ->; [|congruence]. eapply NoDup_lookup; [exact Hnd| |];
        rewrite list_lookup_fmap, ?Hj, ?Hk; simpl; by rewrite ?E. }
    eapply names_path_cached; [exact Hn2|exact Hc|]. apply Hn2.
  - destruct Hn2 as [H1 H2 H3 H4 H5]. split; [by destruct Hc as [-> _]|by rewrite Hframe|done..].
Qed.

(** The type code of the zero value of a type. *)
Lemma transferable_code v t : transferable v -> type_of v = Some t ->
  exists ty, GoVarToCIPType (zero_value t) = (ty, 1) /\ ty <> CIPTypeStruct /\ 0 <= Size ty.
Proof.
  intros Hv Ht. destruct v as [|b|k z|z|z|s| | | |]; try done; injection Ht as <-; try (by eexists); by destruct k; eexists.
Qed.

Lemma me_tag_eq e : me_ok e ->
  me_tag e = {| td_TagName := render (me_path e); td_TagType := me_ty e; td_Elements := 1; td_Struct := zero_value (me_type e) |} /\
  me_ty e <> CIPTypeStruct /\ 0 <= Size (me_ty e).
Proof.
  intros (Hv & Ht & _). unfold me_tag, tag_of, me_ty. destruct (transferable_code _ _ Hv Ht) as (ty & E & H1 & H2). by rewrite E.
Qed.

Section Client.
Context `{Methods} (U : nat -> Z).

(** The client whose answer is waiting, with the IOIs cached so far. *)
Definition waiting (f : bytes) (se : list bytes) (w : client_world) (c : ioi_client) : client_world :=
  answer f se (upd_ioi (fun _ => c) w).

Lemma client_newIOI_waiting f se w c es e :
  all_names c es -> e ∈ es ->
  exists i c', client_newIOI U (render (me_path e)) (me_ty e) (waiting f se w c) = (Ok i, waiting f se w c') /\
    ioi_Buffer i = path_bytes (me_path e) /\ ioi_BitAccess i = false /\ all_names c' es.
Proof.
  intros Hn He. destruct (names_step c es e Hn He) as (i & c' & Hi & Hb & Hbit & Hn'). exists i, c'.
  split; [|done]. unfold waiting. rewrite (client_newIOI_known U _ _ i c'); [done| |exact Hi].
  apply an_names in Hn. eapply list.Forall_forall in Hn; [|exact He]. apply np_firmware in Hn. simpl. lia.
Qed.

Definition iois_ok (es : list map_entry) (iois : list tagIOI) : Prop :=
  Forall2 (fun e i => ioi_Buffer i = path_bytes (me_path e) /\ ioi_BitAccess i = false) es iois.

Lemma sequence_iois_waiting f se w c all es :
  all_names c all -> Forall me_ok es -> Forall (fun e => e ∈ all) es ->
  exists iois c', sequence_iois U (me_tag <$> es) (waiting f se w c) = (Ok iois, waiting f se w c') /\
    iois_ok es iois /\ all_names c' all.
Proof.
  intros Hn Hok Hin. revert c Hn Hok. induction Hin as [|e es He Hin IH]; intros c Hn Hok.
  { exists [], c. split_and!; [done|constructor|done]. }
  apply Forall_cons_iff in Hok as [Hoe Hok]. destruct (me_tag_eq e Hoe) as [Et _].
  destruct (client_newIOI_waiting f se w c all e Hn He) as (i & c1 & Ei & Hb & Hbit & Hn1).
  destruct (IH c1 Hn1 Hok) as (iois & c2 & E & Hi & Hn2). exists (i :: iois), c2. split_and!; [|by constructor|done].
  rewrite fmap_cons. cbn [sequence_iois]. rewrite Et. cbn [td_TagName td_TagType].
  rewrite (bind_Ok _ _ _ _ _ Ei), (bind_Ok _ _ _ _ _ E). done.
Qed.

(** ** Every tag fits the one message *)

Definition me_req (connSize : Z) (e : map_entry) : Z := 2 + blen (path_bytes (me_path e)) + footer_size (me_svc connSize e).
Definition me_resp (e : map_entry) : Z := 4 + 2 + Size (me_ty e).
Definition sum_of (g : map_entry -> Z) (es : list map_entry) : Z := foldr (fun e z => g e + z) 0 es.

Lemma sum_of_nonneg g es : Forall (fun e => 0 <= g e) es -> 0 <= sum_of g es.
Proof. induction 1; simpl; lia. Qed.

Lemma me_req_nonneg connSize es : Forall (fun e => 0 <= me_req connSize e) es.
Proof.
  apply list.Forall_forall. intros e _. unfold me_req, footer_size, blen. destruct (_ =? _); lia.
Qed.
Lemma me_resp_nonneg es : Forall me_ok es -> Forall (fun e => 0 <= me_resp e) es.
Proof. intros Hok. eapply Forall_impl; [|exact Hok]. intros e He. apply me_tag_eq in He as (_ & _ & ?). unfold me_resp. lia. Qed.

Lemma me_resp_eq e : me_ok e -> estimateTagResponseSize (me_tag e) = Ok (me_resp e).
Proof.
  intros He. destruct (me_tag_eq e He) as (-> & Hs & _). unfold estimateTagResponseSize. cbn [td_TagType td_Elements].
  rewrite (proj2 (Z.eqb_neq _ _)) by done. cbn [negb]. unfold me_resp. do 2 f_equal. lia.
Qed.

Lemma select_tags_all f se w c all es pos sel pb rs :
  let conn := ConnectionSize (link w) in
  all_names c all -> Forall me_ok es -> Forall (fun e => e ∈ all) es -> 0 <= sel ->
  within conn (sel + Z.of_nat (length es)) pb rs (sum_of (me_req conn) es) (sum_of me_resp es) ->
  exists c', select_tags U (me_tag <$> es) None pos sel pb rs (waiting f se w c) =
      (Ok (seq pos (length es)), waiting f se w c') /\ all_names c' all.
Proof.
  intros conn Hn Hok Hin Hsel Hw. revert c pos sel pb rs Hn Hok Hsel Hw.
  induction Hin as [|e es He Hin IH]; intros c pos sel pb rs Hn Hok Hsel Hw.
  { by exists c. }
  apply Forall_cons_iff in Hok as [Hoe Hok]. destruct (me_tag_eq e Hoe) as [Et _].
  destruct (client_newIOI_waiting f se w c all e Hn He) as (i & c1 & Ei & Hb & Hbit & Hn1).
  rewrite fmap_cons. cbn [select_tags]. 
  assert (tag_ioi U None pos (me_tag e) (waiting f se w c) = (Ok i, waiting f se w c1)) as Ei'.
  { unfold tag_ioi. rewrite Et. exact Ei. }
  rewrite (bind_Ok _ _ _ _ _ Ei'). rewrite (bind_Ok get _ _ _ _ eq_refl).
  change (ConnectionSize (link (waiting f se w c1))) with conn.
  assert (candidate_sizes sel pb rs (me_tag e) i conn = Ok (me_req conn e, me_resp e, false)) as Ec.
  { unfold candidate_sizes. rewrite me_resp_eq by done. cbn [mbind res_bind]. fold (me_svc conn e). rewrite Hb. fold (me_req conn e).
    pose proof (sum_of_nonneg _ _ (me_req_nonneg conn es)). pose proof (sum_of_nonneg _ _ (me_resp_nonneg es Hok)).
    destruct Hw as [W1 W2]. unfold estimateMultiReadRequestOverhead, estimateMultiReadReplyOverhead, multi_reply_overhead in *.
    simpl length in *. cbn [sum_of foldr] in *. fold (sum_of (me_req conn) es) (sum_of me_resp es) in *.
    rewrite !(proj2 (Z.leb_gt _ _)) by lia. done. }
  rewrite (bind_Ok _ _ _ (me_req conn e, me_resp e, false) (waiting f se w c1)) by (unfold lift; by rewrite Ec).
  cbv beta iota.
  destruct (IH c1 (S pos) (sel + 1) (pb + me_req conn e) (rs + me_resp e) Hn1 Hok) as (c2 & E & Hn2); [lia| |].
  { destruct Hw as [W1 W2]. simpl length in *. cbn [sum_of foldr] in *. unfold within.
    replace (sel + 1 + Z.of_nat (length es)) with (sel + Z.of_nat (S (length es))) by lia. unfold sum_of in *. lia. }
  exists c2. rewrite (bind_Ok _ _ _ _ _ E). done.
Qed.
(** ** All of them in one batch *)

Lemma split_selected_all pos pending :
  split_selected pos pending (seq pos (length pending)) = (pending, []).
Proof.
  revert pos. induction pending as [|idx pending IH]; intros pos; [done|]. cbn [length seq split_selected].
  by rewrite Nat.eqb_refl, IH.
Qed.

Lemma selectPackedTagBatch_all f se w c es :
  let conn := ConnectionSize (link w) in
  es <> [] -> all_names c es -> Forall me_ok es ->
  within conn (Z.of_nat (length es)) 0 0 (sum_of (me_req conn) es) (sum_of me_resp es) ->
  exists c', selectPackedTagBatch U (seq 0 (length es)) (me_tag <$> es) None (waiting f se w c) =
      (Ok (seq 0 (length es), me_tag <$> es, None, []), waiting f se w c') /\ all_names c' es.
Proof.
  intros conn Hne Hn Hok Hw.
  destruct (select_tags_all f se w c es es 0 0 0 0) as (c' & E & Hn'); try done.
  { by apply list.Forall_forall. }
  exists c'. split; [|done]. unfold selectPackedTagBatch. destruct es as [|e es]; [done|].
  assert (index_all (me_tag <$> e :: es) (seq 0 (length (e :: es))) = Ok (me_tag <$> e :: es)) as Hall.
  { rewrite <- (length_fmap me_tag). apply index_all_seq. }
  cbn [length seq] in *. set (idxs := (0%nat :: seq 1 (length es))) in *.
  rewrite (bind_Ok _ _ _ (me_tag <$> e :: es) (waiting f se w c)) by (unfold lift; by rewrite Hall).
  rewrite (bind_Ok _ _ _ None (waiting f se w c)) by done.
  rewrite (bind_Ok _ _ _ idxs (waiting f se w c')).
  2: { unfold selectPackedTagIndexes. rewrite fmap_cons in *. by rewrite (bind_Ok _ _ _ _ _ E). }
  cbv beta. assert (split_selected 0 idxs idxs = (idxs, [])) as ->.
  { pose proof (split_selected_all 0 idxs) as Hs. unfold idxs in *. cbn [length seq] in Hs. by rewrite length_seq in Hs. }
  rewrite (bind_Ok _ _ _ (me_tag <$> e :: es) (waiting f se w c')) by (unfold lift; by rewrite Hall).
  by rewrite (bind_Ok _ _ _ None (waiting f se w c')).
Qed.
End Client.

(** ** The request of the batch, and the values of its reply *)

Lemma me_svc_cases connSize e :
  me_svc connSize e = CIPService_Read \/ me_svc connSize e = CIPService_FragRead.
Proof. unfold me_svc, readServiceForTag. repeat case_match; auto. Qed.

Lemma frag_requests_entries connSize es iois :
  Forall me_ok es -> iois_ok es iois ->
  frag_requests connSize (me_tag <$> es) iois (replicate (length es) 0) = mt_req <$> (me_multi connSize <$> es).
Proof.
  intros Hok Hi. revert Hok. induction Hi as [|e i es iois [Hb _] Hi IH]; intros Hok; [done|].
  apply Forall_cons_iff in Hok as [Hoe Hok]. rewrite !fmap_cons. cbn [length replicate].
  change (frag_requests connSize (me_tag e :: (me_tag <$> es)) (i :: iois) (0 :: replicate (length es) 0)) with
    (tag_request (me_svc connSize e) (me_tag e) i 0 :: frag_requests connSize (me_tag <$> es) iois (replicate (length es) 0)).
  rewrite IH by done. f_equal. unfold tag_request, mt_req, me_multi, read_footer. cbn [mt_svc mt_path mt_tail].
  rewrite Hb. destruct (me_tag_eq e Hoe) as [-> _]. cbn [td_Elements]. destruct (_ =? _); by rewrite ?app_nil_r.
Qed.

Lemma multi_item_packet s ms :
  Z.of_nat (length ms) < 2 ^ 16 ->
  multi_item s (mt_req <$> ms) = Write (packet_data s ms) (empty_item cipItem_ConnectedData).
Proof.
  intros Hn. unfold multi_item, packet_data, packet_payload, multi_service_req, packet_offsets.
  by rewrite length_fmap, wrap_small by lia.
Qed.

Section Reply.
Context `{Methods}.

(** What the reply holds for a value: its type, what more there is of it, and
    the bytes the value is decoded from. *)
Definition entry_of (v : goval) (r : fragReadTagResult) : Prop :=
  fr_Status r = CIPStatus_OK /\
  forall tag i, td_TagType tag = fst (GoVarToCIPType v) -> td_Elements tag = 1 -> ioi_BitAccess i = false ->
    fst (decodeReadTagValue tag i (fr_Type r) CIPStatus_OK (fr_Data r)) = Ok (RVal v).

Lemma frag_entry_image svc ty (ext payload : bytes) :
  svc = CIPService_Read \/ svc = CIPService_FragRead -> is_byte ty ->
  (ext = [] \/ exists x, ext = le_bytes 2 x /\ 0 <= x < 2 ^ 16) -> payload <> [] ->
  entry_ok ([Service.AsResponse svc; 0; 0; 0] ++ [ty; blen ext] ++ ext ++ payload)
    {| fr_Status := CIPStatus_OK; fr_Type := ty; fr_Data := payload |}.
Proof.
  intros Hsvc Hty Hext Hne. split; [unfold blen; simpl; lia|]. unfold frag_entry.
  assert (is_byte (Service.AsResponse svc)) as Hsb by by destruct Hsvc as [-> | ->].
  assert (is_byte 0) by done.
  assert (is_byte (blen ext)) as Hb by (destruct Hext as [->|(x & -> & _)]; done).
  assert (parses (R:=bytes) read_result_hdr [Service.AsResponse svc; 0; 0; 0] (Service.AsResponse svc, 0)) as H1.
  { apply parses_struct; [|done]. change [Service.AsResponse svc; 0; 0; 0] with ([Service.AsResponse svc] ++ [0] ++ le_bytes 2 0 ++ []).
    do 3 parse_field. apply parses_ret. }
  rewrite (bind_Ok _ _ _ (Service.AsResponse svc, 0) ([ty; blen ext] ++ ext ++ payload)) by by apply wrapM_Ok, (H1 _ _ I eq_refl).
  cbv beta iota.
  assert (Service.IsResponse (Service.AsResponse svc) = true) as -> by by destruct Hsvc as [-> | ->].
  cbn [negb]. cbv zeta.
  assert (Service.UnResponse (Service.AsResponse svc) = svc) as -> by by destruct Hsvc as [-> | ->].
  assert (negb (svc =? CIPService_FragRead) && negb (svc =? CIPService_Read) = false) as -> by by destruct Hsvc as [-> | ->].
  change (Z.land 0 0xFF) with 0. change (negb (0 =? CIPStatus_OK)) with false. cbn [andb].
  assert (parses (R:=bytes) read_type_hdr [ty; blen ext] (ty, blen ext)) as H2.
  { apply parses_struct; [|done]. change [ty; blen ext] with ([ty] ++ [blen ext] ++ []). do 2 parse_field. apply parses_ret. }
  rewrite (bind_Ok _ _ _ (ty, blen ext) (ext ++ payload)) by by apply wrapM_Ok, (H2 _ _ I eq_refl).
  cbv beta iota.
  assert (exists n, (if negb (blen ext =? 0) then wrapM "problem reading additional type info header" (read_struct 2 read_u16)
    else mret 0) (ext ++ payload) = (Ok n, payload)) as [n E].
  { destruct Hext as [->|(x & -> & Hx)]; [by exists 0|]. exists x. change (negb (blen (le_bytes 2 x) =? 0)) with true. cbv iota.
    assert (parses (R:=bytes) (wrapM "problem reading additional type info header" (read_struct 2 read_u16)) (le_bytes 2 x) x) as Hq.
    { apply parses_wrapM, parses_struct; [by apply parses_u16|done]. }
    rewrite (Hq _ payload I eq_refl). done. }
  rewrite (bind_Ok _ _ _ _ _ E). rewrite (bind_Ok _ _ _ payload payload) by done.
  rewrite (bind_Ok _ _ _ payload []); [done|]. unfold wrapM, buffer_Read.
  assert ((length payload =? 0)%nat = false) as -> by by destruct payload.
  cbn [andb]. by rewrite firstn_all, skipn_all.
Qed.

Lemma image_entry svc v b :
  svc = CIPService_Read \/ svc = CIPService_FragRead -> transferable v -> value_image v b ->
  exists r, entry_ok ([Service.AsResponse svc; 0; 0; 0] ++ b) r /\ entry_of v r.
Proof.
  intros Hsvc Hv Hb. destruct Hb as [v b Ha Hs Hb|s].
  - assert (scalar_ok v) as Hv' by by destruct v.
    destruct (scalar_code v Hv') as (H1 & H2 & H3 & H4); [intros s ->; by destruct Hs|].
    eexists. split; [apply (frag_entry_image svc (fst (GoVarToCIPType v)) [] b); [done|done|by left|by eapply binary_write_nonempty]|].
    split; [done|]. intros tag i Ht He Hbit. cbn [fr_Type fr_Data]. unfold decodeReadTagValue. rewrite He, Hbit, Ht.
    rewrite andb_false_r, (proj2 (Z.eqb_neq _ CIPTypeSTRING)), (proj2 (Z.eqb_neq _ CIPTypeStruct)) by done.
    change (negb (CIPStatus_OK =? CIPStatus_OK)) with false. change (1 =? 1) with true. cbv iota.
    apply parses_all. eapply parses_bind_nil; [by apply parses_readValue|apply parses_ret].
  - destruct Hv as [Hwf Hl]. unfold cipStringPacker_Bytes.
    change (Z.of_nat cipStringDataLen) with 82. rewrite (proj2 (Z.ltb_ge 82 (blen s))) by done.
    eexists. split.
    { apply (frag_entry_image svc 0xA0 (le_bytes 2 cipStringStructCRC)
        (le_bytes 4 (blen s) ++ copy_into cipStringDataLen s ++ replicate cipStringStructPad 0)); try done.
      right. by exists cipStringStructCRC. }
    assert (length s <= 82)%nat as Hl' by (unfold blen in Hl; lia).
    split; [done|]. intros tag i Ht He Hbit. cbn [fr_Type fr_Data]. unfold decodeReadTagValue. rewrite He, Hbit, Ht.
    change (fst (GoVarToCIPType (VString s)) =? CIPTypeSTRING) with true. rewrite andb_false_r.
    change (negb (CIPStatus_OK =? CIPStatus_OK)) with false. change (1 =? 1) with true. cbv iota.
    assert (0 <= blen s) by (unfold blen; lia).
    assert (parses (R:=bytes) (s ← read_short_string; mret (RVal (VString s))) (le_bytes 4 (blen s) ++ s) (RVal (VString s))) as Hp.
    { eapply parses_bind_nil; [|apply parses_ret]. unfold read_short_string.
      eapply parses_bind; [apply parses_wrapM, parses_struct; [apply parses_u32; lia|done]|].
      apply parses_wrapM, parses_slice. unfold blen. lia. }
    unfold copy_into. rewrite take_ge, <- (assoc_L (++) s), (assoc_L (++) (le_bytes 4 _)) by (unfold cipStringDataLen; lia).
    by rewrite (Hp _ _ I eq_refl).
Qed.

(** The values of the round, from the state of the tags. *)
Lemma frag_values_all es iois rs :
  Forall me_ok es -> iois_ok es iois -> Forall2 (fun e r => entry_of (me_val e) r) es rs ->
  frag_values (me_tag <$> es) iois ((fun r => add_result r frag_start) <$> rs) = Ok ((fun e => RVal (me_val e)) <$> es).
Proof.
  intros Hok Hi Hr. revert iois Hi Hok. induction Hr as [|e r es rs [Hst Hdec] Hr IH]; intros iois Hi Hok; [done|].
  inversion Hi as [|? i ? iois' [_ Hbit] Hi']; subst. apply Forall_cons_iff in Hok as [Hoe Hok].
  rewrite !fmap_cons. cbn [frag_values]. rewrite (IH _ Hi' Hok).
  assert (frag_value (me_tag e) i (add_result r frag_start) = Ok (RVal (me_val e))) as ->; [|done].
  unfold frag_value, add_result. rewrite Hst, Z.eqb_refl. cbn [ft_respType ft_status ft_chunks frag_start app Z.eqb].
  destruct (me_tag_eq e Hoe) as [Et _]. rewrite Hdec; [done| | |done]; rewrite Et; [|done].
  cbn [td_TagType]. destruct Hoe as (Hv & Ht & _). by apply zero_value_type.
Qed.
End Reply.

(** The client's estimate of a response is the size of the server's entry. *)
Lemma blen_entry connSize e : me_ok e -> blen (mt_entry (me_multi connSize e)) = me_resp e.
Proof.
  intros (Hv & Ht & Hb). unfold mt_entry, me_resp, me_ty, me_multi. cbn [mt_image mt_svc].
  rewrite (zero_value_type _ _ Hv Ht). destruct Hb as [v b Ha Hs Hb|s].
  - assert (scalar_ok v) as Hv' by by destruct v.
    pose proof (Size_binary_write v b Hv' Hb). unfold blen in *. rewrite !length_app. cbn [length]. lia.
  - destruct Hv as [_ Hl]. unfold cipStringPacker_Bytes. change (Z.of_nat cipStringDataLen) with 82.
    rewrite (proj2 (Z.ltb_ge 82 (blen s))) by done.
    change (Size (fst (GoVarToCIPType (VString s)))) with 90.
    unfold blen, copy_into, cipStringDataLen, cipStringStructPad in *.
    rewrite !length_app, !length_replicate, length_take, !length_le_bytes. cbn [length]. lia.
Qed.

Lemma blen_sum g (h : map_entry -> bytes) es :
  Forall (fun e => blen (h e) = g e) es -> blen (concat (h <$> es)) = sum_of g es.
Proof.
  induction 1 as [|e es He Hes IH]; [done|]. rewrite fmap_cons. cbn [concat sum_of foldr].
  fold (sum_of g es). rewrite <- IH, <- He. unfold blen. rewrite length_app. lia.
Qed.

Lemma blen_mt_req connSize e : blen (mt_req (me_multi connSize e)) = me_req connSize e.
Proof.
  unfold mt_req, me_req, me_multi, read_footer, footer_size, blen. cbn [mt_svc mt_path mt_tail].
  rewrite !length_app, length_le_bytes. destruct (_ =? _); rewrite ?length_le_bytes; cbn [length]; lia.
Qed.

(** ** The round, and the map *)

Definition map_packet (es : list map_entry) (wc : client_world) : list multi_tag :=
  me_multi (ConnectionSize (link wc)) <$> es.
Definition map_frame (es : list map_entry) (wc : client_world) : bytes :=
  unit_frame (Write (packet_data (next_seq wc) (map_packet es wc)) (empty_item cipItem_ConnectedData)) wc.
Definition map_reply_data (s : Z) (rs : list bytes) : bytes :=
  le_bytes 2 s ++ [Service.AsResponse CIPService_MultipleService; 0; 0; 0] ++ reply_payload rs.

Lemma blen_map_reply s rs : blen (map_reply_data s rs) = 8 + 2 * Z.of_nat (length rs) + blen (concat rs).
Proof.
  unfold map_reply_data, reply_payload. rewrite jump_table_offsets. pose proof (blen_concat_le2 (request_offsets ((Z.of_nat (length rs) + 1) * 2) rs)) as E.
  rewrite length_request_offsets in E. unfold blen in *. rewrite !length_app, !length_le_bytes. cbn [length]. lia.
Qed.

(** The one round of tags whose values all come back whole. *)
Lemma readListFragRound_answered tags iois offs h i0 i1 s rs xs se w :
  eipHeader_ok h -> hdr_Length h = blen (serializeItems [i0; i1]) -> hdr_Status h = 0 ->
  item_wf i0 -> item_wf i1 -> 0 <= s < 2 ^ 16 -> item_Data i1 = map_reply_data s rs ->
  blen (map_reply_data s rs) < 2 ^ 15 -> Forall2 entry_ok rs xs -> (length rs <= length tags)%nat ->
  readListFragRound tags iois offs (answer (eipHeader_bytes h ++ serializeItems [i0; i1]) se w) =
    (Ok xs, answered (se ++ [unit_frame (multi_item (next_seq w) (frag_requests (ConnectionSize (link w)) tags iois offs)) w])
      (snd (sequencer w))).
Proof.
  intros Hok Hlen Hst H0 H1 Hs Hd Hl Hrs Ht. unfold readListFragRound. rewrite blen_map_reply in Hl.
  set (g := eipHeader_bytes h ++ serializeItems [i0; i1]).
  assert (0 <= blen (concat rs)) by (unfold blen; lia).
  eapply (step _ _ _ (u32 (cw_sequenceValue w + 1)) (answer g se (snd (sequencer w)))); [reflexivity|].
  eapply step; [reflexivity|]. eapply step; [by apply unit_request_answered|]. cbv beta iota.
  eapply step.
  { unfold lift. rewrite (parse_multi_reply_items h i0 i1 s (Service.AsResponse CIPService_MultipleService) rs); try done. lia. }
  cbv beta iota. unfold lift.
  assert (item_Bytes i1 = (le_bytes 2 (item_ID i1) ++ le_bytes 2 (blen (item_Data i1)) ++ le_bytes 2 s ++
    [Service.AsResponse CIPService_MultipleService; 0; 0; 0]) ++ reply_payload rs) as ->.
  { unfold item_Bytes. destruct H1 as (_ & _ & ->). rewrite Hd. unfold map_reply_data. by rewrite <- !(assoc_L (++)). }
  unfold reply_offsets. rewrite (frag_entries_Ok _ _ rs xs); [done|by rewrite !length_app, !length_le_bytes|lia| |lia| |exact Hrs|done].
  - unfold reply_payload. rewrite jump_table_offsets, (assoc_L (++)). apply drop_app_length'.
    rewrite length_app, length_le_bytes. pose proof (blen_concat_le2 (request_offsets ((Z.of_nat (length rs) + 1) * 2) rs)) as E.
    rewrite length_request_offsets in E. unfold blen in E. lia.
  - pose proof (blen_map_reply s rs) as E. unfold map_reply_data, blen in *. rewrite !length_app, length_le_bytes in E. cbn [length] in E. lia.
Qed.

Lemma upd_ioi_self w : upd_ioi (fun _ => ioi (cw_client w)) w = w.
Proof. destruct w as [[c l i] d s n k]. done. Qed.

Lemma store_results_all vals old pre :
  length old = length vals ->
  store_results (seq (length pre) (length vals)) vals (pre ++ old) = Ok (pre ++ vals).
Proof.
  revert old pre. induction vals as [|v vals IH]; intros [|o old] pre Hl; try done.
  cbn [length seq store_results]. rewrite insert_app_r_alt by lia. rewrite Nat.sub_diag. cbn [insert list_insert].
  specialize (IH old (pre ++ [v])). rewrite length_app, Nat.add_1_r, <- !(assoc_L (++)) in IH. apply IH. by injection Hl.
Qed.

Lemma frag_rounds_one tags iois xs n w w' :
  length tags = n -> length iois = n -> length xs = n -> Forall (fun x => fr_Status x = CIPStatus_OK) xs -> (0 < n)%nat ->
  readListFragRound tags iois (replicate n 0) w = (Ok xs, w') ->
  frag_rounds max_rounds tags iois (seq 0 n) (replicate n frag_start) w =
    (Ok ((fun x => add_result x frag_start) <$> xs), w').
Proof.
  intros Ht Hi Hx Hst Hn E. destruct max_rounds_S as [k ->].
  assert (index_all tags (seq 0 n) = Ok tags) as E1 by (rewrite <- Ht; apply index_all_seq).
  assert (index_all iois (seq 0 n) = Ok iois) as E2 by (rewrite <- Hi; apply index_all_seq).
  assert (index_all (replicate n frag_start) (seq 0 n) = Ok (replicate n frag_start)) as E3.
  { rewrite <- (length_replicate n frag_start) at 2. apply index_all_seq. }
  destruct n as [|n]; [lia|]. cbn [frag_rounds]. unfold lift. cbn [seq] in *. set (idxs := 0%nat :: seq 1 n) in *.
  eapply step; [by rewrite E1|]. eapply step; [by rewrite E2|]. eapply step; [by rewrite E3|].
  rewrite fmap_replicate. eapply step; [exact E|].
  pose proof (add_results_all xs [] Hst) as E4. rewrite Hx in E4. cbn [length app seq] in E4. fold idxs in E4.
  eapply step; [by rewrite E4|]. cbv beta iota. by destruct k.
Qed.

Section Map.
Context {P : Type} `{EndpointLaws P} `{Methods} (rand_Uint32 : nat -> Z) (U : nat -> Z).

Lemma entries_ok connSize es :
  Forall me_ok es ->
  exists xs, Forall2 entry_ok (mt_entry <$> (me_multi connSize <$> es)) xs /\
    Forall2 (fun e r => entry_of (me_val e) r) es xs.
Proof.
  induction 1 as [|e es He Hes (xs & Hx1 & Hx2)]; [by exists []|].
  destruct He as (Hv & _ & Hb).
  destruct (image_entry (me_svc connSize e) _ _ (me_svc_cases connSize e) Hv Hb) as (r & Hr1 & Hr2).
  exists (r :: xs). split; by constructor.
Qed.

Lemma readListFragAll_answered es h i0 i1 s se w c :
  let conn := ConnectionSize (link w) in
  let rs := mt_entry <$> (me_multi conn <$> es) in
  es <> [] -> all_names c es -> Forall me_ok es -> Z.of_nat (length es) < 2 ^ 16 ->
  eipHeader_ok h -> hdr_Length h = blen (serializeItems [i0; i1]) -> hdr_Status h = 0 ->
  item_wf i0 -> item_wf i1 -> 0 <= s < 2 ^ 16 -> item_Data i1 = map_reply_data s rs ->
  blen (map_reply_data s rs) < 2 ^ 15 ->
  exists c', all_names c' es /\ readListFragAll U (me_tag <$> es) (waiting (eipHeader_bytes h ++ serializeItems [i0; i1]) se w c) =
    (Ok ((fun e => RVal (me_val e)) <$> es),
     answered (se ++ [map_frame es w]) (snd (sequencer (upd_ioi (fun _ => c') w)))).
Proof.
  intros conn rs Hne Hn Hok Hlen Hh Hl Hst Hi0 Hi1 Hs Hd Hb. unfold readListFragAll.
  destruct (sequence_iois_waiting U (eipHeader_bytes h ++ serializeItems [i0; i1]) se w c es es) as (iois & c' & Ei & Hi & Hn'); try done.
  { by apply list.Forall_forall. }
  exists c'. split; [done|]. eapply step; [exact Ei|]. destruct (entries_ok conn es Hok) as (xs & Hx1 & Hx2).
  pose proof (Forall2_length Hi) as Li. pose proof (Forall2_length Hx2) as Lx.
  rewrite length_fmap. eapply step.
  { apply (frag_rounds_one (me_tag <$> es) iois xs); [by rewrite length_fmap|done|done| | |].
    - eapply Forall2_Forall_r; [exact Hx2|]. apply list.Forall_forall. intros e _ r [Hr _]. exact Hr.
    - destruct es; [done|simpl; lia].
    - unfold waiting. eapply (readListFragRound_answered _ _ _ _ _ _ s rs xs); try done.
      unfold rs. by rewrite !length_fmap. }
  unfold lift. rewrite (frag_values_all es iois xs) by done. do 2 f_equal.
  change (link (upd_ioi (fun _ => c') w)) with (link w). fold conn.
  rewrite (frag_requests_entries conn es iois Hok Hi), multi_item_packet by by rewrite length_fmap. done.
Qed.

(** ReadMap of the tags of one packet. *)
Lemma ReadMap_answered es h i0 i1 s se w :
  let conn := ConnectionSize (link w) in
  let rs := mt_entry <$> (me_multi conn <$> es) in
  es <> [] -> status w = connectionStatusConnected ->
  all_names (ioi (cw_client w)) es -> Forall me_ok es -> Z.of_nat (length es) < 2 ^ 16 ->
  within conn (Z.of_nat (length es)) 0 0 (sum_of (me_req conn) es) (sum_of me_resp es) ->
  eipHeader_ok h -> hdr_Length h = blen (serializeItems [i0; i1]) -> hdr_Status h = 0 ->
  item_wf i0 -> item_wf i1 -> 0 <= s < 2 ^ 16 -> item_Data i1 = map_reply_data s rs ->
  blen (map_reply_data s rs) < 2 ^ 15 ->
  exists c', all_names c' es /\ ReadMap U (me_kv <$> es) (answer (eipHeader_bytes h ++ serializeItems [i0; i1]) se w) =
    (Ok (Some ((fun e => (render (me_path e), RVal (me_val e))) <$> es)),
     answered (se ++ [map_frame es w]) (snd (sequencer (upd_ioi (fun _ => c') w)))).
Proof.
  intros conn rs Hne Hst Hn Hok Hlen Hw Hh Hl Hs0 Hi0 Hi1 Hs Hd Hb. unfold ReadMap, read_map.
  set (f := eipHeader_bytes h ++ serializeItems [i0; i1]).
  destruct (selectPackedTagBatch_all U f se w (ioi (cw_client w)) es) as (c1 & E1 & Hn1); try done.
  destruct (readListFragAll_answered es h i0 i1 s se w c1) as (c2 & Hn2 & E2); try done. fold f in E2.
  exists c2. split; [done|]. eapply step. { unfold try. rewrite checkConnection_up by done. reflexivity. }
  cbv beta iota zeta.
  assert ((fun kv => tag_of kv.1 kv.2) <$> (me_kv <$> es) = me_tag <$> es) as -> by by rewrite <- list_fmap_compose.
  rewrite length_fmap. unfold waiting in E1 at 1. rewrite upd_ioi_self in E1.
  eapply (step _ _ _ ((fun e => RVal (me_val e)) <$> es)).
  2: { cbv beta. match goal with |- context [Some (zip ?a ?b)] => assert (zip a b = (fun e => (render (me_path e), RVal (me_val e))) <$> es) as ->; [|done] end. rewrite <- list_fmap_compose. clear. induction es as [|e es IH]; [done|]. rewrite !fmap_cons. cbn [zip zip_with]. by rewrite <- IH. }
  destruct es as [|e es]; [done|]. set (E := e :: es) in *.
  assert (exists idxs, seq 0 (length E) = 0%nat :: idxs) as [idxs Hidx] by by eexists.
  assert (exists r, length E = S r) as [r Hr] by by eexists.
  rewrite Hr at 1. rewrite Hidx. cbn [map_batches]. rewrite <- Hidx.
  eapply step; [exact E1|]. cbv beta iota. eapply step; [exact E2|].
  pose proof (store_results_all ((fun e => RVal (me_val e)) <$> E) (replicate (length E) (RVal VNil)) []) as Hstore.
  rewrite length_fmap, length_replicate in Hstore. specialize (Hstore eq_refl). cbn [length app] in Hstore.
  eapply step; [unfold lift; by rewrite Hstore|]. by destruct r.
Qed.
End Map.

Section Composition.
Context {P : Type} `{EndpointLaws P} `{Methods} (rand_Uint32 : nat -> Z) (U : nat -> Z).

Lemma map_packet_ok p conn es c :
  all_names c es -> Forall me_ok es -> Forall (fun e => stores p (render (me_path e)) 1 (me_val e)) es ->
  Forall (mt_ok p) (me_multi conn <$> es).
Proof.
  intros [_ Hn _] Hok Hst. apply Forall_fmap. apply list.Forall_forall. intros e He.
  assert (names_path c (me_path e) (me_ty e)) as Hne by by eapply list.Forall_forall in Hn.
  assert (me_ok e) as (Hv & _ & Hb) by by eapply list.Forall_forall in Hok.
  assert (stores p (render (me_path e)) 1 (me_val e)) as Hs by by eapply list.Forall_forall in Hst.
  split_and!; [apply me_svc_cases|apply Hne|by repeat split; discriminate|done| |done].
  unfold me_multi. cbn [mt_val]. destruct (me_val e); try done. apply Hv.
Qed.

(** The sizes that the client keeps below the connection size are those on
    the wire. *)
Lemma map_sizes conn es :
  Forall me_ok es -> conn <= 2 ^ 15 ->
  within conn (Z.of_nat (length es)) 0 0 (sum_of (me_req conn) es) (sum_of me_resp es) ->
  blen (packet_payload (me_multi conn <$> es)) < 2 ^ 15 /\
  forall s, blen (map_reply_data s (mt_entry <$> (me_multi conn <$> es))) < 2 ^ 15.
Proof.
  intros Hok Hc [W1 W2]. unfold estimateMultiReadRequestOverhead, estimateMultiReadReplyOverhead, multi_reply_overhead in *.
  rewrite Z.max_r in W1, W2 by lia. split.
  - unfold packet_payload. pose proof (blen_concat_le2 (packet_offsets (me_multi conn <$> es))) as E.
    rewrite length_packet_offsets, length_fmap in E.
    pose proof (blen_sum (me_req conn) (mt_req ∘ me_multi conn) es) as F. rewrite list_fmap_compose in F.
    unfold blen in *. rewrite !length_app, length_le_bytes.
    assert (Forall (fun e => Z.of_nat (length (mt_req (me_multi conn e))) = me_req conn e) es) as G.
    { apply list.Forall_forall. intros e _. apply blen_mt_req. }
    specialize (F G). lia.
  - intros s. rewrite blen_map_reply, !length_fmap. rewrite <- list_fmap_compose.
    rewrite (blen_sum me_resp); [lia|]. eapply Forall_impl; [|exact Hok]. intros e He. by apply blen_entry.
Qed.

Lemma client_reads_map_spec ws wc c ep p es rest se :
  let size := ConnectionSize (link wc) in
  es <> [] -> status wc = connectionStatusConnected -> config_ok wc ->
  all_names (ioi (cw_client wc)) es -> Forall me_ok es ->
  Forall (fun e => stores p (render (me_path e)) 1 (me_val e)) es ->
  size <= 2 ^ 15 ->
  within size (Z.of_nat (length es)) 0 0 (sum_of (me_req size) es) (sum_of me_resp es) ->
  can_write ws -> handler_ok (w_h ws) -> routed ws (OTNetworkConnectionID (link wc)) c ep p ->
  exists f c', all_names c' es /\
    let ws' := received (Context_ (config wc)) (next_seq wc) rest ws in
    serve_one rand_Uint32 (feed (map_frame es wc ++ rest) ws) = (Ok tt, sent f ws') /\
    ReadMap U (me_kv <$> es) (answer f se wc) =
      (Ok (Some ((fun e => (render (me_path e), RVal (me_val e))) <$> es)),
       answered (se ++ [map_frame es wc]) (snd (sequencer (upd_ioi (fun _ => c') wc)))).
Proof.
  intros size Hne Hs Hcfg Hn Hok Hst Hsize Hw Hcw Hh Hr.
  destruct (map_sizes size es Hok Hsize Hw) as [Hpay Hrep].
  assert (0 <= next_seq wc < 2 ^ 16) as Hseq by by apply wrap_bound.
  set (ws' := received (Context_ (config wc)) (next_seq wc) rest ws).
  set (data := map_reply_data (next_seq wc) (mt_entry <$> (me_multi size <$> es))).
  assert (Z.of_nat (length es) < 2 ^ 15) as Hlen.
  { specialize (Hrep 0). rewrite blen_map_reply, !length_fmap in Hrep. unfold blen in Hrep. lia. }
  destruct (reply_header_ok data (conn_TO c) ws' Hh) as (Hok1 & Hst1 & Hlh); [apply Hcfg|apply Hrep|].
  destruct (ReadMap_answered U es (reply_header data (conn_TO c) ws')
    (Write (le_bytes 4 (conn_TO c)) (empty_item cipItem_ConnectionAddress))
    (Write data (empty_item cipItem_ConnectedData)) (next_seq wc) se wc) as (c' & Hn' & E); try done.
  { lia. }
  { apply Write_wf; [done|]. etrans; [apply Hrep|done]. }
  exists (connected_frame (conn_TO c) data ws'), c'. split; [done|]. split; [|rewrite connected_frame_eq; exact E].
  apply (serve_unit_frame rand_Uint32 ws (sent (connected_frame (conn_TO c) data ws') ws') wc (next_seq wc)
    CIPService_MultipleService ([2; 0x20; 0x02; 0x24; 0x01] ++ packet_payload (map_packet es wc))); try done.
  { unfold map_packet. fold size. unfold blen in *. rewrite length_app. cbn [length]. lia. }
  intros j0 j1 Hid Hd0 Hd1 _. unfold connected_service.
  change (CIPService_MultipleService =? CIPService_Write) with false. cbv iota.
  change (CIPService_MultipleService =? CIPService_FragRead) with false.
  change (CIPService_MultipleService =? CIPService_Read) with false. cbv iota. rewrite Z.eqb_refl. apply wrapM_Ok.
  etrans.
  { apply (connectedMulti_spec ws' (OTNetworkConnectionID (link wc)) c ep p j0 j1 (next_seq wc) (map_packet es wc) []);
      [done|by destruct Hr|apply Hcfg|exact Hd0|done|by eapply map_packet_ok|exact Hpay|exact Hd1]. }
  unfold data, map_reply_data, reply_payload, map_packet. by rewrite !length_fmap.
Qed.

(** C5.  A ReadMap of the tags that fit one message, end to end: the client
    sends one multiple-service request; the server of the same package serves
    it, changing nothing it stores, and its one reply makes the client return
    exactly the stored value of every tag, in the order of the map. *)
Theorem client_reads_map ws wc c ep p es rest se :
  let size := ConnectionSize (link wc) in
  es <> [] -> status wc = connectionStatusConnected -> config_ok wc ->
  all_names (ioi (cw_client wc)) es -> Forall me_ok es ->
  Forall (fun e => stores p (render (me_path e)) 1 (me_val e)) es ->
  size <= 2 ^ 15 ->
  within size (Z.of_nat (length es)) 0 0 (sum_of (me_req size) es) (sum_of me_resp es) ->
  can_write ws -> handler_ok (w_h ws) -> routed ws (OTNetworkConnectionID (link wc)) c ep p ->
  exists f wc',
    let req := map_frame es wc in
    let ws' := received (Context_ (config wc)) (next_seq wc) rest ws in
    serve_one rand_Uint32 (feed (req ++ rest) ws) = (Ok tt, sent f ws') /\
    ReadMap U (me_kv <$> es) (answer f se wc) =
      (Ok (Some ((fun e => (render (me_path e), RVal (me_val e))) <$> es)), wc') /\
    conn (link wc') = Some {| nc_open := true; nc_script := []; nc_rx := []; nc_sent := se ++ [req] |}.
Proof.
  intros size Hne Hs Hcfg Hn Hok Hst Hsize Hw Hcw Hh Hr.
  destruct (client_reads_map_spec ws wc c ep p es rest se) as (f & c' & _ & E1 & E2); [done..|].
  eexists f, _. split; [exact E1|]. split; [exact E2|done].
Qed.
End Composition.

(** ** A STRING in a ReadList *)

Section ListString.
Context `{Methods}.

(** The four bytes a ReadList takes for the length of a STRING begin with the
    handle of the structure. *)
Lemma string_length_bytes l X :
  0 <= l <= 82 ->
  le_bytes 2 cipStringStructCRC ++ le_bytes 4 l ++ X = le_bytes 4 (cipStringStructCRC + 65536 * l) ++ [0; 0] ++ X.
Proof.
  intros Hl. unfold le_bytes, cipStringStructCRC. cbn [app].
  rewrite !Z.div_div by done. cbn [Z.mul Pos.mul].
  repeat (f_equal; [Z.to_euclidean_division_equations; lia|]).
  repeat (f_equal; try (Z.to_euclidean_division_equations; lia)).
Qed.

(** So no STRING that the server of this package sends is read by ReadList or
    ReadMulti. *)
Lemma list_string_fails svc s i tag (rest : bytes) :
  Service.IsResponse svc = true -> is_byte svc ->
  td_Elements tag = 1 -> td_TagType tag = CIPTypeSTRING -> blen rest < 3900 ->
  exists e, fst (list_entry (Some (tag, i)) ([svc; 0; 0; 0] ++ cipStringPacker_Bytes s ++ rest)) = Err e.
Proof.
  intros Hr Hb He Ht Hl. unfold cipStringPacker_Bytes. change (Z.of_nat cipStringDataLen) with 82.
  set (l := if 82 <? blen s then 82 else blen s).
  assert (0 <= l <= 82) as Hl82 by (unfold l, blen; destruct (Z.ltb_spec 82 (Z.of_nat (length s))); lia).
  set (D := copy_into cipStringDataLen s ++ replicate cipStringStructPad 0).
  assert (length D = 84%nat) as HD.
  { unfold D, copy_into, cipStringDataLen, cipStringStructPad. rewrite !length_app, !length_replicate, length_take. lia. }
  assert (is_byte 0) by done. assert (is_byte 0xA0) by done. assert (is_byte 0x02) by done.
  assert (parses (R:=bytes) read_result_hdr [svc; 0; 0; 0] (svc, 0)) as E1.
  { apply parses_struct; [|done]. change [svc; 0; 0; 0] with ([svc] ++ [0] ++ le_bytes 2 0 ++ []).
    do 3 parse_field. apply parses_ret. }
  assert (parses (R:=bytes) read_type_hdr [0xA0; 0x02] (0xA0, 0x02)) as E2.
  { apply parses_struct; [|done]. change [0xA0; 0x02] with ([0xA0] ++ [0x02] ++ []). do 2 parse_field. apply parses_ret. }
  unfold list_entry. rewrite <- !(assoc_L (++)).
  rewrite (bind_Ok _ _ _ _ _ (wrapM_Ok _ _ _ _ _ (E1 _ _ I eq_refl))). cbv beta iota. rewrite Hr.
  change (negb (Z.land 0 0xFF =? CIPStatus_OK)) with false. cbn [negb].
  cbn [length rd_advance buffer_Reader drop app].
  rewrite (bind_Ok _ _ _ _ _ (wrapM_Ok _ _ _ _ _ (E2 _ (le_bytes 2 cipStringStructCRC ++ le_bytes 4 l ++ D ++ rest) I eq_refl))).
  cbv beta iota. unfold list_value. rewrite He, Ht. change (CIPTypeSTRING =? CIPTypeBOOL) with false.
  change (1 =? 1) with true. rewrite Z.eqb_refl. cbn [andb length rd_advance buffer_Reader drop app].
  change (drop 2 (0xA0 :: 0x02 :: ?x)) with x. rewrite string_length_bytes by done.
  assert (parses (R:=bytes) (wrapM "couldn't unpack struct header" (read_struct 4 read_u32))
    (le_bytes 4 (cipStringStructCRC + 65536 * l)) (cipStringStructCRC + 65536 * l)) as E3.
  { apply parses_wrapM, parses_struct; [apply parses_u32; unfold cipStringStructCRC; lia|done]. }
  assert (exists e r, read_short_string (le_bytes 4 (cipStringStructCRC + 65536 * l) ++ [0; 0] ++ D ++ rest) = (Err e, r))
    as (e & r & E).
  { unfold read_short_string. rewrite (bind_Ok _ _ _ _ _ (E3 _ _ I eq_refl)).
    cbn [length rd_advance buffer_Reader]. rewrite drop_app_length' by by rewrite length_le_bytes.
    unfold wrapM, read_slice. cbn [read_full buffer_Reader]. unfold buffer_read_full.
    rewrite (proj2 (Nat.leb_gt _ _)); [destruct (_ =? 0)%nat; do 2 eexists; reflexivity|].
    rewrite !length_app, HD. unfold blen, cipStringStructCRC in *. cbn [length]. lia. }
  exists e. by rewrite (bind_Err _ _ _ _ _ E).
Qed.

End ListString.

(** ** Witness *)

(** A server that stores a DINT and a STRING, and a client of its connection. *)
Definition map_provider : MapTagProvider :=
  {| mtp_Data := Some {[ str "name" := VString (str "pump"); str "x" := VInt I32 5 ]} |}.
Definition map_client : client_world := upd_link (set_ConnectionSize 508) sample_client.
Definition tag_name : list tag_part := [{| tp_name := str "name"; tp_idx := [] |}].
Definition map_entries : list map_entry :=
  [{| me_path := tag_x; me_type := TInt I32; me_val := VInt I32 5; me_image := [0xC4; 0] ++ [5; 0; 0; 0] |};
   {| me_path := tag_name; me_type := TString; me_val := VString (str "pump"); me_image := cipStringPacker_Bytes (str "pump") |}].

Lemma no_cache_sound : cache_sound (ioi (cw_client map_client)).
Proof. intros path i _ _ E. cbn in E. by rewrite lookup_empty in E. Qed.

Lemma client_reads_map_witness :
  exists f wc',
    let req := map_frame map_entries map_client in
    let ws' := received 0 6 [] (sample_server map_provider) in
    serve_one (fun _ => 1) (feed (req ++ []) (sample_server map_provider)) = (Ok tt, sent f ws') /\
    ReadMap (H:=no_methods) (fun _ => 0) (me_kv <$> map_entries) (answer f [] map_client) =
      (Ok (Some [(str "x", RVal (VInt I32 5)); (str "name", RVal (VString (str "pump")))]), wc') /\
    conn (link wc') = Some {| nc_open := true; nc_script := []; nc_rx := []; nc_sent := [] ++ [req] |}.
Proof.
  assert (Forall part_ok tag_name) as Hname by (unfold tag_name; ok_path).
  apply (client_reads_map (H1:=no_methods) (fun _ => 1) (fun _ => 0) (sample_server map_provider) map_client
    sample_connection 1%positive map_provider map_entries [] []).
  - discriminate.
  - reflexivity.
  - zbound.
  - split; [by vm_compute; repeat constructor; set_solver| |apply no_cache_sound].
    apply Forall_cons_2; [|apply Forall_cons_2; [|apply Forall_nil_2]];
      (split; [done|by left|done|split; [done|split; [first [exact tag_x_ok|exact Hname]|done]]|];
       apply Forall_cons_2; [by right|apply Forall_nil_2]).
  - apply Forall_cons_2; [|apply Forall_cons_2; [|apply Forall_nil_2]].
    + split; [zbound|]. split; [done|]. exact sample_image.
    + split; [by vm_compute; repeat constructor|]. split; [done|]. constructor.
  - apply Forall_cons_2; [|apply Forall_cons_2; [|apply Forall_nil_2]];
      (eexists; split; [reflexivity|]; vm_compute; reflexivity).
  - zbound.
  - zbound.
  - reflexivity.
  - zbound.
  - split; [exists 1%positive; by split|done|done].
Defined.
