(* ===== verification/EndToEndInstances.v ===== *)
(** * Reads by symbol instance, answered

    The tags of a ReadMapByInstance are named by the instances of their
    symbols, and a reply that holds an entry for each makes it return their
    values. *)
From S2P Require Import Prelude Reader GoStrings GoValue CipNames CipDefs Types Items Ioi TagPath Pack Path Conns Router Messages Server ServerAttr ServerConnected ServerUnconnected ServerReplies ServerData Client ClientTags ClientConn ClientScript MultiRead MultiReadProofs InstanceRead ServerMulti EndToEnd EndToEndList.

(** ** Entries of the map *)

(** An instance, the Go type of the value the map holds for it, what the
    controller stores, and the bytes it answers with. *)
Record instance_item := { it_inst : Z; it_type : gotype; it_val : goval; it_image : bytes }.

Definition it_kv (e : instance_item) : Z * goval := (it_inst e, zero_value (it_type e)).
Definition it_tag (e : instance_item) : tagDesc := instance_tag (it_kv e).
Definition it_ioi (e : instance_item) : tagIOI := instance_ioi (it_kv e).
Definition it_ty (e : instance_item) : Z := fst (GoVarToCIPType (zero_value (it_type e))).
Definition it_svc (connSize : Z) (e : instance_item) : Z := readServiceForTag (it_tag e) connSize.

Definition it_ok (e : instance_item) : Prop :=
  0 <= it_inst e < 2 ^ 32 /\ transferable (it_val e) /\ type_of (it_val e) = Some (it_type e) /\ value_image (it_val e) (it_image e).

Definition it_req (connSize : Z) (e : instance_item) : Z := 2 + blen (instanceIOIPath (it_inst e)) + footer_size (it_svc connSize e).
Definition it_resp (e : instance_item) : Z := 4 + 2 + Size (it_ty e).
Definition it_sum (g : instance_item -> Z) (es : list instance_item) : Z := foldr (fun e z => g e + z) 0 es.

(** The entry of the reply, of the request's service. *)
Definition it_entry (connSize : Z) (e : instance_item) : bytes := [Service.AsResponse (it_svc connSize e); 0; 0; 0] ++ it_image e.

Lemma it_tag_eq e : it_ok e ->
  it_tag e = {| td_TagName := instance_name (it_inst e); td_TagType := it_ty e; td_Elements := 1; td_Struct := zero_value (it_type e) |} /\
  it_ty e <> CIPTypeStruct /\ 0 <= Size (it_ty e).
Proof.
  intros (_ & Hv & Ht & _). unfold it_tag, instance_tag, tag_of, it_ty, it_kv.
  destruct (transferable_code _ _ Hv Ht) as (ty & E & H1 & H2). cbn [fst snd]. by rewrite E.
Qed.

Lemma it_resp_eq `{Methods} e : it_ok e -> estimateTagResponseSize (it_tag e) = Ok (it_resp e) /\ 0 <= it_resp e.
Proof.
  intros He. destruct (it_tag_eq e He) as (-> & Hs & Hz). unfold estimateTagResponseSize. cbn [td_TagType td_Elements].
  rewrite (proj2 (Z.eqb_neq _ _)) by done. cbn [negb]. unfold it_resp. split; [do 2 f_equal; lia|lia].
Qed.

Lemma it_req_nonneg connSize e : 0 <= it_req connSize e.
Proof. unfold it_req, footer_size, blen. destruct (_ =? _); lia. Qed.

Lemma it_sum_nonneg g es : Forall (fun e => 0 <= g e) es -> 0 <= it_sum g es.
Proof. induction 1; simpl; lia. Qed.

(** ** The request *)

(** The frames of a read and of a fragmented read of the instances. *)
Lemma instance_requests connSize es : Forall it_ok es ->
  frag_requests connSize (it_tag <$> es) (it_ioi <$> es) (replicate (length es) 0) =
    (fun e => instance_request connSize (it_tag e) (it_ioi e)) <$> es.
Proof.
  induction 1 as [|e es He _ IH]; [done|]. rewrite !fmap_cons. cbn [length replicate].
  change (frag_requests connSize (it_tag e :: (it_tag <$> es)) (it_ioi e :: (it_ioi <$> es)) (0 :: replicate (length es) 0)) with
    (tag_request (it_svc connSize e) (it_tag e) (it_ioi e) 0 :: frag_requests connSize (it_tag <$> es) (it_ioi <$> es) (replicate (length es) 0)).
  by rewrite IH.
Qed.

(** The path of a request names the instance of the symbol class. *)
Lemma instance_path_read {R} `{ReaderLaws R} inst : 0 <= inst < 2 ^ 32 ->
  parses (R:=R) (c ← Class_.Read; i ← Instance_.Read; mret (c, i)) (instanceIOIPath inst) (CipObject_Symbol, inst).
Proof.
  intros Hi. unfold instanceIOIPath. rewrite <- (app_nil_r (Instance_.Bytes inst)).
  assert (0 <= CipObject_Symbol < 2 ^ 16) by done.
  repeat (eapply parses_bind; [by auto with go|]). apply parses_ret.
Qed.

Section Select.
Context `{Methods} (U : nat -> Z).

Lemma select_instances w all es pos sel pb rs :
  let conn := ConnectionSize (link w) in
  drop pos all = it_ioi <$> es -> Forall it_ok es -> 0 <= sel ->
  within conn (sel + Z.of_nat (length es)) pb rs (it_sum (it_req conn) es) (it_sum it_resp es) ->
  select_tags U (it_tag <$> es) (Some all) pos sel pb rs w = (Ok (seq pos (length es)), w).
Proof.
  intros conn Hd Hok Hsel Hw. revert pos sel pb rs Hd Hsel Hw.
  induction Hok as [|e es He Hok IH]; intros pos sel pb rs Hd Hsel Hw; [done|].
  rewrite fmap_cons in *. cbn [select_tags].
  assert (all !! pos = Some (it_ioi e)) as El by (by rewrite <- (Nat.add_0_r pos), <- lookup_drop, Hd).
  eapply (step _ _ _ (it_ioi e) w); [unfold tag_ioi; by rewrite El|]. eapply step; [reflexivity|].
  destruct (it_resp_eq e He) as [Er Hr].
  assert (candidate_sizes sel pb rs (it_tag e) (it_ioi e) (ConnectionSize (link w)) = Ok (it_req conn e, it_resp e, false)) as Ec.
  { unfold candidate_sizes. rewrite Er. cbn [mbind res_bind]. fold conn. fold (it_svc conn e).
    change (ioi_Buffer (it_ioi e)) with (instanceIOIPath (it_inst e)). fold (it_req conn e).
    pose proof (it_sum_nonneg (it_req conn) es ltac:(apply list.Forall_forall; intros; apply it_req_nonneg)).
    assert (0 <= it_sum it_resp es) by (apply it_sum_nonneg; eapply Forall_impl; [|exact Hok]; intros ? Ho; by apply it_resp_eq).
    destruct Hw as [W1 W2]. unfold estimateMultiReadRequestOverhead, estimateMultiReadReplyOverhead, multi_reply_overhead in *.
    simpl length in *. cbn [it_sum foldr] in *. fold (it_sum (it_req conn) es) (it_sum it_resp es) in *.
    rewrite !(proj2 (Z.leb_gt _ _)) by lia. done. }
  eapply (step _ _ _ (it_req conn e, it_resp e, false) w); [unfold lift; by rewrite Ec|]. cbv beta iota.
  eapply step; [|reflexivity]. apply IH; [|lia|].
  - rewrite <- Nat.add_1_r, <- drop_drop, Hd. done.
  - destruct Hw as [W1 W2]. simpl length in *. cbn [it_sum foldr] in *. unfold within.
    replace (sel + 1 + Z.of_nat (length es)) with (sel + Z.of_nat (S (length es))) by lia. unfold it_sum in *. lia.
Qed.

Lemma select_instance_batch w es :
  let conn := ConnectionSize (link w) in
  es <> [] -> Forall it_ok es ->
  within conn (Z.of_nat (length es)) 0 0 (it_sum (it_req conn) es) (it_sum it_resp es) ->
  selectPackedTagBatch U (seq 0 (length es)) (it_tag <$> es) (Some (it_ioi <$> es)) w =
    (Ok (seq 0 (length es), it_tag <$> es, Some (it_ioi <$> es), []), w).
Proof.
  intros conn Hne Hok Hw.
  pose proof (select_instances w (it_ioi <$> es) es 0 0 0 0 eq_refl Hok ltac:(lia) Hw) as E.
  assert (index_all (it_tag <$> es) (seq 0 (length es)) = Ok (it_tag <$> es)) as Ht by (rewrite <- (length_fmap it_tag); apply index_all_seq).
  assert (index_all (it_ioi <$> es) (seq 0 (length es)) = Ok (it_ioi <$> es)) as Hi by (rewrite <- (length_fmap it_ioi); apply index_all_seq).
  unfold selectPackedTagBatch. destruct es as [|e es]; [done|].
  cbn [length seq] in *. set (idxs := (0%nat :: seq 1 (length es))) in *. rewrite Ht, Hi.
  eapply step; [reflexivity|]. eapply step; [reflexivity|].
  eapply (step _ _ _ idxs w).
  { unfold selectPackedTagIndexes. rewrite !fmap_cons in *. cbn [length]. rewrite !length_fmap, Nat.eqb_refl. cbn [negb].
    by rewrite (bind_Ok _ _ _ _ _ E). }
  cbv beta. assert (split_selected 0 idxs idxs = (idxs, [])) as ->.
  { pose proof (split_selected_all 0 idxs) as Hs. unfold idxs in *. cbn [length seq] in Hs. by rewrite length_seq in Hs. }
  rewrite Ht, Hi. reflexivity.
Qed.
End Select.

(** ** The reply *)

Section Answer.
Context `{Methods} (U : nat -> Z).

Lemma it_entries_ok connSize es : Forall it_ok es ->
  exists xs, Forall2 entry_ok (it_entry connSize <$> es) xs /\ Forall2 (fun e r => entry_of (it_val e) r) es xs.
Proof.
  induction 1 as [|e es He Hes (xs & Hx1 & Hx2)]; [by exists []|]. destruct He as (_ & Hv & _ & Hb).
  assert (it_svc connSize e = CIPService_Read \/ it_svc connSize e = CIPService_FragRead) as Hs
    by (unfold it_svc, readServiceForTag; repeat case_match; auto).
  destruct (image_entry (it_svc connSize e) _ _ Hs Hv Hb) as (r & Hr1 & Hr2).
  exists (r :: xs). split; by constructor.
Qed.

Lemma instance_values_all es rs : Forall it_ok es -> Forall2 (fun e r => entry_of (it_val e) r) es rs ->
  instance_values (it_tag <$> es) (it_ioi <$> es) ((fun r => add_result r frag_start) <$> rs) = Ok ((fun e => RVal (it_val e)) <$> es).
Proof.
  intros Hok Hr. induction Hr as [|e r es rs [Hst Hdec] Hr IH]; [done|]. apply Forall_cons_iff in Hok as [Hoe Hok].
  rewrite !fmap_cons. cbn [instance_values]. rewrite (IH Hok).
  unfold add_result at 1 2 3. rewrite Hst, Z.eqb_refl. cbn [ft_respType ft_status ft_chunks frag_start app Z.eqb].
  destruct (it_tag_eq e Hoe) as [Et _]. rewrite Hdec; [done| | |done]; rewrite Et; [|done].
  cbn [td_TagType]. destruct Hoe as (_ & Hv & Ht & _). by apply zero_value_type.
Qed.

(** The frame a map of instances is asked for with. *)
Definition instances_frame (es : list instance_item) (w : client_world) : bytes :=
  unit_frame (multi_item (next_seq w) ((fun e => instance_request (ConnectionSize (link w)) (it_tag e) (it_ioi e)) <$> es)) w.

(** C18.  A ReadMapByInstance whose tags fit one message asks for them in one
    frame, in which every request names the instance of a symbol; a reply
    with an entry for each makes it return exactly the controller's values,
    scalars and strings. *)
Theorem instances_read es h i0 i1 s se w :
  let conn := ConnectionSize (link w) in
  let rs := it_entry conn <$> es in
  es <> [] -> status w = connectionStatusConnected -> Forall it_ok es ->
  within conn (Z.of_nat (length es)) 0 0 (it_sum (it_req conn) es) (it_sum it_resp es) ->
  eipHeader_ok h -> hdr_Length h = blen (serializeItems [i0; i1]) -> hdr_Status h = 0 ->
  item_wf i0 -> item_wf i1 -> 0 <= s < 2 ^ 16 -> item_Data i1 = map_reply_data s rs -> blen (map_reply_data s rs) < 2 ^ 15 ->
  ReadMapByInstance U (it_kv <$> es) (answer (eipHeader_bytes h ++ serializeItems [i0; i1]) se w) =
    (Ok ((fun e => (it_inst e, RVal (it_val e))) <$> es), answered (se ++ [instances_frame es w]) (snd (sequencer w))) /\
  Forall (fun e => parses (R:=bytes) (c ← Class_.Read; i ← Instance_.Read; mret (c, i))
            (ioi_Buffer (it_ioi e)) (CipObject_Symbol, it_inst e)) es.
Proof.
  intros conn rs Hne Hst Hok Hw Hh Hl Hs0 Hi0 Hi1 Hs Hd Hb. split.
  2: { eapply Forall_impl; [|exact Hok]. intros e (Hi & _). by apply instance_path_read. }
  unfold ReadMapByInstance. set (g := eipHeader_bytes h ++ serializeItems [i0; i1]).
  eapply step; [by apply wrapM_Ok, checkConnection_up|]. cbv zeta.
  assert (instance_tag <$> (it_kv <$> es) = it_tag <$> es) as -> by by rewrite <- list_fmap_compose.
  assert (instance_ioi <$> (it_kv <$> es) = it_ioi <$> es) as -> by by rewrite <- list_fmap_compose.
  rewrite !length_fmap.
  pose proof (select_instance_batch U (answer g se w) es Hne Hok Hw) as Esel.
  destruct (it_entries_ok conn es Hok) as (xs & Hx1 & Hx2). pose proof (Forall2_length Hx2) as Lx.
  assert (readListFragWithIOIsAll (it_tag <$> es) (it_ioi <$> es) (answer g se w) =
    (Ok ((fun e => RVal (it_val e)) <$> es), answered (se ++ [instances_frame es w]) (snd (sequencer w)))) as Eread.
  { unfold readListFragWithIOIsAll. rewrite !length_fmap, Nat.eqb_refl. cbn [negb]. eapply step.
    - apply (frag_rounds_one (it_tag <$> es) (it_ioi <$> es) xs); [by rewrite length_fmap|by rewrite length_fmap|done| | |].
      + eapply Forall2_Forall_r; [exact Hx2|]. apply list.Forall_forall. intros e _ r [Hr _]. exact Hr.
      + destruct es; [done|simpl; lia].
      + apply (readListFragRound_answered _ _ _ h i0 i1 s rs xs); try done. unfold rs. by rewrite !length_fmap.
    - unfold lift. rewrite (instance_values_all es xs) by done. unfold instances_frame.
      by rewrite (instance_requests _ es Hok). }
  eapply (step _ _ _ ((fun e => RVal (it_val e)) <$> es)).
  2: { unfold mret, M_ret. do 2 f_equal. rewrite <- list_fmap_compose. clear. induction es as [|e es IH]; [done|].
       rewrite !fmap_cons. cbn [zip zip_with]. by rewrite IH. }
  destruct es as [|e es]; [done|]. set (E := e :: es) in *.
  change (length E) with (S (length es)) at 1. change (seq 0 (length E)) with (0%nat :: seq 1 (length es)) in *. cbn [instance_batches].
  eapply step; [exact Esel|]. cbv beta iota. eapply step; [exact Eread|].
  pose proof (store_results_all ((fun e => RVal (it_val e)) <$> E) (replicate (length E) (RVal VNil)) []) as Hstore.
  rewrite length_fmap, length_replicate in Hstore. specialize (Hstore eq_refl). cbn [length app] in Hstore.
  change (seq 0 (length E)) with (0%nat :: seq 1 (length es)) in Hstore.
  eapply step; [unfold lift; by rewrite Hstore|]. by destruct (length es).
Qed.
End Answer.

(** ** Witness *)

Definition sample_items : list instance_item :=
  [{| it_inst := 5; it_type := TInt I32; it_val := VInt I32 7; it_image := [0xC4; 0] ++ [7; 0; 0; 0] |};
   {| it_inst := 300; it_type := TString; it_val := VString (str "pump"); it_image := cipStringPacker_Bytes (str "pump") |}].
Definition sample_i0 : CIPItem := Write [5; 0; 0; 0] (empty_item cipItem_ConnectionAddress).
Definition sample_i1 : CIPItem :=
  Write (map_reply_data 6 (it_entry 508 <$> sample_items)) (empty_item cipItem_ConnectedData).
Definition sample_header : eipHeader :=
  {| hdr_Command := cipCommandSendUnitData; hdr_Length := blen (serializeItems [sample_i0; sample_i1]); hdr_SessionHandle := 1;
     hdr_Status := 0; hdr_Context := 0; hdr_Options := 0 |}.

Lemma instances_read_witness :
  ReadMapByInstance (H:=no_methods) (fun _ => 0) [(5, VInt I32 0); (300, VString [])]
      (answer (eipHeader_bytes sample_header ++ serializeItems [sample_i0; sample_i1]) [] map_client) =
    (Ok [(5, RVal (VInt I32 7)); (300, RVal (VString (str "pump")))],
     answered ([] ++ [instances_frame sample_items map_client]) (snd (sequencer map_client))) /\
  Forall (fun e => parses (R:=bytes) (c ← Class_.Read; i ← Instance_.Read; mret (c, i))
            (ioi_Buffer (it_ioi e)) (CipObject_Symbol, it_inst e)) sample_items.
Proof.
  apply (instances_read (H:=no_methods) (fun _ => 0) sample_items sample_header sample_i0 sample_i1 6 [] map_client).
  - discriminate.
  - reflexivity.
  - apply Forall_cons_2; [|apply Forall_cons_2; [|apply Forall_nil_2]]; (split; [zbound|]).
    + split; [zbound|]. split; [done|]. apply (image_fixed (VInt I32 7) [7; 0; 0; 0]); [reflexivity|discriminate|reflexivity].
    + split; [by vm_compute; repeat constructor|]. split; [done|]. constructor.
  - zbound.
  - zbound.
  - reflexivity.
  - reflexivity.
  - zbound.
  - zbound.
  - zbound.
  - vm_compute. reflexivity.
  - zbound.
Defined.
