(* ===== verification/EndToEndWrites.v ===== *)
(** * Writes of several tags, end to end

    The one multiple-service request of a WriteMap, served by the server of
    the same package: every value reaches the endpoint, in the order of the
    map, and a later ReadMap returns what the endpoint keeps. *)
From S2P Require Import Prelude Reader GoStrings GoValue CipNames CipDefs Types Items Ioi TagPath Pack Path Conns Router Messages Server ServerAttr ServerConnected ServerUnconnected ServerReplies ServerData Client ClientTags ClientConn ClientScript MultiRead MultiReadProofs WriteTags ServerMulti EndToEnd EndToEndList.

(** ** The requests *)

(** What binary.Write makes of a scalar. *)
Definition wire_bytes (v : goval) : bytes := match binary_write v with Ok b => b | _ => [] end.

(** A tag and its value, as a request of the packet. *)
Definition me_write (e : map_entry) : bytes :=
  [CIPService_Write] ++ [u8 (blen (path_bytes (me_path e)) / 2)] ++ path_bytes (me_path e) ++
  [me_ty e] ++ [0] ++ le_bytes 2 1 ++ wire_bytes (me_val e).
Definition write_done : bytes := [Service.AsResponse CIPService_Write; 0; 0; 0].

Definition write_ok (e : map_entry) : Prop := me_ok e /\ (forall s, me_val e <> VString s).

Lemma write_ok_spec e : write_ok e ->
  scalar_ok (me_val e) /\ binary_write (me_val e) = Ok (wire_bytes (me_val e)) /\ me_ty e = fst (GoVarToCIPType (me_val e)).
Proof.
  intros [(Hv & Ht & Him) Hs]. split; [destruct (me_val e); try done; by destruct (Hs s)|]. split.
  - destruct Him as [v b _ _ Hb|s]; [|by destruct (Hs s)]. unfold wire_bytes. by rewrite Hb.
  - by apply zero_value_type.
Qed.

Section Server.
Context {P : Type} `{EndpointLaws P}.

(** The values are stored one after the other. *)
Inductive writes : P -> list map_entry -> P -> Prop :=
  | writes_nil p : writes p [] p
  | writes_cons p p1 p2 e es :
      TagWrite (render (me_path e)) (me_val e) p = (Ok tt, p1) -> writes p1 es p2 -> writes p (e :: es) p2.

Lemma multi_request_write w connID c ep p p' o item e rest :
  routed w connID c ep p -> write_ok e -> Forall part_ok (me_path e) ->
  TagWrite (render (me_path e)) (me_val e) p = (Ok tt, p') -> left (set_Pos (o + 8) item) (me_write e ++ rest) ->
  exists i', multi_request ep o item w = (Ok (write_done, i'), with_ep ep p' w) /\ item_Data i' = item_Data item.
Proof.
  intros Hr He Hp Hwr L. destruct (write_ok_spec e He) as (Hv & Hb & Ety). unfold multi_request. cbv zeta.
  assert (at_ (item_Data item) (set_Pos (o + 8) item) (me_write e ++ rest)) as L0 by by split.
  destruct (type_code_stop (me_val e) Hv) as (Hty & N1 & N2 & N3 & _). rewrite <- Ety in Hty, N1, N2, N3.
  assert (is_byte (u8 (blen (path_bytes (me_path e)) / 2))) as Hpl by by apply (wrap_bound 8).
  unfold me_write in L0. rewrite <- !(assoc_L (++)) in L0.
  apply (step_at (fun r => exists i', r = (Ok (write_done, i'), with_ep ep p' w) /\ item_Data i' = item_Data item)
    _ [CIPService_Write] CIPService_Write _ _ _ _ _ ltac:(by apply parses_wrapM, parses_u8) L0). intros i1 L1. cbv beta iota.
  eapply step_at; [by apply parses_wrapM, parses_item_Byte|exact L1|]. intros i2 L2. cbv beta iota.
  change ((CIPService_Write =? CIPService_FragRead) || (CIPService_Write =? CIPService_Read)) with false. cbv iota.
  change ((CIPService_Write =? CIPService_Write) || (CIPService_Write =? CIPService_FragWrite)) with true. cbv iota.
  eapply step_at_path; [exact Hp| |exact L2|]. { cbn. tauto. }
  intros i3 L3. cbv beta iota.
  eapply step_at; [by apply parses_wrapM, (parses_u8 (me_ty e))|exact L3|]. intros i4 L4. cbv beta iota.
  eapply step_at; [by apply parses_wrapM, (parses_u8 0)|exact L4|]. intros i5 L5. cbv beta iota.
  eapply step_at; [by apply parses_wrapM, (parses_u16 1)|exact L5|]. intros i6 L6. cbv beta iota.
  eapply (step_at (fun r => exists i', r = (Ok (write_done, i'), with_ep ep p' w) /\ item_Data i' = item_Data item)
    _ (concat [wire_bytes (me_val e)]) [me_val e] rest (item_Data item));
    [|cbn [concat]; rewrite app_nil_r; exact L6|].
  { apply (parses_read_n _ [me_val e] [wire_bytes (me_val e)]). constructor; [|constructor].
    apply parses_wrapM. rewrite Ety. by apply parses_readValue. }
  intros i7 [_ L7]. cbv beta iota. exists i7. split; [|exact L7].
  eapply step; [by eapply write_results_one|]. done.
Qed.

Lemma with_ep_twice ep p1 p2 (w : world P) : with_ep ep p2 (with_ep ep p1 w) = with_ep ep p2 w.
Proof. unfold with_ep, upd_srv, set_eps. cbn. by rewrite insert_insert_eq. Qed.

Lemma served_writes w connID c ep p p' es :
  routed w connID c ep p -> Forall write_ok es -> Forall (fun e => Forall part_ok (me_path e)) es -> writes p es p' ->
  served ep (me_write <$> es) ((fun _ => write_done) <$> es) w (with_ep ep p' w).
Proof.
  intros Hr Hok Hp Hwr. revert w Hr Hok Hp. induction Hwr as [p|p p1 p2 e es He Hwr IH]; intros w Hr Hok Hp.
  - rewrite (with_ep_same w connID c ep p Hr). apply served_nil.
  - apply Forall_cons_iff in Hok as [Hoe Hok]. apply Forall_cons_iff in Hp as [Hpe Hp].
    eapply (served_cons _ _ _ _ _ _ (with_ep ep p1 w)).
    + intros o item rest HL. by eapply multi_request_write.
    + rewrite <- (with_ep_twice ep p1 p2 w). apply IH; [by eapply routed_with_ep|done|done].
Qed.

(** Under different base names, every value is still there in the end. *)
Lemma writes_stored p es p' :
  writes p es p' -> Forall write_ok es -> NoDup ((fun e => tag_base (render (me_path e))) <$> es) ->
  Forall (fun e => exists v', written (me_val e) v' /\ stores p' (render (me_path e)) 1 v') es.
Proof.
  induction 1 as [p|p p1 p2 e es He Hwr IH]; intros Hok Hnd; [apply Forall_nil_2|].
  apply Forall_cons_iff in Hok as [Hoe Hok]. rewrite fmap_cons in Hnd. apply list.NoDup_cons in Hnd as [Hb Hnd].
  apply Forall_cons_2; [|by apply IH].
  destruct (TagWrite_stores p (render (me_path e)) (me_val e) p1 He) as (v' & Hw' & Hst);
    [by destruct Hoe as [(Hv & _) _]; destruct (me_val e)|by destruct Hoe as [(Hv & _) _]; destruct (me_val e)|].
  exists v'. split; [done|]. clear IH Hok Hoe He Hw' Hnd.
  induction Hwr as [|p1 p2 p3 e2 es He2 Hwr IH]; [done|]. rewrite fmap_cons in Hb. apply not_elem_of_cons in Hb as [Hb1 Hb2].
  apply IH; [done|]. eapply TagWrite_frame; [exact He2|done|done].
Qed.
End Server.

(** ** The client *)

Definition write_kv (e : map_entry) : bytes * goval := (render (me_path e), me_val e).

(** The frame of the request. *)
Definition write_map_frame (es : list map_entry) (w : client_world) : bytes :=
  unit_frame (Write (requests_data (next_seq w) (me_write <$> es)) (empty_item cipItem_ConnectedData)) w.

Section Client.
Context `{Methods} (U : nat -> Z).

Lemma write_iois_waiting f se w c all es :
  all_names c all -> Forall write_ok es -> Forall (fun e => e ∈ all) es ->
  exists iois c', write_iois U (write_kv <$> es) (waiting f se w c) = (Ok iois, waiting f se w c') /\
    iois_ok es iois /\ all_names c' all.
Proof.
  intros Hn Hok Hin. revert c Hn Hok. induction Hin as [|e es He Hin IH]; intros c Hn Hok.
  { exists [], c. split_and!; [done|constructor|done]. }
  apply Forall_cons_iff in Hok as [Hoe Hok]. destruct (write_ok_spec e Hoe) as (_ & _ & Ety).
  destruct (client_newIOI_waiting U f se w c all e Hn He) as (i & c1 & Ei & Hb & Hbit & Hn1).
  destruct (IH c1 Hn1 Hok) as (iois & c2 & E & Hi & Hn2). exists (i :: iois), c2. split_and!; [|by constructor|done].
  rewrite fmap_cons. cbn [write_iois write_kv]. rewrite <- Ety.
  rewrite (bind_Ok _ _ _ _ _ Ei), (bind_Ok _ _ _ _ _ E). done.
Qed.

Lemma write_request_Ok e i : write_ok e -> ioi_Buffer i = path_bytes (me_path e) ->
  write_request i (me_val e) = Ok (me_write e).
Proof.
  intros He Hi. destruct (write_ok_spec e He) as (Hv & Hb & Ety). destruct He as [_ Hs].
  destruct (scalar_code (me_val e) Hv Hs) as (Hty & _ & _ & Hstr). red in Hty.
  assert (sarg_of (me_val e) = SValue (me_val e)) as Ea by (destruct (me_val e); try done; by destruct (Hs s)).
  unfold write_request. cbn [Pack.Serialize]. rewrite Ea. cbn [serialize_part]. rewrite Hb. cbn [res_wrap mbind res_bind].
  unfold me_write, msgCIPWriteIOIFooter_Bytes. rewrite (proj2 (Z.eqb_neq _ CIPTypeSTRING)) by done. rewrite Hi, Ety.
  assert (le_bytes 2 (fst (GoVarToCIPType (me_val e))) = [fst (GoVarToCIPType (me_val e)); 0]) as ->.
  { unfold le_bytes. rewrite Z.mod_small, Z.div_small by done. done. }
  rewrite app_nil_r, <- !(assoc_L (++)). done.
Qed.

Lemma write_requests_Ok es iois : Forall write_ok es -> iois_ok es iois ->
  write_requests (write_kv <$> es) iois = Ok (me_write <$> es).
Proof.
  intros Hok Hi. induction Hi as [|e i es iois [Hb _] _ IH]; [done|].
  apply Forall_cons_iff in Hok as [Hoe Hok]. rewrite !fmap_cons. cbn [write_requests write_kv].
  rewrite (write_request_Ok e i Hoe Hb). cbn [mbind res_bind]. rewrite (IH Hok). done.
Qed.

Lemma WriteMap_answered es h data se w :
  status w = connectionStatusConnected -> all_names (ioi (cw_client w)) es -> Forall write_ok es ->
  Z.of_nat (length es) < 2 ^ 16 -> eipHeader_ok h -> hdr_Length h = blen data ->
  exists c', all_names c' es /\
    WriteMap U (write_kv <$> es) (answer (eipHeader_bytes h ++ data) se w) =
      (Ok tt, answered (se ++ [write_map_frame es w]) (snd (sequencer (upd_ioi (fun _ => c') w)))).
Proof.
  intros Hst Hn Hok Hlen Hh Hl.
  destruct (write_iois_waiting (eipHeader_bytes h ++ data) se w (ioi (cw_client w)) es es Hn Hok) as (iois & c' & E & Hi & Hn').
  { by apply list.Forall_forall. }
  exists c'. split; [done|]. unfold waiting in E at 1. rewrite upd_ioi_self in E. unfold WriteMap.
  rewrite (bind_Ok _ _ _ _ _ E). unfold waiting. set (w1 := upd_ioi (fun _ => c') w).
  eapply (step _ _ _ (u32 (cw_sequenceValue w + 1)) (answer (eipHeader_bytes h ++ data) se (snd (sequencer w1)))); [reflexivity|].
  eapply step; [unfold lift; by rewrite write_requests_Ok|].
  eapply step; [by apply unit_request_answered|]. cbv beta. unfold write_map_frame.
  assert (multi_item (next_seq w) (me_write <$> es) = Write (requests_data (next_seq w) (me_write <$> es)) (empty_item cipItem_ConnectedData)) as <-; [|done].
  unfold multi_item, requests_data, requests_payload, requests_offsets, multi_service_req. rewrite length_fmap, wrap_small by lia. done.
Qed.
End Client.

(** ** Client and server *)

Lemma blen_me_write e : 6 <= blen (me_write e).
Proof. unfold me_write, blen. rewrite !length_app. cbn [length]. rewrite length_le_bytes. lia. Qed.

Lemma count_bound es : blen (requests_payload (me_write <$> es)) < 2 ^ 15 -> Z.of_nat (length es) < 2 ^ 12.
Proof.
  intros Hl. unfold requests_payload in Hl.
  pose proof (blen_concat_le2 (requests_offsets (me_write <$> es))) as E. unfold requests_offsets in *.
  rewrite length_request_offsets, length_fmap in E.
  assert (6 * Z.of_nat (length es) <= blen (concat (me_write <$> es))).
  { clear. induction es as [|e es IH]; [done|]. rewrite fmap_cons. pose proof (blen_me_write e).
    set (r := me_write <$> es) in *. cbn [concat length]. unfold blen in *. rewrite length_app. lia. }
  unfold blen in *. rewrite !length_app, length_le_bytes, !length_fmap in Hl. lia.
Qed.

Lemma blen_done es : blen (concat ((fun _ : map_entry => write_done) <$> es)) = 4 * Z.of_nat (length es).
Proof.
  induction es as [|e es IH]; [done|]. rewrite fmap_cons. set (r := _ <$> es) in *. cbn [concat length].
  unfold blen in *. rewrite length_app, Nat2Z.inj_add, IH. cbn [length write_done]. lia.
Qed.

Lemma all_names_same es es2 c :
  all_names c es -> Forall2 (fun e e2 => me_path e2 = me_path e /\ me_type e2 = me_type e) es es2 -> all_names c es2.
Proof.
  intros [Hnd Hn Hs] Hes. split; [| |done].
  - assert ((fun e => render (me_path e)) <$> es2 = (fun e => render (me_path e)) <$> es) as ->; [|done].
    clear Hnd Hn. induction Hes as [|e e2 es es2 [E _] _ IH]; [done|]. by rewrite !fmap_cons, E, IH.
  - clear Hnd. induction Hes as [|e e2 es es2 [E1 E2] _ IH]; [apply Forall_nil_2|].
    apply Forall_cons_iff in Hn as [Hne Hn]. apply Forall_cons_2; [|by apply IH]. unfold me_ty in *. by rewrite E1, E2.
Qed.

Section Composition.
Context {P : Type} `{EndpointLaws P} `{Methods} (rand_Uint32 : nat -> Z) (U : nat -> Z).

Lemma client_writes_map_spec ws wc c ep p p' es rest se :
  es <> [] -> status wc = connectionStatusConnected -> config_ok wc ->
  all_names (ioi (cw_client wc)) es -> Forall write_ok es ->
  blen (requests_payload (me_write <$> es)) < 2 ^ 15 ->
  can_write ws -> handler_ok (w_h ws) -> routed ws (OTNetworkConnectionID (link wc)) c ep p ->
  writes p es p' ->
  exists f c', all_names c' es /\
    serve_one rand_Uint32 (feed (write_map_frame es wc ++ rest) ws) =
      (Ok tt, sent f (with_ep ep p' (received (Context_ (config wc)) (next_seq wc) rest ws))) /\
    WriteMap U (write_kv <$> es) (answer f se wc) =
      (Ok tt, answered (se ++ [write_map_frame es wc]) (snd (sequencer (upd_ioi (fun _ => c') wc)))).
Proof.
  intros Hne Hs Hcfg Hn Hok Hpay Hcw Hh Hr Hwr.
  assert (0 <= next_seq wc < 2 ^ 16) as Hseq by by apply wrap_bound.
  set (ws' := received (Context_ (config wc)) (next_seq wc) rest ws). set (ws1 := with_ep ep p' ws').
  set (data := map_reply_data (next_seq wc) ((fun _ => write_done) <$> es)).
  pose proof (count_bound es Hpay) as Hlen.
  assert (blen data < 2 ^ 15) as Hrep.
  { unfold data. rewrite blen_map_reply, length_fmap, blen_done. lia. }
  destruct (reply_header_ok data (conn_TO c) ws1 Hh) as (Hok1 & Hst1 & Hlh); [apply Hcfg|exact Hrep|].
  destruct (WriteMap_answered U es (reply_header data (conn_TO c) ws1)
    (serializeItems [Write (le_bytes 4 (conn_TO c)) (empty_item cipItem_ConnectionAddress);
                     Write data (empty_item cipItem_ConnectedData)]) se wc) as (c' & Hn' & E); try done; [lia|].
  exists (connected_frame (conn_TO c) data ws1), c'. split; [done|]. split; [|rewrite connected_frame_eq; exact E].
  apply (serve_unit_frame rand_Uint32 ws (sent (connected_frame (conn_TO c) data ws1) ws1) wc (next_seq wc)
    CIPService_MultipleService ([2; 0x20; 0x02; 0x24; 0x01] ++ requests_payload (me_write <$> es))); try done.
  { unfold blen in *. rewrite length_app. cbn [length]. lia. }
  intros j0 j1 Hid Hd0 Hd1 _. unfold connected_service.
  change (CIPService_MultipleService =? CIPService_Write) with false. cbv iota.
  change (CIPService_MultipleService =? CIPService_FragRead) with false.
  change (CIPService_MultipleService =? CIPService_Read) with false. cbv iota. rewrite Z.eqb_refl. apply wrapM_Ok.
  etrans.
  { apply (connectedMulti_served ws' ws1 (OTNetworkConnectionID (link wc)) c ep p j0 j1 (next_seq wc) (me_write <$> es)
      ((fun _ => write_done) <$> es) []); try done; [by destruct Hr|apply Hcfg| |by rewrite !length_fmap].
    apply (served_writes ws' (OTNetworkConnectionID (link wc)) c ep p p'); [by destruct Hr|done| |done].
    eapply Forall_impl; [|exact (an_names _ _ Hn)]. intros e0 He0. apply He0. }
  unfold data, map_reply_data, reply_payload. by rewrite !length_fmap.
Qed.

(** C6.  What a client writes with WriteMap, it reads with ReadMap: the one
    frame of the map hands every value to the endpoint under its tag, in the
    order of the map, and is answered once; under different base names the
    endpoint then holds every value (as it keeps it), and a ReadMap of the
    same tags, by the same client over the same connection, returns the
    values that are kept. *)
Theorem client_writes_map ws wc c ep p p' es se :
  let size := ConnectionSize (link wc) in
  es <> [] -> status wc = connectionStatusConnected -> config_ok wc ->
  all_names (ioi (cw_client wc)) es -> Forall write_ok es -> size <= 2 ^ 15 ->
  blen (requests_payload (me_write <$> es)) < 2 ^ 15 ->
  can_write ws -> handler_ok (w_h ws) -> routed ws (OTNetworkConnectionID (link wc)) c ep p ->
  writes p es p' ->
  exists f ws1 wc1,
    serve_one rand_Uint32 (feed (write_map_frame es wc) ws) = (Ok tt, sent f ws1) /\
    WriteMap U (write_kv <$> es) (answer f se wc) = (Ok tt, wc1) /\
    (NoDup ((fun e => tag_base (render (me_path e))) <$> es) ->
       Forall (fun e => exists v', written (me_val e) v' /\ stores p' (render (me_path e)) 1 v') es) /\
    forall es2, Forall2 (fun e e2 => me_path e2 = me_path e /\ me_type e2 = me_type e) es es2 ->
      Forall me_ok es2 -> Forall (fun e2 => stores p' (render (me_path e2)) 1 (me_val e2)) es2 ->
      within size (Z.of_nat (length es2)) 0 0 (sum_of (me_req size) es2) (sum_of me_resp es2) ->
      exists f2 wc2,
        serve_one rand_Uint32 (feed (map_frame es2 wc1) (sent f ws1)) =
          (Ok tt, sent f2 (received (Context_ (config wc1)) (next_seq wc1) [] (sent f ws1))) /\
        ReadMap U (me_kv <$> es2) (answer f2 se wc1) =
          (Ok (Some ((fun e => (render (me_path e), RVal (me_val e))) <$> es2)), wc2) /\
        conn (link wc2) = Some {| nc_open := true; nc_script := []; nc_rx := []; nc_sent := se ++ [map_frame es2 wc1] |}.
Proof.
  intros size Hne Hs Hcfg Hn Hok Hsize Hpay Hcw Hh Hr Hwr.
  destruct (client_writes_map_spec ws wc c ep p p' es [] se) as (f & c' & Hn' & E1 & E2); try done.
  rewrite app_nil_r in E1. set (ws1 := with_ep ep p' _) in *. eexists f, ws1, _. split; [exact E1|]. split; [exact E2|]. split.
  - intros Hnd. by eapply writes_stored.
  - intros es2 Hes2 Hok2 Hst2 Hw2.
    destruct (client_reads_map_spec rand_Uint32 U (sent f ws1)
      (answered (se ++ [write_map_frame es wc]) (snd (sequencer (upd_ioi (fun _ => c') wc)))) c ep p' es2 [] se)
      as (f2 & c2 & _ & E3 & E4); try done.
    + destruct es2; [|done]. by apply Forall2_nil_inv_r in Hes2.
    + by apply (all_names_same es).
    + apply routed_sent. eapply routed_with_ep. by destruct Hr.
    + rewrite app_nil_r in E3. eexists f2, _. split; [exact E3|]. split; [exact E4|done].
Qed.
End Composition.

(** ** Witness *)

(** A DINT and an INT, written and read back. *)
Definition write_provider : MapTagProvider := {| mtp_Data := Some {[ str "n" := VInt I16 0; str "x" := VInt I32 5 ]} |}.
Definition tag_n : list tag_part := [{| tp_name := str "n"; tp_idx := [] |}].
Definition write_entries : list map_entry :=
  [{| me_path := tag_x; me_type := TInt I32; me_val := VInt I32 9; me_image := [0xC4; 0] ++ [9; 0; 0; 0] |};
   {| me_path := tag_n; me_type := TInt I16; me_val := VInt I16 (-3); me_image := [0xC3; 0] ++ [0xFD; 0xFF] |}].

Lemma client_writes_map_witness :
  exists f wc2,
    let ws := sample_server write_provider in
    let wc := map_client in
    exists ws1 wc1 f1,
      serve_one (fun _ => 1) (feed (write_map_frame write_entries wc) ws) = (Ok tt, sent f1 ws1) /\
      WriteMap (fun _ => 0) (write_kv <$> write_entries) (answer f1 [] wc) = (Ok tt, wc1) /\
      serve_one (fun _ => 1) (feed (map_frame write_entries wc1) (sent f1 ws1)) =
        (Ok tt, sent f (received (Context_ (config wc1)) (next_seq wc1) [] (sent f1 ws1))) /\
      ReadMap (H:=no_methods) (fun _ => 0) (me_kv <$> write_entries) (answer f [] wc1) =
        (Ok (Some [(str "x", RVal (VInt I32 9)); (str "n", RVal (VInt I16 (-3)))]), wc2).
Proof.
  assert (Forall part_ok tag_n) as Hn by (unfold tag_n; ok_path).
  assert (exists p1, TagWrite (render tag_x) (VInt I32 9) write_provider = (Ok tt, p1)) as [p1 Hp1]
    by (eexists; vm_compute; reflexivity).
  assert (Forall me_ok write_entries) as Hme.
  { apply Forall_cons_2; [|apply Forall_cons_2; [|apply Forall_nil_2]]; (split; [zbound|]; split; [done|]);
      [apply (image_fixed (VInt I32 9) [9; 0; 0; 0])|apply (image_fixed (VInt I16 (-3)) [0xFD; 0xFF])];
      first [discriminate|reflexivity]. }
  destruct (client_writes_map (H1:=no_methods) (fun _ => 1) (fun _ => 0) (sample_server write_provider) map_client
    sample_connection 1%positive write_provider
    {| mtp_Data := Some {[ str "n" := VInt I16 (-3); str "x" := VInt I32 9 ]} |} write_entries [])
    as (f1 & ws1 & wc1 & E1 & E2 & _ & E3).
  - discriminate.
  - reflexivity.
  - zbound.
  - split; [by vm_compute; repeat constructor; set_solver| |apply no_cache_sound].
    apply Forall_cons_2; [|apply Forall_cons_2; [|apply Forall_nil_2]];
      (split; [done|by left|done|split; [done|split; [first [exact tag_x_ok|exact Hn]|done]]|];
       apply Forall_cons_2; [by right|apply Forall_nil_2]).
  - apply Forall_and; [exact Hme|]. apply Forall_cons_2; [|apply Forall_cons_2; [|apply Forall_nil_2]]; discriminate.
  - zbound.
  - zbound.
  - reflexivity.
  - zbound.
  - split; [exists 1%positive; by split|done|done].
  - eapply writes_cons; [vm_compute; reflexivity|]. eapply writes_cons; [vm_compute; reflexivity|].
    apply writes_nil.
  - destruct (E3 write_entries) as (f & wc2 & E4 & E5 & _).
    + repeat constructor.
    + exact Hme.
    + apply Forall_cons_2; [|apply Forall_cons_2; [|apply Forall_nil_2]];
        (eexists; split; [reflexivity|]; vm_compute; reflexivity).
    + zbound.
    + exists f, wc2, ws1, wc1, f1. cbv zeta. split; [exact E1|split; [exact E2|split; [exact E4|exact E5]]].
Defined.
