(* ===== verification/EndToEndIO.v ===== *)
(** * Cyclic I/O, end to end

    A client's implicit subscription opened at the server of the same
    package: the messages the server's I/O goroutine sends are the values the
    subscription puts into its channel. *)
From S2P Require Import Prelude Reader GoStrings GoValue CipNames CipDefs Types Items Ioi TagPath Path Pack PackProofs LgxTypes Conns Router Messages Server ServerAttr ServerConnected ServerUnconnected ServerReplies ServerData ServerIO Client ClientTags ClientConn ClientScript ServerOpen IOProvider ImplicitSub EndToEnd.

(** ** The subscription on a stream of datagrams *)

(** A round of the loop: what others do before and during it, what comes. *)
Abbreviation round := ((ImplicitSubscription -> ImplicitSubscription) * (ImplicitSubscription -> ImplicitSubscription) * udp_event)%type.

Section Stream.
Context `{Methods} (T : gotype).

Lemma length_io_datagram t dat : length (io_datagram t dat) = (20 + length dat)%nat.
Proof.
  unfold io_datagram, io_items, item_Bytes. cbn [map concat Write item_ID item_Length item_Data empty_item].
  rewrite !length_app, !length_le_bytes. cbn [length]. lia.
Qed.

Lemma parses_seq_address {R} `{ReaderLaws R} c n : 0 <= c < 2 ^ 32 -> 0 <= n < 2 ^ 32 ->
  parses (R:=R) (read_struct 8 (c ← read_u32; _ ← read_u32; mret c)) (le_bytes 4 c ++ le_bytes 4 n) c.
Proof.
  intros Hc Hn. apply parses_struct; [|by rewrite length_app, !length_le_bytes].
  eapply parses_bind; [by apply (parses_u32 c)|]. rewrite <- (app_nil_r (le_bytes 4 n)).
  eapply parses_bind; [by apply (parses_u32 n)|apply parses_ret].
Qed.

(** A datagram as the server's I/O goroutine makes them. *)
Definition datagram_ok (t : io_task) (dat : bytes) : Prop :=
  0 <= io_TO t < 2 ^ 32 /\ 0 <= io_seq t < 2 ^ 32 /\ blen dat <= 8172.

Lemma receive_parsed t dat s (k : ImplicitSubscription -> res unit * ImplicitSubscription) :
  datagram_ok t dat ->
  (if negb (io_TO t =? sub_toConnectionID s) then (Ok tt, s) else
     or_emit "implicit payload unpack failed" (decodeImplicitPayload T dat) emitValue s) = k s ->
  receive_datagram T (io_datagram t dat) s = k s.
Proof.
  intros (HT & Hs & Hl) Hk. unfold receive_datagram. pose proof (length_io_datagram t dat) as HL.
  assert (length (io_datagram t dat) <= udp_buffer)%nat as Hle by (unfold udp_buffer, blen in *; lia).
  cbv zeta. rewrite take_ge by done. rewrite (proj2 (Nat.eqb_neq _ _)) by lia.
  rewrite (parses_all _ _ _ (parses_datagram (R:=bytes) t dat HT ltac:(unfold blen in *; lia))).
  unfold io_items. cbn [map or_emit]. change (item_ID (Reset _)) with cipItem_SequenceAddress at 1.
  change (item_ID (Reset _)) with cipItem_ConnectedData. rewrite !Z.eqb_refl. cbn [negb orb].
  set (i0 := Reset (Write (_ ++ _) _)). set (i1 := Reset (Write _ (empty_item cipItem_ConnectedData))).
  pose proof (left_Reset (Write (le_bytes 4 (io_TO t) ++ le_bytes 4 (io_seq t)) (empty_item cipItem_SequenceAddress))) as [L0 E0].
  pose proof (parses_seq_address (R:=CIPItem) (io_TO t) (io_seq t) HT Hs i0 [] L0) as P0.
  rewrite P0 by (by rewrite app_nil_r). cbn [fst or_emit].
  rewrite (bind_Ok get _ s s s eq_refl). destruct (negb (io_TO t =? sub_toConnectionID s)); [exact Hk|].
  pose proof (left_Reset (Write (le_bytes 2 (u16 (io_seq t)) ++ dat) (empty_item cipItem_ConnectedData))) as [L1 E1].
  pose proof (parses_item_uint 2 (u16 (io_seq t)) ltac:(lia) ltac:(by apply wrap_bound) i1 dat L1 E1) as P1.
  change (Uint16 i1) with (item_uint 2 i1). rewrite P1.
  assert (Rest (rd_advance (length (le_bytes 2 (u16 (io_seq t)))) i1) = Ok dat) as ->.
  { unfold Rest. rewrite length_le_bytes. cbn [rd_advance].
    match goal with |- (if ?c then _ else _) = _ => assert (c = false) as -> end.
    { change ((2 <? 0) || (blen (le_bytes 2 (u16 (io_seq t)) ++ dat) <? 2) = false). cbn [orb Z.ltb].
      apply Z.ltb_ge. unfold blen. rewrite length_app, length_le_bytes. lia. }
    done. }
  exact Hk.
Qed.

(** What was put into a channel: received, or still in it. *)
Definition chan_log {A} (c : chan A) : list A := chan_got c ++ chan_buf c.

(** Receivers took values off the channel. *)
Record served_by {A} (c c' : chan A) : Prop := {
  sb_cap : chan_cap c' = chan_cap c;
  sb_log : chan_log c' = chan_log c;
  sb_closed : chan_closed c' = chan_closed c;
  sb_len : (length (chan_buf c') <= length (chan_buf c))%nat;
}.

(** What other goroutines do is to receive, and nothing else. *)
Definition receives (f : ImplicitSubscription -> ImplicitSubscription) : Prop := forall s,
  f s = set_channels (sub_values (f s)) (sub_errs (f s)) s /\
  served_by (sub_values s) (sub_values (f s)) /\ served_by (sub_errs s) (sub_errs (f s)).

(** They leave room for a value. *)
Definition frees (f : ImplicitSubscription -> ImplicitSubscription) : Prop := forall s,
  (0 < chan_cap (sub_values s))%nat -> (length (chan_buf (sub_values s)) <= chan_cap (sub_values s))%nat ->
  chan_full (sub_values (f s)) = false.

(** What comes in for the subscription to the connection [to], and the values
    it carries. *)
Inductive stream (to : Z) : list round -> list goval -> Prop :=
  | stream_nil : stream to [] []
  | stream_own b d t dat v rs vs :
      receives b -> receives d -> frees d -> datagram_ok t dat -> io_TO t = to ->
      decodeImplicitPayload T dat = Ok v -> stream to rs vs ->
      stream to ((b, d, Datagram (io_datagram t dat)) :: rs) (v :: vs)
  | stream_other b d t dat rs vs :
      receives b -> receives d -> datagram_ok t dat -> io_TO t <> to -> stream to rs vs ->
      stream to ((b, d, Datagram (io_datagram t dat)) :: rs) vs
  | stream_timeout b d rs vs :
      receives b -> receives d -> stream to rs vs -> stream to ((b, d, Timeout_) :: rs) vs.

(** The subscription runs, and its channel is within its capacity. *)
Record live (to : Z) (s : ImplicitSubscription) : Prop := {
  live_stop : sub_stopCh s = false;
  live_to : sub_toConnectionID s = to;
  live_cap : (0 < chan_cap (sub_values s))%nat;
  live_len : (length (chan_buf (sub_values s)) <= chan_cap (sub_values s))%nat;
}.

Lemma live_receives to f s : receives f -> live to s ->
  live to (f s) /\ chan_log (sub_values (f s)) = chan_log (sub_values s) /\ chan_log (sub_errs (f s)) = chan_log (sub_errs s).
Proof.
  intros Hf [Hs Ht Hc Hl]. destruct (Hf s) as (E & [Ec El _ En] & [_ Ee _ _]). split; [|done].
  split; [by rewrite E|by rewrite E|by rewrite Ec|by lia].
Qed.

Lemma emitValue_room v s : chan_full (sub_values s) = false ->
  emitValue v s = (Ok tt, set_channels (chan_send v (sub_values s)) (sub_errs s) s).
Proof. intros Hf. unfold emitValue. rewrite (bind_Ok get _ s s s eq_refl). by rewrite Hf. Qed.

Lemma run_round_own to d t dat v s : live to s -> receives d -> frees d -> datagram_ok t dat -> io_TO t = to ->
  decodeImplicitPayload T dat = Ok v ->
  exists s', run_round T d (Datagram (io_datagram t dat)) s = (Ok true, s') /\ live to s' /\
    chan_log (sub_values s') = chan_log (sub_values s) ++ [v] /\ chan_log (sub_errs s') = chan_log (sub_errs s).
Proof.
  intros Hs Hd Hfr Hok Ht Hv. destruct (live_receives to d s Hd Hs) as ([Hs1 Ht1 Hc1 Hl1] & El & Ee).
  assert (chan_full (sub_values (d s)) = false) as Hroom by (apply Hfr; apply Hs).
  exists (set_channels (chan_send v (sub_values (d s))) (sub_errs (d s)) (d s)). split_and!.
  - unfold run_round. rewrite (bind_Ok get _ s s s eq_refl), (live_stop _ _ Hs).
    rewrite (bind_Ok (modify d) _ s tt (d s) eq_refl).
    eapply step; [|reflexivity]. apply (receive_parsed t dat (d s) (fun _ => (Ok tt, _))); [done|].
    rewrite Ht1, Ht, Z.eqb_refl. cbn [negb]. rewrite Hv. cbn [or_emit]. by apply emitValue_room.
  - split; [done|done|done|]. simpl. rewrite length_app. unfold chan_full in Hroom. apply Nat.leb_gt in Hroom. simpl. lia.
  - rewrite <- El. unfold chan_log. simpl. by rewrite (assoc_L (++)).
  - done.
Qed.

Lemma run_round_other to d t dat s : live to s -> receives d -> datagram_ok t dat -> io_TO t <> to ->
  run_round T d (Datagram (io_datagram t dat)) s = (Ok true, d s).
Proof.
  intros Hs Hd Hok Ht. destruct (live_receives to d s Hd Hs) as ([Hs1 Ht1 _ _] & _ & _).
  unfold run_round. rewrite (bind_Ok get _ s s s eq_refl), (live_stop _ _ Hs).
  rewrite (bind_Ok (modify d) _ s tt (d s) eq_refl).
  eapply step; [|reflexivity]. apply (receive_parsed t dat (d s) (fun _ => (Ok tt, d s))); [done|].
  rewrite Ht1. by rewrite (proj2 (Z.eqb_neq _ _)).
Qed.

(** The loop puts exactly the values of its connection's datagrams into the
    channel, in their order. *)
Lemma run_stream to rs vs : stream to rs vs -> forall s, live to s ->
  exists s', run T rs s = (Ok false, s') /\ live to s' /\
    chan_log (sub_values s') = chan_log (sub_values s) ++ vs /\ chan_log (sub_errs s') = chan_log (sub_errs s).
Proof.
  induction 1 as [|b d t dat v rs vs Hb Hd Hfr Hok Ht Hv _ IH|b d t dat rs vs Hb Hd Hok Ht _ IH|b d rs vs Hb Hd _ IH]; intros s Hs.
  - exists s. by rewrite app_nil_r.
  - destruct (live_receives to b s Hb Hs) as (Hs1 & E1 & F1).
    destruct (run_round_own to d t dat v (b s) Hs1 Hd Hfr Hok Ht Hv) as (s2 & E & Hs2 & E2 & F2).
    destruct (IH s2 Hs2) as (s' & E' & Hs' & E3 & F3). exists s'. split_and!; [|done| |].
    + cbn [run]. rewrite (bind_Ok (modify b) _ s tt (b s) eq_refl), (bind_Ok _ _ _ _ _ E). done.
    + rewrite E3, E2, E1, <- (assoc_L (++)). done.
    + by rewrite F3, F2.
  - destruct (live_receives to b s Hb Hs) as (Hs1 & E1 & F1).
    destruct (live_receives to d (b s) Hd Hs1) as (Hs2 & E2 & F2).
    destruct (IH (d (b s)) Hs2) as (s' & E' & Hs' & E3 & F3). exists s'. split_and!; [|done| |].
    + cbn [run]. rewrite (bind_Ok (modify b) _ s tt (b s) eq_refl).
      by rewrite (bind_Ok _ _ _ _ _ (run_round_other to d t dat (b s) Hs1 Hd Hok Ht)).
    + by rewrite E3, E2, E1.
    + by rewrite F3, F2, F1.
  - destruct (live_receives to b s Hb Hs) as (Hs1 & E1 & F1).
    destruct (live_receives to d (b s) Hd Hs1) as (Hs2 & E2 & F2).
    destruct (IH (d (b s)) Hs2) as (s' & E' & Hs' & E3 & F3). exists s'. split_and!; [|done| |].
    + cbn [run]. rewrite (bind_Ok (modify b) _ s tt (b s) eq_refl).
      unfold run_round. rewrite (bind_Ok _ _ (b s) true (d (b s))); [done|].
      rewrite (bind_Ok get _ (b s) (b s) (b s) eq_refl), (live_stop _ _ Hs1). done.
    + by rewrite E3, E2, E1.
    + by rewrite F3, F2, F1.
Qed.
End Stream.

(** ** The server opens the connection *)

(** The request of a client that is not over a connection. *)
Definition rr_frame (item1 : CIPItem) (w : client_world) : bytes :=
  client_frame cipCommandSendRRData (serializeItems [empty_item cipItem_Null; item1]) w.

Lemma add_new_heap c cm l cm' : add_new c cm = (Ok l, cm') -> cm_heap cm' !! l = Some c.
Proof.
  unfold add_new, new_conn, Add, deref. cbv [mbind M_bind]. cbn [set_heap cm_heap]. rewrite lookup_insert_eq.
  cbv [modify mret M_ret]. intros [= <- <-]. simpl. apply lookup_insert_eq.
Qed.

Section Open.
Context {P : Type} `{CIPEndpoint P} (rand_Uint32 : nat -> Z).

(** The handler behind the header of a request. *)
Definition heard (ctx : Z) (rest : bytes) (w : world P) : world P :=
  upd_h (fun h => set_context ctx (Server.set_conn (set_in rest (h_conn h)) h)) w.

(** A goroutine was started. *)
Definition spawned (t : io_task) (w : world P) : world P :=
  {| w_srv := w_srv w; w_h := w_h w; w_rand := w_rand w; w_io := w_io w ++ [t] |}.

(** The I/O task of a connection, before its first tick. *)
Definition first_task (m : forwardOpen) (ep : eloc) (l : loc) (w : world P) : io_task :=
  {| io_TO := chosen_TO rand_Uint32 m w; io_TORPI := fo_TORPI m; io_ep := ep; io_conn := l; io_seq := 0 |}.

Definition opened_frame (m : forwardOpen) (w : world P) : bytes :=
  unconnected_frame (forwardOpenReply_bytes (ServerOpen.open_reply rand_Uint32 m w)) w.

(** A forward open with the trigger of this package: the reply, the
    connection in the table, and its I/O goroutine. *)
Lemma forwardOpen_io m path rest i (w : world P) ep l cm' :
  can_write w -> forwardOpen_ok 2 m -> fo_TransportTrigger m = 1 ->
  left i (forwardOpen_bytes 2 m ++ path ++ rest) ->
  length path = double_u8 (fo_ConnPathSize m) -> (2 <= length path)%nat ->
  add_new (opened rand_Uint32 m path w) (ConnMgr (w_srv w)) = (Ok l, cm') ->
  router_Path (srv_Router (w_srv w)) !! take 2 path = Some ep ->
  forwardOpen_ rand_Uint32 i w =
    (Ok tt, spawned (first_task m ep l w)
       (upd_srv (set_ConnMgr cm') (sent (opened_frame m w) (settled rand_Uint32 m w)))).
Proof.
  intros Hw Hm Ht L Hl H2 Ha Hrt. unfold forwardOpen_.
  eapply step; [by eapply read_open_spec|]. cbv beta iota.
  eapply step; [by apply open_connection_spec|]. cbv beta iota.
  rewrite Ht, Z.eqb_refl.
  eapply step; [apply wrapM_Ok; unfold router_Resolve, Resolve; simpl; by rewrite Hrt|]. done.
Qed.

Lemma set_context_feed ctx b w : upd_h (set_context ctx) (feed b w) = heard ctx b w.
Proof. done. Qed.

Lemma read_request_heard i0 i1 ctx rest w :
  item_wf i0 -> item_wf i1 ->
  read_request (heard ctx (serializeItems [i0; i1] ++ rest) w) = (Ok (Reset i0, Reset i1), heard ctx rest w).
Proof. intros H0 H1. exact (read_request_Ok i0 i1 rest (upd_h (set_context ctx) w) H0 H1). Qed.

(** A forward open frame is served by forwardOpen. *)
Lemma serve_open_frame ws w' wc m path rest :
  config_ok wc -> forwardOpen_ok 2 m -> fo_Service m = CIPService_ForwardOpen -> blen path < 2 ^ 15 ->
  (forall i, left i (forwardOpen_bytes 2 m ++ path ++ []) ->
     forwardOpen_ rand_Uint32 i (heard (Context_ (config wc)) rest ws) = (Ok tt, w')) ->
  serve_one rand_Uint32 (feed (rr_frame (Write path (Write (forwardOpen_bytes 2 m) (empty_item cipItem_UnconnectedData))) wc ++ rest) ws)
    = (Ok tt, w').
Proof.
  intros (Hsess & Hctx & _) Hm Hsv Hl Hk. unfold rr_frame, client_frame. rewrite <- (assoc_L (++)).
  set (item1 := Write path _). assert (item_Data item1 = forwardOpen_bytes 2 m ++ path) as Hd by done.
  assert (item_wf item1) as Hwf.
  { apply item_len_ok_wf; [done| |done]. rewrite Hd. unfold forwardOpen_bytes, blen in *.
    rewrite !length_app, !length_le_bytes. cbn [length]. lia. }
  unfold serve_one. eapply step.
  { eapply wrapM_Ok, on_conn_Ok, parses_eipHeader. unfold eipHeader_ok, client_header.
    cbn [hdr_Command hdr_Length hdr_SessionHandle hdr_Status hdr_Context hdr_Options].
    split_and!; first [lia|apply wrap_bound; lia|done]. }
  eapply step; [reflexivity|]. rewrite set_context_feed.
  change (hdr_Context (client_header _ _ _)) with (Context_ (config wc)).
  unfold handle_command. change (hdr_Command (client_header _ _ _)) with cipCommandSendRRData.
  change (cipCommandSendRRData =? cipCommandRegisterSession) with false. rewrite Z.eqb_refl. cbv iota.
  apply wrapM_Ok. unfold sendRRData.
  eapply step; [apply read_request_heard; [done|exact Hwf]|]. cbv beta iota.
  change (item_ID (Reset item1)) with cipItem_UnconnectedData.
  change (cipItem_UnconnectedData =? cipItem_ConnectedData) with false. rewrite Z.eqb_refl. cbv iota.
  pose proof (left_Reset item1) as L. rewrite Hd in L.
  unfold unconnectedData. pose proof L as L1. unfold forwardOpen_bytes in L1. rewrite <- !(assoc_L (++)) in L1.
  pose proof (fo_bytes_ok _ _ Hm) as Hb. apply Forall_cons_iff in Hb as [Hb _]. rewrite Hsv in *.
  pose proof (parses_u8 (R:=CIPItem) CIPService_ForwardOpen Hb) as P1. destruct L1 as [L1 E1].
  eapply step; [apply on_Ok, wrapM_Ok, (P1 _ _ L1 E1)|]. cbv beta iota. rewrite Z.eqb_refl. cbv iota.
  apply wrapM_Ok, Hk. rewrite app_nil_r. exact L.
Qed.
End Open.

(** ** The client opens the subscription *)

Lemma parseResponse_items h i0 i1 svc rest :
  hdr_Status h = 0 -> item_wf i0 -> item_wf i1 -> is_byte svc -> item_Data i1 = [svc; 0; 0; 0] ++ rest ->
  exists i, parseResponse h (serializeItems [i0; i1]) = Ok [Reset i0; i] /\ left i rest.
Proof.
  intros Hs H0 H1 Hsvc Hd. unfold parseResponse. rewrite Hs. cbn [negb Z.eqb].
  destruct (reply_items i0 i1 H0 H1) as (d & E1 & E2).
  rewrite (bind_Ok _ _ _ _ _ (wrapM_Ok _ _ _ _ _ E1)), (bind_Ok _ _ _ _ _ (wrapM_Ok _ _ _ _ _ E2)).
  cbn [map]. assert (is_byte 0) by done.
  assert (parses (R:=CIPItem) read_router_response [svc; 0; 0; 0] {| rr_Service := svc; rr_Status := 0; rr_StatusLen := 0 |}) as Hp.
  { apply parses_struct; [|done]. change [svc; 0; 0; 0] with ([svc] ++ [0] ++ [0] ++ [0]).
    rewrite <- (app_nil_r [0]) at 3. do 4 parse_field. apply parses_ret. }
  pose proof (left_Reset i1) as [L1 L2]. rewrite Hd in L2.
  rewrite (bind_Ok _ _ _ _ _ (on_Ok _ _ _ _ _ (wrapM_Ok _ _ _ _ _ (Hp _ _ L1 L2)))). cbv beta iota.
  cbn [rr_StatusLen negb Z.eqb].
  eexists. split; [reflexivity|]. split; [exact (rd_ok_advance (R:=CIPItem) _ _ L1)|].
  exact (advance_prefix (R:=CIPItem) _ _ _ L1 L2).
Qed.

(** The message of a subscription. *)
Definition implicit_open (serial ot to rpi trigger : Z) (path : bytes) (c : client_config) : forwardOpen :=
  {| fo_Service := CIPService_ForwardOpen; fo_PathSize := 2; fo_ClassType := Class_.cipClass_8bit;
     fo_Class := CipObject_ConnectionManager; fo_InstanceType := Instance_.cipInstance_8bit;
     fo_Instance := 1; fo_Priority := 0x07; fo_TimeoutTicks := 0xE9; fo_OTConnectionID := ot;
     fo_TOConnectionID := to; fo_ConnectionSerialNumber := serial; fo_VendorID := VendorId c;
     fo_OriginatorSerialNumber := SerialNumber c; fo_Multiplier := 0; fo_OTRPI := u32 (Z.quot rpi 1000);
     fo_OTNetworkConnParams := params_standard connSizeStandardMax; fo_TORPI := u32 (Z.quot rpi 1000);
     fo_TONetworkConnParams := params_standard connSizeStandardMax;
     fo_TransportTrigger := trigger; fo_ConnPathSize := u8 (Z.quot (blen path) 2) |}.

(** The client after it took a serial number and two connection ids. *)
Definition ids_taken (v : Z) (w : client_world) : client_world :=
  upd_link (fun l => set_sequenceNumber (u32 (u32 (sequenceNumber l + 1) + 1)) l)
    {| cw_client := cw_client w; cw_dials := cw_dials w; cw_sequenceValue := cw_sequenceValue w;
       cw_connectionSerialValue := v; cw_clock := cw_clock w |}.

Definition subscription_of (cfg : ImplicitSubscriptionConfig) (m : forwardOpen) (to : Z) : ImplicitSubscription :=
  {| sub_values := make_chan (Z.to_nat (ValueBuffer cfg)); sub_errs := make_chan (Z.to_nat (ErrorBuffer cfg));
     sub_udp_open := true; sub_stopCh := false; sub_doneCh := false; sub_connectionSerial := fo_ConnectionSerialNumber m;
     sub_vendorID := fo_VendorID m; sub_originatorSerial := fo_OriginatorSerialNumber m;
     sub_toConnectionID := to; sub_closed := false |}.

Section Subscribe.
Context (U : nat -> Z) (listen : bytes -> option error).

Lemma subscription_path_config cfg w w' path : config w' = config w ->
  subscription_path cfg w = (Ok path, w) -> subscription_path cfg w' = (Ok path, w').
Proof.
  intros Hc. unfold subscription_path. destruct (ConnectionPath cfg); [|by intros [= <-]].
  destruct (ProducedConsumedPath cfg) as [pc|]; [unfold lift; by intros [= ->]|].
  destruct (AssemblyPath cfg) as [a|]; [unfold lift; by intros [= ->]|].
  rewrite !(bind_Ok get _ _ _ _ eq_refl), Hc. destruct (Controller_Path (config w)); [by intros [= ->]|done].
Qed.

Lemma parses_reply_ids {R} `{ReaderLaws R} ot to rest : 0 <= ot < 2 ^ 32 -> 0 <= to < 2 ^ 32 -> length rest = 18%nat ->
  parses (R:=R) read_reply_ids (le_bytes 4 ot ++ le_bytes 4 to ++ rest) (ot, to).
Proof.
  intros Ho Ht Hl. unfold read_reply_ids, read_struct. eapply parses_bind_nil.
  { apply parses_slice. rewrite !length_app, !length_le_bytes, Hl. done. }
  assert (parses (R:=bytes) (ot ← read_u32; to ← read_u32; mret (ot, to)) (le_bytes 4 ot ++ le_bytes 4 to) (ot, to)) as Hp.
  { rewrite <- (app_nil_r (le_bytes 4 to)). do 2 parse_field. apply parses_ret. }
  erewrite (Hp _ rest); [apply parses_ret|done|by rewrite <- (assoc_L (++))].
Qed.

Lemma SubscribeImplicit_answered cfg0 wc path serial v h i0 i1 svc ot to rest se :
  let cfg := with_defaults (RPI (config wc)) cfg0 in
  let m := implicit_open serial (u32 (sequenceNumber (link wc) + 1)) (u32 (u32 (sequenceNumber (link wc) + 1) + 1))
             (sub_RPI cfg) (TransportTrigger cfg) (pad_even path) (config wc) in
  let item := Write (pad_even path) (Write (forwardOpen_bytes 2 m) (empty_item cipItem_UnconnectedData)) in
  let data := serializeItems [i0; i1] in
  status wc = connectionStatusConnected -> subscription_path cfg wc = (Ok path, wc) ->
  next_serial 2 (cw_connectionSerialValue wc) = Ok (serial, v) -> listen (ListenAddress cfg) = None ->
  eipHeader_ok h -> hdr_Length h = blen data -> hdr_Status h = 0 -> item_wf i0 -> item_wf i1 -> is_byte svc ->
  item_Data i1 = [svc; 0; 0; 0] ++ le_bytes 4 ot ++ le_bytes 4 to ++ rest ->
  0 <= ot < 2 ^ 32 -> 0 <= to < 2 ^ 32 -> length rest = 18%nat ->
  SubscribeImplicit U listen cfg0 (answer (eipHeader_bytes h ++ data) se wc) =
    (Ok (subscription_of cfg m to), answered (se ++ [rr_frame item wc]) (ids_taken v wc)).
Proof.
  intros cfg m item data Hst Hpath Hser Hlis Hh Hl Hs H0 H1 Hsvc Hd Hot Hto Hr.
  set (w1 := answer (eipHeader_bytes h ++ data) se wc). unfold SubscribeImplicit.
  eapply step; [apply wrapM_Ok; by apply checkConnection_up|].
  rewrite (bind_Ok get _ w1 w1 w1 eq_refl). cbv zeta. change (config w1) with (config wc). fold cfg.
  eapply step; [by apply (subscription_path_config cfg wc)|].
  eapply step; [unfold nextConnectionSerialNumber; change (cw_connectionSerialValue w1) with (cw_connectionSerialValue wc);
    by rewrite Hser|].
  set (w2 := answer (eipHeader_bytes h ++ data) se (ids_taken v wc)).
  eapply step; [reflexivity|].
  eapply (step _ _ _ (u32 (u32 (sequenceNumber (link wc) + 1) + 1)) w2); [reflexivity|].
  eapply (step _ _ _ item w2); [reflexivity|].
  destruct (parseResponse_items h i0 i1 svc (le_bytes 4 ot ++ le_bytes 4 to ++ rest) Hs H0 H1 Hsvc Hd) as (i & Ep & L).
  eapply step.
  { unfold forwardOpenCustom. eapply step.
    { apply wrapM_Ok. apply (send_recv_scripted cipCommandSendRRData _ h data [] se (ids_taken v wc) Hh Hl). }
    cbv beta iota. eapply step; [apply wrapM_Ok; unfold lift; unfold data; by rewrite Ep|]. cbv beta iota.
    rewrite <- (app_nil_r (le_bytes 4 ot ++ _)) in L.
    eapply step_on; [by apply parses_wrapM, (parses_reply_ids ot to rest)|exact L|intros i' _]. reflexivity. }
  cbv beta iota. rewrite Hlis. done.
Qed.
End Subscribe.

(** ** The ticks, as the subscription sees them *)

Section Ticks.
Context {P : Type} `{CIPEndpoint P} `{Methods} (T : gotype).

(** The connection of a task is open. *)
Definition task_open (t : io_task) (w : world P) : Prop :=
  exists c, cm_heap (ConnMgr (w_srv w)) !! io_conn t = Some c /\ conn_Open c = true.

(** What happens before a tick leaves the connection open and the endpoint
    with I/O data that stand for the value. *)
Definition offers (t : io_task) (f : world P -> world P) (v : goval) : Prop := forall w, task_open t w ->
  task_open t (f w) /\ exists p dat, srv_eps (w_srv (f w)) !! io_ep t = Some p /\ IORead p = (Ok dat, p) /\
    blen dat <= 8172 /\ decodeImplicitPayload T dat = Ok v.

(** A datagram of the task's connection with the value. *)
Definition datagram_of (to : Z) (d : bytes) (v : goval) : Prop :=
  exists t dat, d = io_datagram t dat /\ io_TO t = to /\ datagram_ok t dat /\ decodeImplicitPayload T dat = Ok v.

Lemma io_run_offers fs vs : forall t w, 0 <= io_TO t < 2 ^ 32 -> Forall2 (offers t) fs vs -> task_open t w ->
  exists t' ds w', io_run t fs w = (Ok (Some t', ds), w') /\ Forall2 (datagram_of (io_TO t)) ds vs.
Proof.
  revert vs. induction fs as [|f fs IH]; intros vs t w HT Hfs Hw.
  { apply Forall2_nil_inv_l in Hfs as ->. by exists t, [], w. }
  apply list.Forall2_cons_inv_l in Hfs. destruct Hfs as (v & vs' & Hf & Hfs & ->). destruct (Hf w Hw) as ((c & Hc & Ho) & p & dat & Hp & Hr & Hl & Hd).
  destruct (IH vs' (io_at t 1) (with_ep (io_ep t) p (f w)) HT) as (t' & ds & w' & E & Hds); [|by exists c|].
  { eapply Forall2_impl; [|exact Hfs]. intros g u Hg w0 Hw0. apply Hg. exact Hw0. }
  exists t', (io_datagram (io_at t 1) dat :: ds), w'. split.
  - cbn [io_run]. rewrite (bind_Ok (modify f) _ w tt (f w) eq_refl).
    rewrite (bind_Ok _ _ _ _ _ (io_tick_open t c p p dat (f w) Hc Ho Hp Hr)). cbv iota.
    rewrite (bind_Ok _ _ _ _ _ E). done.
  - constructor; [|exact Hds]. exists (io_at t 1), dat. split; [done|]. split; [done|]. split; [|done].
    split; [exact HT|]. split; [by apply (wrap_bound 32)|done].
Qed.

(** The datagrams, in their order, among whatever else the socket gets. *)
Inductive arrives (to : Z) : list round -> list bytes -> Prop :=
  | arrives_nil : arrives to [] []
  | arrives_own b d dg rs ds : receives b -> receives d -> frees d -> arrives to rs ds ->
      arrives to ((b, d, Datagram dg) :: rs) (dg :: ds)
  | arrives_other b d t dat rs ds : receives b -> receives d -> datagram_ok t dat -> io_TO t <> to ->
      arrives to rs ds -> arrives to ((b, d, Datagram (io_datagram t dat)) :: rs) ds
  | arrives_timeout b d rs ds : receives b -> receives d -> arrives to rs ds -> arrives to ((b, d, Timeout_) :: rs) ds.

Lemma arrives_stream to rs ds vs : arrives to rs ds -> Forall2 (datagram_of to) ds vs -> stream T to rs vs.
Proof.
  intros Ha. revert vs. induction Ha as [|b d dg rs ds Hb Hd Hf _ IH|b d t dat rs ds Hb Hd Hok Ht _ IH|b d rs ds Hb Hd _ IH]; intros vs Hvs.
  - apply Forall2_nil_inv_l in Hvs as ->. constructor.
  - apply list.Forall2_cons_inv_l in Hvs as (v & vs' & (t & dat & -> & Ht & Hok & Hv) & Hvs & ->).
    eapply stream_own; eauto.
  - eapply stream_other; eauto.
  - eapply stream_timeout; eauto.
Qed.
End Ticks.

Lemma length_pad_even b : (length (pad_even b) mod 2 = 0)%nat /\ (length b <= length (pad_even b) <= length b + 1)%nat.
Proof.
  unfold pad_even. pose proof (Nat.mod_upper_bound (length b) 2 ltac:(done)) as Hb.
  destruct (Nat.eqb_spec (length b mod 2) 1) as [E|E]; [|split; lia].
  rewrite length_app. cbn [length]. split; [|lia]. by rewrite Nat.Div0.add_mod, E.
Qed.

Lemma pad_even_words b : (length b <= 254)%nat ->
  length (pad_even b) = double_u8 (u8 (Z.quot (blen (pad_even b)) 2)).
Proof.
  intros Hl. destruct (length_pad_even b) as [H2 Hb]. unfold double_u8, blen.
  assert (exists k, length (pad_even b) = (2 * k)%nat) as [k E] by (exists (length (pad_even b) / 2)%nat; pose proof (Nat.div_mod (length (pad_even b)) 2 ltac:(done)); lia).
  rewrite E in *. rewrite Nat2Z.inj_mul, (Z.mul_comm (Z.of_nat 2)), Z.quot_mul by done. rewrite (wrap_small 8 (Z.of_nat k)), wrap_small; lia.
Qed.

(** ** Client and server *)

Lemma frame_eq cmd payload h : frame cmd [payload] h = eipHeader_bytes (Server.newEIPHeader cmd (blen payload) h) ++ payload.
Proof. unfold frame. by rewrite (app_nil_r payload : concat [payload] = payload). Qed.

Lemma reply_frame_ok cmd payload h :
  0 <= cmd < 2 ^ 16 -> handler_ok h -> 0 <= h_context h < 2 ^ 64 -> blen payload < 2 ^ 16 ->
  let hd := Server.newEIPHeader cmd (blen payload) h in
  eipHeader_ok hd /\ hdr_Status hd = 0 /\ hdr_Length hd = blen payload.
Proof.
  intros Hc (Hh & Ho) Hx Hl hd. unfold hd, Server.newEIPHeader, eipHeader_ok. cbn [hdr_Command hdr_Length
    hdr_SessionHandle hdr_Status hdr_Context hdr_Options].
  split; [split_and!; first [lia|apply wrap_bound; lia|done]|]. split; [done|].
  apply wrap_small. unfold blen in *. lia.
Qed.

Lemma default_cap cfg r : (0 < Z.to_nat (ValueBuffer (with_defaults r cfg)))%nat.
Proof. unfold with_defaults, positive_or. cbn [ValueBuffer]. destruct (Z.leb_spec (ValueBuffer cfg) 0); lia. Qed.

Section Composition.
Context {P : Type} `{CIPEndpoint P} `{Methods} (T : gotype) (rand_Uint32 : nat -> Z) (U : nat -> Z)
        (listen : bytes -> option error).

(** The message of the subscription, and its item. *)
Definition sub_open (cfg0 : ImplicitSubscriptionConfig) (serial : Z) (path : bytes) (wc : client_world) : forwardOpen :=
  let cfg := with_defaults (RPI (config wc)) cfg0 in
  implicit_open serial (u32 (sequenceNumber (link wc) + 1)) (u32 (u32 (sequenceNumber (link wc) + 1) + 1))
    (sub_RPI cfg) (TransportTrigger cfg) (pad_even path) (config wc).
Definition open_item (m : forwardOpen) (path : bytes) : CIPItem :=
  Write (pad_even path) (Write (forwardOpen_bytes 2 m) (empty_item cipItem_UnconnectedData)).

Lemma sub_open_ok cfg0 serial path wc :
  0 <= VendorId (config wc) < 2 ^ 16 -> 0 <= SerialNumber (config wc) < 2 ^ 32 -> 0 <= serial < 2 ^ 16 ->
  is_byte (TransportTrigger (with_defaults (RPI (config wc)) cfg0)) ->
  forwardOpen_ok 2 (sub_open cfg0 serial path wc).
Proof.
  intros Hv Hs Hser Htr. unfold sub_open, implicit_open.
  split; cbn [fo_Service fo_PathSize fo_ClassType fo_Class fo_InstanceType fo_Instance fo_Priority fo_TimeoutTicks
    fo_TransportTrigger fo_ConnPathSize fo_ConnectionSerialNumber fo_VendorID fo_OTConnectionID fo_TOConnectionID
    fo_OriginatorSerialNumber fo_Multiplier fo_OTRPI fo_TORPI fo_OTNetworkConnParams fo_TONetworkConnParams];
    repeat apply Forall_cons_2; try apply Forall_nil_2; first [done|by apply (wrap_bound 32)|by apply (wrap_bound 8)|zbound].
Qed.

Lemma chosen_bound {params} m (w : world P) : (forall n, 0 <= rand_Uint32 n < 2 ^ 32) -> forwardOpen_ok params m ->
  0 <= chosen_OT rand_Uint32 m w < 2 ^ 32 /\ 0 <= chosen_TO rand_Uint32 m w < 2 ^ 32.
Proof.
  intros Hr Hm. pose proof (fo_u32_ok _ _ Hm) as H32. apply Forall_cons_iff in H32 as [Ho H32].
  apply Forall_cons_iff in H32 as [Ht _]. unfold chosen_OT, chosen_TO.
  split; [destruct (fo_OTConnectionID m =? 0)|destruct (fo_TOConnectionID m =? 0)]; auto.
Qed.

(** The reply of the server opens the subscription. *)
Lemma subscription_opened cfg0 wc path serial v se (w : world P) :
  let cfg := with_defaults (RPI (config wc)) cfg0 in
  let m := sub_open cfg0 serial path wc in
  status wc = connectionStatusConnected -> subscription_path cfg wc = (Ok path, wc) ->
  next_serial 2 (cw_connectionSerialValue wc) = Ok (serial, v) -> listen (ListenAddress cfg) = None ->
  handler_ok (w_h w) -> 0 <= h_context (w_h w) < 2 ^ 64 -> forwardOpen_ok 2 m ->
  (forall n, 0 <= rand_Uint32 n < 2 ^ 32) ->
  SubscribeImplicit U listen cfg0 (answer (opened_frame rand_Uint32 m w) se wc) =
    (Ok (subscription_of cfg m (chosen_TO rand_Uint32 m w)),
     answered (se ++ [rr_frame (open_item m path) wc]) (ids_taken v wc)).
Proof.
  intros cfg m Hst Hpath Hser Hlis Hh Hctx Hm Hr. unfold opened_frame, unconnected_frame. rewrite frame_eq.
  destruct (chosen_bound m w Hr Hm) as [Hot Hto].
  set (item1 := Write (forwardOpenReply_bytes _) _).
  assert (length (item_Data item1) = 30%nat) as Hlen.
  { unfold item1, forwardOpenReply_bytes. cbn [Write item_Data empty_item app]. cbn [length].
    by rewrite !length_app, !length_le_bytes. }
  destruct (reply_frame_ok cipCommandSendRRData (serializeItems [empty_item cipItem_Null; item1]) (w_h w)) as (H1 & H2 & H3); try done.
  apply (SubscribeImplicit_answered U listen cfg0 wc path serial v _ (empty_item cipItem_Null) item1
    (Service.AsResponse (fo_Service m)) (chosen_OT rand_Uint32 m w) (chosen_TO rand_Uint32 m w)
    (le_bytes 2 serial ++ le_bytes 2 (fo_VendorID m) ++ le_bytes 4 (fo_OriginatorSerialNumber m) ++
     le_bytes 4 (fo_OTRPI m) ++ le_bytes 4 (fo_TORPI m) ++ [0; 0])); done.
Qed.

(** C7.  A subscription, end to end: the frame SubscribeImplicit sends,
    served by the server, opens a connection and starts its I/O goroutine, and
    the answer makes SubscribeImplicit return a subscription of exactly that
    connection.  Each tick then sends the datagram of the endpoint's data;
    when the receive loop gets them in order, among any datagrams of other
    connections and timeouts, its channel has been given exactly the values
    the endpoint offered at the ticks, in order, and no error, as long as the
    receivers keep room in it. *)
Theorem subscription_receives ws wc cfg0 path ep se :
  let cfg := with_defaults (RPI (config wc)) cfg0 in
  status wc = connectionStatusConnected -> config_ok wc ->
  0 <= VendorId (config wc) < 2 ^ 16 -> 0 <= SerialNumber (config wc) < 2 ^ 32 ->
  TransportTrigger cfg = 1 -> subscription_path cfg wc = (Ok path, wc) -> (2 <= length path <= 254)%nat ->
  listen (ListenAddress cfg) = None -> (forall n, 0 <= rand_Uint32 n < 2 ^ 32) ->
  can_write ws -> handler_ok (w_h ws) -> cm_ok (ConnMgr (w_srv ws)) -> keys_unique conn_OT (ConnMgr (w_srv ws)) ->
  (forall serial, cm_view conn_OT (ConnMgr (w_srv ws)) !! chosen_OT rand_Uint32 (sub_open cfg0 serial path wc) ws = None) ->
  router_Path (srv_Router (w_srv ws)) !! take 2 (pad_even path) = Some ep ->
  exists req f ws1 wc1 sub t,
    serve_one rand_Uint32 (feed req ws) = (Ok tt, ws1) /\ outs ws1 = outs ws ++ [f] /\
    SubscribeImplicit U listen cfg0 (answer f se wc) = (Ok sub, wc1) /\
    conn (link wc1) = Some {| nc_open := true; nc_script := []; nc_rx := []; nc_sent := se ++ [req] |} /\
    w_io ws1 = w_io ws ++ [t] /\ io_ep t = ep /\ sub_toConnectionID sub = io_TO t /\
    forall fs vs, Forall2 (offers T t) fs vs ->
      exists t' ds ws2, io_run t fs ws1 = (Ok (Some t', ds), ws2) /\
        forall rs, arrives (io_TO t) rs ds ->
          exists sub', run T rs sub = (Ok false, sub') /\ chan_log (sub_values sub') = vs /\ chan_log (sub_errs sub') = [].
Proof.
  intros cfg Hst Hcfg Hv Hsn Htr Hpath Hlen Hlis Hr Hw Hh Hok Hu Hfresh Hrt.
  destruct (next_serial_Ok (cw_connectionSerialValue wc)) as (serial & v & Hser & Hsb).
  set (m := sub_open cfg0 serial path wc). set (w := heard (Context_ (config wc)) [] ws).
  assert (forwardOpen_ok 2 m) as Hm by (apply sub_open_ok; [done|done|lia|]; fold cfg; by rewrite Htr).
  destruct (chosen_bound m w Hr Hm) as [_ Hto]. destruct (length_pad_even path) as [_ Hpe].
  destruct (add_new_refines conn_OT (opened rand_Uint32 m (pad_even path) w) (ConnMgr (w_srv ws)) Hok Hu eq_refl (Hfresh serial))
    as (l & cm' & Ha & _).
  exists (rr_frame (open_item m path) wc), (opened_frame rand_Uint32 m w).
  eexists. eexists. exists (subscription_of cfg m (chosen_TO rand_Uint32 m w)), (first_task rand_Uint32 m ep l w).
  split; [|split; [|split; [|split; [|split; [|split; [|split]]]]]].
  - rewrite <- (app_nil_r (rr_frame _ _)).
    apply (serve_open_frame rand_Uint32 ws (spawned (first_task rand_Uint32 m ep l w)
      (upd_srv (set_ConnMgr cm') (sent (opened_frame rand_Uint32 m w) (settled rand_Uint32 m w)))) wc m (pad_even path) []);
      try done; [unfold blen; lia|].
    intros i L. apply (forwardOpen_io rand_Uint32 m (pad_even path) []); try done; [|lia]. apply pad_even_words. lia.
  - done.
  - apply (subscription_opened cfg0 wc path serial v se w); try done. apply Hcfg.
  - done.
  - done.
  - done.
  - done.
  - intros fs vs Hfs.
    destruct (io_run_offers T fs vs (first_task rand_Uint32 m ep l w) (spawned (first_task rand_Uint32 m ep l w)
      (upd_srv (set_ConnMgr cm') (sent (opened_frame rand_Uint32 m w) (settled rand_Uint32 m w))))) as (t' & ds & ws2 & E & Hds);
      [exact Hto|exact Hfs|by exists (opened rand_Uint32 m (pad_even path) w); apply add_new_heap in Ha|].
    exists t', ds, ws2. split; [exact E|]. intros rs Hrs.
    pose proof (arrives_stream T _ rs ds vs Hrs Hds) as Hstr.
    destruct (run_stream T _ rs vs Hstr (subscription_of cfg m (chosen_TO rand_Uint32 m w))) as (s' & E2 & _ & E3 & E4).
    { split; [done|done|apply default_cap|simpl; lia]. }
    by exists s'.
Qed.
End Composition.

(** ** Witness *)

(** A receiver that takes a value when there is one. *)
Definition receive_value (s : ImplicitSubscription) : ImplicitSubscription :=
  set_channels (chan_receive (sub_values s)) (sub_errs s) s.

Lemma served_by_refl {A} (c : chan A) : served_by c c.
Proof. done. Qed.

Lemma chan_receive_served {A} (c : chan A) : served_by c (chan_receive c).
Proof.
  unfold chan_receive. destruct c as [cap [|x buf] got cl]; [done|].
  split; cbn [chan_cap chan_buf chan_got chan_closed]; [done| |done|simpl; lia].
  unfold chan_log. simpl. by rewrite <- (assoc_L (++)).
Qed.

Lemma receives_id : receives id.
Proof. intros []. split; [done|]. split; apply served_by_refl. Qed.

Lemma receive_value_ok : receives receive_value /\ frees receive_value.
Proof.
  split; intros s; [split; [by destruct s|split; [apply chan_receive_served|apply served_by_refl]]|].
  destruct s as [[cap buf got cl] errs ? ? ? ? ? ? ? ?]. cbn [sub_values chan_cap chan_buf receive_value set_channels].
  intros Hc Hl. unfold chan_full, chan_receive. destruct buf as [|x buf]; cbn [chan_cap chan_buf length] in *;
    apply Nat.leb_gt; lia.
Qed.

Lemma arrives_all to ds : arrives to ((fun d => (id, receive_value, Datagram d)) <$> ds) ds.
Proof.
  induction ds as [|d ds IH]; [constructor|]. rewrite fmap_cons. constructor; [exact receives_id|apply receive_value_ok..|exact IH].
Qed.

(** SetInputData on the provider at location 1. *)
#[local] Instance io_endpoint : CIPEndpoint IOProvider := IOProvider_endpoint (fun _ v => v).
Definition input_after (v : goval) (w : world IOProvider) : IOProvider :=
  snd (IOProvider_SetInputData v (default io_provider (srv_eps (w_srv w) !! 1%positive))).
Definition set_input (v : goval) (w : world IOProvider) : world IOProvider := with_ep 1%positive (input_after v w) w.

Lemma input_after_points v w : points (iop_In (input_after v w)) v (input_after v w).
Proof.
  unfold input_after. generalize (default io_provider (srv_eps (w_srv w) !! 1%positive)). intros p.
  eexists. split; [done|]. apply lookup_insert_eq.
Qed.

Lemma set_input_offers t z : io_ep t = 1%positive -> 0 <= z < 2 ^ 31 -> offers sample_type t (set_input (io_value z)) (io_value z).
Proof.
  intros Ht Hz w Hw. destruct (pack_bytes_Ok sample_type 150 (io_value z)) as (bs & E & Hl & Hu);
    [by vm_compute|by apply io_typed..|].
  split; [exact Hw|]. exists (input_after (io_value z) w), bs. rewrite Ht. split; [apply lookup_insert_eq|]. split.
  - eapply IORead_points; [apply input_after_points|exact E].
  - split; [lia|]. unfold decodeImplicitPayload. rewrite bool_decide_false by discriminate.
    pose proof (Hu (go_zero sample_type) [] zero_typed) as E2. rewrite app_nil_r in E2. by rewrite E2.
Qed.

Definition io_server : world IOProvider :=
  {| w_srv := {| ConnMgr := {| cm_heap := ∅; Connections := [] |};
                 srv_Router := {| router_Path := {[ [1; 0] := 1%positive ]} |};
                 srv_eps := {[ 1%positive := io_provider ]}; Attributes := ∅ |};
     w_h := w_h (sample_world [] sample_provider); w_rand := 0; w_io := [] |}.
Definition io_config : ImplicitSubscriptionConfig :=
  {| ConnectionPath := [1; 0]; AssemblyPath := None; ProducedConsumedPath := None; sub_RPI := 0; TransportTrigger := 0;
     ListenAddress := []; ReceiveTimeout := 0; ValueBuffer := 1; ErrorBuffer := 0 |}.

Lemma subscription_receives_witness :
  exists req f ws1 wc1 sub t,
    serve_one (fun _ => 1) (feed req io_server) = (Ok tt, ws1) /\ outs ws1 = outs io_server ++ [f] /\
    SubscribeImplicit (fun _ => 0) (fun _ => None) io_config (answer f [] sample_client) = (Ok sub, wc1) /\
    w_io ws1 = [t] /\
    exists t' ds ws2 rs sub', io_run t [set_input (io_value 3); set_input (io_value 4); set_input (io_value 5)] ws1 = (Ok (Some t', ds), ws2) /\
      arrives (io_TO t) rs ds /\ run sample_type rs sub = (Ok false, sub') /\
      chan_log (sub_values sub') = [io_value 3; io_value 4; io_value 5].
Proof.
  destruct (subscription_receives sample_type (fun _ => 1) (fun _ => 0) (fun _ => None) io_server sample_client io_config [1; 0]
    1%positive []) as (req & f & ws1 & wc1 & sub & t & H1 & H2 & H3 & _ & H4 & Hep & _ & H5).
  - reflexivity.
  - zbound.
  - zbound.
  - zbound.
  - reflexivity.
  - reflexivity.
  - split; vm_compute; repeat constructor.
  - reflexivity.
  - intros n. zbound.
  - reflexivity.
  - zbound.
  - apply empty_cm_ok.
  - apply NoDup_nil_2.
  - reflexivity.
  - reflexivity.
  - exists req, f, ws1, wc1, sub, t. split; [exact H1|]. split; [exact H2|]. split; [exact H3|]. split; [exact H4|].
    destruct (H5 [set_input (io_value 3); set_input (io_value 4); set_input (io_value 5)] [io_value 3; io_value 4; io_value 5])
      as (t' & ds & ws2 & E & Hrun).
    { do 3 (constructor; [apply set_input_offers; [exact Hep|lia]|]). constructor. }
    destruct (Hrun _ (arrives_all (io_TO t) ds)) as (sub' & E2 & E3 & _).
    exists t', ds, ws2, ((fun d => (id, receive_value, Datagram d)) <$> ds), sub'. split; [exact E|].
    split; [apply arrives_all|]. split; [exact E2|exact E3].
Defined.
