(* ===== verification/EndToEndServing.v ===== *)
(** * Several clients of one running server

    Two clients over TCP connections of their own, the server's goroutines
    interleaved: what one client writes, the other reads. *)
From S2P Require Import Prelude Reader GoStrings GoValue CipNames CipDefs Types Items Ioi TagPath Path Conns Router Messages Server ServerAttr ServerConnected ServerUnconnected ServerReplies ServerData Serving Client ClientTags ClientConn ClientScript EndToEnd.

Section Clients.
Context {P : Type} `{EndpointLaws P} (rand_Uint32 : nat -> Z) (U : nat -> Z).

(** The client wc is connected: handler k serves its TCP connection, and its
    CIP connection leads to the endpoint p. *)
Record attached (wc : client_world) (s : system P) (k : nat) (h : serverTCPHandler) (c : serverConnection)
    (ep : eloc) (p : P) : Prop := {
  at_handler : sy_handlers s !! k = Some (true, h);
  at_client : status wc = connectionStatusConnected /\ config_ok wc;
  at_ready : c_werr (h_conn h) = None /\ handler_ok h;
  at_route : routed (world_of h s) (OTNetworkConnectionID (link wc)) c ep p;
}.

(** The request of a read, from the path alone. *)
Definition path_read_frame (path : list tag_part) (ty : Z) (w : client_world) : bytes :=
  unit_frame (Write (le_bytes 2 (next_seq w) ++ [single_service ty (render path) w] ++
    read_body (single_service ty (render path) w) path) (empty_item cipItem_ConnectedData)) w.

Lemma read_frame_path i path ty w : ioi_Buffer i = path_bytes path ->
  read_frame (render path) ty i w = path_read_frame path ty w.
Proof. intros Hi. unfold read_frame, path_read_frame. by rewrite (read_item_Write _ _ _ path). Qed.

Lemma feed_same h (s : system P) b : c_in (h_conn h) = b -> feed b (world_of h s) = world_of h s.
Proof. intros <-. by destruct h as [[] ? ? ? ? ? ?]. Qed.

(** The round that serves one message of handler k. *)
Lemma round_answered k h s f w :
  sy_handlers s !! k = Some (true, h) -> serve_one rand_Uint32 (world_of h s) = (Ok tt, sent f w) ->
  exists s' h', handle rand_Uint32 (Round k) s = (Ok tt, s') /\ sy_handlers s' !! k = Some (true, h') /\
    c_out (h_conn h') = c_out (h_conn (w_h w)) ++ [f] /\ sy_srv s' = w_srv w.
Proof.
  intros Hk E. do 2 eexists. split; [cbn [handle]; unfold serve_round; rewrite Hk, E; reflexivity|].
  split; [cbn; apply list_lookup_insert_eq; by eapply lookup_lt_Some|]. done.
Qed.

(** No event but the rounds of a handler itself and what its peer sends
    changes it. *)
Definition not_own (k : nat) (e : event) : Prop := match e with Round i => i <> k | Arrive i _ => i <> k | _ => True end.

Lemma handler_frame k e s x : not_own k e -> sy_handlers s !! k = Some x ->
  sy_handlers (snd (handle rand_Uint32 e s)) !! k = Some x.
Proof.
  intros He Hk. destruct e as [[e|c]|i y|i|j|d]; cbn [handle not_own] in *.
  - done.
  - cbn. by apply lookup_app_l_Some.
  - cbn. by rewrite list_lookup_alter_ne by congruence.
  - unfold serve_round. destruct (sy_handlers s !! i) as [[[] h]|]; [|done..].
    destruct (serve_one rand_Uint32 (world_of h s)) as [[] w]; cbn; by rewrite list_lookup_insert_ne by congruence.
  - unfold io_step. destruct (sy_io s !! j); [|done]. destruct (_ =? 0); [done|]. by destruct (io_tick _ _) as [[[[]|]| |] w].
  - unfold serveUDP. by destruct (serveUDP_datagram d _).
Qed.

Lemma handlers_frame k es s x r s' : Forall (not_own k) es -> sy_handlers s !! k = Some x ->
  run_events rand_Uint32 es s = (r, s') -> sy_handlers s' !! k = Some x.
Proof.
  intros He. revert s. induction He as [|e es He _ IH]; intros s Hk E; [by injection E as _ <-|]. cbn [run_events] in E.
  pose proof (handler_frame k e s x He Hk) as Hk1. rewrite bind_eq in E.
  destruct (handle rand_Uint32 e s) as [[[]| |] s1]; [by apply (IH s1)|by injection E as _ <-..].
Qed.

(** What an endpoint keeps after a write is what the write made of the value. *)
Lemma written_stored p tag v p' v' : TagWrite tag v p = (Ok tt, p') -> scalar_ok v -> stores p' tag 1 v' -> written v v'.
Proof.
  intros Hw Hv Hs. destruct (TagWrite_stores p tag v p' Hw) as (v0 & Hw0 & Hs0); [by destruct v|by destruct v|].
  pose proof (TagRead_stores p' tag 1 v' Hs) as E. rewrite (TagRead_stores p' tag 1 v0 Hs0) in E. by injection E as <-.
Qed.
End Clients.

(** C8. What one client writes, another one reads: over TCP connections of
    their own to one server, the write of a value by the first client is
    answered and makes it succeed; and after any further events, of the other
    clients and the goroutines, that leave the second client's CIP connection
    and the endpoint as they were, the read of the tag by the second client is
    answered and returns the value as the endpoint keeps it. *)
Theorem clients_share_values {P} `{EndpointLaws P} (rand_Uint32 : nat -> Z) (U : nat -> Z)
    s a b hA hB wcA wcB cA cB ep p p' path v bv v' t image restA restB seA seB :
  a <> b -> attached wcA s a hA cA ep p -> attached wcB s b hB cB ep p ->
  names_path (ioi (cw_client wcA)) path (fst (GoVarToCIPType v)) ->
  names_path (ioi (cw_client wcB)) path (fst (GoVarToCIPType (zero_value t))) ->
  scalar_ok v -> (forall s, v <> VString s) -> binary_write v = Ok bv -> TagWrite (render path) v p = (Ok tt, p') ->
  stores p' (render path) 1 v' -> transferable v' -> type_of v' = Some t -> value_image v' image ->
  c_in (h_conn hA) = write_frame path v bv wcA ++ restA ->
  c_in (h_conn hB) = path_read_frame path (fst (GoVarToCIPType (zero_value t))) wcB ++ restB ->
  exists f s1 hA' wcA', handle rand_Uint32 (Round a) s = (Ok tt, s1) /\
    sy_handlers s1 !! a = Some (true, hA') /\ c_out (h_conn hA') = c_out (h_conn hA) ++ [f] /\
    write_single U (render path) v (answer f seA wcA) = (Ok tt, wcA') /\ written v v' /\
    forall es s2, Forall (not_own b) es -> run_events rand_Uint32 es s1 = (Ok tt, s2) ->
      routed (world_of hB s2) (OTNetworkConnectionID (link wcB)) cB ep p' ->
      exists g s3 hB' wcB', handle rand_Uint32 (Round b) s2 = (Ok tt, s3) /\
        sy_handlers s3 !! b = Some (true, hB') /\ c_out (h_conn hB') = c_out (h_conn hB) ++ [g] /\
        read_typed U t (render path) (answer g seB wcB) = (Ok v', wcB').
Proof.
  intros Hab [HkA [Hst Hcfg] [Hwr Hh] Hr] [HkB [HstB HcfgB] [HwrB HhB] _] Hn HnB Hv Hvs Hb Hw Hsto Hv' Ht Him Hin HinB.
  destruct (client_writes_spec rand_Uint32 U (world_of hA s) wcA cA ep p p' path v bv restA seA)
    as (f & i & c' & E1 & E2 & _); try done.
  rewrite (feed_same hA s _ Hin) in E1.
  destruct (round_answered rand_Uint32 a hA s f _ HkA E1) as (s1 & hA' & H1 & H2 & H3 & _).
  eexists f, s1, hA', _. split; [exact H1|]. split; [exact H2|]. split; [exact H3|]. split; [exact E2|].
  split; [by eapply written_stored|]. intros es s2 Hes Erun HrB.
  assert (sy_handlers s2 !! b = Some (true, hB)) as HkB2.
  { apply (handlers_frame rand_Uint32 b es s1 (true, hB) (Ok tt) s2 Hes); [|exact Erun].
    pose proof (handler_frame rand_Uint32 b (Round a) s (true, hB) Hab HkB) as Hk1. by rewrite H1 in Hk1. }
  destruct (client_reads_spec rand_Uint32 U (world_of hB s2) wcB cB ep p' path t v' image restB seB)
    as (i2 & g & cB' & Hi2 & _ & E3 & E4); try done.
  rewrite (read_frame_path i2 path) in E3 by done. rewrite (feed_same hB s2 _ HinB) in E3.
  destruct (round_answered rand_Uint32 b hB s2 g _ HkB2 E3) as (s3 & hB' & H5 & H6 & H7 & _).
  eexists g, s3, hB', _. split; [exact H5|]. split; [exact H6|]. split; [exact H7|exact E4].
Qed.

(** ** Witness *)

(** Two clients with connections of their own to the endpoint at 1,0; a third
    one comes and registers a session in between. *)
Definition second_client : client_world :=
  {| cw_client := {| cfg := new_config;
       lnk := set_OTNetworkConnectionID 6 (set_connStatus connectionStatusConnected new_link);
       ioi := {| ioi_cache := ∅; KnownTags := None; firmware := 20; catalog := no_types |} |};
     cw_dials := []; cw_sequenceValue := 90; cw_connectionSerialValue := 0; cw_clock := 0 |}.
Definition second_connection : serverConnection :=
  {| conn_ID := 4; conn_OT := 6; conn_TO := 10; conn_RPI := 0; conn_Path := [1; 0]; conn_Open := true |}.
Definition writer : serverTCPHandler := new_handler (client_conn (write_frame tag_x (VInt I32 9) [9; 0; 0; 0] sample_client)).
Definition reader : serverTCPHandler := new_handler (client_conn (path_read_frame tag_x CIPTypeDINT second_client)).
Definition two_clients : system MapTagProvider :=
  {| sy_srv := set_ConnMgr {| cm_heap := {[ 1%positive := sample_connection; 2%positive := second_connection ]};
                             Connections := [1%positive; 2%positive] |} (w_srv (sample_world [] sample_provider));
     sy_rand := 0; sy_io := []; sy_handlers := [(true, writer); (true, reader)]; sy_sent := [] |}.
Definition meanwhile : list event :=
  [Accept (inr (client_conn (eipHeader_bytes {| hdr_Command := cipCommandRegisterSession; hdr_Length := 4; hdr_SessionHandle := 0;
     hdr_Status := 0; hdr_Context := 1; hdr_Options := 0 |} ++ [1; 0; 0; 0]))); Round 2].
Definition provider_after : MapTagProvider := snd (TagWrite (render tag_x) (VInt I32 9) sample_provider).

Lemma clients_share_values_witness :
  exists f s1 hA' wcA', handle (fun _ => 1) (Round 0) two_clients = (Ok tt, s1) /\
    sy_handlers s1 !! 0%nat = Some (true, hA') /\ c_out (h_conn hA') = [f] /\
    write_single (fun _ => 0) (render tag_x) (VInt I32 9) (answer f [] sample_client) = (Ok tt, wcA') /\
    exists s2 g s3 hB' wcB', run_events (fun _ => 1) meanwhile s1 = (Ok tt, s2) /\
      handle (fun _ => 1) (Round 1) s2 = (Ok tt, s3) /\
      sy_handlers s3 !! 1%nat = Some (true, hB') /\ c_out (h_conn hB') = [g] /\
      read_typed (fun _ => 0) (TInt I32) (render tag_x) (answer g [] second_client) = (Ok (VInt I32 9), wcB').
Proof.
  destruct (clients_share_values (fun _ => 1) (fun _ => 0) two_clients 0 1 writer reader sample_client second_client
    sample_connection second_connection 1%positive sample_provider provider_after tag_x (VInt I32 9) [9; 0; 0; 0]
    (VInt I32 9) (TInt I32) ([0xC4; 0] ++ [9; 0; 0; 0]) [] [] [] [])
    as (f & s1 & hA' & wcA' & H1 & H2 & H3 & H4 & _ & Hes).
  - done.
  - split; [done|split; [reflexivity|zbound]|split; [reflexivity|zbound]|split; [exists 1%positive; by split|done|done]].
  - split; [done|split; [reflexivity|zbound]|split; [reflexivity|zbound]|split; [exists 2%positive; by split|done|done]].
  - apply sample_names.
  - split; [done|by left|done|split; [done|split; [exact tag_x_ok|done]]|].
    apply Forall_cons_2; [by right|apply Forall_nil_2].
  - zbound.
  - discriminate.
  - reflexivity.
  - by vm_compute.
  - eexists. split; [vm_compute; reflexivity|]. by vm_compute.
  - zbound.
  - reflexivity.
  - apply (image_fixed (VInt I32 9) [9; 0; 0; 0]); [reflexivity|discriminate|reflexivity].
  - by rewrite app_nil_r.
  - by rewrite app_nil_r.
  - exists f, s1, hA', wcA'. split; [exact H1|]. split; [exact H2|]. split; [exact H3|]. split; [exact H4|].
    assert (s1 = snd (handle (fun _ => 1) (Round 0) two_clients)) as Es by (by rewrite H1).
    assert (exists s2, run_events (fun _ => 1) meanwhile s1 = (Ok tt, s2) /\
      routed (world_of reader s2) 6 second_connection 1%positive provider_after) as (s2 & E2 & Hr).
    { rewrite Es. eexists. split; [vm_compute; reflexivity|]. split; [exists 2%positive; by split|reflexivity|vm_compute; reflexivity]. }
    assert (Forall (not_own 1) meanwhile) as Hf by (repeat apply Forall_cons_2; try apply Forall_nil_2; done).
    pose proof (Hes meanwhile s2 Hf E2 Hr) as (g & s3 & hB' & wcB' & H5 & H6 & H7 & H8).
    exists s2, g, s3, hB', wcB'. split; [exact E2|]. split; [exact H5|]. split; [exact H6|]. split; [exact H7|exact H8].
Defined.
