(* ===== verification/EndToEndStore.v ===== *)
(** * The clients and the server as one store

    Clients, each over a TCP connection of its own to one running server,
    make calls in any order.  What they are given is what the endpoint itself
    would have given to the same calls in that order: the protocol, its two
    implementations and the connections between are invisible. *)
From S2P Require Import Prelude Reader GoStrings GoValue CipNames CipDefs Types Items Ioi TagPath Path Conns Router Messages Server ServerAttr ServerConnected ServerUnconnected ServerReplies ServerData Serving Pack Client ClientTags MultiRead WriteTags MultiReadProofs ClientConn ClientScript ServerMulti EndToEnd EndToEndList EndToEndWrites EndToEndServing.

(** ** The store *)

Inductive call :=
  | CallWrite (path : list tag_part) (v : goval)                   (* Write *)
  | CallRead (path : list tag_part) (t : gotype)                   (* Read *)
  | CallWriteMap (l : list (list tag_part * goval))                (* WriteMap, the map in the order of its range *)
  | CallReadMap (l : list (list tag_part * gotype)).               (* ReadMap *)

Inductive outcome :=
  | Done
  | Value (v : goval)
  | Values (l : option (list (bytes * read_result))).

(** The tag paths the client sends as they are written. *)
Record plain_path (path : list tag_part) (ty : Z) : Prop := {
  pp_lower : to_lower (render path) = render path;
  pp_parts : path <> [] /\ Forall part_ok path /\ blen (path_bytes path) < 2 ^ 15;
  pp_bool : Forall (fun p => ty <> CIPTypeBOOL \/ tp_idx p = []) path;
}.

(** The tags of a map: distinct names, and no more than fit one message of the
    size. *)
Record map_paths (es : list map_entry) : Prop := {
  mp_some : es <> [];
  mp_keys : NoDup ((fun e => render (me_path e)) <$> es);
  mp_plain : Forall (fun e => plain_path (me_path e) (me_ty e)) es;
}.
Definition reads_fit (size : Z) (es : list map_entry) : Prop :=
  within size (Z.of_nat (length es)) 0 0 (sum_of (me_req size) es) (sum_of me_resp es).
Definition writes_fit (es : list map_entry) : Prop := blen (requests_payload (me_write <$> es)) < 2 ^ 15.

Section Store.
Context {P : Type} `{EndpointLaws P} (size : Z).

(** What a call does to an endpoint and what it gives. *)
Inductive store_step : P -> call -> outcome -> P -> Prop :=
  | store_write p path v bv p' :
      plain_path path (fst (GoVarToCIPType v)) -> scalar_ok v -> (forall s, v <> VString s) -> binary_write v = Ok bv ->
      TagWrite (render path) v p = (Ok tt, p') -> store_step p (CallWrite path v) Done p'
  | store_read p path t v image :
      plain_path path (fst (GoVarToCIPType (zero_value t))) -> stores p (render path) 1 v -> transferable v ->
      type_of v = Some t -> value_image v image -> store_step p (CallRead path t) (Value v) p
  | store_write_map p es p' :
      map_paths es -> Forall write_ok es -> writes_fit es -> writes p es p' ->
      store_step p (CallWriteMap ((fun e => (me_path e, me_val e)) <$> es)) Done p'
  | store_read_map p es :
      map_paths es -> Forall me_ok es -> reads_fit size es ->
      Forall (fun e => stores p (render (me_path e)) 1 (me_val e)) es ->
      store_step p (CallReadMap ((fun e => (me_path e, me_type e)) <$> es))
        (Values (Some ((fun e => (render (me_path e), RVal (me_val e))) <$> es))) p.

(** A sequence of calls, each by the client with the given number. *)
Inductive store_run : P -> list (nat * call) -> list outcome -> P -> Prop :=
  | store_done p : store_run p [] [] p
  | store_more p k c r p1 cs rs p2 : store_step p c r p1 -> store_run p1 cs rs p2 -> store_run p ((k, c) :: cs) (r :: rs) p2.
End Store.

(** ** The network *)

Record net (P : Type) := { n_sys : system P; n_clients : nat -> client_world }.
Arguments n_sys {P} n. Arguments n_clients {P} n.

Definition set_client {P} (k : nat) (w : client_world) (s : system P) (n : net P) : net P :=
  {| n_sys := s; n_clients := fun i => if decide (i = k) then w else n_clients n i |}.

(** What a client has sent on its connection. *)
Definition client_sent (w : client_world) : list bytes :=
  match conn (link w) with Some c => nc_sent c | None => [] end.

Section Net.
Context {P : Type} `{EndpointLaws P} `{Methods} (rand_Uint32 : nat -> Z) (U : nat -> Z) (size : Z).

Definition client_call (c : call) : M client_world outcome :=
  match c with
  | CallWrite path v => _ ← write_single U (render path) v; mret Done
  | CallRead path t => v ← read_typed U t (render path); mret (Value v)
  | CallWriteMap l => _ ← WriteMap U ((fun '(path, v) => (render path, v)) <$> l); mret Done
  | CallReadMap l => r ← ReadMap U ((fun '(path, t) => (render path, zero_value t)) <$> l); mret (Values r)
  end.

(** A call of the client k, whose connection handler k serves: the one message
    it sends is what arrives, the one frame the handler then writes is what
    the client reads. *)
Inductive net_call (n : net P) (k : nat) (c : call) : outcome -> net P -> Prop :=
  | net_call_intro h req s1 s2 h2 f r w' :
      sy_handlers (n_sys n) !! k = Some (true, h) ->
      handle rand_Uint32 (Arrive k req) (n_sys n) = (Ok tt, s1) ->
      handle rand_Uint32 (Round k) s1 = (Ok tt, s2) ->
      sy_handlers s2 !! k = Some (true, h2) -> c_out (h_conn h2) = c_out (h_conn h) ++ [f] ->
      client_call c (answer f (client_sent (n_clients n k)) (n_clients n k)) = (Ok r, w') ->
      client_sent w' = client_sent (n_clients n k) ++ [req] ->
      net_call n k c r (set_client k w' s2 n).

Inductive net_run : net P -> list (nat * call) -> list outcome -> net P -> Prop :=
  | net_done n : net_run n [] [] n
  | net_more n k c r n1 cs rs n2 : net_call n k c r n1 -> net_run n1 cs rs n2 -> net_run n ((k, c) :: cs) (r :: rs) n2.

(** ** Between calls *)

(** The client names tags by their paths, and its cache holds nothing else. *)
Definition ioi_ok (c : ioi_client) : Prop := 0 < firmware c <= 20 /\ cache_sound c.
Record client_ready (w : client_world) : Prop := {
  cr_status : status w = connectionStatusConnected;
  cr_config : config_ok w;
  cr_size : ConnectionSize (link w) = size;
  cr_ioi : ioi_ok (ioi (cw_client w));
}.

Lemma ready_names w path ty : client_ready w -> plain_path path ty -> names_path (ioi (cw_client w)) path ty.
Proof.
  intros [Hs Hc _ [Hf Hca]] [Hl (Hne & Hp & Hb) Hbool]. split; [done| |done|done|done].
  destruct (ioi_cache (ioi (cw_client w)) !! render path) as [i|] eqn:E; [right|by left].
  exists i. split; [done|]. by apply (Hca path).
Qed.

Lemma ready_all_names w es : client_ready w -> map_paths es -> all_names (ioi (cw_client w)) es.
Proof.
  intros Hw [Hne Hk Hp]. split; [done| |apply Hw]. eapply Forall_impl; [|exact Hp]. intros e He. by apply ready_names.
Qed.

(** Client k is connected through handler k, which waits for a message, to
    the endpoint p. *)
Definition linked (n : net P) (ep : eloc) (p : P) (k : nat) : Prop :=
  client_ready (n_clients n k) /\
  exists h c, attached (n_clients n k) (n_sys n) k h c ep p /\ c_in (h_conn h) = [].

(** ** What a call leaves behind *)

Lemma newIOI_ready w path ty i c' : client_ready w -> plain_path path ty ->
  newIOI (render path) ty (ioi (cw_client w)) = (Ok i, c') -> ioi_ok c'.
Proof.
  intros Hw Hpp E. pose proof (ready_names w path ty Hw Hpp) as Hn.
  destruct (newIOI_frame _ _ _ Hn) as (i1 & c1 & E1 & Hc & Hframe). rewrite E in E1. injection E1 as <- <-.
  split; [pose proof Hc as [-> _]; apply Hw|].
  eapply cached_sound; [apply Hpp|apply Hpp|apply Hw|exact Hc|exact Hframe].
Qed.

Lemma names_ready c es : es <> [] -> all_names c es -> ioi_ok c.
Proof.
  intros Hne [_ Hn Hs]. split; [|done]. destruct es as [|e es]; [done|]. by apply Forall_cons_iff in Hn as [[Hf _ _ _ _] _].
Qed.

Lemma answered_ready se c' w : client_ready w -> ioi_ok c' -> client_ready (answered se (snd (sequencer (upd_ioi (fun _ => c') w)))).
Proof. by intros [Hs Hcfg Hsz _] Hc. Qed.

Lemma routed_srv {A} (w w' : world A) connID c ep p : w_srv w = w_srv w' -> routed w connID c ep p -> routed w' connID c ep p.
Proof. intros E []. by split; rewrite <- E. Qed.

Lemma routed_ep (w w' : world P) connID c ep p p' :
  w_srv w' = w_srv (with_ep ep p' w) -> routed w connID c ep p -> routed w' connID c ep p'.
Proof. intros E Hr. eapply routed_srv; [symmetry; exact E|by eapply routed_with_ep]. Qed.

(** ** One call *)

Section Call.
Context (n : net P) (ep : eloc) (p p' : P) (ks : nat -> Prop) (k : nat).
Context (Hks : ks k) (Hall : forall j, ks j -> linked n ep p j).

(** The handler once the message has come, and once it is answered. *)
Definition with_message (req : bytes) (h : serverTCPHandler) : world P :=
  world_of (receive req h) (snd (handle rand_Uint32 (Arrive k req) (n_sys n))).
Definition after_message (f : bytes) (seq : Z) (h : serverTCPHandler) (req : bytes) : world P :=
  sent f (with_ep ep p' (received (Context_ (config (n_clients n k))) seq [] (with_message req h))).

Lemma call_linked h c0 cc r req f seq c' :
  attached (n_clients n k) (n_sys n) k h c0 ep p -> c_in (h_conn h) = [] ->
  ioi_ok c' ->
  serve_one rand_Uint32 (with_message req h) = (Ok tt, after_message f seq h req) ->
  client_call cc (answer f (client_sent (n_clients n k)) (n_clients n k)) =
    (Ok r, answered (client_sent (n_clients n k) ++ [req]) (snd (sequencer (upd_ioi (fun _ => c') (n_clients n k))))) ->
  exists n', net_call n k cc r n' /\ forall j, ks j -> linked n' ep p' j.
Proof.
  intros [Hk [Hst Hcfg] [Hwr Hh] Hr] Hin Hi Hserve Hcall.
  destruct (Hall k Hks) as [Hready _].
  set (s1 := snd (handle rand_Uint32 (Arrive k req) (n_sys n))) in *.
  assert (sy_handlers s1 !! k = Some (true, receive req h)) as Hk1.
  { unfold s1. cbn. by rewrite list_lookup_alter_eq, Hk. }
  set (w2 := after_message f seq h req) in *.
  set (s2 := set_handlers (<[k := (true, w_h w2)]> (sy_handlers s1)) (absorb w2 s1)).
  set (wc := answered _ _) in Hcall.
  assert (sy_handlers s2 !! k = Some (true, w_h w2)) as Hk2
    by (apply list_lookup_insert_eq; by eapply lookup_lt_Some).
  exists (set_client k wc s2 n). split.
  - apply (net_call_intro n k cc h req s1 s2 (w_h w2) f r wc); [exact Hk|reflexivity| |exact Hk2|reflexivity|exact Hcall|reflexivity].
    cbn [handle]. unfold serve_round. rewrite Hk1. unfold with_message in Hserve. fold s1 in Hserve. by rewrite Hserve.
  - intros j Hj. unfold linked. cbn [set_client n_clients n_sys]. destruct (decide (j = k)) as [->|Hne].
    + split; [by apply answered_ready|]. exists (w_h w2), c0. split; [|done].
      split; [exact Hk2|done|done|]. by apply (routed_ep (world_of h (n_sys n)) _ _ _ _ p).
    + destruct (Hall j Hj) as [Hrj (hj & cj & [Hkj Hcj Hwj Hrj2] & Hinj)]. split; [done|]. exists hj, cj. split; [|done].
      split; [|done|done|by apply (routed_ep (world_of hj (n_sys n)) _ _ _ _ p)].
      cbn. rewrite list_lookup_insert_ne by done. by rewrite list_lookup_alter_ne.
Qed.
End Call.

Lemma feed_message n k req h : c_in (h_conn h) = [] -> feed (req ++ []) (with_message n k req h) = with_message n k req h.
Proof.
  intros Hin. apply (feed_same (receive req h)). cbn. by rewrite Hin, app_nil_r.
Qed.

(** The client and the handler of a call, and what each kind of call makes of
    them. *)
Section Kinds.
Context (n : net P) (ep : eloc) (p : P) (ks : nat -> Prop) (k : nat) (h : serverTCPHandler) (c0 : serverConnection).
Context (Hks : ks k) (Hall : forall j, ks j -> linked n ep p j).
Context (Hready : client_ready (n_clients n k)) (Hat : attached (n_clients n k) (n_sys n) k h c0 ep p) (Hin : c_in (h_conn h) = []).
Abbreviation wc := (n_clients n k).
Abbreviation refined cc r p' := (exists n', net_call n k cc r n' /\ forall j, ks j -> linked n' ep p' j).

Lemma routed_message req : routed (with_message n k req h) (OTNetworkConnectionID (link wc)) c0 ep p.
Proof. apply (routed_srv (world_of h (n_sys n))); [done|apply Hat]. Qed.

Lemma read_message seq req : with_ep ep p (received (Context_ (config wc)) seq [] (with_message n k req h)) =
  received (Context_ (config wc)) seq [] (with_message n k req h).
Proof. apply (with_ep_same _ (OTNetworkConnectionID (link wc)) c0). apply (routed_srv (world_of h (n_sys n))); [done|apply Hat]. Qed.

Lemma write_refines path v bv p' :
  plain_path path (fst (GoVarToCIPType v)) -> scalar_ok v -> (forall s, v <> VString s) -> binary_write v = Ok bv ->
  TagWrite (render path) v p = (Ok tt, p') -> refined (CallWrite path v) Done p'.
Proof.
  intros Hpp Hv Hvs Hb Hw. pose proof Hat as [Hk [Hst Hcfg] [Hwr Hh] _]. set (req := write_frame path v bv wc).
  destruct (client_writes_spec rand_Uint32 U (with_message n k req h) wc c0 ep p p' path v bv [] (client_sent wc))
    as (f & i & c' & E1 & E2 & Hi & _); try done; [by apply ready_names|apply routed_message|].
  cbv zeta in E1. change (write_frame path v bv wc) with req in E1, E2. rewrite (feed_message n k req h Hin) in E1.
  eapply (call_linked n ep p p' ks k Hks Hall h c0 _ Done req f); [exact Hat|exact Hin|by eapply newIOI_ready|exact E1|].
  unfold client_call. by rewrite (bind_Ok _ _ _ _ _ E2).
Qed.

Lemma read_refines path t v image :
  plain_path path (fst (GoVarToCIPType (zero_value t))) -> stores p (render path) 1 v -> transferable v ->
  type_of v = Some t -> value_image v image -> refined (CallRead path t) (Value v) p.
Proof.
  intros Hpp Hsto Hv Ht Him. pose proof Hat as [Hk [Hst Hcfg] [Hwr Hh] _].
  set (ty := fst (GoVarToCIPType (zero_value t))) in *. set (req := path_read_frame path ty wc).
  destruct (client_reads_spec rand_Uint32 U (with_message n k req h) wc c0 ep p path t v image [] (client_sent wc))
    as (i & f & c' & Hbuf & Hi & E1 & E2); try done; [by apply ready_names|apply routed_message|].
  fold ty in Hi, E1, E2. unfold after_read in E2. rewrite (read_frame_path i path ty wc Hbuf) in E1, E2. fold req in E1, E2.
  cbv zeta in E1. rewrite (feed_message n k req h Hin) in E1.
  eapply (call_linked n ep p p ks k Hks Hall h c0 _ (Value v) req f); [exact Hat|exact Hin|by eapply newIOI_ready| |].
  - unfold after_message. rewrite read_message. exact E1.
  - unfold client_call. by rewrite (bind_Ok _ _ _ _ _ E2).
Qed.

Lemma write_map_refines es p' : map_paths es -> Forall write_ok es -> writes_fit es -> writes p es p' ->
  refined (CallWriteMap ((fun e => (me_path e, me_val e)) <$> es)) Done p'.
Proof.
  intros Hmp Hok Hfit Hw. pose proof Hat as [Hk [Hst Hcfg] [Hwr Hh] _]. set (req := write_map_frame es wc).
  destruct (client_writes_map_spec rand_Uint32 U (with_message n k req h) wc c0 ep p p' es [] (client_sent wc))
    as (f & c' & Hn' & E1 & E2); try done; [apply Hmp|by apply ready_all_names|apply routed_message|].
  change (write_map_frame es wc) with req in E1, E2. rewrite (feed_message n k req h Hin) in E1.
  eapply (call_linked n ep p p' ks k Hks Hall h c0 _ Done req f); [exact Hat|exact Hin|eapply names_ready; [apply Hmp|exact Hn']|exact E1|].
  unfold client_call. rewrite <- list_fmap_compose. by rewrite (bind_Ok _ _ _ _ _ E2).
Qed.

Lemma read_map_refines es : size <= 2 ^ 15 -> map_paths es -> Forall me_ok es -> reads_fit size es ->
  Forall (fun e => stores p (render (me_path e)) 1 (me_val e)) es ->
  refined (CallReadMap ((fun e => (me_path e, me_type e)) <$> es))
    (Values (Some ((fun e => (render (me_path e), RVal (me_val e))) <$> es))) p.
Proof.
  intros Hsize Hmp Hok Hfit Hsto. pose proof Hat as [Hk [Hst Hcfg] [Hwr Hh] _]. set (req := map_frame es wc).
  pose proof (cr_size _ Hready) as Hsz.
  destruct (client_reads_map_spec rand_Uint32 U (with_message n k req h) wc c0 ep p es [] (client_sent wc))
    as (f & c' & Hn' & E1 & E2); try done; [apply Hmp|by apply ready_all_names|by rewrite Hsz|by rewrite Hsz|apply routed_message|].
  change (map_frame es wc) with req in E1, E2. rewrite (feed_message n k req h Hin) in E1.
  eapply (call_linked n ep p p ks k Hks Hall h c0 _ _ req f); [exact Hat|exact Hin|eapply names_ready; [apply Hmp|exact Hn']| |].
  - unfold after_message. rewrite read_message. exact E1.
  - unfold client_call. rewrite <- list_fmap_compose. by rewrite (bind_Ok _ _ _ _ _ E2).
Qed.
End Kinds.

Lemma net_call_refines (n : net P) ep p p' (ks : nat -> Prop) k cc r :
  size <= 2 ^ 15 -> ks k -> (forall j, ks j -> linked n ep p j) -> store_step size p cc r p' ->
  exists n', net_call n k cc r n' /\ forall j, ks j -> linked n' ep p' j.
Proof.
  intros Hsize Hks Hall Hstep. pose proof (Hall k Hks) as [Hready (h & c0 & Hat & Hin)].
  destruct Hstep; [eapply write_refines|eapply read_refines|eapply write_map_refines|eapply read_map_refines]; done.
Qed.
Lemma net_run_refines (ks : nat -> Prop) ep p cs rs p' : size <= 2 ^ 15 -> store_run size p cs rs p' ->
  forall n, (forall k, ks k -> linked n ep p k) -> Forall (fun c => ks (fst c)) cs ->
  exists n', net_run n cs rs n' /\ forall k, ks k -> linked n' ep p' k.
Proof.
  intros Hsize. induction 1 as [p|p k c r p1 cs rs p2 Hstep _ IH]; intros n Hall Hcs.
  - exists n. by split; [constructor|].
  - apply Forall_cons_iff in Hcs as [Hk Hcs].
    destruct (net_call_refines n ep p p1 ks k c r Hsize Hk Hall Hstep) as (n1 & H1' & Hall1).
    destruct (IH n1 Hall1 Hcs) as (n2 & H2 & Hall2). exists n2. split; [by econstructor|done].
Qed.
End Net.

(** C1. The clients of a server see one store: any number of clients, each
    over a TCP connection of its own, that read and write tags one by one and
    as maps, in any order, get from the running server exactly what the
    endpoint gives to those calls in that order, and leave it as they would;
    and then the next calls can follow. *)
Theorem clients_refine_store {P} `{EndpointLaws P} `{Methods} (rand_Uint32 U : nat -> Z) size (ks : nat -> Prop) n ep p cs rs p' :
  size <= 2 ^ 15 -> (forall k, ks k -> linked size n ep p k) -> Forall (fun c => ks (fst c)) cs -> store_run size p cs rs p' ->
  exists n', net_run rand_Uint32 U n cs rs n' /\ forall k, ks k -> linked size n' ep p' k.
Proof. intros Hsize Hall Hcs Hrun. exact (net_run_refines rand_Uint32 U size ks ep p cs rs p' Hsize Hrun n Hall Hcs). Qed.

(** ** Witness *)

(** Two clients of one server, and their calls. *)
Definition second_map_client : client_world := upd_link (set_ConnectionSize 508) second_client.
Definition shared_server : system MapTagProvider :=
  {| sy_srv := set_ConnMgr {| cm_heap := {[ 1%positive := sample_connection; 2%positive := second_connection ]};
                             Connections := [1%positive; 2%positive] |} (w_srv (sample_world [] write_provider));
     sy_rand := 0; sy_io := []; sy_handlers := [(true, new_handler (client_conn [])); (true, new_handler (client_conn []))]; sy_sent := [] |}.
Definition two_client_net : net MapTagProvider :=
  {| n_sys := shared_server; n_clients := fun k => if decide (k = 0%nat) then map_client else second_map_client |}.
Definition entry_x : map_entry := {| me_path := tag_x; me_type := TInt I32; me_val := VInt I32 4; me_image := [0xC4; 0] ++ [4; 0; 0; 0] |}.
Definition entry_n : map_entry := {| me_path := tag_n; me_type := TInt I16; me_val := VInt I16 (-3); me_image := [0xC3; 0] ++ [0xFD; 0xFF] |}.
Definition stored_x_n (x n : Z) : MapTagProvider := {| mtp_Data := Some {[ str "n" := VInt I16 n; str "x" := VInt I32 x ]} |}.

Lemma tag_n_ok : Forall part_ok tag_n.
Proof. unfold tag_n. ok_path. Qed.

Lemma plain_short path ty : to_lower (render path) = render path -> path <> [] -> Forall part_ok path ->
  blen (path_bytes path) < 2 ^ 15 -> Forall (fun p => tp_idx p = []) path -> plain_path path ty.
Proof. intros. split; [done|done|]. eapply Forall_impl; [|eassumption]. intros q Hq. by right. Qed.

Lemma plain_x ty : plain_path tag_x ty.
Proof. apply plain_short; [done|done|exact tag_x_ok|done|by repeat constructor]. Qed.
Lemma plain_n ty : plain_path tag_n ty.
Proof. apply plain_short; [done|done|exact tag_n_ok|done|by repeat constructor]. Qed.

Lemma two_entries_ok x z : me_path x = tag_x -> me_path z = tag_n -> map_paths [x; z].
Proof.
  intros Hx Hz. split; [done|rewrite !fmap_cons, Hx, Hz; by vm_compute; repeat constructor; set_solver|].
  apply Forall_cons_2; [rewrite Hx; apply plain_x|apply Forall_cons_2; [rewrite Hz; apply plain_n|apply Forall_nil_2]].
Qed.

Lemma image_I32 z b : binary_write (VInt I32 z) = Ok b -> value_image (VInt I32 z) ([0xC4; 0] ++ b).
Proof. intros. apply (image_fixed (VInt I32 z) b); [done|discriminate|done]. Qed.
Lemma image_I16 z b : binary_write (VInt I16 z) = Ok b -> value_image (VInt I16 z) ([0xC3; 0] ++ b).
Proof. intros. apply (image_fixed (VInt I16 z) b); [done|discriminate|done]. Qed.

Lemma map_clients_ready : client_ready 508 map_client /\ client_ready 508 second_map_client.
Proof.
  split; (split; [done|zbound|done|split; [zbound|]]); [exact no_cache_sound|].
  intros path i _ _ E. cbn in E. by rewrite lookup_empty in E.
Qed.

Lemma two_linked k : (k < 2)%nat -> linked 508 two_client_net 1%positive write_provider k.
Proof.
  intros Hk. destruct map_clients_ready as [R1 R2].
  destruct k as [|[|k]]; [| |lia]; (split; [done|]); eexists (new_handler (client_conn [])), _; (split; [split|done]).
  - done.
  - split; [reflexivity|zbound].
  - split; [reflexivity|zbound].
  - split; [exists 1%positive; by split|done|done].
  - done.
  - split; [reflexivity|zbound].
  - split; [reflexivity|zbound].
  - split; [exists 2%positive; by split|done|done].
Qed.

(** A client writes x and n as a map, another reads x and writes it, and the
    first reads both as a map. *)
Definition sample_calls (a b : nat) : list (nat * call) :=
  [(a, CallWriteMap [(tag_x, VInt I32 9); (tag_n, VInt I16 (-3))]); (b, CallRead tag_x (TInt I32));
   (b, CallWrite tag_x (VInt I32 4)); (a, CallReadMap [(tag_x, TInt I32); (tag_n, TInt I16)])].
Definition sample_outcomes : list outcome :=
  [Done; Value (VInt I32 9); Done; Values (Some [(str "x", RVal (VInt I32 4)); (str "n", RVal (VInt I16 (-3)))])].

Lemma sample_store_run a b : store_run 508 write_provider (sample_calls a b) sample_outcomes (stored_x_n 4 (-3)).
Proof.
  set (e9 := {| me_path := tag_x; me_type := TInt I32; me_val := VInt I32 9; me_image := [0xC4; 0] ++ [9; 0; 0; 0] |}).
  assert (me_ok e9 /\ me_ok entry_x /\ me_ok entry_n) as (O9 & Ox & On).
  { split_and!; (split; [zbound|]; split; [done|]); [apply image_I32|apply image_I32|apply image_I16]; done. }
  apply (store_more _ _ _ _ _ (stored_x_n 9 (-3))).
  { apply (store_write_map 508 write_provider [e9; entry_n]); [by apply two_entries_ok| |by vm_compute|].
    - apply Forall_cons_2; [|apply Forall_cons_2; [|apply Forall_nil_2]]; (split; [done|discriminate]).
    - apply (writes_cons _ (stored_x_n 9 0)); [by vm_compute|]. apply (writes_cons _ (stored_x_n 9 (-3))); [by vm_compute|apply writes_nil]. }
  apply (store_more _ _ _ _ _ (stored_x_n 9 (-3))).
  { apply (store_read 508 _ _ _ _ ([0xC4; 0] ++ [9; 0; 0; 0])); [apply plain_x|eexists; split; [reflexivity|by vm_compute]|zbound|done|by apply image_I32]. }
  apply (store_more _ _ _ _ _ (stored_x_n 4 (-3))).
  { apply (store_write 508 _ _ _ [4; 0; 0; 0]); [apply plain_x|zbound|discriminate|done|by vm_compute]. }
  apply (store_more _ _ _ _ _ (stored_x_n 4 (-3))); [|apply store_done].
  apply (store_read_map 508 _ [entry_x; entry_n]); [by apply two_entries_ok|by repeat constructor|by vm_compute|].
  apply Forall_cons_2; [|apply Forall_cons_2; [|apply Forall_nil_2]]; (eexists; split; [reflexivity|by vm_compute]).
Qed.

Lemma clients_refine_store_witness :
  exists n', net_run (H1:=no_methods) (fun _ => 1) (fun _ => 0) two_client_net (sample_calls 0 1) sample_outcomes n' /\
    forall k, (k < 2)%nat -> linked 508 n' 1%positive (stored_x_n 4 (-3)) k.
Proof.
  apply (clients_refine_store (H1:=no_methods) (fun _ => 1) (fun _ => 0) 508 (fun k => (k < 2)%nat) two_client_net 1%positive write_provider).
  - zbound.
  - apply two_linked.
  - repeat apply Forall_cons_2; try apply Forall_nil_2; simpl; lia.
  - apply sample_store_run.
Defined.
