(* ===== verification/EndToEndConnect.v ===== *)
(** * A client joins a running server

    Connect, end to end: the session, the forward open and the first request
    over the new connection, each message of the client served by the handler
    the server gave its TCP connection. *)
From S2P Require Import Prelude Reader GoStrings GoValue CipNames CipDefs Types Items Ioi TagPath Path Conns Router Messages Server ServerAttr ServerConnected ServerUnconnected ServerReplies ServerData ServerOpen Serving Pack Client ClientTags ClientConn ClientScript MultiReadProofs ServerMulti EndToEnd EndToEndList EndToEndWrites EndToEndIO EndToEndServing EndToEndStore.

(** ** The server's side *)

Section ServerSide.
Context {P : Type} `{EndpointLaws P} (rand_Uint32 : nat -> Z).

(** A frame of a client brings its handler behind the header. *)
Lemma serve_frame cmd payload wc rest ws :
  config_ok wc -> 0 <= cmd < 2 ^ 16 ->
  serve_one rand_Uint32 (feed (client_frame cmd payload wc ++ rest) ws) =
    handle_command rand_Uint32 (client_header cmd payload wc) (heard (Context_ (config wc)) (payload ++ rest) ws).
Proof.
  intros (Hsess & Hctx & _) Hcmd. unfold client_frame. rewrite <- (assoc_L (++)). unfold serve_one.
  eapply step.
  { eapply wrapM_Ok, on_conn_Ok, parses_eipHeader. unfold eipHeader_ok, client_header.
    cbn [hdr_Command hdr_Length hdr_SessionHandle hdr_Status hdr_Context hdr_Options].
    split_and!; first [lia|apply wrap_bound; lia|done]. }
  eapply step; [reflexivity|]. reflexivity.
Qed.

(** *** The session *)

Definition register_payload : bytes := msgCIPRegister_bytes {| reg_ProtocolVersion := 1; reg_OptionFlag := 0 |}.
Definition register_frame (wc : client_world) : bytes := client_frame cipCommandRegisterSession register_payload wc.

(** The handle the server settles on, and the handler that has it. *)
Definition session_handle (wc : client_world) (w : world P) : Z :=
  if SessionHandle (link wc) =? 0 then rand_Uint32 (w_rand w) else SessionHandle (link wc).
Definition registered (wc : client_world) (w : world P) : world P :=
  {| w_srv := w_srv w; w_h := set_session (session_handle wc w) 0 (w_h (heard (Context_ (config wc)) [] w));
     w_rand := w_rand w + (if SessionHandle (link wc) =? 0 then 1 else 0); w_io := w_io w |}.
Definition register_answer (wc : client_world) (w : world P) : bytes :=
  frame cipCommandRegisterSession [register_payload] (w_h (registered wc w)).

Lemma serve_register wc ws :
  config_ok wc -> can_write ws ->
  serve_one rand_Uint32 (feed (register_frame wc) ws) = (Ok tt, sent (register_answer wc ws) (registered wc ws)).
Proof.
  intros Hc Hw. rewrite <- (app_nil_r (register_frame wc)). unfold register_frame. rewrite serve_frame by done.
  unfold handle_command. change (hdr_Command (client_header _ _ _)) with cipCommandRegisterSession. rewrite Z.eqb_refl. cbv iota.
  apply wrapM_Ok. unfold registerSession.
  assert (parses (R:=bytes) read_msgCIPRegister register_payload {| reg_ProtocolVersion := 1; reg_OptionFlag := 0 |}) as Hp.
  { apply parses_struct; [|done]. unfold register_payload, msgCIPRegister_bytes. cbn [reg_ProtocolVersion reg_OptionFlag].
    rewrite <- (app_nil_r (le_bytes 2 0)). do 2 parse_field. apply parses_ret. }
  eapply step; [exact (wrapM_Ok _ _ _ _ _ (on_conn_Ok _ _ _ [] (upd_h (set_context (Context_ (config wc))) ws) Hp))|].
  change (hdr_SessionHandle (client_header _ _ _)) with (SessionHandle (link wc)).
  change (hdr_Options (client_header _ _ _)) with 0.
  set (w1 := heard (Context_ (config wc)) [] ws).
  eapply (step _ _ _ (session_handle wc ws)
    {| w_srv := w_srv w1; w_h := w_h w1; w_rand := w_rand (registered wc ws); w_io := w_io w1 |}).
  { unfold session_handle, registered. cbn [w_rand]. destruct (_ =? 0); unfold rand, mret, M_ret; rewrite ?Nat.add_1_r, ?Nat.add_0_r; [done|]. by destruct ws. }
  eapply step; [reflexivity|]. apply wrapM_Ok. unfold send. rewrite (bind_Ok get _ _ _ _ eq_refl). unfold conn_Write.
  cbn [upd_h w_h set_session h_conn]. change (c_werr (h_conn (w_h w1))) with (c_werr (h_conn (w_h ws))).
  unfold can_write in Hw. rewrite Hw. done.
Qed.
(** *** The connection *)

(** The standard and the large forward open. *)
Definition open_width (large : bool) : nat := if large then 4 else 2.
Definition open_service (large : bool) : Z := if large then CIPService_LargeForwardOpen else CIPService_ForwardOpen.
Definition open_frame (large : bool) (m : forwardOpen) (path : bytes) (wc : client_world) : bytes :=
  rr_frame (Write path (Write (forwardOpen_bytes (open_width large) m) (empty_item cipItem_UnconnectedData))) wc.

(** The server with the connection, the handler with its ids. *)
Definition connected_to (m : forwardOpen) (cm' : serverConnectionManager) (w : world P) : world P :=
  upd_srv (set_ConnMgr cm') (sent (opened_frame rand_Uint32 m w) (ServerOpen.settled rand_Uint32 m w)).

Lemma serve_open_item large m path i (w : world P) l cm' :
  can_write w -> forwardOpen_ok (open_width large) m -> fo_Service m = open_service large -> fo_TransportTrigger m <> 1 ->
  item_Data i = forwardOpen_bytes (open_width large) m ++ path -> length path = double_u8 (fo_ConnPathSize m) ->
  (2 <= length path)%nat -> add_new (opened rand_Uint32 m path w) (ConnMgr (w_srv w)) = (Ok l, cm') ->
  unconnectedData rand_Uint32 (Reset i) w = (Ok tt, connected_to m cm' w).
Proof.
  intros Hw Hm Hsv Ht Hd Hl H2 Ha. pose proof (left_Reset i) as L. rewrite Hd, <- (app_nil_r path) in L.
  assert (read_open (P:=P) (open_width large) (Reset i) w = (Ok (m, take 2 path), w)) as Er by by eapply read_open_spec.
  pose proof (open_connection_spec rand_Uint32 m path w l cm' Hw Ha) as Eo.
  unfold unconnectedData. pose proof L as [L1 E1]. unfold forwardOpen_bytes in E1. rewrite <- !(assoc_L (++)) in E1.
  pose proof (fo_bytes_ok _ _ Hm) as Hb. apply Forall_cons_iff in Hb as [Hb _].
  pose proof (parses_u8 (R:=CIPItem) (fo_Service m) Hb) as P1.
  eapply step; [apply on_Ok, wrapM_Ok, (P1 _ _ L1 E1)|]. cbv beta iota.
  rewrite Hsv. destruct large; cbn [open_service open_width] in *.
  - change (CIPService_LargeForwardOpen =? CIPService_ForwardOpen) with false. rewrite Z.eqb_refl. cbv iota.
    apply wrapM_Ok. unfold largeForwardOpen. eapply step; [exact Er|]. cbv beta iota. eapply step; [exact Eo|]. done.
  - rewrite Z.eqb_refl. apply wrapM_Ok. unfold forwardOpen_. eapply step; [exact Er|]. cbv beta iota.
    eapply step; [exact Eo|]. cbv beta iota. by rewrite (proj2 (Z.eqb_neq _ _)) by done.
Qed.

Lemma serve_open large m path ws wc l cm' :
  let w := heard (Context_ (config wc)) [] ws in
  config_ok wc -> can_write ws -> forwardOpen_ok (open_width large) m -> fo_Service m = open_service large ->
  fo_TransportTrigger m <> 1 -> length path = double_u8 (fo_ConnPathSize m) -> (2 <= length path)%nat ->
  add_new (opened rand_Uint32 m path w) (ConnMgr (w_srv ws)) = (Ok l, cm') ->
  serve_one rand_Uint32 (feed (open_frame large m path wc) ws) = (Ok tt, connected_to m cm' w).
Proof.
  intros w Hc Hw Hm Hsv Ht Hl H2 Ha. rewrite <- (app_nil_r (open_frame large m path wc)). unfold open_frame, rr_frame.
  set (item1 := Write path _). assert (item_Data item1 = forwardOpen_bytes (open_width large) m ++ path) as Hd by done.
  assert (length path < 256)%nat as Hlp.
  { rewrite Hl. unfold double_u8. pose proof (wrap_bound 8 (fo_ConnPathSize m * 2) ltac:(lia)). lia. }
  assert (item_wf item1) as Hwf.
  { apply item_len_ok_wf; [done| |done]. rewrite Hd. unfold forwardOpen_bytes, blen.
    rewrite !length_app, !length_le_bytes. cbn [length]. destruct large; cbn [open_width]; lia. }
  rewrite serve_frame by done. unfold handle_command.
  change (hdr_Command (client_header _ _ _)) with cipCommandSendRRData.
  change (cipCommandSendRRData =? cipCommandRegisterSession) with false. rewrite Z.eqb_refl. cbv iota.
  apply wrapM_Ok. unfold sendRRData.
  eapply step; [apply read_request_heard; [done|exact Hwf]|]. cbv beta iota. fold w.
  change (item_ID (Reset item1)) with cipItem_UnconnectedData.
  change (cipItem_UnconnectedData =? cipItem_ConnectedData) with false. rewrite Z.eqb_refl. cbv iota.
  by apply (serve_open_item large m path item1 w l cm').
Qed.

(** *** The first request *)

(** The attribute of the identity object the client asks for. *)
Definition attr_path (attr : Z) : bytes := Class_.Bytes CipObject_Identity ++ Instance_.Bytes 1 ++ Attribute.Bytes attr.
Definition attr_frame (attr : Z) (wc : client_world) : bytes :=
  unit_frame (Write (le_bytes 2 (next_seq wc) ++ [CIPService_GetAttributeSingle] ++ [3] ++ attr_path attr)
    (empty_item cipItem_ConnectedData)) wc.
Definition attr_reply (seq : Z) (b : bytes) : bytes :=
  le_bytes 2 seq ++ msgUnconnWriteResultHeader_bytes (Service.AsResponse CIPService_FragRead) 0 0 ++ b.

Lemma serve_attr wc c ep p attr v b ws :
  config_ok wc -> can_write ws -> routed ws (OTNetworkConnectionID (link wc)) c ep p -> 0 <= attr < 256 ->
  Attributes (w_srv ws) !! attr = Some v -> serialize_arg (sarg_of v) = Ok b ->
  let w := received (Context_ (config wc)) (next_seq wc) [] ws in
  serve_one rand_Uint32 (feed (attr_frame attr wc) ws) =
    (Ok tt, sent (connected_frame (conn_TO c) (attr_reply (next_seq wc) b) w) w).
Proof.
  intros Hc Hw Hr Hat Ha Hb w. rewrite <- (app_nil_r (attr_frame attr wc)). unfold attr_frame.
  assert (blen (attr_path attr) = 6) as Hlen.
  { unfold attr_path, blen. rewrite !length_app. unfold Attribute.Bytes. by rewrite (proj2 (Z.ltb_lt _ _)) by lia. }
  apply serve_unit_frame; [done|by apply (wrap_bound 16)|zbound| |].
  { unfold blen in *. rewrite length_app. cbn [length]. lia. }
  intros j0 j1 _ Hd0 Hd1 _. change (connected_service CIPService_GetAttributeSingle) with
    (fun i0 i1 => wrapM (S:=world P) "problem handling getAttrSingle" (connectedGetAttr i0 i1)). cbv beta.
  apply wrapM_Ok. unfold connectedGetAttr.
  pose proof (left_Reset j0) as L0. rewrite Hd0 in L0.
  eapply step_on; [apply parses_wrapM, parses_u32, Hc|exact L0|intros i0' _]. cbv beta iota.
  eapply step; [exact (wrapM_Ok _ _ _ _ _ (find_connection_Ok _ _ c ep p (routed_srv ws (received (Context_ (config wc)) (next_seq wc) [] ws) _ _ _ _ eq_refl Hr)))|].
  pose proof (left_Reset j1) as L1. rewrite Hd1 in L1. unfold attr_path in L1. rewrite <- (app_nil_r (Attribute.Bytes attr)) in L1. unfold getAttrSingle.
  eapply step_on; [apply parses_wrapM, (parses_u16 (next_seq wc)); by apply (wrap_bound 16)|exact L1|intros i1 L2]. cbv beta iota.
  eapply step_on; [by apply parses_wrapM, (parses_item_Byte CIPService_GetAttributeSingle)|exact L2|intros i2 L3]. cbv beta iota.
  eapply step_on; [by apply parses_wrapM, (parses_item_Byte 3)|exact L3|intros i3 L4]. cbv beta iota. cbn [Z.eqb negb].
  eapply step_on; [by apply parses_wrapM, (class_parses CipObject_Identity)|exact L4|intros i4 L5]. cbv beta iota.
  eapply step_on; [by apply parses_wrapM, (instance_parses 1)|exact L5|intros i5 L6]. cbv beta iota.
  change (negb (CipObject_Identity =? 1) || negb (1 =? 1)) with false. cbv iota.
  eapply step_on; [apply parses_wrapM, (attribute_parses attr); lia|exact L6|intros i6 _]. cbv beta iota.
  eapply step; [reflexivity|]. change (Attributes (w_srv (received _ _ _ ws))) with (Attributes (w_srv ws)). rewrite Ha.
  unfold sendConnectedReply.
  rewrite (send_items_Ok _ _ _ _ [msgUnconnWriteResultHeader_bytes (Service.AsResponse CIPService_FragRead) 0 0; b]);
    [|exact Hw|done|by repeat constructor].
  unfold connected_frame, attr_reply. cbn [concat]. rewrite app_nil_r. done.
Qed.
End ServerSide.

(** ** The client's side *)

Section ClientSide.
Context (U : nat -> Z).

(** The client with the settings Connect completes. *)
Definition prepared (w : client_world) : client_world :=
  snd (connect_defaults U (upd_link (set_connStatus connectionStatusConnecting) w)).
Definition connect_size (w : client_world) : Z :=
  if ConnectionSize (link w) =? 0 then connSizeLargeDefault else ConnectionSize (link w).
Definition connect_path (w : client_world) : bytes := default [1; 0] (Controller_Path (config w)) ++ [0x20; 2; 0x24; 1].

Record prepared_spec (w w1 : client_world) : Prop := {
  pr_size : ConnectionSize (link w1) = connect_size w;
  pr_path : connection_path w1 = (Ok (connect_path w), w1);
  pr_ids : SerialNumber (config w1) = SerialNumber (config w) /\ VendorId (config w1) = VendorId (config w);
  pr_header : config_ok w -> config_ok w1;
  pr_ioi : ioi (cw_client w1) = ioi (cw_client w);
  pr_status : status w1 = connectionStatusConnecting;
  pr_auto : KeepAliveAutoStart (config w1) = KeepAliveAutoStart (config w);
}.

Lemma prepared_ok w : prepared_spec w (prepared w).
Proof.
  destruct w as [[c l i] ds sv cv ck]. unfold prepared, connect_defaults.
  destruct l as [st cn sh ot hc size sn q kr kc], c as [path s v ac rpi ctx ka].
  split; unfold connect_size, connect_path, connection_path, config_ok; cbv [snd default_size set_link modify mbind M_bind now_millis
    sequenceNumber_Add upd_link upd_cfg upd_client cw_client cfg lnk ioi link config cw_clock cw_dials status]; simpl;
    destruct (size =? 0), (rpi =? 0), path as [path|]; simpl; done.
Qed.

(** The next dial is answered by a peer with the script. *)
Definition dialing (sc : list exchange) (w : client_world) : client_world :=
  {| cw_client := cw_client w; cw_dials := Some sc :: cw_dials w; cw_sequenceValue := cw_sequenceValue w;
     cw_connectionSerialValue := cw_connectionSerialValue w; cw_clock := cw_clock w |}.

Lemma connect_defaults_dialing sc w :
  connect_defaults U (upd_link (set_connStatus connectionStatusConnecting) (dialing sc w)) = (Ok tt, dialing sc (prepared w)).
Proof. reflexivity. Qed.

Lemma dial_dialing sc w : dial (dialing sc w) = (Ok tt, scripted sc [] w).
Proof. destruct w. reflexivity. Qed.

(** The message of the connection. *)
Definition connect_open (large : bool) (serial : Z) (path : bytes) (w : client_world) : forwardOpen :=
  let rpi := u32 (Z.quot (RPI (config w)) 1000) in
  let params := (if large then params_large else params_standard) (ConnectionSize (link w)) in
  {| fo_Service := open_service large; fo_PathSize := 2; fo_ClassType := Class_.cipClass_8bit;
     fo_Class := CipObject_ConnectionManager; fo_InstanceType := Instance_.cipInstance_8bit; fo_Instance := 1;
     fo_Priority := if large then 0x0A else 0x07; fo_TimeoutTicks := if large then 0x0E else 0xE9;
     fo_OTConnectionID := u32 (sequenceNumber (link w) + 1);
     fo_TOConnectionID := u32 (u32 (sequenceNumber (link w) + 1) + 1); fo_ConnectionSerialNumber := serial;
     fo_VendorID := VendorId (config w); fo_OriginatorSerialNumber := SerialNumber (config w);
     fo_Multiplier := if large then 3 else 0; fo_OTRPI := rpi; fo_OTNetworkConnParams := params; fo_TORPI := rpi;
     fo_TONetworkConnParams := params; fo_TransportTrigger := 0xA3; fo_ConnPathSize := u8 (blen path / 2) |}.
Definition connect_item (large : bool) (serial : Z) (path : bytes) (w : client_world) : CIPItem :=
  Write path (Write (forwardOpen_bytes (open_width large) (connect_open large serial path w)) (empty_item cipItem_UnconnectedData)).

(** The client after it took the serial number and the two connection ids. *)
Definition numbered (serial v : Z) (w : client_world) : client_world :=
  upd_link (fun l => set_sequenceNumber (u32 (u32 (sequenceNumber l + 1) + 1)) (set_ConnectionSerialNumber serial l))
    {| cw_client := cw_client w; cw_dials := cw_dials w; cw_sequenceValue := cw_sequenceValue w;
       cw_connectionSerialValue := v; cw_clock := cw_clock w |}.

Lemma set_link_id f w : f (link w) = link w -> set_link f w = (Ok tt, w).
Proof. destruct w as [[c l i] ? ? ? ?]. unfold set_link, modify, upd_link, upd_client, link. simpl. by intros ->. Qed.

Lemma default_size_set d w : ConnectionSize (link w) <> 0 -> default_size d w = (Ok tt, w).
Proof. intros Hs. unfold default_size. apply set_link_id. by rewrite (proj2 (Z.eqb_neq _ _)). Qed.

Lemma connection_path_config path w w' : config w' = config w -> connection_path w = (Ok path, w) -> connection_path w' = (Ok path, w').
Proof.
  intros Ec E. assert (connection_path w' = (fst (connection_path w), w')) as ->; [|by rewrite E].
  unfold connection_path. rewrite Ec. by destruct (Controller_Path (config w)).
Qed.

Lemma next_serial_scripted serial v sc se w : next_serial 2 (cw_connectionSerialValue w) = Ok (serial, v) ->
  nextConnectionSerialNumber (scripted sc se w) =
    (Ok serial, scripted sc se {| cw_client := cw_client w; cw_dials := cw_dials w; cw_sequenceValue := cw_sequenceValue w;
       cw_connectionSerialValue := v; cw_clock := cw_clock w |}).
Proof. intros E. unfold nextConnectionSerialNumber. change (cw_connectionSerialValue (scripted sc se w)) with (cw_connectionSerialValue w). by rewrite E. Qed.

(** newForwardOpenLarge and newForwardOpenStandard. *)
Lemma new_open_scripted serial v path sc se w :
  0 < ConnectionSize (link w) -> connection_path w = (Ok path, w) ->
  next_serial 2 (cw_connectionSerialValue w) = Ok (serial, v) ->
  let large := connSizeStandardMax <? ConnectionSize (link w) in
  (if large then newForwardOpenLarge else newForwardOpenStandard) (scripted sc se w) =
    (Ok (connect_item large serial path w), scripted sc se (numbered serial v w)).
Proof.
  intros Hs Hp Hv large. assert (ConnectionSize (link (scripted sc se w)) = ConnectionSize (link w)) as Es by done.
  destruct large eqn:El; unfold newForwardOpenLarge, newForwardOpenStandard.
  - eapply step; [apply default_size_set; lia|]. unfold newForwardOpen.
    eapply step; [by apply (connection_path_config path w)|]. eapply step; [by apply next_serial_scripted|]. reflexivity.
  - eapply step; [apply default_size_set; lia|].
    eapply step; [apply set_link_id; rewrite Es; unfold large in El; by rewrite El|]. unfold newForwardOpen.
    eapply step; [by apply (connection_path_config path w)|]. eapply step; [by apply next_serial_scripted|]. reflexivity.
Qed.

(** The confirmation of the connection. *)
Lemma parses_open_reply {R} `{ReaderLaws R} ot rest : 0 <= ot < 2 ^ 32 -> length rest = 22%nat ->
  parses (R:=R) read_open_reply (le_bytes 4 ot ++ rest) ot.
Proof.
  intros Ho Hl. unfold read_open_reply, read_struct. eapply parses_bind_nil.
  { apply parses_slice. rewrite length_app, length_le_bytes, Hl. done. }
  pose proof (parses_u32 (R:=bytes) ot Ho) as Hp. erewrite (Hp _ rest); [apply parses_ret|done|done].
Qed.

Lemma client_forwardOpen_answered item h i0 i1 svc ot rest sc se w :
  eipHeader_ok h -> hdr_Length h = blen (serializeItems [i0; i1]) -> hdr_Status h = 0 -> item_wf i0 -> item_wf i1 ->
  is_byte svc -> item_Data i1 = [svc; 0; 0; 0] ++ le_bytes 4 ot ++ rest -> 0 <= ot < 2 ^ 32 -> length rest = 22%nat ->
  client_forwardOpen item (scripted (Reply (eipHeader_bytes h ++ serializeItems [i0; i1]) :: sc) se w) =
    (Ok tt, upd_link (set_OTNetworkConnectionID ot) (scripted sc (se ++ [rr_frame item w]) (counted w))).
Proof.
  intros Hh Hl Hs H0 H1 Hsvc Hd Hot Hr. unfold client_forwardOpen.
  destruct (parseResponse_items h i0 i1 svc (le_bytes 4 ot ++ rest) Hs H0 H1 Hsvc Hd) as (i & Ep & L).
  eapply step; [by apply send_recv_scripted|]. cbv beta iota.
  eapply step; [unfold lift; by rewrite Ep|]. cbv beta iota. rewrite <- (app_nil_r (le_bytes 4 ot ++ rest)) in L.
  eapply step_on; [by apply parses_wrapM, (parses_open_reply ot rest)|exact L|intros i' _]. reflexivity.
Qed.

(** The open the size asks for is confirmed. *)
Lemma open_connection_answered item w w1 w2 :
  (if connSizeStandardMax <? ConnectionSize (link w) then newForwardOpenLarge else newForwardOpenStandard) w = (Ok item, w1) ->
  client_forwardOpen item w1 = (Ok tt, w2) -> ConnectionSize (link w2) = ConnectionSize (link w) ->
  open_connection_ w = (Ok tt, w2).
Proof.
  intros Eo Ef Es. unfold open_connection_. eapply step; [reflexivity|]. cbv beta.
  destruct (Z.ltb_spec connSizeStandardMax (ConnectionSize (link w))) as [Hl|Hl].
  - eapply (step _ _ _ tt w2); [unfold open_large; eapply step; [exact Eo|]; eapply step; [unfold try; by rewrite Ef|]; reflexivity|].
    eapply step; [reflexivity|]. cbv beta. by rewrite Es, (proj2 (Z.leb_gt _ _)).
  - eapply step; [reflexivity|]. eapply step; [reflexivity|]. cbv beta. rewrite (proj2 (Z.leb_le _ _)) by done.
    unfold open_standard. eapply step; [exact Eo|exact Ef].
Qed.

(** The client once the session is registered, and once it is connected. *)
Definition in_session (handle : Z) (w : client_world) : client_world := upd_link (set_SessionHandle handle) (counted (prepared w)).
Definition joined (handle serial v ot : Z) (se : list bytes) (w : client_world) : client_world :=
  upd_link (set_connStatus connectionStatusConnected)
    (upd_link (set_OTNetworkConnectionID ot) (scripted [] se (counted (numbered serial v (in_session handle w))))).

Lemma Connect_answered w h1 d1 h2 i0 i1 svc ot rest serial v :
  let w2 := in_session (hdr_SessionHandle h1) w in
  let item := connect_item (connSizeStandardMax <? connect_size w) serial (connect_path w) w2 in
  status w = connectionStatusDisconnected -> KeepAliveAutoStart (config w) = false -> 0 < connect_size w ->
  next_serial 2 (cw_connectionSerialValue w) = Ok (serial, v) ->
  eipHeader_ok h1 -> hdr_Length h1 = blen d1 ->
  eipHeader_ok h2 -> hdr_Length h2 = blen (serializeItems [i0; i1]) -> hdr_Status h2 = 0 -> item_wf i0 -> item_wf i1 ->
  is_byte svc -> item_Data i1 = [svc; 0; 0; 0] ++ le_bytes 4 ot ++ rest -> 0 <= ot < 2 ^ 32 -> length rest = 22%nat ->
  Connect U (dialing [Reply (eipHeader_bytes h1 ++ d1); Reply (eipHeader_bytes h2 ++ serializeItems [i0; i1])] w) =
    (Ok tt, joined (hdr_SessionHandle h1) serial v ot [register_frame (prepared w); rr_frame item w2] w).
Proof.
  intros w2 item Hst Hauto Hsz Hser Hh1 Hl1 Hh2 Hl2 Hs2 H0 H1 Hsvc Hd Hot Hr.
  destruct (prepared_ok w) as [Ps Pp _ _ _ _ Pa].
  unfold Connect. eapply step; [apply startConnect_Ok; exact Hst|]. unfold finally_status.
  set (wj := upd_link (set_OTNetworkConnectionID ot) (scripted [] [register_frame (prepared w); rr_frame item w2] (counted (numbered serial v w2)))).
  assert (connect_body U (upd_link (set_connStatus connectionStatusConnecting)
      (dialing [Reply (eipHeader_bytes h1 ++ d1); Reply (eipHeader_bytes h2 ++ serializeItems [i0; i1])] w)) =
    (Ok tt, wj)) as E.
  2:{ rewrite (bind_Ok _ _ _ _ _ E). unfold go_KeepAlive. rewrite (bind_Ok get _ wj wj wj eq_refl).
    change (KeepAliveAutoStart (config wj)) with (KeepAliveAutoStart (config (prepared w))). by rewrite Pa, Hauto. }
  unfold connect_body. eapply step; [apply connect_defaults_dialing|]. eapply step; [apply wrapM_Ok, dial_dialing|].
  set (w1 := prepared w) in *. set (r2 := Reply (eipHeader_bytes h2 ++ _)).
  eapply (step _ _ _ tt (scripted [r2] [register_frame w1] w2)).
  { unfold client_registerSession. eapply step; [apply wrapM_Ok, (send_recv_scripted _ _ h1 d1 [r2] [] w1 Hh1 Hl1)|]. reflexivity. }
  assert (ConnectionSize (link w2) = connect_size w) as E2 by exact Ps.
  pose proof (new_open_scripted serial v (connect_path w) [r2] [register_frame w1] w2) as Eo.
  rewrite E2 in Eo. specialize (Eo Hsz (connection_path_config _ w1 w2 eq_refl Pp) Hser). cbv zeta in Eo. fold item in Eo.
  pose proof (client_forwardOpen_answered item h2 i0 i1 svc ot rest [] [register_frame w1] (numbered serial v w2)
    Hh2 Hl2 Hs2 H0 H1 Hsvc Hd Hot Hr) as Ef. fold r2 in Ef.
  apply (open_connection_answered item _ (scripted [r2] [register_frame w1] (numbered serial v w2))).
  - change (ConnectionSize (link (scripted _ _ w2))) with (ConnectionSize (link w2)). rewrite E2. exact Eo.
  - exact Ef.
  - reflexivity.
Qed.

(** The same, for answers given otherwise. *)
Lemma Connect_frames large w f1 f2 hd h1 d1 h2 i0 i1 svc ot rest serial v :
  large = (connSizeStandardMax <? connect_size w) -> f1 = eipHeader_bytes h1 ++ d1 -> f2 = eipHeader_bytes h2 ++ serializeItems [i0; i1] -> hdr_SessionHandle h1 = hd ->
  let w2 := in_session hd w in
  let item := connect_item large serial (connect_path w) w2 in
  status w = connectionStatusDisconnected -> KeepAliveAutoStart (config w) = false -> 0 < connect_size w ->
  next_serial 2 (cw_connectionSerialValue w) = Ok (serial, v) ->
  eipHeader_ok h1 -> hdr_Length h1 = blen d1 ->
  eipHeader_ok h2 -> hdr_Length h2 = blen (serializeItems [i0; i1]) -> hdr_Status h2 = 0 -> item_wf i0 -> item_wf i1 ->
  is_byte svc -> item_Data i1 = [svc; 0; 0; 0] ++ le_bytes 4 ot ++ rest -> 0 <= ot < 2 ^ 32 -> length rest = 22%nat ->
  Connect U (dialing [Reply f1; Reply f2] w) = (Ok tt, joined hd serial v ot [register_frame (prepared w); rr_frame item w2] w).
Proof. intros -> -> -> <-. apply Connect_answered. Qed.

(** The revision the client keeps from the answer to its first request. *)
Definition first_request (wc : client_world) : client_world := snd (sequencer wc).
Definition with_firmware (z : Z) (w : client_world) : client_world := upd_ioi (set_firmware z) w.

Lemma client_firmware_answered h i0 seq svc z rest se w :
  let i1 := Write (le_bytes 2 seq ++ [svc; 0; 0; 0] ++ [z] ++ rest) (empty_item cipItem_ConnectedData) in
  status w = connectionStatusConnected -> firmware (ioi (cw_client w)) = 0 ->
  eipHeader_ok h -> hdr_Length h = blen (serializeItems [i0; i1]) -> item_wf i0 -> item_wf i1 ->
  0 <= seq < 2 ^ 16 -> is_byte svc -> is_byte z ->
  client_firmware U (answer (eipHeader_bytes h ++ serializeItems [i0; i1]) se w) =
    (Ok z, with_firmware z (answered (se ++ [attr_frame 4 w]) (first_request w))).
Proof.
  intros i1 Hst Hf Hh Hl H0 H1 Hseq Hsvc Hz. unfold client_firmware.
  set (wa := answer _ se w). rewrite (bind_Ok get _ wa wa wa eq_refl).
  change (firmware (ioi (cw_client wa))) with (firmware (ioi (cw_client w))). rewrite Hf. cbn [Z.eqb negb].
  set (w' := answered (se ++ [attr_frame 4 w]) (first_request w)).
  assert (exists i, GetAttrSingle U CipObject_Identity 1 4 wa = (Ok i, w') /\ left i ([z] ++ rest)) as (i & Eg & L).
  { unfold GetAttrSingle.
    rewrite (bind_Ok _ _ _ _ _ (wrapM_Ok _ _ _ _ _ (checkConnection_up U wa Hst))).
    rewrite (bind_Ok sequencer _ wa (u32 (cw_sequenceValue w + 1)) (answer (eipHeader_bytes h ++ serializeItems [i0; i1]) se (first_request w)) eq_refl).
    cbv zeta. rewrite (bind_Ok _ _ _ _ _ (unit_request_scripted _ h _ [] se (first_request w) Hh Hl)). cbv beta iota.
    pose proof (parses_items (R:=bytes) [i0; i1]) as Hp.
    assert (readItems (after_CSD (serializeItems [i0; i1])) = (Ok [Reset i0; Reset i1], [])) as Er.
    { rewrite after_CSD_items. rewrite <- (app_nil_r (le_bytes 2 _ ++ _)).
      rewrite (Hp ltac:(repeat first [apply Forall_cons_2; [done|]|apply Forall_nil_2]) eq_refl _ [] Logic.I eq_refl).
      f_equal. apply drop_app_length. }
    rewrite (bind_Ok _ _ _ _ _ (on_Ok _ _ _ _ _ Er)). cbv beta iota.
    rewrite (bind_Ok (lift (second_item [Reset i0; Reset i1])) _ _ (Reset i1) _ eq_refl).
    assert (parses (R:=CIPItem) read_attribute_hdr (le_bytes 2 seq ++ [svc; 0; 0; 0]) 0) as Ph.
    { apply parses_struct; [|by rewrite length_app, length_le_bytes].
      change [svc; 0; 0; 0] with ([svc] ++ [0] ++ le_bytes 2 0).
      assert (is_byte 0) by done. do 3 parse_field. by apply (parses_u16 0). }
    pose proof (left_Reset i1) as L. change (item_Data i1) with (le_bytes 2 seq ++ [svc; 0; 0; 0] ++ [z] ++ rest) in L. rewrite (assoc_L (++)) in L.
    eapply (step_left (fun r => exists i, r = (Ok i, w') /\ left i ([z] ++ rest))); [apply parses_wrapM, Ph|exact L|].
    intros i' L'. cbv beta iota. exists i'. split; [|exact L']. reflexivity. }
  erewrite bind_Ok by (unfold try; by rewrite Eg). cbv beta iota.
  destruct L as [L1 L2]. rewrite (parses_item_Byte z Hz i rest L1 L2). reflexivity.
Qed.
End ClientSide.

(** ** The running server and its clients *)

(** What the peer of a connection sends, one message answered after the other. *)
Definition turns (k : nat) (reqs : list bytes) : list event := concat ((fun r => [Arrive k r; Round k]) <$> reqs).

Section System.
Context {P : Type} `{EndpointLaws P} (rand_Uint32 : nat -> Z) (U : nat -> Z).

(** A handler serves the messages, each to its end. *)
Inductive converses : world P -> list bytes -> world P -> Prop :=
  | converses_done w : converses w [] w
  | converses_more w r w1 rs w2 :
      serve_one rand_Uint32 (feed r w) = (Ok tt, w1) -> c_in (h_conn (w_h w1)) = [] -> converses w1 rs w2 ->
      converses w (r :: rs) w2.

Definition after_turns (k : nat) (w : world P) (s : system P) : system P :=
  set_handlers (<[k := (true, w_h w)]> (sy_handlers s)) (absorb w s).

Lemma run_turns k reqs s h w' :
  sy_handlers s !! k = Some (true, h) -> c_in (h_conn h) = [] -> converses (world_of h s) reqs w' ->
  run_events rand_Uint32 (turns k reqs) s = (Ok tt, after_turns k w' s).
Proof.
  intros Hk Hin Hc. remember (world_of h s) as w eqn:Ew. revert s h Ew Hk Hin.
  induction Hc as [w|w r w1 rs w2 Es Hin1 _ IH]; intros s h -> Hk Hin.
  - cbn. unfold after_turns. cbn [world_of w_h]. rewrite list_insert_id by done. by destruct s.
  - set (s1 := snd (handle rand_Uint32 (Arrive k r) s)).
    assert (sy_handlers s1 !! k = Some (true, receive r h)) as Hk1 by (cbn; by rewrite list_lookup_alter_eq, Hk).
    assert (feed r (world_of h s) = world_of (receive r h) s1) as Ef by (unfold receive; by rewrite Hin).
    change (turns k (r :: rs)) with (Arrive k r :: Round k :: turns k rs). cbn [run_events]. rewrite (bind_Ok (handle rand_Uint32 (Arrive k r)) _ s tt s1 eq_refl).
    assert (handle rand_Uint32 (Round k) s1 = (Ok tt, after_turns k w1 s)) as Er.
    { cbn [handle]. unfold serve_round. rewrite Hk1, <- Ef, Es. unfold after_turns, s1. cbn. f_equal. unfold set_handlers. cbn. f_equal.
      apply list_eq. intros j. destruct (decide (j = k)) as [->|Hne].
      - pose proof (lookup_lt_Some _ _ _ Hk). rewrite !list_lookup_insert_eq; [done..|by rewrite length_alter].
      - by rewrite !list_lookup_insert_ne, list_lookup_alter_ne by done. }
    rewrite (bind_Ok _ _ _ _ _ Er).
    rewrite (IH (after_turns k w1 s) (w_h w1)); [|by destruct w1|by apply list_lookup_insert_eq, (lookup_lt_Some _ _ _ Hk)|done].
    unfold after_turns. cbn. unfold set_handlers. cbn. by rewrite list_insert_insert_eq.
Qed.

(** A new connection leaves the others in the table where they are. *)
Lemma routed_add c' c l cm' ep p connID (w w' : world P) :
  cm_ok (ConnMgr (w_srv w)) -> keys_unique conn_OT (ConnMgr (w_srv w)) -> conn_Open c' = true ->
  cm_view conn_OT (ConnMgr (w_srv w)) !! conn_OT c' = None ->
  add_new c' (ConnMgr (w_srv w)) = (Ok l, cm') -> w_srv w' = set_ConnMgr cm' (w_srv w) ->
  routed w connID c ep p -> routed w' connID c ep p.
Proof.
  intros Hok Hu Ho Hf Ha Ew [(l0 & Eg & Hc) Hp He].
  destruct (add_new_refines conn_OT c' (ConnMgr (w_srv w)) Hok Hu Ho Hf) as (l1 & cm1 & Ha1 & Hok1 & Hu1 & Hv1).
  rewrite Ha in Ha1. injection Ha1 as <- <-.
  pose proof (get_by_refines conn_OT "couldn't find connection by OT" connID (ConnMgr (w_srv w)) Hok Hu) as G.
  unfold GetByOT in Eg. rewrite Eg in G.
  destruct (cm_view conn_OT (ConnMgr (w_srv w)) !! connID) as [c0|] eqn:Ev; [|done].
  destruct G as (l2 & [= <-] & _ & Hc0). rewrite Hc in Hc0. injection Hc0 as <-.
  pose proof (get_by_refines conn_OT "couldn't find connection by OT" connID cm' Hok1 Hu1) as G1.
  rewrite Hv1, lookup_insert_ne, Ev in G1 by congruence. destruct G1 as (l3 & E3 & _ & Hc3).
  split; rewrite Ew; [by exists l3|done|done].
Qed.

Lemma routed_new c l cm' ep p (w w' : world P) :
  cm_ok (ConnMgr (w_srv w)) -> keys_unique conn_OT (ConnMgr (w_srv w)) -> conn_Open c = true ->
  cm_view conn_OT (ConnMgr (w_srv w)) !! conn_OT c = None ->
  add_new c (ConnMgr (w_srv w)) = (Ok l, cm') -> w_srv w' = set_ConnMgr cm' (w_srv w) ->
  router_Path (srv_Router (w_srv w)) !! conn_Path c = Some ep -> srv_eps (w_srv w) !! ep = Some p ->
  routed w' (conn_OT c) c ep p.
Proof.
  intros Hok Hu Ho Hf Ha Ew Hp He.
  destruct (add_new_refines conn_OT c (ConnMgr (w_srv w)) Hok Hu Ho Hf) as (l1 & cm1 & Ha1 & Hok1 & Hu1 & Hv1).
  rewrite Ha in Ha1. injection Ha1 as <- <-.
  pose proof (get_by_refines conn_OT "couldn't find connection by OT" (conn_OT c) cm' Hok1 Hu1) as G1.
  rewrite Hv1, lookup_insert_eq in G1. destruct G1 as (l3 & E3 & _ & Hc3).
  split; rewrite Ew; [by exists l3|done|done].
Qed.
End System.

(** ** The newcomer *)

Lemma lor_bound n a b : 0 <= n -> 0 <= a < 2 ^ n -> 0 <= b < 2 ^ n -> 0 <= Z.lor a b < 2 ^ n.
Proof.
  intros Hn Ha Hb. split; [apply Z.lor_nonneg; lia|].
  rewrite <- (Z.mod_small a (2 ^ n)), <- (Z.mod_small b (2 ^ n)), <- !Z.land_ones, <- Z.land_lor_distr_l, Z.land_ones by done.
  by apply Z.mod_pos_bound, Z.pow_pos_nonneg.
Qed.

(** A client that is not connected yet, and settings a connection can be
    asked for with. *)
Record newcomer (size : Z) (wc : client_world) : Prop := {
  nc_status : status wc = connectionStatusDisconnected;
  nc_auto : KeepAliveAutoStart (config wc) = false;
  nc_config : config_ok wc;
  nc_ids : 0 <= VendorId (config wc) < 2 ^ 16 /\ 0 <= SerialNumber (config wc) < 2 ^ 32;
  nc_size : connect_size wc = size /\ 0 < size < 2 ^ 16;
  nc_path : (length (connect_path wc) mod 2 = 0)%nat /\ (length (connect_path wc) <= 254)%nat;
  nc_firmware : firmware (ioi (cw_client wc)) = 0;
  nc_cache : cache_sound (ioi (cw_client wc));
}.

Lemma path_words path : (length path mod 2 = 0)%nat -> (length path <= 254)%nat -> length path = double_u8 (u8 (blen path / 2)).
Proof.
  intros Hm Hl. unfold double_u8, blen. pose proof (Nat.div_mod (length path) 2 ltac:(done)) as E. rewrite Hm, Nat.add_0_r in E.
  set (n := (length path / 2)%nat) in *. rewrite E, Nat2Z.inj_mul, (Z.mul_comm (Z.of_nat 2)), Z.div_mul by done.
  rewrite (wrap_small 8 (Z.of_nat n)), wrap_small; lia.
Qed.

Section Join.
Context {P : Type} `{EndpointLaws P} (rand_Uint32 : nat -> Z) (U : nat -> Z) (size : Z).
Context (Hrand : forall i, 0 <= rand_Uint32 i < 2 ^ 32).

Definition large_size : bool := connSizeStandardMax <? size.

Lemma connect_open_ok serial hd wc : newcomer size wc -> 0 <= serial < 2 ^ 16 ->
  forwardOpen_ok (open_width large_size) (connect_open large_size serial (connect_path wc) (in_session U hd wc)).
Proof.
  intros [Hst _ Hcfg [Hv Hs] [Hsz Hb] Hp Hf Hca] Hser. destruct (prepared_ok U wc) as [Ps Pp [Ei Ev] _ _ _ _].
  assert (SerialNumber (config (in_session U hd wc)) = SerialNumber (config wc)) as Es by exact Ei.
  assert (VendorId (config (in_session U hd wc)) = VendorId (config wc)) as Ev' by exact Ev.
  assert (ConnectionSize (link (in_session U hd wc)) = size) as Ez by (rewrite <- Hsz; exact Ps).
  assert (is_byte (u8 (blen (connect_path wc) / 2))) as Hw by by apply (wrap_bound 8).
  unfold connect_open. rewrite Es, Ev', Ez. destruct large_size eqn:El; split; cbn [fo_Service fo_PathSize fo_ClassType fo_Class
    fo_InstanceType fo_Instance fo_Priority fo_TimeoutTicks fo_TransportTrigger fo_ConnPathSize fo_ConnectionSerialNumber fo_VendorID
    fo_OTConnectionID fo_TOConnectionID fo_OriginatorSerialNumber fo_Multiplier fo_OTRPI fo_TORPI fo_OTNetworkConnParams
    fo_TONetworkConnParams open_width open_service].
  1, 5: repeat (apply Forall_cons_2; [first [exact Hw|done]|]); apply Forall_nil_2.
  1, 4: apply Forall_cons_2; [exact Hser|apply Forall_cons_2; [exact Hv|apply Forall_nil_2]].
  1, 3: repeat (apply Forall_cons_2; [first [by apply (wrap_bound 32)|exact Hs|done]|]); apply Forall_nil_2.
  - assert (0 <= params_large size < 2 ^ 32) by (apply (lor_bound 32); [done|done|lia]). apply Forall_cons_2; [done|apply Forall_cons_2; [done|apply Forall_nil_2]].
  - assert (0 <= params_standard size < 2 ^ 16) by (apply (lor_bound 16); [done|done|lia]). apply Forall_cons_2; [done|apply Forall_cons_2; [done|apply Forall_nil_2]].
Qed.

(** What the request of the client leaves as it is. *)
Lemma asked_kept z se w : OTNetworkConnectionID (link (with_firmware z (answered se (first_request w)))) = OTNetworkConnectionID (link w).
Proof. reflexivity. Qed.
Lemma joined_OT hd serial v ot se wc : OTNetworkConnectionID (link (joined U hd serial v ot se wc)) = ot.
Proof. reflexivity. Qed.

Lemma joined_sent hd serial v ot se wc : client_sent (joined U hd serial v ot se wc) = se.
Proof. reflexivity. Qed.

Lemma session_sequence hd w : sequenceNumber (link (in_session U hd w)) = sequenceNumber (link (prepared U w)).
Proof. unfold in_session. by generalize (prepared U w). Qed.
Lemma open_asks large serial path w : fo_OTConnectionID (connect_open large serial path w) = u32 (sequenceNumber (link w) + 1).
Proof. reflexivity. Qed.

(** The connection id the client will ask for. *)
Definition asked_OT (wc : client_world) : Z := u32 (sequenceNumber (link (prepared U wc)) + 1).

(** The answer to a forward open. *)
Lemma open_answer_frame m (w : world P) :
  handler_ok (w_h w) -> 0 <= h_context (w_h w) < 2 ^ 64 ->
  exists h i1 rest, opened_frame rand_Uint32 m w = eipHeader_bytes h ++ serializeItems [empty_item cipItem_Null; i1] /\
    eipHeader_ok h /\ hdr_Length h = blen (serializeItems [empty_item cipItem_Null; i1]) /\ hdr_Status h = 0 /\ item_wf i1 /\
    item_Data i1 = [Service.AsResponse (fo_Service m); 0; 0; 0] ++ le_bytes 4 (chosen_OT rand_Uint32 m w) ++ rest /\
    length rest = 22%nat.
Proof.
  intros Hh Hctx. set (rest := le_bytes 4 (chosen_TO rand_Uint32 m w) ++ le_bytes 2 (fo_ConnectionSerialNumber m) ++
    le_bytes 2 (fo_VendorID m) ++ le_bytes 4 (fo_OriginatorSerialNumber m) ++ le_bytes 4 (fo_OTRPI m) ++ le_bytes 4 (fo_TORPI m) ++ [0; 0]).
  assert (length rest = 22%nat) as Hr by (unfold rest; by rewrite !length_app, !length_le_bytes).
  set (i1 := Write (forwardOpenReply_bytes (ServerOpen.open_reply rand_Uint32 m w)) (empty_item cipItem_UnconnectedData)).
  assert (item_Data i1 = [Service.AsResponse (fo_Service m); 0; 0; 0] ++ le_bytes 4 (chosen_OT rand_Uint32 m w) ++ rest) as Hd by reflexivity.
  assert (blen (item_Data i1) = 30) as Hl by (rewrite Hd; unfold blen; by rewrite !length_app, length_le_bytes, Hr).
  destruct (reply_frame_ok cipCommandSendRRData (serializeItems [empty_item cipItem_Null; i1]) (w_h w)) as (H4 & H5 & H6);
    [done|done|done|rewrite length_two_items, Hl; done|].
  exists (Server.newEIPHeader cipCommandSendRRData (blen (serializeItems [empty_item cipItem_Null; i1])) (w_h w)), i1, rest.
  split; [apply frame_eq|]. split; [exact H4|]. split; [exact H6|]. split; [exact H5|].
  split; [apply item_len_ok_wf; [done|rewrite Hl; done|done]|]. by split.
Qed.

(** *** The states of the handshake *)

Section Steps.
Context (wc : client_world) (w0 : world P) (serial v rev : Z) (cm' : serverConnectionManager).
Context (Hnew : newcomer size wc) (Hw : can_write w0) (Hser : next_serial 2 (cw_connectionSerialValue wc) = Ok (serial, v)).
Context (Hsb : 0 <= serial < 2 ^ 16).

Definition the_session : Z := session_handle rand_Uint32 (prepared U wc) w0.
Definition server_session : world P := sent (register_answer rand_Uint32 (prepared U wc) w0) (registered rand_Uint32 (prepared U wc) w0).
Definition client_session : client_world := in_session U the_session wc.
Definition join_open : forwardOpen := connect_open large_size serial (connect_path wc) client_session.
Definition at_open : world P := heard (Context_ (config client_session)) [] server_session.
Definition new_connection : serverConnection := opened rand_Uint32 join_open (connect_path wc) at_open.
Definition server_connected : world P := connected_to rand_Uint32 join_open cm' at_open.

(** The messages of the client and the answers of the server. *)
Definition join_request1 : bytes := register_frame (prepared U wc).
Definition join_answer1 : bytes := register_answer rand_Uint32 (prepared U wc) w0.
Definition join_request2 : bytes := open_frame large_size join_open (connect_path wc) client_session.
Definition join_answer2 : bytes := opened_frame rand_Uint32 join_open at_open.
Definition client_joined : client_world :=
  joined U the_session serial v (conn_OT new_connection) [join_request1; join_request2] wc.
Definition join_request3 : bytes := attr_frame 4 client_joined.
Definition at_request : world P := received (Context_ (config client_joined)) (next_seq client_joined) [] server_connected.
Definition join_answer3 : bytes :=
  connected_frame (conn_TO new_connection) (attr_reply (next_seq client_joined) (le_bytes 2 rev)) at_request.
Definition server_joined : world P := sent join_answer3 at_request.
Definition client_ready_ : client_world :=
  with_firmware (rev mod 256) (answered [join_request1; join_request2; join_request3] (first_request client_joined)).

Lemma session_bound : 0 <= the_session < 2 ^ 32.
Proof.
  unfold the_session, session_handle. destruct (pr_header _ _ (prepared_ok U wc) (nc_config _ _ Hnew)) as (Hs & _).
  by destruct (_ =? 0).
Qed.

Lemma client_session_ok : config_ok client_session.
Proof.
  destruct (pr_header _ _ (prepared_ok U wc) (nc_config _ _ Hnew)) as (_ & Hc & Ho).
  split; [exact session_bound|]. split; [exact Hc|exact Ho].
Qed.

Lemma new_connection_bound : 0 <= conn_OT new_connection < 2 ^ 32.
Proof. exact (proj1 (chosen_bound rand_Uint32 join_open at_open Hrand (connect_open_ok serial the_session wc Hnew Hsb))). Qed.

Lemma client_joined_ok : config_ok client_joined.
Proof. destruct client_session_ok as (Hs & Hc & _). split; [exact Hs|]. split; [exact Hc|exact new_connection_bound]. Qed.

Lemma frame_session_ok : handler_ok (w_h at_open) /\ 0 <= h_context (w_h at_open) < 2 ^ 64.
Proof. split; [split; [exact session_bound|done]|]. apply client_session_ok. Qed.

Lemma frame_request_ok : handler_ok (w_h at_request) /\ 0 <= h_context (w_h at_request) < 2 ^ 64.
Proof. split; [split; [exact session_bound|done]|]. apply client_joined_ok. Qed.

Lemma joined_handler : c_werr (h_conn (w_h server_joined)) = None /\ handler_ok (w_h server_joined).
Proof. split; [exact Hw|]. split; [exact session_bound|done]. Qed.

Lemma joined_srv : w_srv server_joined = set_ConnMgr cm' (w_srv w0).
Proof. unfold server_joined, at_request. generalize join_answer3. intros f. reflexivity. Qed.

Lemma connected_srv : w_srv server_connected = set_ConnMgr cm' (w_srv w0).
Proof. reflexivity. Qed.

Lemma joined_in : c_in (h_conn (w_h server_joined)) = [].
Proof. unfold server_joined. generalize join_answer3. intros f. reflexivity. Qed.

Lemma ready_sent : client_sent client_ready_ = [join_request1; join_request2; join_request3].
Proof. unfold client_ready_. generalize client_joined join_request1 join_request2 join_request3. reflexivity. Qed.

Lemma connects_sent : client_sent client_joined = [join_request1; join_request2].
Proof. unfold client_joined. apply joined_sent. Qed.

Lemma ready_OT : OTNetworkConnectionID (link client_ready_) = conn_OT new_connection.
Proof. unfold client_ready_. rewrite asked_kept. unfold client_joined. apply joined_OT. Qed.

Lemma new_OT : exists i, conn_OT new_connection = (if asked_OT wc =? 0 then rand_Uint32 i else asked_OT wc).
Proof.
  assert (asked_OT wc = fo_OTConnectionID join_open) as ->.
  { unfold asked_OT, join_open, client_session. by rewrite open_asks, session_sequence. }
  unfold new_connection. generalize join_open at_open. intros m w. by eexists.
Qed.

Lemma join_served l ep p :
  add_new new_connection (ConnMgr (w_srv w0)) = (Ok l, cm') -> routed server_connected (conn_OT new_connection) new_connection ep p ->
  Attributes (w_srv w0) !! 4 = Some (VInt I16 rev) ->
  converses rand_Uint32 w0 [join_request1; join_request2; join_request3] server_joined.
Proof.
  intros Ha Hr Hat. destruct Hnew as [_ _ Hcfg _ _ [Hpm Hpl] _ _].
  apply (converses_more _ _ _ server_session); [|done|].
  { apply serve_register; [by apply (pr_header _ _ (prepared_ok U wc))|done]. }
  apply (converses_more _ _ _ server_connected); [|done|].
  { apply (serve_open rand_Uint32 large_size join_open (connect_path wc) server_session client_session l cm').
    - apply client_session_ok.
    - exact Hw.
    - by apply (connect_open_ok serial the_session wc).
    - reflexivity.
    - discriminate.
    - by apply path_words.
    - unfold connect_path. rewrite length_app. cbn [length]. lia.
    - exact Ha. }
  apply (converses_more _ _ _ server_joined); [|done|apply converses_done].
  apply (serve_attr rand_Uint32 client_joined new_connection ep p 4 (VInt I16 rev) (le_bytes 2 rev) server_connected).
  - apply client_joined_ok.
  - exact Hw.
  - exact Hr.
  - lia.
  - exact Hat.
  - reflexivity.
Qed.

Lemma join_outs : outs server_joined = outs w0 ++ [join_answer1; join_answer2; join_answer3].
Proof.
  change (outs server_joined) with (((outs w0 ++ [join_answer1]) ++ [join_answer2]) ++ [join_answer3]).
  by rewrite <- !(assoc_L (++)).
Qed.

Lemma join_request2_item :
  join_request2 = rr_frame (connect_item large_size serial (connect_path wc) client_session) client_session.
Proof. unfold join_request2, open_frame, join_open. generalize client_session. reflexivity. Qed.

Lemma join_connects :
  Connect U (dialing [Reply join_answer1; Reply join_answer2] wc) = (Ok tt, client_joined).
Proof.
  destruct Hnew as [Hst Hauto Hcfg _ [Hsz Hszb] _ _ _]. destruct frame_session_ok as [Hh Hctx].
  destruct (open_answer_frame join_open at_open Hh Hctx) as (h2 & i1 & rest & E2 & H4 & H5 & H6 & Hwf & Hd & Hr).
  destruct (reply_frame_ok cipCommandRegisterSession register_payload (w_h (registered rand_Uint32 (prepared U wc) w0)))
    as (H1' & _ & H3'); [done|exact Hh|exact Hctx|done|].
  unfold client_joined. rewrite join_request2_item.
  eapply (Connect_frames U large_size); [unfold large_size; by rewrite Hsz|apply frame_eq|exact E2|reflexivity|exact Hst|exact Hauto|rewrite Hsz; apply Hszb|exact Hser|exact H1'|exact H3'|
    exact H4|exact H5|exact H6|done|exact Hwf| |exact Hd|exact new_connection_bound|exact Hr].
  unfold join_open, connect_open. cbn [fo_Service]. by destruct large_size.
Qed.

Lemma join_asks :
  0 < rev mod 256 ->
  client_firmware U (answer join_answer3 (client_sent client_joined) client_joined) = (Ok (rev mod 256), client_ready_).
Proof.
  intros Hz. destruct frame_request_ok as [Hh Hctx]. pose proof Hnew as [_ _ _ _ _ _ Hf _].
  pose proof (pr_ioi _ _ (prepared_ok U wc)) as Ei.
  assert (forall seq, blen (attr_reply seq (le_bytes 2 rev)) = 8) as Hlen.
  { intros seq. unfold attr_reply, blen. by rewrite !length_app, !length_le_bytes. }
  unfold join_answer3. rewrite connected_frame_eq.
  destruct (reply_header_ok (attr_reply (next_seq client_joined) (le_bytes 2 rev)) (conn_TO new_connection) at_request)
    as (H1' & H2' & H3'); [exact Hh|exact Hctx|by rewrite Hlen|].
  apply (client_firmware_answered U _ (Write (le_bytes 4 (conn_TO new_connection)) (empty_item cipItem_ConnectionAddress))
    (next_seq client_joined) (Service.AsResponse CIPService_FragRead) (rev mod 256) [rev / 256 mod 256]
    [join_request1; join_request2] client_joined).
  - reflexivity.
  - change (firmware (ioi (cw_client client_joined))) with (firmware (ioi (cw_client (prepared U wc)))). by rewrite Ei.
  - exact H1'.
  - exact H3'.
  - by apply Write_wf.
  - apply Write_wf; [done|]. change (blen (attr_reply (next_seq client_joined) (le_bytes 2 rev)) < 2 ^ 16). by rewrite Hlen.
  - by apply (wrap_bound 16).
  - done.
  - apply Z.mod_pos_bound. lia.
Qed.
End Steps.

(** The client that has joined is ready for calls. *)
Lemma ready_after z se w : status w = connectionStatusConnected -> config_ok w -> ConnectionSize (link w) = size ->
  cache_sound (ioi (cw_client w)) -> 0 < z <= 20 -> client_ready size (with_firmware z (answered se (first_request w))).
Proof. intros Hs Hc Hz Hca Hr. by split; [| | |split]. Qed.

Lemma joined_kept hd serial v ot se wc : ConnectionSize (link (joined U hd serial v ot se wc)) = ConnectionSize (link (prepared U wc)) /\
  ioi (cw_client (joined U hd serial v ot se wc)) = ioi (cw_client (prepared U wc)).
Proof. unfold joined, in_session. by generalize (prepared U wc). Qed.

Lemma client_ready_ready wc w0 serial v rev : newcomer size wc -> 0 <= serial < 2 ^ 16 -> 0 < rev mod 256 <= 20 ->
  client_ready size (client_ready_ wc w0 serial v rev).
Proof.
  intros Hnew Hsb Hrev. destruct (joined_kept (the_session wc w0) serial v (conn_OT (new_connection wc w0 serial))
    [join_request1 wc; join_request2 wc w0 serial] wc) as [Es Ei].
  apply ready_after; [reflexivity|by apply client_joined_ok| | |exact Hrev].
  - unfold client_joined. by rewrite Es, (pr_size _ _ (prepared_ok U wc)), (proj1 (nc_size _ _ Hnew)).
  - unfold client_joined. rewrite Ei, (pr_ioi _ _ (prepared_ok U wc)). apply Hnew.
Qed.

(** What a handshake comes to: the three messages and their answers, and
    what they make of the client, its handler and the connection table. *)
Record handshake (wc : client_world) (w0 w3 : world P) (w1 wr : client_world) (cn : serverConnection)
    (cm' : serverConnectionManager) (r1 r2 r3 f1 f2 f3 : bytes) : Prop := {
  hs_served : converses rand_Uint32 w0 [r1; r2; r3] w3;
  hs_connects : Connect U (dialing [Reply f1; Reply f2] wc) = (Ok tt, w1);
  hs_sent : client_sent w1 = [r1; r2];
  hs_asks : exists major, client_firmware U (answer f3 (client_sent w1) w1) = (Ok major, wr);
  hs_sent3 : client_sent wr = [r1; r2; r3];
  hs_ready : client_ready size wr;
  hs_OT : OTNetworkConnectionID (link wr) = conn_OT cn;
  hs_outs : outs w3 = outs w0 ++ [f1; f2; f3];
  hs_in : c_in (h_conn (w_h w3)) = [];
  hs_handler : c_werr (h_conn (w_h w3)) = None /\ handler_ok (w_h w3);
  hs_srv : w_srv w3 = set_ConnMgr cm' (w_srv w0);
}.

Lemma handshake_ok wc w0 serial v rev cm' l ep p : newcomer size wc -> can_write w0 ->
  next_serial 2 (cw_connectionSerialValue wc) = Ok (serial, v) -> 0 <= serial < 2 ^ 16 ->
  add_new (new_connection wc w0 serial) (ConnMgr (w_srv w0)) = (Ok l, cm') ->
  routed (server_connected wc w0 serial cm') (conn_OT (new_connection wc w0 serial)) (new_connection wc w0 serial) ep p ->
  Attributes (w_srv w0) !! 4 = Some (VInt I16 rev) -> 0 < rev mod 256 <= 20 ->
  handshake wc w0 (server_joined wc w0 serial v rev cm') (client_joined wc w0 serial v) (client_ready_ wc w0 serial v rev)
    (new_connection wc w0 serial) cm' (join_request1 wc) (join_request2 wc w0 serial) (join_request3 wc w0 serial v)
    (join_answer1 wc w0) (join_answer2 wc w0 serial) (join_answer3 wc w0 serial v rev cm').
Proof.
  intros Hnew Hw Hser Hsb Ha Hr Hat Hmaj. split.
  - exact (join_served wc w0 serial v rev cm' Hnew Hw Hsb l ep p Ha Hr Hat).
  - exact (join_connects wc w0 serial v Hnew Hser Hsb).
  - exact (connects_sent wc w0 serial v).
  - exists (rev mod 256). exact (join_asks wc w0 serial v rev cm' Hnew Hsb (proj1 Hmaj)).
  - exact (ready_sent wc w0 serial v rev).
  - exact (client_ready_ready wc w0 serial v rev Hnew Hsb Hmaj).
  - exact (ready_OT wc w0 serial v rev).
  - exact (join_outs wc w0 serial v rev cm').
  - exact (joined_in wc w0 serial v rev cm').
  - exact (joined_handler wc w0 serial v rev cm' Hnew Hw).
  - exact (joined_srv wc w0 serial v rev cm').
Qed.

(** ** A client joins *)

Context `{Methods}.

(** The server is ready for the client: the id it asks for, or the one the
    server would draw, is not in use, its route leads to the endpoint, and the
    revision the server tells is one for which tags are named by paths. *)
Definition table_ok (s : system P) : Prop := cm_ok (ConnMgr (sy_srv s)) /\ keys_unique conn_OT (ConnMgr (sy_srv s)).
Record welcomes (s : system P) (wc : client_world) (ep : eloc) (p : P) : Prop := {
  wl_table : table_ok s;
  wl_fresh : forall i, cm_view conn_OT (ConnMgr (sy_srv s)) !! (if asked_OT wc =? 0 then rand_Uint32 i else asked_OT wc) = None;
  wl_route : router_Path (srv_Router (sy_srv s)) !! take 2 (connect_path wc) = Some ep;
  wl_ep : srv_eps (sy_srv s) !! ep = Some p;
  wl_revision : exists rev, Attributes (sy_srv s) !! 4 = Some (VInt I16 rev) /\ 0 < rev mod 256 <= 20;
}.

(** The client k comes over the TCP connection c: Connect sends two messages,
    firmware the third, and each is served by the handler of the connection
    before the client reads what the handler wrote. *)
Inductive net_join (n : net P) (k : nat) (c : tcp_conn) : net P -> Prop :=
  | net_join_intro r1 r2 r3 f1 f2 f3 s' h' w1 w2 major :
      run_events rand_Uint32 (Accept (inr c) :: turns k [r1; r2; r3]) (n_sys n) = (Ok tt, s') ->
      sy_handlers s' !! k = Some (true, h') -> c_out (h_conn h') = c_out c ++ [f1; f2; f3] ->
      Connect U (dialing [Reply f1; Reply f2] (n_clients n k)) = (Ok tt, w1) -> client_sent w1 = [r1; r2] ->
      client_firmware U (answer f3 (client_sent w1) w1) = (Ok major, w2) -> client_sent w2 = [r1; r2; r3] ->
      net_join n k c (set_client k w2 s' n).

(** The system once a new connection was accepted. *)
Definition accepted (c : tcp_conn) (s : system P) : system P := set_handlers (sy_handlers s ++ [(true, new_handler c)]) s.

Lemma handshake_joins n ep p ks k c w3 w1 wr cn l cm' r1 r2 r3 f1 f2 f3 :
  let w0 := world_of (new_handler c) (accepted c (n_sys n)) in
  k = length (sy_handlers (n_sys n)) -> (forall j, ks j -> linked size n ep p j) -> table_ok (n_sys n) ->
  c_in c = [] -> conn_Open cn = true -> cm_view conn_OT (ConnMgr (sy_srv (n_sys n))) !! conn_OT cn = None ->
  add_new cn (ConnMgr (sy_srv (n_sys n))) = (Ok l, cm') -> routed w3 (conn_OT cn) cn ep p ->
  handshake (n_clients n k) w0 w3 w1 wr cn cm' r1 r2 r3 f1 f2 f3 ->
  exists n', net_join n k c n' /\ (forall j, ks j \/ j = k -> linked size n' ep p j) /\ table_ok (n_sys n').
Proof.
  intros w0 Hk Hall [Hok Hu] Hin Hopen Hf Ha Hr [Hconv Hconn Hs1 (major & Hasks) Hs3 Hready Eot Houts Hin3 Hh3 Esrv].
  set (s := n_sys n) in *. set (s0 := accepted c s) in *.
  assert (sy_handlers s0 !! k = Some (true, new_handler c)) as Hk0.
  { cbn. rewrite lookup_app_r by lia. by rewrite Hk, Nat.sub_diag. }
  pose proof (run_turns rand_Uint32 k _ s0 (new_handler c) _ Hk0 Hin Hconv) as Hrun. set (s' := after_turns k w3 s0) in *.
  assert (sy_handlers s' !! k = Some (true, w_h w3)) as Hk' by (apply list_lookup_insert_eq; by eapply lookup_lt_Some).
  destruct (add_new_refines conn_OT cn (ConnMgr (sy_srv s)) Hok Hu Hopen Hf) as (l1 & cm1 & Ha1 & Hok' & Hu' & _).
  rewrite Ha in Ha1. injection Ha1 as <- <-.
  exists (set_client k wr s' n). split; [|split].
  - eapply net_join_intro; [|exact Hk'|exact Houts|exact Hconn|exact Hs1|exact Hasks|exact Hs3].
    cbn [run_events]. rewrite (bind_Ok (handle rand_Uint32 (Accept (inr c))) _ s tt s0 eq_refl). exact Hrun.
  - intros j Hj. unfold linked. cbn [set_client n_clients n_sys]. destruct (decide (j = k)) as [->|Hne].
    + split; [exact Hready|]. exists (w_h w3), cn. split; [|exact Hin3].
      split; [exact Hk'|split; apply Hready|exact Hh3|].
      rewrite Eot. exact (routed_srv w3 (world_of (w_h w3) s') _ _ _ _ eq_refl Hr).
    + destruct Hj as [Hj|Hj]; [|done]. destruct (Hall j Hj) as [Hrj (hj & cj & [Hkj Hcj Hwj Hrj2] & Hinj)]. split; [done|].
      exists hj, cj. split; [|done]. split; [|done|done|].
      * cbn. rewrite list_lookup_insert_ne by done. by apply lookup_app_l_Some.
      * exact (routed_add cn cj l cm' ep p _ (world_of hj s) (world_of hj s') Hok Hu Hopen Hf Ha Esrv Hrj2).
  - unfold table_ok. change (sy_srv (n_sys (set_client k wr s' n))) with (w_srv w3). rewrite Esrv. by split.
Qed.

Lemma net_join_linked n ep p ks k c :
  k = length (sy_handlers (n_sys n)) -> (forall j, ks j -> linked size n ep p j) ->
  newcomer size (n_clients n k) -> welcomes (n_sys n) (n_clients n k) ep p -> c_in c = [] -> c_werr c = None ->
  exists n', net_join n k c n' /\ (forall j, ks j \/ j = k -> linked size n' ep p j) /\ table_ok (n_sys n').
Proof.
  intros Hk Hall Hnew [[Hok Hu] Hfresh Hroute Hep (rev & Hrev & Hmaj)] Hin Hwr.
  set (w0 := world_of (new_handler c) (accepted c (n_sys n))). set (wc := n_clients n k) in *.
  destruct (next_serial_Ok (cw_connectionSerialValue wc)) as (serial & v & Hser & Hsb). assert (0 <= serial < 2 ^ 16) as Hsb' by lia.
  assert (cm_view conn_OT (ConnMgr (w_srv w0)) !! conn_OT (new_connection wc w0 serial) = None) as Hf.
  { destruct (new_OT wc w0 serial) as [i ->]. apply Hfresh. }
  destruct (add_new_refines conn_OT (new_connection wc w0 serial) (ConnMgr (w_srv w0)) Hok Hu eq_refl Hf) as (l & cm' & Ha & _).
  pose proof (routed_new (new_connection wc w0 serial) l cm' ep p w0 _ Hok Hu eq_refl Hf Ha (connected_srv wc w0 serial cm') Hroute Hep) as Hr.
  pose proof (handshake_ok wc w0 serial v rev cm' l ep p Hnew Hwr Hser Hsb' Ha Hr Hrev Hmaj) as Hhs.
  apply (routed_srv _ (server_joined wc w0 serial v rev cm')) in Hr; [|by rewrite connected_srv, joined_srv].
  exact (handshake_joins n ep p ks k c _ _ _ (new_connection wc w0 serial) l cm' _ _ _ _ _ _ Hk Hall (conj Hok Hu) Hin eq_refl Hf Ha Hr Hhs).
Qed.
End Join.

(** C2. A client can join at any time: on a server whose other clients are
    linked to an endpoint, a client of NewClient connects over a new TCP
    connection.  The two messages of Connect and the first request for the
    firmware revision are each served and answered so that Connect and the
    request succeed; the newcomer is then linked to the endpoint of its route
    and all others still are, so that whatever all of them call afterwards
    refines the endpoint's own store. *)
Theorem client_joins {P} `{EndpointLaws P} `{Methods} (rand_Uint32 U : nat -> Z) size n ep p (ks : nat -> Prop) k c cs rs p' :
  (forall i, 0 <= rand_Uint32 i < 2 ^ 32) -> size <= 2 ^ 15 ->
  k = length (sy_handlers (n_sys n)) -> (forall j, ks j -> linked size n ep p j) ->
  newcomer size (n_clients n k) -> welcomes rand_Uint32 U (n_sys n) (n_clients n k) ep p -> c_in c = [] -> c_werr c = None ->
  Forall (fun c => ks (fst c) \/ fst c = k) cs -> store_run size p cs rs p' ->
  exists n1 n2, net_join rand_Uint32 U n k c n1 /\ net_run rand_Uint32 U n1 cs rs n2 /\
    forall j, ks j \/ j = k -> linked size n2 ep p' j.
Proof.
  intros Hrand Hsize Hk Hall Hnew Hwel Hin Hwr Hcs Hrun.
  destruct (net_join_linked rand_Uint32 U size Hrand n ep p ks k c Hk Hall Hnew Hwel Hin Hwr) as (n1 & Hj & Hl & _).
  destruct (net_run_refines rand_Uint32 U size _ ep p cs rs p' Hsize Hrun n1 Hl Hcs) as (n2 & Hr & Hl2). eauto.
Qed.

(** ** Witness *)

(** A client of NewClient, with the connection size of the others, joins the
    two clients of the server. *)
Definition third_client : client_world := upd_link (set_ConnectionSize 508) (new_world []).
Definition three_client_net : net MapTagProvider :=
  {| n_sys := shared_server; n_clients := fun k => if decide (k = 2%nat) then third_client else n_clients two_client_net k |}.

Lemma third_newcomer : newcomer 508 third_client.
Proof.
  split; [reflexivity|reflexivity|zbound|split; zbound|split; [reflexivity|zbound]|split; vm_compute; [reflexivity|repeat constructor]|reflexivity|].
  intros path i _ _ E. cbn in E. by rewrite lookup_empty in E.
Qed.

Lemma shared_welcomes : welcomes (fun _ => 1) (fun _ => 0) shared_server third_client 1%positive write_provider.
Proof.
  split.
  - split; [|vm_compute; repeat constructor; set_solver].
    split; [vm_compute; repeat constructor; set_solver|].
    intros l Hl. vm_compute in Hl. apply elem_of_cons in Hl as [->|Hl]; [by eexists|].
    apply list_elem_of_singleton in Hl as ->. by eexists.
  - intros i. reflexivity.
  - reflexivity.
  - reflexivity.
  - exists 0x1412. split; [reflexivity|zbound].
Qed.

Lemma two_linked_three k : (k < 2)%nat -> linked 508 three_client_net 1%positive write_provider k.
Proof.
  intros Hk. pose proof (two_linked k Hk) as Hl. unfold linked in *. cbn [three_client_net n_clients n_sys].
  rewrite decide_False by lia. exact Hl.
Qed.

(** The newcomer writes x and n, the second client reads and writes x, and the
    newcomer reads both. *)
Lemma client_joins_witness :
  exists n1 n2, net_join (fun _ => 1) (fun _ => 0) three_client_net 2 (client_conn []) n1 /\
    net_run (H1:=no_methods) (fun _ => 1) (fun _ => 0) n1 (sample_calls 2 1) sample_outcomes n2 /\
    forall j, (j < 2)%nat \/ j = 2%nat -> linked 508 n2 1%positive (stored_x_n 4 (-3)) j.
Proof.
  apply (client_joins (H1:=no_methods) (fun _ => 1) (fun _ => 0) 508 three_client_net 1%positive write_provider (fun j => (j < 2)%nat)).
  - intros i. zbound.
  - zbound.
  - reflexivity.
  - exact two_linked_three.
  - exact third_newcomer.
  - exact shared_welcomes.
  - reflexivity.
  - reflexivity.
  - repeat apply Forall_cons_2; try apply Forall_nil_2; simpl; lia.
  - apply sample_store_run.
Defined.
